(* ===== verification/_CoqProject ===== *)
-Q . S2P
Prelude.v
Client.v
Timers.v
Crc.v
Flash.v
RawFlash.v
Boot.v
BootSpec.v
Board.v
BootProps.v
Ota.v
OtaSpec.v
Update.v
UpdatePower.v
Dfu.v
DfuSpec.v
DfuRun.v
DfuProps.v
DfuCli.v
DfuCliSpec.v
DfuCliAny.v
DfuLink.v
DfuLinkSpec.v
DfuLinkProps.v
Wl.v
WlSpec.v
WlDisk.v
WlOps.v
WlMount.v
WlProps.v
RingBuf.v
SList.v
Mem.v
MemHeap.v
MemHeapSpec.v
MemHeapApi.v
MemHeapLife.v
MemHeapProps.v
Hashmap.v
HashmapSpec.v
HashmapProps.v
DList.v
Queue.v
QueueSpec.v
QueueProps.v
Eloop.v
EloopSpec.v
EloopProps.v
EloopTimers.v
WifiMgmt.v
WifiMgmtSpec.v
WifiLink.v
WifiMgmtProps.v
WifiApi.v
WifiApiSpec.v
WifiApiProps.v
Courier.v
CourierSpec.v
CourierProps.v
CourierAny.v
Tools.v
ToolsProps.v
NvdsTypes.v
Nvds.v
NvdsPage.v
NvdsEntry.v
NvdsStore.v
NvdsPut.v
NvdsGc.v
NvdsFrame.v
NvdsMap.v
NvdsApi.v
NvdsLoad.v
NvdsMount.v
NvdsSpec.v
NvdsStores.v
NvdsStoresSpec.v
NvdsStoresProps.v
NvdsCrash.v
