(* ===== verification/Prelude.v ===== *)
(** * The firmware of a Wi-Fi and Bluetooth module, verified in part

    The repository is the TuyaOpen platform for the GigaDevice GD32VW55x: under
    [src/gd32_os/] the chip's SDK (boot loader, drivers, flash storage, Wi-Fi and Bluetooth
    managers, and many third-party stacks), under [src/tuyaos/tuyaos_adapter/] the layer
    that gives the Tuya runtime its memory, flash, update and utility calls. This library
    models the parts of it that keep state of their own and proves what their callers rely
    on: the key-value store in flash, the flash driver below it, the wear levelling of the file
    system, the firmware updates and the boot loader, the Wi-Fi manager's event loop and state machines, the set-up of the Wi-Fi
    over Bluetooth, the memory heap, and the containers and tools of both utility directories.

    ** How the parts interact

    The boot loader ([Boot]) chooses one of two images by status flags and maps it to the
    address it runs at. The firmware update ([Ota]) writes the other image through the flash
    driver ([RawFlash]) and sets those flags; so does the update over Bluetooth ([Dfu]), whose
    image the same loader boots; the device that sends that image is the other end ([DfuCli]),
    and [DfuLink] runs the two against each other. The key-value store ([Nvds]) lives in a
    window of the same flash, above the images, and sees it through the interface [Flash];
    [RawFlash] proves that the driver implements that interface, over a class [Rom] of what
    the mask ROM and the flash controller do. The wear levelling ([Wl]) gives the file system
    its sectors on a part of the flash it sees through the same interface. The store puts CRCs ([Crc]) on its records and
    keeps its pages and namespaces in the lists of [SList]. The queue ([Queue]) and the
    Wi-Fi manager's event loop ([Eloop]) keep items and timers in the lists of [DList]. The
    state machines of the Wi-Fi manager ([WifiMgmt]) run in the handlers of that loop and
    know it as the interface [Timers], which [EloopTimers] proves the loop to keep; the
    driver, the supplicant and the network stack are the class [Driver]. The blue courier ([Courier]) takes the
    commands of a phone and calls the manager; what it calls is the class [Courier.Env]. The hash map
    ([Hashmap]) has chains of its own and a third checksum, compared with the bitwise
    division of [Crc]. The memory heap ([MemHeap]) runs on the byte memory [Mem]. [Client] is the common form of the contracts: a client
    chooses each call by what it observed before, and a component that keeps its
    representation through every allowed call serves whole runs of every obedient client.

    ** Files

    [Prelude]: tactics and hint databases, fixed-width integers, byte lists, little-endian
    fields, C strings, the state-and-error monad.
    [Client]: clients and the lifting of one-step simulations to runs.
    [Crc]: [util/src/crc.c] of the MSDK. [Flash]: the interface of a NOR flash, its laws and
    a simulated device. [RawFlash]: [plf/src/raw_flash/raw_flash_api.c].

    [Boot], [BootSpec], [BootProps]: [MBL/mainboot/mbl.c] and [mbl_image_validate.c]; the
    abstract loader on two status bytes, the laws of the ROM ([SysRomLaws]), the refinement;
    termination and safety. [Ota], [OtaSpec], [Update]: [tkl_ota.c]; the image in
    flash after any delivery; the update, reset and boot together. [UpdatePower]: updates on a
    chip that dies at any point, between calls or inside one. [Dfu], [DfuSpec], [DfuRun],
    [DfuProps]: [ble/app/app_dfu_srv.c] and [ble/profile/ota/ble_ota_srv.c]; an invariant under
    any peer; a whole update step by step; the theorems. [DfuCli], [DfuCliSpec], [DfuCliAny]:
    [ble/app/app_dfu_cli.c] and [ble/profile/ota/ble_ota_cli.c], the sending device; its steps;
    its invariant under any server. [DfuLink], [DfuLinkSpec], [DfuLinkProps]: the two devices
    with what is on its way between them, as moves in any order; the phases of an update and a
    measure; the theorems. [Board]: a concrete chip
    with a status area for the closed examples.

    [Wl]: [FatFS/port/wear_levelling_flash.c] and the sector functions [fs_flash_*] of
    [fatfs.c]. [WlSpec]: a device whose failing calls may leave anything in the
    range they are for, and rules for what a function leaves, in the flash and the RAM, when it
    returns and when a call fails in it. [WlDisk]: the places of the
    sectors and of the two copies of the state, moving a page. [WlOps]: erasing, writing,
    reading. [WlMount]: what mounting makes of a flash. [WlProps]: the theorems.

    [Eloop], [EloopSpec], [EloopProps]: [wifi_manager/wifi_eloop.c]: timers, events and the
    loop; the list of timers as a sequence ordered by time; the calendar, the loop, what goes
    wrong at 2^31 and 2^32 milliseconds. [Timers], [EloopTimers]: the loop's timers as its
    clients see them. [WifiMgmt]: [wifi_manager/wifi_management.c], the machines of a
    station, an access point and a monitor, one definition per state and per event handler
    ([step_*], [enter_*]), with [wifi_vif_reset] of [wifi_vif.c]. [WifiMgmtSpec]: its
    functions one by one. [WifiLink]: the link of a station, a transition system, and the
    simulation. [WifiMgmtProps]: what its clients rely on. [WifiApi]: the functions of the
    same file that other tasks call and block in ([wifi_management_*]), against schedules of
    what the manager and the driver do between any two accesses of the caller; [WifiApiSpec]:
    reasoning about such callers; [WifiApiProps]: what they are told.

    [Courier]: [ble/app/app_blue_courier_link.c] and [app_blue_courier_prot.c], the link that
    cuts messages into packets and the commands. [CourierSpec]: the packets of a message, and
    what sending and receiving do. [CourierProps]: the two ends together, and the packets that
    do harm. [CourierAny]: any packets, down to the commands.

    [RingBuf]: [tuya_ringbuf.c]. [SList]: [util/src/slist.c]. [DList]: [tuya_list.c] and
    [util/src/dlist.c]. [Queue], [QueueSpec], [QueueProps]: [tuya_queue.c]. [Hashmap],
    [HashmapSpec], [HashmapProps]: [tuya_hashmap.c] and [tuya_hlist.h]. [Tools],
    [ToolsProps]: [tuya_tools.c]. [Mem], [MemHeap], [MemHeapSpec], [MemHeapApi],
    [MemHeapLife], [MemHeapProps]: [tuya_mem_heap.c].

    [NvdsTypes], [Nvds]: [plf/src/nvds/nvds_type.h] and [nvds_flash.c]: the format and the
    operations. [NvdsPage], [NvdsEntry], [NvdsStore], [NvdsPut], [NvdsGc], [NvdsFrame],
    [NvdsMap], [NvdsApi]: one page, one entry, the log, appending, garbage collection, what
    stays, the map by namespace index, the map by namespace name. [NvdsLoad], [NvdsMount]:
    reading pages back and mounting. [NvdsSpec]: the theorems on the exported calls.
    [NvdsCrash]: what a loss of power inside a write does. [NvdsStores], [NvdsStoresSpec],
    [NvdsStoresProps]: opening, closing and cleaning stores, in one list and under one mutex;
    windows of one flash; the stores together.

    ** What the theorems show

    Key-value store: from a flash without pages every sequence of puts, gets, deletes and
    restarts acts as on a map, through garbage collection and the coming and going of
    namespaces; each call by itself, errors included; a restart over the flash of a running
    store finds the same map; with two free pages a put does not run out of space; and, run on
    a small device, the two windows in which a loss of power loses what was stored. Several stores on one flash
    are independent maps, however they are opened, closed, cleaned and restarted; but cleaning
    the internal store loses the others from the list, and a failed opening stops all.

    Update and boot: the loader resets at most twice, runs only what its check accepted, and
    maps the image it chose; an update delivered in any chunks writes the image, and only
    that; an accepted image is what runs after the reset, a refused one is left for the old
    image after one more reset, and no loss of power, inside a flash operation of a packet or
    between two flag updates, leaves the device without an image to run or touches the
    running one. Two sizes of images the update fails on are theorems too. Over
    Bluetooth: an update ends in the reset and its image is what then runs; whatever a peer
    sends, the device resets only for bytes whose digest was sent, and only an empty command
    makes it read outside its buffers; but a peer can erase both images, and a wrong digest frees a block twice. Two
    devices of this firmware bring such an update to its end in every order of deliveries and
    reports; but an image whose last page is shorter than a packet is never verified.

    Flash driver: it is a NOR flash to its clients, reads reach the physical bytes from
    either image, the word-wise write is the plain one while the chip reports no error.

    Wear levelling: it is an array of sectors to the file system, from a new flash on and
    across mounts; a failure of the flash in a write, wherever it stops and whatever it leaves
    in the range of the call that failed, costs no other sector except at the end of a round,
    where a restart can shift all of them; erasing one sector wears all pages; and
    the number of the sector past the end stands for the first.

    Event loop: while the clock is below 2^31 milliseconds its timers are a calendar, the
    loop runs each of them in time, events reach the handlers registered for them, and no
    request reaches outside its memory but destroying it twice, which frees the handlers twice;
    two theorems say what happens beyond that time.

    Wi-Fi manager: every message and timer of a station is a step of its link (but [EVENT_INIT]
    and the change of mode, which set the machine up anew), none fails or leaves the tables, and each timer is pending only where its callback is meant to run; a
    caller blocked on a connection is answered before the machine gives up, unless the
    attempt is dropped; retries are bounded; a connection that nobody hinders is made and
    announced; a scan request answers somebody else's connect. What a blocked connect returns
    is an answer the manager gave after the call began, under every schedule; a request to
    connect is followed through each of its ways; and a monitor that is started at once is
    reported as failed.

    Blue courier: what one end sends the other receives, whole and once, so that the phone's
    credentials reach the Wi-Fi manager; with packets that tell the truth about their lengths
    the module returns, stays within its memory and goes on serving, but for three kinds of
    messages, which are named; and what these, and packets that do not, make it do.

    Memory heap: clients that use what they were given see disjoint buffers that keep their
    bytes; freeing undoes allocating; free blocks coalesce; allocation fails only when no
    block fits; and the calls on which it goes wrong.

    Containers and tools: the ring buffer is a bounded FIFO, the list a sequence, the queue
    a bounded deque, the hash map a multimap (while only keys and data that are bound to each
    other are removed); the
    checksums are the polynomial divisions; sorting sorts; conversions read back.

    ** Conventions

    Integers are [Z], with [wrap w] (written [u8], [u16], [u32]) where the code's types
    reduce. Bytes are [Z] in lists. Pointers are addresses into explicit stores, 0 is
    [NULL]; an access outside a store has no value ([None], or the error of the monad), so
    a theorem that a call returns says that it stays in bounds. Loops that are not
    structural run on fuel: a list walk gets one unit more than the store has nodes, the
    heap walks one more than its blocks, the digit loops 33 turns, the erase loop two more
    than the flash has sectors; the theorems that a call returns show that this is enough.
    Code outside the repository is a class or a section variable with named laws: the mask
    ROM, the flash controller, the allocator, the digest library, the Bluetooth host, and the
    mutexes, which make a call one step.
    Flash contents are those of the build's [config_gdm32.h].

    ** Bounds of the theorems

    The theorems on the store are for a flash that does not report errors and for values of
    at most 256 bytes, though the model also has the fragmented values and the error paths.
    The theorems on the wear levelling are for pages that are the sectors of the file system,
    as it configures them, and for a CRC unit that does not give the erased word for erased
    words ([crc_laws]). That on a failure needs that, at the end of a round, what is in place of
    the first copy of the state does not pass its CRC unless it is the new copy ([in_step]):
    after an interrupted erase or write that is a matter of chance, before it begins it is not so,
    and [wl_window_rotates] says what happens.
    The theorems on the whole update are for a chip that does not fail on the image area, for images
    from 512 bytes that are not a multiple of 512, and for versions not below the ROM's counter; that on
    losses of power is for any chip whose operations stay within their range ([Contained]), and takes each
    flag update as one step. Those on
    any peer of the update over Bluetooth are for any chip and for at most 2^19 events, after
    which a counter of 32 bits may have wrapped; those on whole updates are for devices that
    have memory for the buffer. The theorem on two devices is for a connection that loses
    nothing and timers that do not expire, for an image that leaves a sector of its slot free
    and whose last page is full or longer than a packet; its bound of 8 steps to a byte is not
    tight.
    The theorems on the Wi-Fi manager follow one interface, to which no message but the
    first changes the mode, and let the driver and the supplicant do anything but write the
    two fields of a station that only the manager writes ([DriverLaws]).
    The theorems on the blue courier are for a module that has memory for its packets.
    The demonstrations of [NvdsCrash] run on one small device; there is no theorem on a loss of
    power inside a put for every store.

    ** Not modelled

    In the modelled files: printing and dumping, the AES key derivation of the store (not
    compiled in), register programming around the flash (vector table, locks), the
    loader's clock and serial set-up. Other parts of the repository: the third-party stacks
    (lwIP, mbedTLS, FreeRTOS, RT-Thread, wpa_supplicant, FatFS, cJSON, the cloud SDKs, the
    Bluetooth mesh stack), which are not this program's own logic; the chip's peripheral
    library and drivers, which are register writes; of the Wi-Fi manager, WPS and IPv6, which
    the configuration leaves out, the EAP-TLS variant of connect, and the netlink,
    supplicant and interface glue; the rest of the Bluetooth manager and the shells, whose behaviour is
    mostly that of binary libraries; the [tkl_*] wrappers that
    pass calls on; the examples. *)
From Stdlib Require Export ZArith Lia.
From stdpp Require Export base numbers gmap.
From stdpp Require Export list.

Open Scope Z_scope.

(** ** Tactics *)

Create HintDb fw.
Create Rewrite HintDb zlen.

(** Turn boolean comparisons of the code into propositions, wherever they are. *)
Ltac bool_to_prop :=
  repeat match goal with
  | H : _ && _ = true |- _ => apply andb_true_iff in H; destruct H
  | H : _ || _ = false |- _ => apply orb_false_iff in H; destruct H
  | H : negb _ = true |- _ => apply negb_true_iff in H
  | H : negb _ = false |- _ => apply negb_false_iff in H
  | H : (_ =? _) = true |- _ => apply Z.eqb_eq in H
  | H : (_ =? _) = false |- _ => apply Z.eqb_neq in H
  | H : (_ <? _) = true |- _ => apply Z.ltb_lt in H
  | H : (_ <? _) = false |- _ => apply Z.ltb_ge in H
  | H : (_ <=? _) = true |- _ => apply Z.leb_le in H
  | H : (_ <=? _) = false |- _ => apply Z.leb_gt in H
  end.

(** Destruct a boolean, one conjunct or disjunct at a time. *)
Ltac case_bool b :=
  lazymatch b with
  | ?x && ?y => case_bool x
  | ?x || ?y => case_bool x
  | negb ?x => case_bool x
  | _ => let E := fresh "E" in destruct b eqn:E
  end.

(** Case analysis on an innermost test of the goal, or of a hypothesis. *)
Ltac if_split :=
  match goal with
  | |- context [if ?b then _ else _] =>
      lazymatch b with context [if _ then _ else _] => fail | _ => idtac end;
      case_bool b; cbn [andb orb negb]; bool_to_prop
  end.

Ltac if_split_in H :=
  match type of H with
  | context [if ?b then _ else _] =>
      lazymatch b with context [if _ then _ else _] => fail | _ => idtac end;
      case_bool b; cbn [andb orb negb] in H; bool_to_prop
  end.

(** Case analysis on a match of a hypothesis. *)
Ltac match_split_in H :=
  match type of H with
  | context [match ?x with _ => _ end] =>
      lazymatch x with context [match _ with _ => _ end] => fail | _ => idtac end;
      let E := fresh "E" in destruct x eqn:E
  end.

(** Membership in concrete lists. *)
Ltac mem :=
  first
    [ solve [rewrite ?not_elem_of_cons, ?not_elem_of_app, ?elem_of_cons, ?elem_of_app, ?elem_of_nil in *;
             intuition congruence]
    | set_solver ].

(** ** Machine integers *)

Definition wrap (w z : Z) : Z := z mod 2 ^ w.
Abbreviation u8 := (wrap 8).
Abbreviation u16 := (wrap 16).
Abbreviation u32 := (wrap 32).

Definition in_w (w z : Z) : Prop := 0 <= z < 2 ^ w.

(** The signed reading of a [w]-bit pattern. *)
Definition signed (w z : Z) : Z :=
  let m := wrap w z in if m <? 2 ^ (w - 1) then m else m - 2 ^ w.

Lemma wrap_small w z : 0 <= z < 2 ^ w -> wrap w z = z.
Proof. unfold wrap. apply Z.mod_small. Qed.

Lemma wrap_range w z : 0 <= w -> 0 <= wrap w z < 2 ^ w.
Proof. intros. unfold wrap. apply Z.mod_pos_bound. lia. Qed.

Lemma wrap_wrap w z : 0 <= w -> wrap w (wrap w z) = wrap w z.
Proof. intros. apply wrap_small, wrap_range; lia. Qed.

Lemma wrap_land w z : 0 <= w -> wrap w z = Z.land z (Z.ones w).
Proof. intros. unfold wrap. by rewrite Z.land_ones. Qed.

Lemma wrap_testbit w z i :
  0 <= w -> 0 <= i -> Z.testbit (wrap w z) i = (i <? w) && Z.testbit z i.
Proof.
  intros. unfold wrap. destruct (Z.ltb_spec i w).
  - by rewrite Z.mod_pow2_bits_low by lia.
  - by rewrite Z.mod_pow2_bits_high by lia.
Qed.

Lemma u8_range z : 0 <= u8 z < 256.
Proof. apply (wrap_range 8). lia. Qed.
Lemma u16_range z : 0 <= u16 z < 65536.
Proof. apply (wrap_range 16). lia. Qed.
Lemma u32_range z : 0 <= u32 z < 4294967296.
Proof. apply (wrap_range 32). lia. Qed.

Lemma wrap8_small z : 0 <= z < 256 -> u8 z = z.
Proof. intros. apply wrap_small. lia. Qed.
Lemma wrap16_small z : 0 <= z < 65536 -> u16 z = z.
Proof. intros. apply wrap_small. lia. Qed.
Lemma wrap32_small z : 0 <= z < 4294967296 -> u32 z = z.
Proof. intros. apply wrap_small. lia. Qed.

Lemma wrap_add_idemp_l w a b : 0 <= w -> wrap w (wrap w a + b) = wrap w (a + b).
Proof. intros. unfold wrap. apply Z.add_mod_idemp_l. lia. Qed.
Lemma wrap_add_idemp_r w a b : 0 <= w -> wrap w (a + wrap w b) = wrap w (a + b).
Proof. intros. unfold wrap. apply Z.add_mod_idemp_r. lia. Qed.
Lemma wrap_mul_idemp_l w a b : 0 <= w -> wrap w (wrap w a * b) = wrap w (a * b).
Proof. intros. unfold wrap. apply Z.mul_mod_idemp_l. lia. Qed.

(** Remove the wraps whose argument is in range, innermost first. *)
Ltac unwrap :=
  repeat match goal with
  | |- context [wrap ?w ?x] =>
      lazymatch x with context [wrap _ _] => fail | _ => idtac end;
      let H := fresh in
      assert (wrap w x = x) as H by (apply wrap_small; cbn; lia);
      rewrite !H; clear H
  end.

(** A bit pattern is determined by its bits below its width. *)
Lemma bits_inj_w w a b :
  0 <= w -> 0 <= a < 2 ^ w -> 0 <= b < 2 ^ w ->
  (forall i, 0 <= i < w -> Z.testbit a i = Z.testbit b i) -> a = b.
Proof.
  intros Hw Ha Hb H. rewrite <- (wrap_small w a), <- (wrap_small w b) by done.
  apply Z.bits_inj'. intros i Hi. rewrite !wrap_testbit by lia.
  destruct (Z.ltb_spec i w); [|done]. rewrite H by lia. done.
Qed.

Lemma testbit_above w a i : 0 <= w -> 0 <= a < 2 ^ w -> w <= i -> Z.testbit a i = false.
Proof.
  intros Hw Ha Hi. rewrite <- (wrap_small w a) by done.
  rewrite wrap_testbit by lia. destruct (Z.ltb_spec i w); [lia | done].
Qed.

Lemma lxor_range w a b : 0 <= w -> 0 <= a < 2 ^ w -> 0 <= b < 2 ^ w -> 0 <= Z.lxor a b < 2 ^ w.
Proof.
  intros Hw Ha Hb.
  assert (Z.lxor a b = wrap w (Z.lxor a b)) as ->; [|by apply wrap_range].
  apply Z.bits_inj'. intros i Hi. rewrite wrap_testbit, Z.lxor_spec by lia.
  destruct (Z.ltb_spec i w); [done|].
  by rewrite !(testbit_above w) by lia.
Qed.

Lemma lor_range w a b : 0 <= w -> 0 <= a < 2 ^ w -> 0 <= b < 2 ^ w -> 0 <= Z.lor a b < 2 ^ w.
Proof.
  intros Hw Ha Hb.
  assert (Z.lor a b = wrap w (Z.lor a b)) as ->; [|by apply wrap_range].
  apply Z.bits_inj'. intros i Hi. rewrite wrap_testbit, Z.lor_spec by lia.
  destruct (Z.ltb_spec i w); [done|].
  by rewrite !(testbit_above w) by lia.
Qed.

Lemma land_range w a b : 0 <= w -> 0 <= a < 2 ^ w -> 0 <= Z.land a b < 2 ^ w.
Proof.
  intros Hw Ha.
  assert (Z.land a b = wrap w (Z.land a b)) as ->; [|by apply wrap_range].
  apply Z.bits_inj'. intros i Hi. rewrite wrap_testbit, Z.land_spec by lia.
  destruct (Z.ltb_spec i w); [done|].
  by rewrite (testbit_above w a) by lia.
Qed.

Lemma shiftr_range x n k :
  0 <= k -> 0 <= n -> 0 <= x < 2 ^ (n + k) -> 0 <= Z.shiftr x k < 2 ^ n.
Proof.
  intros Hk Hn Hx. rewrite Z.shiftr_div_pow2 by lia. rewrite Z.pow_add_r in Hx by lia.
  pose proof (Z.pow_pos_nonneg 2 k ltac:(lia) Hk).
  split; [apply Z.div_pos | apply Z.div_lt_upper_bound]; lia.
Qed.

(** A bounded check by computation. *)
Lemma seqZ_check (f : Z -> bool) n i :
  forallb f (seqZ 0 n) = true -> 0 <= i < n -> f i = true.
Proof.
  rewrite forallb_forall. intros H Hi. apply H. apply list_elem_of_In, elem_of_seqZ. lia.
Qed.

(** Distinct bit ranges: [lor] of a shifted high part and a low part is their sum. *)
Lemma lor_shift_add a b k : 0 <= k -> 0 <= b < 2 ^ k -> Z.lor (Z.shiftl a k) b = a * 2 ^ k + b.
Proof.
  intros Hk Hb. rewrite <- Z.shiftl_mul_pow2 by done.
  rewrite <- Z.lxor_lor.
  - rewrite <- Z.add_nocarry_lxor; [done|].
    apply Z.bits_inj'. intros i Hi. rewrite Z.land_spec, Z.bits_0, Z.shiftl_spec by lia.
    destruct (Z.ltb_spec i k); [by rewrite Z.testbit_neg_r by lia|].
    by rewrite (testbit_above k b), andb_false_r by lia.
  - apply Z.bits_inj'. intros i Hi. rewrite Z.land_spec, Z.bits_0, Z.shiftl_spec by lia.
    destruct (Z.ltb_spec i k); [by rewrite Z.testbit_neg_r by lia|].
    by rewrite (testbit_above k b), andb_false_r by lia.
Qed.

(** ** Byte strings and buffers

    A C buffer of bytes is a [list Z]; offsets and lengths are [Z], as the
    source's [uint32_t] and [int]. *)

Definition zlen {A} (l : list A) : Z := Z.of_nat (length l).

(** [l[i]] for an index in range; 0 outside, where the source has no defined value. *)
Definition nthb (l : list Z) (i : Z) : Z := nth (Z.to_nat i) l 0.

(** The [n] elements from offset [off]. *)
Definition slice {A} (off n : Z) (l : list A) : list A :=
  take (Z.to_nat n) (drop (Z.to_nat off) l).

(** [memcpy(l + off, d, length d)]. *)
Definition splice {A} (off : Z) (d l : list A) : list A :=
  take (Z.to_nat off) l ++ d ++ drop (Z.to_nat off + length d) l.

(** [l[i] = v]. *)
Definition setb (i v : Z) (l : list Z) : list Z := <[Z.to_nat i := v]> l.

Definition bytes (l : list Z) : Prop := Forall (fun b => 0 <= b < 256) l.

Lemma zlen_nil {A} : zlen (@nil A) = 0.
Proof. done. Qed.
Lemma zlen_cons {A} (x : A) l : zlen (x :: l) = 1 + zlen l.
Proof. unfold zlen. simpl. lia. Qed.
Lemma zlen_app {A} (l k : list A) : zlen (l ++ k) = zlen l + zlen k.
Proof. unfold zlen. rewrite length_app. lia. Qed.
Lemma zlen_singleton {A} (x : A) : zlen [x] = 1.
Proof. done. Qed.
Lemma zlen_nonneg {A} (l : list A) : 0 <= zlen l.
Proof. unfold zlen. lia. Qed.
Lemma zlen_setb i v l : zlen (setb i v l) = zlen l.
Proof. unfold zlen, setb. by rewrite length_insert. Qed.
Lemma zlen_map {A B} (f : A -> B) l : zlen (map f l) = zlen l.
Proof. unfold zlen. by rewrite length_map. Qed.
Lemma zlen_replicate {A} n (x : A) : 0 <= n -> zlen (replicate (Z.to_nat n) x) = n.
Proof. intros. unfold zlen. rewrite length_replicate. lia. Qed.

Lemma zlen_drop {A} n (l : list A) : 0 <= n <= zlen l -> zlen (drop (Z.to_nat n) l) = zlen l - n.
Proof. unfold zlen. intros. rewrite length_drop. lia. Qed.

Lemma zlen_slice {A} off n (l : list A) :
  0 <= off -> 0 <= n -> off + n <= zlen l -> zlen (slice off n l) = n.
Proof. unfold zlen, slice. intros. rewrite length_take, length_drop. lia. Qed.

Lemma zlen_splice {A} off (d l : list A) :
  0 <= off -> off + zlen d <= zlen l -> zlen (splice off d l) = zlen l.
Proof.
  unfold zlen, splice. intros. rewrite !length_app, length_take, length_drop. lia.
Qed.

Lemma nthb_app_l l k i : 0 <= i < zlen l -> nthb (l ++ k) i = nthb l i.
Proof. unfold nthb, zlen. intros. rewrite app_nth1 by lia. done. Qed.
Lemma nthb_app_r l k i : zlen l <= i -> nthb (l ++ k) i = nthb k (i - zlen l).
Proof.
  unfold nthb, zlen. intros. rewrite app_nth2 by lia. f_equal. lia.
Qed.

Lemma nth_lookup_0 (l : list Z) n : nth n l 0 = default 0 (l !! n).
Proof. revert n. induction l as [|x l IH]; intros [|n]; simpl; auto. Qed.

Lemma nthb_lookup l i : 0 <= i < zlen l -> l !! Z.to_nat i = Some (nthb l i).
Proof.
  unfold nthb, zlen. intros. rewrite nth_lookup_0.
  destruct (lookup_lt_is_Some_2 l (Z.to_nat i)) as [x Hx]; [lia|]. by rewrite Hx.
Qed.

Lemma nthb_slice off n l i :
  0 <= off -> 0 <= i < n -> nthb (slice off n l) i = nthb l (off + i).
Proof.
  unfold nthb, slice. intros. rewrite !nth_lookup_0, lookup_take_lt, lookup_drop by lia.
  do 2 f_equal. lia.
Qed.

Lemma nthb_splice off d l i :
  0 <= off -> off + zlen d <= zlen l -> 0 <= i ->
  nthb (splice off d l) i =
    if (off <=? i) && (i <? off + zlen d) then nthb d (i - off) else nthb l i.
Proof.
  unfold nthb, splice, zlen. intros Ho Hl Hi. rewrite !nth_lookup_0.
  destruct (Z.leb_spec off i); simpl; [destruct (Z.ltb_spec i (off + Z.of_nat (length d)))|].
  - rewrite lookup_app_r, lookup_app_l; rewrite ?length_take; [|lia|lia].
    do 2 f_equal. lia.
  - rewrite lookup_app_r, lookup_app_r, lookup_drop; rewrite ?length_take; [|lia|lia].
    do 2 f_equal. lia.
  - rewrite lookup_app_l, lookup_take_lt; rewrite ?length_take; [done|lia|lia].
Qed.

Lemma nthb_setb i v l j :
  0 <= i < zlen l -> 0 <= j -> nthb (setb i v l) j = if i =? j then v else nthb l j.
Proof.
  unfold nthb, setb, zlen. intros. rewrite !nth_lookup_0.
  destruct (Z.eqb_spec i j) as [->|].
  - by rewrite list_lookup_insert_eq by lia.
  - by rewrite list_lookup_insert_ne by lia.
Qed.

(** Two buffers of the same length with the same bytes are equal. *)
Lemma list_eq_nthb l k :
  zlen l = zlen k -> (forall i, 0 <= i < zlen l -> nthb l i = nthb k i) -> l = k.
Proof.
  intros Hl H. apply list_eq. intros n.
  destruct (decide (n < length l)%nat) as [Hn|Hn].
  - assert (0 <= Z.of_nat n < zlen l) as Hn' by (unfold zlen; lia).
    pose proof (nthb_lookup l _ Hn'). rewrite Hl in Hn'. pose proof (nthb_lookup k _ Hn').
    rewrite Nat2Z.id in *. rewrite H in *; [congruence|]. rewrite Hl. done.
  - rewrite !lookup_ge_None_2; [done| |lia]. unfold zlen in Hl. lia.
Qed.

Lemma slice_splice_same {A} off (d l : list A) :
  0 <= off -> off + zlen d <= zlen l -> slice off (zlen d) (splice off d l) = d.
Proof.
  unfold slice, splice, zlen. intros.
  rewrite drop_app_length' by (rewrite length_take; lia).
  rewrite Nat2Z.id. by rewrite take_app_length.
Qed.

Lemma slice_splice_eq {A} off n (d l : list A) :
  0 <= off -> zlen d = n -> off + n <= zlen l -> slice off n (splice off d l) = d.
Proof. intros ? <- ?. by apply slice_splice_same. Qed.

Lemma slice_splice_other off d off' n (l : list Z) :
  0 <= off -> off + zlen d <= zlen l -> 0 <= off' -> 0 <= n -> off' + n <= zlen l ->
  off' + n <= off \/ off + zlen d <= off' ->
  slice off' n (splice off d l) = slice off' n l.
Proof.
  intros. apply list_eq_nthb.
  - rewrite !zlen_slice; rewrite ?zlen_splice; lia.
  - intros i Hi. rewrite zlen_slice in Hi by (rewrite ?zlen_splice; lia).
    rewrite !nthb_slice, nthb_splice by lia.
    repeat if_split; first [lia|done].
Qed.

Lemma splice_nil {A} off (l : list A) : splice off [] l = l.
Proof. unfold splice. cbn [length app]. rewrite Nat.add_0_r. apply take_drop. Qed.

Lemma splice_splice_app off (a b l : list Z) :
  0 <= off -> off + zlen a + zlen b <= zlen l ->
  splice (off + zlen a) b (splice off a l) = splice off (a ++ b) l.
Proof.
  intros Ho Hl. pose proof (zlen_nonneg a). pose proof (zlen_nonneg b).
  apply list_eq_nthb; [rewrite !zlen_splice; rewrite ?zlen_splice, ?zlen_app; lia|].
  intros i Hi. rewrite !zlen_splice in Hi by (rewrite ?zlen_splice; lia).
  rewrite !nthb_splice by (rewrite ?zlen_splice, ?zlen_app; lia). rewrite zlen_app.
  repeat if_split; try lia; try done.
  - rewrite nthb_app_r by lia. f_equal. lia.
  - by rewrite nthb_app_l by lia.
Qed.

Lemma take_slice {A} n (l : list A) : take (Z.to_nat n) l = slice 0 n l.
Proof. done. Qed.

Lemma zlen_take {A} n (l : list A) : 0 <= n <= zlen l -> zlen (take (Z.to_nat n) l) = n.
Proof. unfold zlen. intros. rewrite length_take. lia. Qed.

Lemma zlen_take_le {A} n (l : list A) : 0 <= n -> zlen (take (Z.to_nat n) l) <= n.
Proof. unfold zlen. intros. rewrite length_take. lia. Qed.

Lemma slice_all {A} (l : list A) : slice 0 (zlen l) l = l.
Proof. unfold slice, zlen. rewrite Nat2Z.id. simpl. by rewrite firstn_all. Qed.

Lemma slice_slice {A} o n o' n' (l : list A) :
  0 <= o -> 0 <= o' -> 0 <= n' -> o' + n' <= n ->
  slice o' n' (slice o n l) = slice (o + o') n' l.
Proof.
  unfold slice. intros. rewrite skipn_firstn_comm, firstn_firstn, drop_drop.
  f_equal; [lia | f_equal; lia].
Qed.

Lemma slice_app_split {A} off n m (l : list A) :
  0 <= off -> 0 <= n -> 0 <= m ->
  slice off (n + m) l = slice off n l ++ slice (off + n) m l.
Proof.
  unfold slice. intros. rewrite Z2Nat.inj_add by lia.
  rewrite <- (take_drop (Z.to_nat n) (take (Z.to_nat n + Z.to_nat m) (drop (Z.to_nat off) l))).
  rewrite firstn_firstn, skipn_firstn_comm, drop_drop.
  f_equal; [f_equal; lia|]. f_equal; [lia|]. f_equal. lia.
Qed.

Lemma slice_nil {A} off (l : list A) : slice off 0 l = [].
Proof. unfold slice. done. Qed.

Lemma bytes_app l k : bytes (l ++ k) <-> bytes l /\ bytes k.
Proof. apply Forall_app. Qed.
Lemma bytes_slice off n l : bytes l -> bytes (slice off n l).
Proof. intros. unfold slice. by apply Forall_take, Forall_drop. Qed.
Lemma bytes_splice off d l : bytes l -> bytes d -> bytes (splice off d l).
Proof.
  intros. unfold splice, bytes.
  apply Forall_app; split; [by apply Forall_take|].
  apply Forall_app; split; [done|by apply Forall_drop].
Qed.
Lemma bytes_nthb l i : bytes l -> 0 <= nthb l i < 256.
Proof.
  intros H. unfold nthb. rewrite nth_lookup_0.
  destruct (l !! Z.to_nat i) eqn:E; simpl; [|lia].
  eapply Forall_lookup_1 in H; eauto.
Qed.

(** *** Little-endian integers *)

Fixpoint le_enc (n : nat) (z : Z) : list Z :=
  match n with
  | O => []
  | S n => u8 z :: le_enc n (Z.shiftr z 8)
  end.

Fixpoint le_dec (l : list Z) : Z :=
  match l with
  | [] => 0
  | b :: l => b + 256 * le_dec l
  end.

Lemma zlen_le_enc n z : zlen (le_enc n z) = Z.of_nat n.
Proof. revert z. induction n; intros; simpl; [done|]. rewrite zlen_cons, IHn. lia. Qed.

Lemma bytes_le_enc n z : bytes (le_enc n z).
Proof.
  revert z. induction n; intros; simpl; constructor; [apply u8_range | apply IHn].
Qed.

Lemma le_dec_enc n z : le_dec (le_enc n z) = z mod 2 ^ (8 * Z.of_nat n).
Proof.
  revert z. induction n as [|n IH]; intros z; cbn [le_enc le_dec].
  - by rewrite Z.mod_1_r.
  - rewrite IH, Z.shiftr_div_pow2 by lia. unfold wrap.
    replace (8 * Z.of_nat (S n)) with (8 + 8 * Z.of_nat n) by lia.
    rewrite Z.pow_add_r by lia. change (2 ^ 8) with 256.
    rewrite Z.rem_mul_r by lia. done.
Qed.

Lemma le_enc_dec l : bytes l -> le_enc (length l) (le_dec l) = l.
Proof.
  induction 1 as [|b l Hb Hl IH]; cbn [le_enc le_dec length]; [done|]. f_equal.
  - unfold wrap. rewrite (Z.mul_comm 256), Z_mod_plus_full. apply Z.mod_small. lia.
  - rewrite Z.shiftr_div_pow2 by lia. change (2 ^ 8) with 256.
    rewrite (Z.mul_comm 256), Z.div_add by lia. rewrite Z.div_small by lia. done.
Qed.

Lemma le_dec_range l : bytes l -> 0 <= le_dec l < 2 ^ (8 * zlen l).
Proof.
  induction 1 as [|b l Hb Hl IH]; cbn [le_dec]; [done|].
  rewrite zlen_cons, Z.mul_add_distr_l, Z.pow_add_r by (pose proof (zlen_nonneg l); lia).
  change (2 ^ (8 * 1)) with 256. lia.
Qed.

(** *** C strings

    A string argument is the list of its characters without the NUL; a string
    stored in a buffer ends at its first 0. *)

Fixpoint cstr (l : list Z) : list Z :=
  match l with
  | [] => []
  | c :: l => if c =? 0 then [] else c :: cstr l
  end.

Definition strlen (l : list Z) : Z := zlen (cstr l).

(** The characters of a string: bytes other than NUL. *)
Definition is_str (l : list Z) : Prop := Forall (fun c => 0 < c < 256) l.

Lemma cstr_app_nul s l : is_str s -> cstr (s ++ 0 :: l) = s.
Proof.
  induction 1 as [|c s Hc Hs IH]; cbn; [done|].
  destruct (Z.eqb_spec c 0); [lia|]. by rewrite IH.
Qed.

Lemma cstr_id s : is_str s -> cstr s = s.
Proof.
  induction 1 as [|c s Hc Hs IH]; cbn; [done|].
  destruct (Z.eqb_spec c 0); [lia|]. by rewrite IH.
Qed.

Lemma is_str_bytes s : is_str s -> bytes s.
Proof. intros H. eapply Forall_impl; [exact H|]. intros. simpl in *. lia. Qed.

Lemma cstr_no_nul l : Forall (fun c => c <> 0) (cstr l).
Proof.
  induction l as [|c l IH]; cbn; [constructor|].
  destruct (Z.eqb_spec c 0); constructor; auto.
Qed.

(** ** Stateful code that can fail

    [M S E A]: a computation on a state [S] that ends in an error [E], with the
    state it had reached, or in a value [A]. *)

Definition M (S E A : Type) : Type := S -> S * (E + A).

Definition ret {S E A} (a : A) : M S E A := fun s => (s, inr a).
Definition err {S E A} (e : E) : M S E A := fun s => (s, inl e).
Definition bnd {S E A B} (m : M S E A) (f : A -> M S E B) : M S E B :=
  fun s => match m s with
           | (s', inl e) => (s', inl e)
           | (s', inr a) => f a s'
           end.
Definition get {S E} : M S E S := fun s => (s, inr s).
Definition put {S E} (s : S) : M S E unit := fun _ => (s, inr tt).
Definition modify {S E} (f : S -> S) : M S E unit := fun s => (f s, inr tt).
(** Run [m]; its error becomes a value, as a caller that tests a return code does. *)
Definition catch {S E A} (m : M S E A) : M S E (E + A) := fun s => let '(s', r) := m s in (s', inr r).

Declare Scope fw_scope.
Delimit Scope fw_scope with fw.
Notation "'let!' p := m 'in' k" := (bnd m (fun p => k))
  (at level 10, p strict pattern, m at level 100, k at level 200) : fw_scope.
Notation "m ;;; k" := (bnd m (fun _ => k))
  (at level 100, right associativity) : fw_scope.
Lemma bnd_ret {S E A B} (a : A) (f : A -> M S E B) s : bnd (ret a) f s = f a s.
Proof. done. Qed.
Lemma bnd_ok {S E A B} (m : M S E A) (f : A -> M S E B) s s' a :
  m s = (s', inr a) -> bnd m f s = f a s'.
Proof. unfold bnd. by intros ->. Qed.
Lemma bnd_err {S E A B} (m : M S E A) (f : A -> M S E B) s s' e :
  m s = (s', inl e) -> bnd m f s = (s', inl e).
Proof. unfold bnd. by intros ->. Qed.
Lemma bnd_get {S E B} (f : S -> M S E B) s : bnd get f s = f s s.
Proof. done. Qed.
Lemma bnd_put {S E B} (s' : S) (f : unit -> M S E B) s : bnd (put s') f s = f tt s'.
Proof. done. Qed.
Lemma bnd_modify {S E B} (g : S -> S) (f : unit -> M S E B) s : bnd (modify g) f s = f tt (g s).
Proof. done. Qed.
Lemma bnd_assoc {S E A B C} (m : M S E A) (f : A -> M S E B) (g : B -> M S E C) s :
  bnd (bnd m f) g s = bnd m (fun a => bnd (f a) g) s.
Proof. unfold bnd. by destruct (m s) as [s' [e|a]]. Qed.

(** One step of a computation whose head is known, by [E] or by definition. *)
Ltac mstep_with E := (erewrite bnd_ok; [|exact E]); cbv beta iota.
Ltac mpure := rewrite ?bnd_assoc, ?bnd_ret, ?bnd_get, ?bnd_put, ?bnd_modify.

#[export] Hint Rewrite @zlen_nil @zlen_cons @zlen_app @zlen_setb zlen_le_enc : zlen.
#[export] Hint Resolve u8_range u16_range u32_range bytes_slice bytes_splice bytes_le_enc : fw.
