(* ===== verification/Client.v ===== *)
(** * Clients

    A client of a component chooses each operation by what it observed so far. The
    component serves its clients if every operation the contract allows ends in a state
    that still represents the abstract one; then it serves whole runs of every client
    that obeys the contract. *)
From S2P Require Import Prelude.

Module Client.

Section Client.
(** The states of the component, its operations and observations, the abstract states. *)
Context {S Op Obs A : Type}.
(** [None]: the component fails. *)
Context (step : Op -> S -> option (Obs * S)).
Context (op_ok : A -> Op -> Prop) (spec_step : A -> Op -> Obs -> A -> Prop).
Implicit Types (seen : list Obs).

Definition client : Type := list Obs -> option Op.

(** At most [n] operations of [c]. *)
Fixpoint run (c : client) (n : nat) seen (s : S) : option (list Obs * S) :=
  match n with
  | O => Some (seen, s)
  | Datatypes.S n =>
      match c seen with
      | None => Some (seen, s)
      | Some o => '(b, s) ← step o s; run c n (seen ++ [b]) s
      end
  end.

(** What the abstract state may be after [c], started in [a0], observed a sequence. *)
Inductive after (a0 : A) (c : client) : list Obs -> A -> Prop :=
| after_start : after a0 c [] a0
| after_step seen a o b a' :
    after a0 c seen a -> c seen = Some o -> op_ok a o -> spec_step a o b a' -> after a0 c (seen ++ [b]) a'.

(** The client keeps the contract, whatever the component answers within it. *)
Definition obeys (a0 : A) (c : client) : Prop :=
  forall seen a o, after a0 c seen a -> c seen = Some o -> op_ok a o.

(** The component keeps it too. *)
Definition serves_ops (rep : S -> A -> Prop) : Prop :=
  forall s a o, rep s a -> op_ok a o -> exists b s' a', step o s = Some (b, s') /\ spec_step a o b a' /\ rep s' a'.

Lemma run_serves (rep : S -> A -> Prop) a0 c n s :
  serves_ops rep -> obeys a0 c -> rep s a0 ->
  exists seen s' a, run c n [] s = Some (seen, s') /\ after a0 c seen a /\ rep s' a.
Proof.
  intros Hs Hc. assert (forall seen s a, after a0 c seen a -> rep s a ->
    exists seen' s' a', run c n seen s = Some (seen', s') /\ after a0 c seen' a' /\ rep s' a') as Hrun.
  { induction n as [|n IH]; intros seen s0 a Ha R; simpl; [by exists seen, s0, a|].
    destruct (c seen) as [o|] eqn:E; [|by exists seen, s0, a].
    destruct (Hs s0 a o R (Hc _ _ _ Ha E)) as (b & s' & a' & -> & Hb & R'). simpl.
    eapply IH, R'. eapply after_step; [exact Ha|exact E|by eapply Hc|exact Hb]. }
  intros R. by eapply Hrun; [constructor|].
Qed.

(** A client that is not finished sees as many observations as it may make operations. *)
Lemma run_length c n : forall seen s seen' s', run c n seen s = Some (seen', s') ->
  (forall l, length seen <= length l < length seen + n -> c l <> None)%nat -> length seen' = (length seen + n)%nat.
Proof.
  induction n as [|n IH]; intros seen s seen' s' E Hc; cbn [run] in E; [injection E as <- _; lia|].
  specialize (Hc seen ltac:(lia)) as Hs. destruct (c seen) as [o|]; [|done]. destruct (step o s) as [[b s1]|]; [|done]. cbn in E.
  apply IH in E; rewrite length_app in *; cbn in *; [lia|]. intros l Hl. apply Hc. lia.
Qed.

Lemma after_nil a0 c a : after a0 c [] a -> a = a0.
Proof. intros H. inversion H as [E|seen a1 o b a' _ _ _ _ E]; [done|by destruct seen]. Qed.

Lemma after_snoc a0 c seen b a : after a0 c (seen ++ [b]) a ->
  exists a1 o, after a0 c seen a1 /\ c seen = Some o /\ spec_step a1 o b a.
Proof.
  intros H. inversion H as [E|seen' a1 o b' a' Ha Hc Ho Hb E]; [by destruct seen|].
  apply app_inj_tail in E as [-> ->]. by exists a1, o.
Qed.

End Client.

(** An allocator for closed examples. *)
Definition some_fresh (X : gset Z) : Z := fresh (X ∪ {[0]}).
Lemma some_fresh_fresh X : some_fresh X = 0 \/ some_fresh X ∉ X.
Proof. right. unfold some_fresh. intros H. apply (is_fresh (X ∪ {[0]})). by apply elem_of_union_l. Qed.

End Client.
