(* ===== verification/Timers.v ===== *)
(** * Timers, as their clients see them

    The interface between the event loop and the state machines that register timers with
    it: a collection of pending timers, each with its handler and two contexts. *)
From S2P Require Import Prelude.
Open Scope Z_scope.

(** A handler and what it is called with. *)
Abbreviation timer := (Z * Z * Z)%type.

(** The context that stands for every context when timers are cancelled. *)
Definition ANY_CONTEXT : Z := 2 ^ 32 - 1.

Definition timer_matches (h data user : Z) (t : timer) : bool :=
  let '(h', d, u) := t in (h' =? h) && ((d =? data) || (data =? ANY_CONTEXT)) && ((u =? user) || (user =? ANY_CONTEXT)).

Class Timers (T : Type) := {
  timeout_register : Z -> Z -> Z -> Z -> T -> option (Z * T);
  timeout_cancel : Z -> Z -> Z -> T -> option (Z * T);
  timeout_is_registered : Z -> Z -> Z -> T -> option Z
}.

(** What the event loop promises: no call fails to return, a registered timer is pending
    until it is cancelled or runs, and memory is the only reason not to register one. *)
Class TimersLaws (T : Type) {timers : Timers T} := {
  timers_ok : T -> Prop;
  pending : T -> list timer;
  timeout_register_law msecs h d u t : timers_ok t -> exists r t', timeout_register msecs h d u t = Some (r, t') /\
    timers_ok t' /\ (r = 0 /\ pending t' ≡ₚ (h, d, u) :: pending t \/ r = -1 /\ pending t' = pending t);
  timeout_cancel_law h d u t : timers_ok t -> exists r t', timeout_cancel h d u t = Some (r, t') /\
    timers_ok t' /\ pending t' = List.filter (fun x => negb (timer_matches h d u x)) (pending t);
  timeout_is_registered_law h d u t : timers_ok t ->
    timeout_is_registered h d u t = Some (if bool_decide ((h, d, u) ∈ pending t) then 1 else 0)
}.
