(* ===== verification/Crc.v ===== *)
(** * The checksums of the platform utilities

    Model of [src/gd32_os/MSDK/util/src/crc.c]: the table-driven CRC-16 and the
    CRC-32 that the NVDS store and the license reader put on their records. *)
From S2P Require Import Prelude.
Open Scope Z_scope.

Module Crc.

Definition crc_table : list Z :=
  [
   0x00000000; 0x77073096; 0xEE0E612C; 0x990951BA; 0x076DC419; 0x706AF48F;
      0xE963A535; 0x9E6495A3; 0x0EDB8832; 0x79DCB8A4; 0xE0D5E91E; 0x97D2D988;
      0x09B64C2B; 0x7EB17CBD; 0xE7B82D07; 0x90BF1D91; 0x1DB71064; 0x6AB020F2;
      0xF3B97148; 0x84BE41DE; 0x1ADAD47D; 0x6DDDE4EB; 0xF4D4B551; 0x83D385C7;
      0x136C9856; 0x646BA8C0; 0xFD62F97A; 0x8A65C9EC; 0x14015C4F; 0x63066CD9;
      0xFA0F3D63; 0x8D080DF5; 0x3B6E20C8; 0x4C69105E; 0xD56041E4; 0xA2677172;
      0x3C03E4D1; 0x4B04D447; 0xD20D85FD; 0xA50AB56B; 0x35B5A8FA; 0x42B2986C;
      0xDBBBC9D6; 0xACBCF940; 0x32D86CE3; 0x45DF5C75; 0xDCD60DCF; 0xABD13D59;
      0x26D930AC; 0x51DE003A; 0xC8D75180; 0xBFD06116; 0x21B4F4B5; 0x56B3C423;
      0xCFBA9599; 0xB8BDA50F; 0x2802B89E; 0x5F058808; 0xC60CD9B2; 0xB10BE924;
      0x2F6F7C87; 0x58684C11; 0xC1611DAB; 0xB6662D3D; 0x76DC4190; 0x01DB7106;
      0x98D220BC; 0xEFD5102A; 0x71B18589; 0x06B6B51F; 0x9FBFE4A5; 0xE8B8D433;
      0x7807C9A2; 0x0F00F934; 0x9609A88E; 0xE10E9818; 0x7F6A0DBB; 0x086D3D2D;
      0x91646C97; 0xE6635C01; 0x6B6B51F4; 0x1C6C6162; 0x856530D8; 0xF262004E;
      0x6C0695ED; 0x1B01A57B; 0x8208F4C1; 0xF50FC457; 0x65B0D9C6; 0x12B7E950;
      0x8BBEB8EA; 0xFCB9887C; 0x62DD1DDF; 0x15DA2D49; 0x8CD37CF3; 0xFBD44C65;
      0x4DB26158; 0x3AB551CE; 0xA3BC0074; 0xD4BB30E2; 0x4ADFA541; 0x3DD895D7;
      0xA4D1C46D; 0xD3D6F4FB; 0x4369E96A; 0x346ED9FC; 0xAD678846; 0xDA60B8D0;
      0x44042D73; 0x33031DE5; 0xAA0A4C5F; 0xDD0D7CC9; 0x5005713C; 0x270241AA;
      0xBE0B1010; 0xC90C2086; 0x5768B525; 0x206F85B3; 0xB966D409; 0xCE61E49F;
      0x5EDEF90E; 0x29D9C998; 0xB0D09822; 0xC7D7A8B4; 0x59B33D17; 0x2EB40D81;
      0xB7BD5C3B; 0xC0BA6CAD; 0xEDB88320; 0x9ABFB3B6; 0x03B6E20C; 0x74B1D29A;
      0xEAD54739; 0x9DD277AF; 0x04DB2615; 0x73DC1683; 0xE3630B12; 0x94643B84;
      0x0D6D6A3E; 0x7A6A5AA8; 0xE40ECF0B; 0x9309FF9D; 0x0A00AE27; 0x7D079EB1;
      0xF00F9344; 0x8708A3D2; 0x1E01F268; 0x6906C2FE; 0xF762575D; 0x806567CB;
      0x196C3671; 0x6E6B06E7; 0xFED41B76; 0x89D32BE0; 0x10DA7A5A; 0x67DD4ACC;
      0xF9B9DF6F; 0x8EBEEFF9; 0x17B7BE43; 0x60B08ED5; 0xD6D6A3E8; 0xA1D1937E;
      0x38D8C2C4; 0x4FDFF252; 0xD1BB67F1; 0xA6BC5767; 0x3FB506DD; 0x48B2364B;
      0xD80D2BDA; 0xAF0A1B4C; 0x36034AF6; 0x41047A60; 0xDF60EFC3; 0xA867DF55;
      0x316E8EEF; 0x4669BE79; 0xCB61B38C; 0xBC66831A; 0x256FD2A0; 0x5268E236;
      0xCC0C7795; 0xBB0B4703; 0x220216B9; 0x5505262F; 0xC5BA3BBE; 0xB2BD0B28;
      0x2BB45A92; 0x5CB36A04; 0xC2D7FFA7; 0xB5D0CF31; 0x2CD99E8B; 0x5BDEAE1D;
      0x9B64C2B0; 0xEC63F226; 0x756AA39C; 0x026D930A; 0x9C0906A9; 0xEB0E363F;
      0x72076785; 0x05005713; 0x95BF4A82; 0xE2B87A14; 0x7BB12BAE; 0x0CB61B38;
      0x92D28E9B; 0xE5D5BE0D; 0x7CDCEFB7; 0x0BDBDF21; 0x86D3D2D4; 0xF1D4E242;
      0x68DDB3F8; 0x1FDA836E; 0x81BE16CD; 0xF6B9265B; 0x6FB077E1; 0x18B74777;
      0x88085AE6; 0xFF0F6A70; 0x66063BCA; 0x11010B5C; 0x8F659EFF; 0xF862AE69;
      0x616BFFD3; 0x166CCF45; 0xA00AE278; 0xD70DD2EE; 0x4E048354; 0x3903B3C2;
      0xA7672661; 0xD06016F7; 0x4969474D; 0x3E6E77DB; 0xAED16A4A; 0xD9D65ADC;
      0x40DF0B66; 0x37D83BF0; 0xA9BCAE53; 0xDEBB9EC5; 0x47B2CF7F; 0x30B5FFE9;
      0xBDBDF21C; 0xCABAC28A; 0x53B39330; 0x24B4A3A6; 0xBAD03605; 0xCDD70693;
      0x54DE5729; 0x23D967BF; 0xB3667A2E; 0xC4614AB8; 0x5D681B02; 0x2A6F2B94;
      0xB40BBE37; 0xC30C8EA1; 0x5A05DF1B; 0x2D02EF8D  ].

Definition crc16_table : list Z :=
  [
0x0000; 0xCC01; 0xD801; 0x1400; 0xF001; 0x3C00; 0x2800; 0xE401; 0xA001; 0x6C00; 0x7800; 0xB401; 0x5000; 0x9C01; 0x8801; 0x4400  ].

(** ** Operations

    The bytes from [addr] are the list [data]; [len] is its length. *)

Definition crc16_byte (crc tmp : Z) : Z :=
  let crc := Z.lxor (nthb crc16_table (Z.land (Z.lxor tmp crc) 0xF)) (Z.shiftr crc 4) in
  Z.lxor (nthb crc16_table (Z.land (Z.lxor (Z.shiftr tmp 4) crc) 0xF)) (Z.shiftr crc 4).

Fixpoint crc16 (data : list Z) (crc : Z) : Z :=
  match data with
  | [] => crc
  | tmp :: data => crc16 data (crc16_byte crc tmp)
  end.

Definition crc32_byte (crc b : Z) : Z :=
  Z.lxor (u32 (Z.shiftl crc 8)) (nthb crc_table (Z.lxor (Z.shiftr crc 24) b)).

Fixpoint crc32 (data : list Z) (crc : Z) : Z :=
  match data with
  | [] => crc
  | b :: data => crc32 data (crc32_byte crc b)
  end.

(** ** The bitwise division, least significant bit first *)

Section Bitwise.
Context (poly : Z).

Definition crc_bit (x : Z) : Z :=
  Z.lxor (Z.shiftr x 1) (if Z.odd x then poly else 0).

(** The reference: a polynomial division, one bit at a time. *)
Fixpoint crc_ref (data : list Z) (crc : Z) : Z :=
  match data with
  | [] => crc
  | b :: data => crc_ref data (Nat.iter 8 crc_bit (Z.lxor b crc))
  end.

Lemma crc_bit_lxor a b :
  crc_bit (Z.lxor a b) = Z.lxor (crc_bit a) (crc_bit b).
Proof.
  unfold crc_bit. rewrite Z.shiftr_lxor, <- !Z.bit0_odd, Z.lxor_spec.
  set (x := Z.shiftr a 1). set (y := Z.shiftr b 1).
  destruct (Z.testbit a 0), (Z.testbit b 0); cbn [xorb];
    apply Z.bits_inj'; intros i Hi; rewrite !Z.lxor_spec, ?Z.bits_0;
    destruct (Z.testbit x i), (Z.testbit y i), (Z.testbit poly i); done.
Qed.

(** Bits that have not reached the low end only shift. *)
Lemma crc_iter_shift n x : Nat.iter n crc_bit (Z.shiftl x (Z.of_nat n)) = x.
Proof.
  induction n as [|n IH]; [by rewrite Z.shiftl_0_r|]. rewrite Nat.iter_succ_r.
  unfold crc_bit at 2. rewrite <- Z.bit0_odd, Z.shiftl_spec, Z.testbit_neg_r by lia.
  rewrite Z.lxor_0_r, Z.shiftr_shiftl_l by lia. replace (Z.of_nat (S n) - 1) with (Z.of_nat n) by lia.
  done.
Qed.

Lemma crc_iter_lxor n a b :
  Nat.iter n crc_bit (Z.lxor a b) = Z.lxor (Nat.iter n crc_bit a) (Nat.iter n crc_bit b).
Proof. induction n as [|n IH]; simpl; [done|]. by rewrite IH, crc_bit_lxor. Qed.

End Bitwise.

Lemma land_lxor_split x k :
  0 <= k -> x = Z.lxor (Z.shiftl (Z.shiftr x k) k) (Z.land x (Z.ones k)).
Proof.
  intros Hk. apply Z.bits_inj'. intros i Hi.
  rewrite Z.lxor_spec, Z.land_spec, Z.shiftl_spec by lia.
  destruct (Z.ltb_spec i k).
  - rewrite (Z.testbit_neg_r _ (i - k)), Z.ones_spec_low by lia. by rewrite andb_true_r.
  - rewrite Z.shiftr_spec, Z.ones_spec_high by lia.
    rewrite andb_false_r, xorb_false_r. f_equal. lia.
Qed.

(** A table of the images of [k] bits does [k] steps at once. *)
Lemma crc_table_steps poly tab (k : nat) x :
  forallb (fun n => Nat.iter k (crc_bit poly) n =? nthb tab n) (seqZ 0 (2 ^ Z.of_nat k)) = true ->
  Nat.iter k (crc_bit poly) x =
    Z.lxor (nthb tab (Z.land x (Z.ones (Z.of_nat k)))) (Z.shiftr x (Z.of_nat k)).
Proof.
  intros Htab. rewrite (land_lxor_split x (Z.of_nat k)) at 1 by lia.
  rewrite crc_iter_lxor, crc_iter_shift, Z.lxor_comm. f_equal.
  assert (0 <= Z.land x (Z.ones (Z.of_nat k)) < 2 ^ Z.of_nat k) as Hr.
  { rewrite Z.land_ones by lia. apply Z.mod_pos_bound. lia. }
  apply Z.eqb_eq. exact (seqZ_check (fun n => Nat.iter k (crc_bit poly) n =? nthb tab n) _ _ Htab Hr).
Qed.

(** ** CRC-16: the nibble table computes the bitwise division *)

(** The polynomial of CRC-16/ARC, backwards. *)
Definition poly16 : Z := 0xA001.

Lemma crc16_nibble x :
  Nat.iter 4 (crc_bit poly16) x = Z.lxor (nthb crc16_table (Z.land x 0xF)) (Z.shiftr x 4).
Proof. apply (crc_table_steps poly16 crc16_table 4). by vm_compute. Qed.

Lemma crc16_byte_ref crc b :
  0 <= b < 256 -> crc16_byte crc b = Nat.iter 8 (crc_bit poly16) (Z.lxor b crc).
Proof.
  intros Hb. change 8%nat with (4 + 4)%nat.
  rewrite Nat.iter_add, (crc16_nibble (Z.lxor b crc)), crc16_nibble. unfold crc16_byte.
  rewrite (Z.shiftr_lxor b).
  set (t := nthb crc16_table (Z.land (Z.lxor b crc) 15)).
  assert (Z.lxor t (Z.lxor (Z.shiftr b 4) (Z.shiftr crc 4)) =
          Z.lxor (Z.shiftr b 4) (Z.lxor t (Z.shiftr crc 4))) as ->.
  { rewrite <- !Z.lxor_assoc. by rewrite (Z.lxor_comm t). }
  f_equal. rewrite (Z.shiftr_lxor (Z.shiftr b 4)), Z.shiftr_shiftr by lia.
  rewrite (Z.shiftr_div_pow2 b), Z.div_small by lia. by rewrite Z.lxor_0_l.
Qed.

(** On bytes, the two-lookups-per-byte [crc16] is the bitwise CRC-16/ARC division. *)
Theorem crc16_is_reference data crc :
  bytes data -> crc16 data crc = crc_ref poly16 data crc.
Proof.
  intros H. revert crc. induction H as [|b data Hb _ IH]; intros crc; [done|].
  cbn [crc16 crc_ref]. by rewrite crc16_byte_ref, IH.
Qed.

Lemma crc16_is_reference_witness :
  bytes [49; 50; 51; 52; 53; 54; 55; 56; 57] /\
  crc16 [49; 50; 51; 52; 53; 54; 55; 56; 57] 0 = crc_ref poly16 [49; 50; 51; 52; 53; 54; 55; 56; 57] 0 /\
  crc16 [49; 50; 51; 52; 53; 54; 55; 56; 57] 0 = 0xBB3D.
Proof.
  assert (bytes [49; 50; 51; 52; 53; 54; 55; 56; 57]) as H by (repeat constructor; lia).
  split; [exact H|]. split; [exact (crc16_is_reference _ 0 H)|]. vm_compute. reflexivity.
Defined.

(** ** CRC-32

    The table is linear over GF(2) and the low bytes of its entries are all
    different; the register step is therefore linear and injective. *)

Definition xsel (a : Z) (l : list (Z * Z)) : Z :=
  foldr (fun p acc => Z.lxor (if Z.testbit a p.1 then p.2 else 0) acc) 0 l.

Lemma xsel_lxor a b l : xsel (Z.lxor a b) l = Z.lxor (xsel a l) (xsel b l).
Proof.
  induction l as [|[i v] l IH]; cbn [xsel foldr]; [done|]. fold (xsel (Z.lxor a b) l).
  fold (xsel a l) (xsel b l). cbn [fst snd]. rewrite IH, Z.lxor_spec.
  set (x := xsel a l). set (y := xsel b l). apply Z.bits_inj'. intros k Hk.
  rewrite !Z.lxor_spec.
  destruct (Z.testbit a i), (Z.testbit b i); cbn [xorb]; rewrite ?Z.bits_0;
    destruct (Z.testbit x k), (Z.testbit y k), (Z.testbit v k); done.
Qed.

Definition crc_gens : list (Z * Z) :=
  (fun i => (i, nthb crc_table (2 ^ i))) <$> seqZ 0 8.

Lemma crc_table_gens :
  forallb (fun i => (nthb crc_table i =? xsel i crc_gens)
                    && (negb (Z.land (nthb crc_table i) 255 =? 0) || (i =? 0))
                    && (nthb crc_table i <? 2 ^ 32) && (0 <=? nthb crc_table i))
          (seqZ 0 256) = true.
Proof. vm_compute. reflexivity. Qed.

Lemma crc_table_entry i :
  0 <= i < 256 ->
  nthb crc_table i = xsel i crc_gens /\ 0 <= nthb crc_table i < 2 ^ 32 /\
  (Z.land (nthb crc_table i) 255 = 0 -> i = 0).
Proof.
  intros Hi. pose proof (seqZ_check _ 256 i crc_table_gens Hi) as H. cbn beta in H.
  bool_to_prop. split; [done|]. split; [lia|]. intros E.
  destruct (Z.eqb_spec (Z.land (nthb crc_table i) 255) 0) as [E'|]; [|congruence].
  cbn [negb orb] in *. bool_to_prop. done.
Qed.

Lemma crc_table_lxor a b :
  0 <= a < 256 -> 0 <= b < 256 ->
  nthb crc_table (Z.lxor a b) = Z.lxor (nthb crc_table a) (nthb crc_table b).
Proof.
  intros Ha Hb. pose proof (lxor_range 8 a b ltac:(lia) Ha Hb).
  destruct (crc_table_entry a Ha) as [-> _]. destruct (crc_table_entry b Hb) as [-> _].
  destruct (crc_table_entry (Z.lxor a b) ltac:(lia)) as [-> _]. apply xsel_lxor.
Qed.

(** The register step once the data byte has been added to the top byte. *)
Definition crc32_shift (x : Z) : Z :=
  Z.lxor (u32 (Z.shiftl x 8)) (nthb crc_table (Z.shiftr x 24)).

Lemma shiftr24_range x : 0 <= x < 2 ^ 32 -> 0 <= Z.shiftr x 24 < 256.
Proof.
  intros. apply (shiftr_range x 8); lia.
Qed.

Lemma u32_shiftl_lxor a b k :
  0 <= k -> u32 (Z.shiftl (Z.lxor a b) k) = Z.lxor (u32 (Z.shiftl a k)) (u32 (Z.shiftl b k)).
Proof.
  intros Hk. apply Z.bits_inj'. intros i Hi. rewrite Z.lxor_spec, !wrap_testbit by lia.
  rewrite !Z.shiftl_spec, Z.lxor_spec by lia. by destruct (i <? 32).
Qed.

Lemma crc32_shift_lxor a b :
  0 <= a < 2 ^ 32 -> 0 <= b < 2 ^ 32 ->
  crc32_shift (Z.lxor a b) = Z.lxor (crc32_shift a) (crc32_shift b).
Proof.
  intros Ha Hb. unfold crc32_shift.
  rewrite u32_shiftl_lxor, Z.shiftr_lxor, crc_table_lxor by (lia || by apply shiftr24_range).
  rewrite !Z.lxor_assoc. f_equal. rewrite <- !Z.lxor_assoc. f_equal. apply Z.lxor_comm.
Qed.

Lemma crc32_shift_range x : 0 <= x < 2 ^ 32 -> 0 <= crc32_shift x < 2 ^ 32.
Proof.
  intros H. apply lxor_range; [lia|apply u32_range|].
  by apply crc_table_entry, shiftr24_range.
Qed.

Lemma crc32_shift_zero x : 0 <= x < 2 ^ 32 -> crc32_shift x = 0 -> x = 0.
Proof.
  intros Hx H. apply Z.lxor_eq in H. pose proof (shiftr24_range x Hx) as Hs.
  destruct (crc_table_entry _ Hs) as (_ & _ & Hz). rewrite <- H in Hz.
  assert (Z.shiftr x 24 = 0) as E.
  { apply Hz. apply Z.bits_inj'. intros i Hi. rewrite Z.land_spec, wrap_testbit, Z.shiftl_spec by lia.
    change 255 with (Z.ones 8). destruct (Z.ltb_spec i 8).
    - rewrite (Z.testbit_neg_r x), andb_false_r by lia. by rewrite Z.bits_0.
    - rewrite Z.ones_spec_high, andb_false_r by lia. by rewrite Z.bits_0. }
  rewrite E in H. change (nthb crc_table 0) with 0 in H.
  rewrite Z.shiftr_div_pow2 in E by lia. apply Z.div_small_iff in E; [|lia].
  rewrite Z.shiftl_mul_pow2 in H by lia. rewrite wrap_small in H; lia.
Qed.

Lemma crc32_shift_inj a b :
  0 <= a < 2 ^ 32 -> 0 <= b < 2 ^ 32 -> crc32_shift a = crc32_shift b -> a = b.
Proof.
  intros Ha Hb H. apply Z.lxor_eq, crc32_shift_zero.
  - by apply lxor_range.
  - rewrite crc32_shift_lxor by done. rewrite H. apply Z.lxor_nilpotent.
Qed.

Lemma byte_top_range b : 0 <= b < 256 -> 0 <= Z.shiftl b 24 < 2 ^ 32.
Proof. intros. rewrite Z.shiftl_mul_pow2 by lia. lia. Qed.

Lemma crc32_byte_shift crc b :
  0 <= crc < 2 ^ 32 -> 0 <= b < 256 ->
  crc32_byte crc b = crc32_shift (Z.lxor crc (Z.shiftl b 24)).
Proof.
  intros Hc Hb. unfold crc32_byte, crc32_shift. rewrite Z.shiftr_lxor, Z.shiftr_shiftl_l by lia.
  rewrite Z.shiftl_0_r, u32_shiftl_lxor, Z.shiftl_shiftl by lia. f_equal.
  rewrite (Z.shiftl_mul_pow2 b) by lia. unfold wrap.
  rewrite (Z.pow_add_r 2 24 8), Z.mul_assoc by lia.
  replace (b * 2 ^ 24 * 2 ^ 8) with (b * 2 ^ 32) by lia. by rewrite Z.mod_mul, Z.lxor_0_r.
Qed.

Lemma crc32_byte_range crc b :
  0 <= crc < 2 ^ 32 -> 0 <= b < 256 -> 0 <= crc32_byte crc b < 2 ^ 32.
Proof.
  intros Hc Hb. rewrite crc32_byte_shift by done.
  by apply crc32_shift_range, lxor_range, byte_top_range.
Qed.

Lemma crc32_range data crc :
  bytes data -> 0 <= crc < 2 ^ 32 -> 0 <= crc32 data crc < 2 ^ 32.
Proof.
  intros H. revert crc. induction H as [|b data Hb _ IH]; intros crc Hc; [done|].
  by apply IH, crc32_byte_range.
Qed.

Lemma crc32_app d1 d2 crc : crc32 (d1 ++ d2) crc = crc32 d2 (crc32 d1 crc).
Proof. revert crc. induction d1; intros; simpl; auto. Qed.

Lemma crc32_inj_crc data a b :
  bytes data -> 0 <= a < 2 ^ 32 -> 0 <= b < 2 ^ 32 -> crc32 data a = crc32 data b -> a = b.
Proof.
  intros H. revert a b. induction H as [|x data Hx _ IH]; intros a b Ha Hb E; [done|].
  apply IH in E; [|by apply crc32_byte_range..]. rewrite !crc32_byte_shift in E by done.
  apply crc32_shift_inj in E; try (by apply lxor_range, byte_top_range).
  apply (f_equal (fun z => Z.lxor z (Z.shiftl x 24))) in E.
  by rewrite !Z.lxor_assoc, Z.lxor_nilpotent, !Z.lxor_0_r in E.
Qed.

(** The word whose top bytes are [d], most significant first. *)
Fixpoint top_word (d : list Z) : Z :=
  match d with
  | [] => 0
  | b :: d => Z.shiftl b 24 + Z.shiftr (top_word d) 8
  end.

Lemma top_word_range d : bytes d -> 0 <= top_word d < 2 ^ 32.
Proof.
  induction 1 as [|b d Hb _ IH]; cbn [top_word]; [lia|].
  pose proof (shiftr_range (top_word d) 24 8 ltac:(lia) ltac:(lia) IH).
  rewrite Z.shiftl_mul_pow2 by lia. lia.
Qed.

Lemma top_word_div d k :
  bytes d -> zlen d + k = 4 -> 0 <= k -> (2 ^ (8 * k) | top_word d).
Proof.
  intros H. revert k. induction H as [|b d Hb Hd IH]; intros k Hl Hk; cbn [top_word].
  - apply Z.divide_0_r.
  - rewrite zlen_cons in Hl. pose proof (zlen_nonneg d).
    destruct (IH (k + 1)) as [q Hq]; [lia..|]. rewrite Hq.
    rewrite Z.shiftl_mul_pow2, Z.shiftr_div_pow2 by lia.
    replace (8 * (k + 1)) with (8 * k + 8) by lia. rewrite Z.pow_add_r, Z.mul_assoc by lia.
    rewrite Z.div_mul by lia.
    replace 24 with (8 * k + (24 - 8 * k)) by lia. rewrite Z.pow_add_r by lia.
    exists (b * 2 ^ (24 - 8 * k) + q). ring.
Qed.

Lemma lxor_high_low b x :
  0 <= x < 2 ^ 24 -> Z.lxor (Z.shiftl b 24) x = Z.shiftl b 24 + x.
Proof.
  intros Hx. symmetry. apply Z.add_nocarry_lxor. apply Z.bits_inj'. intros i Hi.
  rewrite Z.land_spec, Z.bits_0, Z.shiftl_spec by lia. destruct (Z.ltb_spec i 24).
  - by rewrite (Z.testbit_neg_r b) by lia.
  - by rewrite (testbit_above 24 x), andb_false_r by lia.
Qed.

(** A word with a free low byte is what the register holds one step after it entered. *)
Lemma crc32_shift_free x :
  0 <= x < 2 ^ 32 -> (2 ^ 8 | x) -> crc32_shift (Z.shiftr x 8) = x.
Proof.
  intros Hx [q ->]. unfold crc32_shift.
  assert (Z.shiftr (q * 2 ^ 8) 8 = q) as -> by (rewrite Z.shiftr_div_pow2 by lia; by rewrite Z.div_mul).
  assert (Z.shiftr q 24 = 0) as ->.
  { rewrite Z.shiftr_div_pow2 by lia. apply Z.div_small. lia. }
  change (nthb crc_table 0) with 0. rewrite Z.lxor_0_r, Z.shiftl_mul_pow2 by lia.
  by apply wrap_small.
Qed.

(** Up to four bytes enter the register as one word. *)
Lemma crc32_word d crc :
  bytes d -> zlen d <= 4 -> 0 <= crc < 2 ^ 32 ->
  crc32 d crc = Nat.iter (length d) crc32_shift (Z.lxor crc (top_word d)).
Proof.
  intros H. revert crc. induction H as [|b d Hb Hd IH]; intros crc Hl Hc.
  { cbn. by rewrite Z.lxor_0_r. }
  rewrite zlen_cons in Hl. pose proof (zlen_nonneg d).
  cbn [crc32 length top_word]. rewrite Nat.iter_succ_r, IH by first [lia|by apply crc32_byte_range].
  f_equal. rewrite crc32_byte_shift by done. pose proof (top_word_range d Hd) as Hr.
  assert (0 <= Z.shiftr (top_word d) 8 < 2 ^ 24) as Hs by (apply shiftr_range; lia).
  rewrite <- lxor_high_low, <- Z.lxor_assoc by done.
  rewrite (crc32_shift_lxor (Z.lxor _ _)) by
    first [lia | by apply lxor_range, byte_top_range].
  rewrite (crc32_shift_free (top_word d)); [done..|].
  destruct (top_word_div d (4 - zlen d) Hd) as [q ->]; [lia..|].
  replace (8 * (4 - zlen d)) with (8 * (3 - zlen d) + 8) by lia. rewrite Z.pow_add_r by lia.
  exists (q * 2 ^ (8 * (3 - zlen d))). ring.
Qed.

Lemma top_word_inj d e :
  bytes d -> bytes e -> zlen d = zlen e -> zlen d <= 4 -> top_word d = top_word e -> d = e.
Proof.
  intros H. revert e. induction H as [|b d Hb Hd IH]; intros [|c e] He Hl Hl4 E;
    try (unfold zlen in Hl; discriminate Hl); [done|].
  rewrite !zlen_cons in *. inversion He as [|? ? Hc He']; subst. clear He.
  pose proof (zlen_nonneg d). cbn [top_word] in E.
  pose proof (top_word_range d Hd) as Hr1. pose proof (top_word_range e He') as Hr2.
  pose proof (shiftr_range (top_word d) 24 8 ltac:(lia) ltac:(lia) Hr1) as Hs1.
  pose proof (shiftr_range (top_word e) 24 8 ltac:(lia) ltac:(lia) Hr2) as Hs2.
  rewrite !Z.shiftl_mul_pow2 in E by lia.
  assert (b = c) as -> by lia. f_equal. apply IH; [done|lia|lia|].
  destruct (top_word_div d (4 - zlen d) Hd) as [q Hq]; [lia..|].
  destruct (top_word_div e (4 - zlen d) He') as [q' Hq']; [lia..|].
  replace (8 * (4 - zlen d)) with (8 * (3 - zlen d) + 8) in * by lia.
  rewrite Z.pow_add_r, Z.mul_assoc in * by lia.
  rewrite Hq, Hq', !Z.shiftr_div_pow2, !Z.div_mul in E by lia. lia.
Qed.

(** C37: CRC-32 as coded detects every change confined to four consecutive bytes. *)
Theorem crc32_detects_burst pre d e post crc :
  bytes pre -> bytes d -> bytes e -> bytes post -> 0 <= crc < 2 ^ 32 ->
  length d = length e -> (length d <= 4)%nat -> d <> e ->
  crc32 (pre ++ d ++ post) crc <> crc32 (pre ++ e ++ post) crc.
Proof.
  intros Hp Hd He Hq Hc Hl Hl4 Hne E. apply Hne. rewrite !crc32_app in E.
  pose proof (crc32_range pre crc Hp Hc) as Hr.
  apply crc32_inj_crc in E; [|done|by apply crc32_range..].
  assert (zlen d = zlen e /\ zlen d <= 4) as [Hz Hz4] by (unfold zlen; lia).
  rewrite (crc32_word d), (crc32_word e), <- Hl in E by lia || done.
  set (n := length d) in E. clearbody n. revert E.
  pose proof (top_word_range d Hd). pose proof (top_word_range e He).
  set (x := Z.lxor _ (top_word d)). set (y := Z.lxor _ (top_word e)). intros E.
  assert (forall z m, 0 <= z < 2 ^ 32 -> 0 <= Nat.iter m crc32_shift z < 2 ^ 32) as Hit.
  { intros z m Hz'. induction m; simpl; [done|]. by apply crc32_shift_range. }
  assert (x = y) as Exy.
  { assert (0 <= x < 2 ^ 32 /\ 0 <= y < 2 ^ 32) as [Hx Hy] by (split; by apply lxor_range).
    induction n as [|n IH]; [done|]. apply IH, crc32_shift_inj; auto. }
  apply top_word_inj; [done..|]. apply (f_equal (Z.lxor (crc32 pre crc))) in Exy.
  unfold x, y in Exy. by rewrite <- !Z.lxor_assoc, Z.lxor_nilpotent, !Z.lxor_0_l in Exy.
Qed.

Lemma crc32_detects_burst_witness :
  crc32 ([1; 2] ++ [3; 4; 5; 6] ++ [7]) 0 <> crc32 ([1; 2] ++ [3; 4; 5; 7] ++ [7]) 0.
Proof.
  apply (crc32_detects_burst [1; 2] [3; 4; 5; 6] [3; 4; 5; 7] [7] 0);
    first [repeat constructor; lia | discriminate | reflexivity | lia].
Defined.

End Crc.
