(* ===== verification/Flash.v ===== *)
(** * The flash device as its clients see it

    The interface between the storage components ([Nvds], [Ota]) and the flash
    driver [src/gd32_os/MSDK/plf/src/raw_flash/raw_flash_api.c]: three calls, and
    the laws of a NOR flash on a window of offsets. [RawFlash] proves that the
    driver implements the interface; [sim] is a concrete device, with programmable
    failures, on which closed examples run. *)
From S2P Require Import Prelude.
Open Scope Z_scope.

(** ** The interface *)

Class Flash (F : Type) := {
  flash_read : F -> Z -> Z -> Z * list Z * F;
  flash_write : F -> Z -> list Z -> Z * F;
  flash_erase : F -> Z -> Z -> Z * F;
  (** The window of offsets the client owns, its bytes, and the driver's own invariant. *)
  fl_lo : Z;
  fl_hi : Z;
  fl_mem : F -> list Z;
  fl_inv : F -> Prop
}.

(** Programming can only clear bits. *)
Definition nor (old new : list Z) : list Z := zip_with Z.land old new.

(** Some bits of [old] may have been cleared. *)
Definition cleared (old new : Z) : Prop := Z.land old new = new.

Definition SECTOR : Z := 4096.

Class FlashLaws (F : Type) `{Flash F} := {
  fl_window : 0 <= fl_lo <= fl_hi /\ fl_hi <= 2 ^ 31;
  fl_mem_len f : fl_inv f -> zlen (fl_mem f) = fl_hi - fl_lo;
  fl_mem_bytes f : fl_inv f -> bytes (fl_mem f);
  fl_read_ok f off n :
    fl_inv f -> fl_lo <= off -> 0 < n -> off + n <= fl_hi ->
    flash_read f off n = (0, slice (off - fl_lo) n (fl_mem f), f);
  fl_write_ok f off d r f' :
    fl_inv f -> fl_lo <= off -> 0 < zlen d -> off + zlen d <= fl_hi -> bytes d ->
    flash_write f off d = (r, f') ->
    fl_inv f' /\
    (r = 0 -> fl_mem f' =
       splice (off - fl_lo) (nor (slice (off - fl_lo) (zlen d) (fl_mem f)) d) (fl_mem f)) /\
    (forall i, 0 <= i < fl_hi - fl_lo ->
       if (off - fl_lo <=? i) && (i <? off - fl_lo + zlen d)
       then cleared (nthb (fl_mem f) i) (nthb (fl_mem f') i)
       else nthb (fl_mem f') i = nthb (fl_mem f) i);
  fl_erase_ok f off n r f' :
    fl_inv f -> fl_lo <= off -> 0 < n -> off + n <= fl_hi ->
    (SECTOR | off) -> (SECTOR | n) ->
    flash_erase f off n = (r, f') ->
    fl_inv f' /\
    (r = 0 -> fl_mem f' = splice (off - fl_lo) (replicate (Z.to_nat n) 0xFF) (fl_mem f)) /\
    (forall i, 0 <= i < fl_hi - fl_lo -> ~ (off - fl_lo <= i < off - fl_lo + n) ->
       nthb (fl_mem f') i = nthb (fl_mem f) i)
}.

(** From the states in [good] the device does not fail, and stays in [good]. *)
Record reliable {F : Type} `{Flash F} (good : F -> Prop) : Prop := {
  rel_inv f : good f -> fl_inv f;
  rel_write f off d :
    good f -> fl_lo <= off -> 0 < zlen d -> off + zlen d <= fl_hi -> bytes d ->
    exists f', flash_write f off d = (0, f') /\ good f';
  rel_erase f off n :
    good f -> fl_lo <= off -> 0 < n -> off + n <= fl_hi -> (SECTOR | off) -> (SECTOR | n) ->
    exists f', flash_erase f off n = (0, f') /\ good f'
}.

(** ** NOR programming *)

Lemma zlen_nor o n : zlen o = zlen n -> zlen (nor o n) = zlen n.
Proof. unfold zlen, nor. intros. rewrite length_zip_with. lia. Qed.

Lemma nthb_nor o n i :
  zlen o = zlen n -> 0 <= i -> nthb (nor o n) i = Z.land (nthb o i) (nthb n i).
Proof.
  unfold zlen, nor, nthb. intros Hl Hi. generalize (Z.to_nat i). revert n Hl.
  induction o as [|a o IH]; intros [|b n] Hl [|k]; simpl in *; try lia; [done..|].
  apply IH. lia.
Qed.

Lemma land_byte_range a b : 0 <= a < 256 -> 0 <= b < 256 -> 0 <= Z.land a b < 256.
Proof. intros. apply (land_range 8); lia. Qed.

Lemma bytes_nor o n : bytes o -> bytes n -> bytes (nor o n).
Proof.
  unfold nor. intros Ho. revert n. induction Ho as [|a o Ha Ho IH]; intros [|b n] Hn; try constructor.
  - inv Hn. by apply land_byte_range.
  - inv Hn. by apply IH.
Qed.

Lemma land_FF b : 0 <= b < 256 -> Z.land 0xFF b = b.
Proof.
  intros. rewrite Z.land_comm. change 0xFF with (Z.ones 8). rewrite Z.land_ones by lia.
  by apply Z.mod_small.
Qed.

(** Programming an erased area writes the data as it is. *)
Lemma nor_erased n d :
  bytes d -> zlen d = n -> nor (replicate (Z.to_nat n) 0xFF) d = d.
Proof.
  intros Hd <-. unfold zlen. rewrite Nat2Z.id. unfold nor.
  induction Hd as [|b d Hb _ IH]; [done|]. cbn [length replicate zip_with].
  by rewrite land_FF, IH.
Qed.

Lemma cleared_refl a : cleared a a.
Proof. apply Z.land_diag. Qed.

Lemma cleared_trans a b c : cleared a b -> cleared b c -> cleared a c.
Proof. unfold cleared. intros H1 <-. rewrite Z.land_assoc, H1. done. Qed.

Lemma cleared_land a b : cleared a (Z.land a b).
Proof. unfold cleared. by rewrite Z.land_assoc, Z.land_diag. Qed.

(** ** The memory as a function of the offset *)

Definition mem_slice (m : Z -> Z) (off n : Z) : list Z := m <$> seqZ off n.

Lemma zlen_mem_slice m off n : 0 <= n -> zlen (mem_slice m off n) = n.
Proof. intros. unfold zlen, mem_slice. rewrite length_fmap, length_seqZ. lia. Qed.

Lemma nthb_mem_slice m off n i : 0 <= i < n -> nthb (mem_slice m off n) i = m (off + i).
Proof.
  intros. unfold nthb, mem_slice. rewrite nth_lookup_0, list_lookup_fmap, lookup_seqZ_lt by lia.
  simpl. f_equal. lia.
Qed.

Lemma slice_mem_slice m off n o k :
  0 <= o -> 0 <= k -> o + k <= n -> slice o k (mem_slice m off n) = mem_slice m (off + o) k.
Proof.
  intros. apply list_eq_nthb; rewrite zlen_slice; rewrite ?zlen_mem_slice; try lia.
  intros i Hi. rewrite nthb_slice, !nthb_mem_slice by lia. f_equal. lia.
Qed.

(** [l] programmed at [off] into the memory [m]. *)
Definition programmed (m : Z -> Z) (off : Z) (l : list Z) (i : Z) : Z :=
  if (off <=? i) && (i <? off + zlen l) then Z.land (m i) (nthb l (i - off)) else m i.

Lemma programmed_app m off l k i :
  programmed (programmed m off l) (off + zlen l) k i = programmed m off (l ++ k) i.
Proof.
  unfold programmed. rewrite zlen_app. pose proof (zlen_nonneg l). pose proof (zlen_nonneg k).
  repeat if_split; try lia; try done.
  - rewrite nthb_app_r by lia. do 2 f_equal. lia.
  - by rewrite nthb_app_l by lia.
Qed.

Lemma programmed_trans m0 m1 m2 off off' l k :
  off' = off + zlen l -> (forall i, m1 i = programmed m0 off l i) ->
  (forall i, m2 i = programmed m1 off' k i) -> forall i, m2 i = programmed m0 off (l ++ k) i.
Proof.
  intros -> H1 H2 i. rewrite H2, <- programmed_app. unfold programmed at 1 2. by rewrite !H1.
Qed.

Lemma programmed_nil m off i : programmed m off [] i = m i.
Proof. unfold programmed. rewrite zlen_nil. repeat if_split; try lia; done. Qed.

(** A range erased. *)
Definition erased (m : Z -> Z) (off n : Z) (i : Z) : Z := if (off <=? i) && (i <? off + n) then 0xFF else m i.

(** ** A device to run examples on *)

Module Sim.

(** [faults]: for each coming write or erase, whether it fails before doing
    anything; [false] once the list is used up. *)
Record sim := mk_sim { mem : list Z; faults : list bool }.

Definition next_fault (s : sim) : bool * sim :=
  match faults s with
  | [] => (false, s)
  | b :: l => (b, mk_sim (mem s) l)
  end.

Section Device.
Variables lo hi : Z.
Hypothesis window : 0 <= lo <= hi /\ hi <= 2 ^ 31.

Definition read (s : sim) (off n : Z) : Z * list Z * sim := (0, slice (off - lo) n (mem s), s).
Definition write (s : sim) (off : Z) (d : list Z) : Z * sim :=
  let '(b, s) := next_fault s in
  if b then (-1, s)
  else (0, mk_sim (splice (off - lo) (nor (slice (off - lo) (zlen d) (mem s)) d) (mem s)) (faults s)).
Definition erase (s : sim) (off n : Z) : Z * sim :=
  let '(b, s) := next_fault s in
  if b then (-1, s)
  else (0, mk_sim (splice (off - lo) (replicate (Z.to_nat n) 0xFF) (mem s)) (faults s)).

#[local] Instance sim_flash : Flash sim := {|
  flash_read := read; flash_write := write; flash_erase := erase;
  fl_lo := lo; fl_hi := hi; fl_mem := mem;
  fl_inv s := zlen (mem s) = hi - lo /\ bytes (mem s)
|}.

Lemma next_fault_mem s : mem (next_fault s).2 = mem s.
Proof. unfold next_fault. by destruct (faults s). Qed.

Definition sim_good (s : sim) : Prop := faults s = [] /\ zlen (mem s) = hi - lo /\ bytes (mem s).

Lemma sim_laws : FlashLaws sim.
Proof.
  constructor; cbn [fl_inv fl_mem fl_lo fl_hi flash_read flash_write flash_erase sim_flash].
  - exact window.
  - tauto.
  - tauto.
  - intros s off n Hinv. intros. done.
  - intros s off d r s' [Hl Hb] H1 H2 H3 Hd. unfold write.
    pose proof (next_fault_mem s) as Hm. destruct (next_fault s) as [b s1]. cbn [snd] in Hm.
    destruct b; intros [= <- <-]; cbn [mem].
    { rewrite Hm. repeat split; [done..|]. intros. repeat if_split; auto using cleared_refl. }
    rewrite Hm. assert (zlen (slice (off - lo) (zlen d) (mem s)) = zlen d) as Hs.
    { apply zlen_slice; lia. }
    assert (zlen (nor (slice (off - lo) (zlen d) (mem s)) d) = zlen d) as Hn by by apply zlen_nor.
    split; [|split; [done|]].
    { split; [rewrite zlen_splice; lia|]. auto using bytes_splice, bytes_nor, bytes_slice. }
    intros i Hi. rewrite nthb_splice, Hn by lia. if_split; [|done]. if_split.
    + rewrite nthb_nor, nthb_slice by lia.
      replace (off - lo + (i - (off - lo))) with i by lia. apply cleared_land.
    + done.
  - intros s off n r s' [Hl Hb] H1 H2 H3 _ _. unfold erase.
    pose proof (next_fault_mem s) as Hm. destruct (next_fault s) as [b s1]. cbn [snd] in Hm.
    destruct b; intros [= <- <-]; cbn [mem]; rewrite Hm.
    { repeat split; done. }
    pose proof (zlen_replicate n 0xFF ltac:(lia)) as Hr.
    split; [|split; [done|]].
    { split; [rewrite zlen_splice; lia|]. apply bytes_splice; [done|].
      apply Forall_replicate. lia. }
    intros i Hi Hn. rewrite nthb_splice, Hr by lia. repeat if_split; lia.
Qed.

Lemma sim_reliable : reliable sim_good.
Proof.
  pose proof sim_laws as L. constructor.
  - by intros s (_ & ? & ?).
  - intros s off d (Hf & Hl & Hb) H1 H2 H3 Hd. cbn [flash_write sim_flash].
    destruct (write s off d) as [r s'] eqn:E.
    pose proof (fl_write_ok s off d r s' (conj Hl Hb) H1 H2 H3 Hd E) as ((? & ?) & _).
    unfold write, next_fault in E. rewrite Hf in E. injection E as <- <-.
    eexists. split; [done|]. done.
  - intros s off n (Hf & Hl & Hb) H1 H2 H3 Ho Hn. cbn [flash_erase sim_flash].
    destruct (erase s off n) as [r s'] eqn:E.
    pose proof (fl_erase_ok s off n r s' (conj Hl Hb) H1 H2 H3 Ho Hn E) as ((? & ?) & _).
    unfold erase, next_fault in E. rewrite Hf in E. injection E as <- <-.
    eexists. split; [done|]. done.
Qed.
End Device.
End Sim.
