(* ===== verification/RawFlash.v ===== *)
(** * The flash driver

    Model of [src/gd32_os/MSDK/plf/src/raw_flash/raw_flash_api.c]: range checks,
    the remapping of reads when the firmware runs from the other image, word-wise
    programming, and the erase callbacks. The ROM routines and the flash
    controller are the class [Rom]; the driver implements the interface [Flash]. *)
From S2P Require Import Prelude Flash.
Open Scope Z_scope.

(** ** Flash layout ([config_gdm32.h]) *)

Definition FLASH_TOTAL_SIZE : Z := 0x400000.
Definition FLASH_BASE : Z := 0x08000000.
Definition RE_IMG_0_OFFSET : Z := 0xA000.
Definition RE_IMG_1_OFFSET : Z := 0x1EA000.
Definition RE_IMG_1_END : Z := 0x3CA000.

(** ** The controller and the ROM *)

(** The offset-region registers [FMC_OFRG] (start and end page) and [FMC_OFVR]. *)
Record regs := mk_regs { of_spage : Z; of_epage : Z; of_value : Z }.

Inductive raw_erase_type_t := RAW_FLASH_ERASE_BLE_PRE_HANDLE | RAW_FLASH_ERASE_BLE_AFTER_HANDLE.

Definition FMC_READY : Z := 0.

Class Rom (D : Type) := {
  rom_flash_read : regs -> D -> Z -> Z -> Z * list Z;
  rom_flash_write : D -> Z -> list Z -> Z * D;
  rom_flash_erase : D -> Z -> Z -> Z * D;
  fmc_ready_wait : D -> Z * D;
  (** A word stored at a flash address while programming is enabled. *)
  fmc_store : D -> Z -> list Z -> D;
  (** The bytes of the chip, by physical offset. *)
  rom_mem : D -> Z -> Z
}.

(** The physical offset a read of [i] reaches. *)
Definition phys (r : regs) (i : Z) : Z :=
  let page := Z.shiftr i 12 in
  if (of_spage r <=? page) && (page <=? of_epage r) then i + of_value r * 4096 else i.

(** What the reference manual says of the controller and the ROM. *)
Class RomLaws (D : Type) `{Rom D} := {
  rom_bytes d i : 0 <= rom_mem d i < 256;
  rom_read_ok r d off n :
    0 <= off -> 0 < n -> off + n <= FLASH_TOTAL_SIZE ->
    rom_flash_read r d off n = (0, (fun i => rom_mem d (phys r i)) <$> seqZ off n);
  rom_write_ok d off l st d' :
    0 <= off -> off + zlen l <= FLASH_TOTAL_SIZE -> rom_flash_write d off l = (st, d') ->
    (st = 0 -> forall i, rom_mem d' i =
       if (off <=? i) && (i <? off + zlen l) then Z.land (rom_mem d i) (nthb l (i - off))
       else rom_mem d i) /\
    (forall i, if (off <=? i) && (i <? off + zlen l) then cleared (rom_mem d i) (rom_mem d' i)
               else rom_mem d' i = rom_mem d i);
  rom_erase_ok d off n st d' :
    0 <= off -> off + n <= FLASH_TOTAL_SIZE -> (SECTOR | off) -> (SECTOR | n) ->
    rom_flash_erase d off n = (st, d') ->
    (st = 0 -> forall i, rom_mem d' i =
       if (off <=? i) && (i <? off + n) then 0xFF else rom_mem d i) /\
    (forall i, ~ off <= i < off + n -> rom_mem d' i = rom_mem d i);
  fmc_wait_ok d : rom_mem (fmc_ready_wait d).2 = rom_mem d;
  fmc_store_ok d a w i :
    zlen w = 4 -> (4 | a) ->
    rom_mem (fmc_store d (FLASH_BASE + a) w) i =
      if (a <=? i) && (i <? a + 4) then Z.land (rom_mem d i) (nthb w (i - a)) else rom_mem d i
}.

Module RawFlash.

Section Driver.
Context {D : Type} `{Rom D}.

(** The chip, its registers, [raw_erase_cb_list], and the callbacks made so far. *)
Record world := mk_world {
  dev : D;
  fmc : regs;
  raw_erase_cb_list : list Z;
  calls : list (Z * raw_erase_type_t)
}.

Definition set_dev (w : world) (d : D) : world :=
  mk_world d (fmc w) (raw_erase_cb_list w) (calls w).
Definition set_fmc (w : world) (r : regs) : world :=
  mk_world (dev w) r (raw_erase_cb_list w) (calls w).

Definition raw_flash_init (w : world) : world := mk_world (dev w) (fmc w) [] (calls w).

Definition raw_flash_total_size : Z := FLASH_TOTAL_SIZE.
Definition raw_flash_is_valid_offset (offset : Z) : bool := offset <? raw_flash_total_size.
Definition raw_flash_is_valid_addr (addr : Z) : bool :=
  (FLASH_BASE <=? addr) && (addr <? FLASH_BASE + raw_flash_total_size).

Definition fmc_offset_region_config (w : world) (of_spage of_epage : Z) : world :=
  set_fmc w (mk_regs of_spage of_epage (of_value (fmc w))).
Definition fmc_offset_value_config (w : world) (v : Z) : world :=
  set_fmc w (mk_regs (of_spage (fmc w)) (of_epage (fmc w)) v).

Definition raw_flash_offset_mapping (w : world) (of_spage of_epage of_value : Z) : world :=
  fmc_offset_value_config (fmc_offset_region_config w of_spage of_epage) of_value.

Definition rom_read (w : world) (offset len : Z) : Z * list Z :=
  rom_flash_read (fmc w) (dev w) offset len.

(** The check at the head of the read and write calls; [data] is not [NULL]. *)
Definition bad_range (offset len : Z) : bool :=
  negb (raw_flash_is_valid_offset offset) || (len <=? 0) ||
  negb (raw_flash_is_valid_offset (u32 (offset + len - 1))).

Definition raw_flash_read (w : world) (offset len : Z) : Z * list Z * world :=
  let fmc_ofvr_temp := of_value (fmc w) in
  if bad_range offset len then (-1, [], w)
  else if 0 <? fmc_ofvr_temp then
    if (RE_IMG_0_OFFSET <=? offset) && (offset <? RE_IMG_1_OFFSET) then
      let w := fmc_offset_value_config w 0 in
      let '(ret, data) := rom_read w offset len in
      let w := fmc_offset_value_config w fmc_ofvr_temp in
      (ret, data, w)
    else if (RE_IMG_1_OFFSET <=? offset) && (offset <? RE_IMG_1_END) then
      (rom_read w (u32 (offset - (RE_IMG_1_OFFSET - RE_IMG_0_OFFSET))) len, w)
    else (rom_read w offset len, w)
  else
    if (RE_IMG_1_OFFSET <=? offset) && (offset <? RE_IMG_1_END) then
      let w := fmc_offset_region_config w (Z.shiftr RE_IMG_0_OFFSET 12) (Z.shiftr RE_IMG_1_OFFSET 12 - 1) in
      let w := fmc_offset_value_config w (Z.shiftr (RE_IMG_1_OFFSET - RE_IMG_0_OFFSET) 12) in
      let '(ret, data) := rom_read w (u32 (offset - (RE_IMG_1_OFFSET - RE_IMG_0_OFFSET))) len in
      let w := fmc_offset_region_config w 0x1fff 0 in
      let w := fmc_offset_value_config w 0 in
      (ret, data, w)
    else (rom_read w offset len, w).

Definition raw_flash_write (w : world) (offset : Z) (data : list Z) : Z * world :=
  if bad_range offset (zlen data) then (-1, w)
  else let '(r, d) := rom_flash_write (dev w) offset data in
       (if negb (r =? 0) then -1 else 0, set_dev w d).

(** Callbacks are the addresses of their functions; 0 is not called. *)
Definition raw_flash_erase_handler (w : world) (type : raw_erase_type_t) : world :=
  mk_world (dev w) (fmc w) (raw_erase_cb_list w)
    (calls w ++ ((fun c => (c, type)) <$> filter (fun c => c <> 0) (raw_erase_cb_list w))).

Definition raw_flash_erase_handler_register (w : world) (callback : Z) (malloc_ok : bool)
  : Z * world :=
  if bool_decide (callback ∈ raw_erase_cb_list w) then (0, w)
  else if negb malloc_ok then (-1, w)
  else (0, mk_world (dev w) (fmc w) (raw_erase_cb_list w ++ [callback]) (calls w)).

Definition raw_flash_erase_handler_unregister (w : world) (callback : Z) : world :=
  mk_world (dev w) (fmc w)
    (filter (fun c => ~ (c <> 0 /\ c = callback)) (raw_erase_cb_list w)) (calls w).

Definition raw_flash_erase (w : world) (offset len : Z) : Z * world :=
  if bad_range offset len then (-1, w)
  else
    let w := raw_flash_erase_handler w RAW_FLASH_ERASE_BLE_PRE_HANDLE in
    let '(ret, d) := rom_flash_erase (dev w) offset len in
    let w := set_dev w d in
    let w := raw_flash_erase_handler w RAW_FLASH_ERASE_BLE_AFTER_HANDLE in
    (ret, w).

(** [fmc_continuous_program]: [n] words of [data] from [address]. *)
Fixpoint program_words (d : D) (address : Z) (data : list Z) (n : nat) : D :=
  match n with
  | O => d
  | S n => program_words (fmc_store d address (slice 0 4 data)) (u32 (address + 4)) (drop 4 data) n
  end.

Definition fmc_continuous_program (d : D) (address : Z) (data : list Z) (size : Z) : Z * D :=
  let '(st, d) := fmc_ready_wait d in
  if st =? FMC_READY then (st, program_words d address data (Z.to_nat (size / 4))) else (st, d).

Definition raw_flash_write_fast (w : world) (offset : Z) (data : list Z) : Z * world :=
  let len := zlen data in
  if bad_range offset len then (-1, w)
  else if len <=? 4 then raw_flash_write w offset data
  else
    let r := 4 - Z.land offset 3 in
    let rr := Z.land (u32 (offset + len)) 3 in
    let r := if r =? 4 then 0 else r in
    let '(ret, w) :=
      if negb (r =? 0) then raw_flash_write w offset (slice 0 r data) else (0, w) in
    if negb (ret =? 0) then (ret, w)
    else
      let '(ret, d) :=
        fmc_continuous_program (dev w) (u32 (FLASH_BASE + offset + r)) (slice r (len - r) data)
          (len - r - rr) in
      let w := set_dev w d in
      if negb (rr =? 0) then
        raw_flash_write w (u32 (offset + len - rr)) (slice (len - rr) rr data)
      else (ret, w).

End Driver.
Arguments world : clear implicits.

(** ** Reads reach the physical bytes, whichever image is running *)

(** The registers as the boot loader leaves them: reset values for image 0, the
    remapped region for image 1 ([flash_offset_mapping] of [MBL/mainboot/mbl.c]). *)
Definition regs_image0 : regs := mk_regs 0x1fff 0 0.
Definition regs_image1 : regs :=
  mk_regs (Z.shiftr RE_IMG_0_OFFSET 12) (Z.shiftr RE_IMG_1_OFFSET 12 - 1)
          (Z.shiftr (RE_IMG_1_OFFSET - RE_IMG_0_OFFSET) 12).
Definition boot_regs (r : regs) : Prop := r = regs_image0 \/ r = regs_image1.

(** The four areas of the chip a transfer must not straddle. *)
Inductive zone : Z -> Z -> Prop :=
  | zone_low : zone 0 RE_IMG_0_OFFSET
  | zone_img0 : zone RE_IMG_0_OFFSET RE_IMG_1_OFFSET
  | zone_img1 : zone RE_IMG_1_OFFSET RE_IMG_1_END
  | zone_high : zone RE_IMG_1_END FLASH_TOTAL_SIZE.

Ltac layout :=
  unfold FLASH_TOTAL_SIZE, RE_IMG_0_OFFSET, RE_IMG_1_OFFSET, RE_IMG_1_END, FLASH_BASE in *.

Section Reads.
Context {D : Type} `{RomLaws D}.
Implicit Type w : world D.

Lemma phys_no_value r i : of_value r = 0 -> phys r i = i.
Proof. intros E. unfold phys. rewrite E. repeat if_split; lia. Qed.

Lemma phys_image0 i : 0 <= i -> phys regs_image0 i = i.
Proof. intros. by apply phys_no_value. Qed.

Lemma page_le i k : 0 <= i -> (k <=? Z.shiftr i 12) = (k * 4096 <=? i).
Proof.
  intros. rewrite Z.shiftr_div_pow2 by lia. change (2 ^ 12) with 4096.
  destruct (Z.leb_spec (k * 4096) i).
  - apply Z.leb_le. apply Z.div_le_lower_bound; lia.
  - apply Z.leb_gt. apply Z.div_lt_upper_bound; lia.
Qed.

Lemma page_ge i k : 0 <= i -> (Z.shiftr i 12 <=? k) = (i <? (k + 1) * 4096).
Proof.
  intros. rewrite Z.shiftr_div_pow2 by lia. change (2 ^ 12) with 4096.
  destruct (Z.ltb_spec i ((k + 1) * 4096)).
  - apply Z.leb_le. apply Z.lt_succ_r, Z.div_lt_upper_bound; lia.
  - apply Z.leb_gt. apply Z.lt_le_trans with (k + 1); [lia|]. apply Z.div_le_lower_bound; lia.
Qed.

Lemma phys_image1 i :
  0 <= i ->
  phys regs_image1 i =
    if (RE_IMG_0_OFFSET <=? i) && (i <? RE_IMG_1_OFFSET) then i + (RE_IMG_1_OFFSET - RE_IMG_0_OFFSET) else i.
Proof. intros. unfold phys. rewrite page_le, page_ge by done. done. Qed.

Lemma rom_read_map w off n f :
  0 <= off -> 0 < n -> off + n <= FLASH_TOTAL_SIZE ->
  (forall i, off <= i < off + n -> phys (fmc w) i = i + f) ->
  rom_read w off n = (0, mem_slice (rom_mem (dev w)) (off + f) n).
Proof.
  intros Ho Hn Ht Hp. unfold rom_read. rewrite rom_read_ok by done. f_equal.
  unfold mem_slice. apply list_eq. intros k. rewrite !list_lookup_fmap.
  destruct (decide (Z.of_nat k < n)).
  - rewrite !lookup_seqZ_lt by lia. simpl. rewrite Hp by lia. do 2 f_equal. lia.
  - rewrite !lookup_seqZ_ge by lia. done.
Qed.

Lemma good_range off n :
  0 <= off -> 0 < n -> off + n <= FLASH_TOTAL_SIZE -> bad_range off n = false.
Proof.
  intros. unfold bad_range, raw_flash_is_valid_offset, raw_flash_total_size. layout. unwrap.
  rewrite !(proj2 (Z.ltb_lt _ _)) by lia. destruct (Z.leb_spec n 0); [lia|]. done.
Qed.

(** With the registers as the boot loader leaves them, a read inside one area returns the
    physical bytes at its offset and restores the registers, from either image. *)
Lemma read_physical w a b off n :
  boot_regs (fmc w) -> zone a b -> a <= off -> 0 < n -> off + n <= b ->
  raw_flash_read w off n = (0, mem_slice (rom_mem (dev w)) off n, w).
Proof.
  intros Hr Hz Ha Hn Hb. unfold raw_flash_read.
  rewrite good_range by (destruct Hz; layout; lia).
  destruct w as [d r cbs cs]. cbn [fmc dev] in *.
  destruct Hr as [->| ->]; cbn [of_value regs_image0 regs_image1]; cbn [Z.ltb Z.compare].
  - destruct Hz; layout; repeat if_split; try lia; unwrap.
    1,2,4: rewrite (rom_read_map _ _ _ 0) by (layout; first [lia | intros; cbn; rewrite phys_image0; lia]);
      cbn [dev fmc]; by rewrite Z.add_0_r.
    unfold fmc_offset_value_config, fmc_offset_region_config, set_fmc. cbn [dev fmc raw_erase_cb_list calls of_spage of_epage of_value].
    rewrite (rom_read_map _ _ _ 0x1E0000); layout; cbn [dev fmc]; try lia.
    + by replace (off - (0x1EA000 - 0xA000) + 0x1E0000) with off by lia.
    + intros i Hi. change (mk_regs _ _ _) with regs_image1. rewrite phys_image1 by lia.
      layout. repeat if_split; lia.
  - destruct (Z.ltb_spec 0 (Z.shiftr (RE_IMG_1_OFFSET - RE_IMG_0_OFFSET) 12)) as [_|Hbad];
      [|exfalso; revert Hbad; vm_compute; by intros []].
    destruct Hz; layout; repeat if_split; try lia; unwrap.
    + rewrite (rom_read_map _ _ _ 0); layout; cbn [dev fmc]; try lia.
      * by rewrite Z.add_0_r.
      * intros i Hi. rewrite phys_image1 by lia. layout. repeat if_split; lia.
    + unfold fmc_offset_value_config, set_fmc. cbn [dev fmc raw_erase_cb_list calls of_spage of_epage of_value regs_image1].
      rewrite (rom_read_map _ _ _ 0); layout; cbn [dev fmc]; try lia.
      * by rewrite Z.add_0_r.
      * intros i Hi. rewrite phys_no_value by done. lia.
    + rewrite (rom_read_map _ _ _ 0x1E0000); layout; cbn [dev fmc]; try lia.
      * by replace (off - (0x1EA000 - 0xA000) + 0x1E0000) with off by lia.
      * intros i Hi. rewrite phys_image1 by lia. layout. repeat if_split; lia.
    + rewrite (rom_read_map _ _ _ 0); layout; cbn [dev fmc]; try lia.
      * by rewrite Z.add_0_r.
      * intros i Hi. rewrite phys_image1 by lia. layout. repeat if_split; lia.
Qed.

(** With the registers as the boot loader leaves them, a read inside one area returns the
    physical bytes at its offset and restores the registers, from either image. *)
Theorem raw_flash_read_physical w a b off n :
  boot_regs (fmc w) -> zone a b -> a <= off -> 0 < n -> off + n <= b ->
  raw_flash_read w off n = (0, mem_slice (rom_mem (dev w)) off n, w).
Proof. apply read_physical. Qed.
End Reads.

(** ** Programming *)

Section Writes.
Context {D : Type} `{RomLaws D}.
Implicit Type w : world D.

Lemma program_words_spec n : forall d a data i,
  0 <= a -> a + 4 * Z.of_nat n <= FLASH_TOTAL_SIZE -> (4 | a) -> 4 * Z.of_nat n <= zlen data ->
  rom_mem (program_words d (FLASH_BASE + a) data n) i =
    programmed (rom_mem d) a (slice 0 (4 * Z.of_nat n) data) i.
Proof.
  induction n as [|n IH]; intros d a data i Ha Ht H4 Hl; cbn [program_words].
  { unfold programmed. rewrite slice_nil, zlen_nil. repeat if_split; try lia; done. }
  assert (u32 (FLASH_BASE + a + 4) = FLASH_BASE + (a + 4)) as ->.
  { layout. rewrite wrap32_small; lia. }
  assert (zlen (slice 0 4 data) = 4) as Hs by (apply zlen_slice; lia).
  assert (zlen (drop 4 data) = zlen data - 4) as Hd by (unfold zlen in *; rewrite length_drop; lia).
  rewrite IH; rewrite ?Hd; try lia; [|by apply Z.divide_add_r; [|exists 1]].
  replace (a + 4) with (a + zlen (slice 0 4 data)) by lia.
  transitivity (programmed (programmed (rom_mem d) a (slice 0 4 data))
                  (a + zlen (slice 0 4 data)) (slice 0 (4 * Z.of_nat n) (drop 4 data)) i).
  { unfold programmed at 1 2. rewrite (fmc_store_ok _ _ _ _ Hs H4).
    unfold programmed. by rewrite Hs. }
  rewrite programmed_app. f_equal.
  replace (4 * Z.of_nat (S n)) with (4 + 4 * Z.of_nat n) by lia.
  rewrite slice_app_split by lia. done.
Qed.

(** An area of the flash. *)
Context (lo hi : Z) (Hwin : 0 <= lo /\ hi <= FLASH_TOTAL_SIZE).

(** From the states in [good] every ROM call on the area succeeds and stays in [good]. *)
Record reliable (good : D -> Prop) : Prop := {
  rel_write d off l : good d -> lo <= off -> off + zlen l <= hi -> exists d', rom_flash_write d off l = (0, d') /\ good d';
  rel_wait d : good d -> exists d', fmc_ready_wait d = (FMC_READY, d') /\ good d';
  rel_store d a l : good d -> lo <= a -> a + 4 <= hi -> good (fmc_store d (FLASH_BASE + a) l)
}.

Context (good : D -> Prop).

Lemma raw_flash_write_programs w off l :
  reliable good -> good (dev w) -> lo <= off -> 0 < zlen l -> off + zlen l <= hi ->
  exists d, raw_flash_write w off l = (0, set_dev w d) /\ good d /\
    forall i, rom_mem d i = programmed (rom_mem (dev w)) off l i.
Proof.
  intros Hr Hg Ho Hl Ht. unfold raw_flash_write. rewrite good_range by lia.
  destruct (rel_write _ Hr (dev w) off l Hg Ho Ht) as (d & E & Hg'). rewrite E.
  destruct (rom_write_ok (dev w) off l 0 d ltac:(lia) ltac:(lia) E) as [Hok _].
  exists d. split; [done|]. split; [done|]. by apply Hok.
Qed.

Lemma program_words_good n d a data :
  reliable good -> good d -> lo <= a -> a + 4 * Z.of_nat n <= hi -> good (program_words d (FLASH_BASE + a) data n).
Proof.
  intros Hr. revert d a data. induction n as [|n IH]; intros d a data Hg Hl Hh; cbn [program_words]; [done|].
  assert (u32 (FLASH_BASE + a + 4) = FLASH_BASE + (a + 4)) as -> by (layout; rewrite wrap32_small; lia).
  apply IH; [apply (rel_store _ Hr); [done|lia..]|lia|lia].
Qed.

Lemma continuous_program_spec d a data size :
  reliable good -> good d -> lo <= a -> (4 | a) -> (4 | size) -> 0 <= size <= zlen data ->
  a + size <= hi ->
  exists d', fmc_continuous_program d (FLASH_BASE + a) data size = (FMC_READY, d') /\ good d' /\
    forall i, rom_mem d' i = programmed (rom_mem d) a (slice 0 size data) i.
Proof.
  intros Hr Hg Ha H4 [k ->] Hs Ht. unfold fmc_continuous_program.
  destruct (rel_wait _ Hr d Hg) as (d1 & E & Hg1). pose proof (fmc_wait_ok d) as Hm.
  rewrite E in *. cbn [fst snd Z.eqb FMC_READY] in *.
  eexists. split; [done|]. split; [apply program_words_good; try done; rewrite Z.div_mul, Z2Nat.id by lia; lia|]. intros i. rewrite Z.div_mul by lia.
  rewrite program_words_spec by (done || lia). rewrite Z2Nat.id by lia.
  unfold programmed. by rewrite Hm, (Z.mul_comm k).
Qed.

Lemma land3_mod x : Z.land x 3 = x mod 4.
Proof. change 3 with (Z.ones 2). by rewrite Z.land_ones by lia. Qed.

(** The unaligned bytes before the first word. *)
Lemma fast_head w off r l :
  reliable good -> good (dev w) ->
  lo <= off -> 0 <= r <= zlen l -> 0 < zlen l -> off + zlen l <= hi ->
  exists d,
    (if negb (r =? 0) then raw_flash_write w off (slice 0 r l) else (0, w)) = (0, set_dev w d) /\
    good d /\
    forall i, rom_mem d i = programmed (rom_mem (dev w)) off (slice 0 r l) i.
Proof.
  intros Hr Hg Ho Hrl Hl Ht. destruct (Z.eqb_spec r 0) as [->|E]; cbn [negb].
  - exists (dev w). split; [by destruct w|]. split; [done|]. intros i. by rewrite slice_nil, programmed_nil.
  - apply raw_flash_write_programs; rewrite ?zlen_slice by lia; done || lia.
Qed.

(** The first word starts at an aligned address. *)
Lemma fast_aligned off : let r0 := 4 - off mod 4 in let r := if r0 =? 4 then 0 else r0 in 0 <= r < 4 /\ (4 | off + r).
Proof.
  intros r0 r. pose proof (Z.mod_pos_bound off 4 ltac:(lia)). pose proof (Z.div_mod off 4 ltac:(lia)). unfold r, r0.
  destruct (Z.eqb_spec (4 - off mod 4) 4); (split; [lia|]); [exists (off / 4)|exists (off / 4 + 1)]; lia.
Qed.

(** The word-wise write programs its bytes. *)
Lemma write_fast_programs w off l :
  reliable good -> good (dev w) -> lo <= off -> 0 < zlen l -> off + zlen l <= hi ->
  exists d, raw_flash_write_fast w off l = (0, set_dev w d) /\ good d /\
    forall i, rom_mem d i = programmed (rom_mem (dev w)) off l i.
Proof.
  intros Hr Hg Ho Hl Ht.
  unfold raw_flash_write_fast. rewrite good_range by lia.
  destruct (Z.leb_spec (zlen l) 4) as [|H4]; [by apply raw_flash_write_programs|].
  rewrite !land3_mod, (wrap32_small (off + zlen l)) by (layout; lia).
  set (r0 := 4 - off mod 4). set (r := if r0 =? 4 then 0 else r0).
  set (rr := (off + zlen l) mod 4). set (sz := zlen l - r - rr).
  pose proof (Z.mod_pos_bound (off + zlen l) 4 ltac:(lia)) as Hm2. fold rr in Hm2.
  destruct (fast_aligned off) as [Hrr Hal]. fold r0 in Hrr, Hal. fold r in Hrr, Hal.
  assert ((4 | sz)) as Hsz.
  { replace sz with (off + zlen l - rr - (off + r)) by lia. apply Z.divide_sub_r; [|done].
    unfold rr. exists ((off + zlen l) / 4). rewrite (Z.div_mod (off + zlen l) 4) at 1 by lia. lia. }
  assert (0 <= sz) as Hsz0 by (destruct Hsz; lia).
  destruct (fast_head w off r l Hr Hg) as (da & -> & Hga & Ha); [lia..|].
  cbn [Z.eqb negb dev set_dev].
  rewrite (wrap32_small (FLASH_BASE + off + r)) by (layout; lia). rewrite <- Z.add_assoc.
  destruct (continuous_program_spec da (off + r) (slice r (zlen l - r) l) sz) as (db & -> & Hgb & Hb);
    rewrite ?zlen_slice by lia; try (done || lia).
  rewrite slice_slice, Z.add_0_r in Hb by lia.
  assert (off + r = off + zlen (slice 0 r l)) as Ez by (rewrite zlen_slice; lia).
  pose proof (programmed_trans _ _ _ _ _ _ _ Ez Ha Hb) as Hab.
  rewrite <- (slice_app_split 0 r sz) in Hab by lia.
  destruct (Z.eqb_spec rr 0) as [E|E]; cbn [negb].
  - exists db. split; [done|]. split; [done|]. intros i. rewrite Hab.
    replace (r + sz) with (zlen l) by lia. by rewrite slice_all.
  - rewrite (wrap32_small (off + zlen l - rr)) by (layout; lia).
    destruct (raw_flash_write_programs (set_dev (set_dev w da) db) (off + zlen l - rr)
                (slice (zlen l - rr) rr l) Hr Hgb) as (dc & -> & Hgc & Hc);
      rewrite ?zlen_slice by lia; try lia.
    exists dc. split; [done|]. split; [done|]. intros i.
    assert (off + zlen l - rr = off + zlen (slice 0 (r + sz) l)) as Ez2 by (rewrite zlen_slice; lia).
    rewrite (programmed_trans _ _ _ _ _ _ _ Ez2 Hab Hc).
    replace (zlen l - rr) with (0 + (r + sz)) by lia. rewrite <- slice_app_split by lia.
    replace (r + sz + rr) with (zlen l) by lia. by rewrite slice_all.
Qed.

(** C34: when the chip reports no error, the word-wise write leaves the same flash as the plain
    write of the same bytes, and both report success. *)
Theorem write_fast_equiv w off l :
  reliable good -> good (dev w) -> lo <= off -> 0 < zlen l -> off + zlen l <= hi ->
  exists d1 d2, raw_flash_write_fast w off l = (0, set_dev w d1) /\
    raw_flash_write w off l = (0, set_dev w d2) /\
    forall i, rom_mem d1 i = rom_mem d2 i.
Proof.
  intros Hr Hg Ho Hl Ht.
  destruct (raw_flash_write_programs w off l Hr Hg Ho Hl Ht) as (d2 & E2 & _ & Hd2).
  destruct (write_fast_programs w off l Hr Hg Ho Hl Ht) as (d1 & E1 & _ & Hd1).
  exists d1, d2. split; [done|]. split; [done|]. intros i. by rewrite Hd1, Hd2.
Qed.

End Writes.

(** ** A concrete chip, for the closed examples *)

(** [wr_fault] makes the ROM writes fail; [waits] are the states the next waits for the
    controller end with, [FMC_READY] once they are used up. *)
Record chip := mk_chip { cells : Z -> Z; wr_fault : bool; waits : list Z }.

Definition chip_mem (c : chip) (i : Z) : Z := u8 (cells c i).

#[export] Instance chip_rom : Rom chip := {|
  rom_flash_read r c off n := (0, (fun i => chip_mem c (phys r i)) <$> seqZ off n);
  rom_flash_write c off l :=
    if wr_fault c then (-1, c)
    else (0, mk_chip (programmed (chip_mem c) off l) (wr_fault c) (waits c));
  rom_flash_erase c off n :=
    (0, mk_chip (fun i => if (off <=? i) && (i <? off + n) then 0xFF else cells c i)
                (wr_fault c) (waits c));
  fmc_ready_wait c :=
    match waits c with
    | [] => (FMC_READY, c)
    | st :: ws => (st, mk_chip (cells c) (wr_fault c) ws)
    end;
  fmc_store c a w :=
    mk_chip (programmed (chip_mem c) (a - FLASH_BASE) w) (wr_fault c) (waits c);
  rom_mem := chip_mem
|}.

Lemma chip_programmed c off l f ws i :
  chip_mem (mk_chip (programmed (chip_mem c) off l) f ws) i = programmed (chip_mem c) off l i.
Proof.
  unfold chip_mem at 1. cbn [cells]. apply wrap8_small.
  assert (forall j, 0 <= chip_mem c j < 256) as Hb by (intros; apply u8_range).
  unfold programmed. repeat if_split; try apply Hb. by apply (land_range 8).
Qed.

#[export] Instance chip_laws : RomLaws chip.
Proof.
  constructor; cbn [rom_mem rom_flash_read rom_flash_write rom_flash_erase fmc_ready_wait fmc_store chip_rom].
  - intros. apply u8_range.
  - done.
  - intros c off l st c' _ _ E. destruct (wr_fault c); injection E as <- <-.
    + split; [done|]. intros i. repeat if_split; [apply cleared_refl|done..].
    + split; [intros _ i; by rewrite chip_programmed|]. intros i. rewrite chip_programmed.
      unfold programmed. repeat if_split; [apply cleared_land|done..].
  - intros c off n st c' _ _ _ _ E. injection E as <- <-. unfold chip_mem. cbn [cells].
    split; [intros _ i|intros i Hi]; repeat if_split; try done; lia.
  - intros c. by destruct (waits c).
  - intros c a w i Hw H4. replace (FLASH_BASE + a - FLASH_BASE) with a by lia.
    rewrite chip_programmed. unfold programmed. by rewrite Hw.
Qed.

Definition blank_chip (ws : list Z) : chip := mk_chip (fun _ => 0xFF) false ws.

Definition chip_world (c : chip) (r : regs) : world chip := mk_world c r [] [].

Lemma raw_flash_read_physical_witness :
  let w := chip_world (mk_chip (fun i => i) false []) regs_image1 in
  boot_regs (fmc w) /\ zone RE_IMG_0_OFFSET RE_IMG_1_OFFSET /\
  raw_flash_read w 0xA003 4 = (0, [3; 4; 5; 6], w).
Proof.
  intros w. assert (boot_regs (fmc w)) as Hr by by right.
  split; [exact Hr|]. split; [constructor|].
  exact (raw_flash_read_physical w _ _ 0xA003 4 Hr zone_img0 ltac:(layout; lia) ltac:(lia) ltac:(layout; lia)).
Defined.

Definition chip_good (c : chip) : Prop := wr_fault c = false /\ waits c = [].

Lemma chip_reliable lo hi : reliable lo hi chip_good.
Proof.
  constructor; cbn [rom_flash_write fmc_ready_wait fmc_store chip_rom].
  - intros [m f ws] off l [Hf Hw]. cbn in *. subst. eexists. split; [done|]. done.
  - intros [m f ws] [Hf Hw]. cbn in *. subst. eexists. split; [done|]. done.
  - intros [m f ws] a l [Hf Hw]. cbn in *. subst. done.
Qed.

Lemma write_fast_equiv_witness :
  exists d1 d2,
    raw_flash_write_fast (chip_world (blank_chip []) regs_image0) 0x3FB003 [1; 2; 3; 4; 5; 6; 7] =
      (0, set_dev (chip_world (blank_chip []) regs_image0) d1) /\
    raw_flash_write (chip_world (blank_chip []) regs_image0) 0x3FB003 [1; 2; 3; 4; 5; 6; 7] =
      (0, set_dev (chip_world (blank_chip []) regs_image0) d2) /\
    forall i, rom_mem d1 i = rom_mem d2 i.
Proof.
  apply (write_fast_equiv 0 FLASH_TOTAL_SIZE ltac:(layout; lia) chip_good (chip_world (blank_chip []) regs_image0) 0x3FB003 [1; 2; 3; 4; 5; 6; 7]);
    first [apply chip_reliable | done | vm_compute; congruence].
Defined.

(** The word-wise write reports success although the controller refused to program the words,
    when unaligned bytes follow them: their write overwrites the recorded error. *)
Theorem write_fast_hides_failure :
  let w := chip_world (blank_chip [3]) regs_image0 in
  (fmc_continuous_program (dev w) (FLASH_BASE + 0x3FB000) [1; 2; 3; 4; 5] 4).1 = 3 /\
  (raw_flash_write_fast w 0x3FB000 [1; 2; 3; 4; 5]).1 = 0 /\
  mem_slice (rom_mem (dev (raw_flash_write_fast w 0x3FB000 [1; 2; 3; 4; 5]).2)) 0x3FB000 5 =
    [0xFF; 0xFF; 0xFF; 0xFF; 5].
Proof. vm_compute. auto. Qed.

(** ** The driver implements the flash interface above the images

    The window is the user-data area, where the NVDS store lives: it is outside the
    remapped region, so reads need no detour. *)

Section Interface.
Context {D : Type} `{RomLaws D}.

#[local] Instance raw_flash : Flash (world D) := {|
  flash_read := raw_flash_read;
  flash_write := raw_flash_write;
  flash_erase := raw_flash_erase;
  fl_lo := RE_IMG_1_END;
  fl_hi := FLASH_TOTAL_SIZE;
  fl_mem w := mem_slice (rom_mem (dev w)) RE_IMG_1_END (FLASH_TOTAL_SIZE - RE_IMG_1_END);
  fl_inv w := boot_regs (fmc w)
|}.

Lemma raw_erase_dev w off n r w' :
  0 <= off -> 0 < n -> off + n <= FLASH_TOTAL_SIZE -> raw_flash_erase w off n = (r, w') ->
  rom_flash_erase (dev w) off n = (r, dev w') /\ fmc w' = fmc w.
Proof.
  intros. unfold raw_flash_erase in *. rewrite good_range in * by done.
  unfold raw_flash_erase_handler in *. cbn [dev set_dev fmc] in *.
  destruct (rom_flash_erase (dev w) off n) as [st d]. simplify_eq. done.
Qed.

(** C33: over any chip whose ROM keeps its documented laws, the driver's read, write and erase
    are a NOR flash on the user-data window, while the registers are as the boot loader left them. *)
Theorem raw_flash_laws : FlashLaws (world D).
Proof.
  constructor; cbn [fl_lo fl_hi fl_mem fl_inv flash_read flash_write flash_erase raw_flash].
  - layout. lia.
  - intros w _. apply zlen_mem_slice. layout. lia.
  - intros w _. unfold mem_slice, bytes. rewrite Forall_fmap. apply Forall_true.
    intros. apply rom_bytes.
  - intros w off n Hinv H1 H2 H3.
    rewrite (read_physical w _ _ off n Hinv zone_high H1 H2 H3). do 2 f_equal.
    rewrite slice_mem_slice by lia. f_equal. lia.
  - intros w off l r w' Hinv H1 H2 H3 Hb E. unfold raw_flash_write in E.
    rewrite good_range in E by (layout; lia).
    destruct (rom_flash_write (dev w) off l) as [st d] eqn:Ew. injection E as <- <-.
    assert (0 <= off) as H0' by (layout; lia).
    destruct (rom_write_ok _ _ _ _ _ H0' H3 Ew) as [Hok Hall].
    split; [done|]. cbn [dev set_dev]. split.
    + destruct (Z.eqb_spec st 0) as [->|]; [|done]. intros _. specialize (Hok eq_refl).
      assert (zlen (slice (off - RE_IMG_1_END) (zlen l)
                (mem_slice (rom_mem (dev w)) RE_IMG_1_END (FLASH_TOTAL_SIZE - RE_IMG_1_END))) = zlen l) as Hs.
      { apply zlen_slice; rewrite ?zlen_mem_slice; lia. }
      apply list_eq_nthb; rewrite ?zlen_splice, ?zlen_nor, ?zlen_mem_slice by
        (rewrite ?zlen_nor, ?zlen_mem_slice; lia); [done|].
      intros i Hi. rewrite nthb_splice; rewrite ?zlen_nor, ?zlen_mem_slice; try lia.
      rewrite !nthb_mem_slice, Hok by lia. repeat if_split; try lia.
      rewrite nthb_nor, nthb_slice, nthb_mem_slice by lia. do 2 f_equal; lia.
    + intros i Hi. rewrite !nthb_mem_slice by lia. specialize (Hall (RE_IMG_1_END + i)).
      repeat if_split; repeat if_split_in Hall; try lia; done.
  - intros w off n r w' Hinv H1 H2 H3 Ho Hn E.
    apply raw_erase_dev in E as [Ew Ef]; [|layout; lia..].
    assert (0 <= off) as H0' by (layout; lia).
    destruct (rom_erase_ok _ _ _ _ _ H0' H3 Ho Hn Ew) as [Hok Hall].
    split; [by rewrite Ef|]. split.
    + intros ->. specialize (Hok eq_refl).
      pose proof (zlen_replicate n 0xFF ltac:(lia)) as Hr.
      apply list_eq_nthb; rewrite ?zlen_splice, ?zlen_mem_slice by
        (rewrite ?Hr, ?zlen_mem_slice; lia); [done|].
      intros i Hi. rewrite nthb_splice; rewrite ?Hr, ?zlen_mem_slice; try lia.
      rewrite !nthb_mem_slice, Hok by lia. repeat if_split; try lia.
      unfold nthb. rewrite nth_lookup_0, lookup_replicate_2 by lia. done.
    + intros i Hi Hni. rewrite !nthb_mem_slice by lia. apply Hall. lia.
Qed.
End Interface.

Lemma raw_flash_laws_witness : FlashLaws (world chip) (H := raw_flash).
Proof. exact (raw_flash_laws (D := chip)). Defined.

End RawFlash.
