(* ===== verification/Boot.v ===== *)
(** * The boot loader

    Model of [src/gd32_os/MBL/mainboot/mbl_image_validate.c] and of [main] of
    [src/gd32_os/MBL/mainboot/mbl.c]: which of the two images is booted, its validation,
    and the status flags that record the outcome. Clocks, the serial port and the
    set-up of the cryptographic library leave no trace in the state. *)
From S2P Require Import Prelude Flash RawFlash.
Open Scope Z_scope.

(** ** The status flags of an image ([rom_image.h], [rom_sys.h]) *)

Definition IMG_FLAG_NEWER_MASK : Z := 0x01.
Definition IMG_FLAG_VERIFY_MASK : Z := 0x06.
Definition IMG_FLAG_IA_MASK : Z := 0x18.
Definition IMG_FLAG_OLDER : Z := 0x0.
Definition IMG_FLAG_NEWER : Z := 0x1.
Definition IMG_FLAG_VERIFY_OK : Z := 0x2.
Definition IMG_FLAG_VERIFY_FAIL : Z := 0x4.
Definition IMG_FLAG_IA_OK : Z := 0x8.
Definition IMG_FLAG_IA_FAIL : Z := 0x10.

Definition SYS_STATUS_FOUND_OK : Z := 0.
Definition SYS_STATUS_NOT_FOUND : Z := -1.
Definition SYS_STATUS_FOUND_ERR : Z := -2.
Definition SYS_IMAGE0_STATUS : Z := 3.
Definition SYS_IMAGE1_STATUS : Z := 4.
Definition SYS_RUNNING_IMG : Z := 5.
Definition SYS_XMODEM_FLAG : Z := 16.
Definition IMAGE_0 : Z := 0.
Definition IMAGE_1 : Z := 1.
Definition IMG_TYPE_IMG : Z := 2.
Definition IMG_OK : Z := 0.
Definition IBL_VERIFY_NONE : Z := 0.
Definition IBL_VERIFY_IMG_ONLY : Z := 1.
Definition IBL_VERIFY_CERT_IMG : Z := 3.
Definition IMG_HEADER_SIZE : Z := 32.

(** ** The ROM *)

(** The system calls of the ROM: items of one byte, [None] if nothing was stored; the
    checks of an image read it through the address mapping. *)
Class SysRom (D : Type) := {
  rom_sys_status_get : D -> Z -> Z * option Z;
  rom_sys_status_set : D -> Z -> Z -> Z * D;
  rom_sys_set_img_flag : D -> Z -> Z -> Z -> Z * D;
  rom_sys_set_running_img : D -> Z -> Z * D;
  rom_sys_set_fw_ver : D -> Z -> Z -> Z * D;
  rom_img_validate : regs -> D -> Z -> Z -> Z * Z;
  rom_cert_img_validate : regs -> D -> Z -> Z -> Z * Z;
  xmodem_start : D -> Z -> D
}.

Module Boot.
Import RawFlash.

(** How a run of the boot loader ends. *)
Inductive outcome := Jump (start_addr : Z) | SoftwareReset | NoImageBoot.

Section Loader.
Context {D : Type} `{Rom D, SysRom D}.
Implicit Type w : world D.

(** The build's [RE_MBL_OFFSET]: 0 if the chip boots the loader itself, else the ROM boots it. *)
Context (RE_MBL_OFFSET : Z).

Definition IMG_OVERHEAD_LEN : Z := if RE_MBL_OFFSET =? 0 then 0 else 0x200.

Definition mask_is (stat mask flag : Z) : bool := Z.land stat mask =? flag.

(** The two tests of an image that [boot_image_find] makes. *)
Definition newer_untainted (stat : Z) : bool :=
  mask_is stat IMG_FLAG_NEWER_MASK IMG_FLAG_NEWER &&
  (negb (mask_is stat IMG_FLAG_VERIFY_MASK IMG_FLAG_VERIFY_FAIL) &&
   negb (mask_is stat IMG_FLAG_IA_MASK IMG_FLAG_IA_FAIL)).
Definition proven (stat : Z) : bool :=
  mask_is stat IMG_FLAG_VERIFY_MASK IMG_FLAG_VERIFY_OK && mask_is stat IMG_FLAG_IA_MASK IMG_FLAG_IA_OK.

(** The result, and the index and the offset of the image. *)
Definition boot_image_find (d : D) : Z * (Z * Z) * D :=
  let selected idx d := (0, (idx, RE_IMG_0_OFFSET + IMG_OVERHEAD_LEN), d) in
  let failed result := (result, (0, 0), d) in
  let '(ret, v) := rom_sys_status_get d SYS_IMAGE0_STATUS in
  let img0_stat := default 0 v in
  if ret <=? SYS_STATUS_FOUND_ERR then failed (-2)
  else
    let img0_found := ret =? SYS_STATUS_FOUND_OK in
    let '(ret, v) := rom_sys_status_get d SYS_IMAGE1_STATUS in
    let img1_stat := default 0 v in
    if ret <=? SYS_STATUS_FOUND_ERR then failed (-3)
    else
      let img1_found := ret =? SYS_STATUS_FOUND_OK in
      if negb img0_found && img1_found then failed (-4)
      else if negb img0_found && negb img1_found then
        selected IMAGE_0 (rom_sys_set_img_flag d IMAGE_0 IMG_FLAG_NEWER_MASK IMG_FLAG_NEWER).2
      else if img0_found && newer_untainted img0_stat then selected IMAGE_0 d
      else if img1_found && newer_untainted img1_stat then selected IMAGE_1 d
      else if img0_found && proven img0_stat then selected IMAGE_0 d
      else if img1_found && proven img1_stat then selected IMAGE_1 d
      else failed (-5).

(** [uninit] is the version in the record the check fills, if no check runs. *)
Definition image_x_validate (w : world D) (img_offset boot_opt uninit : Z) : Z * world D :=
  if boot_opt =? IBL_VERIFY_NONE then (0, w)
  else
    let '(result, version) :=
      if boot_opt =? IBL_VERIFY_CERT_IMG then
        let '(ret, version) := rom_cert_img_validate (fmc w) (dev w) img_offset IMG_TYPE_IMG in
        (if negb (ret =? IMG_OK) then -3 else 0, version)
      else if boot_opt =? IBL_VERIFY_IMG_ONLY then
        let '(ret, version) := rom_img_validate (fmc w) (dev w) img_offset IMG_TYPE_IMG in
        (if negb (ret =? IMG_OK) then -4 else 0, version)
      else (0, uninit) in
    if negb (result =? 0) then (result, w)
    else
      let '(ret, d) := rom_sys_set_fw_ver (dev w) IMG_TYPE_IMG version in
      let w := set_dev w d in
      (if ret <? 0 then -5 else 0, w).

Definition flash_offset_mapping (w : world D) : world D :=
  let w := fmc_offset_region_config w (Z.shiftr RE_IMG_0_OFFSET 12) (Z.shiftr RE_IMG_1_OFFSET 12 - 1) in
  fmc_offset_value_config w (Z.shiftr (RE_IMG_1_OFFSET - RE_IMG_0_OFFSET) 12).

(** The wait for a download over the serial line at the start of [main]. *)
Definition xmodem (d : D) : D :=
  let '(ret, v) := rom_sys_status_get d SYS_XMODEM_FLAG in
  if ret =? SYS_STATUS_FOUND_OK then
    if negb (default 0 v =? 0) then
      xmodem_start (rom_sys_status_set d SYS_XMODEM_FLAG 0).2 0xffffffff
    else xmodem_start d 100000
  else xmodem_start d 100000.

(** [ibl]: the options the ROM left in memory, if its magic number is there. *)
Definition main (ibl : option Z) (uninit : Z) (w : world D) : outcome * world D :=
  let ibl_opt := default 0 ibl in
  let w := set_dev w (xmodem (dev w)) in
  let '(ret, (boot_idx, image_offset), d) := boot_image_find (dev w) in
  let w := set_dev w d in
  if ret <? 0 then (NoImageBoot, w)
  else
    let w := if boot_idx =? IMAGE_1 then flash_offset_mapping w else w in
    let '(ret, w) := image_x_validate w (image_offset - IMG_HEADER_SIZE) (u8 ibl_opt) uninit in
    if ret <? 0 then
      (SoftwareReset, set_dev w (rom_sys_set_img_flag (dev w) boot_idx IMG_FLAG_VERIFY_MASK IMG_FLAG_VERIFY_FAIL).2)
    else
      let w := set_dev w (rom_sys_set_img_flag (dev w) boot_idx IMG_FLAG_VERIFY_MASK IMG_FLAG_VERIFY_OK).2 in
      let w := set_dev w (rom_sys_set_running_img (dev w) boot_idx).2 in
      (Jump (FLASH_BASE + image_offset), w).

End Loader.
End Boot.
