(* ===== verification/BootSpec.v ===== *)
(** * The boot loader's decisions

    An abstract loader on the status of the two images, what is known of the ROM, and the
    refinement; then: the loader resets at most twice, what it runs passed its check, and
    an image that fails is not run again. *)
From S2P Require Import Prelude Flash RawFlash Boot.
Open Scope Z_scope.

(** ** The status area *)

(** The stored status of the images, the running image and the version counter. *)
Record sys := mk_sys { img0 : option Z; img1 : option Z; running : option Z; counter : Z }.

Definition status (s : sys) (idx : Z) : option Z := if idx =? IMAGE_0 then img0 s else img1 s.
Definition set_status (idx v : Z) (s : sys) : sys :=
  if idx =? IMAGE_0 then mk_sys (Some v) (img1 s) (running s) (counter s)
  else mk_sys (img0 s) (Some v) (running s) (counter s).
Definition set_running (idx : Z) (s : sys) : sys := mk_sys (img0 s) (img1 s) (Some idx) (counter s).
Definition set_counter (v : Z) (s : sys) : sys := mk_sys (img0 s) (img1 s) (running s) v.

Definition is_img (idx : Z) : Prop := idx = IMAGE_0 \/ idx = IMAGE_1.

Definition masked (old mask flag : Z) : Z := Z.lor (Z.land old (Z.lnot mask)) flag.

(** [rom_sys_set_img_flag] writes the bits of the mask. *)
Definition set_flag (idx mask flag : Z) (s : sys) : sys :=
  set_status idx (masked (default 0 (status s idx)) mask flag) s.

(** The memory of the images. *)
Definition same_images (m1 m2 : Z -> Z) : Prop := forall i, RE_IMG_0_OFFSET <= i < RE_IMG_1_END -> m1 i = m2 i.

(** What the loader and the update rely on: the status area works and is apart from the
    images, no host is at the serial line, and the checks of the ROM are functions of what
    it reads of the image. *)
Class SysRomLaws (D : Type) `{Rom D, SysRom D} := {
  sys_of : D -> sys;
  check_img : (Z -> Z) -> Z -> Z -> Z * Z;
  check_cert : (Z -> Z) -> Z -> Z -> Z * Z;
  status_get_ok d idx : is_img idx ->
    rom_sys_status_get d (SYS_IMAGE0_STATUS + idx) =
      match status (sys_of d) idx with Some v => (SYS_STATUS_FOUND_OK, Some v) | None => (SYS_STATUS_NOT_FOUND, None) end;
  running_get_ok d :
    rom_sys_status_get d SYS_RUNNING_IMG =
      match running (sys_of d) with Some v => (SYS_STATUS_FOUND_OK, Some v) | None => (SYS_STATUS_NOT_FOUND, None) end;
  set_flag_ok d idx mask flag : is_img idx ->
    exists d', rom_sys_set_img_flag d idx mask flag = (0, d') /\
      sys_of d' = set_flag idx mask flag (sys_of d) /\ same_images (rom_mem d') (rom_mem d);
  set_running_ok d idx : is_img idx ->
    exists d', rom_sys_set_running_img d idx = (0, d') /\
      sys_of d' = set_running idx (sys_of d) /\ same_images (rom_mem d') (rom_mem d);
  set_fw_ver_ok d v :
    exists r d', rom_sys_set_fw_ver d IMG_TYPE_IMG v = (r, d') /\ (r < 0 <-> v < counter (sys_of d)) /\
      sys_of d' = (if v <? counter (sys_of d) then sys_of d else set_counter v (sys_of d)) /\
      same_images (rom_mem d') (rom_mem d);
  set_xmodem_ok d :
    sys_of (rom_sys_status_set d SYS_XMODEM_FLAG 0).2 = sys_of d /\
    same_images (rom_mem (rom_sys_status_set d SYS_XMODEM_FLAG 0).2) (rom_mem d);
  xmodem_idle d t : sys_of (xmodem_start d t) = sys_of d /\ same_images (rom_mem (xmodem_start d t)) (rom_mem d);
  validate_ok r d off : rom_img_validate r d off IMG_TYPE_IMG = check_img (fun i => rom_mem d (phys r i)) off IMG_TYPE_IMG;
  cert_validate_ok r d off :
    rom_cert_img_validate r d off IMG_TYPE_IMG = check_cert (fun i => rom_mem d (phys r i)) off IMG_TYPE_IMG;
  check_img_local m1 m2 off :
    (forall i, RE_IMG_0_OFFSET <= i < RE_IMG_1_OFFSET -> m1 i = m2 i) -> RE_IMG_0_OFFSET <= off < RE_IMG_1_OFFSET ->
    check_img m1 off IMG_TYPE_IMG = check_img m2 off IMG_TYPE_IMG;
  check_cert_local m1 m2 off :
    (forall i, RE_IMG_0_OFFSET <= i < RE_IMG_1_OFFSET -> m1 i = m2 i) -> RE_IMG_0_OFFSET <= off < RE_IMG_1_OFFSET ->
    check_cert m1 off IMG_TYPE_IMG = check_cert m2 off IMG_TYPE_IMG
}.

Module BootSpec.
Import RawFlash Boot.

(** ** The abstract loader *)

(** Which image is booted: the newer one unless it is known to fail, else one that was
    verified and accepted before. *)
Definition select (s0 s1 : option Z) : option Z :=
  match s0, s1 with
  | None, None => Some IMAGE_0
  | None, Some _ => None
  | Some v0, _ =>
      if newer_untainted v0 then Some IMAGE_0
      else if from_option newer_untainted false s1 then Some IMAGE_1
      else if proven v0 then Some IMAGE_0
      else if from_option proven false s1 then Some IMAGE_1
      else None
  end.

(** An empty status area is marked for image 0. *)
Definition claim (s : sys) : sys :=
  match img0 s, img1 s with
  | None, None => set_flag IMAGE_0 IMG_FLAG_NEWER_MASK IMG_FLAG_NEWER s
  | _, _ => s
  end.

(** [verdict]: for each image, the version if its check accepts it. *)
Definition spec_main (verdict : Z -> option Z) (checks : bool) (s : sys) : option (Z * bool) * sys :=
  match select (img0 s) (img1 s) with
  | None => (None, s)
  | Some idx =>
      let s := claim s in
      let accepted := negb checks || match verdict idx with Some v => counter s <=? v | None => false end in
      let s := match verdict idx with
               | Some v => if checks && (counter s <=? v) then set_counter v s else s
               | None => s
               end in
      if accepted then
        (Some (idx, true), set_running idx (set_flag idx IMG_FLAG_VERIFY_MASK IMG_FLAG_VERIFY_OK s))
      else (Some (idx, false), set_flag idx IMG_FLAG_VERIFY_MASK IMG_FLAG_VERIFY_FAIL s)
  end.

Definition out_of (overhead : Z) (o : option (Z * bool)) : outcome :=
  match o with
  | None => NoImageBoot
  | Some (_, true) => Jump (FLASH_BASE + (RE_IMG_0_OFFSET + overhead))
  | Some (_, false) => SoftwareReset
  end.

Definition boot_fmc (idx : Z) : regs := if idx =? IMAGE_1 then regs_image1 else regs_image0.

(** The slot of an image. *)
Definition slot (idx : Z) : Z := if idx =? IMAGE_1 then RE_IMG_1_OFFSET else RE_IMG_0_OFFSET.
Definition slot_size : Z := RE_IMG_1_OFFSET - RE_IMG_0_OFFSET.

Section Refinement.
Context {D : Type} `{Rom D, SysRom D, !SysRomLaws D}.
Implicit Type w : world D.
Context (RE_MBL_OFFSET uninit : Z).

(** The memory of an image as the loader sees it, at the offsets of image 0. *)
Definition view (m : Z -> Z) (idx : Z) (i : Z) : Z := m (i + (slot idx - RE_IMG_0_OFFSET)).

(** What the check [opt] says of an image: its version, unless it is refused. *)
Definition verdict (opt : Z) (m : Z -> Z) (idx : Z) : option Z :=
  let off := RE_IMG_0_OFFSET + IMG_OVERHEAD_LEN RE_MBL_OFFSET - IMG_HEADER_SIZE in
  let of_check (r : Z * Z) := if r.1 =? IMG_OK then Some r.2 else None in
  if opt =? IBL_VERIFY_CERT_IMG then of_check (check_cert (view m idx) off IMG_TYPE_IMG)
  else if opt =? IBL_VERIFY_IMG_ONLY then of_check (check_img (view m idx) off IMG_TYPE_IMG)
  else Some uninit.

(** Only a loader that the ROM started checks images. *)
Definition opt_ok (opt : Z) : Prop := RE_MBL_OFFSET = 0 -> opt = IBL_VERIFY_NONE.

Lemma same_images_trans m1 m2 m3 : same_images m1 m2 -> same_images m2 m3 -> same_images m1 m3.
Proof. intros E1 E2 i Hi. rewrite E1, E2 by done. done. Qed.

Lemma view_ext m1 m2 idx i : is_img idx -> same_images m1 m2 -> RE_IMG_0_OFFSET <= i < RE_IMG_1_OFFSET ->
  view m1 idx i = view m2 idx i.
Proof. intros Hi E Hr. apply E. unfold slot. destruct Hi as [->| ->]; cbn; layout; lia. Qed.

Lemma view_phys m idx i : is_img idx -> RE_IMG_0_OFFSET <= i < RE_IMG_1_OFFSET ->
  m (phys (boot_fmc idx) i) = view m idx i.
Proof.
  intros [->| ->] Hr; unfold boot_fmc, view, slot; cbn [Z.eqb IMAGE_0 IMAGE_1].
  - rewrite phys_image0 by (layout; lia). f_equal. lia.
  - change (if IMAGE_1 =? IMAGE_1 then regs_image1 else regs_image0) with regs_image1.
    change (if IMAGE_1 =? IMAGE_1 then RE_IMG_1_OFFSET else RE_IMG_0_OFFSET) with RE_IMG_1_OFFSET.
    rewrite phys_image1 by (layout; lia). layout. repeat if_split; try lia; done.
Qed.

Lemma header_in_slot opt : opt_ok opt -> opt <> IBL_VERIFY_NONE ->
  RE_IMG_0_OFFSET <= RE_IMG_0_OFFSET + IMG_OVERHEAD_LEN RE_MBL_OFFSET - IMG_HEADER_SIZE < RE_IMG_1_OFFSET.
Proof.
  intros Ho Hn. unfold IMG_OVERHEAD_LEN, IMG_HEADER_SIZE. case_match; bool_to_prop; [by exfalso; apply Hn, Ho|].
  layout. lia.
Qed.

Lemma verdict_local opt m1 m2 idx : opt_ok opt -> opt <> IBL_VERIFY_NONE ->
  (forall i, RE_IMG_0_OFFSET <= i < RE_IMG_1_OFFSET -> view m1 idx i = view m2 idx i) ->
  verdict opt m1 idx = verdict opt m2 idx.
Proof.
  intros Ho Hn E. pose proof (header_in_slot opt Ho Hn). unfold verdict.
  rewrite (check_cert_local (view m1 idx) (view m2 idx)) by done.
  by rewrite (check_img_local (view m1 idx) (view m2 idx)) by done.
Qed.

Lemma verdict_ext opt m1 m2 idx : opt_ok opt -> opt <> IBL_VERIFY_NONE -> is_img idx -> same_images m1 m2 ->
  verdict opt m1 idx = verdict opt m2 idx.
Proof. intros Ho Hn Hi E. apply verdict_local; [done..|]. intros. by apply view_ext. Qed.

Lemma select_img s0 s1 idx : select s0 s1 = Some idx -> is_img idx.
Proof. unfold select, is_img. intros. repeat case_match; simplify_eq; auto. Qed.

Lemma xmodem_ok d : sys_of (xmodem d) = sys_of d /\ same_images (rom_mem (xmodem d)) (rom_mem d).
Proof.
  unfold xmodem. destruct (rom_sys_status_get d SYS_XMODEM_FLAG) as [ret v].
  destruct (set_xmodem_ok d) as [E1 E2]. repeat case_match; try apply xmodem_idle.
  destruct (xmodem_idle (rom_sys_status_set d SYS_XMODEM_FLAG 0).2 0xffffffff) as [E3 E4].
  split; [by rewrite E3|by eapply same_images_trans].
Qed.

Lemma boot_image_find_ok d :
  match select (img0 (sys_of d)) (img1 (sys_of d)) with
  | None => exists r, r < 0 /\ boot_image_find RE_MBL_OFFSET d = (r, (0, 0), d)
  | Some idx => exists d', boot_image_find RE_MBL_OFFSET d =
      (0, (idx, RE_IMG_0_OFFSET + IMG_OVERHEAD_LEN RE_MBL_OFFSET), d') /\
      sys_of d' = claim (sys_of d) /\ same_images (rom_mem d') (rom_mem d)
  end.
Proof.
  pose proof (status_get_ok d IMAGE_0 (or_introl eq_refl)) as E0. pose proof (status_get_ok d IMAGE_1 (or_intror eq_refl)) as E1.
  change (SYS_IMAGE0_STATUS + IMAGE_0) with SYS_IMAGE0_STATUS in E0.
  change (SYS_IMAGE0_STATUS + IMAGE_1) with SYS_IMAGE1_STATUS in E1.
  change (status (sys_of d) IMAGE_0) with (img0 (sys_of d)) in E0. change (status (sys_of d) IMAGE_1) with (img1 (sys_of d)) in E1.
  destruct (set_flag_ok d IMAGE_0 IMG_FLAG_NEWER_MASK IMG_FLAG_NEWER (or_introl eq_refl)) as (d' & Ef & Es & Em).
  unfold boot_image_find, select, claim. rewrite E0, E1, Ef.
  destruct (img0 (sys_of d)) as [v0|] eqn:Ei0, (img1 (sys_of d)) as [v1|] eqn:Ei1; cbn [Z.leb Z.eqb Z.compare negb andb default from_option
    SYS_STATUS_FOUND_OK SYS_STATUS_NOT_FOUND SYS_STATUS_FOUND_ERR snd id];
    repeat case_match; try discriminate; eauto; simplify_eq; eexists; (split; [|reflexivity || (split; eauto; done)]); done || lia.
Qed.

Lemma image_x_validate_ok w opt idx : opt_ok opt -> is_img idx -> fmc w = boot_fmc idx ->
  exists r d, image_x_validate w (RE_IMG_0_OFFSET + IMG_OVERHEAD_LEN RE_MBL_OFFSET - IMG_HEADER_SIZE) opt uninit = (r, set_dev w d) /\
    (0 <= r <-> (negb (negb (opt =? IBL_VERIFY_NONE)) ||
       match verdict opt (rom_mem (dev w)) idx with Some v => counter (sys_of (dev w)) <=? v | None => false end) = true) /\
    sys_of d = match verdict opt (rom_mem (dev w)) idx with
               | Some v => if negb (opt =? IBL_VERIFY_NONE) && (counter (sys_of (dev w)) <=? v) then set_counter v (sys_of (dev w)) else sys_of (dev w)
               | None => sys_of (dev w)
               end /\
    same_images (rom_mem d) (rom_mem (dev w)).
Proof.
  intros Ho Hi Hf. unfold image_x_validate. destruct (Z.eqb_spec opt IBL_VERIFY_NONE) as [->|Hn]; cbn [negb andb orb].
  { exists 0, (dev w). split; [by destruct w|]. split; [lia|]. split; [by case_match|done]. }
  pose proof (header_in_slot opt Ho Hn) as Hh.
  rewrite cert_validate_ok, validate_ok, Hf.
  rewrite (check_cert_local _ (view (rom_mem (dev w)) idx)) by (intros; auto using view_phys).
  rewrite (check_img_local _ (view (rom_mem (dev w)) idx)) by (intros; auto using view_phys).
  assert (forall v, exists r d, (let '(ret, d) := rom_sys_set_fw_ver (dev w) IMG_TYPE_IMG v in
            let w := set_dev w d in (if ret <? 0 then -5 else 0, w)) = (r, set_dev w d) /\
    (0 <= r <-> (counter (sys_of (dev w)) <=? v) = true) /\
    sys_of d = (if counter (sys_of (dev w)) <=? v then set_counter v (sys_of (dev w)) else sys_of (dev w)) /\
    same_images (rom_mem d) (rom_mem (dev w))) as Hfw.
  { intros v. destruct (set_fw_ver_ok (dev w) v) as (r & d & -> & Hr & Es & Em). eexists _, d. split; [reflexivity|].
    rewrite Es. destruct (Z.leb_spec (counter (sys_of (dev w))) v), (Z.ltb_spec v (counter (sys_of (dev w)))); try lia;
      (split; [|by split]); case_match; bool_to_prop; split; try lia; done. }
  assert (forall (chk : Z * Z) err, err < 0 -> exists r d,
    (let '(result, version) := (let '(ret, version) := chk in (if negb (ret =? IMG_OK) then err else 0, version)) in
     if negb (result =? 0) then (result, w)
     else let '(ret, d) := rom_sys_set_fw_ver (dev w) IMG_TYPE_IMG version in
          let w := set_dev w d in (if ret <? 0 then -5 else 0, w)) = (r, set_dev w d) /\
    (0 <= r <-> match (if chk.1 =? IMG_OK then Some chk.2 else None) with Some v => counter (sys_of (dev w)) <=? v | None => false end = true) /\
    sys_of d = match (if chk.1 =? IMG_OK then Some chk.2 else None) with
               | Some v => if counter (sys_of (dev w)) <=? v then set_counter v (sys_of (dev w)) else sys_of (dev w)
               | None => sys_of (dev w)
               end /\
    same_images (rom_mem d) (rom_mem (dev w))) as Hchk.
  { intros [ret version] e He. cbn [fst snd]. destruct (Z.eqb_spec ret IMG_OK); cbn [negb Z.eqb]; [apply Hfw|].
    rewrite (proj2 (Z.eqb_neq e 0)) by lia. cbn [negb]. exists e, (dev w). split; [by destruct w|]. split; [|done]. split; [lia|done]. }
  unfold verdict. destruct (Z.eqb_spec opt IBL_VERIFY_CERT_IMG); [by apply Hchk|].
  destruct (Z.eqb_spec opt IBL_VERIFY_IMG_ONLY); [by apply Hchk|]. cbn [Z.eqb negb]. apply Hfw.
Qed.

(** The loader does what the abstract one does. *)
Lemma main_ok w ibl : opt_ok (u8 (default 0 ibl)) -> fmc w = regs_image0 ->
  let opt := u8 (default 0 ibl) in
  let '(o, s) := spec_main (verdict opt (rom_mem (dev w))) (negb (opt =? IBL_VERIFY_NONE)) (sys_of (dev w)) in
  exists w', main RE_MBL_OFFSET ibl uninit w = (out_of (IMG_OVERHEAD_LEN RE_MBL_OFFSET) o, w') /\
    sys_of (dev w') = s /\ same_images (rom_mem (dev w')) (rom_mem (dev w)) /\
    (forall idx b, o = Some (idx, b) -> is_img idx /\ fmc w' = boot_fmc idx).
Proof.
  intros Ho Hf opt. fold opt in Ho. unfold spec_main, main. fold opt. cbn [dev set_dev].
  destruct (xmodem_ok (dev w)) as [Ex Mx]. pose proof (boot_image_find_ok (xmodem (dev w))) as Hb. rewrite Ex in Hb.
  destruct (select (img0 (sys_of (dev w))) (img1 (sys_of (dev w)))) as [idx|] eqn:Esel.
  2:{ destruct Hb as (r & Hr & ->). rewrite (proj2 (Z.ltb_lt _ _)) by done. eexists. split; [reflexivity|]. by cbn [dev set_dev]. }
  destruct Hb as (d1 & -> & Es1 & M1). cbn [Z.ltb Z.compare].
  pose proof (select_img _ _ _ Esel) as Hi. cbn [dev set_dev].
  set (w1 := if idx =? IMAGE_1 then flash_offset_mapping (set_dev (set_dev w (xmodem (dev w))) d1) else set_dev (set_dev w (xmodem (dev w))) d1).
  assert (dev w1 = d1 /\ fmc w1 = boot_fmc idx) as [Ed Ew].
  { unfold w1, boot_fmc. destruct (idx =? IMAGE_1); [done|]. split; [done|]. exact Hf. }
  destruct (image_x_validate_ok w1 opt idx Ho Hi Ew) as (r & d2 & -> & Hr & Es2 & M2). rewrite Ed in *.
  assert (same_images (rom_mem d1) (rom_mem (dev w))) as M1' by (by eapply same_images_trans).
  assert (opt <> IBL_VERIFY_NONE -> verdict opt (rom_mem d1) idx = verdict opt (rom_mem (dev w)) idx) as Hv
    by (intros; by apply verdict_ext).
  cbv zeta. cbn [dev set_dev fmc].
  assert (sys_of d2 = match verdict opt (rom_mem (dev w)) idx with
               | Some v => if negb (opt =? IBL_VERIFY_NONE) && (counter (claim (sys_of (dev w))) <=? v)
                           then set_counter v (claim (sys_of (dev w))) else claim (sys_of (dev w))
               | None => claim (sys_of (dev w)) end /\
    (0 <= r <-> negb (negb (opt =? IBL_VERIFY_NONE)) ||
       match verdict opt (rom_mem (dev w)) idx with Some v => counter (claim (sys_of (dev w))) <=? v | None => false end = true)) as [Es Hacc].
  { rewrite <- Es1. destruct (Z.eqb_spec opt IBL_VERIFY_NONE) as [En|En].
    - cbn [negb andb orb] in *. split; [|done]. rewrite Es2. by repeat case_match.
    - rewrite <- Hv by done. by split. }
  destruct (Z.ltb_spec r 0) as [Hlt|Hge].
  - assert (negb (negb (opt =? IBL_VERIFY_NONE)) || match verdict opt (rom_mem (dev w)) idx with
        Some v => counter (claim (sys_of (dev w))) <=? v | None => false end = false) as ->
      by (apply not_true_is_false; rewrite <- Hacc; lia).
    destruct (set_flag_ok d2 idx IMG_FLAG_VERIFY_MASK IMG_FLAG_VERIFY_FAIL Hi) as (d3 & E3 & Es3 & M3).
    eexists. split; [reflexivity|]. rewrite E3. cbn [dev set_dev fmc snd]. rewrite Es3, Es. split; [done|].
    split; [by do 2 (eapply same_images_trans; [eassumption|])|]. intros idx' b [= <- <-]. done.
  - rewrite (proj1 Hacc Hge).
    destruct (set_flag_ok d2 idx IMG_FLAG_VERIFY_MASK IMG_FLAG_VERIFY_OK Hi) as (d3 & E3 & Es3 & M3).
    destruct (set_running_ok d3 idx Hi) as (d4 & E4 & Es4 & M4).
    eexists. split; [reflexivity|]. rewrite E3. cbn [dev set_dev fmc snd]. rewrite E4. cbn [snd]. rewrite Es4, Es3, Es. split; [done|].
    split; [by do 3 (eapply same_images_trans; [eassumption|])|]. intros idx' b [= <- <-]. done.
Qed.

End Refinement.

End BootSpec.
