(* ===== verification/Board.v ===== *)
(** * A board to run the boot loader and the update on

    The chip of [RawFlash] with a status area beside it. The check of an image looks at its
    first byte and takes the second for the version. *)
From S2P Require Import Prelude Flash RawFlash Boot BootSpec.
Open Scope Z_scope.

Module Board.
Import RawFlash.

Record board := mk_board { bchip : chip; bsys : sys }.

#[export] Instance board_rom : Rom board := {|
  rom_flash_read r b off n := rom_flash_read r (bchip b) off n;
  rom_flash_write b off l := let '(st, c) := rom_flash_write (bchip b) off l in (st, mk_board c (bsys b));
  rom_flash_erase b off n := let '(st, c) := rom_flash_erase (bchip b) off n in (st, mk_board c (bsys b));
  fmc_ready_wait b := let '(st, c) := fmc_ready_wait (bchip b) in (st, mk_board c (bsys b));
  fmc_store b a l := mk_board (fmc_store (bchip b) a l) (bsys b);
  rom_mem b := rom_mem (bchip b)
|}.

#[export] Instance board_rom_laws : RomLaws board.
Proof.
  constructor; cbn [rom_mem rom_flash_read rom_flash_write rom_flash_erase fmc_ready_wait fmc_store board_rom].
  - intros. apply rom_bytes.
  - intros. by apply rom_read_ok.
  - intros b off l st b' H1 H2 E. destruct (rom_flash_write (bchip b) off l) as [st' c] eqn:Ew. injection E as <- <-.
    by apply (rom_write_ok (bchip b)).
  - intros b off n st b' H1 H2 H3 H4 E. destruct (rom_flash_erase (bchip b) off n) as [st' c] eqn:Ew. injection E as <- <-.
    by apply (rom_erase_ok (bchip b)).
  - intros b. pose proof (fmc_wait_ok (bchip b)) as E. by destruct (fmc_ready_wait (bchip b)).
  - intros. by apply fmc_store_ok.
Qed.

Definition check (m : Z -> Z) (off ty : Z) : Z * Z :=
  (if m RE_IMG_0_OFFSET =? 0x5A then IMG_OK else -1, m (RE_IMG_0_OFFSET + 1)).

Definition found (v : option Z) : Z * option Z :=
  match v with Some v => (SYS_STATUS_FOUND_OK, Some v) | None => (SYS_STATUS_NOT_FOUND, None) end.

#[export] Instance board_sys : SysRom board := {|
  rom_sys_status_get b type :=
    if type =? SYS_IMAGE0_STATUS then found (img0 (bsys b))
    else if type =? SYS_IMAGE1_STATUS then found (img1 (bsys b))
    else if type =? SYS_RUNNING_IMG then found (running (bsys b))
    else (SYS_STATUS_NOT_FOUND, None);
  rom_sys_status_set b type v := (0, b);
  rom_sys_set_img_flag b idx mask flag := (0, mk_board (bchip b) (set_flag idx mask flag (bsys b)));
  rom_sys_set_running_img b idx := (0, mk_board (bchip b) (set_running idx (bsys b)));
  rom_sys_set_fw_ver b type v :=
    if v <? counter (bsys b) then (-1, b)
    else (if v =? counter (bsys b) then 1 else 0, mk_board (bchip b) (set_counter v (bsys b)));
  rom_img_validate r b off type := check (fun i => rom_mem b (phys r i)) off type;
  rom_cert_img_validate r b off type := check (fun i => rom_mem b (phys r i)) off type;
  xmodem_start b t := b
|}.

#[export] Instance board_sys_laws : SysRomLaws board.
Proof.
  apply (Build_SysRomLaws board _ _ bsys check check).
  - by intros b idx [->| ->].
  - done.
  - intros b idx mask flag _. by eexists.
  - intros b idx _. by eexists.
  - intros b v. cbn [rom_sys_set_fw_ver board_sys]. destruct (Z.ltb_spec v (counter (bsys b))).
    + exists (-1), b. split; [done|]. split; [lia|done].
    + eexists _, _. split; [reflexivity|]. split; [|done]. case_match; lia.
  - done.
  - done.
  - done.
  - done.
  - intros m1 m2 off E _. unfold check. rewrite !E by (layout; lia). done.
  - intros m1 m2 off E _. unfold check. rewrite !E by (layout; lia). done.
Defined.

(** A board after an update that did not work: image 0 ran and was accepted, image 1 is the
    newer one; the memory of the images is given by their first two bytes. *)
Definition flash_of (b0 v0 b1 v1 : Z) : chip :=
  mk_chip (fun i => if i =? RE_IMG_0_OFFSET then b0 else if i =? RE_IMG_0_OFFSET + 1 then v0
                    else if i =? RE_IMG_1_OFFSET then b1 else if i =? RE_IMG_1_OFFSET + 1 then v1 else 0xFF) false [].

Definition world_of (b : board) : world board := mk_world b regs_image0 [] [].

Definition updated : world board := world_of (mk_board (flash_of 0x5A 3 0 0) (mk_sys (Some 0xA) (Some 0x1) (Some 0) 3)).

End Board.
