(* ===== verification/BootProps.v ===== *)
(** * Properties of the boot loader

    It settles after at most two resets, what it runs passed its check, and the flags of
    the images say so. *)
From S2P Require Import Prelude Flash RawFlash Boot BootSpec Board.
Open Scope Z_scope.

Module BootProps.
Import RawFlash Boot BootSpec.

(** ** Flags *)

Lemma land_masked old mask flag mask' : Z.land mask mask' = mask' -> Z.land (masked old mask flag) mask' = Z.land flag mask'.
Proof.
  intros E. unfold masked. rewrite Z.land_lor_distr_l, <- Z.land_assoc, (Z.land_comm (Z.lnot mask)).
  rewrite <- (Z.ldiff_land mask' mask), <- E, Z.land_comm, (Z.land_comm mask).
  assert (Z.ldiff (Z.land mask' mask) mask = 0) as ->.
  { apply Z.bits_inj'. intros n Hn. rewrite Z.ldiff_spec, Z.land_spec, Z.testbit_0_l. by destruct (Z.testbit mask n), (Z.testbit mask' n). }
  rewrite Z.land_0_l, Z.lor_0_l. done.
Qed.

Lemma mask_is_masked old mask flag : Z.land flag mask = flag -> mask_is (masked old mask flag) mask flag = true.
Proof. intros E. unfold mask_is. rewrite land_masked by apply Z.land_diag. rewrite E. apply Z.eqb_refl. Qed.

(** Other bits stay. *)
Lemma mask_is_masked_other old mask flag mask' f : Z.land mask mask' = 0 -> Z.land flag mask' = 0 ->
  mask_is (masked old mask flag) mask' f = mask_is old mask' f.
Proof.
  intros E1 E2. unfold mask_is, masked. rewrite Z.land_lor_distr_l, E2, Z.lor_0_r, <- Z.land_assoc, (Z.land_comm (Z.lnot mask)).
  assert (Z.land mask' (Z.lnot mask) = mask') as ->; [|done].
  rewrite <- Z.ldiff_land.
  apply Z.bits_inj'. intros n Hn.
  pose proof (f_equal (fun x => Z.testbit x n) E1) as Eb. cbn in Eb. rewrite Z.land_spec, Z.testbit_0_l in Eb.
  rewrite ?Z.ldiff_spec, ?Z.land_spec, ?Z.lor_spec. destruct (Z.testbit mask n), (Z.testbit mask' n); done.
Qed.

Lemma status_set_same idx v s : status (set_status idx v s) idx = Some v.
Proof. unfold status, set_status. by destruct (idx =? IMAGE_0). Qed.

Lemma status_set_other idx idx' v s : is_img idx -> is_img idx' -> idx <> idx' -> status (set_status idx v s) idx' = status s idx'.
Proof. intros [->| ->] [->| ->] Hne; done. Qed.

(** The image is marked as not passing its check. *)
Definition failed (s : sys) (idx : Z) : Prop :=
  exists v, status s idx = Some v /\ mask_is v IMG_FLAG_VERIFY_MASK IMG_FLAG_VERIFY_FAIL = true.

Definition verified (s : sys) (idx : Z) : Prop :=
  exists v, status s idx = Some v /\ mask_is v IMG_FLAG_VERIFY_MASK IMG_FLAG_VERIFY_OK = true.

Lemma failed_not_run v : mask_is v IMG_FLAG_VERIFY_MASK IMG_FLAG_VERIFY_FAIL = true -> newer_untainted v = false /\ proven v = false.
Proof.
  intros E. unfold newer_untainted, proven. rewrite E. cbn [negb andb]. split; [apply andb_false_r|].
  unfold mask_is in *. apply Z.eqb_eq in E. by rewrite E.
Qed.

Lemma select_not_failed s idx : select (img0 s) (img1 s) = Some idx -> ~ failed s idx.
Proof.
  intros E (v & Es & Hv). apply failed_not_run in Hv as [H1 H2]. unfold select, status in *.
  destruct (img0 s) as [v0|], (img1 s) as [v1|]; simplify_eq/=; repeat case_match; simplify_eq; congruence.
Qed.

Lemma failed_set_flag s idx idx' mask flag : is_img idx -> is_img idx' -> idx <> idx' ->
  failed s idx' -> failed (set_flag idx mask flag s) idx'.
Proof. intros Hi Hi' Hne (v & E & Hv). exists v. unfold set_flag. by rewrite status_set_other. Qed.

Section Loader.
Context {D : Type} `{Rom D, SysRom D, !SysRomLaws D}.
Implicit Type w : world D.
Context (RE_MBL_OFFSET uninit : Z).
Context (ibl : option Z).

(** A reset leaves the flash and clears the registers of the mapping. *)
Definition reset w : world D := set_fmc w regs_image0.

(** The loader is entered again after each software reset, [n] times at most. *)
Fixpoint boots (n : nat) w : outcome * world D :=
  let '(o, w) := main RE_MBL_OFFSET ibl uninit w in
  match n, o with
  | S n, SoftwareReset => boots n (reset w)
  | _, _ => (o, w)
  end.

Abbreviation opt := (u8 (default 0 ibl)).
Abbreviation checks := (negb (opt =? IBL_VERIFY_NONE)).
Abbreviation verdict := (verdict RE_MBL_OFFSET uninit opt).

Hypothesis Hopt : opt_ok RE_MBL_OFFSET opt.

(** The check asked for, if any, accepts the image, and its version is not an older one. *)
Definition accepted w (idx : Z) : Prop :=
  opt <> IBL_VERIFY_NONE -> exists ver, verdict (rom_mem (dev w)) idx = Some ver /\ counter (sys_of (dev w)) <= ver.

(** One entry of the loader, by its outcome. *)
Lemma main_cases w : fmc w = regs_image0 ->
  exists o w', main RE_MBL_OFFSET ibl uninit w = (out_of (IMG_OVERHEAD_LEN RE_MBL_OFFSET) o, w') /\
    same_images (rom_mem (dev w')) (rom_mem (dev w)) /\
    match o with
    | None => select (img0 (sys_of (dev w))) (img1 (sys_of (dev w))) = None /\ sys_of (dev w') = sys_of (dev w)
    | Some (idx, b) =>
        is_img idx /\ fmc w' = boot_fmc idx /\ select (img0 (sys_of (dev w))) (img1 (sys_of (dev w))) = Some idx /\
        b = negb checks || match verdict (rom_mem (dev w)) idx with
              Some v => counter (sys_of (dev w)) <=? v | None => false end /\
        (forall idx', is_img idx' -> idx' <> idx -> failed (sys_of (dev w)) idx' -> failed (sys_of (dev w')) idx') /\
        if b then running (sys_of (dev w')) = Some idx /\ verified (sys_of (dev w')) idx
        else failed (sys_of (dev w')) idx /\
          sys_of (dev w') = set_flag idx IMG_FLAG_VERIFY_MASK IMG_FLAG_VERIFY_FAIL (claim (sys_of (dev w)))
    end.
Proof.
  intros Hf. pose proof (main_ok RE_MBL_OFFSET uninit w ibl Hopt Hf) as Hm. cbv zeta in Hm. unfold spec_main in Hm.
  destruct (select (img0 (sys_of (dev w))) (img1 (sys_of (dev w)))) as [idx|] eqn:Es; cbn beta iota in Hm.
  2:{ destruct Hm as (w' & E & Es' & M & _). by exists None, w'. }
  set (s := sys_of (dev w)) in *.
  assert (counter (claim s) = counter s /\ (forall idx', failed s idx' -> failed (claim s) idx')) as [Ec Hcl].
  { unfold claim. destruct (img0 s) eqn:E0, (img1 s) eqn:E1; split; try done.
    intros idx' (v & E & _). exfalso. unfold status in E. case_match; congruence. }
  rewrite Ec in Hm.
  set (s1 := match verdict (rom_mem (dev w)) idx with
             | Some v => if checks && (counter s <=? v) then set_counter v (claim s) else claim s
             | None => claim s end) in *.
  assert (forall idx', failed s idx' -> failed s1 idx') as H1.
  { intros idx' Hfa. apply Hcl in Hfa. unfold s1. repeat case_match; done. }
  destruct (negb checks || match verdict (rom_mem (dev w)) idx with Some v => counter s <=? v | None => false end) eqn:Eb;
    destruct Hm as (w' & E & Es' & M & Hx); destruct (Hx _ _ eq_refl) as [Hi Hfm];
    [exists (Some (idx, true)), w'|exists (Some (idx, false)), w'];
    (split; [exact E|]; split; [exact M|]; split; [exact Hi|]; split; [exact Hfm|]; split; [done|]; split; [done|]);
    rewrite Es'; split.
  - intros idx' Hi' Hne Hfa. apply H1, (failed_set_flag s1 idx idx' IMG_FLAG_VERIFY_MASK IMG_FLAG_VERIFY_OK Hi Hi') in Hfa; [|done].
    exact Hfa.
  - split; [done|]. eexists. split; [apply status_set_same|]. by apply mask_is_masked.
  - intros idx' Hi' Hne Hfa. by apply failed_set_flag, H1.
  - split; [eexists; split; [apply status_set_same|by apply mask_is_masked]|].
    apply orb_false_elim in Eb as [Ec1 Ec2]. unfold s1. apply negb_false_iff in Ec1. rewrite Ec1. cbn [andb].
    by destruct (verdict (rom_mem (dev w)) idx); [rewrite Ec2|].
Qed.

Lemma out_of_reset ov o : out_of ov o = SoftwareReset -> exists idx, o = Some (idx, false).
Proof. destruct o as [[idx []]|]; try done. by eexists. Qed.

Lemma boots_failed n w idx : fmc w = regs_image0 -> is_img idx -> failed (sys_of (dev w)) idx ->
  (boots (S n) w).1 <> SoftwareReset.
Proof.
  intros Hf Hi Hfa. cbn [boots]. destruct (main_cases w Hf) as (o & w1 & -> & _ & Ho).
  destruct (out_of _ o) eqn:Eo; try done. apply out_of_reset in Eo as (idx1 & ->).
  destruct Ho as (Hi1 & _ & Hsel & _ & Hkeep & Hfail & _).
  assert (idx1 <> idx) as Hne by (intros ->; by eapply select_not_failed in Hsel).
  specialize (Hkeep idx Hi (not_eq_sym Hne) Hfa).
  assert ((main RE_MBL_OFFSET ibl uninit (reset w1)).1 <> SoftwareReset) as Hlast.
  { destruct (main_cases (reset w1) eq_refl) as (o2 & w2 & -> & _ & Ho2). cbn [fst]. intros E.
    apply out_of_reset in E as (idx2 & ->). destruct Ho2 as (Hi2 & _ & Hsel2 & _). cbn [dev reset set_fmc] in Hsel2.
    apply select_not_failed in Hsel2. destruct Hi as [->| ->], Hi1 as [->| ->], Hi2 as [->| ->]; done. }
  destruct n as [|n]; cbn [boots]; destruct (main RE_MBL_OFFSET ibl uninit (reset w1)) as [o2 w2]; [done|]. by destruct o2.
Qed.

(** C16: from any state of the status area the loader resets at most twice before it runs an
    image or stops, whatever the images hold. *)
Theorem boot_settles w n : fmc w = regs_image0 ->
  (boots (2 + n) w).1 <> SoftwareReset.
Proof.
  intros Hf. cbn [Nat.add boots]. destruct (main_cases w Hf) as (o & w1 & -> & _ & Ho).
  destruct (out_of _ o) eqn:Eo; try done. apply out_of_reset in Eo as (idx & ->).
  destruct Ho as (Hi & _ & _ & _ & _ & Hfa & _). exact (boots_failed n (reset w1) idx eq_refl Hi Hfa).
Qed.

Lemma accepted_b w idx : negb checks || match verdict (rom_mem (dev w)) idx with
    Some v => counter (sys_of (dev w)) <=? v | None => false end = true <-> accepted w idx.
Proof.
  unfold accepted. destruct (Z.eqb_spec opt IBL_VERIFY_NONE) as [|Hn]; cbn [negb orb]; [done|].
  destruct (verdict (rom_mem (dev w)) idx) as [v|].
  - rewrite Z.leb_le. split; [by intros; exists v|]. by intros (? & [= <-] & ?).
  - split; [done|]. by intros (? & ? & _).
Qed.

(** A failed entry changes nothing that the acceptance of an image depends on. *)
Lemma accepted_after w w1 j idx : is_img idx -> same_images (rom_mem (dev w1)) (rom_mem (dev w)) ->
  sys_of (dev w1) = set_flag j IMG_FLAG_VERIFY_MASK IMG_FLAG_VERIFY_FAIL (claim (sys_of (dev w))) ->
  accepted (reset w1) idx <-> accepted w idx.
Proof.
  intros Hi M Es. unfold accepted. cbn [dev reset set_fmc].
  assert (counter (sys_of (dev w1)) = counter (sys_of (dev w))) as ->.
  { rewrite Es. unfold set_flag, set_status. destruct (j =? IMAGE_0); cbn [counter]; unfold claim; by repeat case_match. }
  split; intros Ha Hn; specialize (Ha Hn); by rewrite (verdict_ext RE_MBL_OFFSET uninit opt (rom_mem (dev w1)) (rom_mem (dev w))) in *.
Qed.

Lemma boots_jump n w a w' : fmc w = regs_image0 -> boots n w = (Jump a, w') ->
  a = FLASH_BASE + (RE_IMG_0_OFFSET + IMG_OVERHEAD_LEN RE_MBL_OFFSET) /\
  same_images (rom_mem (dev w')) (rom_mem (dev w)) /\
  exists idx, is_img idx /\ running (sys_of (dev w')) = Some idx /\ verified (sys_of (dev w')) idx /\ accepted w idx /\
    (forall i, RE_IMG_0_OFFSET <= i < RE_IMG_1_OFFSET -> rom_mem (dev w') (phys (fmc w') i) = view (rom_mem (dev w)) idx i).
Proof.
  intros Hf. revert w Hf. induction n as [|n IH]; intros w Hf; cbn [boots];
    destruct (main_cases w Hf) as (o & w1 & -> & M & Ho); intros E.
  all: destruct o as [[idx []]|]; cbn [out_of] in E; try discriminate.
  all: try (injection E as <- <-; split; [done|]; split; [done|]; exists idx;
    destruct Ho as (Hi & Hfm & _ & Hb & _ & Hrun & Hver); split; [done|]; split; [done|]; split; [done|]; split;
    [by apply accepted_b|intros i Hr; rewrite Hfm, view_phys by done; by apply view_ext]).
  destruct (IH (reset w1) eq_refl E) as (Ha & M2 & idx' & Hi' & Hr & Hv & Hacc & Hmem).
  split; [done|]. split; [by eapply same_images_trans|]. exists idx'. split; [done|]. split; [done|]. split; [done|]. split.
  - destruct Ho as (_ & _ & _ & _ & _ & _ & Es). by apply (accepted_after w w1 idx).
  - intros i Hi. rewrite Hmem by done. by apply view_ext.
Qed.

(** C17: an image that the loader runs was accepted by the check the ROM asked for, is the
    memory seen at the address jumped to, and is recorded as running and verified; the
    images are not changed on the way. *)
Theorem boot_runs_checked n w a w' : fmc w = regs_image0 -> boots n w = (Jump a, w') ->
  a = FLASH_BASE + (RE_IMG_0_OFFSET + IMG_OVERHEAD_LEN RE_MBL_OFFSET) /\
  same_images (rom_mem (dev w')) (rom_mem (dev w)) /\
  exists idx, is_img idx /\ running (sys_of (dev w')) = Some idx /\ verified (sys_of (dev w')) idx /\ accepted w idx /\
    (forall i, RE_IMG_0_OFFSET <= i < RE_IMG_1_OFFSET -> rom_mem (dev w') (phys (fmc w') i) = view (rom_mem (dev w)) idx i).
Proof. apply boots_jump. Qed.

(** The flags allow the image to be run. *)
Definition bootable (v : Z) : bool := newer_untainted v || proven v.

(** A device whose status area has an image that is newer and not known to fail, or was
    verified and accepted before, runs an image after at most one reset, if that image
    passes its check. *)
Lemma bootable_boots w idx v : fmc w = regs_image0 -> is_img idx -> img0 (sys_of (dev w)) <> None ->
  status (sys_of (dev w)) idx = Some v -> bootable v = true -> accepted w idx ->
  exists a w', boots 1 w = (Jump a, w').
Proof.
  intros Hf Hi Hz Hst Hp Hacc. cbn [boots]. destruct (main_cases w Hf) as (o & w1 & -> & M & Ho).
  assert (forall s, img0 s <> None -> status s idx = Some v -> exists j, select (img0 s) (img1 s) = Some j) as Hsome.
  { intros s Hs E. unfold select, status in *. destruct Hi as [->| ->]; cbn [Z.eqb IMAGE_0 IMAGE_1] in E;
      destruct (img0 s) as [v0|], (img1 s) as [v1|]; try done; simplify_eq; cbn [from_option];
      repeat case_match; eauto; simplify_eq/=; unfold bootable in Hp; apply orb_true_iff in Hp as [?|?]; congruence. }
  destruct o as [[j []]|]; cbn [out_of]; [by eauto| |].
  2:{ destruct Ho as [Hn _]. destruct (Hsome _ Hz Hst) as [j Hj]. congruence. }
  destruct Ho as (Hj & _ & Hsel & Hb & _ & Hfa & Es).
  assert (j <> idx) as Hne by (intros ->; apply accepted_b in Hacc; by rewrite Hacc in Hb).
  pose proof (proj2 (accepted_after w w1 j idx Hi M Es) Hacc) as Hacc1.
  assert (claim (sys_of (dev w)) = sys_of (dev w)) as Ecl by (unfold claim; by destruct (img0 (sys_of (dev w)))).
  rewrite Ecl in Es.
  assert (status (sys_of (dev w1)) idx = Some v) as Hst1 by (rewrite Es; unfold set_flag; by rewrite status_set_other).
  assert (img0 (sys_of (dev w1)) <> None) as H01 by (rewrite Es; unfold set_flag, set_status; by destruct (j =? IMAGE_0)).
  destruct (main_cases (reset w1) eq_refl) as (o2 & w2 & -> & M2 & Ho2).
  destruct (Hsome _ H01 Hst1) as [j2 Hj2].
  cbn [dev reset set_fmc] in Ho2.
  destruct o2 as [[j3 b]|]; [|destruct Ho2; congruence]. destruct Ho2 as (Hi3 & _ & Hsel2 & Hb2 & _).
  assert (j3 = idx) as ->.
  { apply select_not_failed in Hsel2. destruct Hi as [->| ->], Hj as [->| ->], Hi3 as [->| ->]; done. }
  apply accepted_b in Hacc1. cbn [dev reset set_fmc] in Hacc1. rewrite Hacc1 in Hb2. subst b. cbn [out_of]. eauto.
Qed.


End Loader.
(** ** A failed update *)

Import Board.

Lemma rom_checks : opt_ok 0x1000 (u8 (default 0 (Some IBL_VERIFY_IMG_ONLY))).
Proof. by intros E. Qed.

Lemma boot_settles_witness : (boots 0x1000 0 (Some IBL_VERIFY_IMG_ONLY) (2 + 0) updated).1 <> SoftwareReset.
Proof. exact (boot_settles 0x1000 0 (Some IBL_VERIFY_IMG_ONLY) rom_checks updated 0 eq_refl). Defined.

(** Image 1 fails its check, is marked, and image 0 runs after the reset. *)
Example updated_boots :
  let '(o, w) := boots 0x1000 0 (Some IBL_VERIFY_IMG_ONLY) 2 updated in
  o = Jump 0x800A200 /\ bsys (dev w) = mk_sys (Some 0xA) (Some 0x5) (Some 0) 3 /\ fmc w = regs_image0.
Proof. by vm_compute. Qed.

Lemma boot_runs_checked_witness :
  exists w', boots 0x1000 0 (Some IBL_VERIFY_IMG_ONLY) 2 updated = (Jump 0x800A200, w') /\
  0x800A200 = FLASH_BASE + (RE_IMG_0_OFFSET + IMG_OVERHEAD_LEN 0x1000) /\
  same_images (rom_mem (dev w')) (rom_mem (dev updated)) /\
  exists idx, is_img idx /\ running (sys_of (dev w')) = Some idx /\ verified (sys_of (dev w')) idx /\
    accepted 0x1000 0 (Some IBL_VERIFY_IMG_ONLY) updated idx /\
    (forall i, RE_IMG_0_OFFSET <= i < RE_IMG_1_OFFSET -> rom_mem (dev w') (phys (fmc w') i) = view (rom_mem (dev updated)) idx i).
Proof.
  assert (exists w', boots 0x1000 0 (Some IBL_VERIFY_IMG_ONLY) 2 updated = (Jump 0x800A200, w')) as [w' E].
  { destruct (boots 0x1000 0 (Some IBL_VERIFY_IMG_ONLY) 2 updated) as [o w'] eqn:E. exists w'.
    pose proof updated_boots as U. rewrite E in U. destruct U as [-> _]. done. }
  exists w'. split; [exact E|].
  exact (boot_runs_checked 0x1000 0 (Some IBL_VERIFY_IMG_ONLY) rom_checks 2 updated 0x800A200 w' eq_refl E).
Defined.


End BootProps.
