(* ===== verification/Ota.v ===== *)
(** * The firmware update

    Model of [src/tuyaos/tuyaos_adapter/src/tkl_ota.c]: the update that writes the image
    that is not running, in packets, over the flash driver [RawFlash], and the flags it
    leaves for the boot loader [Boot]. *)
From S2P Require Import Prelude Flash RawFlash Boot.
Open Scope Z_scope.

Module Ota.
Import RawFlash.

Definition IMAGE_WRITE_SIZE : Z := 512.
Definition ERASE_SIZE : Z := 0x1000.

(** The result codes are symbols: their numbers are defined outside the sources. *)
Inductive OPERATE_RET :=
| OPRT_OK | OPRT_COM_ERROR | OPRT_INVALID_PARM | OPRT_MALLOC_FAILED
| OPRT_OS_ADAPTER_OTA_PKT_SIZE_FAILED | OPRT_OS_ADAPTER_OTA_START_INFORM_FAILED
| OPRT_OS_ADAPTER_OTA_PROCESS_FAILED | OPRT_OS_ADAPTER_OTA_END_INFORM_FAILED.

Inductive TUYA_OTA_TYPE_E := TUYA_OTA_FULL | TUYA_OTA_DIFF.

Record UG_PROC_S := mk_ug {
  start_addr : Z;
  erase_start_addr : Z;
  recv_data_cnt : Z;
  flash_offset : Z;
  runing_image_idx : Z;
  image_max_size : Z
}.

(** The packet: the length of the whole image and the bytes at hand. *)
Record TUYA_OTA_DATA_T := mk_pack { total_len : Z; data : list Z }.

Definition set_erase (a : Z) (u : UG_PROC_S) : UG_PROC_S :=
  mk_ug (start_addr u) a (recv_data_cnt u) (flash_offset u) (runing_image_idx u) (image_max_size u).
Definition advance (n : Z) (u : UG_PROC_S) : UG_PROC_S :=
  mk_ug (start_addr u) (erase_start_addr u) (u32 (recv_data_cnt u + n)) (u32 (flash_offset u + n))
    (runing_image_idx u) (image_max_size u).

Section Update.
Context {D : Type} `{Rom D, SysRom D}.
Implicit Type w : world D.

(** The flash and [ug_proc], [None] for [NULL]. *)
Record st := mk_st { flash : world D; ug_proc : option UG_PROC_S }.

(** The result, the size and the type. *)
Definition tkl_ota_get_ability (s : st) : OPERATE_RET * option (Z * TUYA_OTA_TYPE_E) :=
  let '(res, v) := rom_sys_status_get (dev (flash s)) SYS_RUNNING_IMG in
  let running_idx := default 0 v in
  if res <? 0 then (OPRT_COM_ERROR, None)
  else if running_idx =? IMAGE_0 then (OPRT_OK, Some (RE_IMG_1_END - RE_IMG_1_OFFSET, TUYA_OTA_FULL))
  else if running_idx =? IMAGE_1 then (OPRT_OK, Some (RE_IMG_1_OFFSET - RE_IMG_0_OFFSET, TUYA_OTA_FULL))
  else (OPRT_COM_ERROR, None).

(** [malloc]: whether there is memory for [ug_proc]. *)
Definition tkl_ota_start_notify (malloc : bool) (image_size : Z) (s : st) : OPERATE_RET * st :=
  if image_size =? 0 then (OPRT_OS_ADAPTER_OTA_PKT_SIZE_FAILED, s)
  else if bool_decide (ug_proc s = None) && negb malloc then (OPRT_MALLOC_FAILED, s)
  else
    let s := mk_st (flash s) (Some (mk_ug 0 0 0 0 0 0)) in
    let '(res, v) := rom_sys_status_get (dev (flash s)) SYS_RUNNING_IMG in
    let running_idx := default 0 v in
    if res <? 0 then (OPRT_OS_ADAPTER_OTA_START_INFORM_FAILED, s)
    else
      let started u :=
        (if image_max_size u <? image_size then OPRT_OS_ADAPTER_OTA_PKT_SIZE_FAILED else OPRT_OK,
         mk_st (flash s) (Some u)) in
      if running_idx =? IMAGE_0 then
        started (mk_ug RE_IMG_1_OFFSET RE_IMG_1_OFFSET 0 0 IMAGE_0 (RE_IMG_1_END - RE_IMG_1_OFFSET))
      else if running_idx =? IMAGE_1 then
        started (mk_ug RE_IMG_0_OFFSET RE_IMG_0_OFFSET 0 0 IMAGE_1 (RE_IMG_1_OFFSET - RE_IMG_0_OFFSET))
      else (OPRT_OS_ADAPTER_OTA_START_INFORM_FAILED, s).

(** The loop over the sectors to erase; true if it failed. An erase behind the end of the
    flash fails, so there are at most as many turns as sectors, and one. *)
Fixpoint erase_loop (n : nat) (len : Z) (w : world D) (u : UG_PROC_S) : option (bool * world D * UG_PROC_S) :=
  match n with
  | O => None
  | S n =>
      if erase_start_addr u <? u32 (u32 (recv_data_cnt u + start_addr u) + len) then
        let '(ret, w) := raw_flash_erase w (erase_start_addr u) ERASE_SIZE in
        if negb (ret =? 0) then Some (true, w, u)
        else erase_loop n len w (set_erase (u32 (erase_start_addr u + ERASE_SIZE)) u)
      else Some (false, w, u)
  end.
Definition sectors : nat := Z.to_nat (FLASH_TOTAL_SIZE / ERASE_SIZE) + 2.

(** The loop that writes whole blocks of the packet; the bytes that remain. *)
Fixpoint write_loop (n : nat) (d : list Z) (remain_length : Z) (w : world D) (u : UG_PROC_S)
  : option (bool * Z * world D * UG_PROC_S) :=
  match n with
  | O => None
  | S n =>
      if IMAGE_WRITE_SIZE <=? remain_length then
        let '(ret, w) :=
          raw_flash_write_fast w (u32 (start_addr u + flash_offset u)) (slice (zlen d - remain_length) IMAGE_WRITE_SIZE d) in
        if negb (ret =? 0) then Some (true, remain_length, w, u)
        else write_loop n d (remain_length - IMAGE_WRITE_SIZE) w (advance IMAGE_WRITE_SIZE u)
      else Some (false, remain_length, w, u)
  end.

(** The result, what is stored through [remain_len], and the state; [None] would be a loop
    that does not end. *)
Definition tkl_ota_data_process (pack : option TUYA_OTA_DATA_T) (remain_len : bool) (s : st)
  : option (OPERATE_RET * Z * st) :=
  match pack, remain_len, ug_proc s with
  | Some pack, true, Some u =>
      let len := zlen (data pack) in
      if (len <? IMAGE_WRITE_SIZE) && (recv_data_cnt u <=? u32 (total_len pack - IMAGE_WRITE_SIZE)) then
        Some (OPRT_OK, len, s)
      else
        '(failed, w, u) ← erase_loop sectors len (flash s) u;
        if (failed : bool) then Some (OPRT_OS_ADAPTER_OTA_PROCESS_FAILED, len, mk_st w (Some u))
        else
          '(failed, remain_length, w, u) ← write_loop (S (Z.to_nat (len / IMAGE_WRITE_SIZE))) (data pack) len w u;
          if (failed : bool) then Some (OPRT_OS_ADAPTER_OTA_PROCESS_FAILED, remain_length, mk_st w (Some u))
          else if (u32 (total_len pack - IMAGE_WRITE_SIZE) <? recv_data_cnt u) &&
                  (u32 (total_len pack - recv_data_cnt u) <=? remain_length) then
            let '(ret, w) :=
              raw_flash_write_fast w (u32 (start_addr u + flash_offset u))
                (slice (len - remain_length) remain_length (data pack)) in
            if negb (ret =? 0) then Some (OPRT_OS_ADAPTER_OTA_PROCESS_FAILED, remain_length, mk_st w (Some u))
            else Some (OPRT_OK, 0, mk_st w (Some (advance remain_length u)))
          else Some (OPRT_OK, remain_length, mk_st w (Some u))
  | _, _, _ => Some (OPRT_INVALID_PARM, 0, s)
  end.

(** The three flag updates in turn; an error of one does not stop the next. *)
Definition end_flags (idx : Z) : list (Z * Z * Z) :=
  let other := if idx =? 0 then 1 else 0 in
  [(idx, Z.lor IMG_FLAG_IA_MASK IMG_FLAG_NEWER_MASK, Z.lor IMG_FLAG_IA_OK IMG_FLAG_OLDER);
   (other, Z.lor (Z.lor IMG_FLAG_IA_MASK IMG_FLAG_VERIFY_MASK) IMG_FLAG_NEWER_MASK, 0);
   (other, IMG_FLAG_NEWER_MASK, IMG_FLAG_NEWER)].

Definition set_flags (l : list (Z * Z * Z)) (d : D) : Z * D :=
  fold_left (fun '(res, d) '(idx, mask, flag) =>
    let '(r, d) := rom_sys_set_img_flag d idx mask flag in (Z.lor res r, d)) l (0, d).

(** The result, whether the device is reset, and the state; [None] if no update was started. *)
Definition tkl_ota_end_notify (reset : bool) (s : st) : option (OPERATE_RET * bool * st) :=
  match ug_proc s with
  | None => None
  | Some u =>
      let '(res, d) := set_flags (end_flags (runing_image_idx u)) (dev (flash s)) in
      let s := mk_st (set_dev (flash s) d) (ug_proc s) in
      if negb (res =? 0) then Some (OPRT_OS_ADAPTER_OTA_END_INFORM_FAILED, false, s)
      else Some (OPRT_OK, reset, s)
  end.

End Update.
Arguments st : clear implicits.
Arguments mk_st {D}.

End Ota.
