(* ===== verification/OtaSpec.v ===== *)
(** * The firmware update writes the image

    Delivered in packets of any size, an image ends up at the start of the other slot, and
    nothing outside its sectors changes. *)
From S2P Require Import Prelude Flash RawFlash Boot BootSpec Ota.
Open Scope Z_scope.

Module OtaSpec.
Import RawFlash Boot BootSpec Ota.

Section Spec.
Context {D : Type} {HRom : Rom D} {HLaws : RomLaws D} {HSys : SysRom D}.
Implicit Type w : world D.

(** The area of the images. *)
Context (lo hi : Z) (Hwin : 0 <= lo /\ hi <= FLASH_TOTAL_SIZE).

(** From the states in [good] the chip does not fail on the area. *)
Record sound (good : D -> Prop) : Prop := {
  snd_reliable : reliable lo hi good;
  snd_erase d off n : good d -> lo <= off -> off + n <= hi -> exists d', rom_flash_erase d off n = (0, d') /\ good d'
}.

Context (good : D -> Prop).
Hypothesis Hgood : sound good.

(** The running image, as [ug_proc] has it. *)
Context (ridx : Z).

(** The caller: each packet is what the last one left over and a new chunk. *)
Fixpoint deliver (total : Z) (chunks : list (list Z)) (pending : list Z) (s : st D)
  : option (OPERATE_RET * list Z * st D) :=
  match chunks with
  | [] => Some (OPRT_OK, pending, s)
  | c :: cs =>
      let d := pending ++ c in
      '(r, rem, s) ← tkl_ota_data_process (Some (mk_pack total d)) true s;
      let pending := slice (zlen d - rem) rem d in
      match r with OPRT_OK => deliver total cs pending s | _ => Some (r, pending, s) end
  end.

(** [n] bytes of the image are written at [base], and the flash is erased up to [e]. *)
Definition layers (base : Z) (img : list Z) (n e : Z) (m0 m : Z -> Z) : Prop :=
  forall i, m i = if (base <=? i) && (i <? base + n) then nthb img (i - base)
                  else if (base + n <=? i) && (i <? e) then 0xFF else m0 i.

Record progress (base size : Z) (img : list Z) (m0 : Z -> Z) (n : Z) (w : world D) (u : UG_PROC_S) : Prop := {
  pg_good : good (dev w);
  pg_start : start_addr u = base;
  pg_idx : runing_image_idx u = ridx;
  pg_recv : recv_data_cnt u = n;
  pg_off : flash_offset u = n;
  pg_range : 0 <= n <= zlen img;
  pg_erased : base + n <= erase_start_addr u <= base + size;
  pg_tight : erase_start_addr u = base \/ erase_start_addr u < base + zlen img + ERASE_SIZE;
  pg_sector : (SECTOR | erase_start_addr u);
  pg_mem : layers base img n (erase_start_addr u) m0 (rom_mem (dev w))
}.

(** A slot and an image that fits it. *)
Record fits (base size : Z) (img : list Z) : Prop := {
  ft_base : lo <= base;
  ft_end : base + size <= hi;
  ft_bsec : (SECTOR | base);
  ft_ssec : (SECTOR | size);
  ft_img : zlen img <= size;
  ft_bytes : bytes img
}.

Lemma erase_programs w off n :
  good (dev w) -> lo <= off -> 0 < n -> off + n <= hi -> (SECTOR | off) -> (SECTOR | n) ->
  exists w', raw_flash_erase w off n = (0, w') /\ good (dev w') /\ fmc w' = fmc w /\
    forall i, rom_mem (dev w') i = if (off <=? i) && (i <? off + n) then 0xFF else rom_mem (dev w) i.
Proof.
  intros Hg H1 H2 H3 H4 H5. unfold raw_flash_erase. rewrite good_range by lia.
  unfold raw_flash_erase_handler. cbn [dev set_dev fmc raw_erase_cb_list calls].
  destruct (snd_erase _ Hgood (dev w) off n Hg H1 H3) as (d' & E & Hg'). rewrite E.
  eexists. split; [reflexivity|]. cbn [dev set_dev fmc]. split; [done|]. split; [done|].
  by destruct (rom_erase_ok (dev w) off n 0 d' ltac:(lia) ltac:(lia) H4 H5 E) as [Hok _]; apply Hok.
Qed.

Lemma erase_loop_ok base size img m0 n w u len k :
  fits base size img -> progress base size img m0 n w u -> 0 <= len -> n + len <= zlen img ->
  base + n + len - erase_start_addr u <= ERASE_SIZE * (Z.of_nat k - 1) -> (0 < k)%nat ->
  exists w' u', erase_loop k len w u = Some (false, w', u') /\ progress base size img m0 n w' u' /\
    base + n + len <= erase_start_addr u' /\ fmc w' = fmc w.
Proof.
  intros F. revert w u. induction k as [|k IH]; intros w u P Hl Hn Hk H0; [lia|].
  destruct P as [Pg Ps Pi Pr Po Pn Pe Pt Psec Pm]. cbn [erase_loop]. rewrite Pr, Ps.
  pose proof (ft_base _ _ _ F). pose proof (ft_end _ _ _ F). pose proof (ft_img _ _ _ F).
  unfold FLASH_TOTAL_SIZE in *. rewrite (wrap32_small (n + base)), wrap32_small by lia.
  destruct (Z.ltb_spec (erase_start_addr u) (n + base + len)) as [Hlt|Hge].
  2:{ exists w, u. split; [done|]. split; [by constructor|]. split; [lia|done]. }
  assert (erase_start_addr u + ERASE_SIZE <= base + size) as Hfit.
  { destruct Psec as [a Ea], (ft_bsec _ _ _ F) as [b Eb], (ft_ssec _ _ _ F) as [c Ec].
    unfold SECTOR, ERASE_SIZE in *. lia. }
  unfold ERASE_SIZE in *.
  destruct (erase_programs w (erase_start_addr u) 0x1000 Pg) as (w' & -> & Hg' & Hf' & Hm); [lia|lia|lia|done|by exists 1|].
  cbn [Z.eqb negb]. rewrite wrap32_small by lia.
  destruct (IH w' (set_erase (erase_start_addr u + 0x1000) u)) as (w2 & u2 & -> & P2 & Hle & Hf2).
  - constructor; cbn [set_erase start_addr recv_data_cnt flash_offset erase_start_addr runing_image_idx]; try done; try lia.
    + unfold ERASE_SIZE. right. lia.
    + apply Z.divide_add_r; [done|by exists 1].
    + intros i. rewrite Hm, Pm. repeat if_split; try lia; done.
  - done.
  - done.
  - cbn [set_erase erase_start_addr]. lia.
  - destruct k; [cbn in *; lia|lia].
  - exists w2, u2. split; [done|]. split; [done|]. split; [done|]. congruence.
Qed.

(** Writing the next bytes of the image. *)
Lemma write_next base size img m0 n w u l :
  fits base size img -> progress base size img m0 n w u -> 0 < l -> n + l <= zlen img -> base + n + l <= erase_start_addr u ->
  exists w', raw_flash_write_fast w (u32 (start_addr u + flash_offset u)) (slice n l img) = (0, w') /\
    progress base size img m0 (n + l) w' (advance l u) /\ fmc w' = fmc w.
Proof.
  intros F [Pg Ps Pi Pr Po Pn Pe Pt Psec Pm] Hl Hn He.
  pose proof (ft_base _ _ _ F). pose proof (ft_end _ _ _ F). pose proof (ft_img _ _ _ F).
  unfold FLASH_TOTAL_SIZE in *. rewrite Ps, Po, wrap32_small by lia.
  assert (zlen (slice n l img) = l) as Hz by (apply zlen_slice; lia).
  destruct (write_fast_programs lo hi Hwin good w (base + n) (slice n l img) (snd_reliable _ Hgood) Pg) as (d & -> & Hg & Hm);
    rewrite ?Hz; [lia..|].
  exists (set_dev w d). split; [done|]. split; [|done].
  constructor; cbn [advance dev set_dev start_addr recv_data_cnt flash_offset erase_start_addr runing_image_idx]; try done; try lia.
  - rewrite Pr. apply wrap32_small. lia.
  - rewrite Po. apply wrap32_small. lia.
  - intros i. rewrite Hm. unfold programmed. rewrite Hz, Pm. repeat if_split; try lia; try done.
    rewrite nthb_slice by lia. replace (n + (i - (base + n))) with (i - base) by lia.
    apply land_FF. apply bytes_nthb, F.
Qed.

Lemma write_loop_ok base size img m0 n0 len w u n k :
  fits base size img -> progress base size img m0 n w u -> n0 <= n -> 0 <= n0 -> n0 + len <= zlen img -> n <= n0 + len ->
  base + n0 + len <= erase_start_addr u -> (n0 + len - n) / IMAGE_WRITE_SIZE < Z.of_nat k ->
  exists w' u', write_loop k (slice n0 len img) (n0 + len - n) w u =
      Some (false, (n0 + len - n) mod IMAGE_WRITE_SIZE, w', u') /\
    progress base size img m0 (n0 + len - (n0 + len - n) mod IMAGE_WRITE_SIZE) w' u' /\
    erase_start_addr u' = erase_start_addr u /\ fmc w' = fmc w.
Proof.
  intros F. revert w u n. induction k as [|k IH]; intros w u n P H0 Hz Hn Hle He Hk.
  { pose proof (Z.div_pos (n0 + len - n) IMAGE_WRITE_SIZE). unfold IMAGE_WRITE_SIZE in *. lia. }
  cbn [write_loop]. rewrite zlen_slice by lia. unfold IMAGE_WRITE_SIZE in *.
  destruct (Z.leb_spec 512 (n0 + len - n)) as [Hge|Hlt].
  - assert (slice (len - (n0 + len - n)) 512 (slice n0 len img) = slice n 512 img) as ->.
    { rewrite slice_slice by lia. f_equal. lia. }
    destruct (write_next base size img m0 n w u 512 F P) as (w' & -> & P' & Hf'); [lia..|].
    cbn [Z.eqb negb]. replace (n0 + len - n - 512) with (n0 + len - (n + 512)) by lia.
    assert ((n0 + len - n) mod 512 = (n0 + len - (n + 512)) mod 512) as Em.
    { replace (n0 + len - n) with (n0 + len - (n + 512) + 1 * 512) by lia. by rewrite Z.mod_add. }
    assert ((n0 + len - n) / 512 = (n0 + len - (n + 512)) / 512 + 1) as Ed.
    { replace (n0 + len - n) with (n0 + len - (n + 512) + 1 * 512) by lia. by rewrite Z.div_add. }
    destruct (IH w' (advance 512 u) (n + 512)) as (w2 & u2 & -> & P2 & He2 & Hf2); [done|lia|lia|lia|lia|exact He|lia|].
    exists w2, u2. rewrite Em. split; [done|]. split; [done|]. split; [done|congruence].
  - rewrite Z.mod_small by lia. exists w, u. split; [done|]. split; [|done].
    by replace (n0 + len - (n0 + len - n)) with n by lia.
Qed.

(** One packet: the next [len] bytes of the image. Whole blocks are written; the rest is
    left over, unless it is the end of the image. A last block that is whole is written,
    and then refused as a packet of no bytes. *)
Lemma process_ok base size img m0 n w u len :
  fits base size img -> progress base size img m0 n w u -> (IMAGE_WRITE_SIZE | n) ->
  IMAGE_WRITE_SIZE <= zlen img -> 0 < len -> n + len <= zlen img ->
  exists w' u', progress base size img m0 (if n + len =? zlen img then zlen img else n + len - len mod IMAGE_WRITE_SIZE) w' u' /\
    fmc w' = fmc w /\
    tkl_ota_data_process (Some (mk_pack (zlen img) (slice n len img))) true (mk_st w (Some u)) =
      Some (if (n + len =? zlen img) && (zlen img mod IMAGE_WRITE_SIZE =? 0) then OPRT_OS_ADAPTER_OTA_PROCESS_FAILED else OPRT_OK,
            if n + len =? zlen img then 0 else len mod IMAGE_WRITE_SIZE, mk_st w' (Some u')).
Proof.
  intros F P Hd Hbig Hl Hn. pose proof P as [Pg Ps Pi Pr Po Pn Pe Pt Psec Pm].
  pose proof (ft_base _ _ _ F). pose proof (ft_end _ _ _ F). pose proof (ft_img _ _ _ F).
  unfold tkl_ota_data_process. cbn [ug_proc flash data total_len]. rewrite zlen_slice by lia. rewrite Pr.
  unfold FLASH_TOTAL_SIZE in *. unfold IMAGE_WRITE_SIZE in *.
  rewrite (wrap32_small (zlen img - 512)) by lia.
  destruct ((len <? 512) && (n <=? zlen img - 512)) eqn:Ew.
  { bool_to_prop. rewrite (proj2 (Z.eqb_neq _ _)) by lia. cbn [andb]. rewrite Z.mod_small by lia.
    exists w, u. replace (n + len - len) with n by lia. done. }
  destruct (erase_loop_ok base size img m0 n w u len sectors F P) as (w1 & u1 & -> & P1 & He1 & Hf1); try lia.
  { unfold sectors, ERASE_SIZE, FLASH_TOTAL_SIZE. change (Z.to_nat (0x400000 / 0x1000)) with 1024%nat. lia. }
  { unfold sectors. lia. }
  cbn [mbind option_bind].
  pose proof (write_loop_ok base size img m0 n len w1 u1 n (S (Z.to_nat (len / 512))) F P1) as Hw.
  unfold IMAGE_WRITE_SIZE in Hw. replace (n + len - n) with len in Hw by lia.
  pose proof (Z.div_pos len 512 ltac:(lia) ltac:(lia)). pose proof (Z.mod_pos_bound len 512 ltac:(lia)). pose proof (Z.mod_le len 512 ltac:(lia) ltac:(lia)).
  destruct Hw as (w2 & u2 & -> & P2 & He2 & Hf2); [lia..|]. cbn [mbind option_bind].
  set (rem := len mod 512) in *. pose proof P2 as [_ Ps2 _ Pr2 Po2 Pn2 _ _ _ _]. rewrite Pr2.
  assert (zlen img mod 512 = 0 -> n + len = zlen img -> rem = 0) as Hwhole.
  { intros Hz E. unfold rem. destruct Hd as [a ->]. replace len with (zlen img + (- a) * 512) by lia. by rewrite Z.mod_add. }
  assert (n + len = zlen img -> rem = 0 -> zlen img mod 512 = 0) as Hwhole'.
  { intros E Hz. unfold rem in Hz. destruct Hd as [a ->]. replace (zlen img) with (len + a * 512) by lia. by rewrite Z.mod_add. }
  destruct (Z.eqb_spec (n + len) (zlen img)) as [E|E]; cbn [andb].
  - rewrite E. rewrite (proj2 (Z.ltb_lt _ _)) by lia.
    rewrite wrap32_small by lia. rewrite (proj2 (Z.leb_le _ _)) by lia. cbn [andb].
    destruct (Z.eqb_spec (zlen img mod 512) 0) as [Ez|Ez].
    + rewrite (Hwhole Ez E) in *. unfold raw_flash_write_fast. rewrite slice_nil. unfold bad_range. cbn [zlen length Z.of_nat Z.leb Z.compare].
      rewrite orb_true_r. cbn [orb Z.eqb negb]. exists w2, u2. rewrite E, Z.sub_0_r in P2. split; [done|].
      split; [congruence|]. done.
    + assert (rem <> 0) by (intros Hz; auto).
      destruct (write_next base size img m0 _ w2 u2 rem F P2) as (w3 & E3 & P3 & Hf3); [lia..|].
      rewrite slice_slice by lia. replace (n + (len - rem)) with (n + len - rem) by lia. rewrite E3. cbn [Z.eqb negb].
      replace (n + len - rem + rem) with (zlen img) in P3 by lia. eexists _, _. split; [exact P3|]. split; [congruence|done].
  - rewrite (wrap32_small (zlen img - _)) by lia. rewrite (proj2 (Z.leb_gt _ _)) by lia. rewrite andb_false_r.
    exists w2, u2. split; [done|]. split; [congruence|done].
Qed.

Lemma concat_next {A} (img c cs : list A) k : 0 <= k -> drop (Z.to_nat k) img = c ++ cs ->
  zlen c + zlen cs = zlen img - k \/ zlen img < k.
Proof. intros Hk E. apply (f_equal zlen) in E. rewrite zlen_app in E. destruct (Z.le_gt_cases k (zlen img)); [left; rewrite zlen_drop in E by lia; lia|by right]. Qed.

Lemma slice_next (img c cs : list Z) n p : 0 <= n -> 0 <= p -> n + p <= zlen img ->
  drop (Z.to_nat (n + p)) img = c ++ cs -> slice n p img ++ c = slice n (p + zlen c) img.
Proof.
  intros Hn Hp Hl E. rewrite slice_app_split; [f_equal|lia..|].
  - unfold slice. rewrite E. unfold zlen. by rewrite Nat2Z.id, take_app_length.
  - pose proof (zlen_nonneg c). lia.
Qed.

Lemma deliver_ok base size img m0 chunks : forall n p w u,
  fits base size img -> progress base size img m0 n w u -> (IMAGE_WRITE_SIZE | n) ->
  IMAGE_WRITE_SIZE <= zlen img -> 0 <= p < IMAGE_WRITE_SIZE -> n + p < zlen img ->
  Forall (fun c => c <> []) chunks -> concat chunks = drop (Z.to_nat (n + p)) img ->
  exists w' u', deliver (zlen img) chunks (slice n p img) (mk_st w (Some u)) =
      Some (if zlen img mod IMAGE_WRITE_SIZE =? 0 then OPRT_OS_ADAPTER_OTA_PROCESS_FAILED else OPRT_OK, [], mk_st w' (Some u')) /\
    progress base size img m0 (zlen img) w' u' /\ fmc w' = fmc w.
Proof.
  induction chunks as [|c cs IH]; intros n p w u F P Hd Hbig Hp Hlt Hne Hc.
  { exfalso. apply (f_equal zlen) in Hc. pose proof (pg_range _ _ _ _ _ _ _ P).
    change (zlen (@concat Z [])) with 0 in Hc. rewrite zlen_drop in Hc by lia. lia. }
  apply Forall_cons in Hne as [Hnc Hne]. cbn [concat] in Hc. pose proof (pg_range _ _ _ _ _ _ _ P) as Hr.
  assert (0 < zlen c) as Hpos by (destruct c; [done|rewrite zlen_cons; pose proof (zlen_nonneg c); lia]).
  pose proof (zlen_nonneg (concat cs)).
  destruct (concat_next img c (concat cs) (n + p)) as [Hz|Hz]; [lia|done| |lia].
  cbn [deliver]. rewrite (slice_next img c (concat cs) n p) by (done || lia).
  destruct (process_ok base size img m0 n w u (p + zlen c) F P Hd Hbig) as (w1 & u1 & P1 & Hf1 & ->); [lia..|].
  cbn [mbind option_bind]. rewrite zlen_slice by lia.
  destruct (Z.eqb_spec (n + (p + zlen c)) (zlen img)) as [E|E]; cbn [andb].
  - rewrite slice_nil. assert (cs = []) as ->.
    { destruct cs as [|c' cs]; [done|]. exfalso.
      apply Forall_cons in Hne as [Hnc' _]. cbn [concat] in Hz. rewrite zlen_app in Hz. pose proof (zlen_nonneg (concat cs)).
      destruct c' as [|x c']; [done|]. rewrite zlen_cons in Hz. pose proof (zlen_nonneg c'). lia. }
    exists w1, u1. case_match; done.
  - pose proof (Z.mod_pos_bound (p + zlen c) IMAGE_WRITE_SIZE ltac:(done)). unfold IMAGE_WRITE_SIZE in *.
    pose proof (Z.mod_le (p + zlen c) 512 ltac:(lia) ltac:(lia)). set (rem := (p + zlen c) mod 512) in *.
    rewrite slice_slice by lia. replace (n + (p + zlen c - rem)) with (n + (p + zlen c) - rem) by lia.
    destruct (IH (n + (p + zlen c) - rem) rem w1 u1 F P1) as (w2 & u2 & -> & P2 & Hf2); try done; try lia.
    + apply Z.mod_divide; [lia|]. unfold rem. destruct Hd as [a ->].
      replace (a * 512 + (p + zlen c) - (p + zlen c) mod 512) with ((a + (p + zlen c) / 512) * 512)
        by (pose proof (Z.div_mod (p + zlen c) 512); lia). by apply Z.mod_mul.
    + replace (n + (p + zlen c) - rem + rem) with (n + p + zlen c) by lia.
      apply (app_inv_head c). rewrite Hc. replace (Z.to_nat (n + p + zlen c)) with (Z.to_nat (n + p) + length c)%nat by (unfold zlen; lia).
      rewrite <- drop_drop, <- Hc, drop_app_length. done.
    + exists w2, u2. split; [done|]. split; [done|congruence].
Qed.

End Spec.
End OtaSpec.
