(* ===== verification/Update.v ===== *)
(** * An update from start to boot

    The update of [Ota], the reset and the boot loader together: the delivered image is
    written and booted, and an image that fails its check is left again for the old one. *)
From S2P Require Import Prelude Flash RawFlash Boot BootSpec Board BootProps Ota OtaSpec.
Open Scope Z_scope.

Module Update.
Import RawFlash Boot BootSpec BootProps Ota OtaSpec.

Definition other (idx : Z) : Z := if idx =? IMAGE_0 then IMAGE_1 else IMAGE_0.

Lemma other_img idx : is_img idx -> is_img (other idx) /\ other idx <> idx.
Proof. intros [->| ->]; (split; [by (left + right)|done]). Qed.

Lemma slot_fits idx img : is_img idx -> zlen img <= slot_size -> bytes img ->
  fits RE_IMG_0_OFFSET RE_IMG_1_END (slot idx) slot_size img.
Proof.
  intros Hi Hl Hb. unfold slot_size in *.
  split; try done; destruct Hi as [->| ->]; unfold slot; cbn [Z.eqb Pos.eqb IMAGE_0 IMAGE_1]; layout; try lia;
    first [by exists 10|by exists 490|by exists 480].
Qed.

Section Device.
Context {D : Type} {HRom : Rom D} {HLaws : RomLaws D} {HSys : SysRom D} {HSysLaws : SysRomLaws D}.
Implicit Type w : world D.

(** The chip does not fail on the images, and writing them leaves the status area alone. *)
Context (good : D -> Prop).
Hypothesis Hsound : forall s, sound RE_IMG_0_OFFSET RE_IMG_1_END (fun d => good d /\ sys_of d = s).

Lemma window : 0 <= RE_IMG_0_OFFSET /\ RE_IMG_1_END <= FLASH_TOTAL_SIZE.
Proof. layout. lia. Qed.

(** What a started update knows. *)
Definition started (r : Z) : UG_PROC_S := mk_ug (slot (other r)) (slot (other r)) 0 0 r slot_size.

Lemma start_ok w ug r n : running (sys_of (dev w)) = Some r -> is_img r -> 0 < n <= slot_size ->
  tkl_ota_start_notify true n (mk_st w ug) = (OPRT_OK, mk_st w (Some (started r))).
Proof.
  intros Hr Hi Hn. unfold tkl_ota_start_notify. rewrite (proj2 (Z.eqb_neq n 0)) by lia.
  cbn [negb]. rewrite andb_false_r. cbn [flash ug_proc]. rewrite running_get_ok, Hr.
  unfold slot_size in *. destruct Hi as [->| ->]; cbn [SYS_STATUS_FOUND_OK Z.ltb Z.compare default from_option id Z.eqb Pos.eqb IMAGE_0 IMAGE_1 image_max_size];
    rewrite (proj2 (Z.ltb_ge _ _)) by (layout; lia); done.
Qed.

(** The flash after a whole image: its bytes in the other slot, nothing else changed
    but the rest of its last sector. *)
Definition installed (r : Z) (img : list Z) (m0 m : Z -> Z) : Prop :=
  (forall i, 0 <= i < zlen img -> m (slot (other r) + i) = nthb img i) /\
  (forall i, ~ slot (other r) <= i < slot (other r) + Z.min slot_size (zlen img + 4095) -> m i = m0 i).

Lemma update_writes w ug r img chunks : good (dev w) -> running (sys_of (dev w)) = Some r -> is_img r ->
  bytes img -> IMAGE_WRITE_SIZE <= zlen img <= slot_size ->
  Forall (fun c => c <> []) chunks -> concat chunks = img ->
  exists s1 w2 u2, tkl_ota_start_notify true (zlen img) (mk_st w ug) = (OPRT_OK, s1) /\
    deliver (zlen img) chunks [] s1 =
      Some (if zlen img mod IMAGE_WRITE_SIZE =? 0 then OPRT_OS_ADAPTER_OTA_PROCESS_FAILED else OPRT_OK, [], mk_st w2 (Some u2)) /\
    installed r img (rom_mem (dev w)) (rom_mem (dev w2)) /\
    good (dev w2) /\ sys_of (dev w2) = sys_of (dev w) /\ fmc w2 = fmc w /\ runing_image_idx u2 = r.
Proof.
  intros Hg Hr Hi Hb Hz Hne Hc. unfold IMAGE_WRITE_SIZE in Hz. destruct (other_img r Hi) as [Hoi _].
  pose proof (slot_fits (other r) img Hoi (proj2 Hz) Hb) as F.
  exists (mk_st w (Some (started r))). rewrite (start_ok w ug r (zlen img)) by (done || lia).
  assert (0 <= slot (other r) /\ slot (other r) + slot_size <= RE_IMG_1_END) as Hs
    by (pose proof (ft_base _ _ _ _ _ F); pose proof (ft_end _ _ _ _ _ F); layout; lia).
  destruct (deliver_ok RE_IMG_0_OFFSET RE_IMG_1_END window (fun d => good d /\ sys_of d = sys_of (dev w)) (Hsound _) r
              (slot (other r)) slot_size img (rom_mem (dev w)) chunks 0 0 w (started r) F)
    as (w2 & u2 & E & P & Hf).
  - constructor; cbn [started start_addr recv_data_cnt flash_offset erase_start_addr runing_image_idx]; try done; try lia.
    all: first [apply F | by left | intros i; repeat if_split; try lia; done].
  - by exists 0.
  - unfold IMAGE_WRITE_SIZE. lia.
  - unfold IMAGE_WRITE_SIZE. lia.
  - lia.
  - done.
  - by rewrite Hc.
  - rewrite slice_nil in E. exists w2, u2. split; [done|]. split; [exact E|].
    destruct P as [[Pg Psys] _ Pi _ _ _ Pe Pt _ Pm]. split; [|done]. unfold ERASE_SIZE in Pt. split.
    + intros i Hir. rewrite Pm. repeat if_split; try lia. f_equal. lia.
    + intros i Hir. rewrite Pm. repeat if_split; try lia; done.
Qed.

(** An update of a device that runs one image writes the delivered image into the other
    slot, whatever the sizes of the chunks, erases no more than the sectors of the image, and
    leaves the rest of the flash and the status area alone; but an image of a multiple of
    512 bytes ends in a reported failure, for the last write is asked to write nothing. *)
Theorem ota_writes_image w ug r img chunks : good (dev w) -> running (sys_of (dev w)) = Some r -> is_img r ->
  bytes img -> IMAGE_WRITE_SIZE <= zlen img <= slot_size ->
  Forall (fun c => c <> []) chunks -> concat chunks = img ->
  exists s1 w2 u2, tkl_ota_start_notify true (zlen img) (mk_st w ug) = (OPRT_OK, s1) /\
    deliver (zlen img) chunks [] s1 =
      Some (if zlen img mod IMAGE_WRITE_SIZE =? 0 then OPRT_OS_ADAPTER_OTA_PROCESS_FAILED else OPRT_OK, [], mk_st w2 (Some u2)) /\
    installed r img (rom_mem (dev w)) (rom_mem (dev w2)) /\ sys_of (dev w2) = sys_of (dev w).
Proof.
  intros Hg Hr Hi Hb Hz Hne Hc. destruct (update_writes w ug r img chunks) as (s1 & w2 & u2 & E1 & E2 & I & _ & Es & _); try done.
  by exists s1, w2, u2.
Qed.

(** An image of less than 512 bytes is never written: every packet is reported as taken
    and left over whole. *)
Theorem ota_tiny_not_written w r img chunks : 0 < zlen img < IMAGE_WRITE_SIZE -> concat chunks = img ->
  deliver (zlen img) chunks [] (mk_st w (Some (started r))) = Some (OPRT_OK, img, mk_st w (Some (started r))).
Proof.
  unfold IMAGE_WRITE_SIZE. intros Hz Hc.
  assert (forall p, p ++ concat chunks = img ->
    deliver (zlen img) chunks p (mk_st w (Some (started r))) = Some (OPRT_OK, img, mk_st w (Some (started r)))) as E; [|by apply (E [])].
  clear Hc. induction chunks as [|c cs IH]; intros p E.
  - by rewrite app_nil_r in E; subst.
  - cbn [deliver concat] in *. rewrite app_assoc in E. unfold tkl_ota_data_process. cbn [ug_proc data total_len].
    assert (zlen (p ++ c) <= zlen img) by (rewrite <- E, (zlen_app (p ++ c)); pose proof (zlen_nonneg (concat cs)); lia).
    pose proof (u32_range (zlen img - IMAGE_WRITE_SIZE)). unfold IMAGE_WRITE_SIZE in *.
    rewrite (proj2 (Z.ltb_lt _ _)) by lia. cbn [started recv_data_cnt]. rewrite (proj2 (Z.leb_le _ _)) by lia.
    cbn [andb mbind option_bind]. rewrite Z.sub_diag, slice_all. by apply IH.
Qed.

(** ** The flags *)

Definition flags_of (l : list (Z * Z * Z)) (s : sys) : sys :=
  fold_left (fun s '(idx, mask, flag) => set_flag idx mask flag s) l s.

Lemma set_flags_ok l d : Forall (fun x => is_img x.1.1) l ->
  exists d', set_flags l d = (0, d') /\ sys_of d' = flags_of l (sys_of d) /\ same_images (rom_mem d') (rom_mem d).
Proof.
  unfold set_flags, flags_of. intros Hl. revert d. induction Hl as [|[[idx mask] flag] l Hi _ IH]; intros d.
  - by exists d.
  - cbn [fold_left]. destruct (set_flag_ok d idx mask flag Hi) as (d1 & -> & Es & M). cbn [Z.lor].
    destruct (IH d1) as (d2 & E2 & Es2 & M2). exists d2. split; [exact E2|]. rewrite Es2, Es. split; [done|].
    by eapply same_images_trans.
Qed.

Lemma end_flags_img r k : is_img r -> Forall (fun x => is_img x.1.1) (take k (end_flags r)).
Proof. intros Hi. apply Forall_take. destruct Hi as [->| ->]; repeat constructor; by (left + right). Qed.

(** The image that runs was verified, and may be run again. *)
Definition runs_well (s : sys) (r : Z) : Prop :=
  exists v, status s r = Some v /\ mask_is v IMG_FLAG_VERIFY_MASK IMG_FLAG_VERIFY_OK = true /\ bootable v = true.

(** After any of the flag updates it may still be run, and both images are known from the
    second on. *)
Lemma flags_old s r k : is_img r -> runs_well s r -> img0 s <> None ->
  exists v, status (flags_of (take k (end_flags r)) s) r = Some v /\ bootable v = true /\ ((0 < k)%nat -> proven v = true) /\
    img0 (flags_of (take k (end_flags r)) s) <> None.
Proof.
  intros Hi (v & Ev & Hv & Hb) Hz.
  assert (proven (masked v 0x19 8) = true) as Hp.
  { unfold proven. rewrite mask_is_masked_other, Hv by done. unfold mask_is. by rewrite land_masked. }
  destruct k as [|k]; [by exists v; cbn; repeat split; [..|lia|]|].
  exists (masked v 0x19 8). split; [|split; [by unfold bootable; rewrite Hp, orb_true_r|split; [done|]]];
    destruct Hi as [->| ->], k as [|[|k]]; cbn in Ev |- *; rewrite ?take_nil, ?Ev; done.
Qed.

Lemma flags_new s r : is_img r -> status s r <> None ->
  exists v0 v1, status (flags_of (end_flags r) s) r = Some v0 /\ newer_untainted v0 = false /\
    status (flags_of (end_flags r) s) (other r) = Some v1 /\ newer_untainted v1 = true /\
    counter (flags_of (end_flags r) s) = counter s.
Proof.
  intros Hi Hs. destruct (status s r) as [v|] eqn:Ev; [|done].
  exists (masked v 0x19 8), (masked (masked (default 0 (status s (other r))) 0x1f 0) 1 1).
  assert (newer_untainted (masked v 0x19 8) = false) as H1.
  { unfold newer_untainted, mask_is. by rewrite land_masked. }
  assert (forall x, newer_untainted (masked (masked x 0x1f 0) 1 1) = true) as H2.
  { intros x. unfold newer_untainted. rewrite (mask_is_masked_other _ 1 1 IMG_FLAG_VERIFY_MASK), (mask_is_masked_other _ 1 1 IMG_FLAG_IA_MASK) by done.
    unfold mask_is. by rewrite !land_masked. }
  split; [|split; [done|]; split; [|split; [apply H2|]]].
  - destruct Hi as [->| ->]; cbn in Ev |- *; by rewrite Ev.
  - by destruct Hi as [->| ->].
  - by destruct Hi as [->| ->].
Qed.

Lemma select_new s r v0 v1 : is_img r -> status s r = Some v0 -> newer_untainted v0 = false ->
  status s (other r) = Some v1 -> newer_untainted v1 = true -> select (img0 s) (img1 s) = Some (other r).
Proof.
  intros [->| ->] E0 H0 E1 H1; unfold status, other in *; cbn in E0, E1 |- *; rewrite E0, E1; cbn [select from_option].
  - by rewrite H0, H1.
  - by rewrite H1.
Qed.

Section Boot.
Context (RE_MBL_OFFSET uninit : Z) (ibl : option Z).
Abbreviation opt := (u8 (default 0 ibl)).
Hypothesis Hopt : opt_ok RE_MBL_OFFSET opt.
Abbreviation boots := (boots RE_MBL_OFFSET uninit ibl).
Abbreviation accepted := (accepted RE_MBL_OFFSET uninit ibl).

(** The update as a whole, up to the reset. *)
Lemma update_ends w ug r img chunks : good (dev w) -> running (sys_of (dev w)) = Some r -> is_img r ->
  bytes img -> IMAGE_WRITE_SIZE <= zlen img <= slot_size -> zlen img mod IMAGE_WRITE_SIZE <> 0 ->
  Forall (fun c => c <> []) chunks -> concat chunks = img ->
  exists s1 s2 w3, tkl_ota_start_notify true (zlen img) (mk_st w ug) = (OPRT_OK, s1) /\
    deliver (zlen img) chunks [] s1 = Some (OPRT_OK, [], s2) /\
    tkl_ota_end_notify true s2 = Some (OPRT_OK, true, mk_st w3 (ug_proc s2)) /\
    sys_of (dev w3) = flags_of (end_flags r) (sys_of (dev w)) /\
    (forall i, 0 <= i < zlen img -> rom_mem (dev w3) (slot (other r) + i) = nthb img i) /\
    (forall i, RE_IMG_0_OFFSET <= i < RE_IMG_1_OFFSET -> view (rom_mem (dev w3)) r i = view (rom_mem (dev w)) r i).
Proof.
  intros Hg Hr Hi Hb Hz Hm Hne Hc.
  destruct (update_writes w ug r img chunks) as (s1 & w2 & u2 & E1 & E2 & [I1 I2] & _ & Es & _ & Ei); try done.
  rewrite (proj2 (Z.eqb_neq _ _) Hm) in E2. exists s1, (mk_st w2 (Some u2)).
  destruct (set_flags_ok (end_flags r) (dev w2)) as (d3 & E3 & Es3 & M3); [exact (end_flags_img r 3 Hi)|].
  exists (set_dev w2 d3). split; [done|]. split; [done|]. split; [|split; [by rewrite <- Es|]].
  { unfold tkl_ota_end_notify. cbn [ug_proc flash]. by rewrite Ei, E3. }
  unfold slot_size in *. cbn [dev set_dev]. destruct (other_img r Hi) as [Hoi _]. split.
  - intros i Hir. rewrite M3; [by apply I1|]. destruct Hoi as [->| ->]; unfold slot; cbn [Z.eqb Pos.eqb IMAGE_0 IMAGE_1]; layout; lia.
  - intros i Hir. unfold view. rewrite M3, I2; [done| |];
      unfold slot_size; destruct Hi as [->| ->]; unfold slot, other; cbn [Z.eqb Pos.eqb IMAGE_0 IMAGE_1]; layout; lia.
Qed.

(** The ROM's check accepts every image that begins with these bytes, as version [ver]. *)
Definition valid_image (idx : Z) (img : list Z) (ver : Z) : Prop :=
  forall m, (forall i, 0 <= i < zlen img -> m (slot idx + i) = nthb img i) -> verdict RE_MBL_OFFSET uninit opt m idx = Some ver.

(** A device whose flags make the other image the newer one boots it, if its check accepts it. *)
Lemma newer_boots w3 r img ver v0 v1 : is_img r -> zlen img <= slot_size ->
  status (sys_of (dev w3)) r = Some v0 -> newer_untainted v0 = false ->
  status (sys_of (dev w3)) (other r) = Some v1 -> newer_untainted v1 = true ->
  (forall i, 0 <= i < zlen img -> rom_mem (dev w3) (slot (other r) + i) = nthb img i) ->
  valid_image (other r) img ver -> counter (sys_of (dev w3)) <= ver ->
  exists w4, boots 0 (reset w3) = (Jump (FLASH_BASE + (RE_IMG_0_OFFSET + IMG_OVERHEAD_LEN RE_MBL_OFFSET)), w4) /\
    running (sys_of (dev w4)) = Some (other r) /\
    (forall i, 0 <= i < zlen img -> rom_mem (dev w4) (phys (fmc w4) (RE_IMG_0_OFFSET + i)) = nthb img i).
Proof.
  intros Hi Hz S0 N0 S1 N1 I1 Hval Hcnt. pose proof (select_new _ r v0 v1 Hi S0 N0 S1 N1) as Hsel.
  destruct (main_cases RE_MBL_OFFSET uninit ibl Hopt (reset w3) eq_refl) as (o & w4 & E4 & M & Ho). cbn [dev reset set_fmc] in *.
  rewrite Hsel in Ho. destruct o as [[idx b]|]; [|by destruct Ho]. destruct Ho as (Hio & Hfm & [= <-] & Hbb & _ & Hrun).
  rewrite (Hval _ I1), (proj2 (Z.leb_le _ _)), orb_true_r in Hbb by done. subst b. destruct Hrun as [Hrun _].
  exists w4. split; [by cbn [boots]; rewrite E4|]. split; [done|]. intros i Hir.
  unfold slot_size in *. rewrite Hfm, view_phys by (done || layout; lia).
  rewrite (view_ext _ (rom_mem (dev w3))) by (done || layout; lia). unfold view. rewrite <- (I1 i Hir). f_equal. lia.
Qed.

(** C8: an update whose image has at least 512 bytes but not a multiple of 512, fits the slot and is
    delivered in chunks of any sizes, on a chip that does not fail, ends well, and after the reset the device runs that
    image, if the check of the ROM accepts it with a version that is not below the counter. *)
Theorem update_boots w ug r img chunks ver : good (dev w) -> running (sys_of (dev w)) = Some r -> is_img r ->
  bytes img -> IMAGE_WRITE_SIZE <= zlen img <= slot_size -> zlen img mod IMAGE_WRITE_SIZE <> 0 ->
  Forall (fun c => c <> []) chunks -> concat chunks = img ->
  status (sys_of (dev w)) r <> None -> valid_image (other r) img ver -> counter (sys_of (dev w)) <= ver ->
  exists s1 s2 s3 w4, tkl_ota_start_notify true (zlen img) (mk_st w ug) = (OPRT_OK, s1) /\
    deliver (zlen img) chunks [] s1 = Some (OPRT_OK, [], s2) /\
    tkl_ota_end_notify true s2 = Some (OPRT_OK, true, s3) /\
    boots 0 (reset (flash s3)) = (Jump (FLASH_BASE + (RE_IMG_0_OFFSET + IMG_OVERHEAD_LEN RE_MBL_OFFSET)), w4) /\
    running (sys_of (dev w4)) = Some (other r) /\
    (forall i, 0 <= i < zlen img -> rom_mem (dev w4) (phys (fmc w4) (RE_IMG_0_OFFSET + i)) = nthb img i).
Proof.
  intros Hg Hr Hi Hb Hz Hm Hne Hc Hst Hval Hcnt.
  destruct (update_ends w ug r img chunks) as (s1 & s2 & w3 & E1 & E2 & E3 & Es & I1 & _); try done.
  destruct (flags_new (sys_of (dev w)) r Hi Hst) as (v0 & v1 & S0 & N0 & S1 & N1 & Ec). rewrite <- Es in *.
  destruct (newer_boots w3 r img ver v0 v1) as (w4 & E4 & Hrun & Hm4); try done; [lia|lia|].
  exists s1, s2, (mk_st w3 (ug_proc s2)), w4. done.
Qed.

(** C9: an image that the check refuses, or that is older than one that ran, is not run: after
    one reset the device runs the old image again, unchanged. *)
Theorem update_rolls_back w ug r img chunks : good (dev w) -> running (sys_of (dev w)) = Some r -> is_img r ->
  bytes img -> IMAGE_WRITE_SIZE <= zlen img <= slot_size -> zlen img mod IMAGE_WRITE_SIZE <> 0 ->
  Forall (fun c => c <> []) chunks -> concat chunks = img ->
  runs_well (sys_of (dev w)) r -> img0 (sys_of (dev w)) <> None -> accepted w r ->
  (forall w', (forall i, 0 <= i < zlen img -> rom_mem (dev w') (slot (other r) + i) = nthb img i) ->
     counter (sys_of (dev w')) = counter (sys_of (dev w)) -> ~ accepted w' (other r)) ->
  exists s1 s2 s3 a w4, tkl_ota_start_notify true (zlen img) (mk_st w ug) = (OPRT_OK, s1) /\
    deliver (zlen img) chunks [] s1 = Some (OPRT_OK, [], s2) /\
    tkl_ota_end_notify true s2 = Some (OPRT_OK, true, s3) /\
    boots 1 (reset (flash s3)) = (Jump a, w4) /\ running (sys_of (dev w4)) = Some r /\
    (forall i, RE_IMG_0_OFFSET <= i < RE_IMG_1_OFFSET -> rom_mem (dev w4) (phys (fmc w4) i) = view (rom_mem (dev w)) r i).
Proof.
  intros Hg Hr Hi Hb Hz Hm Hne Hc Hwell H0 Hacc Hrej.
  destruct (update_ends w ug r img chunks) as (s1 & s2 & w3 & E1 & E2 & E3 & Es & I1 & I2); try done.
  destruct (flags_old (sys_of (dev w)) r 3 Hi Hwell H0) as (v & Ev & Hbv & _ & Hz3).
  change (take 3 (end_flags r)) with (end_flags r) in *. rewrite <- Es in Ev, Hz3.
  assert (counter (sys_of (dev w3)) = counter (sys_of (dev w))) as Ec by (rewrite Es; by destruct Hi as [->| ->]).
  assert (accepted (reset w3) r) as Hacc3.
  { intros Hn. destruct (Hacc Hn) as (x & Hx & Hle). exists x. cbn [dev reset set_fmc]. rewrite Ec. split; [|done].
    rewrite <- Hx. by apply verdict_local. }
  destruct (bootable_boots RE_MBL_OFFSET uninit ibl Hopt (reset w3) r v eq_refl Hi Hz3 Ev Hbv Hacc3) as (a & w4 & E4).
  destruct (boots_jump RE_MBL_OFFSET uninit ibl Hopt 1 (reset w3) a w4 eq_refl E4) as (_ & _ & j & Hj & Hrun & _ & Haccj & Hmem).
  assert (j = r) as ->.
  { destruct (other_img r Hi) as [Ho Hno]. destruct (decide (j = other r)) as [->|Hd].
    - exfalso. by apply (Hrej (reset w3)).
    - destruct Hi as [->| ->], Hj as [->| ->]; done. }
  exists s1, s2, (mk_st w3 (ug_proc s2)), a, w4. split; [done|]. split; [done|]. split; [done|]. split; [done|]. split; [done|].
  intros i Hir. rewrite Hmem by done. by apply I2.
Qed.

End Boot.

End Device.
(** ** Updates of a board *)

Import Board.

Definition board_good (b : board) : Prop := chip_good (bchip b).

Lemma board_sound s : sound RE_IMG_0_OFFSET RE_IMG_1_END (fun d => board_good d /\ sys_of d = s).
Proof.
  unfold board_good. split; [split|]; cbn [rom_flash_write rom_flash_erase fmc_ready_wait fmc_store board_rom].
  - intros [[m f ws] y] off l [[Hf Hw] Hy] _ _. cbn in Hf, Hw, Hy |- *. subst. by eexists.
  - intros [[m f ws] y] [[Hf Hw] Hy]. cbn in Hf, Hw, Hy |- *. subst. by eexists.
  - intros [[m f ws] y] a l [Hg Hy] _ _. done.
  - intros [[m f ws] y] off n [Hg Hy] _ _. by eexists.
Qed.

(** Image 0 runs and was accepted as version 3; the other slot is empty. *)
Definition running0 : world board := world_of (mk_board (flash_of 0x5A 3 0xFF 0xFF) (mk_sys (Some 0xB) None (Some 0) 3)).

(** An image of 600 bytes of version [v], that the check accepts if [b] is [0x5A]; in chunks. *)
Definition image (b v : Z) : list Z := b :: v :: replicate 598 7.
Definition chunks_of (b v : Z) : list (list Z) := [[b]; v :: replicate 520 7; replicate 78 7].

Lemma image_bytes b v : 0 <= b < 256 -> 0 <= v < 256 -> bytes (image b v).
Proof. intros. constructor; [done|]. constructor; [done|]. apply Forall_replicate. lia. Qed.

Lemma zlen_image b v : zlen (image b v) = 600.
Proof. done. Qed.

Lemma chunks_ne b v : Forall (fun c => c <> []) (chunks_of b v).
Proof. by repeat constructor. Qed.

(** What the board's check says of a memory that begins with the image. *)
Lemma board_verdict m b v : (forall i, 0 <= i < zlen (image b v) -> m (slot IMAGE_1 + i) = nthb (image b v) i) ->
  verdict (D := board) 0x1000 0 1 m IMAGE_1 = if b =? 0x5A then Some v else None.
Proof.
  intros Hm. unfold verdict. change (1 =? IBL_VERIFY_CERT_IMG) with false. change (1 =? IBL_VERIFY_IMG_ONLY) with true. cbv iota zeta.
  change (check_img (D := board)) with check. unfold check. cbn [fst snd].
  pose proof (Hm 0 ltac:(rewrite zlen_image; lia)) as E0. pose proof (Hm 1 ltac:(rewrite zlen_image; lia)) as E1.
  change (nthb (image b v) 0) with b in E0. change (nthb (image b v) 1) with v in E1.
  unfold view. replace (RE_IMG_0_OFFSET + (slot IMAGE_1 - RE_IMG_0_OFFSET)) with (slot IMAGE_1 + 0) by lia.
  replace (RE_IMG_0_OFFSET + 1 + (slot IMAGE_1 - RE_IMG_0_OFFSET)) with (slot IMAGE_1 + 1) by lia.
  rewrite E0, E1. by destruct (b =? 0x5A).
Qed.

Lemma ota_writes_image_witness :
  exists s1 w2 u2, tkl_ota_start_notify true 600 (mk_st running0 None) = (OPRT_OK, s1) /\
    deliver 600 (chunks_of 0x5A 4) [] s1 = Some (OPRT_OK, [], mk_st w2 (Some u2)) /\
    installed 0 (image 0x5A 4) (rom_mem (dev running0)) (rom_mem (dev w2)) /\ sys_of (dev w2) = sys_of (dev running0).
Proof.
  apply (ota_writes_image board_good board_sound running0 None 0 (image 0x5A 4) (chunks_of 0x5A 4));
    [done|done|by left|apply image_bytes; lia|rewrite zlen_image; vm_compute; done|apply chunks_ne|reflexivity].
Defined.

Lemma ota_tiny_not_written_witness :
  deliver 3 [[0x5A]; [4; 7]] [] (mk_st running0 (Some (started 0))) = Some (OPRT_OK, [0x5A; 4; 7], mk_st running0 (Some (started 0))).
Proof. apply (ota_tiny_not_written running0 0 [0x5A; 4; 7] [[0x5A]; [4; 7]]); [vm_compute; done|reflexivity]. Defined.

Abbreviation rom_boot := (Some IBL_VERIFY_IMG_ONLY).

Lemma update_boots_witness :
  exists s1 s2 s3 w4, tkl_ota_start_notify true 600 (mk_st running0 None) = (OPRT_OK, s1) /\
    deliver 600 (chunks_of 0x5A 4) [] s1 = Some (OPRT_OK, [], s2) /\
    tkl_ota_end_notify true s2 = Some (OPRT_OK, true, s3) /\
    boots 0x1000 0 rom_boot 0 (reset (flash s3)) = (Jump (FLASH_BASE + (RE_IMG_0_OFFSET + IMG_OVERHEAD_LEN 0x1000)), w4) /\
    running (sys_of (dev w4)) = Some (other 0) /\
    (forall i, 0 <= i < 600 -> rom_mem (dev w4) (phys (fmc w4) (RE_IMG_0_OFFSET + i)) = nthb (image 0x5A 4) i).
Proof.
  apply (update_boots board_good board_sound 0x1000 0 rom_boot rom_checks running0 None 0 (image 0x5A 4) (chunks_of 0x5A 4) 4);
    [done|done|by left|apply image_bytes; lia|rewrite zlen_image; vm_compute; done|done|apply chunks_ne|reflexivity|done| |by vm_compute].
  intros m Hm. exact (board_verdict m 0x5A 4 Hm).
Defined.

Lemma update_rolls_back_witness :
  exists s1 s2 s3 a w4, tkl_ota_start_notify true 600 (mk_st running0 None) = (OPRT_OK, s1) /\
    deliver 600 (chunks_of 0 4) [] s1 = Some (OPRT_OK, [], s2) /\
    tkl_ota_end_notify true s2 = Some (OPRT_OK, true, s3) /\
    boots 0x1000 0 rom_boot 1 (reset (flash s3)) = (Jump a, w4) /\ running (sys_of (dev w4)) = Some 0 /\
    (forall i, RE_IMG_0_OFFSET <= i < RE_IMG_1_OFFSET -> rom_mem (dev w4) (phys (fmc w4) i) = view (rom_mem (dev running0)) 0 i).
Proof.
  apply (update_rolls_back board_good board_sound 0x1000 0 rom_boot rom_checks running0 None 0 (image 0 4) (chunks_of 0 4));
    [done|done|by left|apply image_bytes; lia|rewrite zlen_image; vm_compute; done|done|apply chunks_ne|reflexivity| |done| |].
  - exists 0xB. by vm_compute.
  - intros _. exists 3. by vm_compute.
  - intros w' Hm _ Ha. destruct (Ha ltac:(done)) as (ver & E & _).
    change (u8 (default 0 rom_boot)) with 1 in E. change (other 0) with IMAGE_1 in E. rewrite (board_verdict _ 0 4 Hm) in E. done.
Defined.

End Update.
