(* ===== verification/UpdatePower.v ===== *)
(** * Loss of power during an update

    The chip may lose its power in any flash operation of an update: it is asked of the
    operations only that they change nothing outside their range, so that one of them may be
    cut short and all that follow it may do nothing. The calls that receive the image then
    change nothing outside the slot of the image that does not run. *)
From S2P Require Import Prelude Flash RawFlash Boot BootSpec Board BootProps Ota OtaSpec Update.
Open Scope Z_scope.

Module UpdatePower.
Import RawFlash Boot BootSpec BootProps Ota OtaSpec Update.

(** Some bytes of this range may have changed, and the status area has not. *)
Definition within {D} `{SysRomLaws D} (lo hi : Z) (d d' : D) : Prop :=
  sys_of d' = sys_of d /\ forall i, ~ lo <= i < hi -> rom_mem d' i = rom_mem d i.

(** An operation of the chip reaches no byte outside its range, whatever it does inside and
    whatever it answers. *)
Class Contained (D : Type) `{SysRomLaws D} := {
  ct_write d off l : 0 <= off -> off + zlen l <= FLASH_TOTAL_SIZE -> within off (off + zlen l) d (rom_flash_write d off l).2;
  ct_erase d off n : 0 <= off -> off + n <= FLASH_TOTAL_SIZE -> (SECTOR | off) -> (SECTOR | n) ->
    within off (off + n) d (rom_flash_erase d off n).2;
  ct_wait d : within 0 0 d (fmc_ready_wait d).2;
  ct_store d a l : zlen l = 4 -> (4 | a) -> within a (a + 4) d (fmc_store d (FLASH_BASE + a) l)
}.

Section Data.
Context {D : Type} {HRom : Rom D} {HSys : SysRom D} {HSysLaws : SysRomLaws D} {HCon : Contained D}.
Implicit Type w : world D.

Lemma within_refl lo hi (d : D) : within lo hi d d.
Proof. done. Qed.

Lemma within_trans lo hi (d d1 d2 : D) : within lo hi d d1 -> within lo hi d1 d2 -> within lo hi d d2.
Proof. intros [E1 H1] [E2 H2]. split; [congruence|]. intros i Hi. by rewrite H2, H1. Qed.

Lemma within_mono lo hi lo' hi' (d d1 : D) : within lo hi d d1 -> (forall i, lo <= i < hi -> lo' <= i < hi') -> within lo' hi' d d1.
Proof. intros [E H] Hi. split; [done|]. intros i Hn. apply H. intros Hl. by apply Hn, Hi. Qed.

Section Window.
Context (lo hi : Z) (Hwin : 0 <= lo /\ hi <= FLASH_TOTAL_SIZE).

Lemma write_within w off l : lo <= off -> off + zlen l <= hi -> within lo hi (dev w) (dev (raw_flash_write w off l).2).
Proof.
  intros Hl Hh. unfold raw_flash_write. destruct (bad_range off (zlen l)); [done|].
  pose proof (ct_write (dev w) off l ltac:(lia) ltac:(lia)) as Hc. destruct (rom_flash_write (dev w) off l) as [r d].
  eapply within_mono; [exact Hc|lia].
Qed.

Lemma erase_within w off n : lo <= off -> off + n <= hi -> (SECTOR | off) -> (SECTOR | n) ->
  within lo hi (dev w) (dev (raw_flash_erase w off n).2).
Proof.
  intros Hl Hh Ho Hn. unfold raw_flash_erase, raw_flash_erase_handler. destruct (bad_range off n); [done|].
  cbn [dev set_dev fmc raw_erase_cb_list calls].
  pose proof (ct_erase (dev w) off n ltac:(lia) ltac:(lia) Ho Hn) as Hc. destruct (rom_flash_erase (dev w) off n) as [r d].
  eapply within_mono; [exact Hc|lia].
Qed.

Lemma program_words_within n : forall (d : D) a data,
  lo <= a -> a + 4 * Z.of_nat n <= hi -> (4 | a) -> 4 * Z.of_nat n <= zlen data ->
  within lo hi d (program_words d (FLASH_BASE + a) data n).
Proof.
  induction n as [|n IH]; intros d a data Ha Hh H4 Hl; cbn [program_words]; [done|].
  assert (u32 (FLASH_BASE + a + 4) = FLASH_BASE + (a + 4)) as -> by (layout; rewrite wrap32_small; lia).
  eapply within_trans; [eapply within_mono; [apply (ct_store d a)|]|apply IH]; try lia.
  - apply zlen_slice; lia.
  - done.
  - by apply Z.divide_add_r; [|exists 1].
  - unfold zlen in *. rewrite length_drop. lia.
Qed.

Lemma continuous_within (d : D) a data size : lo <= a -> a + size <= hi -> (4 | a) -> (4 | size) -> 0 <= size <= zlen data ->
  within lo hi d (fmc_continuous_program d (FLASH_BASE + a) data size).2.
Proof.
  intros Ha Hh H4 [k ->] Hs. unfold fmc_continuous_program. pose proof (ct_wait d) as Hw. destruct (fmc_ready_wait d) as [st d1].
  assert (within lo hi d d1) as H1 by (eapply within_mono; [exact Hw|lia]).
  destruct (st =? FMC_READY); [|done]. rewrite Z.div_mul by lia. cbn [snd].
  eapply within_trans; [exact H1|]. apply program_words_within; rewrite ?Z2Nat.id by lia; done || lia.
Qed.

Lemma write_fast_within w off l : lo <= off -> off + zlen l <= hi -> within lo hi (dev w) (dev (raw_flash_write_fast w off l).2).
Proof.
  intros Ho Ht. unfold raw_flash_write_fast. destruct (bad_range off (zlen l)) eqn:Eb; [done|].
  destruct (Z.leb_spec (zlen l) 4) as [|H4]; [by apply write_within|].
  rewrite !land3_mod, (wrap32_small (off + zlen l)) by (layout; lia).
  destruct (fast_aligned off) as [Hr Hal]. set (r0 := 4 - off mod 4) in *. set (r := if r0 =? 4 then 0 else r0) in *.
  set (rr := (off + zlen l) mod 4). pose proof (Z.mod_pos_bound (off + zlen l) 4 ltac:(lia)) as Hm. fold rr in Hm.
  assert ((4 | zlen l - r - rr)) as Hsz.
  { replace (zlen l - r - rr) with (off + zlen l - rr - (off + r)) by lia. apply Z.divide_sub_r; [|done].
    unfold rr. exists ((off + zlen l) / 4). rewrite (Z.div_mod (off + zlen l) 4) at 1 by lia. lia. }
  assert (0 <= zlen l - r - rr) as Hsz0 by (destruct Hsz; lia).
  assert (exists ret wa, (if negb (r =? 0) then raw_flash_write w off (slice 0 r l) else (0, w)) = (ret, wa) /\
    within lo hi (dev w) (dev wa)) as (ret & wa & -> & Ha).
  { destruct (negb (r =? 0)); [|by exists 0, w].
    pose proof (write_within w off (slice 0 r l)) as Hw. rewrite zlen_slice in Hw by lia.
    destruct (raw_flash_write w off (slice 0 r l)) as [ret wa]. exists ret, wa. split; [done|apply Hw; lia]. }
  destruct (negb (ret =? 0)); [done|].
  rewrite (wrap32_small (FLASH_BASE + off + r)), <- Z.add_assoc by (layout; lia).
  pose proof (continuous_within (dev wa) (off + r) (slice r (zlen l - r) l) (zlen l - r - rr)) as Hc.
  rewrite zlen_slice in Hc by lia. destruct (fmc_continuous_program _ _ _ _) as [ret2 d2]. cbn [snd] in Hc.
  assert (within lo hi (dev w) d2) as H2 by (eapply within_trans; [exact Ha|apply Hc; done || lia]).
  destruct (negb (rr =? 0)); [|done]. rewrite (wrap32_small (off + zlen l - rr)) by (layout; lia).
  eapply within_trans; [exact H2|]. apply (write_within (set_dev wa d2)); rewrite ?zlen_slice; lia.
Qed.

End Window.

(** ** The slot that is filled *)

Context (r : Z) (Hr : is_img r).
Abbreviation base := (slot (other r)).

Lemma base_range : RE_IMG_0_OFFSET <= base /\ base + slot_size <= RE_IMG_1_END /\ (SECTOR | base) /\ (SECTOR | slot_size).
Proof.
  unfold slot_size. destruct Hr as [->| ->]; unfold slot, other; cbn [Z.eqb Pos.eqb IMAGE_0 IMAGE_1]; layout;
    repeat split; try lia; first [by exists 10|by exists 490|by exists 480].
Qed.

(** [n] bytes were taken, and only the slot has changed since [d0]. *)
Record filling (d0 : D) (n : Z) (w : world D) (u : UG_PROC_S) : Prop := {
  fg_start : start_addr u = base;
  fg_idx : runing_image_idx u = r;
  fg_recv : recv_data_cnt u = n;
  fg_off : flash_offset u = n;
  fg_range : 0 <= n <= slot_size;
  fg_erased : base <= erase_start_addr u <= base + slot_size;
  fg_sector : (SECTOR | erase_start_addr u);
  fg_within : within base (base + slot_size) d0 (dev w)
}.

Lemma base_window : 0 <= base /\ base + slot_size <= FLASH_TOTAL_SIZE.
Proof. destruct base_range as (? & ? & _). layout. lia. Qed.

Lemma slot_small : slot_size < 2 ^ 31 /\ base + slot_size < 2 ^ 31.
Proof. destruct base_range as (? & ? & _). unfold slot_size in *. layout. lia. Qed.

Lemma filling_erase d0 n w u : filling d0 n w u -> erase_start_addr u < base + slot_size ->
  exists ret w', raw_flash_erase w (erase_start_addr u) ERASE_SIZE = (ret, w') /\ filling d0 n w' u /\
    filling d0 n w' (set_erase (u32 (erase_start_addr u + ERASE_SIZE)) u).
Proof.
  intros [Fs Fi Fr Fo Fn Fe Fd Fw] Hlt. destruct base_range as (_ & _ & [b Eb] & [c Ec]). pose proof Fd as [a Ea]. pose proof slot_small.
  assert (erase_start_addr u + ERASE_SIZE <= base + slot_size) as Hfit by (unfold SECTOR, ERASE_SIZE in *; lia).
  pose proof (erase_within _ _ base_window w (erase_start_addr u) ERASE_SIZE ltac:(lia) Hfit Fd ltac:(by exists 1)) as Hw.
  destruct (raw_flash_erase _ _ _) as [ret w']. exists ret, w'. split; [done|].
  assert (within base (base + slot_size) d0 (dev w')) by (eapply within_trans; [exact Fw|exact Hw]).
  pose proof base_window. unfold ERASE_SIZE in *.
  split; [by constructor|]. constructor; cbn [set_erase start_addr recv_data_cnt flash_offset erase_start_addr runing_image_idx]; try done;
    rewrite wrap32_small by lia; [lia|]. by apply Z.divide_add_r; [|exists 1].
Qed.

Lemma erase_loop_fills d0 n len k : forall w u, filling d0 n w u -> 0 <= len -> n + len <= slot_size ->
  base + slot_size - erase_start_addr u < ERASE_SIZE * Z.of_nat k ->
  exists failed w' u', erase_loop k len w u = Some (failed, w', u') /\ filling d0 n w' u'.
Proof.
  induction k as [|k IH]; intros w u F Hl Hn Hk; [pose proof (fg_erased _ _ _ _ F); lia|].
  cbn [erase_loop]. pose proof slot_small. pose proof base_window. pose proof F as [Fs _ Fr _ Fn Fe _ _]. rewrite Fs, Fr, (wrap32_small (n + base)), wrap32_small by lia.
  destruct (Z.ltb_spec (erase_start_addr u) (n + base + len)); [|by exists false, w, u].
  destruct (filling_erase d0 n w u F) as (ret & w' & -> & F1 & F2); [lia|].
  destruct (negb (ret =? 0)); [by exists true, w', u|].
  apply IH; try done. cbn [set_erase erase_start_addr]. unfold ERASE_SIZE in *. rewrite wrap32_small by lia. lia.
Qed.

Lemma filling_write d0 n w u l : filling d0 n w u -> n + zlen l <= slot_size ->
  exists ret w', raw_flash_write_fast w (u32 (start_addr u + flash_offset u)) l = (ret, w') /\ filling d0 n w' u /\
    filling d0 (n + zlen l) w' (advance (zlen l) u).
Proof.
  intros [Fs Fi Fr Fo Fn Fe Fd Fw] Hl. pose proof slot_small. pose proof base_window. pose proof (zlen_nonneg l).
  rewrite Fs, Fo, wrap32_small by lia.
  pose proof (write_fast_within _ _ base_window w (base + n) l ltac:(lia) ltac:(lia)) as Hw.
  destruct (raw_flash_write_fast _ _ _) as [ret w']. exists ret, w'. split; [done|].
  assert (within base (base + slot_size) d0 (dev w')) by (eapply within_trans; [exact Fw|exact Hw]).
  split; [by constructor|]. constructor; cbn [advance start_addr recv_data_cnt flash_offset erase_start_addr runing_image_idx]; try done; try lia;
    [rewrite Fr|rewrite Fo]; apply wrap32_small; lia.
Qed.

Lemma write_loop_fills d0 d k : forall n rem w u, filling d0 n w u -> 0 <= rem <= zlen d -> n + rem <= slot_size ->
  rem / IMAGE_WRITE_SIZE < Z.of_nat k ->
  exists failed rem' w' u', write_loop k d rem w u = Some (failed, rem', w', u') /\ 0 <= rem' <= rem /\ filling d0 (n + (rem - rem')) w' u'.
Proof.
  unfold IMAGE_WRITE_SIZE. induction k as [|k IH]; intros n rem w u F Hr' Hn Hk; [pose proof (Z.div_pos rem 512); lia|].
  cbn [write_loop]. unfold IMAGE_WRITE_SIZE. destruct (Z.leb_spec 512 rem) as [Hge|Hlt].
  - assert (zlen (slice (zlen d - rem) 512 d) = 512) as Ez by (apply zlen_slice; lia).
    destruct (filling_write d0 n w u (slice (zlen d - rem) 512 d) F) as (ret & w' & -> & F1 & F2); [lia|]. rewrite Ez in F2.
    destruct (negb (ret =? 0)).
    + exists true, rem, w', u. split; [done|]. split; [lia|]. by rewrite Z.sub_diag, Z.add_0_r.
    + assert (rem / 512 = (rem - 512) / 512 + 1) as Ed by (replace rem with (rem - 512 + 1 * 512) at 1 by lia; by rewrite Z.div_add).
      destruct (IH (n + 512) (rem - 512) w' (advance 512 u) F2) as (failed & rem' & w2 & u2 & -> & Hle & F3); [lia..|].
      exists failed, rem', w2, u2. split; [done|]. split; [lia|]. by replace (n + (rem - rem')) with (n + 512 + (rem - 512 - rem')) by lia.
  - exists false, rem, w, u. split; [done|]. split; [lia|]. by rewrite Z.sub_diag, Z.add_0_r.
Qed.

(** A packet, whatever length is declared: what is not left over was taken. *)
Lemma process_fills d0 n w u total d : filling d0 n w u -> n + zlen d <= slot_size ->
  exists res rem w' u', tkl_ota_data_process (Some (mk_pack total d)) true (mk_st w (Some u)) = Some (res, rem, mk_st w' (Some u')) /\
    0 <= rem <= zlen d /\ filling d0 (n + (zlen d - rem)) w' u'.
Proof.
  intros F Hn. unfold tkl_ota_data_process. cbn [ug_proc flash data total_len]. pose proof (zlen_nonneg d) as Hz.
  assert (forall w u, filling d0 n w u -> filling d0 (n + (zlen d - zlen d)) w u) as Hsame by (intros; by rewrite Z.sub_diag, Z.add_0_r).
  case_match; [eexists _, _, _, _; split; [done|]; split; [lia|by apply Hsame]|].
  destruct (erase_loop_fills d0 n (zlen d) sectors w u F Hz Hn) as (failed & w1 & u1 & -> & F1).
  { pose proof (fg_erased _ _ _ _ F). unfold sectors, slot_size, ERASE_SIZE, FLASH_TOTAL_SIZE, RE_IMG_0_OFFSET, RE_IMG_1_OFFSET in *.
    change (Z.to_nat (0x400000 / 0x1000)) with 1024%nat. lia. }
  cbn [mbind option_bind]. destruct failed; [eexists _, _, _, _; split; [done|]; split; [lia|by apply Hsame]|].
  destruct (write_loop_fills d0 d (S (Z.to_nat (zlen d / IMAGE_WRITE_SIZE))) n (zlen d) w1 u1 F1) as (failed & rem & w2 & u2 & -> & Hrem & F2); [lia|lia| |].
  { pose proof (Z.div_pos (zlen d) IMAGE_WRITE_SIZE Hz ltac:(done)). lia. }
  cbn [mbind option_bind]. destruct failed; [by eexists _, _, _, _|]. case_match; [|by eexists _, _, _, _].
  assert (zlen (slice (zlen d - rem) rem d) = rem) as Ez by (apply zlen_slice; lia).
  destruct (filling_write d0 _ w2 u2 (slice (zlen d - rem) rem d) F2) as (ret & w3 & -> & F3 & F4); [lia|]. rewrite Ez in F4.
  destruct (negb (ret =? 0)); [by eexists _, _, _, _|]. eexists _, _, _, _. split; [done|]. split; [lia|].
  by replace (n + (zlen d - 0)) with (n + (zlen d - rem) + rem) by lia.
Qed.

(** Packets that do not fill more than the slot, whatever becomes of each of them. *)
Lemma deliver_fills d0 total chunks : forall n p w u, filling d0 n w u -> n + zlen p + zlen (concat chunks) <= slot_size ->
  exists res p' w' u' n', deliver total chunks p (mk_st w (Some u)) = Some (res, p', mk_st w' (Some u')) /\ filling d0 n' w' u'.
Proof.
  induction chunks as [|c cs IH]; intros n p w u F Hn; cbn [deliver concat] in *; [by eexists _, _, _, _, _|].
  rewrite zlen_app in Hn. pose proof (zlen_nonneg (concat cs)).
  destruct (process_fills d0 n w u total (p ++ c) F) as (res & rem & w' & u' & -> & Hrem & F'); [rewrite zlen_app; lia|].
  cbn [mbind option_bind]. destruct res; [|by eexists _, _, _, _, _..].
  apply (IH _ _ _ _ F'). rewrite zlen_slice by lia. rewrite zlen_app in *. lia.
Qed.

End Data.

(** ** The end of the update *)

Section Boot.
Context {D : Type} {HRom : Rom D} {HSys : SysRom D} {HSysLaws : SysRomLaws D} {HCon : Contained D}.
Context (RE_MBL_OFFSET uninit : Z) (ibl : option Z).
Hypothesis Hopt : opt_ok RE_MBL_OFFSET (u8 (default 0 ibl)).
Abbreviation boots := (boots RE_MBL_OFFSET uninit ibl).
Abbreviation accepted := (accepted RE_MBL_OFFSET uninit ibl).
Implicit Type w : world D.

(** [tkl_ota_end_notify] up to its [k]-th update of the flags. *)
Definition end_until (k : nat) (s : st D) : world D :=
  match ug_proc s with
  | None => flash s
  | Some u => set_dev (flash s) (set_flags (take k (end_flags (runing_image_idx u))) (dev (flash s))).2
  end.

(** After the last one it is the whole call. *)
Lemma end_until_all reset (s : st D) : ug_proc s <> None ->
  (fun x => flash x.2) <$> tkl_ota_end_notify reset s = Some (end_until 3 s).
Proof.
  unfold tkl_ota_end_notify, end_until. destruct (ug_proc s) as [u|]; [|done]. intros _.
  change (take 3 (end_flags (runing_image_idx u))) with (end_flags (runing_image_idx u)).
  destruct (set_flags _ _) as [res d]. by destruct (negb (res =? 0)).
Qed.

(** A device whose old image is as it was runs an image after at most one reset. *)
Lemma flags_boot w w1 r k : is_img r -> runs_well (sys_of (dev w)) r -> img0 (sys_of (dev w)) <> None -> accepted w r ->
  sys_of (dev w1) = sys_of (dev w) ->
  (forall i, RE_IMG_0_OFFSET <= i < RE_IMG_1_OFFSET -> view (rom_mem (dev w1)) r i = view (rom_mem (dev w)) r i) ->
  exists a w2, boots 1 (reset (set_dev w1 (set_flags (take k (end_flags r)) (dev w1)).2)) = (Jump a, w2).
Proof.
  intros Hi Hwell H0 Hacc Es1 Hsame.
  destruct (set_flags_ok (take k (end_flags r)) (dev w1) (end_flags_img r k Hi)) as (d & -> & Es & M). cbn [snd].
  destruct (flags_old (sys_of (dev w)) r k Hi Hwell H0) as (v & Ev & Hbv & _ & Hz). rewrite <- Es1, <- Es in Ev, Hz.
  apply (bootable_boots RE_MBL_OFFSET uninit ibl Hopt (reset (set_dev w1 d)) r v eq_refl Hi); cbn [dev reset set_fmc set_dev]; try done.
  intros Hn. destruct (Hacc Hn) as (x & Hx & Hle). exists x. cbn [dev reset set_fmc set_dev].
  assert (counter (sys_of d) = counter (sys_of (dev w))) as ->.
  { rewrite Es, Es1. destruct Hi as [->| ->], k as [|[|[|k]]]; cbn; rewrite ?take_nil; done. }
  split; [|done]. rewrite <- Hx. apply verdict_local; [done..|]. intros i Hir. rewrite <- Hsame by done. by apply view_ext.
Qed.

(** C10: power is lost anywhere in an update: in any flash operation of the packets received so far,
    which may then be done in part and all later ones not at all, or between two of the updates of
    the flags at the end. Whatever the chip answers and whatever length was declared, as long as the packets
    are no longer than the slot, the calls return, the image that runs and the status are as they
    were when the flags are first touched, and after at most one reset the device runs an image that its check accepts. *)
Theorem update_survives_power_loss w ug r size total chunks k :
  is_img r -> running (sys_of (dev w)) = Some r -> runs_well (sys_of (dev w)) r -> img0 (sys_of (dev w)) <> None -> accepted w r ->
  0 < size <= slot_size -> zlen (concat chunks) <= slot_size ->
  exists s1 res pending s2, tkl_ota_start_notify true size (mk_st w ug) = (OPRT_OK, s1) /\
    deliver total chunks [] s1 = Some (res, pending, s2) /\
    sys_of (dev (flash s2)) = sys_of (dev w) /\
    (forall i, RE_IMG_0_OFFSET <= i < RE_IMG_1_OFFSET -> view (rom_mem (dev (flash s2))) r i = view (rom_mem (dev w)) r i) /\
    exists a w4 j, boots 1 (reset (end_until k s2)) = (Jump a, w4) /\
      is_img j /\ running (sys_of (dev w4)) = Some j /\ accepted (reset (end_until k s2)) j.
Proof.
  intros Hi Hr Hwell H0 Hacc Hsize Hc.
  exists (mk_st w (Some (started r))). rewrite (start_ok w ug r size) by done.
  destruct (base_range r Hi) as (_ & _ & Hb & Hs).
  destruct (deliver_fills r Hi (dev w) total chunks 0 [] w (started r)) as (res & p & w2 & u2 & n & E & F).
  - constructor; cbn [started start_addr recv_data_cnt flash_offset erase_start_addr runing_image_idx]; try done;
      (unfold slot_size in *; layout; lia).
  - change (zlen (@nil Z)) with 0. lia.
  - destruct F as [_ Fi _ _ _ _ _ [Es Hm]]. exists res, p, (mk_st w2 (Some u2)). split; [done|]. split; [exact E|]. split; [done|].
    assert (forall i, RE_IMG_0_OFFSET <= i < RE_IMG_1_OFFSET -> view (rom_mem (dev w2)) r i = view (rom_mem (dev w)) r i) as Hv.
    { intros i Hir. apply Hm. unfold slot_size. destruct Hi as [->| ->]; unfold slot, other; cbn [Z.eqb Pos.eqb IMAGE_0 IMAGE_1]; layout; lia. }
    split; [exact Hv|]. unfold end_until. cbn [ug_proc flash]. rewrite Fi.
    destruct (flags_boot w w2 r k Hi Hwell H0 Hacc Es Hv) as (a & w4 & E4). exists a, w4.
    destruct (boots_jump RE_MBL_OFFSET uninit ibl Hopt 1 (reset _) a w4 eq_refl E4) as (_ & _ & j & Hj & Hrun & _ & Haccj & _). by exists j.
Qed.

End Boot.

(** ** A chip that loses its power *)

Import Board.

(** The board of [Board], with the number of flash operations until it fails: the one that finds
    1 reaches the first half of its range only, those after it do nothing. *)
Record frail := mk_frail { fboard : board; power : nat }.

(** What of [n] bytes an operation reaches, and what it answers. *)
Definition reach (f : frail) (n : Z) : Z := match power f with O => 0 | S O => n / 2 | _ => n end.
Definition answer (f : frail) : Z := if decide (power f <= 1)%nat then -1 else 0.
Definition spend (f : frail) (b : board) : frail := mk_frail b (pred (power f)).

#[export] Instance frail_rom : Rom frail := {|
  rom_flash_read r f off n := rom_flash_read r (fboard f) off n;
  rom_flash_write f off l := (answer f, spend f (rom_flash_write (fboard f) off (slice 0 (reach f (zlen l)) l)).2);
  rom_flash_erase f off n := (answer f, spend f (rom_flash_erase (fboard f) off (reach f n)).2);
  fmc_ready_wait f := (if decide (power f = O) then 1 else FMC_READY, f);
  fmc_store f a l := spend f (fmc_store (fboard f) a (slice 0 (reach f (zlen l)) l));
  rom_mem f := rom_mem (fboard f)
|}.

#[export] Instance frail_sys : SysRom frail := {|
  rom_sys_status_get f type := rom_sys_status_get (fboard f) type;
  rom_sys_status_set f type v := (0, f);
  rom_sys_set_img_flag f idx mask flag := (0, mk_frail (rom_sys_set_img_flag (fboard f) idx mask flag).2 (power f));
  rom_sys_set_running_img f idx := (0, mk_frail (rom_sys_set_running_img (fboard f) idx).2 (power f));
  rom_sys_set_fw_ver f type v := let '(r, b) := rom_sys_set_fw_ver (fboard f) type v in (r, mk_frail b (power f));
  rom_img_validate r f off type := rom_img_validate r (fboard f) off type;
  rom_cert_img_validate r f off type := rom_cert_img_validate r (fboard f) off type;
  xmodem_start f t := f
|}.

#[export] Instance frail_sys_laws : SysRomLaws frail.
Proof.
  apply (Build_SysRomLaws frail _ _ (fun f => sys_of (fboard f)) check check).
  - intros f. apply (status_get_ok (fboard f)).
  - intros f. apply (running_get_ok (fboard f)).
  - intros f idx mask flag _. by eexists.
  - intros f idx _. by eexists.
  - intros f v. destruct (set_fw_ver_ok (fboard f) v) as (r & b & E & Hr & Es & M). cbn [rom_sys_set_fw_ver frail_sys]. rewrite E.
    by exists r, (mk_frail b (power f)).
  - done.
  - done.
  - done.
  - done.
  - exact (check_img_local (D := board)).
  - exact (check_cert_local (D := board)).
Defined.

Lemma reach_range f n : 0 <= n -> 0 <= reach f n <= n.
Proof. intros Hn. unfold reach. pose proof (Z.div_pos n 2). pose proof (Z.div_le_upper_bound n 2 n). destruct (power f) as [|[|?]]; lia. Qed.

Lemma frail_programs f a l fault ws i : ~ a <= i < a + zlen l ->
  chip_mem (mk_chip (programmed (chip_mem (bchip (fboard f))) a (slice 0 (reach f (zlen l)) l)) fault ws) i = chip_mem (bchip (fboard f)) i.
Proof.
  intros Hi. rewrite chip_programmed. unfold programmed. pose proof (reach_range f (zlen l) (zlen_nonneg l)).
  rewrite zlen_slice by lia. repeat if_split; try lia; done.
Qed.

#[export] Instance frail_contained : Contained frail.
Proof.
  constructor; unfold within; cbn [rom_flash_write rom_flash_erase fmc_ready_wait fmc_store rom_mem frail_rom snd sys_of frail_sys_laws spend fboard].
  - intros f off l _ _. cbn [rom_flash_write board_rom]. cbn [rom_flash_write chip_rom].
    destruct (wr_fault (bchip (fboard f))) eqn:E; (split; [done|]); intros i Hi; [done|]. by apply (frail_programs f off l).
  - intros f off n _ _ _ _. split; [done|]. intros i Hi. cbn. unfold chip_mem. cbn [cells]. f_equal.
    destruct (Z.le_gt_cases n 0).
    + unfold reach. pose proof (Z.div_le_upper_bound n 2 0). destruct (power f) as [|[|?]]; repeat if_split; lia.
    + pose proof (reach_range f n). repeat if_split; lia.
  - done.
  - intros f a l Hl _. split; [done|]. intros i Hi. cbn [fmc_store board_rom rom_mem bchip chip_rom].
    replace (FLASH_BASE + a - FLASH_BASE) with a by lia. apply (frail_programs f a l). lia.
Qed.

(** The power fails in the 20th operation, a word of the last packet: its first half is the last
    that is written. *)
Definition failing : world frail := mk_world (mk_frail (dev running0) 20) (fmc running0) [] [].

Example failing_cut :
  (fun '(_, _, s) => (mem_slice (rom_mem (dev (flash s))) RE_IMG_1_OFFSET 4, mem_slice (rom_mem (dev (flash s))) (RE_IMG_1_OFFSET + 70) 8))
    <$> deliver 600 (chunks_of 0x5A 4) [] (mk_st failing (Some (started 0))) = Some ([0x5A; 4; 7; 7], [7; 7; 7; 7; 0xFF; 0xFF; 0xFF; 0xFF]).
Proof. vm_compute. reflexivity. Qed.

Lemma update_survives_power_loss_witness :
  exists s1 res pending s2, tkl_ota_start_notify true 600 (mk_st failing None) = (OPRT_OK, s1) /\
    deliver 600 (chunks_of 0x5A 4) [] s1 = Some (res, pending, s2) /\
    sys_of (dev (flash s2)) = sys_of (dev failing) /\
    (forall i, RE_IMG_0_OFFSET <= i < RE_IMG_1_OFFSET -> view (rom_mem (dev (flash s2))) 0 i = view (rom_mem (dev failing)) 0 i) /\
    exists a w4 j, boots 0x1000 0 rom_boot 1 (reset (end_until 0 s2)) = (Jump a, w4) /\
      is_img j /\ running (sys_of (dev w4)) = Some j /\ accepted 0x1000 0 rom_boot (reset (end_until 0 s2)) j.
Proof.
  apply (update_survives_power_loss 0x1000 0 rom_boot rom_checks failing None 0 600 600 (chunks_of 0x5A 4) 0);
    [by left|done| |done| |done|by vm_compute].
  - exists 0xB. by vm_compute.
  - intros _. exists 3. by vm_compute.
Defined.

End UpdatePower.
