(* ===== verification/Dfu.v ===== *)
(** * The firmware update over Bluetooth

    [src/gd32_os/MSDK/ble/app/app_dfu_srv.c], with the service of [ble/profile/ota/ble_ota_srv.c]
    below it: a peer sends an image in packets, the device writes it over the image that does
    not run, compares the digest, sets the flags for the boot loader and resets. *)
From S2P Require Import Prelude Crc Flash RawFlash Boot.
Open Scope Z_scope.
Open Scope fw_scope.

Module Dfu.

Definition SHA256_RESULT_SIZE : Z := 32.
Definition FLASH_WRITE_SIZE : Z := 4096.
Definition DFU_TIMEOUT_DEFAULT : Z := 5000.

Definition BLE_CONN_OTA_INTV : Z := 7.
Definition BLE_CONN_OTA_LATENCY : Z := 0.
Definition BLE_CONN_OTA_SUPV_TOUT : Z := 500.

Definition DFU_MODE_BLE : Z := 0.

Definition DFU_OPCODE_MODE : Z := 0.
Definition DFU_OPCODE_IMAGE_SIZE : Z := 1.
Definition DFU_OPCODE_START_DFU : Z := 2.
Definition DFU_OPCODE_VERIFICATION : Z := 3.
Definition DFU_OPCODE_REBOOT : Z := 4.
Definition DFU_OPCODE_RESET : Z := 5.
Definition DFU_OPCODE_CRC_CHECK : Z := 6.
Definition DFU_OPCODE_MAX : Z := 7.

Definition DFU_ERROR_NO_ERROR : Z := 0.
Definition DFU_ERROR_MEMORY_CAPA_EXCEED : Z := 1.
Definition DFU_ERROR_STATE_ERROR : Z := 2.
Definition DFU_ERROR_HASH_ERROR : Z := 3.
Definition DFU_ERROR_WRONG_LENGTH : Z := 4.
Definition DFU_ERROR_TIMEOUT : Z := 5.
Definition DFU_ERROR_PARAM_UPD_FAIL : Z := 6.
Definition DFU_ERROR_CRC : Z := 7.

(** [dfu_srv_cmd_cb]: the length of a command, and its timeout. *)
Definition dfu_cmd_len (opcode : Z) : Z := nthb [2; 5; 1; 33; 1; 2; 3] opcode.
Definition dfu_timeout (opcode : Z) : Z :=
  nthb [10000; DFU_TIMEOUT_DEFAULT; 180000; DFU_TIMEOUT_DEFAULT; DFU_TIMEOUT_DEFAULT; DFU_TIMEOUT_DEFAULT; DFU_TIMEOUT_DEFAULT] opcode.

Inductive ble_dfu_srv_state_t :=
| DFU_STATE_SRV_IDLE | DFU_STATE_SRV_MODE_GET | DFU_STATE_SRV_IMAGE_SIZE_GET | DFU_STATE_SRV_DFU_STARTED
| DFU_STATE_SRV_DFU_FINISHED | DFU_STATE_SRV_VERIFICATION_PASS | DFU_STATE_SRV_WAIT_LAST_CMD | DFU_STATE_SRV_DISCONNECTING.
#[export] Instance ble_dfu_srv_state_eq : EqDecision ble_dfu_srv_state_t.
Proof. solve_decision. Defined.

(** The functions of the Bluetooth host and of the system, as they are called. *)
Inductive call :=
| ble_gatts_svc_add | ble_gatts_svc_rmv | ble_gatts_ntf_ind_send (conn : Z) (val : list Z)
| ble_conn_param_update_req (conn intv latency supv_tout : Z) | ble_conn_disconnect (conn : Z)
| ble_sleep_mode_get | ble_sleep_mode_set (mode : Z) | ble_stack_task_resume | ble_wait_sleep_exit (ms : Z)
| ble_adp_callback_register | app_adv_set_adv_data (data : list Z)
| sys_timer_init (period : Z) | sys_timer_start_ext (period : Z) | sys_timer_stop.

(** The digest library, the allocator and the other calls. [answer]: the result of the last of
    the calls so far. [sys_malloc]: the address of a block, or 0. [fill]: what it holds. *)
Class Env := {
  answer : list call -> Z;
  sys_malloc : gmap Z (list Z) -> Z -> Z;
  fill : Z -> Z;
  sha256_context : Type;
  zero_context : sha256_context;
  mbedtls_sha256_init : sha256_context -> sha256_context;
  mbedtls_sha256_starts : sha256_context -> sha256_context;
  mbedtls_sha256_update : sha256_context -> list Z -> sha256_context;
  mbedtls_sha256_finish : sha256_context -> list Z * sha256_context;
  mbedtls_sha256_free : sha256_context -> sha256_context
}.

Record dfu_srv_env_t {E : Env} := mk_env {
  state : ble_dfu_srv_state_t; dfu_mode : Z; working_bank : Z; new_img_addr : Z; total_bank_size : Z; ota_img_size : Z;
  cur_offset : Z; temp_buf_used_size : Z; p_tem_buf : Z; erase_start_addr : Z; sha_context : sha256_context
}.

(** An access outside an object, a block freed twice, the reset of the chip. *)
Inductive stop := Bounds | DoubleFree | SysTimer_SoftwareReset.

Section Server.
Context {E : Env} {D : Type} `{Rom D, SysRom D}.

Definition set_state (s : ble_dfu_srv_state_t) (e : dfu_srv_env_t) : dfu_srv_env_t :=
  mk_env _ s (dfu_mode e) (working_bank e) (new_img_addr e) (total_bank_size e) (ota_img_size e) (cur_offset e) (temp_buf_used_size e)
    (p_tem_buf e) (erase_start_addr e) (sha_context e).
Definition set_bank (b a n : Z) (e : dfu_srv_env_t) : dfu_srv_env_t :=
  mk_env _ (state e) DFU_MODE_BLE b a n (ota_img_size e) (cur_offset e) (temp_buf_used_size e) (p_tem_buf e) a (sha_context e).
Definition set_size (n : Z) (e : dfu_srv_env_t) : dfu_srv_env_t :=
  mk_env _ (state e) (dfu_mode e) (working_bank e) (new_img_addr e) (total_bank_size e) n (cur_offset e) (temp_buf_used_size e)
    (p_tem_buf e) (erase_start_addr e) (sha_context e).
Definition set_used (n : Z) (e : dfu_srv_env_t) : dfu_srv_env_t :=
  mk_env _ (state e) (dfu_mode e) (working_bank e) (new_img_addr e) (total_bank_size e) (ota_img_size e) (cur_offset e) n
    (p_tem_buf e) (erase_start_addr e) (sha_context e).
Definition set_offset (n : Z) (e : dfu_srv_env_t) : dfu_srv_env_t :=
  mk_env _ (state e) (dfu_mode e) (working_bank e) (new_img_addr e) (total_bank_size e) (ota_img_size e) n (temp_buf_used_size e)
    (p_tem_buf e) (erase_start_addr e) (sha_context e).
Definition set_buf (p : Z) (e : dfu_srv_env_t) : dfu_srv_env_t :=
  mk_env _ (state e) (dfu_mode e) (working_bank e) (new_img_addr e) (total_bank_size e) (ota_img_size e) (cur_offset e)
    (temp_buf_used_size e) p (erase_start_addr e) (sha_context e).
Definition set_erase (a : Z) (e : dfu_srv_env_t) : dfu_srv_env_t :=
  mk_env _ (state e) (dfu_mode e) (working_bank e) (new_img_addr e) (total_bank_size e) (ota_img_size e) (cur_offset e)
    (temp_buf_used_size e) (p_tem_buf e) a (sha_context e).
Definition set_context (c : sha256_context) (e : dfu_srv_env_t) : dfu_srv_env_t :=
  mk_env _ (state e) (dfu_mode e) (working_bank e) (new_img_addr e) (total_bank_size e) (ota_img_size e) (cur_offset e)
    (temp_buf_used_size e) (p_tem_buf e) (erase_start_addr e) c.
Definition zero_env : dfu_srv_env_t := mk_env _ DFU_STATE_SRV_IDLE 0 0 0 0 0 0 0 0 0 zero_context.

(** [heap]: the blocks that are allocated; [callbacks]: whether those of the service are set. *)
Record world := mk_world {
  flash : RawFlash.world D; dfu_srv_env : dfu_srv_env_t; heap : gmap Z (list Z); calls : list call; callbacks : bool
}.
Abbreviation C := (M world stop).

Definition env : C dfu_srv_env_t := let! w := get in ret (dfu_srv_env w).
Definition env_mod (f : dfu_srv_env_t -> dfu_srv_env_t) : C unit :=
  modify (fun w => mk_world (flash w) (f (dfu_srv_env w)) (heap w) (calls w) (callbacks w)).
Definition set_flash (f : RawFlash.world D) : C unit := modify (fun w => mk_world f (dfu_srv_env w) (heap w) (calls w) (callbacks w)).
Definition set_heap (h : gmap Z (list Z)) : C unit := modify (fun w => mk_world (flash w) (dfu_srv_env w) h (calls w) (callbacks w)).
Definition do (k : call) : C Z := fun w =>
  let l := calls w ++ [k] in (mk_world (flash w) (dfu_srv_env w) (heap w) l (callbacks w), inr (answer l)).

Definition malloc (n : Z) : C Z :=
  let! w := get in
  let p := sys_malloc (heap w) n in
  (if p =? 0 then ret tt else set_heap (<[p := map fill (seqZ 0 n)]> (heap w))) ;;; ret p.
Definition sys_mfree (p : Z) : C unit :=
  let! w := get in
  if p =? 0 then ret tt
  else match heap w !! p with Some _ => set_heap (delete p (heap w)) | None => err DoubleFree end.

(** The first [n] bytes of a block. *)
Definition load (p n : Z) : C (list Z) :=
  let! w := get in
  match heap w !! p with
  | Some b => if n <=? zlen b then ret (slice 0 n b) else err Bounds
  | None => err Bounds
  end.
Definition store (p off : Z) (d : list Z) : C unit :=
  let! w := get in
  match heap w !! p with
  | Some b => if off + zlen d <=? zlen b then set_heap (<[p := splice off d b]> (heap w)) else err Bounds
  | None => err Bounds
  end.
Definition byte (l : list Z) (i : Z) : C Z := if i <? zlen l then ret (nthb l i) else err Bounds.

Definition flash_write (off : Z) (d : list Z) : C Z :=
  let! w := get in let '(r, f) := RawFlash.raw_flash_write (flash w) off d in set_flash f ;;; ret r.
Definition flash_read (off n : Z) : C (list Z) :=
  let! w := get in let '(_, d, f) := RawFlash.raw_flash_read (flash w) off n in set_flash f ;;; ret (take (Z.to_nat n) d).
Definition flash_erase (off n : Z) : C Z :=
  let! w := get in let '(r, f) := RawFlash.raw_flash_erase (flash w) off n in set_flash f ;;; ret r.
Definition set_img_flag (idx mask flag : Z) : C Z :=
  let! w := get in
  let '(r, d) := rom_sys_set_img_flag (RawFlash.dev (flash w)) idx mask flag in
  set_flash (RawFlash.set_dev (flash w) d) ;;; ret r.

(** ** The server *)

Definition ble_ota_srv_tx (conn_idx : Z) (buf : list Z) : C Z := do (ble_gatts_ntf_ind_send conn_idx buf).

Definition app_dfu_srv_state_set (s : ble_dfu_srv_state_t) : C unit := env_mod (set_state s).
Definition app_dfu_srv_state_check (s : ble_dfu_srv_state_t) : C bool := let! e := env in ret (bool_decide (state e = s)).

Definition app_dfu_srv_reset : C unit :=
  let! e := env in
  sys_mfree (p_tem_buf e) ;;;
  env_mod (fun _ => zero_env) ;;;
  do sys_timer_stop ;;; ret tt.

Definition app_dfu_srv_data_cb (p_data : list Z) : C unit :=
  let! ok := app_dfu_srv_state_check DFU_STATE_SRV_DFU_STARTED in
  if negb ok then app_dfu_srv_reset
  else
    let! e := env in
    if FLASH_WRITE_SIZE <? temp_buf_used_size e + zlen p_data then
      ble_ota_srv_tx 0 [DFU_OPCODE_RESET; DFU_ERROR_WRONG_LENGTH] ;;; app_dfu_srv_reset
    else
      store (p_tem_buf e) (temp_buf_used_size e) p_data ;;;
      env_mod (set_used (u16 (temp_buf_used_size e + zlen p_data))).

(** The commands: an error code, or nothing when the command is carried out; [None]: it has
    been answered. *)
Definition cmd_mode (p_data : list Z) : C (option Z) :=
  let! mode := byte p_data 1 in
  let! ok := app_dfu_srv_state_check DFU_STATE_SRV_IDLE in
  if negb ok then ret (Some DFU_ERROR_STATE_ERROR)
  else if mode =? DFU_MODE_BLE then
    let! w := get in
    let bank := default (working_bank (dfu_srv_env w)) (rom_sys_status_get (RawFlash.dev (flash w)) SYS_RUNNING_IMG).2 in
    env_mod (if negb (bank =? 0) then set_bank bank RE_IMG_0_OFFSET (RE_IMG_1_OFFSET - RE_IMG_0_OFFSET)
             else set_bank bank RE_IMG_1_OFFSET (RE_IMG_1_END - RE_IMG_1_OFFSET)) ;;;
    env_mod (fun e => set_context (mbedtls_sha256_starts (mbedtls_sha256_init (sha_context e))) e) ;;;
    do (sys_timer_start_ext (dfu_timeout DFU_OPCODE_MODE)) ;;;
    app_dfu_srv_state_set DFU_STATE_SRV_MODE_GET ;;;
    ret (Some DFU_ERROR_NO_ERROR)
  else ret (Some DFU_ERROR_NO_ERROR).

(** The next sector is erased. *)
Definition erase_next : C unit :=
  let! e := env in
  flash_erase (erase_start_addr e) FLASH_WRITE_SIZE ;;;
  env_mod (fun e => set_erase (u32 (erase_start_addr e + FLASH_WRITE_SIZE)) e).

Definition cmd_image_size (p_data : list Z) : C (option Z) :=
  let size := le_dec (slice 1 4 p_data) in
  let! ok := app_dfu_srv_state_check DFU_STATE_SRV_MODE_GET in
  let! e := env in
  if negb ok then ret (Some DFU_ERROR_STATE_ERROR)
  else if (size =? 0) || (total_bank_size e <? size) then ret (Some DFU_ERROR_MEMORY_CAPA_EXCEED)
  else
    env_mod (set_size size) ;;;
    erase_next ;;;
    do (sys_timer_start_ext (dfu_timeout DFU_OPCODE_IMAGE_SIZE)) ;;;
    app_dfu_srv_state_set DFU_STATE_SRV_IMAGE_SIZE_GET ;;;
    ret (Some DFU_ERROR_NO_ERROR).

Definition cmd_start_dfu : C (option Z) :=
  let! ok := app_dfu_srv_state_check DFU_STATE_SRV_IMAGE_SIZE_GET in
  if negb ok then ret (Some DFU_ERROR_STATE_ERROR)
  else
    let! p := malloc FLASH_WRITE_SIZE in
    env_mod (set_buf p) ;;;
    if p =? 0 then ret (Some DFU_ERROR_MEMORY_CAPA_EXCEED)
    else
      let! r := do (ble_conn_param_update_req 0 BLE_CONN_OTA_INTV BLE_CONN_OTA_LATENCY BLE_CONN_OTA_SUPV_TOUT) in
      if negb (r =? 0) then ret (Some DFU_ERROR_PARAM_UPD_FAIL)
      else
        do (sys_timer_start_ext (dfu_timeout DFU_OPCODE_START_DFU)) ;;;
        app_dfu_srv_state_set DFU_STATE_SRV_DFU_STARTED ;;;
        ret (Some DFU_ERROR_NO_ERROR).

(** The buffer is freed, and its address kept. *)
Definition cmd_verification (p_data : list Z) : C (option Z) :=
  let! ok := app_dfu_srv_state_check DFU_STATE_SRV_DFU_FINISHED in
  if negb ok then ret (Some DFU_ERROR_STATE_ERROR)
  else
    let! e := env in
    let '(sha256_result, c) := mbedtls_sha256_finish (sha_context e) in
    env_mod (set_context (mbedtls_sha256_free c)) ;;;
    sys_mfree (p_tem_buf e) ;;;
    if negb (bool_decide (sha256_result = slice 1 SHA256_RESULT_SIZE p_data)) then ret (Some DFU_ERROR_HASH_ERROR)
    else
      do (sys_timer_start_ext (dfu_timeout DFU_OPCODE_VERIFICATION)) ;;;
      app_dfu_srv_state_set DFU_STATE_SRV_VERIFICATION_PASS ;;;
      ret (Some DFU_ERROR_NO_ERROR).

Definition cmd_reboot : C (option Z) :=
  let! ok := app_dfu_srv_state_check DFU_STATE_SRV_VERIFICATION_PASS in
  if negb ok then ret (Some DFU_ERROR_STATE_ERROR)
  else
    do (sys_timer_start_ext (dfu_timeout DFU_OPCODE_REBOOT)) ;;;
    app_dfu_srv_state_set DFU_STATE_SRV_WAIT_LAST_CMD ;;;
    ret (Some DFU_ERROR_NO_ERROR).

(** What was gathered is written, read back for the digest, and the next sector erased. *)
Definition write_buffer : C unit :=
  let! e := env in
  let n := temp_buf_used_size e in
  let addr := u32 (new_img_addr e + cur_offset e) in
  let! d := load (p_tem_buf e) n in
  flash_write addr d ;;;
  let! d := flash_read addr n in
  store (p_tem_buf e) 0 d ;;;
  let! d := load (p_tem_buf e) n in
  env_mod (fun e => set_context (mbedtls_sha256_update (sha_context e) d) e) ;;;
  env_mod (fun e => set_used 0 (set_offset (u32 (cur_offset e + n)) e)) ;;;
  erase_next.

Definition cmd_crc_check (p_data : list Z) : C (option Z) :=
  let! lo := byte p_data 1 in
  let! hi := byte p_data 2 in
  let remote_crc := u16 (lo + Z.shiftl hi 8) in
  let! ok := app_dfu_srv_state_check DFU_STATE_SRV_DFU_STARTED in
  if negb ok then ret (Some DFU_ERROR_STATE_ERROR)
  else
    let! e := env in
    let! d := load (p_tem_buf e) (temp_buf_used_size e) in
    if Crc.crc16 d 0 =? remote_crc then
      write_buffer ;;;
      let! e := env in
      (if cur_offset e =? ota_img_size e then app_dfu_srv_state_set DFU_STATE_SRV_DFU_FINISHED else ret tt) ;;;
      ret (Some DFU_ERROR_NO_ERROR)
    else
      env_mod (set_used 0) ;;;
      ble_ota_srv_tx 0 [DFU_OPCODE_CRC_CHECK; DFU_ERROR_CRC] ;;; ret None.

Definition cmd_reset : C (option Z) := app_dfu_srv_reset ;;; ret None.

Definition command (opcode : Z) (p_data : list Z) : C (option Z) :=
  if opcode =? DFU_OPCODE_MODE then cmd_mode p_data
  else if opcode =? DFU_OPCODE_IMAGE_SIZE then cmd_image_size p_data
  else if opcode =? DFU_OPCODE_START_DFU then cmd_start_dfu
  else if opcode =? DFU_OPCODE_VERIFICATION then cmd_verification p_data
  else if opcode =? DFU_OPCODE_REBOOT then cmd_reboot
  else if opcode =? DFU_OPCODE_RESET then cmd_reset
  else cmd_crc_check p_data.

Definition app_dfu_srv_control_cb (p_data : list Z) : C unit :=
  let! opcode := byte p_data 0 in
  do sys_timer_stop ;;;
  let! r :=
    if DFU_OPCODE_MAX <=? opcode then ret (Some DFU_ERROR_STATE_ERROR)
    else if negb (zlen p_data =? dfu_cmd_len opcode) then ret (Some DFU_ERROR_WRONG_LENGTH)
    else command opcode p_data in
  match r with
  | None => ret tt
  | Some error_code =>
      ble_ota_srv_tx 0 [opcode; error_code] ;;;
      if error_code =? DFU_ERROR_NO_ERROR then ret tt else app_dfu_srv_reset
  end.

(** The running image becomes the older one, the other the newer one; an error of the first
    does not stop the second. *)
Definition switch_flags (bank : Z) : C Z :=
  let other := if bank =? 0 then 1 else 0 in
  let! r1 := set_img_flag bank (Z.lor IMG_FLAG_IA_MASK IMG_FLAG_NEWER_MASK) (Z.lor IMG_FLAG_IA_OK IMG_FLAG_OLDER) in
  let! r2 := set_img_flag other (Z.lor (Z.lor IMG_FLAG_IA_MASK IMG_FLAG_VERIFY_MASK) IMG_FLAG_NEWER_MASK) IMG_FLAG_NEWER in
  ret (Z.lor r1 r2).

Definition app_dfu_srv_set_flag : C bool :=
  let! e := env in
  let flags := switch_flags (working_bank e) in
  let! sleep_mode := do ble_sleep_mode_get in
  let! res :=
    if negb (u8 sleep_mode =? 0) then
      do (ble_sleep_mode_set 0) ;;; do ble_stack_task_resume ;;; do (ble_wait_sleep_exit 10) ;;;
      let! res := flags in
      do (ble_sleep_mode_set (u8 sleep_mode)) ;;; ret res
    else flags in
  if negb (res =? 0) then app_dfu_srv_reset ;;; ret false else ret true.

Definition app_dfu_srv_disconn_cb : C unit :=
  let! ok := app_dfu_srv_state_check DFU_STATE_SRV_DISCONNECTING in
  if negb ok then app_dfu_srv_reset
  else
    let! done := app_dfu_srv_set_flag in
    if (done : bool) then err SysTimer_SoftwareReset else ret tt.

Definition app_dfu_srv_ind_cb : C unit :=
  let! ok := app_dfu_srv_state_check DFU_STATE_SRV_WAIT_LAST_CMD in
  if negb ok then ret tt
  else
    let! r := do (ble_conn_disconnect 0) in
    if negb (r =? 0) then ret tt else app_dfu_srv_state_set DFU_STATE_SRV_DISCONNECTING.

Definition app_dfu_srv_ota_timer_timeout_cb : C unit :=
  ble_ota_srv_tx 0 [DFU_OPCODE_RESET; DFU_ERROR_TIMEOUT] ;;; app_dfu_srv_reset.

(** [enabled]: the adapter was enabled without an error. *)
Definition app_dfu_adp_evt_handler (enabled : bool) : C unit :=
  if enabled then do (app_adv_set_adv_data [2; 1; 6; 3; 3; 0; 0xFF]) ;;; ret tt else ret tt.

(** ** The service *)

Inductive ble_ota_srv_att_idx :=
| BLE_OTA_SRV_IDX_SVC | BLE_OTA_SRV_IDX_DATA_CHAR | BLE_OTA_SRV_IDX_DATA_VAL | BLE_OTA_SRV_IDX_CONTROL_CHAR
| BLE_OTA_SRV_IDX_CONTROL_VAL | BLE_OTA_SRV_IDX_CONTROL_CCCD_CFG.

(** What the host tells the service. *)
Inductive gatts_msg :=
| SVC_ADD_RSP | SVC_RMV_RSP | CONN_STATE_CHANGE (connected : bool) | NTF_IND_SEND_RSP (att_idx : ble_ota_srv_att_idx)
| WRITE_REQ (att_idx : ble_ota_srv_att_idx) (val : list Z) | READ_REQ (att_idx : ble_ota_srv_att_idx).

(** The value that is read, if the attribute is one the service answers for. *)
Definition ble_ota_srv_cb (m : gatts_msg) : C (option (list Z)) :=
  let! w := get in
  let call (f : C unit) : C (option (list Z)) := (if callbacks w then f else ret tt) ;;; ret None in
  match m with
  | SVC_ADD_RSP | SVC_RMV_RSP => ret None
  | CONN_STATE_CHANGE connected => if (connected : bool) then ret None else call app_dfu_srv_disconn_cb
  | NTF_IND_SEND_RSP att_idx =>
      match att_idx with BLE_OTA_SRV_IDX_CONTROL_VAL => call app_dfu_srv_ind_cb | _ => ret None end
  | WRITE_REQ att_idx val =>
      match att_idx with
      | BLE_OTA_SRV_IDX_DATA_VAL => call (app_dfu_srv_data_cb val)
      | BLE_OTA_SRV_IDX_CONTROL_VAL => call (app_dfu_srv_control_cb val)
      | _ => ret None
      end
  | READ_REQ att_idx => match att_idx with BLE_OTA_SRV_IDX_CONTROL_CCCD_CFG => ret (Some [0; 0]) | _ => ret None end
  end.

Definition set_callbacks (b : bool) : C unit := modify (fun w => mk_world (flash w) (dfu_srv_env w) (heap w) (calls w) b).
Definition ble_ota_srv_init : C Z := set_callbacks true ;;; do ble_gatts_svc_add.
Definition ble_ota_srv_deinit : C Z := set_callbacks false ;;; do ble_gatts_svc_rmv.

Definition app_dfu_srv_init : C unit :=
  ble_ota_srv_init ;;; do ble_adp_callback_register ;;; do (sys_timer_init DFU_TIMEOUT_DEFAULT) ;;; app_dfu_srv_reset.
Definition app_dfu_srv_deinit : C unit := app_dfu_srv_reset ;;; ble_ota_srv_deinit ;;; ret tt.

End Server.
Arguments world {E} D.
End Dfu.
