(* ===== verification/DfuSpec.v ===== *)
(** * The firmware update over Bluetooth: what each command does

    Rules for the server's computations, what any read, write and erase of the flash leaves
    alone, and an invariant of the server that holds whatever the peer sends. *)
From S2P Require Import Prelude Crc Flash RawFlash Boot BootSpec BootProps Ota OtaSpec Update Dfu.
Open Scope Z_scope.
Open Scope fw_scope.

Module DfuSpec.
Import Boot BootSpec Dfu.
Abbreviation other := Update.other.
Abbreviation dev := RawFlash.dev.
Abbreviation fmc := RawFlash.fmc.

(** ** Rules *)

Section Generic.
Context {W : Type}.
Abbreviation C := (M W stop).

(** [m] returns and then [Q] holds, or it stops in a way that [F] allows. *)
Definition wp (F : stop -> W -> Prop) {A} (m : C A) (Q : A -> W -> Prop) (w : W) : Prop :=
  match m w with (w', inr a) => Q a w' | (w', inl e) => F e w' end.

Context (F : stop -> W -> Prop).
Implicit Types (w : W).

Lemma wp_mono {A} (m : C A) (P Q : A -> W -> Prop) w : wp F m P w -> (forall a w', P a w' -> Q a w') -> wp F m Q w.
Proof. unfold wp. destruct (m w) as [w' [e|a]]; auto. Qed.

Lemma wp_seq {A B} (m : C A) (f : A -> C B) (Q : B -> W -> Prop) w : wp F m (fun a => wp F (f a) Q) w -> wp F (bnd m f) Q w.
Proof. unfold wp, bnd. by destruct (m w) as [w' [e|a]]. Qed.

Lemma wp_bind {A B} (m : C A) (f : A -> C B) (P : A -> W -> Prop) (Q : B -> W -> Prop) w :
  wp F m P w -> (forall a w', P a w' -> wp F (f a) Q w') -> wp F (bnd m f) Q w.
Proof. intros Hm Hf. eapply wp_seq, wp_mono; [exact Hm|exact Hf]. Qed.

Lemma wp_assoc {A B T} (m : C A) (f : A -> C B) (g : B -> C T) (Q : T -> W -> Prop) w :
  wp F (bnd (bnd m f) g) Q w = wp F (bnd m (fun a => bnd (f a) g)) Q w.
Proof. unfold wp. by rewrite bnd_assoc. Qed.

Lemma wp_done {A} (a : A) (Q : A -> W -> Prop) w : wp F (ret a) Q w = Q a w.
Proof. done. Qed.
Lemma wp_err {A} (e : stop) (Q : A -> W -> Prop) w : wp F (err e) Q w = F e w.
Proof. done. Qed.
Lemma wp_bnd_ret {A B} (a : A) (f : A -> C B) (Q : B -> W -> Prop) w : wp F (bnd (ret a) f) Q w = wp F (f a) Q w.
Proof. done. Qed.
Lemma wp_world {B} (f : W -> C B) (Q : B -> W -> Prop) w : wp F (bnd get f) Q w = wp F (f w) Q w.
Proof. done. Qed.

End Generic.

Section Rules.
Context {E : Env} {D : Type} {HRom : Rom D} {HSys : SysRom D}.
Abbreviation W := (world D).
Abbreviation C := (M W stop).

Definition upd_env (g : dfu_srv_env_t -> dfu_srv_env_t) (w : W) : W := mk_world (flash w) (g (dfu_srv_env w)) (heap w) (calls w) (callbacks w).
Definition upd_flash (f : RawFlash.world D) (w : W) : W := mk_world f (dfu_srv_env w) (heap w) (calls w) (callbacks w).
Definition upd_heap (h : gmap Z (list Z)) (w : W) : W := mk_world (flash w) (dfu_srv_env w) h (calls w) (callbacks w).
Definition add_call (k : call) (w : W) : W := mk_world (flash w) (dfu_srv_env w) (heap w) (calls w ++ [k]) (callbacks w).

Context (F : stop -> W -> Prop).
Implicit Types (w : W).

Section Heads.
Context {B : Type}.
Implicit Types (Q : B -> W -> Prop).
Lemma wp_env (f : dfu_srv_env_t -> C B) Q w : wp F (bnd env f) Q w = wp F (f (dfu_srv_env w)) Q w.
Proof. done. Qed.
Lemma wp_env_mod g (f : unit -> C B) Q w : wp F (bnd (env_mod g) f) Q w = wp F (f tt) Q (upd_env g w).
Proof. done. Qed.
Lemma wp_do k (f : Z -> C B) Q w : wp F (bnd (do k) f) Q w = wp F (f (answer (calls w ++ [k]))) Q (add_call k w).
Proof. done. Qed.
Lemma wp_tx c buf (f : Z -> C B) Q w :
  wp F (bnd (ble_ota_srv_tx c buf) f) Q w = wp F (f (answer (calls w ++ [ble_gatts_ntf_ind_send c buf]))) Q (add_call (ble_gatts_ntf_ind_send c buf) w).
Proof. done. Qed.
Lemma wp_check s (f : bool -> C B) Q w :
  wp F (bnd (app_dfu_srv_state_check s) f) Q w = wp F (f (bool_decide (state (dfu_srv_env w) = s))) Q w.
Proof. done. Qed.
Lemma wp_state_set s (f : unit -> C B) Q w : wp F (bnd (app_dfu_srv_state_set s) f) Q w = wp F (f tt) Q (upd_env (set_state s) w).
Proof. done. Qed.
Lemma wp_set_flash f0 (f : unit -> C B) Q w : wp F (bnd (set_flash f0) f) Q w = wp F (f tt) Q (upd_flash f0 w).
Proof. done. Qed.
Lemma wp_set_heap h (f : unit -> C B) Q w : wp F (bnd (set_heap h) f) Q w = wp F (f tt) Q (upd_heap h w).
Proof. done. Qed.
Lemma wp_byte l i (f : Z -> C B) Q w : i < zlen l -> wp F (bnd (byte l i) f) Q w = wp F (f (nthb l i)) Q w.
Proof. intros Hi. unfold byte. by rewrite (proj2 (Z.ltb_lt _ _) Hi). Qed.
Lemma wp_load p n b (f : list Z -> C B) Q w : heap w !! p = Some b -> n <= zlen b -> wp F (bnd (load p n) f) Q w = wp F (f (slice 0 n b)) Q w.
Proof. intros Hp Hn. unfold load, wp. rewrite bnd_assoc, bnd_get, Hp. by rewrite (proj2 (Z.leb_le _ _) Hn). Qed.
Lemma wp_store p off d b (f : unit -> C B) Q w : heap w !! p = Some b -> off + zlen d <= zlen b ->
  wp F (bnd (store p off d) f) Q w = wp F (f tt) Q (upd_heap (<[p := splice off d b]> (heap w)) w).
Proof. intros Hp Hn. unfold store, wp. rewrite bnd_assoc, bnd_get, Hp. by rewrite (proj2 (Z.leb_le _ _) Hn). Qed.
End Heads.

Lemma wp_last_env_mod g (Q : unit -> W -> Prop) w : wp F (env_mod g) Q w = Q tt (upd_env g w).
Proof. done. Qed.
Lemma wp_last_state_set s (Q : unit -> W -> Prop) w : wp F (app_dfu_srv_state_set s) Q w = Q tt (upd_env (set_state s) w).
Proof. done. Qed.

End Rules.

Ltac wp_step := rewrite ?wp_assoc, ?wp_bnd_ret, ?wp_world, ?wp_env, ?wp_env_mod, ?wp_do, ?wp_tx, ?wp_check, ?wp_state_set, ?wp_set_flash, ?wp_set_heap.
Ltac wp_steps := repeat (progress wp_step).

(** ** The flash driver, on any chip *)

Section Driver.
Context {D : Type} {HRom : Rom D} {HLaws : RomLaws D}.
Implicit Type w : RawFlash.world D.

(** A read leaves everything as it was, wherever it reads. *)
Lemma read_same w off n : RawFlash.boot_regs (fmc w) -> (RawFlash.raw_flash_read w off n).2 = w.
Proof.
  intros Hr. destruct w as [d r cbs cs]. unfold RawFlash.raw_flash_read. cbn [RawFlash.fmc] in Hr |- *.
  destruct Hr as [->| ->]; destruct (RawFlash.bad_range off n); try done.
  - cbn [of_value RawFlash.regs_image0 Z.ltb Z.compare]. destruct ((RE_IMG_1_OFFSET <=? off) && (off <? RE_IMG_1_END)); [|by destruct (RawFlash.rom_read _ _ _)].
    by destruct (RawFlash.rom_read _ _ _).
  - cbn [of_value RawFlash.regs_image1]. change (0 <? Z.shiftr (RE_IMG_1_OFFSET - RE_IMG_0_OFFSET) 12) with true. cbv iota.
    destruct ((RE_IMG_0_OFFSET <=? off) && (off <? RE_IMG_1_OFFSET)); [by destruct (RawFlash.rom_read _ _ _)|].
    destruct ((RE_IMG_1_OFFSET <=? off) && (off <? RE_IMG_1_END)); by destruct (RawFlash.rom_read _ _ _).
Qed.

Lemma valid_is x : RawFlash.raw_flash_is_valid_offset x = (x <? FLASH_TOTAL_SIZE).
Proof. done. Qed.
Lemma bad_range_is off n : RawFlash.bad_range off n =
  negb (RawFlash.raw_flash_is_valid_offset off) || (n <=? 0) || negb (RawFlash.raw_flash_is_valid_offset (u32 (off + n - 1))).
Proof. done. Qed.

Lemma in_range off n : 0 <= off -> 0 < n <= FLASH_WRITE_SIZE -> RawFlash.bad_range off n = false -> off + n <= FLASH_TOTAL_SIZE.
Proof.
  intros Ho Hn Hb. assert (4096 < FLASH_TOTAL_SIZE < 2 ^ 31) as Ht by done. unfold FLASH_WRITE_SIZE in Hn. rewrite bad_range_is, !valid_is in Hb.
  revert Ht Hb. generalize FLASH_TOTAL_SIZE. intros T Ht Hb. bool_to_prop. rewrite wrap32_small in * by lia. lia.
Qed.

(** A write changes no byte outside its range, an erase none outside its sectors, whether they succeed or not. *)
Lemma write_frame w off l r w' : 0 <= off -> zlen l <= FLASH_WRITE_SIZE -> RawFlash.raw_flash_write w off l = (r, w') ->
  fmc w' = fmc w /\ forall i, ~ off <= i < off + zlen l -> rom_mem (dev w') i = rom_mem (dev w) i.
Proof.
  intros Ho Hl. unfold RawFlash.raw_flash_write. destruct (RawFlash.bad_range off (zlen l)) eqn:Eb; [by intros [= _ <-]|].
  destruct (rom_flash_write (dev w) off l) as [st d] eqn:E. intros [= _ <-]. split; [done|]. intros i Hi. cbn [RawFlash.dev RawFlash.set_dev].
  assert (0 < zlen l) as Hp by (unfold RawFlash.bad_range in Eb; destruct (Z.leb_spec (zlen l) 0); [by rewrite orb_true_r in Eb|done]).
  pose proof (in_range off (zlen l) Ho (conj Hp Hl) Eb) as Hr.
  destruct (rom_write_ok _ _ _ _ _ Ho Hr E) as [_ Hall]. specialize (Hall i). repeat if_split_in Hall; try lia; done.
Qed.

Lemma erase_frame w off r w' : 0 <= off -> (SECTOR | off) -> RawFlash.raw_flash_erase w off FLASH_WRITE_SIZE = (r, w') ->
  fmc w' = fmc w /\ forall i, ~ off <= i < off + FLASH_WRITE_SIZE -> rom_mem (dev w') i = rom_mem (dev w) i.
Proof.
  intros Ho Hs. unfold RawFlash.raw_flash_erase, RawFlash.raw_flash_erase_handler. destruct (RawFlash.bad_range off FLASH_WRITE_SIZE) eqn:Eb; [by intros [= _ <-]|].
  cbn [RawFlash.dev RawFlash.fmc RawFlash.set_dev RawFlash.raw_erase_cb_list RawFlash.calls].
  destruct (rom_flash_erase (dev w) off FLASH_WRITE_SIZE) as [st d] eqn:E. intros [= _ <-]. split; [done|]. intros i Hi. cbn [RawFlash.dev].
  pose proof (in_range off FLASH_WRITE_SIZE Ho ltac:(done) Eb) as Hr.
  destruct (rom_erase_ok _ _ _ _ _ Ho Hr Hs ltac:(by exists 1) E) as [_ Hall]. by apply Hall.
Qed.

End Driver.

Lemma mem_slice_app m off a b : 0 <= a -> 0 <= b -> mem_slice m off (a + b) = mem_slice m off a ++ mem_slice m (off + a) b.
Proof. intros Ha Hb. unfold mem_slice. by rewrite seqZ_app, fmap_app. Qed.
Lemma mem_slice_ext m m' off n : (forall i, off <= i < off + n -> m i = m' i) -> mem_slice m off n = mem_slice m' off n.
Proof. intros Hm. apply list_fmap_ext. intros k i Hi. apply lookup_seqZ in Hi. apply Hm. lia. Qed.

(** ** The digest *)

(** The library's digest is a function of the bytes that were passed to it. *)
Class ShaLaws (E : Env) := {
  sha256 : list Z -> list Z;
  sha256_ok c ls : (mbedtls_sha256_finish (fold_left mbedtls_sha256_update ls (mbedtls_sha256_starts (mbedtls_sha256_init c)))).1 = sha256 (concat ls);
  sha256_len l : zlen (sha256 l) = SHA256_RESULT_SIZE
}.

(** A context that has taken these bytes. *)
Definition absorbed {E : Env} (c : sha256_context) (l : list Z) : Prop :=
  exists c0 ls, c = fold_left mbedtls_sha256_update ls (mbedtls_sha256_starts (mbedtls_sha256_init c0)) /\ concat ls = l.

Lemma absorbed_start {E : Env} c : absorbed (mbedtls_sha256_starts (mbedtls_sha256_init c)) [].
Proof. by exists c, []. Qed.

Lemma absorbed_update {E : Env} c l d : absorbed c l -> absorbed (mbedtls_sha256_update c d) (l ++ d).
Proof.
  intros (c0 & ls & -> & <-). exists c0, (ls ++ [d]). rewrite fold_left_app, concat_app. split; [done|]. cbn [concat]. by rewrite app_nil_r.
Qed.

Lemma absorbed_finish {E : Env} {S : ShaLaws E} c l : absorbed c l -> (mbedtls_sha256_finish c).1 = sha256 l.
Proof. intros (c0 & ls & -> & <-). apply sha256_ok. Qed.

(** ** Whatever the peer sends *)

Section Safety.
Context {E : Env} {S : ShaLaws E} {D : Type} {HRom : Rom D} {HLaws : RomLaws D} {HSys : SysRom D} {HSysLaws : SysRomLaws D}.
(** Writing and erasing the flash leaves the status area alone. *)
Context (write_sys : forall (d : D) off l, sys_of (rom_flash_write d off l).2 = sys_of d).
Context (erase_sys : forall (d : D) off n, sys_of (rom_flash_erase d off n).2 = sys_of d).
(** The digests that the peer sends. *)
Context (sent : list Z -> Prop).
Implicit Types (w : world D) (f : RawFlash.world D) (e : dfu_srv_env_t) (h : gmap Z (list Z)).

Definition mem f : Z -> Z := rom_mem (dev f).

Record bank_ok e : Prop := {
  bk_img : is_img (working_bank e);
  bk_addr : new_img_addr e = slot (other (working_bank e));
  bk_size : total_bank_size e = slot_size
}.

Definition sized e : Prop := bank_ok e /\ 0 < ota_img_size e <= slot_size.

(** The buffer is allocated. *)
Definition holds e h : Prop := p_tem_buf e <> 0 /\ exists b, h !! p_tem_buf e = Some b /\ zlen b = FLASH_WRITE_SIZE.

(** The loader has set the remapping, and one of the two images runs. *)
Definition fit f : Prop := RawFlash.boot_regs (fmc f) /\ forall v, running (sys_of (dev f)) = Some v -> is_img v.

Lemma write_fit f off l r f' : fit f -> RawFlash.raw_flash_write f off l = (r, f') -> fit f'.
Proof.
  unfold RawFlash.raw_flash_write. destruct (RawFlash.bad_range _ _); [by intros ? [= _ <-]|]. destruct (rom_flash_write _ _ _) as [st d] eqn:Ef.
  intros [Hb Hv] [= _ <-]. split; [done|]. pose proof (write_sys (dev f) off l) as Hs. rewrite Ef in Hs. cbn in Hs |- *. by rewrite Hs.
Qed.

Lemma erase_fit f off n r f' : fit f -> RawFlash.raw_flash_erase f off n = (r, f') -> fit f'.
Proof.
  unfold RawFlash.raw_flash_erase, RawFlash.raw_flash_erase_handler. destruct (RawFlash.bad_range _ _); [by intros ? [= _ <-]|].
  cbn [RawFlash.dev RawFlash.fmc RawFlash.set_dev RawFlash.raw_erase_cb_list RawFlash.calls]. destruct (rom_flash_erase _ _ _) as [st d] eqn:Ef.
  intros [Hb Hv] [= _ <-]. split; [done|]. pose proof (erase_sys (dev f) off n) as Hs. rewrite Ef in Hs. cbn in Hs |- *. by rewrite Hs.
Qed.

Lemma running_set_flag idx mask flag st : running (set_flag idx mask flag st) = running st.
Proof. unfold set_flag, set_status. by destruct (idx =? IMAGE_0). Qed.

(** What is known in each state, after at most [n] commands. *)
Definition inv (n : Z) f e h : Prop :=
  fit f /\
  match state e with
  | DFU_STATE_SRV_IDLE => e = zero_env
  | DFU_STATE_SRV_MODE_GET =>
      bank_ok e /\ p_tem_buf e = 0 /\ cur_offset e = 0 /\ temp_buf_used_size e = 0 /\ erase_start_addr e = new_img_addr e /\ absorbed (sha_context e) []
  | DFU_STATE_SRV_IMAGE_SIZE_GET =>
      sized e /\ p_tem_buf e = 0 /\ cur_offset e = 0 /\ temp_buf_used_size e = 0 /\ erase_start_addr e = new_img_addr e + FLASH_WRITE_SIZE /\
      absorbed (sha_context e) []
  | DFU_STATE_SRV_DFU_STARTED =>
      sized e /\ holds e h /\ 0 <= temp_buf_used_size e <= FLASH_WRITE_SIZE /\
      exists m, 0 <= m <= n /\ erase_start_addr e = new_img_addr e + FLASH_WRITE_SIZE * (m + 1) /\ 0 <= cur_offset e <= FLASH_WRITE_SIZE * m /\
        (cur_offset e <= ota_img_size e -> absorbed (sha_context e) (mem_slice (mem f) (new_img_addr e) (cur_offset e)))
  | DFU_STATE_SRV_DFU_FINISHED =>
      sized e /\ holds e h /\ absorbed (sha_context e) (mem_slice (mem f) (new_img_addr e) (ota_img_size e))
  | _ => sized e /\ sent (sha256 (mem_slice (mem f) (new_img_addr e) (ota_img_size e)))
  end.

Definition winv (n : Z) w : Prop := inv n (flash w) (dfu_srv_env w) (heap w).

Lemma winv_mono n m w : n <= m -> winv n w -> winv m w.
Proof.
  unfold winv, inv. intros Hn [Hb Hs]. split; [done|]. destruct (state (dfu_srv_env w)); try done.
  destruct Hs as (H1 & H2 & H3 & k & Hk & H4). split; [done|]. split; [done|]. split; [done|]. exists k. split; [lia|done].
Qed.

(** The flash holds an image of which the peer sent the digest. *)
Definition verified w : Prop := exists r size, is_img r /\ 0 < size <= slot_size /\ sent (sha256 (mem_slice (mem (flash w)) (slot (other r)) size)).

Definition may_stop (e : stop) w : Prop := e = DoubleFree \/ e = SysTimer_SoftwareReset /\ verified w.

Lemma reset_inv n w : fit (flash w) -> wp may_stop app_dfu_srv_reset (fun _ => winv n) w.
Proof.
  intros Hb. unfold app_dfu_srv_reset, sys_mfree. wp_steps. destruct (p_tem_buf (dfu_srv_env w) =? 0); wp_steps; [done|].
  destruct (heap w !! p_tem_buf (dfu_srv_env w)); [by wp_steps|]. apply wp_seq. rewrite wp_err. by left.
Qed.

(** A command has been carried out, or is refused, which resets the server. *)
Definition answered (n : Z) (r : option Z) w : Prop :=
  fit (flash w) /\ (winv n w \/ exists c, r = Some c /\ c <> DFU_ERROR_NO_ERROR).

Lemma answered_error n c w : fit (flash w) -> c <> DFU_ERROR_NO_ERROR -> answered n (Some c) w.
Proof. intros Hb Hc. split; [done|]. right. by exists c. Qed.
Lemma answered_inv n r w : winv n w -> answered n r w.
Proof. intros H. split; [apply H|by left]. Qed.

Lemma fit_of n w : winv n w -> fit (flash w).
Proof. by intros [H _]. Qed.
#[local] Hint Resolve fit_of answered_error : core.

Ltac state_is w :=
  match goal with |- context [bool_decide (state (dfu_srv_env w) = ?s)] => destruct (bool_decide_reflect (state (dfu_srv_env w) = s)) as [Es|Es]; cbn [negb] end.

Lemma cmd_mode_inv n p w : winv n w -> 1 < zlen p -> wp may_stop (cmd_mode p) (answered n) w.
Proof.
  intros Hw Hp. unfold cmd_mode. rewrite wp_byte by lia. wp_steps. state_is w; [|by apply answered_error; [eauto|]].
  destruct (nthb p 1 =? DFU_MODE_BLE); [|by apply answered_inv].
  destruct Hw as [Hb Hs]. rewrite Es in Hs. wp_steps. apply answered_inv. split; [exact Hb|].
  set (bank := default _ _). assert (is_img bank) as Hi.
  { unfold bank. rewrite running_get_ok. destruct (running _) eqn:Er; cbn; [by eapply Hb|]. rewrite Hs. by left. }
  destruct w as [f e h l c]. cbn in Hs |- *. subst e. destruct Hi as [->| ->]; cbn; (split; [split; [by (left + right)|done|done]|]); repeat (split; [done|]); apply absorbed_start.
Qed.

Lemma erase_next_inv w (Q : unit -> world D -> Prop) : fit (flash w) -> 0 <= erase_start_addr (dfu_srv_env w) -> (SECTOR | erase_start_addr (dfu_srv_env w)) ->
  (forall f, fit f ->
    (forall i, ~ erase_start_addr (dfu_srv_env w) <= i < erase_start_addr (dfu_srv_env w) + FLASH_WRITE_SIZE -> mem f i = mem (flash w) i) ->
    Q tt (mk_world f (set_erase (u32 (erase_start_addr (dfu_srv_env w) + FLASH_WRITE_SIZE)) (dfu_srv_env w)) (heap w) (calls w) (callbacks w))) ->
  wp may_stop erase_next Q w.
Proof.
  intros Hb Ho Hs HQ. unfold erase_next, flash_erase. wp_steps. destruct (RawFlash.raw_flash_erase _ _ _) as [r f] eqn:Ee. wp_steps.
  rewrite wp_last_env_mod. destruct (erase_frame _ _ _ _ Ho Hs Ee) as [_ Hm]. apply (HQ f); [by apply (erase_fit _ _ _ _ _ Hb Ee)|done].
Qed.

Lemma slot_facts r : is_img r -> 0 <= slot r <= RE_IMG_1_OFFSET /\ (SECTOR | slot r) /\ slot r + slot_size <= RE_IMG_1_END /\ RawFlash.zone (slot r) (slot r + slot_size).
Proof.
  intros [->| ->]; (split; [split; by vm_compute|]); (split; [by (exists 10) + (exists 490)|]); (split; [by vm_compute|]).
  - apply RawFlash.zone_img0.
  - apply RawFlash.zone_img1.
Qed.

Lemma bank_facts e : bank_ok e -> 0 <= new_img_addr e <= RE_IMG_1_OFFSET /\ (SECTOR | new_img_addr e) /\ new_img_addr e + slot_size <= RE_IMG_1_END /\
  RawFlash.zone (new_img_addr e) (new_img_addr e + slot_size).
Proof. intros [Hi -> _]. apply slot_facts. by apply Update.other_img. Qed.

Lemma cmd_image_size_inv n p w : winv n w -> bytes p -> wp may_stop (cmd_image_size p) (answered n) w.
Proof.
  intros Hw Hp. unfold cmd_image_size. wp_steps. state_is w; [|by apply answered_error; [eauto|]].
  set (size := le_dec _). pose proof (le_dec_range (slice 1 4 p) (bytes_slice _ _ _ Hp)) as Hr. fold size in Hr.
  destruct ((size =? 0) || (total_bank_size (dfu_srv_env w) <? size)) eqn:Ez; [by apply answered_error; [eauto|]|]. bool_to_prop.
  destruct Hw as [Hb Hs]. rewrite Es in Hs. destruct Hs as (Hk & Hq & Hc & Hu & He & Ha). destruct (bank_facts _ Hk) as (B1 & B2 & B3 & _). wp_steps.
  assert (RE_IMG_1_OFFSET < 2 ^ 31) as Hoff by done. apply wp_seq, erase_next_inv; cbn [flash dfu_srv_env upd_env set_size erase_start_addr]; [done|rewrite He; lia|by rewrite He|].
  intros f Hf Hm. wp_steps. apply answered_inv. split; [exact Hf|]. cbn. rewrite He. rewrite wrap32_small by (unfold FLASH_WRITE_SIZE; lia).
  split; [split; [by destruct Hk|]|done]. destruct Hk as [_ _ Hk]. change (0 < size <= slot_size). lia.
Qed.

Lemma cmd_start_inv n w : winv n w -> 0 <= n -> wp may_stop cmd_start_dfu (answered n) w.
Proof.
  intros Hw Hn. unfold cmd_start_dfu. wp_steps. state_is w; [|by apply answered_error; [eauto|]].
  pose proof (fit_of _ _ Hw) as Hb. unfold malloc. wp_steps. set (q := sys_malloc _ _). destruct (q =? 0) eqn:Eq; wp_steps; rewrite Eq; [by apply answered_error|].
  apply Z.eqb_neq in Eq as Hq. wp_steps. destruct (negb _); [by apply answered_error|]. wp_steps. apply answered_inv. destruct Hw as [_ Hs]. rewrite Es in Hs.
  destruct Hs as ((Hk & Hz) & _ & Hc & Hu & He & Ha). split; [exact Hb|]. cbn. split; [split; [by destruct Hk|exact Hz]|].
  split; [split; [exact Hq|]; eexists; split; [apply lookup_insert_eq|rewrite zlen_map; unfold zlen; by rewrite length_seqZ]|].
  rewrite Hu, Hc. split; [done|]. exists 0. split; [lia|]. split; [rewrite He; lia|]. split; [lia|]. intros _. exact Ha.
Qed.

Lemma cmd_reboot_inv n w : winv n w -> wp may_stop cmd_reboot (answered n) w.
Proof.
  intros Hw. unfold cmd_reboot. wp_steps. state_is w; [|by apply answered_error; [eauto|]]. wp_steps. apply answered_inv.
  destruct Hw as [Hb Hs]. rewrite Es in Hs. split; [exact Hb|]. destruct Hs as [[Hk Hz] Hd]. cbn. split; [split; [by destruct Hk|exact Hz]|exact Hd].
Qed.

Lemma cmd_verification_inv n p w : winv n w -> sent (slice 1 SHA256_RESULT_SIZE p) -> wp may_stop (cmd_verification p) (answered n) w.
Proof.
  intros Hw Hp. unfold cmd_verification. wp_steps. state_is w; [|by apply answered_error; [eauto|]].
  pose proof (fit_of _ _ Hw) as Hb. destruct Hw as [_ Hs]. rewrite Es in Hs. destruct Hs as ((Hk & Hz) & (Hq & b & Hh & Hl) & Ha).
  wp_steps. destruct (mbedtls_sha256_finish _) as [d c] eqn:Ef. pose proof (absorbed_finish _ _ Ha) as Hd. rewrite Ef in Hd. cbn in Hd.
  unfold sys_mfree. wp_steps. cbn [upd_env heap]. rewrite (proj2 (Z.eqb_neq _ _) Hq), Hh. wp_steps.
  destruct (bool_decide_reflect (d = slice 1 SHA256_RESULT_SIZE p)) as [->|Hne]; cbn [negb]; [|by apply answered_error]. wp_steps. apply answered_inv.
  split; [exact Hb|]. cbn. split; [split; [by destruct Hk|exact Hz]|]. by rewrite <- Hd.
Qed.

(** So many commands are handled before a counter of 32 bits wraps. *)
Definition LIMIT : Z := 2 ^ 19.

(** Bytes read back inside the slot are those in the flash. *)
Lemma reads_back f a n k : RawFlash.boot_regs (fmc f) -> (exists r, is_img r /\ a = slot r) -> 0 <= n -> 0 <= k -> n + k <= slot_size ->
  (RawFlash.raw_flash_read f (a + n) k).1.2 = mem_slice (mem f) (a + n) k.
Proof.
  intros Hb (r & Hi & ->) Hn Hk Hs. destruct (slot_facts r Hi) as (_ & _ & _ & Hz). destruct (decide (k = 0)) as [->|Hk0].
  - unfold RawFlash.raw_flash_read. rewrite bad_range_is. change (0 <=? 0) with true. by rewrite orb_true_r.
  - by rewrite (RawFlash.read_physical f _ _ (slot r + n) k Hb Hz) by lia.
Qed.

Lemma inv_started n w m : fit (flash w) -> state (dfu_srv_env w) = DFU_STATE_SRV_DFU_STARTED -> sized (dfu_srv_env w) ->
  holds (dfu_srv_env w) (heap w) -> 0 <= temp_buf_used_size (dfu_srv_env w) <= FLASH_WRITE_SIZE -> 0 <= m <= n ->
  erase_start_addr (dfu_srv_env w) = new_img_addr (dfu_srv_env w) + FLASH_WRITE_SIZE * (m + 1) -> 0 <= cur_offset (dfu_srv_env w) <= FLASH_WRITE_SIZE * m ->
  (cur_offset (dfu_srv_env w) <= ota_img_size (dfu_srv_env w) ->
    absorbed (sha_context (dfu_srv_env w)) (mem_slice (mem (flash w)) (new_img_addr (dfu_srv_env w)) (cur_offset (dfu_srv_env w)))) -> winv n w.
Proof. intros Hb Es H1 H2 H3 H4 H5 H6 H7. split; [done|]. rewrite Es. split; [done|]. split; [done|]. split; [done|]. by exists m. Qed.

Lemma write_buffer_inv n w : winv n w -> state (dfu_srv_env w) = DFU_STATE_SRV_DFU_STARTED -> 0 <= n < LIMIT ->
  wp may_stop write_buffer (fun _ w' => winv (n + 1) w' /\ state (dfu_srv_env w') = DFU_STATE_SRV_DFU_STARTED) w.
Proof.
  intros [Hb Hs] Es Hn. rewrite Es in Hs. destruct Hs as ((Hk & Hz) & (Hp & b & Hh & Hl) & Hu & m & Hm & He & Hc & Ha).
  destruct (bank_facts _ Hk) as (B1 & B2 & B3 & _). assert (RE_IMG_1_OFFSET < 2 ^ 30) as Hoff by done. unfold LIMIT, FLASH_WRITE_SIZE in *.
  unfold write_buffer. wp_steps. set (e := dfu_srv_env w) in *. set (a := new_img_addr e) in *. set (c := cur_offset e) in *. set (u := temp_buf_used_size e) in *.
  rewrite (wp_load _ _ _ b) by (done || lia). rewrite (wrap32_small (a + c)) by lia. unfold flash_write, flash_read. wp_steps.
  destruct (RawFlash.raw_flash_write _ _ _) as [r1 f1] eqn:E1. assert (zlen (slice 0 u b) = u) as Hzu by (apply zlen_slice; lia).
  destruct (write_frame _ (a + c) (slice 0 u b) _ _ ltac:(lia) ltac:(unfold FLASH_WRITE_SIZE; lia) E1) as [_ M1]. rewrite Hzu in M1. wp_steps. cbn [upd_flash flash].
  pose proof (write_fit _ _ _ _ _ Hb E1) as Hb1. pose proof (read_same f1 (a + c) u (proj1 Hb1)) as R2.
  assert (c + u <= ota_img_size e -> (RawFlash.raw_flash_read f1 (a + c) u).1.2 = mem_slice (mem f1) (a + c) u) as R3.
  { intros Hle. apply reads_back; try lia; [apply Hb1|]. exists (other (working_bank e)). split; [apply Update.other_img, Hk|apply Hk]. }
  destruct (RawFlash.raw_flash_read f1 (a + c) u) as [[r2 d2] f2]. cbn [fst snd] in R2, R3. subst f2. wp_steps.
  set (d := take (Z.to_nat u) d2). assert (zlen d <= u) as Hd by (unfold d, zlen; rewrite length_take; lia).
  rewrite (wp_store _ _ _ _ b) by (done || lia). rewrite (wp_load _ _ _ (splice 0 d b)); [|apply lookup_insert_eq|rewrite zlen_splice; lia].
  wp_steps. apply erase_next_inv; cbn [flash dfu_srv_env upd_env upd_heap upd_flash set_context set_used set_offset erase_start_addr heap]; [done|fold e; lia| |].
  { fold e. rewrite He. apply Z.divide_add_r; [done|]. exists (m + 1). unfold SECTOR. lia. }
  intros f Hf Mf. fold e in Mf |- *. rewrite He in Mf |- *. split; [|exact Es].
  apply (inv_started _ _ (m + 1));
    cbn [flash heap dfu_srv_env state p_tem_buf temp_buf_used_size erase_start_addr new_img_addr cur_offset ota_img_size sha_context set_erase set_used set_offset set_context].
  1,2: done. { split; [by destruct Hk|exact Hz]. }
  { split; [exact Hp|]. eexists. split; [apply lookup_insert_eq|]. rewrite zlen_splice by lia. exact Hl. }
  1-2: unfold FLASH_WRITE_SIZE; lia. { rewrite wrap32_small by (unfold FLASH_WRITE_SIZE; lia). unfold FLASH_WRITE_SIZE. fold a. lia. }
  { rewrite wrap32_small by (fold c; lia). fold c. unfold FLASH_WRITE_SIZE. lia. }
  fold a c. rewrite (wrap32_small (c + u)) by lia. intros Hle.
  rewrite mem_slice_app by lia. specialize (R3 Hle). assert (d = d2) as Ed.
  { unfold d. apply take_ge. rewrite R3. pose proof (zlen_mem_slice (mem f1) (a + c) u ltac:(lia)) as Hx. unfold zlen in Hx. lia. }
  assert (zlen d = u) as Hdu by (rewrite Ed, R3; apply zlen_mem_slice; lia).
  rewrite <- Hdu at 1. rewrite slice_splice_same by lia. rewrite Ed, R3. fold (mem f) in Mf.
  rewrite (mem_slice_ext (mem f) (mem (flash w)) a c), (mem_slice_ext (mem f) (mem f1) (a + c) u).
  - apply absorbed_update, Ha. lia.
  - intros i Hi. apply Mf. lia.
  - intros i Hi. rewrite Mf by lia. unfold mem. apply M1. lia.
Qed.

Lemma cmd_crc_check_inv n p w : winv n w -> 2 < zlen p -> 0 <= n < LIMIT -> wp may_stop (cmd_crc_check p) (answered (n + 1)) w.
Proof.
  intros Hw Hp Hn. pose proof (fit_of _ _ Hw) as Hb. unfold cmd_crc_check. rewrite !wp_byte by lia. wp_steps. state_is w; [|by apply answered_error].
  pose proof Hw as [_ Hs]. rewrite Es in Hs. destruct Hs as (Hz & (Hq & b & Hh & Hl) & Hu & Hm). wp_steps. rewrite (wp_load _ _ _ b) by (done || lia).
  destruct (_ =? _).
  - eapply wp_bind; [by apply write_buffer_inv|]. intros _ w' [Hw' Es']. wp_steps. destruct (Z.eqb_spec (cur_offset (dfu_srv_env w')) (ota_img_size (dfu_srv_env w'))) as [Ec|Ec]; wp_steps.
    + apply answered_inv. destruct Hw' as [Hb' Hs']. rewrite Es' in Hs'. destruct Hs' as (Hz' & Hh' & _ & m & _ & _ & _ & Ha'). rewrite Ec in Ha'.
      split; [exact Hb'|]. destruct Hz' as [Hk' Hz']. cbn. split; [split; [by destruct Hk'|exact Hz']|]. split; [exact Hh'|]. by apply Ha'.
    + by apply answered_inv.
  - wp_steps. apply answered_inv. split; [exact Hb|]. cbn. rewrite Es. destruct Hz as [Hk Hz]. split; [split; [by destruct Hk|exact Hz]|].
    split; [split; [done|by exists b]|]. split; [done|]. destruct Hm as (m & H1 & H2 & H3 & H4). exists m. split; [lia|done].
Qed.

Lemma data_inv n d w : winv n w -> wp may_stop (app_dfu_srv_data_cb d) (fun _ => winv n) w.
Proof.
  intros Hw. pose proof (fit_of _ _ Hw) as Hb. unfold app_dfu_srv_data_cb. wp_steps. state_is w; [|by apply reset_inv].
  wp_steps. pose proof Hw as [_ Hs]. rewrite Es in Hs. destruct Hs as ([Hk Hz] & (Hq & b & Hh & Hl) & Hu & m & H1 & H2 & H3 & H4).
  case_bool (FLASH_WRITE_SIZE <? temp_buf_used_size (dfu_srv_env w) + zlen d); wp_steps; [by apply reset_inv|]. bool_to_prop. pose proof (zlen_nonneg d).
  unfold FLASH_WRITE_SIZE in *. rewrite (wp_store _ _ _ _ b) by (done || lia). rewrite wp_last_env_mod. apply (inv_started _ _ m); try done.
  - split; [by destruct Hk|exact Hz].
  - split; [exact Hq|]. eexists. split; [apply lookup_insert_eq|]. rewrite zlen_splice; unfold FLASH_WRITE_SIZE; lia.
  - cbn. rewrite wrap16_small by lia. unfold FLASH_WRITE_SIZE. lia.
Qed.

(** The flags are written and the images are left alone. *)
Lemma set_flag_inv n w : winv n w -> state (dfu_srv_env w) = DFU_STATE_SRV_DISCONNECTING ->
  wp may_stop app_dfu_srv_set_flag (fun (done : bool) w' => if done then verified w' else winv n w') w.
Proof.
  intros [Hb Hs] Es. rewrite Es in Hs. destruct Hs as [[Hk Hz] Hsent]. unfold app_dfu_srv_set_flag. wp_steps.
  set (r := working_bank (dfu_srv_env w)) in *. assert (is_img r) as Hr by apply Hk. assert (new_img_addr (dfu_srv_env w) = slot (other r)) as Ha by apply Hk.
  assert (forall v, flash v = flash w -> wp may_stop (switch_flags r) (fun _ w' => verified w' /\ fit (flash w')) v) as Hflags.
  { intros v Ev. unfold switch_flags, set_img_flag. assert ((if r =? 0 then 1 else 0) = other r) as -> by (by destruct Hr as [->| ->]). wp_steps. rewrite Ev. destruct (set_flag_ok (dev (flash w)) r (Z.lor IMG_FLAG_IA_MASK IMG_FLAG_NEWER_MASK) (Z.lor IMG_FLAG_IA_OK IMG_FLAG_OLDER) Hr) as (d1 & -> & S1 & M1). wp_steps.
    cbn [upd_flash flash RawFlash.dev RawFlash.set_dev]. destruct (set_flag_ok d1 (other r) (Z.lor (Z.lor IMG_FLAG_IA_MASK IMG_FLAG_VERIFY_MASK) IMG_FLAG_NEWER_MASK) IMG_FLAG_NEWER) as (d2 & -> & S2 & M2);
      [by apply Update.other_img|]. wp_steps. split; [|split; [apply Hb|]; cbn; by rewrite S2, S1, !running_set_flag; apply Hb]. exists r, (ota_img_size (dfu_srv_env w)). split; [done|]. split; [done|].
    rewrite (mem_slice_ext _ (mem (flash w))); [by rewrite <- Ha|]. intros i Hi. destruct (bank_facts _ Hk) as (B1 & _ & B3 & _). rewrite Ha in B1, B3.
    assert (RE_IMG_0_OFFSET <= i < RE_IMG_1_END) as Hi2.
    { split; [|lia]. destruct Hr as [Hr|Hr]; rewrite Hr in Hi; cbn in Hi; unfold RE_IMG_0_OFFSET, RE_IMG_1_OFFSET in *; lia. }
    change (rom_mem d2 i = rom_mem (dev (flash w)) i). by rewrite M2, M1. }
  apply wp_seq. destruct (negb _); wp_steps.
  - eapply wp_bind; [apply Hflags; reflexivity|]. intros res w' [Hv Hb']. wp_steps. rewrite wp_done. destruct (negb _).
    + eapply wp_bind; [by apply (reset_inv n)|]. intros ? w2 H2. by wp_steps.
    + exact Hv.
  - eapply wp_mono; [by apply Hflags|]. intros res w' [Hv Hb']. destruct (negb _).
    + eapply wp_bind; [by apply (reset_inv n)|]. intros ? w2 H2. by wp_steps.
    + by wp_steps.
Qed.

Lemma disconn_inv n w : winv n w -> wp may_stop app_dfu_srv_disconn_cb (fun _ => winv n) w.
Proof.
  intros Hw. unfold app_dfu_srv_disconn_cb. wp_steps. state_is w; [|by apply reset_inv; eauto].
  eapply wp_bind; [by apply (set_flag_inv n)|]. intros [] w' H; [by right|by wp_steps].
Qed.

Lemma ind_inv n w : winv n w -> wp may_stop app_dfu_srv_ind_cb (fun _ => winv n) w.
Proof.
  intros Hw. unfold app_dfu_srv_ind_cb. wp_steps. state_is w; [|by wp_steps]. wp_steps. destruct (negb _); [by wp_steps|]. rewrite wp_last_state_set.
  destruct Hw as [Hb Hs]. rewrite Es in Hs. destruct Hs as [[Hk Hz] Hsent]. split; [exact Hb|]. cbn. split; [split; [by destruct Hk|exact Hz]|exact Hsent].
Qed.

Lemma timeout_inv n w : winv n w -> wp may_stop app_dfu_srv_ota_timer_timeout_cb (fun _ => winv n) w.
Proof. intros Hw. unfold app_dfu_srv_ota_timer_timeout_cb. wp_steps. apply reset_inv. by apply (fit_of n). Qed.

Lemma command_inv n op p w : winv n w -> 0 <= n < LIMIT -> bytes p -> zlen p = dfu_cmd_len op -> 0 <= op < DFU_OPCODE_MAX ->
  (op = DFU_OPCODE_VERIFICATION -> sent (slice 1 SHA256_RESULT_SIZE p)) -> wp may_stop (command op p) (answered (n + 1)) w.
Proof.
  intros Hw Hn Hp Hl Ho Hs. assert (winv (n + 1) w) as Hw1 by (eapply winv_mono; [|exact Hw]; lia). unfold command, DFU_OPCODE_MAX in *.
  destruct (Z.eqb_spec op DFU_OPCODE_MODE) as [->|]; [apply cmd_mode_inv; [done|by rewrite Hl]|].
  destruct (Z.eqb_spec op DFU_OPCODE_IMAGE_SIZE) as [->|]; [by apply cmd_image_size_inv|].
  destruct (Z.eqb_spec op DFU_OPCODE_START_DFU) as [->|]; [apply cmd_start_inv; [done|lia]|].
  destruct (Z.eqb_spec op DFU_OPCODE_VERIFICATION) as [->|]; [apply cmd_verification_inv; auto|].
  destruct (Z.eqb_spec op DFU_OPCODE_REBOOT) as [->|]; [by apply cmd_reboot_inv|].
  destruct (Z.eqb_spec op DFU_OPCODE_RESET) as [->|].
  - unfold cmd_reset. eapply wp_bind; [apply (reset_inv (n + 1)), (fit_of _ _ Hw)|]. intros ? w' H'. wp_steps. by apply answered_inv.
  - apply cmd_crc_check_inv; [done| |done]. assert (op = 6) as -> by (unfold DFU_OPCODE_MODE, DFU_OPCODE_IMAGE_SIZE, DFU_OPCODE_START_DFU, DFU_OPCODE_VERIFICATION, DFU_OPCODE_REBOOT, DFU_OPCODE_RESET in *; lia).
    by rewrite Hl.
Qed.

Lemma control_inv n p w : winv n w -> 0 <= n < LIMIT -> bytes p -> p <> [] -> (nthb p 0 = DFU_OPCODE_VERIFICATION -> sent (slice 1 SHA256_RESULT_SIZE p)) ->
  wp may_stop (app_dfu_srv_control_cb p) (fun _ => winv (n + 1)) w.
Proof.
  intros Hw Hn Hp Hne Hs. assert (winv (n + 1) w) as Hw1 by (eapply winv_mono; [|exact Hw]; lia). unfold app_dfu_srv_control_cb.
  rewrite wp_byte by (destruct p; [done|rewrite zlen_cons; pose proof (zlen_nonneg p); lia]). wp_steps.
  eapply (wp_bind _ _ _ (answered (n + 1))).
  - pose proof (bytes_nthb p 0 Hp). case_bool (DFU_OPCODE_MAX <=? nthb p 0); [by apply answered_inv|]. case_bool (negb (zlen p =? dfu_cmd_len (nthb p 0))); [|by apply answered_inv].
    bool_to_prop. apply command_inv; try done. lia.
  - intros [c|] w' [Hb' Ha]; [|destruct Ha as [Ha|(c & [=] & _)]; by wp_steps]. wp_steps. destruct (Z.eqb_spec c DFU_ERROR_NO_ERROR) as [->|Hc].
    + destruct Ha as [Ha|(c & [= <-] & Hx)]; [by wp_steps|done].
    + by apply reset_inv.
Qed.

(** ** Sequences of events *)

Inductive event := Message (m : gatts_msg) | Timeout.
Definition handle (v : event) : M (world D) stop unit :=
  match v with Message m => ble_ota_srv_cb m ;;; ret tt | Timeout => app_dfu_srv_ota_timer_timeout_cb end.
Fixpoint run (evs : list event) : M (world D) stop unit :=
  match evs with [] => ret tt | v :: evs => handle v ;;; run evs end.

(** Commands have at least their opcode, and the digests they carry are [sent]. *)
Definition event_ok (v : event) : Prop :=
  match v with
  | Message (WRITE_REQ BLE_OTA_SRV_IDX_CONTROL_VAL p) => bytes p /\ p <> [] /\ (nthb p 0 = DFU_OPCODE_VERIFICATION -> sent (slice 1 SHA256_RESULT_SIZE p))
  | _ => True
  end.

Lemma handle_inv n v w : winv n w -> 0 <= n < LIMIT -> event_ok v -> wp may_stop (handle v) (fun _ => winv (n + 1)) w.
Proof.
  intros Hw Hn Hv. assert (winv (n + 1) w) as Hw1 by (eapply winv_mono; [|exact Hw]; lia).
  destruct v as [m|]; cbn [handle]; [|by apply timeout_inv]. apply wp_seq, (wp_mono _ _ (fun _ => winv (n + 1))); [|by intros]. unfold ble_ota_srv_cb. wp_steps.
  assert (forall f : M (world D) stop unit, wp may_stop f (fun _ => winv (n + 1)) w ->
    wp may_stop ((if callbacks w then f else ret tt) ;;; ret (None : option (list Z))) (fun _ => winv (n + 1)) w) as Hcall.
  { intros f Hf. eapply wp_bind; [destruct (callbacks w); [exact Hf|by wp_steps]|]. intros ? w' H'. by wp_steps. }
  destruct m as [| |[]|[]|[] p|[]]; try exact Hw1.
  - by apply Hcall, disconn_inv.
  - by apply Hcall, ind_inv.
  - by apply Hcall, data_inv.
  - destruct Hv as (H1 & H2 & H3). by apply Hcall, control_inv.
Qed.

Lemma run_inv evs : forall n w, winv n w -> 0 <= n -> n + zlen evs <= LIMIT -> Forall event_ok evs -> wp may_stop (run evs) (fun _ => winv (n + zlen evs)) w.
Proof.
  induction evs as [|v evs IH]; intros n w Hw Hn Hl Hv; cbn [run]; [wp_steps; by rewrite Z.add_0_r|].
  apply Forall_cons in Hv as [Hv Hvs]. rewrite zlen_cons in *. pose proof (zlen_nonneg evs).
  eapply wp_bind; [apply (handle_inv n); [done|lia|done]|]. intros ? w' H'. replace (n + (1 + zlen evs)) with (n + 1 + zlen evs) by lia. apply IH; [done|lia|lia|done].
Qed.

End Safety.

End DfuSpec.
