(* ===== verification/DfuRun.v ===== *)
(** * The firmware update over Bluetooth: a whole update

    A peer that keeps the protocol: it sends the image in packets, a checksum after each
    chunk, then the digest. What the server and the flash hold after each of its commands;
    and what two peers do that do not keep it. *)
From S2P Require Import Prelude Crc Flash RawFlash Boot BootSpec BootProps Ota OtaSpec Update Dfu DfuSpec.
Open Scope Z_scope.
Open Scope fw_scope.

Module DfuRun.
Import Boot BootSpec OtaSpec Dfu DfuSpec.

Lemma crc16_byte_range crc b : 0 <= crc < 2 ^ 16 -> 0 <= Crc.crc16_byte crc b < 2 ^ 16.
Proof.
  assert (forall x, 0 <= nthb Crc.crc16_table (Z.land x 0xF) < 2 ^ 16) as Ht.
  { intros x. change 0xF with (Z.ones 4). rewrite Z.land_ones by lia. pose proof (Z.mod_pos_bound x (2 ^ 4) ltac:(lia)).
    assert (Forall (fun v => 0 <= v < 2 ^ 16) Crc.crc16_table) as Hf by (repeat constructor; by vm_compute).
    rewrite Forall_forall in Hf. apply Hf. unfold nthb. apply list_elem_of_In, nth_In. change (length Crc.crc16_table) with 16%nat. lia. }
  assert (forall c, 0 <= c < 2 ^ 16 -> 0 <= Z.shiftr c 4 < 2 ^ 16) as Hs.
  { intros c Hc. rewrite Z.shiftr_div_pow2 by lia. split; [apply Z.div_pos; lia|]. apply Z.div_lt_upper_bound; lia. }
  intros Hc. unfold Crc.crc16_byte. cbv zeta. apply lxor_range; [lia|apply Ht|]. apply Hs. apply lxor_range; [lia|apply Ht|]. by apply Hs.
Qed.

Lemma crc16_range d : forall crc, 0 <= crc < 2 ^ 16 -> 0 <= Crc.crc16 d crc < 2 ^ 16.
Proof. induction d as [|b d IH]; intros crc Hc; cbn [Crc.crc16]; [done|]. by apply IH, crc16_byte_range. Qed.

(** ** The flash during an update *)

Lemma layers_program base img n l e m0 m m' : layers base img n e m0 m -> bytes img -> 0 <= n -> 0 <= l -> n + l <= zlen img -> base + n + l <= e ->
  (forall i, m' i = programmed m (base + n) (slice n l img) i) -> layers base img (n + l) e m0 m'.
Proof.
  intros Hm Hb H0 Hl0 Hl He Hm' i. rewrite Hm'. unfold programmed. rewrite zlen_slice by lia. rewrite Hm. repeat if_split; try lia; try done.
  rewrite nthb_slice by lia. replace (n + (i - (base + n))) with (i - base) by lia. apply land_FF, bytes_nthb, Hb.
Qed.

Lemma layers_erase base img n e m0 m m' : layers base img n e m0 m -> base + n <= e ->
  (forall i, m' i = if (e <=? i) && (i <? e + FLASH_WRITE_SIZE) then 0xFF else m i) -> layers base img n (e + FLASH_WRITE_SIZE) m0 m'.
Proof. intros Hm He Hm' i. rewrite Hm', Hm. unfold FLASH_WRITE_SIZE. repeat if_split; try lia; done. Qed.

(** ** The peer *)

Definition control (p : list Z) : event := Message (WRITE_REQ BLE_OTA_SRV_IDX_CONTROL_VAL p).
Definition packet (d : list Z) : event := Message (WRITE_REQ BLE_OTA_SRV_IDX_DATA_VAL d).

Definition crc_check (d : list Z) : event := control (DFU_OPCODE_CRC_CHECK :: le_enc 2 (Crc.crc16 d 0)).
(** A chunk is sent in packets, then checked. *)
Definition send_chunk (ps : list (list Z)) : list event := map packet ps ++ [crc_check (concat ps)].
Definition begin_update (size : Z) : list event :=
  [control [DFU_OPCODE_MODE; DFU_MODE_BLE]; control (DFU_OPCODE_IMAGE_SIZE :: le_enc 4 size); control [DFU_OPCODE_START_DFU]].
Definition end_update (digest : list Z) : list event :=
  [control (DFU_OPCODE_VERIFICATION :: digest); control [DFU_OPCODE_REBOOT];
   Message (NTF_IND_SEND_RSP BLE_OTA_SRV_IDX_CONTROL_VAL); Message (CONN_STATE_CHANGE false)].
(** A whole update. The host also reports that the other answers have been sent; these reports
    change nothing, since [app_dfu_srv_ind_cb] waits for that of the last command. *)
Definition session (size : Z) (digest : list Z) (chunks : list (list (list Z))) : list event :=
  begin_update size ++ concat (map send_chunk chunks) ++ end_update digest.

(** ** What the server tells its host *)

Definition reply (k : call) : option (list Z) := match k with ble_gatts_ntf_ind_send _ v => Some v | _ => None end.
Definition closes (k : call) : bool := match k with ble_conn_disconnect _ => true | _ => false end.
(** After the calls [l], the server has sent these answers, and closed the connection or not. *)
Definition told (rs : list (list Z)) (c : bool) (l l' : list call) : Prop := exists ks, l' = l ++ ks /\ omap reply ks = rs /\ existsb closes ks = c.

Lemma told_nothing l : told [] false l l.
Proof. exists []. by rewrite app_nil_r. Qed.
Lemma told_other rs c l l' k : told rs c l l' -> reply k = None -> closes k = false -> told rs c l (l' ++ [k]).
Proof.
  intros (ks & -> & <- & <-) Hr Hc. exists (ks ++ [k]). rewrite app_assoc, omap_app, existsb_app. cbn. by rewrite Hr, Hc, app_nil_r, !orb_false_r.
Qed.
Lemma told_reply c l l' conn v : told [] c l l' -> told [v] c l (l' ++ [ble_gatts_ntf_ind_send conn v]).
Proof. intros (ks & -> & E1 & <-). exists (ks ++ [ble_gatts_ntf_ind_send conn v]). rewrite app_assoc, omap_app, E1, existsb_app. cbn. by rewrite orb_false_r. Qed.
Lemma told_close rs l l' conn : told rs false l l' -> told rs true l (l' ++ [ble_conn_disconnect conn]).
Proof. intros (ks & -> & <- & E1). exists (ks ++ [ble_conn_disconnect conn]). rewrite app_assoc, omap_app, existsb_app, E1. cbn. by rewrite app_nil_r. Qed.

Ltac quiet := repeat (eapply told_other; [|reflexivity|reflexivity]); apply told_nothing.

(** ** The server *)

Section Run.
Context {E : Env} {S : ShaLaws E} {D : Type} {HRom : Rom D} {HLaws : RomLaws D} {HSys : SysRom D} {HSysLaws : SysRomLaws D}.
Context (malloc_works : forall h n, sys_malloc h n <> 0).
Context (param_update_works : forall l, answer (l ++ [ble_conn_param_update_req 0 BLE_CONN_OTA_INTV BLE_CONN_OTA_LATENCY BLE_CONN_OTA_SUPV_TOUT]) = 0).
Context (disconnect_works : forall l, answer (l ++ [ble_conn_disconnect 0]) = 0).
(** The chip does not fail on the images, and writing them leaves the status area alone. *)
Context (good : D -> Prop) (Hsound : forall s, sound RE_IMG_0_OFFSET RE_IMG_1_END (fun d => good d /\ sys_of d = s)).
Implicit Types (w : world D).

(** The image, the one that runs, and the flash before the update. *)
Context (r : Z) (Hr : is_img r) (img : list Z) (Himg : bytes img) (Hsize : 0 < zlen img <= slot_size) (s : sys) (m0 : Z -> Z).
Context (Hrunning : running s = Some r).
Abbreviation base := (slot (other r)).
Abbreviation size := (zlen img).

(** How the update may end. *)
Context (ends : stop -> world D -> Prop).

Lemma call_is w (f : M (world D) stop unit) (v : event) m Q : callbacks w = true -> v = Message m ->
  ble_ota_srv_cb m w = ((if callbacks w then f else ret tt) ;;; ret None) w -> wp ends f Q w -> wp ends (handle v) Q w.
Proof.
  intros Hc -> E1 Hf. cbn [handle]. unfold wp in *. unfold bnd in *. rewrite E1, Hc. destruct (f w) as [w' [e|[]]]; done.
Qed.

Lemma run_app l1 l2 Q w : wp ends (run (l1 ++ l2)) Q w = wp ends (run l1 ;;; run l2) Q w.
Proof.
  revert w. induction l1 as [|v l1 IH]; intros w; cbn [app run]; [done|]. unfold wp, bnd in *. destruct (handle v w) as [w' [e|[]]]; [done|]. apply IH.
Qed.

Lemma wp_packet d Q w : callbacks w = true -> wp ends (app_dfu_srv_data_cb d) Q w -> wp ends (handle (packet d)) Q w.
Proof. intros Hc. by apply (call_is w _ _ (WRITE_REQ BLE_OTA_SRV_IDX_DATA_VAL d)). Qed.

(** A command is answered, and an error resets the server. *)
Lemma wp_command op p Q w : callbacks w = true -> 0 <= op < DFU_OPCODE_MAX -> zlen (op :: p) = dfu_cmd_len op ->
  wp ends (command op (op :: p)) (fun c w' => match c with
    | None => Q tt w'
    | Some e => let w1 := add_call (ble_gatts_ntf_ind_send 0 [op; e]) w' in if e =? DFU_ERROR_NO_ERROR then Q tt w1 else wp ends app_dfu_srv_reset Q w1 end) (add_call sys_timer_stop w) ->
  wp ends (handle (control (op :: p))) Q w.
Proof.
  intros Hc Ho Hl Hm. apply (call_is w (app_dfu_srv_control_cb (op :: p)) _ (WRITE_REQ BLE_OTA_SRV_IDX_CONTROL_VAL (op :: p))); [done..|].
  unfold app_dfu_srv_control_cb. rewrite wp_byte by (rewrite zlen_cons; pose proof (zlen_nonneg p); lia). wp_steps. change (nthb (op :: p) 0) with op.
  case_bool (DFU_OPCODE_MAX <=? op); [lia|]. rewrite (proj2 (Z.eqb_eq _ _) Hl). cbn [negb].
  eapply wp_bind; [exact Hm|]. intros [e|] w' H; wp_steps; [|exact H]. by destruct (e =? DFU_ERROR_NO_ERROR).
Qed.

(** A command that is carried out is answered with 0. *)
Definition done_with (op : Z) w w' : Prop := told [[op; DFU_ERROR_NO_ERROR]] false (calls w) (calls w').

Lemma wp_control op p (P : world D -> Prop) w : callbacks w = true -> 0 <= op < DFU_OPCODE_MAX -> zlen (op :: p) = dfu_cmd_len op ->
  wp ends (command op (op :: p)) (fun c w' => c = Some DFU_ERROR_NO_ERROR /\ told [] false (calls w) (calls w') /\ forall k, P (add_call k w')) (add_call sys_timer_stop w) ->
  wp ends (handle (control (op :: p))) (fun _ w' => P w' /\ done_with op w w') w.
Proof.
  intros Hc Ho Hl Hm. apply wp_command; [done..|]. eapply wp_mono; [exact Hm|]. intros c w' (-> & Ht & HP). split; [apply HP|]. by apply told_reply.
Qed.

(** The server takes data: [n] bytes are written in [k] chunks, [pend] are gathered. *)
Record sending (k n : Z) (pend : list Z) w : Prop := {
  sd_state : state (dfu_srv_env w) = if n =? size then DFU_STATE_SRV_DFU_FINISHED else DFU_STATE_SRV_DFU_STARTED;
  sd_bank : working_bank (dfu_srv_env w) = r /\ new_img_addr (dfu_srv_env w) = base;
  sd_size : ota_img_size (dfu_srv_env w) = size;
  sd_offset : cur_offset (dfu_srv_env w) = n;
  sd_used : temp_buf_used_size (dfu_srv_env w) = zlen pend;
  sd_buf : p_tem_buf (dfu_srv_env w) <> 0 /\ exists b, heap w !! p_tem_buf (dfu_srv_env w) = Some b /\ zlen b = FLASH_WRITE_SIZE /\ slice 0 (zlen pend) b = pend;
  sd_range : 0 <= n <= size /\ n <= FLASH_WRITE_SIZE * k /\ FLASH_WRITE_SIZE * (k + 1) <= slot_size;
  sd_erase : erase_start_addr (dfu_srv_env w) = base + FLASH_WRITE_SIZE * (k + 1);
  sd_mem : layers base img n (base + FLASH_WRITE_SIZE * (k + 1)) m0 (mem (flash w));
  sd_good : good (dev (flash w)) /\ sys_of (dev (flash w)) = s;
  sd_regs : RawFlash.boot_regs (fmc (flash w));
  sd_sha : absorbed (sha_context (dfu_srv_env w)) (slice 0 n img);
  sd_callbacks : callbacks w = true
}.

Lemma packet_ok k n pend d w : sending k n pend w -> n <> size -> zlen (pend ++ d) <= FLASH_WRITE_SIZE ->
  wp ends (handle (packet d)) (fun _ w' => sending k n (pend ++ d) w' /\ told [] false (calls w) (calls w')) w.
Proof.
  intros [H1 H2 H3 H4 H5 (H6 & b & H7 & H8 & H9) H10 H11 H12 H13 H14 H15 H16] Hn Hd. apply wp_packet; [done|]. rewrite (proj2 (Z.eqb_neq _ _) Hn) in H1.
  rewrite zlen_app in Hd. pose proof (zlen_nonneg d). pose proof (zlen_nonneg pend). unfold FLASH_WRITE_SIZE in *.
  unfold app_dfu_srv_data_cb. wp_steps. rewrite H1. cbn [negb]. rewrite bool_decide_eq_true_2 by done. cbn [negb]. wp_steps. rewrite H5.
  case_bool (FLASH_WRITE_SIZE <? zlen pend + zlen d); [unfold FLASH_WRITE_SIZE in *; lia|]. rewrite (wp_store _ _ _ _ b) by (done || lia). rewrite wp_last_env_mod.
  assert (u16 (zlen pend + zlen d) = zlen pend + zlen d) as Hu by (apply wrap16_small; lia). split; [|apply told_nothing].
  split; cbn [dfu_srv_env upd_env upd_heap set_used state working_bank new_img_addr ota_img_size cur_offset temp_buf_used_size p_tem_buf erase_start_addr sha_context heap flash callbacks]; try done.
  - by rewrite (proj2 (Z.eqb_neq _ _) Hn).
  - by rewrite Hu, zlen_app.
  - split; [done|]. eexists. split; [apply lookup_insert_eq|]. split; [rewrite zlen_splice; unfold FLASH_WRITE_SIZE; lia|].
    rewrite zlen_app, slice_app_split, Z.add_0_l by lia. f_equal; [|by apply slice_splice_same; lia]. rewrite slice_splice_other by lia. done.
Qed.

Lemma packets_ok k n ps : forall pend w, sending k n pend w -> n <> size -> zlen (pend ++ concat ps) <= FLASH_WRITE_SIZE ->
  wp ends (run (map packet ps)) (fun _ => sending k n (pend ++ concat ps)) w.
Proof.
  induction ps as [|d ps IH]; intros pend w Hw Hn Hl; cbn [map run concat] in *; [rewrite wp_done; by rewrite app_nil_r|].
  rewrite app_assoc in Hl. eapply wp_bind; [apply (packet_ok k n pend d w Hw Hn); rewrite (zlen_app (pend ++ d)) in Hl; pose proof (zlen_nonneg (concat ps)); lia|].
  intros ? w' [Hw' _]. rewrite app_assoc. by apply IH.
Qed.

Abbreviation okd := (fun d => good d /\ sys_of d = s).

Lemma base_facts : RE_IMG_0_OFFSET <= base /\ base + slot_size <= RE_IMG_1_END /\ (SECTOR | base) /\ 0 <= RE_IMG_0_OFFSET /\ RE_IMG_1_END < 2 ^ 31.
Proof.
  destruct (Update.other_img r Hr) as [Ho _]. destruct (slot_facts (other r) Ho) as (_ & H2 & H3 & _).
  split; [by destruct Ho as [->| ->]|]. split; [done|]. split; [done|]. by vm_compute.
Qed.

(** The next sector of a working chip. *)
Lemma erase_next_ok w (Q : unit -> world D -> Prop) a : erase_start_addr (dfu_srv_env w) = a -> okd (dev (flash w)) ->
  RE_IMG_0_OFFSET <= a -> a + FLASH_WRITE_SIZE <= RE_IMG_1_END -> (SECTOR | a) ->
  (forall f, okd (dev f) -> fmc f = fmc (flash w) -> (forall i, mem f i = if (a <=? i) && (i <? a + FLASH_WRITE_SIZE) then 0xFF else mem (flash w) i) ->
    Q tt (mk_world f (set_erase (a + FLASH_WRITE_SIZE) (dfu_srv_env w)) (heap w) (calls w) (callbacks w))) ->
  wp ends erase_next Q w.
Proof.
  intros He Hg Hlo Hhi Hs HQ. destruct base_facts as (_ & _ & _ & F4 & F5).
  destruct (erase_programs RE_IMG_0_OFFSET RE_IMG_1_END Update.window okd (Hsound s) (flash w) a FLASH_WRITE_SIZE Hg Hlo ltac:(done) Hhi Hs ltac:(by exists 1)) as (f & Ef & Hf & Hr2 & Hm).
  unfold erase_next, flash_erase. wp_steps. rewrite He, Ef. wp_steps. rewrite wp_last_env_mod.
  assert (upd_env (fun e => set_erase (u32 (erase_start_addr e + FLASH_WRITE_SIZE)) e) (upd_flash f w) =
    mk_world f (set_erase (a + FLASH_WRITE_SIZE) (dfu_srv_env w)) (heap w) (calls w) (callbacks w)) as ->.
  { unfold upd_env, upd_flash. cbn [dfu_srv_env flash heap calls callbacks]. rewrite He, wrap32_small by (unfold FLASH_WRITE_SIZE in *; lia). done. }
  by apply HQ.
Qed.

(** What was gathered is written after what was written before. *)
Lemma write_buffer_ok k n pend w : sending k n pend w -> n <> size -> pend = slice n (zlen pend) img -> 0 < zlen pend <= FLASH_WRITE_SIZE -> n + zlen pend <= size ->
  FLASH_WRITE_SIZE * (k + 2) <= slot_size -> 0 <= k ->
  wp ends write_buffer (fun _ w' => sending (k + 1) (n + zlen pend) []
    (upd_env (set_state (if n + zlen pend =? size then DFU_STATE_SRV_DFU_FINISHED else DFU_STATE_SRV_DFU_STARTED)) w') /\ cur_offset (dfu_srv_env w') = n + zlen pend /\ ota_img_size (dfu_srv_env w') = size /\ state (dfu_srv_env w') = DFU_STATE_SRV_DFU_STARTED /\ calls w' = calls w) w.
Proof.
  intros [H1 [H2 H2'] H3 H4 H5 (H6 & b & H7 & H8 & H9) H10 H11 H12 H13 H14 H15 H16] Hn Hp Hl Hle Hk Hk0. rewrite (proj2 (Z.eqb_neq _ _) Hn) in H1.
  destruct base_facts as (B1 & B2 & B3 & B4 & B5). set (u := zlen pend) in *. unfold FLASH_WRITE_SIZE in *.
  unfold write_buffer. wp_steps. rewrite H5, H2', H4. rewrite (wp_load _ _ _ b) by (done || lia). rewrite H9, (wrap32_small (base + n)) by lia.
  unfold flash_write, flash_read. wp_steps.
  destruct (RawFlash.raw_flash_write_programs RE_IMG_0_OFFSET RE_IMG_1_END Update.window okd (flash w) (base + n) pend (snd_reliable _ _ _ (Hsound s)) H13)
    as (d1 & -> & Hg1 & M1); [lia|fold u; lia|fold u; lia|]. wp_steps. cbn [upd_flash flash].
  set (f1 := RawFlash.set_dev (flash w) d1). assert (RawFlash.boot_regs (fmc f1)) as Hb1 by exact H14.
  pose proof (read_same f1 (base + n) u Hb1) as R2. pose proof (reads_back f1 base n u Hb1 ltac:(exists (other r); split; [by apply Update.other_img|done]) ltac:(lia) ltac:(lia) ltac:(lia)) as R3.
  assert (mem_slice (mem f1) (base + n) u = pend) as Hread.
  { apply list_eq_nthb; rewrite zlen_mem_slice by lia; [done|]. intros i Hi. rewrite nthb_mem_slice by lia.
    change (mem f1 (base + n + i)) with (rom_mem d1 (base + n + i)). rewrite M1. unfold programmed. fold u. repeat if_split; try lia.
    change (rom_mem (dev (flash w)) (base + n + i)) with (mem (flash w) (base + n + i)). rewrite H12. repeat if_split; try lia.
    rewrite land_FF; [f_equal; lia|]. rewrite Hp. apply bytes_nthb, bytes_slice, Himg. }
  rewrite Hread in R3. destruct (RawFlash.raw_flash_read f1 (base + n) u) as [[r2 d2] f2]. cbn [fst snd] in R2, R3. subst f2 d2. wp_steps.
  assert (take (Z.to_nat u) pend = pend) as -> by (apply take_ge; unfold u, zlen; lia).
  rewrite (wp_store _ _ _ _ b) by (done || (fold u; lia)). rewrite (wp_load _ _ _ (splice 0 pend b)); [|apply lookup_insert_eq|rewrite zlen_splice by (fold u; lia); lia].
  assert (slice 0 u (splice 0 pend b) = pend) as -> by (apply slice_splice_same; fold u; lia). wp_steps.
  apply (erase_next_ok _ _ (base + 4096 * (k + 1))); cbn [flash dfu_srv_env upd_env upd_heap upd_flash set_context set_used set_offset erase_start_addr heap calls callbacks];
    [done|done|lia|unfold FLASH_WRITE_SIZE; lia| |].
  { apply Z.divide_add_r; [done|]. exists (k + 1). unfold SECTOR. lia. }
  intros f Hgf Hff Hmf. unfold FLASH_WRITE_SIZE in *. assert (u32 (cur_offset (dfu_srv_env w) + u) = n + u) as Hcur by (rewrite H4; apply wrap32_small; lia).
  split; [|done].
  split; cbn [dfu_srv_env upd_env upd_flash upd_heap set_used set_offset set_erase set_context set_state state working_bank new_img_addr ota_img_size cur_offset temp_buf_used_size p_tem_buf erase_start_addr sha_context heap flash callbacks]; try done.
  - split; [done|]. eexists. split; [apply lookup_insert_eq|]. split; [rewrite zlen_splice by (fold u; lia); exact H8|done].
  - unfold FLASH_WRITE_SIZE. lia.
  - unfold FLASH_WRITE_SIZE. lia.
  - replace (base + FLASH_WRITE_SIZE * (k + 1 + 1)) with (base + 4096 * (k + 1) + FLASH_WRITE_SIZE) by (unfold FLASH_WRITE_SIZE; lia).
    apply (layers_erase _ _ _ _ _ (mem f1)); [|lia|exact Hmf]. apply (layers_program _ _ _ _ _ _ (mem (flash w))); try done; try lia. by rewrite <- Hp.
  - by rewrite Hff.
  - rewrite slice_app_split, Z.add_0_l by lia. rewrite <- Hp. by apply absorbed_update.
Qed.

Lemma sending_call k n pend c w : sending k n pend w -> sending k n pend (add_call c w).
Proof. by intros []. Qed.

Lemma upd_state_same st w : state (dfu_srv_env w) = st -> upd_env (set_state st) w = w.
Proof. destruct w as [f [] h l c]. cbn. by intros ->. Qed.

Lemma crc_word c : 0 <= c < 2 ^ 16 -> u16 (u8 c + Z.shiftl (u8 (Z.shiftr c 8)) 8) = c.
Proof.
  intros Hc. pose proof (le_dec_enc 2 c) as Hd. cbn [le_enc le_dec] in Hd. rewrite Z.shiftl_mul_pow2 by lia. change (2 ^ (8 * Z.of_nat 2)) with (2 ^ 16) in Hd.
  rewrite (Z.mod_small c) in Hd by lia. replace (u8 c + u8 (Z.shiftr c 8) * 2 ^ 8) with c by lia. by apply wrap_small.
Qed.

Lemma crc_check_ok k n pend w : sending k n pend w -> n <> size -> pend = slice n (zlen pend) img -> 0 < zlen pend <= FLASH_WRITE_SIZE -> n + zlen pend <= size ->
  FLASH_WRITE_SIZE * (k + 2) <= slot_size -> 0 <= k -> wp ends (handle (crc_check pend)) (fun _ w' => sending (k + 1) (n + zlen pend) [] w' /\ done_with DFU_OPCODE_CRC_CHECK w w') w.
Proof.
  intros Hw Hn Hp Hl Hle Hk Hk0. apply wp_control; [apply Hw|done|done|]. apply (sending_call _ _ _ sys_timer_stop) in Hw. set (w0 := add_call _ w) in *.
  change (command DFU_OPCODE_CRC_CHECK) with (fun p : list Z => @cmd_crc_check E D HRom p). cbv beta. unfold cmd_crc_check. rewrite !wp_byte by (rewrite zlen_cons, zlen_le_enc; lia). wp_steps.
  pose proof Hw as [H1 _ _ _ H5 (H6 & b & H7 & H8 & H9) _ _ _ _ _ _ _]. rewrite (proj2 (Z.eqb_neq _ _) Hn) in H1. rewrite H1. rewrite bool_decide_eq_true_2 by done. cbn [negb]. wp_steps.
  rewrite H5. rewrite (wp_load _ _ _ b) by (done || lia). rewrite H9.
  change (nthb (DFU_OPCODE_CRC_CHECK :: le_enc 2 (Crc.crc16 pend 0)) 1) with (u8 (Crc.crc16 pend 0)).
  change (nthb (DFU_OPCODE_CRC_CHECK :: le_enc 2 (Crc.crc16 pend 0)) 2) with (u8 (Z.shiftr (Crc.crc16 pend 0) 8)).
  rewrite crc_word by (apply crc16_range; lia). rewrite Z.eqb_refl.
  eapply wp_bind; [by apply (write_buffer_ok k n pend w0 Hw)|]. cbv beta. intros _ w' (Hs & Hc & Hz & He & Hq). wp_steps. rewrite Hc, Hz.
  destruct (n + zlen pend =? size); wp_steps; rewrite wp_done; (split; [done|]); (split; [cbn [upd_env calls]; rewrite Hq; unfold w0; cbn [add_call calls]; quiet|]); intros c; apply sending_call; [exact Hs|].
  by rewrite upd_state_same in Hs.
Qed.

Lemma sending_more k n w : sending k n [] w -> n <> size -> n < size.
Proof. intros H Hn. pose proof (sd_range _ _ _ _ H). lia. Qed.

Lemma chunk_ok k n ps w : sending k n [] w -> n <> size -> concat ps = slice n (zlen (concat ps)) img -> 0 < zlen (concat ps) <= FLASH_WRITE_SIZE -> n + zlen (concat ps) <= size ->
  FLASH_WRITE_SIZE * (k + 2) <= slot_size -> 0 <= k -> wp ends (run (send_chunk ps)) (fun _ => sending (k + 1) (n + zlen (concat ps)) []) w.
Proof.
  intros Hw Hn Hp Hl Hle Hk Hk0. unfold send_chunk. rewrite run_app. eapply wp_bind; [apply (packets_ok k n ps [] w Hw Hn); cbn [app]; apply Hl|]. intros ? w' Hw'. cbn [app run] in *.
  eapply wp_bind; [by apply (crc_check_ok k n (concat ps))|]. intros ? w2 [H2 _]. exact H2.
Qed.

Lemma transfer_ok chunks : forall k n w, sending k n [] w -> concat (map (@concat Z) chunks) = slice n (size - n) img -> Forall (fun ps => 0 < zlen (concat ps) <= FLASH_WRITE_SIZE) chunks ->
  FLASH_WRITE_SIZE * (k + 1 + zlen chunks) <= slot_size -> 0 <= k ->
  wp ends (run (concat (map send_chunk chunks))) (fun _ => sending (k + zlen chunks) size []) w.
Proof.
  induction chunks as [|ps chunks IH]; intros k n w Hw Hc Hf Hk Hk0; cbn [map concat run] in *.
  - rewrite wp_done. pose proof (sd_range _ _ _ _ Hw) as (Hrg & _). assert (n = size) as <-; [|by rewrite zlen_nil, Z.add_0_r].
    apply (f_equal zlen) in Hc. rewrite zlen_slice, zlen_nil in Hc by lia. lia.
  - apply Forall_cons in Hf as [Hl Hf]. rewrite zlen_cons in *. pose proof (zlen_nonneg chunks). pose proof (sd_range _ _ _ _ Hw) as (Hrg & _).
    pose proof (f_equal zlen Hc) as Hz. rewrite zlen_app, zlen_slice in Hz by lia. pose proof (zlen_nonneg (concat (map (@concat Z) chunks))).
    assert (slice n (size - n) img = slice n (zlen (concat ps)) img ++ slice (n + zlen (concat ps)) (size - (n + zlen (concat ps))) img) as Hcut.
    { rewrite <- slice_app_split by lia. f_equal. lia. }
    rewrite Hcut in Hc. apply app_inj_1 in Hc as [Hc1 Hc2]; [|apply Nat2Z.inj; change (zlen (concat ps) = zlen (slice n (zlen (concat ps)) img)); rewrite zlen_slice; lia].
    rewrite run_app. eapply wp_bind; [apply (chunk_ok k n ps w Hw); try done; unfold FLASH_WRITE_SIZE in *; lia|]. intros ? w' Hw'.
    replace (k + (1 + zlen chunks)) with (k + 1 + zlen chunks) by lia. apply (IH _ _ _ Hw'); try done; unfold FLASH_WRITE_SIZE in *; lia.
Qed.

(** ** The first and the last commands *)

(** The first commands have been carried out up to this state, and erased up to [e]. *)
Definition ready (st : ble_dfu_srv_state_t) (n e : Z) w : Prop :=
  dfu_srv_env w = mk_env _ st DFU_MODE_BLE r base slot_size n 0 0 0 e (mbedtls_sha256_starts (mbedtls_sha256_init zero_context)) /\
  layers base img 0 e m0 (mem (flash w)) /\ okd (dev (flash w)) /\ RawFlash.boot_regs (fmc (flash w)) /\ callbacks w = true.

Lemma ready_call st n e c w : ready st n e w -> ready st n e (add_call c w).
Proof. done. Qed.

Lemma mode_ok w : dfu_srv_env w = zero_env -> m0 = mem (flash w) -> okd (dev (flash w)) -> RawFlash.boot_regs (fmc (flash w)) -> callbacks w = true ->
  wp ends (handle (control [DFU_OPCODE_MODE; DFU_MODE_BLE])) (fun _ w' => ready DFU_STATE_SRV_MODE_GET 0 base w' /\ done_with DFU_OPCODE_MODE w w') w.
Proof.
  intros He Hm Hg Hb Hc. apply wp_control; [done..|]. change (command DFU_OPCODE_MODE ?p) with (cmd_mode p). unfold cmd_mode.
  rewrite wp_byte by done. wp_steps. cbn [add_call dfu_srv_env]. rewrite He. change (bool_decide _) with true. cbn [negb].
  change (nthb [DFU_OPCODE_MODE; DFU_MODE_BLE] 1 =? DFU_MODE_BLE) with true. cbv iota. wp_steps. cbn [add_call flash dfu_srv_env]. rewrite running_get_ok.
  destruct Hg as [Hg Hs]. rewrite Hs, Hrunning. cbn [snd default from_option id]. wp_steps. rewrite wp_done. split; [done|]. split; [cbn; quiet|]. intros k. apply ready_call.
  split; [|split; [|done]].
  - destruct w as [f e h l c]. cbn in He |- *. subst e. by destruct Hr as [->| ->].
  - intros i. rewrite Hm. cbn. repeat if_split; try lia; done.
Qed.

Lemma size_ok w : ready DFU_STATE_SRV_MODE_GET 0 base w ->
  wp ends (handle (control (DFU_OPCODE_IMAGE_SIZE :: le_enc 4 size))) (fun _ w' => ready DFU_STATE_SRV_IMAGE_SIZE_GET size (base + FLASH_WRITE_SIZE) w' /\ done_with DFU_OPCODE_IMAGE_SIZE w w') w.
Proof.
  intros (He & Hm & Hg & Hb & Hc). destruct base_facts as (B1 & B2 & B3 & _). assert (slot_size < 2 ^ 31) as Hss by done. assert (FLASH_WRITE_SIZE <= slot_size) as Hfs by done.
  apply wp_control; [done..|]. change (command DFU_OPCODE_IMAGE_SIZE ?p) with (cmd_image_size p). unfold cmd_image_size.
  wp_steps. cbn [add_call dfu_srv_env]. rewrite He. change (bool_decide _) with true. cbn [negb total_bank_size].
  change (slice 1 4 (DFU_OPCODE_IMAGE_SIZE :: le_enc 4 size)) with (le_enc 4 size). rewrite le_dec_enc, Z.mod_small by (change (2 ^ (8 * Z.of_nat 4)) with (2 ^ 32); lia).
  case_bool (size =? 0); [lia|]. case_bool (slot_size <? size); [lia|]. cbn [orb]. wp_steps. apply wp_seq, (erase_next_ok _ _ base); [by cbn; rewrite He|done|done|lia|done|].
  intros f Hf Hff Hfm. wp_steps. rewrite wp_done. split; [done|]. split; [cbn; quiet|]. intros k. apply ready_call. split; [cbn; by rewrite He|]. cbn [add_call upd_env flash]. split; [|split; [done|split; [by rewrite Hff|done]]].
  by apply (layers_erase _ _ _ _ _ (mem (flash w))); [|lia|].
Qed.

Lemma start_dfu_ok w : ready DFU_STATE_SRV_IMAGE_SIZE_GET size (base + FLASH_WRITE_SIZE) w ->
  wp ends (handle (control [DFU_OPCODE_START_DFU])) (fun _ w' => sending 0 0 [] w' /\ done_with DFU_OPCODE_START_DFU w w') w.
Proof.
  intros (He & Hm & [Hg Hs] & Hb & Hc). apply wp_control; [done..|]. change (command DFU_OPCODE_START_DFU _) with (cmd_start_dfu (D := D)). unfold cmd_start_dfu, malloc.
  wp_steps. cbn [add_call dfu_srv_env]. rewrite He. change (bool_decide _) with true. cbn [negb heap]. wp_steps. cbn [add_call heap]. set (p := sys_malloc _ _).
  assert (p <> 0) as Hp by apply malloc_works. rewrite (proj2 (Z.eqb_neq _ _) Hp). wp_steps. rewrite (proj2 (Z.eqb_neq _ _) Hp). wp_steps. rewrite param_update_works. cbn [negb Z.eqb]. wp_steps.
  rewrite wp_done. split; [done|]. split; [cbn; quiet|]. intros k. apply sending_call.
  split; cbn [dfu_srv_env upd_env upd_heap add_call set_buf set_state state working_bank new_img_addr ota_img_size cur_offset temp_buf_used_size p_tem_buf erase_start_addr sha_context heap flash callbacks];
    rewrite ?He; cbn [state working_bank new_img_addr ota_img_size cur_offset temp_buf_used_size p_tem_buf erase_start_addr sha_context]; try done.
  - case_bool (0 =? size); [lia|done].
  - split; [done|]. eexists. split; [apply lookup_insert_eq|]. split; [|done]. rewrite zlen_map. unfold zlen. by rewrite length_seqZ.
  - split; [lia|done].
  - apply absorbed_start.
Qed.

Lemma begin_ok w : dfu_srv_env w = zero_env -> m0 = mem (flash w) -> okd (dev (flash w)) -> RawFlash.boot_regs (fmc (flash w)) -> callbacks w = true ->
  wp ends (run (begin_update size)) (fun _ => sending 0 0 []) w.
Proof.
  intros He Hm Hg Hb Hc. unfold begin_update. cbn [run]. eapply wp_bind; [by apply mode_ok|]. intros ? w1 [H1 _]. eapply wp_bind; [by apply size_ok|]. intros ? w2 [H2 _].
  eapply wp_bind; [by apply start_dfu_ok|]. intros ? w3 [H3 _]. by rewrite wp_done.
Qed.

(** The image is there, what was there before is gone from its slot only. *)
Definition image_in (m : Z -> Z) : Prop :=
  (forall i, 0 <= i < size -> m (base + i) = nthb img i) /\ (forall i, ~ base <= i < base + slot_size -> m i = m0 i).

(** The running image becomes the older one, and the other the newer. *)
Definition switched : sys :=
  Update.flags_of [(r, Z.lor IMG_FLAG_IA_MASK IMG_FLAG_NEWER_MASK, Z.lor IMG_FLAG_IA_OK IMG_FLAG_OLDER);
    (other r, Z.lor (Z.lor IMG_FLAG_IA_MASK IMG_FLAG_VERIFY_MASK) IMG_FLAG_NEWER_MASK, IMG_FLAG_NEWER)] s.

(** What the device is left with. *)
Definition updated w : Prop :=
  sys_of (dev (flash w)) = switched /\ exists m, image_in m /\ same_images (mem (flash w)) m.

Record passed (st : ble_dfu_srv_state_t) w : Prop := {
  ps_state : state (dfu_srv_env w) = st;
  ps_bank : working_bank (dfu_srv_env w) = r;
  ps_mem : image_in (mem (flash w));
  ps_sys : sys_of (dev (flash w)) = s;
  ps_freed : p_tem_buf (dfu_srv_env w) <> 0 /\ heap w !! p_tem_buf (dfu_srv_env w) = None;
  ps_callbacks : callbacks w = true
}.

Lemma passed_call st c w : passed st w -> passed st (add_call c w).
Proof. by intros []. Qed.

Lemma sending_image k w : sending k size [] w -> image_in (mem (flash w)).
Proof.
  intros Hw. pose proof (sd_mem _ _ _ _ Hw) as Hm. pose proof (sd_range _ _ _ _ Hw) as (_ & H1 & H2). unfold FLASH_WRITE_SIZE in *.
  split; intros i Hi; rewrite Hm; repeat if_split; try lia; try done; f_equal; lia.
Qed.

Lemma verification_ok k w : sending k size [] w ->
  wp ends (handle (control (DFU_OPCODE_VERIFICATION :: sha256 img))) (fun _ w' => passed DFU_STATE_SRV_VERIFICATION_PASS w' /\ done_with DFU_OPCODE_VERIFICATION w w') w.
Proof.
  intros Hw. pose proof (sha256_len (E := E) img) as Hlen. apply wp_control; [apply Hw|done|by rewrite zlen_cons, Hlen|]. apply (sending_call _ _ _ sys_timer_stop) in Hw. set (w0 := add_call _ w) in *.
  pose proof (sending_image _ _ Hw) as Him. pose proof Hw as [H1 [H2 _] _ _ _ (H6 & b & H7 & _) _ _ _ [_ Hs] _ Ha Hc]. rewrite Z.eqb_refl in H1. rewrite slice_all in Ha.
  change (command DFU_OPCODE_VERIFICATION ?p) with (cmd_verification (D := D) p). unfold cmd_verification. wp_steps. rewrite H1. rewrite bool_decide_eq_true_2 by done. cbn [negb]. wp_steps.
  pose proof (absorbed_finish _ _ Ha) as Hd. destruct (mbedtls_sha256_finish _) as [d c]. cbn [fst] in Hd. subst d.
  unfold sys_mfree. wp_steps. rewrite (proj2 (Z.eqb_neq _ _) H6). cbn [upd_env heap]. rewrite H7. wp_steps.
  assert (slice 1 SHA256_RESULT_SIZE (DFU_OPCODE_VERIFICATION :: sha256 img) = sha256 img) as ->.
  { rewrite <- Hlen. apply (slice_all (sha256 img)). }
  rewrite bool_decide_eq_true_2 by done. cbn [negb]. wp_steps. rewrite wp_done. split; [done|]. split; [cbn; quiet|]. intros j. apply passed_call.
  split; try done. split; [done|apply lookup_delete_eq].
Qed.

Lemma reboot_ok w : passed DFU_STATE_SRV_VERIFICATION_PASS w -> wp ends (handle (control [DFU_OPCODE_REBOOT])) (fun _ w' => passed DFU_STATE_SRV_WAIT_LAST_CMD w' /\ done_with DFU_OPCODE_REBOOT w w') w.
Proof.
  intros [H1 H2 H3 H4 H6 H5]. apply wp_control; [done..|]. change (command DFU_OPCODE_REBOOT _) with (cmd_reboot (D := D)). unfold cmd_reboot. wp_steps.
  cbn [add_call dfu_srv_env]. rewrite H1. change (bool_decide _) with true. cbn [negb]. wp_steps. rewrite wp_done. split; [done|]. split; [cbn; quiet|]. by intros j.
Qed.

Lemma ind_ok w : passed DFU_STATE_SRV_WAIT_LAST_CMD w -> wp ends (handle (Message (NTF_IND_SEND_RSP BLE_OTA_SRV_IDX_CONTROL_VAL))) (fun _ w' => passed DFU_STATE_SRV_DISCONNECTING w' /\ told [] true (calls w) (calls w')) w.
Proof.
  intros [H1 H2 H3 H4 H6 H5]. apply (call_is w app_dfu_srv_ind_cb _ (NTF_IND_SEND_RSP BLE_OTA_SRV_IDX_CONTROL_VAL)); [done..|]. unfold app_dfu_srv_ind_cb. wp_steps.
  rewrite H1. change (bool_decide _) with true. cbn [negb]. wp_steps. rewrite disconnect_works. cbn [negb Z.eqb]. rewrite wp_last_state_set. split; [done|]. apply told_close, told_nothing.
Qed.

Lemma switch_ok Q w : (forall w', updated w' -> Q 0 w') -> working_bank (dfu_srv_env w) = r -> image_in (mem (flash w)) -> sys_of (dev (flash w)) = s ->
  wp ends (switch_flags r) Q w.
Proof.
  intros HQ H2 H3 H4. unfold switch_flags, set_img_flag. assert ((if r =? 0 then 1 else 0) = other r) as -> by (by destruct Hr as [->| ->]). wp_steps.
  destruct (set_flag_ok (dev (flash w)) r (Z.lor IMG_FLAG_IA_MASK IMG_FLAG_NEWER_MASK) (Z.lor IMG_FLAG_IA_OK IMG_FLAG_OLDER) Hr) as (d1 & -> & S1 & M1). wp_steps.
  cbn [upd_flash flash RawFlash.dev RawFlash.set_dev].
  destruct (set_flag_ok d1 (other r) (Z.lor (Z.lor IMG_FLAG_IA_MASK IMG_FLAG_VERIFY_MASK) IMG_FLAG_NEWER_MASK) IMG_FLAG_NEWER) as (d2 & -> & S2 & M2);
    [by apply Update.other_img|]. wp_steps. apply HQ. split; [by change (sys_of d2 = switched); rewrite S2, S1, H4|]. exists (mem (flash w)). split; [done|]. intros i Hi. change (rom_mem d2 i = mem (flash w) i). by rewrite M2, M1.
Qed.

Lemma disconnected_ok w : (forall w', updated w' -> ends SysTimer_SoftwareReset w') -> passed DFU_STATE_SRV_DISCONNECTING w ->
  wp ends (handle (Message (CONN_STATE_CHANGE false))) (fun _ _ => False) w.
Proof.
  intros HP [H1 H2 H3 H4 H6 H5]. apply (call_is w app_dfu_srv_disconn_cb _ (CONN_STATE_CHANGE false)); [done..|]. unfold app_dfu_srv_disconn_cb. wp_steps.
  rewrite H1. change (bool_decide _) with true. cbn [negb]. apply (wp_bind _ _ _ (fun b w' => b = true /\ updated w')); [|intros b w' [-> Hu]; by apply HP].
  unfold app_dfu_srv_set_flag. wp_steps. rewrite H2. apply wp_seq. destruct (negb _); wp_steps.
  - by apply wp_seq, switch_ok.
  - by apply switch_ok.
Qed.

Lemma last_ok k w : (forall w', updated w' -> ends SysTimer_SoftwareReset w') -> sending k size [] w -> wp ends (run (end_update (sha256 img))) (fun _ _ => False) w.
Proof.
  intros HP Hw. unfold end_update. cbn [run]. eapply wp_bind; [by eapply verification_ok|]. intros ? w1 [H1 _]. eapply wp_bind; [by apply reboot_ok|]. intros ? w2 [H2 _].
  eapply wp_bind; [by apply ind_ok|]. intros ? w3 [H3 _]. eapply wp_bind; [by apply disconnected_ok|]. by intros ? w4 H4.
Qed.

(** A whole update ends in the reset. *)
Lemma session_ok chunks w : (forall w', updated w' -> ends SysTimer_SoftwareReset w') ->
  dfu_srv_env w = zero_env -> m0 = mem (flash w) -> okd (dev (flash w)) -> RawFlash.boot_regs (fmc (flash w)) -> callbacks w = true ->
  concat (map (@concat Z) chunks) = img -> Forall (fun ps => 0 < zlen (concat ps) <= FLASH_WRITE_SIZE) chunks -> FLASH_WRITE_SIZE * (1 + zlen chunks) <= slot_size ->
  wp ends (run (session size (sha256 img) chunks)) (fun _ _ => False) w.
Proof.
  intros HP He Hm Hg Hb Hc Hi Hf Hl. unfold session. rewrite run_app. eapply wp_bind; [by apply begin_ok|]. intros ? w1 H1. rewrite run_app.
  eapply wp_bind; [apply (transfer_ok chunks 0 0 w1 H1); try done; by rewrite Z.sub_0_r, slice_all|]. intros ? w2 H2. by apply (last_ok _ _ HP H2).
Qed.

(** ** Updates that go wrong *)

(** The buffer that [VERIFICATION] freed is freed by the reset. *)
Lemma wrong_digest_ok k d w : (forall w', ends DoubleFree w') -> sending k size [] w -> zlen d = SHA256_RESULT_SIZE -> d <> sha256 img ->
  wp ends (handle (control (DFU_OPCODE_VERIFICATION :: d))) (fun _ _ => False) w.
Proof.
  intros HF Hw Hlen Hd. apply wp_command; [apply Hw|done|by rewrite zlen_cons, Hlen|]. apply (sending_call _ _ _ sys_timer_stop) in Hw. set (w0 := add_call _ w) in *.
  pose proof Hw as [H1 _ _ _ _ (H6 & b & H7 & _) _ _ _ _ _ Ha _]. rewrite Z.eqb_refl in H1. rewrite slice_all in Ha.
  change (command DFU_OPCODE_VERIFICATION ?p) with (cmd_verification (D := D) p). unfold cmd_verification. wp_steps. rewrite H1. rewrite bool_decide_eq_true_2 by done. cbn [negb]. wp_steps.
  pose proof (absorbed_finish _ _ Ha) as Hs. destruct (mbedtls_sha256_finish _) as [d' c]. cbn [fst] in Hs. subst d'.
  unfold sys_mfree. wp_steps. rewrite (proj2 (Z.eqb_neq _ _) H6). cbn [upd_env heap]. rewrite H7. wp_steps.
  assert (slice 1 SHA256_RESULT_SIZE (DFU_OPCODE_VERIFICATION :: d) = d) as -> by (rewrite <- Hlen; apply (slice_all d)).
  rewrite bool_decide_eq_false_2 by (intros E1; by apply Hd). cbn [negb]. rewrite wp_done. change (DFU_ERROR_HASH_ERROR =? DFU_ERROR_NO_ERROR) with false. cbv iota zeta.
  unfold app_dfu_srv_reset, sys_mfree. wp_steps. cbn [add_call upd_env upd_heap dfu_srv_env heap set_context p_tem_buf]. rewrite (proj2 (Z.eqb_neq _ _) H6), lookup_delete_eq. apply wp_seq. rewrite wp_err. apply HF.
Qed.

Lemma lost_ok w : (forall w', ends DoubleFree w') -> passed DFU_STATE_SRV_VERIFICATION_PASS w ->
  wp ends (handle (Message (CONN_STATE_CHANGE false))) (fun _ _ => False) w.
Proof.
  intros HF [H1 _ _ _ [H6 H7] H5]. apply (call_is w app_dfu_srv_disconn_cb _ (CONN_STATE_CHANGE false)); [done..|]. unfold app_dfu_srv_disconn_cb, app_dfu_srv_reset, sys_mfree. wp_steps.
  rewrite H1. change (bool_decide _) with false. cbn [negb]. wp_steps. rewrite (proj2 (Z.eqb_neq _ _) H6), H7. apply wp_seq. rewrite wp_err. apply HF.
Qed.

(** The sectors below [e] are erased, and nothing is gathered. *)
Record erasing (e : Z) w : Prop := {
  er_state : state (dfu_srv_env w) = DFU_STATE_SRV_DFU_STARTED;
  er_addr : new_img_addr (dfu_srv_env w) = base /\ cur_offset (dfu_srv_env w) = 0 /\ ota_img_size (dfu_srv_env w) = size;
  er_used : temp_buf_used_size (dfu_srv_env w) = 0;
  er_buf : exists b, heap w !! p_tem_buf (dfu_srv_env w) = Some b;
  er_erase : erase_start_addr (dfu_srv_env w) = e /\ (SECTOR | e) /\ base <= e;
  er_mem : forall i, mem (flash w) i = if (base <=? i) && (i <? e) then 0xFF else m0 i;
  er_good : good (dev (flash w)) /\ sys_of (dev (flash w)) = s;
  er_regs : RawFlash.boot_regs (fmc (flash w));
  er_callbacks : callbacks w = true
}.

Lemma sending_erasing w : sending 0 0 [] w -> erasing (base + FLASH_WRITE_SIZE) w.
Proof.
  intros [H1 [H2 H2'] H3 H4 H5 (H6 & b & H7 & _) H10 H11 H12 H13 H14 H15 H16]. destruct base_facts as (_ & _ & B3 & _). case_bool (0 =? size); [lia|].
  split; try done; [by exists b| |].
  - split; [exact H11|]. split; [apply Z.divide_add_r; [done|by exists 1]|unfold FLASH_WRITE_SIZE; lia].
  - intros i. rewrite H12. unfold FLASH_WRITE_SIZE. repeat if_split; try lia; done.
Qed.

(** The checksum of no bytes is 0. *)
Definition empty_check : event := crc_check [].

Lemma empty_check_ok e w : erasing e w -> e + FLASH_WRITE_SIZE <= RE_IMG_1_END -> wp ends (handle empty_check) (fun _ w' => erasing (e + FLASH_WRITE_SIZE) w' /\ done_with DFU_OPCODE_CRC_CHECK w w') w.
Proof.
  intros [H1 (H2 & H3 & H3') H4 (b & H5) (H6 & H7 & H8) H9 H10 H11 H12] He. destruct base_facts as (B1 & B2 & B3 & B4 & B5).
  apply wp_control; [done..|]. change (command DFU_OPCODE_CRC_CHECK ?p) with (cmd_crc_check (D := D) p). unfold cmd_crc_check. rewrite !wp_byte by done. wp_steps.
  cbn [add_call dfu_srv_env]. rewrite H1. change (bool_decide _) with true. cbn [negb]. wp_steps. cbn [add_call dfu_srv_env]. rewrite H4.
  rewrite (wp_load _ _ _ b) by (done || apply zlen_nonneg). rewrite !slice_nil. change (Crc.crc16 [] 0 =? _) with true. cbv iota.
  unfold write_buffer, flash_write, flash_read. wp_steps. cbn [add_call dfu_srv_env heap]. rewrite H4, (wp_load _ _ _ b) by (done || apply zlen_nonneg). rewrite slice_nil. wp_steps.
  assert (forall f a, RawFlash.raw_flash_write f a [] = (-1, f)) as ->.
  { intros f a. unfold RawFlash.raw_flash_write. rewrite bad_range_is. change (zlen [] <=? 0) with true. by rewrite orb_true_r. }
  assert (forall f a, RawFlash.raw_flash_read f a 0 = (-1, [], f)) as Hread.
  { intros f a. unfold RawFlash.raw_flash_read. rewrite bad_range_is. change (0 <=? 0) with true. by rewrite orb_true_r. }
  wp_steps. rewrite Hread. wp_steps. change (take (Z.to_nat 0) []) with (@nil Z). rewrite (wp_store _ _ _ _ b); [|exact H5|by apply zlen_nonneg].
  wp_steps. rewrite (wp_load _ _ _ (splice 0 [] b)); [|apply lookup_insert_eq|apply zlen_nonneg]. wp_steps. rewrite slice_nil.
  apply wp_seq, (erase_next_ok _ _ e); cbn [flash dfu_srv_env upd_env upd_heap upd_flash add_call set_context set_used set_offset erase_start_addr heap calls callbacks];
    [done|done|lia|done|done|].
  intros f Hf Hff Hfm. wp_steps. cbn [dfu_srv_env set_erase set_used set_offset set_context cur_offset ota_img_size]. rewrite H3, H3'. change (u32 (0 + 0)) with 0. case_bool (0 =? size); [lia|]. wp_steps. rewrite wp_done.
  split; [done|]. split; [cbn; quiet|]. intros k. split; cbn [add_call dfu_srv_env set_erase set_used set_offset set_context state new_img_addr cur_offset ota_img_size temp_buf_used_size p_tem_buf erase_start_addr heap flash callbacks]; try done.
  - eexists. apply lookup_insert_eq.
  - split; [done|]. split; [apply Z.divide_add_r; [done|by exists 1]|unfold FLASH_WRITE_SIZE; lia].
  - intros i. rewrite Hfm. change (mem (flash _) i) with (mem (flash w) i). rewrite H9. unfold FLASH_WRITE_SIZE. repeat if_split; try lia; done.
  - by rewrite Hff.
Qed.

Lemma empty_checks_ok k : forall e w, erasing e w -> e + FLASH_WRITE_SIZE * Z.of_nat k <= RE_IMG_1_END ->
  wp ends (run (replicate k empty_check)) (fun _ => erasing (e + FLASH_WRITE_SIZE * Z.of_nat k)) w.
Proof.
  induction k as [|k IH]; intros e w Hw Hk; cbn [replicate run]; [by rewrite wp_done, Z.mul_0_r, Z.add_0_r|]. rewrite Nat2Z.inj_succ in *. unfold FLASH_WRITE_SIZE in *.
  eapply wp_seq, wp_mono; [apply (empty_check_ok e w Hw); unfold FLASH_WRITE_SIZE; lia|]. intros ? w' [Hw' _]. unfold FLASH_WRITE_SIZE in *.
  replace (e + 4096 * Z.succ (Z.of_nat k)) with (e + 4096 + 4096 * Z.of_nat k) by lia. apply IH; [done|lia].
Qed.

End Run.
End DfuRun.
