(* ===== verification/DfuProps.v ===== *)
(** * The firmware update over Bluetooth: the theorems

    Whatever a peer sends, the device resets only for an image whose digest the peer sent; an
    update of a peer that keeps the protocol is what the device boots; and what a peer can do
    to the server: a block freed twice, and both images erased. *)
From S2P Require Import Prelude Flash RawFlash Boot BootSpec Board BootProps Ota OtaSpec Update Dfu DfuSpec DfuRun.
Open Scope Z_scope.

Module DfuProps.
Import Boot BootSpec BootProps OtaSpec Dfu DfuSpec DfuRun.

(** ** The flags after an update *)

Lemma switched_newer r s : is_img r -> exists v0 v1, status (switched r s) r = Some v0 /\ newer_untainted v0 = false /\
  status (switched r s) (other r) = Some v1 /\ newer_untainted v1 = true /\ counter (switched r s) = counter s.
Proof.
  intros Hi. exists (masked (default 0 (status s r)) 0x19 8), (masked (default 0 (status s (other r))) 0x1f 1).
  assert (newer_untainted (masked (default 0 (status s r)) 0x19 8) = false) as H0 by (unfold newer_untainted, mask_is; by rewrite land_masked).
  assert (newer_untainted (masked (default 0 (status s (other r))) 0x1f 1) = true) as H1 by (unfold newer_untainted, mask_is; by rewrite !land_masked).
  by destruct Hi as [->| ->].
Qed.

(** ** Any peer *)

(** What a peer writes to the control characteristic are bytes. *)
Definition well_formed (v : event) : Prop :=
  match v with Message (WRITE_REQ BLE_OTA_SRV_IDX_CONTROL_VAL p) => bytes p | _ => True end.

(** One of the events is a command that carries this digest. *)
Definition digest_sent (evs : list event) (d : list Z) : Prop :=
  exists p, In (control p) evs /\ nthb p 0 = DFU_OPCODE_VERIFICATION /\ d = slice 1 SHA256_RESULT_SIZE p.

Section Device.
Context {E : Env} {S : ShaLaws E} {D : Type} {HRom : Rom D} {HLaws : RomLaws D} {HSys : SysRom D} {HSysLaws : SysRomLaws D}.
Implicit Type w : world D.

Section AnyPeer.
(** Writing and erasing the flash leaves the status area alone. *)
Context (write_sys : forall (d : D) off l, sys_of (rom_flash_write d off l).2 = sys_of d).
Context (erase_sys : forall (d : D) off n, sys_of (rom_flash_erase d off n).2 = sys_of d).

(** An empty command is read past its end; every other event keeps the invariant. *)
Lemma run_any sent evs : forall n w, winv sent n w -> 0 <= n -> n + zlen evs <= LIMIT ->
  Forall (fun v => v = control [] \/ event_ok sent v) evs ->
  wp (fun e w' => may_stop sent e w' \/ e = Bounds /\ In (control []) evs) (run evs) (fun _ _ => True) w.
Proof.
  induction evs as [|v evs IH]; intros n w Hw Hn Hl Hv; cbn [run]; [by wp_steps|].
  apply Forall_cons in Hv as [Hv Hvs]. rewrite zlen_cons in Hl. pose proof (zlen_nonneg evs).
  apply (wp_bind _ _ _ (fun _ => winv sent (n + 1))).
  - destruct Hv as [->|Hv].
    + unfold wp, control. cbn [handle]. unfold ble_ota_srv_cb. rewrite bnd_assoc, bnd_get.
      destruct (callbacks w); cbn; [by right; split; [|left]|]. eapply winv_mono; [|exact Hw]. lia.
    + pose proof (handle_inv write_sys erase_sys sent n v w Hw ltac:(lia) Hv) as H'. unfold wp in *.
      destruct (handle v w) as [w' [e|u]]; [by left|done].
  - intros _ w' Hw'. pose proof (IH (n + 1) w' Hw' ltac:(lia) ltac:(lia) Hvs) as H'. unfold wp in *.
    destruct (run evs w') as [w2 [e|u]]; [|done]. destruct H' as [H'|[-> H']]; [by left|]. right. split; [done|by right].
Qed.

(** C13: whatever bytes a peer sends in up to 2^19 events, and whenever its commands time out, the
    server leaves its buffers only if one of the peer's commands was empty; and if the device resets to run
    another image, the slot holds an image of the declared size whose SHA-256 digest the peer sent. *)
Theorem dfu_runs_verified evs w : dfu_srv_env w = zero_env -> fit (flash w) -> zlen evs <= LIMIT -> Forall well_formed evs ->
  ((run evs w).2 = inl Bounds -> In (control []) evs) /\
  ((run evs w).2 = inl SysTimer_SoftwareReset -> verified (digest_sent evs) (run evs w).1).
Proof.
  intros He Hf Hl Hw. assert (winv (digest_sent evs) 0 w) as Hi by (split; [done|]; by rewrite He).
  assert (Forall (fun v => v = control [] \/ event_ok (digest_sent evs) v) evs) as Hok.
  { apply List.Forall_forall. intros v Hv. rewrite List.Forall_forall in Hw. specialize (Hw v Hv).
    destruct v as [[| |?|?|[] [|b p]|?]|]; try (by right); [by left|]. right. split; [exact Hw|]. split; [done|]. intros H3. by exists (b :: p). }
  pose proof (run_any (digest_sent evs) evs 0 w Hi ltac:(lia) ltac:(lia) Hok) as H. unfold wp in H.
  destruct (run evs w) as [w' [e|u]]; [|by split]. cbn. destruct H as [[->|[-> Hv]]|[-> He']]; [by split| |by split]. split; [done|]. by intros _.
Qed.

End AnyPeer.

(** ** A peer that keeps the protocol *)

Context (malloc_works : forall h n, sys_malloc h n <> 0).
Context (param_update_works : forall l, answer (l ++ [ble_conn_param_update_req 0 BLE_CONN_OTA_INTV BLE_CONN_OTA_LATENCY BLE_CONN_OTA_SUPV_TOUT]) = 0).
Context (disconnect_works : forall l, answer (l ++ [ble_conn_disconnect 0]) = 0).
Context (good : D -> Prop) (Hsound : forall s, sound RE_IMG_0_OFFSET RE_IMG_1_END (fun d => good d /\ sys_of d = s)).

(** A device that runs image [r] and waits for an update. *)
Record idle (r : Z) w : Prop := {
  id_env : dfu_srv_env w = zero_env;
  id_img : is_img r;
  id_running : running (sys_of (dev (flash w))) = Some r;
  id_good : good (dev (flash w));
  id_regs : RawFlash.boot_regs (fmc (flash w));
  id_callbacks : callbacks w = true
}.

(** The image in chunks, each with a checksum, and each chunk in packets. *)
Record chunked (img : list Z) (chunks : list (list (list Z))) : Prop := {
  ck_bytes : bytes img;
  ck_size : 0 < zlen img <= slot_size;
  ck_concat : concat (map (@concat Z) chunks) = img;
  ck_chunks : Forall (fun ps => 0 < zlen (concat ps) <= FLASH_WRITE_SIZE) chunks;
  ck_sectors : FLASH_WRITE_SIZE * (1 + zlen chunks) <= slot_size
}.

Lemma wp_stops {A} (m : M (world D) stop A) e (P : world D -> Prop) w : wp (fun e' w' => e' = e /\ P w') m (fun _ _ => False) w ->
  exists w', m w = (w', inl e) /\ P w'.
Proof. unfold wp. destruct (m w) as [w' [e'|a]]; [|done]. intros [-> H]. by exists w'. Qed.

(** What the device boots after an update. *)
Lemma updated_device_boots RE_MBL_OFFSET uninit ibl r img ver s m0 w3 : opt_ok RE_MBL_OFFSET (u8 (default 0 ibl)) -> is_img r -> running s = Some r -> zlen img <= slot_size ->
  Update.valid_image (D := D) RE_MBL_OFFSET uninit ibl (other r) img ver -> counter s <= ver -> updated r img s m0 w3 ->
  exists f4, boots RE_MBL_OFFSET uninit ibl 0 (reset (flash w3)) = (Jump (FLASH_BASE + (RE_IMG_0_OFFSET + IMG_OVERHEAD_LEN RE_MBL_OFFSET)), f4) /\
    running (sys_of (dev f4)) = Some (other r) /\
    (forall i, 0 <= i < zlen img -> rom_mem (dev f4) (phys (fmc f4) (RE_IMG_0_OFFSET + i)) = nthb img i).
Proof.
  intros Hopt Hi Hr Hz Hval Hcnt (Hs3 & m & [Hm _] & Hsame). destruct (switched_newer r s Hi) as (v0 & v1 & S0 & N0 & S1 & N1 & Ec). rewrite <- Hs3 in *.
  apply (Update.newer_boots RE_MBL_OFFSET uninit ibl Hopt (flash w3) r img ver v0 v1); try done; [|lia].
  destruct (slot_facts (other r) (proj1 (Update.other_img r Hi))) as (_ & _ & H3 & _). destruct (base_facts r Hi) as (B1 & _).
  intros i Hir. change (rom_mem (dev (flash w3)) (slot (other r) + i)) with (mem (flash w3) (slot (other r) + i)). rewrite Hsame by lia. by apply Hm.
Qed.

(** C12: an update of a peer that keeps the protocol ends in the reset, and the boot loader then runs
    the image that the peer sent. The image fits the slot, and the peer sends it in chunks of 1 to 4096 bytes, cut into
    packets in any way, of which there are so few that the sectors erased for them, one per chunk and one more,
    are in the slot; memory is there, the calls of the stack succeed and the chip does not fail; the check of
    the ROM accepts the image, with a version that is not below the counter. *)
Theorem dfu_update_boots RE_MBL_OFFSET uninit ibl w r img chunks ver : opt_ok RE_MBL_OFFSET (u8 (default 0 ibl)) ->
  idle r w -> chunked img chunks ->
  Update.valid_image (D := D) RE_MBL_OFFSET uninit ibl (other r) img ver -> counter (sys_of (dev (flash w))) <= ver ->
  exists w3 f4, run (session (zlen img) (sha256 img) chunks) w = (w3, inl SysTimer_SoftwareReset) /\
    boots RE_MBL_OFFSET uninit ibl 0 (reset (flash w3)) = (Jump (FLASH_BASE + (RE_IMG_0_OFFSET + IMG_OVERHEAD_LEN RE_MBL_OFFSET)), f4) /\
    running (sys_of (dev f4)) = Some (other r) /\
    (forall i, 0 <= i < zlen img -> rom_mem (dev f4) (phys (fmc f4) (RE_IMG_0_OFFSET + i)) = nthb img i).
Proof.
  intros Hopt [He Hi Hr Hg Hb Hc] [Hby Hz Hcat Hch Hsec] Hval Hcnt.
  edestruct (wp_stops (run (session (zlen img) (sha256 img) chunks)) SysTimer_SoftwareReset (updated r img (sys_of (dev (flash w))) (mem (flash w))) w) as (w3 & E3 & Hu).
  { by apply (session_ok malloc_works param_update_works disconnect_works good Hsound r Hi img Hby Hz (sys_of (dev (flash w))) (mem (flash w)) Hr). }
  destruct (updated_device_boots RE_MBL_OFFSET uninit ibl r img ver _ _ _ Hopt Hi Hr (proj2 Hz) Hval Hcnt Hu) as (f4 & H4). by exists w3, f4.
Qed.

(** C14: a digest that does not match, or a connection that is lost after one that does, makes
    the server free its buffer a second time. *)
Theorem dfu_frees_twice w r img chunks d : idle r w -> chunked img chunks -> zlen d = SHA256_RESULT_SIZE -> d <> sha256 img ->
  let sent := begin_update (zlen img) ++ concat (map send_chunk chunks) in
  (run (sent ++ [control (DFU_OPCODE_VERIFICATION :: d)]) w).2 = inl DoubleFree /\
  (run (sent ++ [control (DFU_OPCODE_VERIFICATION :: sha256 img); Message (CONN_STATE_CHANGE false)]) w).2 = inl DoubleFree.
Proof.
  intros [He Hi Hr Hg Hb Hc] [Hby Hz Hcat Hch Hsec] Hd Hne sent.
  set (s := sys_of (dev (flash w))) in *. set (m0 := mem (flash w)). set (F := fun (e : stop) (w' : world D) => e = DoubleFree /\ True).
  assert (forall w', F DoubleFree w') as HF by done.
  assert (wp F (run sent) (fun _ => sending good r img s m0 (0 + zlen chunks) (zlen img) []) w) as Hs.
  { unfold sent. rewrite run_app. eapply wp_bind; [by apply (begin_ok malloc_works param_update_works good Hsound r Hi img Hz s m0 Hr)|].
    intros ? w1 H1. apply (transfer_ok good Hsound r Hi img Hby Hz s m0 F chunks 0 0 w1 H1); try done. by rewrite Z.sub_0_r, slice_all. }
  split.
  - destruct (wp_stops (run (sent ++ [control (DFU_OPCODE_VERIFICATION :: d)])) DoubleFree (fun _ => True) w) as (w' & -> & _); [|done].
    rewrite run_app. eapply wp_bind; [exact Hs|]. intros ? w1 H1. cbn [run]. eapply wp_bind; [exact (wrong_digest_ok good r img s m0 _ _ _ _ HF H1 Hd Hne)|]. by intros ? w2 H2.
  - destruct (wp_stops (run (sent ++ [control (DFU_OPCODE_VERIFICATION :: sha256 img); Message (CONN_STATE_CHANGE false)])) DoubleFree (fun _ => True) w) as (w' & -> & _); [|done].
    rewrite run_app. eapply wp_bind; [exact Hs|]. intros ? w1 H1. cbn [run]. eapply wp_bind; [exact (verification_ok good r img Hz s m0 _ _ _ H1)|]. intros ? w2 [H2 _].
    eapply wp_bind; [exact (lost_ok r img s m0 _ _ HF H2)|]. by intros ? w3 H3.
Qed.

(** Each checksum command that no data precedes erases one more sector, past the end of the
    slot too: after enough of them the image that runs is gone. *)
Theorem dfu_empty_checks_erase w r size k : idle r w -> 0 < size <= slot_size ->
  slot (other r) + FLASH_WRITE_SIZE * (Z.of_nat k + 1) <= RE_IMG_1_END ->
  exists w', run (begin_update size ++ replicate k empty_check) w = (w', inr tt) /\
    forall i, slot (other r) <= i < slot (other r) + FLASH_WRITE_SIZE * (Z.of_nat k + 1) -> rom_mem (dev (flash w')) i = 0xFF.
Proof.
  intros [He Hi Hr Hg Hb Hc] Hz Hk. set (img := replicate (Z.to_nat size) 0). assert (zlen img = size) as Hl by (unfold img, zlen; rewrite length_replicate; lia). rewrite <- Hl in *.
  set (s := sys_of (dev (flash w))) in *. set (m0 := mem (flash w)). set (F := fun (e : stop) (w' : world D) => False).
  assert (wp F (run (begin_update (zlen img) ++ replicate k empty_check)) (fun _ => erasing good r img s m0 (slot (other r) + FLASH_WRITE_SIZE + FLASH_WRITE_SIZE * Z.of_nat k)) w) as Hw.
  { rewrite run_app. eapply wp_bind; [by apply (begin_ok malloc_works param_update_works good Hsound r Hi img Hz s m0 Hr)|].
    intros ? w1 H1. apply (empty_checks_ok good Hsound r Hi img Hz); [|unfold FLASH_WRITE_SIZE in *; lia]. by apply sending_erasing. }
  unfold wp in Hw. destruct (run _ w) as [w' [e|[]]]; [done|]. exists w'. split; [done|]. intros i Hir. unfold FLASH_WRITE_SIZE in *.
  change (mem (flash w') i = 0xFF). rewrite (er_mem _ _ _ _ _ _ _ Hw). repeat if_split; try lia; done.
Qed.

End Device.

(** ** Updates of a board *)

Import Board.

(** A digest of what matters here: the first 32 bytes. *)
Definition digest (l : list Z) : list Z := take 32 (l ++ replicate 32 0).
#[local] Instance board_env : Env := {|
  answer l := 0;
  sys_malloc h n := fresh (dom h ∪ {[0]} : gset Z);
  fill i := 0;
  sha256_context := list Z;
  zero_context := [];
  mbedtls_sha256_init c := [];
  mbedtls_sha256_starts c := [];
  mbedtls_sha256_update c d := c ++ d;
  mbedtls_sha256_finish c := (digest c, c);
  mbedtls_sha256_free c := []
|}.

Lemma board_malloc h n : sys_malloc (Env := board_env) h n <> 0.
Proof. cbn. intros H. apply (is_fresh (dom h ∪ {[0]} : gset Z)). rewrite H. apply elem_of_union_r. by apply elem_of_singleton. Qed.

#[local] Instance board_sha : ShaLaws board_env.
Proof.
  refine {| sha256 := digest |}.
  - intros c ls. cbn. f_equal. change (fold_left app ls [] = concat ls).
    assert (forall l, fold_left app ls l = l ++ concat ls) as H; [|by rewrite H].
    induction ls as [|x ls IH]; intros l; cbn; [by rewrite app_nil_r|]. by rewrite IH, app_assoc.
  - intros l. unfold digest, zlen, SHA256_RESULT_SIZE. rewrite length_take, length_app, length_replicate. lia.
Defined.

Definition waiting (f : RawFlash.world board) : world board := mk_world f zero_env ∅ [] true.

Lemma board_idle r f : running (sys_of (dev f)) = Some r -> is_img r -> Update.board_good (dev f) -> RawFlash.boot_regs (fmc f) -> idle Update.board_good r (waiting f).
Proof. by constructor. Qed.

(** The image of 600 bytes as one chunk. *)
Definition chunk0 (b v : Z) : list (list (list Z)) := [Update.chunks_of b v].

Lemma chunk0_ok : chunked (Update.image 0x5A 4) (chunk0 0x5A 4).
Proof.
  split; [apply Update.image_bytes; lia|rewrite Update.zlen_image; by vm_compute|reflexivity| |by vm_compute].
  constructor; [|done]. change (concat (Update.chunks_of 0x5A 4)) with (Update.image 0x5A 4). rewrite Update.zlen_image. by vm_compute.
Qed.

Lemma running0_idle : idle Update.board_good 0 (waiting Update.running0).
Proof. apply board_idle; [done|by left|done|by left]. Qed.

Lemma board_write_sys (b : board) off l : sys_of (rom_flash_write b off l).2 = sys_of b.
Proof. cbn. by case_match. Qed.
Lemma board_erase_sys (b : board) off n : sys_of (rom_flash_erase b off n).2 = sys_of b.
Proof. done. Qed.

(** A peer that starts an update and sends a wrong checksum. *)
Definition confused : list event := [control [0; 0]; control [1; 88; 2; 0; 0]; Timeout; control [2]; packet [7]; control [6; 0; 0]].

Lemma dfu_runs_verified_witness : ((run confused (waiting Update.running0)).2 = inl Bounds -> In (control []) confused) /\
  ((run confused (waiting Update.running0)).2 = inl SysTimer_SoftwareReset -> verified (digest_sent confused) (run confused (waiting Update.running0)).1).
Proof.
  apply dfu_runs_verified; [exact board_write_sys|exact board_erase_sys|done| |by vm_compute|].
  - split; [by left|]. intros v [= <-]. by left.
  - repeat constructor; try done; lia.
Defined.

Lemma dfu_update_boots_witness : exists w3 f4,
  run (session 600 (sha256 (Update.image 0x5A 4)) (chunk0 0x5A 4)) (waiting Update.running0) = (w3, inl SysTimer_SoftwareReset) /\
  boots 0x1000 0 (Some IBL_VERIFY_IMG_ONLY) 0 (reset (flash w3)) = (Jump (FLASH_BASE + (RE_IMG_0_OFFSET + IMG_OVERHEAD_LEN 0x1000)), f4) /\
  running (sys_of (dev f4)) = Some (other 0) /\
  (forall i, 0 <= i < 600 -> rom_mem (dev f4) (phys (fmc f4) (RE_IMG_0_OFFSET + i)) = nthb (Update.image 0x5A 4) i).
Proof.
  apply (dfu_update_boots board_malloc ltac:(done) ltac:(done) Update.board_good Update.board_sound 0x1000 0 (Some IBL_VERIFY_IMG_ONLY)
    (waiting Update.running0) 0 (Update.image 0x5A 4) (chunk0 0x5A 4) 4 rom_checks running0_idle chunk0_ok); [|by vm_compute].
  intros m Hm. exact (Update.board_verdict m 0x5A 4 Hm).
Defined.

Lemma dfu_frees_twice_witness :
  let sent := begin_update (zlen (Update.image 0x5A 4)) ++ concat (map send_chunk (chunk0 0x5A 4)) in
  (run (sent ++ [control (DFU_OPCODE_VERIFICATION :: replicate 32 0)]) (waiting Update.running0)).2 = inl DoubleFree /\
  (run (sent ++ [control (DFU_OPCODE_VERIFICATION :: sha256 (Update.image 0x5A 4)); Message (CONN_STATE_CHANGE false)]) (waiting Update.running0)).2 = inl DoubleFree.
Proof.
  apply (dfu_frees_twice board_malloc ltac:(done) Update.board_good Update.board_sound
    (waiting Update.running0) 0 (Update.image 0x5A 4) (chunk0 0x5A 4) (replicate 32 0) running0_idle chunk0_ok); [reflexivity|by vm_compute].
Defined.

(** Image 1 runs: both images are erased. *)
Definition running1 : RawFlash.world board :=
  RawFlash.mk_world (mk_board (flash_of 0xFF 0xFF 0x5A 3) (mk_sys None (Some 0xB) (Some 1) 3)) RawFlash.regs_image1 [] [].

Lemma dfu_empty_checks_erase_witness : exists w', run (begin_update 1 ++ replicate 959 empty_check) (waiting running1) = (w', inr tt) /\
  forall i, RE_IMG_0_OFFSET <= i < RE_IMG_1_END -> rom_mem (dev (flash w')) i = 0xFF.
Proof.
  apply (dfu_empty_checks_erase board_malloc ltac:(done) Update.board_good Update.board_sound (waiting running1) 1 1 959); [|by vm_compute|by vm_compute].
  apply board_idle; [done|by right|done|by right].
Defined.

End DfuProps.
