(* ===== verification/DfuCli.v ===== *)
(** * The firmware update over Bluetooth: the device that sends the image

    [src/gd32_os/MSDK/ble/app/app_dfu_cli.c], with the service of [ble/profile/ota/ble_ota_cli.c]
    below it: on a shell command the device reads the second image of its own flash and sends
    it to the server of [Dfu], in packets, with a checksum after each page of 4096 bytes. *)
From S2P Require Import Prelude Crc Flash RawFlash Boot Dfu.
Open Scope Z_scope.
Open Scope fw_scope.

Module DfuCli.
Export Dfu(Env, stop, Bounds, DoubleFree, sha256_context).

Definition BLE_TRANSMIT_SIZE : Z := 128.

Inductive ble_dfu_cli_state_t :=
| DFU_STATE_CLI_IDLE | DFU_STATE_CLI_MODE_SET | DFU_STATE_CLI_IMAGE_SIZE_GET | DFU_STATE_CLI_DFU_STARTED
| DFU_STATE_CLI_VERIFICATION | DFU_STATE_CLI_REBOOT.
#[export] Instance ble_dfu_cli_state_eq : EqDecision ble_dfu_cli_state_t.
Proof. solve_decision. Defined.

(** [dfu_cli_cmd_cb]: the length of a command, and its timeout. *)
Definition dfu_cmd_len (opcode : Z) : Z := nthb [2; 5; 1; 33; 1; 2; 3] opcode.
Definition dfu_timeout (opcode : Z) : Z :=
  nthb [10000; Dfu.DFU_TIMEOUT_DEFAULT; 180000; Dfu.DFU_TIMEOUT_DEFAULT; Dfu.DFU_TIMEOUT_DEFAULT; Dfu.DFU_TIMEOUT_DEFAULT; Dfu.DFU_TIMEOUT_DEFAULT] opcode.

(** The handles of the server's attributes, named by what they are the handle of. *)
Inductive att := BLE_GATT_SVC_OTA_CONTROL_CHAR | BLE_GATT_SVC_OTA_DATA_CHAR | BLE_GATT_DESC_CLIENT_CHAR_CFG.

(** The functions of the Bluetooth host and of the system, as they are called. *)
Inductive call :=
| ble_gattc_find_char_handle (conn : Z) (char : att) | ble_gattc_find_desc_handle (conn : Z) (char desc : att)
| ble_gattc_write_req (conn : Z) (handle : att) (val : list Z) | ble_gattc_write_cmd (conn : Z) (handle : att) (val : list Z)
| ble_gattc_mtu_update (conn mtu : Z) | ble_gattc_svc_reg | ble_gattc_svc_unreg
| ble_conn_param_update_req (conn intv latency supv_tout : Z)
| sys_timer_init (period : Z) | sys_timer_start_ext (period : Z) | sys_timer_stop.

(** The result of the last of the calls so far. *)
Class Host := answer : list call -> Z.

Record dfu_cli_env_t {E : Env} := mk_env {
  state : ble_dfu_cli_state_t; img_total_size : Z; cur_offset : Z; p_tem_buf : Z; temp_offset : Z; sha_context : sha256_context
}.

Section Client.
Context {E : Env} {A : Host} {D : Type} `{Rom D}.

Definition set_state (s : ble_dfu_cli_state_t) (e : dfu_cli_env_t) : dfu_cli_env_t :=
  mk_env _ s (img_total_size e) (cur_offset e) (p_tem_buf e) (temp_offset e) (sha_context e).
Definition set_total (n : Z) (e : dfu_cli_env_t) : dfu_cli_env_t :=
  mk_env _ (state e) n (cur_offset e) (p_tem_buf e) (temp_offset e) (sha_context e).
Definition set_cur (n : Z) (e : dfu_cli_env_t) : dfu_cli_env_t :=
  mk_env _ (state e) (img_total_size e) n (p_tem_buf e) (temp_offset e) (sha_context e).
Definition set_buf (p : Z) (e : dfu_cli_env_t) : dfu_cli_env_t :=
  mk_env _ (state e) (img_total_size e) (cur_offset e) p (temp_offset e) (sha_context e).
Definition set_temp (n : Z) (e : dfu_cli_env_t) : dfu_cli_env_t :=
  mk_env _ (state e) (img_total_size e) (cur_offset e) (p_tem_buf e) n (sha_context e).
Definition set_context (c : sha256_context) (e : dfu_cli_env_t) : dfu_cli_env_t :=
  mk_env _ (state e) (img_total_size e) (cur_offset e) (p_tem_buf e) (temp_offset e) c.
Definition zero_env : dfu_cli_env_t := mk_env _ DFU_STATE_CLI_IDLE 0 0 0 0 Dfu.zero_context.

(** [heap]: the blocks that are allocated; [callbacks]: whether those of the service are set. *)
Record world := mk_world {
  flash : RawFlash.world D; dfu_cli_env : dfu_cli_env_t; heap : gmap Z (list Z); calls : list call; callbacks : bool
}.
Abbreviation C := (M world stop).

Definition env : C dfu_cli_env_t := let! w := get in ret (dfu_cli_env w).
Definition env_mod (f : dfu_cli_env_t -> dfu_cli_env_t) : C unit :=
  modify (fun w => mk_world (flash w) (f (dfu_cli_env w)) (heap w) (calls w) (callbacks w)).
Definition set_flash (f : RawFlash.world D) : C unit := modify (fun w => mk_world f (dfu_cli_env w) (heap w) (calls w) (callbacks w)).
Definition set_heap (h : gmap Z (list Z)) : C unit := modify (fun w => mk_world (flash w) (dfu_cli_env w) h (calls w) (callbacks w)).
Definition do (k : call) : C Z := fun w =>
  let l := calls w ++ [k] in (mk_world (flash w) (dfu_cli_env w) (heap w) l (callbacks w), inr (answer l)).

Definition malloc (n : Z) : C Z :=
  let! w := get in
  let p := Dfu.sys_malloc (heap w) n in
  (if p =? 0 then ret tt else set_heap (<[p := map Dfu.fill (seqZ 0 n)]> (heap w))) ;;; ret p.
Definition sys_mfree (p : Z) : C unit :=
  let! w := get in
  if p =? 0 then ret tt
  else match heap w !! p with Some _ => set_heap (delete p (heap w)) | None => err DoubleFree end.

(** The first [n] bytes of a block. *)
Definition load (p n : Z) : C (list Z) :=
  let! w := get in
  match heap w !! p with
  | Some b => if n <=? zlen b then ret (slice 0 n b) else err Bounds
  | None => err Bounds
  end.
Definition store (p : Z) (d : list Z) : C unit :=
  let! w := get in
  match heap w !! p with
  | Some b => if zlen d <=? zlen b then set_heap (<[p := splice 0 d b]> (heap w)) else err Bounds
  | None => err Bounds
  end.
Definition byte (l : list Z) (i : Z) : C Z := if i <? zlen l then ret (nthb l i) else err Bounds.

(** [raw_flash_read]: the result, and the bytes that were stored in the buffer. *)
Definition flash_read (off n : Z) : C (Z * list Z) :=
  let! w := get in
  let '(r, d, f) := RawFlash.raw_flash_read (flash w) off n in set_flash f ;;; ret (r, take (Z.to_nat n) d).
(** Into a local array of zeros. *)
Definition flash_read_data (off n : Z) : C (Z * list Z) :=
  let! r := flash_read off n in ret (r.1, splice 0 r.2 (replicate (Z.to_nat BLE_TRANSMIT_SIZE) 0)).
(** Into a block; the driver refuses a null pointer. *)
Definition flash_read_block (p off n : Z) : C Z :=
  if p =? 0 then ret (-1) else let! r := flash_read off n in store p r.2 ;;; ret r.1.

(** ** The service *)

Definition ble_ota_cli_write_cmd (conn_idx : Z) (buf : list Z) : C Z :=
  let! status := do (ble_gattc_find_char_handle conn_idx BLE_GATT_SVC_OTA_CONTROL_CHAR) in
  if status =? 0 then do (ble_gattc_write_req conn_idx BLE_GATT_SVC_OTA_CONTROL_CHAR buf) else ret status.
Definition ble_ota_cli_write_cmd_cccd (conn_idx : Z) : C Z :=
  let! status := do (ble_gattc_find_desc_handle conn_idx BLE_GATT_SVC_OTA_CONTROL_CHAR BLE_GATT_DESC_CLIENT_CHAR_CFG) in
  if status =? 0 then do (ble_gattc_write_req conn_idx BLE_GATT_DESC_CLIENT_CHAR_CFG [1; 0]) else ret status.
Definition ble_ota_cli_write_data (conn_idx : Z) (buf : list Z) : C Z :=
  let! status := do (ble_gattc_find_char_handle conn_idx BLE_GATT_SVC_OTA_DATA_CHAR) in
  if status =? 0 then do (ble_gattc_write_cmd conn_idx BLE_GATT_SVC_OTA_DATA_CHAR buf) else ret status.

(** ** The client *)

Definition app_dfu_cli_reset : C unit :=
  let! e := env in
  sys_mfree (p_tem_buf e) ;;;
  env_mod (fun _ => zero_env) ;;;
  do sys_timer_stop ;;; ret tt.

Definition app_dfu_cli_state_set (s : ble_dfu_cli_state_t) : C unit := env_mod (set_state s).
Definition app_dfu_cli_state_check (s : ble_dfu_cli_state_t) : C bool := let! e := env in ret (bool_decide (state e = s)).

(** The first bytes of the array [cmd], as many as the command has. *)
Definition sized (opcode : Z) (cmd : list Z) : list Z := slice 0 (dfu_cmd_len opcode) cmd.

Definition app_dfu_cli_send_verification_cmd : C unit :=
  let! e := env in
  let '(digest, c) := Dfu.mbedtls_sha256_finish (sha_context e) in
  env_mod (set_context (Dfu.mbedtls_sha256_free c)) ;;;
  ble_ota_cli_write_cmd 0 (sized Dfu.DFU_OPCODE_VERIFICATION (Dfu.DFU_OPCODE_VERIFICATION :: digest)) ;;; ret tt.

Definition start_timer (opcode : Z) : C unit := do (sys_timer_start_ext (dfu_timeout opcode)) ;;; ret tt.

(** The next packet, of the full size; the result of the read is not looked at. *)
Definition send_packet : C unit :=
  let! e := env in
  let! r := flash_read_data (u32 (RE_IMG_1_OFFSET + temp_offset e)) BLE_TRANSMIT_SIZE in
  ble_ota_cli_write_data 0 r.2 ;;;
  env_mod (fun e => set_temp (u32 (temp_offset e + BLE_TRANSMIT_SIZE)) e).

(** The end of a page or of the image. *)
Definition page_end (e : dfu_cli_env_t) : bool :=
  (temp_offset e mod Dfu.FLASH_WRITE_SIZE =? 0) || (temp_offset e =? img_total_size e).
Definition image_length (e : dfu_cli_env_t) : Z :=
  if temp_offset e mod Dfu.FLASH_WRITE_SIZE =? 0 then Dfu.FLASH_WRITE_SIZE else temp_offset e mod Dfu.FLASH_WRITE_SIZE.

(** What is done about an answer: a command is sent, nothing is, or the client is reset. *)
Inductive verdict := Send (cmd : list Z) | Nothing | Error.

Definition rsp_mode : C verdict :=
  let! ok := app_dfu_cli_state_check DFU_STATE_CLI_MODE_SET in
  if negb ok then ret Error
  else
    let! e := env in
    start_timer Dfu.DFU_OPCODE_MODE ;;;
    app_dfu_cli_state_set DFU_STATE_CLI_IMAGE_SIZE_GET ;;;
    ret (Send (sized Dfu.DFU_OPCODE_IMAGE_SIZE (Dfu.DFU_OPCODE_IMAGE_SIZE :: le_enc 4 (img_total_size e)))).

Definition rsp_image_size : C verdict :=
  let! ok := app_dfu_cli_state_check DFU_STATE_CLI_IMAGE_SIZE_GET in
  if negb ok then ret Error
  else
    let! e := env in
    if img_total_size e =? 0 then ret Error
    else
      let! p := malloc Dfu.FLASH_WRITE_SIZE in
      env_mod (set_buf p) ;;;
      start_timer Dfu.DFU_OPCODE_IMAGE_SIZE ;;;
      app_dfu_cli_state_set DFU_STATE_CLI_DFU_STARTED ;;;
      ret (Send (sized Dfu.DFU_OPCODE_START_DFU [Dfu.DFU_OPCODE_START_DFU])).

Definition rsp_start_dfu : C verdict :=
  let! ok := app_dfu_cli_state_check DFU_STATE_CLI_DFU_STARTED in
  if negb ok then ret Error
  else
    send_packet ;;;
    start_timer Dfu.DFU_OPCODE_START_DFU ;;;
    app_dfu_cli_state_set DFU_STATE_CLI_VERIFICATION ;;;
    ret Nothing.

Definition rsp_verification : C verdict :=
  let! ok := app_dfu_cli_state_check DFU_STATE_CLI_VERIFICATION in
  if negb ok then ret Error
  else
    start_timer Dfu.DFU_OPCODE_VERIFICATION ;;;
    app_dfu_cli_state_set DFU_STATE_CLI_REBOOT ;;;
    ret (Send (sized Dfu.DFU_OPCODE_REBOOT [Dfu.DFU_OPCODE_REBOOT])).

Definition rsp_reboot : C verdict :=
  let! ok := app_dfu_cli_state_check DFU_STATE_CLI_REBOOT in
  if negb ok then ret Error
  else app_dfu_cli_reset ;;; start_timer Dfu.DFU_OPCODE_REBOOT ;;; ret Nothing.

Definition rsp_reset : C verdict := app_dfu_cli_reset ;;; ret Nothing.

(** A page that was taken is digested, and the next page begun or the digest sent; a page that
    was not is begun again. *)
Definition rsp_crc_check (result : Z) : C verdict :=
  let! ok := app_dfu_cli_state_check DFU_STATE_CLI_VERIFICATION in
  if negb ok then ret Error
  else if result =? 0 then
    let! e := env in
    if page_end e then
      let! d := load (p_tem_buf e) (image_length e) in
      env_mod (fun e => set_context (Dfu.mbedtls_sha256_update (sha_context e) d) e) ;;;
      env_mod (fun e => set_cur (temp_offset e) e) ;;;
      let! e := env in
      (if cur_offset e =? img_total_size e then app_dfu_cli_send_verification_cmd else send_packet) ;;;
      ret Nothing
    else ret Nothing
  else
    env_mod (fun e => set_temp (cur_offset e) e) ;;; send_packet ;;; ret Nothing.

Definition answered (opcode result : Z) : C verdict :=
  if opcode =? Dfu.DFU_OPCODE_MODE then rsp_mode
  else if opcode =? Dfu.DFU_OPCODE_IMAGE_SIZE then rsp_image_size
  else if opcode =? Dfu.DFU_OPCODE_START_DFU then rsp_start_dfu
  else if opcode =? Dfu.DFU_OPCODE_VERIFICATION then rsp_verification
  else if opcode =? Dfu.DFU_OPCODE_REBOOT then rsp_reboot
  else if opcode =? Dfu.DFU_OPCODE_RESET then rsp_reset
  else rsp_crc_check result.

Definition app_dfu_cli_control_cb (p_data : list Z) : C unit :=
  let! opcode := byte p_data 0 in
  let! result := byte p_data 1 in
  do sys_timer_stop ;;;
  let! v :=
    if Dfu.DFU_OPCODE_MAX <=? opcode then ret Error
    else if negb (opcode =? Dfu.DFU_OPCODE_RESET) && negb (opcode =? Dfu.DFU_OPCODE_CRC_CHECK) && negb (result =? Dfu.DFU_ERROR_NO_ERROR) then ret Error
    else answered opcode result in
  match v with
  | Send cmd => ble_ota_cli_write_cmd 0 cmd ;;; ret tt
  | Nothing => ret tt
  | Error => app_dfu_cli_reset
  end.

Definition app_dfu_cli_data_tx_cb (status : Z) : C unit :=
  let! ok := app_dfu_cli_state_check DFU_STATE_CLI_VERIFICATION in
  if negb ok then ret tt
  else
    let! e := env in
    let left := u32 (img_total_size e - temp_offset e) in
    let len := if BLE_TRANSMIT_SIZE <? left then BLE_TRANSMIT_SIZE else left in
    if (0 <? len) && negb (page_end e) then
      let! r := flash_read_data (u32 (RE_IMG_1_OFFSET + temp_offset e)) len in
      if r.1 <? 0 then app_dfu_cli_reset
      else
        ble_ota_cli_write_data 0 (slice 0 len r.2) ;;;
        env_mod (fun e => set_temp (u32 (temp_offset e + len)) e) ;;;
        let! e := env in
        if page_end e then
          let n := image_length e in
          let! r := flash_read_block (p_tem_buf e) (u32 (RE_IMG_1_OFFSET + temp_offset e - n)) n in
          if r <? 0 then app_dfu_cli_reset
          else
            let! d := load (p_tem_buf e) n in
            ble_ota_cli_write_cmd 0 (sized Dfu.DFU_OPCODE_CRC_CHECK (Dfu.DFU_OPCODE_CRC_CHECK :: le_enc 4 (Crc.crc16 d 0))) ;;; ret tt
        else ret tt
    else ret tt.

Definition app_dfu_cli_disconn_cb : C unit := app_dfu_cli_reset.

Definition app_dfu_cli_ota_timer_timeout_cb : C unit :=
  ble_ota_cli_write_cmd 0 [Dfu.DFU_OPCODE_RESET; Dfu.DFU_ERROR_TIMEOUT] ;;; app_dfu_cli_reset.

Definition app_ble_dfu_start (conidx img_size : Z) : C unit :=
  let! ok := app_dfu_cli_state_check DFU_STATE_CLI_IDLE in
  if negb ok then ret tt
  else
    app_dfu_cli_reset ;;;
    env_mod (set_total img_size) ;;;
    let! r := ble_ota_cli_write_cmd conidx (sized Dfu.DFU_OPCODE_MODE [Dfu.DFU_OPCODE_MODE; Dfu.DFU_MODE_BLE]) in
    if negb (r =? 0) then app_dfu_cli_reset
    else
      let! r := do (ble_conn_param_update_req conidx Dfu.BLE_CONN_OTA_INTV Dfu.BLE_CONN_OTA_LATENCY Dfu.BLE_CONN_OTA_SUPV_TOUT) in
      if negb (r =? 0) then app_dfu_cli_reset
      else
        app_dfu_cli_state_set DFU_STATE_CLI_MODE_SET ;;;
        env_mod (fun e => set_context (Dfu.mbedtls_sha256_starts (Dfu.mbedtls_sha256_init (sha_context e))) e).

(** ** What the host tells the service *)

Inductive gattc_msg :=
| CONN_STATE_CHANGE (conn : Z) (connected : bool) | SVC_DISC_DONE_RSP (conn : Z)
| WRITE_RSP (char : att) (status : Z) | NTF_IND_RCV (char : att) (val : list Z).

Definition ble_ota_cli_cb (m : gattc_msg) : C unit :=
  let! w := get in
  let call (f : C unit) : C unit := if callbacks w then f else ret tt in
  match m with
  | CONN_STATE_CHANGE conn connected => if (connected : bool) then do (ble_gattc_mtu_update conn 0) ;;; ret tt else call app_dfu_cli_disconn_cb
  | SVC_DISC_DONE_RSP conn => ble_ota_cli_write_cmd_cccd conn ;;; ret tt
  | WRITE_RSP char status =>
      match char with BLE_GATT_SVC_OTA_DATA_CHAR => call (app_dfu_cli_data_tx_cb status) | _ => ret tt end
  | NTF_IND_RCV char val =>
      match char with BLE_GATT_SVC_OTA_CONTROL_CHAR => call (app_dfu_cli_control_cb val) | _ => ret tt end
  end.

Definition set_callbacks (b : bool) : C unit := modify (fun w => mk_world (flash w) (dfu_cli_env w) (heap w) (calls w) b).
Definition ble_ota_cli_init : C Z := set_callbacks true ;;; do ble_gattc_svc_reg.
Definition ble_ota_cli_deinit : C Z := set_callbacks false ;;; do ble_gattc_svc_unreg.

Definition app_dfu_cli_init : C unit :=
  ble_ota_cli_init ;;; do (sys_timer_init Dfu.DFU_TIMEOUT_DEFAULT) ;;; app_dfu_cli_reset.
Definition app_dfu_cli_deinit : C unit := app_dfu_cli_reset ;;; ble_ota_cli_deinit ;;; ret tt.

End Client.
Arguments world {E} D.
End DfuCli.
