(* ===== verification/DfuCliSpec.v ===== *)
(** * The firmware update over Bluetooth: what the sending device does

    What the client of [DfuCli] sends on each message of its host, when the answers are those
    of a server that takes the image, and what it holds afterwards. *)
From S2P Require Import Prelude Crc Flash RawFlash Boot BootSpec OtaSpec Update Dfu DfuSpec DfuCli.
Open Scope Z_scope.
Open Scope fw_scope.

Module DfuCliSpec.
Import BootSpec DfuCli.
Import DfuSpec(wp, wp_mono, wp_seq, wp_bind, wp_assoc, wp_done, wp_err, wp_bnd_ret, wp_world, mem, ShaLaws, sha256, sha256_len, sha256_ok, absorbed, absorbed_start, absorbed_update, absorbed_finish, slot_facts).
Abbreviation PAGE := Dfu.FLASH_WRITE_SIZE.

(** ** Rules *)

Section Rules.
Context {E : Env} {A : Host} {D : Type} {HRom : Rom D}.
Abbreviation W := (world D).
Abbreviation C := (M W stop).

Definition upd_env (g : dfu_cli_env_t -> dfu_cli_env_t) (w : W) : W := mk_world (flash w) (g (dfu_cli_env w)) (heap w) (calls w) (callbacks w).
Definition upd_flash (f : RawFlash.world D) (w : W) : W := mk_world f (dfu_cli_env w) (heap w) (calls w) (callbacks w).
Definition upd_heap (h : gmap Z (list Z)) (w : W) : W := mk_world (flash w) (dfu_cli_env w) h (calls w) (callbacks w).
Definition add_call (k : call) (w : W) : W := mk_world (flash w) (dfu_cli_env w) (heap w) (calls w ++ [k]) (callbacks w).

Context (F : stop -> W -> Prop).
Implicit Types (w : W).

Section Heads.
Context {B : Type}.
Implicit Types (Q : B -> W -> Prop).
Lemma cwp_env (f : dfu_cli_env_t -> C B) Q w : wp F (bnd env f) Q w = wp F (f (dfu_cli_env w)) Q w.
Proof. done. Qed.
Lemma cwp_env_mod g (f : unit -> C B) Q w : wp F (bnd (env_mod g) f) Q w = wp F (f tt) Q (upd_env g w).
Proof. done. Qed.
Lemma cwp_do k (f : Z -> C B) Q w : wp F (bnd (do k) f) Q w = wp F (f (answer (calls w ++ [k]))) Q (add_call k w).
Proof. done. Qed.
Lemma cwp_check s (f : bool -> C B) Q w :
  wp F (bnd (app_dfu_cli_state_check s) f) Q w = wp F (f (bool_decide (state (dfu_cli_env w) = s))) Q w.
Proof. done. Qed.
Lemma cwp_state_set s (f : unit -> C B) Q w : wp F (bnd (app_dfu_cli_state_set s) f) Q w = wp F (f tt) Q (upd_env (set_state s) w).
Proof. done. Qed.
Lemma cwp_start_timer op (f : unit -> C B) Q w : wp F (bnd (start_timer op) f) Q w = wp F (f tt) Q (add_call (sys_timer_start_ext (dfu_timeout op)) w).
Proof. done. Qed.
Lemma cwp_set_flash f0 (f : unit -> C B) Q w : wp F (bnd (set_flash f0) f) Q w = wp F (f tt) Q (upd_flash f0 w).
Proof. done. Qed.
Lemma cwp_set_heap h (f : unit -> C B) Q w : wp F (bnd (set_heap h) f) Q w = wp F (f tt) Q (upd_heap h w).
Proof. done. Qed.
Lemma cwp_byte l i (f : Z -> C B) Q w : i < zlen l -> wp F (bnd (byte l i) f) Q w = wp F (f (nthb l i)) Q w.
Proof. intros Hi. unfold byte. by rewrite (proj2 (Z.ltb_lt _ _) Hi). Qed.
Lemma cwp_load p n b (f : list Z -> C B) Q w : heap w !! p = Some b -> n <= zlen b -> wp F (bnd (load p n) f) Q w = wp F (f (slice 0 n b)) Q w.
Proof. intros Hp Hn. unfold load, wp. rewrite bnd_assoc, bnd_get, Hp. by rewrite (proj2 (Z.leb_le _ _) Hn). Qed.
Lemma cwp_store p d b (f : unit -> C B) Q w : heap w !! p = Some b -> zlen d <= zlen b ->
  wp F (bnd (store p d) f) Q w = wp F (f tt) Q (upd_heap (<[p := splice 0 d b]> (heap w)) w).
Proof. intros Hp Hn. unfold store, wp. rewrite bnd_assoc, bnd_get, Hp. by rewrite (proj2 (Z.leb_le _ _) Hn). Qed.
End Heads.

Lemma cwp_last_env_mod g (Q : unit -> W -> Prop) w : wp F (env_mod g) Q w = Q tt (upd_env g w).
Proof. done. Qed.
End Rules.

Ltac cwp_step :=
  rewrite ?wp_assoc, ?wp_bnd_ret, ?wp_world, ?cwp_env, ?cwp_env_mod, ?cwp_do, ?cwp_check, ?cwp_state_set, ?cwp_start_timer, ?cwp_set_flash, ?cwp_set_heap.
Ltac cwp_steps := repeat (progress cwp_step).

(** ** What the client sends *)

Definition written (k : call) : option (att * list Z) :=
  match k with ble_gattc_write_req _ h v | ble_gattc_write_cmd _ h v => Some (h, v) | _ => None end.
(** After the calls [l], these values have been written to the server's attributes. *)
Definition wrote (vs : list (att * list Z)) (l l' : list call) : Prop := exists ks, l' = l ++ ks /\ omap written ks = vs.

Lemma wrote_nothing l : wrote [] l l.
Proof. exists []. by rewrite app_nil_r. Qed.
Lemma wrote_other vs l l' k : wrote vs l l' -> written k = None -> wrote vs l (l' ++ [k]).
Proof. intros (ks & -> & <-) Hk. exists (ks ++ [k]). rewrite app_assoc, omap_app. cbn. by rewrite Hk, app_nil_r. Qed.
Lemma wrote_write vs l l' k v : wrote vs l l' -> written k = Some v -> wrote (vs ++ [v]) l (l' ++ [k]).
Proof. intros (ks & -> & <-) Hk. exists (ks ++ [k]). rewrite app_assoc, omap_app. cbn. by rewrite Hk. Qed.

Abbreviation ctl := BLE_GATT_SVC_OTA_CONTROL_CHAR.
Abbreviation dat := BLE_GATT_SVC_OTA_DATA_CHAR.

(** An answer of the server, the report that a packet was sent. *)
Definition answer_of (op result : Z) : gattc_msg := NTF_IND_RCV ctl [op; result].

(** The service of the server was discovered, and the host takes what is written. *)
Class HostLaws (A : Host) : Prop := {
  found l conn c : answer (l ++ [ble_gattc_find_char_handle conn c]) = 0;
  taken l conn c v : answer (l ++ [ble_gattc_write_req conn c v]) = 0;
  update_works l conn : answer (l ++ [ble_conn_param_update_req conn Dfu.BLE_CONN_OTA_INTV Dfu.BLE_CONN_OTA_LATENCY Dfu.BLE_CONN_OTA_SUPV_TOUT]) = 0
}.

Section Run.
Context {E : Env} {S : ShaLaws E} {A : Host} {L : HostLaws A} {D : Type} {HRom : Rom D} {HLaws : RomLaws D}.
Context (malloc_works : forall h n, Dfu.sys_malloc h n <> 0).
Implicit Types (w : world D).

(** The image in the second slot; its last page is full, or is longer than a packet. *)
Context (img : list Z) (Hsize : 0 < zlen img <= slot_size).
Context (Htail : zlen img mod PAGE = 0 \/ BLE_TRANSMIT_SIZE < zlen img mod PAGE).
Abbreviation size := (zlen img).

Context (ends : stop -> world D -> Prop).

Record has_image w : Prop := {
  hi_regs : RawFlash.boot_regs (RawFlash.fmc (flash w));
  hi_image : mem_slice (mem (flash w)) RE_IMG_1_OFFSET size = img;
  hi_callbacks : callbacks w = true
}.

(** The first commands have been sent. *)
Record asked (st : ble_dfu_cli_state_t) w : Prop := {
  as_env : exists c, dfu_cli_env w = mk_env _ st size 0 0 0 c /\ absorbed c [];
  as_image : has_image w
}.

Definition at_end (t : Z) : bool := (t mod PAGE =? 0) || (t =? size).

(** [t] bytes of the image have been sent, of which the server has taken [cur]. *)
Record sends (st : ble_dfu_cli_state_t) (t cur : Z) w : Prop := {
  se_state : state (dfu_cli_env w) = st;
  se_total : img_total_size (dfu_cli_env w) = size;
  se_temp : temp_offset (dfu_cli_env w) = t;
  se_cur : cur_offset (dfu_cli_env w) = cur;
  se_buf : p_tem_buf (dfu_cli_env w) <> 0 /\ exists b, heap w !! p_tem_buf (dfu_cli_env w) = Some b /\ zlen b = PAGE /\
    (at_end t = true -> cur < t -> slice 0 (t - cur) b = slice cur (t - cur) img);
  se_sha : cur < size -> absorbed (sha_context (dfu_cli_env w)) (slice 0 cur img);
  se_image : has_image w
}.

(** ** Reading the image *)

Lemma slot1_zone : RawFlash.zone RE_IMG_1_OFFSET (RE_IMG_1_OFFSET + slot_size) /\ 0 <= RE_IMG_1_OFFSET /\ RE_IMG_1_OFFSET + slot_size < 2 ^ 31.
Proof. destruct (slot_facts 1 ltac:(by right)) as (H1 & _ & _ & H4). split; [exact H4|]. by vm_compute. Qed.

Lemma cli_read_ok w t n {B} (f : Z * list Z -> M (world D) stop B) (Q : B -> world D -> Prop) : has_image w -> 0 <= t -> 0 < n -> t + n <= size ->
  wp ends (f (0, slice t n img)) Q w -> wp ends (bnd (flash_read (u32 (RE_IMG_1_OFFSET + t)) n) f) Q w.
Proof.
  intros [Hr Hi _] Ht Hn Hle HQ. destruct slot1_zone as (Hz & H0 & H1). unfold flash_read. cwp_steps. rewrite wrap32_small by lia.
  rewrite (RawFlash.read_physical (flash w) RE_IMG_1_OFFSET (RE_IMG_1_OFFSET + slot_size)) by (done || lia). cwp_steps.
  assert (upd_flash (flash w) w = w) as -> by (by destruct w).
  change (mem_slice (rom_mem (RawFlash.dev (flash w)))) with (mem_slice (mem (flash w))). rewrite <- (slice_mem_slice _ _ size), Hi by lia.
  rewrite take_ge; [done|]. apply Nat2Z.inj_le. change (Z.of_nat (length (slice t n img))) with (zlen (slice t n img)). rewrite zlen_slice by lia. lia.
Qed.

Lemma cli_read_data_ok w t n {B} (f : Z * list Z -> M (world D) stop B) (Q : B -> world D -> Prop) : has_image w -> 0 <= t -> 0 < n <= BLE_TRANSMIT_SIZE -> t + n <= size ->
  (forall d, zlen d = BLE_TRANSMIT_SIZE -> slice 0 n d = slice t n img -> wp ends (f (0, d)) Q w) -> wp ends (bnd (flash_read_data (u32 (RE_IMG_1_OFFSET + t)) n) f) Q w.
Proof.
  intros Hi Ht Hn Hle HQ. unfold flash_read_data. cwp_steps. apply cli_read_ok; [done|lia..|]. cwp_steps. cbn [fst snd].
  assert (zlen (slice t n img) = n) as Hz by (rewrite zlen_slice; lia).
  assert (zlen (replicate (Z.to_nat BLE_TRANSMIT_SIZE) 0) = BLE_TRANSMIT_SIZE) as Hr by done. apply HQ.
  - by rewrite zlen_splice, Hr by lia.
  - rewrite <- Hz at 1. apply slice_splice_same; lia.
Qed.

(** ** Writing to the server *)

Lemma cwp_write_cmd conn v {B} (f : Z -> M (world D) stop B) Q w :
  (forall w', flash w' = flash w -> dfu_cli_env w' = dfu_cli_env w -> heap w' = heap w -> callbacks w' = callbacks w -> wrote [(ctl, v)] (calls w) (calls w') ->
    wp ends (f 0) Q w') -> wp ends (bnd (ble_ota_cli_write_cmd conn v) f) Q w.
Proof.
  intros HQ. unfold ble_ota_cli_write_cmd. cwp_steps. rewrite found. cbn [Z.eqb]. cwp_steps. rewrite taken. apply HQ; try done.
  apply (wrote_write []); [|done]. by apply wrote_other; [apply wrote_nothing|].
Qed.

Lemma cwp_write_data conn v {B} (f : Z -> M (world D) stop B) Q w :
  (forall r w', flash w' = flash w -> dfu_cli_env w' = dfu_cli_env w -> heap w' = heap w -> callbacks w' = callbacks w -> wrote [(dat, v)] (calls w) (calls w') ->
    wp ends (f r) Q w') -> wp ends (bnd (ble_ota_cli_write_data conn v) f) Q w.
Proof.
  intros HQ. unfold ble_ota_cli_write_data. cwp_steps. rewrite found. cbn [Z.eqb]. cwp_steps. apply HQ; try done.
  apply (wrote_write []); [|done]. by apply wrote_other; [apply wrote_nothing|].
Qed.

Lemma wrote_trans vs us l l' l'' : wrote vs l l' -> wrote us l' l'' -> wrote (vs ++ us) l l''.
Proof. intros (k1 & -> & <-) (k2 & -> & <-). exists (k1 ++ k2). by rewrite app_assoc, omap_app. Qed.

(** An answer without an error, carried out. *)
Lemma wp_answered op (P : world D -> Prop) vs w : callbacks w = true -> 0 <= op < Dfu.DFU_OPCODE_MAX ->
  (forall w1, flash w1 = flash w -> dfu_cli_env w1 = dfu_cli_env w -> heap w1 = heap w -> callbacks w1 = callbacks w ->
    wp ends (answered op 0) (fun v w' => match v with
      | Send cmd => vs = [(ctl, cmd)] /\ wrote [] (calls w1) (calls w') /\
          (forall w2, flash w2 = flash w' -> dfu_cli_env w2 = dfu_cli_env w' -> heap w2 = heap w' -> callbacks w2 = callbacks w' -> P w2)
      | Nothing => P w' /\ wrote vs (calls w1) (calls w')
      | Error => False end) w1) ->
  wp ends (ble_ota_cli_cb (answer_of op 0)) (fun _ w' => P w' /\ wrote vs (calls w) (calls w')) w.
Proof.
  intros Hc Ho Hm. unfold ble_ota_cli_cb. cwp_steps. rewrite Hc. cbn [answer_of]. unfold app_dfu_cli_control_cb. rewrite !cwp_byte by done.
  change (nthb [op; 0] 0) with op. change (nthb [op; 0] 1) with 0. cwp_steps. case_bool (Dfu.DFU_OPCODE_MAX <=? op); [lia|].
  change (0 =? Dfu.DFU_ERROR_NO_ERROR) with true. cbn [negb]. rewrite andb_false_r.
  assert (wrote [] (calls w) (calls (add_call sys_timer_stop w))) as H0 by (apply wrote_other; [apply wrote_nothing|done]).
  eapply wp_bind; [by apply (Hm (add_call sys_timer_stop w))|]. intros [cmd| |] w' H; [|by destruct H as [H1 H2]; split; [|by eapply (wrote_trans [])]|done].
  destruct H as (-> & Hw & HP). apply cwp_write_cmd. intros w2 H1 H2 H3 H4 H5. rewrite wp_done. split; [by apply HP|].
  by eapply (wrote_trans []), (wrote_trans []).
Qed.

(** ** The pages *)

(** [t] is in the page that begins at [cur], past its first packet. *)
Definition in_page (t cur : Z) : Prop := (PAGE | cur) /\ 0 <= cur < t /\ t <= cur + PAGE /\ t <= size /\ ((BLE_TRANSMIT_SIZE | t) \/ t = size).

Ltac pages := unfold in_page, at_end, Dfu.FLASH_WRITE_SIZE, BLE_TRANSMIT_SIZE in *.

Lemma at_end_iff t cur : in_page t cur -> at_end t = true <-> t = cur + PAGE \/ t = size.
Proof.
  pages. intros ((k & ->) & H1 & H2 & H3 & _). rewrite orb_true_iff, !Z.eqb_eq. split; [|by intros [->| ->]; [left; apply Z.mod_divide; [done|]; exists (k + 1); lia|right]].
  intros [Hm| ->]; [|by right]. apply Z.mod_divide in Hm as [j ->]; [left; lia|done].
Qed.

Lemma length_is t cur : in_page t cur -> at_end t = true -> (if t mod PAGE =? 0 then PAGE else t mod PAGE) = t - cur.
Proof.
  intros Hp He. pose proof Hp as ((k & ->) & H1 & H2 & _). apply (at_end_iff _ _ Hp) in He. pages. destruct (Z.eqb_spec (t mod 4096) 0) as [Hm|Hm]; [apply Z.mod_divide in Hm as [j ->]; [lia|done]|].
  replace t with (t - k * 4096 + k * 4096) at 1 by lia. rewrite Z.mod_add by done. apply Z.mod_small.
  assert (t <> k * 4096 + 4096); [|lia]. intros ->. apply Hm, Z.mod_divide; [done|]. exists (k + 1). lia.
Qed.

(** The next packet, and that it stays in the page. *)
Definition packet_len (t : Z) : Z := Z.min BLE_TRANSMIT_SIZE (size - t).

Lemma packet_in_page t cur : in_page t cur -> at_end t = false -> 0 < packet_len t <= BLE_TRANSMIT_SIZE /\ in_page (t + packet_len t) cur.
Proof.
  intros Hp He. assert (t <> cur + PAGE /\ t <> size) as [N1 N2].
  { split; intros Ht; assert (at_end t = true) as Hc by (apply (at_end_iff _ _ Hp); tauto); by rewrite Hc in He. }
  destruct Hp as ((k & ->) & H1 & H2 & H3 & [(j & ->)|]); [|done]. unfold packet_len. pages. split; [lia|]. split; [by exists k|]. split; [lia|]. split; [lia|]. split; [lia|].
  destruct (Z.le_gt_cases 128 (size - j * 128)); [left; exists (j + 1); lia|right; lia].
Qed.

(** After a page, a full packet of the next one. *)
Lemma next_page t : (PAGE | t) -> 0 <= t < size -> t + BLE_TRANSMIT_SIZE < size /\ in_page (t + BLE_TRANSMIT_SIZE) t /\ at_end (t + BLE_TRANSMIT_SIZE) = false.
Proof.
  intros [k ->] Ht. assert (k * PAGE + BLE_TRANSMIT_SIZE < size) as Hlt.
  { pages. destruct (Z.le_gt_cases (k * 4096 + 4096) size); [lia|]. replace size with (size - k * 4096 + k * 4096) in Htail by lia.
    rewrite Z.mod_add, Z.mod_small in Htail by lia. lia. }
  assert (in_page (k * PAGE + BLE_TRANSMIT_SIZE) (k * PAGE)) as Hp.
  { pages. split; [by exists k|]. split; [lia|]. split; [lia|]. split; [lia|]. left. exists (k * 32 + 1). lia. }
  split; [done|]. split; [done|]. destruct (at_end _) eqn:He; [|done]. apply (at_end_iff _ _ Hp) in He. pages. lia.
Qed.

(** ** The steps of an update *)

Definition idle w : Prop := dfu_cli_env w = zero_env /\ has_image w.

Lemma has_image_same w w' : has_image w -> flash w' = flash w -> callbacks w' = callbacks w -> has_image w'.
Proof. intros [H1 H2 H3] Hf Hc. split; by rewrite ?Hf, ?Hc. Qed.
Lemma asked_same st w w' : asked st w -> flash w' = flash w -> dfu_cli_env w' = dfu_cli_env w -> callbacks w' = callbacks w -> asked st w'.
Proof. intros [H1 H2] Hf He Hc. split; [by rewrite He|by eapply has_image_same]. Qed.
Lemma sends_same st t cur w w' : sends st t cur w -> flash w' = flash w -> dfu_cli_env w' = dfu_cli_env w -> heap w' = heap w -> callbacks w' = callbacks w ->
  sends st t cur w'.
Proof. intros [H1 H2 H3 H4 H5 H6 H7] Hf He Hh Hc. split; rewrite ?He, ?Hh; try done. by eapply has_image_same. Qed.

(** A reset finds the buffer allocated, or none. *)
Lemma reset_ok (P : world D -> Prop) w : p_tem_buf (dfu_cli_env w) = 0 \/ (exists b, heap w !! p_tem_buf (dfu_cli_env w) = Some b) ->
  (forall w', flash w' = flash w -> dfu_cli_env w' = zero_env -> callbacks w' = callbacks w -> wrote [] (calls w) (calls w') -> P w') ->
  wp ends app_dfu_cli_reset (fun _ => P) w.
Proof.
  intros Hp HP. unfold app_dfu_cli_reset, sys_mfree. cwp_steps. destruct (Z.eqb_spec (p_tem_buf (dfu_cli_env w)) 0) as [E0|E0].
  - cwp_steps. apply HP; try done. by apply wrote_other; [apply wrote_nothing|].
  - destruct Hp as [|[b Hb]]; [done|]. rewrite Hb. cwp_steps. apply HP; try done. by apply wrote_other; [apply wrote_nothing|].
Qed.

Lemma sends_buf st t cur w : sends st t cur w -> p_tem_buf (dfu_cli_env w) = 0 \/ (exists b, heap w !! p_tem_buf (dfu_cli_env w) = Some b).
Proof. intros H. destruct (se_buf _ _ _ _ H) as (_ & b & Hb & _). right. by exists b. Qed.

Lemma cli_start conn w : idle w -> wp ends (app_ble_dfu_start conn size)
  (fun _ w' => asked DFU_STATE_CLI_MODE_SET w' /\ wrote [(ctl, [Dfu.DFU_OPCODE_MODE; Dfu.DFU_MODE_BLE])] (calls w) (calls w')) w.
Proof.
  intros [He Hi]. unfold app_ble_dfu_start. cwp_steps. rewrite He. change (bool_decide _) with true. cbn [negb].
  eapply wp_bind; [apply (reset_ok (fun w1 => flash w1 = flash w /\ dfu_cli_env w1 = zero_env /\ callbacks w1 = callbacks w /\ wrote [] (calls w) (calls w1))); [left; by rewrite He|done]|].
  intros _ w1 (F1 & E1 & C1 & W1). cwp_steps. apply cwp_write_cmd. intros w2 F2 E2 _ C2 W2. change (0 =? 0) with true. cbn [negb]. cwp_steps. rewrite update_works.
  change (0 =? 0) with true. cbn [negb]. cwp_steps. rewrite cwp_last_env_mod. split.
  - split; [|by apply (has_image_same w); [|cbn; by rewrite F2|cbn; by rewrite C2]]. cbn [upd_env add_call dfu_cli_env]. rewrite E2. cbn [upd_env dfu_cli_env]. rewrite E1.
    eexists. split; [reflexivity|apply absorbed_start].
  - eapply (wrote_trans []); [exact W1|]. apply wrote_other; [exact W2|done].
Qed.

Lemma mode_answer w : asked DFU_STATE_CLI_MODE_SET w -> wp ends (ble_ota_cli_cb (answer_of Dfu.DFU_OPCODE_MODE 0))
  (fun _ w' => asked DFU_STATE_CLI_IMAGE_SIZE_GET w' /\ wrote [(ctl, Dfu.DFU_OPCODE_IMAGE_SIZE :: le_enc 4 size)] (calls w) (calls w')) w.
Proof.
  intros Hw. apply wp_answered; [apply Hw|done|]. intros w1 F1 E1 H1 C1. destruct (asked_same _ _ w1 Hw) as [(c & He & Ha) Hi]; [done..|].
  change (answered Dfu.DFU_OPCODE_MODE 0) with (rsp_mode (D := D)). unfold rsp_mode. cwp_steps. rewrite He. change (bool_decide _) with true. cbn [negb]. cwp_steps. rewrite wp_done, He.
  split; [done|]. split; [by apply wrote_other; [apply wrote_nothing|]|]. intros w2 F2 E2 _ C2. split; [|by apply (has_image_same w1)].
  exists c. split; [|done]. rewrite E2. cbn. by rewrite He.
Qed.

Lemma size_answer w : asked DFU_STATE_CLI_IMAGE_SIZE_GET w -> wp ends (ble_ota_cli_cb (answer_of Dfu.DFU_OPCODE_IMAGE_SIZE 0))
  (fun _ w' => sends DFU_STATE_CLI_DFU_STARTED 0 0 w' /\ wrote [(ctl, [Dfu.DFU_OPCODE_START_DFU])] (calls w) (calls w')) w.
Proof.
  intros Hw. apply wp_answered; [apply Hw|done|]. intros w1 F1 E1 H1 C1. destruct (asked_same _ _ w1 Hw) as [(c & He & Ha) Hi]; [done..|].
  change (answered Dfu.DFU_OPCODE_IMAGE_SIZE 0) with (rsp_image_size (D := D)). unfold rsp_image_size, malloc. cwp_steps. rewrite He. change (bool_decide _) with true. cbn [negb]. cwp_steps. rewrite He. cbn [img_total_size].
  case_bool (size =? 0); [lia|]. cwp_steps. set (p := Dfu.sys_malloc _ _). assert (p <> 0) as Hp by apply malloc_works. rewrite (proj2 (Z.eqb_neq _ _) Hp). cwp_steps. rewrite wp_done.
  split; [done|]. split; [by apply wrote_other; [apply wrote_nothing|]|]. intros w2 F2 E2 H2 C2. cbn in E2, H2. rewrite He in E2.
  split; rewrite ?E2, ?H2; try done; [|by apply (has_image_same w1)]. split; [done|]. eexists. split; [apply lookup_insert_eq|].
  split; [rewrite zlen_map; unfold zlen; by rewrite length_seqZ|]. lia.
Qed.

(** A packet that does not end a page. *)
Lemma cli_send_packet st t cur w (P : world D -> Prop) : sends st t cur w -> 0 <= t -> t + BLE_TRANSMIT_SIZE <= size -> at_end (t + BLE_TRANSMIT_SIZE) = false ->
  (forall w', sends st (t + BLE_TRANSMIT_SIZE) cur w' -> wrote [(dat, slice t BLE_TRANSMIT_SIZE img)] (calls w) (calls w') -> P w') ->
  wp ends send_packet (fun _ => P) w.
Proof.
  intros Hw Ht Hle Hne HP. pose proof Hw as [H1 H2 H3 H4 (H5 & b & H6 & H7 & _) H8 H9]. assert (slot_size < 2 ^ 31) as Hss by done. unfold send_packet. cwp_steps. rewrite H3.
  apply (cli_read_data_ok _ t BLE_TRANSMIT_SIZE); [done|done|done|done|]. intros d Hd Hs. cbn [snd]. rewrite <- Hd, slice_all, Hd in Hs. subst d.
  apply cwp_write_data. intros r w1 F1 E1 G1 C1 W1. rewrite cwp_last_env_mod. apply HP; [|exact W1]. rewrite <- E1 in *. rewrite <- G1 in H6.
  split; cbn [upd_env dfu_cli_env set_temp state img_total_size cur_offset temp_offset p_tem_buf sha_context heap]; try done.
  - rewrite H3. apply wrap32_small. unfold BLE_TRANSMIT_SIZE in *. lia.
  - split; [done|]. exists b. split; [done|]. split; [done|]. by rewrite Hne.
  - by apply (has_image_same w).
Qed.

Lemma start_answer w : sends DFU_STATE_CLI_DFU_STARTED 0 0 w -> wp ends (ble_ota_cli_cb (answer_of Dfu.DFU_OPCODE_START_DFU 0))
  (fun _ w' => sends DFU_STATE_CLI_VERIFICATION BLE_TRANSMIT_SIZE 0 w' /\ wrote [(dat, slice 0 BLE_TRANSMIT_SIZE img)] (calls w) (calls w')) w.
Proof.
  intros Hw. apply wp_answered; [apply Hw|done|]. intros w1 F1 E1 H1 C1. pose proof (sends_same _ _ _ _ w1 Hw F1 E1 H1 C1) as Hw1. destruct (next_page 0) as (N1 & _ & N3); [by exists 0|lia|].
  change (answered Dfu.DFU_OPCODE_START_DFU 0) with (rsp_start_dfu (D := D)). unfold rsp_start_dfu. cwp_steps. rewrite (se_state _ _ _ _ Hw1). change (bool_decide _) with true. cbn [negb].
  eapply wp_bind; [apply (cli_send_packet _ 0 0 _ (fun w' => sends DFU_STATE_CLI_DFU_STARTED (0 + BLE_TRANSMIT_SIZE) 0 w' /\ wrote [(dat, slice 0 BLE_TRANSMIT_SIZE img)] (calls w1) (calls w')) Hw1); try done; lia|].
  intros _ w2 [H2 W2]. cwp_steps. rewrite wp_done. split; [destruct H2 as [? ? ? ? ? ? []]; by split|]. by apply wrote_other.
Qed.

(** The server has taken a page that is not the last one. *)
Lemma page_answer t cur w : sends DFU_STATE_CLI_VERIFICATION t cur w -> in_page t cur -> at_end t = true -> t < size ->
  wp ends (ble_ota_cli_cb (answer_of Dfu.DFU_OPCODE_CRC_CHECK 0))
    (fun _ w' => sends DFU_STATE_CLI_VERIFICATION (t + BLE_TRANSMIT_SIZE) t w' /\ wrote [(dat, slice t BLE_TRANSMIT_SIZE img)] (calls w) (calls w')) w.
Proof.
  intros Hw Hp He Ht. apply wp_answered; [apply Hw|done|]. intros w1 F1 E1 H1 C1. pose proof (sends_same _ _ _ _ w1 Hw F1 E1 H1 C1) as Hw1.
  pose proof Hw1 as [S1 S2 S3 S4 (S5 & b & S6 & S7 & S8) S9 S10]. pose proof (length_is _ _ Hp He) as Hlen. pose proof Hp as (_ & P1 & P2 & _).
  destruct (next_page t) as (N1 & _ & N3); [apply (at_end_iff _ _ Hp) in He as [->|]; [apply Z.divide_add_r; [apply Hp|by exists 1]|lia]|lia|].
  change (answered Dfu.DFU_OPCODE_CRC_CHECK 0) with (rsp_crc_check (D := D) 0). unfold rsp_crc_check, page_end, image_length. cwp_steps. rewrite S1. change (bool_decide _) with true. cbn [negb].
  change (0 =? 0) with true. cbv iota. cwp_steps. rewrite S2, S3, Hlen. unfold at_end in He. rewrite He. rewrite (cwp_load _ _ _ b) by (done || (rewrite S7; lia)). rewrite S8 by (done || lia).
  cwp_steps. cbn [upd_env dfu_cli_env set_cur set_context cur_offset img_total_size temp_offset]. rewrite S2, S3. case_bool (t =? size); [lia|].
  eapply wp_bind; [apply (cli_send_packet DFU_STATE_CLI_VERIFICATION t t _ (fun w' => sends DFU_STATE_CLI_VERIFICATION (t + BLE_TRANSMIT_SIZE) t w' /\ wrote [(dat, slice t BLE_TRANSMIT_SIZE img)] (calls w1) (calls w'))); [|lia|lia|done|done]
    |intros ? w2 H2; exact H2].
  split; cbn [upd_env dfu_cli_env set_cur set_context state img_total_size cur_offset temp_offset p_tem_buf sha_context heap]; try done.
  - split; [done|]. exists b. split; [done|]. split; [done|]. lia.
  - intros _. replace t with (cur + (t - cur)) at 2 by lia. rewrite slice_app_split by lia. apply absorbed_update, S9. lia.
  - by apply (has_image_same w1).
Qed.

(** The server has taken the last page. *)
Lemma last_answer cur w : sends DFU_STATE_CLI_VERIFICATION size cur w -> in_page size cur ->
  wp ends (ble_ota_cli_cb (answer_of Dfu.DFU_OPCODE_CRC_CHECK 0))
    (fun _ w' => sends DFU_STATE_CLI_VERIFICATION size size w' /\ wrote [(ctl, Dfu.DFU_OPCODE_VERIFICATION :: sha256 img)] (calls w) (calls w')) w.
Proof.
  intros Hw Hp. assert (at_end size = true) as He by (unfold at_end; by rewrite Z.eqb_refl, orb_true_r). apply wp_answered; [apply Hw|done|]. intros w1 F1 E1 H1 C1.
  pose proof (sends_same _ _ _ _ w1 Hw F1 E1 H1 C1) as Hw1. pose proof Hw1 as [S1 S2 S3 S4 (S5 & b & S6 & S7 & S8) S9 S10]. pose proof (length_is _ _ Hp He) as Hlen. pose proof Hp as (_ & P1 & P2 & _).
  change (answered Dfu.DFU_OPCODE_CRC_CHECK 0) with (rsp_crc_check (D := D) 0). unfold rsp_crc_check, page_end, image_length. cwp_steps. rewrite S1. change (bool_decide _) with true. cbn [negb].
  change (0 =? 0) with true. cbv iota. cwp_steps. rewrite S2, S3, Hlen. unfold at_end in He. rewrite He. rewrite (cwp_load _ _ _ b) by (done || (rewrite S7; lia)). rewrite S8 by (done || lia).
  cwp_steps. cbn [upd_env dfu_cli_env set_cur set_context cur_offset img_total_size temp_offset]. rewrite S2, S3, Z.eqb_refl.
  unfold app_dfu_cli_send_verification_cmd. cwp_steps. cbn [upd_env dfu_cli_env set_cur set_context sha_context].
  assert (absorbed (Dfu.mbedtls_sha256_update (sha_context (dfu_cli_env w1)) (slice cur (size - cur) img)) img) as Ha.
  { assert (img = slice 0 cur img ++ slice cur (size - cur) img) as Hcut; [|eapply eq_ind_r with (P := absorbed _); [by apply absorbed_update, S9; lia|exact Hcut]].
    rewrite <- (slice_app_split 0 cur (size - cur)) by lia. replace (cur + (size - cur)) with size by lia. by rewrite slice_all. }
  pose proof (absorbed_finish _ _ Ha) as Hd. destruct (Dfu.mbedtls_sha256_finish _) as [d c]. cbn [fst] in Hd. subst d. cwp_steps.
  assert (sized Dfu.DFU_OPCODE_VERIFICATION (Dfu.DFU_OPCODE_VERIFICATION :: sha256 img) = Dfu.DFU_OPCODE_VERIFICATION :: sha256 img) as ->.
  { unfold sized. pose proof (sha256_len img) as Hl. replace (dfu_cmd_len Dfu.DFU_OPCODE_VERIFICATION) with (zlen (Dfu.DFU_OPCODE_VERIFICATION :: sha256 img)) by (by rewrite zlen_cons, Hl). apply slice_all. }
  apply cwp_write_cmd. intros w2 F2 E2 G2 C2 W2. cwp_steps. rewrite wp_done. split; [|exact W2].
  split; rewrite ?E2, ?G2; cbn [upd_env dfu_cli_env set_cur set_context state img_total_size cur_offset temp_offset p_tem_buf sha_context heap]; try done; [|lia|by apply (has_image_same w1)].
  split; [done|]. exists b. split; [done|]. split; [done|]. lia.
Qed.

Lemma verification_answer t w : sends DFU_STATE_CLI_VERIFICATION t t w -> wp ends (ble_ota_cli_cb (answer_of Dfu.DFU_OPCODE_VERIFICATION 0))
  (fun _ w' => sends DFU_STATE_CLI_REBOOT t t w' /\ wrote [(ctl, [Dfu.DFU_OPCODE_REBOOT])] (calls w) (calls w')) w.
Proof.
  intros Hw. apply wp_answered; [apply Hw|done|]. intros w1 F1 E1 H1 C1. pose proof (sends_same _ _ _ _ w1 Hw F1 E1 H1 C1) as Hw1.
  change (answered Dfu.DFU_OPCODE_VERIFICATION 0) with (rsp_verification (D := D)). unfold rsp_verification. cwp_steps. rewrite (se_state _ _ _ _ Hw1). change (bool_decide _) with true. cbn [negb]. cwp_steps. rewrite wp_done.
  split; [done|]. split; [by apply wrote_other; [apply wrote_nothing|]|]. intros w2 F2 E2 H2 C2. apply (sends_same _ _ _ (upd_env (set_state DFU_STATE_CLI_REBOOT) (add_call (sys_timer_start_ext (dfu_timeout Dfu.DFU_OPCODE_VERIFICATION)) w1))); [|done..].
  by destruct Hw1 as [? ? ? ? ? ? []].
Qed.

Lemma reboot_answer t w : sends DFU_STATE_CLI_REBOOT t t w -> wp ends (ble_ota_cli_cb (answer_of Dfu.DFU_OPCODE_REBOOT 0))
  (fun _ w' => idle w' /\ wrote [] (calls w) (calls w')) w.
Proof.
  intros Hw. apply wp_answered; [apply Hw|done|]. intros w1 F1 E1 H1 C1. pose proof (sends_same _ _ _ _ w1 Hw F1 E1 H1 C1) as Hw1.
  change (answered Dfu.DFU_OPCODE_REBOOT 0) with (rsp_reboot (D := D)). unfold rsp_reboot. cwp_steps. rewrite (se_state _ _ _ _ Hw1). change (bool_decide _) with true. cbn [negb].
  eapply wp_bind; [apply (reset_ok (fun w2 => idle w2 /\ wrote [] (calls w1) (calls w2))); [by eapply sends_buf|]|].
  - intros w2 F2 E2 C2 W2. split; [|done]. split; [done|]. apply (has_image_same w1); [apply Hw1|done|done].
  - intros _ w2 [H2 W2]. cwp_steps. rewrite wp_done. split; [destruct H2 as [? []]; by split|]. by apply wrote_other.
Qed.

(** ** The reports of the packets *)

Lemma sent_nothing w c status : c <> dat \/ state (dfu_cli_env w) <> DFU_STATE_CLI_VERIFICATION \/ page_end (dfu_cli_env w) = true ->
  ble_ota_cli_cb (WRITE_RSP c status) w = (w, inr tt).
Proof.
  intros Hw. unfold ble_ota_cli_cb. rewrite bnd_get. destruct c; [done| |done]. destruct (callbacks w); [|done]. unfold app_dfu_cli_data_tx_cb, app_dfu_cli_state_check, env. repeat (progress mpure).
  destruct (bool_decide (state (dfu_cli_env w) = DFU_STATE_CLI_VERIFICATION)) eqn:Hs; cbn [negb]; [|reflexivity]. apply bool_decide_eq_true in Hs. repeat (progress mpure).
  destruct Hw as [|[|Hp]]; [done..|]. rewrite Hp. cbn [negb]. by rewrite andb_false_r.
Qed.

(** After a packet inside a page the next one is sent, and the checksum when it ends the page. *)
Definition after_packet (t cur : Z) : list (att * list Z) :=
  let t' := t + packet_len t in
  (dat, slice t (packet_len t) img) ::
    (if at_end t' then [(ctl, Dfu.DFU_OPCODE_CRC_CHECK :: le_enc 2 (Crc.crc16 (slice cur (t' - cur) img) 0))] else []).

Lemma sent_more t cur w status : sends DFU_STATE_CLI_VERIFICATION t cur w -> in_page t cur -> at_end t = false ->
  wp ends (ble_ota_cli_cb (WRITE_RSP dat status))
    (fun _ w' => sends DFU_STATE_CLI_VERIFICATION (t + packet_len t) cur w' /\ wrote (after_packet t cur) (calls w) (calls w')) w.
Proof.
  intros Hw Hp He. destruct (packet_in_page _ _ Hp He) as [Hn Hp']. pose proof Hw as [S1 S2 S3 S4 (S5 & b & S6 & S7 & S8) S9 S10]. pose proof Hp' as (_ & P1 & P2 & P3 & _).
  pose proof Hp as (_ & Q1 & _ & Q3 & _). assert (slot_size < 2 ^ 31) as Hss by done. unfold ble_ota_cli_cb. cwp_steps. rewrite (hi_callbacks _ S10). unfold app_dfu_cli_data_tx_cb, page_end. cwp_steps.
  rewrite S1. change (bool_decide _) with true. cbn [negb]. cwp_steps. rewrite S2, S3, (wrap32_small (size - t)) by lia. cbv zeta.
  assert ((if BLE_TRANSMIT_SIZE <? size - t then BLE_TRANSMIT_SIZE else size - t) = packet_len t) as -> by (unfold packet_len; if_split; lia).
  fold (at_end t). rewrite He. case_bool (0 <? packet_len t); [|lia]. cbn [andb negb]. set (n := packet_len t) in *. set (t' := t + n) in *.
  apply (cli_read_data_ok _ t n); [done|lia|done|unfold t' in *; lia|]. intros d Hd Hs. cbn [fst snd]. change (0 <? 0) with false. cbv iota. rewrite Hs.
  apply cwp_write_data. intros r w1 F1 E1 G1 C1 W1. cwp_steps. cbn [upd_env dfu_cli_env set_temp temp_offset img_total_size p_tem_buf]. rewrite E1, S2, S3, (wrap32_small (t + n)) by (unfold t' in *; lia).
  fold t'. fold (at_end t'). unfold after_packet. fold n. fold t'.
  assert (sends DFU_STATE_CLI_VERIFICATION t' cur (upd_env (fun e => set_temp t' e) w1) \/ at_end t' = true) as Hs1.
  { destruct (at_end t') eqn:E2; [by right|]. left. split; cbn [upd_env dfu_cli_env set_temp state img_total_size cur_offset temp_offset p_tem_buf sha_context heap]; rewrite ?E1, ?G1; try done; [|by apply (has_image_same w)].
    split; [done|]. exists b. rewrite E2. done. }
  destruct (at_end t') eqn:E2.
  - unfold flash_read_block, image_length. cbn [upd_env dfu_cli_env set_temp temp_offset]. rewrite ?S3, ?(wrap32_small (t + n)) by (unfold t' in *; lia). fold t'. rewrite (length_is _ _ Hp' E2), (proj2 (Z.eqb_neq _ _) S5). cwp_steps. replace (RE_IMG_1_OFFSET + t' - (t' - cur)) with (RE_IMG_1_OFFSET + cur) by lia.
    apply cli_read_ok; [by apply (has_image_same w)|lia..|]. cwp_steps. cbn [fst snd]. assert (zlen (slice cur (t' - cur) img) = t' - cur) as Hz by (rewrite zlen_slice; lia).
    rewrite (cwp_store _ _ _ b); [|cbn; by rewrite G1|lia]. cwp_steps. change (0 <? 0) with false. cbv iota.
    rewrite (cwp_load _ _ _ (splice 0 (slice cur (t' - cur) img) b)); [|apply lookup_insert_eq|rewrite zlen_splice; lia].
    assert (slice 0 (t' - cur) (splice 0 (slice cur (t' - cur) img) b) = slice cur (t' - cur) img) as Hb by (rewrite <- Hz at 1; apply slice_splice_same; lia). rewrite Hb.
    apply cwp_write_cmd. intros w2 F2 E3 G2 C2 W2. rewrite wp_done. split.
    + split; rewrite ?E3, ?G2; cbn [upd_heap upd_env dfu_cli_env set_temp state img_total_size cur_offset temp_offset p_tem_buf sha_context heap]; rewrite ?E1; try done.
      * rewrite S3. apply wrap32_small. unfold t' in *. lia.
      * split; [done|]. eexists. split; [apply lookup_insert_eq|]. split; [rewrite zlen_splice; lia|]. by intros _ _.
      * apply (has_image_same w); [done|by rewrite F2|by rewrite C2].
    + eapply (wrote_trans [_]); [exact W1|]. exact W2.
  - rewrite wp_done. split; [|exact W1]. destruct Hs1 as [Hs1|]; [|done]. apply (sends_same _ _ _ _ _ Hs1); try done. cbn. by rewrite E1, S3, wrap32_small by (unfold t' in *; lia).
Qed.

Lemma cli_disconnected conn w : idle w \/ (exists st t cur, sends st t cur w) -> wp ends (ble_ota_cli_cb (CONN_STATE_CHANGE conn false)) (fun _ w' => dfu_cli_env w' = zero_env) w.
Proof.
  intros Hw. unfold ble_ota_cli_cb. cwp_steps. assert (callbacks w = true) as -> by (destruct Hw as [[_ Hi]|(st & t & cur & Hs)]; [apply Hi|apply Hs]).
  apply reset_ok; [|done]. destruct Hw as [[He _]|(st & t & cur & Hs)]; [left; by rewrite He|by eapply sends_buf].
Qed.

End Run.
End DfuCliSpec.
