(* ===== verification/DfuCliAny.v ===== *)
(** * The firmware update over Bluetooth: the sending device and any server

    An invariant of the client of [DfuCli] that holds whatever its host reports and whatever
    the server answers, for an image whose last page is shorter than a packet. *)
From S2P Require Import Prelude Crc Flash RawFlash Boot BootSpec Dfu DfuSpec DfuCli DfuCliSpec.
Open Scope Z_scope.
Open Scope fw_scope.

Module DfuCliAny.
Import DfuCli DfuCliSpec.
Import DfuSpec(wp, wp_mono, wp_seq, wp_bind, wp_assoc, wp_done, wp_err, wp_bnd_ret, wp_world).

(** What can happen to the client after an update has been started. *)
Inductive event := Message (m : gattc_msg) | Timeout.

(** A command with the digest. *)
Definition verifies (k : call) : bool :=
  match k with ble_gattc_write_req _ BLE_GATT_SVC_OTA_CONTROL_CHAR (op :: _) => op =? Dfu.DFU_OPCODE_VERIFICATION | _ => false end.

Section AnyServer.
Context {E : Env} {A : Host} {D : Type} {HRom : Rom D}.
Implicit Types (w : world D).

Definition handle (v : event) : M (world D) stop unit :=
  match v with Message m => ble_ota_cli_cb m | Timeout => app_dfu_cli_ota_timer_timeout_cb end.
Fixpoint run (evs : list event) : M (world D) stop unit :=
  match evs with [] => ret tt | v :: evs => handle v ;;; run evs end.

(** The last page of the image is shorter than a packet. *)
Context (size : Z) (Hsize : 0 <= size < 2 ^ 32) (Htail : 0 < size mod PAGE < BLE_TRANSMIT_SIZE).
(** The calls before the update. *)
Context (l0 : list call).

Definition unverified w : Prop := exists ks, calls w = l0 ++ ks /\ existsb verifies ks = false.
Definition stops : stop -> world D -> Prop := fun _ => unverified.

(** Packets are sent from multiples of their size, which the size of the image is not. *)
Record geometry (e : dfu_cli_env_t) : Prop := {
  ge_total : img_total_size e = size;
  ge_temp : (BLE_TRANSMIT_SIZE | temp_offset e) /\ 0 <= temp_offset e <= FLASH_TOTAL_SIZE + BLE_TRANSMIT_SIZE;
  ge_cur : (PAGE | cur_offset e) /\ 0 <= cur_offset e <= FLASH_TOTAL_SIZE;
  ge_first : state e <> DFU_STATE_CLI_VERIFICATION -> state e <> DFU_STATE_CLI_REBOOT -> temp_offset e = 0
}.

Definition inv w : Prop := unverified w /\ (state (dfu_cli_env w) = DFU_STATE_CLI_IDLE \/ geometry (dfu_cli_env w)).

Lemma unverified_call k w : unverified w -> verifies k = false -> unverified (add_call k w).
Proof. intros (ks & E1 & E2) Hk. exists (ks ++ [k]). cbn. rewrite E1, app_assoc, existsb_app, E2. cbn. by rewrite Hk. Qed.

Lemma inv_call k w : inv w -> verifies k = false -> inv (add_call k w).
Proof. intros [H1 H2] Hk. split; [by apply unverified_call|done]. Qed.
Lemma inv_same w w' : inv w -> calls w' = calls w -> dfu_cli_env w' = dfu_cli_env w -> inv w'.
Proof. intros [H1 H2] Hc He. split; [unfold unverified; by rewrite Hc|by rewrite He]. Qed.

Lemma cli_reset_inv w : inv w -> wp stops app_dfu_cli_reset (fun _ => inv) w.
Proof.
  intros [Hu _]. assert (forall h, inv (add_call sys_timer_stop (upd_env (fun _ => zero_env) (upd_heap h w)))) as Hi by (intros h; split; [by apply unverified_call|by left]).
  unfold app_dfu_cli_reset, sys_mfree. cwp_steps. destruct (_ =? 0); cwp_steps; [exact (Hi (heap w))|]. destruct (heap w !! _); cwp_steps; [apply Hi|]. by apply wp_seq.
Qed.

(** A computation that keeps the calls and the environment. *)
Lemma flash_read_keeps off n {B} (f : Z * list Z -> M (world D) stop B) (Q : B -> world D -> Prop) w :
  (forall r w', calls w' = calls w -> dfu_cli_env w' = dfu_cli_env w -> (0 <= r.1 -> 0 <= off -> off < FLASH_TOTAL_SIZE) -> wp stops (f r) Q w') -> wp stops (bnd (flash_read off n) f) Q w.
Proof.
  intros HQ. unfold flash_read. cwp_steps. destruct (RawFlash.raw_flash_read (flash w) off n) as [[r d] f0] eqn:Er. cwp_steps. apply HQ; [done..|]. cbn [fst]. intros Hr Ho.
  unfold RawFlash.raw_flash_read in Er. rewrite DfuSpec.bad_range_is, DfuSpec.valid_is in Er. destruct (Z.ltb_spec off FLASH_TOTAL_SIZE); [done|]. cbn in Er. injection Er as <- _ _. lia.
Qed.

Lemma write_cmd_keeps conn v {B} (f : Z -> M (world D) stop B) (Q : B -> world D -> Prop) w : inv w -> nthb v 0 <> Dfu.DFU_OPCODE_VERIFICATION ->
  (forall r w', inv w' -> dfu_cli_env w' = dfu_cli_env w -> wp stops (f r) Q w') -> wp stops (bnd (ble_ota_cli_write_cmd conn v) f) Q w.
Proof.
  intros Hw Hv HQ. unfold ble_ota_cli_write_cmd. cwp_steps. assert (inv (add_call (ble_gattc_find_char_handle conn ctl) w)) as H1 by by apply inv_call.
  destruct (_ =? 0); cwp_steps; apply HQ; try done. apply inv_call; [done|]. destruct v as [|op v]; [done|]. cbn. by apply Z.eqb_neq.
Qed.

Lemma write_data_keeps conn v {B} (f : Z -> M (world D) stop B) (Q : B -> world D -> Prop) w : inv w ->
  (forall r w', inv w' -> dfu_cli_env w' = dfu_cli_env w -> wp stops (f r) Q w') -> wp stops (bnd (ble_ota_cli_write_data conn v) f) Q w.
Proof.
  intros Hw HQ. unfold ble_ota_cli_write_data. cwp_steps. assert (inv (add_call (ble_gattc_find_char_handle conn dat) w)) as H1 by by apply inv_call.
  destruct (_ =? 0); cwp_steps; apply HQ; try done. by apply inv_call.
Qed.

(** The image does not end where a packet begins. *)
Lemma size_off t : (BLE_TRANSMIT_SIZE | t) -> t <> size.
Proof. intros [k ->] He. rewrite <- He in Htail. unfold Dfu.FLASH_WRITE_SIZE, BLE_TRANSMIT_SIZE in *. revert Htail. pose proof (Z.div_mod (k * 128) 4096). lia. Qed.

Lemma total_pages : (PAGE | FLASH_TOTAL_SIZE) /\ FLASH_TOTAL_SIZE < 2 ^ 30 /\ 0 <= RE_IMG_1_OFFSET < FLASH_TOTAL_SIZE.
Proof. split; [by exists (FLASH_TOTAL_SIZE / PAGE)|by vm_compute]. Qed.

Lemma page_fits t : (PAGE | t) -> t <= FLASH_TOTAL_SIZE + BLE_TRANSMIT_SIZE -> t <= FLASH_TOTAL_SIZE.
Proof. destruct total_pages as ([q ->] & _). intros [k ->]. unfold Dfu.FLASH_WRITE_SIZE, BLE_TRANSMIT_SIZE. lia. Qed.

Lemma inv_unverified w w' : unverified w -> calls w' = calls w -> unverified w'.
Proof. intros Hu Hc. unfold unverified. by rewrite Hc. Qed.

(** A full packet, wherever the client is. *)
Lemma send_packet_keeps w {B} (f : unit -> M (world D) stop B) (Q : B -> world D -> Prop) : unverified w -> 0 <= temp_offset (dfu_cli_env w) <= FLASH_TOTAL_SIZE ->
  (forall w', unverified w' -> dfu_cli_env w' = set_temp (temp_offset (dfu_cli_env w) + BLE_TRANSMIT_SIZE) (dfu_cli_env w) -> wp stops (f tt) Q w') -> wp stops (bnd send_packet f) Q w.
Proof.
  intros Hu Ht HQ. destruct total_pages as (_ & P1 & _). unfold send_packet, flash_read_data, ble_ota_cli_write_data. cwp_steps. apply flash_read_keeps. intros r w1 C1 E1 _.
  assert (unverified (add_call (ble_gattc_find_char_handle 0 dat) w1)) as H1 by (apply unverified_call; [by eapply inv_unverified|done]).
  assert (u32 (temp_offset (dfu_cli_env w1) + BLE_TRANSMIT_SIZE) = temp_offset (dfu_cli_env w) + BLE_TRANSMIT_SIZE) as Hn by (rewrite E1; apply wrap32_small; unfold BLE_TRANSMIT_SIZE; lia).
  cwp_steps. destruct (_ =? 0); cwp_steps; apply HQ; cbn [upd_env add_call dfu_cli_env]; try (by rewrite Hn, E1); [by apply (unverified_call (ble_gattc_write_cmd 0 dat _))|done].
Qed.

(** An answer has been looked at. *)
Definition decided (v : verdict) w : Prop := inv w /\ match v with Send cmd => nthb cmd 0 <> Dfu.DFU_OPCODE_VERIFICATION | _ => True end.

Lemma geometry_of st w : inv w -> state (dfu_cli_env w) = st -> st <> DFU_STATE_CLI_IDLE -> unverified w /\ geometry (dfu_cli_env w).
Proof. by intros [Hu [->|Hg]] <- Hne. Qed.

Lemma inv_geometry w : unverified w -> geometry (dfu_cli_env w) -> inv w.
Proof. intros Hu Hg. split; [done|by right]. Qed.

(** Each answer is looked at in one state. *)
Lemma in_state st (m : M (world D) stop verdict) w : inv w -> st <> DFU_STATE_CLI_IDLE ->
  (unverified w -> geometry (dfu_cli_env w) -> state (dfu_cli_env w) = st -> wp stops m decided w) ->
  wp stops (let! ok := app_dfu_cli_state_check st in if negb ok then ret Error else m) decided w.
Proof.
  intros Hw Hst Hm. cwp_steps. destruct (bool_decide_reflect (state (dfu_cli_env w) = st)) as [Hs|Hs]; cbn [negb]; [|by rewrite wp_done].
  destruct (geometry_of st w Hw Hs Hst). by apply Hm.
Qed.

Lemma rsp_mode_inv w : inv w -> wp stops rsp_mode decided w.
Proof.
  intros Hw. apply in_state; [done..|]. intros Hu [H1 H2 H3 H4] Hs. cwp_steps. rewrite wp_done. split; [|done]. apply inv_geometry; [by apply (unverified_call (sys_timer_start_ext _))|].
  split; try done. intros _ _. apply H4; by rewrite Hs.
Qed.

Lemma rsp_image_size_inv w : inv w -> wp stops rsp_image_size decided w.
Proof.
  intros Hw. apply in_state; [done..|]. intros Hu [H1 H2 H3 H4] Hs. cwp_steps. destruct (_ =? 0); [by rewrite wp_done|]. unfold malloc. cwp_steps.
  destruct (_ =? 0); cwp_steps; rewrite wp_done; (split; [|done]); (apply inv_geometry; [by apply (unverified_call (sys_timer_start_ext _))|]); split; try done; intros _ _; apply H4; by rewrite Hs.
Qed.

Lemma rsp_start_dfu_inv w : inv w -> wp stops rsp_start_dfu decided w.
Proof.
  intros Hw. destruct total_pages as (_ & P1 & _). apply in_state; [done..|]. intros Hu [H1 H2 H3 H4] Hs. assert (temp_offset (dfu_cli_env w) = 0) as H0 by (apply H4; by rewrite Hs).
  apply send_packet_keeps; [done|lia|]. intros w' Hu' He. cwp_steps. rewrite wp_done. split; [|done]. apply inv_geometry; [by apply (unverified_call (sys_timer_start_ext _))|].
  cbn [upd_env add_call dfu_cli_env]. rewrite He, H0. by split.
Qed.

Lemma rsp_verification_inv w : inv w -> wp stops rsp_verification decided w.
Proof.
  intros Hw. apply in_state; [done..|]. intros Hu [H1 H2 H3 H4] Hs. cwp_steps. rewrite wp_done. split; [|done]. by apply inv_geometry; [apply (unverified_call (sys_timer_start_ext _))|].
Qed.

Lemma rsp_reboot_inv w : inv w -> wp stops rsp_reboot decided w.
Proof.
  intros Hw. apply in_state; [done..|]. intros _ _ _. eapply wp_bind; [by apply cli_reset_inv|]. intros ? w' Hw'. cwp_steps. rewrite wp_done. split; [|done]. by apply (inv_call (sys_timer_start_ext _)).
Qed.

Lemma rsp_crc_check_inv result w : inv w -> wp stops (rsp_crc_check result) decided w.
Proof.
  intros Hw. destruct total_pages as (_ & P1 & _). apply in_state; [done..|]. intros Hu [H1 [H2 H2'] [H3 H3'] H4] Hs. destruct (result =? 0).
  - cwp_steps. destruct (page_end (dfu_cli_env w)) eqn:He; [|by rewrite wp_done; split; [apply inv_geometry|]].
    assert ((PAGE | temp_offset (dfu_cli_env w))) as Hp.
    { unfold page_end in He. rewrite H1 in He. apply orb_true_iff in He as [He|He]; apply Z.eqb_eq in He; [by apply Z.mod_divide in He|]. by destruct (size_off _ H2). }
    pose proof (page_fits _ Hp ltac:(lia)) as Hle. unfold load. cwp_steps. destruct (heap w !! _) as [b|]; [|by apply wp_seq]. destruct (_ <=? _); [|by apply wp_seq]. cwp_steps.
    cbn [upd_env dfu_cli_env set_cur set_context cur_offset img_total_size temp_offset]. rewrite H1, (proj2 (Z.eqb_neq _ _) (size_off _ H2)).
    apply send_packet_keeps; [done|cbn; lia|]. intros w' Hu' He'. rewrite wp_done. split; [|done]. apply inv_geometry; [done|]. rewrite He'. cbn.
    split; cbn; try done; [|split; [done|lia]]. split; [by apply Z.divide_add_r; [|exists 1]|unfold BLE_TRANSMIT_SIZE in *; lia].
  - cwp_steps. apply send_packet_keeps; [done|done|]. intros w' Hu' He'. rewrite wp_done. split; [|done]. apply inv_geometry; [done|]. rewrite He'. cbn.
    split; cbn; try done. split; [|unfold BLE_TRANSMIT_SIZE in *; lia]. apply Z.divide_add_r; [|by exists 1]. transitivity PAGE; [by exists 32|done].
Qed.

Lemma cli_answered_inv opcode result w : inv w -> wp stops (answered opcode result) decided w.
Proof.
  intros Hw. unfold answered. repeat (match goal with |- context [if ?b then _ else _] => destruct b end).
  - by apply rsp_mode_inv.
  - by apply rsp_image_size_inv.
  - by apply rsp_start_dfu_inv.
  - by apply rsp_verification_inv.
  - by apply rsp_reboot_inv.
  - eapply wp_bind; [by apply cli_reset_inv|]. intros ? w' Hw'. by rewrite wp_done.
  - by apply rsp_crc_check_inv.
Qed.

Lemma cli_control_inv p w : inv w -> wp stops (app_dfu_cli_control_cb p) (fun _ => inv) w.
Proof.
  intros Hw. unfold app_dfu_cli_control_cb, byte. destruct (0 <? zlen p); [|by apply wp_seq; destruct Hw]. cwp_steps. destruct (1 <? zlen p); [|by apply wp_seq; destruct Hw]. cwp_steps.
  assert (inv (add_call sys_timer_stop w)) as H1 by by apply inv_call. set (w1 := add_call _ w) in *.
  apply (wp_bind _ _ _ decided); [destruct (_ <=? _); [by rewrite wp_done|]; destruct (_ && _); [by rewrite wp_done|]; by apply cli_answered_inv|].
  intros [cmd| |] w2 [H2 Hv]; [|by rewrite wp_done|by apply cli_reset_inv]. apply write_cmd_keeps; [done|done|]. intros r w3 H3 _. by rewrite wp_done.
Qed.

(** Inside a page of the image, and behind its end, packets are full. *)
Lemma full_packet t : (BLE_TRANSMIT_SIZE | t) -> 0 <= t < FLASH_TOTAL_SIZE -> t mod PAGE <> 0 -> BLE_TRANSMIT_SIZE < u32 (size - t).
Proof.
  intros Hd Ht Hm. pose proof (size_off t Hd) as Hne. destruct total_pages as (_ & P1 & _). destruct Hd as [k ->]. unfold BLE_TRANSMIT_SIZE, Dfu.FLASH_WRITE_SIZE in *.
  pose proof (Z.div_mod size 4096 ltac:(lia)) as Hq. pose proof (Z.div_mod (k * 128) 4096 ltac:(lia)) as Hk. pose proof (Z.mod_pos_bound (k * 128) 4096 ltac:(lia)) as Hb. destruct (Z.lt_ge_cases (k * 128) size) as [Hlt|Hge].
  - rewrite wrap32_small by lia. assert (k * 128 <> 4096 * (size / 4096)); [|lia]. intros He. apply Hm. rewrite He, Z.mul_comm. by apply Z.mod_mul.
  - unfold wrap. rewrite <- (Z.mod_add _ 1) by lia. rewrite Z.mod_small by lia. lia.
Qed.

Lemma data_tx_inv status w : inv w -> wp stops (app_dfu_cli_data_tx_cb status) (fun _ => inv) w.
Proof.
  intros Hw. destruct total_pages as (_ & P1 & P2). unfold app_dfu_cli_data_tx_cb. cwp_steps. destruct (bool_decide_reflect (state (dfu_cli_env w) = DFU_STATE_CLI_VERIFICATION)) as [Hs|Hs]; cbn [negb]; [|by rewrite wp_done].
  destruct (geometry_of _ _ Hw Hs ltac:(done)) as [Hu [H1 [H2 H2'] [H3 H3'] H4]]. cwp_steps. cbv zeta. destruct (_ && negb (page_end (dfu_cli_env w))) eqn:Hg; [|by rewrite wp_done]. apply andb_true_iff in Hg as [_ Hg].
  assert (temp_offset (dfu_cli_env w) mod PAGE <> 0) as Hm by (intros He; unfold page_end in Hg; by rewrite He in Hg).
  unfold flash_read_data. cwp_steps. apply flash_read_keeps. intros r w1 C1 E1 Hr. cwp_steps. cbn [fst snd]. assert (inv w1) as Hw1 by by apply (inv_same w).
  destruct (Z.ltb_spec r.1 0) as [Hneg|Hpos]; [by apply cli_reset_inv|]. rewrite wrap32_small in Hr by (unfold BLE_TRANSMIT_SIZE in *; lia). specialize (Hr Hpos ltac:(lia)).
  rewrite H1 in *. rewrite (proj2 (Z.ltb_lt _ _) (full_packet _ H2 ltac:(lia) Hm)) in *. apply write_data_keeps; [done|]. intros r2 w2 Hw2 E2. cwp_steps.
  set (w3 := upd_env _ w2). assert (dfu_cli_env w3 = set_temp (temp_offset (dfu_cli_env w) + BLE_TRANSMIT_SIZE) (dfu_cli_env w)) as E3.
  { cbn. rewrite E2, E1, wrap32_small by (unfold BLE_TRANSMIT_SIZE; lia). done. }
  assert (inv w3) as Hw3.
  { apply inv_geometry; [by destruct Hw2|]. rewrite E3. split; cbn; try done. split; [by apply Z.divide_add_r; [|exists 1]|unfold BLE_TRANSMIT_SIZE in *; lia]. }
  destruct (page_end (dfu_cli_env w3)); [|by rewrite wp_done]. unfold flash_read_block. destruct (_ =? 0); cwp_steps; [by apply cli_reset_inv|].
  apply flash_read_keeps. intros r4 w4 C4 E4 _. assert (inv w4) as Hw4 by by apply (inv_same w3). unfold store. cwp_steps. destruct (heap w4 !! _) as [b|]; [|by apply wp_seq; destruct Hw4]. destruct (_ <=? _); [|by apply wp_seq; destruct Hw4]. cwp_steps.
  set (w5 := upd_heap _ w4). assert (inv w5) as Hw5 by by apply (inv_same w4). destruct (r4.1 <? 0); [by apply cli_reset_inv|]. unfold load. cwp_steps.
  destruct (heap w5 !! _) as [b5|]; [|by apply wp_seq; destruct Hw5]. destruct (_ <=? _); [|by apply wp_seq; destruct Hw5]. cwp_steps. apply write_cmd_keeps; [done|done|]. intros r6 w6 Hw6 _. by rewrite wp_done.
Qed.

Lemma cli_handle_inv v w : inv w -> wp stops (handle v) (fun _ => inv) w.
Proof.
  intros Hw. destruct v as [m|]; cbn [handle].
  - unfold ble_ota_cli_cb. cwp_steps. destruct m as [conn []|conn|[] status|[] val]; try destruct (callbacks w); try (by rewrite wp_done).
    1,2: by cwp_steps; rewrite wp_done; apply (inv_call (ble_gattc_mtu_update _ _)).
    + by apply cli_reset_inv.
    + unfold ble_ota_cli_write_cmd_cccd. cwp_steps. destruct (_ =? 0); cwp_steps; rewrite wp_done; [apply (inv_call (ble_gattc_write_req _ _ _)); [|done]|]; by apply (inv_call (ble_gattc_find_desc_handle _ _ _)).
    + unfold ble_ota_cli_write_cmd_cccd. cwp_steps. destruct (_ =? 0); cwp_steps; rewrite wp_done; [apply (inv_call (ble_gattc_write_req _ _ _)); [|done]|]; by apply (inv_call (ble_gattc_find_desc_handle _ _ _)).
    + by apply data_tx_inv.
    + by apply cli_control_inv.
  - apply write_cmd_keeps; [done|done|]. intros r w1 Hw1 _. by apply cli_reset_inv.
Qed.

Lemma cli_run_inv evs : forall w, inv w -> wp stops (run evs) (fun _ => inv) w.
Proof.
  induction evs as [|v evs IH]; intros w Hw; cbn [run]; [by rewrite wp_done|]. eapply wp_bind; [by apply cli_handle_inv|]. intros ? w' Hw'. by apply IH.
Qed.

Lemma begin_inv conn w : calls w = l0 -> dfu_cli_env w = zero_env -> wp stops (app_ble_dfu_start conn size) (fun _ => inv) w.
Proof.
  intros Hc He. assert (inv w) as Hw by (split; [exists []; by rewrite Hc, app_nil_r|left; by rewrite He]). unfold app_ble_dfu_start. cwp_steps. destruct (negb _); [by rewrite wp_done|].
  unfold app_dfu_cli_reset, sys_mfree. cwp_steps. rewrite He. cbn [p_tem_buf zero_env Z.eqb]. cwp_steps.
  set (w1 := add_call sys_timer_stop _). assert (inv w1) as Hw1 by (split; [apply unverified_call; [by destruct Hw|done]|by left]). set (w2 := upd_env (set_total size) w1).
  assert (inv w2) as Hw2 by (split; [by destruct Hw1|by left]). apply write_cmd_keeps; [done|done|]. intros r w3 Hw3 E3. destruct (negb _); [by apply cli_reset_inv|]. cwp_steps.
  destruct (negb _); [apply cli_reset_inv; by apply inv_call|]. cwp_steps. rewrite cwp_last_env_mod. apply inv_geometry; [apply (unverified_call (ble_conn_param_update_req _ _ _ _)); [by destruct Hw3|done]|].
  cbn [upd_env add_call dfu_cli_env]. rewrite E3. by split; cbn; [|split; [exists 0|]..|].
Qed.

End AnyServer.
End DfuCliAny.
