(* ===== verification/DfuLink.v ===== *)
(** * The firmware update over Bluetooth: two devices

    A device that sends its image, the device that takes it, and the hosts between them: what
    one device writes or answers reaches the other in order, and every write and every answer
    is reported to its sender, in whatever order these four things happen. *)
From S2P Require Import Prelude Crc Flash RawFlash Boot BootSpec OtaSpec Update Dfu DfuSpec DfuRun DfuCli DfuCliSpec.
Open Scope Z_scope.
Open Scope fw_scope.

Module DfuLink.
Import BootSpec OtaSpec DfuSpec DfuRun.
Import DfuCli(att, BLE_GATT_SVC_OTA_CONTROL_CHAR, BLE_GATT_SVC_OTA_DATA_CHAR, BLE_GATT_DESC_CLIENT_CHAR_CFG, Host).
Import DfuCliSpec(written, wrote, answer_of, HostLaws, in_page, at_end, packet_len, after_packet).
Abbreviation ctl := BLE_GATT_SVC_OTA_CONTROL_CHAR.
Abbreviation dat := BLE_GATT_SVC_OTA_DATA_CHAR.

(** What happens next: the server gets what was written, the client an answer, the client the
    report of a write, the server the report of an answer, or the connection is closed. *)
Inductive turn := To_server | To_client | Written | Indicated | Disconnected.

Definition to_attribute (h : att) : Dfu.ble_ota_srv_att_idx :=
  match h with
  | BLE_GATT_SVC_OTA_CONTROL_CHAR => Dfu.BLE_OTA_SRV_IDX_CONTROL_VAL
  | BLE_GATT_SVC_OTA_DATA_CHAR => Dfu.BLE_OTA_SRV_IDX_DATA_VAL
  | BLE_GATT_DESC_CLIENT_CHAR_CFG => Dfu.BLE_OTA_SRV_IDX_CONTROL_CCCD_CFG
  end.

(** The calls that were made since. *)
Definition since {K} (l l' : list K) : list K := drop (length l) l'.

Section Link.
Context {E : Dfu.Env} {A : Host} {D : Type} `{Rom D, SysRom D}.

(** [up]: what is on its way to the server; [down]: to the client; [acks] and [confs]: the
    writes and the answers that have not been reported; [closing]: the server has asked its
    host to close the connection; [over]: how a device has stopped. *)
Record link := mk_link {
  cli : DfuCli.world D; srv : Dfu.world D; up : list (att * list Z); down : list (list Z); acks : list att; confs : nat;
  closing : bool; over : option Dfu.stop
}.

Definition stopped (r : Dfu.stop + unit) : option Dfu.stop := match r with inl e => Some e | inr _ => None end.

(** The client has run. *)
Definition client_ran (r : DfuCli.world D * (Dfu.stop + unit)) (l : link) : link :=
  let ws := omap written (since (DfuCli.calls (cli l)) (DfuCli.calls r.1)) in
  mk_link r.1 (srv l) (up l ++ ws) (down l) (acks l ++ map fst ws) (confs l) (closing l) (stopped r.2).
(** The server has run. *)
Definition server_ran (r : Dfu.world D * (Dfu.stop + unit)) (l : link) : link :=
  let ks := since (Dfu.calls (srv l)) (Dfu.calls r.1) in
  let rs := omap reply ks in
  mk_link (cli l) r.1 (up l) (down l ++ rs) (acks l) (length rs + confs l) (closing l || existsb closes ks) (stopped r.2).

Definition set_up u (l : link) : link := mk_link (cli l) (srv l) u (down l) (acks l) (confs l) (closing l) (over l).
Definition set_down d (l : link) : link := mk_link (cli l) (srv l) (up l) d (acks l) (confs l) (closing l) (over l).
Definition set_acks a (l : link) : link := mk_link (cli l) (srv l) (up l) (down l) a (confs l) (closing l) (over l).
Definition set_confs k (l : link) : link := mk_link (cli l) (srv l) (up l) (down l) (acks l) k (closing l) (over l).

Definition to_server (m : Dfu.gatts_msg) (l : link) : link := server_ran (handle (Message m) (srv l)) l.
Definition to_client (m : DfuCli.gattc_msg) (l : link) : link := client_ran (DfuCli.ble_ota_cli_cb m (cli l)) l.

(** One thing happens, if it can. *)
Definition move (t : turn) (l : link) : option link :=
  match over l with
  | Some _ => None
  | None =>
      match t with
      | To_server => match up l with (h, v) :: u => Some (to_server (Dfu.WRITE_REQ (to_attribute h) v) (set_up u l)) | [] => None end
      | To_client => match down l with v :: d => Some (to_client (DfuCli.NTF_IND_RCV ctl v) (set_down d l)) | [] => None end
      | Written => match acks l with h :: a => Some (to_client (DfuCli.WRITE_RSP h 0) (set_acks a l)) | [] => None end
      | Indicated => match confs l with Datatypes.S k => Some (to_server (Dfu.NTF_IND_SEND_RSP Dfu.BLE_OTA_SRV_IDX_CONTROL_VAL) (set_confs k l)) | O => None end
      | Disconnected =>
          if closing l then
            let l1 := to_client (DfuCli.CONN_STATE_CHANGE 0 false) l in
            match over l1 with Some _ => Some l1 | None => Some (to_server (Dfu.CONN_STATE_CHANGE false) l1) end
          else None
      end
  end.

Fixpoint moves (ts : list turn) (l : link) : option link :=
  match ts with [] => Some l | t :: ts => match move t l with Some l' => moves ts l' | None => None end end.

(** The shell command on the sending device, with the connection up. *)
Definition begin (size : Z) (c : DfuCli.world D) (s : Dfu.world D) : link :=
  client_ran (DfuCli.app_ble_dfu_start 0 size c) (mk_link c s [] [] [] 0 false None).

(** ** Steps of the link *)

Lemma since_app {K} (l ks : list K) : since l (l ++ ks) = ks.
Proof. apply drop_app_length. Qed.

Lemma client_did (m : M (DfuCli.world D) Dfu.stop unit) (P : DfuCli.world D -> Prop) vs (l : link) :
  wp (fun _ _ => False) m (fun _ c => P c /\ wrote vs (DfuCli.calls (cli l)) (DfuCli.calls c)) (cli l) ->
  exists c, P c /\ client_ran (m (cli l)) l = mk_link c (srv l) (up l ++ vs) (down l) (acks l ++ map fst vs) (confs l) (closing l) None.
Proof.
  unfold wp, client_ran. destruct (m (cli l)) as [c [e|[]]]; [done|]. intros [HP (ks & E1 & <-)]. exists c. split; [done|]. cbn [fst snd]. by rewrite E1, since_app.
Qed.

Lemma client_took m (P : DfuCli.world D -> Prop) vs (l : link) :
  wp (fun _ _ => False) (DfuCli.ble_ota_cli_cb m) (fun _ c => P c /\ wrote vs (DfuCli.calls (cli l)) (DfuCli.calls c)) (cli l) ->
  exists c, P c /\ to_client m l = mk_link c (srv l) (up l ++ vs) (down l) (acks l ++ map fst vs) (confs l) (closing l) None.
Proof. apply client_did. Qed.

Lemma server_took m (P : Dfu.world D -> Prop) rs b (l : link) :
  wp (fun _ _ => False) (handle (Message m)) (fun _ s => P s /\ told rs b (Dfu.calls (srv l)) (Dfu.calls s)) (srv l) ->
  exists s, P s /\ to_server m l = mk_link (cli l) s (up l) (down l ++ rs) (acks l) (length rs + confs l) (closing l || b) None.
Proof.
  unfold wp, to_server, server_ran. destruct (handle (Message m) (srv l)) as [s [e|[]]]; [done|]. intros [HP (ks & E1 & <- & <-)]. exists s. split; [done|]. cbn [fst snd]. by rewrite E1, since_app.
Qed.

End Link.
Arguments link {E} D.
End DfuLink.
