(* ===== verification/DfuLinkSpec.v ===== *)
(** * The firmware update over Bluetooth: the phases of an update between two devices

    An invariant of the link of [DfuLink], with a count of the writes that are left: it is kept
    by everything that can happen, each of these lowers a measure, and something can happen
    until the server resets. *)
From S2P Require Import Prelude Crc Flash RawFlash Boot BootSpec OtaSpec Update Dfu DfuSpec DfuRun DfuCli DfuCliSpec DfuLink.
Open Scope Z_scope.
Open Scope fw_scope.

Module DfuLinkSpec.
Import BootSpec OtaSpec DfuSpec DfuRun DfuLink.
Import DfuCli(att, BLE_GATT_SVC_OTA_CONTROL_CHAR, BLE_GATT_SVC_OTA_DATA_CHAR, BLE_GATT_DESC_CLIENT_CHAR_CFG, Host).
Import DfuCliSpec(written, wrote, answer_of, HostLaws, in_page, at_end, packet_len, after_packet).
Abbreviation T := DfuCli.BLE_TRANSMIT_SIZE.
Abbreviation PAGE := Dfu.FLASH_WRITE_SIZE.

Section Phases.
Context {E : Dfu.Env} {S : ShaLaws E} {A : Host} {L : HostLaws A} {D : Type} {HRom : Rom D} {HLaws : RomLaws D} {HSys : Boot.SysRom D} {HSysLaws : SysRomLaws D}.
Context (malloc_works : forall h n, Dfu.sys_malloc h n <> 0).
Context (param_update_works : forall l, Dfu.answer (l ++ [Dfu.ble_conn_param_update_req 0 Dfu.BLE_CONN_OTA_INTV Dfu.BLE_CONN_OTA_LATENCY Dfu.BLE_CONN_OTA_SUPV_TOUT]) = 0).
Context (disconnect_works : forall l, Dfu.answer (l ++ [Dfu.ble_conn_disconnect 0]) = 0).
Context (good : D -> Prop) (Hsound : forall s, sound RE_IMG_0_OFFSET RE_IMG_1_END (fun d => good d /\ sys_of d = s)).
(** The image that the server runs, the image that is sent, the server's flash before. *)
Context (r : Z) (Hr : is_img r) (img : list Z) (Himg : bytes img) (s : sys) (m0 : Z -> Z) (Hrunning : running s = Some r).
Abbreviation size := (zlen img).
(** A sector of the slot stays free; the last page is full, or longer than a packet. *)
Context (Hsize : 0 < size <= slot_size) (Hroom : size + PAGE <= slot_size) (Htail : size mod PAGE = 0 \/ T < size mod PAGE).

Abbreviation base := (slot (other r)).
Abbreviation asked := (DfuCliSpec.asked img).
Abbreviation sends := (DfuCliSpec.sends img).
Abbreviation idle := (DfuCliSpec.idle img).
Abbreviation ready := (DfuRun.ready good r img s m0).
Abbreviation sending := (DfuRun.sending good r img s m0).
Abbreviation passed := (DfuRun.passed r img s m0).
Abbreviation updated := (DfuRun.updated r img s m0).

(** The server before the first command. *)
Record fresh (w : Dfu.world D) : Prop := {
  fr_env : Dfu.dfu_srv_env w = Dfu.zero_env;
  fr_mem : m0 = mem (Dfu.flash w);
  fr_good : good (RawFlash.dev (Dfu.flash w)) /\ sys_of (RawFlash.dev (Dfu.flash w)) = s;
  fr_regs : RawFlash.boot_regs (RawFlash.fmc (Dfu.flash w));
  fr_callbacks : Dfu.callbacks w = true
}.

Definition command_crc (cur t : Z) : list Z := Dfu.DFU_OPCODE_CRC_CHECK :: le_enc 2 (Crc.crc16 (slice cur (t - cur) img) 0).
Definition ok (op : Z) : list Z := [op; Dfu.DFU_ERROR_NO_ERROR].

(** The last answer is on its way, or has arrived. *)
Inductive last_answer : DfuCli.world D -> list (list Z) -> Prop :=
| la_down c : sends DfuCli.DFU_STATE_CLI_REBOOT size size c -> last_answer c [ok Dfu.DFU_OPCODE_REBOOT]
| la_taken c : idle c -> last_answer c [].

(** The states of the two devices with what is on its way between them; [left]: how many
    writes the client makes yet, at most. *)
Inductive phase : Z -> DfuCli.world D -> Dfu.world D -> list (att * list Z) -> list (list Z) -> list att -> nat -> bool -> Prop :=
| ph_mode_up c w a k : asked DfuCli.DFU_STATE_CLI_MODE_SET c -> fresh w ->
    phase (2 * size + 4) c w [(ctl, [Dfu.DFU_OPCODE_MODE; Dfu.DFU_MODE_BLE])] [] a k false
| ph_mode_down c w a k : asked DfuCli.DFU_STATE_CLI_MODE_SET c -> ready Dfu.DFU_STATE_SRV_MODE_GET 0 base w ->
    phase (2 * size + 4) c w [] [ok Dfu.DFU_OPCODE_MODE] a k false
| ph_size_up c w a k : asked DfuCli.DFU_STATE_CLI_IMAGE_SIZE_GET c -> ready Dfu.DFU_STATE_SRV_MODE_GET 0 base w ->
    phase (2 * size + 3) c w [(ctl, Dfu.DFU_OPCODE_IMAGE_SIZE :: le_enc 4 size)] [] a k false
| ph_size_down c w a k : asked DfuCli.DFU_STATE_CLI_IMAGE_SIZE_GET c -> ready Dfu.DFU_STATE_SRV_IMAGE_SIZE_GET size (base + PAGE) w ->
    phase (2 * size + 3) c w [] [ok Dfu.DFU_OPCODE_IMAGE_SIZE] a k false
| ph_start_up c w a k : sends DfuCli.DFU_STATE_CLI_DFU_STARTED 0 0 c -> ready Dfu.DFU_STATE_SRV_IMAGE_SIZE_GET size (base + PAGE) w ->
    phase (2 * size + 2) c w [(ctl, [Dfu.DFU_OPCODE_START_DFU])] [] a k false
| ph_start_down c w a k : sends DfuCli.DFU_STATE_CLI_DFU_STARTED 0 0 c -> sending 0 0 [] w ->
    phase (2 * size + 2) c w [] [ok Dfu.DFU_OPCODE_START_DFU] a k false
| ph_page_up c w a k t cur pg pend ps : sends DfuCli.DFU_STATE_CLI_VERIFICATION t cur c -> in_page img t cur -> sending pg cur pend w -> 0 <= pg -> cur = PAGE * pg ->
    pend ++ concat ps = slice cur (t - cur) img -> (at_end img t = false -> dat ∈ a) ->
    phase (2 * (size - t) + 2) c w (map (pair dat) ps ++ (if at_end img t then [(ctl, command_crc cur t)] else [])) [] a k false
| ph_page_down c w a k t cur pg : sends DfuCli.DFU_STATE_CLI_VERIFICATION t cur c -> in_page img t cur -> at_end img t = true -> sending (pg + 1) t [] w -> 0 <= pg -> cur = PAGE * pg ->
    phase (2 * (size - t) + 2) c w [] [ok Dfu.DFU_OPCODE_CRC_CHECK] a k false
| ph_digest_up c w a k pg : sends DfuCli.DFU_STATE_CLI_VERIFICATION size size c -> sending pg size [] w ->
    phase 1 c w [(ctl, Dfu.DFU_OPCODE_VERIFICATION :: sha256 img)] [] a k false
| ph_digest_down c w a k : sends DfuCli.DFU_STATE_CLI_VERIFICATION size size c -> passed Dfu.DFU_STATE_SRV_VERIFICATION_PASS w ->
    phase 1 c w [] [ok Dfu.DFU_OPCODE_VERIFICATION] a k false
| ph_reboot_up c w a k : sends DfuCli.DFU_STATE_CLI_REBOOT size size c -> passed Dfu.DFU_STATE_SRV_VERIFICATION_PASS w ->
    phase 0 c w [(ctl, [Dfu.DFU_OPCODE_REBOOT])] [] a k false
| ph_reboot_down c w a k d : last_answer c d -> passed Dfu.DFU_STATE_SRV_WAIT_LAST_CMD w -> k <> 0%nat -> phase 0 c w [] d a k false
| ph_closing c w a k d : last_answer c d -> passed Dfu.DFU_STATE_SRV_DISCONNECTING w -> phase 0 c w [] d a k true.

Definition at_phase (left : Z) (l : link D) : Prop :=
  phase left (cli l) (srv l) (up l) (down l) (acks l) (confs l) (closing l) /\ over l = None.

(** A write costs the server's answer and two reports at most. *)
Definition weight (m : att * list Z) : Z := match m.1 with BLE_GATT_SVC_OTA_DATA_CHAR => 1 | _ => 3 end.
Definition sum (l : list Z) : Z := foldr Z.add 0 l.
Definition measure (left : Z) (l : link D) : Z := 4 * left + sum (map weight (up l)) + zlen (down l) + zlen (acks l) + Z.of_nat (confs l) + 1.

Lemma sum_app a b : sum (a ++ b) = sum a + sum b.
Proof. unfold sum. induction a as [|x a IH]; [done|]. cbn. rewrite IH. lia. Qed.

(** What a step leads to. *)
Definition stepped (m : Z) (l' : link D) : Prop :=
  (exists left, at_phase left l' /\ measure left l' < m) \/ (over l' = Some Dfu.SysTimer_SoftwareReset /\ updated (srv l')).

Lemma stepped_by m left c w u d a k b : phase left c w u d a k b -> 4 * left + sum (map weight u) + zlen d + zlen a + Z.of_nat k + 1 < m ->
  stepped m (mk_link c w u d a k b None).
Proof. intros Hp Hm. left. by exists left. Qed.

(** ** The server's steps *)

(** Its state, when nothing but a command or data matters to it. *)
Lemma conf_ignored w : Dfu.state (Dfu.dfu_srv_env w) <> Dfu.DFU_STATE_SRV_WAIT_LAST_CMD ->
  handle (Message (Dfu.NTF_IND_SEND_RSP Dfu.BLE_OTA_SRV_IDX_CONTROL_VAL)) w = (w, inr tt).
Proof.
  intros Hs. unfold handle, Dfu.ble_ota_srv_cb, Dfu.app_dfu_srv_ind_cb, Dfu.app_dfu_srv_state_check, Dfu.env. repeat (progress mpure). destruct (Dfu.callbacks w); [|done]. repeat (progress mpure).
  by rewrite bool_decide_eq_false_2.
Qed.

Lemma phase_srv_state left c w u d a k b : phase left c w u d a k b -> Dfu.state (Dfu.dfu_srv_env w) <> Dfu.DFU_STATE_SRV_WAIT_LAST_CMD \/
  (passed Dfu.DFU_STATE_SRV_WAIT_LAST_CMD w /\ left = 0 /\ u = [] /\ last_answer c d /\ b = false).
Proof.
  intros [? ? ? ? ? Hw|? ? ? ? ? Hw|? ? ? ? ? Hw|? ? ? ? ? Hw|? ? ? ? ? Hw|? ? ? ? ? Hw|? ? ? ? ? ? ? ? ? ? ? Hw|? ? ? ? ? ? ? ? ? ? Hw|? ? ? ? ? ? Hw|? ? ? ? ? Hw|? ? ? ? ? Hw|? ? ? ? ? ? Hw ?|? ? ? ? ? ? Hw].
  all: try (left; (destruct Hw as [Hw _ _ _ _] || destruct Hw as [Hw _] || (apply sd_state in Hw) || (apply ps_state in Hw)); rewrite Hw; cbn; by repeat case_match).
  all: by right.
Qed.

Lemma phase_conf left c w u d a k b : phase left c w u d a (Datatypes.S k) b -> Dfu.state (Dfu.dfu_srv_env w) <> Dfu.DFU_STATE_SRV_WAIT_LAST_CMD -> phase left c w u d a k b.
Proof.
  intros Hp Hs. inversion Hp; subst; try by econstructor.
  match goal with Hw : passed Dfu.DFU_STATE_SRV_WAIT_LAST_CMD w |- _ => by destruct (Hs (ps_state _ _ _ _ _ _ Hw)) end.
Qed.

Lemma server_quiet m (l : link D) : over l = None -> handle (Message m) (srv l) = (srv l, inr tt) -> to_server m l = l.
Proof.
  intros Ho Hm. unfold to_server, server_ran. rewrite Hm. cbn [fst snd]. destruct l as [c w u d a k b o]. cbn in *. subst o.
  unfold since. rewrite drop_all. cbn. by rewrite app_nil_r, orb_false_r.
Qed.

Lemma indicated_ok left l k : at_phase left l -> confs l = Datatypes.S k -> stepped (measure left l) (to_server (Dfu.NTF_IND_SEND_RSP Dfu.BLE_OTA_SRV_IDX_CONTROL_VAL) (set_confs k l)).
Proof.
  intros [Hp Ho] Hk. destruct l as [c w u d a k0 b o]. cbn in Hp, Ho, Hk. subst o k0. unfold measure, set_confs. cbn [cli srv up down acks confs closing over].
  destruct (phase_srv_state _ _ _ _ _ _ _ _ Hp) as [Hs|(Hw & -> & -> & Hl & ->)].
  - rewrite server_quiet by (done || by apply conf_ignored). apply (stepped_by _ left); [by apply phase_conf|]. lia.
  - destruct (server_took (Dfu.NTF_IND_SEND_RSP Dfu.BLE_OTA_SRV_IDX_CONTROL_VAL) (passed Dfu.DFU_STATE_SRV_DISCONNECTING) [] true (mk_link c w [] d a k false None)) as (w' & Hw' & Hstep).
    { by apply (ind_ok disconnect_works). }
    rewrite Hstep. cbn [cli srv up down acks confs closing length orb]. rewrite app_nil_r. apply (stepped_by _ 0); [by constructor|]. cbn. lia.
Qed.

(** A command that is carried out is answered and the answer reported. *)
Lemma served left (P : Dfu.world D -> Prop) p op c w u' d a k b left' :
  wp (fun _ _ => False) (handle (control p)) (fun _ w' => P w' /\ done_with op w w') w ->
  (forall w', P w' -> phase left' c w' u' [ok op] a (Datatypes.S k) b) -> left' <= left -> d = [] ->
  stepped (measure left (mk_link c w ((ctl, p) :: u') d a k b None)) (to_server (Dfu.WRITE_REQ Dfu.BLE_OTA_SRV_IDX_CONTROL_VAL p) (mk_link c w u' d a k b None)).
Proof.
  intros Hw HP Hl ->. destruct (server_took (Dfu.WRITE_REQ Dfu.BLE_OTA_SRV_IDX_CONTROL_VAL p) P [ok op] false (mk_link c w u' [] a k b None) Hw) as (w' & Hw' & Hstep).
  rewrite Hstep. unfold measure. cbn [cli srv up down acks confs closing length app Nat.add]. rewrite orb_false_r. apply (stepped_by _ left'); [by apply HP|].
  rewrite zlen_cons, zlen_nil. cbn [map sum foldr]. fold (sum (map weight u')). change (weight (ctl, p)) with 3. rewrite Nat2Z.inj_succ. lia.
Qed.

Lemma room_for pg : 0 <= pg -> PAGE * pg < size -> PAGE * (pg + 2) <= slot_size.
Proof.
  intros Hg Hlt. assert (PAGE * (slot_size / PAGE) = slot_size) as Hd by done. revert Hd. generalize (slot_size / PAGE). intros q Hd. unfold Dfu.FLASH_WRITE_SIZE in *. lia.
Qed.

(** A packet of a page, or its checksum. *)
Lemma page_taken c w a k t cur pg pend ps h v u' : sends DfuCli.DFU_STATE_CLI_VERIFICATION t cur c -> in_page img t cur -> sending pg cur pend w -> 0 <= pg -> cur = PAGE * pg ->
  pend ++ concat ps = slice cur (t - cur) img -> (at_end img t = false -> dat ∈ a) ->
  map (pair dat) ps ++ (if at_end img t then [(ctl, command_crc cur t)] else []) = (h, v) :: u' ->
  stepped (measure (2 * (size - t) + 2) (mk_link c w ((h, v) :: u') [] a k false None)) (to_server (Dfu.WRITE_REQ (to_attribute h) v) (mk_link c w u' [] a k false None)).
Proof.
  intros Hc Hp Hw Hg Hcur Hpend Ha Hu. pose proof Hp as (_ & P1 & P2 & P3 & _). assert (cur <> size) as Hne by lia.
  assert (zlen (slice cur (t - cur) img) = t - cur) as Hz by (rewrite zlen_slice; lia). destruct ps as [|x ps]; cbn [map app concat] in *.
  - rewrite app_nil_r in Hpend. destruct (at_end img t) eqn:He; [|done]. injection Hu as <- <- <-. cbn [to_attribute].
    apply (served _ (sending (pg + 1) t []) (command_crc cur t) Dfu.DFU_OPCODE_CRC_CHECK c w [] [] a k false (2 * (size - t) + 2)); [|by econstructor|lia|done].
    unfold command_crc. rewrite <- Hpend in *. replace t with (cur + zlen pend) by lia. apply (crc_check_ok good Hsound r Hr img Himg Hsize s m0 _ pg cur pend w Hw); try done; [by rewrite Hz|lia|lia|].
    apply room_for; lia.
  - injection Hu as <- <- <-. cbn [to_attribute]. pose proof (f_equal zlen Hpend) as Hl. rewrite !zlen_app, Hz in Hl.
    destruct (server_took (Dfu.WRITE_REQ Dfu.BLE_OTA_SRV_IDX_DATA_VAL x) (sending pg cur (pend ++ x)) [] false
      (mk_link c w (map (pair dat) ps ++ (if at_end img t then [(ctl, command_crc cur t)] else [])) [] a k false None)) as (w' & Hw' & ->).
    { apply (packet_ok good r img s m0 _ pg cur pend x w Hw Hne). rewrite zlen_app. pose proof (zlen_nonneg (concat ps)). lia. }
    cbn [cli srv up down acks confs closing length app Nat.add orb]. apply (stepped_by _ (2 * (size - t) + 2)); [econstructor; try done; by rewrite <- app_assoc|].
    unfold measure. cbn [up down acks confs map]. change (sum (weight (dat, x) :: ?l)) with (1 + sum l). lia.
Qed.

Lemma delivered_ok left l h v u' : at_phase left l -> up l = (h, v) :: u' -> stepped (measure left l) (to_server (Dfu.WRITE_REQ (to_attribute h) v) (set_up u' l)).
Proof.
  intros [Hp Ho] Hu. destruct l as [c w u d a k b o]. cbn in Hp, Ho, Hu. subst o u. unfold set_up. cbn [cli srv up down acks confs closing over].
  inversion Hp; subst; cbn [to_attribute].
  - eapply served; [match goal with Hf : fresh _ |- _ => destruct Hf end; by apply (mode_ok good r Hr img s m0 Hrunning)|by econstructor|lia|done].
  - eapply served; [by apply (size_ok good Hsound r Hr img Hsize s m0)|by econstructor|lia|done].
  - eapply served; [by apply (start_dfu_ok malloc_works param_update_works good r img Hsize s m0)|by econstructor|lia|done].
  - match goal with Hu : _ ++ _ = _ :: _ |- _ => rewrite Hu; by eapply page_taken end.
  - eapply served; [by eapply (verification_ok good r img Hsize s m0)|by econstructor|lia|done].
  - eapply served; [by apply (reboot_ok r img s m0)|intros w' Hw'; apply ph_reboot_down; [by constructor|done|done]|lia|done].
Qed.

(** ** The client's steps *)

Lemma phase_cli left c w u d a k b : phase left c w u d a k b ->
  DfuCli.state (DfuCli.dfu_cli_env c) <> DfuCli.DFU_STATE_CLI_VERIFICATION \/ DfuCli.page_end (DfuCli.dfu_cli_env c) = true \/
  exists t cur pg pend ps, left = 2 * (size - t) + 2 /\ sends DfuCli.DFU_STATE_CLI_VERIFICATION t cur c /\ in_page img t cur /\ at_end img t = false /\ sending pg cur pend w /\ 0 <= pg /\
    cur = PAGE * pg /\ pend ++ concat ps = slice cur (t - cur) img /\ u = map (pair dat) ps /\ d = [] /\ b = false.
Proof.
  assert (forall t cur, sends DfuCli.DFU_STATE_CLI_VERIFICATION t cur c -> at_end img t = true -> DfuCli.page_end (DfuCli.dfu_cli_env c) = true) as Hend.
  { intros t cur [_ E2 E3 _ _ _ _] He. unfold DfuCli.page_end. by rewrite E2, E3. }
  assert (at_end img size = true) as Hs by (unfold at_end; by rewrite Z.eqb_refl, orb_true_r).
  assert (forall d, last_answer c d -> DfuCli.state (DfuCli.dfu_cli_env c) <> DfuCli.DFU_STATE_CLI_VERIFICATION) as Hl.
  { intros d0 [? Hc|? [Hc _]]; [by rewrite (DfuCliSpec.se_state _ _ _ _ _ Hc)|by rewrite Hc]. }
  intros Hp. inversion Hp as [? ? ? ? [(? & Hc & _) _]|? ? ? ? [(? & Hc & _) _]|? ? ? ? [(? & Hc & _) _]|? ? ? ? [(? & Hc & _) _]|? ? ? ? Hc|? ? ? ? Hc|? ? ? ? t cur pg pend ps Hc Hip Hw Hpg Hcur Hpe Ha| | | | | | ]; subst.
  all: try by (left; rewrite Hc).
  all: try by (left; rewrite (DfuCliSpec.se_state _ _ _ _ _ Hc)).
  all: try by (left; eapply Hl).
  all: try by (right; left; eapply Hend).
  - destruct (at_end img t) eqn:He; [right; left; by eapply Hend|]. right. right. exists t, (PAGE * pg), pg, pend, ps. by rewrite app_nil_r.
  - left. match goal with Hc : sends DfuCli.DFU_STATE_CLI_REBOOT _ _ c |- _ => by rewrite (DfuCliSpec.se_state _ _ _ _ _ Hc) end.
Qed.

Lemma phase_ack left c w u d h a k b : phase left c w u d (h :: a) k b -> h <> dat \/ DfuCli.state (DfuCli.dfu_cli_env c) <> DfuCli.DFU_STATE_CLI_VERIFICATION \/
  DfuCli.page_end (DfuCli.dfu_cli_env c) = true -> phase left c w u d a k b.
Proof.
  intros Hp Hh. inversion Hp as [| | | | | |? ? ? ? t cur pg pend ps Hc Hip Hw Hpg Hcur Hpe Ha| | | | | | ]; subst; try by econstructor.
  econstructor; try done. intros He. specialize (Ha He). apply elem_of_cons in Ha as [<-|]; [|done]. destruct Hh as [|[Hh|Hh]]; [done| |].
  - by destruct (Hh (DfuCliSpec.se_state _ _ _ _ _ Hc)).
  - unfold DfuCli.page_end in Hh. rewrite (DfuCliSpec.se_temp _ _ _ _ _ Hc), (DfuCliSpec.se_total _ _ _ _ _ Hc) in Hh. unfold at_end in He. by rewrite Hh in He.
Qed.

Lemma client_quiet m (l : link D) : over l = None -> DfuCli.ble_ota_cli_cb m (cli l) = (cli l, inr tt) -> to_client m l = l.
Proof.
  intros Ho Hm. unfold to_client, client_ran. rewrite Hm. cbn [fst snd]. destruct l as [c w u d a k b o]. cbn in *. subst o.
  unfold since. rewrite drop_all. cbn. by rewrite !app_nil_r.
Qed.

Lemma zlen_fst {X Y} (l : list (X * Y)) : zlen (map fst l) = zlen l.
Proof. apply zlen_map. Qed.

(** A report that makes the client send the next packet. *)
Lemma next_packet c w a k t cur pg pend ps : sends DfuCli.DFU_STATE_CLI_VERIFICATION t cur c -> in_page img t cur -> at_end img t = false -> sending pg cur pend w -> 0 <= pg -> cur = PAGE * pg ->
  pend ++ concat ps = slice cur (t - cur) img ->
  stepped (measure (2 * (size - t) + 2) (mk_link c w (map (pair dat) ps) [] (dat :: a) k false None)) (to_client (DfuCli.WRITE_RSP dat 0) (mk_link c w (map (pair dat) ps) [] a k false None)).
Proof.
  intros Hc Hip He Hw Hg Hcur Hpe. destruct (DfuCliSpec.packet_in_page img Hsize Htail _ _ Hip He) as [Hn Hip']. set (n := packet_len img t) in *.
  destruct (client_took (DfuCli.WRITE_RSP dat 0) (sends DfuCli.DFU_STATE_CLI_VERIFICATION (t + n) cur) (after_packet img t cur) (mk_link c w (map (pair dat) ps) [] a k false None)) as (c' & Hc' & ->).
  { by apply (DfuCliSpec.sent_more img Hsize Htail). }
  cbn [cli srv up down acks confs closing]. unfold after_packet. fold n. cbv zeta. rewrite map_cons. cbn [fst].
  assert (map (pair dat) ps ++ (dat, slice t n img) :: (if at_end img (t + n) then [(ctl, Dfu.DFU_OPCODE_CRC_CHECK :: le_enc 2 (Crc.crc16 (slice cur (t + n - cur) img) 0))] else []) =
    map (pair dat) (ps ++ [slice t n img]) ++ (if at_end img (t + n) then [(ctl, command_crc cur (t + n))] else [])) as -> by (by rewrite map_app, <- app_assoc).
  apply (stepped_by _ (2 * (size - (t + n)) + 2)).
  - econstructor; try done; [|intros _; apply elem_of_app; right; by left]. rewrite concat_app, app_assoc, Hpe. cbn [concat]. rewrite app_nil_r.
    destruct Hip as (_ & P1 & _). replace t with (cur + (t - cur)) at 2 by lia. rewrite <- slice_app_split by lia. f_equal. lia.
  - unfold measure. cbn [up down acks confs]. rewrite !map_app, !sum_app, zlen_app, !zlen_cons, zlen_fst, zlen_nil. change (sum (map weight (map (pair dat) [slice t n img]))) with 1.
    assert (sum (map weight (if at_end img (t + n) then [(ctl, command_crc cur (t + n))] else [])) + zlen (if at_end img (t + n) then [(ctl, Dfu.DFU_OPCODE_CRC_CHECK :: le_enc 2 (Crc.crc16 (slice cur (t + n - cur) img) 0))] else []) <= 4) by (by destruct (at_end img (t + n))).
    lia.
Qed.

Lemma written_ok left l h a : at_phase left l -> acks l = h :: a -> stepped (measure left l) (to_client (DfuCli.WRITE_RSP h 0) (set_acks a l)).
Proof.
  intros [Hp Ho] Ha. destruct l as [c w u d a0 k b o]. cbn in Hp, Ho, Ha. subst o a0. unfold set_acks. cbn [cli srv up down acks confs closing over].
  assert (h <> dat \/ DfuCli.state (DfuCli.dfu_cli_env c) <> DfuCli.DFU_STATE_CLI_VERIFICATION \/ DfuCli.page_end (DfuCli.dfu_cli_env c) = true ->
    stepped (measure left (mk_link c w u d (h :: a) k b None)) (to_client (DfuCli.WRITE_RSP h 0) (mk_link c w u d a k b None))) as Hquiet.
  { intros Hh. rewrite client_quiet by (done || by apply DfuCliSpec.sent_nothing). apply (stepped_by _ left); [by eapply phase_ack|]. unfold measure. cbn [up down acks confs]. rewrite zlen_cons. lia. }
  destruct (phase_cli _ _ _ _ _ _ _ _ Hp) as [Hs|[Hs|(t & cur & pg & pend & ps & -> & Hc & Hip & He & Hw & Hg & Hcur & Hpe & -> & -> & ->)]]; [by apply Hquiet; right; left|by apply Hquiet; right; right|].
  destruct h; [by apply Hquiet; left| |by apply Hquiet; left]. by eapply next_packet.
Qed.

Definition cost (vs : list (att * list Z)) : Z := sum (map weight vs) + zlen vs.

(** An answer that makes the client write [vs]. *)
Lemma told_client left left' (P : DfuCli.world D -> Prop) vs op c w a k b : wp (fun _ _ => False) (DfuCli.ble_ota_cli_cb (answer_of op 0)) (fun _ c' => P c' /\ wrote vs (DfuCli.calls c) (DfuCli.calls c')) c ->
  (forall c', P c' -> phase left' c' w vs [] (a ++ map fst vs) k b) -> 4 * left' + cost vs <= 4 * left ->
  stepped (measure left (mk_link c w [] [ok op] a k b None)) (to_client (DfuCli.NTF_IND_RCV ctl (ok op)) (mk_link c w [] [] a k b None)).
Proof.
  intros Hw HP Hl. unfold cost in Hl. destruct (client_took (answer_of op 0) P vs (mk_link c w [] [] a k b None) Hw) as (c' & Hc' & Hstep). unfold answer_of in Hstep. unfold ok, Dfu.DFU_ERROR_NO_ERROR. rewrite Hstep.
  cbn [cli srv up down acks confs closing app]. apply (stepped_by _ left'); [by apply HP|]. unfold measure. cbn [up down acks confs map]. rewrite zlen_app, zlen_fst, zlen_cons, zlen_nil. change (sum []) with 0. lia.
Qed.

(** The server has taken a page: the next one begins, or the digest is sent. *)
Lemma page_done c w a k t cur pg : sends DfuCli.DFU_STATE_CLI_VERIFICATION t cur c -> in_page img t cur -> at_end img t = true -> sending (pg + 1) t [] w -> 0 <= pg -> cur = PAGE * pg ->
  stepped (measure (2 * (size - t) + 2) (mk_link c w [] [ok Dfu.DFU_OPCODE_CRC_CHECK] a k false None))
    (to_client (DfuCli.NTF_IND_RCV ctl (ok Dfu.DFU_OPCODE_CRC_CHECK)) (mk_link c w [] [] a k false None)).
Proof.
  intros Hc Hip He Hw Hg Hcur. pose proof Hip as (_ & P1 & _ & P3 & _). destruct (Z.eq_dec t size) as [->|Hne].
  - eapply (told_client _ 1); [by apply (DfuCliSpec.last_answer img _ cur)|intros c' Hc'; by eapply ph_digest_up|change (cost _) with 4; lia].
  - assert (t = PAGE * (pg + 1)) as Ht by (apply (DfuCliSpec.at_end_iff _ _ _ Hip) in He as [He|]; [unfold Dfu.FLASH_WRITE_SIZE in *; lia|done]).
    destruct (DfuCliSpec.next_page img Htail t) as (N1 & N2 & N3); [rewrite Ht; exists (pg + 1); lia|lia|].
    eapply (told_client _ (2 * (size - (t + T)) + 2)); [apply (DfuCliSpec.page_answer img Hsize Htail _ t cur); [done..|lia]| |change (cost _) with 2; change T with 128; lia].
    intros c' Hc'. pose proof (ph_page_up c' w (a ++ [dat]) k (t + T) t (pg + 1) [] [slice t T img] Hc' N2 Hw) as Hph. rewrite N3 in Hph. apply Hph; [lia|done| |].
    + cbn [concat app]. rewrite app_nil_r. f_equal. lia.
    + intros _. apply elem_of_app. right. by left.
Qed.

Lemma answered_ok left l v d : at_phase left l -> down l = v :: d -> stepped (measure left l) (to_client (DfuCli.NTF_IND_RCV ctl v) (set_down d l)).
Proof.
  intros [Hp Ho] Hd. destruct l as [c w u d0 a k b o]. cbn in Hp, Ho, Hd. subst o d0. unfold set_down. cbn [cli srv up down acks confs closing over].
  assert (forall x, last_answer c x -> x = v :: d -> v = ok Dfu.DFU_OPCODE_REBOOT /\ d = [] /\ sends DfuCli.DFU_STATE_CLI_REBOOT size size c) as Hlast by (by intros x [? Hc|]; intros [= <- <-]).
  inversion Hp; subst.
  - eapply (told_client _ (2 * size + 3)); [by apply DfuCliSpec.mode_answer|intros c' Hc'; by apply ph_size_up|change (cost _) with 4; lia].
  - eapply (told_client _ (2 * size + 2)); [by apply DfuCliSpec.size_answer|intros c' Hc'; by apply ph_start_up|change (cost _) with 4; lia].
  - destruct (DfuCliSpec.next_page img Htail 0) as (N1 & N2 & N3); [by exists 0|lia|]. change (0 + T) with T in N1, N2, N3.
    eapply (told_client _ (2 * (size - T) + 2)); [by apply DfuCliSpec.start_answer| |change (cost _) with 2; unfold T; lia].
    intros c' Hc'. pose proof (ph_page_up c' w (a ++ [dat]) k T 0 0 [] [slice 0 T img] Hc' N2) as Hph. rewrite N3 in Hph. apply Hph; try done; [cbn [concat app]; by rewrite app_nil_r|]. intros _. apply elem_of_app. right. by left.
  - by eapply page_done.
  - eapply (told_client _ 0); [by eapply DfuCliSpec.verification_answer|intros c' Hc'; by apply ph_reboot_up|done].
  - destruct (Hlast _ ltac:(eassumption) eq_refl) as (-> & -> & Hc). eapply (told_client _ 0); [by eapply DfuCliSpec.reboot_answer| |done]. intros c' Hc'. cbn [map]. rewrite app_nil_r. apply ph_reboot_down; [by constructor|done|done].
  - destruct (Hlast _ ltac:(eassumption) eq_refl) as (-> & -> & Hc). eapply (told_client _ 0); [by eapply DfuCliSpec.reboot_answer| |done]. intros c' Hc'. cbn [map]. rewrite app_nil_r. apply ph_closing; [by constructor|done].
Qed.

(** ** All that can happen *)

Lemma closed_ok left l : at_phase left l -> closing l = true ->
  let l1 := to_client (DfuCli.CONN_STATE_CHANGE 0 false) l in
  over l1 = None /\ over (to_server (Dfu.CONN_STATE_CHANGE false) l1) = Some Dfu.SysTimer_SoftwareReset /\ updated (srv (to_server (Dfu.CONN_STATE_CHANGE false) l1)).
Proof.
  intros [Hp Ho] Hb. destruct l as [c w u d a k b o]. cbn in Hp, Ho, Hb. subst o b. cbv zeta.
  assert (last_answer c d /\ passed Dfu.DFU_STATE_SRV_DISCONNECTING w) as [Hl Hw] by (by inversion Hp).
  assert (idle c \/ (exists st t cur, sends st t cur c)) as Hc by (destruct Hl as [? Hl|? Hl]; [right; by eexists _, _, _|by left]).
  pose proof (DfuCliSpec.cli_disconnected img (fun _ _ => False) 0 c Hc) as Hd. unfold wp in Hd. destruct (DfuCli.ble_ota_cli_cb (DfuCli.CONN_STATE_CHANGE 0 false) c) as [c' [e|[]]] eqn:Ec; [done|].
  assert (exists u2 a2, to_client (DfuCli.CONN_STATE_CHANGE 0 false) (mk_link c w u d a k true None) = mk_link c' w u2 d a2 k true None) as (u2 & a2 & ->).
  { unfold to_client, client_ran. cbn [cli]. rewrite Ec. by eexists _, _. }
  split; [done|]. pose proof (DfuRun.disconnected_ok r Hr img s m0 Hrunning (fun e w' => e = Dfu.SysTimer_SoftwareReset /\ updated w') w ltac:(done) Hw) as Hs. unfold wp in Hs.
  unfold to_server. cbn [srv]. unfold server_ran. destruct (handle _ w) as [w' [e|[]]]; [|done]. by destruct Hs as [-> Hs].
Qed.

Lemma move_ok left l t l' : at_phase left l -> move t l = Some l' -> stepped (measure left l) l'.
Proof.
  intros Hl. unfold move. rewrite (proj2 Hl). destruct t.
  - destruct (up l) as [|[h v] u] eqn:Eu; [done|]. intros [= <-]. by apply delivered_ok.
  - destruct (down l) as [|v d] eqn:Ed; [done|]. intros [= <-]. by apply answered_ok.
  - destruct (acks l) as [|h a] eqn:Ea; [done|]. intros [= <-]. by apply written_ok.
  - destruct (confs l) as [|k] eqn:Ek; [done|]. intros [= <-]. by apply indicated_ok.
  - destruct (closing l) eqn:Ec; [|done]. destruct (closed_ok _ _ Hl Ec) as (H1 & H2 & H3). cbv zeta. rewrite H1. intros [= <-]. by right.
Qed.

Lemma move_some left l : at_phase left l -> exists t l', move t l = Some l'.
Proof.
  intros [Hp Ho]. destruct l as [c w u d a k b o]. cbn in Hp, Ho. subst o.
  assert (u <> [] \/ d <> [] \/ a <> [] \/ k <> 0%nat \/ b = true) as Hsome.
  { inversion Hp as [| | | | | |? ? ? ? t ? ? ? ps ? ? ? ? ? ? Ha| | | | | | ]; subst; try (by left); try (by right; left); try (by right; right; right; left); try (by right; right; right; right).
    destruct (at_end img t); [left; by destruct ps|]. right. right. left. intros ->. by apply not_elem_of_nil in Ha. }
  destruct Hsome as [H|[H|[H|[H| ->]]]].
  - destruct u as [|[h v] u]; [done|]. by exists To_server; eexists.
  - destruct d as [|v d]; [done|]. by exists To_client; eexists.
  - destruct a as [|h a]; [done|]. by exists Written; eexists.
  - destruct k; [done|]. by exists Indicated; eexists.
  - exists Disconnected. unfold move. cbn [over closing]. destruct (over _); by eexists.
Qed.

Lemma measure_pos left l : at_phase left l -> 0 < measure left l.
Proof.
  intros [Hp _]. assert (0 <= left) as Hl by (inversion Hp as [| | | | | |? ? ? ? ? ? ? ? ? ? Hip|? ? ? ? ? ? ? ? Hip| | | | | ]; try lia; unfold in_page in Hip; lia).
  assert (forall u, 0 <= sum (map weight u)) as Hw.
  { intros us. induction us as [|[[] v] us IH]; cbn [map]; [done|..]; change (sum (?x :: ?l)) with (x + sum l); change (weight _) with 3 || change (weight _) with 1; lia. }
  unfold measure. specialize (Hw (up l)). pose proof (zlen_nonneg (down l)). pose proof (zlen_nonneg (acks l)). lia.
Qed.

(** Whatever happens, it is over after a bounded number of steps, with the update done. *)
Lemma moves_ok ts : forall left l l', at_phase left l -> moves ts l = Some l' ->
  zlen ts <= measure left l /\ match over l' with None => exists t l2, move t l' = Some l2 | Some e => e = Dfu.SysTimer_SoftwareReset /\ updated (srv l') end.
Proof.
  induction ts as [|t ts IH]; intros left l l' Hl Hm; cbn [moves] in Hm.
  - injection Hm as <-. pose proof (measure_pos _ _ Hl). rewrite (proj2 Hl). split; [rewrite zlen_nil; lia|by eapply move_some].
  - destruct (move t l) as [l1|] eqn:E1; [|done]. rewrite zlen_cons. destruct (move_ok _ _ _ _ Hl E1) as [(left1 & Hl1 & Hlt)|[Ho Hu]].
    + destruct (IH _ _ _ Hl1 Hm) as [Hz Hr1]. split; [lia|done].
    + pose proof (measure_pos _ _ Hl). destruct ts as [|t2 ts]; cbn [moves] in Hm; [|unfold move in Hm; by rewrite Ho in Hm]. injection Hm as <-. rewrite Ho. split; [rewrite zlen_nil; lia|done].
Qed.

(** Some order ends the update. *)
Lemma moves_end n : forall left l, at_phase left l -> measure left l <= Z.of_nat n -> exists ts l', moves ts l = Some l' /\ over l' = Some Dfu.SysTimer_SoftwareReset.
Proof.
  induction n as [|n IH]; intros left l Hl Hn; [pose proof (measure_pos _ _ Hl); lia|]. destruct (move_some _ _ Hl) as (t & l1 & E1). destruct (move_ok _ _ _ _ Hl E1) as [(left1 & Hl1 & Hlt)|[Ho _]].
  - destruct (IH _ _ Hl1 ltac:(lia)) as (ts & l' & Em & Ho). exists (t :: ts), l'. cbn [moves]. by rewrite E1.
  - exists [t], l1. cbn [moves]. by rewrite E1.
Qed.

Lemma link_begins c w : idle c -> fresh w -> at_phase (2 * size + 4) (begin size c w) /\ measure (2 * size + 4) (begin size c w) = 8 * size + 21.
Proof.
  intros Hc Hw.
  destruct (client_did (DfuCli.app_ble_dfu_start 0 size) (asked DfuCli.DFU_STATE_CLI_MODE_SET) [(ctl, [Dfu.DFU_OPCODE_MODE; Dfu.DFU_MODE_BLE])] (mk_link c w [] [] [] 0 false None)) as (c' & Hc' & Hstep);
    [by apply DfuCliSpec.cli_start|]. change (begin size c w = mk_link c' w [(ctl, [Dfu.DFU_OPCODE_MODE; Dfu.DFU_MODE_BLE])] [] [ctl] 0 false None) in Hstep. rewrite Hstep. cbn [cli srv up down acks confs closing app map fst]. split; [by split; [constructor|]|].
  unfold measure. cbn [up down acks confs map]. change (sum _) with 3. change (zlen [ctl]) with 1. change (zlen (@nil (list Z))) with 0. lia.
Qed.

End Phases.
End DfuLinkSpec.
