(* ===== verification/DfuLinkProps.v ===== *)
(** * The firmware update over Bluetooth: theorems about two devices

    An update from one device to another ends in the reset of the second with the image of the
    first, in whatever order the two and their hosts take their turns; but an image whose last
    page is not longer than a packet is never sent to its end. *)
From S2P Require Import Prelude Flash RawFlash Boot BootSpec Board BootProps Ota OtaSpec Update Dfu DfuSpec DfuRun DfuProps DfuCli DfuCliSpec DfuCliAny DfuLink DfuLinkSpec.
Open Scope Z_scope.

Module DfuLinkProps.
Import Boot BootSpec BootProps OtaSpec DfuSpec DfuRun DfuLink DfuLinkSpec.
Import DfuCli(Host).
Import DfuCliSpec(HostLaws).

Section Devices.
Context {E : Dfu.Env} {S : ShaLaws E} {A : Host} {L : HostLaws A} {D : Type} {HRom : Rom D} {HLaws : RomLaws D} {HSys : SysRom D} {HSysLaws : SysRomLaws D}.
Context (malloc_works : forall h n, Dfu.sys_malloc h n <> 0).
Context (param_update_works : forall l, Dfu.answer (l ++ [Dfu.ble_conn_param_update_req 0 Dfu.BLE_CONN_OTA_INTV Dfu.BLE_CONN_OTA_LATENCY Dfu.BLE_CONN_OTA_SUPV_TOUT]) = 0).
Context (disconnect_works : forall l, Dfu.answer (l ++ [Dfu.ble_conn_disconnect 0]) = 0).
Context (good : D -> Prop) (Hsound : forall s, sound RE_IMG_0_OFFSET RE_IMG_1_END (fun d => good d /\ sys_of d = s)).

(** An image the client can send and the server can take: a sector of the slot stays free, and
    the last page is full or longer than a packet. *)
Record sendable (img : list Z) : Prop := {
  sn_bytes : bytes img;
  sn_size : 0 < zlen img <= slot_size;
  sn_room : zlen img + PAGE <= slot_size;
  sn_tail : zlen img mod PAGE = 0 \/ T < zlen img mod PAGE
}.

(** Such an update can be played to its end. *)
Lemma link_ends c w r img : DfuCliSpec.idle img c -> DfuProps.idle good r w -> sendable img -> exists ts l, moves ts (begin (zlen img) c w) = Some l /\ over l = Some Dfu.SysTimer_SoftwareReset.
Proof.
  intros Hc [He Hi Hr Hg Hb Hcb] [Hby Hz Hroom Htail]. set (s := sys_of (dev (Dfu.flash w))) in *. set (m0 := mem (Dfu.flash w)).
  destruct (link_begins good r img s m0 c w Hc) as [Hph Hms]; [by split|].
  apply (moves_end malloc_works param_update_works disconnect_works good Hsound r Hi img Hby s m0 Hr Hz Hroom Htail (Z.to_nat (8 * zlen img + 21)) _ _ Hph). rewrite Hms. lia.
Qed.

(** C11: an update from one device to another, in whatever order writes, answers and their
    reports arrive, is over after a bounded number of steps, is never stuck before, and ends
    only in the reset of the server, which then boots the image of the client. The image leaves a sector of the slot
    free, its last page is full or longer than a packet, and the check of the ROM accepts it with a version that is not below the
    counter; the connection stays and loses nothing, no timer expires, memory is there, the calls of the stack succeed and the flash of the
    server does not fail. *)
Theorem link_update_boots RE_MBL_OFFSET uninit ibl c w r img ver ts l : opt_ok RE_MBL_OFFSET (u8 (default 0 ibl)) ->
  DfuCliSpec.idle img c -> DfuProps.idle good r w -> sendable img ->
  Update.valid_image (D := D) RE_MBL_OFFSET uninit ibl (other r) img ver -> counter (sys_of (dev (Dfu.flash w))) <= ver ->
  moves ts (begin (zlen img) c w) = Some l ->
  zlen ts <= 8 * zlen img + 21 /\
  match over l with
  | None => exists t l2, move t l = Some l2
  | Some e => e = Dfu.SysTimer_SoftwareReset /\
      exists f4, boots RE_MBL_OFFSET uninit ibl 0 (reset (Dfu.flash (srv l))) = (Jump (FLASH_BASE + (RE_IMG_0_OFFSET + IMG_OVERHEAD_LEN RE_MBL_OFFSET)), f4) /\
        running (sys_of (dev f4)) = Some (other r) /\
        (forall i, 0 <= i < zlen img -> rom_mem (dev f4) (phys (fmc f4) (RE_IMG_0_OFFSET + i)) = nthb img i)
  end.
Proof.
  intros Hopt Hc [He Hi Hr Hg Hb Hcb] [Hby Hz Hroom Htail] Hval Hcnt Hm. set (s := sys_of (dev (Dfu.flash w))) in *. set (m0 := mem (Dfu.flash w)).
  destruct (link_begins good r img s m0 c w Hc) as [Hph Hms]; [by split|].
  destruct (moves_ok malloc_works param_update_works disconnect_works good Hsound r Hi img Hby s m0 Hr Hz Hroom Htail ts _ _ _ Hph Hm) as [Hl Ho]. rewrite Hms in Hl. split; [done|].
  destruct (over l) as [e|]; [|done]. destruct Ho as [-> Hu]. split; [done|]. apply (DfuProps.updated_device_boots _ _ _ r img ver s m0); try done; lia.
Qed.

(** C15: an image whose last page is shorter than a packet is never verified: whatever the server
    answers and whatever the host reports, the client never sends the digest. *)
Theorem small_tail_never_verified conn size evs (c : DfuCli.world D) : DfuCli.dfu_cli_env c = DfuCli.zero_env ->
  0 <= size < 2 ^ 32 -> 0 < size mod PAGE < T ->
  exists ks, DfuCli.calls ((DfuCli.app_ble_dfu_start conn size ;;; DfuCliAny.run evs) c).1 = DfuCli.calls c ++ ks /\ existsb DfuCliAny.verifies ks = false.
Proof.
  intros He Hz Ht. pose proof (DfuCliAny.begin_inv size (DfuCli.calls c) conn c eq_refl He) as Hb.
  assert (wp (DfuCliAny.stops (DfuCli.calls c)) (DfuCli.app_ble_dfu_start conn size ;;; DfuCliAny.run evs) (fun _ => DfuCliAny.inv size (DfuCli.calls c)) c) as Hw.
  { eapply wp_bind; [exact Hb|]. intros ? c' Hc'. by apply DfuCliAny.cli_run_inv. }
  unfold wp in Hw. destruct ((DfuCli.app_ble_dfu_start conn size ;;; DfuCliAny.run evs) c) as [c' [e|u]]; [exact Hw|exact (proj1 Hw)].
Qed.

End Devices.
(** ** Two boards *)

Import Board.

#[local] Instance board_host : Host := fun _ => 0.
#[local] Instance board_host_laws : HostLaws board_host.
Proof. by split. Qed.
#[local] Existing Instances DfuProps.board_env DfuProps.board_sha.

(** A board that runs image 0 and has [img] in its second slot. *)
Definition sender (img : list Z) : DfuCli.world board :=
  DfuCli.mk_world (RawFlash.mk_world (mk_board (RawFlash.mk_chip (fun i => nthb img (i - RE_IMG_1_OFFSET)) false []) (mk_sys (Some 0xB) None (Some 0) 3)) RawFlash.regs_image0 [] [])
    DfuCli.zero_env ∅ [] true.

Lemma sender_idle img : bytes img -> DfuCliSpec.idle img (sender img).
Proof.
  intros Hb. split; [done|]. split; [by left| |done]. apply list_eq_nthb; rewrite zlen_mem_slice by apply zlen_nonneg; [done|].
  intros i Hi. rewrite nthb_mem_slice by done. change (u8 (nthb img (RE_IMG_1_OFFSET + i - RE_IMG_1_OFFSET)) = nthb img i).
  replace (RE_IMG_1_OFFSET + i - RE_IMG_1_OFFSET) with i by lia. by apply wrap_small, bytes_nthb.
Qed.

Lemma sendable_image : sendable (Update.image 0x5A 4).
Proof. split; [apply Update.image_bytes; lia|rewrite Update.zlen_image..]; [by vm_compute|by vm_compute|by right; vm_compute]. Qed.

Lemma link_update_boots_witness : exists ts l, moves ts (begin 600 (sender (Update.image 0x5A 4)) (DfuProps.waiting Update.running0)) = Some l /\
  over l = Some Dfu.SysTimer_SoftwareReset /\
  exists f4, boots 0x1000 0 (Some IBL_VERIFY_IMG_ONLY) 0 (reset (Dfu.flash (srv l))) = (Jump (FLASH_BASE + (RE_IMG_0_OFFSET + IMG_OVERHEAD_LEN 0x1000)), f4) /\
    running (sys_of (dev f4)) = Some (other 0) /\
    (forall i, 0 <= i < 600 -> rom_mem (dev f4) (phys (fmc f4) (RE_IMG_0_OFFSET + i)) = nthb (Update.image 0x5A 4) i).
Proof.
  pose proof (sender_idle (Update.image 0x5A 4) (sn_bytes _ sendable_image)) as Hc.
  destruct (link_ends DfuProps.board_malloc ltac:(done) ltac:(done) Update.board_good Update.board_sound _ _ 0 _ Hc DfuProps.running0_idle sendable_image) as (ts & l & Em & Ho).
  exists ts, l. split; [exact Em|]. split; [exact Ho|].
  destruct (link_update_boots DfuProps.board_malloc ltac:(done) ltac:(done) Update.board_good Update.board_sound 0x1000 0 (Some IBL_VERIFY_IMG_ONLY)
    _ _ 0 (Update.image 0x5A 4) 4 ts l rom_checks Hc DfuProps.running0_idle sendable_image) as [_ H]; [|by vm_compute|exact Em|].
  - intros m Hm. exact (Update.board_verdict m 0x5A 4 Hm).
  - rewrite Ho in H. exact (proj2 H).
Defined.

Lemma small_tail_never_verified_witness : exists ks,
  DfuCli.calls ((DfuCli.app_ble_dfu_start 0 4100 ;;; DfuCliAny.run [DfuCliAny.Message (DfuCliSpec.answer_of 0 0); DfuCliAny.Timeout]) (sender [])).1 = [] ++ ks /\ existsb DfuCliAny.verifies ks = false.
Proof. apply (small_tail_never_verified 0 4100 _ (sender [])); [done|lia|by vm_compute]. Defined.

End DfuLinkProps.
