(* ===== verification/Wl.v ===== *)
(** * Wear levelling

    [src/gd32_os/MSDK/FatFS/port/wear_levelling_flash.c] and the functions of
    [FatFS/port/fatfs.c] by which the file system reads, writes and erases sectors through
    it. One page more than there are sectors is kept free; each erase first moves the next
    page into it, so that the sectors rotate through the flash. *)
From S2P Require Import Prelude Flash.
Open Scope Z_scope.
Open Scope fw_scope.

Module Wl.

Record wl_state_t := mk_state {
  pos : Z; max_pos : Z; move_count : Z; block_size : Z; version : Z; crc : Z
}.
Record wl_config_t := mk_config {
  start_addr : Z; full_mem_size : Z; page_size : Z; sector_size : Z; wr_size : Z; cfg_version : Z;
  temp_buff_size : Z; cfg_crc : Z
}.
Record wl_flash_t := mk_wl {
  state : wl_state_t; cfg : wl_config_t; addr_cfg : Z; addr_state1 : Z; addr_state2 : Z;
  flash_size : Z; state_size : Z; cfg_size : Z; temp_buff : option (list Z); dummy_addr : Z
}.

Definition set_state (s : wl_state_t) (l : wl_flash_t) : wl_flash_t :=
  mk_wl s (cfg l) (addr_cfg l) (addr_state1 l) (addr_state2 l) (flash_size l) (state_size l) (cfg_size l) (temp_buff l) (dummy_addr l).
Definition set_cfg (c : wl_config_t) (l : wl_flash_t) : wl_flash_t :=
  mk_wl (state l) c (addr_cfg l) (addr_state1 l) (addr_state2 l) (flash_size l) (state_size l) (cfg_size l) (temp_buff l) (dummy_addr l).
Definition set_sizes (a a1 a2 f s c : Z) (l : wl_flash_t) : wl_flash_t :=
  mk_wl (state l) (cfg l) a a1 a2 f s c (temp_buff l) (dummy_addr l).
Definition set_temp_buff (b : option (list Z)) (l : wl_flash_t) : wl_flash_t :=
  mk_wl (state l) (cfg l) (addr_cfg l) (addr_state1 l) (addr_state2 l) (flash_size l) (state_size l) (cfg_size l) b (dummy_addr l).
Definition set_dummy_addr (a : Z) (l : wl_flash_t) : wl_flash_t :=
  mk_wl (state l) (cfg l) (addr_cfg l) (addr_state1 l) (addr_state2 l) (flash_size l) (state_size l) (cfg_size l) (temp_buff l) a.
Definition set_pos (p : Z) (s : wl_state_t) : wl_state_t := mk_state p (max_pos s) (move_count s) (block_size s) (version s) (crc s).
Definition set_move_count (n : Z) (s : wl_state_t) : wl_state_t := mk_state (pos s) (max_pos s) n (block_size s) (version s) (crc s).
Definition set_crc (c : Z) (s : wl_state_t) : wl_state_t := mk_state (pos s) (max_pos s) (move_count s) (block_size s) (version s) c.

(** ** The structures in memory: little-endian words *)

Definition to_bytes (ws : list Z) : list Z := concat (map (le_enc 4) ws).
Fixpoint to_words (n : nat) (l : list Z) : list Z :=
  match n with O => [] | S n => le_dec (take 4 l) :: to_words n (drop 4 l) end.

Definition state_words (s : wl_state_t) : list Z := [pos s; max_pos s; move_count s; block_size s; version s].
Definition state_bytes (s : wl_state_t) : list Z := to_bytes (state_words s ++ [crc s]).
Definition bytes_state (l : list Z) : wl_state_t :=
  match to_words 6 l with [a; b; c; d; e; f] => mk_state a b c d e f | _ => mk_state 0 0 0 0 0 0 end.
Definition config_words (c : wl_config_t) : list Z :=
  [start_addr c; full_mem_size c; page_size c; sector_size c; wr_size c; cfg_version c; temp_buff_size c].
Definition config_bytes (c : wl_config_t) : list Z := to_bytes (config_words c ++ [cfg_crc c]).
Definition SIZEOF_STATE : Z := 24.
Definition SIZEOF_CONFIG : Z := 32.

Section Wl.
Context {F : Type} {fl : Flash F}.

(** The CRC unit, from its reset, over words. *)
Context (crc_block_data_calculate : list Z -> Z).

Record world := mk_world { flash : F; wl_flash : wl_flash_t }.
Abbreviation K := (M world Z).

Definition wl_calculate_crc (ws : list Z) : Z := crc_block_data_calculate ws.

(** ** The flash. A call that fails ends its caller with its number. *)

Definition wl : K wl_flash_t := let! w := get in ret (wl_flash w).
Definition wl_mod (f : wl_flash_t -> wl_flash_t) : K unit := modify (fun w => mk_world (flash w) (f (wl_flash w))).
Definition state_mod (f : wl_state_t -> wl_state_t) : K unit := wl_mod (fun l => set_state (f (state l)) l).

Definition wl_flash_write_int (offset : Z) (data : list Z) : K unit := fun w =>
  let '(r, f) := flash_write (flash w) offset data in
  (mk_world f (wl_flash w), if r =? 0 then inr tt else inl r).
Definition wl_flash_read_int (offset len : Z) : K (list Z) := fun w =>
  let '(r, d, f) := flash_read (flash w) offset len in
  (mk_world f (wl_flash w), if r =? 0 then inr d else inl r).
Definition raw_flash_erase (offset len : Z) : K unit := fun w =>
  let '(r, f) := flash_erase (flash w) offset len in
  (mk_world f (wl_flash w), if r =? 0 then inr tt else inl r).

(** [f] for the [n] numbers from [i]. *)
Fixpoint for_loop (n : nat) (i : Z) (f : Z -> K unit) : K unit :=
  match n with O => ret tt | S n => f i ;;; for_loop n (i + 1) f end.

(** Where an address of the file system is, past the free page. *)
Definition wl_flash_calc_addr (l : wl_flash_t) (addr : Z) : Z :=
  let pa := u32 (u32 (flash_size l - u32 (move_count (state l) * page_size (cfg l))) + addr) mod flash_size l in
  let dummy_addr := u32 (pos (state l) * page_size (cfg l)) in
  if dummy_addr <=? pa then u32 (pa + page_size (cfg l)) else pa.

Definition wl_flash_erase_raw (start_address size : Z) : K unit :=
  let! l := wl in
  let sector_count := size / sector_size (cfg l) in
  for_loop (Z.to_nat sector_count) 0 (fun i =>
    raw_flash_erase (u32 (start_address + u32 (i * sector_size (cfg l)))) (sector_size (cfg l))).

Definition wl_flash_init_sections : K unit :=
  wl_mod (fun l =>
    let s := mk_state 0 (u32 (1 + flash_size l / page_size (cfg l))) 0 (page_size (cfg l)) (cfg_version (cfg l)) (crc (state l)) in
    set_state (set_crc (wl_calculate_crc (state_words s)) s) l) ;;;
  let! l := wl in
  wl_flash_erase_raw (addr_state1 l) (state_size l) ;;;
  wl_flash_write_int (addr_state1 l) (state_bytes (state l)) ;;;
  wl_flash_erase_raw (addr_state2 l) (state_size l) ;;;
  wl_flash_write_int (addr_state2 l) (state_bytes (state l)) ;;;
  wl_flash_erase_raw (addr_cfg l) (cfg_size l) ;;;
  wl_flash_write_int (addr_cfg l) (config_bytes (cfg l)).

(** The first position that is not marked as used. *)
Fixpoint recover_loop (n : nat) (i : Z) : K unit :=
  match n with
  | O => ret tt
  | S n =>
      let! l := wl in
      let! b := wl_flash_read_int (u32 (addr_state1 l + SIZEOF_STATE + u32 (i * wr_size (cfg l)) / 8)) 1 in
      if nthb b 0 =? 0xff then state_mod (set_pos i) else recover_loop n (i + 1)
  end.
Definition wl_flash_recover_pos : K unit :=
  let! l := wl in
  recover_loop (Z.to_nat (max_pos (state l))) 0 ;;;
  state_mod (fun s => if pos s =? max_pos s then set_pos (u32 (pos s - 1)) s else s).

(** The page after the free one is moved into it, and is the free one then. *)
Definition wl_flash_updatewl : K unit :=
  let! l := wl in
  let data := if max_pos (state l) <=? u32 (pos (state l) + 1) then 0 else u32 (pos (state l) + 1) in
  let copy_count := page_size (cfg l) / temp_buff_size (cfg l) in
  let data_addr := u32 (start_addr (cfg l) + u32 (data * page_size (cfg l))) in
  let dummy := u32 (start_addr (cfg l) + u32 (pos (state l) * page_size (cfg l))) in
  wl_mod (set_dummy_addr dummy) ;;;
  wl_flash_erase_raw dummy (page_size (cfg l)) ;;;
  for_loop (Z.to_nat copy_count) 0 (fun i =>
    let! d := wl_flash_read_int (u32 (data_addr + u32 (i * temp_buff_size (cfg l)))) (temp_buff_size (cfg l)) in
    wl_mod (set_temp_buff (Some d)) ;;;
    wl_flash_write_int (u32 (dummy + u32 (i * temp_buff_size (cfg l)))) d) ;;;
  let byte_pos := u32 (pos (state l) * wr_size (cfg l)) / 8 in
  wl_flash_write_int (u32 (addr_state1 l + SIZEOF_STATE + byte_pos)) [1] ;;;
  wl_flash_write_int (u32 (addr_state2 l + SIZEOF_STATE + byte_pos)) [1] ;;;
  state_mod (fun s => set_pos (u32 (pos s + 1)) s) ;;;
  let! l := wl in
  if max_pos (state l) <=? pos (state l) then
    state_mod (fun s => set_move_count (u32 (move_count s + 1)) (set_pos 0 s)) ;;;
    state_mod (fun s => if max_pos s - 1 <=? move_count s then set_move_count 0 s else s) ;;;
    state_mod (fun s => set_crc (wl_calculate_crc (state_words s)) s) ;;;
    let! l := wl in
    wl_flash_erase_raw (addr_state1 l) (state_size l) ;;;
    wl_flash_write_int (addr_state1 l) (state_bytes (state l)) ;;;
    wl_flash_erase_raw (addr_state2 l) (state_size l) ;;;
    wl_flash_write_int (addr_state2 l) (state_bytes (state l))
  else ret tt.

Definition wl_flash_erase_sector (sector : Z) : K unit :=
  wl_flash_updatewl ;;;
  let! l := wl in
  let virt_addr := wl_flash_calc_addr l (u32 (sector * sector_size (cfg l))) in
  raw_flash_erase (u32 (start_addr (cfg l) + virt_addr)) (sector_size (cfg l)).

Definition wl_flash_erase_range (start_address size : Z) : K unit :=
  let! l := wl in
  let erase_count := u32 (u32 (size + sector_size (cfg l)) - 1) / sector_size (cfg l) in
  let start_sector := start_address / sector_size (cfg l) in
  for_loop (Z.to_nat erase_count) 0 (fun i => wl_flash_erase_sector (u32 (start_sector + i))).

(** One copy of the state is written anew from the other, and its marks. *)
Definition copy_state (from to : Z) (s : wl_state_t) : K unit :=
  let! l := wl in
  wl_flash_erase_raw to (state_size l) ;;;
  wl_flash_write_int to (state_bytes s) ;;;
  for_loop (Z.to_nat (u32 (full_mem_size (cfg l) / sector_size (cfg l) * wr_size (cfg l)) / 8)) 0 (fun i =>
    let! b := wl_flash_read_int (u32 (from + SIZEOF_STATE + i)) 1 in
    if negb (nthb b 0 =? 0xff) then wl_flash_write_int (u32 (to + SIZEOF_STATE + i)) [nthb b 0] else ret tt).

(** The sizes and places of what is kept besides the sectors. *)
Definition layout (c : wl_config_t) (l : wl_flash_t) : wl_flash_t :=
  let marks := SIZEOF_STATE + u32 (full_mem_size c / sector_size c * wr_size c) / 8 in
  let state_size := if sector_size c <? marks then u32 ((marks + sector_size c - 1) / sector_size c * sector_size c) else sector_size c in
  let cfg_size := u32 ((SIZEOF_CONFIG + sector_size c - 1) / sector_size c * sector_size c) in
  let used := u32 (full_mem_size c - state_size * 2 - cfg_size) in
  set_sizes (u32 (start_addr c + full_mem_size c - cfg_size))
    (u32 (start_addr c + full_mem_size c - state_size * 2 - cfg_size))
    (u32 (start_addr c + full_mem_size c - state_size * 1 - cfg_size))
    (u32 (u32 (used / page_size c - 1) * page_size c)) state_size cfg_size l.

(** A damaged copy of the state is repaired, a new flash set up. *)
Definition check_copies (sa_copy : wl_state_t) : K unit :=
  let! l := wl in
  let crc1 := wl_calculate_crc (state_words (state l)) in
  let crc2 := wl_calculate_crc (state_words sa_copy) in
  if (crc1 =? crc (state l)) && (crc2 =? crc sa_copy) then
    if negb (version (state l) =? cfg_version (cfg l)) then wl_flash_init_sections ;;; wl_flash_recover_pos
    else
      (if negb (crc1 =? crc2) then copy_state (addr_state1 l) (addr_state2 l) (state l) else ret tt) ;;;
      catch wl_flash_recover_pos ;;; ret tt
  else if negb (crc1 =? crc (state l)) && negb (crc2 =? crc sa_copy) then
    wl_flash_init_sections ;;; wl_flash_recover_pos
  else
    (if crc1 =? crc (state l) then
       copy_state (addr_state1 l) (addr_state2 l) (state l) ;;;
       let! d := wl_flash_read_int (addr_state2 l) SIZEOF_STATE in
       wl_mod (set_state (bytes_state d))
     else
       copy_state (addr_state2 l) (addr_state1 l) sa_copy ;;;
       let! d := wl_flash_read_int (addr_state1 l) SIZEOF_STATE in
       wl_mod (set_state (bytes_state d)) ;;;
       state_mod (fun s => set_pos (u32 (max_pos s - 1)) s)) ;;;
    let! l := wl in
    if negb (version (state l) =? cfg_version (cfg l)) then wl_flash_init_sections else ret tt.

(** Both copies of the state are read. *)
Definition load_state : K unit :=
  let! l := wl in
  let! d1 := wl_flash_read_int (addr_state1 l) SIZEOF_STATE in
  wl_mod (set_state (bytes_state d1)) ;;;
  let! d2 := wl_flash_read_int (addr_state2 l) SIZEOF_STATE in
  check_copies (bytes_state d2).

(** [temp]: what the allocator gives for the buffer. On failure the buffer is freed and its address kept. *)
Definition wl_flash_config (temp : option (list Z)) : M world Empty_set Z := fun w =>
  let c := cfg (wl_flash w) in
  let w := mk_world (flash w) (set_cfg (mk_config (start_addr c) (full_mem_size c) (page_size c) (sector_size c) (wr_size c)
    (cfg_version c) (temp_buff_size c) (wl_calculate_crc (config_words c))) (wl_flash w)) in
  let fails r w := (w, inr r) in
  if negb (sector_size c mod temp_buff_size c =? 0) then fails (-1) w
  else if page_size c <? sector_size c then fails (-1) w
  else
    let w := mk_world (flash w) (set_temp_buff temp (wl_flash w)) in
    match temp with
    | None => fails (-1) w
    | Some _ =>
        match load_state (mk_world (flash w) (layout c (wl_flash w))) with
        | (w, inl r) => fails r w
        | (w, inr _) => (w, inr 0)
        end
    end.

Definition wl_flash_write (dest_addr : Z) (src : list Z) (size : Z) : K unit :=
  let! l := wl in
  let p := page_size (cfg l) in
  let count := u32 (size - 1) / p in
  for_loop (Z.to_nat count) 0 (fun i =>
    let virt_addr := wl_flash_calc_addr l (u32 (dest_addr + u32 (i * p))) in
    wl_flash_write_int (u32 (start_addr (cfg l) + virt_addr)) (slice (i * p) p src)) ;;;
  let virt_addr_last := wl_flash_calc_addr l (u32 (dest_addr + u32 (count * p))) in
  wl_flash_write_int (u32 (start_addr (cfg l) + virt_addr_last)) (slice (count * p) (size - count * p) src).

Fixpoint read_loop (n : nat) (i src_addr : Z) : K (list Z) :=
  match n with
  | O => ret []
  | S n =>
      let! l := wl in
      let virt_addr := wl_flash_calc_addr l (u32 (src_addr + u32 (i * page_size (cfg l)))) in
      let! d := wl_flash_read_int (u32 (start_addr (cfg l) + virt_addr)) (page_size (cfg l)) in
      let! r := read_loop n (i + 1) src_addr in
      ret (d ++ r)
  end.
Definition wl_flash_read (src_addr size : Z) : K (list Z) :=
  if size <? 1 then err (-1)
  else
    let! l := wl in
    let p := page_size (cfg l) in
    let count := (size - 1) / p in
    let! d := read_loop (Z.to_nat count) 0 src_addr in
    let virt_addr_last := wl_flash_calc_addr l (u32 (src_addr + u32 (count * p))) in
    let! r := wl_flash_read_int (u32 (start_addr (cfg l) + virt_addr_last)) (size - count * p) in
    ret (d ++ r).

(** ** The sectors of the file system *)

Definition RES_ERROR : Z := 1.
Definition FATFS_SECTOR_SIZE : Z := 0x1000.
Definition FATFS_FULL_MEM_SIZE : Z := 0xC0000.
Definition FATFS_FLASH_TOTAL_SIZE : Z := FATFS_FULL_MEM_SIZE.
Definition FATFS_FLASH_START_ADDR : Z := 0x1EA000.

(** Whatever fails, the caller is told the same. *)
Definition or_error {A} (m : K A) : K A := fun w => let '(w, r) := m w in (w, match r with inr a => inr a | inl _ => inl RES_ERROR end).

Definition fs_flash_write (sector : Z) (buff : list Z) (count : Z) : K unit :=
  let! l := wl in
  if flash_size l <? u32 (sector * FATFS_SECTOR_SIZE) then err RES_ERROR
  else
    or_error (wl_flash_erase_range (u32 (sector * FATFS_SECTOR_SIZE)) (u32 (count * FATFS_SECTOR_SIZE))) ;;;
    or_error (wl_flash_write (u32 (sector * FATFS_SECTOR_SIZE)) buff (u32 (count * FATFS_SECTOR_SIZE))).

Definition fs_flash_read (sector count : Z) : K (list Z) :=
  if FATFS_FLASH_TOTAL_SIZE <? u32 (sector * FATFS_SECTOR_SIZE) then err RES_ERROR
  else or_error (wl_flash_read (u32 (sector * FATFS_SECTOR_SIZE)) (u32 (count * FATFS_SECTOR_SIZE))).

Definition fs_flash_erase (sector count : Z) : K unit :=
  let! l := wl in
  if flash_size l <? u32 (sector * FATFS_SECTOR_SIZE) then err RES_ERROR
  else or_error (wl_flash_erase_range (u32 (sector * FATFS_SECTOR_SIZE)) (u32 (count * FATFS_SECTOR_SIZE))).

Definition fs_flash_size : Z := FATFS_FLASH_TOTAL_SIZE.

(** The part of [fatfs_mk_mount] that sets up the flash. *)
Definition mount_config : wl_config_t :=
  mk_config FATFS_FLASH_START_ADDR FATFS_FULL_MEM_SIZE FATFS_SECTOR_SIZE FATFS_SECTOR_SIZE 8 1 FATFS_SECTOR_SIZE 0.
Definition zero_wl : wl_flash_t := mk_wl (mk_state 0 0 0 0 0 0) (mk_config 0 0 0 0 0 0 0 0) 0 0 0 0 0 0 None 0.
Definition wl_mount (c : wl_config_t) (temp : option (list Z)) (f : F) : world * (Empty_set + Z) :=
  wl_flash_config temp (mk_world f (set_cfg c zero_wl)).

End Wl.
End Wl.
