(* ===== verification/WlSpec.v ===== *)
(** * Wear levelling: the flash below it and its layout

    The device as memory from offsets to bytes, where a call that fails may have done part of
    its work or spoilt the range it is for; rules that say what holds after a function
    returns, and what the memory and the structure in the RAM are if a call fails in it. *)
From S2P Require Import Prelude Flash Wl.
Open Scope Z_scope.
Open Scope fw_scope.

Module WlSpec.
Import Wl.

(** ** The device *)

Section Device.
Context {F : Type} {fl : Flash F}.

Definition cell (f : F) (i : Z) : Z := nthb (fl_mem f) (i - fl_lo).
Definition within (off n : Z) : Prop := fl_lo <= off /\ 0 < n /\ off + n <= fl_hi.

(** Each call does what it is for or, where calls may fail, leaves anything in the range it
    is for. *)
Record device (good : F -> Prop) (may_fail : Prop) : Prop := {
  dv_window : 0 <= fl_lo <= fl_hi /\ fl_hi <= 2 ^ 31;
  dv_bytes f i : good f -> fl_lo <= i < fl_hi -> 0 <= cell f i < 256;
  dv_read f off n : good f -> within off n -> flash_read f off n = (0, mem_slice (cell f) off n, f);
  dv_write f off d : good f -> within off (zlen d) -> bytes d ->
    exists r f', flash_write f off d = (r, f') /\ good f' /\
      (r = 0 /\ (forall i, fl_lo <= i < fl_hi -> cell f' i = programmed (cell f) off d i) \/
       r <> 0 /\ may_fail /\ (forall i, fl_lo <= i < fl_hi -> ~ (off <= i < off + zlen d) -> cell f' i = cell f i));
  dv_erase f off n : good f -> within off n -> (SECTOR | off) -> (SECTOR | n) ->
    exists r f', flash_erase f off n = (r, f') /\ good f' /\
      (r = 0 /\ (forall i, fl_lo <= i < fl_hi -> cell f' i = erased (cell f) off n i) \/
       r <> 0 /\ may_fail /\ (forall i, fl_lo <= i < fl_hi -> ~ (off <= i < off + n) -> cell f' i = cell f i))
}.

Lemma slice_cell {laws : FlashLaws F} f off n : fl_inv f -> within off n -> slice (off - fl_lo) n (fl_mem f) = mem_slice (cell f) off n.
Proof.
  intros Hf (H1 & H2 & H3). pose proof fl_window as Hw. pose proof (fl_mem_len f Hf) as Hl.
  apply list_eq_nthb; rewrite zlen_slice, ?zlen_mem_slice by lia; [done|].
  intros i Hi. rewrite nthb_slice, nthb_mem_slice by lia. unfold cell. f_equal. lia.
Qed.

Lemma splice_programmed {laws : FlashLaws F} f off d i : fl_inv f -> within off (zlen d) -> fl_lo <= i < fl_hi ->
  nthb (splice (off - fl_lo) (nor (slice (off - fl_lo) (zlen d) (fl_mem f)) d) (fl_mem f)) (i - fl_lo) = programmed (cell f) off d i.
Proof.
  intros Hf (H1 & H2 & H3) Hi. pose proof fl_window as Hw. pose proof (fl_mem_len f Hf) as Hl.
  assert (zlen (slice (off - fl_lo) (zlen d) (fl_mem f)) = zlen d) as Hs by (apply zlen_slice; lia).
  rewrite nthb_splice by (rewrite ?zlen_nor; lia). rewrite zlen_nor by done. unfold programmed, cell.
  repeat if_split; try lia; try done. rewrite nthb_nor, nthb_slice by lia. f_equal; f_equal; lia.
Qed.

Lemma splice_erased {laws : FlashLaws F} f off n i : fl_inv f -> within off n -> fl_lo <= i < fl_hi ->
  nthb (splice (off - fl_lo) (replicate (Z.to_nat n) 0xFF) (fl_mem f)) (i - fl_lo) = erased (cell f) off n i.
Proof.
  intros Hf (H1 & H2 & H3) Hi. pose proof fl_window as Hw. pose proof (fl_mem_len f Hf) as Hl.
  pose proof (zlen_replicate n 0xFF ltac:(lia)) as Hr. rewrite nthb_splice by lia. unfold erased, cell. rewrite Hr.
  repeat if_split; try lia; try done. unfold nthb. rewrite nth_lookup_0, lookup_replicate_2 by lia. done.
Qed.

(** A device that keeps the laws of the flash and does not fail. *)
Lemma reliable_device {laws : FlashLaws F} good : reliable good -> device good False.
Proof.
  intros [R1 R2 R3]. split.
  - apply fl_window.
  - intros f i Hf Hi. apply bytes_nthb. by apply fl_mem_bytes, R1.
  - intros f off n Hf Hw. pose proof Hw as (H1 & H2 & H3). rewrite <- (slice_cell f off n (R1 f Hf) Hw). by apply fl_read_ok; auto.
  - intros f off d Hf Hw Hd. pose proof Hw as (H1 & H2 & H3). destruct (R2 f off d Hf H1 H2 H3 Hd) as (f' & E & Hg).
    exists 0, f'. split; [done|]. split; [done|]. left. split; [done|]. intros i Hi. unfold cell at 1.
    destruct (fl_write_ok f off d 0 f' (R1 f Hf) H1 H2 H3 Hd E) as (_ & He & _). rewrite (He eq_refl). by apply splice_programmed; auto.
  - intros f off n Hf Hw Ho Hn. pose proof Hw as (H1 & H2 & H3). destruct (R3 f off n Hf H1 H2 H3 Ho Hn) as (f' & E & Hg).
    exists 0, f'. split; [done|]. split; [done|]. left. split; [done|]. intros i Hi. unfold cell at 1.
    destruct (fl_erase_ok f off n 0 f' (R1 f Hf) H1 H2 H3 Ho Hn E) as (_ & He & _). rewrite (He eq_refl). by apply splice_erased; auto.
Qed.

(** A device that keeps them, whatever its failures do. *)
Lemma laws_device {laws : FlashLaws F} : device fl_inv True.
Proof.
  split.
  - apply fl_window.
  - intros f i Hf Hi. by apply bytes_nthb, fl_mem_bytes.
  - intros f off n Hf Hw. pose proof Hw as (H1 & H2 & H3). rewrite <- (slice_cell f off n Hf Hw). by apply fl_read_ok.
  - intros f off d Hf Hw Hd. destruct (flash_write f off d) as [r f'] eqn:E. exists r, f'. split; [done|]. pose proof Hw as (H1 & H2 & H3).
    destruct (fl_write_ok f off d r f' Hf H1 H2 H3 Hd E) as (Hf' & He & Ho). split; [done|]. destruct (decide (r = 0)) as [Hr|Hr].
    + left. split; [done|]. intros i Hi. unfold cell at 1. rewrite (He Hr). by apply splice_programmed.
    + right. split; [done|]. split; [done|]. intros i Hi Hni. unfold cell. assert (0 <= i - fl_lo < fl_hi - fl_lo) as Hr' by lia.
      specialize (Ho (i - fl_lo) Hr'). revert Ho. repeat if_split; lia || done.
  - intros f off n Hf Hw Hs Hn. destruct (flash_erase f off n) as [r f'] eqn:E. exists r, f'. split; [done|]. pose proof Hw as (H1 & H2 & H3).
    destruct (fl_erase_ok f off n r f' Hf H1 H2 H3 Hs Hn E) as (Hf' & He & Ho). split; [done|]. destruct (decide (r = 0)) as [Hr|Hr].
    + left. split; [done|]. intros i Hi. unfold cell at 1. rewrite (He Hr). by apply splice_erased.
    + right. split; [done|]. split; [done|]. intros i Hi Hni. unfold cell. apply Ho; lia.
Qed.

End Device.

(** ** What holds after a function, and after a failure in it *)

Section Rules.
Context {F : Type} {fl : Flash F} (good : F -> Prop) (may_fail : Prop).
Abbreviation W := (world (F := F)).

(** The memory of a flash. *)
Definition holds (f : F) (m : Z -> Z) : Prop := good f /\ forall i, fl_lo <= i < fl_hi -> cell f i = m i.

Definition wpc {A} (m : M W Z A) (Q : A -> W -> Prop) (C : wl_flash_t -> (Z -> Z) -> Prop) (w : W) : Prop :=
  match m w with
  | (w', inr a) => Q a w'
  | (w', inl r) => r <> 0 /\ may_fail /\ exists m, holds (flash w') m /\ C (wl_flash w') m
  end.

Lemma wpc_ret {A} (a : A) (Q : A -> W -> Prop) C w : Q a w -> wpc (ret a) Q C w.
Proof. done. Qed.
Lemma wpc_bnd {A B} (m : M W Z A) (k : A -> M W Z B) Q C w : wpc m (fun a => wpc (k a) Q C) C w -> wpc (bnd m k) Q C w.
Proof. unfold wpc, bnd. by destruct (m w) as [w' [r|a]]. Qed.
Lemma wpc_conseq {A} (m : M W Z A) (Q R : A -> W -> Prop) (C D : wl_flash_t -> (Z -> Z) -> Prop) w :
  wpc m Q C w -> (forall a w', Q a w' -> R a w') -> (forall l m, C l m -> D l m) -> wpc m R D w.
Proof. unfold wpc. destruct (m w) as [w' [r|a]]; [|auto]. intros (H1 & H2 & x & H3 & H4) _ HD. eauto 10. Qed.
Lemma wpc_wl (Q : wl_flash_t -> W -> Prop) C w : Q (wl_flash w) w -> wpc wl Q C w.
Proof. done. Qed.

(** The memory and the structure in the RAM. *)
Definition sees (w : W) (m : Z -> Z) (l : wl_flash_t) : Prop := holds (flash w) m /\ wl_flash w = l.

Lemma sees_ext w m m' l : sees w m l -> (forall i, fl_lo <= i < fl_hi -> m i = m' i) -> sees w m' l.
Proof. intros [[H1 H2] H3] Hm. split; [|done]. split; [done|]. intros i Hi. by rewrite H2, Hm. Qed.

Lemma wpc_get_wl (Q : wl_flash_t -> W -> Prop) C w m l : sees w m l -> Q l w -> wpc wl Q C w.
Proof. intros [_ <-] HQ. by apply wpc_wl. Qed.
Lemma wpc_wl_mod f (Q : unit -> W -> Prop) C w m l : sees w m l -> (forall w', sees w' m (f l) -> Q tt w') -> wpc (wl_mod f) Q C w.
Proof. intros [H1 H2] HQ. apply HQ. split; [exact H1|]. cbn. by rewrite H2. Qed.
Lemma wpc_state_mod f (Q : unit -> W -> Prop) C w m l : sees w m l ->
  (forall w', sees w' m (set_state (f (state l)) l) -> Q tt w') -> wpc (state_mod f) Q C w.
Proof. intros H HQ. by eapply (wpc_wl_mod (fun l => set_state (f (state l)) l)). Qed.

(** A loop, with what holds before each turn. *)
Lemma wpc_for (I : Z -> W -> Prop) (Q : unit -> W -> Prop) C f n : forall i w,
  (forall j w, i <= j < i + Z.of_nat n -> I j w -> wpc (f j) (fun _ => I (j + 1)) C w) ->
  I i w -> (forall w', I (i + Z.of_nat n) w' -> Q tt w') -> wpc (for_loop n i f) Q C w.
Proof.
  induction n as [|n IH]; intros i w Hf Hi HQ; cbn [for_loop].
  - apply wpc_ret, HQ. by replace (i + Z.of_nat 0) with i by lia.
  - apply wpc_bnd. eapply wpc_conseq; [apply Hf; [lia|exact Hi]| |done]. intros [] w' H'. apply IH; [|exact H'|].
    + intros j w2 Hj. apply Hf. lia.
    + intros w2 H2. apply HQ. by replace (i + Z.of_nat (S n)) with (i + 1 + Z.of_nat n) by lia.
Qed.

Context (dev : device good may_fail).

(** The memory after a call for a range failed. *)
Lemma holds_outside f f' m off n : holds f m -> good f' -> (forall i, fl_lo <= i < fl_hi -> ~ (off <= i < off + n) -> cell f' i = cell f i) ->
  exists m', holds f' m' /\ forall i, ~ (off <= i < off + n) -> m' i = m i.
Proof.
  intros [_ Hm] Hg Hc. exists (fun i => if (off <=? i) && (i <? off + n) then cell f' i else m i). split.
  - split; [done|]. intros i Hi. repeat if_split; try done; rewrite <- Hm by done; apply Hc; lia.
  - intros i Hi. repeat if_split; lia || done.
Qed.

Lemma wpc_write off d (Q : unit -> W -> Prop) C w m l : sees w m l -> within off (zlen d) -> bytes d ->
  (may_fail -> forall m', (forall i, ~ (off <= i < off + zlen d) -> m' i = m i) -> C l m') ->
  (forall w', sees w' (programmed m off d) l -> Q tt w') -> wpc (wl_flash_write_int off d) Q C w.
Proof.
  intros [H Hl] Hr Hd HC HQ. pose proof H as [Hg Hm]. destruct (dv_write _ _ dev (flash w) off d Hg Hr Hd) as (r & f & E & Hf & Hc).
  unfold wpc, wl_flash_write_int. rewrite E. destruct Hc as [[-> Hc]|(Hn & Hmf & Hc)].
  - cbn. apply HQ. split; [|done]. split; [done|]. intros i Hi. cbn. rewrite Hc by done. unfold programmed. by rewrite Hm.
  - apply Z.eqb_neq in Hn as Hn'. rewrite Hn'. split; [done|]. split; [done|].
    destruct (holds_outside _ f m off (zlen d) H Hf Hc) as (m' & H' & Hm'). exists m'. split; [done|]. cbn. rewrite Hl. by apply HC.
Qed.

Lemma wpc_erase off n (Q : unit -> W -> Prop) C w m l : sees w m l -> within off n -> (SECTOR | off) -> (SECTOR | n) ->
  (may_fail -> forall m', (forall i, ~ (off <= i < off + n) -> m' i = m i) -> C l m') ->
  (forall w', sees w' (erased m off n) l -> Q tt w') -> wpc (raw_flash_erase off n) Q C w.
Proof.
  intros [H Hl] Hr Ho Hn HC HQ. pose proof H as [Hg Hm]. destruct (dv_erase _ _ dev (flash w) off n Hg Hr Ho Hn) as (r & f & E & Hf & Hc).
  unfold wpc, raw_flash_erase. rewrite E. destruct Hc as [[-> Hc]|(H0 & Hmf & Hc)].
  - cbn. apply HQ. split; [|done]. split; [done|]. intros i Hi. cbn. rewrite Hc by done. unfold erased. by rewrite Hm.
  - apply Z.eqb_neq in H0 as H0'. rewrite H0'. split; [done|]. split; [done|].
    destruct (holds_outside _ f m off n H Hf Hc) as (m' & H' & Hm'). exists m'. split; [done|]. cbn. rewrite Hl. by apply HC.
Qed.

Lemma wpc_read off n (Q : list Z -> W -> Prop) C w m l : sees w m l -> within off n ->
  (bytes (mem_slice m off n) -> Q (mem_slice m off n) w) -> wpc (wl_flash_read_int off n) Q C w.
Proof.
  intros [[Hg Hm] Hl] Hr HQ. unfold wpc, wl_flash_read_int. rewrite (dv_read _ _ dev) by done. cbn.
  assert (mem_slice (cell (flash w)) off n = mem_slice m off n) as E.
  { apply list_fmap_ext. intros k i [-> Hi]%lookup_seqZ. destruct Hr as (R1 & R2 & R3). apply Hm. lia. }
  rewrite E. destruct w as [f lw]. apply HQ. rewrite <- E. apply Forall_fmap, Forall_forall. intros i Hi%elem_of_seqZ.
  destruct Hr as (R1 & R2 & R3). apply (dv_bytes _ _ dev); [done|lia].
Qed.

End Rules.
End WlSpec.
