(* ===== verification/WlDisk.v ===== *)
(** * Wear levelling: the sectors in the flash

    Where the sectors and the two copies of the state are, and what an erase does to them:
    the sectors keep their contents while they rotate through the pages. *)
From S2P Require Import Prelude Flash Wl WlSpec.
Open Scope Z_scope.
Open Scope fw_scope.

Module WlDisk.
Import Wl WlSpec.

(** ** The layout *)

Section Layout.
Context (c : wl_config_t).

Definition sectors : Z := full_mem_size c / page_size c.
(** Pages of one copy of the state; sectors of the file system. *)
Definition state_pages : Z := (SIZEOF_STATE + sectors + page_size c - 1) / page_size c.
Definition N : Z := sectors - 2 * state_pages - 2.
(** The address of a page, and of the copies of the state. *)
Definition page_addr (k : Z) : Z := start_addr c + k * page_size c.
Definition A1 : Z := page_addr (N + 1).
Definition A2 : Z := page_addr (N + 1 + state_pages).

(** A configuration as the file system uses it. *)
Record sane (lo hi : Z) : Prop := {
  sn_sector : sector_size c = page_size c;
  sn_pos : 0 < page_size c;
  sn_align : (SECTOR | page_size c);
  sn_temp : 0 < temp_buff_size c /\ (temp_buff_size c | page_size c);
  sn_wr : wr_size c = 8;
  sn_start : (SECTOR | start_addr c) /\ 0 <= lo <= start_addr c;
  sn_full : (page_size c | full_mem_size c) /\ start_addr c + full_mem_size c <= hi <= 2 ^ 31;
  sn_nonneg : 0 <= full_mem_size c;
  sn_version : 0 <= cfg_version c < 2 ^ 32;
  sn_room : 1 <= N
}.

Context {lo hi : Z} (ok : sane lo hi).

Lemma full_sectors : full_mem_size c = sectors * page_size c.
Proof. destruct (sn_full _ _ ok) as [[k Hk] _]. pose proof (sn_pos _ _ ok). unfold sectors. rewrite Hk, Z.div_mul; lia. Qed.

Lemma page_size_least : SECTOR <= page_size c.
Proof. pose proof (sn_pos _ _ ok). destruct (sn_align _ _ ok) as [k Hk]. unfold SECTOR in *. nia. Qed.

Lemma state_room : 1 <= state_pages /\ SIZEOF_STATE + sectors <= state_pages * page_size c.
Proof.
  pose proof (sn_pos _ _ ok). pose proof full_sectors as Hf. pose proof (sn_room _ _ ok) as Hr. pose proof page_size_least as Hp.
  unfold N in Hr. unfold state_pages in *. set (x := SIZEOF_STATE + sectors) in *.
  assert (0 <= sectors) as Hs by (pose proof (sn_nonneg _ _ ok); nia).
  pose proof (Z.div_mod (x + page_size c - 1) (page_size c) ltac:(lia)). pose proof (Z.mod_pos_bound (x + page_size c - 1) (page_size c) ltac:(lia)).
  assert (24 <= x) by (unfold x, SIZEOF_STATE; lia). nia.
Qed.

Lemma sectors_are : sectors = N + 2 * state_pages + 2.
Proof. unfold N. lia. Qed.

(** Pages lie in the device, and apart. *)
Lemma page_within k : 0 <= k < sectors -> lo <= page_addr k /\ page_addr k + page_size c <= hi /\ 0 <= page_addr k.
Proof.
  intros Hk. pose proof (sn_pos _ _ ok). pose proof full_sectors as Hf. pose proof (sn_full _ _ ok) as [_ ?].
  pose proof (sn_start _ _ ok) as [_ ?]. unfold page_addr. nia.
Qed.

Lemma page_apart j k : j < k -> page_addr j + page_size c <= page_addr k.
Proof. intros Hk. pose proof (sn_pos _ _ ok). unfold page_addr. nia. Qed.

Lemma page_align k : (SECTOR | page_addr k).
Proof.
  unfold page_addr. apply Z.divide_add_r; [by apply (sn_start _ _ ok)|]. apply Z.divide_mul_r. apply (sn_align _ _ ok).
Qed.

Lemma page_step j k : page_addr (j + k) = page_addr j + k * page_size c.
Proof. unfold page_addr. lia. Qed.

Lemma layout_is l : layout c l = set_sizes (page_addr (N + 1 + 2 * state_pages)) A1 A2 (N * page_size c) (state_pages * page_size c) (page_size c) l.
Proof.
  pose proof (sn_pos _ _ ok). pose proof full_sectors as Hf. pose proof (sn_full _ _ ok) as [_ Hh]. pose proof (sn_start _ _ ok) as [_ Hl].
  pose proof state_room as [S1 S2]. pose proof sectors_are as Hs. pose proof (sn_room _ _ ok) as Hr. pose proof page_size_least as Hp.
  unfold SECTOR, SIZEOF_STATE in *.
  assert (sectors <= full_mem_size c) by nia. assert (state_pages * page_size c <= full_mem_size c) by nia.
  assert (full_mem_size c = N * page_size c + 2 * (state_pages * page_size c) + 2 * page_size c) as He by (rewrite Hf, Hs; ring).
  assert (0 <= N * page_size c) by nia.
  unfold layout. rewrite (sn_sector _ _ ok), (sn_wr _ _ ok). unfold SIZEOF_STATE, SIZEOF_CONFIG.
  assert (u32 (full_mem_size c / page_size c * 8) / 8 = sectors) as ->.
  { fold sectors. rewrite wrap32_small by nia. by rewrite Z.div_mul by lia. }
  assert (u32 ((24 + sectors + page_size c - 1) / page_size c * page_size c) = state_pages * page_size c) as ->.
  { fold SIZEOF_STATE state_pages. rewrite wrap32_small by lia. done. }
  assert (u32 ((32 + page_size c - 1) / page_size c * page_size c) = page_size c) as ->.
  { assert ((32 + page_size c - 1) / page_size c = 1) as -> by (symmetry; apply Z.div_unique with 31; lia). rewrite wrap32_small; lia. }
  assert ((if page_size c <? 24 + sectors then state_pages * page_size c else page_size c) = state_pages * page_size c) as ->.
  { destruct (Z.ltb_spec (page_size c) (24 + sectors)); [done|].
    assert (state_pages = 1) as ->; [|lia]. unfold state_pages, SIZEOF_STATE. symmetry. apply Z.div_unique with (24 + sectors - 1); [|lia].
    pose proof (sn_nonneg _ _ ok). nia. }
  assert (u32 (full_mem_size c - state_pages * page_size c * 2 - page_size c) = (N + 1) * page_size c) as ->.
  { rewrite wrap32_small; [lia|]. lia. }
  rewrite Z.div_mul by lia. replace (N + 1 - 1) with N by lia. rewrite (wrap32_small N) by lia.
  unfold A1, A2, page_addr. f_equal; rewrite wrap32_small; lia.
Qed.

(** ** Where a sector is *)

(** The page of sector [v], when page [p] is free and [mc] rounds have been made. *)
Definition phys (p mc v : Z) : Z := let q := (v - mc) mod N in if p <=? q then q + 1 else q.

Lemma phys_range p mc v : 0 <= p <= N -> 0 <= phys p mc v <= N /\ phys p mc v <> p.
Proof.
  intros Hp. pose proof (sn_room _ _ ok). unfold phys. pose proof (Z.mod_pos_bound (v - mc) N ltac:(lia)).
  cbv zeta. destruct (Z.leb_spec p ((v - mc) mod N)); lia.
Qed.

Lemma phys_inj p mc v v' : 0 <= v < N -> 0 <= v' < N -> phys p mc v = phys p mc v' -> v = v'.
Proof.
  intros Hv Hv' He. pose proof (sn_room _ _ ok). assert ((v - mc) mod N = (v' - mc) mod N) as Hq.
  { unfold phys in He. cbv zeta in He. destruct (Z.leb_spec p ((v - mc) mod N)), (Z.leb_spec p ((v' - mc) mod N)); lia. }
  pose proof (Z.div_mod (v - mc) N ltac:(lia)). pose proof (Z.div_mod (v' - mc) N ltac:(lia)).
  assert ((v - mc) / N = (v' - mc) / N) by nia. nia.
Qed.

(** Only the page that is moved changes its place. *)
Lemma phys_step p mc v : phys (p + 1) mc v = if phys p mc v =? p + 1 then p else phys p mc v.
Proof.
  unfold phys. cbv zeta. destruct (Z.leb_spec (p + 1) ((v - mc) mod N)), (Z.leb_spec p ((v - mc) mod N));
    match goal with |- context [?a =? ?b] => destruct (Z.eqb_spec a b) end; lia.
Qed.

Definition next_round (mc : Z) : Z := if N <=? mc + 1 then 0 else mc + 1.

Lemma phys_wrap mc v : 0 <= mc < N -> phys 0 (next_round mc) v = if phys N mc v =? 0 then N else phys N mc v.
Proof.
  intros Hm. pose proof (sn_room _ _ ok). unfold phys, next_round. cbv zeta.
  pose proof (Z.mod_pos_bound (v - mc) N ltac:(lia)) as Hb.
  assert ((v - (if N <=? mc + 1 then 0 else mc + 1)) mod N = ((v - mc) mod N - 1) mod N) as ->.
  { rewrite Zminus_mod_idemp_l. destruct (Z.leb_spec N (mc + 1)); [|f_equal; lia]. assert (mc = N - 1) as -> by lia.
    replace (v - (N - 1) - 1) with (v - 0 + (-1) * N) by lia. by rewrite Z.mod_add by lia. }
  set (q := (v - mc) mod N) in *. pose proof (Z.mod_pos_bound (q - 1) N ltac:(lia)).
  destruct (Z.leb_spec N q); [lia|]. destruct (Z.leb_spec 0 ((q - 1) mod N)); [|lia]. destruct (Z.eqb_spec q 0) as [->|].
  - replace (0 - 1) with (N - 1 + (-1) * N) by lia. rewrite Z.mod_add, Z.mod_small; lia.
  - rewrite Z.mod_small; lia.
Qed.

Lemma calc_addr_is l v : flash_size l = N * page_size c -> page_size (cfg l) = page_size c -> 0 <= pos (state l) <= N ->
  0 <= move_count (state l) < N -> 0 <= v -> v * page_size c < 2 ^ 31 ->
  wl_flash_calc_addr l (v * page_size c) = phys (pos (state l)) (move_count (state l)) v * page_size c.
Proof.
  intros E1 E2 Hp Hm Hv Hb. unfold wl_flash_calc_addr. rewrite E1, E2. pose proof (sn_room _ _ ok). pose proof (sn_pos _ _ ok).
  pose proof full_sectors as Hf. pose proof (sn_full _ _ ok) as [_ Hh]. pose proof (sn_start _ _ ok) as [_ Hl].
  pose proof state_room as [S1 S2]. pose proof sectors_are as Hs.
  assert (full_mem_size c = N * page_size c + 2 * (state_pages * page_size c) + 2 * page_size c) as He by (rewrite Hf, Hs; ring).
  assert (0 <= move_count (state l) * page_size c < N * page_size c) by nia.
  assert (0 <= pos (state l) * page_size c <= N * page_size c) by nia.
  assert (0 <= state_pages * page_size c) by nia. assert (0 <= v * page_size c) by nia.
  rewrite (wrap32_small (move_count _ * _)), (wrap32_small (pos _ * _)) by lia.
  rewrite (wrap32_small (N * _ - _)), (wrap32_small (_ + v * _)) by lia.
  assert ((N * page_size c - move_count (state l) * page_size c + v * page_size c) mod (N * page_size c) =
    ((v - move_count (state l)) mod N) * page_size c) as ->.
  { replace (N * page_size c - move_count (state l) * page_size c + v * page_size c)
      with ((v - move_count (state l) + 1 * N) * page_size c) by ring. rewrite Z.mul_mod_distr_r by lia. by rewrite Z.mod_add by lia. }
  pose proof (Z.mod_pos_bound (v - move_count (state l)) N ltac:(lia)) as Hq. unfold phys. cbv zeta.
  set (q := (v - move_count (state l)) mod N) in *.
  assert ((q + 1) * page_size c <= N * page_size c) by (apply Z.mul_le_mono_nonneg_r; lia). assert (0 <= q * page_size c) by nia.
  assert ((pos (state l) * page_size c <=? q * page_size c) = (pos (state l) <=? q)) as ->.
  { apply eq_true_iff_eq. rewrite !Z.leb_le. symmetry. apply Z.mul_le_mono_pos_r. lia. }
  destruct (pos (state l) <=? q); [|done]. rewrite wrap32_small by lia. ring.
Qed.

(** ** What is in the flash *)

Definition page (m : Z -> Z) (k : Z) : list Z := mem_slice m (page_addr k) (page_size c).
(** The contents of the sectors. *)
Definition disk_is (m : Z -> Z) (p mc : Z) (d : Z -> list Z) : Prop := forall v, 0 <= v < N -> page m (phys p mc v) = d v.
(** A copy of the state at [a], of whose marks the first [u] are used: a mark is used if it is
    not as it is erased. *)
Definition header (m : Z -> Z) (a : Z) (s : wl_state_t) : Prop := forall i, 0 <= i < SIZEOF_STATE -> m (a + i) = nthb (state_bytes s) i.
Definition marks (m : Z -> Z) (a u : Z) : Prop :=
  forall i, 0 <= i < sectors -> m (a + SIZEOF_STATE + i) = 0xFF <-> u <= i.

Lemma page_ext m m' k : (forall i, page_addr k <= i < page_addr k + page_size c -> m' i = m i) -> page m' k = page m k.
Proof. intros He. apply list_fmap_ext. intros n i [-> Hi]%lookup_seqZ. apply He. lia. Qed.

Lemma header_ext m m' a s : (forall i, a <= i < a + SIZEOF_STATE -> m' i = m i) -> header m a s -> header m' a s.
Proof. intros He H i Hi. rewrite He by lia. by apply H. Qed.

Lemma marks_ext m m' a u : (forall i, a + SIZEOF_STATE <= i < a + SIZEOF_STATE + sectors -> m' i = m i) -> marks m a u -> marks m' a u.
Proof. intros He H i Hi. rewrite He by lia. by apply H. Qed.

Lemma disk_ext m m' p mc d : 0 <= p <= N -> (forall k, 0 <= k <= N -> k <> p -> page m' k = page m k) -> disk_is m p mc d -> disk_is m' p mc d.
Proof. intros Hp He H v Hv. destruct (phys_range p mc v Hp). rewrite He by done. by apply H. Qed.

(** Page [s] moved into page [p], as far as [n] bytes. *)
Definition moved (m : Z -> Z) (p s n : Z) (x : Z) : Z :=
  if (page_addr p <=? x) && (x <? page_addr p + page_size c) then
    if x - page_addr p <? n then m (x - page_addr p + page_addr s) else 0xFF
  else m x.

Lemma moved_other m p s n x : ~ (page_addr p <= x < page_addr p + page_size c) -> moved m p s n x = m x.
Proof. intros Hx. unfold moved. case_bool (page_addr p <=? x); cbn [andb]; [|done]. case_bool (x <? page_addr p + page_size c); [lia|done]. Qed.

Lemma moved_page m p s n k : k <> p -> page (moved m p s n) k = page m k.
Proof.
  intros Hk. apply page_ext. intros i Hi. apply moved_other.
  destruct (Z.lt_total k p) as [?|[?|?]]; [pose proof (page_apart k p)|done|pose proof (page_apart p k)]; lia.
Qed.

Lemma moved_free m p s : page (moved m p s (page_size c)) p = page m s.
Proof.
  unfold page, mem_slice. apply list_eq. intros j. rewrite !list_lookup_fmap. destruct (decide (Z.of_nat j < page_size c)) as [Hj|Hj].
  - rewrite !lookup_seqZ_lt by lia. cbn. f_equal. unfold moved. repeat if_split; try lia. f_equal. lia.
  - by rewrite !lookup_seqZ_ge by lia.
Qed.

(** One piece more of it. *)
Lemma moved_more m p s n T x : 0 <= n -> 0 < T -> n + T <= page_size c -> ~ page_addr p - page_size c < page_addr s < page_addr p + page_size c ->
  bytes (mem_slice (moved m p s n) (page_addr s + n) T) ->
  (if (page_addr p + n <=? x) && (x <? page_addr p + n + T)
   then Z.land (moved m p s n x) (nthb (mem_slice (moved m p s n) (page_addr s + n) T) (x - (page_addr p + n)))
   else moved m p s n x) = moved m p s (n + T) x.
Proof.
  intros Hn HT Hb Hap Hd. case_bool (page_addr p + n <=? x); cbn [andb]; [case_bool (x <? page_addr p + n + T)|].
  - pose proof (bytes_nthb _ (x - (page_addr p + n)) Hd) as Hv. rewrite nthb_mem_slice in * by lia.
    rewrite (moved_other m p s n (page_addr s + n + _)) in * by lia. unfold moved. repeat if_split; try lia.
    rewrite land_FF by done. f_equal. lia.
  - unfold moved. repeat if_split; try lia; done.
  - unfold moved. repeat if_split; try lia; done.
Qed.

(** The sectors stay what they are when a page is moved. *)
Lemma disk_moved m p mc p' mc' s d : 0 <= p <= N -> 0 <= s <= N -> s <> p ->
  (forall v, phys p' mc' v = if phys p mc v =? s then p else phys p mc v) ->
  disk_is m p mc d -> disk_is (moved m p s (page_size c)) p' mc' d.
Proof.
  intros Hp Hs Hsp Hph H v Hv. destruct (phys_range p mc v Hp) as [Hr Hn]. rewrite Hph. destruct (Z.eqb_spec (phys p mc v) s) as [E|E].
  - rewrite moved_free, <- E. by apply H.
  - rewrite moved_page by done. by apply H.
Qed.

End Layout.
(** ** What the functions do to it *)

Lemma erased_0 m a i : erased m a 0 i = m i.
Proof. unfold erased. repeat if_split; try lia; done. Qed.
Lemma erased_more m a n k i : 0 <= n -> 0 <= k -> erased (erased m a n) (a + n) k i = erased m a (n + k) i.
Proof. intros. unfold erased. repeat if_split; try lia; done. Qed.

Lemma zlen_state_bytes s : zlen (state_bytes s) = SIZEOF_STATE.
Proof. done. Qed.
Lemma bytes_to_bytes ws : bytes (to_bytes ws).
Proof. induction ws; [constructor|]. apply bytes_app. split; [apply bytes_le_enc|done]. Qed.

Section Update.
Context {F : Type} {fl : Flash F} (good : F -> Prop) (may_fail : Prop) (dev : device good may_fail).
Context (crcf : list Z -> Z) (c : wl_config_t) (ok : sane c fl_lo fl_hi).
Abbreviation W := (world (F := F)).
Abbreviation N := (N c).
Abbreviation P := (page_size c).
#[local] Abbreviation wpc := (wpc good may_fail).
#[local] Abbreviation sees := (sees good).

(** The state as it is written when round [mc] begins. *)
Definition hdr (mc : Z) : wl_state_t :=
  let s := mk_state 0 (N + 1) mc P (cfg_version c) 0 in set_crc (crcf (state_words s)) s.
Definition sealed : wl_config_t :=
  mk_config (start_addr c) (full_mem_size c) P (sector_size c) (wr_size c) (cfg_version c) (temp_buff_size c) (crcf (config_words c)).
(** The structure in the RAM. *)
Definition lay (s : wl_state_t) (b : option (list Z)) (da : Z) : wl_flash_t :=
  mk_wl s sealed (page_addr c (N + 1 + 2 * state_pages c)) (A1 c) (A2 c) (N * P) (state_pages c * P) P b da.
Definition at_pos (p mc : Z) : wl_state_t := set_pos p (hdr mc).

Lemma wpc_erase_raw a k (Q : unit -> W -> Prop) C w m s b da : sees w m (lay s b da) -> 0 <= k -> (SECTOR | a) ->
  fl_lo <= a -> a + k * P <= fl_hi -> (may_fail -> forall m', (forall i, ~ (a <= i < a + k * P) -> m' i = m i) -> C (lay s b da) m') ->
  (forall w', sees w' (erased m a (k * P)) (lay s b da) -> Q tt w') -> wpc (wl_flash_erase_raw a (k * P)) Q C w.
Proof.
  intros H Hk Ha Hlo Hhi HC HQ. pose proof (sn_pos _ _ _ ok). pose proof (sn_start _ _ _ ok) as [_ ?]. pose proof (dv_window _ _ dev) as [? ?].
  unfold wl_flash_erase_raw. apply wpc_bnd. eapply wpc_get_wl; [exact H|]. cbn [cfg lay sector_size sealed].
  rewrite (sn_sector _ _ _ ok), Z.div_mul by lia.
  apply (wpc_for good may_fail (fun j w => sees w (erased m a (j * P)) (lay s b da))).
  - intros j w' Hj H'. rewrite Z2Nat.id in Hj by lia. assert (0 <= j * P /\ j * P + P <= k * P) as [? ?] by nia.
    rewrite (wrap32_small (j * P)), wrap32_small by lia. eapply (wpc_erase good may_fail dev); [exact H'|split_and!; lia| | | |].
    + apply Z.divide_add_r; [done|]. apply Z.divide_mul_r, (sn_align _ _ _ ok).
    + apply (sn_align _ _ _ ok).
    + intros Hmf m' Hm'. apply HC; [done|]. intros i Hi. rewrite Hm' by lia. unfold erased. repeat if_split; lia || done.
    + intros w2 Hw2. eapply sees_ext; [exact Hw2|]. intros i Hi. rewrite erased_more by lia. f_equal. lia.
  - eapply sees_ext; [exact H|]. intros i _. by rewrite erased_0.
  - intros w' H'. rewrite Z2Nat.id in H' by lia. by apply HQ.
Qed.

(** The page after the free one is copied. *)
Lemma wpc_copy p s (Q : unit -> W -> Prop) C w m st b da : sees w (moved c m p s 0) (lay st b da) -> 0 <= p <= N -> 0 <= s <= N -> p <> s ->
  (may_fail -> forall b m', (forall i, ~ (page_addr c p <= i < page_addr c p + P) -> m' i = m i) -> C (lay st b da) m') ->
  (forall w' b', sees w' (moved c m p s P) (lay st b' da) -> Q tt w') ->
  wpc (for_loop (Z.to_nat (P / temp_buff_size c)) 0 (fun i =>
    let! d := wl_flash_read_int (u32 (page_addr c s + u32 (i * temp_buff_size c))) (temp_buff_size c) in
    wl_mod (set_temp_buff (Some d)) ;;;
    wl_flash_write_int (u32 (page_addr c p + u32 (i * temp_buff_size c))) d)) Q C w.
Proof.
  intros H Hp Hs Hn HC HQ. destruct (sn_temp _ _ _ ok) as [Ht [k Hk]]. pose proof (sn_pos _ _ _ ok).
  pose proof (dv_window _ _ dev) as [? ?].
  pose proof (sectors_are c). pose proof (state_room c ok) as [? _].
  destruct (page_within c ok p) as (? & ? & ?); [lia|]. destruct (page_within c ok s) as (? & ? & ?); [lia|]. set (T := temp_buff_size c) in *. rewrite Hk, Z.div_mul by lia.
  apply (wpc_for good may_fail (fun i w => exists b, sees w (moved c m p s (i * T)) (lay st b da))).
  - intros i w1 Hi [b1 Hw1]. rewrite Z2Nat.id in Hi by nia. assert (0 <= i * T /\ i * T + T <= P) as [B1 B2] by nia.
    rewrite (wrap32_small (i * T)), (wrap32_small (page_addr c s + _)), (wrap32_small (page_addr c p + _)) by lia.
    assert (~ page_addr c p - P < page_addr c s < page_addr c p + P) as Hap
      by (destruct (Z.lt_total p s) as [?|[?|?]]; [pose proof (page_apart c ok p s)|done|pose proof (page_apart c ok s p)]; lia).
    apply wpc_bnd. eapply (wpc_read good may_fail dev); [exact Hw1|split_and!; lia|]. intros Hb.
    apply wpc_bnd. eapply wpc_wl_mod; [exact Hw1|]. intros w2 Hw2.
    eapply (wpc_write good may_fail dev); [exact Hw2|rewrite zlen_mem_slice by lia; split_and!; lia|done| |].
    { intros Hmf m' Hm'. rewrite zlen_mem_slice in Hm' by lia. apply (HC Hmf (Some _)). intros x Hx. rewrite Hm' by lia. by apply moved_other. }
    intros w3 Hw3. eexists. eapply sees_ext; [exact Hw3|]. intros x Hx. unfold programmed. rewrite zlen_mem_slice by lia.
    replace ((i + 1) * T) with (i * T + T) by lia. by apply moved_more.
  - exists b. eapply sees_ext; [exact H|]. intros x _. by rewrite Z.mul_0_l.
  - intros w' [b' H']. replace ((0 + Z.of_nat (Z.to_nat k)) * T) with P in H' by (rewrite Z2Nat.id; nia). by eapply HQ.
Qed.

Lemma regions : fl_lo <= A1 c /\ A2 c = A1 c + state_pages c * P /\ A2 c + state_pages c * P + P <= fl_hi /\
  SIZEOF_STATE + sectors c <= state_pages c * P /\ N + 3 <= sectors c /\ 0 < P /\ 0 <= A1 c /\ fl_hi <= 2 ^ 31 /\
  (forall k, 0 <= k <= N -> fl_lo <= page_addr c k /\ 0 <= page_addr c k /\ page_addr c k + P <= A1 c).
Proof.
  pose proof (sn_pos _ _ _ ok). pose proof (sectors_are c). pose proof (state_room c ok) as [? ?]. pose proof (dv_window _ _ dev) as [? ?].
  pose proof (sn_room _ _ _ ok). destruct (page_within c ok (N + 1)) as (? & ? & ?); [lia|].
  destruct (page_within c ok (N + 1 + 2 * state_pages c)) as (? & ? & ?); [lia|].
  pose proof (page_step c (N + 1) (state_pages c)) as E1. pose proof (page_step c (N + 1) (2 * state_pages c)) as E2.
  unfold A1, A2. split_and!; try lia. intros k Hk. destruct (page_within c ok k) as (? & ? & ?); [lia|].
  pose proof (page_apart c ok k (N + 1)). lia.
Qed.

Lemma sectors_small : 0 <= sectors c < 2 ^ 28.
Proof.
  pose proof regions as (? & ? & ? & ? & ? & ? & ?). pose proof (sn_room _ _ _ ok). pose proof (full_sectors c ok) as Hf.
  pose proof (page_size_least c ok). pose proof (sn_full _ _ _ ok) as [_ ?]. pose proof (sn_start _ _ _ ok) as [_ ?]. unfold SECTOR in *. nia.
Qed.

Lemma page_addr_u32 k : 0 <= k <= N -> u32 (start_addr c + u32 (k * P)) = page_addr c k.
Proof.
  intros Hk. pose proof regions as (? & ? & ? & ? & ? & ? & ? & ? & R9). destruct (R9 k Hk) as (? & ? & ?). pose proof (sn_start _ _ _ ok) as [_ ?].
  pose proof (dv_window _ _ dev) as [? ?]. unfold page_addr in *. assert (0 <= k * P) by nia. assert (0 <= state_pages c * P) by (unfold SIZEOF_STATE in *; pose proof sectors_small; lia).
  rewrite (wrap32_small (k * P)), wrap32_small; lia.
Qed.

(** A flash between two operations, in which page [p] is free. The marks of the second
    copy are not read before the first is lost. *)
Record image (m : Z -> Z) (p mc : Z) (d : Z -> list Z) : Prop := {
  im_pos : 0 <= p <= N;
  im_round : 0 <= mc < N;
  im_header1 : header m (A1 c) (hdr mc);
  im_marks1 : marks c m (A1 c) p;
  im_header2 : header m (A2 c) (hdr mc);
  im_disk : disk_is c m p mc d
}.

(** Changes of the free page do not matter. *)
Lemma image_ext m m' p mc d : image m p mc d ->
  (forall i, ~ (page_addr c p <= i < page_addr c p + P) -> m' i = m i) -> image m' p mc d.
Proof.
  intros [H1 H2 H3 H4 H5 H6] He. destruct regions as (R1 & R2 & R3 & R4 & R5 & R6 & R7 & R8 & R9). pose proof (R9 p H1) as (? & ? & ?).
  pose proof (state_room c ok) as [? _]. unfold SIZEOF_STATE in *. assert (0 <= state_pages c * P) by nia.
  split; try done; [eapply header_ext; [|done]|eapply marks_ext; [|done]|eapply header_ext; [|done]|eapply (disk_ext c ok m); try done];
    unfold SIZEOF_STATE; intros; [apply He; lia..|]. apply page_ext. intros i Hi. apply He.
  destruct (Z.lt_total k p) as [?|[?|?]]; [pose proof (page_apart c ok k p)|done|pose proof (page_apart c ok p k)]; lia.
Qed.

(** What page is moved, and which page is free then. *)
Definition next_page (p : Z) : Z := if N <=? p then 0 else p + 1.
Definition next_mc (p mc : Z) : Z := if N <=? p then next_round c mc else mc.

Lemma next_range p mc : 0 <= p <= N -> 0 <= mc < N -> 0 <= next_page p <= N /\ 0 <= next_mc p mc < N /\ next_page p <> p.
Proof.
  intros. pose proof (sn_room _ _ _ ok). unfold next_page, next_mc, next_round.
  destruct (Z.leb_spec N p), (Z.leb_spec N (mc + 1)); lia.
Qed.

Lemma disk_next m p mc d : 0 <= p <= N -> 0 <= mc < N -> disk_is c m p mc d ->
  disk_is c (moved c m p (next_page p) P) (next_page p) (next_mc p mc) d.
Proof.
  intros Hp Hm H. destruct (next_range p mc Hp Hm) as (? & ? & ?). apply (disk_moved c ok m p mc); try done.
  intros v. unfold next_page, next_mc. destruct (Z.leb_spec N p); [|apply phys_step].
  assert (p = N) as -> by lia. by apply (phys_wrap c ok).
Qed.

Definition blank (m : Z -> Z) (a : Z) : Prop := forall i, 0 <= i < SIZEOF_STATE -> m (a + i) = 0xFF.

(** The structure in the RAM says: page [p] is the last that was moved to, [q] is free, in round [mc]. *)
Definition stands (l : wl_flash_t) (p q mc : Z) : Prop := dummy_addr l = page_addr c p /\ pos (state l) = q /\ move_count (state l) = mc.

(** The flash and the RAM when a call fails while a page is moved: before that is marked; when it is
    marked, also where a new round is to begin; while the first copy of the state is written
    anew, with anything in its place; while the second is, with anything in its. *)
Inductive crashed (p mc : Z) (d : Z -> list Z) (l : wl_flash_t) (m : Z -> Z) : Prop :=
| cr_before : image m p mc d -> crashed p mc d l m
| cr_marked : stands l p p mc -> header m (A1 c) (hdr mc) -> marks c m (A1 c) (p + 1) -> header m (A2 c) (hdr mc) ->
    disk_is c m (next_page p) (next_mc p mc) d -> crashed p mc d l m
| cr_lost1 : p = N -> stands l p 0 (next_mc p mc) -> header m (A2 c) (hdr mc) ->
    disk_is c m p mc d -> disk_is c m (next_page p) (next_mc p mc) d -> crashed p mc d l m
| cr_lost2 : p = N -> header m (A1 c) (hdr (next_mc p mc)) -> marks c m (A1 c) 0 ->
    disk_is c m (next_page p) (next_mc p mc) d -> crashed p mc d l m.

(** Writing a mark, or failing to. *)
Lemma mark_apart m a p i : ~ (i = a + SIZEOF_STATE + p) -> programmed m (a + SIZEOF_STATE + p) [1] i = m i.
Proof. intros. unfold programmed. rewrite zlen_singleton. repeat if_split; try lia; done. Qed.

Lemma marks_changed m m' a p : 0 <= p < sectors c -> marks c m a p -> (forall i, ~ (a + SIZEOF_STATE + p <= i < a + SIZEOF_STATE + p + 1) -> m' i = m i) ->
  marks c m' a (if m' (a + SIZEOF_STATE + p) =? 0xFF then p else p + 1).
Proof.
  intros Hp H He i Hi. destruct (Z.eq_dec i p) as [->|Hn]; [case_bool (m' (a + SIZEOF_STATE + p) =? 0xFF); lia|].
  rewrite He, (H i Hi) by lia. case_bool (m' (a + SIZEOF_STATE + p) =? 0xFF); lia.
Qed.

Lemma marks_next m a p : 0 <= p < sectors c -> marks c m a p -> marks c (programmed m (a + SIZEOF_STATE + p) [1]) a (p + 1).
Proof.
  intros Hp H. pose proof (proj2 (H p Hp) (Z.le_refl p)) as E. pose proof (marks_changed m _ a p Hp H (fun i Hi => mark_apart m a p i ltac:(lia))) as G.
  assert (programmed m (a + SIZEOF_STATE + p) [1] (a + SIZEOF_STATE + p) = 1) as E1; [|by rewrite E1 in G].
  unfold programmed. rewrite zlen_singleton. repeat if_split; try lia. by rewrite E, Z.sub_diag.
Qed.

Lemma marks_blank m a : (forall i, 0 <= i < sectors c -> m (a + SIZEOF_STATE + i) = 0xFF) -> marks c m a 0.
Proof. intros H i Hi. rewrite H by done. lia. Qed.

(** Writing a header on erased flash. *)
Lemma header_written m a s : blank m a -> header (programmed m a (state_bytes s)) a s.
Proof.
  intros H i Hi. unfold programmed. rewrite zlen_state_bytes. unfold SIZEOF_STATE in *. repeat if_split; try lia.
  rewrite H by done. replace (a + i - a) with i by lia. apply land_FF, bytes_nthb, bytes_to_bytes.
Qed.

Lemma written_apart m a s i : ~ (a <= i < a + SIZEOF_STATE) -> programmed m a (state_bytes s) i = m i.
Proof. intros. unfold programmed. rewrite zlen_state_bytes. repeat if_split; try lia; done. Qed.

Lemma erased_apart m a n i : ~ (a <= i < a + n) -> erased m a n i = m i.
Proof. intros. unfold erased. repeat if_split; try lia; done. Qed.
Lemma erased_in m a n i : a <= i < a + n -> erased m a n i = 0xFF.
Proof. intros. unfold erased. repeat if_split; try lia; done. Qed.

(** What is not touched by a change elsewhere. *)
Ltac untouched := intros; unfold SIZEOF_STATE in *;
  repeat first [ rewrite written_apart by (unfold SIZEOF_STATE; lia) | rewrite erased_apart by lia | rewrite mark_apart by (unfold SIZEOF_STATE; lia)
               | match goal with H : forall i, ~ _ -> ?m i = _ |- context [?m _] => rewrite H by lia end
               | match goal with x := _ : Z -> Z |- context [?y _] => constr_eq x y; unfold x end ]; done.
Ltac frame :=
  first [ eapply header_ext; [|eassumption] | eapply marks_ext; [|eassumption]
        | match goal with H : forall _ _ _, _ -> _ -> disk_is _ _ _ _ _ -> _ |- _ => apply H; [lia| |assumption] end ]; untouched.

(** A new round: both copies of the state are written anew. *)
Lemma wpc_new_round mc d (Q : unit -> W -> Prop) w m b da : 0 <= mc < N -> sees w m (lay (at_pos 0 (next_round c mc)) b da) ->
  header m (A2 c) (hdr mc) -> disk_is c m N mc d -> disk_is c m 0 (next_round c mc) d ->
  da = page_addr c N ->
  (forall w' m', sees w' m' (lay (at_pos 0 (next_round c mc)) b da) -> image m' 0 (next_round c mc) d -> Q tt w') ->
  wpc (wl_flash_erase_raw (A1 c) (state_pages c * P) ;;;
       wl_flash_write_int (A1 c) (state_bytes (at_pos 0 (next_round c mc))) ;;;
       wl_flash_erase_raw (A2 c) (state_pages c * P) ;;;
       wl_flash_write_int (A2 c) (state_bytes (at_pos 0 (next_round c mc)))) Q (crashed N mc d) w.
Proof.
  intros Hmc H Hh2 Hd0 Hd Hda HQ. destruct regions as (R1 & R2 & R3 & R4 & R5 & R6 & R7 & R8 & R9).
  pose proof (state_room c ok) as [S1 _]. pose proof (sn_room _ _ _ ok) as Hr.
  destruct (next_range N mc ltac:(lia) Hmc) as (_ & Hmc' & _).
  assert (next_page N = 0 /\ next_mc N mc = next_round c mc) as [E1 E2] by (unfold next_page, next_mc; case_bool (N <=? N); lia || done).
  rewrite E2 in Hmc'. set (r := next_round c mc) in *. assert (stands (lay (at_pos 0 r) b da) N 0 r) as Hl by (subst da; done).
  assert (forall m' p mc', 0 <= p <= N -> (forall i, i < A1 c -> m' i = m i) -> disk_is c m p mc' d -> disk_is c m' p mc' d) as Hdisk.
  { intros m' p mc' Hp He. apply (disk_ext c ok); [done|]. intros k Hk _. apply page_ext. intros i Hi. apply He. specialize (R9 k Hk). lia. }
  apply wpc_bnd. eapply wpc_erase_raw; [exact H|lia|apply (page_align c ok)|lia|lia| |].
  { intros _ m' Hm'. apply cr_lost1; rewrite ?E1, ?E2; try done; frame. }
  intros w1 H1. set (m1 := erased m (A1 c) (state_pages c * P)) in *.
  assert (blank m1 (A1 c)) as Hb1 by (intros i Hi; apply erased_in; unfold SIZEOF_STATE in *; lia).
  apply wpc_bnd. eapply (wpc_write good may_fail dev); [exact H1|rewrite zlen_state_bytes; unfold SIZEOF_STATE in *; split_and!; lia|apply bytes_to_bytes| |].
  { rewrite zlen_state_bytes. intros _ m' Hm'. apply cr_lost1; rewrite ?E1, ?E2; try done; frame. }
  intros w2 H2. set (m2 := programmed m1 (A1 c) (state_bytes (at_pos 0 r))) in *.
  assert (header m2 (A1 c) (hdr r)) as Hn1 by by apply header_written.
  assert (marks c m2 (A1 c) 0) as Hk1.
  { apply marks_blank. intros i Hi. unfold m2, SIZEOF_STATE in *. rewrite written_apart by (unfold SIZEOF_STATE; lia). apply erased_in. lia. }
  apply wpc_bnd. eapply wpc_erase_raw; [exact H2|lia|apply (page_align c ok)|lia|lia| |].
  { intros _ m' Hm'. apply cr_lost2; rewrite ?E1, ?E2; try done; frame. }
  intros w3 H3. set (m3 := erased m2 (A2 c) (state_pages c * P)) in *.
  assert (blank m3 (A2 c)) as Hb3 by (intros i Hi; apply erased_in; unfold SIZEOF_STATE in *; lia).
  eapply (wpc_write good may_fail dev); [exact H3|rewrite zlen_state_bytes; unfold SIZEOF_STATE in *; split_and!; lia|apply bytes_to_bytes| |].
  { rewrite zlen_state_bytes. intros _ m' Hm'. apply cr_lost2; rewrite ?E1, ?E2; try done; frame. }
  intros w4 H4. eapply HQ; [exact H4|]. split; try done; [lia|frame|frame|by apply header_written|frame].
Qed.

(** The state a new round begins with. *)
Lemma new_round_state mc : 0 <= mc < 2 ^ 28 ->
  (let s1 := set_move_count (u32 (mc + 1)) (set_pos 0 (at_pos (N + 1) mc)) in
   let s2 := if max_pos s1 - 1 <=? move_count s1 then set_move_count 0 s1 else s1 in
   set_crc (crcf (state_words s2)) s2) = at_pos 0 (next_round c mc).
Proof.
  intros Hm. cbv zeta. cbn [max_pos move_count set_move_count set_pos at_pos hdr set_crc]. rewrite wrap32_small by lia.
  replace (N + 1 - 1) with N by lia. unfold next_round. by case_bool (N <=? mc + 1).
Qed.

Ltac unmarked := intros; match goal with |- ?f _ = _ => unfold f end; rewrite mark_apart by (unfold SIZEOF_STATE in *; lia); done.

(** Moving a page keeps the sectors, and a failure leaves one of the crashed states. *)
Lemma wpc_update p mc d (Q : unit -> W -> Prop) w m b da : sees w m (lay (at_pos p mc) b da) -> image m p mc d ->
  (forall w' m' b' da', sees w' m' (lay (at_pos (next_page p) (next_mc p mc)) b' da') ->
     image m' (next_page p) (next_mc p mc) d -> Q tt w') ->
  wpc (wl_flash_updatewl crcf) Q (crashed p mc d) w.
Proof.
  intros H I HQ. pose proof I as [Hp Hm Hh1 Hm1 Hh2 Hd]. destruct regions as (R1 & R2 & R3 & R4 & R5 & R6 & R7 & R8 & R9).
  destruct (R9 p Hp) as (? & ? & ?). destruct (next_range p mc Hp Hm) as (Hnp & Hnm & Hne). destruct (R9 _ Hnp) as (? & ? & ?).
  pose proof (state_room c ok) as [S1 _]. pose proof (sn_room _ _ _ ok) as Hr. pose proof (page_size_least c ok) as Hps. unfold SECTOR in Hps.
  pose proof sectors_small as Hsm. unfold wl_flash_updatewl. apply wpc_bnd. eapply wpc_get_wl; [exact H|].
  cbn [state cfg lay max_pos pos at_pos set_pos hdr set_crc page_size sealed temp_buff_size start_addr wr_size addr_state1 addr_state2 state_size].
  rewrite (sn_wr _ _ _ ok). rewrite (wrap32_small (p + 1)) by lia.
  assert ((if N + 1 <=? p + 1 then 0 else p + 1) = next_page p) as -> by (unfold next_page; repeat if_split; lia).
  rewrite !page_addr_u32 by done. apply wpc_bnd. eapply wpc_wl_mod; [exact H|]. intros w1 W1. clear H.
  apply wpc_bnd. replace P with (1 * P) at 1 by lia.
  eapply (wpc_erase_raw (page_addr c p) 1); [exact W1|lia|apply (page_align c ok)|lia|lia| |].
  { intros _ m' Hm'. apply cr_before. eapply image_ext; [exact I|]. intros i Hi. apply Hm'. lia. }
  intros w2 W2. apply wpc_bnd. eapply (wpc_copy p (next_page p)); try done.
  { eapply sees_ext; [exact W2|]. intros i _. unfold moved, erased. repeat if_split; try lia; done. }
  { intros _ b' m' Hm'. apply cr_before. eapply image_ext; [exact I|]. intros i Hi. by apply Hm'. }
  intros w3 b3 W3. clear w1 w2 W1 W2. replace (u32 (p * 8) / 8) with p by (rewrite wrap32_small by lia; by rewrite Z.div_mul by lia).
  pose proof (disk_next m p mc d Hp Hm Hd) as Hd'. set (m0 := moved c m p (next_page p) P) in *.
  assert (image m0 p mc d) as I0 by (eapply image_ext; [exact I|]; intros i Hi; by apply moved_other).
  pose proof I0 as [_ _ Gh1 Gm1 Gh2 Gd]. clear Hh1 Hm1 Hh2 Hd I.
  assert (forall m' p' mc', 0 <= p' <= N -> (forall i, i < A1 c -> m' i = m0 i) -> disk_is c m0 p' mc' d -> disk_is c m' p' mc' d) as Hdisk.
  { intros m' p' mc' Hp' He. eapply (disk_ext c ok m0); [done|]. intros k Hk _. apply page_ext. intros i Hi. apply He. specialize (R9 k Hk). lia. }
  unfold SIZEOF_STATE in R4.
  rewrite (wrap32_small (A1 c + _ + _)), (wrap32_small (A2 c + _ + _)) by (unfold SIZEOF_STATE; lia).
  apply wpc_bnd. eapply (wpc_write good may_fail dev); [exact W3|rewrite zlen_singleton; unfold SIZEOF_STATE; split_and!; lia|by repeat constructor| |].
  { rewrite zlen_singleton. intros _ m' Hm'. pose proof (marks_changed m0 m' (A1 c) p ltac:(lia) Gm1 Hm') as Gm. revert Gm.
    case_bool (m' (A1 c + SIZEOF_STATE + p) =? 0xFF); intros Gm; [apply cr_before; split; try done; frame|apply cr_marked; try done; frame]. }
  intros w4 W4. set (m1 := programmed m0 (A1 c + SIZEOF_STATE + p) [1]) in *.
  assert (header m1 (A1 c) (hdr mc) /\ marks c m1 (A1 c) (p + 1) /\ header m1 (A2 c) (hdr mc) /\
    disk_is c m1 (next_page p) (next_mc p mc) d) as (B1 & B2 & B3 & B5).
  { split_and!; [eapply header_ext; [|exact Gh1]|by apply marks_next; [lia|]|eapply header_ext; [|exact Gh2]|apply Hdisk; [lia| |done]]; unmarked. }
  apply wpc_bnd. eapply (wpc_write good may_fail dev); [exact W4|rewrite zlen_singleton; unfold SIZEOF_STATE; split_and!; lia|by repeat constructor| |].
  { rewrite zlen_singleton. intros _ m' Hm'. apply cr_marked; try done; try frame. }
  intros w5 W5. set (m2 := programmed m1 (A2 c + SIZEOF_STATE + p) [1]) in *.
  assert (header m2 (A1 c) (hdr mc) /\ marks c m2 (A1 c) (p + 1) /\ header m2 (A2 c) (hdr mc) /\
    disk_is c m2 (next_page p) (next_mc p mc) d /\ disk_is c m2 p mc d) as (D1 & D2 & D3 & D5 & D6).
  { split_and!; [eapply header_ext; [|exact B1]|eapply marks_ext; [|exact B2]|eapply header_ext; [|exact B3]|apply Hdisk; [lia| |done]|apply Hdisk; [lia| |done]];
      try unmarked; intros i Hi; transitivity (m1 i); unmarked. }
  apply wpc_bnd. eapply wpc_state_mod; [exact W5|]. intros w6 W6. apply wpc_bnd. eapply wpc_get_wl; [exact W6|].
  assert (sees w6 m2 (lay (at_pos (p + 1) mc) b3 (page_addr c p))) as W7 by (rewrite <- (wrap32_small (p + 1)) by lia; exact W6).
  clear W6. cbn [state set_state lay at_pos set_pos pos max_pos hdr set_crc]. rewrite (wrap32_small (p + 1)) by lia.
  unfold next_page, next_mc in *. case_bool (N <=? p).
  - case_bool (N + 1 <=? p + 1); [|lia]. assert (p = N) as -> by lia. clear - dev ok W7 D1 D2 D3 D5 D6 HQ Hm Hsm R5.
    apply wpc_bnd. eapply wpc_state_mod; [exact W7|]. intros w1 W1. apply wpc_bnd. eapply wpc_state_mod; [exact W1|]. intros w2 W2.
    apply wpc_bnd. eapply wpc_state_mod; [exact W2|]. intros w3 W3.
    assert (sees w3 m2 (lay (at_pos 0 (next_round c mc)) b3 (page_addr c N))) as W4 by (rewrite <- new_round_state by lia; exact W3).
    apply wpc_bnd. eapply wpc_get_wl; [exact W4|]. cbn [addr_state1 addr_state2 state_size state lay].
    eapply wpc_new_round; [exact Hm|exact W4|exact D3|exact D6|exact D5|done|]. intros w4 m4 W5 I5. by eapply HQ.
  - case_bool (N + 1 <=? p + 1); [lia|]. apply wpc_ret. eapply HQ; [exact W7|]. by split.
Qed.

End Update.
End WlDisk.
