(* ===== verification/WlOps.v ===== *)
(** * Wear levelling: erasing, writing and reading sectors

    Each function on the sectors, as the file system calls it, does to their contents what
    its name says, whatever page is free; if a call of the flash fails in it, only the
    sectors it was called for may have changed. *)
From S2P Require Import Prelude Flash Wl WlSpec WlDisk.
Open Scope Z_scope.
Open Scope fw_scope.

Module WlOps.
Import Wl WlSpec WlDisk.

Section Ops.
Context {F : Type} {fl : Flash F} (good : F -> Prop) (may_fail : Prop) (dev : device good may_fail).
Context (crcf : list Z -> Z) (c : wl_config_t) (ok : sane c fl_lo fl_hi).
Abbreviation W := (world (F := F)).
Abbreviation N := (N c).
Abbreviation P := (page_size c).
#[local] Abbreviation wpc := (wpc good may_fail).
#[local] Abbreviation sees := (sees good).
#[local] Abbreviation image := (image crcf c).
#[local] Abbreviation crashed := (crashed crcf c).
#[local] Abbreviation lay := (lay crcf c).
#[local] Abbreviation at_pos := (at_pos crcf c).

(** ** The contents of the sectors *)

Abbreviation disk := (Z -> list Z).
Definition upd (d : disk) (v : Z) (x : list Z) : disk := fun u => if u =? v then x else d u.
Definition ffs : list Z := replicate (Z.to_nat P) 0xFF.
(** [n] sectors from [s] with the contents [f]. *)
Definition upds (d : disk) (s n : Z) (f : Z -> list Z) : disk := fun u => if (s <=? u) && (u <? s + n) then f u else d u.

Lemma upd_upds d s n f u : 0 <= n -> upd (upds d s n f) (s + n) (f (s + n)) u = upds d s (n + 1) f u.
Proof.
  intros Hn. unfold upd, upds. destruct (Z.eqb_spec u (s + n)) as [->|]; repeat if_split; try lia; done.
Qed.

Lemma image_disk m p mc d d' : image m p mc d -> (forall v, 0 <= v < N -> d v = d' v) -> image m p mc d'.
Proof. intros [H1 H2 H3 H4 H5 H6] He. split; try done. intros v Hv. rewrite <- He by done. by apply H6. Qed.

(** A change within the page of a sector. *)
Lemma image_sector m m' p mc d v x : image m p mc d -> 0 <= v < N ->
  (forall i, ~ (page_addr c (phys c p mc v) <= i < page_addr c (phys c p mc v) + P) -> m' i = m i) ->
  page c m' (phys c p mc v) = x -> image m' p mc (upd d v x).
Proof.
  intros [H1 H2 H3 H4 H5 H6] Hv He Hx. destruct (regions good may_fail dev c ok) as (R1 & R2 & R3 & R4 & R5 & R6 & R7 & R8 & R9).
  destruct (phys_range c ok p mc v H1) as [Hr Hn]. pose proof (R9 _ Hr) as (? & ? & ?). pose proof (state_room c ok) as [? _].
  assert (0 <= state_pages c * P) by nia.
  split; try done; [eapply header_ext; [|done]|eapply marks_ext; [|done]|eapply header_ext; [|done]|];
    unfold SIZEOF_STATE in *; [intros; apply He; lia..|].
  intros u Hu. unfold upd. destruct (Z.eqb_spec u v) as [->|Huv]; [done|]. rewrite <- (H6 u Hu). apply page_ext. intros i Hi. apply He.
  assert (phys c p mc u <> phys c p mc v) as Hpn by (intros E; by apply Huv, (phys_inj c ok p mc)).
  destruct (Z.lt_total (phys c p mc u) (phys c p mc v)) as [Hlt|[?|Hlt]]; [pose proof (page_apart c ok _ _ Hlt)|done|pose proof (page_apart c ok _ _ Hlt)]; lia.
Qed.

(** The structure in the RAM and the flash stand for these contents. *)
Definition mounted_at (w : W) (p mc : Z) (d : disk) : Prop := exists m b da, sees w m (lay (at_pos p mc) b da) /\ image m p mc d.
Definition mounted (w : W) (d : disk) : Prop := exists p mc, mounted_at w p mc d.

Lemma mounted_disk w d d' : mounted w d -> (forall v, 0 <= v < N -> d v = d' v) -> mounted w d'.
Proof. intros (p & mc & m & b & da & H & I) He. exists p, mc, m, b, da. split; [done|by eapply image_disk]. Qed.

(** The sectors can be read. *)
Definition readable (w : W) (d : disk) : Prop :=
  exists m p mc b da, sees w m (lay (at_pos p mc) b da) /\ 0 <= p <= N /\ 0 <= mc < N /\ disk_is c m p mc d.

Lemma mounted_readable w d : mounted w d -> readable w d.
Proof. intros (p & mc & m & b & da & H & [Hp Hm _ _ _ Hd]). by exists m, p, mc, b, da. Qed.

(** A flash after a failure, whose sectors but [n] from [s] are those of [d]. *)
Definition hurt (d : disk) (s n : Z) (l : wl_flash_t) (m : Z -> Z) : Prop :=
  exists p mc d', 0 <= p <= N /\ 0 <= mc < N /\ crashed p mc d' l m /\ forall u, 0 <= u < N -> ~ (s <= u < s + n) -> d' u = d u.

(** The page of a sector, as the functions find it. *)
Lemma sector_addr s b da p mc v : 0 <= p <= N -> 0 <= mc < N -> 0 <= v < sectors c -> s = at_pos p mc ->
  wl_flash_calc_addr (lay s b da) (u32 (v * P)) = phys c p mc v * P /\ u32 (start_addr c + phys c p mc v * P) = page_addr c (phys c p mc v).
Proof.
  intros Hp Hm Hv ->. destruct (phys_range c ok p mc v Hp) as [Hr _]. destruct (phys_range c ok p mc v Hp) as [Hr' _].
  destruct (regions good may_fail dev c ok) as (R1 & R2 & R3 & R4 & R5 & R6 & R7 & R8 & R9). destruct (R9 _ Hr) as (? & ? & Hb).
  destruct (page_within c ok v) as (? & ? & ?); [done|]. pose proof (sn_start _ _ _ ok) as [_ ?].
  pose proof (sectors_small good may_fail dev c ok). unfold SIZEOF_STATE in R4.
  assert (v * P < 2 ^ 31) by (unfold page_addr in *; lia). assert (0 <= v * P) by nia. split.
  - rewrite wrap32_small by lia. by apply (calc_addr_is c ok); cbn; try done; lia.
  - apply wrap32_small. unfold page_addr in *. lia.
Qed.

(** Numbers past the last sector stand for the first ones again. *)
Lemma phys_mod p mc v : phys c p mc (v mod N) = phys c p mc v.
Proof. unfold phys. by rewrite Zminus_mod_idemp_l. Qed.

Lemma wpc_erase_sector v p mc d (Q : unit -> W -> Prop) w : 0 <= v < sectors c -> mounted_at w p mc d ->
  (forall w', mounted_at w' (next_page c p) (next_mc c p mc) (upd d (v mod N) ffs) -> Q tt w') ->
  wpc (wl_flash_erase_sector crcf v) Q (hurt d (v mod N) 1) w.
Proof.
  intros Hv (m & b & da & H & I) HQ. pose proof (Z.mod_pos_bound v N ltac:(pose proof (sn_room _ _ _ ok); lia)) as Hvm. pose proof I as [Hp Hm _ _ _ _]. unfold wl_flash_erase_sector. apply wpc_bnd.
  eapply wpc_conseq; [eapply (wpc_update good may_fail dev crcf c ok p mc d (fun _ w' => exists m' b' da', sees w' m'
    (lay (at_pos (next_page c p) (next_mc c p mc)) b' da') /\ image m' (next_page c p) (next_mc c p mc) d)); [exact H|exact I|eauto 10]| |].
  2:{ intros l1 m1 Hc. by exists p, mc, d. }
  intros [] w1 (m1 & b1 & da1 & H1 & I1). destruct (next_range c ok p mc Hp Hm) as (Hp' & Hm' & _).
  set (p' := next_page c p) in *. set (mc' := next_mc c p mc) in *. apply wpc_bnd. eapply wpc_get_wl; [exact H1|].
  destruct (sector_addr (at_pos p' mc') b1 da1 p' mc' v Hp' Hm' Hv eq_refl) as [E1 E2]. cbn [cfg lay sealed start_addr sector_size].
  rewrite (sn_sector _ _ _ ok), E1, E2. destruct (phys_range c ok p' mc' v Hp') as [Hr _].
  destruct (regions good may_fail dev c ok) as (R1 & R2 & R3 & R4 & R5 & R6 & R7 & R8 & R9). destruct (R9 _ Hr) as (? & ? & ?).
  pose proof (sectors_small good may_fail dev c ok). unfold SIZEOF_STATE in R4.
  eapply (wpc_erase good may_fail dev); [exact H1|split_and!; lia|apply (page_align c ok)|apply (sn_align _ _ _ ok)| |].
  - intros _ m' Hm'0. exists p', mc', (upd d (v mod N) (page c m' (phys c p' mc' (v mod N)))). split_and!; try lia.
    + apply cr_before. eapply image_sector; [exact I1|done| |done]. rewrite phys_mod. exact Hm'0.
    + intros u Hu Hns. unfold upd. if_split; [lia|done].
  - intros w2 W2. apply HQ. eexists _, b1, da1. split; [exact W2|]. eapply image_sector; [exact I1|done| |]; rewrite phys_mod.
    + intros i Hi. by apply erased_apart.
    + unfold page, ffs, mem_slice. apply list_eq. intros j. rewrite list_lookup_fmap. destruct (decide (Z.of_nat j < P)) as [Hj|Hj].
      * rewrite lookup_seqZ_lt, lookup_replicate_2 by lia. cbn. f_equal. apply erased_in. lia.
      * rewrite lookup_seqZ_ge by lia. symmetry. apply lookup_replicate_None. lia.
Qed.

Lemma hurt_within d d' s n s' n' l m : hurt d' s' n' l m -> (forall u, 0 <= u < N -> ~ (s <= u < s + n) -> d' u = d u) ->
  s <= s' -> s' + n' <= s + n -> hurt d s n l m.
Proof.
  intros (p & mc & d2 & Hp & Hm & Hc & Hu) He H1 H2. exists p, mc, d2. split_and!; try lia; [done|].
  intros u Hr Hn. rewrite <- He by done. apply Hu; lia.
Qed.

(** Numbers of bytes of some sectors. *)
Lemma span_range s n : 0 <= s -> 0 <= n -> s + n < sectors c -> 0 <= s * P /\ 0 <= n * P /\ s * P + n * P + P <= 2 ^ 31.
Proof.
  intros Hs Hn Hsn. pose proof (full_sectors c ok) as Hf. pose proof (sn_pos _ _ _ ok). pose proof (sn_start _ _ _ ok) as [_ ?].
  pose proof (sn_full _ _ _ ok) as [_ ?]. assert ((s + n + 1) * P <= sectors c * P) by nia. nia.
Qed.

Lemma wpc_erase_range s n d (Q : unit -> W -> Prop) w : 0 <= s -> 0 <= n -> s + n <= N -> mounted w d ->
  (forall w', mounted w' (upds d s n (fun _ => ffs)) -> Q tt w') ->
  wpc (wl_flash_erase_range crcf (s * P) (n * P)) Q (hurt d s n) w.
Proof.
  intros Hs Hn Hsn H HQ. pose proof (sn_pos _ _ _ ok).
  pose proof (sectors_small good may_fail dev c ok). destruct (regions good may_fail dev c ok) as (_ & _ & _ & _ & R5 & _).
  destruct (span_range s n Hs Hn) as (B1 & B2 & B3); [lia|].
  unfold wl_flash_erase_range. apply wpc_bnd. pose proof H as (p & mc & m & b & da & Hw & I). eapply wpc_get_wl; [exact Hw|].
  cbn [cfg lay sealed sector_size]. rewrite (sn_sector _ _ _ ok), (wrap32_small (n * P + P)), wrap32_small by lia.
  assert ((n * P + P - 1) / P = n) as -> by (symmetry; apply Z.div_unique with (P - 1); lia). rewrite Z.div_mul by lia.
  eapply (wpc_for good may_fail (fun i w => mounted w (upds d s i (fun _ => ffs)))).
  - intros i w1 Hi (p1 & mc1 & G1). rewrite Z2Nat.id in Hi by lia. rewrite wrap32_small by lia.
    eapply wpc_conseq; [eapply (wpc_erase_sector (s + i)); [lia|exact G1|]|intros a w' Ha; exact Ha|]; rewrite (Z.mod_small (s + i)) by lia.
    + intros w2 G2. eapply (mounted_disk w2 (upd (upds d s i (fun _ => ffs)) (s + i) ffs)); [eexists _, _; exact G2|]. intros v _. apply (upd_upds d s i (fun _ => ffs)); lia.
    + intros l1 m1 G3. eapply hurt_within; [exact G3| |lia|lia]. intros u Hu Hns. unfold upds. repeat if_split; try lia; done.
  - eapply mounted_disk; [exact H|]. intros v _. unfold upds. repeat if_split; try lia; done.
  - intros w1 G1. rewrite Z2Nat.id in G1 by lia. by apply HQ.
Qed.

Lemma page_written m k x : page c m k = ffs -> zlen x = P -> bytes x -> page c (programmed m (page_addr c k) x) k = x.
Proof.
  intros Hf Hx Hb. unfold page in *. pose proof (sn_pos _ _ _ ok).
  apply list_eq_nthb; rewrite zlen_mem_slice by lia; [lia|]. intros i Hi. rewrite nthb_mem_slice by lia. unfold programmed. repeat if_split; try lia.
  assert (m (page_addr c k + i) = 0xFF) as ->.
  { rewrite <- (nthb_mem_slice m _ P) by done. rewrite Hf. unfold nthb, ffs. rewrite nth_lookup_0, lookup_replicate_2 by lia. done. }
  replace (page_addr c k + i - page_addr c k) with i by lia. by apply land_FF, bytes_nthb.
Qed.

Lemma wpc_write_sector v x d (Q : unit -> W -> Prop) w m l p mc : 0 <= v < N -> sees w m l -> image m p mc d ->
  d v = ffs -> zlen x = P -> bytes x -> (forall w' m', sees w' m' l -> image m' p mc (upd d v x) -> Q tt w') ->
  wpc (wl_flash_write_int (page_addr c (phys c p mc v)) x) Q (hurt d v 1) w.
Proof.
  intros Hv H I Hd Hx Hb HQ. pose proof I as [Hp Hm _ _ _ Hdisk]. destruct (phys_range c ok p mc v Hp) as [Hr _].
  destruct (regions good may_fail dev c ok) as (R1 & R2 & R3 & R4 & R5 & R6 & R7 & R8 & R9). destruct (R9 _ Hr) as (? & ? & ?).
  pose proof (sectors_small good may_fail dev c ok). unfold SIZEOF_STATE in R4.
  eapply (wpc_write good may_fail dev); [exact H|split_and!; lia|done| |].
  - intros _ m' Hm'. rewrite Hx in Hm'. exists p, mc, (upd d v (page c m' (phys c p mc v))). split_and!; try lia.
    + apply cr_before. by eapply image_sector.
    + intros u Hu Hns. unfold upd. if_split; [lia|done].
  - intros w1 G1. eapply HQ; [exact G1|]. eapply image_sector; [exact I|done| |].
    + intros i Hi. unfold programmed. repeat if_split; try lia; done.
    + apply page_written; [|done|done]. rewrite <- Hd. by apply Hdisk.
Qed.

(** The sectors of a buffer. *)
Definition sector_of (src : list Z) (s u : Z) : list Z := slice ((u - s) * P) P src.

Lemma wpc_write_range s n src d (Q : unit -> W -> Prop) w : 0 <= s -> 0 < n -> s + n <= N -> mounted w d ->
  (forall v, s <= v < s + n -> d v = ffs) -> zlen src = n * P -> bytes src ->
  (forall w', mounted w' (upds d s n (sector_of src s)) -> Q tt w') ->
  wpc (wl_flash_write (s * P) src (n * P)) Q (hurt d s n) w.
Proof.
  intros Hs Hn Hsn (p & mc & m & b & da & H & I) Hd Hl Hb HQ. pose proof I as [Hp Hm _ _ _ _].
  pose proof (sn_pos _ _ _ ok).
  pose proof (sectors_small good may_fail dev c ok). destruct (regions good may_fail dev c ok) as (_ & _ & _ & _ & R5 & _).
  destruct (span_range s n Hs) as (B1 & B2 & B3); [lia|lia|].
  assert (forall i w1 m1 (R : unit -> W -> Prop), 0 <= i < n -> sees w1 m1 (lay (at_pos p mc) b da) ->
    image m1 p mc (upds d s i (sector_of src s)) ->
    (forall w2 m2, sees w2 m2 (lay (at_pos p mc) b da) -> image m2 p mc (upds d s (i + 1) (sector_of src s)) -> R tt w2) ->
    wpc (wl_flash_write_int (u32 (start_addr c + wl_flash_calc_addr (lay (at_pos p mc) b da) (u32 (s * P + u32 (i * P)))))
      (slice (i * P) P src)) R (hurt d s n) w1) as Hone.
  { intros i w1 m1 R Hi G1 I1 HR. assert (0 <= i * P /\ i * P + P <= n * P) as [? ?] by nia. rewrite (wrap32_small (i * P)) by lia.
    replace (s * P + i * P) with ((s + i) * P) by ring.
    destruct (sector_addr (at_pos p mc) b da p mc (s + i) Hp Hm ltac:(lia) eq_refl) as [-> ->].
    eapply wpc_conseq; [eapply (wpc_write_sector (s + i)); [lia|exact G1|exact I1| | | |]|intros a w' Ha; exact Ha|].
    - unfold upds. repeat if_split; try lia. apply Hd. lia.
    - apply zlen_slice; lia.
    - by apply bytes_slice.
    - intros w2 m2 G2 I2. eapply HR; [exact G2|]. eapply image_disk; [exact I2|]. intros v _.
      rewrite <- upd_upds by lia. unfold upd, sector_of. by replace (s + i - s) with i by lia.
    - intros l2 m2 Hh. eapply hurt_within; [exact Hh| |lia|lia]. intros u Hu Hns. unfold upds. repeat if_split; try lia; done. }
  unfold wl_flash_write. apply wpc_bnd. eapply wpc_get_wl; [exact H|]. cbn [cfg lay sealed page_size start_addr]. cbv zeta.
  rewrite (wrap32_small (n * P - 1)) by lia.
  assert ((n * P - 1) / P = n - 1) as -> by (symmetry; apply Z.div_unique with (P - 1); lia).
  replace (n * P - (n - 1) * P) with P by ring. apply wpc_bnd.
  eapply (wpc_for good may_fail (fun i w => exists m, sees w m (lay (at_pos p mc) b da) /\ image m p mc (upds d s i (sector_of src s)))).
  - intros i w1 Hi (m1 & G1 & I1). rewrite Z2Nat.id in Hi by lia. eapply Hone; [lia|exact G1|exact I1|]. intros w2 m2 G2 I2. by exists m2.
  - exists m. split; [exact H|]. eapply image_disk; [exact I|]. intros v _. unfold upds. repeat if_split; try lia; done.
  - intros w1 (m1 & G1 & I1). rewrite Z2Nat.id in I1 by lia. eapply Hone; [lia|exact G1|exact I1|].
    intros w2 m2 G2 I2. apply HQ. exists p, mc, m2, b, da. split; [exact G2|]. by replace (n - 1 + 1) with n in I2 by lia.
Qed.

(** The contents of [n] sectors from [s], one after the other. *)
Definition contents (d : disk) (s n : Z) : list Z := concat (map d (seqZ s n)).

Lemma contents_more d s n : 0 < n -> contents d s n = d s ++ contents d (s + 1) (n - 1).
Proof.
  intros Hn. unfold contents. rewrite seqZ_cons by lia. cbn. by replace (Z.succ s) with (s + 1) by lia; replace (Z.pred n) with (n - 1) by lia.
Qed.

Lemma wpc_read_sector v i s (Q : list Z -> W -> Prop) C w m p mc b da d : 0 <= i -> 0 <= s -> v = s + i -> v + 1 < sectors c ->
  sees w m (lay (at_pos p mc) b da) -> 0 <= p <= N -> 0 <= mc < N -> disk_is c m p mc d -> Q (d (v mod N)) w ->
  wpc (wl_flash_read_int (u32 (start_addr c + wl_flash_calc_addr (lay (at_pos p mc) b da) (u32 (s * P + u32 (i * P))))) P) Q C w.
Proof.
  intros Hi Hs Hv HvN H Hp Hm Hd HQ. destruct (span_range s i Hs Hi) as (B1 & B2 & B3); [lia|].
  rewrite (wrap32_small (i * P)) by (pose proof (sn_pos _ _ _ ok); lia). replace (s * P + i * P) with (v * P) by (subst v; ring).
  destruct (sector_addr (at_pos p mc) b da p mc v Hp Hm ltac:(lia) eq_refl) as [-> ->]. destruct (phys_range c ok p mc v Hp) as [Hr _].
  destruct (regions good may_fail dev c ok) as (R1 & R2 & R3 & R4 & R5 & R6 & R7 & R8 & R9). destruct (R9 _ Hr) as (? & ? & ?).
  pose proof (sectors_small good may_fail dev c ok). unfold SIZEOF_STATE in R4.
  eapply (wpc_read good may_fail dev); [exact H|split_and!; lia|]. intros _. fold (page c m (phys c p mc v)).
  rewrite <- phys_mod, Hd by (apply Z.mod_pos_bound; lia). exact HQ.
Qed.

Lemma wpc_read_loop s n m p mc b da d C : 0 <= s -> forall i (Q : list Z -> W -> Prop) w, 0 <= i -> s + i + Z.of_nat n < sectors c ->
  sees w m (lay (at_pos p mc) b da) -> 0 <= p <= N -> 0 <= mc < N -> disk_is c m p mc d -> Q (contents (fun v => d (v mod N)) (s + i) (Z.of_nat n)) w ->
  wpc (read_loop n i (s * P)) Q C w.
Proof.
  intros Hs. induction n as [|n IH]; intros i Q w Hi Hn H Hp Hm Hd HQ; cbn [read_loop]; [by apply wpc_ret|].
  apply wpc_bnd. eapply wpc_get_wl; [exact H|]. cbv zeta. cbn [cfg lay sealed page_size start_addr].
  apply wpc_bnd. eapply (wpc_read_sector (s + i)); [lia|lia|done|lia|exact H|done|done|exact Hd|].
  apply wpc_bnd. eapply IH; [lia|lia|exact H|done|done|exact Hd|]. apply wpc_ret.
  rewrite contents_more in HQ by lia. replace (Z.of_nat (S n) - 1) with (Z.of_nat n) in HQ by lia.
  by replace (s + (i + 1)) with (s + i + 1) by lia.
Qed.

Lemma contents_snoc d s n : 0 <= n -> contents d s (n + 1) = contents d s n ++ d (s + n).
Proof.
  intros Hn. unfold contents. rewrite seqZ_app, (seqZ_cons (s + n)) by lia. rewrite map_app, concat_app. cbn. by rewrite !app_nil_r.
Qed.

Lemma wpc_read_range s n d (Q : list Z -> W -> Prop) C w : 0 <= s -> 0 < n -> s + n < sectors c -> readable w d ->
  Q (contents (fun v => d (v mod N)) s n) w ->
  wpc (wl_flash_read (s * P) (n * P)) Q C w.
Proof.
  intros Hs Hn Hsn (m & p & mc & b & da & H & Hp & Hm & Hd) HQ. pose proof (sn_pos _ _ _ ok). unfold wl_flash_read.
  case_bool (n * P <? 1); [nia|]. apply wpc_bnd. eapply wpc_get_wl; [exact H|]. cbv zeta. cbn [cfg lay sealed page_size start_addr].
  assert ((n * P - 1) / P = n - 1) as -> by (symmetry; apply Z.div_unique with (P - 1); lia).
  replace (n * P - (n - 1) * P) with P by ring. apply wpc_bnd.
  eapply (wpc_read_loop s); [lia|lia|rewrite Z2Nat.id; lia|exact H|done|done|exact Hd|]. rewrite Z2Nat.id by lia. apply wpc_bnd.
  eapply (wpc_read_sector (s + (n - 1))); [lia|lia|done|lia|exact H|done|done|exact Hd|]. apply wpc_ret.
  replace n with (n - 1 + 1) in HQ by lia. rewrite contents_snoc in HQ by lia. by rewrite Z.add_0_r.
Qed.

End Ops.
End WlOps.
