(* ===== verification/WlMount.v ===== *)
(** * Wear levelling: mounting

    What [wl_flash_config] makes of the flash: of one that was left between two operations,
    of one on which a call failed in the middle of an erase, of a new one. *)
From S2P Require Import Prelude Flash Wl WlSpec WlDisk WlOps.
Open Scope Z_scope.
Open Scope fw_scope.

Module WlMount.
Import Wl WlSpec WlDisk WlOps.

(** ** A state read back *)

Lemma take_drop_le n z l : take n (le_enc n z ++ l) = le_enc n z /\ drop n (le_enc n z ++ l) = l.
Proof.
  assert (length (le_enc n z) = n) as Hl by (pose proof (zlen_le_enc n z); unfold zlen in *; lia).
  split; [by rewrite take_app_le, take_ge by lia|by rewrite drop_app_le, drop_ge by lia].
Qed.

Lemma to_words_bytes ws : Forall (in_w 32) ws -> to_words (length ws) (to_bytes ws) = ws.
Proof.
  induction 1 as [|z ws Hz H IH]; [done|]. unfold to_bytes in *. cbn [map concat length to_words].
  destruct (take_drop_le 4 z (concat (map (le_enc 4) ws))) as [-> ->]. rewrite IH, le_dec_enc. by rewrite Z.mod_small.
Qed.

Lemma bytes_state_id s : Forall (in_w 32) (state_words s ++ [crc s]) -> bytes_state (state_bytes s) = s.
Proof. intros H. unfold bytes_state, state_bytes. rewrite (to_words_bytes _ H : to_words 6 _ = _). by destruct s. Qed.

Lemma header_read m a s : header m a s -> mem_slice m a SIZEOF_STATE = state_bytes s.
Proof.
  intros H. apply list_eq_nthb; rewrite zlen_mem_slice by (unfold SIZEOF_STATE; lia); [done|].
  intros i Hi. rewrite nthb_mem_slice by done. by apply H.
Qed.

(** The words of erased flash. *)
Definition erased_word : Z := 2 ^ 32 - 1.
Lemma blank_read m a : blank m a -> bytes_state (mem_slice m a SIZEOF_STATE) =
  mk_state erased_word erased_word erased_word erased_word erased_word erased_word.
Proof.
  intros H. assert (mem_slice m a SIZEOF_STATE = replicate 24 0xFF) as ->; [|done].
  apply list_eq_nthb; rewrite zlen_mem_slice by (unfold SIZEOF_STATE; lia); [done|].
  intros i Hi. rewrite nthb_mem_slice, H by done. unfold nthb, SIZEOF_STATE in *. rewrite nth_lookup_0, lookup_replicate_2 by lia. done.
Qed.

Section Mount.
Context {F : Type} {fl : Flash F} (good : F -> Prop) (dev : device good False).
Context (crcf : list Z -> Z) (c : wl_config_t) (ok : sane c fl_lo fl_hi).

(** What is needed of the CRC unit: words are 32 bits wide, and the CRC of erased words is not
    the erased word. *)
Record crc_laws : Prop := {
  crc_word ws : in_w 32 (crcf ws);
  crc_blank : crcf (replicate 5 erased_word) <> erased_word
}.
Context (crcs : crc_laws).

Abbreviation W := (world (F := F)).
Abbreviation N := (N c).
Abbreviation P := (page_size c).
#[local] Abbreviation wpc := (wpc good False).
#[local] Abbreviation sees := (sees good).
#[local] Abbreviation image := (image crcf c).
#[local] Abbreviation lay := (lay crcf c).
#[local] Abbreviation at_pos := (at_pos crcf c).
#[local] Abbreviation hdr := (hdr crcf c).

Lemma hdr_bytes mc : 0 <= mc < N -> bytes_state (state_bytes (hdr mc)) = hdr mc.
Proof.
  intros Hm. apply bytes_state_id. pose proof (sectors_small good False dev c ok). pose proof (sn_version _ _ _ ok).
  destruct (regions good False dev c ok) as (R1 & R2 & R3 & R4 & R5 & R6 & R7 & R8 & _). unfold SIZEOF_STATE in *.
  repeat constructor; cbn [pos max_pos move_count block_size version hdr set_crc]; unfold in_w; try lia; try done; apply (crc_word crcs).
Qed.

(** The first mark that is not used. *)
Lemma wpc_recover_loop s m b da u (Q : unit -> W -> Prop) C : marks c m (A1 c) u -> forall n i w, 0 <= i <= u ->
  i + Z.of_nat n <= sectors c -> sees w m (lay s b da) ->
  (forall w', sees w' m (lay (if u <? i + Z.of_nat n then set_pos u s else s) b da) -> Q tt w') ->
  wpc (recover_loop n i) Q C w.
Proof.
  intros Hmk. induction n as [|n IH]; intros i w Hi Hn H HQ; cbn [recover_loop].
  - apply wpc_ret, HQ. assert ((u <? i + Z.of_nat 0) = false) as -> by (apply Z.ltb_ge; lia). exact H.
  - pose proof (sectors_small good False dev c ok). destruct (regions good False dev c ok) as (R1 & R2 & R3 & R4 & R5 & R6 & R7 & R8 & _).
    unfold SIZEOF_STATE in *. apply wpc_bnd. eapply wpc_get_wl; [exact H|]. cbn [cfg lay sealed wr_size addr_state1].
    rewrite (sn_wr _ _ _ ok), (wrap32_small (i * 8)), Z.div_mul by lia. unfold SIZEOF_STATE. rewrite wrap32_small by lia.
    apply wpc_bnd. eapply (wpc_read good False dev); [exact H|split_and!; lia|]. intros _.
    rewrite nthb_mem_slice, Z.add_0_r by lia. specialize (Hmk i). unfold SIZEOF_STATE in Hmk. specialize (Hmk ltac:(lia)).
    destruct (Z.eqb_spec (m (A1 c + 24 + i)) 0xFF) as [Em|Em]; [apply Hmk in Em|assert (i < u) as Hiu by (apply Z.nle_gt; tauto)]; swap 1 2.
    + eapply IH; [lia|lia|exact H|]. intros w' H'. apply HQ. by replace (i + Z.of_nat (S n)) with (i + 1 + Z.of_nat n) by lia.
    + eapply wpc_state_mod; [exact H|]. intros w' H'. apply HQ. assert (u = i) as -> by lia.
      assert ((i <? i + Z.of_nat (S n)) = true) as -> by (apply Z.ltb_lt; lia). exact H'.
Qed.

Lemma wpc_recover mc m b da u (Q : unit -> W -> Prop) C w : 0 <= u <= N + 1 -> marks c m (A1 c) u -> sees w m (lay (hdr mc) b da) ->
  (forall w', sees w' m (lay (at_pos (if u =? N + 1 then 0 else u) mc) b da) -> Q tt w') -> wpc wl_flash_recover_pos Q C w.
Proof.
  intros Hu Hmk H HQ. destruct (regions good False dev c ok) as (R1 & R2 & R3 & R4 & R5 & R6 & R7 & R8 & _). pose proof (sn_room _ _ _ ok).
  unfold wl_flash_recover_pos. apply wpc_bnd. eapply wpc_get_wl; [exact H|]. cbn [state lay max_pos hdr set_crc].
  apply wpc_bnd. eapply (wpc_recover_loop (hdr mc) m b da u); [exact Hmk|lia|lia|exact H|]. intros w1 H1. rewrite Z2Nat.id, Z.add_0_l in H1 by lia.
  eapply wpc_state_mod; [exact H1|]. intros w2 H2. apply HQ. cbn [state lay] in H2.
  case_bool (u =? N + 1); case_bool (u <? N + 1); try lia; cbn [pos max_pos set_pos hdr set_crc] in H2.
  - case_bool (0 =? N + 1); [lia|exact H2].
  - case_bool (u =? N + 1); [lia|exact H2].
Qed.

(** ** A copy of the state made anew *)

(** The first [n] marks of the copy at [from] taken over into the one at [to]. *)
Definition copied (m : Z -> Z) (from to : Z) (s : wl_state_t) (n x : Z) : Z :=
  if (to <=? x) && (x <? to + state_pages c * P) then
    if x - to <? SIZEOF_STATE then nthb (state_bytes s) (x - to)
    else if x - to - SIZEOF_STATE <? n then m (from + (x - to)) else 0xFF
  else m x.

(** A place for a copy of the state. *)
Definition place (a : Z) : Prop := a = A1 c \/ a = A2 c.

Lemma copied_start m from to s x : place to -> copied m from to s 0 x = programmed (erased m to (state_pages c * P)) to (state_bytes s) x.
Proof.
  intros Hto. destruct (regions good False dev c ok) as (R1 & R2 & R3 & R4 & R5 & R6 & R7 & R8 & _). pose proof (sectors_small good False dev c ok).
  unfold copied, programmed, erased. rewrite zlen_state_bytes. unfold SIZEOF_STATE in *. repeat if_split; try lia; try done.
  symmetry. apply land_FF, bytes_nthb, bytes_to_bytes.
Qed.

Lemma copied_next m from to s i x : place from -> place to -> from <> to -> 0 <= i < sectors c -> 0 <= m (from + SIZEOF_STATE + i) < 256 ->
  (if negb (m (from + SIZEOF_STATE + i) =? 0xFF)
   then programmed (copied m from to s i) (to + SIZEOF_STATE + i) [m (from + SIZEOF_STATE + i)] x
   else copied m from to s i x) = copied m from to s (i + 1) x.
Proof.
  intros Hf Hto Hn Hi Hb. destruct (regions good False dev c ok) as (R1 & R2 & R3 & R4 & R5 & R6 & R7 & R8 & _).
  unfold SIZEOF_STATE in *. assert (copied m from to s (i + 1) x = if x =? to + 24 + i then m (from + 24 + i) else copied m from to s i x) as ->.
  { unfold copied, SIZEOF_STATE. destruct (Z.eqb_spec x (to + 24 + i)) as [->|]; repeat if_split; try lia; try done. f_equal. lia. }
  assert (copied m from to s i (to + 24 + i) = 0xFF) as Hc by (unfold copied, SIZEOF_STATE; repeat if_split; lia).
  destruct (Z.eqb_spec (m (from + 24 + i)) 0xFF) as [E|E]; cbn [negb]; destruct (Z.eqb_spec x (to + 24 + i)) as [->|Hx]; try done.
  - by rewrite E, Hc.
  - unfold programmed. rewrite zlen_singleton, Hc. repeat if_split; try lia. replace (to + 24 + i - (to + 24 + i)) with 0 by lia. by apply land_FF.
  - unfold programmed. rewrite zlen_singleton. repeat if_split; try lia; done.
Qed.

Lemma wpc_copy_state from to s st m b da (Q : unit -> W -> Prop) C w : place from -> place to -> from <> to -> sees w m (lay st b da) ->
  (forall w', sees w' (copied m from to s (sectors c)) (lay st b da) -> Q tt w') -> wpc (copy_state from to s) Q C w.
Proof.
  intros Hf Hto Hn H HQ. destruct (regions good False dev c ok) as (R1 & R2 & R3 & R4 & R5 & R6 & R7 & R8 & _).
  pose proof (sectors_small good False dev c ok). pose proof (state_room c ok) as [S1 _].
  assert (fl_lo <= to /\ 0 <= to /\ to + state_pages c * P <= fl_hi /\ (SECTOR | to)) as (T1 & T2 & T3 & T4).
  { unfold SIZEOF_STATE in *. destruct Hto as [-> | ->]; (split_and!; [lia|lia|lia|apply (page_align c ok)]). }
  unfold copy_state. apply wpc_bnd. eapply wpc_get_wl; [exact H|]. cbn [cfg lay sealed full_mem_size sector_size wr_size state_size].
  rewrite (sn_sector _ _ _ ok), (sn_wr _ _ _ ok). fold (sectors c). rewrite wrap32_small, Z.div_mul by lia.
  apply wpc_bnd. eapply (wpc_erase_raw good False dev crcf c ok to); [exact H|lia|done|lia|lia|by intros|]. intros w1 W1.
  unfold SIZEOF_STATE in *.
  apply wpc_bnd. eapply (wpc_write good False dev); [exact W1|rewrite zlen_state_bytes; unfold SIZEOF_STATE; split_and!; lia|apply bytes_to_bytes|done|].
  intros w2 W2. eapply (wpc_for good False (fun i w => sees w (copied m from to s i) (lay st b da))).
  - intros i w3 Hi W3. rewrite Z2Nat.id in Hi by lia.
    assert (fl_lo <= from + 24 + i /\ 0 <= from + 24 + i /\ from + 24 + i + 1 <= fl_hi) as (F1 & F2 & F3) by (destruct Hf as [-> | ->]; lia).
    unfold SIZEOF_STATE. rewrite (wrap32_small (from + _ + _)), (wrap32_small (to + _ + _)) by lia.
    apply wpc_bnd. eapply (wpc_read good False dev); [exact W3|split_and!; lia|]. intros Hb.
    rewrite nthb_mem_slice, Z.add_0_r by lia. pose proof (bytes_nthb _ 0 Hb) as Hv. rewrite nthb_mem_slice, Z.add_0_r in Hv by lia.
    assert (copied m from to s i (from + 24 + i) = m (from + 24 + i)) as Hm.
    { unfold copied. repeat if_split; try lia; try done; destruct Hf as [-> | ->], Hto as [-> | ->]; lia. }
    rewrite Hm in *. pose proof (fun x => copied_next m from to s i x Hf Hto Hn ltac:(lia) Hv) as Hnext. unfold SIZEOF_STATE in Hnext.
    destruct (negb (m (from + 24 + i) =? 0xFF)).
    + eapply (wpc_write good False dev); [exact W3|rewrite zlen_singleton; split_and!; lia|by apply Forall_singleton|done|].
      intros w4 W4. eapply sees_ext; [exact W4|]. intros x _. apply Hnext.
    + apply wpc_ret. eapply sees_ext; [exact W3|]. intros x _. apply Hnext.
  - eapply sees_ext; [exact W2|]. intros x _. symmetry. by apply copied_start.
  - intros w3 W3. rewrite Z2Nat.id in W3 by lia. by apply HQ.
Qed.

(** ** The state is loaded *)

(** The RAM before: nothing but the sizes and places. *)
Lemma wpc_load s s1 s2 m b da (Q : unit -> W -> Prop) C w : sees w m (lay s b da) ->
  bytes_state (mem_slice m (A1 c) SIZEOF_STATE) = s1 -> bytes_state (mem_slice m (A2 c) SIZEOF_STATE) = s2 ->
  (forall w', sees w' m (lay s1 b da) -> wpc (check_copies crcf s2) Q C w') -> wpc (load_state crcf) Q C w.
Proof.
  intros H E1 E2 HQ. destruct (regions good False dev c ok) as (R1 & R2 & R3 & R4 & R5 & R6 & R7 & R8 & _).
  pose proof (sectors_small good False dev c ok). unfold load_state. apply wpc_bnd. eapply wpc_get_wl; [exact H|]. cbn [addr_state1 addr_state2 lay].
  apply wpc_bnd. eapply (wpc_read good False dev); [exact H|unfold SIZEOF_STATE in *; split_and!; lia|]. intros _. rewrite E1.
  apply wpc_bnd. eapply wpc_wl_mod; [exact H|]. intros w1 W1.
  apply wpc_bnd. eapply (wpc_read good False dev); [exact W1|unfold SIZEOF_STATE in *; split_and!; lia|]. intros _. rewrite E2. by apply HQ.
Qed.

Lemma header_state m a mc : 0 <= mc < N -> header m a (hdr mc) -> bytes_state (mem_slice m a SIZEOF_STATE) = hdr mc.
Proof. intros Hm H. rewrite (header_read _ _ _ H). by apply hdr_bytes. Qed.

Definition blank_state : wl_state_t := mk_state erased_word erased_word erased_word erased_word erased_word erased_word.

Lemma wpc_catch_recover mc m b da u (Q : unit -> W -> Prop) C w : 0 <= u <= N + 1 -> marks c m (A1 c) u -> sees w m (lay (hdr mc) b da) ->
  (forall w', sees w' m (lay (at_pos (if u =? N + 1 then 0 else u) mc) b da) -> Q tt w') -> wpc (catch wl_flash_recover_pos ;;; ret tt) Q C w.
Proof.
  intros Hu Hmk H HQ. apply wpc_bnd. unfold wpc, catch.
  pose proof (wpc_recover mc m b da u (fun _ w' => Q tt w') C w Hu Hmk H HQ) as G. unfold WlSpec.wpc in *.
  destruct (wl_flash_recover_pos w) as [w2 [r|[]]]; [by destruct G as (_ & [] & _)|exact G].
Qed.

(** Both copies valid and of the same round. *)
Lemma wpc_load_same s mc u m b da (Q : unit -> W -> Prop) C w : sees w m (lay s b da) -> 0 <= mc < N -> 0 <= u <= N + 1 ->
  header m (A1 c) (hdr mc) -> header m (A2 c) (hdr mc) -> marks c m (A1 c) u ->
  (forall w', sees w' m (lay (at_pos (if u =? N + 1 then 0 else u) mc) b da) -> Q tt w') -> wpc (load_state crcf) Q C w.
Proof.
  intros H Hm Hu H1 H2 Hmk HQ. eapply wpc_load; [exact H|by apply header_state..|]. intros w1 W1. unfold check_copies.
  apply wpc_bnd. eapply wpc_get_wl; [exact W1|]. cbn [state lay hdr set_crc crc version cfg sealed cfg_version]. unfold wl_calculate_crc.
  cbn [state_words pos max_pos move_count block_size version set_crc hdr]. rewrite !Z.eqb_refl. cbn [andb negb].
  apply wpc_bnd. apply wpc_ret. by eapply wpc_catch_recover.
Qed.

Lemma copied_header m from to s n : header (copied m from to s n) to s.
Proof.
  intros i Hi. pose proof (state_room c ok) as [? ?]. pose proof (sectors_small good False dev c ok). unfold copied, SIZEOF_STATE in *.
  repeat if_split; try lia. f_equal. lia.
Qed.

Lemma programmed_apart m a d i : ~ (a <= i < a + zlen d) -> programmed m a d i = m i.
Proof. intros. unfold programmed. repeat if_split; try lia; done. Qed.

Lemma copied_apart m from to s n x : ~ (to <= x < to + state_pages c * P) -> copied m from to s n x = m x.
Proof. intros Hx. unfold copied. repeat if_split; try lia; done. Qed.

Lemma disk_below m m' p mc d : 0 <= p <= N -> (forall i, i < A1 c -> m' i = m i) -> disk_is c m p mc d -> disk_is c m' p mc d.
Proof.
  intros Hp He. destruct (regions good False dev c ok) as (R1 & R2 & R3 & R4 & R5 & R6 & R7 & R8 & R9).
  apply (disk_ext c ok m m'); [done|]. intros k Hk _. apply page_ext. intros i Hi. apply He. specialize (R9 k Hk). lia.
Qed.

Lemma A_apart : A1 c <> A2 c.
Proof. destruct (regions good False dev c ok) as (R1 & R2 & R3 & R4 & R5 & R6 & R7 & R8 & R9). unfold SIZEOF_STATE in *. pose proof (sectors_small good False dev c ok). lia. Qed.

(** The first copy is that of a round that begins, and anything in place of the second. *)
Lemma wpc_load_any2 s mc m b da d (Q : unit -> W -> Prop) C w : sees w m (lay s b da) -> 0 <= mc < N ->
  header m (A1 c) (hdr mc) -> marks c m (A1 c) 0 -> disk_is c m 0 mc d ->
  (forall w' m', sees w' m' (lay (at_pos 0 mc) b da) -> disk_is c m' 0 mc d -> Q tt w') -> wpc (load_state crcf) Q C w.
Proof.
  intros H Hm H1 Hmk Hd HQ. pose proof (sn_room _ _ _ ok). eapply wpc_load; [exact H|by apply (header_state _ _ mc)|reflexivity|]. intros w1 W1.
  set (s2 := bytes_state _). unfold check_copies. apply wpc_bnd. eapply wpc_get_wl; [exact W1|]. cbn [state lay cfg sealed cfg_version]. unfold wl_calculate_crc.
  change (crcf (state_words (hdr mc)) =? crc (hdr mc)) with (crc (hdr mc) =? crc (hdr mc)). rewrite Z.eqb_refl.
  destruct (regions good False dev c ok) as (R1 & R2 & R3 & R4 & R5 & R6 & R7 & R8 & R9). pose proof (sectors_small good False dev c ok).
  assert (forall s' w0 (R : unit -> W -> Prop), sees w0 m (lay s' b da) ->
    (forall w2, sees w2 (copied m (A1 c) (A2 c) (hdr mc) (sectors c)) (lay s' b da) -> R tt w2) -> wpc (copy_state (A1 c) (A2 c) (hdr mc)) R C w0) as Hcopy
    by (intros s' w0 R W0 HR; eapply wpc_copy_state; [by left|by right|apply A_apart|exact W0|exact HR]).
  assert (disk_is c (copied m (A1 c) (A2 c) (hdr mc) (sectors c)) 0 mc d) as Hd'.
  { eapply disk_below; [lia| |exact Hd]. intros i Hi. apply copied_apart. lia. }
  unfold SIZEOF_STATE in R4. destruct (crcf (state_words s2) =? crc s2); cbn [andb negb].
  - cbn [version hdr set_crc]. rewrite Z.eqb_refl. cbn [negb]. apply wpc_bnd. destruct (negb _).
    + eapply Hcopy; [exact W1|]. intros w2 W2. eapply (wpc_catch_recover mc _ b da 0); [lia| |exact W2|].
      * eapply marks_ext; [|exact Hmk]. intros i Hi. apply copied_apart. unfold SIZEOF_STATE in *. lia.
      * intros w3 W3. eapply HQ; [|exact Hd']. by case_bool (0 =? N + 1); [lia|].
    + apply wpc_ret. eapply (wpc_catch_recover mc _ b da 0); [lia|exact Hmk|exact W1|].
      intros w3 W3. eapply HQ; [|exact Hd]. by case_bool (0 =? N + 1); [lia|].
  - apply wpc_bnd. apply wpc_bnd. eapply Hcopy; [exact W1|]. intros w2 W2.
    cbn [addr_state1 addr_state2 lay] in *. apply wpc_bnd. eapply (wpc_read good False dev); [exact W2|unfold SIZEOF_STATE; split_and!; lia|]. intros _.
    rewrite (header_state _ _ mc Hm (copied_header _ _ _ _ _)). eapply wpc_wl_mod; [exact W2|]. intros w3 W3.
    apply wpc_bnd. eapply wpc_get_wl; [exact W3|]. cbn [state set_state lay version cfg sealed cfg_version hdr set_crc]. rewrite Z.eqb_refl.
    apply wpc_ret. eapply HQ; [exact W3|exact Hd'].
Qed.

(** A copy of the state that passes its CRC. *)
Definition valid (m : Z -> Z) (a : Z) : Prop := let s := bytes_state (mem_slice m a SIZEOF_STATE) in crcf (state_words s) = crc s.

(** The first copy is lost: the new round had not begun. *)
Lemma wpc_load_lost1 s mc m b da d (Q : unit -> W -> Prop) C w : sees w m (lay s b da) -> 0 <= mc < N ->
  ~ valid m (A1 c) -> header m (A2 c) (hdr mc) -> disk_is c m N mc d ->
  (forall w' m', sees w' m' (lay (at_pos N mc) b da) -> disk_is c m' N mc d -> Q tt w') -> wpc (load_state crcf) Q C w.
Proof.
  intros H Hm H1 H2 Hd HQ. eapply wpc_load; [exact H|reflexivity|by apply (header_state _ _ mc)|]. unfold valid in H1. cbv zeta in H1.
  set (s1 := bytes_state _) in *. intros w1 W1. unfold check_copies.
  apply wpc_bnd. eapply wpc_get_wl; [exact W1|]. unfold wl_calculate_crc. cbn [state lay cfg sealed cfg_version].
  change (crcf (state_words (hdr mc)) =? crc (hdr mc)) with (crc (hdr mc) =? crc (hdr mc)).
  rewrite Z.eqb_refl. apply Z.eqb_neq in H1. rewrite H1. cbn [andb negb].
  destruct (regions good False dev c ok) as (R1 & R2 & R3 & R4 & R5 & R6 & R7 & R8 & R9). pose proof (sectors_small good False dev c ok).
  pose proof (sn_room _ _ _ ok). unfold SIZEOF_STATE in R4. apply wpc_bnd. apply wpc_bnd.
  eapply wpc_copy_state; [by right|by left|symmetry; apply A_apart|exact W1|]. intros w2 W2.
  cbn [addr_state1 addr_state2 lay] in *. apply wpc_bnd. eapply (wpc_read good False dev); [exact W2|unfold SIZEOF_STATE; split_and!; lia|]. intros _.
  rewrite (header_state _ _ mc Hm (copied_header _ _ _ _ _)). apply wpc_bnd. eapply wpc_wl_mod; [exact W2|]. intros w3 W3.
  eapply wpc_state_mod; [exact W3|]. intros w4 W4.
  apply wpc_bnd. eapply wpc_get_wl; [exact W4|]. cbn [state set_state lay version cfg sealed cfg_version hdr set_crc set_pos]. rewrite Z.eqb_refl.
  assert (sees w4 (copied m (A2 c) (A1 c) (hdr mc) (sectors c)) (lay (at_pos N mc) b da)) as W5.
  { cbn [max_pos state set_state lay hdr set_crc] in W4. rewrite wrap32_small in W4 by lia. replace (N + 1 - 1) with N in W4 by lia. exact W4. }
  apply wpc_ret. eapply HQ; [exact W5|]. eapply disk_below; [lia| |exact Hd]. intros i Hi. apply copied_apart. lia.
Qed.

Lemma zlen_config_bytes cf : zlen (config_bytes cf) = SIZEOF_CONFIG.
Proof. done. Qed.

(** A new flash: both copies are set up. *)
Lemma wpc_init s mc m b da d (Q : unit -> W -> Prop) C w : mc = 0 -> sees w m (lay s b da) -> disk_is c m 0 mc d ->
  (forall w' m', sees w' m' (lay (hdr mc) b da) -> image m' 0 mc d -> Q tt w') -> wpc (wl_flash_init_sections crcf) Q C w.
Proof.
  intros -> H Hd HQ. destruct (regions good False dev c ok) as (R1 & R2 & R3 & R4 & R5 & R6 & R7 & R8 & R9).
  pose proof (sectors_small good False dev c ok). pose proof (sn_room _ _ _ ok). pose proof (state_room c ok) as [S1 _].
  pose proof (page_size_least c ok). unfold SECTOR in *. unfold wl_flash_init_sections. apply wpc_bnd. eapply wpc_wl_mod; [exact H|]. intros w1 W1.
  cbn [flash_size page_size cfg sealed cfg_version lay] in W1. rewrite Z.div_mul, (wrap32_small (1 + N)), (Z.add_comm 1 N) in W1 by lia.
  assert (sees w1 m (lay (hdr 0) b da)) as W2 by exact W1. clear W1. apply wpc_bnd. eapply wpc_get_wl; [exact W2|].
  cbn [addr_state1 addr_state2 addr_cfg state_size cfg_size state cfg lay].
  set (AC := page_addr c (N + 1 + 2 * state_pages c)). assert (AC = A2 c + state_pages c * P) as HAC by (unfold AC, A2, page_addr; ring).
  apply wpc_bnd. eapply (wpc_erase_raw good False dev); [exact ok|exact W2|lia|apply (page_align c ok)|lia|lia|by intros|]. intros w3 W3.
  set (m1 := erased m _ _) in *.
  apply wpc_bnd. eapply (wpc_write good False dev); [exact W3|rewrite zlen_state_bytes; unfold SIZEOF_STATE in *; split_and!; lia|apply bytes_to_bytes|done|]. intros w4 W4.
  set (m2 := programmed m1 _ _) in *.
  apply wpc_bnd. eapply (wpc_erase_raw good False dev); [exact ok|exact W4|lia|apply (page_align c ok)|lia|lia|by intros|]. intros w5 W5.
  set (m3 := erased m2 _ _) in *.
  apply wpc_bnd. eapply (wpc_write good False dev); [exact W5|rewrite zlen_state_bytes; unfold SIZEOF_STATE in *; split_and!; lia|apply bytes_to_bytes|done|]. intros w6 W6.
  set (m4 := programmed m3 _ _) in *. replace (wl_flash_erase_raw AC P) with (wl_flash_erase_raw (F := F) AC (1 * P)) by (f_equal; lia).
  apply wpc_bnd. eapply (wpc_erase_raw good False dev); [exact ok|exact W6|lia|apply (page_align c ok)|lia|lia|by intros|]. intros w7 W7.
  set (m5 := erased m4 _ _) in *.
  eapply (wpc_write good False dev); [exact W7|rewrite zlen_config_bytes; unfold SIZEOF_CONFIG in *; split_and!; lia|apply bytes_to_bytes|done|]. intros w8 W8.
  eapply HQ; [exact W8|]. assert (forall i, i < AC -> programmed m5 AC (config_bytes (sealed crcf c)) i = m4 i) as H4.
  { intros i Hi. rewrite programmed_apart by (rewrite zlen_config_bytes; unfold SIZEOF_CONFIG; lia). apply erased_apart. lia. }
  unfold SIZEOF_STATE in *. split; [lia|lia| | | |].
  - eapply (header_ext m2); [|by apply header_written; intros i Hi; apply erased_in; unfold SIZEOF_STATE in *; lia].
    intros i Hi. rewrite H4 by (unfold SIZEOF_STATE in *; lia). unfold m4, m3. rewrite written_apart, erased_apart; unfold SIZEOF_STATE in *; lia || done.
  - apply marks_blank. intros i Hi. unfold SIZEOF_STATE in *. rewrite H4 by lia. unfold m4, m3, m2, m1.
    by rewrite written_apart, erased_apart, written_apart, erased_in by (unfold SIZEOF_STATE; lia).
  - eapply (header_ext m4); [intros i Hi; apply H4; unfold SIZEOF_STATE in *; lia|]. apply header_written. intros i Hi. apply erased_in. unfold SIZEOF_STATE in *. lia.
  - eapply disk_below; [lia| |exact Hd]. intros i Hi. rewrite H4 by lia. unfold m4, m3, m2, m1.
    by rewrite written_apart, erased_apart, written_apart, erased_apart by (unfold SIZEOF_STATE; lia).
Qed.

(** Both copies are lost. *)
Lemma wpc_load_new s m b da (Q : unit -> W -> Prop) C w : sees w m (lay s b da) -> blank m (A1 c) -> blank m (A2 c) ->
  (forall w' m', sees w' m' (lay (at_pos 0 0) b da) -> image m' 0 0 (fun v => page c m (v + 1)) -> Q tt w') -> wpc (load_state crcf) Q C w.
Proof.
  intros H H1 H2 HQ. pose proof (sn_room _ _ _ ok). eapply wpc_load; [exact H|by apply blank_read..|]. intros w1 W1. unfold check_copies.
  apply wpc_bnd. eapply wpc_get_wl; [exact W1|]. unfold wl_calculate_crc. cbn [state lay cfg sealed cfg_version].
  change (state_words (mk_state _ _ _ _ _ erased_word)) with (replicate 5 erased_word). cbn [crc].
  pose proof (crc_blank crcs) as Hb. apply Z.eqb_neq in Hb. rewrite Hb. cbn [andb negb]. apply wpc_bnd.
  eapply (wpc_init _ 0); [done|exact W1| |].
  - intros v Hv. assert (phys c 0 0 v = v + 1) as -> by (unfold phys; rewrite Z.sub_0_r, Z.mod_small by done; cbv zeta; if_split; lia). reflexivity.
  - intros w2 m2 W2 I2. eapply (wpc_recover 0 m2 b da 0); [lia|apply I2|exact W2|]. intros w3 W3. eapply HQ; [|exact I2]. case_bool (0 =? N + 1); [lia|exact W3].
Qed.

(** ** Mounting *)

Lemma mount_load t m f (R : W -> Prop) : holds good f m ->
  (forall w s b da, sees w m (lay s b da) -> wpc (load_state crcf) (fun _ => R) (fun _ _ => True) w) ->
  exists w, wl_mount crcf c (Some t) f = (w, inr 0) /\ R w.
Proof.
  intros H HR. destruct (sn_temp _ _ _ ok) as [Ht Hd]. unfold wl_mount, wl_flash_config.
  cbn [wl_flash set_cfg cfg start_addr full_mem_size page_size sector_size wr_size cfg_version temp_buff_size flash].
  assert ((sector_size c mod temp_buff_size c =? 0) = true) as ->
    by (rewrite (sn_sector _ _ _ ok); apply Z.mod_divide in Hd; [|lia]; by rewrite Hd).
  assert ((page_size c <? sector_size c) = false) as -> by (rewrite (sn_sector _ _ _ ok); apply Z.ltb_irrefl). cbn [negb].
  set (l := set_temp_buff _ _). cbv zeta. set (w := mk_world _ (layout _ _)).
  assert (sees w m (lay (mk_state 0 0 0 0 0 0) (Some t) 0)) as Hw.
  { split; [exact H|]. unfold w. cbn [wl_flash]. by rewrite (layout_is c ok). }
  specialize (HR w _ _ _ Hw). unfold WlSpec.wpc in HR. destruct (load_state crcf w) as [w2 [r|[]]]; [by destruct HR as (_ & [] & _)|by exists w2].
Qed.

(** The contents when the number of the round was not seen to have changed. *)
Definition rotated (d : Z -> list Z) : Z -> list Z := fun v => d ((v + 1) mod N).

Lemma disk_rotated m mc d : 0 <= mc < N -> disk_is c m 0 (next_round c mc) d -> disk_is c m 0 mc (rotated d).
Proof.
  intros Hm H v Hv. pose proof (sn_room _ _ _ ok). unfold rotated. rewrite <- H by (apply Z.mod_pos_bound; lia). f_equal.
  unfold phys, next_round. cbv zeta. rewrite Zminus_mod_idemp_l. assert ((v + 1 - (if N <=? mc + 1 then 0 else mc + 1)) mod N = (v - mc) mod N) as ->; [|done].
  case_bool (N <=? mc + 1); [|f_equal; lia]. assert (mc = N - 1) as -> by lia. replace (v + 1 - 0) with (v - (N - 1) + 1 * N) by lia. by rewrite Z.mod_add by lia.
Qed.

(** All marks of the first copy are used, and a new round has not begun. *)
Definition window (m : Z -> Z) : Prop := exists mc, 0 <= mc < N /\ header m (A1 c) (hdr mc) /\ header m (A2 c) (hdr mc) /\ marks c m (A1 c) (N + 1).

Lemma mount_kept t m f p mc d : holds good f m -> image m p mc d ->
  exists w, wl_mount crcf c (Some t) f = (w, inr 0) /\ mounted good crcf c w d.
Proof.
  intros H I. pose proof I as [Hp Hm H1 H2 H3 _]. apply (mount_load t m); [done|]. intros w s b da Hw.
  eapply (wpc_load_same s mc p); [exact Hw|done|lia|done..|]. intros w2 W2. case_bool (p =? N + 1); [lia|]. by exists p, mc, m, b, da.
Qed.

(** What the flash must not look like after a failure while the last page of a round was moved, or the first
    copy of the state written anew: in place of the first copy there is one that passes its CRC, and is not
    that of the structure in the RAM. *)
Definition in_step (l : wl_flash_t) (m : Z -> Z) : Prop :=
  dummy_addr l = page_addr c N -> valid m (A1 c) -> header m (A1 c) (hdr (move_count (state l))) /\ marks c m (A1 c) (pos (state l)).

Lemma header_valid m a mc : 0 <= mc < N -> header m a (hdr mc) -> valid m a.
Proof. intros Hm H. unfold valid. by rewrite (header_state _ _ mc). Qed.

Lemma mount_begun t m f mc d : holds good f m -> 0 <= mc < N -> header m (A1 c) (hdr mc) -> marks c m (A1 c) 0 -> disk_is c m 0 mc d ->
  exists w, wl_mount crcf c (Some t) f = (w, inr 0) /\ readable good crcf c w d.
Proof.
  intros H Hm H1 Hk Hd. pose proof (sn_room _ _ _ ok). apply (mount_load t m); [done|]. intros w s b da Hw.
  eapply (wpc_load_any2 s mc m b da d); [exact Hw|done..|]. intros w2 m2 W2 D2. exists m2, 0, mc, b, da. split_and!; lia || done.
Qed.

Lemma mount_crashed t m f p mc d l : holds good f m -> 0 <= p <= N -> 0 <= mc < N -> crashed crcf c p mc d l m -> in_step l m ->
  exists w, wl_mount crcf c (Some t) f = (w, inr 0) /\ readable good crcf c w d.
Proof.
  intros H Hp Hm Hc Hin. destruct (next_range c ok p mc Hp Hm) as (Hp' & Hm' & _). pose proof (sn_room _ _ _ ok).
  destruct Hc as [I|(L1 & L2 & L3) H1 Hk H2 Hd|Ep (L1 & L2 & L3) H2 Hd0 Hd|Ep H1 Hk Hd].
  - destruct (mount_kept t m f p mc d H I) as (w & E & G). exists w. split; [done|]. by apply mounted_readable.
  - destruct (decide (p = N)) as [->|Hpn].
    { destruct (Hin L1 (header_valid _ _ mc Hm H1)) as [_ Hk']. rewrite L2 in Hk'. destruct (regions good False dev c ok) as (_ & _ & _ & _ & R5 & _).
      specialize (Hk N ltac:(lia)). specialize (Hk' N ltac:(lia)). lia. }
    apply (mount_load t m); [done|]. intros w s b da Hw. eapply (wpc_load_same s mc (p + 1)); [exact Hw|done|lia|done..|]. intros w2 W2.
    case_bool (p + 1 =? N + 1); [lia|]. unfold next_page, next_mc in *. case_bool (N <=? p); [lia|].
    exists m, (p + 1), mc, b, da. split; [done|]. split; [lia|done].
  - subst p. assert (next_page c N = 0) as E1 by (unfold next_page; case_bool (N <=? N); lia). rewrite E1 in Hd.
    destruct (decide (crcf (state_words (bytes_state (mem_slice m (A1 c) SIZEOF_STATE))) = crc (bytes_state (mem_slice m (A1 c) SIZEOF_STATE)))) as [Hv|Hv].
    + destruct (Hin L1 Hv) as [H1 Hk]. rewrite L3 in H1. rewrite L2 in Hk. by eapply mount_begun.
    + apply (mount_load t m); [done|]. intros w s b da Hw. eapply (wpc_load_lost1 s mc m b da d); [exact Hw|done..|].
      intros w2 m2 W2 D2. by exists m2, N, mc, b, da.
  - subst p. assert (next_page c N = 0) as E1 by (unfold next_page; case_bool (N <=? N); lia). rewrite E1 in Hd. by eapply mount_begun.
Qed.

Lemma mount_window t m f mc d : holds good f m -> 0 <= mc < N -> header m (A1 c) (hdr mc) -> header m (A2 c) (hdr mc) ->
  marks c m (A1 c) (N + 1) -> disk_is c m 0 (next_round c mc) d ->
  exists w, wl_mount crcf c (Some t) f = (w, inr 0) /\ readable good crcf c w (rotated d).
Proof.
  intros H Hm H1 H2 Hk Hd. pose proof (sn_room _ _ _ ok). apply (mount_load t m); [done|]. intros w s b da Hw.
  eapply (wpc_load_same s mc (N + 1)); [exact Hw|done|lia|done..|]. intros w2 W2. rewrite Z.eqb_refl in W2.
  exists m, 0, mc, b, da. split; [done|]. split; [lia|]. split; [done|]. by apply disk_rotated.
Qed.

Lemma mount_new t m f : holds good f m -> blank m (A1 c) -> blank m (A2 c) ->
  exists w, wl_mount crcf c (Some t) f = (w, inr 0) /\ mounted good crcf c w (fun v => page c m (v + 1)).
Proof.
  intros H H1 H2. apply (mount_load t m); [done|]. intros w s b da Hw.
  eapply (wpc_load_new s m b da); [exact Hw|done..|]. intros w2 m2 W2 I2. by exists 0, 0, m2, b, da.
Qed.

End Mount.
End WlMount.
