(* ===== verification/WlProps.v ===== *)
(** * Wear levelling: properties

    The sectors that the file system reads, writes and erases, across mounts and failures of
    the flash. *)
From S2P Require Import Prelude Client Crc Flash Wl WlSpec WlDisk WlOps WlMount.
Open Scope Z_scope.
Open Scope fw_scope.

Module WlProps.
Import Wl WlSpec WlDisk WlOps WlMount.

Section Fs.
Context {F : Type} {fl : Flash F} (good : F -> Prop) (may_fail : Prop) (dev : device good may_fail).
Context (crcf : list Z -> Z) (c : wl_config_t) (ok : sane c fl_lo fl_hi).
Context (Hsec : page_size c = FATFS_SECTOR_SIZE) (Hfull : full_mem_size c <= FATFS_FLASH_TOTAL_SIZE).
Abbreviation W := (world (F := F)).
Abbreviation N := (N c).
Abbreviation P := (page_size c).
#[local] Abbreviation wpc := (wpc good may_fail).
#[local] Abbreviation mounted := (mounted good crcf c).
#[local] Abbreviation hurt := (hurt crcf c).

Lemma wpc_or_error {A} (m : M W Z A) (Q : A -> W -> Prop) C w : wpc m Q C w -> wpc (or_error m) Q C w.
Proof. unfold WlSpec.wpc, or_error. destruct (m w) as [w' [r|a]]; [|done]. by intros (_ & H). Qed.

(** The numbers of bytes that the functions compute. *)
Lemma fs_bytes s n : 0 <= s -> 0 <= n -> s + n < sectors c -> u32 (s * FATFS_SECTOR_SIZE) = s * P /\ u32 (n * FATFS_SECTOR_SIZE) = n * P.
Proof. intros. destruct (span_range c ok s n) as (? & ? & ?); try lia. pose proof (sn_pos _ _ _ ok). rewrite <- Hsec. split; apply wrap32_small; lia. Qed.

Lemma wpc_fs_erase s n d (Q : unit -> W -> Prop) w : 0 <= s -> 0 <= n -> s + n <= N -> mounted w d ->
  (forall w', mounted w' (upds d s n (fun _ => ffs c)) -> Q tt w') -> wpc (fs_flash_erase crcf s n) Q (hurt d s n) w.
Proof.
  intros Hs Hn Hsn H HQ. pose proof H as (p & mc & m & b & da & Hw & _). destruct (regions good may_fail dev c ok) as (_ & _ & _ & _ & R5 & _).
  destruct (fs_bytes s n) as [E1 E2]; [lia..|]. pose proof (sn_pos _ _ _ ok).
  unfold fs_flash_erase. apply wpc_bnd. eapply wpc_get_wl; [exact Hw|]. cbn [flash_size lay]. rewrite E1, E2.
  case_bool (N * P <? s * P); [nia|]. by apply wpc_or_error, (wpc_erase_range good may_fail dev).
Qed.

Lemma wpc_fs_write s n src d (Q : unit -> W -> Prop) w : 0 <= s -> 0 < n -> s + n <= N -> mounted w d -> zlen src = n * P -> bytes src ->
  (forall w', mounted w' (upds d s n (sector_of c src s)) -> Q tt w') -> wpc (fs_flash_write crcf s src n) Q (hurt d s n) w.
Proof.
  intros Hs Hn Hsn H Hl Hb HQ. pose proof H as (p & mc & m & b & da & Hw & _). destruct (regions good may_fail dev c ok) as (_ & _ & _ & _ & R5 & _).
  destruct (fs_bytes s n) as [E1 E2]; [lia..|]. pose proof (sn_pos _ _ _ ok).
  unfold fs_flash_write. apply wpc_bnd. eapply wpc_get_wl; [exact Hw|]. cbn [flash_size lay]. rewrite E1, E2.
  case_bool (N * P <? s * P); [nia|]. apply wpc_bnd, wpc_or_error, (wpc_erase_range good may_fail dev); try done; [lia|].
  intros w1 H1. apply wpc_or_error. eapply wpc_conseq; [eapply (wpc_write_range good may_fail dev); try done| |].
  - intros v Hv. unfold upds. repeat if_split; lia || done.
  - intros w2 H2. apply HQ. eapply mounted_disk; [exact H2|]. intros v _. unfold upds. repeat if_split; done.
  - intros [] w2 H2. exact H2.
  - intros l1 m1 H1'. eapply hurt_within; [exact H1'| |lia|lia]. intros u Hu Hns. unfold upds. repeat if_split; try lia; done.
Qed.

Lemma wpc_fs_read s n d (Q : list Z -> W -> Prop) C w : 0 <= s -> 0 < n -> s + n < sectors c -> readable good crcf c w d ->
  Q (contents (fun v => d (v mod N)) s n) w -> wpc (fs_flash_read s n) Q C w.
Proof.
  intros Hs Hn Hsn H HQ. destruct (fs_bytes s n) as [E1 E2]; [lia..|]. pose proof (full_sectors c ok). pose proof (sn_pos _ _ _ ok).
  unfold fs_flash_read. rewrite E1, E2. case_bool (FATFS_FLASH_TOTAL_SIZE <? s * P); [nia|].
  by apply wpc_or_error, (wpc_read_range good may_fail dev crcf c ok s n d).
Qed.

(** The sector after the last is the first one. *)
Lemma wpc_fs_write_past src d (Q : unit -> W -> Prop) w : mounted w d -> zlen src = P -> bytes src ->
  (forall w', mounted w' (upd d 0 src) -> Q tt w') -> wpc (fs_flash_write crcf N src 1) Q (hurt d 0 1) w.
Proof.
  intros H Hl Hb HQ. pose proof (sn_room _ _ _ ok). destruct (regions good may_fail dev c ok) as (_ & _ & _ & _ & R5 & _).
  destruct H as (p & mc & A). pose proof A as (m & b & da & Hw & _). pose proof (state_room c ok) as [? _]. pose proof (sectors_are c).
  destruct (fs_bytes N 1) as [E1 E2]; [lia..|]. pose proof (sn_pos _ _ _ ok). destruct (span_range c ok N 1) as (B1 & B2 & B3); [lia..|].
  unfold fs_flash_write. apply wpc_bnd. eapply wpc_get_wl; [exact Hw|]. cbn [flash_size lay]. rewrite E1, E2, Z.ltb_irrefl, Z.mul_1_l.
  apply wpc_bnd, wpc_or_error. unfold wl_flash_erase_range. apply wpc_bnd. eapply wpc_get_wl; [exact Hw|].
  cbn [cfg lay sealed sector_size]. rewrite (sn_sector _ _ _ ok), (wrap32_small (P + P)), wrap32_small by lia.
  assert ((P + P - 1) / P = 1) as -> by (symmetry; apply Z.div_unique with (P - 1); lia). rewrite Z.div_mul by lia.
  change (Z.to_nat 1) with 1%nat. cbn [for_loop]. rewrite Z.add_0_r, (wrap32_small N) by lia. apply wpc_bnd.
  assert (N mod N = 0) as E0 by (apply Z.mod_same; lia). eapply wpc_conseq; [eapply (wpc_erase_sector good may_fail dev); [exact ok|lia|exact A|]|intros a w1 Ha; exact Ha|].
  2:{ intros l1 m1. by rewrite E0. }
  rewrite E0. intros w1 (m1 & b1 & da1 & Hw1 & I1). apply wpc_ret. apply wpc_or_error. unfold wl_flash_write.
  apply wpc_bnd. eapply wpc_get_wl; [exact Hw1|]. cbn [cfg lay sealed page_size start_addr]. cbv zeta.
  assert (u32 (P - 1) / P = 0) as -> by (rewrite wrap32_small by lia; apply Z.div_small; lia). cbn [Z.to_nat for_loop].
  apply wpc_bnd, wpc_ret. rewrite Z.mul_0_l, Z.sub_0_r, (wrap32_small 0), Z.add_0_r by lia.
  pose proof I1 as [Hp1 Hm1 _ _ _ _]. destruct (sector_addr good may_fail dev crcf c ok _ b1 da1 _ _ N Hp1 Hm1 ltac:(lia) eq_refl) as [-> ->].
  rewrite <- phys_mod, E0, <- Hl, slice_all by lia. eapply wpc_conseq; [eapply (wpc_write_sector good may_fail dev crcf c ok 0); [lia|exact Hw1|exact I1| |exact Hl|exact Hb|]| |].
  - unfold upd. by rewrite Z.eqb_refl.
  - intros w2 m2 Hw2 I2. apply HQ. do 2 eexists. exists m2, b1, da1. split; [exact Hw2|]. eapply image_disk; [exact I2|].
    intros v _. unfold upd. by if_split.
  - intros [] w2 G2. exact G2.
  - intros l2 m2 G2. eapply hurt_within; [exact G2| |lia|lia]. intros u Hu Hns. unfold upd. if_split; [lia|done].
Qed.

End Fs.
(** ** Erasing again and again *)

Section Wear.
Context {F : Type} {fl : Flash F} (good : F -> Prop) (dev : device good False).
Context (crcf : list Z -> Z) (c : wl_config_t) (ok : sane c fl_lo fl_hi).
Abbreviation N := (N c).
Abbreviation P := (page_size c).

(** How many pages have been moved. *)
Definition turns (p mc : Z) : Z := mc * (N + 1) + p.

Lemma turns_range p mc : 0 <= p <= N -> 0 <= mc < N -> 0 <= turns p mc < N * (N + 1).
Proof. intros. unfold turns. nia. Qed.

Lemma turns_next p mc : 0 <= p <= N -> 0 <= mc < N -> turns (next_page c p) (next_mc c p mc) = (turns p mc + 1) mod (N * (N + 1)).
Proof.
  intros Hp Hm. pose proof (turns_range p mc Hp Hm). unfold next_page, next_mc, next_round. case_bool (N <=? p); [case_bool (N <=? mc + 1)|].
  - assert (mc = N - 1) as -> by lia. assert (p = N) as -> by lia. unfold turns in *. replace ((N - 1) * (N + 1) + N + 1) with (N * (N + 1)) by ring. by rewrite Z.mod_same by nia.
  - unfold turns in *. assert (p = N) as -> by lia. rewrite Z.mod_small; nia.
  - unfold turns in *. rewrite Z.mod_small; nia.
Qed.

Lemma wpc_erases v n : 0 <= v < N -> forall i p mc d w, mounted_at good crcf c w p mc d ->
  wpc good False (for_loop n i (fun _ => wl_flash_erase_sector crcf v))
    (fun _ w' => exists p' mc' d', mounted_at good crcf c w' p' mc' d' /\ turns p' mc' = (turns p mc + Z.of_nat n) mod (N * (N + 1)))
    (fun _ _ => True) w.
Proof.
  intros Hv. destruct (regions good False dev c ok) as (_ & _ & _ & _ & R5 & _).
  induction n as [|n IH]; intros i p mc d w H; pose proof H as (m & b & da & _ & [Hp Hm _ _ _ _]); cbn [for_loop].
  - apply wpc_ret. exists p, mc, d. split; [done|]. rewrite Z.add_0_r, Z.mod_small; [done|by apply turns_range].
  - apply wpc_bnd. eapply wpc_conseq; [eapply (wpc_erase_sector good False dev crcf c ok v p mc d); [lia|exact H|]|intros a w' Ha; exact Ha|done].
    intros w1 H1. eapply wpc_conseq; [eapply IH, H1| |done]. intros _ w2 (p2 & mc2 & d2 & H2 & E2). exists p2, mc2, d2. split; [done|].
    rewrite E2, turns_next by done. rewrite Zplus_mod_idemp_l. f_equal. lia.
Qed.

(** For every page there is a number of moves after which a sector is in it. *)
Lemma page_turns v q : 0 <= v < N -> 0 <= q <= N -> exists p mc, 0 <= p <= N /\ 0 <= mc < N /\ phys c p mc v = q.
Proof.
  intros Hv Hq. destruct (decide (q = N)) as [->|Hn].
  - exists 0, ((v + 1) mod N). pose proof (Z.mod_pos_bound (v + 1) N ltac:(lia)). split; [lia|]. split; [done|]. unfold phys. cbv zeta.
    rewrite Zminus_mod_idemp_r. replace (v - (v + 1)) with (N - 1 + (-1) * N) by lia. rewrite Z.mod_add, Z.mod_small by lia. if_split; lia.
  - exists N, ((v - q) mod N). pose proof (Z.mod_pos_bound (v - q) N ltac:(lia)). split; [lia|]. split; [done|]. unfold phys. cbv zeta.
    rewrite Zminus_mod_idemp_r. replace (v - (v - q)) with q by lia. rewrite Z.mod_small by lia. if_split; lia.
Qed.

Lemma turns_inj p mc p' mc' : 0 <= p <= N -> 0 <= p' <= N -> turns p mc = turns p' mc' -> p = p' /\ mc = mc'.
Proof. unfold turns. intros. assert (mc = mc') by nia. subst. lia. Qed.

(** C21: erasing one sector again and again wears all pages alike: for every page, within
    N * (N + 1) erases the sector is moved into that page, for a file system of N sectors in N + 1 pages. *)
Theorem wl_wears_all_pages v q w d : mounted good crcf c w d -> 0 <= v < N -> 0 <= q <= N ->
  exists n w', Z.of_nat n < N * (N + 1) /\ for_loop n 0 (fun _ => wl_flash_erase_sector crcf v) w = (w', inr tt) /\
    wl_flash_calc_addr (wl_flash w') (u32 (v * P)) = q * P.
Proof.
  intros (p & mc & H) Hv Hq. pose proof H as (m & b & da & _ & [Hp Hm _ _ _ _]).
  destruct (page_turns v q Hv Hq) as (p1 & mc1 & Hp1 & Hm1 & E). pose proof (turns_range p mc Hp Hm) as T. pose proof (turns_range p1 mc1 Hp1 Hm1) as T1.
  set (k := (turns p1 mc1 - turns p mc) mod (N * (N + 1))). pose proof (Z.mod_pos_bound (turns p1 mc1 - turns p mc) (N * (N + 1)) ltac:(lia)) as Hk.
  fold k in Hk. pose proof (wpc_erases v (Z.to_nat k) Hv 0 p mc d w H) as G. unfold wpc in G.
  destruct (for_loop (Z.to_nat k) 0 (fun _ => wl_flash_erase_sector crcf v) w) as [w' [r|[]]] eqn:Ew; [by destruct G as (_ & [] & _)|].
  destruct G as (p2 & mc2 & d2 & (m2 & b2 & da2 & [_ El] & [Hp2 Hm2 _ _ _ _]) & E2). exists (Z.to_nat k), w'. split; [lia|]. split; [done|].
  rewrite Z2Nat.id in E2 by lia. unfold k in E2. rewrite Zplus_mod_idemp_r in E2.
  replace (turns p mc + (turns p1 mc1 - turns p mc)) with (turns p1 mc1) in E2 by lia. rewrite Z.mod_small in E2 by done.
  destruct (turns_inj _ _ _ _ Hp2 Hp1 E2) as [-> ->]. destruct (regions good False dev c ok) as (_ & _ & _ & _ & R5 & _).
  rewrite El. destruct (sector_addr good False dev crcf c ok _ b2 da2 p1 mc1 v Hp1 Hm1 ltac:(lia) eq_refl) as [-> _]. by rewrite E.
Qed.

End Wear.

(** ** The clients of the sectors *)

(** A buffer for each mount is given by the allocator. *)
Inductive op := Write (s : Z) (buff : list Z) (n : Z) | Read (s n : Z) | Erase (s n : Z) | Remount (temp : list Z).

Section Serve.
Context {F : Type} {fl : Flash F} (good : F -> Prop) (dev : device good False).
Context (crcf : list Z -> Z) (c : wl_config_t) (crcs : crc_laws crcf) (ok : sane c fl_lo fl_hi).
Context (Hsec : page_size c = FATFS_SECTOR_SIZE) (Hfull : full_mem_size c <= FATFS_FLASH_TOTAL_SIZE).
Abbreviation W := (world (F := F)).
Abbreviation N := (N c).
Abbreviation disk := (Z -> list Z).

(** An operation ends in success, with what was read. *)
Definition step (o : op) (w : W) : option (list Z * W) :=
  match o with
  | Write s buff n => match fs_flash_write crcf s buff n w with (w', inr _) => Some ([], w') | _ => None end
  | Read s n => match fs_flash_read s n w with (w', inr d) => Some (d, w') | _ => None end
  | Erase s n => match fs_flash_erase crcf s n w with (w', inr _) => Some ([], w') | _ => None end
  | Remount temp => match wl_mount crcf c (Some temp) (flash w) with (w', inr 0) => Some ([], w') | _ => None end
  end.

Definition op_ok (d : disk) (o : op) : Prop :=
  match o with
  | Write s buff n => 0 <= s /\ 0 < n /\ s + n <= N /\ zlen buff = n * FATFS_SECTOR_SIZE /\ bytes buff
  | Read s n => 0 <= s /\ 0 < n /\ s + n <= N
  | Erase s n => 0 <= s /\ 0 <= n /\ s + n <= N
  | Remount _ => True
  end.

(** What the operation does to an array of sectors. *)
Definition spec_step (d : disk) (o : op) (b : list Z) (d' : disk) : Prop :=
  match o with
  | Write s buff n => b = [] /\ forall v, 0 <= v < N ->
      d' v = if (s <=? v) && (v <? s + n) then slice ((v - s) * FATFS_SECTOR_SIZE) FATFS_SECTOR_SIZE buff else d v
  | Read s n => b = concat (map d (seqZ s n)) /\ d' = d
  | Erase s n => b = [] /\ forall v, 0 <= v < N ->
      d' v = if (s <=? v) && (v <? s + n) then replicate (Z.to_nat FATFS_SECTOR_SIZE) 0xFF else d v
  | Remount _ => b = [] /\ d' = d
  end.

Lemma contents_mod d s n : 0 <= s -> s + n <= N -> contents (fun v => d (v mod N)) s n = concat (map d (seqZ s n)).
Proof.
  intros Hs Hn. unfold contents. f_equal. apply list_fmap_ext. intros i v [-> Hv]%lookup_seqZ. by rewrite Z.mod_small by lia.
Qed.

Lemma wl_serves_ops : Client.serves_ops step op_ok spec_step (mounted good crcf c).
Proof.
  intros w d o M Ho. destruct (regions good False dev c ok) as (_ & _ & _ & _ & R5 & _). destruct o as [s buff n|s n|s n|t]; cbn [op_ok step spec_step] in *.
  - destruct Ho as (Hs & Hn & Hsn & Hl & Hb). rewrite <- Hsec in Hl.
    pose proof (wpc_fs_write good False dev crcf c ok Hsec s n buff d (fun _ w' => mounted good crcf c w' (upds d s n (sector_of c buff s))) w Hs Hn Hsn M Hl Hb) as G.
    unfold wpc in G. destruct (fs_flash_write crcf s buff n w) as [w' [r|u]]; [by destruct G as (_ & [] & _)|].
    do 3 eexists. split; [done|]. split; [|by apply G]. split; [done|]. intros v _. unfold upds, sector_of. by rewrite Hsec.
  - destruct Ho as (Hs & Hn & Hsn).
    pose proof (wpc_fs_read good False dev crcf c ok Hsec Hfull s n d (fun l w' => l = concat (map d (seqZ s n)) /\ w' = w) (fun _ _ => True) w Hs Hn ltac:(lia)
      (mounted_readable _ _ _ _ _ M) (conj (contents_mod d s n Hs Hsn) eq_refl)) as G.
    unfold wpc in G. destruct (fs_flash_read s n w) as [w' [r|l]]; [by destruct G as (_ & [] & _)|]. destruct G as [-> ->].
    by exists (concat (map d (seqZ s n))), w, d.
  - destruct Ho as (Hs & Hn & Hsn).
    pose proof (wpc_fs_erase good False dev crcf c ok Hsec s n d (fun _ w' => mounted good crcf c w' (upds d s n (fun _ => ffs c))) w Hs Hn Hsn M) as G.
    unfold wpc in G. destruct (fs_flash_erase crcf s n w) as [w' [r|u]]; [by destruct G as (_ & [] & _)|].
    do 3 eexists. split; [done|]. split; [|by apply G]. split; [done|]. intros v _. unfold upds, ffs. by rewrite Hsec.
  - destruct M as (p & mc & m & b & da & [Hm _] & I). destruct (mount_kept good dev crcf c ok crcs t m (flash w) p mc d Hm I) as (w' & -> & M').
    by exists [], w', d.
Qed.

(** C18: the wear levelling is an array of sectors to the file system. On a flash that holds
    nothing of it, mounting succeeds; then any client that writes, reads and erases sectors
    within the size and mounts again at any time gets what such an array gives it, although
    every erase moves a page. The sectors are at first what the flash has in its pages. *)
Theorem wl_serves_disk t m f : holds good f m -> blank m (A1 c) -> blank m (A2 c) ->
  exists w, wl_mount crcf c (Some t) f = (w, inr 0) /\ let d := fun v => page c m (v + 1) in
    forall cl n, Client.obeys op_ok spec_step d cl ->
      exists seen w' d', Client.run step cl n [] w = Some (seen, w') /\ Client.after op_ok spec_step d cl seen d'.
Proof.
  intros H H1 H2. destruct (mount_new good dev crcf c ok crcs t m f H H1 H2) as (w & E & M). exists w. split; [done|]. intros d cl n Hc.
  destruct (Client.run_serves step op_ok spec_step (mounted good crcf c) d cl n w wl_serves_ops Hc M) as (seen & w' & d' & G1 & G2 & _). by exists seen, w', d'.
Qed.

(** A sector number past the end is not refused. What is written to the sector after the
    last one (the check lets it pass, and the size told to the file system is that of the whole area) goes
    to sector 0. *)
Theorem wl_past_end_is_first src d w : mounted good crcf c w d -> zlen src = FATFS_SECTOR_SIZE -> bytes src ->
  N * FATFS_SECTOR_SIZE < full_mem_size c /\
  exists w' w2, fs_flash_write crcf N src 1 w = (w', inr tt) /\ fs_flash_read 0 1 w' = (w2, inr src).
Proof.
  intros M Hl Hb. rewrite <- Hsec in Hl. pose proof (sn_room _ _ _ ok). destruct (regions good False dev c ok) as (_ & _ & _ & _ & R5 & R6 & _).
  split; [rewrite <- Hsec, (full_sectors c ok); nia|].
  pose proof (wpc_fs_write_past good False dev crcf c ok Hsec src d (fun _ w' => mounted good crcf c w' (upd d 0 src)) w M Hl Hb) as G.
  unfold wpc in G. destruct (fs_flash_write crcf N src 1 w) as [w' [r|[]]]; [by destruct G as (_ & [] & _)|]. specialize (G (fun _ H => H)).
  pose proof (wpc_fs_read good False dev crcf c ok Hsec Hfull 0 1 _ (fun l _ => l = src) (fun _ _ => True) w' ltac:(lia) ltac:(lia) ltac:(lia)
    (mounted_readable _ _ _ _ _ G)) as G2. rewrite contents_mod in G2 by lia. specialize (G2 (app_nil_r src)).
  unfold wpc in G2. destruct (fs_flash_read 0 1 w') as [w2 [r|l]] eqn:E2; [by destruct G2 as (_ & [] & _)|]. subst l. by exists w', w2.
Qed.

End Serve.

Lemma contents_one (d : Z -> list Z) v : concat (map d (seqZ v 1)) = d v.
Proof. rewrite seqZ_cons by lia. apply app_nil_r. Qed.

(** ** A failure in a write *)

Section Failure.
Context {F : Type} {fl : Flash F} (good : F -> Prop) (may_fail : Prop) (dev : device good may_fail).
(** After the restart no call fails. *)
Context (good2 : F -> Prop) (dev2 : device good2 False).
Context (crcf : list Z -> Z) (c : wl_config_t) (crcs : crc_laws crcf) (ok : sane c fl_lo fl_hi).
Context (Hsec : page_size c = FATFS_SECTOR_SIZE) (Hfull : full_mem_size c <= FATFS_FLASH_TOTAL_SIZE).
Abbreviation W := (world (F := F)).
Abbreviation N := (N c).

(** A write or an erase of these sectors. *)
Definition fails (s n : Z) (w w' : W) : Prop :=
  exists r, (exists buff, zlen buff = n * FATFS_SECTOR_SIZE /\ bytes buff /\ fs_flash_write crcf s buff n w = (w', inl r)) \/
    fs_flash_erase crcf s n w = (w', inl r).

Lemma fails_hurt s n d w w' : 0 <= s -> 0 < n -> s + n <= N -> mounted good crcf c w d -> fails s n w w' ->
  exists m, holds good (flash w') m /\ hurt crcf c d s n (wl_flash w') m.
Proof.
  intros Hs Hn Hsn M (r & [(buff & Hl & Hb & E)|E]).
  - rewrite <- Hsec in Hl. pose proof (wpc_fs_write good may_fail dev crcf c ok Hsec s n buff d (fun _ _ => True) w Hs Hn Hsn M Hl Hb (fun _ _ => I)) as G.
    unfold wpc in G. rewrite E in G. apply G.
  - pose proof (wpc_fs_erase good may_fail dev crcf c ok Hsec s n d (fun _ _ => True) w Hs ltac:(lia) Hsn M (fun _ _ => I)) as G.
    unfold wpc in G. rewrite E in G. apply G.
Qed.

(** The flash after the restart. *)
Definition restarted (w : W) (f : F) : Prop := good2 f /\ forall i, fl_lo <= i < fl_hi -> cell f i = cell (flash w) i.

Lemma restarted_holds w f m : restarted w f -> holds good (flash w) m -> holds good2 f m.
Proof. intros [H1 H2] [_ H3]. split; [done|]. intros i Hi. by rewrite H2, H3. Qed.

Lemma window_ext m m' : (forall i, fl_lo <= i < fl_hi -> m i = m' i) -> window crcf c m -> window crcf c m'.
Proof.
  intros He (mc & Hm & H1 & H2 & H3). destruct (regions good may_fail dev c ok) as (R1 & R2 & R3 & R4 & R5 & R6 & R7 & R8 & _).
  pose proof (sectors_small good may_fail dev c ok). exists mc. unfold SIZEOF_STATE in *. split; [done|].
  split_and!; [eapply header_ext; [|done]|eapply header_ext; [|done]|eapply marks_ext; [|done]]; unfold SIZEOF_STATE; intros i Hi; symmetry; apply He; lia.
Qed.

Lemma read_back w d s n : readable good2 crcf c w d -> 0 <= s -> 0 < n -> s + n <= N ->
  exists w', fs_flash_read s n w = (w', inr (concat (map d (seqZ s n)))).
Proof.
  intros H Hs Hn Hsn. destruct (regions good may_fail dev c ok) as (_ & _ & _ & _ & R5 & _).
  pose proof (wpc_fs_read good2 False dev2 crcf c ok Hsec Hfull s n d (fun l _ => l = concat (map d (seqZ s n))) (fun _ _ => True) w Hs Hn ltac:(lia)
    H (contents_mod c d s n Hs Hsn)) as G.
  unfold wpc in G. destruct (fs_flash_read s n w) as [w' [r|l]]; [by destruct G as (_ & [] & _)|]. subst l. by exists w'.
Qed.

Lemma in_step_ext l m m' : (forall i, fl_lo <= i < fl_hi -> m i = m' i) -> in_step crcf c l m -> in_step crcf c l m'.
Proof.
  intros He Hi Hl Hv. destruct (regions good may_fail dev c ok) as (R1 & R2 & R3 & R4 & R5 & R6 & R7 & R8 & _).
  pose proof (sectors_small good may_fail dev c ok). assert (mem_slice m' (A1 c) SIZEOF_STATE = mem_slice m (A1 c) SIZEOF_STATE) as E.
  { apply list_fmap_ext. intros k i [-> Hk]%lookup_seqZ. symmetry. apply He. unfold SIZEOF_STATE in *. lia. }
  unfold valid in Hv. rewrite E in Hv. destruct (Hi Hl Hv) as [H1 H2]. unfold SIZEOF_STATE in *.
  split; [eapply header_ext; [|done]|eapply marks_ext; [|done]]; unfold SIZEOF_STATE; intros i Hr; symmetry; apply He; lia.
Qed.

(** C19: a failure of the flash in the middle of a write or an erase (the power fails) costs
    no other sector: whichever call of the flash it is that fails, and whatever it leaves in the
    range it was called for, the flash mounts again and every sector that was not to be written reads
    as before. The exception, [in_step], is the end of a round: the last page is marked as moved and
    the first copy of the state is to be rewritten, or is being rewritten, and what is in its place
    passes its CRC without being the new copy. *)
Theorem wl_power_loss s n d w w' f t : 0 <= s -> 0 < n -> s + n <= N -> mounted good crcf c w d -> fails s n w w' ->
  restarted w' f -> in_step crcf c (wl_flash w') (cell f) ->
  exists w2, wl_mount crcf c (Some t) f = (w2, inr 0) /\
    forall s' n', 0 <= s' -> 0 < n' -> s' + n' <= N -> s' + n' <= s \/ s + n <= s' ->
      exists w3, fs_flash_read s' n' w2 = (w3, inr (concat (map d (seqZ s' n')))).
Proof.
  intros Hs Hn Hsn M Hf Hr Hw. destruct (fails_hurt s n d w w' Hs Hn Hsn M Hf) as (m & Hm & p & mc & d' & Hp & Hmc & Hc & Hd).
  pose proof (restarted_holds w' f m Hr Hm) as Hm2. assert (in_step crcf c (wl_flash w') m) as Hw' by (eapply in_step_ext; [|exact Hw]; intros i Hi; by apply Hm2).
  destruct (mount_crashed good2 dev2 crcf c ok crcs t m f p mc d' _ Hm2 Hp Hmc Hc Hw') as (w2 & E & R). exists w2. split; [done|].
  intros s' n' Hs' Hn' Hsn' Hdis. destruct (read_back w2 d' s' n' R Hs' Hn' Hsn') as (w3 & E3). exists w3. rewrite E3. do 3 f_equal.
  apply list_fmap_ext. intros i v [-> Hv]%lookup_seqZ. apply Hd; lia.
Qed.

(** The window is the end of a round. *)
Lemma crashed_window p mc d l m : 0 <= p <= N -> 0 <= mc < N -> crashed crcf c p mc d l m -> window crcf c m ->
  p = N /\ header m (A1 c) (hdr crcf c mc) /\ header m (A2 c) (hdr crcf c mc) /\ disk_is c m 0 (next_round c mc) d.
Proof.
  intros Hp Hmc Hc (mc' & Hm' & G1 & G2 & Gk). destruct (regions good may_fail dev c ok) as (_ & _ & _ & _ & R5 & _). pose proof (sn_room _ _ _ ok).
  specialize (Gk N ltac:(lia)).
  assert (next_page c N = 0 /\ next_mc c N mc = next_round c mc) as [E1 E2] by (unfold next_page, next_mc; by destruct (Z.leb_spec N N); [|lia]). destruct Hc as [[_ _ H1 Hk H2 Hd]|_ H1 Hk H2 Hd|Ep _ H2 Hd0 Hd|Ep H1 Hk Hd].
  - specialize (Hk N ltac:(lia)). lia.
  - specialize (Hk N ltac:(lia)). assert (p = N) as -> by lia. by rewrite E1, E2 in Hd.
  - assert (mc' = mc) as ->; [|subst p; by rewrite E1, E2 in Hd].
    pose proof (header_state good2 dev2 crcf c ok crcs _ _ _ Hm' G2) as G3. rewrite (header_state good2 dev2 crcf c ok crcs _ _ _ Hmc H2) in G3.
    apply (f_equal move_count) in G3. symmetry. exact G3.
  - specialize (Hk N ltac:(lia)). lia.
Qed.


End Failure.

(** ** The configuration of the file system *)

Example mount_config_sane lo hi : 0 <= lo <= FATFS_FLASH_START_ADDR -> FATFS_FLASH_START_ADDR + FATFS_FULL_MEM_SIZE <= hi <= 2 ^ 31 ->
  sane mount_config lo hi /\ N mount_config = 188 /\ fs_flash_size / FATFS_SECTOR_SIZE = 192.
Proof.
  intros Hl Hh. unfold FATFS_FLASH_START_ADDR, FATFS_FULL_MEM_SIZE in *. split; [|by vm_compute].
  split; cbn; unfold FATFS_FLASH_START_ADDR, FATFS_FULL_MEM_SIZE, FATFS_SECTOR_SIZE; try lia; try done.
  - split; [by exists 490|lia].
  - split; [by exists 192|lia].
Qed.

(** ** A small flash *)

Section Demo.

Definition demo_config : wl_config_t := mk_config 0 0x6000 0x1000 0x1000 8 1 0x1000 0.

(** A device whose calls fail as [faults] says: [Some k] for one that ends with failure when [k] bytes are done. *)
Record torn := mk_torn { mem : list Z; faults : list (option Z) }.
Definition turn (l : list (option Z)) : option Z * list (option Z) := match l with [] => (None, []) | x :: l => (x, l) end.
Definition put (l : list Z) (off : Z) (d : list Z) : list Z := splice off (nor (slice off (zlen d) l) d) l.
Definition wipe (l : list Z) (off n : Z) : list Z := splice off (replicate (Z.to_nat n) 0xFF) l.
Definition sound (f : torn) : Prop := zlen (mem f) = 0x6000 /\ bytes (mem f).
#[local] Instance demo_dev : Flash torn := {|
  flash_read f off n := (0, slice off n (mem f), f);
  flash_write f off d := let '(x, l) := turn (faults f) in
    match x with None => (0, mk_torn (put (mem f) off d) l) | Some k => (-1, mk_torn (put (mem f) off (take (Z.to_nat k) d)) l) end;
  flash_erase f off n := let '(x, l) := turn (faults f) in
    match x with None => (0, mk_torn (wipe (mem f) off n) l) | Some k => (-1, mk_torn (wipe (mem f) off (Z.max 0 (Z.min k n))) l) end;
  fl_lo := 0; fl_hi := 0x6000; fl_mem := mem; fl_inv := sound
|}.
Definition demo_good (f : torn) : Prop := faults f = [] /\ sound f.

Lemma put_is l off d : 0 <= off -> off + zlen d <= zlen l -> bytes l -> bytes d -> zlen (put l off d) = zlen l /\ bytes (put l off d) /\
  forall i, 0 <= i < zlen l -> nthb (put l off d) i = if (off <=? i) && (i <? off + zlen d) then Z.land (nthb l i) (nthb d (i - off)) else nthb l i.
Proof.
  intros Ho Hd Hl Hb. pose proof (zlen_nonneg d). assert (zlen (slice off (zlen d) l) = zlen d) as Hs by (apply zlen_slice; lia).
  assert (zlen (nor (slice off (zlen d) l) d) = zlen d) as Hn by by apply zlen_nor. unfold put. split; [rewrite zlen_splice; lia|].
  split; [auto using bytes_splice, bytes_nor, bytes_slice|]. intros i Hi. rewrite nthb_splice, Hn by lia. repeat if_split; try lia; try done.
  rewrite nthb_nor, nthb_slice by lia. f_equal; f_equal; lia.
Qed.

Lemma wipe_is l off n : 0 <= off -> 0 <= n -> off + n <= zlen l -> bytes l -> zlen (wipe l off n) = zlen l /\ bytes (wipe l off n) /\
  forall i, 0 <= i < zlen l -> ~ (off <= i < off + n) -> nthb (wipe l off n) i = nthb l i.
Proof.
  intros Ho Hn Hl Hb. pose proof (zlen_replicate n 0xFF Hn) as Hr. unfold wipe. split; [rewrite zlen_splice; lia|].
  split; [apply bytes_splice; [done|apply Forall_replicate; lia]|]. intros i Hi Hni. rewrite nthb_splice, Hr by lia. repeat if_split; lia || done.
Qed.

#[local] Instance demo_laws : FlashLaws torn.
Proof.
  split; cbn [fl_inv fl_mem fl_lo fl_hi flash_read flash_write flash_erase demo_dev].
  - lia.
  - by intros f [H _].
  - by intros f [_ H].
  - intros f off n _ _ _ _. by rewrite Z.sub_0_r.
  - intros f off d r f' [Hl Hb] H1 H2 H3 Hd E. rewrite !Z.sub_0_r. destruct (turn (faults f)) as [[k|] fs]; injection E as <- <-; cbn [mem].
    + assert (zlen (take (Z.to_nat k) d) <= zlen d) as Hk by (unfold zlen; rewrite length_take; lia).
      destruct (put_is (mem f) off (take (Z.to_nat k) d)) as (P1 & P2 & P3); [lia|lia|done|by apply Forall_take|]. split; [split; [exact (eq_trans P1 Hl)|exact P2]|].
      split; [done|]. intros i Hi. rewrite P3 by lia. repeat if_split; try lia; try done; [apply cleared_land|apply cleared_refl].
    + destruct (put_is (mem f) off d) as (P1 & P2 & P3); [lia|lia|done|done|]. split; [split; [exact (eq_trans P1 Hl)|exact P2]|].
      split; [done|]. intros i Hi. rewrite P3 by lia. repeat if_split; try lia; try done. apply cleared_land.
  - intros f off n r f' [Hl Hb] H1 H2 H3 _ _ E. rewrite !Z.sub_0_r. destruct (turn (faults f)) as [[k|] fs]; injection E as <- <-; cbn [mem].
    + destruct (wipe_is (mem f) off (Z.max 0 (Z.min k n))) as (P1 & P2 & P3); [lia|lia|lia|done|]. split; [split; [exact (eq_trans P1 Hl)|exact P2]|].
      split; [done|]. intros i Hi Hn. apply P3; lia.
    + destruct (wipe_is (mem f) off n) as (P1 & P2 & P3); [lia|lia|lia|done|]. split; [split; [exact (eq_trans P1 Hl)|exact P2]|].
      split; [done|]. intros i Hi Hn. apply P3; lia.
Qed.

Definition demo_crc (ws : list Z) : Z := Crc.crc32 (to_bytes ws) 0xffffffff.

Lemma demo_sane : sane demo_config 0 0x6000.
Proof.
  split; cbn; try lia; try done.
  - split; [by exists 0|lia].
  - split; [by exists 6|lia].
Qed.

Lemma demo_crcs : crc_laws demo_crc.
Proof. split; [|by vm_compute]. intros ws. apply Crc.crc32_range; [apply bytes_to_bytes|lia]. Qed.

Lemma demo_device : device demo_good False.
Proof.
  apply reliable_device. split.
  - by intros f [_ H].
  - intros f off d [Hf Hs] H1 H2 H3 Hd. destruct (flash_write f off d) as [r f'] eqn:E. destruct (@fl_write_ok _ _ demo_laws f off d r f' Hs H1 H2 H3 Hd E) as (Hs' & _).
    cbn [flash_write demo_dev] in E. rewrite Hf in E. injection E as <- <-. eexists. split; [reflexivity|]. by split.
  - intros f off n [Hf Hs] H1 H2 H3 Ho Hn. destruct (flash_erase f off n) as [r f'] eqn:E. destruct (@fl_erase_ok _ _ demo_laws f off n r f' Hs H1 H2 H3 Ho Hn E) as (Hs' & _).
    cbn [flash_erase demo_dev] in E. rewrite Hf in E. injection E as <- <-. eexists. split; [reflexivity|]. by split.
Qed.

Lemma demo_failing : device sound True.
Proof. exact (@laws_device _ _ demo_laws). Qed.

(** A new flash, as it is erased. *)
Definition demo_flash : torn := mk_torn (replicate (Z.to_nat 0x6000) 0xFF) [].
Definition demo_page (b : Z) : list Z := replicate (Z.to_nat 0x1000) b.

Lemma demo_flash_good : demo_good demo_flash.
Proof. split; [done|]. unfold demo_flash, sound. cbn [mem]. split; [by rewrite zlen_replicate by lia|]. apply Forall_replicate. lia. Qed.

Lemma demo_blank a : 0 <= a -> a + SIZEOF_STATE <= 0x6000 -> blank (cell demo_flash) a.
Proof.
  intros Ha Hb i Hi. unfold cell, nthb, SIZEOF_STATE in *. cbn [fl_mem fl_lo demo_dev demo_flash mem].
  rewrite nth_lookup_0, lookup_replicate_2 by lia. done.
Qed.

(** Two sectors are written, so that the last page is free. *)
Definition demo_step (o : op) (w : world) : world := match step demo_crc demo_config o w with Some (_, w) => w | None => w end.
Definition demo_start : world := fst (wl_mount demo_crc demo_config (Some []) demo_flash).
Definition demo_world : world := demo_step (Write 1 (demo_page 66) 1) (demo_step (Write 0 (demo_page 65) 1) demo_start).

Lemma demo_write w d v x : mounted demo_good demo_crc demo_config w d -> 0 <= v < 2 -> 0 <= x < 256 ->
  exists d', mounted demo_good demo_crc demo_config (demo_step (Write v (demo_page x) 1) w) d' /\
    d' v = demo_page x /\ forall u, 0 <= u < 2 -> u <> v -> d' u = d u.
Proof.
  intros M Hv Hx. assert (zlen (demo_page x) = 0x1000) as Hl by (unfold demo_page; by rewrite zlen_replicate by lia).
  destruct (wl_serves_ops _ demo_device demo_crc demo_config demo_crcs demo_sane eq_refl ltac:(by vm_compute) w d (Write v (demo_page x) 1) M)
    as (b & w' & d' & E & [_ Hd] & M').
  - split_and!; [lia|lia|change (N demo_config) with 2; lia|by rewrite Hl|]. apply Forall_replicate. lia.
  - change (N demo_config) with 2 in Hd. exists d'. unfold demo_step. rewrite E. split; [done|]. split.
    + rewrite Hd by lia. repeat if_split; try lia. rewrite Z.sub_diag. change FATFS_SECTOR_SIZE with 0x1000. rewrite <- Hl. apply slice_all.
    + intros u Hu Hn. rewrite Hd by lia. repeat if_split; lia || done.
Qed.

Lemma demo_mounted : exists d, mounted demo_good demo_crc demo_config demo_world d /\ d 0 = demo_page 65 /\ d 1 = demo_page 66.
Proof.
  assert (mounted demo_good demo_crc demo_config demo_start (fun v => page demo_config (cell demo_flash) (v + 1))) as M.
  { destruct (mount_new _ demo_device demo_crc demo_config demo_sane demo_crcs [] (cell demo_flash) demo_flash) as (w & E & M);
      [split; [apply demo_flash_good|done]|by apply demo_blank|by apply demo_blank|]. unfold demo_start. by rewrite E. }
  destruct (demo_write _ _ 0 65 M) as (d1 & M1 & E1 & _); [lia|lia|]. destruct (demo_write _ _ 1 66 M1) as (d2 & M2 & E2 & E3); [lia|lia|].
  exists d2. split; [exact M2|]. split; [|done]. by rewrite E3.
Qed.

(** Calls that fail, from now on. *)
Definition with_faults (l : list (option Z)) (w : world) : world := mk_world (mk_torn (mem (flash w)) l) (wl_flash w).

Lemma demo_faulty l w d : mounted demo_good demo_crc demo_config w d -> mounted sound demo_crc demo_config (with_faults l w) d.
Proof. intros (p & mc & m & b & da & [[(_ & Hg) Hm] Hl] & I). exists p, mc, m, b, da. split; [|done]. split; [|done]. by split. Qed.

(** The power is back. *)
Definition power_on (w : world) : torn := mk_torn (mem (flash w)) [].

(** Sector 1 is written, and read after another mount. *)
Definition demo_client (x : list Z) (seen : list (list Z)) : option op :=
  match seen with [] => Some (Write 1 x 1) | [_] => Some (Remount []) | [_; _] => Some (Read 1 1) | _ => None end.

Lemma demo_obeys x d : zlen x = FATFS_SECTOR_SIZE -> bytes x -> Client.obeys (op_ok demo_config) (spec_step demo_config) d (demo_client x).
Proof.
  intros Hl Hb seen a o _ Ho. destruct seen as [|? [|? [|? ?]]]; cbn in Ho; [injection Ho as <-..|done]; cbn [op_ok]; change (N demo_config) with 2; [|done|lia].
  split_and!; lia || done.
Qed.

Lemma demo_sees x d seen d' : zlen x = FATFS_SECTOR_SIZE -> length seen = 3%nat ->
  Client.after (op_ok demo_config) (spec_step demo_config) d (demo_client x) seen d' -> seen = [[]; []; x].
Proof.
  intros Hl Hn H. destruct seen as [|b1 [|b2 [|b3 [|]]]]; try done.
  apply (Client.after_snoc _ _ _ _ [b1; b2] b3) in H as (a3 & o3 & H & Eo & Hs). injection Eo as <-. destruct Hs as [-> _].
  apply (Client.after_snoc _ _ _ _ [b1] b2) in H as (a2 & o2 & H & Eo & Hs). injection Eo as <-. destruct Hs as [-> ->].
  apply (Client.after_snoc _ _ _ _ [] b1) in H as (a1 & o1 & H & Eo & Hs). injection Eo as <-. destruct Hs as [-> Hd].
  rewrite contents_one, (Hd 1) by (change (N demo_config) with 2; lia). do 3 f_equal. cbn [Z.leb Z.ltb]. repeat if_split; try lia.
  rewrite Z.sub_diag, <- Hl. apply slice_all.
Qed.

Lemma wl_serves_disk_witness : exists w w', wl_mount demo_crc demo_config (Some []) demo_flash = (w, inr 0) /\
  Client.run (step demo_crc demo_config) (demo_client (demo_page 66)) 3 [] w = Some ([[]; []; demo_page 66], w').
Proof.
  assert (zlen (demo_page 66) = FATFS_SECTOR_SIZE) as Hl by (unfold demo_page; by rewrite zlen_replicate by lia).
  destruct (wl_serves_disk _ demo_device demo_crc demo_config demo_crcs demo_sane eq_refl ltac:(by vm_compute) [] (cell demo_flash) demo_flash)
    as (w & E & G); [split; [apply demo_flash_good|done]|by apply demo_blank|by apply demo_blank|]. exists w.
  destruct (G (demo_client (demo_page 66)) 3%nat) as (seen & w' & d' & R & H); [apply demo_obeys; [done|apply Forall_replicate; lia]|].
  exists w'. split; [done|]. rewrite R. do 2 f_equal. apply (demo_sees _ _ _ _ Hl) in H; [done|].
  apply Client.run_length in R; [done|]. intros l Hn. destruct l as [|? [|? [|? ?]]]; [done..|cbn in Hn; lia].
Defined.

Lemma wl_wears_all_pages_witness : exists n w', Z.of_nat n < 6 /\
  for_loop n 0 (fun _ => wl_flash_erase_sector demo_crc 0) demo_world = (w', inr tt) /\ wl_flash_calc_addr (wl_flash w') (u32 (0 * 0x1000)) = 1 * 0x1000.
Proof.
  destruct demo_mounted as (d & M & _).
  exact (wl_wears_all_pages _ demo_device demo_crc demo_config demo_sane 0 1 demo_world d M ltac:(by vm_compute) ltac:(by vm_compute)).
Defined.

Lemma wl_past_end_is_first_witness : exists w' w2,
  fs_flash_write demo_crc 2 (demo_page 67) 1 demo_world = (w', inr tt) /\ fs_flash_read 0 1 w' = (w2, inr (demo_page 67)).
Proof.
  destruct demo_mounted as (d & M & _). assert (zlen (demo_page 67) = 0x1000) as Hl by (unfold demo_page; by rewrite zlen_replicate by lia).
  apply (wl_past_end_is_first _ demo_device demo_crc demo_config demo_sane eq_refl ltac:(by vm_compute) (demo_page 67) d demo_world M Hl).
  apply Forall_replicate. lia.
Defined.

(** A write of sector 0 in which the call after [n] ones fails, when it has done [k] bytes. *)
Definition demo_fault (n : nat) (k : Z) : world := with_faults (replicate n None ++ [Some k]) demo_world.
Definition demo_failed (n : nat) (k : Z) : world := fst (fs_flash_write demo_crc 0 (demo_page 67) 1 (demo_fault n k)).

Lemma demo_fails n k : snd (fs_flash_write demo_crc 0 (demo_page 67) 1 (demo_fault n k)) = inl 1 -> fails demo_crc 0 1 (demo_fault n k) (demo_failed n k).
Proof.
  intros E. exists 1. left. exists (demo_page 67). unfold demo_page. split; [by rewrite zlen_replicate by lia|]. split; [apply Forall_replicate; lia|].
  unfold demo_failed, demo_page in *. rewrite <- E. apply surjective_pairing.
Qed.

Lemma sound_restarted w : sound (flash w) -> restarted demo_good w (power_on w).
Proof. intros [H1 H2]. by split. Qed.

Lemma demo_restarted n k : fails demo_crc 0 1 (demo_fault n k) (demo_failed n k) -> restarted demo_good (demo_failed n k) (power_on (demo_failed n k)).
Proof.
  intros Hf. destruct demo_mounted as (d & M & _). pose proof (demo_faulty (replicate n None ++ [Some k]) _ _ M) as M1.
  destruct (fails_hurt _ _ demo_failing demo_crc demo_config demo_sane eq_refl 0 1 d _ _ ltac:(lia) ltac:(lia) ltac:(by vm_compute) M1 Hf) as (m & [H _] & _).
  by apply sound_restarted.
Qed.

(** The sixth call of the write, which writes the first copy of the state anew, stops after ten
    bytes: the other sector is what it was. *)
Lemma wl_power_loss_witness : exists w2 w3, wl_mount demo_crc demo_config (Some []) (power_on (demo_failed 5 10)) = (w2, inr 0) /\
  fs_flash_read 1 1 w2 = (w3, inr (demo_page 66)).
Proof.
  destruct demo_mounted as (d & M & _ & D1). pose proof (demo_faulty (replicate 5 None ++ [Some 10]) _ _ M) as M1.
  assert (fails demo_crc 0 1 (demo_fault 5 10) (demo_failed 5 10)) as Hf by (apply demo_fails; by vm_compute).
  destruct (wl_power_loss _ _ demo_failing _ demo_device demo_crc demo_config demo_crcs demo_sane eq_refl ltac:(by vm_compute) 0 1 d
    (demo_fault 5 10) (demo_failed 5 10) (power_on (demo_failed 5 10)) [] ltac:(lia) ltac:(lia) ltac:(by vm_compute) M1 Hf (demo_restarted 5 10 Hf)) as (w2 & E & G).
  - intros _ Hv. exfalso. vm_compute in Hv. discriminate Hv.
  - destruct (G 1 1) as (w3 & E3); [lia|lia|by vm_compute|lia|]. exists w2, w3. split; [exact E|]. by rewrite E3, contents_one, D1.
Defined.

Lemma header_by_bytes m a s : forallb (fun i => m (a + i) =? nthb (state_bytes s) i) (seqZ 0 SIZEOF_STATE) = true -> header m a s.
Proof. intros H i Hi. rewrite forallb_forall in H. apply Z.eqb_eq, H, list_elem_of_In, elem_of_seqZ. lia. Qed.

Lemma marks_by_bytes c m a u : forallb (fun i => Bool.eqb (m (a + SIZEOF_STATE + i) =? 0xFF) (u <=? i)) (seqZ 0 (sectors c)) = true -> marks c m a u.
Proof.
  intros H i Hi. rewrite forallb_forall in H. assert (Bool.eqb (m (a + SIZEOF_STATE + i) =? 0xFF) (u <=? i) = true) as E by (apply H, list_elem_of_In, elem_of_seqZ; lia).
  apply Bool.eqb_prop in E. rewrite <- Z.eqb_eq, E. apply Z.leb_le.
Qed.


End Demo.
End WlProps.
