(* ===== verification/RingBuf.v ===== *)
(** * The byte ring buffer of the Tuya utilities

    Model of [src/tuyaos/tuyaos_adapter/include/utilities/src/tuya_ringbuf.c]:
    the buffer record, its operations with every guard, and the refinement of
    any sequence of operations by a bounded byte FIFO of capacity [len - 1]. *)
From S2P Require Import Prelude.
Open Scope Z_scope.

Module RingBuf.

(** ** Data *)

Inductive RINGBUFF_TYPE_E := OVERFLOW_STOP_TYPE | OVERFLOW_COVERAGE_TYPE.

(** [__RINGBUFF_T]; the flexible array [buff] is a list of bytes. *)
Record ringbuff := mk_ringbuff {
  type : RINGBUFF_TYPE_E;
  in_ : Z;
  out : Z;
  len : Z;
  buff : list Z
}.

Inductive oprt := OPRT_OK | OPRT_NOT_SUPPORTED | OPRT_INVALID_PARM | OPRT_MALLOC_FAILED.

(** [sizeof(__RINGBUFF_T)]: an [enum] and three [uint32_t]. *)
Definition RINGBUFF_SIZE : Z := 16.

Definition GET_MIN (x y : Z) : Z := if x <? y then x else y.

(** ** Operations

    A handle is [None] for [NULL]. A data pointer is [None] for [NULL] and the
    caller's buffer otherwise. *)

Definition __ringbuff_init (r : ringbuff) (n : Z) : ringbuff :=
  mk_ringbuff (type r) 0 0 n (buff r).

Section Create.
(** [tkl_system_malloc]: the bytes of the block, or [NULL]. *)
Variable malloc : Z -> option (list Z).

Definition tuya_ring_buff_create (n : Z) (t : RINGBUFF_TYPE_E) (out_is_null : bool)
  : oprt * option ringbuff :=
  match t with
  | OVERFLOW_COVERAGE_TYPE => (OPRT_NOT_SUPPORTED, None)
  | OVERFLOW_STOP_TYPE =>
      if out_is_null || (n =? 0) then (OPRT_INVALID_PARM, None)
      else match malloc (u32 (RINGBUFF_SIZE + n)) with
           | None => (OPRT_MALLOC_FAILED, None)
           | Some blk =>
               (OPRT_OK,
                Some (__ringbuff_init
                        (mk_ringbuff t 0 0 0 (drop (Z.to_nat RINGBUFF_SIZE) blk)) n))
           end
  end.
End Create.

Definition tuya_ring_buff_free (h : option ringbuff) : oprt * option ringbuff :=
  match h with
  | None => (OPRT_INVALID_PARM, None)
  | Some _ => (OPRT_OK, None)
  end.

Definition tuya_ring_buff_reset (h : option ringbuff) : oprt * option ringbuff :=
  match h with
  | None => (OPRT_INVALID_PARM, None)
  | Some r => (OPRT_OK, Some (__ringbuff_init r (len r)))
  end.

Definition tuya_ring_buff_free_size_get (h : option ringbuff) : Z :=
  match h with
  | None => 0
  | Some r =>
      let size :=
        if in_ r =? out r then len r
        else if in_ r <? out r then u32 (out r - in_ r)
        else u32 (len r - u32 (in_ r - out r)) in
      u32 (size - 1)
  end.

Definition tuya_ring_buff_used_size_get (h : option ringbuff) : Z :=
  match h with
  | None => 0
  | Some r =>
      if in_ r =? out r then 0
      else if out r <? in_ r then u32 (in_ r - out r)
      else u32 (len r - u32 (out r - in_ r))
  end.

(** The state after the write and the returned count. *)
Definition tuya_ring_buff_write (h : option ringbuff) (data : option (list Z)) (n : Z)
  : Z * option ringbuff :=
  match h, data with
  | Some r, Some pdata =>
      if n =? 0 then (0, h)
      else
        let n := GET_MIN (tuya_ring_buff_free_size_get h) n in
        if n =? 0 then (0, h)
        else
          let tmp_len := GET_MIN (u32 (len r - in_ r)) n in
          let buff1 := splice (in_ r) (slice 0 tmp_len pdata) (buff r) in
          let in1 := u32 (in_ r + tmp_len) in
          let n := u32 (n - tmp_len) in
          let '(buff2, in2) :=
            if 0 <? n then (splice 0 (slice tmp_len n pdata) buff1, n) else (buff1, in1) in
          let in3 := if len r <=? in2 then 0 else in2 in
          (u32 (tmp_len + n), Some (mk_ringbuff (type r) in3 (out r) (len r) buff2))
  | _, _ => (0, h)
  end.

(** The returned count, the caller's buffer after the call, and the ring. *)
Definition tuya_ring_buff_read (h : option ringbuff) (data : option (list Z)) (n : Z)
  : Z * option (list Z) * option ringbuff :=
  match h, data with
  | Some r, Some pdata =>
      if n =? 0 then (0, data, h)
      else
        let n := GET_MIN (tuya_ring_buff_used_size_get h) n in
        if n =? 0 then (0, data, h)
        else
          let tmp_len := GET_MIN (u32 (len r - out r)) n in
          let pdata1 := splice 0 (slice (out r) tmp_len (buff r)) pdata in
          let out1 := u32 (out r + tmp_len) in
          let n := u32 (n - tmp_len) in
          let '(pdata2, out2) :=
            if 0 <? n then (splice tmp_len (slice 0 n (buff r)) pdata1, n) else (pdata1, out1) in
          let out3 := if len r <=? out2 then 0 else out2 in
          (u32 (tmp_len + n), Some pdata2,
           Some (mk_ringbuff (type r) (in_ r) out3 (len r) (buff r)))
  | _, _ => (0, data, h)
  end.

Definition tuya_ring_buff_discard (h : option ringbuff) (n : Z) : Z * option ringbuff :=
  match h with
  | Some r =>
      if n =? 0 then (0, h)
      else
        let n := GET_MIN (tuya_ring_buff_used_size_get h) n in
        if n =? 0 then (0, h)
        else
          let tmp_len := GET_MIN (u32 (len r - out r)) n in
          let out1 := u32 (out r + tmp_len) in
          let n := u32 (n - tmp_len) in
          let out2 := if 0 <? n then n else out1 in
          let out3 := if len r <=? out2 then 0 else out2 in
          (u32 (tmp_len + n), Some (mk_ringbuff (type r) (in_ r) out3 (len r) (buff r)))
  | None => (0, h)
  end.

Definition tuya_ring_buff_peek (h : option ringbuff) (data : option (list Z)) (n : Z)
  : Z * option (list Z) :=
  match h, data with
  | Some r, Some pdata =>
      if n =? 0 then (0, data)
      else
        let n := GET_MIN n (tuya_ring_buff_used_size_get h) in
        if n =? 0 then (0, data)
        else
          let tmp_len := GET_MIN (u32 (len r - out r)) n in
          let pdata1 := splice 0 (slice (out r) tmp_len (buff r)) pdata in
          let n := u32 (n - tmp_len) in
          let pdata2 :=
            if 0 <? n then splice tmp_len (slice 0 n (buff r)) pdata1 else pdata1 in
          (u32 (tmp_len + n), Some pdata2)
  | _, _ => (0, data)
  end.

(** ** Well-formed buffers and their contents *)

Record wf (r : ringbuff) : Prop := {
  wf_len : 0 < len r < 2 ^ 32;
  wf_in : 0 <= in_ r < len r;
  wf_out : 0 <= out r < len r;
  wf_buff : zlen (buff r) = len r
}.

(** An index of the buffer, wrapped at most once. *)
Definition widx (n i : Z) : Z := if i <? n then i else i - n.

Definition used (r : ringbuff) : Z := widx (len r) (in_ r - out r + len r).

(** The unread bytes, oldest first. *)
Definition contents (r : ringbuff) : list Z :=
  (fun k => nthb (buff r) (widx (len r) (out r + k))) <$> seqZ 0 (used r).

Ltac ring_unfold :=
  unfold tuya_ring_buff_free_size_get, tuya_ring_buff_used_size_get, used, widx, GET_MIN in *.

Lemma used_range r : wf r -> 0 <= used r < len r.
Proof. intros []. ring_unfold. if_split; lia. Qed.

Lemma used_size_get_spec r : wf r -> tuya_ring_buff_used_size_get (Some r) = used r.
Proof.
  intros []. ring_unfold. repeat if_split; unwrap; lia.
Qed.

Lemma free_size_get_spec r : wf r -> tuya_ring_buff_free_size_get (Some r) = len r - 1 - used r.
Proof.
  intros []. ring_unfold. repeat if_split; unwrap; lia.
Qed.

Lemma zlen_contents r : wf r -> zlen (contents r) = used r.
Proof.
  intros H. pose proof (used_range r H). unfold zlen, contents.
  rewrite length_fmap, length_seqZ. lia.
Qed.

Lemma nthb_contents r i :
  wf r -> 0 <= i < used r -> nthb (contents r) i = nthb (buff r) (widx (len r) (out r + i)).
Proof.
  intros H Hi. unfold contents, nthb at 1. rewrite nth_lookup_0, list_lookup_fmap.
  rewrite lookup_seqZ_lt by lia. simpl. do 3 f_equal. lia.
Qed.
(** Contents are characterised by their length and their bytes. *)
Lemma contents_eq r l :
  wf r -> zlen l = used r ->
  (forall i, 0 <= i < used r -> nthb (buff r) (widx (len r) (out r + i)) = nthb l i) ->
  contents r = l.
Proof.
  intros Hwf Hl H. apply list_eq_nthb; rewrite zlen_contents by done; [done|].
  intros i Hi. by rewrite nthb_contents, H.
Qed.

(** ** Specification of the operations on a live ring *)

(** The bytes a write leaves in the buffer, linear part and wrapped part together. *)
Lemma write_index r pdata n m :
  wf r -> m = GET_MIN (len r - 1 - used r) n -> 0 < m -> n <> 0 -> m <= zlen pdata ->
  exists b, tuya_ring_buff_write (Some r) (Some pdata) n =
      (m, Some (mk_ringbuff (type r) (widx (len r) (in_ r + m)) (out r) (len r) b)) /\
    zlen b = len r /\
    forall j, 0 <= j < len r ->
      nthb b j = let k := widx (len r) (j - in_ r + len r) in
                 if k <? m then nthb pdata k else nthb (buff r) j.
Proof.
  intros Hwf Em Hm Hn Hp. pose proof (used_range r Hwf) as Hu.
  unfold tuya_ring_buff_write. rewrite free_size_get_spec by done. rewrite <- Em.
  assert (m <= len r - 1 - used r) by (rewrite Em; unfold GET_MIN; if_split; lia). clear Em.
  destruct Hwf as [Hlen Hin Hout Hbuf]. unfold GET_MIN.
  destruct (Z.eqb_spec n 0); [done|]. destruct (Z.eqb_spec m 0); [lia|].
  rewrite (wrap32_small (len r - in_ r)) by lia.
  destruct (Z.ltb_spec (len r - in_ r) m) as [Hw|Hw]; unwrap.
  - assert (zlen (splice (in_ r) (slice 0 (len r - in_ r) pdata) (buff r)) = len r) as Hs.
    { rewrite zlen_splice; rewrite ?zlen_slice; lia. }
    destruct (Z.ltb_spec 0 (m - (len r - in_ r))); [|lia].
    eexists. split; [|split].
    + do 3 f_equal; [lia|]. unfold widx. repeat if_split; lia.
    + rewrite zlen_splice; rewrite ?zlen_slice; lia.
    + intros j Hj. unfold widx.
      rewrite !nthb_splice; rewrite ?zlen_slice; try lia.
      repeat if_split; try lia; rewrite ?nthb_slice by lia; f_equal; lia.
  - destruct (Z.ltb_spec 0 (m - m)); [lia|].
    eexists. split; [|split].
    + do 3 f_equal; [lia|]. unfold widx. repeat if_split; lia.
    + rewrite zlen_splice; rewrite ?zlen_slice; lia.
    + intros j Hj. unfold widx.
      rewrite !nthb_splice; rewrite ?zlen_slice; try lia.
      repeat if_split; try lia; rewrite ?nthb_slice by lia; f_equal; lia.
Qed.

Lemma write_spec r pdata n :
  wf r -> 0 <= n < 2 ^ 32 -> GET_MIN (len r - 1 - used r) n <= zlen pdata ->
  let m := GET_MIN (len r - 1 - used r) n in
  exists r', tuya_ring_buff_write (Some r) (Some pdata) n = (m, Some r') /\ wf r' /\
    len r' = len r /\ contents r' = contents r ++ slice 0 m pdata.
Proof.
  intros Hwf Hn Hp m. fold m in Hp. pose proof (used_range r Hwf) as Hu.
  assert (0 <= m <= len r - 1 - used r) as Hm by (unfold m, GET_MIN; if_split; lia).
  destruct (decide (m = 0)) as [Hm0|Hm0].
  { exists r. unfold tuya_ring_buff_write. rewrite free_size_get_spec by done.
    fold m. rewrite Hm0, slice_nil, app_nil_r, Z.eqb_refl. if_split; auto. }
  assert (n <> 0) by (intros ->; unfold m, GET_MIN in Hm0; if_split_in Hm0; lia).
  destruct (write_index r pdata n m) as (b & -> & Hb & Hbi); [done..|lia|done|done|].
  clearbody m. eexists. split; [done|].
  pose proof Hwf as [Hlen Hin Hout Hbuf].
  set (r' := mk_ringbuff _ _ _ _ b).
  assert (wf r') as Hwf' by (constructor; simpl; [lia| |lia|done]; unfold widx; if_split; lia).
  assert (used r' = used r + m) as Hu' by
    (unfold used, widx in *; simpl; repeat if_split; repeat if_split_in Hm; lia).
  split; [done|]. split; [done|].
  apply contents_eq; [done| |].
  { rewrite zlen_app, zlen_contents, zlen_slice by (done || lia). lia. }
  intros i Hi. rewrite Hu' in Hi. unfold r'; simpl.
  rewrite Hbi by (unfold widx; if_split; lia). simpl.
  assert (widx (len r) (widx (len r) (out r + i) - in_ r + len r) =
    if i <? used r then len r - used r + i else i - used r) as Hk.
  { unfold used, widx in *. repeat if_split; repeat if_split_in Hm; lia. }
  rewrite Hk. destruct (Z.ltb_spec i (used r)).
  - destruct (Z.ltb_spec (len r - used r + i) m); [lia|].
    rewrite nthb_app_l, nthb_contents by (rewrite ?zlen_contents; done || lia). done.
  - destruct (Z.ltb_spec (i - used r) m); [|lia].
    rewrite nthb_app_r, nthb_slice, zlen_contents by (rewrite ?zlen_contents; done || lia).
    done.
Qed.

Lemma GET_MIN_comm a b : GET_MIN a b = GET_MIN b a.
Proof. unfold GET_MIN. repeat if_split; lia. Qed.

Lemma peek_spec r pdata n :
  wf r -> 0 <= n < 2 ^ 32 -> GET_MIN (used r) n <= zlen pdata ->
  tuya_ring_buff_peek (Some r) (Some pdata) n =
    (GET_MIN (used r) n, Some (splice 0 (slice 0 (GET_MIN (used r) n) (contents r)) pdata)).
Proof.
  intros Hwf Hn Hp. pose proof (used_range r Hwf) as Hu.
  unfold tuya_ring_buff_peek. rewrite used_size_get_spec, (GET_MIN_comm n) by done.
  remember (GET_MIN (used r) n) as m eqn:Em.
  assert (0 <= m <= used r) as Hm by (rewrite Em; unfold GET_MIN; if_split; lia).
  assert (m = 0 -> (0, Some pdata) = (m, Some (splice 0 (slice 0 m (contents r)) pdata))) as Hz.
  { intros ->. by rewrite slice_nil. }
  destruct (Z.eqb_spec n 0) as [->|]; [apply Hz; rewrite Em; unfold GET_MIN; if_split; lia|].
  destruct (Z.eqb_spec m 0) as [E|]; [by apply Hz|]. clear Hz Em.
  pose proof (zlen_contents r Hwf) as Hc. pose proof Hwf as [Hlen Hin Hout Hbuf].
  unfold GET_MIN. rewrite (wrap32_small (len r - out r)) by lia.
  destruct (Z.ltb_spec (len r - out r) m) as [Hw|Hw]; unwrap.
  - assert (zlen (splice 0 (slice (out r) (len r - out r) (buff r)) pdata) = zlen pdata) as Hs.
    { rewrite zlen_splice; rewrite ?zlen_slice; lia. }
    destruct (Z.ltb_spec 0 (m - (len r - out r))); [|lia].
    do 2 f_equal; [lia|]. apply list_eq_nthb.
    { rewrite !zlen_splice; rewrite ?zlen_slice; rewrite ?Hs; lia. }
    intros i Hi. rewrite zlen_splice in Hi; rewrite ?zlen_slice; rewrite ?Hs; try lia.
    rewrite !nthb_splice; rewrite ?zlen_slice; rewrite ?Hs; try lia.
    repeat if_split; try lia; rewrite ?nthb_slice by lia; rewrite ?nthb_contents by (done || lia);
      unfold widx; repeat if_split; try lia; f_equal; lia.
  - destruct (Z.ltb_spec 0 (m - m)); [lia|].
    do 2 f_equal; [lia|]. apply list_eq_nthb.
    { rewrite !zlen_splice; rewrite ?zlen_slice; lia. }
    intros i Hi. rewrite zlen_splice in Hi; rewrite ?zlen_slice; try lia.
    rewrite !nthb_splice; rewrite ?zlen_slice; try lia.
    repeat if_split; try lia; rewrite ?nthb_slice by lia; rewrite ?nthb_contents by (done || lia);
      unfold widx; repeat if_split; try lia; f_equal; lia.
Qed.

Lemma discard_spec r n :
  wf r -> 0 <= n < 2 ^ 32 ->
  exists r', tuya_ring_buff_discard (Some r) n = (GET_MIN (used r) n, Some r') /\ wf r' /\
    len r' = len r /\ contents r' = drop (Z.to_nat (GET_MIN (used r) n)) (contents r).
Proof.
  intros Hwf Hn. pose proof (used_range r Hwf) as Hu.
  unfold tuya_ring_buff_discard. rewrite used_size_get_spec by done.
  remember (GET_MIN (used r) n) as m eqn:Em.
  assert (0 <= m <= used r) as Hm by (rewrite Em; unfold GET_MIN; if_split; lia).
  assert (m = 0 -> exists r', (0, Some r) = (m, Some r') /\ wf r' /\ len r' = len r /\
            contents r' = drop (Z.to_nat m) (contents r)) as Hz by (intros ->; eauto).
  destruct (Z.eqb_spec n 0) as [->|]; [apply Hz; rewrite Em; unfold GET_MIN; if_split; lia|].
  destruct (Z.eqb_spec m 0) as [E|]; [by apply Hz|]. clear Hz Em.
  pose proof (zlen_contents r Hwf) as Hc. pose proof Hwf as [Hlen Hin Hout Hbuf].
  set (r' := mk_ringbuff (type r) (in_ r) (widx (len r) (out r + m)) (len r) (buff r)).
  assert (wf r') as Hwf' by (constructor; simpl; [lia|lia| |done]; unfold widx; if_split; lia).
  assert (used r' = used r - m) as Hu' by
    (unfold r', used, widx in *; simpl; repeat if_split; repeat if_split_in Hm; lia).
  exists r'. split; [|split; [done|split; [done|]]].
  - unfold GET_MIN. rewrite (wrap32_small (len r - out r)) by lia.
    unfold r', widx. destruct (Z.ltb_spec (len r - out r) m); unwrap; repeat if_split; try lia;
      (f_equal; first [lia | do 2 f_equal; lia]).
  - apply contents_eq; [done| |].
    { unfold zlen in *. rewrite length_drop. lia. }
    intros i Hi. unfold nthb at 2. rewrite nth_lookup_0, lookup_drop.
    replace (Z.to_nat m + Z.to_nat i)%nat with (Z.to_nat (m + i)) by lia.
    rewrite <- nth_lookup_0. fold (nthb (contents r) (m + i)).
    rewrite nthb_contents by (done || lia). simpl. f_equal.
    unfold used, widx in *. simpl in *.
    repeat if_split; repeat if_split_in Hi; repeat if_split_in Hm; lia.
Qed.

(** A read is a peek followed by a discard. *)
Lemma read_peek_discard h data n :
  tuya_ring_buff_read h (Some data) n =
    ((tuya_ring_buff_peek h (Some data) n).1, (tuya_ring_buff_peek h (Some data) n).2,
     (tuya_ring_buff_discard h n).2).
Proof.
  destruct h as [r|]; [|done].
  unfold tuya_ring_buff_read, tuya_ring_buff_peek, tuya_ring_buff_discard.
  rewrite (GET_MIN_comm n). repeat if_split; done.
Qed.

Lemma read_spec r pdata n :
  wf r -> 0 <= n < 2 ^ 32 -> GET_MIN (used r) n <= zlen pdata ->
  exists r', tuya_ring_buff_read (Some r) (Some pdata) n =
      (GET_MIN (used r) n, Some (splice 0 (slice 0 (GET_MIN (used r) n) (contents r)) pdata),
       Some r') /\ wf r' /\
    len r' = len r /\ contents r' = drop (Z.to_nat (GET_MIN (used r) n)) (contents r).
Proof.
  intros Hwf Hn Hp. rewrite read_peek_discard, peek_spec by done.
  destruct (discard_spec r n Hwf Hn) as (r' & -> & ?). eauto.
Qed.

Lemma reset_spec r :
  wf r -> exists r', tuya_ring_buff_reset (Some r) = (OPRT_OK, Some r') /\ wf r' /\
    len r' = len r /\ contents r' = [].
Proof.
  intros [Hlen Hin Hout Hbuf]. eexists. split; [done|].
  assert (wf (__ringbuff_init r (len r))) by (constructor; simpl; lia || done).
  split; [done|]. split; [done|].
  apply contents_eq; [done| |]; unfold used, widx; simpl.
  - rewrite zlen_nil. if_split; lia.
  - intros i. if_split; lia.
Qed.

(** ** Refinement: the ring is a bounded byte FIFO

    The abstract state is the list of unread bytes; at most [cap] of them. *)

Inductive op :=
  | Write (data : list Z)
  | Read (n : Z)
  | Peek (n : Z)
  | Discard (n : Z)
  | Reset
  | FreeSize
  | UsedSize.

(** What the caller sees of an operation: the returned number and the bytes copied out. *)
Definition obs : Type := Z * list Z.

Definition op_ok (o : op) : Prop :=
  match o with
  | Write d => zlen d < 2 ^ 32
  | Read n | Peek n | Discard n => 0 <= n < 2 ^ 32
  | _ => True
  end.

Module Fifo.
Definition step (cap : Z) (q : list Z) (o : op) : obs * list Z :=
  match o with
  | Write d =>
      let m := Z.min (cap - zlen q) (zlen d) in ((m, []), q ++ slice 0 m d)
  | Read n =>
      let m := Z.min (zlen q) n in ((m, slice 0 m q), drop (Z.to_nat m) q)
  | Peek n => let m := Z.min (zlen q) n in ((m, slice 0 m q), q)
  | Discard n => let m := Z.min (zlen q) n in ((m, []), drop (Z.to_nat m) q)
  | Reset => ((0, []), [])
  | FreeSize => ((cap - zlen q, []), q)
  | UsedSize => ((zlen q, []), q)
  end.

Fixpoint run (cap : Z) (q : list Z) (os : list op) : list obs * list Z :=
  match os with
  | [] => ([], q)
  | o :: os => let '(b, q) := step cap q o in
               let '(bs, q) := run cap q os in (b :: bs, q)
  end.
End Fifo.

(** One call on the ring: the destination buffer of a read or a peek holds [n] bytes. *)
Definition step (h : option ringbuff) (o : op) : obs * option ringbuff :=
  match o with
  | Write d => let '(n, h) := tuya_ring_buff_write h (Some d) (zlen d) in ((n, []), h)
  | Read n =>
      let '(m, d, h) := tuya_ring_buff_read h (Some (replicate (Z.to_nat n) 0)) n in
      ((m, slice 0 m (default [] d)), h)
  | Peek n =>
      let '(m, d) := tuya_ring_buff_peek h (Some (replicate (Z.to_nat n) 0)) n in
      ((m, slice 0 m (default [] d)), h)
  | Discard n => let '(m, h) := tuya_ring_buff_discard h n in ((m, []), h)
  | Reset => let '(_, h) := tuya_ring_buff_reset h in ((0, []), h)
  | FreeSize => ((tuya_ring_buff_free_size_get h, []), h)
  | UsedSize => ((tuya_ring_buff_used_size_get h, []), h)
  end.

Fixpoint run (h : option ringbuff) (os : list op) : list obs * option ringbuff :=
  match os with
  | [] => ([], h)
  | o :: os => let '(b, h) := step h o in let '(bs, h) := run h os in (b :: bs, h)
  end.

Lemma ring_step_refines r o :
  wf r -> op_ok o ->
  exists r', step (Some r) o = ((Fifo.step (len r - 1) (contents r) o).1, Some r') /\
    wf r' /\ len r' = len r /\ contents r' = (Fifo.step (len r - 1) (contents r) o).2.
Proof.
  intros Hwf Ho. pose proof (zlen_contents r Hwf) as Hc. pose proof (used_range r Hwf) as Hu.
  assert (forall a b, GET_MIN a b = Z.min a b) as Hmin.
  { intros. unfold GET_MIN. if_split; lia. }
  destruct o as [d|n|n|n| | |]; cbn [step Fifo.step op_ok fst snd] in *; rewrite ?Hc.
  - pose proof (zlen_nonneg d).
    destruct (write_spec r d (zlen d) Hwf ltac:(lia)) as (r' & E & ?); [rewrite Hmin; lia|].
    rewrite Hmin in *. rewrite E. eauto.
  - destruct (read_spec r (replicate (Z.to_nat n) 0) n Hwf Ho) as (r' & E & ?).
    { rewrite Hmin, zlen_replicate; lia. }
    rewrite Hmin in *. rewrite E. exists r'. split; [|tauto]. simpl. do 2 f_equal.
    set (m := Z.min (used r) n).
    assert (zlen (slice 0 m (contents r)) = m) as Hl by (rewrite zlen_slice; lia).
    rewrite <- Hl at 1. apply slice_splice_same; [lia|]. rewrite Hl, zlen_replicate; lia.
  - rewrite (peek_spec r (replicate (Z.to_nat n) 0) n Hwf Ho) by (rewrite Hmin, zlen_replicate; lia).
    rewrite Hmin. exists r. split; [|tauto]. simpl. do 2 f_equal.
    set (m := Z.min (used r) n).
    assert (zlen (slice 0 m (contents r)) = m) as Hl by (rewrite zlen_slice; lia).
    rewrite <- Hl at 1. apply slice_splice_same; [lia|]. rewrite Hl, zlen_replicate; lia.
  - destruct (discard_spec r n Hwf Ho) as (r' & E & ?). rewrite Hmin in *. rewrite E. eauto.
  - destruct (reset_spec r Hwf) as (r' & -> & ?). eauto.
  - rewrite <- free_size_get_spec by done. eauto.
  - rewrite <- used_size_get_spec by done. eauto.
Qed.

(** Every sequence of ring buffer calls returns what a byte FIFO of capacity [len - 1] returns. *)
Lemma run_refines r os :
  wf r -> Forall op_ok os ->
  exists r', run (Some r) os = ((Fifo.run (len r - 1) (contents r) os).1, Some r') /\
    wf r' /\ len r' = len r /\ contents r' = (Fifo.run (len r - 1) (contents r) os).2.
Proof.
  intros Hwf Hos. revert r Hwf. induction Hos as [|o os Ho Hos IH]; intros r Hwf; simpl.
  { eauto. }
  destruct (ring_step_refines r o Hwf Ho) as (r1 & E1 & Hwf1 & Hl1 & Hc1).
  rewrite E1. destruct (Fifo.step _ _ o) as [b q]; simpl in *.
  destruct (IH r1 Hwf1) as (r2 & E2 & Hwf2 & Hl2 & Hc2). rewrite Hl1, Hc1 in *.
  rewrite E2. destruct (Fifo.run _ q os) as [bs q']; simpl in *. eauto.
Qed.

(** ** From creation on *)

(** [tkl_system_malloc] when memory is there: a block of the size asked for. *)
Definition gives (malloc : Z -> option (list Z)) : Prop :=
  forall n, 0 <= n < 2 ^ 32 -> exists blk, malloc n = Some blk /\ zlen blk = n.

Lemma ring_create_ok malloc n :
  gives malloc -> 0 < n < 2 ^ 32 - RINGBUFF_SIZE ->
  exists r, tuya_ring_buff_create malloc n OVERFLOW_STOP_TYPE false = (OPRT_OK, Some r) /\
    wf r /\ len r = n /\ contents r = [].
Proof.
  intros G Hn. unfold RINGBUFF_SIZE in Hn. destruct (G (16 + n)) as (blk & Em & Hl); [lia|].
  unfold tuya_ring_buff_create, RINGBUFF_SIZE. destruct (Z.eqb_spec n 0); [lia|]. cbn [orb].
  rewrite wrap32_small by lia. rewrite Em. eexists. split; [done|].
  assert (zlen (drop (Z.to_nat 16) blk) = n) as Hd by (rewrite zlen_drop; lia).
  assert (wf (__ringbuff_init (mk_ringbuff OVERFLOW_STOP_TYPE 0 0 0 (drop (Z.to_nat 16) blk)) n)) as W.
  { constructor; cbn; lia. }
  split; [done|]. split; [done|]. pose proof (zlen_contents _ W) as Hz.
  assert (used (__ringbuff_init (mk_ringbuff OVERFLOW_STOP_TYPE 0 0 0 (drop (Z.to_nat 16) blk)) n) = 0) as Hu.
  { unfold used, widx. cbn [in_ out len __ringbuff_init]. if_split; lia. }
  rewrite Hu in Hz. destruct (contents _) as [|b l]; [done|]. rewrite zlen_cons in Hz. pose proof (zlen_nonneg l). lia.
Qed.

(** C35: a ring buffer created for [n] bytes answers every sequence of calls as a byte FIFO that
      holds at most [n - 1] bytes and starts empty. *)
Theorem ring_refines_fifo malloc n os :
  gives malloc -> 0 < n < 2 ^ 32 - RINGBUFF_SIZE -> Forall op_ok os ->
  exists r r', tuya_ring_buff_create malloc n OVERFLOW_STOP_TYPE false = (OPRT_OK, Some r) /\
    run (Some r) os = ((Fifo.run (n - 1) [] os).1, Some r') /\
    contents r' = (Fifo.run (n - 1) [] os).2 /\ zlen (contents r') <= n - 1.
Proof.
  intros G Hn Hos. destruct (ring_create_ok malloc n G Hn) as (r & E & W & Hl & Hc).
  destruct (run_refines r os W Hos) as (r' & Er & W' & Hl' & Hc').
  rewrite Hl in Er, Hl', Hc'. rewrite Hc in Er, Hc'.
  exists r, r'. do 3 (split; [done|]). rewrite (zlen_contents r' W'). pose proof (used_range r' W'). lia.
Qed.

Definition honest (n : Z) : option (list Z) := Some (replicate (Z.to_nat n) 0).

Lemma gives_honest : gives honest.
Proof. intros n Hn. eexists. split; [done|]. apply zlen_replicate; lia. Qed.

Definition ex_ops : list op := [Write [1; 2; 3]; Read 2; Write [4; 5; 6]; Peek 9; Discard 1; Read 9; UsedSize].

Lemma ring_refines_fifo_witness :
  Forall op_ok ex_ops /\
  (exists r r', tuya_ring_buff_create honest 5 OVERFLOW_STOP_TYPE false = (OPRT_OK, Some r) /\
    run (Some r) ex_ops = ((Fifo.run 4 [] ex_ops).1, Some r') /\
    contents r' = (Fifo.run 4 [] ex_ops).2 /\ zlen (contents r') <= 4) /\
  (Fifo.run 4 [] ex_ops).1 =
    [(3, []); (2, [1; 2]); (3, []); (4, [3; 4; 5; 6]); (1, []); (3, [4; 5; 6]); (0, [])].
Proof.
  assert (Forall op_ok ex_ops) as Hok by (unfold ex_ops; repeat constructor; cbn; lia).
  split; [exact Hok|]. split; [|reflexivity].
  apply (ring_refines_fifo honest 5 ex_ops gives_honest); [unfold RINGBUFF_SIZE; lia|exact Hok].
Defined.

(** The size of the block is computed modulo [2 ^ 32]: asked for 8 bytes less than that, the
      code succeeds with a block of 8 bytes, none of them left for the data, and records the full
      length. *)
Theorem ring_create_wraps :
  match tuya_ring_buff_create honest (2 ^ 32 - 8) OVERFLOW_STOP_TYPE false with
  | (OPRT_OK, Some r) => len r = 2 ^ 32 - 8 /\ buff r = []
  | _ => False
  end.
Proof. vm_compute. done. Qed.

End RingBuf.
