(* ===== verification/SList.v ===== *)
(** * Singly linked lists of headers

    Model of [src/gd32_os/MSDK/util/src/slist.c] (and the inline accessors of
    [slist.h]) on an explicit store of [next] fields, with the refinement of the
    pointer program by operations on the list of header addresses. The NVDS
    store and the flash driver keep their pages, namespaces and callbacks in
    such lists. *)
From S2P Require Import Prelude.
Open Scope Z_scope.

Module SList.

(** ** Data

    The store maps the address of a [struct list_hdr] to its [next] field; 0 is
    [NULL]. A dereference of an address that is not in the store is undefined
    behaviour, the result [None]. *)

Abbreviation NULL := 0.
Abbreviation heap := (gmap Z Z).

Record list_t := mk_list { first : Z; last : Z }.

Definition load (h : heap) (p : Z) : option Z := if p =? NULL then None else h !! p.
Definition store (h : heap) (p v : Z) : option heap :=
  if p =? NULL then None else match h !! p with Some _ => Some (<[p := v]> h) | None => None end.

(** A loop over a list visits each header at most once: one more turn than the
    store has headers is enough. *)
Definition fuel (h : heap) : nat := S (size h).

(** ** Operations *)

Definition list_init : list_t := mk_list NULL NULL.
Definition list_is_empty (l : list_t) : bool := first l =? NULL.
Definition list_pick (l : list_t) : Z := first l.
Definition list_pick_last (l : list_t) : Z := last l.
Definition list_next (h : heap) (e : Z) : option Z := load h e.

Definition list_push_back (h : heap) (l : list_t) (e : Z) : option (heap * list_t) :=
  '(h, f) ← (if list_is_empty l then Some (h, e)
             else h ← store h (last l) e; Some (h, first l));
  h ← store h e NULL;
  Some (h, mk_list f e).

Definition list_push_front (h : heap) (l : list_t) (e : Z) : option (heap * list_t) :=
  let la := if list_is_empty l then e else last l in
  h ← store h e (first l);
  Some (h, mk_list e la).

Definition list_pop_front (h : heap) (l : list_t) : option (Z * list_t) :=
  let element := first l in
  if negb (element =? NULL) then
    n ← load h (first l);
    Some (element, mk_list n (if last l =? element then NULL else last l))
  else Some (element, l).

Fixpoint list_pool_init_loop (h : heap) (l : list_t) (pool elmt_size : Z) (cnt : nat)
  : option (heap * list_t) :=
  match cnt with
  | O => Some (h, l)
  | S cnt =>
      '(h, l) ← list_push_back h l pool;
      list_pool_init_loop h l (pool + elmt_size) elmt_size cnt
  end.

(** The bytes of the elements after their headers are not in the store, so the copy of
    [default_value] leaves no trace: the header it overwrites is set by the push. *)
Definition list_pool_init (h : heap) (pool elmt_size elmt_cnt : Z) : option (heap * list_t) :=
  list_pool_init_loop h list_init pool elmt_size (Z.to_nat elmt_cnt).

Fixpoint extract_loop (n : nat) (h : heap) (hdr scan : Z) : option (Z * Z) :=
  match n with
  | O => None
  | S n =>
      nx ← load h scan;
      if negb (nx =? NULL) && negb (nx =? hdr) then extract_loop n h hdr nx
      else Some (scan, nx)
  end.

Definition list_extract (h : heap) (l : list_t) (hdr : Z) : option (heap * list_t) :=
  let scan_list := first l in
  if scan_list =? NULL then Some (h, l)
  else if scan_list =? hdr then
    n ← load h scan_list;
    Some (h, mk_list n (if last l =? scan_list then NULL else last l))
  else
    '(scan_list, nx) ← extract_loop (fuel h) h hdr scan_list;
    if negb (nx =? NULL) then
      let la := if last l =? hdr then scan_list else last l in
      hn ← load h hdr;
      h ← store h scan_list hn;
      Some (h, mk_list (first l) la)
    else Some (h, l).

Fixpoint find_loop (n : nat) (h : heap) (hdr tmp : Z) : option Z :=
  match n with
  | O => None
  | S n =>
      if negb (tmp =? hdr) && negb (tmp =? NULL) then
        nx ← load h tmp; find_loop n h hdr nx
      else Some tmp
  end.

Definition list_find (h : heap) (l : list_t) (hdr : Z) : option bool :=
  tmp ← find_loop (fuel h) h hdr (first l);
  Some (tmp =? hdr).

Fixpoint cnt_loop (n : nat) (h : heap) (elt cnt : Z) : option Z :=
  match n with
  | O => None
  | S n =>
      if negb (elt =? NULL) then
        nx ← list_next h elt; cnt_loop n h nx (u32 (cnt + 1))
      else Some cnt
  end.

Definition list_cnt (h : heap) (l : list_t) : option Z := cnt_loop (fuel h) h (list_pick l) 0.

(** The loop of [list_insert] ends with [prev], [scan] and the list's [last]. *)
Fixpoint insert_loop (n : nat) (h : heap) (cmp : Z -> Z -> bool) (element prev scan la : Z)
  : option (Z * Z * Z) :=
  match n with
  | O => None
  | S n =>
      if negb (scan =? NULL) then
        if cmp element scan then Some (prev, scan, la)
        else nx ← load h scan; insert_loop n h cmp element scan nx la
      else Some (prev, scan, element)
  end.

Definition list_insert (h : heap) (l : list_t) (element : Z) (cmp : Z -> Z -> bool)
  : option (heap * list_t) :=
  '(prev, scan, la) ← insert_loop (fuel h) h cmp element NULL (first l) (last l);
  h ← store h element scan;
  if negb (prev =? NULL) then
    h ← store h prev element; Some (h, mk_list (first l) la)
  else Some (h, mk_list element la).

Fixpoint search_loop (n : nat) (h : heap) (target scan : Z) : option Z :=
  match n with
  | O => None
  | S n =>
      if negb (scan =? NULL) then
        if scan =? target then Some scan else nx ← load h scan; search_loop n h target nx
      else Some scan
  end.

Definition list_insert_after_fast (h : heap) (l : list_t) (prev_element element : Z)
  : option (heap * list_t) :=
  if prev_element =? NULL then list_push_front h l element
  else
    pn ← load h prev_element;
    h ← store h element pn;
    h ← store h prev_element element;
    Some (h, mk_list (first l) (if last l =? prev_element then element else last l)).

Definition list_insert_after (h : heap) (l : list_t) (prev_element element : Z)
  : option (heap * list_t) :=
  if prev_element =? NULL then list_push_front h l element
  else
    scan ← search_loop (fuel h) h prev_element (first l);
    if negb (scan =? NULL) then
      pn ← load h prev_element;
      h ← store h element pn;
      h ← store h prev_element element;
      Some (h, mk_list (first l) (if last l =? prev_element then element else last l))
    else Some (h, l).

Fixpoint search_next_loop (n : nat) (h : heap) (target scan : Z) : option Z :=
  match n with
  | O => None
  | S n =>
      if negb (scan =? NULL) then
        nx ← load h scan;
        if nx =? target then Some scan else search_next_loop n h target nx
      else Some scan
  end.

Definition list_insert_before (h : heap) (l : list_t) (next_element element : Z)
  : option (heap * list_t) :=
  if next_element =? NULL then list_push_back h l element
  else if next_element =? first l then list_push_front h l element
  else
    scan ← search_next_loop (fuel h) h next_element (first l);
    if negb (scan =? NULL) then
      h ← store h element next_element;
      h ← store h scan element;
      Some (h, l)
    else Some (h, l).

Definition list_concat (h : heap) (l1 l2 : list_t) : option (heap * list_t * list_t) :=
  if negb (first l2 =? NULL) then
    '(h, l1) ← (if first l1 =? NULL then Some (h, l2)
                else h ← store h (last l1) (first l2); Some (h, mk_list (first l1) (last l2)));
    Some (h, l1, mk_list NULL (last l2))
  else Some (h, l1, l2).

Definition list_remove (h : heap) (l : list_t) (prev_element element : Z)
  : option (heap * list_t) :=
  en ← load h element;
  '(h, f) ← (if prev_element =? NULL then Some (h, en)
             else h ← store h prev_element en; Some (h, first l));
  let la := if last l =? element then prev_element else last l in
  h ← store h element NULL;
  Some (h, mk_list f la).

(** ** Representation of a sequence of headers *)

Fixpoint chain (h : heap) (p : Z) (xs : list Z) (q : Z) : Prop :=
  match xs with
  | [] => p = q
  | x :: xs => p = x /\ x <> NULL /\ exists n, h !! x = Some n /\ chain h n xs q
  end.

Record slist (h : heap) (l : list_t) (xs : list Z) : Prop := {
  sl_nodup : NoDup xs;
  sl_chain : chain h (first l) xs NULL;
  sl_last : forall ys y, xs = ys ++ [y] -> last l = y
}.

(** A header that is in the store and in no list. *)
Definition fresh (h : heap) (xs : list Z) (e : Z) : Prop :=
  e <> NULL /\ is_Some (h !! e) /\ e ∉ xs.

(** Only the [next] fields of [xs] may have changed. *)
Definition frame (xs : list Z) (h h' : heap) : Prop :=
  (forall a, a ∉ xs -> h' !! a = h !! a) /\ (forall a, is_Some (h !! a) -> is_Some (h' !! a)).

Lemma frame_refl xs h : frame xs h h.
Proof. split; auto. Qed.

Lemma frame_insert xs h a v : a ∈ xs -> frame xs h (<[a := v]> h).
Proof.
  intros Ha. split; intros b Hb.
  - rewrite lookup_insert_ne; [done|]. by intros ->.
  - destruct (decide (a = b)) as [->|]; [rewrite lookup_insert_eq | rewrite lookup_insert_ne]; eauto.
Qed.

Lemma lframe_trans xs h1 h2 h3 : frame xs h1 h2 -> frame xs h2 h3 -> frame xs h1 h3.
Proof. intros [A1 B1] [A2 B2]. split; auto. intros a Ha. by rewrite A2, A1. Qed.

Lemma chain_app h p xs ys q :
  chain h p (xs ++ ys) q <-> exists m, chain h p xs m /\ chain h m ys q.
Proof.
  revert p. induction xs as [|x xs IH]; intros p; cbn [app chain].
  - split; [intros; eauto | by intros (m & -> & ?)].
  - split.
    + intros (-> & Hx & n & Hn & Hc). apply IH in Hc as (m & ? & ?). eauto 10.
    + intros (m & (-> & Hx & n & Hn & Hc) & Hm). repeat split; auto.
      exists n. split; [done|]. apply IH. eauto.
Qed.

Lemma chain_ext h h' p xs q :
  (forall a, a ∈ xs -> h' !! a = h !! a) -> chain h p xs q -> chain h' p xs q.
Proof.
  revert p. induction xs as [|x xs IH]; intros p He; cbn [chain]; [done|].
  intros (-> & Hx & n & Hn & Hc). repeat split; [done|]. exists n.
  split; [rewrite He; [done|mem]|]. apply IH; mem.
Qed.

Lemma chain_insert h p xs q a v :
  a ∉ xs -> chain h p xs q -> chain (<[a := v]> h) p xs q.
Proof. intros Ha. apply chain_ext. intros b Hb. apply lookup_insert_ne. by intros ->. Qed.

Lemma chain_dom h p xs q x : chain h p xs q -> x ∈ xs -> x <> NULL /\ is_Some (h !! x).
Proof.
  revert p. induction xs as [|y xs IH]; intros p Hc Hx; [mem|].
  destruct Hc as (-> & Hy & n & Hn & Hc). apply elem_of_cons in Hx as [->|Hx]; eauto.
Qed.

Lemma chain_length h p xs q : NoDup xs -> chain h p xs q -> (length xs <= size h)%nat.
Proof.
  intros Hnd Hc. rewrite <- (size_list_to_set (C := gset Z)) by done.
  rewrite <- size_dom. apply subseteq_size. intros x Hx.
  apply elem_of_list_to_set, (chain_dom _ _ _ _ _ Hc) in Hx as [_ ?]. by apply elem_of_dom.
Qed.

(** The last link of a chain can be redirected. *)
Lemma chain_redirect h p xs x q q' :
  NoDup (xs ++ [x]) -> chain h p (xs ++ [x]) q -> chain (<[x := q']> h) p (xs ++ [x]) q'.
Proof.
  intros Hnd Hc. apply chain_app in Hc as (m & H1 & -> & Hx & n & Hn & _).
  apply NoDup_app in Hnd as (_ & Hni & _). apply chain_app. exists x. split.
  - apply chain_insert; [|done]. intros Hin. apply (Hni x Hin). mem.
  - cbn. repeat split; [done|]. eexists. split; [apply lookup_insert_eq|done].
Qed.

Lemma store_some h p v : p <> NULL -> is_Some (h !! p) -> store h p v = Some (<[p := v]> h).
Proof. intros Hp [w Hw]. unfold store. destruct (Z.eqb_spec p NULL); [done|]. by rewrite Hw. Qed.

Lemma load_some h p n : p <> NULL -> h !! p = Some n -> load h p = Some n.
Proof. intros Hp Hn. unfold load. by destruct (Z.eqb_spec p NULL). Qed.

Lemma chain_head h p x xs q : chain h p (x :: xs) q -> p = x /\ p <> NULL.
Proof. by intros (-> & ? & _). Qed.

Lemma slist_empty_first h l : slist h l [] <-> first l = NULL.
Proof.
  split; [by intros [_ ? _]|]. intros E. constructor; [constructor|done|].
  intros [|? ?] ? [=].
Qed.

Lemma slist_first h l xs : slist h l xs -> list_is_empty l = bool_decide (xs = []).
Proof.
  intros [_ Hc _]. unfold list_is_empty. destruct xs as [|x xs].
  - by rewrite Hc.
  - destruct Hc as (-> & Hx & _). by destruct (Z.eqb_spec x NULL).
Qed.

(** A chain followed by its last header, for the operations that work at the end. *)
Lemma slist_snoc h l xs x :
  slist h l (xs ++ [x]) -> last l = x /\ x <> NULL /\ is_Some (h !! x) /\ first l <> NULL.
Proof.
  intros [Hnd Hc Hl]. split; [eauto|]. split; [|split].
  - eapply chain_dom; [done|mem].
  - eapply chain_dom; [done|mem].
  - destruct xs; by apply chain_head in Hc as [_ ?].
Qed.

Lemma last_snoc (ys zs : list Z) y z : ys ++ [y] = zs ++ [z] -> y = z.
Proof. intros E. by apply app_inj_tail in E as [_ ?]. Qed.

Lemma snoc_dec (xs : list Z) : xs = [] \/ exists ys y, xs = ys ++ [y].
Proof. destruct xs as [|x ys _] using rev_ind; eauto. Qed.

Ltac store_step := rewrite store_some; [cbn [mbind option_bind]|try done|].

(** ** What each operation does to the sequence *)

Lemma push_back_spec h l xs e :
  slist h l xs -> fresh h xs e ->
  exists h' l', list_push_back h l e = Some (h', l') /\ slist h' l' (xs ++ [e]) /\
    frame (e :: xs) h h'.
Proof.
  intros Hs (He & Hd & Hni). unfold list_push_back. rewrite (slist_first _ _ _ Hs).
  destruct (snoc_dec xs) as [->|(ys & y & ->)].
  - rewrite bool_decide_eq_true_2 by done. cbn [mbind option_bind]. store_step; [|done].
    eexists _, _. split; [done|]. split; [|apply frame_insert; mem].
    constructor; [apply NoDup_singleton| |].
    + cbn. repeat split; [done|]. eexists. by rewrite lookup_insert_eq.
    + intros zs z E. by apply (last_snoc []) in E.
  - rewrite bool_decide_eq_false_2 by (destruct ys; done).
    destruct (slist_snoc _ _ _ _ Hs) as (-> & Hy & Hyd & _). destruct Hs as [Hnd Hc Hl].
    store_step; [|done]. store_step; [|destruct (decide (y = e)) as [->|];
      [rewrite lookup_insert_eq | rewrite lookup_insert_ne]; eauto].
    eexists _, _. split; [done|]. split.
    + constructor.
      * apply NoDup_app. split; [done|]. split; [mem|apply NoDup_singleton].
      * apply chain_app. exists e. split.
        { apply chain_insert; [done|]. eapply chain_redirect; done. }
        cbn. repeat split; [done|]. eexists. by rewrite lookup_insert_eq.
      * intros zs z E. by apply last_snoc in E.
    + eapply lframe_trans; apply frame_insert; mem.
Qed.

Lemma push_front_spec h l xs e :
  slist h l xs -> fresh h xs e ->
  exists h' l', list_push_front h l e = Some (h', l') /\ slist h' l' (e :: xs) /\
    frame (e :: xs) h h'.
Proof.
  intros Hs (He & Hd & Hni). unfold list_push_front. rewrite (slist_first _ _ _ Hs).
  store_step; [|done]. eexists _, _. split; [done|]. split; [|apply frame_insert; mem].
  destruct Hs as [Hnd Hc Hl]. constructor; cbn [first last].
  - by constructor.
  - cbn. repeat split; [done|]. eexists. rewrite lookup_insert_eq. split; [done|].
    by apply chain_insert.
  - intros [|z zs] y E; injection E as -> E.
    + rewrite bool_decide_eq_true_2; done.
    + rewrite bool_decide_eq_false_2 by (rewrite E; destruct zs; done). eauto.
Qed.

(** Removing the head keeps the rest. *)
Lemma slist_tail h l x xs :
  slist h l (x :: xs) ->
  exists n, load h x = Some n /\ first l = x /\ x <> NULL /\
    slist h (mk_list n (if last l =? x then NULL else last l)) xs.
Proof.
  intros [Hnd Hc Hl]. destruct Hc as (Ef & Hx & n & Hn & Hc). exists n.
  split; [by apply load_some|]. do 2 (split; [done|]).
  apply NoDup_cons in Hnd as [Hni Hnd]. constructor; [done..|].
  intros ys y ->. cbn [last]. rewrite (Hl (x :: ys) y) by done.
  destruct (Z.eqb_spec y x); [mem|done].
Qed.

Lemma pop_front_spec h l xs :
  slist h l xs ->
  exists l', list_pop_front h l = Some (match xs with [] => NULL | x :: _ => x end, l') /\
    slist h l' (tail xs).
Proof.
  intros Hs. unfold list_pop_front. destruct xs as [|x xs].
  - pose proof (proj1 (slist_empty_first h l) Hs) as E. rewrite E. cbn. eauto.
  - destruct (slist_tail _ _ _ _ Hs) as (n & En & -> & Hx & Hs').
    destruct (Z.eqb_spec x NULL); [done|]. cbn [negb]. rewrite En. cbn. eauto.
Qed.

Lemma extract_loop_spec h hdr xs : forall x p n,
  chain h p (x :: xs) NULL -> NoDup (x :: xs) -> x <> hdr -> (length xs < n)%nat ->
  match decide (hdr ∈ xs) with
  | left _ => exists l1 y l2, x :: xs = l1 ++ y :: hdr :: l2 /\ extract_loop n h hdr p = Some (y, hdr)
  | right _ => exists y, extract_loop n h hdr p = Some (y, NULL)
  end.
Proof.
  induction xs as [|z xs IH]; intros x p n Hc Hnd Hx Hn; destruct n as [|n]; cbn [length] in Hn; try lia;
    destruct Hc as (-> & Hx0 & m & Em & Hc); cbn [extract_loop];
    rewrite (load_some _ _ _ Hx0 Em); cbn [mbind option_bind].
  - cbn in Hc. subst m. destruct (decide (hdr ∈ [])); [mem|]. cbn. eauto.
  - pose proof (chain_head _ _ _ _ _ Hc) as [-> Hz].
    destruct (Z.eqb_spec z NULL); [done|]. cbn [negb andb].
    destruct (Z.eqb_spec z hdr) as [->|Hzh]; cbn [negb].
    + destruct (decide (hdr ∈ hdr :: xs)); [|mem]. exists [], x, xs. done.
    + apply NoDup_cons in Hnd as [_ Hnd].
      specialize (IH z z n Hc Hnd Hzh ltac:(lia)).
      destruct (decide (hdr ∈ xs)) as [Hi|Hi].
      * rewrite decide_True by (by right).
        destruct IH as (l1 & y & l2 & E & ->). exists (x :: l1), y, l2. by rewrite E.
      * rewrite decide_False by (rewrite elem_of_cons; intros [?|?]; congruence). exact IH.
Qed.

Definition without (e : Z) (xs : list Z) : list Z := filter (fun x => x <> e) xs.

Lemma without_notin e xs : e ∉ xs -> without e xs = xs.
Proof.
  unfold without. induction xs as [|x xs IH]; intros H; [done|].
  rewrite filter_cons_True by mem. rewrite IH; mem.
Qed.

Lemma without_split e l1 l2 : NoDup (l1 ++ e :: l2) -> without e (l1 ++ e :: l2) = l1 ++ l2.
Proof.
  intros H. apply NoDup_app in H as (_ & H1 & H2). apply NoDup_cons in H2 as [H2 _].
  unfold without. rewrite filter_app, filter_cons_False by congruence.
  fold (without e l1) (without e l2). rewrite !without_notin; [done|done|].
  intros Hi. apply (H1 e Hi). mem.
Qed.

(** The links around a header [y] in the middle of a list. *)
Lemma slist_mid h l l1 y l2 :
  slist h l (l1 ++ y :: l2) ->
  exists n, y <> NULL /\ h !! y = Some n /\ chain h n l2 NULL /\
    NoDup l1 /\ NoDup l2 /\ y ∉ l1 /\ y ∉ l2 /\ (forall a, a ∈ l1 -> a ∉ l2) /\
    forall n', chain (<[y := n']> h) (first l) (l1 ++ [y]) n'.
Proof.
  intros [Hnd Hc _]. pose proof Hc as Hc'. apply chain_app in Hc as (m & H1 & -> & Hy & n & Hn & H2).
  exists n. do 3 (split; [done|]).
  apply NoDup_app in Hnd as (Hd1 & Hd & Hd2). apply NoDup_cons in Hd2 as [Hy2 Hd2].
  assert (y ∉ l1) as Hy1 by (intros Hi; apply (Hd y Hi); by left).
  repeat split; try done.
  { intros a Ha Ha2. apply (Hd a Ha). by right. }
  intros n'. eapply (chain_redirect _ _ _ _ n).
  - apply NoDup_app. repeat split; [done| |apply NoDup_singleton].
    intros a Ha. rewrite list_elem_of_singleton. by intros ->.
  - apply chain_app. exists y. split; [done|]. cbn. eauto.
Qed.

(** Splice [zs] between [y] and what follows. *)
Lemma slist_relink h l l1 y l2 h' l' zs n' :
  slist h l (l1 ++ y :: l2) ->
  NoDup (l1 ++ y :: zs) -> first l' = first l ->
  (forall a, a ∈ l1 -> h' !! a = h !! a) -> h' !! y = Some n' -> chain h' n' zs NULL ->
  (zs = [] -> last l' = y) -> (forall ys x, zs = ys ++ [x] -> last l' = x) ->
  slist h' l' (l1 ++ y :: zs).
Proof.
  intros Hs Hnd Ef Hl1 Hy Hc Hz0 Hz. constructor.
  - done.
  - rewrite Ef. destruct Hs as [_ Hc0 _].
    apply chain_app in Hc0 as (m & H1 & -> & Hyn & _). apply chain_app. exists y.
    split; [by eapply chain_ext|]. cbn. eauto.
  - intros ys x E. destruct (snoc_dec zs) as [->|(zs' & z & ->)].
    + rewrite (Hz0 eq_refl). by eapply last_snoc.
    + rewrite (Hz zs' z eq_refl). rewrite app_comm_cons, app_assoc in E. by eapply last_snoc.
Qed.

Lemma extract_spec h l xs hdr :
  slist h l xs ->
  exists h' l', list_extract h l hdr = Some (h', l') /\ slist h' l' (without hdr xs) /\
    frame xs h h'.
Proof.
  intros Hs. unfold list_extract. destruct xs as [|x xs].
  { pose proof (proj1 (slist_empty_first h l) Hs) as E. rewrite E. cbn. eauto using frame_refl. }
  destruct (slist_tail _ _ _ _ Hs) as (n & En & Ef & Hx & Ht). rewrite Ef.
  destruct (Z.eqb_spec x NULL); [done|]. pose proof Hs as [Hnd Hc Hl].
  destruct (Z.eqb_spec x hdr) as [->|Hxh].
  - rewrite En. cbn [mbind option_bind]. eexists _, _. split; [done|].
    pose proof (without_split hdr [] xs Hnd) as E. cbn [app] in E. rewrite E.
    eauto using frame_refl.
  - assert (length xs < fuel h)%nat as Hf.
    { pose proof (chain_length _ _ _ _ Hnd Hc). cbn in *. unfold fuel. lia. }
    pose proof (extract_loop_spec h hdr xs x x (fuel h) ltac:(by rewrite Ef in Hc) Hnd Hxh Hf) as H.
    destruct (decide (hdr ∈ xs)) as [Hi|Hi].
    + destruct H as (l1 & y & l2 & E & ->). cbn [mbind option_bind]. rewrite E in *.
      replace (l1 ++ y :: hdr :: l2) with ((l1 ++ [y]) ++ hdr :: l2) in * by by rewrite <- app_assoc.
      destruct (slist_mid _ _ _ _ _ Hs) as (m & Hh0 & Hm & Hcm & Hd1 & Hd2 & Hn1 & Hn2 & Hd & _).
      destruct (Z.eqb_spec hdr NULL); [done|]. cbn [negb].
      rewrite (load_some _ _ _ Hh0 Hm). cbn [mbind option_bind].
      rewrite <- app_assoc in Hs.
      destruct (slist_mid _ _ _ _ _ Hs) as (k & Hy0 & Hk & _).
      rewrite store_some by eauto. cbn [mbind option_bind]. eexists _, _. split; [done|].
      rewrite without_split by done. split; [|apply frame_insert; mem].
      apply NoDup_app in Hd1 as (Hd1 & Hy1 & _).
      rewrite <- app_assoc. eapply slist_relink; [exact Hs|..]; cbn [first last].
      * apply NoDup_app in Hnd as (Hnd1 & Hnd2 & Hnd3). rewrite cons_middle, app_assoc. apply NoDup_app.
        split; [done|]. split; [|by apply NoDup_cons in Hnd3 as [_ ?]].
        intros a Ha Ha2. apply (Hnd2 a Ha). by right.
      * done.
      * intros a Ha. rewrite lookup_insert_ne; [done|]. intros <-. apply (Hy1 _ Ha). by left.
      * apply lookup_insert_eq.
      * apply chain_insert; [|done]. apply Hd. apply elem_of_app. right. by left.
      * intros ->. rewrite (Hl (l1 ++ [y]) hdr) by done. by rewrite Z.eqb_refl.
      * intros ys z ->. rewrite (Hl ((l1 ++ [y]) ++ hdr :: ys) z) by (by rewrite <- !app_assoc).
        destruct (Z.eqb_spec z hdr) as [->|]; [|done]. exfalso. apply Hn2.
        apply elem_of_app. right. by left.
    + destruct H as (y & ->). cbn [mbind option_bind]. rewrite Z.eqb_refl. cbn [negb].
      eexists _, _. split; [done|].
      rewrite without_notin by mem. eauto using frame_refl.
Qed.

Lemma find_loop_spec h hdr xs : forall p n,
  chain h p xs NULL -> (length xs < n)%nat ->
  find_loop n h hdr p = Some (if decide (hdr ∈ xs) then hdr else NULL).
Proof.
  induction xs as [|x xs IH]; intros p n Hc Hn; destruct n as [|n]; cbn [length] in Hn; try lia;
    cbn [find_loop].
  - cbn in Hc. subst p. rewrite decide_False by mem.
    rewrite Z.eqb_refl. by destruct (NULL =? hdr).
  - destruct Hc as (-> & Hx & m & Hm & Hc). destruct (Z.eqb_spec x hdr) as [->|Hxh]; cbn [negb andb].
    + rewrite decide_True by (by left). done.
    + destruct (Z.eqb_spec x NULL); [done|]. cbn [negb].
      rewrite (load_some _ _ _ Hx Hm). cbn [mbind option_bind]. rewrite (IH m n Hc) by lia.
      destruct (decide (hdr ∈ xs)) as [Hi|Hi].
      * by rewrite decide_True by (by right).
      * by rewrite decide_False by (rewrite elem_of_cons; intros [?|?]; congruence).
Qed.

Lemma slist_fuel h l xs : slist h l xs -> (length xs < fuel h)%nat.
Proof. intros [Hnd Hc _]. pose proof (chain_length _ _ _ _ Hnd Hc). unfold fuel. lia. Qed.

Lemma find_spec h l xs hdr :
  slist h l xs -> hdr <> NULL -> list_find h l hdr = Some (bool_decide (hdr ∈ xs)).
Proof.
  intros Hs Hh. unfold list_find.
  rewrite (find_loop_spec h hdr xs) by (apply Hs || by eapply slist_fuel). cbn. f_equal.
  destruct (decide (hdr ∈ xs)); case_bool_decide; try done; by destruct (Z.eqb_spec NULL hdr);
    rewrite ?Z.eqb_refl; congruence || idtac.
Qed.

Lemma cnt_loop_spec h xs : forall p n c,
  chain h p xs NULL -> (length xs < n)%nat -> cnt_loop n h p c = Some (match xs with [] => c | _ => u32 (c + zlen xs) end).
Proof.
  induction xs as [|x xs IH]; intros p n c Hc Hn; destruct n as [|n]; cbn [length] in Hn; try lia;
    cbn [cnt_loop].
  - cbn in Hc. by subst p.
  - destruct Hc as (-> & Hx & m & Hm & Hc). destruct (Z.eqb_spec x NULL); [done|]. cbn [negb].
    unfold list_next. rewrite (load_some _ _ _ Hx Hm). cbn [mbind option_bind].
    rewrite (IH m n _ Hc) by lia. rewrite zlen_cons. destruct xs.
    + done.
    + rewrite wrap_add_idemp_l by lia. do 2 f_equal. lia.
Qed.

Lemma cnt_spec h l xs : slist h l xs -> list_cnt h l = Some (u32 (zlen xs)).
Proof.
  intros Hs. unfold list_cnt, list_pick.
  rewrite (cnt_loop_spec h xs) by (apply Hs || by eapply slist_fuel). by destruct xs.
Qed.

(** A fresh header linked in after [y]. *)
Lemma insert_after_mid h l l1 y l2 e :
  slist h l (l1 ++ y :: l2) -> fresh h (l1 ++ y :: l2) e ->
  exists n, load h y = Some n /\ (n = NULL <-> l2 = []) /\ y <> NULL /\
    store h e n = Some (<[e := n]> h) /\
    store (<[e := n]> h) y e = Some (<[y := e]> (<[e := n]> h)) /\
    frame (e :: l1 ++ y :: l2) h (<[y := e]> (<[e := n]> h)) /\
    forall la, la = (if bool_decide (l2 = []) then e else last l) ->
      slist (<[y := e]> (<[e := n]> h)) (mk_list (first l) la) (l1 ++ y :: e :: l2).
Proof.
  intros Hs (He & Hed & Hni).
  destruct (slist_mid _ _ _ _ _ Hs) as (n & Hy & Hn & Hc & Hd1 & Hd2 & Hy1 & Hy2 & Hd & _).
  exists n. split; [by apply load_some|].
  rewrite elem_of_app, elem_of_cons in Hni.
  assert (e <> y /\ e ∉ l1 /\ e ∉ l2) as (Hey & He1 & He2) by tauto.
  split; [|split; [done|split; [by apply store_some|split]]].
  { destruct l2 as [|z l2]; [by rewrite Hc|]. apply chain_head in Hc as [-> ?]. done. }
  { apply store_some; [done|]. rewrite lookup_insert_ne; eauto. }
  split.
  { eapply lframe_trans; apply frame_insert; rewrite elem_of_cons, elem_of_app, elem_of_cons; auto. }
  intros la Ela. eapply slist_relink; [exact Hs|..]; cbn [first last].
  - apply NoDup_app. split; [done|]. split.
    + intros a Ha. rewrite !elem_of_cons. intros [->|[->|?]]; [done|done|by apply (Hd a)].
    + rewrite !NoDup_cons, elem_of_cons. repeat split; try done. by intros [?|?].
  - done.
  - intros a Ha. rewrite !lookup_insert_ne; [done|congruence..].
  - apply lookup_insert_eq.
  - cbn. repeat split; [done|]. exists n. rewrite lookup_insert_ne, lookup_insert_eq by done.
    split; [done|]. apply chain_insert; [done|]. by apply chain_insert.
  - done.
  - intros ys z E. rewrite Ela. destruct l2 as [|w l2].
    + rewrite bool_decide_eq_true_2 by done. by apply (last_snoc []) in E.
    + rewrite bool_decide_eq_false_2 by done. destruct (snoc_dec (w :: l2)) as [?|(t & u & E')]; [done|].
      rewrite E', app_comm_cons in E. apply last_snoc in E as <-.
      destruct Hs as [_ _ Hl]. apply (Hl (l1 ++ y :: t)). by rewrite E', <- app_assoc.
Qed.

Fixpoint ins (cmp : Z -> Z -> bool) (e : Z) (xs : list Z) : list Z :=
  match xs with
  | [] => [e]
  | x :: xs => if cmp e x then e :: x :: xs else x :: ins cmp e xs
  end.

Lemma insert_loop_spec h cmp e la xs : forall prev p n,
  chain h p xs NULL -> (length xs < n)%nat ->
  exists l1 l2, xs = l1 ++ l2 /\ ins cmp e xs = l1 ++ e :: l2 /\
    insert_loop n h cmp e prev p la =
      Some (List.last l1 prev, match l2 with [] => NULL | x :: _ => x end,
            if bool_decide (l2 = []) then e else la).
Proof.
  induction xs as [|x xs IH]; intros prev p n Hc Hn; destruct n as [|n]; cbn [length] in Hn; try lia;
    cbn [insert_loop ins].
  - cbn in Hc. subst p. exists [], []. done.
  - destruct Hc as (-> & Hx & m & Hm & Hc). destruct (Z.eqb_spec x NULL); [done|]. cbn [negb].
    destruct (cmp e x).
    + exists [], (x :: xs). done.
    + rewrite (load_some _ _ _ Hx Hm). cbn [mbind option_bind].
      destruct (IH x m n Hc ltac:(lia)) as (l1 & l2 & E & E' & ->).
      exists (x :: l1), l2. rewrite E', E. do 2 (split; [done|]).
      do 3 f_equal. clear. revert x prev. induction l1 as [|z l1 IH]; intros x prev; [done|].
      cbn [List.last] in *. destruct l1; [done|]. apply IH.
Qed.

Lemma insert_spec h l xs e cmp :
  slist h l xs -> fresh h xs e ->
  exists h' l', list_insert h l e cmp = Some (h', l') /\ slist h' l' (ins cmp e xs) /\
    frame (e :: xs) h h'.
Proof.
  intros Hs Hf. unfold list_insert.
  destruct (insert_loop_spec h cmp e (last l) xs NULL (first l) (fuel h))
    as (l1 & l2 & -> & -> & ->); [apply Hs|by eapply slist_fuel|]. cbn [mbind option_bind].
  destruct (snoc_dec l1) as [->|(t & y & ->)].
  - cbn [List.last app]. cbn [app] in Hs, Hf.
    destruct (push_front_spec h l l2 e Hs Hf) as (h' & l' & E & Hs' & Hfr).
    unfold list_push_front in E. destruct Hf as (He & Hed & Hni).
    rewrite store_some in * by done. cbn [mbind option_bind] in *. injection E as <- <-.
    rewrite (slist_first _ _ _ Hs) in Hs'.
    exists (<[e := first l]> h). eexists. split; [|split; [exact Hs'|exact Hfr]].
    rewrite Z.eqb_refl. cbn [negb]. destruct l2 as [|z l2].
    + by rewrite (proj1 (slist_empty_first _ _) Hs).
    + pose proof (sl_chain _ _ _ Hs) as Hc. apply chain_head in Hc as [-> _]. done.
  - rewrite <- app_assoc in *. cbn [app] in *.
    destruct (insert_after_mid _ _ _ _ _ _ Hs Hf) as (n & Hl & Hn & Hy & E1 & E2 & Hfr & Hs').
    rewrite List.last_last.
    assert (match l2 with [] => NULL | x :: _ => x end = n) as ->.
    { destruct (slist_mid _ _ _ _ _ Hs) as (n' & _ & Hn' & Hc & _).
      rewrite (load_some _ _ _ Hy Hn') in Hl. injection Hl as ->.
      destruct l2; [done|]. by apply chain_head in Hc as [-> _]. }
    rewrite E1. cbn [mbind option_bind]. destruct (Z.eqb_spec y NULL); [done|]. cbn [negb].
    rewrite E2. cbn [mbind option_bind]. eexists _, _. split; [done|].
    rewrite <- app_assoc. split; [by apply Hs' | done].
Qed.

Lemma search_loop_spec h t xs : forall p n,
  chain h p xs NULL -> (length xs < n)%nat ->
  search_loop n h t p = Some (if decide (t ∈ xs) then t else NULL).
Proof.
  induction xs as [|x xs IH]; intros p n Hc Hn; destruct n as [|n]; cbn [length] in Hn; try lia;
    cbn [search_loop].
  - cbn in Hc. subst p. by rewrite decide_False by mem.
  - destruct Hc as (-> & Hx & m & Hm & Hc). destruct (Z.eqb_spec x NULL); [done|]. cbn [negb].
    destruct (Z.eqb_spec x t) as [->|Hxt].
    + by rewrite decide_True by (by left).
    + rewrite (load_some _ _ _ Hx Hm). cbn [mbind option_bind]. rewrite (IH m n Hc) by lia.
      destruct (decide (t ∈ xs)) as [Hi|Hi].
      * by rewrite decide_True by (by right).
      * by rewrite decide_False by (rewrite elem_of_cons; intros [?|?]; congruence).
Qed.

(** [e] after the (first) [p], nowhere when [p] is absent. *)
Fixpoint ins_after (p e : Z) (xs : list Z) : list Z :=
  match xs with
  | [] => []
  | x :: xs => if x =? p then x :: e :: xs else x :: ins_after p e xs
  end.

Lemma ins_after_split p e l1 l2 : p ∉ l1 -> ins_after p e (l1 ++ p :: l2) = l1 ++ p :: e :: l2.
Proof.
  induction l1 as [|x l1 IH]; cbn [app ins_after]; intros Hp; [by rewrite Z.eqb_refl|].
  apply not_elem_of_cons in Hp as [Hp Hp']. destruct (Z.eqb_spec x p); [congruence|].
  by rewrite IH.
Qed.

Lemma ins_after_notin p e xs : p ∉ xs -> ins_after p e xs = xs.
Proof.
  induction xs as [|x xs IH]; cbn [ins_after]; intros Hp; [done|].
  apply not_elem_of_cons in Hp as [Hp Hp']. destruct (Z.eqb_spec x p); [congruence|]. by rewrite IH.
Qed.

Lemma insert_after_fast_spec h l xs p e :
  slist h l xs -> fresh h xs e -> p = NULL \/ p ∈ xs ->
  exists h' l', list_insert_after_fast h l p e = Some (h', l') /\
    slist h' l' (if p =? NULL then e :: xs else ins_after p e xs) /\ frame (e :: xs) h h'.
Proof.
  intros Hs Hf Hp. unfold list_insert_after_fast.
  destruct (Z.eqb_spec p NULL) as [->|Hp0]; [by apply push_front_spec|].
  destruct Hp as [?|Hp]; [done|]. apply list_elem_of_split in Hp as (l1 & l2 & ->).
  destruct (insert_after_mid _ _ _ _ _ _ Hs Hf) as (n & Hl & Hn & Hy & E1 & E2 & Hfr & Hs').
  rewrite Hl. cbn [mbind option_bind]. rewrite E1. cbn [mbind option_bind]. rewrite E2.
  cbn [mbind option_bind]. eexists _, _. split; [done|]. split; [|done].
  destruct (slist_mid _ _ _ _ _ Hs) as (_ & _ & _ & _ & _ & _ & Hn1 & Hn2 & _).
  rewrite ins_after_split by done. apply Hs'. destruct Hs as [_ _ Hlast].
  destruct (snoc_dec l2) as [->|(t & z & ->)].
  - rewrite bool_decide_eq_true_2 by done. by rewrite (Hlast l1 p), Z.eqb_refl.
  - rewrite bool_decide_eq_false_2 by (by destruct t). rewrite (Hlast (l1 ++ p :: t) z) by (by rewrite <- app_assoc).
    destruct (Z.eqb_spec z p) as [->|]; [|done]. exfalso. apply Hn2. apply elem_of_app. right. by left.
Qed.

Lemma insert_after_spec h l xs p e :
  slist h l xs -> fresh h xs e ->
  exists h' l', list_insert_after h l p e = Some (h', l') /\
    slist h' l' (if p =? NULL then e :: xs else ins_after p e xs) /\ frame (e :: xs) h h'.
Proof.
  intros Hs Hf. destruct (decide (p = NULL \/ p ∈ xs)) as [Hp|Hp].
  - destruct (insert_after_fast_spec h l xs p e Hs Hf Hp) as (h' & l' & E & H).
    exists h', l'. split; [|exact H]. rewrite <- E.
    unfold list_insert_after, list_insert_after_fast.
    destruct (Z.eqb_spec p NULL) as [|Hp0]; [done|]. destruct Hp as [?|Hp]; [done|].
    rewrite (search_loop_spec h p xs) by (apply Hs || by eapply slist_fuel).
    rewrite decide_True by done. cbn [mbind option_bind]. by destruct (Z.eqb_spec p NULL).
  - unfold list_insert_after. destruct (Z.eqb_spec p NULL); [tauto|].
    rewrite (search_loop_spec h p xs) by (apply Hs || by eapply slist_fuel).
    rewrite decide_False by tauto. cbn [mbind option_bind]. rewrite Z.eqb_refl. cbn [negb].
    eexists _, _. split; [done|]. rewrite ins_after_notin by tauto. auto using frame_refl.
Qed.

(** [e] before the (first) [nx], nowhere when [nx] is absent. *)
Fixpoint ins_before (nx e : Z) (xs : list Z) : list Z :=
  match xs with
  | [] => []
  | x :: xs => if x =? nx then e :: x :: xs else x :: ins_before nx e xs
  end.

Lemma ins_before_split nx e l1 l2 : nx ∉ l1 -> ins_before nx e (l1 ++ nx :: l2) = l1 ++ e :: nx :: l2.
Proof.
  induction l1 as [|x l1 IH]; cbn [app ins_before]; intros Hp; [by rewrite Z.eqb_refl|].
  apply not_elem_of_cons in Hp as [Hp Hp']. destruct (Z.eqb_spec x nx); [congruence|].
  by rewrite IH.
Qed.

Lemma ins_before_notin nx e xs : nx ∉ xs -> ins_before nx e xs = xs.
Proof.
  induction xs as [|x xs IH]; cbn [ins_before]; intros Hp; [done|].
  apply not_elem_of_cons in Hp as [Hp Hp']. destruct (Z.eqb_spec x nx); [congruence|]. by rewrite IH.
Qed.

Lemma search_next_loop_spec h t xs : forall p n,
  chain h p xs NULL -> (length xs < n)%nat -> t <> NULL ->
  (t ∉ tail xs -> search_next_loop n h t p = Some NULL) /\
  forall l1 y l2, xs = l1 ++ y :: t :: l2 -> NoDup xs -> search_next_loop n h t p = Some y.
Proof.
  induction xs as [|x xs IH]; intros p n Hc Hn Ht; destruct n as [|n]; cbn [length] in Hn; try lia;
    cbn [search_next_loop tail].
  - cbn in Hc. subst p. split; [done|]. by intros [|] ? ? [=].
  - destruct Hc as (-> & Hx & m & Hm & Hc). destruct (Z.eqb_spec x NULL); [done|]. cbn [negb].
    rewrite (load_some _ _ _ Hx Hm). cbn [mbind option_bind].
    destruct (IH m n Hc ltac:(lia) Ht) as [IH1 IH2]. split.
    + intros Hi. destruct (Z.eqb_spec m t) as [->|Hmt].
      * destruct xs as [|z xs]; cbn in Hc; [congruence|]. destruct Hc as (<- & _). exfalso.
        apply Hi. by left.
      * apply IH1. intros Hi'. apply Hi. destruct xs; [done|by right].
    + intros [|w l1] y l2 E Hnd; injection E as -> E; subst xs; apply NoDup_cons in Hnd as [Hw Hnd].
      * apply chain_head in Hc as [-> _]. by rewrite Z.eqb_refl.
      * destruct (Z.eqb_spec m t) as [->|Hmt]; [|by eapply IH2].
        exfalso. destruct l1 as [|v l1]; apply chain_head in Hc as [-> _];
          cbn [app] in Hnd; apply NoDup_cons in Hnd as [Hv _]; apply Hv.
        -- by left.
        -- apply elem_of_app. right. right. by left.
Qed.

Lemma insert_before_spec h l xs nx e :
  slist h l xs -> fresh h xs e ->
  exists h' l', list_insert_before h l nx e = Some (h', l') /\
    slist h' l' (if nx =? NULL then xs ++ [e] else ins_before nx e xs) /\ frame (e :: xs) h h'.
Proof.
  intros Hs Hf. unfold list_insert_before.
  destruct (Z.eqb_spec nx NULL) as [->|Hn0]; [by apply push_back_spec|].
  destruct (Z.eqb_spec nx (first l)) as [E|Hnf].
  { destruct xs as [|x xs]; [by rewrite (proj1 (slist_empty_first _ _) Hs) in E|].
    pose proof (chain_head _ _ _ _ _ (sl_chain _ _ _ Hs)) as [Ef _]. cbn [ins_before].
    assert (x = nx) as Exn by congruence. rewrite Exn, Z.eqb_refl, <- Exn. by apply push_front_spec. }
  destruct (search_next_loop_spec h nx xs (first l) (fuel h) (sl_chain _ _ _ Hs) (slist_fuel _ _ _ Hs) Hn0)
    as [Hno Hyes].
  destruct xs as [|x xs]; cbn [tail] in Hno.
  { rewrite Hno by (apply not_elem_of_nil). cbn. eauto using frame_refl. }
  pose proof (chain_head _ _ _ _ _ (sl_chain _ _ _ Hs)) as [Ef _].
  destruct (decide (nx ∈ xs)) as [Hi|Hi].
  - apply list_elem_of_split in Hi as (l1 & l2 & ->).
    destruct (snoc_dec (x :: l1)) as [?|(t & y & Et)]; [done|].
    assert (x :: l1 ++ nx :: l2 = t ++ y :: nx :: l2) as Exs.
    { change (x :: l1 ++ nx :: l2) with ((x :: l1) ++ nx :: l2). by rewrite Et, <- app_assoc. }
    rewrite Exs in *. rewrite (Hyes t y l2 eq_refl (sl_nodup _ _ _ Hs)). cbn [mbind option_bind].
    destruct (insert_after_mid _ _ _ _ _ _ Hs Hf) as (n & Hl & Hn & Hy & E1 & E2 & Hfr & Hs').
    destruct (slist_mid _ _ _ _ _ Hs) as (n' & _ & Hn' & Hc & Hnd & _ & Hyt & Hy2 & Hd & _).
    apply chain_head in Hc as [-> _].
    rewrite (load_some _ _ _ Hy Hn') in Hl. injection Hl as <-.
    destruct (Z.eqb_spec y NULL); [done|]. cbn [negb]. rewrite E1. cbn [mbind option_bind].
    rewrite E2. cbn [mbind option_bind]. eexists _, _. split; [done|]. split; [|done].
    replace (t ++ y :: nx :: l2) with ((t ++ [y]) ++ nx :: l2) by by rewrite <- app_assoc.
    rewrite ins_before_split, <- app_assoc.
    + destruct l; apply Hs'. by rewrite bool_decide_eq_false_2.
    + intros [Ht| ->%list_elem_of_singleton]%elem_of_app; [apply (Hd nx Ht)|apply Hy2]; by left.
  - rewrite Hno by done. cbn [mbind option_bind]. rewrite Z.eqb_refl. cbn [negb].
    rewrite ins_before_notin by (rewrite elem_of_cons; intros [?|?]; congruence).
    eexists _, _. split; [done|]. auto using frame_refl.
Qed.

Lemma concat_spec h l1 l2 xs ys :
  slist h l1 xs -> slist h l2 ys -> (forall a, a ∈ xs -> a ∉ ys) ->
  exists h' l1' l2', list_concat h l1 l2 = Some (h', l1', l2') /\
    slist h' l1' (xs ++ ys) /\ slist h' l2' [] /\ frame xs h h'.
Proof.
  intros H1 H2 Hd. unfold list_concat. destruct ys as [|y ys].
  { rewrite (proj1 (slist_empty_first _ _) H2), Z.eqb_refl, app_nil_r.
    eexists _, _, _. split; [done|]. auto using frame_refl. }
  pose proof (chain_head _ _ _ _ _ (sl_chain _ _ _ H2)) as [Ef Hy0].
  destruct (Z.eqb_spec (first l2) NULL); [done|]. cbn [negb].
  destruct (snoc_dec xs) as [->|(t & x & ->)].
  - rewrite (proj1 (slist_empty_first _ _) H1), Z.eqb_refl. cbn [mbind option_bind app].
    eexists _, _, _. split; [done|]. split; [done|]. split; [by apply slist_empty_first|apply frame_refl].
  - destruct (slist_snoc _ _ _ _ H1) as (-> & Hx & Hxd & Hf).
    destruct (Z.eqb_spec (first l1) NULL); [done|].
    rewrite store_some by done. cbn [mbind option_bind]. eexists _, _, _. split; [done|].
    split; [|split; [by apply slist_empty_first|apply frame_insert; mem]].
    pose proof H1 as [Hnd1 Hc1 Hl1]. pose proof H2 as [Hnd2 Hc2 Hl2].
    rewrite <- app_assoc. eapply slist_relink; [exact H1|..]; cbn [first last].
    + rewrite cons_middle, app_assoc. by apply NoDup_app.
    + done.
    + intros a Ha. rewrite lookup_insert_ne; [done|]. intros ->.
      apply NoDup_app in Hnd1 as (_ & Hn & _). apply (Hn a Ha). by left.
    + apply lookup_insert_eq.
    + apply chain_insert; [|done]. apply Hd. apply elem_of_app. right. by left.
    + done.
    + intros zs z E. by apply (Hl2 zs).
Qed.

(** ** Refinement: a linked list is a sequence

    The calls on one list, their effect on the store, and the sequence
    operation each of them implements; booleans and counts are returned as
    numbers. *)

Inductive op :=
  | PushBack (e : Z)
  | PushFront (e : Z)
  | PopFront
  | Extract (e : Z)
  | Find (e : Z)
  | Count
  | Insert (cmp : Z -> Z -> bool) (e : Z)
  | InsertAfter (p e : Z)
  | InsertBefore (n e : Z).

Definition step (h : heap) (l : list_t) (o : op) : option (heap * list_t * Z) :=
  match o with
  | PushBack e => '(h, l) ← list_push_back h l e; Some (h, l, 0)
  | PushFront e => '(h, l) ← list_push_front h l e; Some (h, l, 0)
  | PopFront => '(e, l) ← list_pop_front h l; Some (h, l, e)
  | Extract e => '(h, l) ← list_extract h l e; Some (h, l, 0)
  | Find e => b ← list_find h l e; Some (h, l, Z.b2z b)
  | Count => n ← list_cnt h l; Some (h, l, n)
  | Insert cmp e => '(h, l) ← list_insert h l e cmp; Some (h, l, 0)
  | InsertAfter p e => '(h, l) ← list_insert_after h l p e; Some (h, l, 0)
  | InsertBefore n e => '(h, l) ← list_insert_before h l n e; Some (h, l, 0)
  end.

Definition spec (xs : list Z) (o : op) : list Z * Z :=
  match o with
  | PushBack e => (xs ++ [e], 0)
  | PushFront e => (e :: xs, 0)
  | PopFront => (tail xs, match xs with [] => NULL | x :: _ => x end)
  | Extract e => (without e xs, 0)
  | Find e => (xs, Z.b2z (bool_decide (e ∈ xs)))
  | Count => (xs, u32 (zlen xs))
  | Insert cmp e => (ins cmp e xs, 0)
  | InsertAfter p e => (if p =? NULL then e :: xs else ins_after p e xs, 0)
  | InsertBefore n e => (if n =? NULL then xs ++ [e] else ins_before n e xs, 0)
  end.

(** A header is linked only while it is in no list. *)
Definition op_ok (dom : Z -> Prop) (xs : list Z) (o : op) : Prop :=
  match o with
  | PushBack e | PushFront e | Insert _ e | InsertAfter _ e | InsertBefore _ e =>
      e <> NULL /\ dom e /\ e ∉ xs
  | Find e => e <> NULL
  | _ => True
  end.

Fixpoint ops_ok (dom : Z -> Prop) (xs : list Z) (os : list op) : Prop :=
  match os with
  | [] => True
  | o :: os => op_ok dom xs o /\ ops_ok dom (spec xs o).1 os
  end.

Fixpoint run (h : heap) (l : list_t) (os : list op) : option (heap * list_t * list Z) :=
  match os with
  | [] => Some (h, l, [])
  | o :: os =>
      '(h, l, r) ← step h l o;
      '(h, l, rs) ← run h l os;
      Some (h, l, r :: rs)
  end.

Fixpoint spec_run (xs : list Z) (os : list op) : list Z * list Z :=
  match os with
  | [] => (xs, [])
  | o :: os => let '(xs, r) := spec xs o in let '(xs, rs) := spec_run xs os in (xs, r :: rs)
  end.

Lemma slist_step_refines h l xs o :
  slist h l xs -> op_ok (fun e => is_Some (h !! e)) xs o ->
  exists h' l', step h l o = Some (h', l', (spec xs o).2) /\ slist h' l' (spec xs o).1 /\
    forall a, is_Some (h !! a) -> is_Some (h' !! a).
Proof.
  intros Hs Ho. destruct o as [e|e| |e|e| |cmp e|p e|n e]; cbn [step spec op_ok fst snd] in *.
  - destruct (push_back_spec h l xs e Hs Ho) as (h' & l' & -> & ? & _ & ?). eauto.
  - destruct (push_front_spec h l xs e Hs Ho) as (h' & l' & -> & ? & _ & ?). eauto.
  - destruct (pop_front_spec h l xs Hs) as (l' & -> & ?). eauto.
  - destruct (extract_spec h l xs e Hs) as (h' & l' & -> & ? & _ & ?). eauto.
  - rewrite (find_spec h l xs e Hs Ho). eauto.
  - rewrite (cnt_spec h l xs Hs). eauto.
  - destruct (insert_spec h l xs e cmp Hs Ho) as (h' & l' & -> & ? & _ & ?). eauto.
  - destruct (insert_after_spec h l xs p e Hs Ho) as (h' & l' & -> & ? & _ & ?). eauto.
  - destruct (insert_before_spec h l xs n e Hs Ho) as (h' & l' & -> & ? & _ & ?). eauto.
Qed.

Lemma ops_ok_mono (d1 d2 : Z -> Prop) xs os :
  (forall a, d1 a -> d2 a) -> ops_ok d1 xs os -> ops_ok d2 xs os.
Proof.
  intros Hd. revert xs. induction os as [|o os IH]; intros xs; [done|]. cbn [ops_ok].
  intros [Ho Hos]. split; [|by apply IH]. destruct o; cbn [op_ok] in *; intuition.
Qed.

(** C36: any run of list calls on a well-formed list, each linking only headers that are in no
    list, dereferences only valid headers, terminates, and leaves and returns what the
    corresponding operations on sequences do. *)
Theorem slist_refines h l xs os :
  slist h l xs -> ops_ok (fun e => is_Some (h !! e)) xs os ->
  exists h' l', run h l os = Some (h', l', (spec_run xs os).2) /\ slist h' l' (spec_run xs os).1.
Proof.
  revert h l xs. induction os as [|o os IH]; intros h l xs Hs Ho; cbn [run spec_run].
  { eauto. }
  destruct Ho as [Ho Hos]. destruct (slist_step_refines h l xs o Hs Ho) as (h1 & l1 & -> & Hs1 & Hd).
  destruct (spec xs o) as [xs1 r]. cbn [fst snd mbind option_bind] in *.
  destruct (IH h1 l1 xs1 Hs1) as (h2 & l2 & -> & Hs2); [exact (ops_ok_mono _ _ _ _ Hd Hos)|].
  destruct (spec_run xs1 os) as [xs2 rs]. cbn [fst snd mbind option_bind] in *. eauto.
Qed.

Definition ex_ops : list op :=
  [PushBack 4; PushFront 8; Insert Z.ltb 6; InsertAfter 6 12; Count; Find 4; Extract 6; PopFront;
   InsertBefore 4 16; Count].

Lemma slist_refines_witness :
  let h : heap := list_to_map [(4, 0); (6, 0); (8, 0); (12, 0); (16, 0)] in
  ops_ok (fun e => is_Some (h !! e)) [] ex_ops /\
  (exists h' l', run h list_init ex_ops = Some (h', l', (spec_run [] ex_ops).2) /\
     slist h' l' (spec_run [] ex_ops).1) /\
  spec_run [] ex_ops = ([8; 16; 4], [0; 0; 0; 0; 4; 1; 0; 12; 0; 3]).
Proof.
  intros h. assert (ops_ok (fun e => is_Some (h !! e)) [] ex_ops) as Hok.
  { cbn [ops_ok op_ok ex_ops]. repeat split;
      first [done | discriminate | eexists; vm_compute; reflexivity
             | apply (bool_decide_unpack _); vm_compute; exact I]. }
  split; [exact Hok|]. split; [|vm_compute; reflexivity].
  apply (slist_refines h list_init [] ex_ops); [by apply slist_empty_first | exact Hok].
Defined.

End SList.
