(* ===== verification/Mem.v ===== *)
(** * A byte-addressed memory

    The store the components with raw pointers run on: a partial map from
    addresses to bytes. A load or a store outside the map has no value, so that
    a theorem that an operation yields a result also says that it makes no access
    outside the memory it was given. Words are 32 bits, little endian. *)
From S2P Require Import Prelude.
Open Scope Z_scope.

Abbreviation mem := (gmap Z Z).

Fixpoint loadn (m : mem) (a : Z) (n : nat) : option (list Z) :=
  match n with
  | O => Some []
  | S n => b ← m !! a; l ← loadn m (a + 1) n; Some (b :: l)
  end.

Fixpoint storen (m : mem) (a : Z) (l : list Z) : option mem :=
  match l with
  | [] => Some m
  | b :: l => match m !! a with Some _ => storen (<[a := b]> m) (a + 1) l | None => None end
  end.

Definition ld8 (m : mem) (a : Z) : option Z := m !! a.
Definition st8 (m : mem) (a v : Z) : option mem := storen m a [v].
Definition ld32 (m : mem) (a : Z) : option Z := le_dec <$> loadn m a 4.
Definition st32 (m : mem) (a v : Z) : option mem := storen m a (le_enc 4 v).

(** ** What the memory holds *)

(** The bytes from [a] are [l]. *)
Definition holds (m : mem) (a : Z) (l : list Z) : Prop :=
  forall i, 0 <= i < zlen l -> m !! (a + i) = Some (nthb l i).

Definition mapped (m : mem) (lo hi : Z) : Prop := forall i, lo <= i < hi -> is_Some (m !! i).

(** The same bytes from [lo] to [hi]. *)
Definition agree (m m' : mem) (lo hi : Z) : Prop := forall i, lo <= i < hi -> m' !! i = m !! i.

(** The same bytes everywhere but from [lo] to [hi]. *)
Definition only (m m' : mem) (lo hi : Z) : Prop :=
  forall i, ~ (lo <= i < hi) -> m' !! i = m !! i.

Definition word (m : mem) (a v : Z) : Prop := holds m a (le_enc 4 v).

Lemma nthb_cons_0 x l : nthb (x :: l) 0 = x.
Proof. done. Qed.
Lemma nthb_cons_S x l i : 0 <= i -> nthb (x :: l) (1 + i) = nthb l i.
Proof. intros. unfold nthb. replace (Z.to_nat (1 + i)) with (S (Z.to_nat i)) by lia. done. Qed.

Lemma holds_nil m a : holds m a [].
Proof. intros i Hi. unfold zlen in Hi. cbn in Hi. exfalso. lia. Qed.

Lemma holds_cons m a b l : holds m a (b :: l) <-> m !! a = Some b /\ holds m (a + 1) l.
Proof.
  split.
  - intros H. split.
    + specialize (H 0). rewrite Z.add_0_r in H. apply H. rewrite zlen_cons.
      pose proof (zlen_nonneg l). lia.
    + intros i Hi. specialize (H (1 + i)). rewrite nthb_cons_S, zlen_cons in H by lia.
      rewrite <- H by lia. f_equal. lia.
  - intros [H0 H] i Hi. rewrite zlen_cons in Hi. destruct (decide (i = 0)) as [->|].
    + by rewrite Z.add_0_r.
    + replace i with (1 + (i - 1)) by lia. rewrite nthb_cons_S by lia.
      rewrite <- H by lia. f_equal. lia.
Qed.

Lemma loadn_holds m a n l : length l = n -> holds m a l -> loadn m a n = Some l.
Proof.
  intros <-. revert a. induction l as [|b l IH]; intros a H; [done|].
  apply holds_cons in H as [H0 H]. simpl. rewrite H0. simpl. by rewrite IH.
Qed.

(** The memory after a store of [l] at [a]. *)
Fixpoint upd (m : mem) (a : Z) (l : list Z) : mem :=
  match l with [] => m | b :: l => upd (<[a := b]> m) (a + 1) l end.

Lemma upd_lookup_out m a l i : ~ (a <= i < a + zlen l) -> upd m a l !! i = m !! i.
Proof.
  revert m a. induction l as [|b l IH]; intros m a Hi; [done|]. simpl.
  rewrite zlen_cons in Hi. pose proof (zlen_nonneg l).
  rewrite IH by lia. by rewrite lookup_insert_ne by lia.
Qed.

Lemma upd_holds m a l : holds (upd m a l) a l.
Proof.
  revert m a. induction l as [|b l IH]; intros m a; [apply holds_nil|].
  apply holds_cons. split; [|apply IH]. simpl. rewrite upd_lookup_out by lia.
  by rewrite lookup_insert_eq.
Qed.

Lemma storen_upd m a l :
  mapped m a (a + zlen l) -> storen m a l = Some (upd m a l) /\ dom (upd m a l) = dom m.
Proof.
  revert m a. induction l as [|b l IH]; intros m a H; [done|].
  rewrite zlen_cons in H. pose proof (zlen_nonneg l) as Hl. simpl.
  destruct (H a) as [v0 Hv]; [lia|]. rewrite Hv.
  destruct (IH (<[a := b]> m) (a + 1)) as [-> ->].
  { intros i Hi. destruct (decide (i = a)) as [->|]; [by rewrite lookup_insert_eq; eauto|].
    rewrite lookup_insert_ne by done. apply H. lia. }
  split; [done|]. apply dom_insert_lookup_L. eauto.
Qed.

Lemma upd_only m a l : only m (upd m a l) a (a + zlen l).
Proof. intros i Hi. by apply upd_lookup_out. Qed.

Lemma upd_agree m a l lo hi : hi <= a \/ a + zlen l <= lo -> agree m (upd m a l) lo hi.
Proof. intros H i Hi. apply upd_lookup_out. lia. Qed.

Lemma upd_mapped m a l lo hi : mapped m a (a + zlen l) -> mapped m lo hi -> mapped (upd m a l) lo hi.
Proof.
  intros Ha H i Hi. apply elem_of_dom. destruct (storen_upd m a l Ha) as [_ ->].
  by apply elem_of_dom, H.
Qed.

Lemma ld32_word m a v : 0 <= v < 2 ^ 32 -> word m a v -> ld32 m a = Some v.
Proof.
  intros Hv H. unfold ld32. rewrite (loadn_holds _ _ 4 (le_enc 4 v)); [|done|done].
  cbn [fmap option_fmap option_map]. f_equal. rewrite le_dec_enc. apply Z.mod_small.
  change (8 * Z.of_nat 4) with 32. done.
Qed.

Lemma mapped_dom m m' lo hi : dom m' = dom m -> mapped m lo hi -> mapped m' lo hi.
Proof. intros Hd H i Hi. apply elem_of_dom. rewrite Hd. by apply elem_of_dom, H. Qed.

Lemma mapped_sub m lo hi lo' hi' : mapped m lo hi -> lo <= lo' -> hi' <= hi -> mapped m lo' hi'.
Proof. intros H ? ? i Hi. apply H. lia. Qed.

Lemma only_agree m m' lo hi lo' hi' : only m m' lo hi -> hi' <= lo \/ hi <= lo' -> agree m m' lo' hi'.
Proof. intros H ? i Hi. apply H. lia. Qed.

Lemma only_refl m lo hi : only m m lo hi.
Proof. by intros i _. Qed.

Lemma only_trans m1 m2 m3 lo hi lo1 hi1 lo2 hi2 :
  only m1 m2 lo1 hi1 -> only m2 m3 lo2 hi2 ->
  lo <= lo1 -> hi1 <= hi -> lo <= lo2 -> hi2 <= hi -> only m1 m3 lo hi.
Proof. intros H1 H2 ? ? ? ? i Hi. rewrite H2 by lia. apply H1. lia. Qed.

Lemma only_weaken m m' lo hi lo' hi' : only m m' lo' hi' -> lo <= lo' -> hi' <= hi -> only m m' lo hi.
Proof. intros H ? ? i Hi. apply H. lia. Qed.

Lemma agree_refl m lo hi : agree m m lo hi.
Proof. by intros i _. Qed.

Lemma agree_trans m1 m2 m3 lo hi : agree m1 m2 lo hi -> agree m2 m3 lo hi -> agree m1 m3 lo hi.
Proof. intros H1 H2 i Hi. rewrite H2 by done. by apply H1. Qed.

Lemma agree_sub m m' lo hi lo' hi' : agree m m' lo hi -> lo <= lo' -> hi' <= hi -> agree m m' lo' hi'.
Proof. intros H ? ? i Hi. apply H. lia. Qed.

Lemma holds_agree m m' a l : agree m m' a (a + zlen l) -> holds m a l -> holds m' a l.
Proof. intros Ha H i Hi. rewrite Ha by lia. by apply H. Qed.

Lemma word_upd m a v : word (upd m a (le_enc 4 v)) a v.
Proof. apply upd_holds. Qed.

Lemma lookup_upd1 m a v : upd m a [v] !! a = Some v.
Proof. simpl. by rewrite lookup_insert_eq. Qed.

Lemma word_agree m m' a v : agree m m' a (a + 4) -> word m a v -> word m' a v.
Proof. intros Ha. apply holds_agree. by rewrite zlen_le_enc. Qed.

(** Every access of a mapped range yields bytes. *)
Lemma loadn_mapped m a n : mapped m a (a + Z.of_nat n) -> is_Some (loadn m a n).
Proof.
  revert a. induction n as [|n IH]; intros a H; [by eexists|]. simpl.
  destruct (H a) as [b ->]; [lia|]. simpl.
  destruct (IH (a + 1)) as [l ->]; [intros i Hi; apply H; lia|]. by eexists.
Qed.

Lemma mapped_holds m a n : mapped m a (a + Z.of_nat n) -> exists l, length l = n /\ holds m a l.
Proof.
  revert a. induction n as [|n IH]; intros a H; [exists []; split; [done|apply holds_nil]|].
  destruct (H a) as [b Hb]; [lia|]. destruct (IH (a + 1)) as (l & Hl & Hh); [intros i Hi; apply H; lia|].
  exists (b :: l). split; [simpl; lia|]. by apply holds_cons.
Qed.

Lemma holds_app m a l k : holds m a (l ++ k) <-> holds m a l /\ holds m (a + zlen l) k.
Proof.
  revert a. induction l as [|b l IH]; intros a.
  - cbn [app]. unfold zlen. cbn. rewrite Z.add_0_r. split; [split; [apply holds_nil|done]|tauto].
  - cbn [app]. rewrite !holds_cons, IH, zlen_cons. rewrite Z.add_assoc. tauto.
Qed.

(** Two strings at the same place have the same prefixes. *)
Lemma holds_prefix m a l k n :
  holds m a l -> holds m a k -> 0 <= n <= zlen l -> n <= zlen k -> slice 0 n l = slice 0 n k.
Proof.
  intros Hl Hk ? ?. apply list_eq_nthb; rewrite !zlen_slice by lia; [done|].
  intros i Hi. rewrite !nthb_slice, !Z.add_0_l by lia.
  assert (Some (nthb l i) = Some (nthb k i)) as E by (by rewrite <- Hl, <- Hk by lia). congruence.
Qed.

Lemma holds_slice m a l off n :
  0 <= off -> 0 <= n -> off + n <= zlen l -> holds m a l -> holds m (a + off) (slice off n l).
Proof.
  intros ? ? ? H i Hi. rewrite zlen_slice in Hi by lia. rewrite nthb_slice by lia.
  rewrite <- H by lia. f_equal. lia.
Qed.

Lemma holds_splice m a l off d :
  0 <= off -> off + zlen d <= zlen l -> holds m a l -> holds (upd m (a + off) d) a (splice off d l).
Proof.
  intros ? ? H i Hi. rewrite zlen_splice in Hi by lia. rewrite nthb_splice by lia.
  destruct (Z.leb_spec off i), (Z.ltb_spec i (off + zlen d)); cbn [andb];
    try (rewrite upd_lookup_out by lia; by apply H).
  rewrite <- (upd_holds m (a + off) d) by lia. f_equal. lia.
Qed.

(** ** Stores of a word and of a byte *)

Definition wr32 (m : mem) (a v : Z) : mem := upd m a (le_enc 4 v).
Definition wr8 (m : mem) (a v : Z) : mem := upd m a [v].

Lemma st32_wr m a v : mapped m a (a + 4) -> st32 m a v = Some (wr32 m a v).
Proof. intros H. apply storen_upd. by rewrite zlen_le_enc. Qed.
Lemma st8_wr m a v : mapped m a (a + 1) -> st8 m a v = Some (wr8 m a v).
Proof. intros H. apply storen_upd. by rewrite zlen_singleton. Qed.

Lemma wr32_mapped m a v lo hi : mapped m a (a + 4) -> mapped m lo hi -> mapped (wr32 m a v) lo hi.
Proof. intros H. apply upd_mapped. by rewrite zlen_le_enc. Qed.
Lemma wr8_mapped m a v lo hi : mapped m a (a + 1) -> mapped m lo hi -> mapped (wr8 m a v) lo hi.
Proof. intros H. apply upd_mapped. by rewrite zlen_singleton. Qed.

Lemma wr32_only m a v : only m (wr32 m a v) a (a + 4).
Proof. intros i Hi. apply upd_lookup_out. rewrite zlen_le_enc. lia. Qed.
Lemma wr8_only m a v : only m (wr8 m a v) a (a + 1).
Proof. intros i Hi. apply upd_lookup_out. rewrite zlen_singleton. lia. Qed.

Lemma wr32_agree m a v lo hi : hi <= a \/ a + 4 <= lo -> agree m (wr32 m a v) lo hi.
Proof. apply only_agree, wr32_only. Qed.
Lemma wr8_agree m a v lo hi : hi <= a \/ a + 1 <= lo -> agree m (wr8 m a v) lo hi.
Proof. apply only_agree, wr8_only. Qed.

Lemma word_wr32 m a v : word (wr32 m a v) a v.
Proof. apply word_upd. Qed.
Lemma word_wr32_ne m a v b w : b + 4 <= a \/ a + 4 <= b -> word m b w -> word (wr32 m a v) b w.
Proof. intros H. apply word_agree, wr32_agree. lia. Qed.
Lemma word_wr8_ne m a v b w : b + 4 <= a \/ a + 1 <= b -> word m b w -> word (wr8 m a v) b w.
Proof. intros H. apply word_agree, wr8_agree. lia. Qed.

Lemma lookup_wr8 m a v : wr8 m a v !! a = Some v.
Proof. apply lookup_upd1. Qed.
Lemma lookup_wr8_ne m a v b : b <> a -> wr8 m a v !! b = m !! b.
Proof. intros. apply wr8_only. lia. Qed.
Lemma lookup_wr32_ne m a v b : b < a \/ a + 4 <= b -> wr32 m a v !! b = m !! b.
Proof. intros. apply wr32_only. lia. Qed.

Lemma wr32_dom m a v : mapped m a (a + 4) -> dom (wr32 m a v) = dom m.
Proof. intros H. apply storen_upd. by rewrite zlen_le_enc. Qed.
Lemma wr8_dom m a v : mapped m a (a + 1) -> dom (wr8 m a v) = dom m.
Proof. intros H. apply storen_upd. by rewrite zlen_singleton. Qed.

Lemma only_wr32 m0 m a v lo hi : only m0 m lo hi -> lo <= a -> a + 4 <= hi -> only m0 (wr32 m a v) lo hi.
Proof. intros H ? ?. apply (only_trans _ _ _ _ _ _ _ _ _ H (wr32_only m a v)); lia. Qed.
Lemma only_wr8 m0 m a v lo hi : only m0 m lo hi -> lo <= a -> a + 1 <= hi -> only m0 (wr8 m a v) lo hi.
Proof. intros H ? ?. apply (only_trans _ _ _ _ _ _ _ _ _ H (wr8_only m a v)); lia. Qed.

(** Facts on nested stores: what they hold, what they keep, where they differ. *)
Ltac stores :=
  repeat first
    [ assumption
    | apply word_wr32
    | apply lookup_wr8
    | apply word_wr32_ne; [lia|]
    | apply word_wr8_ne; [lia|]
    | rewrite lookup_wr8_ne by lia
    | rewrite lookup_wr32_ne by lia
    | apply only_wr32; [|lia|lia]
    | apply only_wr8; [|lia|lia]
    | apply only_refl
    | apply wr32_mapped
    | apply wr8_mapped
    | match goal with H : mapped ?m _ _ |- mapped ?m _ _ => apply (mapped_sub _ _ _ _ _ H); lia end ].
