(* ===== verification/MemHeap.v ===== *)
(** * The memory heap

    Model of [src/tuyaos/tuyaos_adapter/include/utilities/src/tuya_mem_heap.c]: an
    allocator over byte ranges, with a size word at the head of each block, a state
    byte at its end, and the free blocks linked in address order. The target has
    32-bit [unsigned long] and pointers. The callbacks of the context (the critical
    section and the debug output) leave no trace in the state; calling them before
    [tuya_mem_heap_init] is undefined. *)
From S2P Require Import Prelude Mem.
Open Scope Z_scope.
Open Scope fw_scope.

Module MemHeap.

(** ** State *)

Definition MEM_BLOCK_MIN_SIZE : Z := 24.
Definition MEM_ALIGN_NUM : Z := 4.
Definition FIT_FIND_DEPTH : Z := 3.
Definition MEM_HEAP_LIST_NUM : nat := 4.

Definition ALIGN_UP (x : Z) : Z := Z.land (u32 (x + (MEM_ALIGN_NUM - 1))) (Z.lnot (MEM_ALIGN_NUM - 1)).
Definition ALIGN_DOWN (x : Z) : Z := Z.land (u32 x) (Z.lnot (MEM_ALIGN_NUM - 1)).

(** [sizeof(MEM_HeapBlock_t) - sizeof(unsigned long)]. *)
Definition MEM_BLOCK_HEAD_SIZE : Z := 8 - 4.
Definition MEM_HEAP_MIN_SIZE : Z := MEM_BLOCK_MIN_SIZE + MEM_BLOCK_HEAD_SIZE.
Definition MEM_BLOCK_STAT_USE : Z := 0x55.
Definition MEM_BLOCK_STAT_FREE : Z := 0xaa.
Definition MEM_DBG_LEAK_MAGIC : Z := 0x13572468.
(** [sizeof(MEM_DbgLeak_t)]: four words. *)
Definition LEAK_SIZE : Z := 16.

Record MEM_Heap_t := mk_heap {
  free_list : Z;
  base : Z;
  size : Z;
  free : Z;
  free_watermark : Z
}.

Definition zero_heap : MEM_Heap_t := mk_heap 0 0 0 0 0.

(** The memory and the static variables. [s_heap_ctx] tells whether the callbacks are set. *)
Record st := mk_st {
  memory : mem;
  mem_heap_list : list MEM_Heap_t;
  s_heap_free_size : Z;
  s_heap_free_size_watermark : Z;
  s_heap_ctx : bool
}.

(** A bad access or call, or a walk over a list that does not end. *)
Inductive stop := UB | LOOPS.

Definition K (A : Type) : Type := M st stop A.

Definition lift {A} (o : option A) : K A := match o with Some a => ret a | None => err UB end.

Definition set_memory (m : mem) (s : st) : st :=
  mk_st m (mem_heap_list s) (s_heap_free_size s) (s_heap_free_size_watermark s) (s_heap_ctx s).
Definition set_heaps (l : list MEM_Heap_t) (s : st) : st :=
  mk_st (memory s) l (s_heap_free_size s) (s_heap_free_size_watermark s) (s_heap_ctx s).
Definition set_total (fr wm : Z) (s : st) : st :=
  mk_st (memory s) (mem_heap_list s) fr wm (s_heap_ctx s).

Definition load32 (a : Z) : K Z := let! s := get in lift (ld32 (memory s) a).
Definition load8 (a : Z) : K Z := let! s := get in lift (ld8 (memory s) a).
Definition store32 (a v : Z) : K unit :=
  let! s := get in let! m := lift (st32 (memory s) a v) in put (set_memory m s).
Definition store8 (a v : Z) : K unit :=
  let! s := get in let! m := lift (st8 (memory s) a v) in put (set_memory m s).
Definition copy (dst src : Z) (n : nat) : K unit :=
  let! s := get in
  let! l := lift (loadn (memory s) src n) in
  let! m := lift (storen (memory s) dst l) in put (set_memory m s).
Definition fill (dst v : Z) (n : nat) : K unit :=
  let! s := get in let! m := lift (storen (memory s) dst (replicate n v)) in put (set_memory m s).

(** A handle is [NULL] or the address of an element of [mem_heap_list]. *)
Definition HEAP_HANDLE : Type := option nat.
Definition heap_get (i : nat) : K MEM_Heap_t := let! s := get in lift (mem_heap_list s !! i).
Definition heap_put (i : nat) (h : MEM_Heap_t) : K unit :=
  modify (fun s => set_heaps (<[i := h]> (mem_heap_list s)) s).

(** A call through [s_heap_ctx]. *)
Definition ctx_call : K unit := let! s := get in if s_heap_ctx s then ret tt else err UB.

(** The fields of a block. *)
Definition size_of (block : Z) : K Z := load32 block.
Definition next_of (block : Z) : K Z := load32 (u32 (block + 4)).
Definition set_size (block v : Z) : K unit := store32 block v.
Definition set_next (block v : Z) : K unit := store32 (u32 (block + 4)) v.
Definition MEM_DOG_ADDR (block : Z) : K Z := let! size := size_of block in ret (u32 (block + size - 1)).
Definition set_dog (block v : Z) : K unit := let! a := MEM_DOG_ADDR block in store8 a v.
Definition get_dog (block : Z) : K Z := let! a := MEM_DOG_ADDR block in load8 a.

(** ** Heaps *)

Definition mem_heap_init (i : nat) (ptr size : Z) : K bool :=
  let! h := heap_get i in
  heap_put i (mk_heap (free_list h) ptr size (free h) (free_watermark h)) ;;;
  let aptr := ALIGN_UP ptr in
  let asize := ALIGN_DOWN (u32 (size - u32 (aptr - ptr))) in
  if asize <? MEM_HEAP_MIN_SIZE then ret false
  else
    set_next aptr 0 ;;;
    set_size aptr asize ;;;
    heap_put i (mk_heap aptr ptr size asize asize) ;;;
    modify (fun s => let fr := u32 (s_heap_free_size s + asize) in set_total fr fr s) ;;;
    set_dog aptr MEM_BLOCK_STAT_FREE ;;;
    ret true.

(** The inner loop of [mem_chunk_get]: among the next blocks of the free list, look for a
    better fit, at most [FIT_FIND_DEPTH] times. *)
Fixpoint fit_loop (n : nat) (size this_block pre_block pre_bak this_bak find_num : Z) : K (Z * Z) :=
  match n with
  | O => err LOOPS
  | S n =>
      if this_bak =? 0 then ret (this_block, pre_block)
      else
        let! bsize := size_of this_bak in
        let! better := (if size <=? bsize then let! tsize := size_of this_block in ret (bsize <=? tsize)
                        else ret false) in
        let this_block := if better then this_bak else this_block in
        let pre_block := if better then pre_bak else pre_block in
        let find_num := if better then find_num + 1 else find_num in
        if FIT_FIND_DEPTH <=? find_num then ret (this_block, pre_block)
        else let! next := next_of this_bak in fit_loop n size this_block pre_block this_bak next find_num
  end.

(** Take [size] bytes from [this_block], at its end, or the whole of it. *)
Definition take_chunk (i : nat) (size this_block pre_block : Z) : K Z :=
  let! tsize := size_of this_block in
  if MEM_HEAP_MIN_SIZE <=? u32 (tsize - size) then
    set_size this_block (u32 (tsize - size)) ;;;
    set_dog this_block MEM_BLOCK_STAT_FREE ;;;
    let! rest := size_of this_block in
    let new_block := u32 (this_block + rest) in
    set_size new_block size ;;;
    set_dog new_block MEM_BLOCK_STAT_USE ;;;
    ret new_block
  else
    let! next := next_of this_block in
    (if negb (pre_block =? 0) then set_next pre_block next
     else let! h := heap_get i in
          heap_put i (mk_heap next (base h) (MemHeap.size h) (free h) (free_watermark h))) ;;;
    set_dog this_block MEM_BLOCK_STAT_USE ;;;
    ret this_block.

Fixpoint chunk_loop (n : nat) (i : nat) (size pre_block this_block : Z) : K Z :=
  match n with
  | O => err LOOPS
  | S n =>
      if this_block =? 0 then ret 0
      else
        let! tsize := size_of this_block in
        if size <=? tsize then
          let! next := next_of this_block in
          let! (this_block, pre_block) := fit_loop (S n) size this_block pre_block this_block next 0 in
          take_chunk i size this_block pre_block
        else
          let! next := next_of this_block in
          chunk_loop n i size this_block next
  end.

(** A free list has at most as many blocks as the heap has bytes. *)
Definition walk_fuel (h : MEM_Heap_t) : nat := S (Z.to_nat (size h)).

Definition mem_chunk_get (i : nat) (size : Z) : K Z :=
  let! h := heap_get i in chunk_loop (walk_fuel h) i size 0 (free_list h).

Definition MEM_HeapCreate (ptr size : Z) : K HEAP_HANDLE :=
  if (ptr =? 0) || (size =? 0) then ctx_call ;;; ret None
  else
    ctx_call ;;;
    let! s := get in
    match list_find (fun h => MemHeap.size h = 0) (mem_heap_list s) with
    | None => ret None
    | Some (i, _) =>
        let! ok := mem_heap_init i ptr size in
        if ok : bool then ret (Some i)
        else
          let! h := heap_get i in
          heap_put i (mk_heap (free_list h) (base h) 0 (free h) (free_watermark h)) ;;;
          ret None
    end.

(** A handle that is no element of [mem_heap_list] is left alone. *)
Definition MEM_HeapDelete (handle : HEAP_HANDLE) : K unit :=
  match handle with
  | None => ctx_call
  | Some i =>
      ctx_call ;;;
      let! s := get in
      if bool_decide (i < length (mem_heap_list s))%nat then heap_put i zero_heap else ret tt
  end.

(** ** Allocation *)

(** [NULL] is 0. *)
Definition MEM_Allocate (handle : HEAP_HANDLE) (size : Z) : K Z :=
  match handle with
  | None => ret 0
  | Some i =>
      if size =? 0 then ret 0
      else
        let size := if size <? 4 then 4 else size in
        let new_size := u32 (ALIGN_UP (u32 (size + 1)) + MEM_BLOCK_HEAD_SIZE) in
        if new_size <? size then ret 0
        else
          ctx_call ;;;
          let! block := mem_chunk_get i new_size in
          if negb (block =? 0) then
            let! bsize := size_of block in
            let! h := heap_get i in
            let fr := u32 (free h - bsize) in
            heap_put i (mk_heap (free_list h) (base h) (MemHeap.size h) fr
                          (if fr <? free_watermark h then fr else free_watermark h)) ;;;
            modify (fun s =>
              let fr := u32 (s_heap_free_size s - bsize) in
              set_total fr (if fr <? s_heap_free_size_watermark s then fr
                            else s_heap_free_size_watermark s) s) ;;;
            ret (u32 (block + MEM_BLOCK_HEAD_SIZE))
          else ret 0
  end.

(** [MEM_LEAK_DBG_ADDR]. *)
Definition leak_addr (block : Z) : K Z :=
  let! size := size_of block in ret (u32 (block + size - LEAK_SIZE - MEM_ALIGN_NUM)).

Definition MEM_AllocateDebug (handle : HEAP_HANDLE) (size filename line : Z) : K Z :=
  let new_size := ALIGN_UP size in
  let! p := MEM_Allocate handle (u32 (new_size + LEAK_SIZE)) in
  if negb (p =? 0) then
    let! leak := leak_addr (u32 (p - MEM_BLOCK_HEAD_SIZE)) in
    store32 leak filename ;;;
    store32 (u32 (leak + 4)) line ;;;
    store32 (u32 (leak + 8)) size ;;;
    store32 (u32 (leak + 12)) MEM_DBG_LEAK_MAGIC ;;;
    ret p
  else ret p.

(** The walk of [MEM_Deallocate] to the place of [free_block]: the blocks before and after it. *)
Fixpoint place_loop (n : nat) (free_block pre_block next_block : Z) : K (Z * Z) :=
  match n with
  | O => err LOOPS
  | S n =>
      if negb (next_block =? 0) && (next_block <? free_block) then
        let! next := next_of next_block in place_loop n free_block next_block next
      else ret (pre_block, next_block)
  end.

Definition MEM_Deallocate (handle : HEAP_HANDLE) (ptr : Z) : K unit :=
  match handle with
  | None => ret tt
  | Some i =>
      if ptr =? 0 then ret tt
      else
        let free_block := u32 (ptr - MEM_BLOCK_HEAD_SIZE) in
        let! pdog := MEM_DOG_ADDR free_block in
        let! dog := load8 pdog in
        if negb (dog =? MEM_BLOCK_STAT_USE) then
          ctx_call ;;; (if dog =? MEM_BLOCK_STAT_FREE then ctx_call else ret tt)
        else
          ctx_call ;;;
          store8 pdog MEM_BLOCK_STAT_FREE ;;;
          let! fsize := size_of free_block in
          let! h := heap_get i in
          heap_put i (mk_heap (free_list h) (base h) (MemHeap.size h) (u32 (free h + fsize))
                        (free_watermark h)) ;;;
          modify (fun s => set_total (u32 (s_heap_free_size s + fsize))
                             (s_heap_free_size_watermark s) s) ;;;
          let! (pre_block, next_block) := place_loop (walk_fuel h) free_block 0 (free_list h) in
          set_next free_block next_block ;;;
          let! pre_block :=
            (if pre_block =? 0 then
               let! h := heap_get i in
               heap_put i (mk_heap free_block (base h) (MemHeap.size h) (free h) (free_watermark h)) ;;;
               ret free_block
             else
               let! psize := size_of pre_block in
               if u32 (pre_block + psize) =? free_block then
                 set_size pre_block (u32 (psize + fsize)) ;;; ret pre_block
               else set_next pre_block free_block ;;; ret free_block) in
          if negb (next_block =? 0) then
            let! psize := size_of pre_block in
            if u32 (pre_block + psize) =? next_block then
              let! nsize := size_of next_block in
              set_size pre_block (u32 (psize + nsize)) ;;;
              let! nn := next_of next_block in
              set_next pre_block nn
            else ret tt
          else ret tt
  end.

(** ** Status *)

Record MEM_HeapStatus_t := mk_status {
  st_size : Z;
  st_free : Z;
  st_free_largest : Z;
  st_valid : Z;
  st_used_block : Z;
  st_free_block : Z
}.

(** The walk over the blocks; the result is the status, [valid] set if the walk ends at the
    top with no free block left. *)
Fixpoint status_loop (n : nat) (top addr free_block : Z) (t : MEM_HeapStatus_t) : K MEM_HeapStatus_t :=
  match n with
  | O => err LOOPS
  | S n =>
      if addr <? top then
        let! dog := get_dog addr in
        if dog =? MEM_BLOCK_STAT_USE then
          if addr =? free_block then ctx_call ;;; ctx_call ;;; ret t
          else
            let! leak := leak_addr addr in
            let! magic := load32 (u32 (leak + 12)) in
            (if magic =? MEM_DBG_LEAK_MAGIC then
               ctx_call ;;;
               let! _ := load32 leak in
               let! _ := load32 (u32 (leak + 4)) in
               let! _ := load32 (u32 (leak + 8)) in
               ctx_call
             else ret tt) ;;;
            let! bsize := size_of addr in
            status_loop n top (u32 (addr + bsize)) free_block
              (mk_status (st_size t) (st_free t) (st_free_largest t) (st_valid t)
                 (u32 (st_used_block t + 1)) (st_free_block t))
        else if dog =? MEM_BLOCK_STAT_FREE then
          if negb (addr =? free_block) then ctx_call ;;; ctx_call ;;; ret t
          else
            let! bsize := size_of addr in
            let this_size := u32 (bsize - MEM_BLOCK_HEAD_SIZE - 1) in
            let! next := next_of free_block in
            status_loop n top (u32 (addr + bsize)) next
              (mk_status (st_size t) (u32 (st_free t + this_size))
                 (if st_free_largest t <? this_size then this_size else st_free_largest t)
                 (st_valid t) (st_used_block t) (u32 (st_free_block t + 1)))
        else ctx_call ;;; ctx_call ;;; ret t
      else
        ctx_call ;;;
        ret (if (addr =? top) && (free_block =? 0)
             then mk_status (st_size t) (st_free t) (st_free_largest t) 1 (st_used_block t) (st_free_block t)
             else t)
  end.

Definition MEM_HeapStatus (i : nat) : K MEM_HeapStatus_t :=
  let! h := heap_get i in
  ctx_call ;;;
  status_loop (walk_fuel h) (ALIGN_DOWN (base h + size h)) (ALIGN_UP (base h)) (free_list h)
    (mk_status (size h) 0 0 0 0 0).

(** ** The exported functions *)

(** [ctx] is [None] for [NULL], [Some false] if one of its callbacks is [NULL]. *)
Definition tuya_mem_heap_init (ctx : option bool) : K Z :=
  match ctx with
  | Some true =>
      modify (fun s => mk_st (memory s) (mem_heap_list s) (s_heap_free_size s)
                         (s_heap_free_size_watermark s) true) ;;;
      ret 0
  | _ => ret (-1)
  end.

Definition tuya_mem_heap_create (start_addr size : Z) : K (Z * HEAP_HANDLE) :=
  ctx_call ;;;
  let! h := MEM_HeapCreate start_addr size in
  match h with None => ret (-1, None) | Some i => ret (0, Some i) end.

Definition tuya_mem_heap_delete (handle : HEAP_HANDLE) : K Z := MEM_HeapDelete handle ;;; ret 0.

(** The search of a heap for an allocation without a handle, from index [i] on. *)
Fixpoint malloc_any (alloc : HEAP_HANDLE -> K Z) (n i : nat) (size : Z) : K Z :=
  match n with
  | O => ret 0
  | S n =>
      let! h := heap_get i in
      if 0 <? MemHeap.size h then
        if u32 (size + MEM_BLOCK_MIN_SIZE) <? free h then
          let! ptr := alloc (Some i) in
          if negb (ptr =? 0) then ret ptr else malloc_any alloc n (S i) size
        else malloc_any alloc n (S i) size
      else ret 0
  end.

Definition tuya_mem_heap_malloc (handle : HEAP_HANDLE) (size : Z) : K Z :=
  match handle with
  | Some _ => MEM_Allocate handle size
  | None => malloc_any (fun h => MEM_Allocate h size) MEM_HEAP_LIST_NUM 0 size
  end.

Definition tuya_mem_heap_calloc (handle : HEAP_HANDLE) (size : Z) : K Z :=
  let! ptr := tuya_mem_heap_malloc handle size in
  (if negb (ptr =? 0) then fill ptr 0 (Z.to_nat size) else ret tt) ;;; ret ptr.

(** The search of the heap an address lies in. *)
Fixpoint free_any (n i : nat) (ptr : Z) : K unit :=
  match n with
  | O => ret tt
  | S n =>
      let! h := heap_get i in
      if 0 <? size h then
        if (base h <? ptr) && (ptr <? u32 (base h + size h)) then MEM_Deallocate (Some i) ptr
        else free_any n (S i) ptr
      else ret tt
  end.

Definition tuya_mem_heap_free (handle : HEAP_HANDLE) (ptr : Z) : K unit :=
  match handle with
  | Some _ => MEM_Deallocate handle ptr
  | None => free_any MEM_HEAP_LIST_NUM 0 ptr
  end.

Definition tuya_mem_heap_realloc (handle : HEAP_HANDLE) (ptr size : Z) : K Z :=
  if ptr =? 0 then tuya_mem_heap_malloc handle size
  else
    let old_block := u32 (ptr - MEM_BLOCK_HEAD_SIZE) in
    let! dog := get_dog old_block in
    if negb (dog =? MEM_BLOCK_STAT_USE) then ctx_call ;;; ret 0
    else
      let size := if size <? 4 then 4 else size in
      let new_size := u32 (ALIGN_UP (u32 (size + 1)) + MEM_BLOCK_HEAD_SIZE) in
      let! osize := size_of old_block in
      if new_size <=? osize then ret ptr
      else
        let! tmp := tuya_mem_heap_malloc handle size in
        if tmp =? 0 then ret 0
        else
          let! osize := size_of old_block in
          copy tmp ptr (Z.to_nat (u32 (osize - MEM_BLOCK_HEAD_SIZE))) ;;;
          tuya_mem_heap_free handle ptr ;;;
          ret tmp.

Definition tuya_mem_heap_available (handle : HEAP_HANDLE) : K Z :=
  match handle with
  | None => let! s := get in ret (signed 32 (s_heap_free_size s))
  | Some i => let! h := heap_get i in ret (signed 32 (free h))
  end.

Record heap_state_t := mk_state {
  total_size : Z;
  free_size : Z;
  hs_free_watermark : Z;
  max_free_block_size : Z
}.

(** The sum of the sizes of the heaps up to the first unused entry, added to [total]. *)
Fixpoint total_sizes (n i : nat) (total : Z) : K Z :=
  match n with
  | O => ret total
  | S n =>
      let! h := heap_get i in
      if 0 <? size h then total_sizes n (S i) (u32 (total + size h)) else ret total
  end.

Definition tuya_mem_heap_state (handle : HEAP_HANDLE) (state : heap_state_t) : K heap_state_t :=
  match handle with
  | None =>
      let! s := get in
      let! total := total_sizes MEM_HEAP_LIST_NUM 0 (total_size state) in
      ret (mk_state total (s_heap_free_size s) (s_heap_free_size_watermark s) (max_free_block_size state))
  | Some i =>
      let! h := heap_get i in
      ret (mk_state (size h) (free h) (free_watermark h) (max_free_block_size state))
  end.

Definition tuya_mem_heap_debug_malloc (handle : HEAP_HANDLE) (size filename line : Z) : K Z :=
  match handle with
  | Some _ => MEM_AllocateDebug handle size filename line
  | None => malloc_any (fun h => MEM_AllocateDebug h size filename line) MEM_HEAP_LIST_NUM 0 size
  end.

Definition tuya_mem_heap_debug_calloc (handle : HEAP_HANDLE) (size filename line : Z) : K Z :=
  let! ptr := tuya_mem_heap_debug_malloc handle size filename line in
  (if negb (ptr =? 0) then fill ptr 0 (Z.to_nat size) else ret tt) ;;; ret ptr.

Definition tuya_mem_heap_debug_realloc (handle : HEAP_HANDLE) (ptr size filename line : Z) : K Z :=
  let! tmp := tuya_mem_heap_debug_malloc handle size filename line in
  if tmp =? 0 then ret 0
  else
    copy tmp ptr (Z.to_nat size) ;;;
    tuya_mem_heap_free handle ptr ;;;
    ret tmp.

(** Diagnosing only reads: the statuses of the heaps, up to the first unused entry. *)
Fixpoint diagnose_all (n i : nat) : K (list MEM_HeapStatus_t) :=
  match n with
  | O => ret []
  | S n =>
      let! h := heap_get i in
      if 0 <? size h then
        let! t := MEM_HeapStatus i in
        ctx_call ;;;
        let! ts := diagnose_all n (S i) in ret (t :: ts)
      else ret []
  end.

(** The statuses it prints; the call returns 0. *)
Definition tuya_mem_heap_diagnose (handle : HEAP_HANDLE) : K (list MEM_HeapStatus_t) :=
  match handle with
  | Some i => let! t := MEM_HeapStatus i in ctx_call ;;; ret [t]
  | None => diagnose_all MEM_HEAP_LIST_NUM 0
  end.

End MemHeap.
