(* ===== verification/MemHeapSpec.v ===== *)
(** * The memory heap is an allocator

    The bytes of a heap hold a sequence of blocks that tile it, the free ones linked
    in address order and never adjacent. Allocation hands out a block of its own,
    freeing gives it back, and neither touches the bytes of any other used block. *)
From S2P Require Import Prelude Mem MemHeap.
Open Scope Z_scope.
Open Scope fw_scope.

Module MemHeapSpec.
Import MemHeap.

(** ** Blocks

    A block is its size and whether it is used. *)

Abbreviation blk := (Z * bool)%type.

Definition dog (u : bool) : Z := if u then MEM_BLOCK_STAT_USE else MEM_BLOCK_STAT_FREE.

Fixpoint total (bs : list blk) : Z :=
  match bs with [] => 0 | (sz, _) :: bs => sz + total bs end.

Fixpoint free_total (bs : list blk) : Z :=
  match bs with [] => 0 | (sz, u) :: bs => (if u : bool then 0 else sz) + free_total bs end.

(** The first free block from [a] on, [nx] if there is none. *)
Fixpoint hd (a : Z) (bs : list blk) (nx : Z) : Z :=
  match bs with
  | [] => nx
  | (sz, u) :: bs => if u : bool then hd (a + sz) bs nx else a
  end.

(** The last free block, [d] if there is none. *)
Fixpoint lastf (a : Z) (bs : list blk) (d : Z) : Z :=
  match bs with
  | [] => d
  | (sz, u) :: bs => lastf (a + sz) bs (if u : bool then d else a)
  end.

(** The memory from [a] holds the blocks [bs], and the free block after them is [nx]. *)
Fixpoint seg (m : mem) (a : Z) (bs : list blk) (nx : Z) : Prop :=
  match bs with
  | [] => True
  | (sz, u) :: bs =>
      (12 <= sz /\ (4 | sz)) /\ word m a sz /\ m !! (a + sz - 1) = Some (dog u) /\
      (u = false -> word m (a + 4) (hd (a + sz) bs nx)) /\ seg m (a + sz) bs nx
  end.

(** No two adjacent blocks are free. *)
Fixpoint coalesced (bs : list blk) : Prop :=
  match bs with
  | [] => True
  | (_, u) :: bs =>
      match bs with (_, u') :: _ => u || u' = true | [] => True end /\ coalesced bs
  end.

(** The payloads handed out: their addresses and sizes. *)
Fixpoint used (a : Z) (bs : list blk) : list (Z * Z) :=
  match bs with
  | [] => []
  | (sz, u) :: bs => (if u : bool then [(a + 4, sz - 5)] else []) ++ used (a + sz) bs
  end.

Lemma total_app b1 b2 : total (b1 ++ b2) = total b1 + total b2.
Proof. induction b1 as [|[sz u] b1 IH]; simpl; lia. Qed.

Lemma free_total_app b1 b2 : free_total (b1 ++ b2) = free_total b1 + free_total b2.
Proof. induction b1 as [|[sz u] b1 IH]; simpl; lia. Qed.

Lemma hd_app a b1 b2 nx : hd a (b1 ++ b2) nx = hd a b1 (hd (a + total b1) b2 nx).
Proof.
  revert a. induction b1 as [|[sz []] b1 IH]; intros a; simpl; [by rewrite Z.add_0_r| |done].
  rewrite IH. by rewrite Z.add_assoc.
Qed.

Lemma lastf_app a b1 b2 d : lastf a (b1 ++ b2) d = lastf (a + total b1) b2 (lastf a b1 d).
Proof.
  revert a d. induction b1 as [|[sz u] b1 IH]; intros a d; simpl; [by rewrite Z.add_0_r|].
  rewrite IH. by rewrite Z.add_assoc.
Qed.

Lemma used_app a b1 b2 : used a (b1 ++ b2) = used a b1 ++ used (a + total b1) b2.
Proof.
  revert a. induction b1 as [|[sz u] b1 IH]; intros a; simpl; [by rewrite Z.add_0_r|].
  rewrite IH, <- app_assoc. by rewrite Z.add_assoc.
Qed.

Lemma seg_app m a b1 b2 nx :
  seg m a (b1 ++ b2) nx <-> seg m a b1 (hd (a + total b1) b2 nx) /\ seg m (a + total b1) b2 nx.
Proof.
  revert a. induction b1 as [|[sz u] b1 IH]; intros a; simpl.
  - rewrite Z.add_0_r. tauto.
  - rewrite IH, hd_app, !Z.add_assoc. tauto.
Qed.

Lemma seg_total m a bs nx : seg m a bs nx -> 0 <= total bs /\ (4 | total bs).
Proof.
  revert a. induction bs as [|[sz u] bs IH]; intros a; simpl.
  - intros _. split; [lia | apply Z.divide_0_r].
  - intros ([H1 H2] & _ & _ & _ & H). apply IH in H as [? ?]. split; [lia|].
    by apply Z.divide_add_r.
Qed.

Lemma seg_free m a bs nx : seg m a bs nx -> 0 <= free_total bs <= total bs.
Proof.
  revert a. induction bs as [|[sz u] bs IH]; intros a; simpl; [lia|].
  intros ([H1 H2] & _ & _ & _ & H). apply IH in H. destruct u; lia.
Qed.

(** Where the first and the last free block lie. *)
Lemma hd_range m a bs nx : seg m a bs nx -> hd a bs nx = nx \/ a <= hd a bs nx < a + total bs.
Proof.
  revert a. induction bs as [|[sz u] bs IH]; intros a; simpl; [auto|].
  intros ([H1 H2] & _ & _ & _ & H). pose proof (seg_total _ _ _ _ H).
  destruct u; [|lia]. apply IH in H as [H|H]; [auto|]. right. lia.
Qed.

Lemma lastf_range m a bs nx d : seg m a bs nx -> lastf a bs d = d \/ a <= lastf a bs d < a + total bs.
Proof.
  revert a d. induction bs as [|[sz u] bs IH]; intros a d; simpl; [auto|].
  intros ([H1 H2] & _ & _ & _ & H). pose proof (seg_total _ _ _ _ H).
  destruct (IH _ (if u then d else a) H) as [E|?]; [|right; lia].
  rewrite E. destruct u; [auto|]. right. lia.
Qed.

(** A segment is unchanged by stores outside its bytes. *)
Lemma seg_agree m m' a bs nx : agree m m' a (a + total bs) -> seg m a bs nx -> seg m' a bs nx.
Proof.
  revert a. induction bs as [|[sz u] bs IH]; intros a Ha; simpl; [done|].
  intros ([H1 H2] & Hw & Hd & Hn & H). pose proof (seg_total _ _ _ _ H). simpl in Ha.
  split; [done|]. split; [|split; [|split]].
  - eapply word_agree, Hw. eapply agree_sub; [done|lia..].
  - rewrite Ha by lia. done.
  - intros Hu. eapply word_agree, Hn, Hu. eapply agree_sub; [done|lia..].
  - apply IH; [|done]. eapply agree_sub; [done|lia..].
Qed.

Definition all_used (bs : list blk) : Prop := Forall (fun b => b.2 = true) bs.

Lemma all_used_hd a bs nx : all_used bs -> hd a bs nx = nx.
Proof. intros H. revert a. induction H as [|[sz u] bs Hu _ IH]; intros a; simpl in *; subst; auto. Qed.

Lemma all_used_free bs : all_used bs -> free_total bs = 0.
Proof. intros H. induction H as [|[sz u] bs Hu _ IH]; simpl in *; subst; auto. Qed.

Lemma seg_all_used m a bs nx nx' : all_used bs -> seg m a bs nx -> seg m a bs nx'.
Proof.
  intros H. revert a. induction H as [|[sz u] bs Hu _ IH]; intros a; simpl in *; [done|]. subst u.
  intros (? & ? & ? & ? & ?). split_and!; auto; try tauto. done.
Qed.

(** The last free block, and the used blocks after it. *)
Lemma lastf_split m a bs nx :
  0 < a -> seg m a bs nx ->
  lastf a bs 0 = 0 /\ all_used bs \/
  exists b1 sz b2, bs = b1 ++ (sz, false) :: b2 /\ lastf a bs 0 = a + total b1 /\ all_used b2.
Proof.
  intros Ha. induction bs as [|[sz u] bs IH] using rev_ind; intros Hs.
  - left. split; [done|]. apply Forall_nil_2.
  - apply seg_app in Hs as [Hs _]. rewrite lastf_app. simpl.
    destruct (seg_total _ _ _ _ Hs). destruct u.
    + destruct (IH Hs) as [[E Hu]|(b1 & sz1 & b2 & -> & E & Hu)].
      * left. split; [done|]. apply Forall_app. by split; [|repeat constructor].
      * right. exists b1, sz1, (b2 ++ [(sz, true)]). split; [by rewrite <- app_assoc|].
        split; [done|]. apply Forall_app. by split; [|repeat constructor].
    + right. exists bs, sz, []. split; [done|]. split; [done | apply Forall_nil_2].
Qed.

(** Storing the link of the last free block. *)
Lemma seg_relink m m' a b1 sz b2 nx nx' :
  only m m' (a + total b1 + 4) (a + total b1 + 8) -> word m' (a + total b1 + 4) nx' -> all_used b2 ->
  seg m a (b1 ++ (sz, false) :: b2) nx -> seg m' a (b1 ++ (sz, false) :: b2) nx'.
Proof.
  intros Ho Hw' Hu (H1 & [Hsz1 Hsz2] & Hw & Hd & Hn & H2)%seg_app.
  destruct (seg_total _ _ _ _ H1), (seg_total _ _ _ _ H2).
  apply seg_app. split; [|simpl; split_and!].
  - eapply seg_agree, H1. apply (only_agree _ _ _ _ _ _ Ho). lia.
  - done.
  - done.
  - eapply word_agree, Hw. apply (only_agree _ _ _ _ _ _ Ho). lia.
  - rewrite Ho by lia. done.
  - intros _. by rewrite all_used_hd.
  - eapply seg_all_used, seg_agree, H2; [done|]. apply (only_agree _ _ _ _ _ _ Ho). lia.
Qed.

(** The payloads lie inside their blocks. *)
Lemma blocks_used_range m a bs nx p c :
  seg m a bs nx -> (p, c) ∈ used a bs -> a + 4 <= p /\ 7 <= c /\ p + c + 1 <= a + total bs.
Proof.
  revert a. induction bs as [|[sz u] bs IH]; intros a; simpl; [by rewrite elem_of_nil|].
  intros ([H1 H2] & _ & _ & _ & H) [Hin|Hin]%elem_of_app.
  - destruct (seg_total _ _ _ _ H). destruct u; [|by apply elem_of_nil in Hin].
    apply list_elem_of_singleton in Hin. simplify_eq. lia.
  - specialize (IH _ H Hin). lia.
Qed.

Lemma used_hole a b1 sz b2 : used a (b1 ++ (sz, false) :: b2) = used a b1 ++ used (a + total b1 + sz) b2.
Proof. by rewrite used_app. Qed.

(** Changes within [lo, hi) leave the payloads on both sides alone. *)
Lemma used_outside m0 m m' nx a bs lo hi :
  seg m0 a bs nx -> only m m' lo hi -> hi <= a \/ a + total bs <= lo ->
  forall p c, (p, c) ∈ used a bs -> agree m m' p (p + c).
Proof.
  intros Hs Ho Hd p c Hin. apply (blocks_used_range _ _ _ _ _ _ Hs) in Hin.
  apply (only_agree _ _ _ _ _ _ Ho). lia.
Qed.

(** Changes within a block leave the payloads of the others alone. *)
Lemma used_mid m0 m m' nx a b1 sz u b2 lo hi :
  seg m0 a (b1 ++ (sz, u) :: b2) nx -> only m m' lo hi ->
  a + total b1 <= lo -> hi <= a + total b1 + sz ->
  forall p c, (p, c) ∈ used a (b1 ++ (sz, false) :: b2) -> agree m m' p (p + c).
Proof.
  intros (H1 & [? ?] & _ & _ & _ & H2)%seg_app Ho ? ? p c. rewrite used_app. simpl.
  intros [Hin|Hin]%elem_of_app.
  - eapply (used_outside _ _ _ _ _ _ _ _ H1 Ho); [lia|done].
  - eapply (used_outside _ _ _ _ _ _ _ _ H2 Ho); [lia|done].
Qed.

(** ** Adjacent free blocks *)

Definition joint (b1 b2 : list blk) : Prop :=
  match last b1, b2 with Some (_, u), (_, u') :: _ => u || u' = true | _, _ => True end.

Lemma coalesced_app b1 b2 : coalesced (b1 ++ b2) <-> coalesced b1 /\ coalesced b2 /\ joint b1 b2.
Proof.
  unfold joint. induction b1 as [|[sz u] b1 IH]; simpl.
  - tauto.
  - rewrite IH. destruct b1 as [|[sz1 u1] b1]; simpl; [destruct b2 as [|[? ?] ?]; tauto|]. tauto.
Qed.

Lemma joint_used_l b1 sz b2 : joint (b1 ++ [(sz, true)]) b2.
Proof. unfold joint. rewrite last_snoc. by destruct b2 as [|[? ?] ?]. Qed.

Lemma joint_used_r b1 sz b2 : joint b1 ((sz, true) :: b2).
Proof. unfold joint. destruct (last b1) as [[? []]|]; done. Qed.

Lemma joint_head b1 sz u b2 sz' b2' : joint b1 ((sz, u) :: b2) -> joint b1 ((sz', u) :: b2').
Proof. unfold joint. by destruct (last b1) as [[? ?]|]. Qed.

Lemma joint_all_used b1 b2 : all_used b1 -> joint b1 b2.
Proof.
  intros H. unfold joint. destruct (last b1) as [[sz u]|] eqn:E; [|done].
  apply last_Some in E as [l ->]. apply Forall_app in H as [_ H]. inv H. simpl in *. subst.
  by destruct b2 as [|[? ?] ?].
Qed.

(** ** Alignment *)

Lemma align_land x : Z.land x (Z.lnot 3) = 4 * (x / 4).
Proof.
  rewrite <- Z.ldiff_land. change 3 with (Z.ones 2).
  rewrite Z.ldiff_ones_r, Z.shiftl_mul_pow2, Z.shiftr_div_pow2 by lia. change (2 ^ 2) with 4. lia.
Qed.

Lemma ALIGN_UP_eq x : 0 <= x -> x + 3 < 2 ^ 32 -> ALIGN_UP x = 4 * ((x + 3) / 4).
Proof.
  intros. unfold ALIGN_UP, MEM_ALIGN_NUM. change (4 - 1) with 3. rewrite align_land.
  by rewrite wrap_small by lia.
Qed.

Lemma ALIGN_DOWN_eq x : 0 <= x < 2 ^ 32 -> ALIGN_DOWN x = 4 * (x / 4).
Proof.
  intros. unfold ALIGN_DOWN, MEM_ALIGN_NUM. change (4 - 1) with 3. rewrite align_land.
  by rewrite wrap_small by lia.
Qed.

(** ** Heaps *)

Definition lo (h : MEM_Heap_t) : Z := ALIGN_UP (base h).

Record heap_rep (m : mem) (h : MEM_Heap_t) (bs : list blk) : Prop := {
  rep_base : 0 < base h;
  rep_size : MEM_HEAP_MIN_SIZE <= size h;
  rep_top : base h + size h < 2 ^ 32;
  rep_total : lo h + total bs = ALIGN_DOWN (base h + size h);
  rep_map : mapped m (lo h) (lo h + total bs);
  rep_seg : seg m (lo h) bs 0;
  rep_list : free_list h = hd (lo h) bs 0;
  rep_free : free h = free_total bs;
  rep_coal : coalesced bs
}.

Lemma lo_range h : 0 < base h -> MEM_HEAP_MIN_SIZE <= size h -> base h + size h < 2 ^ 32 ->
  base h <= lo h < base h + 4 /\ (4 | lo h) /\ 0 < lo h.
Proof.
  unfold lo, MEM_HEAP_MIN_SIZE, MEM_BLOCK_MIN_SIZE, MEM_BLOCK_HEAD_SIZE. intros.
  rewrite ALIGN_UP_eq by lia. split; [|split; [|]].
  - Z.div_mod_to_equations. lia.
  - exists ((base h + 3) / 4). lia.
  - Z.div_mod_to_equations. lia.
Qed.

Lemma rep_bounds m h bs : heap_rep m h bs ->
  0 < lo h /\ (4 | lo h) /\ base h <= lo h /\ lo h + total bs <= base h + size h /\
  base h + size h < 2 ^ 32 /\ 0 <= total bs.
Proof.
  intros R. destruct R. destruct (lo_range h) as (? & ? & ?); [done..|].
  destruct (seg_total _ _ _ _ rep_seg0). split_and!; try done; try lia.
  rewrite rep_total0, ALIGN_DOWN_eq; [|unfold MEM_HEAP_MIN_SIZE, MEM_BLOCK_MIN_SIZE, MEM_BLOCK_HEAD_SIZE in *; lia].
  Z.div_mod_to_equations. lia.
Qed.

(** ** One step of memory *)

Implicit Types (s : st).

(** Run the head of the goal by the lemma [L]. *)
Ltac step L :=
  (erewrite bnd_ok; [|eapply L; first [eassumption | lia | done | solve [stores] | idtac]]); cbv beta iota; cbn [memory set_memory].

Lemma load32_ok s a v : word (memory s) a v -> 0 <= v < 2 ^ 32 -> load32 a s = (s, inr v).
Proof. intros H ?. unfold load32. rewrite bnd_get. by rewrite (ld32_word _ _ _ ltac:(eassumption) H). Qed.

Lemma load8_ok s a v : memory s !! a = Some v -> load8 a s = (s, inr v).
Proof. intros H. unfold load8, ld8. rewrite bnd_get. by rewrite H. Qed.

Lemma store32_ok s a v :
  mapped (memory s) a (a + 4) ->
  store32 a v s = (set_memory (wr32 (memory s) a v) s, inr tt).
Proof.
  intros H. unfold store32. rewrite bnd_get. by rewrite st32_wr.
Qed.

Lemma store8_ok s a v :
  mapped (memory s) a (a + 1) -> store8 a v s = (set_memory (wr8 (memory s) a v) s, inr tt).
Proof.
  intros H. unfold store8. rewrite bnd_get. by rewrite st8_wr.
Qed.

Lemma next_of_ok s a v :
  word (memory s) (a + 4) v -> 0 <= v < 2 ^ 32 -> 0 <= a -> a + 4 < 2 ^ 32 -> next_of a s = (s, inr v).
Proof. intros. unfold next_of. rewrite wrap_small by lia. by apply load32_ok. Qed.

Lemma set_next_ok s a v :
  mapped (memory s) (a + 4) (a + 8) -> 0 <= a -> a + 4 < 2 ^ 32 ->
  set_next a v s = (set_memory (wr32 (memory s) (a + 4) v) s, inr tt).
Proof.
  intros. unfold set_next. rewrite wrap_small by lia. apply store32_ok.
  by replace (a + 4 + 4) with (a + 8) by lia.
Qed.

Lemma dog_addr_ok s a sz :
  word (memory s) a sz -> 0 <= a -> 0 < sz -> a + sz < 2 ^ 32 ->
  MEM_DOG_ADDR a s = (s, inr (a + sz - 1)).
Proof.
  intros. unfold MEM_DOG_ADDR, size_of. mstep_with (load32_ok s a sz ltac:(done) ltac:(lia)).
  by rewrite wrap_small by lia.
Qed.

Lemma set_dog_ok s a sz v :
  word (memory s) a sz -> 0 <= a -> 0 < sz -> a + sz < 2 ^ 32 ->
  mapped (memory s) (a + sz - 1) (a + sz) ->
  set_dog a v s = (set_memory (wr8 (memory s) (a + sz - 1) v) s, inr tt).
Proof.
  intros. unfold set_dog. step dog_addr_ok. apply store8_ok.
  by replace (a + sz - 1 + 1) with (a + sz) by lia.
Qed.

(** ** The search of a block *)

Section Search.
Variables (s : st) (a : Z) (W : list blk) (size : Z).
Hypothesis Ha : 0 < a.
Hypothesis Htop : a + total W < 2 ^ 32.
Hypothesis Hseg : seg (memory s) a W 0.

(** [this] is a free block of at least [size] bytes, [pre] the free block before it or 0. *)
Definition candidate (this pre : Z) : Prop :=
  exists b1 sz b2, W = b1 ++ (sz, false) :: b2 /\ this = a + total b1 /\ pre = lastf a b1 0 /\ size <= sz.

(** The block at the end of [b1]. *)
Lemma at_block b1 sz u b2 : W = b1 ++ (sz, u) :: b2 ->
  let f := a + total b1 in
  0 < f /\ 12 <= sz /\ (4 | sz) /\ f + sz + total b2 = a + total W /\ 0 <= total b1 /\ 0 <= total b2 /\
  word (memory s) f sz /\ memory s !! (f + sz - 1) = Some (dog u) /\
  (u = false -> word (memory s) (f + 4) (hd (f + sz) b2 0) /\ 0 <= hd (f + sz) b2 0 < 2 ^ 32) /\
  seg (memory s) a b1 (hd f ((sz, u) :: b2) 0) /\ seg (memory s) (f + sz) b2 0.
Proof.
  intros -> f. pose proof Hseg as (H1 & [? ?] & Hw & Hd & Hn & H2)%seg_app.
  destruct (seg_total _ _ _ _ H1), (seg_total _ _ _ _ H2). rewrite total_app in Htop. simpl in Htop.
  rewrite total_app. simpl. subst f. split_and!; try done; try lia.
  intros ->. split; [by apply Hn|]. destruct (hd_range _ _ _ _ H2) as [->|]; lia.
Qed.

Lemma size_of_block b1 sz u b2 : W = b1 ++ (sz, u) :: b2 -> size_of (a + total b1) s = (s, inr sz).
Proof.
  intros E. destruct (at_block _ _ _ _ E) as (? & ? & _ & ? & ? & ? & ? & _).
  apply load32_ok; [done|]. lia.
Qed.

Lemma next_of_block b1 sz b2 : W = b1 ++ (sz, false) :: b2 ->
  next_of (a + total b1) s = (s, inr (hd (a + total b1 + sz) b2 0)).
Proof.
  intros E. destruct (at_block _ _ _ _ E) as (? & ? & _ & ? & ? & ? & _ & _ & Hn & _).
  destruct Hn; [done|]. apply next_of_ok; [done|done|lia|lia].
Qed.

Lemma fit_loop_ok n past rest this pre fnum :
  (length rest < n)%nat -> W = past ++ rest -> candidate this pre ->
  exists this' pre', candidate this' pre' /\
    fit_loop n size this pre (lastf a past 0) (hd (a + total past) rest 0) fnum s =
      (s, inr (this', pre')).
Proof.
  revert n past this pre fnum. induction rest as [|[sz u] rest IH]; intros n past this pre fnum Hn HW Hc.
  - destruct n as [|n]; [simpl in Hn; lia|]. exists this, pre. by split.
  - assert (W = (past ++ [(sz, u)]) ++ rest) as HW' by (by rewrite <- app_assoc).
    destruct u.
    + destruct (IH n (past ++ [(sz, true)]) this pre fnum) as (t' & p' & Hc' & E); [simpl in Hn; lia|done|done|].
      exists t', p'. split; [done|]. rewrite <- E. rewrite total_app, lastf_app. simpl.
      by rewrite Z.add_0_r, Z.add_assoc.
    + destruct n as [|n]; [simpl in Hn; lia|]. simpl in Hn. cbn [fit_loop hd].
      destruct (at_block _ _ _ _ HW) as (Hp & _). rewrite (proj2 (Z.eqb_neq _ 0)) by lia.
      mstep_with (size_of_block _ _ _ _ HW).
      assert (forall t1 p1 f1, candidate t1 p1 -> exists this' pre', candidate this' pre' /\
        (if FIT_FIND_DEPTH <=? f1 then ret (t1, p1)
         else let! next := next_of (a + total past) in fit_loop n size t1 p1 (a + total past) next f1) s
        = (s, inr (this', pre'))) as Hk.
      { intros t1 p1 f1 Hc1. destruct (FIT_FIND_DEPTH <=? f1); [by exists t1, p1|].
        rewrite (bnd_ok _ _ _ _ _ (next_of_block _ _ _ HW)).
        destruct (IH n (past ++ [(sz, false)]) t1 p1 f1) as (t' & p' & Hc' & E); [lia|done|done|].
        exists t', p'. split; [done|]. rewrite <- E. rewrite total_app, lastf_app. simpl.
        by rewrite Z.add_0_r, Z.add_assoc. }
      destruct (Z.leb_spec size sz); [|rewrite bnd_ret; by apply Hk].
      destruct Hc as (c1 & csz & c2 & HWc & -> & -> & Hcs).
      rewrite bnd_assoc. mstep_with (size_of_block _ _ _ _ HWc). rewrite bnd_ret.
      destruct (Z.leb_spec sz csz); apply Hk; [by exists past, sz, rest | by exists c1, csz, c2].
Qed.

(** No free block has [size] bytes. *)
Definition no_fit (bs : list blk) : Prop := Forall (fun b => b.2 = false -> b.1 < size) bs.

Lemma chunk_loop_ok i n past rest :
  (length rest < n)%nat -> W = past ++ rest -> no_fit past ->
  no_fit W /\ chunk_loop n i size (lastf a past 0) (hd (a + total past) rest 0) s = (s, inr 0) \/
  exists this pre, candidate this pre /\
    chunk_loop n i size (lastf a past 0) (hd (a + total past) rest 0) s = take_chunk i size this pre s.
Proof.
  revert n past. induction rest as [|[sz u] rest IH]; intros n past Hn HW Hp.
  - destruct n as [|n]; [simpl in Hn; lia|]. left. rewrite HW, app_nil_r. by split.
  - assert (W = (past ++ [(sz, u)]) ++ rest) as HW' by (by rewrite <- app_assoc).
    assert (forall n, (length rest < n)%nat -> (u = false -> sz < size) ->
      no_fit W /\ chunk_loop n i size (lastf a (past ++ [(sz, u)]) 0) (hd (a + (total past + sz)) rest 0) s = (s, inr 0) \/
      exists this pre, candidate this pre /\
        chunk_loop n i size (lastf a (past ++ [(sz, u)]) 0) (hd (a + (total past + sz)) rest 0) s
          = take_chunk i size this pre s) as Hrec.
    { intros n' Hn' Hsz. replace (total past + sz) with (total (past ++ [(sz, u)])).
      - apply IH; [done|done|]. apply Forall_app. split; [done|]. by repeat constructor.
      - rewrite total_app. simpl. lia. }
    rewrite lastf_app in Hrec. simpl in Hrec. rewrite Z.add_assoc in Hrec.
    destruct u; [apply Hrec; [simpl in Hn; lia|done]|].
    destruct n as [|n]; [simpl in Hn; lia|]. simpl in Hn. cbn [chunk_loop hd].
    destruct (at_block _ _ _ _ HW) as (Hpos & _). rewrite (proj2 (Z.eqb_neq _ 0)) by lia.
    rewrite (bnd_ok _ _ _ _ _ (size_of_block _ _ _ _ HW)).
    destruct (Z.leb_spec size sz).
    + right. rewrite (bnd_ok _ _ _ _ _ (next_of_block _ _ _ HW)).
      destruct (fit_loop_ok (S n) (past ++ [(sz, false)]) rest (a + total past) (lastf a past 0) 0)
        as (t' & p' & Hc & E); [lia|done|by exists past, sz, rest|].
      rewrite lastf_app, total_app in E. simpl in E. rewrite Z.add_0_r, Z.add_assoc in E.
      exists t', p'. split; [done|]. by rewrite (bnd_ok _ _ _ _ _ E).
    + rewrite (bnd_ok _ _ _ _ _ (next_of_block _ _ _ HW)). apply Hrec; [lia|done].
Qed.

End Search.

(** ** Taking a block *)

Definition set_list (p : Z) (h : MEM_Heap_t) : MEM_Heap_t :=
  mk_heap p (base h) (size h) (free h) (free_watermark h).

Lemma set_list_id h : set_list (free_list h) h = h.
Proof. by destruct h. Qed.

Lemma heap_get_ok s i h : mem_heap_list s !! i = Some h -> heap_get i s = (s, inr h).
Proof. intros H. unfold heap_get. rewrite bnd_get. by rewrite H. Qed.

Lemma set_heaps_id s i h m :
  mem_heap_list s !! i = Some h -> set_heaps (<[i := h]> (mem_heap_list s)) (set_memory m s) = set_memory m s.
Proof. intros H. rewrite list_insert_id by done. by destruct s. Qed.

(** What a change of blocks from [W] to [W'] within the heap keeps: the bytes outside the
    heap, and those of the payloads [ps]. *)
Record keeps (m m' : mem) (a : Z) (W W' : list blk) (ps : list (Z * Z)) : Prop := {
  keep_only : only m m' a (a + total W);
  keep_dom : dom m' = dom m;
  keep_total : total W' = total W;
  keep_payload p c : (p, c) ∈ ps -> agree m m' p (p + c)
}.

(** What [take_chunk] leaves: the block at the end of [c1], now used. *)
Definition taken s i h W n (res : st * (stop + Z)) (c1 : list blk) (sz : Z) (c2 : list blk) (m' : mem) : Prop :=
  let W' := c1 ++ (sz, true) :: c2 in
  res = (set_heaps (<[i := set_list (hd (lo h) W' 0) h]> (mem_heap_list s)) (set_memory m' s),
         inr (lo h + total c1)) /\
  n <= sz < n + MEM_HEAP_MIN_SIZE /\
  seg m' (lo h) W' 0 /\ free_total W = free_total W' + sz /\ coalesced W' /\
  used (lo h) W = used (lo h) c1 ++ used (lo h + total c1 + sz) c2 /\
  keeps (memory s) m' (lo h) W W' (used (lo h) W).

Section Take.
Variables (s : st) (i : nat) (h : MEM_Heap_t) (W : list blk) (n : Z) (b1 : list blk) (sz : Z) (b2 : list blk).
Hypothesis R : heap_rep (memory s) h W.
Hypothesis Hi : mem_heap_list s !! i = Some h.
Hypotheses (Hn12 : 12 <= n) (Hn4 : (4 | n)) (Hsz : n <= sz).
Hypothesis HW : W = b1 ++ (sz, false) :: b2.

Let f := lo h + total b1.

Lemma take_facts :
  0 < lo h /\ 0 < f /\ 12 <= sz /\ (4 | sz) /\ f + sz + total b2 = lo h + total W /\
  lo h + total W < 2 ^ 32 /\ 0 <= total b1 /\ 0 <= total b2 /\
  word (memory s) f sz /\ word (memory s) (f + 4) (hd (f + sz) b2 0) /\ 0 <= hd (f + sz) b2 0 < 2 ^ 32 /\
  seg (memory s) (lo h) b1 f /\ seg (memory s) (f + sz) b2 0 /\
  mapped (memory s) (lo h) (lo h + total W) /\
  size_of f s = (s, inr sz) /\ next_of f s = (s, inr (hd (f + sz) b2 0)).
Proof.
  destruct (rep_bounds _ _ _ R) as (Hlo & _ & _ & Htop & Htop2 & _).
  assert (lo h + total W < 2 ^ 32) as Ht by lia. pose proof (rep_seg _ _ _ R) as Hseg.
  destruct (at_block s (lo h) W Hlo Ht Hseg _ _ _ _ HW)
    as (? & ? & ? & ? & ? & ? & ? & ? & Hnx & ? & ?). destruct Hnx as [? [? ?]]; [done|].
  split_and!; try done; try apply R.
  - exact (size_of_block s (lo h) W Hlo Ht Hseg _ _ _ _ HW).
  - exact (next_of_block s (lo h) W Hlo Ht Hseg _ _ _ HW).
Qed.

Lemma take_split this_pre :
  MEM_HEAP_MIN_SIZE <= sz - n ->
  exists m', taken s i h W n (take_chunk i n f this_pre s) (b1 ++ [(sz - n, false)]) n b2 m'.
Proof.
  intros Hbig. destruct take_facts as
    (Hlo & Hf & Hs12 & Hs4 & Ht & Htop & Htb1 & Htb2 & Hw & Hwn & Hnr & H1 & H2 & Hm & Es & _).
  set (m1 := wr32 (memory s) f (sz - n)).
  set (m2 := wr8 m1 (f + (sz - n) - 1) MEM_BLOCK_STAT_FREE).
  set (m3 := wr32 m2 (f + (sz - n)) n).
  set (m4 := wr8 m3 (f + (sz - n) + n - 1) MEM_BLOCK_STAT_USE).
  exists m4. unfold MEM_HEAP_MIN_SIZE, MEM_BLOCK_MIN_SIZE, MEM_BLOCK_HEAD_SIZE in Hbig.
  assert (only (memory s) m4 f (f + sz)) as Ho by (unfold m4, m3, m2, m1; stores).
  assert (take_chunk i n f this_pre s = (set_memory m4 s, inr (f + (sz - n)))) as E.
  { unfold take_chunk, set_size, size_of in *. rewrite (bnd_ok _ _ _ _ _ Es).
    rewrite (wrap_small 32) by lia. rewrite (proj2 (Z.leb_le _ _)) by done.
    step store32_ok. fold m1.
    assert (word m1 f (sz - n)) as W1 by stores. step set_dog_ok. fold m2.
    assert (word m2 f (sz - n)) as W2 by stores. step load32_ok.
    cbv zeta. rewrite (wrap_small 32 (f + (sz - n))) by lia. step store32_ok. fold m3.
    assert (word m3 (f + (sz - n)) n) as W3 by stores. step set_dog_ok. done. }
  unfold taken. rewrite E, <- app_assoc, !total_app, used_app. cbn [app].
  split; [|split; [unfold MEM_HEAP_MIN_SIZE, MEM_BLOCK_MIN_SIZE, MEM_BLOCK_HEAD_SIZE; lia|split_and!]].
  - replace (lo h + _) with (f + (sz - n)) by (simpl; lia). f_equal.
    assert (hd (lo h) (b1 ++ (sz - n, false) :: (n, true) :: b2) 0 = free_list h) as ->.
    { rewrite (rep_list _ _ _ R), HW, !hd_app. done. } by rewrite set_list_id, set_heaps_id.
  - apply seg_app. split; [|simpl; fold f; split_and!]; try done; try solve [unfold m4, m3, m2, m1; stores].
    + eapply seg_agree, H1. eapply only_agree; [done|]. lia.
    + lia.
    + by apply Z.divide_sub_r.
    + intros _. replace (f + (sz - n) + n) with (f + sz) by lia. stores.
    + replace (f + (sz - n) + n) with (f + sz) by lia. eapply seg_agree, H2. eapply only_agree; [done|]. lia.
  - rewrite HW, !free_total_app. simpl. lia.
  - pose proof (rep_coal _ _ _ R) as Hco. rewrite HW in Hco. apply coalesced_app in Hco as (Hc1 & Hc2 & Hj).
    apply coalesced_app. split; [done|]. split; [|by eapply joint_head].
    simpl in *. destruct Hc2. split; [done|]. split; [|done]. by destruct b2 as [|[? ?] ?].
  - rewrite HW, used_app. simpl. rewrite app_nil_r. do 2 f_equal. lia.
  - split.
    + apply (only_weaken _ _ _ _ _ _ Ho); lia.
    + unfold m4, m3, m2, m1. rewrite !wr8_dom, !wr32_dom, wr8_dom, wr32_dom by stores. done.
    + rewrite HW, !total_app. simpl. lia.
    + pose proof (rep_seg _ _ _ R) as Hs. rewrite HW in Hs |- *. eapply used_mid; [done|done|lia|lia].
Qed.

(** The whole block is taken: it is unlinked from the free list. *)
Definition unlinked : mem :=
  let m := if lastf (lo h) b1 0 =? 0 then memory s
           else wr32 (memory s) (lastf (lo h) b1 0 + 4) (hd (f + sz) b2 0) in
  wr8 m (f + sz - 1) MEM_BLOCK_STAT_USE.

Lemma unlinked_seg :
  let W' := b1 ++ (sz, true) :: b2 in
  seg unlinked (lo h) W' 0 /\ keeps (memory s) unlinked (lo h) W W' (used (lo h) W).
Proof.
  destruct take_facts as
    (Hlo & Hf & Hs12 & Hs4 & Ht & Htop & Htb1 & Htb2 & Hw & Hwn & Hnr & H1 & H2 & Hm & _).
  pose proof (rep_seg _ _ _ R) as Hs. unfold unlinked.
  destruct (lastf_split _ _ _ _ Hlo H1) as [[E Hu]|(c1 & ps & c2 & Eb & E & Hu)].
  - rewrite E. cbn [Z.eqb]. split; [|split].
    + apply seg_app. split; [|simpl; fold f; split_and!]; try done; try solve [stores].
      * eapply seg_all_used, seg_agree, H1; [done|]. apply wr8_agree. lia.
      * eapply seg_agree, H2. apply wr8_agree. lia.
    + stores.
    + by rewrite wr8_dom by stores.
    + by rewrite HW, !total_app.
    + rewrite HW in Hs |- *. eapply used_mid; [done|apply wr8_only|lia|lia].
  - assert (W = c1 ++ (ps, false) :: (c2 ++ (sz, false) :: b2)) as HW2
      by (rewrite HW, Eb, <- app_assoc; done).
    pose proof Hs as Hs2. rewrite HW2 in Hs2. apply seg_app in Hs2 as (Hc1 & [Hp12 _] & _).
    destruct (seg_total _ _ _ _ Hc1).
    assert (lo h + total c1 + ps + total c2 = f) as Hpf by (unfold f; rewrite Eb, total_app; simpl; lia).
    assert (0 <= total c2) as Hc2.
    { pose proof H1 as H1'. rewrite Eb in H1'. apply seg_app in H1' as (_ & _ & _ & _ & _ & H1').
      pose proof (seg_total _ _ _ _ H1'). lia. }
    rewrite (proj2 (Z.eqb_neq _ 0)) by lia. rewrite E.
    set (m1 := wr32 (memory s) (lo h + total c1 + 4) (hd (f + sz) b2 0)).
    assert (only (memory s) m1 (lo h + total c1 + 4) (lo h + total c1 + 8)) as Ho1 by (unfold m1; stores).
    split; [|split].
    + apply seg_app. split; [|simpl; fold f; split_and!]; try done; try solve [unfold m1; stores].
      * change (hd (lo h + total b1) ((sz, true) :: b2) 0) with (hd (f + sz) b2 0).
        eapply seg_agree; [apply wr8_agree; lia|]. rewrite Eb. eapply seg_relink; [done| |done|].
        -- apply word_wr32.
        -- rewrite <- Eb. exact H1.
      * eapply seg_agree, H2. intros j Hj. rewrite lookup_wr8_ne by lia. apply Ho1. lia.
    + unfold m1. stores.
    + unfold m1. by rewrite wr8_dom, wr32_dom by stores.
    + by rewrite HW, !total_app.
    + intros p c Hin. apply (agree_trans _ m1).
      * rewrite HW2 in Hs, Hin. eapply used_mid; [exact Hs|exact Ho1|lia|lia|exact Hin].
      * rewrite HW in Hs, Hin. eapply used_mid; [exact Hs|apply wr8_only|lia|lia|exact Hin].
Qed.

Lemma take_whole :
  sz - n < MEM_HEAP_MIN_SIZE ->
  taken s i h W n (take_chunk i n f (lastf (lo h) b1 0) s) b1 sz b2 unlinked.
Proof.
  intros Hsmall. destruct take_facts as
    (Hlo & Hf & Hs12 & Hs4 & Ht & Htop & Htb1 & Htb2 & Hw & Hwn & Hnr & H1 & H2 & Hm & Es & En).
  destruct unlinked_seg as [Hsg Hk]. unfold taken. fold f. split; [|split_and!]; try done.
  - unfold take_chunk. rewrite (bnd_ok _ _ _ _ _ Es). rewrite (wrap_small 32) by lia.
    rewrite (proj2 (Z.leb_gt _ _)) by done. rewrite (bnd_ok _ _ _ _ _ En).
    unfold unlinked. rewrite hd_app. simpl hd.
    destruct (lastf_split _ _ _ _ Hlo H1) as [[E Hu]|(c1 & ps & c2 & Eb & E & Hu)].
    + rewrite E. cbn [Z.eqb negb]. rewrite bnd_assoc. mstep_with (heap_get_ok s i h Hi).
      unfold heap_put. rewrite bnd_modify. step set_dog_ok. unfold set_list.
      rewrite (all_used_hd (lo h)) by done. reflexivity.
    + assert (lo h <= lastf (lo h) b1 0 /\ lastf (lo h) b1 0 + 12 <= f) as [Hp Hpf].
      { pose proof H1 as Hb. rewrite Eb in Hb. apply seg_app in Hb as (Hc & [? _] & _ & _ & _ & Hc2).
        pose proof (seg_total _ _ _ _ Hc). pose proof (seg_total _ _ _ _ Hc2).
        rewrite E. unfold f. rewrite Eb, total_app. simpl. lia. }
      rewrite (proj2 (Z.eqb_neq (lastf _ _ _) 0)) by lia. cbn [negb].
      step set_next_ok.
      assert (word (wr32 (memory s) (lastf (lo h) b1 0 + 4) (hd (f + sz) b2 0)) f sz) as Hwf by stores.
      step set_dog_ok.
      assert (hd (lo h) b1 (hd (lo h + total b1 + sz) b2 0) = free_list h) as ->.
      { rewrite (rep_list _ _ _ R), HW, hd_app. rewrite Eb, !hd_app. done. }
      rewrite set_list_id, set_heaps_id by done. reflexivity.
  - lia.
  - rewrite HW, !free_total_app. simpl. lia.
  - pose proof (rep_coal _ _ _ R) as Hco. rewrite HW in Hco. apply coalesced_app in Hco as (Hc1 & Hc2 & Hj).
    apply coalesced_app. split; [done|]. split; [|apply joint_used_r].
    simpl in *. destruct Hc2. split; [|done]. by destruct b2 as [|[? ?] ?].
  - by rewrite HW, used_hole.
Qed.

End Take.

Lemma take_chunk_ok s i h W n this pre :
  heap_rep (memory s) h W -> mem_heap_list s !! i = Some h -> 12 <= n -> (4 | n) ->
  candidate (lo h) W n this pre ->
  exists c1 sz c2 m', taken s i h W n (take_chunk i n this pre s) c1 sz c2 m'.
Proof.
  intros R Hi Hn Hn4 (b1 & sz & b2 & HW & -> & -> & Hsz).
  destruct (Z.le_gt_cases MEM_HEAP_MIN_SIZE (sz - n)).
  - destruct (take_split s i h W n b1 sz b2 R Hi Hn Hn4 Hsz HW (lastf (lo h) b1 0)) as [m' Hm]; [done|].
    by eexists _, _, _, _.
  - eexists _, _, _, _. by eapply take_whole.
Qed.

Lemma seg_length m a bs nx : seg m a bs nx -> Z.of_nat (length bs) <= total bs.
Proof.
  revert a. induction bs as [|[sz u] bs IH]; intros a; simpl; [lia|].
  intros ([? ?] & _ & _ & _ & Hs). apply IH in Hs. lia.
Qed.

Lemma walk_fuel_ok m h bs : heap_rep m h bs -> (length bs < walk_fuel h)%nat.
Proof.
  intros R. pose proof (rep_bounds _ _ _ R). pose proof (seg_length _ _ _ _ (rep_seg _ _ _ R)).
  unfold walk_fuel. lia.
Qed.

(** The search in a heap: no block is large enough, or one is taken. *)
Lemma candidate_fits a W n this pre : candidate a W n this pre -> ~ no_fit n W.
Proof.
  intros (b1 & sz & b2 & -> & _ & _ & Hsz) [_ Hf]%Forall_app. inv Hf as [|x l Hx].
  simpl in Hx. specialize (Hx eq_refl). lia.
Qed.

Lemma mem_chunk_get_ok s i h W n :
  heap_rep (memory s) h W -> mem_heap_list s !! i = Some h -> 12 <= n -> (4 | n) ->
  no_fit n W /\ mem_chunk_get i n s = (s, inr 0) \/
  ~ no_fit n W /\ exists c1 sz c2 m', taken s i h W n (mem_chunk_get i n s) c1 sz c2 m'.
Proof.
  intros R Hi Hn Hn4. destruct (rep_bounds _ _ _ R) as (Hlo & _ & Hb & Ht & Htop & _).
  pose proof (rep_seg _ _ _ R) as Hseg. unfold mem_chunk_get. rewrite (bnd_ok _ _ _ _ _ (heap_get_ok s i h Hi)).
  pose proof (walk_fuel_ok _ _ _ R) as Hfuel.
  destruct (chunk_loop_ok s (lo h) W n Hlo ltac:(lia) Hseg i (walk_fuel h) [] W) as [[Hno E]|(t & p & Hc & E)].
  - done.
  - done.
  - apply Forall_nil_2.
  - left. split; [done|]. rewrite (rep_list _ _ _ R). cbn [lastf total] in E. by rewrite Z.add_0_r in E.
  - right. split; [by eapply candidate_fits|].
    rewrite (rep_list _ _ _ R). cbn [lastf total] in E. rewrite Z.add_0_r in E. rewrite E.
    by apply take_chunk_ok.
Qed.

(** ** Allocating *)

(** The size of the block for a request of [n] bytes. *)
Definition block_size (n : Z) : Z := 4 * ((Z.max 4 n + 1 + 3) / 4) + 4.

Lemma block_size_bounds n : 0 <= n -> n + 5 <= block_size n < Z.max 4 n + 9 /\ 12 <= block_size n /\ (4 | block_size n).
Proof.
  intros. unfold block_size. split; [|split].
  - Z.div_mod_to_equations. lia.
  - Z.div_mod_to_equations. lia.
  - exists ((Z.max 4 n + 1 + 3) / 4 + 1). lia.
Qed.

(** The size as the code computes it, in 32 bits: exact unless it wraps, which its guard sees. *)
Lemma new_size_eq n :
  0 <= n < 2 ^ 32 ->
  let size := if n <? 4 then 4 else n in
  let new_size := u32 (ALIGN_UP (u32 (size + 1)) + MEM_BLOCK_HEAD_SIZE) in
  if block_size n <? 2 ^ 32 then new_size = block_size n /\ size <= new_size else new_size < size.
Proof.
  intros Hn size. assert (size = Z.max 4 n) as -> by (unfold size; destruct (Z.ltb_spec n 4); lia).
  unfold block_size, MEM_BLOCK_HEAD_SIZE. change (8 - 4) with 4.
  destruct (Z.ltb_spec (4 * ((Z.max 4 n + 1 + 3) / 4) + 4) (2 ^ 32)) as [H|H].
  - rewrite (wrap_small 32 (Z.max 4 n + 1)) by (Z.div_mod_to_equations; lia).
    rewrite ALIGN_UP_eq by (Z.div_mod_to_equations; lia).
    rewrite wrap_small by (Z.div_mod_to_equations; lia). split; [done|].
    Z.div_mod_to_equations. lia.
  - unfold ALIGN_UP, MEM_ALIGN_NUM. change (4 - 1) with 3. rewrite align_land. unfold wrap.
    change (2 ^ 32) with 4294967296 in *. Z.div_mod_to_equations. lia.
Qed.

(** The state has a heap [h] of blocks [W] at index [i], and the callbacks are set. *)
Definition heap_at s i h W : Prop :=
  mem_heap_list s !! i = Some h /\ heap_rep (memory s) h W /\ s_heap_ctx s = true.

(** [s'] has the heap [h'] in place of that of index [i], and its memory differs only there. *)
Record moved s s' i h h' W W' (ps : list (Z * Z)) : Prop := {
  moved_at : heap_at s' i h' W';
  moved_list : mem_heap_list s' = <[i := h']> (mem_heap_list s);
  moved_total : s_heap_free_size s' = u32 (s_heap_free_size s - free h + free h');
  moved_range : base h' = base h /\ size h' = size h;
  moved_keeps : keeps (memory s) (memory s') (lo h) W W' ps
}.

Lemma ctx_ok s : s_heap_ctx s = true -> ctx_call s = (s, inr tt).
Proof. intros H. unfold ctx_call. rewrite bnd_get. by rewrite H. Qed.

Lemma no_fit_total m a W nx n : seg m a W nx -> total W < n -> no_fit n W.
Proof.
  revert a. induction W as [|[sz u] W IH]; intros a; simpl; [intros; apply Forall_nil_2|].
  intros ([? ?] & _ & _ & _ & Hs) Hn. pose proof (seg_total _ _ _ _ Hs).
  constructor; [simpl; lia|]. eapply IH; [done|lia].
Qed.

Lemma heap_put_eq i h s : heap_put i h s = (set_heaps (<[i := h]> (mem_heap_list s)) s, inr tt).
Proof. done. Qed.

Lemma set_set_heaps i h h' s :
  set_heaps (<[i := h']> (mem_heap_list (set_heaps (<[i := h]> (mem_heap_list s)) s)))
    (set_heaps (<[i := h]> (mem_heap_list s)) s)
  = set_heaps (<[i := h']> (mem_heap_list s)) s.
Proof. unfold set_heaps. cbn [mem_heap_list memory]. by rewrite list_insert_insert_eq. Qed.

(** A heap with other blocks: the fields that follow the blocks. *)
Lemma rep_change m m' h W W' wm :
  heap_rep m h W -> seg m' (lo h) W' 0 -> coalesced W' -> keeps m m' (lo h) W W' [] ->
  heap_rep m' (mk_heap (hd (lo h) W' 0) (base h) (size h) (free_total W') wm) W'.
Proof.
  intros R Hs Hc [Ho Hd Ht _]. destruct R. split; cbn [base size free_list free]; try done.
  - unfold lo in *. cbn [base]. lia.
  - unfold lo in *. cbn [base]. rewrite Ht. by eapply mapped_dom.
Qed.

Lemma keeps_payloads m m' a W W' ps ps' :
  (forall x, x ∈ ps' -> x ∈ ps) -> keeps m m' a W W' ps -> keeps m m' a W W' ps'.
Proof. intros Hsub [? ? ? Hp]. split; try done. intros p c Hin. by apply Hp, Hsub. Qed.

(** The accounting after a block was taken. *)
Lemma account_ok s i h W n c1 sz c2 m' :
  heap_at s i h W -> taken s i h W n (mem_chunk_get i n s) c1 sz c2 m' -> 12 <= n ->
  let block := lo h + total c1 in let W' := c1 ++ (sz, true) :: c2 in
  exists s' h' , 
    (let! bsize := size_of block in
     let! h := heap_get i in
     let fr := u32 (free h - bsize) in
     heap_put i (mk_heap (free_list h) (base h) (size h) fr
                   (if fr <? free_watermark h then fr else free_watermark h)) ;;;
     modify (fun s =>
       let fr := u32 (s_heap_free_size s - bsize) in
       set_total fr (if fr <? s_heap_free_size_watermark s then fr else s_heap_free_size_watermark s) s) ;;;
     ret (u32 (block + MEM_BLOCK_HEAD_SIZE)))
      (set_heaps (<[i := set_list (hd (lo h) W' 0) h]> (mem_heap_list s)) (set_memory m' s)) =
      (s', inr (block + 4)) /\
    free h = free h' + sz /\ moved s s' i h h' W W' (used (lo h) W).
Proof.
  intros (Hi & R & Hc) (E & Hsz & Hs & Hf & Hco & Hu & Hk) Hn block W'. fold W' in Hs, Hf, Hco, Hk.
  destruct (rep_bounds _ _ _ R) as (Hlo & Hlo4 & Hb & Ht & Htop & _).
  pose proof (seg_free _ _ _ _ Hs) as Hfr. pose proof (keep_total _ _ _ _ _ _ Hk) as Htot.
  pose proof (seg_free _ _ _ _ (rep_seg _ _ _ R)) as Hfr0.
  pose proof Hs as (Hs1 & _ & Hw & _ & _ & Hs2)%seg_app.
  destruct (seg_total _ _ _ _ Hs1), (seg_total _ _ _ _ Hs2).
  unfold W' in Htot. rewrite total_app in Htot. simpl in Htot. fold block in Hw.
  set (s1 := set_heaps _ _).
  assert (load32 block s1 = (s1, inr sz)) as E1 by (apply load32_ok; [done|lia]).
  unfold size_of. rewrite (bnd_ok _ _ _ _ _ E1).
  assert (heap_get i s1 = (s1, inr (set_list (hd (lo h) W' 0) h))) as E2.
  { apply heap_get_ok. cbn [mem_heap_list set_heaps set_memory s1]. apply list_lookup_insert_eq.
    by eapply lookup_lt_Some. }
  rewrite (bnd_ok _ _ _ _ _ E2). cbv zeta. rewrite (bnd_ok _ _ _ _ _ (heap_put_eq _ _ _)).
  rewrite bnd_modify. unfold set_list. cbn [free_list base size free free_watermark].
  assert (free h - sz = free_total W') as Efr by (rewrite (rep_free _ _ _ R); lia).
  rewrite !Efr, (wrap_small 32 (free_total W')) by lia.
  eexists _, (mk_heap (hd (lo h) W' 0) (base h) (size h) (free_total W') _).
  split; [unfold ret, MEM_BLOCK_HEAD_SIZE; rewrite (wrap_small 32 (block + _)) by (unfold block; lia); reflexivity|].
  split; [cbn [free]; lia|].
  assert (i < length (mem_heap_list s))%nat as Hlt by (by eapply lookup_lt_Some).
  split; cbn [mem_heap_list set_heaps set_memory memory set_total s_heap_free_size s_heap_ctx free base size s1].
  - split; [|split; [|done]]; cbn [mem_heap_list set_heaps set_total memory set_memory].
    + apply list_lookup_insert_eq. by rewrite length_insert.
    + apply (rep_change (memory s) _ _ W); [done..|]. eapply keeps_payloads, Hk.
      by intros x ?%elem_of_nil.
  - by rewrite list_insert_insert_eq.
  - f_equal. lia.
  - done.
  - done.
Qed.

(** [MEM_Allocate] finds no block, or hands out one that is large enough. *)
Lemma MEM_Allocate_ok s i h W n :
  heap_at s i h W -> 0 < n < 2 ^ 32 ->
  no_fit (block_size n) W /\ MEM_Allocate (Some i) n s = (s, inr 0) \/
  ~ no_fit (block_size n) W /\ exists s' h' W' p c,
    MEM_Allocate (Some i) n s = (s', inr p) /\ 0 < p /\ (4 | p) /\ block_size n <= c + 5 /\
    used (lo h) W' ≡ₚ (p, c) :: used (lo h) W /\ free h = free h' + (c + 5) /\
    moved s s' i h h' W W' (used (lo h) W).
Proof.
  intros Hat Hn. pose proof Hat as (Hi & R & Hc). unfold MEM_Allocate. rewrite (proj2 (Z.eqb_neq n 0)) by lia.
  pose proof (new_size_eq n ltac:(lia)) as Hsz. cbv zeta in Hsz |- *.
  set (new_size := u32 _) in *. destruct (rep_bounds _ _ _ R) as (Hlo & Hlo4 & Hb & Ht & Htop & _).
  destruct (Z.ltb_spec (block_size n) (2 ^ 32)) as [Hfit|Hwrap].
  - destruct Hsz as [-> Hle]. rewrite (proj2 (Z.ltb_ge _ _)) by lia.
    destruct (block_size_bounds n) as (Hb1 & Hb2 & Hb3); [lia|].
    mstep_with (ctx_ok s Hc).
    destruct (mem_chunk_get_ok s i h W (block_size n) R Hi Hb2 Hb3) as [[Hno E]|(Hfit' & c1 & sz & c2 & m' & T)].
    + left. split; [done|]. by rewrite (bnd_ok _ _ _ _ _ E).
    + right. split; [done|]. destruct (account_ok _ _ _ _ _ _ _ _ _ Hat T Hb2) as (s' & h' & E' & Hf & Hm).
      destruct T as (E & Hsz & Hs & _ & _ & Hu & _). rewrite (bnd_ok _ _ _ _ _ E).
      apply seg_app in Hs as (Hs1 & _). destruct (seg_total _ _ _ _ Hs1).
      rewrite (proj2 (Z.eqb_neq _ 0)) by lia. cbn [negb].
      eexists s', h', _, _, (sz - 5). split; [exact E'|]. split; [lia|]. split; [|split; [lia|split; [|split; [lia|done]]]].
      * apply Z.divide_add_r; [by apply Z.divide_add_r|by exists 1].
      * rewrite Hu, used_app. simpl. by rewrite Permutation_middle.
  - left. rewrite (proj2 (Z.ltb_lt _ _)) by lia. split; [|done].
    eapply no_fit_total; [apply R|lia].
Qed.

(** ** Freeing *)

Lemma used_split a W p c : (p, c) ∈ used a W ->
  exists b1 sz b2, W = b1 ++ (sz, true) :: b2 /\ p = a + total b1 + 4 /\ c = sz - 5.
Proof.
  revert a. induction W as [|[sz u] W IH]; intros a; simpl; [by intros ?%elem_of_nil|].
  intros [Hin|Hin]%elem_of_app.
  - destruct u; [|by apply elem_of_nil in Hin]. apply list_elem_of_singleton in Hin. simplify_eq.
    exists [], sz, W. simpl. split; [done|]. split; lia.
  - apply IH in Hin as (b1 & sz' & b2 & -> & -> & ->). exists ((sz, u) :: b1), sz', b2.
    simpl. split; [done|]. split; lia.
Qed.

(** The walk ends at the free blocks around [f]. *)
Lemma place_loop_ok s f nx mid n a pre :
  0 < a -> a + total mid <= f < 2 ^ 32 -> seg (memory s) a mid nx ->
  nx = 0 \/ f < nx < 2 ^ 32 -> (length mid < n)%nat ->
  place_loop n f pre (hd a mid nx) s = (s, inr (lastf a mid pre, nx)).
Proof.
  revert n a pre. induction mid as [|[sz u] mid IH]; intros n a pre Ha Hf Hs Hnx Hn;
    (destruct n as [|n]; [simpl in Hn; lia|]).
  - cbn [hd lastf place_loop]. destruct (Z.eqb_spec nx 0); cbn [negb andb]; [done|].
    rewrite (proj2 (Z.ltb_ge _ _)) by lia. done.
  - simpl in Hf, Hn. destruct Hs as ([? ?] & Hw & _ & Hl & Hs).
    pose proof (seg_total _ _ _ _ Hs). destruct u.
    + apply IH; try done; lia.
    + cbn [hd lastf place_loop]. rewrite (proj2 (Z.eqb_neq a 0)) by lia. cbn [negb andb].
      rewrite (proj2 (Z.ltb_lt _ _)) by lia.
      assert (0 <= hd (a + sz) mid nx < 2 ^ 32).
      { destruct (hd_range _ _ _ _ Hs) as [->|]; lia. }
      specialize (Hl eq_refl). step next_of_ok. apply IH; try done; lia.
Qed.

(** The bytes of the payloads [ps] are the same. *)
Definition same_payload (m m' : mem) (ps : list (Z * Z)) : Prop :=
  forall p c, (p, c) ∈ ps -> agree m m' p (p + c).

(** Joining the free block at the end of [d1] with the one after it, if that is free. *)
Lemma join_next s a d1 k1 b2 :
  0 < a -> a + total d1 + k1 + total b2 < 2 ^ 32 ->
  seg (memory s) a (d1 ++ (k1, false) :: b2) 0 ->
  mapped (memory s) a (a + total d1 + k1 + total b2) -> coalesced b2 ->
  let pre := a + total d1 in let next := hd (pre + k1) b2 0 in
  exists m' k3 e2,
    (if negb (next =? 0) then
       let! psize := size_of pre in
       if u32 (pre + psize) =? next then
         let! nsize := size_of next in
         set_size pre (u32 (psize + nsize)) ;;;
         let! nn := next_of next in
         set_next pre nn
       else ret tt
     else ret tt) s = (set_memory m' s, inr tt) /\
    seg m' a (d1 ++ (k3, false) :: e2) 0 /\ coalesced ((k3, false) :: e2) /\
    k3 + total e2 = k1 + total b2 /\ k3 + free_total e2 = k1 + free_total b2 /\
    used (pre + k3) e2 = used (pre + k1) b2 /\
    only (memory s) m' a (a + total d1 + k1 + total b2) /\ dom m' = dom (memory s) /\
    same_payload (memory s) m' (used a d1 ++ used (pre + k1) b2).
Proof.
  intros Ha Htop Hs Hm Hco pre next.
  assert (same_payload (memory s) (memory s) (used a d1 ++ used (pre + k1) b2)) as Hrefl
    by (intros ? ? _; apply agree_refl).
  assert (set_memory (memory s) s = s) as Hid by (by destruct s).
  pose proof Hs as (H1 & [Hs12 Hs4] & Hw & Hd & Hn & H2)%seg_app.
  destruct (seg_total _ _ _ _ H1), (seg_total _ _ _ _ H2). fold pre in Hw, Hd, Hn, H2.
  specialize (Hn eq_refl). assert (pre = a + total d1) as Epre by done. clearbody pre.
  destruct b2 as [|[k2 []] b2].
  - exists (memory s), k1, []. unfold next. cbn [hd Z.eqb negb]. rewrite Hid.
    by split_and!.
  - exists (memory s), k1, ((k2, true) :: b2). rewrite Hid. split; [|by split_and!].
    destruct (Z.eqb_spec next 0) as [E|E]; cbn [negb]; [done|].
    simpl in H2, Htop. destruct H2 as ([? ?] & _ & _ & _ & H2). pose proof (seg_total _ _ _ _ H2).
    unfold size_of at 1. step load32_ok. rewrite wrap_small by lia. rewrite (proj2 (Z.eqb_neq _ _)); [done|].
    unfold next in *. cbn [hd] in *. destruct (hd_range _ _ _ _ H2); lia.
  - cbn [hd] in next. destruct H2 as ([? ?] & Hw2 & Hd2 & Hn2 & H2). specialize (Hn2 eq_refl).
    simpl in Htop, Hm. pose proof (seg_total _ _ _ _ H2). unfold next in *. clear next.
    assert (0 <= hd (pre + k1 + k2) b2 0 < 2 ^ 32) by (destruct (hd_range _ _ _ _ H2); lia).
    set (m1 := wr32 (memory s) pre (k1 + k2)).
    set (m2 := wr32 m1 (pre + 4) (hd (pre + k1 + k2) b2 0)).
    assert (only (memory s) m2 pre (pre + k1)) as Ho by (unfold m2, m1; stores).
    exists m2, (k1 + k2), b2. split; [|split_and!].
    + rewrite (proj2 (Z.eqb_neq (pre + k1) 0)) by lia. cbn [negb].
      unfold size_of, set_size. step load32_ok. rewrite (wrap_small 32 (pre + k1)) by lia. rewrite Z.eqb_refl.
      step load32_ok. rewrite (wrap_small 32 (k1 + k2)) by lia. step store32_ok. fold m1.
      assert (word m1 (pre + k1 + 4) (hd (pre + k1 + k2) b2 0)) as Hw3 by (unfold m1; stores).
      step next_of_ok. rewrite set_next_ok; [done|unfold m1; cbn [memory set_memory]; stores|lia|lia].
    + apply seg_app. split; [|simpl; rewrite <- Epre; split_and!]; try done; try solve [unfold m2, m1; stores].
      * eapply seg_agree, H1. eapply only_agree; [done|lia].
      * lia.
      * by apply Z.divide_add_r.
      * unfold m2, m1. replace (pre + (k1 + k2) - 1) with (pre + k1 + k2 - 1) by lia. stores.
      * intros _. rewrite Z.add_assoc. unfold m2. stores.
      * rewrite Z.add_assoc. eapply seg_agree, H2. eapply only_agree; [done|lia].
    + exact Hco.
    + simpl. lia.
    + simpl. lia.
    + simpl. by rewrite Z.add_assoc.
    + eapply only_weaken; [done|lia|lia].
    + unfold m2, m1. rewrite !wr32_dom by stores. done.
    + intros p c Hin. rewrite Epre in Hin. apply (used_mid (memory s) _ _ 0 a d1 k1 false ((k2, false) :: b2) pre (pre + k1)); [done|done|lia|lia|].
      by rewrite used_hole.
Qed.

Lemma joint_after_used b1 b2 b3 : b2 <> [] -> all_used b2 -> joint (b1 ++ b2) b3.
Proof.
  intros Hne Hu. destruct b2 as [|x b2 _] using rev_ind; [done|]. rewrite app_assoc.
  unfold joint. rewrite last_snoc. apply Forall_app in Hu as [_ Hu]. inv Hu. destruct x as [k u]. simpl in *.
  subst u. by destruct b3 as [|[? ?] ?].
Qed.

Lemma all_used_total m a bs nx : seg m a bs nx -> total bs = 0 -> bs = [].
Proof.
  destruct bs as [|[k u] bs]; [done|]. simpl. intros ([? ?] & _ & _ & _ & Hs) Ht.
  pose proof (seg_total _ _ _ _ Hs). lia.
Qed.

(** Joining the freed block [f] with the free block before it, if there is one that touches it. *)
Section JoinPrev.
Variables (s : st) (i : nat) (h : MEM_Heap_t) (a : Z) (b1 : list blk) (sz : Z) (b2 : list blk).
Let f := a + total b1.
Let nx := hd (f + sz) b2 0.
Hypotheses (Ha : 0 < a) (Htop : f + sz + total b2 < 2 ^ 32).
Hypothesis Hm : mapped (memory s) a (f + sz + total b2).
Hypothesis Hi : mem_heap_list s !! i = Some h.
Hypothesis H1 : seg (memory s) a b1 nx.
Hypothesis Hsz : 12 <= sz /\ (4 | sz).
Hypothesis Hw : word (memory s) f sz.
Hypothesis Hd : memory s !! (f + sz - 1) = Some MEM_BLOCK_STAT_FREE.
Hypothesis Hn : word (memory s) (f + 4) nx.
Hypothesis H2 : seg (memory s) (f + sz) b2 0.
Hypothesis Hl : free_list h = hd a b1 nx.
Hypothesis Hco : coalesced b1.

Definition join_prev_code : K Z :=
  let pre_block := lastf a b1 0 in
  if pre_block =? 0 then
    let! h := heap_get i in
    heap_put i (mk_heap f (base h) (MemHeap.size h) (free h) (free_watermark h)) ;;;
    ret f
  else
    let! psize := size_of pre_block in
    if u32 (pre_block + psize) =? f then
      set_size pre_block (u32 (psize + sz)) ;;; ret pre_block
    else set_next pre_block f ;;; ret f.

Definition joined (m' : mem) (d1 : list blk) (k1 : Z) : Prop :=
  join_prev_code s =
    (set_heaps (<[i := set_list (hd a (d1 ++ (k1, false) :: b2) 0) h]> (mem_heap_list s)) (set_memory m' s),
     inr (a + total d1)) /\
  seg m' a (d1 ++ (k1, false) :: b2) 0 /\
  total d1 + k1 = total b1 + sz /\ free_total d1 + k1 = free_total b1 + sz /\
  used a d1 = used a b1 /\ coalesced d1 /\ (forall k b, joint d1 ((k, false) :: b)) /\
  only (memory s) m' a (f + sz) /\ dom m' = dom (memory s) /\
  same_payload (memory s) m' (used a b1 ++ used (f + sz) b2).

Lemma seg_freed m' :
  agree (memory s) m' f (f + sz + total b2) -> seg m' a b1 f -> seg m' a (b1 ++ (sz, false) :: b2) 0.
Proof.
  intros Hag Hs. pose proof (seg_total _ _ _ _ H2). apply seg_app. split; [done|]. simpl. fold f.
  split; [done|]. split_and!.
  - eapply word_agree, Hw. eapply agree_sub; [done|lia..].
  - rewrite Hag by lia. done.
  - intros _. eapply word_agree, Hn. eapply agree_sub; [done|lia..].
  - eapply seg_agree, H2. eapply agree_sub; [done|lia..].
Qed.

Lemma join_prev_none : all_used b1 -> lastf a b1 0 = 0 -> joined (memory s) b1 sz.
Proof.
  intros Hu E. unfold joined, join_prev_code. rewrite E. cbn [Z.eqb]. split; [|split_and!]; try done.
  - rewrite (bnd_ok _ _ _ _ _ (heap_get_ok s i h Hi)), hd_app, (all_used_hd a) by done. simpl hd.
    fold f. by destruct s.
  - apply seg_freed; [apply agree_refl|]. by eapply seg_all_used.
  - intros k b. by apply joint_all_used.
Qed.

(** Changes within the free block before [f] keep the payloads. *)
Lemma pay_prev m' c1 ps c2 lo hi :
  b1 = c1 ++ (ps, false) :: c2 -> only (memory s) m' lo hi -> a + total c1 <= lo -> hi <= a + total c1 + ps ->
  same_payload (memory s) m' (used a b1 ++ used (f + sz) b2).
Proof.
  intros Eb Ho ? ? p c [Hin|Hin]%elem_of_app.
  - pose proof H1 as Hs. rewrite Eb in Hs, Hin. by eapply used_mid.
  - eapply (used_outside (memory s)); [exact H2|done| |done]. left.
    pose proof H1 as Hs. rewrite Eb in Hs. apply seg_app in Hs as (_ & _ & _ & _ & _ & Hs).
    pose proof (seg_total _ _ _ _ Hs). unfold f. rewrite Eb, total_app. simpl. lia.
Qed.

Lemma join_prev_some c1 ps c2 :
  b1 = c1 ++ (ps, false) :: c2 -> lastf a b1 0 = a + total c1 -> all_used c2 ->
  exists m' d1 k1, joined m' d1 k1.
Proof.
  intros Eb E Hu. pose proof (seg_total _ _ _ _ H2). pose proof H1 as Hs. rewrite Eb in Hs.
  apply seg_app in Hs as (Hc1 & [? ?] & Hpw & Hpd & Hpn & Hc2).
  pose proof (seg_total _ _ _ _ Hc1). pose proof (seg_total _ _ _ _ Hc2).
  assert (f = a + total c1 + ps + total c2) as Ef by (unfold f; rewrite Eb, total_app; simpl; lia).
  specialize (Hpn eq_refl). rewrite all_used_hd in Hpn by done.
  set (pre := a + total c1) in *.
  assert (size_of pre s = (s, inr ps)) as Esz by (apply load32_ok; [done|lia]).
  assert (free_list h = hd a (b1 ++ (sz, false) :: b2) 0) as Hl'.
  { rewrite Hl, hd_app. rewrite Eb, !hd_app. done. }
  unfold joined, join_prev_code. rewrite E. rewrite (proj2 (Z.eqb_neq pre 0)) by lia.
  setoid_rewrite (bnd_ok _ _ _ _ _ Esz). rewrite (wrap_small 32 (pre + ps)) by lia.
  destruct (Z.eqb_spec (pre + ps) f) as [Et|Et].
  - assert (c2 = []) as -> by (eapply all_used_total; [exact Hc2|lia]).
    set (m' := wr32 (memory s) pre (ps + sz)). exists m', c1, (ps + sz).
    assert (only (memory s) m' pre f) as Ho by (unfold m'; stores).
    split; [|split; [|split_and!]]; try done.
    + assert (hd a (c1 ++ (ps + sz, false) :: b2) 0 = free_list h) as -> by (rewrite Hl', Eb, !hd_app; done).
      rewrite (wrap_small 32) by lia. unfold set_size. step store32_ok.
      rewrite set_list_id, set_heaps_id by done. done.
    + simpl in Hpn. apply seg_app. split; [|simpl; fold pre; split_and!]; try done; try solve [unfold m'; stores].
      * eapply seg_agree, Hc1. eapply only_agree; [done|lia].
      * lia.
      * apply Z.divide_add_r; [done|apply Hsz].
      * rewrite Ho by lia. replace (pre + (ps + sz) - 1) with (f + sz - 1) by lia. done.
      * intros _. replace (pre + (ps + sz)) with (f + sz) by lia. unfold m'. stores.
      * replace (pre + (ps + sz)) with (f + sz) by lia. eapply seg_agree, H2. eapply only_agree; [done|lia].
    + rewrite Eb, total_app. simpl. lia.
    + rewrite Eb, free_total_app. simpl. lia.
    + rewrite Eb, used_hole. simpl. by rewrite app_nil_r.
    + rewrite Eb in Hco. apply coalesced_app in Hco. apply Hco.
    + intros k b. rewrite Eb in Hco. apply coalesced_app in Hco as (_ & _ & Hj). by eapply joint_head.
    + eapply only_weaken; [done|lia|lia].
    + unfold m'. by rewrite wr32_dom by stores.
    + eapply (pay_prev _ c1 ps []); [exact Eb|exact Ho|unfold pre; lia|unfold pre in *; simpl in *; lia].
  - exists (wr32 (memory s) (pre + 4) f), b1, sz. rewrite <- Hl'. split; [|split_and!]; try done.
    + step set_next_ok. rewrite set_list_id, set_heaps_id by done. done.
    + apply seg_freed; [apply wr32_agree; lia|]. rewrite Eb. eapply seg_relink; [stores|apply word_wr32|done|].
      rewrite <- Eb. exact H1.
    + intros k b. rewrite Eb, cons_middle, app_assoc. apply joint_after_used; [|done]. intros ->. simpl in *. lia.
    + stores.
    + by rewrite wr32_dom by stores.
    + eapply pay_prev; [done|apply wr32_only|lia|lia].
Qed.

Lemma join_prev_ok : exists m' d1 k1, joined m' d1 k1.
Proof.
  destruct (lastf_split _ _ _ _ Ha H1) as [[E Hu]|(c1 & ps & c2 & Eb & E & Hu)].
  - exists (memory s), b1, sz. by apply join_prev_none.
  - by eapply join_prev_some.
Qed.

End JoinPrev.

(** The state of a heap after the marking of [f] as free, before the joins. *)
Definition marked s i h f sz nx : st :=
  mk_st (wr32 (wr8 (memory s) (f + sz - 1) MEM_BLOCK_STAT_FREE) (f + 4) nx)
    (<[i := mk_heap (free_list h) (base h) (size h) (u32 (free h + sz)) (free_watermark h)]> (mem_heap_list s))
    (u32 (s_heap_free_size s + sz)) (s_heap_free_size_watermark s) (s_heap_ctx s).

Section Dealloc.
Variables (s : st) (i : nat) (h : MEM_Heap_t) (b1 : list blk) (sz : Z) (b2 : list blk).
Let W := b1 ++ (sz, true) :: b2.
Hypothesis Hat : heap_at s i h W.
Let f := lo h + total b1.
Let nx := hd (f + sz) b2 0.
Let h2 := mk_heap (free_list h) (base h) (size h) (free h + sz) (free_watermark h).

Lemma dealloc_facts :
  0 < lo h /\ 12 <= sz /\ (4 | sz) /\ 0 <= total b1 /\ 0 <= total b2 /\
  f + sz + total b2 < 2 ^ 32 /\ total W = total b1 + sz + total b2 /\
  word (memory s) f sz /\ memory s !! (f + sz - 1) = Some MEM_BLOCK_STAT_USE /\
  seg (memory s) (lo h) b1 nx /\ seg (memory s) (f + sz) b2 0 /\
  mapped (memory s) (lo h) (f + sz + total b2) /\
  0 <= free h /\ free h + sz < 2 ^ 32 /\ free h = free_total b1 + free_total b2 /\
  (nx = 0 \/ f < nx < 2 ^ 32) /\ coalesced b1 /\ coalesced b2.
Proof.
  destruct Hat as (Hi & R & Hc). destruct (rep_bounds _ _ _ R) as (Hlo & _ & _ & Htop & Htop2 & _).
  pose proof (rep_seg _ _ _ R) as (H1 & [? ?] & Hw & Hd & _ & H2)%seg_app.
  destruct (seg_total _ _ _ _ H1), (seg_total _ _ _ _ H2).
  pose proof (seg_free _ _ _ _ H1). pose proof (seg_free _ _ _ _ H2).
  assert (total W = total b1 + sz + total b2) as HtW by (unfold W; rewrite total_app; simpl; lia).
  pose proof (rep_free _ _ _ R) as Hf. unfold W in Hf. rewrite free_total_app in Hf. simpl in Hf.
  pose proof (rep_coal _ _ _ R) as Hco. apply coalesced_app in Hco as (? & Hc2 & _). destruct Hc2.
  pose proof (rep_map _ _ _ R) as Hm. rewrite HtW in Hm, Htop. fold f in Hw, Hd, H2.
  assert (nx = 0 \/ f < nx < 2 ^ 32) by (destruct (hd_range _ _ _ _ H2); unfold nx, f in *; lia).
  split_and!; try done; unfold f in *; try lia. eapply mapped_sub; [done|lia|lia].
Qed.

(** The deallocation up to the joins. *)
Lemma dealloc_head (k : Z -> Z -> Z -> K unit) :
  (let! pdog := MEM_DOG_ADDR f in
   let! dog := load8 pdog in
   if negb (dog =? MEM_BLOCK_STAT_USE) then
     ctx_call ;;; (if dog =? MEM_BLOCK_STAT_FREE then ctx_call else ret tt)
   else
     ctx_call ;;;
     store8 pdog MEM_BLOCK_STAT_FREE ;;;
     let! fsize := size_of f in
     let! h := heap_get i in
     heap_put i (mk_heap (free_list h) (base h) (size h) (u32 (free h + fsize)) (free_watermark h)) ;;;
     modify (fun s => set_total (u32 (s_heap_free_size s + fsize)) (s_heap_free_size_watermark s) s) ;;;
     let! (pre_block, next_block) := place_loop (walk_fuel h) f 0 (free_list h) in
     set_next f next_block ;;;
     k fsize pre_block next_block) s
  = k sz (lastf (lo h) b1 0) nx (marked s i h f sz nx).
Proof.
  destruct dealloc_facts as (Hlo & Hs12 & Hs4 & Htb1 & Htb2 & Htop & HtW & Hw & Hd & H1 & H2 & Hm & Hf0 & Hf1 & Hf & Hnx & _).
  pose proof Hat as (Hi & R & Hc).
  step dog_addr_ok. step load8_ok. cbn [Z.eqb negb]. rewrite Z.eqb_refl. cbn [negb].
  rewrite (bnd_ok _ _ _ _ _ (ctx_ok s Hc)). step store8_ok.
  set (m0 := wr8 (memory s) (f + sz - 1) MEM_BLOCK_STAT_FREE).
  assert (word m0 f sz) by (unfold m0; stores). unfold size_of. step load32_ok.
  rewrite (bnd_ok _ _ _ _ _ (heap_get_ok (set_memory m0 s) i h Hi)).
  rewrite (bnd_ok _ _ _ _ _ (heap_put_eq _ _ _)), bnd_modify.
  assert (free_list h = hd (lo h) b1 nx) as Efl by (rewrite (rep_list _ _ _ R); unfold W; by rewrite hd_app).
  unfold marked. rewrite Efl.
  pose proof (walk_fuel_ok _ _ _ R) as Hfuel. unfold W in Hfuel. rewrite length_app in Hfuel. simpl in Hfuel.
  assert (seg m0 (lo h) b1 nx) by (eapply seg_agree, H1; apply wr8_agree; unfold f; lia).
  erewrite bnd_ok; [|apply place_loop_ok; [done|unfold f in *; lia|done|done|lia]]. cbv beta iota.
  erewrite bnd_ok; [|apply set_next_ok; cbn [memory set_total set_heaps set_memory]; [unfold m0; stores|lia|lia]].
  reflexivity.
Qed.

(** [MEM_Deallocate] gives the block back; the blocks beside it may join it. *)
Lemma MEM_Deallocate_eq p : p = f + 4 ->
  MEM_Deallocate (Some i) p s =
  (let! pre_block := join_prev_code i (lo h) b1 sz in
   if negb (nx =? 0) then
     let! psize := size_of pre_block in
     if u32 (pre_block + psize) =? nx then
       let! nsize := size_of nx in
       set_size pre_block (u32 (psize + nsize)) ;;;
       let! nn := next_of nx in
       set_next pre_block nn
     else ret tt
   else ret tt) (marked s i h f sz nx).
Proof.
  intros ->.
  destruct dealloc_facts as (Hlo & Hs12 & Hs4 & Htb1 & Htb2 & Htop & HtW & Hw & Hd & H1 & H2 & Hm & Hf0 & Hf1 & Hf & Hnx & _).
  unfold MEM_Deallocate. rewrite (proj2 (Z.eqb_neq _ 0)) by (unfold f; lia).
  cbv zeta. unfold MEM_BLOCK_HEAD_SIZE. rewrite (wrap_small 32) by (unfold f in *; lia).
  replace (f + 4 - (8 - 4)) with f by lia. refine (dealloc_head _).
Qed.

Let s2 := marked s i h f sz nx.

Lemma marked_only : only (memory s) (memory s2) f (f + sz) /\ dom (memory s2) = dom (memory s).
Proof.
  destruct dealloc_facts as (Hlo & Hs12 & Hs4 & Htb1 & Htb2 & Htop & HtW & _ & _ & _ & _ & Hm & _).
  unfold s2, marked. cbn [memory]. unfold f in *. split; [stores|]. by rewrite wr32_dom, wr8_dom by stores.
Qed.

Lemma join_prev_marked : exists m2 d1 k1, joined s2 i h2 (lo h) b1 sz b2 m2 d1 k1.
Proof.
  destruct dealloc_facts as (Hlo & Hs12 & Hs4 & Htb1 & Htb2 & Htop & HtW & Hw & Hd & H1 & H2 & Hm & Hf0 & Hf1 & Hf & Hnx & Hc1 & Hc2).
  destruct marked_only as [Ho Hdom]. pose proof Hat as (Hi & R & Hctx).
  assert (mem_heap_list s2 !! i = Some h2) as Hi2.
  { unfold s2, marked. cbn [mem_heap_list]. rewrite wrap_small by lia. apply list_lookup_insert_eq.
    by eapply lookup_lt_Some. }
  apply join_prev_ok; try done; fold f nx.
  - by eapply mapped_dom.
  - eapply seg_agree, H1. eapply only_agree; [done|]. unfold f. lia.
  - unfold s2, marked. cbn [memory]. stores.
  - unfold s2, marked. cbn [memory]. stores.
  - unfold s2, marked. cbn [memory]. stores.
  - eapply seg_agree, H2. eapply only_agree; [done|]. lia.
  - cbn [free_list h2]. rewrite (rep_list _ _ _ R). unfold W. by rewrite hd_app.
Qed.

Lemma keeps_through m1 m2 m3 W' :
  only (memory s) m1 f (f + sz) -> only m1 m2 (lo h) (f + sz) -> only m2 m3 (lo h) (f + sz + total b2) ->
  dom m3 = dom (memory s) -> total W' = total W ->
  used (lo h) W' = used (lo h) b1 ++ used (f + sz) b2 ->
  same_payload m1 m2 (used (lo h) b1 ++ used (f + sz) b2) ->
  same_payload m2 m3 (used (lo h) b1 ++ used (f + sz) b2) ->
  keeps (memory s) m3 (lo h) W W' (used (lo h) W').
Proof.
  intros Ho1 Ho2 Ho3 Hd Ht Hu Hp2 Hp3. destruct dealloc_facts as (Hlo & Hs12 & Hs4 & Htb1 & Htb2 & Htop & HtW & _).
  destruct Hat as (_ & R & _). split; [|done|done|].
  - assert (only (memory s) m2 (lo h) (f + sz)) as Ho by (eapply only_trans; [exact Ho1|exact Ho2|unfold f; lia..]).
    eapply only_trans; [exact Ho|exact Ho3|unfold f in *; lia..].
  - intros q l Hin. rewrite Hu in Hin.
    eapply agree_trans; [|by apply Hp3]. eapply agree_trans; [|by apply Hp2].
    rewrite <- used_hole in Hin. eapply used_mid; [apply R|exact Ho1|unfold f; lia|unfold f; lia|exact Hin].
Qed.

Lemma free_moved s' m3 W' :
  seg m3 (lo h) W' 0 -> coalesced W' -> keeps (memory s) m3 (lo h) W W' (used (lo h) W') ->
  free_total W' = free h + sz ->
  let h' := mk_heap (hd (lo h) W' 0) (base h) (size h) (free_total W') (free_watermark h) in
  s' = mk_st m3 (<[i := h']> (mem_heap_list s)) (u32 (s_heap_free_size s + sz)) (s_heap_free_size_watermark s)
         (s_heap_ctx s) ->
  moved s s' i h h' W W' (used (lo h) W').
Proof.
  intros Hs Hc Hk Hf h' ->. destruct Hat as (Hi & R & Hctx).
  split; cbn [mem_heap_list memory s_heap_free_size]; try done.
  - split; [|split; [|done]]; cbn [mem_heap_list memory].
    + apply list_lookup_insert_eq. by eapply lookup_lt_Some.
    + apply (rep_change (memory s) _ _ W); [done..|]. eapply keeps_payloads, Hk. by intros x ?%elem_of_nil.
  - f_equal. cbn [free h']. lia.
Qed.

Lemma MEM_Deallocate_ok p c : p = f + 4 -> c = sz - 5 ->
  exists s' h' W',
    MEM_Deallocate (Some i) p s = (s', inr tt) /\ used (lo h) W ≡ₚ (p, c) :: used (lo h) W' /\
    free h' = free h + (c + 5) /\ moved s s' i h h' W W' (used (lo h) W').
Proof.
  intros Hp Hc. rewrite (MEM_Deallocate_eq p Hp). fold s2.
  destruct dealloc_facts as (Hlo & Hs12 & Hs4 & Htb1 & Htb2 & Htop & HtW & Hw & Hd & H1 & H2 & Hm & Hf0 & Hf1 & Hf & Hnx & Hc1 & Hc2).
  pose proof Hat as (Hi & R & Hctx). destruct marked_only as [Ho2 Hd2].
  destruct join_prev_marked as (m2 & d1 & k1 & E & Hs & Htot & Hft & Hu & Hcd & Hj & Ho3 & Hd3 & Hp3).
  rewrite (bnd_ok _ _ _ _ _ E). fold f in Ho3, Hp3.
  set (fl := hd (lo h) (d1 ++ (k1, false) :: b2) 0) in *. set (s4 := set_heaps _ _).
  assert (lo h + total d1 + k1 = f + sz) as Epk by (unfold f; lia).
  destruct (join_next s4 (lo h) d1 k1 b2) as (m3 & k3 & e2 & E4 & Hs4' & Hc4 & Ht4 & Hf4 & Hu4 & Ho4 & Hd4 & Hp4);
    [done|lia|done|rewrite Epk; cbn [memory s4 set_heaps set_memory]; repeat (eapply mapped_dom; [eassumption|]); done|done|].
  rewrite Epk in E4, Hu4, Ho4, Hp4. fold nx in E4. cbn [memory s4 set_heaps set_memory] in *.
  set (W' := d1 ++ (k3, false) :: e2) in *.
  assert (used (lo h) W' = used (lo h) b1 ++ used (f + sz) b2) as HuW by (unfold W'; rewrite used_hole, Hu, Hu4; done).
  assert (free_total W' = free h + sz) as HfW by (unfold W'; rewrite free_total_app; simpl; lia).
  assert (total W' = total W) as HtW' by (unfold W'; rewrite total_app; simpl; lia).
  assert (fl = hd (lo h) W' 0) as Efl by (unfold fl, W'; rewrite !hd_app; done).
  assert (keeps (memory s) m3 (lo h) W W' (used (lo h) W')) as Hk.
  { apply (keeps_through (memory s2) m2 m3 W'); try done; try congruence.
    by rewrite Hu in Hp4. }
  exists (set_memory m3 s4), (mk_heap (hd (lo h) W' 0) (base h) (size h) (free_total W') (free_watermark h)), W'.
  split; [exact E4|]. split; [|split; [cbn [free]; lia|]].
  - unfold W. rewrite HuW, used_app. simpl. fold f. rewrite <- Permutation_middle. by subst p c.
  - apply (free_moved _ m3); try done.
    + apply coalesced_app. split; [done|]. split; [done|apply Hj].
    + unfold s4, set_heaps, set_memory, set_list, s2, marked. cbn.
      by rewrite list_insert_insert_eq, Efl, HfW.
Qed.

End Dealloc.

(** ** Payloads *)

(** Stores within a payload keep the blocks. *)
Lemma seg_payload m m' a bs nx p c :
  (p, c) ∈ used a bs -> only m m' p (p + c) -> seg m a bs nx -> seg m' a bs nx.
Proof.
  intros (b1 & sz & b2 & -> & -> & ->)%used_split Ho (H1 & Hsz & Hw & Hd & Hn & H2)%seg_app.
  pose proof (seg_total _ _ _ _ H1). pose proof (seg_total _ _ _ _ H2).
  apply seg_app. split; [|simpl; split_and!]; try done; try apply Hsz.
  - eapply seg_agree, H1. eapply only_agree; [done|lia].
  - eapply word_agree, Hw. eapply only_agree; [done|lia].
  - rewrite Ho by lia. done.
  - eapply seg_agree, H2. eapply only_agree; [done|lia].
Qed.

(** Two payloads do not overlap. *)
Definition apart (x y : Z * Z) : Prop := x.1 + x.2 < y.1 \/ y.1 + y.2 < x.1.

Fixpoint sep (l : list (Z * Z)) : Prop :=
  match l with [] => True | x :: l => Forall (apart x) l /\ sep l end.

Lemma sep_perm l l' : l ≡ₚ l' -> sep l -> sep l'.
Proof.
  induction 1 as [|x l l' Hp IH|x y l|l1 l2 l3 _ IH1 _ IH2]; simpl; [done| | |by auto].
  - intros [? ?]. split; [by rewrite <- Hp|auto].
  - intros [Hx [Hy ?]]. inv Hx. split; [constructor; [|done]|by split].
    unfold apart in *. lia.
Qed.

Lemma used_sep m a bs nx : seg m a bs nx -> sep (used a bs).
Proof.
  revert a. induction bs as [|[sz u] bs IH]; intros a; simpl; [done|].
  intros ([? ?] & _ & _ & _ & Hs). destruct u; [|by apply IH]. simpl. split; [|by apply IH].
  apply Forall_forall. intros [p c] Hin. apply (blocks_used_range _ _ _ _ _ _ Hs) in Hin.
  unfold apart. simpl. lia.
Qed.

End MemHeapSpec.
