(* ===== verification/MemHeapApi.v ===== *)
(** * The memory heap as its clients see it

    All the heaps together: allocation without a handle searches them in turn, freeing
    finds the heap by the address. A client that frees and accesses only what it was
    given sees disjoint buffers that keep their bytes. *)
From S2P Require Import Prelude Client Mem MemHeap MemHeapSpec.
Open Scope Z_scope.
Open Scope fw_scope.

Module MemHeapApi.
Import MemHeap MemHeapSpec.
Implicit Types (s : st).

(** ** All the heaps *)

Fixpoint free_sum (Ws : list (list blk)) : Z :=
  match Ws with [] => 0 | W :: Ws => free_total W + free_sum Ws end.

Definition beside (h h' : MEM_Heap_t) : Prop :=
  base h + size h <= base h' \/ base h' + size h' <= base h.

(** The first [length Ws] heaps exist and hold the blocks [Ws]; the others are unused. *)
Record heaps_ok s (Ws : list (list blk)) : Prop := {
  ok_four : length (mem_heap_list s) = MEM_HEAP_LIST_NUM;
  ok_ctx : s_heap_ctx s = true;
  ok_at i W : Ws !! i = Some W -> exists h, heap_at s i h W;
  ok_unused i h : mem_heap_list s !! i = Some h -> Ws !! i = None -> size h = 0;
  ok_beside i j h h' : i <> j -> is_Some (Ws !! i) -> is_Some (Ws !! j) ->
    mem_heap_list s !! i = Some h -> mem_heap_list s !! j = Some h' -> beside h h';
  ok_total : s_heap_free_size s = u32 (free_sum Ws)
}.

(** [p] is a payload of [c] bytes that is handed out. *)
Definition handed s (Ws : list (list blk)) (p c : Z) : Prop :=
  exists i h W, mem_heap_list s !! i = Some h /\ Ws !! i = Some W /\ (p, c) ∈ used (lo h) W.

Lemma free_sum_insert Ws i W W' :
  Ws !! i = Some W -> free_sum (<[i := W']> Ws) = free_sum Ws - free_total W + free_total W'.
Proof.
  revert i. induction Ws as [|V Ws IH]; intros i Hi; [done|]. destruct i as [|i]; simpl in *.
  - simplify_eq. lia.
  - rewrite IH by done. lia.
Qed.

Lemma at_range s i h W : heap_at s i h W -> base h <= lo h /\ lo h + total W <= base h + size h /\ 0 < base h.
Proof.
  intros (_ & R & _). destruct (rep_bounds _ _ _ R) as (? & ? & ? & ? & ? & ?).
  pose proof (rep_base _ _ _ R). split_and!; lia.
Qed.

(** Where the heaps lie: a range within one is outside the others. *)
Lemma other_outside s Ws i j h h' W W' :
  heaps_ok s Ws -> i <> j -> Ws !! i = Some W -> Ws !! j = Some W' ->
  heap_at s i h W -> heap_at s j h' W' ->
  lo h + total W <= lo h' \/ lo h' + total W' <= lo h.
Proof.
  intros O Hij Hi Hj Ai Aj. pose proof (at_range _ _ _ _ Ai). pose proof (at_range _ _ _ _ Aj).
  destruct (ok_beside _ _ O i j h h'); try done; [by apply Ai|by apply Aj| |]; lia.
Qed.

Lemma rep_agree m m' h W :
  agree m m' (lo h) (lo h + total W) -> dom m' = dom m -> heap_rep m h W -> heap_rep m' h W.
Proof.
  intros Ha Hd R. destruct R. split; try done; [by eapply mapped_dom|by eapply seg_agree].
Qed.

(** An operation on one heap keeps the others, and the payloads of all. *)
Lemma heaps_moved s s' Ws i h h' W W' :
  heaps_ok s Ws -> Ws !! i = Some W -> heap_at s i h W ->
  moved s s' i h h' W W' (used (lo h) W') \/ moved s s' i h h' W W' (used (lo h) W) ->
  heaps_ok s' (<[i := W']> Ws) /\ lo h' = lo h /\
  (forall j hj Wj, j <> i -> mem_heap_list s !! j = Some hj -> Ws !! j = Some Wj ->
     agree (memory s) (memory s') (lo hj) (lo hj + total Wj)).
Proof.
  intros O HW A Hm.
  assert (exists ps, moved s s' i h h' W W' ps) as [ps M] by (destruct Hm; eauto). clear Hm.
  destruct M as [A' Hl Ht [Hb Hs] [Ho Hd HtW _]].
  assert (lo h' = lo h) as Elo by (unfold lo; by rewrite Hb).
  assert (i < length (mem_heap_list s))%nat as Hlt by (eapply lookup_lt_Some, A).
  assert (i < length Ws)%nat as HltW by (by eapply lookup_lt_Some).
  assert (forall j hj Wj, j <> i -> mem_heap_list s !! j = Some hj -> Ws !! j = Some Wj ->
     agree (memory s) (memory s') (lo hj) (lo hj + total Wj)) as Hother.
  { intros j hj Wj Hj Hlj HWj. eapply only_agree; [exact Ho|].
    destruct (ok_at _ _ O j Wj HWj) as [hj' Aj]. pose proof Aj as (Hlj' & _). simplify_eq.
    destruct (other_outside s Ws i j h hj W Wj); auto. }
  split; [|done]. split.
  - rewrite Hl, length_insert. apply O.
  - apply A'.
  - intros j V HV. destruct (decide (j = i)) as [->|Hj].
    + rewrite list_lookup_insert_eq in HV by done. simplify_eq. eauto.
    + rewrite list_lookup_insert_ne in HV by done. destruct (ok_at _ _ O j V HV) as (hj & Hlj & R & _).
      exists hj. split; [by rewrite Hl, list_lookup_insert_ne|]. split; [|apply A'].
      eapply rep_agree; [by eapply Hother|done|done].
  - intros j hj Hlj HWj. destruct (decide (j = i)) as [->|Hj].
    + by rewrite list_lookup_insert_eq in HWj.
    + rewrite list_lookup_insert_ne in HWj by done. rewrite Hl, list_lookup_insert_ne in Hlj by done.
      by apply (ok_unused _ _ O j).
  - assert (forall j hj, mem_heap_list s' !! j = Some hj ->
      exists hj0, mem_heap_list s !! j = Some hj0 /\ base hj = base hj0 /\ size hj = size hj0) as Hsame.
    { intros j hj Hlj. rewrite Hl in Hlj. destruct (decide (j = i)) as [->|Hj].
      - rewrite list_lookup_insert_eq in Hlj by done. simplify_eq. exists h. by split; [apply A|].
      - rewrite list_lookup_insert_ne in Hlj by done. eauto. }
    intros j k hj hk Hjk Hj Hk Hlj Hlk.
    destruct (Hsame _ _ Hlj) as (hj0 & ? & ? & ?), (Hsame _ _ Hlk) as (hk0 & ? & ? & ?).
    assert (forall x, is_Some (<[i:=W']> Ws !! x) -> is_Some (Ws !! x)) as Hx.
    { intros x. rewrite !lookup_lt_is_Some. by rewrite length_insert. }
    pose proof (ok_beside _ _ O j k hj0 hk0) as Hbs. unfold beside in *.
    rewrite H0, H1, H3, H4. by apply Hbs; auto.
  - rewrite Ht, (ok_total _ _ O), (free_sum_insert _ _ W) by done.
    destruct A as (_ & R & _), A' as (_ & R' & _). rewrite (rep_free _ _ _ R), (rep_free _ _ _ R').
    unfold wrap. rewrite <- Z.add_sub_swap, <- Z.add_sub_assoc, Zplus_mod_idemp_l. f_equal. lia.
Qed.

(** ** What is handed out *)

Lemma handed_range s Ws p c : heaps_ok s Ws -> handed s Ws p c ->
  exists i h W, heap_at s i h W /\ Ws !! i = Some W /\ (p, c) ∈ used (lo h) W /\
    lo h + 4 <= p /\ 7 <= c /\ p + c + 1 <= lo h + total W.
Proof.
  intros O (i & h & W & Hi & HW & Hin). destruct (ok_at _ _ O i W HW) as [h' A].
  pose proof A as (Hi' & R & _). simplify_eq.
  pose proof (blocks_used_range _ _ _ _ _ _ (rep_seg _ _ _ R) Hin). by exists i, h, W.
Qed.

Lemma sep_in l x y : sep l -> x ∈ l -> y ∈ l -> x = y \/ apart x y.
Proof.
  induction l as [|z l IH]; simpl; [by intros _ ?%elem_of_nil|].
  intros [Hz Hs] Hx Hy. rewrite Forall_forall in Hz. apply elem_of_cons in Hx, Hy.
  destruct Hx as [->|Hx], Hy as [->|Hy]; auto. apply Hz in Hx. right. unfold apart in *. lia.
Qed.

(** Two payloads are the same one, or do not overlap. *)
Lemma handed_apart s Ws p c q d :
  heaps_ok s Ws -> handed s Ws p c -> handed s Ws q d -> (p, c) = (q, d) \/ apart (p, c) (q, d).
Proof.
  intros O Hp Hq.
  destruct (handed_range _ _ _ _ O Hp) as (i & h & W & A & HW & Hin & ? & ? & ?).
  destruct (handed_range _ _ _ _ O Hq) as (j & h' & W' & A' & HW' & Hin' & ? & ? & ?).
  destruct (decide (i = j)) as [->|Hij].
  - simplify_eq. destruct A as (Hj & R & _), A' as (Hj' & _). simplify_eq.
    eapply sep_in; [by eapply used_sep, R|done|done].
  - right. destruct (other_outside s Ws i j h h' W W'); try done; unfold apart; simpl; lia.
Qed.

(** [p] was handed out: a new payload of [c] bytes, the others as they were. *)
Definition granted_at s s' Ws Ws' n p c : Prop :=
  heaps_ok s' Ws' /\ 0 < p /\ (4 | p) /\ block_size n <= c + 5 /\
  (forall q d, handed s' Ws' q d <-> (q, d) = (p, c) \/ handed s Ws q d) /\
  (forall q d, handed s Ws q d -> agree (memory s) (memory s') q (q + d) /\ apart (p, c) (q, d)).

Definition granted s s' Ws n p : Prop := exists Ws' c, granted_at s s' Ws Ws' n p c.

(** [p] was taken back: its payload is gone, the others are as they were. *)
Definition taken_back s s' Ws p c : Prop :=
  exists Ws', heaps_ok s' Ws' /\
    (forall q d, handed s Ws q d <-> (q, d) = (p, c) \/ handed s' Ws' q d) /\
    (forall q d, handed s' Ws' q d -> agree (memory s) (memory s') q (q + d) /\ apart (p, c) (q, d)).

(** The payloads after the blocks of heap [i] changed. *)
Lemma handed_insert s s' Ws i h h' W W' q d :
  mem_heap_list s' = <[i := h']> (mem_heap_list s) -> mem_heap_list s !! i = Some h -> Ws !! i = Some W ->
  lo h' = lo h ->
  handed s' (<[i := W']> Ws) q d <->
    (q, d) ∈ used (lo h) W' \/
    exists j hj Wj, j <> i /\ mem_heap_list s !! j = Some hj /\ Ws !! j = Some Wj /\ (q, d) ∈ used (lo hj) Wj.
Proof.
  intros Hl Hi HW Elo. unfold handed. rewrite Hl.
  assert (i < length (mem_heap_list s))%nat by (by eapply lookup_lt_Some).
  assert (i < length Ws)%nat by (by eapply lookup_lt_Some). split.
  - intros (j & hj & Wj & Hj & HWj & Hin). destruct (decide (j = i)) as [->|Hne].
    + rewrite list_lookup_insert_eq in Hj by done. rewrite list_lookup_insert_eq in HWj by done. simplify_eq. rewrite Elo in Hin. by left.
    + rewrite list_lookup_insert_ne in Hj by done. rewrite list_lookup_insert_ne in HWj by done.
      right. by exists j, hj, Wj.
  - intros [Hin|(j & hj & Wj & Hne & Hj & HWj & Hin)].
    + exists i, h', W'. rewrite !list_lookup_insert_eq by done. by rewrite Elo.
    + exists j, hj, Wj. by rewrite !list_lookup_insert_ne.
Qed.

Lemma handed_split s Ws i h W q d :
  mem_heap_list s !! i = Some h -> Ws !! i = Some W ->
  handed s Ws q d <->
    (q, d) ∈ used (lo h) W \/
    exists j hj Wj, j <> i /\ mem_heap_list s !! j = Some hj /\ Ws !! j = Some Wj /\ (q, d) ∈ used (lo hj) Wj.
Proof.
  intros Hi HW. rewrite <- (handed_insert s s Ws i h h W W) by (rewrite ?list_insert_id; done).
  by rewrite list_insert_id.
Qed.

(** The payloads of one heap against one block more or less: the bytes and the places of the others. *)
Lemma others_apart s s' Ws i h (W W' V : list blk) p c :
  heaps_ok s Ws -> Ws !! i = Some W -> heap_at s i h W ->
  (forall j hj Wj, j <> i -> mem_heap_list s !! j = Some hj -> Ws !! j = Some Wj ->
     agree (memory s) (memory s') (lo hj) (lo hj + total Wj)) ->
  keeps (memory s) (memory s') (lo h) W W' (used (lo h) V) ->
  sep ((p, c) :: used (lo h) V) -> lo h <= p -> p + c <= lo h + total W ->
  forall q d,
    (q, d) ∈ used (lo h) V \/
    (exists j hj Wj, j <> i /\ mem_heap_list s !! j = Some hj /\ Ws !! j = Some Wj /\ (q, d) ∈ used (lo hj) Wj) ->
    agree (memory s) (memory s') q (q + d) /\ apart (p, c) (q, d).
Proof.
  intros O HW A Hother Hk [Hsep _] Hlo Hhi q d [Hin|(j & hj & Wj & Hne & Hj & HWj & Hin)].
  - split; [by apply (keep_payload _ _ _ _ _ _ Hk)|]. rewrite Forall_forall in Hsep. by apply Hsep.
  - destruct (ok_at _ _ O j Wj HWj) as (hj' & Aj). pose proof Aj as (Hj' & Rj & _). simplify_eq.
    pose proof (blocks_used_range _ _ _ _ _ _ (rep_seg _ _ _ Rj) Hin). split.
    + eapply agree_sub; [by eapply Hother|lia|lia].
    + destruct (other_outside s Ws i j h hj W Wj); try done; unfold apart; simpl; lia.
Qed.

Lemma granted_ok s s' Ws i h h' W W' n p c :
  heaps_ok s Ws -> Ws !! i = Some W -> heap_at s i h W -> 0 < p -> (4 | p) -> block_size n <= c + 5 ->
  used (lo h) W' ≡ₚ (p, c) :: used (lo h) W -> moved s s' i h h' W W' (used (lo h) W) ->
  granted s s' Ws n p.
Proof.
  intros O HW A Hp Hp4 Hc Hu M.
  destruct (heaps_moved s s' Ws i h h' W W' O HW A (or_intror M)) as (O' & Elo & Hother).
  destruct M as [A' Hl _ _ Hk]. pose proof A as (Hi & R & _). pose proof A' as (_ & R' & _).
  pose proof (rep_seg _ _ _ R') as Hs'. rewrite Elo in Hs'.
  assert ((p, c) ∈ used (lo h) W') as Hin by (rewrite Hu; apply elem_of_cons; auto).
  pose proof (blocks_used_range _ _ _ _ _ _ Hs' Hin). pose proof (keep_total _ _ _ _ _ _ Hk).
  exists (<[i := W']> Ws), c. split_and!; try done.
  - intros q d. rewrite (handed_insert s s' Ws i h h' W W'), (handed_split s Ws i h W) by done.
    rewrite Hu, elem_of_cons. tauto.
  - intros q d Hq. apply (handed_split s Ws i h W) in Hq; [|done|done].
    eapply others_apart; try done; [|lia|lia]. eapply sep_perm; [done|]. by eapply used_sep.
Qed.

Lemma taken_back_ok s s' Ws i h h' W W' p c :
  heaps_ok s Ws -> Ws !! i = Some W -> heap_at s i h W ->
  used (lo h) W ≡ₚ (p, c) :: used (lo h) W' -> moved s s' i h h' W W' (used (lo h) W') ->
  taken_back s s' Ws p c.
Proof.
  intros O HW A Hu M.
  destruct (heaps_moved s s' Ws i h h' W W' O HW A (or_introl M)) as (O' & Elo & Hother).
  destruct M as [A' Hl _ _ Hk]. pose proof A as (Hi & R & _). pose proof (rep_seg _ _ _ R) as Hs.
  assert ((p, c) ∈ used (lo h) W) as Hin by (rewrite Hu; apply elem_of_cons; auto).
  pose proof (blocks_used_range _ _ _ _ _ _ Hs Hin).
  exists (<[i := W']> Ws). split_and!; try done.
  - intros q d. rewrite (handed_insert s s' Ws i h h' W W'), (handed_split s Ws i h W) by done.
    rewrite Hu, elem_of_cons. tauto.
  - intros q d Hq. apply (handed_insert s s' Ws i h h' W W') in Hq; [|done..].
    eapply others_apart; try done; [|lia|lia]. eapply sep_perm; [done|]. by eapply used_sep.
Qed.

(** ** Allocation and freeing over all the heaps *)

Lemma heap_size_pos s i h W : heap_at s i h W -> 0 < size h.
Proof.
  intros (_ & R & _). pose proof (rep_size _ _ _ R).
  unfold MEM_HEAP_MIN_SIZE, MEM_BLOCK_MIN_SIZE, MEM_BLOCK_HEAD_SIZE in *. lia.
Qed.

Lemma heap_lookup s Ws i : heaps_ok s Ws -> (i < 4)%nat -> exists h, mem_heap_list s !! i = Some h.
Proof. intros O Hi. apply lookup_lt_is_Some_2. rewrite (ok_four _ _ O). exact Hi. Qed.

Lemma malloc_one s Ws i h W n :
  heaps_ok s Ws -> Ws !! i = Some W -> heap_at s i h W -> 0 <= n < 2 ^ 32 ->
  exists s' p, MEM_Allocate (Some i) n s = (s', inr p) /\ (p = 0 /\ s' = s \/ granted s s' Ws n p).
Proof.
  intros O HW A Hn. destruct (decide (n = 0)) as [->|]; [exists s, 0; auto|].
  destruct (MEM_Allocate_ok s i h W n A) as [[_ E]|(_ & s' & h' & W' & p & c & E & Hp & Hp4 & Hc & Hu & _ & M)]; [lia| |].
  - exists s, 0. auto.
  - exists s', p. split; [done|]. right. by eapply granted_ok.
Qed.

Lemma malloc_any_gen (alloc : HEAP_HANDLE -> K Z) (P : st -> Z -> Prop) s Ws n k i :
  heaps_ok s Ws ->
  (forall j h W, Ws !! j = Some W -> heap_at s j h W ->
     exists s' p, alloc (Some j) s = (s', inr p) /\ (p = 0 /\ s' = s \/ p <> 0 /\ P s' p)) ->
  (k + i = 4)%nat ->
  exists s' p, malloc_any alloc k i n s = (s', inr p) /\ (p = 0 /\ s' = s \/ p <> 0 /\ P s' p).
Proof.
  intros O Ha. revert i. induction k as [|k IH]; intros i Hk; cbn [malloc_any]; [exists s, 0; auto|].
  destruct (heap_lookup s Ws i O) as [h Hi]; [lia|]. rewrite (bnd_ok _ _ _ _ _ (heap_get_ok s i h Hi)).
  destruct (Ws !! i) as [W|] eqn:HW.
  - destruct (ok_at _ _ O i W HW) as (h' & A). pose proof A as (Hi' & _). simplify_eq.
    rewrite (proj2 (Z.ltb_lt _ _)) by (by eapply heap_size_pos).
    destruct (u32 (n + MEM_BLOCK_MIN_SIZE) <? free h); [|apply IH; lia].
    destruct (Ha i h W HW A) as (s' & p & E & [[-> ->]|[Hp HP]]); rewrite (bnd_ok _ _ _ _ _ E).
    + cbn [Z.eqb negb]. apply IH. lia.
    + rewrite (proj2 (Z.eqb_neq _ 0)) by done. cbn [negb]. exists s', p. auto.
  - rewrite (ok_unused _ _ O i h) by done. exists s, 0. auto.
Qed.

Lemma granted_pos s s' Ws n p : granted s s' Ws n p -> p <> 0.
Proof. intros (Ws' & c & _ & ? & _). lia. Qed.

Lemma malloc_any_ok s Ws n k i :
  heaps_ok s Ws -> 0 <= n < 2 ^ 32 -> (k + i = 4)%nat ->
  exists s' p, malloc_any (fun h => MEM_Allocate h n) k i n s = (s', inr p) /\
    (p = 0 /\ s' = s \/ granted s s' Ws n p).
Proof.
  intros O Hn Hk.
  destruct (malloc_any_gen (fun h => MEM_Allocate h n) (fun s' p => granted s s' Ws n p) s Ws n k i O)
    as (s' & p & E & H); [|done|exists s', p; tauto].
  intros j h W HW A. destruct (malloc_one s Ws j h W n O HW A Hn) as (s' & p & E & [?|G]); exists s', p; [auto|].
  pose proof (granted_pos _ _ _ _ _ G). auto.
Qed.

Lemma free_any_ok s Ws p c i h W j k :
  heaps_ok s Ws -> Ws !! i = Some W -> heap_at s i h W -> (p, c) ∈ used (lo h) W ->
  (j <= i)%nat -> (j + k = 4)%nat ->
  exists s', free_any k j p s = (s', inr tt) /\ taken_back s s' Ws p c.
Proof.
  intros O HW A Hin. pose proof A as (Hi & R & _).
  pose proof (blocks_used_range _ _ _ _ _ _ (rep_seg _ _ _ R) Hin). pose proof (at_range _ _ _ _ A).
  pose proof (rep_top _ _ _ R).
  assert (i < 4)%nat as Hi4 by (replace 4%nat with (length (mem_heap_list s)) by apply O; by eapply lookup_lt_Some).
  revert k. induction j as [j IH] using (induction_ltof1 _ (fun j => i - j)%nat); unfold ltof in IH.
  intros k Hj Hk. destruct k as [|k]; [lia|]. cbn [free_any].
  destruct (heap_lookup s Ws j O) as [hj Hlj]; [lia|]. rewrite (bnd_ok _ _ _ _ _ (heap_get_ok s j hj Hlj)).
  destruct (decide (j = i)) as [->|Hne].
  - assert (hj = h) as -> by congruence. rewrite (proj2 (Z.ltb_lt _ _)) by (by eapply heap_size_pos).
    rewrite wrap_small by lia. rewrite !(proj2 (Z.ltb_lt _ _)) by lia. cbn [andb].
    destruct (used_split _ _ _ _ Hin) as (b1 & sz & b2 & -> & -> & ->).
    destruct (MEM_Deallocate_ok s i h b1 sz b2 A _ _ eq_refl eq_refl) as (s' & h' & W' & E & Hu & _ & M).
    exists s'. split; [done|]. by eapply taken_back_ok.
  - assert (is_Some (Ws !! j)) as [Wj HWj].
    { apply lookup_lt_is_Some_2. apply lookup_lt_Some in HW. lia. }
    destruct (ok_at _ _ O j Wj HWj) as (hj' & Aj). pose proof Aj as (Hlj' & Rj & _).
    assert (hj' = hj) as -> by congruence.
    pose proof (rep_top _ _ _ Rj). pose proof (at_range _ _ _ _ Aj).
    rewrite (proj2 (Z.ltb_lt 0 _)) by (by eapply heap_size_pos).
    rewrite wrap_small by (pose proof (heap_size_pos _ _ _ _ Aj); lia).
    destruct (ok_beside _ _ O j i hj h) as [Hb|Hb]; try done.
    + rewrite (proj2 (Z.ltb_ge p _)) by lia. rewrite andb_false_r. apply IH; lia.
    + rewrite (proj2 (Z.ltb_ge _ p)) by lia. apply IH; lia.
Qed.

(** ** Accesses within a payload *)

Lemma handed_block s Ws p c : heaps_ok s Ws -> handed s Ws p c ->
  4 < p /\ (4 | p) /\ p + c + 1 < 2 ^ 32 /\ 7 <= c /\ (4 | c + 5) /\
  word (memory s) (p - 4) (c + 5) /\ memory s !! (p + c) = Some MEM_BLOCK_STAT_USE /\
  mapped (memory s) (p - 4) (p + c + 1).
Proof.
  intros O Hh. destruct (handed_range _ _ _ _ O Hh) as (i & h & W & A & _ & Hin & ? & ? & ?).
  pose proof A as (_ & R & _). destruct (rep_bounds _ _ _ R) as (? & ? & _ & ? & ? & _).
  destruct (used_split _ _ _ _ Hin) as (b1 & sz & b2 & -> & -> & ->).
  pose proof (rep_seg _ _ _ R) as (Hsa & [? ?] & Hw & Hd & _ & Hsb)%seg_app. pose proof (seg_total _ _ _ _ Hsa).
  pose proof (rep_map _ _ _ R) as Hm.
  split_and!; try lia.
  - apply Z.divide_add_r; [apply Z.divide_add_r; [done|tauto]|by exists 1].
  - by replace (sz - 5 + 5) with sz by lia.
  - replace (lo h + total b1 + 4 - 4) with (lo h + total b1) by lia. by replace (sz - 5 + 5) with sz by lia.
  - etransitivity; [|exact Hd]. f_equal. lia.
  - eapply mapped_sub; [done|lia|lia].
Qed.

(** Stores within a payload keep the heaps and what is handed out. *)
Lemma heaps_payload s Ws p c m' :
  heaps_ok s Ws -> handed s Ws p c -> only (memory s) m' p (p + c) -> dom m' = dom (memory s) ->
  heaps_ok (set_memory m' s) Ws /\
  (forall q d, handed s Ws q d -> (q, d) <> (p, c) -> agree (memory s) m' q (q + d)).
Proof.
  intros O Hh Ho Hd. split.
  - destruct O. split; try done. intros j W HW. cbn [mem_heap_list set_memory].
    destruct (ok_at0 j W HW) as (h & Hj & R & Hc). exists h. split; [done|]. split; [|done].
    cbn [memory set_memory]. destruct Hh as (i & hi & Wi & Hi & HWi & Hin).
    destruct (decide (i = j)) as [->|Hij].
    + simplify_eq. destruct R. split; try done; [by eapply mapped_dom|by eapply seg_payload].
    + destruct (ok_at0 i Wi HWi) as (hi' & Ai). pose proof Ai as (Hi' & Ri & _).
      assert (hi' = hi) as -> by congruence.
      pose proof (blocks_used_range _ _ _ _ _ _ (rep_seg _ _ _ Ri) Hin).
      apply (rep_agree (memory s)); [|done|done]. eapply only_agree; [done|].
      destruct (rep_bounds _ _ _ R) as (? & _ & ? & ? & _ & _), (rep_bounds _ _ _ Ri) as (? & _ & ? & ? & _ & _).
      destruct (ok_beside0 i j hi h Hij); try done; lia.
  - intros q d Hq Hne. destruct (handed_apart s Ws p c q d O Hh Hq) as [E|Ha]; [by simplify_eq|].
    eapply only_agree; [done|]. unfold apart in Ha. simpl in Ha. lia.
Qed.

(** ** The client *)

Inductive op :=
| Malloc (n : Z)
| Calloc (n : Z)
| Realloc (p n : Z)
| Free (p : Z)
| Write (p off : Z) (d : list Z)
| Read (p off n : Z).

Inductive obs := Ptr (p : Z) | Data (l : list Z) | Done.

Definition step (o : op) : K obs :=
  match o with
  | Malloc n => let! p := tuya_mem_heap_malloc None n in ret (Ptr p)
  | Calloc n => let! p := tuya_mem_heap_calloc None n in ret (Ptr p)
  | Realloc p n => let! p := tuya_mem_heap_realloc None p n in ret (Ptr p)
  | Free p => tuya_mem_heap_free None p ;;; ret Done
  | Write p off d =>
      let! s := get in let! m := lift (storen (memory s) (p + off) d) in put (set_memory m s) ;;; ret Done
  | Read p off n => let! s := get in let! l := lift (loadn (memory s) (p + off) (Z.to_nat n)) in ret (Data l)
  end.

(** The buffers the client holds: their addresses and contents. *)
Abbreviation buffers := (gmap Z (list Z)).

(** A place for [n] bytes that is aligned and overlaps no buffer. *)
Definition fresh (live : buffers) (p n : Z) : Prop :=
  0 < p /\ (4 | p) /\ forall q l, live !! q = Some l -> q <> p /\ (p + n <= q \/ q + zlen l <= p).

(** What the client may do. *)
Definition op_ok (live : buffers) (o : op) : Prop :=
  match o with
  | Malloc n | Calloc n => 0 <= n < 2 ^ 32
  | Realloc p n => is_Some (live !! p) /\ 0 <= n < 2 ^ 32 - 8
  | Free p => is_Some (live !! p)
  | Write p off d => exists l, live !! p = Some l /\ 0 <= off /\ off + zlen d <= zlen l
  | Read p off n => exists l, live !! p = Some l /\ 0 <= off /\ 0 <= n /\ off + n <= zlen l
  end.

(** What it observes. *)
Definition spec_step (live : buffers) (o : op) (b : obs) (live' : buffers) : Prop :=
  match o, b with
  | Malloc n, Ptr p =>
      p = 0 /\ live' = live \/ exists l, zlen l = n /\ fresh live p n /\ live' = <[p := l]> live
  | Calloc n, Ptr p =>
      p = 0 /\ live' = live \/
      fresh live p n /\ live' = <[p := replicate (Z.to_nat n) 0]> live
  | Realloc p n, Ptr q =>
      q = 0 /\ live' = live \/
      exists l l', live !! p = Some l /\ zlen l' = n /\
        slice 0 (Z.min n (zlen l)) l' = slice 0 (Z.min n (zlen l)) l /\
        fresh (delete p live) q n /\ live' = <[q := l']> (delete p live)
  | Free p, Done => live' = delete p live
  | Write p off d, Done => exists l, live !! p = Some l /\ live' = <[p := splice off d l]> live
  | Read p off n, Data d => exists l, live !! p = Some l /\ d = slice off n l /\ live' = live
  | _, _ => False
  end.

(** The buffers of the client are payloads that are handed out, and hold their bytes. *)
Definition backed s Ws (live : buffers) : Prop :=
  forall p l, live !! p = Some l -> exists c, handed s Ws p c /\ zlen l <= c /\ holds (memory s) p l.

Definition serves s (live : buffers) : Prop := exists Ws, heaps_ok s Ws /\ backed s Ws live.

(** The buffers of [live] are payloads of [s] other than [(p, c)], and hold their bytes. *)
Definition held s Ws (live : buffers) (p c : Z) : Prop :=
  forall q l, live !! q = Some l ->
    exists d, handed s Ws q d /\ zlen l <= d /\ holds (memory s) q l /\ (q, d) <> (p, c).

Lemma serves_insert s Ws live p c l :
  heaps_ok s Ws -> held s Ws live p c -> handed s Ws p c -> zlen l <= c -> holds (memory s) p l ->
  serves s (<[p := l]> live).
Proof.
  intros O Hl Hp Hc Hh. exists Ws. split; [done|]. intros q k Hq.
  destruct (decide (q = p)) as [->|Hne].
  - rewrite lookup_insert_eq in Hq. simplify_eq. eauto.
  - rewrite lookup_insert_ne in Hq by done. destruct (Hl q k Hq) as (d & ? & ? & ? & _). eauto.
Qed.

(** The store of [d] at [off] in a buffer. *)
Lemma store_in s Ws live p c off d :
  heaps_ok s Ws -> held s Ws live p c -> handed s Ws p c -> 0 <= off -> off + zlen d <= c ->
  let m' := upd (memory s) (p + off) d in
  storen (memory s) (p + off) d = Some m' /\
  heaps_ok (set_memory m' s) Ws /\ held (set_memory m' s) Ws live p c /\ handed (set_memory m' s) Ws p c.
Proof.
  intros O Hl Hp Hoff Hd m'. destruct (handed_block _ _ _ _ O Hp) as (_ & _ & _ & _ & _ & _ & _ & Hm).
  destruct (storen_upd (memory s) (p + off) d) as [E Ed]; [eapply mapped_sub; [done|lia|lia]|].
  assert (only (memory s) m' p (p + c)) as Ho.
  { eapply only_weaken; [apply upd_only|lia|]. lia. }
  destruct (heaps_payload s Ws p c m' O Hp Ho Ed) as [O' Hk]. split_and!; try done.
  intros q l Hq. destruct (Hl q l Hq) as (e & He & ? & ? & Hne). exists e. split; [done|]. split; [done|].
  split; [|done]. eapply holds_agree; [|done]. eapply agree_sub; [by apply (Hk q e)|lia|lia].
Qed.

(** Other buffers are other payloads. *)
Lemma held_delete s Ws live p l :
  heaps_ok s Ws -> backed s Ws live -> live !! p = Some l ->
  exists c, handed s Ws p c /\ zlen l <= c /\ holds (memory s) p l /\ held s Ws (delete p live) p c.
Proof.
  intros O Hl Hp. destruct (Hl p l Hp) as (c & Hc & ? & ?). exists c. split_and!; try done.
  intros q k [Hne Hq]%lookup_delete_Some. destruct (Hl q k Hq) as (d & ? & ? & ?).
  exists d. split_and!; try done. intros E. simplify_eq.
Qed.

Lemma block_fits n c : 0 <= n -> block_size n <= c + 5 -> n <= c.
Proof. intros Hn Hb. destruct (block_size_bounds n Hn). lia. Qed.

(** A new payload is a fresh buffer, beside those of the client. *)
Lemma granted_fresh s s' Ws Ws' live n p c k :
  heaps_ok s Ws -> backed s Ws live -> granted_at s s' Ws Ws' n p c -> k <= c ->
  fresh live p k /\ held s' Ws' live p c.
Proof.
  intros O Hl (O' & Hp & Hp4 & Hc & Hh & Hk) Hkc. split.
  - split; [done|]. split; [done|]. intros q l Hq. destruct (Hl q l Hq) as (d & Hd & ? & _).
    destruct (Hk q d Hd) as [_ Ha]. destruct (handed_range _ _ _ _ O Hd) as (_ & _ & _ & _ & _ & _ & _ & ? & _).
    unfold apart in Ha. simpl in Ha. pose proof (zlen_nonneg l).
    assert (handed s' Ws' p c) as Hpc by (apply Hh; by left).
    destruct (handed_range _ _ _ _ O' Hpc) as (_ & _ & _ & _ & _ & _ & _ & ? & _). lia.
  - intros q l Hq. destruct (Hl q l Hq) as (d & Hd & ? & Hb). destruct (Hk q d Hd) as [Hag Ha].
    exists d. split; [by apply Hh; right|]. split; [done|]. split.
    + eapply holds_agree, Hb. eapply agree_sub; [done|lia|lia].
    + intros E. simplify_eq. unfold apart in Ha. simpl in Ha.
      destruct (handed_range _ _ _ _ O Hd) as (_ & _ & _ & _ & _ & _ & _ & ? & _). lia.
Qed.

Lemma serves_malloc s live n :
  serves s live -> 0 <= n < 2 ^ 32 ->
  exists s' p, tuya_mem_heap_malloc None n s = (s', inr p) /\
    (p = 0 /\ s' = s \/
     p <> 0 /\ fresh live p n /\ exists Ws c, heaps_ok s' Ws /\ handed s' Ws p c /\ n <= c /\ held s' Ws live p c).
Proof.
  intros (Ws & O & Hl) Hn. destruct (malloc_any_ok s Ws n 4 0 O Hn eq_refl) as (s' & p & E & [[-> ->]|(Ws' & c & G)]).
  - exists s, 0. auto.
  - exists s', p. split; [done|]. right. pose proof G as (O' & Hp & _ & Hc & Hh & _).
    apply block_fits in Hc; [|lia].
    destruct (granted_fresh _ _ _ _ _ _ _ _ n O Hl G Hc) as [Hf Hd]. split; [lia|]. split; [done|].
    exists Ws', c. split_and!; try done. apply Hh. by left.
Qed.

Lemma step_malloc s live n :
  serves s live -> 0 <= n < 2 ^ 32 ->
  exists s' o live', step (Malloc n) s = (s', inr o) /\ spec_step live (Malloc n) o live' /\ serves s' live'.
Proof.
  intros S Hn. destruct (serves_malloc s live n S Hn) as (s' & p & E & [[-> ->]|(_ & Hf & Ws & c & O & Hc & Hnc & Hl)]).
  - exists s, (Ptr 0), live. split; [by cbn [step]; rewrite (bnd_ok _ _ _ _ _ E)|]. split; [|done]. by left.
  - destruct (handed_block _ _ _ _ O Hc) as (_ & _ & _ & _ & _ & _ & _ & Hm).
    destruct (mapped_holds (memory s') p (Z.to_nat n)) as (l & Hlen & Hh); [eapply mapped_sub; [done|lia|lia]|].
    assert (zlen l = n) by (unfold zlen; lia).
    exists s', (Ptr p), (<[p := l]> live). split; [by cbn [step]; rewrite (bnd_ok _ _ _ _ _ E)|]. split.
    + right. by exists l.
    + eapply serves_insert; try done. lia.
Qed.

Lemma step_calloc s live n :
  serves s live -> 0 <= n < 2 ^ 32 ->
  exists s' o live', step (Calloc n) s = (s', inr o) /\ spec_step live (Calloc n) o live' /\ serves s' live'.
Proof.
  intros S Hn. cbn [step]. unfold tuya_mem_heap_calloc.
  destruct (serves_malloc s live n S Hn) as (s' & p & E & [[-> ->]|(Hp & Hf & Ws & c & O & Hc & Hnc & Hl)]).
  - exists s, (Ptr 0), live. rewrite bnd_assoc, (bnd_ok _ _ _ _ _ E). split; [done|]. split; [|done]. by left.
  - assert (zlen (replicate (Z.to_nat n) 0) = n) as Hz by (rewrite zlen_replicate; lia).
    destruct (store_in s' Ws live p c 0 (replicate (Z.to_nat n) 0)) as (Es & O' & Hl' & Hc'); try done; [lia|].
    rewrite Z.add_0_r in *.
    eexists _, (Ptr p), _. rewrite bnd_assoc, (bnd_ok _ _ _ _ _ E). rewrite (proj2 (Z.eqb_neq p 0)) by done.
    cbn [negb]. unfold fill. rewrite !bnd_assoc, bnd_get. rewrite Es. cbn [lift].
    split; [reflexivity|]. split; [by right|].
    eapply serves_insert; try done; [lia|]. apply upd_holds.
Qed.

Lemma step_free s live p :
  serves s live -> is_Some (live !! p) ->
  exists s' o live', step (Free p) s = (s', inr o) /\ spec_step live (Free p) o live' /\ serves s' live'.
Proof.
  intros (Ws & O & Hl) [l Hp]. destruct (held_delete s Ws live p l O Hl Hp) as (c & Hc & _ & _ & Hd).
  destruct (handed_range _ _ _ _ O Hc) as (i & h & W & A & HW & Hin & _).
  destruct (free_any_ok s Ws p c i h W 0 4 O HW A Hin) as (s' & E & Ws' & O' & Hh & Hk); [lia|done|].
  exists s', Done, (delete p live). split; [cbn [step]; unfold tuya_mem_heap_free; by rewrite (bnd_ok _ _ _ _ _ E)|].
  split; [done|]. exists Ws'. split; [done|]. intros q k Hq. destruct (Hd q k Hq) as (d & Hqd & ? & Hb & Hne).
  apply Hh in Hqd as [?|Hqd]; [done|]. exists d. split; [done|]. split; [done|].
  eapply holds_agree, Hb. eapply agree_sub; [by apply Hk|lia|lia].
Qed.

Lemma step_write s live p off d :
  serves s live -> op_ok live (Write p off d) ->
  exists s' o live', step (Write p off d) s = (s', inr o) /\ spec_step live (Write p off d) o live' /\ serves s' live'.
Proof.
  intros (Ws & O & Hl) (l & Hp & Hoff & Hd). destruct (held_delete s Ws live p l O Hl Hp) as (c & Hc & ? & Hh & Hdel).
  destruct (store_in s Ws (delete p live) p c off d) as (Es & O' & Hl' & Hc'); try done; [lia|].
  eexists _, Done, (<[p := splice off d l]> live). cbn [step]. rewrite bnd_get, Es. cbn [lift].
  split; [reflexivity|]. split; [by exists l|]. rewrite <- insert_delete_eq.
  eapply serves_insert; try done.
  - rewrite zlen_splice; lia.
  - cbn [memory set_memory]. by apply holds_splice.
Qed.

Lemma step_read s live p off n :
  serves s live -> op_ok live (Read p off n) ->
  exists s' o live', step (Read p off n) s = (s', inr o) /\ spec_step live (Read p off n) o live' /\ serves s' live'.
Proof.
  intros S (l & Hp & Hoff & Hn & Hd). destruct S as (Ws & O & Hl). destruct (Hl p l Hp) as (c & _ & _ & Hh).
  exists s, (Data (slice off n l)), live. cbn [step]. rewrite bnd_get.
  rewrite (loadn_holds _ _ _ (slice off n l)).
  - split; [done|]. split; [by exists l|]. by exists Ws.
  - pose proof (zlen_slice off n l Hoff Hn Hd). unfold zlen in *. lia.
  - by apply holds_slice.
Qed.

(** A buffer of [n] bytes at [p], with the first bytes of [l], among the others. *)
Lemma serves_resized s Ws live p c n l :
  heaps_ok s Ws -> held s Ws live p c -> handed s Ws p c -> 0 <= n <= c ->
  holds (memory s) p (slice 0 (Z.min n (zlen l)) l) ->
  exists l', zlen l' = n /\ slice 0 (Z.min n (zlen l)) l' = slice 0 (Z.min n (zlen l)) l /\
    serves s (<[p := l']> live).
Proof.
  intros O Hl Hc Hn Hh. destruct (handed_block _ _ _ _ O Hc) as (_ & _ & _ & _ & _ & _ & _ & Hm).
  destruct (mapped_holds (memory s) p (Z.to_nat n)) as (l' & Hlen & Hh'); [eapply mapped_sub; [done|lia|lia]|].
  pose proof (zlen_nonneg l). assert (zlen l' = n) as Hz by (unfold zlen; lia).
  exists l'. split; [done|]. split.
  - rewrite (holds_prefix _ _ _ _ (Z.min n (zlen l)) Hh' Hh); rewrite ?zlen_slice; try lia.
    rewrite slice_slice by lia. f_equal; lia.
  - eapply serves_insert; try done. lia.
Qed.

Lemma get_dog_ok s Ws p c : heaps_ok s Ws -> handed s Ws p c ->
  size_of (p - 4) s = (s, inr (c + 5)) /\ get_dog (p - 4) s = (s, inr MEM_BLOCK_STAT_USE).
Proof.
  intros O Hc. destruct (handed_block _ _ _ _ O Hc) as (? & _ & ? & ? & _ & Hw & Hd & _). split.
  - apply load32_ok; [done|lia].
  - unfold get_dog. rewrite (bnd_ok _ _ _ _ _ (dog_addr_ok s (p - 4) (c + 5) Hw ltac:(lia) ltac:(lia) ltac:(lia))).
    apply load8_ok. by replace (p - 4 + (c + 5) - 1) with (p + c) by lia.
Qed.

(** The size [realloc] computes. *)
Lemma realloc_size n : 0 <= n < 2 ^ 32 - 8 ->
  let size := if n <? 4 then 4 else n in
  u32 (ALIGN_UP (u32 (size + 1)) + MEM_BLOCK_HEAD_SIZE) = block_size n /\
  block_size size = block_size n /\ 0 <= size < 2 ^ 32.
Proof.
  intros Hn size. pose proof (new_size_eq n ltac:(lia)) as H. cbv zeta in H. fold size in H.
  destruct (block_size_bounds n) as (? & _); [lia|].
  rewrite (proj2 (Z.ltb_lt (block_size n) _)) in H by lia. destruct H as [-> _].
  split; [done|]. unfold size. destruct (Z.ltb_spec n 4); [|lia]. split; [|lia].
  unfold block_size. do 3 f_equal. lia.
Qed.

(** The copy of the payload [(p, c)] to the larger [(q, e)]. *)
Lemma copy_ok s Ws live p c q e l :
  heaps_ok s Ws -> held s Ws live q e -> handed s Ws p c -> handed s Ws q e -> c + 1 <= e ->
  zlen l <= c -> holds (memory s) p l ->
  exists m', copy q p (Z.to_nat (c + 1)) s = (set_memory m' s, inr tt) /\
    heaps_ok (set_memory m' s) Ws /\ held (set_memory m' s) Ws live q e /\ holds m' q l.
Proof.
  intros O Hd Hp Hq He Hl Hh. destruct (handed_block _ _ _ _ O Hp) as (_ & _ & _ & ? & _ & _ & _ & Hm).
  destruct (mapped_holds (memory s) p (Z.to_nat (c + 1))) as (bs & Hlen & Hbs); [eapply mapped_sub; [done|lia|lia]|].
  assert (zlen bs = c + 1) as Hz by (unfold zlen; lia).
  destruct (store_in s Ws live q e 0 bs) as (Es & O' & Hd' & _); try done; [lia|]. rewrite Z.add_0_r in *.
  exists (upd (memory s) q bs). split_and!; try done.
  - unfold copy. rewrite bnd_get, (loadn_holds _ _ _ bs) by done. cbn [lift]. rewrite bnd_ret, Es. done.
  - pose proof (zlen_nonneg l). pose proof (holds_prefix _ _ _ _ (zlen l) Hh Hbs ltac:(lia) ltac:(lia)) as E.
    rewrite slice_all in E. rewrite E. rewrite <- (Z.add_0_r q). apply holds_slice; try lia.
    rewrite Z.add_0_r. apply upd_holds.
Qed.

(** The buffer moves: a new payload, the copy, the release of the old one. *)
Lemma realloc_moves s s1 Ws Ws1 live p n l c q e size :
  heaps_ok s Ws -> backed s Ws live -> live !! p = Some l -> handed s Ws p c -> zlen l <= c -> 0 <= n ->
  holds (memory s) p l -> held s Ws (delete p live) p c ->
  granted_at s s1 Ws Ws1 size q e -> c + 5 < block_size n -> block_size size = block_size n ->
  exists s' l',
    (let! osize := size_of (p - 4) in
     copy q p (Z.to_nat (u32 (osize - MEM_BLOCK_HEAD_SIZE))) ;;; tuya_mem_heap_free None p ;;; ret q) s1
      = (s', inr q) /\
    zlen l' = n /\ slice 0 (Z.min n (zlen l)) l' = slice 0 (Z.min n (zlen l)) l /\
    serves s' (<[q := l']> (delete p live)).
Proof.
  intros O Hl Hp Hc Hlc Hn Hh Hdel G Hlt Esz. pose proof G as (O1 & _ & _ & He & Hh1 & Hk).
  assert (handed s1 Ws1 p c) as Hc1 by (apply Hh1; by right).
  assert (handed s1 Ws1 q e) as Hq1 by (apply Hh1; by left).
  destruct (handed_block _ _ _ _ O Hc) as (Hp4 & _ & Htop & Hc7 & Hc4 & _).
  destruct (block_size_bounds n Hn) as (? & _ & Hb4).
  assert (c + 1 <= e) as Hce.
  { destruct Hc4 as [x ?], Hb4 as [y ?]. lia. }
  assert (handed s Ws p c) as Hc' by done. destruct (Hk p c Hc') as [Hag Hap].
  assert (backed s Ws (delete p live)) as Hbk.
  { intros x k Hx. destruct (Hdel x k Hx) as (d & ? & ? & ? & _). eauto. }
  destruct (granted_fresh s s1 Ws Ws1 _ size q e 0 O Hbk G ltac:(lia)) as [_ Hd1].
  assert (holds (memory s1) p l) as Hh2 by (eapply holds_agree, Hh; eapply agree_sub; [done|lia|lia]).
  destruct (get_dog_ok _ _ _ _ O1 Hc1) as [Es _].
  destruct (copy_ok s1 Ws1 (delete p live) p c q e l O1 Hd1 Hc1 Hq1 Hce Hlc Hh2) as (m2 & E2 & O2 & Hd2 & Hq2).
  set (s2 := set_memory m2 s1) in *.
  destruct (handed_range s2 Ws1 p c O2 Hc1) as (i & h & W & A & HW & Hin & _).
  destruct (free_any_ok s2 Ws1 p c i h W 0 4 O2 HW A Hin) as (s3 & E3 & Ws3 & O3 & Hh3 & Hk3); [lia|done|].
  assert (handed s3 Ws3 q e) as Hq3.
  { destruct (proj1 (Hh3 q e) Hq1) as [E|]; [|done]. simplify_eq. unfold apart in Hap. simpl in Hap. lia. }
  assert (holds (memory s3) q l) as Hq4 by (eapply holds_agree, Hq2; eapply agree_sub; [by apply (Hk3 q e)|lia|lia]).
  destruct (serves_resized s3 Ws3 (delete p live) q e n l O3) as (l' & ? & ? & ?); try done.
  - intros x k Hx. destruct (Hd2 x k Hx) as (d & Hxd & ? & Hb & Hne). exists d.
    destruct (proj1 (Hh3 x d) Hxd) as [E|Hx3].
    { simplify_eq. by apply lookup_delete_Some in Hx as [? _]. }
    split_and!; try done. eapply holds_agree, Hb. eapply agree_sub; [by apply Hk3|lia|lia].
  - lia.
  - pose proof (zlen_nonneg l). pose proof (holds_slice (memory s3) q l 0 (Z.min n (zlen l)) ltac:(lia) ltac:(lia) ltac:(lia) Hq4) as Hsl. by rewrite Z.add_0_r in Hsl.
  - exists s3, l'. split; [|done]. rewrite (bnd_ok _ _ _ _ _ Es). change MEM_BLOCK_HEAD_SIZE with 4.
    replace (u32 (c + 5 - 4)) with (c + 1) by (rewrite wrap_small; lia).
    rewrite (bnd_ok _ _ _ _ _ E2). fold s2. unfold tuya_mem_heap_free. by rewrite (bnd_ok _ _ _ _ _ E3).
Qed.

Lemma fresh_same s Ws live p c n :
  heaps_ok s Ws -> handed s Ws p c -> held s Ws live p c -> n <= c -> fresh live p n.
Proof.
  intros O Hc Hd Hn. destruct (handed_block _ _ _ _ O Hc) as (? & ? & _). split; [lia|]. split; [done|].
  intros q l Hq. destruct (Hd q l Hq) as (d & Hqd & ? & _ & Hne).
  destruct (handed_apart s Ws p c q d O Hc Hqd) as [E|Ha]; [congruence|].
  destruct (handed_block _ _ _ _ O Hqd) as (_ & _ & _ & ? & _), (handed_block _ _ _ _ O Hc) as (_ & _ & _ & ? & _).
  unfold apart in Ha. simpl in Ha. lia.
Qed.

Lemma realloc_ok s live p n l :
  serves s live -> live !! p = Some l -> 0 <= n < 2 ^ 32 - 8 ->
  exists s' q, tuya_mem_heap_realloc None p n s = (s', inr q) /\
    (q = 0 /\ s' = s \/ exists l', zlen l' = n /\
      slice 0 (Z.min n (zlen l)) l' = slice 0 (Z.min n (zlen l)) l /\
      fresh (delete p live) q n /\ serves s' (<[q := l']> (delete p live))).
Proof.
  intros (Ws & O & Hl) Hp Hn. destruct (held_delete s Ws live p l O Hl Hp) as (c & Hc & Hlc & Hh & Hdel).
  destruct (handed_block _ _ _ _ O Hc) as (Hp4 & _ & Htop & Hc7 & _).
  destruct (get_dog_ok s Ws p c O Hc) as [Es Ed]. destruct (realloc_size n Hn) as (Enew & Esz & Hsz).
  unfold tuya_mem_heap_realloc. rewrite (proj2 (Z.eqb_neq p 0)) by lia.
  change MEM_BLOCK_HEAD_SIZE with 4 in *. rewrite (wrap_small 32 (p - 4)) by lia.
  rewrite (bnd_ok _ _ _ _ _ Ed). rewrite Z.eqb_refl. cbn [negb]. cbv zeta. rewrite Enew.
  rewrite (bnd_ok _ _ _ _ _ Es). set (size := if n <? 4 then 4 else n) in *.
  destruct (Z.leb_spec (block_size n) (c + 5)) as [Hle|Hgt].
  - assert (n <= c) by (apply block_fits; lia).
    destruct (serves_resized s Ws (delete p live) p c n l O Hdel Hc) as (l' & ? & ? & ?); [lia| |].
    + pose proof (holds_slice (memory s) p l 0 (Z.min n (zlen l))) as Hsl. rewrite Z.add_0_r in Hsl.
      pose proof (zlen_nonneg l). apply Hsl; [lia..|done].
    + exists s, p. split; [done|]. right. exists l'. split_and!; try done. by eapply fresh_same.
  - destruct (malloc_any_ok s Ws size 4 0 O Hsz eq_refl) as (s1 & q & E & [[-> ->]|(Ws1 & e & G)]).
    + exists s, 0. unfold tuya_mem_heap_malloc. rewrite (bnd_ok _ _ _ _ _ E). split; [done|]. by left.
    + destruct (realloc_moves s s1 Ws Ws1 live p n l c q e size) as (s' & l' & Em & ? & ? & ?); try done; [lia..|].
      exists s', q. split.
      * unfold tuya_mem_heap_malloc. rewrite (bnd_ok _ _ _ _ _ E).
        destruct G as (_ & Hq & _). rewrite (proj2 (Z.eqb_neq q 0)) by lia. exact Em.
      * right. exists l'. split_and!; try done.
        assert (backed s Ws (delete p live)) as Hbk.
        { intros x k Hx. destruct (Hdel x k Hx) as (d & ? & ? & ? & _). eauto. }
        destruct (block_size_bounds n ltac:(lia)) as (? & _).
        eapply granted_fresh; [done|done|exact G|]. destruct G as (_ & _ & _ & ? & _). lia.
Qed.

Lemma step_realloc s live p n :
  serves s live -> op_ok live (Realloc p n) ->
  exists s' o live', step (Realloc p n) s = (s', inr o) /\ spec_step live (Realloc p n) o live' /\ serves s' live'.
Proof.
  intros S [[l Hp] Hn]. destruct (realloc_ok s live p n l S Hp Hn) as (s' & q & E & [[-> ->]|(l' & ? & ? & ? & ?)]).
  - exists s, (Ptr 0), live. split; [by cbn [step]; rewrite (bnd_ok _ _ _ _ _ E)|]. split; [by left|done].
  - exists s', (Ptr q), (<[q := l']> (delete p live)).
    split; [by cbn [step]; rewrite (bnd_ok _ _ _ _ _ E)|]. split; [|done]. right. by exists l, l'.
Qed.

(** One operation of the client is one step of its specification. *)
Lemma step_sim s live o :
  serves s live -> op_ok live o ->
  exists s' b live', step o s = (s', inr b) /\ spec_step live o b live' /\ serves s' live'.
Proof.
  intros S Ho. destruct o.
  - by apply step_malloc.
  - by apply step_calloc.
  - by apply step_realloc.
  - by apply step_free.
  - by apply step_write.
  - by apply step_read.
Qed.

(** ** The contract as a whole *)

Definition client_step (o : op) (s : st) : option (obs * st) :=
  match step o s with (s', inr b) => Some (b, s') | (_, inl _) => None end.

Lemma heap_serves_ops : Client.serves_ops client_step op_ok spec_step serves.
Proof.
  intros s live o S Ho. destruct (step_sim s live o S Ho) as (s' & b & live' & E & ? & ?).
  exists b, s', live'. unfold client_step. by rewrite E.
Qed.

Lemma serves_nothing s Ws : heaps_ok s Ws -> serves s ∅.
Proof. intros O. exists Ws. split; [done|]. intros p l Hp. by rewrite lookup_empty in Hp. Qed.

End MemHeapApi.
