(* ===== verification/MemHeapLife.v ===== *)
(** * The life of a heap

    Creating heaps over memory regions, what a heap looks like when everything was
    given back, when an allocation fails, the status walk, the debugging variants, and
    the sizes at which the computations wrap. *)
From stdpp Require Import sorting.
From S2P Require Import Prelude Mem MemHeap MemHeapSpec MemHeapApi.
Open Scope Z_scope.
Open Scope fw_scope.

Module MemHeapLife.
Import MemHeap MemHeapSpec MemHeapApi.
Implicit Types (s : st).

(** ** The blocks are determined by what is handed out *)

Definition below (x y : Z * Z) : Prop := x.1 < y.1.

Lemma used_above m a bs nx x : seg m a bs nx -> x ∈ used a bs -> a + 4 <= x.1.
Proof. destruct x as [p c]. intros Hs Hx. apply (blocks_used_range _ _ _ _ _ _ Hs) in Hx. simpl. lia. Qed.

Lemma used_sorted m a bs nx : seg m a bs nx -> StronglySorted below (used a bs).
Proof.
  revert a. induction bs as [|[sz u] bs IH]; intros a; simpl; [constructor|].
  intros ([? ?] & _ & _ & _ & Hs). destruct u; [|by apply IH]. constructor; [by apply IH|].
  apply Forall_forall. intros x Hx. apply (used_above _ _ _ _ _ Hs) in Hx. unfold below. simpl. lia.
Qed.

Lemma used_nil_free m a bs nx : seg m a bs nx -> coalesced bs -> used a bs = [] ->
  bs = [] \/ bs = [(total bs, false)].
Proof.
  intros Hs Hc Hu. destruct bs as [|[sz []] [|[sz' []] bs]]; simpl in *; try done; auto.
  - right. by rewrite Z.add_0_r.
  - by destruct Hc.
Qed.

(** The head of a sequence is free exactly if no payload starts at its front. *)
Lemma free_head m a sz bs nx : seg m a ((sz, false) :: bs) nx -> coalesced ((sz, false) :: bs) ->
  match used a ((sz, false) :: bs) with
  | [] => bs = []
  | x :: _ => x.1 = a + sz + 4
  end.
Proof.
  simpl. intros _ Hc. destruct bs as [|[sz' []] bs]; simpl; [done|done|]. by destruct Hc.
Qed.

Lemma blocks_unique m m' a W W' nx nx' :
  seg m a W nx -> seg m' a W' nx' -> coalesced W -> coalesced W' -> total W = total W' ->
  used a W = used a W' -> W = W'.
Proof.
  revert a W'. induction W as [|[sz u] W IH]; intros a W' Hs Hs' Hc Hc' Ht Hu.
  - symmetry. eapply all_used_total; [exact Hs'|by rewrite <- Ht].
  - destruct W' as [|[sz' u'] W'].
    { simpl in Hs, Ht. destruct Hs as ([? ?] & _ & _ & _ & Hs). pose proof (seg_total _ _ _ _ Hs). lia. }
    pose proof Hs as Hs0. pose proof Hs' as Hs0'. pose proof Hc as Hc0. pose proof Hc' as Hc0'.
    destruct Hs as ([? ?] & _ & _ & _ & Hs), Hs' as ([? ?] & _ & _ & _ & Hs').
    assert (coalesced W) as HcW by (destruct Hc; done). assert (coalesced W') as HcW' by (destruct Hc'; done).
    simpl in Ht. destruct u, u'.
    + simpl in Hu. injection Hu as Esz Hu. assert (sz' = sz) as -> by lia. f_equal.
      eapply IH; try done. lia.
    + pose proof (free_head _ _ _ _ _ Hs0' Hc0') as Hh. rewrite <- Hu in Hh. simpl in Hh. lia.
    + pose proof (free_head _ _ _ _ _ Hs0 Hc0) as Hh. rewrite Hu in Hh. simpl in Hh. lia.
    + pose proof (free_head _ _ _ _ _ Hs0 Hc0) as Hh. pose proof (free_head _ _ _ _ _ Hs0' Hc0') as Hh'.
      rewrite Hu in Hh. destruct (used a ((sz', false) :: W')) as [|x l] eqn:E.
      * subst W W'. simpl in Ht. f_equal. f_equal. lia.
      * assert (sz' = sz) as -> by lia. f_equal. simpl in Hu, E.
        eapply IH; try done; [lia|]. by rewrite Hu, E.
Qed.

Lemma blocks_unique_perm m m' a W W' nx nx' :
  seg m a W nx -> seg m' a W' nx' -> coalesced W -> coalesced W' -> total W = total W' ->
  used a W ≡ₚ used a W' -> W = W'.
Proof.
  intros Hs Hs' Hc Hc' Ht Hu. eapply blocks_unique; try done.
  eapply StronglySorted_unique_strong; [|by eapply used_sorted|by eapply used_sorted|done].
  intros x y _ _. unfold below. lia.
Qed.

(** ** Giving back *)

(** Freeing what an allocation returned puts the heap back: the same blocks, the same
    free sizes, the same free list. *)
Theorem free_undoes_malloc s i h W n s1 p :
  heap_at s i h W -> 0 < n < 2 ^ 32 -> MEM_Allocate (Some i) n s = (s1, inr p) -> p <> 0 ->
  exists s2 h2, MEM_Deallocate (Some i) p s1 = (s2, inr tt) /\ heap_at s2 i h2 W /\
    free h2 = free h /\ free_list h2 = free_list h /\
    u32 (s_heap_free_size s2) = u32 (s_heap_free_size s).
Proof.
  intros A Hn E Hp. destruct (MEM_Allocate_ok s i h W n A Hn) as [[_ E0]|(_ & s1' & h1 & W1 & p1 & c & E1 & Hp1 & _ & _ & Hu & Hf & M)]; [congruence|].
  assert (s1' = s1) as -> by congruence. assert (p1 = p) as -> by congruence.
  destruct M as [A1 _ Ht1 [Hb1 _] Hk1]. assert (lo h1 = lo h) as Elo by (unfold lo; by rewrite Hb1).
  assert ((p, c) ∈ used (lo h1) W1) as Hin by (rewrite Elo, Hu; apply elem_of_cons; auto).
  destruct (used_split _ _ _ _ Hin) as (b1 & sz & b2 & E2 & -> & ->). rewrite E2 in *.
  destruct (MEM_Deallocate_ok s1 i h1 b1 sz b2 A1 _ _ eq_refl eq_refl) as (s2 & h2 & W2 & E3 & Hu2 & Hf2 & M2).
  destruct M2 as [A2 _ Ht2 [Hb2 _] Hk2].
  assert (lo h2 = lo h) as Elo2 by (unfold lo; rewrite Hb2; by rewrite Hb1).
  pose proof A as (_ & R & _). pose proof A2 as (_ & R2 & _).
  assert (W2 = W) as ->.
  { apply (blocks_unique_perm (memory s2) (memory s) (lo h) W2 W 0 0); [rewrite <- Elo2; apply R2|apply R|apply R2|apply R| |].
    - rewrite (keep_total _ _ _ _ _ _ Hk2). apply (keep_total _ _ _ _ _ _ Hk1).
    - rewrite Elo in Hu, Hu2. rewrite Hu in Hu2. by apply Permutation_cons_inv in Hu2. }
  exists s2, h2. split; [done|]. split; [done|]. split; [lia|]. split.
  - rewrite (rep_list _ _ _ R), (rep_list _ _ _ R2). by rewrite Elo2.
  - rewrite Ht2, Ht1. unfold wrap. rewrite Zmod_mod.
    rewrite <- Z.add_sub_swap, <- Z.add_sub_assoc, Zplus_mod_idemp_l. f_equal. lia.
Qed.

(** A heap of which nothing is handed out is one free block, and an allocation that
    fits it succeeds. *)
Theorem all_returned_coalesced s i h W n :
  heap_at s i h W -> used (lo h) W = [] ->
  W = [(total W, false)] /\
  (0 < n -> block_size n <= total W ->
   exists s' p, MEM_Allocate (Some i) n s = (s', inr p) /\ p <> 0).
Proof.
  intros A Hu. pose proof A as (_ & R & _). destruct (rep_bounds _ _ _ R) as (? & _ & ? & ? & ? & ?).
  destruct (used_nil_free _ _ _ _ (rep_seg _ _ _ R) (rep_coal _ _ _ R) Hu) as [E|E].
  - exfalso. pose proof (rep_total _ _ _ R) as Ht. pose proof (rep_size _ _ _ R) as Hs.
    unfold MEM_HEAP_MIN_SIZE, MEM_BLOCK_MIN_SIZE, MEM_BLOCK_HEAD_SIZE in Hs.
    destruct (lo_range h (rep_base _ _ _ R) (rep_size _ _ _ R) ltac:(lia)) as (? & _).
    rewrite ALIGN_DOWN_eq in Ht by lia. rewrite E in Ht. simpl in Ht. Z.div_mod_to_equations. lia.
  - split; [done|]. intros Hn Hfit. destruct (block_size_bounds n) as (Hb & _); [lia|].
    destruct (MEM_Allocate_ok s i h W n A) as [[Hno _]|(_ & s' & h' & W' & p & c & E' & ? & _)]; [lia| |].
    + rewrite E in Hno. inv Hno as [|x l Hx]. simpl in Hx. specialize (Hx eq_refl). lia.
    + exists s', p. split; [done|lia].
Qed.

(** ** When an allocation fails *)

(** [MEM_Allocate] on a heap returns [NULL] exactly if no free block has the size of
    the request with its overhead, and then changes nothing. *)
Theorem MEM_Allocate_fails s i h W n :
  heap_at s i h W -> 0 < n < 2 ^ 32 ->
  (exists s', MEM_Allocate (Some i) n s = (s', inr 0)) <-> no_fit (block_size n) W.
Proof.
  intros A Hn. destruct (MEM_Allocate_ok s i h W n A Hn) as [[Hno E]|(Hfit & s' & h' & W' & p & c & E & Hp & _)].
  - split; [done|eauto].
  - split; [|done]. intros [s1 E1]. rewrite E in E1. simplify_eq. lia.
Qed.

(** ** Creating *)

(** The bytes of [start, start + sz) that a heap can use. *)
Definition usable (start sz : Z) : Z := ALIGN_DOWN (start + sz) - ALIGN_UP start.

Lemma init_size start sz : 0 < start -> start + sz < 2 ^ 32 - 3 -> 0 <= sz -> ALIGN_UP start - start <= sz ->
  ALIGN_DOWN (u32 (sz - u32 (ALIGN_UP start - start))) = usable start sz /\
  start <= ALIGN_UP start /\ 0 <= usable start sz /\ (4 | usable start sz) /\ (4 | ALIGN_UP start) /\
  ALIGN_UP start + usable start sz <= start + sz.
Proof.
  intros H1 H2 H0 H3.
  unfold usable. rewrite ALIGN_UP_eq in * by lia. rewrite (ALIGN_DOWN_eq (start + sz)) by lia.
  rewrite (wrap_small 32 (_ - start)) by (Z.div_mod_to_equations; lia).
  rewrite wrap_small by (Z.div_mod_to_equations; lia).
  rewrite ALIGN_DOWN_eq by (Z.div_mod_to_equations; lia).
  split_and!; try (Z.div_mod_to_equations; lia).
  - exists ((start + sz) / 4 - (start + 3) / 4). lia.
  - exists ((start + 3) / 4). lia.
Qed.

(** The heap over [start, start + sz), all of it free. *)
Definition new_heap (start sz : Z) : MEM_Heap_t :=
  mk_heap (ALIGN_UP start) start sz (usable start sz) (usable start sz).

Definition new_mem (m : mem) (start sz : Z) : mem :=
  let a := ALIGN_UP start in
  wr8 (wr32 (wr32 m (a + 4) 0) a (usable start sz)) (a + usable start sz - 1) MEM_BLOCK_STAT_FREE.

Lemma new_rep m start sz :
  0 < start -> start + sz < 2 ^ 32 - 3 -> 0 <= sz -> ALIGN_UP start - start <= sz -> MEM_HEAP_MIN_SIZE <= usable start sz ->
  mapped m start (start + sz) ->
  heap_rep (new_mem m start sz) (new_heap start sz) [(usable start sz, false)] /\
  only m (new_mem m start sz) start (start + sz) /\ dom (new_mem m start sz) = dom m.
Proof.
  intros H1 H2 H0 H3 Hmin Hm. destruct (init_size start sz H1 H2 H0 H3) as (_ & Ha & Hu & Hu4 & Ha4 & Htop).
  unfold MEM_HEAP_MIN_SIZE, MEM_BLOCK_MIN_SIZE, MEM_BLOCK_HEAD_SIZE in *.
  unfold new_mem. cbv zeta. set (a := ALIGN_UP start) in *. set (u := usable start sz) in *.
  assert (mapped m a (a + u)) as Hma by (eapply mapped_sub; [done|lia|lia]).
  split; [|split; [stores|]].
  - split; cbn [base size free_list free new_heap total seg hd free_total coalesced]; unfold lo;
      cbn [base new_heap]; fold a u; try lia; try done.
    + unfold MEM_HEAP_MIN_SIZE, MEM_BLOCK_MIN_SIZE, MEM_BLOCK_HEAD_SIZE. lia.
    + unfold u, usable. fold a. lia.
    + rewrite Z.add_0_r. apply wr8_mapped; [|repeat apply wr32_mapped]; stores.
    + split_and!; try done; [lia|stores|stores|]. intros _. stores.
  - rewrite wr8_dom, !wr32_dom; [done|..]; stores.
Qed.

Lemma mem_heap_init_ok s i h0 start sz :
  mem_heap_list s !! i = Some h0 -> 0 < start -> start + sz < 2 ^ 32 - 3 -> 0 <= sz ->
  ALIGN_UP start - start <= sz -> MEM_HEAP_MIN_SIZE <= usable start sz ->
  mapped (memory s) start (start + sz) ->
  mem_heap_init i start sz s =
    (let fr := u32 (s_heap_free_size s + usable start sz) in
     set_total fr fr (set_heaps (<[i := new_heap start sz]> (mem_heap_list s))
       (set_memory (new_mem (memory s) start sz) s)), inr true).
Proof.
  intros Hi H1 H2 H0 H3 Hmin Hm. destruct (init_size start sz H1 H2 H0 H3) as (Eu & Ha & Hu & Hu4 & Ha4 & Htop).
  unfold MEM_HEAP_MIN_SIZE, MEM_BLOCK_MIN_SIZE, MEM_BLOCK_HEAD_SIZE in Hmin.
  assert (mapped (memory s) (ALIGN_UP start) (ALIGN_UP start + usable start sz)) as Hma
    by (eapply mapped_sub; [done|lia|lia]).
  unfold mem_heap_init. rewrite (bnd_ok _ _ _ _ _ (heap_get_ok s i h0 Hi)).
  rewrite (bnd_ok _ _ _ _ _ (heap_put_eq _ _ _)). cbv zeta. rewrite Eu.
  rewrite (proj2 (Z.ltb_ge _ _)) by (unfold MEM_HEAP_MIN_SIZE, MEM_BLOCK_MIN_SIZE, MEM_BLOCK_HEAD_SIZE; lia).
  set (s1 := set_heaps _ s).
  assert (mapped (memory s1) (ALIGN_UP start) (ALIGN_UP start + usable start sz)) as Hm1 by done.
  rewrite (bnd_ok _ _ _ _ _ (set_next_ok s1 (ALIGN_UP start) 0 ltac:(stores) ltac:(lia) ltac:(lia))).
  unfold set_size. set (s2 := set_memory _ s1).
  rewrite (bnd_ok _ _ _ _ _ (store32_ok s2 (ALIGN_UP start) (usable start sz) ltac:(cbn [memory s2 set_memory]; stores))).
  rewrite (bnd_ok _ _ _ _ _ (heap_put_eq _ _ _)). rewrite bnd_modify. set (s3 := set_total _ _ _).
  assert (memory s3 = wr32 (wr32 (memory s) (ALIGN_UP start + 4) 0) (ALIGN_UP start) (usable start sz)) as Em by done.
  rewrite (bnd_ok _ _ _ _ _ (set_dog_ok s3 (ALIGN_UP start) (usable start sz) MEM_BLOCK_STAT_FREE
    ltac:(rewrite Em; stores) ltac:(lia) ltac:(lia) ltac:(lia) ltac:(rewrite Em; stores))).
  unfold ret. f_equal. unfold s3, s2, s1, set_total, set_heaps, set_memory, new_mem. cbn.
  by rewrite list_insert_insert_eq.
Qed.

Lemma first_unused s Ws : heaps_ok s Ws -> (length Ws < 4)%nat ->
  exists h, mem_heap_list s !! length Ws = Some h /\
    list_find (fun h => size h = 0) (mem_heap_list s) = Some (length Ws, h).
Proof.
  intros O Hn. destruct (heap_lookup s Ws (length Ws) O Hn) as [h Hh]. exists h. split; [done|].
  apply list_find_Some. split; [done|]. split.
  - eapply (ok_unused _ _ O); [done|]. by apply lookup_ge_None_2.
  - intros j y Hy Hj. destruct (lookup_lt_is_Some_2 Ws j Hj) as [W HW].
    destruct (ok_at _ _ O j W HW) as (h' & A). pose proof (heap_size_pos _ _ _ _ A).
    destruct A as (Hj' & _). assert (h' = y) as -> by congruence. lia.
Qed.

(** The region is outside the heaps that exist. *)
Definition clear_of s (Ws : list (list blk)) (start sz : Z) : Prop :=
  forall i h, is_Some (Ws !! i) -> mem_heap_list s !! i = Some h ->
    base h + size h <= start \/ start + sz <= base h.

Lemma free_sum_app Ws W : free_sum (Ws ++ [W]) = free_sum Ws + free_total W.
Proof. induction Ws as [|V Ws IH]; simpl; lia. Qed.

(** A heap put at the first unused entry. *)
Lemma heaps_added s s' Ws h W :
  heaps_ok s Ws -> (length Ws < 4)%nat -> heap_at s' (length Ws) h W ->
  mem_heap_list s' = <[length Ws := h]> (mem_heap_list s) ->
  only (memory s) (memory s') (base h) (base h + size h) -> dom (memory s') = dom (memory s) ->
  clear_of s Ws (base h) (size h) -> s_heap_free_size s' = u32 (s_heap_free_size s + free h) ->
  heaps_ok s' (Ws ++ [W]) /\
  (forall p c, (used (lo h) W = []) -> handed s' (Ws ++ [W]) p c <-> handed s Ws p c).
Proof.
  intros O Hn A Hl Ho Hd Hcl Ht. pose proof A as (_ & R & Hctx).
  assert (length Ws < length (mem_heap_list s))%nat as Hlt by (rewrite (ok_four _ _ O); exact Hn).
  assert (forall j, j <> length Ws -> mem_heap_list s' !! j = mem_heap_list s !! j) as Hne
    by (intros; rewrite Hl; by apply list_lookup_insert_ne).
  assert (mem_heap_list s' !! length Ws = Some h) as Heq by (rewrite Hl; by apply list_lookup_insert_eq).
  assert (forall j V, (Ws ++ [W]) !! j = Some V -> j <> length Ws -> Ws !! j = Some V) as Hold.
  { intros j V HV Hj. apply lookup_app_Some in HV as [?|[Hge HV]]; [done|].
    apply list_lookup_singleton_Some in HV as [? _]. lia. }
  split.
  - split.
    + by rewrite Hl, length_insert, (ok_four _ _ O).
    + done.
    + intros j V HV. destruct (decide (j = length Ws)) as [->|Hj].
      * rewrite list_lookup_middle in HV by done. simplify_eq. eauto.
      * destruct (ok_at _ _ O j V (Hold _ _ HV Hj)) as (hj & Hlj & Rj & _). exists hj.
        split; [by rewrite Hne|]. split; [|done]. apply (rep_agree (memory s)); [|done|done].
        eapply only_agree; [done|]. destruct (rep_bounds _ _ _ Rj) as (_ & _ & ? & ? & _).
        destruct (Hcl j hj); [by exists V; apply Hold|done|lia|lia].
    + intros j hj Hj HWj. apply lookup_ge_None_1 in HWj. rewrite length_app in HWj. simpl in HWj.
      assert (Ws !! j = None) by (apply lookup_ge_None_2; lia).
      assert (j <> length Ws) as Hjn by lia.
      rewrite Hne in Hj by done. by apply (ok_unused _ _ O j).
    + intros j k hj hk Hjk [V HV] [X HX] Hj Hk.
      destruct (decide (j = length Ws)) as [->|Hj'], (decide (k = length Ws)) as [->|Hk']; [done| | |].
      * assert (hj = h) as -> by congruence. rewrite Hne in Hk by done.
        destruct (Hcl k hk); [by eexists; apply Hold|done|unfold beside; lia|unfold beside; lia].
      * assert (hk = h) as -> by congruence. rewrite Hne in Hj by done.
        destruct (Hcl j hj); [by eexists; apply Hold|done|unfold beside; lia|unfold beside; lia].
      * rewrite Hne in Hj, Hk by done.
        eapply (ok_beside _ _ O j k); try done; eexists; by apply Hold.
    + rewrite Ht, (ok_total _ _ O), free_sum_app, (rep_free _ _ _ R). unfold wrap.
      by rewrite Zplus_mod_idemp_l.
  - intros p c Hu. split.
    + intros (j & hj & V & Hj & HV & Hin). destruct (decide (j = length Ws)) as [->|Hj'].
      * rewrite list_lookup_middle in HV by done. simplify_eq. rewrite Hu in Hin. by apply elem_of_nil in Hin.
      * rewrite Hne in Hj by done. exists j, hj, V. split_and!; try done. by apply Hold.
    + intros (j & hj & V & Hj & HV & Hin). exists j, hj, V.
      pose proof (lookup_lt_Some _ _ _ HV). rewrite Hne by lia. split_and!; try done.
      by apply lookup_app_l_Some.
Qed.

(** The state after a heap was created at the first unused entry. *)
Definition created s (Ws : list (list blk)) (start sz : Z) : st :=
  let fr := u32 (s_heap_free_size s + usable start sz) in
  set_total fr fr (set_heaps (<[length Ws := new_heap start sz]> (mem_heap_list s))
    (set_memory (new_mem (memory s) start sz) s)).

(** A region for a heap: mapped, large enough, beside the heaps that exist. *)
Record region s (Ws : list (list blk)) (start sz : Z) : Prop := {
  rg_start : 0 < start;
  rg_top : start + sz < 2 ^ 32 - 3;
  rg_size : 0 <= sz;
  rg_gap : ALIGN_UP start - start <= sz;
  rg_min : MEM_HEAP_MIN_SIZE <= usable start sz;
  rg_mapped : mapped (memory s) start (start + sz);
  rg_clear : clear_of s Ws start sz
}.

Lemma created_ok s Ws start sz :
  heaps_ok s Ws -> (length Ws < MEM_HEAP_LIST_NUM)%nat -> region s Ws start sz ->
  let s' := created s Ws start sz in let Ws' := Ws ++ [[(usable start sz, false)]] in
  heaps_ok s' Ws' /\ only (memory s) (memory s') start (start + sz) /\
  (forall p c, handed s' Ws' p c <-> handed s Ws p c).
Proof.
  intros O Hn [H1 H2 H0 H3 Hmin Hm Hcl] s' Ws'.
  destruct (new_rep (memory s) start sz H1 H2 H0 H3 Hmin Hm) as (R & Ho & Hd).
  destruct (heaps_added s s' Ws (new_heap start sz) [(usable start sz, false)] O Hn) as [O' Hh]; try done.
  - split; [|split; [done|apply O]]. cbn. apply list_lookup_insert_eq. by rewrite (ok_four _ _ O).
  - split; [done|]. split; [done|]. intros p c. by apply Hh.
Qed.

(** [tuya_mem_heap_create] over a mapped region beside the other heaps takes the first
    unused entry of the four; the new heap is one free block of the aligned part of the
    region, nothing outside the region is written, and what is handed out stays so. *)
Theorem tuya_mem_heap_create_ok s Ws start sz :
  heaps_ok s Ws -> (length Ws < MEM_HEAP_LIST_NUM)%nat -> region s Ws start sz ->
  exists s', let Ws' := Ws ++ [[(usable start sz, false)]] in
    tuya_mem_heap_create start sz s = (s', inr (0, Some (length Ws))) /\ heaps_ok s' Ws' /\
    only (memory s) (memory s') start (start + sz) /\
    (forall p c, handed s' Ws' p c <-> handed s Ws p c).
Proof.
  intros O Hn Rg. exists (created s Ws start sz). cbv zeta. split; [|by apply created_ok].
  destruct Rg as [H1 H2 H0 H3 Hmin Hm Hcl]. destruct (first_unused s Ws O Hn) as (h0 & Hh0 & Ef).
  assert (start <> 0 /\ sz <> 0) as [Hs0 Hz0].
  { destruct (init_size start sz H1 H2 H0 H3) as (_ & ? & _ & _ & _ & ?).
    unfold MEM_HEAP_MIN_SIZE, MEM_BLOCK_MIN_SIZE, MEM_BLOCK_HEAD_SIZE in Hmin. lia. }
  unfold tuya_mem_heap_create, MEM_HeapCreate. pose proof (ctx_ok s (ok_ctx _ _ O)) as Ec.
  rewrite (bnd_ok _ _ _ _ _ Ec).
  rewrite (proj2 (Z.eqb_neq start 0)), (proj2 (Z.eqb_neq sz 0)) by done. cbn [orb].
  rewrite !bnd_assoc, (bnd_ok _ _ _ _ _ Ec). rewrite bnd_assoc, bnd_get, Ef.
  by rewrite bnd_assoc, (bnd_ok _ _ _ _ _ (mem_heap_init_ok s _ h0 start sz Hh0 H1 H2 H0 H3 Hmin Hm)).
Qed.

(** [tuya_mem_heap_create] over a region shorter than the gap to its first aligned
    address: the size computed for the heap wraps to nearly 4 GiB, the header of the first
    block is written behind the region and its state byte in front of it. *)
Theorem create_tiny_wraps s Ws start :
  heaps_ok s Ws -> (length Ws < MEM_HEAP_LIST_NUM)%nat -> 1 < start -> start + 16 < 2 ^ 32 ->
  start mod 4 = 1 -> mapped (memory s) (start - 2) (start + 16) ->
  exists s' h, tuya_mem_heap_create start 1 s = (s', inr (0, Some (length Ws))) /\
    mem_heap_list s' !! length Ws = Some h /\ free h = 2 ^ 32 - 4 /\
    word (memory s') (start + 3) (2 ^ 32 - 4) /\ memory s' !! (start - 2) = Some MEM_BLOCK_STAT_FREE.
Proof.
  intros O Hn H1 H2 Hmod Hm. destruct (first_unused s Ws O Hn) as (h0 & Hh0 & Ef).
  assert (ALIGN_UP start = start + 3) as Ea by (rewrite ALIGN_UP_eq by lia; Z.div_mod_to_equations; lia).
  unfold tuya_mem_heap_create, MEM_HeapCreate. pose proof (ctx_ok s (ok_ctx _ _ O)) as Ec.
  rewrite (bnd_ok _ _ _ _ _ Ec). rewrite (proj2 (Z.eqb_neq start 0)) by lia. cbn [orb Z.eqb].
  rewrite !bnd_assoc, (bnd_ok _ _ _ _ _ Ec). rewrite bnd_assoc, bnd_get, Ef. rewrite bnd_assoc.
  unfold mem_heap_init. rewrite bnd_assoc, (bnd_ok _ _ _ _ _ (heap_get_ok s _ h0 Hh0)).
  rewrite bnd_assoc, (bnd_ok _ _ _ _ _ (heap_put_eq _ _ _)). cbv zeta. rewrite Ea.
  replace (ALIGN_DOWN (u32 (1 - u32 (start + 3 - start)))) with (2 ^ 32 - 4)
    by (replace (start + 3 - start) with 3 by lia; by vm_compute).
  cbn [Z.ltb]. change (2 ^ 32 - 4 <? MEM_HEAP_MIN_SIZE) with false. cbv iota.
  set (s1 := set_heaps _ s). assert (mapped (memory s1) (start - 2) (start + 16)) as Hm1 by done.
  rewrite bnd_assoc, (bnd_ok _ _ _ _ _ (set_next_ok s1 (start + 3) 0 ltac:(stores) ltac:(lia) ltac:(lia))).
  unfold set_size. set (s2 := set_memory _ s1).
  rewrite bnd_assoc, (bnd_ok _ _ _ _ _ (store32_ok s2 (start + 3) (2 ^ 32 - 4) ltac:(cbn [memory s2 set_memory]; stores))).
  rewrite bnd_assoc, (bnd_ok _ _ _ _ _ (heap_put_eq _ _ _)). rewrite bnd_assoc, bnd_modify. set (s3 := set_total _ _ _).
  assert (memory s3 = wr32 (wr32 (memory s) (start + 3 + 4) 0) (start + 3) (2 ^ 32 - 4)) as Em by done.
  assert (set_dog (start + 3) MEM_BLOCK_STAT_FREE s3 =
    (set_memory (wr8 (memory s3) (start - 2) MEM_BLOCK_STAT_FREE) s3, inr tt)) as Ed.
  { unfold set_dog, MEM_DOG_ADDR, size_of.
    rewrite bnd_assoc, (bnd_ok _ _ _ _ _ (load32_ok s3 (start + 3) (2 ^ 32 - 4) ltac:(rewrite Em; stores) ltac:(lia))), bnd_ret.
    replace (u32 (start + 3 + (2 ^ 32 - 4) - 1)) with (start - 2).
    - apply store8_ok. rewrite Em. stores.
    - unfold wrap. replace (start + 3 + (2 ^ 32 - 4) - 1) with (start - 2 + 1 * 2 ^ 32) by lia.
      rewrite Z.mod_add by lia. by rewrite Z.mod_small by lia. }
  rewrite bnd_assoc, (bnd_ok _ _ _ _ _ Ed), bnd_ret.
  eexists _, _. split; [reflexivity|].
  cbn [mem_heap_list memory set_memory s3 s2 s1 set_total set_heaps].
  split; [rewrite list_insert_insert_eq; apply list_lookup_insert_eq; by rewrite (ok_four _ _ O)|].
  split; [done|]. split; [stores|apply lookup_wr8].
Qed.

End MemHeapLife.
