(* ===== verification/MemHeapProps.v ===== *)
(** * Properties of the memory heap

    What a client may rely on, what the status walk reports, the debugging allocation,
    and the calls at which the heap fails its callers. *)
From S2P Require Import Prelude Client Mem MemHeap MemHeapSpec MemHeapApi MemHeapLife.
Open Scope Z_scope.
Open Scope fw_scope.

Module MemHeapProps.
Import MemHeap MemHeapSpec MemHeapApi MemHeapLife.
Implicit Types (s : st).

(** ** The contract *)

(** C38: the memory heap keeps its contract with every client that uses only what it was
    handed, over any number of operations and any number of heaps: no access is out of
    bounds, no walk fails to end, each allocation is a fresh aligned buffer or [NULL],
    buffers do not overlap and keep their bytes, [calloc] clears, [realloc] keeps the
    contents up to the smaller size. *)
Theorem heap_serves (c : Client.client) n s Ws :
  heaps_ok s Ws -> Client.obeys op_ok spec_step ∅ c ->
  exists seen s' live, Client.run client_step c n [] s = Some (seen, s') /\
    Client.after op_ok spec_step ∅ c seen live /\ serves s' live.
Proof.
  intros O Hc. apply (Client.run_serves _ _ _ serves); [apply heap_serves_ops|done|by eapply serves_nothing].
Qed.

(** ** The status walk *)

Fixpoint free_bytes (W : list blk) : Z :=
  match W with [] => 0 | (sz, u) :: W => (if u : bool then 0 else sz - 5) + free_bytes W end.
Fixpoint largest_free (W : list blk) : Z :=
  match W with [] => 0 | (sz, u) :: W => Z.max (if u : bool then 0 else sz - 5) (largest_free W) end.
Fixpoint count (v : bool) (W : list blk) : Z :=
  match W with [] => 0 | (_, u) :: W => (if Bool.eqb u v then 1 else 0) + count v W end.

(** No small payload looks like one with a leak record. *)
Definition plain (m : mem) (ps : list (Z * Z)) : Prop :=
  forall p c, (p, c) ∈ ps -> 15 <= c \/ ld32 m (p + c - 7) <> Some MEM_DBG_LEAK_MAGIC.

Lemma load32_mapped s a : mapped (memory s) a (a + 4) -> exists v, load32 a s = (s, inr v) /\ ld32 (memory s) a = Some v.
Proof.
  intros Hm. destruct (loadn_mapped (memory s) a 4) as [l Hl]; [done|].
  exists (le_dec l). unfold load32, ld32. rewrite bnd_get. by rewrite Hl.
Qed.

(** The look at the leak record of a used block: nothing changes. *)
Lemma leak_look {A} s a sz (k : K A) :
  s_heap_ctx s = true -> word (memory s) a sz -> 0 < a -> 12 <= sz -> a + sz < 2 ^ 32 ->
  mapped (memory s) a (a + sz) -> 20 <= sz \/ ld32 (memory s) (a + sz - 8) <> Some MEM_DBG_LEAK_MAGIC ->
  (let! leak := leak_addr a in
   let! magic := load32 (u32 (leak + 12)) in
   (if magic =? MEM_DBG_LEAK_MAGIC then
      ctx_call ;;;
      let! _ := load32 leak in let! _ := load32 (u32 (leak + 4)) in let! _ := load32 (u32 (leak + 8)) in
      ctx_call
    else ret tt) ;;; k) s = k s.
Proof.
  intros Hctx Hw Ha Hsz Htop Hm Hp. pose proof (ctx_ok s Hctx) as Ec.
  unfold leak_addr, size_of. rewrite bnd_assoc, (bnd_ok _ _ _ _ _ (load32_ok s a sz Hw ltac:(lia))), bnd_ret.
  unfold LEAK_SIZE, MEM_ALIGN_NUM. rewrite wrap_add_idemp_l by lia.
  replace (a + sz - 16 - 4 + 12) with (a + sz - 8) by lia. rewrite (wrap_small 32 (a + sz - 8)) by lia.
  destruct (load32_mapped s (a + sz - 8)) as (v & Ev & Hv); [eapply mapped_sub; [done|lia|lia]|].
  rewrite (bnd_ok _ _ _ _ _ Ev). destruct (Z.eqb_spec v MEM_DBG_LEAK_MAGIC) as [->|Hne]; [|by rewrite bnd_ret].
  destruct Hp as [Hp|Hp]; [|done]. rewrite bnd_assoc, (bnd_ok _ _ _ _ _ Ec).
  rewrite (wrap_small 32 (a + sz - 16 - 4)) by lia.
  rewrite !(wrap_small 32 (_ + _)) by lia.
  assert (forall x, a <= x -> x + 4 <= a + sz -> exists v, load32 x s = (s, inr v)) as HL.
  { intros x ? ?. destruct (load32_mapped s x) as (w & ? & _); [eapply mapped_sub; [done|lia|lia]|eauto]. }
  destruct (HL (a + sz - 16 - 4)) as [v1 E1]; [lia..|]. destruct (HL (a + sz - 16 - 4 + 4)) as [v2 E2]; [lia..|].
  destruct (HL (a + sz - 16 - 4 + 8)) as [v3 E3]; [lia..|].
  rewrite bnd_assoc, (bnd_ok _ _ _ _ _ E1), bnd_assoc, (bnd_ok _ _ _ _ _ E2), bnd_assoc, (bnd_ok _ _ _ _ _ E3).
  by rewrite (bnd_ok _ _ _ _ _ Ec).
Qed.

(** The status of the blocks [W] added to [t]. *)
Definition tally (t : MEM_HeapStatus_t) (W : list blk) : MEM_HeapStatus_t :=
  mk_status (st_size t) (st_free t + free_bytes W) (Z.max (st_free_largest t) (largest_free W)) 1
    (st_used_block t + count true W) (st_free_block t + count false W).

Lemma status_loop_ok s n top a W t :
  s_heap_ctx s = true -> 0 < a -> seg (memory s) a W 0 -> a + total W = top -> top < 2 ^ 32 ->
  mapped (memory s) a top -> plain (memory s) (used a W) -> (length W < n)%nat ->
  0 <= st_free t -> st_free t + total W < 2 ^ 32 -> 0 <= st_free_largest t ->
  0 <= st_used_block t -> st_used_block t + total W < 2 ^ 32 ->
  0 <= st_free_block t -> st_free_block t + total W < 2 ^ 32 ->
  status_loop n top a (hd a W 0) t s = (s, inr (tally t W)).
Proof.
  intros Hctx. revert n a t. induction W as [|[sz u] W IH]; intros n a t Ha Hs Htop Ht Hm Hp Hn Hf Hf' Hl Hu Hu' Hb Hb'.
  - destruct n as [|n]; [simpl in Hn; lia|]. cbn [status_loop total hd] in *.
    rewrite (proj2 (Z.ltb_ge _ _)) by lia. rewrite (bnd_ok _ _ _ _ _ (ctx_ok s Hctx)).
    rewrite (proj2 (Z.eqb_eq a top)) by lia. cbn [Z.eqb andb].
    unfold ret, tally. cbn [free_bytes largest_free count]. rewrite !Z.add_0_r, Z.max_l by done. done.
  - destruct n as [|n]; [simpl in Hn; lia|]. simpl in Hn. cbn [total] in *.
    pose proof Hs as ([H12 _] & Hw & Hd & Hnx & Hs'). destruct (seg_total _ _ _ _ Hs') as [Ht0 _].
    cbn [status_loop]. rewrite (proj2 (Z.ltb_lt _ _)) by lia.
    unfold get_dog. rewrite bnd_assoc, (bnd_ok _ _ _ _ _ (dog_addr_ok s a sz Hw ltac:(lia) ltac:(lia) ltac:(lia))).
    rewrite (bnd_ok _ _ _ _ _ (load8_ok s _ _ Hd)).
    pose proof (load32_ok s a sz Hw ltac:(lia)) as Esz. pose proof (hd_range _ _ _ _ Hs') as Hr.
    assert (mapped (memory s) (a + sz) top) as Hm' by (eapply mapped_sub; [done|lia|lia]).
    assert (plain (memory s) (used (a + sz) W)) as Hp'.
    { intros p c Hin. apply Hp. cbn [used]. apply elem_of_app. by right. }
    destruct u; unfold dog; cbn [hd].
    + rewrite Z.eqb_refl. rewrite (proj2 (Z.eqb_neq a _)) by lia.
      rewrite leak_look with (sz := sz); [|try done; try lia..].
      * unfold size_of. rewrite (bnd_ok _ _ _ _ _ Esz). rewrite !wrap_small by lia.
        rewrite IH; cbn [st_free st_free_largest st_used_block st_free_block]; try done; try lia.
        unfold tally. cbn [st_size st_free st_free_largest st_valid st_used_block st_free_block free_bytes largest_free count Bool.eqb].
        do 3 f_equal; lia.
      * eapply mapped_sub; [exact Hm|lia|lia].
      * destruct (Hp (a + 4) (sz - 5)) as [?|?]; [simpl; apply elem_of_cons; by left|left; lia|right].
        by replace (a + sz - 8) with (a + 4 + (sz - 5) - 7) by lia.
    + change (MEM_BLOCK_STAT_FREE =? MEM_BLOCK_STAT_USE) with false. cbv iota. rewrite !Z.eqb_refl. cbn [negb].
      unfold size_of. rewrite (bnd_ok _ _ _ _ _ Esz). cbv zeta.
      rewrite (bnd_ok _ _ _ _ _ (next_of_ok s a _ (Hnx eq_refl) ltac:(lia) ltac:(lia) ltac:(lia))).
      unfold MEM_BLOCK_HEAD_SIZE. replace (u32 (sz - (8 - 4) - 1)) with (sz - 5) by (rewrite wrap_small; lia).
      rewrite !wrap_small by lia.
      rewrite IH; cbn [st_free st_free_largest st_used_block st_free_block]; try done; try lia.
      * unfold tally. cbn [st_size st_free st_free_largest st_valid st_used_block st_free_block free_bytes largest_free count Bool.eqb].
        destruct (Z.ltb_spec (st_free_largest t) (sz - 5)); do 3 f_equal; lia.
      * destruct (st_free_largest t <? _); lia.
Qed.

(** On a heap whose invariant holds, the status walk ends at the top of the heap,
    reports it valid, and counts exactly its blocks, its free bytes and the largest
    allocation it could serve. *)
Theorem MEM_HeapStatus_counts s i h W :
  heap_at s i h W -> plain (memory s) (used (lo h) W) ->
  MEM_HeapStatus i s =
    (s, inr (mk_status (size h) (free_bytes W) (largest_free W) 1 (count true W) (count false W))).
Proof.
  intros (Hi & R & Hctx) Hp. destruct (rep_bounds _ _ _ R) as (Hlo & _ & Hb & Ht & Htop & Ht0).
  unfold MEM_HeapStatus. rewrite (bnd_ok _ _ _ _ _ (heap_get_ok s i h Hi)), (bnd_ok _ _ _ _ _ (ctx_ok s Hctx)).
  rewrite <- (rep_total _ _ _ R), (rep_list _ _ _ R). change (ALIGN_UP (base h)) with (lo h).
  rewrite (status_loop_ok s _ _ (lo h) W); cbn [st_free st_free_largest st_used_block st_free_block]; try done; try lia;
    try apply R.
  - unfold tally. cbn [st_size st_free st_free_largest st_used_block st_free_block]. rewrite Z.max_r; [done|].
    clear. induction W as [|[sz u] W IH]; simpl; lia.
  - by eapply walk_fuel_ok.
Qed.

(** ** The debugging allocation *)

(** The leak record at [r]. *)
Definition record_at (m : mem) (r filename line size : Z) : Prop :=
  word m r filename /\ word m (r + 4) line /\ word m (r + 8) size /\ word m (r + 12) MEM_DBG_LEAK_MAGIC.

(** What a debugging allocation of [size] bytes at [p] leaves. *)
Definition debug_granted s Ws size filename line s' p : Prop :=
  exists Ws' c, heaps_ok s' Ws' /\ (4 | p) /\ size + 19 <= c /\
    record_at (memory s') (p + c - 19) filename line size /\
    (forall q d, handed s' Ws' q d <-> (q, d) = (p, c) \/ handed s Ws q d) /\
    (forall q d, handed s Ws q d -> agree (memory s) (memory s') q (q + d) /\ apart (p, c) (q, d)).

Lemma debug_size size : 0 <= size -> size + 19 < 2 ^ 32 ->
  let n := u32 (ALIGN_UP size + LEAK_SIZE) in
  0 <= n < 2 ^ 32 /\ size + 24 <= block_size n.
Proof.
  intros H1 H2 n. unfold n, LEAK_SIZE. rewrite ALIGN_UP_eq by lia.
  rewrite wrap_small by (Z.div_mod_to_equations; lia).
  destruct (block_size_bounds (4 * ((size + 3) / 4) + 16)) as (? & _ & [k Hk]).
  - Z.div_mod_to_equations. lia.
  - split; Z.div_mod_to_equations; lia.
Qed.

Lemma debug_one s Ws i h W size filename line :
  heaps_ok s Ws -> Ws !! i = Some W -> heap_at s i h W -> 0 <= size -> size + 19 < 2 ^ 32 ->
  exists s' p, MEM_AllocateDebug (Some i) size filename line s = (s', inr p) /\
    (p = 0 /\ s' = s \/ p <> 0 /\ debug_granted s Ws size filename line s' p).
Proof.
  intros O HW A H1 H2. destruct (debug_size size H1 H2) as [Hn Hb]. unfold MEM_AllocateDebug. cbv zeta.
  destruct (malloc_one s Ws i h W _ O HW A Hn) as (s1 & p & E & [[-> ->]|(Ws' & c & O' & Hp & Hp4 & Hc & Hh & Hk)]).
  - exists s, 0. rewrite (bnd_ok _ _ _ _ _ E). auto.
  - assert (handed s1 Ws' p c) as Hpc by (apply Hh; by left).
    destruct (handed_block _ _ _ _ O' Hpc) as (Hp' & _ & Htop & Hc7 & _ & Hw & _ & Hm).
    rewrite (bnd_ok _ _ _ _ _ E). rewrite (proj2 (Z.eqb_neq p 0)) by lia. cbn [negb].
    change MEM_BLOCK_HEAD_SIZE with 4. rewrite (wrap_small 32 (p - 4)) by lia.
    unfold leak_addr, size_of. rewrite bnd_assoc, (bnd_ok _ _ _ _ _ (load32_ok s1 _ _ Hw ltac:(lia))), bnd_ret.
    unfold LEAK_SIZE, MEM_ALIGN_NUM. replace (p - 4 + (c + 5) - 16 - 4) with (p + c - 19) by lia.
    set (r := p + c - 19). assert (p + size <= r /\ r + 19 = p + c) as [Hr Hrc] by (unfold r; lia).
    rewrite (wrap_small 32 r), !(wrap_small 32 (r + _)) by lia.
    set (m1 := wr32 (memory s1) r filename). set (m2 := wr32 m1 (r + 4) line).
    set (m3 := wr32 m2 (r + 8) size). set (m4 := wr32 m3 (r + 12) MEM_DBG_LEAK_MAGIC).
    rewrite (bnd_ok _ _ _ _ _ (store32_ok s1 r filename ltac:(stores))).
    rewrite (bnd_ok _ _ _ _ _ (store32_ok (set_memory m1 s1) (r + 4) line ltac:(cbn [memory set_memory]; unfold m1; stores))).
    rewrite (bnd_ok _ _ _ _ _ (store32_ok (set_memory m2 s1) (r + 8) size ltac:(cbn [memory set_memory]; unfold m2, m1; stores))).
    rewrite (bnd_ok _ _ _ _ _ (store32_ok (set_memory m3 s1) (r + 12) MEM_DBG_LEAK_MAGIC ltac:(cbn [memory set_memory]; unfold m3, m2, m1; stores))).
    assert (only (memory s1) m4 p (p + c)) as Ho by (unfold m4, m3, m2, m1; stores).
    assert (dom m4 = dom (memory s1)) as Hd.
    { unfold m4, m3, m2, m1. rewrite !wr32_dom; try done; stores. }
    destruct (heaps_payload s1 Ws' p c m4 O' Hpc Ho Hd) as [O4 Hk4].
    exists (set_memory m4 s1), p. split; [reflexivity|]. right. split; [lia|]. exists Ws', c.
    split; [done|]. split; [done|]. split; [lia|]. split; [|split; [exact Hh|]].
    + cbn [memory set_memory]. fold r. unfold record_at, m4, m3, m2, m1. split_and!; stores.
    + intros q d Hq. destruct (Hk q d Hq) as [Hag Hap]. split; [|done].
      eapply agree_trans; [exact Hag|]. apply Hk4; [apply Hh; by right|].
      intros ?; simplify_eq. unfold apart in Hap. simpl in Hap.
      destruct (handed_block _ _ _ _ O Hq) as (_ & _ & _ & ? & _). lia.
Qed.

(** A debugging allocation returns [NULL] or a new buffer with the file name, the line
    and the size recorded behind the [size] bytes of the caller, and leaves every other
    buffer alone. *)
Theorem tuya_mem_heap_debug_malloc_ok s Ws size filename line :
  heaps_ok s Ws -> 0 <= size -> size + 19 < 2 ^ 32 ->
  exists s' p, tuya_mem_heap_debug_malloc None size filename line s = (s', inr p) /\
    (p = 0 /\ s' = s \/ p <> 0 /\ debug_granted s Ws size filename line s' p).
Proof.
  intros O H1 H2. unfold tuya_mem_heap_debug_malloc.
  apply (malloc_any_gen _ (debug_granted s Ws size filename line) s Ws size 4 0 O); [|done].
  intros j h W HW A. by eapply debug_one.
Qed.

(** ** Where the computations wrap *)

(** [tuya_mem_heap_realloc] to any of the eight largest sizes claims success: the size of
    the new block wraps to at most 4, the block is kept as it is and its address returned. *)
Theorem realloc_wraps s Ws p c n :
  heaps_ok s Ws -> handed s Ws p c -> 2 ^ 32 - 8 <= n < 2 ^ 32 ->
  tuya_mem_heap_realloc None p n s = (s, inr p).
Proof.
  intros O Hc Hn. destruct (handed_block _ _ _ _ O Hc) as (Hp4 & _ & Htop & Hc7 & _).
  destruct (get_dog_ok s Ws p c O Hc) as [Es Ed]. unfold tuya_mem_heap_realloc.
  rewrite (proj2 (Z.eqb_neq p 0)) by lia. change MEM_BLOCK_HEAD_SIZE with 4.
  rewrite (wrap_small 32 (p - 4)) by lia. rewrite (bnd_ok _ _ _ _ _ Ed). rewrite Z.eqb_refl. cbn [negb].
  rewrite (proj2 (Z.ltb_ge n 4)) by lia. cbv zeta. rewrite (bnd_ok _ _ _ _ _ Es).
  assert (n = 2 ^ 32 - 8 \/ n = 2 ^ 32 - 7 \/ n = 2 ^ 32 - 6 \/ n = 2 ^ 32 - 5 \/ n = 2 ^ 32 - 4 \/
    n = 2 ^ 32 - 3 \/ n = 2 ^ 32 - 2 \/ n = 2 ^ 32 - 1) as Hcases by lia.
  rewrite (proj2 (Z.leb_le _ (c + 5))); [done|].
  destruct Hcases as [->|[->|[->|[->|[->|[->|[->| ->]]]]]]]; vm_compute (u32 _); lia.
Qed.

(** After the first heap is deleted, allocation without a handle finds no heap: it
    returns [NULL] for every size, although the other heaps still have room; the total of
    the free sizes still counts the deleted heap. *)
Theorem delete_first_starves s Ws n :
  heaps_ok s Ws ->
  exists s', tuya_mem_heap_delete (Some 0%nat) s = (s', inr 0) /\
    tuya_mem_heap_malloc None n s' = (s', inr 0) /\
    s_heap_free_size s' = s_heap_free_size s.
Proof.
  intros O. pose proof (ok_four _ _ O) as H4.
  set (s' := set_heaps (<[0%nat := zero_heap]> (mem_heap_list s)) s).
  assert (mem_heap_list s' !! 0%nat = Some zero_heap) as Hz.
  { cbn. apply list_lookup_insert_eq. rewrite H4. unfold MEM_HEAP_LIST_NUM. lia. }
  exists s'. split.
  - unfold tuya_mem_heap_delete, MEM_HeapDelete. rewrite bnd_assoc, (bnd_ok _ _ _ _ _ (ctx_ok s (ok_ctx _ _ O))).
    rewrite bnd_assoc, bnd_get. rewrite bool_decide_true by (rewrite H4; unfold MEM_HEAP_LIST_NUM; lia).
    rewrite (bnd_ok _ _ _ _ _ (heap_put_eq _ _ _)). reflexivity.
  - split; [|done]. unfold tuya_mem_heap_malloc, MEM_HEAP_LIST_NUM. cbn [malloc_any].
    rewrite (bnd_ok _ _ _ _ _ (heap_get_ok s' 0 zero_heap Hz)).
    reflexivity.
Qed.

(** ** A small heap *)

(** 64 bytes at 4096, and the state after [tuya_mem_heap_init]. *)
Definition boot : st :=
  mk_st (upd ∅ 4096 (replicate 64 0)) (replicate 4 zero_heap) 0 0 true.

Definition demo : st := created boot [] 4096 64.
Definition demo_blocks : list (list blk) := [[(64, false)]].

Lemma boot_ok : heaps_ok boot [].
Proof.
  split; try done.
  - intros i h Hi _. apply lookup_replicate in Hi as [-> _]. done.
  - intros i j h h' _ [W HW]. done.
Qed.

Lemma boot_region : region boot [] 4096 64.
Proof.
  split; try (vm_compute; congruence); [|by intros i h [W HW]].
  intros i Hi. exists (nthb (replicate 64 0) (i - 4096)).
  rewrite <- (upd_holds ∅ 4096 (replicate 64 0) (i - 4096)) by (change (zlen (replicate 64 0)) with 64; lia).
  cbn [memory boot]. f_equal. lia.
Qed.

Lemma demo_ok : heaps_ok demo demo_blocks.
Proof. exact (proj1 (created_ok boot [] 4096 64 boot_ok ltac:(unfold MEM_HEAP_LIST_NUM; simpl; lia) boot_region)). Qed.

Lemma demo_at : heap_at demo 0 (new_heap 4096 64) [(64, false)].
Proof.
  destruct (ok_at _ _ demo_ok 0%nat [(64, false)]) as [h A]; [done|].
  assert (h = new_heap 4096 64) as <-; [|done]. destruct A as (Hi & _). by vm_compute in Hi; simplify_eq.
Qed.

(** The state after 8 bytes were handed out. *)
Definition demo1 : st := fst (tuya_mem_heap_malloc None 8 demo).

Lemma demo1_handed : exists Ws c, heaps_ok demo1 Ws /\ handed demo1 Ws 4148 c.
Proof.
  destruct (malloc_any_ok demo demo_blocks 8 4 0 demo_ok ltac:(lia) eq_refl) as (s' & p & E & H).
  assert (s' = demo1) as -> by (unfold demo1, tuya_mem_heap_malloc, MEM_HEAP_LIST_NUM; by rewrite E).
  assert (p = 4148) as ->.
  { assert (snd (malloc_any (fun h => MEM_Allocate h 8) 4 0 8 demo) = inr 4148) as E2 by (by vm_compute).
    rewrite E in E2. simpl in E2. congruence. }
  destruct H as [[? _]|(Ws & c & O & _ & _ & _ & Hh & _)]; [done|]. exists Ws, c. split; [done|]. apply Hh. by left.
Qed.

(** A client of four operations. *)
Definition demo_client : Client.client := fun seen =>
  match seen with
  | [] => Some (Calloc 8)
  | [Ptr p] => if p =? 0 then None else Some (Write p 2 [7; 9])
  | [Ptr p; Done] => Some (Read p 0 8)
  | [Ptr p; Done; Data _] => Some (Free p)
  | _ => None
  end.

Abbreviation demo_after := (Client.after op_ok spec_step ∅ demo_client).

Lemma demo_client_obeys : Client.obeys op_ok spec_step ∅ demo_client.
Proof.
  assert (forall p live, demo_after [Ptr p] live -> p <> 0 -> exists l, live !! p = Some l /\ zlen l = 8) as H1.
  { intros p live (live0 & o & _ & [= <-] & Hs)%(Client.after_snoc _ _ _ _ [] (Ptr p)) Hp.
    destruct Hs as [[? _]|[_ ->]]; [done|]. exists (replicate 8 0). by rewrite lookup_insert_eq. }
  assert (forall p b live, demo_after [Ptr p; b] live -> exists l, live !! p = Some l /\ zlen l = 8) as H2.
  { intros p b live (live0 & o & H & E & Hs)%(Client.after_snoc _ _ _ _ [Ptr p] b). simpl in E.
    destruct (Z.eqb_spec p 0) as [|Hp]; [done|]. simplify_eq. destruct (H1 _ _ H Hp) as (l & Hl & Hz).
    destruct b; try done. destruct Hs as (l' & Hl' & ->). simplify_eq. exists (splice 2 [7; 9] l').
    rewrite lookup_insert_eq. split; [done|]. rewrite zlen_splice; [done|lia|]. rewrite Hz. by vm_compute. }
  intros seen live o H E. destruct seen as [|[p| |] [|[| |] [|[| |] [|]]]]; simplify_eq/=; try done.
  - destruct (Z.eqb_spec p 0) as [|Hp]; [done|]. simplify_eq. destruct (H1 _ _ H Hp) as (l & ? & Hz).
    exists l. rewrite Hz. by split_and!; try done.
  - destruct (H2 _ _ _ H) as (l & ? & Hz). exists l. by rewrite Hz.
  - apply (Client.after_snoc _ _ _ _ [Ptr p; Done]) in H as (live0 & o' & _ & [= <-] & (k & Hk & _ & ->)). by exists k.
Qed.

Lemma heap_serves_witness :
  exists seen s' live, Client.run client_step demo_client 4 [] demo = Some (seen, s') /\
    demo_after seen live /\ serves s' live.
Proof. exact (heap_serves demo_client 4 demo demo_blocks demo_ok demo_client_obeys). Defined.

Example demo_client_sees :
  fst <$> Client.run client_step demo_client 4 [] demo
    = Some [Ptr 4148; Done; Data [0; 0; 7; 9; 0; 0; 0; 0]; Done].
Proof. by vm_compute. Qed.

Lemma free_undoes_malloc_witness :
  exists s1 p, MEM_Allocate (Some 0%nat) 8 demo = (s1, inr p) /\ p = 4148 /\
  exists s2 h2, MEM_Deallocate (Some 0%nat) p s1 = (s2, inr tt) /\ heap_at s2 0 h2 [(64, false)] /\
    free h2 = free (new_heap 4096 64) /\ free_list h2 = free_list (new_heap 4096 64) /\
    u32 (s_heap_free_size s2) = u32 (s_heap_free_size demo).
Proof.
  exists (fst (MEM_Allocate (Some 0%nat) 8 demo)), 4148.
  assert (MEM_Allocate (Some 0%nat) 8 demo = (fst (MEM_Allocate (Some 0%nat) 8 demo), inr 4148)) as E by (by vm_compute).
  split; [exact E|]. split; [reflexivity|].
  apply (free_undoes_malloc demo 0 (new_heap 4096 64) [(64, false)] 8 _ 4148 demo_at); [lia|exact E|lia].
Defined.

Lemma all_returned_coalesced_witness :
  [(64, false)] = [(total [(64, false)], false)] /\
  (0 < 50 -> block_size 50 <= 64 -> exists s' p, MEM_Allocate (Some 0%nat) 50 demo = (s', inr p) /\ p <> 0).
Proof. exact (all_returned_coalesced demo 0 (new_heap 4096 64) [(64, false)] 50 demo_at eq_refl). Defined.

Lemma MEM_Allocate_fails_witness :
  (exists s', MEM_Allocate (Some 0%nat) 100 demo = (s', inr 0)) <-> no_fit (block_size 100) [(64, false)].
Proof. apply (MEM_Allocate_fails demo 0 (new_heap 4096 64) [(64, false)] 100 demo_at). lia. Defined.

Lemma tuya_mem_heap_create_ok_witness :
  exists s', let Ws' := [] ++ [[(usable 4096 64, false)]] in
    tuya_mem_heap_create 4096 64 boot = (s', inr (0, Some 0%nat)) /\ heaps_ok s' Ws' /\
    only (memory boot) (memory s') 4096 (4096 + 64) /\
    (forall p c, handed s' Ws' p c <-> handed boot [] p c).
Proof. apply (tuya_mem_heap_create_ok boot [] 4096 64 boot_ok); [unfold MEM_HEAP_LIST_NUM; simpl; lia|exact boot_region]. Defined.

Lemma create_tiny_wraps_witness :
  exists s' h, tuya_mem_heap_create 4101 1 boot = (s', inr (0, Some 0%nat)) /\
    mem_heap_list s' !! 0%nat = Some h /\ free h = 2 ^ 32 - 4 /\
    word (memory s') (4101 + 3) (2 ^ 32 - 4) /\ memory s' !! (4101 - 2) = Some MEM_BLOCK_STAT_FREE.
Proof.
  apply (create_tiny_wraps boot [] 4101 boot_ok); [unfold MEM_HEAP_LIST_NUM; simpl; lia|lia|lia|reflexivity|].
  eapply mapped_sub; [exact (rg_mapped _ _ _ _ boot_region)|lia|lia].
Defined.

Lemma MEM_HeapStatus_counts_witness :
  MEM_HeapStatus 0 demo = (demo, inr (mk_status 64 59 59 1 0 1)).
Proof.
  apply (MEM_HeapStatus_counts demo 0 (new_heap 4096 64) [(64, false)] demo_at).
  intros p c H. by apply elem_of_nil in H.
Defined.

Lemma tuya_mem_heap_debug_malloc_ok_witness :
  exists s' p, tuya_mem_heap_debug_malloc None 8 77 5 demo = (s', inr p) /\
    (p = 0 /\ s' = demo \/ p <> 0 /\ debug_granted demo demo_blocks 8 77 5 s' p).
Proof. apply (tuya_mem_heap_debug_malloc_ok demo demo_blocks 8 77 5 demo_ok); lia. Defined.

Lemma realloc_wraps_witness :
  tuya_mem_heap_realloc None 4148 (2 ^ 32 - 1) demo1 = (demo1, inr 4148).
Proof.
  destruct demo1_handed as (Ws & c & O & H).
  apply (realloc_wraps demo1 Ws 4148 c (2 ^ 32 - 1) O H). lia.
Defined.

Lemma delete_first_starves_witness :
  exists s', tuya_mem_heap_delete (Some 0%nat) demo = (s', inr 0) /\
    tuya_mem_heap_malloc None 8 s' = (s', inr 0) /\ s_heap_free_size s' = s_heap_free_size demo.
Proof. exact (delete_first_starves demo demo_blocks 8 demo_ok). Defined.

End MemHeapProps.
