(* ===== verification/Hashmap.v ===== *)
(** * The hash map

    Model of [src/tuyaos/tuyaos_adapter/include/utilities/src/tuya_hashmap.c] with the
    intrusive lists of [tuya_hlist.h]: chains of elements that carry the key, the data
    and a back pointer to the field that points at them. Refinement of a multimap:
    the bindings of a key, the newest first. *)
From S2P Require Import Prelude.
Open Scope Z_scope.

Module Hashmap.

(** ** Data

    The elements live in a store from addresses to their fields; 0 is [NULL]. The key is
    the C string the caller passed: the map keeps the pointer and relies on the string
    staying as it is. [None] is an access to an element or a list head that is not there. *)

(** [pprev] is the address of the field that points at a node: the head of a list, or the
    [next] of another element. *)
Inductive pfield := PHead (i : Z) | PNext (a : Z).

Record HASHMAP_ELEMENT_T := mk_elem { key : list Z; data : Z; next : Z; pprev : pfield }.

Record HASHMAP_T := mk_map {
  size : Z;
  table_size : Z;
  heads : list Z;
  elems : gmap Z HASHMAP_ELEMENT_T
}.

Definition MAP_MISSING : Z := -2.
Definition MAP_OMEM : Z := -1.
Definition MAP_OK : Z := 0.

(** ** The hash *)

Definition crc32_tab : list Z :=
  [
   0x00000000; 0x77073096; 0xee0e612c; 0x990951ba; 0x076dc419; 0x706af48f; 0xe963a535;
   0x9e6495a3; 0x0edb8832; 0x79dcb8a4; 0xe0d5e91e; 0x97d2d988; 0x09b64c2b; 0x7eb17cbd;
   0xe7b82d07; 0x90bf1d91; 0x1db71064; 0x6ab020f2; 0xf3b97148; 0x84be41de; 0x1adad47d;
   0x6ddde4eb; 0xf4d4b551; 0x83d385c7; 0x136c9856; 0x646ba8c0; 0xfd62f97a; 0x8a65c9ec;
   0x14015c4f; 0x63066cd9; 0xfa0f3d63; 0x8d080df5; 0x3b6e20c8; 0x4c69105e; 0xd56041e4;
   0xa2677172; 0x3c03e4d1; 0x4b04d447; 0xd20d85fd; 0xa50ab56b; 0x35b5a8fa; 0x42b2986c;
   0xdbbbc9d6; 0xacbcf940; 0x32d86ce3; 0x45df5c75; 0xdcd60dcf; 0xabd13d59; 0x26d930ac;
   0x51de003a; 0xc8d75180; 0xbfd06116; 0x21b4f4b5; 0x56b3c423; 0xcfba9599; 0xb8bda50f;
   0x2802b89e; 0x5f058808; 0xc60cd9b2; 0xb10be924; 0x2f6f7c87; 0x58684c11; 0xc1611dab;
   0xb6662d3d; 0x76dc4190; 0x01db7106; 0x98d220bc; 0xefd5102a; 0x71b18589; 0x06b6b51f;
   0x9fbfe4a5; 0xe8b8d433; 0x7807c9a2; 0x0f00f934; 0x9609a88e; 0xe10e9818; 0x7f6a0dbb;
   0x086d3d2d; 0x91646c97; 0xe6635c01; 0x6b6b51f4; 0x1c6c6162; 0x856530d8; 0xf262004e;
   0x6c0695ed; 0x1b01a57b; 0x8208f4c1; 0xf50fc457; 0x65b0d9c6; 0x12b7e950; 0x8bbeb8ea;
   0xfcb9887c; 0x62dd1ddf; 0x15da2d49; 0x8cd37cf3; 0xfbd44c65; 0x4db26158; 0x3ab551ce;
   0xa3bc0074; 0xd4bb30e2; 0x4adfa541; 0x3dd895d7; 0xa4d1c46d; 0xd3d6f4fb; 0x4369e96a;
   0x346ed9fc; 0xad678846; 0xda60b8d0; 0x44042d73; 0x33031de5; 0xaa0a4c5f; 0xdd0d7cc9;
   0x5005713c; 0x270241aa; 0xbe0b1010; 0xc90c2086; 0x5768b525; 0x206f85b3; 0xb966d409;
   0xce61e49f; 0x5edef90e; 0x29d9c998; 0xb0d09822; 0xc7d7a8b4; 0x59b33d17; 0x2eb40d81;
   0xb7bd5c3b; 0xc0ba6cad; 0xedb88320; 0x9abfb3b6; 0x03b6e20c; 0x74b1d29a; 0xead54739;
   0x9dd277af; 0x04db2615; 0x73dc1683; 0xe3630b12; 0x94643b84; 0x0d6d6a3e; 0x7a6a5aa8;
   0xe40ecf0b; 0x9309ff9d; 0x0a00ae27; 0x7d079eb1; 0xf00f9344; 0x8708a3d2; 0x1e01f268;
   0x6906c2fe; 0xf762575d; 0x806567cb; 0x196c3671; 0x6e6b06e7; 0xfed41b76; 0x89d32be0;
   0x10da7a5a; 0x67dd4acc; 0xf9b9df6f; 0x8ebeeff9; 0x17b7be43; 0x60b08ed5; 0xd6d6a3e8;
   0xa1d1937e; 0x38d8c2c4; 0x4fdff252; 0xd1bb67f1; 0xa6bc5767; 0x3fb506dd; 0x48b2364b;
   0xd80d2bda; 0xaf0a1b4c; 0x36034af6; 0x41047a60; 0xdf60efc3; 0xa867df55; 0x316e8eef;
   0x4669be79; 0xcb61b38c; 0xbc66831a; 0x256fd2a0; 0x5268e236; 0xcc0c7795; 0xbb0b4703;
   0x220216b9; 0x5505262f; 0xc5ba3bbe; 0xb2bd0b28; 0x2bb45a92; 0x5cb36a04; 0xc2d7ffa7;
   0xb5d0cf31; 0x2cd99e8b; 0x5bdeae1d; 0x9b64c2b0; 0xec63f226; 0x756aa39c; 0x026d930a;
   0x9c0906a9; 0xeb0e363f; 0x72076785; 0x05005713; 0x95bf4a82; 0xe2b87a14; 0x7bb12bae;
   0x0cb61b38; 0x92d28e9b; 0xe5d5be0d; 0x7cdcefb7; 0x0bdbdf21; 0x86d3d2d4; 0xf1d4e242;
   0x68ddb3f8; 0x1fda836e; 0x81be16cd; 0xf6b9265b; 0x6fb077e1; 0x18b74777; 0x88085ae6;
   0xff0f6a70; 0x66063bca; 0x11010b5c; 0x8f659eff; 0xf862ae69; 0x616bffd3; 0x166ccf45;
   0xa00ae278; 0xd70dd2ee; 0x4e048354; 0x3903b3c2; 0xa7672661; 0xd06016f7; 0x4969474d;
   0x3e6e77db; 0xaed16a4a; 0xd9d65adc; 0x40df0b66; 0x37d83bf0; 0xa9bcae53; 0xdebb9ec5;
   0x47b2cf7f; 0x30b5ffe9; 0xbdbdf21c; 0xcabac28a; 0x53b39330; 0x24b4a3a6; 0xbad03605;
   0xcdd70693; 0x54de5729; 0x23d967bf; 0xb3667a2e; 0xc4614ab8; 0x5d681b02; 0x2a6f2b94;
   0xb40bbe37; 0xc30c8ea1; 0x5a05df1b; 0x2d02ef8d].

Definition __crc32_hashmap (s : list Z) : Z :=
  fold_left (fun crc b => Z.lxor (nthb crc32_tab (Z.land (Z.lxor crc b) 0xff)) (Z.shiftr crc 8)) s 0.

(** Robert Jenkins' mix and Knuth's multiplication. *)
Definition mix (key : Z) : Z :=
  let key := u32 (key + u32 (Z.shiftl key 12)) in
  let key := Z.lxor key (Z.shiftr key 22) in
  let key := u32 (key + u32 (Z.shiftl key 4)) in
  let key := Z.lxor key (Z.shiftr key 9) in
  let key := u32 (key + u32 (Z.shiftl key 10)) in
  let key := Z.lxor key (Z.shiftr key 2) in
  let key := u32 (key + u32 (Z.shiftl key 7)) in
  let key := Z.lxor key (Z.shiftr key 12) in
  u32 (Z.shiftr key 3 * 2654435761).

Definition __hashmap_hash_int (m : HASHMAP_T) (keystring : list Z) : Z :=
  mix (__crc32_hashmap keystring) mod u32 (table_size m).

(** ** The intrusive lists *)

Definition head_get (m : HASHMAP_T) (i : Z) : option Z := if i <? 0 then None else heads m !! Z.to_nat i.
Definition head_set (m : HASHMAP_T) (i v : Z) : option HASHMAP_T :=
  _ ← head_get m i; Some (mk_map (size m) (table_size m) (<[Z.to_nat i := v]> (heads m)) (elems m)).

Definition set_elems (el : gmap Z HASHMAP_ELEMENT_T) (m : HASHMAP_T) : HASHMAP_T :=
  mk_map (size m) (table_size m) (heads m) el.
Definition set_size (n : Z) (m : HASHMAP_T) : HASHMAP_T :=
  mk_map n (table_size m) (heads m) (elems m).

Definition elem_set (m : HASHMAP_T) (a : Z) (f : HASHMAP_ELEMENT_T -> HASHMAP_ELEMENT_T) : option HASHMAP_T :=
  e ← elems m !! a; Some (set_elems (<[a := f e]> (elems m)) m).
Definition set_next (v : Z) (e : HASHMAP_ELEMENT_T) : HASHMAP_ELEMENT_T := mk_elem (key e) (data e) v (pprev e).
Definition set_pprev (q : pfield) (e : HASHMAP_ELEMENT_T) : HASHMAP_ELEMENT_T := mk_elem (key e) (data e) (next e) q.

(** [*q = v]. *)
Definition field_set (m : HASHMAP_T) (q : pfield) (v : Z) : option HASHMAP_T :=
  match q with PHead i => head_set m i v | PNext a => elem_set m a (set_next v) end.

Definition tuya_hlist_empty (first : Z) : bool := first =? 0.

Definition tuya_hlist_add_head (m : HASHMAP_T) (n i : Z) : option HASHMAP_T :=
  first ← head_get m i;
  m ← elem_set m n (set_next first);
  m ← (if negb (first =? 0) then elem_set m first (set_pprev (PNext n)) else Some m);
  m ← head_set m i n;
  elem_set m n (set_pprev (PHead i)).

Definition __tuya_hlist_del (m : HASHMAP_T) (n : Z) : option HASHMAP_T :=
  e ← elems m !! n;
  let next := next e in let pprev := pprev e in
  m ← field_set m pprev next;
  if negb (next =? 0) then elem_set m next (set_pprev pprev) else Some m.

(** ** Operations *)

(** A chain visits each element at most once. *)
Definition fuel (m : HASHMAP_T) : nat := S (base.size (elems m)).

(** [strlen] and [strcmp] agree. *)
Definition same_key (k1 k2 : list Z) : bool := (strlen k1 =? strlen k2) && bool_decide (cstr k1 = cstr k2).

Fixpoint find_loop (n : nat) (m : HASHMAP_T) (k : list Z) (pos : Z) : option Z :=
  match n with
  | O => None
  | S n =>
      if pos =? 0 then Some 0
      else
        tmp_element ← elems m !! pos;
        if same_key k (key tmp_element) then Some pos else find_loop n m k (next tmp_element)
  end.

Definition __hash_find_next_element (m : HASHMAP_T) (curr : Z) : option Z :=
  c ← elems m !! curr; find_loop (fuel m) m (key c) (next c).

Definition __hash_find (m : HASHMAP_T) (k : list Z) : option Z :=
  let curr := signed 32 (__hashmap_hash_int m k) in
  first ← head_get m curr;
  if tuya_hlist_empty first then Some 0 else find_loop (fuel m) m k first.

(** The blocks that are freed: the list heads, if any, and the map; the elements are not. *)
Definition tuya_hashmap_free (addr lst : Z) : list Z := (if negb (lst =? 0) then [lst] else []) ++ [addr].

(** [addr] and [lst] are what the two allocations return. The result is the map, [None]
    for [NULL], and the blocks that are freed again. *)
Definition tuya_hashmap_new (addr lst table_size : Z) : option HASHMAP_T * list Z :=
  if table_size =? 0 then (None, [])
  else if addr =? 0 then (None, [])
  else if lst =? 0 then (None, tuya_hashmap_free addr 0)
  else (Some (mk_map 0 (signed 32 table_size) (replicate (Z.to_nat (u32 (table_size * 4) / 4)) 0) ∅), []).

(** [addr] is what the allocation returns. *)
Definition tuya_hashmap_put (addr : Z) (m : HASHMAP_T) (k : list Z) (d : Z) : option (Z * HASHMAP_T) :=
  if addr =? 0 then Some (MAP_OMEM, m)
  else
    let m := set_elems (<[addr := mk_elem k d 0 (PNext 0)]> (elems m)) m in
    let curr := signed 32 (__hashmap_hash_int m k) in
    m ← tuya_hlist_add_head m addr curr;
    Some (MAP_OK, set_size (signed 32 (size m + 1)) m).

(** The result and what is stored through [arg]. *)
Definition tuya_hashmap_get (m : HASHMAP_T) (k : list Z) : option (Z * Z) :=
  element ← __hash_find m k;
  if element =? 0 then Some (MAP_MISSING, 0)
  else e ← elems m !! element; Some (MAP_OK, data e).

(** The iterator is 0 or the address of an element's data, here of the element. *)
Definition tuya_hashmap_data_traversal (m : HASHMAP_T) (k : list Z) (iter : Z) : option (Z * Z) :=
  element ← (if iter =? 0 then __hash_find m k else __hash_find_next_element m iter);
  if element =? 0 then Some (MAP_MISSING, 0) else Some (MAP_OK, element).

(** [TUYA_HASHMAP_FOR_EACH_DATA], with a body that reads the data. *)
Fixpoint for_each_data (n : nat) (m : HASHMAP_T) (k : list Z) (iter : Z) : option (list Z) :=
  match n with
  | O => None
  | S n =>
      '(ret, iter) ← tuya_hashmap_data_traversal m k iter;
      if ret =? MAP_OK then
        e ← elems m !! iter; l ← for_each_data n m k iter; Some (data e :: l)
      else Some []
  end.
Definition TUYA_HASHMAP_FOR_EACH_DATA (m : HASHMAP_T) (k : list Z) : option (list Z) :=
  for_each_data (fuel m) m k 0.

(** The loop of [tuya_hashmap_remove]: the last [tmp_element]. *)
Fixpoint remove_loop (n : nat) (m : HASHMAP_T) (k : list Z) (d pos tmp : Z) : option Z :=
  match n with
  | O => None
  | S n =>
      if pos =? 0 then Some tmp
      else
        e ← elems m !! pos;
        if same_key k (key e) && ((d =? 0) || (data e =? d)) then Some pos
        else remove_loop n m k d (next e) pos
  end.

Definition tuya_hashmap_remove (m : HASHMAP_T) (k : list Z) (d : Z) : option (Z * HASHMAP_T) :=
  let curr := signed 32 (__hashmap_hash_int m k) in
  first ← head_get m curr;
  if tuya_hlist_empty first then Some (MAP_MISSING, m)
  else
    tmp_element ← remove_loop (fuel m) m k d first 0;
    if tmp_element =? 0 then Some (MAP_MISSING, m)
    else
      m ← __tuya_hlist_del m tmp_element;
      let m := set_elems (delete tmp_element (elems m)) m in
      Some (MAP_OK, set_size (signed 32 (size m - 1)) m).

Definition tuya_hashmap_length (m : option HASHMAP_T) : Z :=
  match m with Some m => size m | None => 0 end.

End Hashmap.
