(* ===== verification/HashmapSpec.v ===== *)
(** * The hash map is a multimap

    The chains of the table hold the bindings, the newest first, each in the chain its
    key hashes to. The operations act on them as on a list of bindings; a client that
    removes only what is bound sees a multimap. *)
From S2P Require Import Prelude Hashmap.
Open Scope Z_scope.

Module HashmapSpec.
Import Hashmap.

(** ** Chains *)

(** The address of an element, its key and its data. *)
Abbreviation binding := (Z * (list Z * Z))%type.
Implicit Types (x : binding) (l u v : list binding) (el : gmap Z HASHMAP_ELEMENT_T) (q : pfield).

Definition addrs (l : list binding) : list Z := map fst l.

(** From [p] the elements [l] are linked, the first pointed at by [q]; the last points to [r]. *)
Fixpoint seg el q (p : Z) l (r : Z) : Prop :=
  match l with
  | [] => p = r
  | (a, (k, d)) :: l => p = a /\ a <> 0 /\ exists nx, el !! a = Some (mk_elem k d nx q) /\ seg el (PNext a) nx l r
  end.

(** The field that points behind [l]. *)
Definition lastq q l : pfield := match last l with Some x => PNext x.1 | None => q end.

Lemma lastq_snoc q u x : lastq q (u ++ [x]) = PNext x.1.
Proof. unfold lastq. by rewrite last_snoc. Qed.

Lemma lastq_cons q x l : lastq q (x :: l) = lastq (PNext x.1) l.
Proof. unfold lastq. rewrite last_cons. by destruct (last l). Qed.

Lemma hseg_app el q p u v r :
  seg el q p (u ++ v) r <-> exists p', seg el q p u p' /\ seg el (lastq q u) p' v r.
Proof.
  revert q p. induction u as [|[a [k d]] u IH]; intros q p; simpl.
  - split; [eauto|by intros (? & <- & ?)].
  - setoid_rewrite IH. rewrite lastq_cons. simpl. split.
    + intros (-> & ? & nx & ? & p' & ? & ?). exists p'. split; [|done]. split; [done|]. split; [done|]. eauto.
    + intros (p' & (-> & ? & nx & ? & ?) & ?). split; [done|]. split; [done|]. exists nx. split; [done|]. eauto.
Qed.

Lemma seg_frame el el' q p l r :
  (forall a, a ∈ addrs l -> el' !! a = el !! a) -> seg el q p l r -> seg el' q p l r.
Proof.
  revert q p. induction l as [|[a [k d]] l IH]; intros q p Hf; simpl; [done|].
  intros (-> & Ha & nx & He & Hs). split; [done|]. split; [done|]. exists nx. split.
  - rewrite Hf; [done|]. simpl. apply elem_of_cons. by left.
  - apply IH; [|done]. intros b Hb. apply Hf. simpl. apply elem_of_cons. by right.
Qed.

Lemma seg_elem el q p l r x : seg el q p l r -> x ∈ l ->
  x.1 <> 0 /\ exists nx q', el !! x.1 = Some (mk_elem x.2.1 x.2.2 nx q').
Proof.
  revert q p. induction l as [|[a [k d]] l IH]; intros q p; simpl; [by intros _ ?%elem_of_nil|].
  intros (-> & Ha & nx & He & Hs) [->|Hx]%elem_of_cons; [eauto|]. by eapply IH.
Qed.

Lemma seg_head el q p l : seg el q p l 0 -> p = 0 <-> l = [].
Proof.
  destruct l as [|[a [k d]] l]; simpl; [done|]. intros (-> & ? & _). by split.
Qed.

(** The last element points elsewhere. *)
Lemma seg_redirect el q p u x r r' e :
  NoDup (addrs (u ++ [x])) -> seg el q p (u ++ [x]) r -> el !! x.1 = Some e ->
  seg (<[x.1 := set_next r' e]> el) q p (u ++ [x]) r'.
Proof.
  intros Hn Hs He. apply hseg_app in Hs as (p' & Hu & Hx). apply hseg_app. exists p'. split.
  - eapply seg_frame, Hu. intros a Ha. rewrite lookup_insert_ne; [done|].
    intros <-. unfold addrs in Hn. rewrite map_app in Hn. apply NoDup_app in Hn as (_ & Hn & _).
    apply (Hn _ Ha). apply elem_of_cons. by left.
  - destruct x as [a [k d]]. simpl in *. destruct Hx as (-> & ? & nx & He' & _).
    split; [done|]. split; [done|]. exists r'. rewrite lookup_insert_eq. split; [|done]. by simplify_eq.
Qed.

(** The first element is pointed at by another field. *)
Lemma seg_repoint el q q' p x v r e :
  NoDup (addrs (x :: v)) -> seg el q p (x :: v) r -> el !! x.1 = Some e ->
  seg (<[x.1 := set_pprev q' e]> el) q' p (x :: v) r.
Proof.
  intros Hn Hs He. destruct x as [a [k d]]. simpl in *. destruct Hs as (-> & ? & nx & He' & Hs).
  inversion_clear Hn as [|? ? Ha]. split; [done|]. split; [done|]. exists nx. rewrite lookup_insert_eq.
  split; [by simplify_eq|]. eapply seg_frame, Hs. intros b Hb. rewrite lookup_insert_ne; [done|]. by intros <-.
Qed.

(** ** Searching a chain *)

Definition keys_ok l : Prop := Forall (fun x => is_str x.2.1) l.

Lemma same_key_eq k1 k2 : is_str k1 -> is_str k2 -> same_key k1 k2 = bool_decide (k1 = k2).
Proof.
  intros H1 H2. unfold same_key, strlen. rewrite !cstr_id by done.
  case_bool_decide as E; [by rewrite E, Z.eqb_refl|apply andb_false_r].
Qed.

(** The address of the first element with [P], 0 if there is none. *)
Fixpoint first_addr (P : binding -> bool) l : Z :=
  match l with [] => 0 | x :: l => if P x then x.1 else first_addr P l end.

Definition has_key (k : list Z) x : bool := bool_decide (k = x.2.1).

Lemma find_loop_ok m q k p l n :
  seg (elems m) q p l 0 -> keys_ok l -> is_str k -> (length l < n)%nat ->
  find_loop n m k p = Some (first_addr (has_key k) l).
Proof.
  intros Hs Hk Hks. revert q p n Hs Hk. induction l as [|[a [kk d]] l IH]; intros q p n Hs Hk Hn;
    (destruct n as [|n]; [simpl in Hn; lia|]); cbn [find_loop].
  - simpl in Hs. subst p. done.
  - cbn [seg] in Hs. destruct Hs as (-> & Ha & nx & He & Hs). rewrite (proj2 (Z.eqb_neq a 0)) by done.
    inversion_clear Hk as [|? ? Hk1 Hk2]. rewrite He. simpl. rewrite same_key_eq by done. unfold has_key at 1. simpl.
    case_bool_decide; [done|]. apply (IH (PNext a)); [done|done|simpl in Hn; lia].
Qed.

Definition removes (k : list Z) (d : Z) x : bool := has_key k x && ((d =? 0) || (x.2.2 =? d)).

Lemma remove_loop_ok m q k d p l n tmp :
  seg (elems m) q p l 0 -> keys_ok l -> is_str k -> (length l < n)%nat ->
  remove_loop n m k d p tmp =
    Some (if existsb (removes k d) l then first_addr (removes k d) l
          else match last l with Some x => x.1 | None => tmp end).
Proof.
  intros Hs Hk Hks. revert q p n tmp Hs Hk. induction l as [|[a [kk dd]] l IH]; intros q p n tmp Hs Hk Hn;
    (destruct n as [|n]; [simpl in Hn; lia|]); cbn [remove_loop].
  - simpl in Hs. by subst p.
  - cbn [seg] in Hs. destruct Hs as (-> & Ha & nx & He & Hs). rewrite (proj2 (Z.eqb_neq a 0)) by done.
    inversion_clear Hk as [|? ? Hk1 Hk2]. rewrite He. simpl. rewrite same_key_eq by done.
    change (bool_decide (k = kk) && ((d =? 0) || (dd =? d))) with (removes k d (a, (kk, dd))).
    destruct (removes k d (a, (kk, dd))); [done|]. simpl.
    rewrite (IH (PNext a)) by (try done; simpl in Hn; lia).
    destruct (existsb (removes k d) l); [done|]. rewrite last_cons. by destruct (last l).
Qed.

(** ** The table *)

Definition hash (n : Z) (k : list Z) : Z := mix (__crc32_hashmap k) mod n.

#[local] Opaque mix __crc32_hashmap.

(** The bindings of the chain [i]. *)
Definition bucket (n i : Z) l : list binding := filter (fun x => hash n x.2.1 = i) l.

Record rep (m : HASHMAP_T) l : Prop := {
  rp_size : size m = zlen l;
  rp_small : zlen l < 2 ^ 31;
  rp_table : 0 < table_size m < 2 ^ 30;
  rp_heads : zlen (heads m) = table_size m;
  rp_keys : keys_ok l;
  rp_nodup : NoDup (addrs l);
  rp_dom : forall a, is_Some (elems m !! a) <-> a ∈ addrs l;
  rp_chain : forall i, 0 <= i < table_size m ->
    exists p, head_get m i = Some p /\ seg (elems m) (PHead i) p (bucket (table_size m) i l) 0
}.

Lemma hash_range n k : 0 < n -> 0 <= hash n k < n.
Proof. intros. by apply Z.mod_pos_bound. Qed.

Lemma hash_int m k : 0 < table_size m < 2 ^ 30 ->
  signed 32 (__hashmap_hash_int m k) = hash (table_size m) k /\ 0 <= hash (table_size m) k < table_size m.
Proof.
  intros Ht. pose proof (hash_range (table_size m) k ltac:(lia)). split; [|done].
  unfold __hashmap_hash_int. rewrite (wrap_small 32 (table_size m)) by lia.
  change (mix (__crc32_hashmap k) mod table_size m) with (hash (table_size m) k).
  set (h := hash _ _) in *. clearbody h. unfold signed. cbv zeta. rewrite wrap_small by lia.
  rewrite (proj2 (Z.ltb_lt _ _)) by lia. reflexivity.
Qed.

Lemma bucket_sublist n i l : sublist (bucket n i l) l.
Proof. apply sublist_filter. Qed.

Lemma bucket_nodup n i l : NoDup (addrs l) -> NoDup (addrs (bucket n i l)).
Proof.
  intros H. eapply sublist_NoDup; [exact H|]. change addrs with (fmap (M := list) (@fst Z (list Z * Z))).
  apply fmap_sublist, bucket_sublist.
Qed.

Lemma bucket_keys n i l : keys_ok l -> keys_ok (bucket n i l).
Proof.
  unfold keys_ok. rewrite !Forall_forall. intros H x [_ Hx]%list_elem_of_filter. by apply H.
Qed.

Lemma elems_size m l : rep m l -> base.size (elems m) = length l.
Proof.
  intros R. rewrite <- size_dom.
  assert (dom (elems m) = list_to_set (C := gset Z) (addrs l)) as ->.
  { apply set_eq. intros a. rewrite elem_of_dom, elem_of_list_to_set. apply R. }
  rewrite size_list_to_set by apply R. apply length_map.
Qed.

Lemma bucket_fuel m l i : rep m l -> (length (bucket (table_size m) i l) < fuel m)%nat.
Proof.
  intros R. unfold fuel. rewrite (elems_size _ _ R). pose proof (length_filter (fun x => hash (table_size m) x.2.1 = i) l).
  unfold bucket. lia.
Qed.

Lemma fuel_S m : fuel m = S (base.size (elems m)).
Proof. done. Qed.

#[local] Opaque fuel.

(** What concerns one key can be read off its chain. *)
Lemma bucket_first n i l (P : binding -> bool) :
  (forall x, P x = true -> hash n x.2.1 = i) -> first_addr P (bucket n i l) = first_addr P l.
Proof.
  intros HP. unfold bucket. induction l as [|x l IH]; [done|]. rewrite filter_cons. simpl.
  destruct (decide (hash n x.2.1 = i)); simpl; rewrite IH; [done|].
  destruct (P x) eqn:E; [|done]. by apply HP in E.
Qed.

Lemma bucket_filter n l k : filter (has_key k) (bucket n (hash n k) l) = filter (has_key k) l.
Proof.
  unfold bucket. apply list_filter_filter_l. intros x Hx. unfold has_key in Hx.
  apply Is_true_true, bool_decide_eq_true in Hx. by rewrite Hx.
Qed.

Lemma bucket_exists n i l (P : binding -> bool) :
  (forall x, P x = true -> hash n x.2.1 = i) -> existsb P (bucket n i l) = existsb P l.
Proof.
  intros HP. unfold bucket. induction l as [|x l IH]; [done|]. rewrite filter_cons. simpl.
  destruct (decide (hash n x.2.1 = i)); simpl; rewrite IH; [done|].
  destruct (P x) eqn:E; [|done]. by apply HP in E.
Qed.

Lemma has_key_hash n k x : has_key k x = true -> hash n x.2.1 = hash n k.
Proof. intros ->%bool_decide_eq_true. done. Qed.

Lemma removes_hash n k d x : removes k d x = true -> hash n x.2.1 = hash n k.
Proof. intros [H _]%andb_prop. by apply has_key_hash. Qed.

#[local] Opaque hash.

(** ** Looking up *)

Lemma hash_find_ok m l k : rep m l -> is_str k -> __hash_find m k = Some (first_addr (has_key k) l).
Proof.
  intros R Hk. destruct (hash_int m k (rp_table _ _ R)) as [E Hr]. unfold __hash_find. rewrite E.
  destruct (rp_chain _ _ R _ Hr) as (p & Hp & Hs). rewrite Hp. simpl.
  rewrite <- (bucket_first (table_size m) (hash (table_size m) k) l) by (intros; by apply has_key_hash).
  unfold tuya_hlist_empty. destruct (Z.eqb_spec p 0) as [->|Hne].
  - by rewrite (proj1 (seg_head _ _ _ _ Hs) eq_refl).
  - eapply find_loop_ok; [exact Hs|by apply bucket_keys, R|done|by apply bucket_fuel].
Qed.

Lemma elem_at m l x : rep m l -> x ∈ l -> x.1 <> 0 /\ exists nx q, elems m !! x.1 = Some (mk_elem x.2.1 x.2.2 nx q).
Proof.
  intros R Hx. set (n := table_size m). pose proof (hash_range n x.2.1 ltac:(apply R)) as Hr.
  destruct (rp_chain _ _ R _ Hr) as (p & _ & Hs). eapply seg_elem; [exact Hs|].
  unfold bucket. by apply list_elem_of_filter.
Qed.

(** The first binding with [P], if there is one. *)
Lemma first_addr_cases (P : binding -> bool) l :
  (first_addr P l = 0 /\ filter P l = []) \/
  exists u x v, l = u ++ x :: v /\ first_addr P l = x.1 /\ P x = true /\ filter P l = x :: filter P v /\
    existsb P u = false.
Proof.
  induction l as [|x l IH]; [by left|]. simpl. rewrite filter_cons. destruct (P x) eqn:E.
  - right. exists [], x, l. rewrite decide_True by done. done.
  - rewrite decide_False by (by intros []). destruct IH as [?|(u & y & v & -> & ? & ? & ? & Hu)]; [by left|].
    right. exists (x :: u), y, v. split; [done|]. split; [done|]. split; [done|]. split; [done|]. simpl. by rewrite E.
Qed.

Lemma hashmap_get_ok m l k : rep m l -> is_str k ->
  tuya_hashmap_get m k =
    Some (match filter (has_key k) l with x :: _ => (MAP_OK, x.2.2) | [] => (MAP_MISSING, 0) end).
Proof.
  intros R Hk. unfold tuya_hashmap_get. rewrite (hash_find_ok m l k R Hk). simpl.
  destruct (first_addr_cases (has_key k) l) as [[-> ->]|(u & x & v & -> & -> & _ & -> & _)]; [done|].
  destruct (elem_at m _ x R) as (Hx & nx & q & E); [apply elem_of_app; right; apply elem_of_cons; by left|].
  rewrite (proj2 (Z.eqb_neq _ 0)) by done. by rewrite E.
Qed.

(** ** Walking over the data of a key *)

Lemma for_each_step n m k iter :
  for_each_data (S n) m k iter =
    (el' ← (if iter =? 0 then __hash_find m k else __hash_find_next_element m iter);
     if el' =? 0 then Some []
     else e ← elems m !! el'; r ← for_each_data n m k el'; Some (data e :: r)).
Proof.
  cbn [for_each_data]. unfold tuya_hashmap_data_traversal.
  destruct (if iter =? 0 then _ else _) as [b|]; cbn [mbind option_bind]; [|done]. by destruct (b =? 0).
Qed.

Lemma traversal_from m l k n q p u :
  rep m l -> is_str k -> seg (elems m) q p u 0 -> keys_ok u -> (length u <= n)%nat -> (length u < fuel m)%nat ->
  (el' ← find_loop (fuel m) m k p;
   if el' =? 0 then Some []
   else e ← elems m !! el'; r ← for_each_data n m k el'; Some (data e :: r)) =
  Some (map (fun x => x.2.2) (filter (has_key k) u)).
Proof.
  intros R Hk. revert q p u. induction n as [|n IH]; intros q p u Hs Hu Hn Hf.
  { destruct u; [|simpl in Hn; lia]. by rewrite (find_loop_ok m q k p []). }
  rewrite (find_loop_ok m q k p u) by done. cbn [mbind option_bind].
  destruct (first_addr_cases (has_key k) u) as [[-> ->]|(u1 & x & v & -> & -> & Hx & -> & _)]; [done|].
  apply hseg_app in Hs as (p' & _ & Hs). destruct x as [a [kk d]]. simpl in Hs.
  destruct Hs as (-> & Ha & nx & He & Hs). cbn [fst]. rewrite (proj2 (Z.eqb_neq a 0)) by done. rewrite He.
  cbn [mbind option_bind map]. apply Forall_app in Hu as [_ Hu]. inversion_clear Hu as [|? ? Hkk Hv]. rewrite length_app in Hn, Hf. simpl in Hn, Hf.
  unfold has_key in Hx. apply bool_decide_eq_true in Hx. simpl in Hx. subst kk.
  rewrite for_each_step. rewrite (proj2 (Z.eqb_neq a 0)) by done. unfold __hash_find_next_element.
  rewrite He. cbn [mbind option_bind key next]. by rewrite (IH (PNext a) nx v Hs Hv ltac:(lia) ltac:(lia)).
Qed.

Lemma for_each_ok m l k : rep m l -> is_str k ->
  TUYA_HASHMAP_FOR_EACH_DATA m k = Some (map (fun x => x.2.2) (filter (has_key k) l)).
Proof.
  intros R Hk. destruct (hash_int m k (rp_table _ _ R)) as [E Hr].
  destruct (rp_chain _ _ R _ Hr) as (p & Hp & Hs). set (n := table_size m) in *.
  pose proof (bucket_fuel m l (hash n k) R) as Hf. fold n in Hf.
  pose proof (bucket_keys n (hash n k) l (rp_keys _ _ R)) as Hkb.
  unfold TUYA_HASHMAP_FOR_EACH_DATA. rewrite fuel_S in Hf |- *. rewrite for_each_step, Z.eqb_refl.
  rewrite (hash_find_ok m l k R Hk).
  rewrite <- (bucket_first n (hash n k) l) by (intros; by apply has_key_hash).
  pose proof (find_loop_ok m _ k p _ (fuel m) Hs Hkb Hk ltac:(rewrite fuel_S; lia)) as Ef. rewrite <- Ef.
  rewrite <- (bucket_filter n l k).
  eapply (traversal_from m l k _ _ p _ R Hk Hs Hkb); [lia|rewrite fuel_S; lia].
Qed.

(** ** Storing in the table *)

Lemma addrs_inj l x y : NoDup (addrs l) -> x ∈ l -> y ∈ l -> x.1 = y.1 -> x = y.
Proof.
  induction l as [|z l IH]; simpl; [by intros _ ?%elem_of_nil|].
  intros [Hz Hn]%NoDup_cons Hx Hy E. apply elem_of_cons in Hx, Hy.
  assert (forall w, w ∈ l -> w.1 ∈ addrs l) as Hin.
  { intros w Hw. unfold addrs. apply list_elem_of_In, in_map. by apply list_elem_of_In. }
  destruct Hx as [->|Hx], Hy as [->|Hy]; auto.
  - destruct Hz. rewrite E. auto.
  - destruct Hz. rewrite <- E. auto.
Qed.

Lemma addrs_in l x : x ∈ l -> x.1 ∈ addrs l.
Proof. intros Hx. unfold addrs. apply list_elem_of_In, in_map. by apply list_elem_of_In. Qed.

Lemma in_addrs l a : a ∈ addrs l -> exists x, x ∈ l /\ x.1 = a.
Proof.
  intros Ha. unfold addrs in Ha. apply list_elem_of_In, in_map_iff in Ha as (x & <- & Hx).
  exists x. split; [by apply list_elem_of_In|done].
Qed.

Lemma bucket_in n i l x : x ∈ bucket n i l <-> hash n x.2.1 = i /\ x ∈ l.
Proof. unfold bucket. by rewrite list_elem_of_filter. Qed.

(** Elements of different chains are different. *)
Lemma bucket_apart n i j l a b : NoDup (addrs l) -> i <> j ->
  a ∈ addrs (bucket n i l) -> b ∈ addrs (bucket n j l) -> a <> b.
Proof.
  intros Hn Hij (x & [Hx Hxl]%bucket_in & <-)%in_addrs (y & [Hy Hyl]%bucket_in & <-)%in_addrs E.
  apply Hij. rewrite <- Hx, <- Hy. by rewrite (addrs_inj l x y).
Qed.

Lemma head_get_range m i p : head_get m i = Some p -> 0 <= i < zlen (heads m).
Proof.
  unfold head_get. destruct (Z.ltb_spec i 0); [done|]. intros Hl%lookup_lt_Some. unfold zlen. lia.
Qed.

Lemma head_set_ok m i p (w : Z) : head_get m i = Some p ->
  exists m', head_set m i w = Some m' /\ head_get m' i = Some w /\
    (forall j, j <> i -> head_get m' j = head_get m j) /\
    elems m' = elems m /\ size m' = size m /\ table_size m' = table_size m /\ zlen (heads m') = zlen (heads m).
Proof.
  intros H. pose proof (head_get_range _ _ _ H) as Hr. unfold zlen in Hr.
  eexists. unfold head_set. rewrite H. cbn [mbind option_bind]. split; [reflexivity|].
  unfold head_get, zlen. cbn. rewrite (proj2 (Z.ltb_ge i 0)) by lia.
  rewrite list_lookup_insert_eq by lia. split; [done|]. split; [|by rewrite length_insert].
  intros j Hj. destruct (Z.ltb_spec j 0); [done|]. rewrite list_lookup_insert_ne by lia. done.
Qed.

(** The representation rebuilt after a change of one chain. *)
Lemma rep_intro m m' l l' i :
  rep m l -> 0 <= i < table_size m -> table_size m' = table_size m -> zlen (heads m') = zlen (heads m) ->
  size m' = zlen l' -> zlen l' < 2 ^ 31 -> keys_ok l' -> NoDup (addrs l') ->
  (forall a, is_Some (elems m' !! a) <-> a ∈ addrs l') ->
  (exists p, head_get m' i = Some p /\ seg (elems m') (PHead i) p (bucket (table_size m) i l') 0) ->
  (forall j, 0 <= j < table_size m -> j <> i ->
     head_get m' j = head_get m j /\ bucket (table_size m) j l' = bucket (table_size m) j l /\
     forall a, a ∈ addrs (bucket (table_size m) j l) -> elems m' !! a = elems m !! a) ->
  rep m' l'.
Proof.
  intros R Hi Ht Hz Hs Hsm Hk Hn Hd Hc Ho. split; try done; rewrite ?Ht, ?Hz; try apply R.
  intros j Hj. destruct (decide (j = i)) as [->|Hne]; [done|].
  destruct (Ho j Hj Hne) as (Eh & Eb & Ee). destruct (rp_chain _ _ R j Hj) as (p & Hp & Hsg).
  exists p. rewrite Eh, Eb. split; [done|]. by eapply seg_frame.
Qed.

(** The element at the front of a chain, if any, gets another back pointer. *)
Lemma repoint_ok m q q' p v :
  seg (elems m) q p v 0 -> NoDup (addrs v) ->
  exists m', (if negb (p =? 0) then elem_set m p (set_pprev q') else Some m) = Some m' /\
    heads m' = heads m /\ table_size m' = table_size m /\ size m' = size m /\
    seg (elems m') q' p v 0 /\ (forall b, b ∉ addrs v -> elems m' !! b = elems m !! b) /\
    (forall b, is_Some (elems m' !! b) <-> is_Some (elems m !! b)).
Proof.
  intros Hs Hn. destruct v as [|x v].
  - simpl in Hs. subst p. by exists m.
  - destruct (seg_elem _ _ _ _ _ x Hs) as (Hx0 & nx & q0 & Ex); [apply elem_of_cons; by left|].
    assert (p = x.1) as -> by (destruct x as [? [? ?]]; simpl in Hs; by destruct Hs).
    rewrite (proj2 (Z.eqb_neq _ 0)) by done. cbn [negb]. unfold elem_set. rewrite Ex. cbn [mbind option_bind].
    eexists. split; [reflexivity|]. cbn [heads table_size size elems set_elems].
    split; [done|]. split; [done|]. split; [done|]. split; [|split].
    + by apply (seg_repoint _ q).
    + intros b Hbx. rewrite lookup_insert_ne; [done|]. intros <-. apply Hbx, addrs_in, elem_of_cons. by left.
    + intros b. destruct (decide (b = x.1)) as [->|Hne].
      * rewrite lookup_insert_eq, Ex. split; by eexists.
      * by rewrite lookup_insert_ne.
Qed.

(** The field behind [u] points elsewhere. *)
Lemma field_set_ok m i p u r r' :
  head_get m i = Some p -> seg (elems m) (PHead i) p u r -> NoDup (addrs u) ->
  exists m' p', field_set m (lastq (PHead i) u) r' = Some m' /\
    head_get m' i = Some p' /\ (forall j, j <> i -> head_get m' j = head_get m j) /\
    zlen (heads m') = zlen (heads m) /\ table_size m' = table_size m /\ size m' = size m /\
    seg (elems m') (PHead i) p' u r' /\ (forall b, b ∉ addrs u -> elems m' !! b = elems m !! b) /\
    (forall b, is_Some (elems m' !! b) <-> is_Some (elems m !! b)).
Proof.
  intros Hp Hs Hn. destruct u as [|x u _] using rev_ind.
  - destruct (head_set_ok m i p r' Hp) as (m' & E & ? & ? & Ee & ? & ? & ?). exists m', r'.
    split; [exact E|]. rewrite Ee. by split_and!.
  - rewrite lastq_snoc. destruct (seg_elem _ _ _ _ _ x Hs) as (Hx0 & nx & q0 & Ex).
    { apply elem_of_app. right. apply elem_of_cons. by left. }
    cbn [field_set]. unfold elem_set. rewrite Ex. cbn [mbind option_bind].
    eexists _, p. split; [reflexivity|]. cbn [heads table_size size elems set_elems].
    split; [exact Hp|]. split; [done|]. split; [done|]. split; [done|]. split; [done|]. split; [|split].
    + by eapply seg_redirect.
    + intros b Hbx. rewrite lookup_insert_ne; [done|]. intros <-. apply Hbx, addrs_in, elem_of_app.
      right. apply elem_of_cons. by left.
    + intros b. destruct (decide (b = x.1)) as [->|Hne].
      * rewrite lookup_insert_eq, Ex. split; by eexists.
      * by rewrite lookup_insert_ne.
Qed.

(** ** Putting *)

Lemma add_head_eq m0 m1 m2 m3 a i p e :
  head_get m0 i = Some p -> elem_set m0 a (set_next p) = Some m1 ->
  (if negb (p =? 0) then elem_set m1 p (set_pprev (PNext a)) else Some m1) = Some m2 ->
  head_set m2 i a = Some m3 -> elems m3 !! a = Some e ->
  tuya_hlist_add_head m0 a i = Some (set_elems (<[a := set_pprev (PHead i) e]> (elems m3)) m3).
Proof.
  intros H1 H2 H3 H4 H5. unfold tuya_hlist_add_head.
  apply bind_Some. exists p. split; [done|]. apply bind_Some. exists m1. split; [done|].
  apply bind_Some. exists m2. split; [done|]. apply bind_Some. exists m3. split; [done|].
  unfold elem_set. apply bind_Some. by exists e.
Qed.

Lemma hashmap_put_ok m l a k d :
  rep m l -> a <> 0 -> a ∉ addrs l -> is_str k -> zlen l + 1 < 2 ^ 31 ->
  exists m', tuya_hashmap_put a m k d = Some (MAP_OK, m') /\ rep m' ((a, (k, d)) :: l).
Proof.
  intros R Ha Hfresh Hk Hsm. unfold tuya_hashmap_put. rewrite (proj2 (Z.eqb_neq a 0)) by done.
  set (m0 := set_elems _ m).
  destruct (hash_int m0 k (rp_table _ _ R)) as [E Hr]. change (table_size m0) with (table_size m) in *.
  rewrite E. remember (hash (table_size m) k) as i eqn:Ei. remember (table_size m) as n eqn:En.
  destruct (rp_chain _ _ R i) as (p & Hp & Hs); [by rewrite <- En|]. rewrite <- En in Hs.
  set (m1 := set_elems (<[a := mk_elem k d p (PNext 0)]> (elems m)) m).
  assert (elem_set m0 a (set_next p) = Some m1) as E1.
  { unfold elem_set, m0, m1, set_elems. cbn. rewrite lookup_insert_eq. cbn. by rewrite insert_insert_eq. }
  assert (a ∉ addrs (bucket n i l)) as Hab.
  { intros (x & [_ Hx]%bucket_in & <-)%in_addrs. by apply Hfresh, addrs_in. }
  assert (seg (elems m1) (PHead i) p (bucket n i l) 0) as Hs1.
  { eapply seg_frame, Hs. intros b Hb. cbn [m1 elems set_elems]. rewrite lookup_insert_ne; [done|]. by intros <-. }
  destruct (repoint_ok m1 _ (PNext a) p _ Hs1 (bucket_nodup n i l (rp_nodup _ _ R)))
    as (m2 & E2 & H1 & H2 & H3 & H5 & H6 & H7).
  assert (elems m2 !! a = Some (mk_elem k d p (PNext 0))) as H4.
  { rewrite H6 by done. cbn [m1 elems set_elems]. by rewrite lookup_insert_eq. }
  assert (forall b, b <> a -> elems m1 !! b = elems m !! b) as H8.
  { intros b Hb. cbn [m1 elems set_elems]. by rewrite lookup_insert_ne. }
  cbn [m1 heads table_size size set_elems] in H1, H2, H3.
  destruct (head_set_ok m2 i p a) as (m3 & E3 & G1 & G2 & G3 & G4 & G5 & G6); [unfold head_get; rewrite H1; exact Hp|].
  eexists. split.
  { apply bind_Some. eexists. split; [|reflexivity].
    eapply add_head_eq; [exact Hp|exact E1|exact E2|exact E3|rewrite G3; exact H4]. }
  unfold set_pprev. cbn [key data next]. rewrite G3.
  assert (forall b, b ∈ addrs ((a, (k, d)) :: l) <-> b = a \/ b ∈ addrs l) as Hadd by (intros b; simpl; apply elem_of_cons).
  apply (rep_intro m _ l _ i R); rewrite <- ?En; cbn [set_size set_elems heads elems size table_size]; rewrite ?G4, ?G5, ?G6, ?H1, ?H2, ?H3.
  - done.
  - done.
  - done.
  - rewrite (rp_size _ _ R), zlen_cons. pose proof (zlen_nonneg l). unfold signed. cbv zeta.
    rewrite wrap_small by lia. rewrite (proj2 (Z.ltb_lt _ _)) by lia. lia.
  - rewrite zlen_cons. lia.
  - constructor; [done|apply R].
  - simpl. constructor; [done|apply R].
  - intros b. rewrite Hadd, <- (rp_dom _ _ R b). destruct (decide (b = a)) as [->|Hne].
    + rewrite lookup_insert_eq. split; [by left|by eexists].
    + rewrite lookup_insert_ne, H7, H8 by done. split; [by right|by intros [|?]].
  - exists a. split; [exact G1|]. unfold bucket. rewrite filter_cons_True by (simpl; congruence). simpl. split; [done|]. split; [done|].
    exists p. rewrite lookup_insert_eq. split; [done|]. eapply seg_frame, H5.
    intros b Hb. rewrite lookup_insert_ne; [done|]. by intros <-.
  - intros j Hj Hne. split; [|split].
    + change (head_get m3 j = head_get m j). rewrite G2 by done. unfold head_get. by rewrite H1.
    + unfold bucket. rewrite filter_cons_False; [done|]. simpl. congruence.
    + intros b Hb. assert (b <> a).
      { intros ->. apply in_addrs in Hb as (x & [_ Hx]%bucket_in & <-). by apply Hfresh, addrs_in. }
      rewrite lookup_insert_ne by done. rewrite <- H8 by done. apply H6. intros Hb2. exact (bucket_apart n j i l b b (rp_nodup _ _ R) Hne Hb Hb2 eq_refl).
Qed.

(** ** Removing *)

(** The bindings without the element at [a]. *)
Definition without (a : Z) l : list binding := filter (fun y => y.1 <> a) l.

Lemma without_bucket n i a l : bucket n i (without a l) = without a (bucket n i l).
Proof.
  unfold bucket, without. rewrite !list_filter_filter. apply list_filter_iff. intros y. tauto.
Qed.

Lemma without_absent a l : a ∉ addrs l -> without a l = l.
Proof.
  induction l as [|y l IH]; intros H; [done|]. unfold without in *. simpl in H. apply not_elem_of_cons in H as [Hy H].
  rewrite filter_cons_True by congruence. by rewrite IH.
Qed.

Lemma without_mid u x v : NoDup (addrs (u ++ x :: v)) -> without x.1 (u ++ x :: v) = u ++ v.
Proof.
  intros Hn. unfold addrs in Hn. rewrite map_app in Hn. apply NoDup_app in Hn as (_ & Hu & Hx).
  simpl in Hx. apply NoDup_cons in Hx as [Hx _]. unfold without. rewrite filter_app, filter_cons_False by naive_solver.
  f_equal; apply without_absent; [|done]. intros Hin. apply (Hu _ Hin), elem_of_cons. by left.
Qed.

Lemma without_in a l y : y ∈ without a l <-> y.1 <> a /\ y ∈ l.
Proof. unfold without. by rewrite list_elem_of_filter. Qed.

Lemma without_addrs a l b : b ∈ addrs (without a l) <-> b <> a /\ b ∈ addrs l.
Proof.
  split.
  - intros (y & [Hy Hl]%without_in & <-)%in_addrs. split; [done|by apply addrs_in].
  - intros [Hb (y & Hl & <-)%in_addrs]. apply addrs_in, without_in. done.
Qed.

Lemma without_length x l : NoDup (addrs l) -> x ∈ l -> zlen (without x.1 l) = zlen l - 1.
Proof.
  intros Hn (u & v & ->)%list_elem_of_split. rewrite without_mid by done. rewrite !zlen_app, zlen_cons. lia.
Qed.

Lemma del_eq m m1 m2 a e :
  elems m !! a = Some e -> field_set m (pprev e) (next e) = Some m1 ->
  (if negb (next e =? 0) then elem_set m1 (next e) (set_pprev (pprev e)) else Some m1) = Some m2 ->
  __tuya_hlist_del m a = Some m2.
Proof.
  intros H1 H2 H3. unfold __tuya_hlist_del. apply bind_Some. exists e. split; [done|].
  apply bind_Some. by exists m1.
Qed.

(** Taking an element out of the middle of its chain and freeing it. *)
Lemma hlist_del_ok m l i u x v :
  rep m l -> 0 <= i < table_size m -> bucket (table_size m) i l = u ++ x :: v ->
  exists m', __tuya_hlist_del m x.1 = Some m' /\
    rep (set_size (signed 32 (size m' - 1)) (set_elems (delete x.1 (elems m')) m')) (without x.1 l).
Proof.
  intros R Hi Hb. destruct (rp_chain _ _ R i Hi) as (p & Hp & Hs).
  pose proof (bucket_nodup (table_size m) i l (rp_nodup _ _ R)) as Hn. rewrite Hb in Hs, Hn.
  assert (x ∈ l) as Hxl.
  { apply (bucket_in (table_size m) i l x). rewrite Hb. apply elem_of_app. right. apply elem_of_cons. by left. }
  apply hseg_app in Hs as (p' & Hu & Hx). destruct x as [a [k d]]. cbn [seg] in Hx.
  destruct Hx as (-> & Ha & nx & He & Hv). cbn [fst].
  pose proof Hn as Hn'. unfold addrs in Hn'. rewrite map_app in Hn'. apply NoDup_app in Hn' as (Hnu & Hdis & Hnv).
  simpl in Hnv, Hdis. apply NoDup_cons in Hnv as [Hav Hnv]. fold (addrs u) in Hnu, Hdis. fold (addrs v) in Hav, Hnv, Hdis.
  assert (a ∉ addrs u) as Hau by (intros H; apply (Hdis _ H), elem_of_cons; by left).
  destruct (field_set_ok m i p u a nx Hp Hu Hnu) as (m1 & p1 & E1 & A1 & A2 & A3 & A4 & A5 & A6 & A7 & A8).
  assert (seg (elems m1) (PNext a) nx v 0) as Hv1.
  { eapply seg_frame, Hv. intros b Hbv. apply A7. intros Hbu. apply (Hdis _ Hbu), elem_of_cons. by right. }
  destruct (repoint_ok m1 _ (lastq (PHead i) u) nx v Hv1 Hnv) as (m2 & E2 & B1 & B2 & B3 & B4 & B5 & B6).
  exists m2. split; [by eapply del_eq|].
  pose proof (without_length (a, (k, d)) l (rp_nodup _ _ R) Hxl) as Hwl. cbn [fst] in Hwl.
  apply (rep_intro m _ l _ i R Hi); cbn [set_size set_elems heads elems size table_size]; rewrite ?B1, ?B2, ?B3.
  - done.
  - done.
  - rewrite A5, (rp_size _ _ R). rewrite Hwl.
    pose proof (rp_small _ _ R). assert (0 < zlen l) by (destruct l; [by apply elem_of_nil in Hxl|rewrite zlen_cons; pose proof (zlen_nonneg l); lia]).
    unfold signed. cbv zeta. rewrite wrap_small by lia. rewrite (proj2 (Z.ltb_lt _ _)) by lia. lia.
  - rewrite Hwl. pose proof (rp_small _ _ R). lia.
  - unfold keys_ok. apply Forall_forall. intros y [_ Hy]%without_in. pose proof (rp_keys _ _ R) as Hk.
    unfold keys_ok in Hk. rewrite Forall_forall in Hk. by apply Hk.
  - eapply sublist_NoDup; [apply (rp_nodup _ _ R)|]. change addrs with (fmap (M := list) (@fst Z (list Z * Z))).
    apply fmap_sublist, sublist_filter.
  - intros b. rewrite without_addrs, <- (rp_dom _ _ R b), <- A8, <- B6. destruct (decide (b = a)) as [->|Hne].
    + rewrite lookup_delete_eq. split; [by intros [? ?]|by intros [? _]].
    + rewrite lookup_delete_ne by done. tauto.
  - exists p1. unfold head_get. cbn. rewrite B1. split; [exact A1|].
    rewrite without_bucket, Hb. pose proof (without_mid u (a, (k, d)) v Hn) as Em. cbn [fst] in Em. rewrite Em. apply hseg_app. exists nx. split.
    + eapply seg_frame, A6. intros b Hbu. rewrite lookup_delete_ne by (by intros <-).
      apply B5. intros Hbv. apply (Hdis _ Hbu), elem_of_cons. by right.
    + eapply seg_frame, B4. intros b Hbv. rewrite lookup_delete_ne; [done|]. by intros <-.
  - intros j Hj Hne. split; [|split].
    + unfold head_get. cbn. rewrite B1. by apply A2.
    + rewrite without_bucket. apply without_absent. intros Hin.
      refine (bucket_apart (table_size m) j i l a a (rp_nodup _ _ R) Hne Hin _ eq_refl). rewrite Hb.
      change a with (a, (k, d)).1. apply addrs_in, elem_of_app. right. apply elem_of_cons. by left.
    + intros b Hbj. assert (forall c, c ∈ addrs (u ++ (a, (k, d)) :: v) -> b <> c) as Hc.
      { intros c Hc. rewrite <- Hb in Hc. exact (bucket_apart _ j i l b c (rp_nodup _ _ R) Hne Hbj Hc). }
      assert (forall c, c ∈ addrs u \/ c = a \/ c ∈ addrs v -> b <> c) as Hc'.
      { intros c Hcc. apply Hc. unfold addrs. rewrite map_app. simpl. apply elem_of_app.
        destruct Hcc as [?|[->|?]]; [by left|right; apply elem_of_cons; by left|right; apply elem_of_cons; by right]. }
      rewrite lookup_delete_ne by (intros <-; by apply (Hc' a); auto).
      rewrite B5 by (intros Hin; by apply (Hc' b); auto). apply A7. intros Hin. by apply (Hc' b); auto.
Qed.

(** What [tuya_hashmap_remove] takes out: the first binding that matches, or, if there is
    none, the last of the chain. *)
Lemma remove_ok m l k d :
  rep m l -> is_str k ->
  match bucket (table_size m) (hash (table_size m) k) l with
  | [] => tuya_hashmap_remove m k d = Some (MAP_MISSING, m)
  | x0 :: b =>
      let a := if existsb (removes k d) l then first_addr (removes k d) l
               else match last (x0 :: b) with Some x => x.1 | None => 0 end in
      exists m', tuya_hashmap_remove m k d = Some (MAP_OK, m') /\ rep m' (without a l)
  end.
Proof.
  intros R Hk. destruct (hash_int m k (rp_table _ _ R)) as [E Hr].
  remember (hash (table_size m) k) as i eqn:Ei.
  destruct (rp_chain _ _ R i Hr) as (p & Hp & Hs). pose proof (bucket_fuel m l i R) as Hf.
  pose proof (bucket_keys (table_size m) i l (rp_keys _ _ R)) as Hkb.
  assert (forall y, removes k d y = true -> hash (table_size m) y.2.1 = i) as Hrm by (intros; subst i; by eapply removes_hash).
  unfold tuya_hashmap_remove. rewrite E, Hp. cbn [mbind option_bind].
  pose proof (remove_loop_ok m _ k d p _ (fuel m) 0 Hs Hkb Hk Hf) as El.
  rewrite (bucket_exists (table_size m) i l _ Hrm), (bucket_first (table_size m) i l _ Hrm) in El.
  destruct (bucket (table_size m) i l) as [|x0 b] eqn:Eb.
  - simpl in Hs. by subst p.
  - cbv zeta. set (a := if existsb _ _ then _ else _) in *.
    assert (exists u x v, x0 :: b = u ++ x :: v /\ x.1 = a) as (u & x & v & Euv & Exa).
    { unfold a. destruct (existsb (removes k d) l) eqn:Ex.
      - rewrite <- (bucket_first (table_size m) i l _ Hrm), Eb.
        destruct (first_addr_cases (removes k d) (x0 :: b)) as [[_ Hno]|(u & x & v & Hb & -> & _)]; [|by exists u, x, v].
        exfalso. rewrite <- (bucket_exists (table_size m) i l _ Hrm), Eb in Ex.
        apply existsb_exists in Ex as (y & Hy & Hyr). apply list_elem_of_In in Hy.
        by eapply (filter_nil_not_elem_of (fun y => removes k d y) (x0 :: b) y); [exact Hno|rewrite Hyr|].
      - destruct (last (x0 :: b)) as [x|] eqn:El'; [|by apply last_None in El'].
        apply last_Some in El' as (u & ->). by exists u, x, []. }
    assert (x ∈ l) as Hxl.
    { apply (bucket_in (table_size m) i l x). rewrite Eb, Euv. apply elem_of_app. right. apply elem_of_cons. by left. }
    destruct (elem_at m l x R Hxl) as (Hx0 & _).
    assert (tuya_hlist_empty p = false) as ->.
    { destruct x0 as [a0 [k0 d0]]. simpl in Hs. destruct Hs as (-> & ? & _). by apply Z.eqb_neq. }
    destruct (hlist_del_ok m l i u x v R Hr) as (m' & Ed & R'); [by rewrite Eb|].
    eexists. split; [|rewrite <- Exa; exact R']. apply bind_Some. exists a. split; [exact El|].
    rewrite <- Exa. rewrite (proj2 (Z.eqb_neq _ 0)) by done. apply bind_Some. exists m'. split; [exact Ed|reflexivity].
Qed.

End HashmapSpec.
