(* ===== verification/HashmapProps.v ===== *)
(** * Properties of the hash map

    The refinement of the multimap, the checksum behind the hash, and the removal of a
    key that is not bound. *)
From S2P Require Import Prelude Client Crc Hashmap HashmapSpec.
Open Scope Z_scope.

Module HashmapProps.
Import Hashmap HashmapSpec.

(** ** The multimap: the bindings, the newest first *)

Abbreviation mmap := (list (list Z * Z)).

Definition binds (k : list Z) (x : list Z * Z) : bool := bool_decide (k = x.1).
Definition drops (k : list Z) (d : Z) (x : list Z * Z) : bool := binds k x && ((d =? 0) || (x.2 =? d)).

Fixpoint remove_first (P : list Z * Z -> bool) (mm : mmap) : mmap :=
  match mm with [] => [] | x :: mm => if P x then mm else x :: remove_first P mm end.

(** The data of a key. *)
Definition datas (k : list Z) (mm : mmap) : list Z := map snd (filter (binds k) mm).

Inductive op := Put (k : list Z) (d : Z) | Get (k : list Z) | ForEach (k : list Z) | Remove (k : list Z) (d : Z) | Length.
Inductive ans := Code (r : Z) | Value (r d : Z) | Datas (l : list Z) | Len (n : Z).

Definition op_ok (mm : mmap) (o : op) : Prop :=
  match o with
  | Put k _ => is_str k /\ zlen mm + 1 < 2 ^ 31
  | Get k | ForEach k => is_str k
  | Remove k d => is_str k /\ existsb (drops k d) mm = true
  | Length => True
  end.

Definition spec_step (mm : mmap) (o : op) (a : ans) (mm' : mmap) : Prop :=
  match o with
  | Put k d => a = Code MAP_OK /\ mm' = (k, d) :: mm \/ a = Code MAP_OMEM /\ mm' = mm
  | Get k => mm' = mm /\ a = match datas k mm with d :: _ => Value MAP_OK d | [] => Value MAP_MISSING 0 end
  | ForEach k => mm' = mm /\ a = Datas (datas k mm)
  | Remove k d => mm' = remove_first (drops k d) mm /\ a = Code MAP_OK
  | Length => mm' = mm /\ a = Len (zlen mm)
  end.

Section Run.
(** The allocator: a new address each time, or [NULL]. *)
Context (alloc : gset Z -> Z).
Hypothesis alloc_fresh : forall X, alloc X = 0 \/ alloc X ∉ X.

Definition step (o : op) (m : HASHMAP_T) : option (ans * HASHMAP_T) :=
  match o with
  | Put k d => '(r, m) ← tuya_hashmap_put (alloc (dom (elems m))) m k d; Some (Code r, m)
  | Get k => '(r, d) ← tuya_hashmap_get m k; Some (Value r d, m)
  | ForEach k => l ← TUYA_HASHMAP_FOR_EACH_DATA m k; Some (Datas l, m)
  | Remove k d => '(r, m) ← tuya_hashmap_remove m k d; Some (Code r, m)
  | Length => Some (Len (tuya_hashmap_length (Some m)), m)
  end.

Definition refines (m : HASHMAP_T) (mm : mmap) : Prop := exists l, rep m l /\ map snd l = mm.

Lemma datas_ok k (l : list binding) : datas k (map snd l) = map (fun x => x.2.2) (filter (has_key k) l).
Proof.
  unfold datas. induction l as [|x l IH]; [done|]. cbn [map]. rewrite !filter_cons.
  change (binds k x.2) with (has_key k x). destruct (decide (has_key k x)); simpl; by rewrite IH.
Qed.

Lemma exists_ok k d (l : list binding) : existsb (drops k d) (map snd l) = existsb (removes k d) l.
Proof. induction l as [|x l IH]; [done|]. simpl. by rewrite IH. Qed.

Lemma remove_first_ok (k : list Z) (d : Z) (l : list binding) :
  NoDup (addrs l) -> existsb (removes k d) l = true ->
  map snd (without (first_addr (removes k d) l) l) = remove_first (drops k d) (map snd l).
Proof.
  intros Hn Hex. destruct (first_addr_cases (removes k d) l) as [[_ Hno]|(u & x & v & -> & -> & Hx & _ & Hu)].
  - exfalso. apply existsb_exists in Hex as (y & Hy & Hyr). apply list_elem_of_In in Hy.
    by eapply (filter_nil_not_elem_of (fun y => removes k d y) l y); [exact Hno|rewrite Hyr|].
  - rewrite without_mid by done. rewrite !map_app. clear Hn Hex.
    induction u as [|y u IH]; simpl in *.
    + change (drops k d x.2) with (removes k d x). by rewrite Hx.
    + apply orb_false_elim in Hu as [Hy Hu]. change (drops k d y.2) with (removes k d y). rewrite Hy. f_equal. auto.
Qed.

Lemma hashmap_step_sim m mm o : refines m mm -> op_ok mm o ->
  exists a m' mm', step o m = Some (a, m') /\ spec_step mm o a mm' /\ refines m' mm'.
Proof.
  intros (l & R & <-) Ho. destruct o as [k d|k|k|k d|]; cbn [step op_ok spec_step] in *.
  - destruct Ho as [Hk Hz]. rewrite zlen_map in Hz. destruct (decide (alloc (dom (elems m)) = 0)) as [E|Hne].
    + exists (Code MAP_OMEM), m, (map snd l). unfold tuya_hashmap_put. rewrite E. split; [done|]. split; [by right|by exists l].
    + destruct (hashmap_put_ok m l (alloc (dom (elems m))) k d R Hne) as (m' & E & R'); [|done|done|].
      * intros Hin. apply (rp_dom _ _ R) in Hin. apply elem_of_dom in Hin.
        by destruct (alloc_fresh (dom (elems m))) as [?|Hx].
      * exists (Code MAP_OK), m', ((k, d) :: map snd l). rewrite E. split; [done|]. split; [by left|by eexists].
  - exists (match datas k (map snd l) with d :: _ => Value MAP_OK d | [] => Value MAP_MISSING 0 end), m, (map snd l).
    split; [|split; [done|by exists l]]. rewrite (hashmap_get_ok m l k R Ho), datas_ok.
    by destruct (filter (has_key k) l).
  - exists (Datas (datas k (map snd l))), m, (map snd l).
    split; [|split; [done|by exists l]]. by rewrite (for_each_ok m l k R Ho), datas_ok.
  - destruct Ho as [Hk Hex]. rewrite exists_ok in Hex. pose proof (remove_ok m l k d R Hk) as Hr.
    destruct (bucket (table_size m) (hash (table_size m) k) l) as [|x0 b] eqn:Eb.
    + exfalso. rewrite <- (bucket_exists (table_size m) (hash (table_size m) k)), Eb in Hex; [done|].
      intros. by eapply removes_hash.
    + cbv zeta in Hr. rewrite Hex in Hr. destruct Hr as (m' & E & R').
      exists (Code MAP_OK), m', (remove_first (drops k d) (map snd l)). rewrite E. split; [done|]. split; [done|].
      eexists. split; [exact R'|]. apply remove_first_ok; [apply R|done].
  - exists (Len (zlen (map snd l))), m, (map snd l). rewrite zlen_map. cbn [tuya_hashmap_length].
    rewrite (rp_size _ _ R). split; [done|]. split; [done|by exists l].
Qed.

Lemma head_get_replicate n i s t el : 0 <= i < n -> head_get (mk_map s t (replicate (Z.to_nat n) 0) el) i = Some 0.
Proof.
  intros Hi. unfold head_get. cbn. rewrite (proj2 (Z.ltb_ge i 0)) by lia. apply lookup_replicate_2. lia.
Qed.

Lemma new_ok addr lst n : addr <> 0 -> lst <> 0 -> 0 < n < 2 ^ 30 ->
  exists m, tuya_hashmap_new addr lst n = (Some m, []) /\ rep m [].
Proof.
  intros Ha Hl Hn. unfold tuya_hashmap_new.
  rewrite (proj2 (Z.eqb_neq n 0)), (proj2 (Z.eqb_neq addr 0)), (proj2 (Z.eqb_neq lst 0)) by lia.
  eexists. split; [reflexivity|]. rewrite wrap_small by lia. rewrite Z.div_mul by lia.
  assert (signed 32 n = n) as -> by (unfold signed; cbv zeta; rewrite wrap_small by lia; rewrite (proj2 (Z.ltb_lt _ _)) by lia; done).
  split; cbn [size table_size heads elems]; try done.
  - rewrite zlen_replicate; lia.
  - constructor.
  - constructor.
  - intros a. split; [by intros [? ?]|by intros ?%elem_of_nil].
  - intros i Hi. exists 0. split; [by apply head_get_replicate|done].
Qed.

(** C39: a new hash map serves every client that removes a key only together with a datum that is
    bound to it, or with NULL, for any, while something is bound to it, keeps fewer than 2^31 bindings and has keys that are strings, as a
    multimap: a put adds a binding in front, a get finds the newest binding of the key, a
    traversal all of them, newest first, and a removal takes out the newest binding of that key to that
    datum, or to any; a put that finds no memory says so and changes nothing. *)
Theorem hashmap_serves_multimap (c : Client.client) addr lst n k :
  addr <> 0 -> lst <> 0 -> 0 < n < 2 ^ 30 -> Client.obeys op_ok spec_step [] c ->
  exists m seen m' mm, tuya_hashmap_new addr lst n = (Some m, []) /\
    Client.run step c k [] m = Some (seen, m') /\
    Client.after op_ok spec_step [] c seen mm /\ refines m' mm.
Proof.
  intros Ha Hl Hn Hc. destruct (new_ok addr lst n Ha Hl Hn) as (m & E & R). exists m.
  destruct (Client.run_serves step op_ok spec_step refines [] c k m) as (seen & m' & mm & H); [|done|by exists []|].
  - intros s a o Hs Ho. by apply hashmap_step_sim.
  - by exists seen, m', mm.
Qed.

End Run.

(** An allocator that returns an address that is not in use. *)
Definition first_fit (X : gset Z) : Z := fresh (X ∪ {[0]}).

Lemma first_fit_fresh X : first_fit X = 0 \/ first_fit X ∉ X.
Proof.
  right. unfold first_fit. intros H. apply (is_fresh (X ∪ {[0]})). by apply elem_of_union_l.
Qed.

(** Two keys that meet in one chain, a second binding of the first, and its removal. *)
Definition demo_client : Client.client := fun seen =>
  match seen with
  | [] => Some (Put [97] 5)
  | [Code 0] => Some (Put [98] 6)
  | [Code 0; Code 0] => Some (Put [97] 7)
  | [Code 0; Code 0; Code 0] => Some (ForEach [97])
  | [Code 0; Code 0; Code 0; Datas _] => Some (Remove [97] 5)
  | [Code 0; Code 0; Code 0; Datas _; Code _] => Some (Get [97])
  | [Code 0; Code 0; Code 0; Datas _; Code _; Value _ _] => Some Length
  | _ => None
  end.

Abbreviation demo_after := (Client.after op_ok spec_step [] demo_client).

Lemma demo_puts mm :
  (demo_after [Code 0] mm -> mm = [([97], 5)]) /\
  (demo_after [Code 0; Code 0] mm -> mm = [([98], 6); ([97], 5)]) /\
  (demo_after [Code 0; Code 0; Code 0] mm -> mm = [([97], 7); ([98], 6); ([97], 5)]) /\
  (forall l, demo_after [Code 0; Code 0; Code 0; Datas l] mm -> mm = [([97], 7); ([98], 6); ([97], 5)]).
Proof.
  assert (forall mm, demo_after [Code 0] mm -> mm = [([97], 5)]) as H1.
  { intros mm1 (a & o & ->%Client.after_nil & [= <-] & [[_ ->]|[? _]])%(Client.after_snoc _ _ _ _ []); done. }
  assert (forall mm, demo_after [Code 0; Code 0] mm -> mm = [([98], 6); ([97], 5)]) as H2.
  { intros mm1 (a & o & ->%H1 & [= <-] & [[_ ->]|[? _]])%(Client.after_snoc _ _ _ _ [_]); done. }
  assert (forall mm, demo_after [Code 0; Code 0; Code 0] mm -> mm = [([97], 7); ([98], 6); ([97], 5)]) as H3.
  { intros mm1 (a & o & ->%H2 & [= <-] & [[_ ->]|[? _]])%(Client.after_snoc _ _ _ _ [_; _]); done. }
  split; [apply H1|]. split; [apply H2|]. split; [apply H3|].
  intros l (a & o & ->%H3 & [= <-] & [-> _])%(Client.after_snoc _ _ _ _ [_; _; _]). done.
Qed.

Lemma hashmap_client_obeys : Client.obeys op_ok spec_step [] demo_client.
Proof.
  assert (forall c, 0 < c < 256 -> is_str [c]) as Hs by (intros; repeat constructor; lia).
  intros seen mm o H E. destruct (demo_puts mm) as (H1 & H2 & H3 & H4). unfold demo_client in E.
  repeat case_match; simplify_eq.
  - apply Client.after_nil in H as ->. split; [apply Hs; lia|by vm_compute].
  - apply H1 in H as ->. split; [apply Hs; lia|by vm_compute].
  - apply H2 in H as ->. split; [apply Hs; lia|by vm_compute].
  - apply Hs. lia.
  - apply H4 in H as ->. split; [apply Hs; lia|by vm_compute].
  - apply Hs. lia.
  - done.
Qed.

Lemma hashmap_serves_multimap_witness :
  exists m seen m' mm, tuya_hashmap_new 1000 2000 1 = (Some m, []) /\
    Client.run (step first_fit) demo_client 7 [] m = Some (seen, m') /\
    demo_after seen mm /\ refines m' mm.
Proof.
  apply (hashmap_serves_multimap first_fit first_fit_fresh demo_client 1000 2000 1 7); [lia|lia|lia|].
  exact hashmap_client_obeys.
Defined.

Example hashmap_client_sees :
  (m ← fst (tuya_hashmap_new 1000 2000 1); fst <$> Client.run (step first_fit) demo_client 7 [] m)
    = Some [Code 0; Code 0; Code 0; Datas [7; 5]; Code 0; Value 0 7; Len 2].
Proof. by vm_compute. Qed.

(** ** Removing what is not bound *)

(** Removing a key or a datum that is not bound succeeds and takes out another binding,
    the oldest of the chain, if there is one in the chain the key hashes to. *)
Theorem remove_missing_takes_last m (l : list binding) k d x u :
  rep m l -> is_str k -> existsb (removes k d) l = false ->
  bucket (table_size m) (hash (table_size m) k) l = u ++ [x] ->
  exists m', tuya_hashmap_remove m k d = Some (MAP_OK, m') /\ rep m' (without x.1 l).
Proof.
  intros R Hk Hex Hb. pose proof (remove_ok m l k d R Hk) as H. rewrite Hb in H.
  destruct (u ++ [x]) as [|y b] eqn:E; [by destruct u|]. cbv zeta in H. rewrite Hex, <- E, last_snoc in H. exact H.
Qed.

(** One chain, one binding of ["a"]; removing ["b"] removes it. *)
Lemma remove_missing_takes_last_witness :
  exists m, rep m [(5000, ([97], 5))] /\
  exists m', tuya_hashmap_remove m [98] 0 = Some (MAP_OK, m') /\ rep m' (without 5000 [(5000, ([97], 5))]).
Proof.
  assert (forall c, 0 < c < 256 -> is_str [c]) as Hs by (intros; repeat constructor; lia).
  destruct (new_ok 1000 2000 1) as (m0 & E0 & R0); [lia..|].
  assert (table_size m0 = 1) as Ht by (by vm_compute in E0; simplify_eq).
  destruct (hashmap_put_ok m0 [] 5000 [97] 5 R0) as (m & E & R); [lia|by intros ?%elem_of_nil|apply Hs; lia|by vm_compute|].
  assert (table_size m = 1) as Ht1.
  { clear R R0. vm_compute in E0. injection E0 as <-. vm_compute in E. by injection E as <-. }
  exists m. split; [exact R|].
  apply (remove_missing_takes_last m [(5000, ([97], 5))] [98] 0 (5000, ([97], 5)) [] R); [apply Hs; lia|reflexivity|].
  rewrite Ht1. by vm_compute.
Defined.

(** ** The checksum behind the hash *)

(** The table-driven checksum of a key is the bitwise division by the polynomial
    [0xedb88320] that the comment of the table describes, from the register 0. *)
Theorem crc32_hashmap_is_reference s :
  bytes s -> __crc32_hashmap s = Crc.crc_ref 0xedb88320 s 0.
Proof.
  unfold __crc32_hashmap. generalize 0. intros crc Hb. revert crc. induction Hb as [|b s Hb _ IH]; intros crc; [done|].
  cbn [fold_left Crc.crc_ref]. rewrite IH. f_equal.
  rewrite (Crc.crc_table_steps 0xedb88320 crc32_tab 8) by (by vm_compute).
  change (Z.ones (Z.of_nat 8)) with 0xff. change (Z.of_nat 8) with 8. rewrite (Z.lxor_comm b crc), Z.shiftr_lxor.
  rewrite (Z.shiftr_div_pow2 b), Z.div_small by lia. by rewrite Z.lxor_0_r.
Qed.

Lemma crc32_hashmap_is_reference_witness :
  bytes [97; 98; 99] /\ __crc32_hashmap [97; 98; 99] = Crc.crc_ref 0xedb88320 [97; 98; 99] 0.
Proof.
  assert (bytes [97; 98; 99]) as H by (repeat constructor; lia).
  split; [exact H|exact (crc32_hashmap_is_reference _ H)].
Defined.

End HashmapProps.
