(* ===== verification/DList.v ===== *)
(** * Circular doubly linked lists

    Model of [src/tuyaos/tuyaos_adapter/include/utilities/src/tuya_list.c] and of its twin
    [src/gd32_os/MSDK/util/src/dlist.c] on an explicit store of nodes, and what the
    operations do to the sequence of nodes behind a list head. The queue and the other
    containers of the adapter keep their items in such lists. *)
From S2P Require Import Prelude.
Open Scope Z_scope.

Module DList.

(** ** Data

    The store maps the address of a node, or of a list head, to its [next] and [prev];
    an access to an address that is not there is undefined, [None]. *)
Record LIST_HEAD := mk_node { next : Z; prev : Z }.
Abbreviation store := (gmap Z LIST_HEAD).

Definition nxt (s : store) (a : Z) : option Z := next <$> s !! a.
Definition prv (s : store) (a : Z) : option Z := prev <$> s !! a.
Definition set_next (s : store) (a v : Z) : option store := n ← s !! a; Some (<[a := mk_node v (prev n)]> s).
Definition set_prev (s : store) (a v : Z) : option store := n ← s !! a; Some (<[a := mk_node (next n) v]> s).

(** ** tuya_list.c *)

Definition INIT_LIST_HEAD (s : store) (ptr : Z) : option store := s ← set_next s ptr ptr; set_prev s ptr ptr.

Definition __list_add (s : store) (pNew pPrev pNext : Z) : option store :=
  s ← set_prev s pNext pNew;
  s ← set_next s pNew pNext;
  s ← set_prev s pNew pPrev;
  set_next s pPrev pNew.

Definition __list_del (s : store) (pPrev pNext : Z) : option store :=
  s ← set_prev s pNext pPrev;
  set_next s pPrev pNext.

Definition tuya_list_empty (s : store) (pHead : Z) : option bool := n ← nxt s pHead; Some (n =? pHead).

Definition tuya_list_add (s : store) (pNew pHead : Z) : option store :=
  n ← nxt s pHead; __list_add s pNew pHead n.

Definition tuya_list_add_tail (s : store) (pNew pHead : Z) : option store :=
  p ← prv s pHead; __list_add s pNew p pHead.

Definition tuya_list_splice (s : store) (pList pHead : Z) : option store :=
  pFirst ← nxt s pList;
  if negb (pFirst =? pList) then
    pLast ← prv s pList;
    pAt ← nxt s pHead;
    s ← set_prev s pFirst pHead;
    s ← set_next s pHead pFirst;
    s ← set_next s pLast pAt;
    set_prev s pAt pLast
  else Some s.

Definition tuya_list_del (s : store) (pEntry : Z) : option store :=
  p ← prv s pEntry; n ← nxt s pEntry; __list_del s p n.

Definition tuya_list_del_init (s : store) (pEntry : Z) : option store :=
  s ← tuya_list_del s pEntry; INIT_LIST_HEAD s pEntry.

(** ** dlist.c *)

Definition list_add (s : store) (node head : Z) : option store :=
  let prev := head in
  next ← nxt s head;
  s ← set_prev s next node;
  s ← set_next s node next;
  s ← set_prev s node prev;
  set_next s prev node.

Definition list_add_tail (s : store) (node head : Z) : option store :=
  prev ← prv s head;
  let next := head in
  s ← set_prev s next node;
  s ← set_next s node next;
  s ← set_prev s node prev;
  set_next s prev node.

Definition list_del (s : store) (entry : Z) : option store :=
  prev ← prv s entry;
  next ← nxt s entry;
  s ← set_prev s next prev;
  set_next s prev next.

Definition list_del_init (s : store) (entry : Z) : option store :=
  s ← list_del s entry; INIT_LIST_HEAD s entry.

Definition list_empty (s : store) (head : Z) : option Z :=
  n ← nxt s head; Some (if n =? head then 1 else 0).

Definition list_splice (s : store) (list head : Z) : option store :=
  first ← nxt s list;
  if negb (first =? list) then
    last ← prv s list;
    at_ ← nxt s head;
    s ← set_prev s first head;
    s ← set_next s head first;
    s ← set_next s last at_;
    set_prev s at_ last
  else Some s.

(** A loop over a list passes each node at most once. *)
Definition fuel (s : store) : nat := S (size s).

Fixpoint len_loop (n : nat) (s : store) (pos head count : Z) : option Z :=
  match n with
  | O => None
  | S n =>
      if negb (pos =? head) then p ← nxt s pos; len_loop n s p head (signed 32 (count + 1)) else Some count
  end.
Definition list_len (s : store) (head : Z) : option Z := p ← nxt s head; len_loop (fuel s) s p head 0.

(** ** Sequences of nodes *)

Definition link (s : store) (a b : Z) : Prop := nxt s a = Some b /\ prv s b = Some a.

(** From [a] over the nodes [l] to [b]. *)
Fixpoint path (s : store) (a : Z) (l : list Z) (b : Z) : Prop :=
  match l with [] => link s a b | x :: l => link s a x /\ path s x l b end.

(** The list with the head [h] has the nodes [l]. *)
Definition dl (s : store) (h : Z) (l : list Z) : Prop := path s h l h /\ NoDup (h :: l).

Lemma path_app s a l x k b : path s a (l ++ x :: k) b <-> path s a l x /\ path s x k b.
Proof. revert a. induction l as [|y l IH]; intros a; simpl; [done|]. rewrite IH. tauto. Qed.

Lemma path_frame s s' a l b :
  (forall x, x ∈ a :: l -> nxt s' x = nxt s x) -> (forall x, x ∈ l ++ [b] -> prv s' x = prv s x) ->
  path s a l b -> path s' a l b.
Proof.
  revert a. induction l as [|y l IH]; intros a Hn Hp; simpl.
  - intros [H1 H2]. split; [rewrite Hn|rewrite Hp]; try done; apply elem_of_cons; by left.
  - intros [[H1 H2] H]. split.
    + split; [rewrite Hn|rewrite Hp]; try done; apply elem_of_cons; by left.
    + apply IH; [| |done].
      * intros x Hx. apply Hn. apply elem_of_cons. by right.
      * intros x Hx. apply Hp. simpl. apply elem_of_cons. by right.
Qed.

(** Setting a field: it has the new value, everything else is as before. *)
Lemma dl_set_next_ok s a v : is_Some (s !! a) ->
  exists s', set_next s a v = Some s' /\ nxt s' a = Some v /\ (forall b, b <> a -> nxt s' b = nxt s b) /\
    (forall b, prv s' b = prv s b) /\ dom s' = dom s.
Proof.
  intros [n Hn]. unfold set_next. rewrite Hn. eexists. split; [reflexivity|]. unfold nxt, prv.
  rewrite lookup_insert_eq. split; [done|]. split; [|split].
  - intros b Hb. by rewrite lookup_insert_ne.
  - intros b. destruct (decide (b = a)) as [->|]; [by rewrite lookup_insert_eq, Hn|by rewrite lookup_insert_ne].
  - rewrite dom_insert_L. apply elem_of_dom_2 in Hn. set_solver.
Qed.

Lemma set_prev_ok s a v : is_Some (s !! a) ->
  exists s', set_prev s a v = Some s' /\ prv s' a = Some v /\ (forall b, b <> a -> prv s' b = prv s b) /\
    (forall b, nxt s' b = nxt s b) /\ dom s' = dom s.
Proof.
  intros [n Hn]. unfold set_prev. rewrite Hn. eexists. split; [reflexivity|]. unfold nxt, prv.
  rewrite lookup_insert_eq. split; [done|]. split; [|split].
  - intros b Hb. by rewrite lookup_insert_ne.
  - intros b. destruct (decide (b = a)) as [->|]; [by rewrite lookup_insert_eq, Hn|by rewrite lookup_insert_ne].
  - rewrite dom_insert_L. apply elem_of_dom_2 in Hn. set_solver.
Qed.

Lemma is_Some_dom (s s' : store) (a : Z) : dom s' = dom s -> is_Some (s !! a) -> is_Some (s' !! a).
Proof. intros E. rewrite <- !elem_of_dom. by rewrite E. Qed.

Lemma nxt_is_Some s a b : nxt s a = Some b -> is_Some (s !! a).
Proof. unfold nxt. destruct (s !! a); [eauto|done]. Qed.
Lemma prv_is_Some s a b : prv s a = Some b -> is_Some (s !! a).
Proof. unfold prv. destruct (s !! a); [eauto|done]. Qed.

(** The four stores of an insertion between [p] and [q]. *)
Lemma list_add_fields s n p q :
  is_Some (s !! n) -> is_Some (s !! p) -> is_Some (s !! q) -> n <> p -> n <> q ->
  exists s', __list_add s n p q = Some s' /\ link s' p n /\ link s' n q /\ dom s' = dom s /\
    (forall b, b <> n -> b <> p -> nxt s' b = nxt s b) /\ (forall b, b <> n -> b <> q -> prv s' b = prv s b).
Proof.
  intros Hn Hp Hq Hnp Hnq. unfold __list_add.
  destruct (set_prev_ok s q n Hq) as (s1 & -> & A1 & A2 & A3 & A4). cbn [mbind option_bind].
  destruct (dl_set_next_ok s1 n q (is_Some_dom _ _ _ A4 Hn)) as (s2 & -> & B1 & B2 & B3 & B4). cbn [mbind option_bind].
  rewrite A4 in B4.
  destruct (set_prev_ok s2 n p (is_Some_dom _ _ _ B4 Hn)) as (s3 & -> & C1 & C2 & C3 & C4). cbn [mbind option_bind].
  rewrite B4 in C4.
  destruct (dl_set_next_ok s3 p n (is_Some_dom _ _ _ C4 Hp)) as (s4 & -> & D1 & D2 & D3 & D4). rewrite C4 in D4.
  exists s4. split; [done|]. split; [|split; [|split; [done|split]]].
  - split; [done|]. by rewrite D3, C1.
  - split; [by rewrite D2, C3, B1 by done|]. by rewrite D3, C2, B3, A1 by done.
  - intros b H1 H2. by rewrite D2, C3, B2, A3.
  - intros b H1 H2. by rewrite D3, C2, B3, A2.
Qed.

(** A path cut between the nodes [l1] and [l2]. *)
Fixpoint front (s : store) (a : Z) (l : list Z) : Prop :=
  match l with [] => True | x :: l => link s a x /\ front s x l end.
Definition back (s : store) (l : list Z) (b : Z) : Prop :=
  match l with [] => True | x :: l => path s x l b end.

Lemma last_cons_d (x a : Z) l : List.last (x :: l) a = List.last l x.
Proof.
  revert x a. induction l as [|y l IH]; intros x a; [done|].
  change (List.last (y :: l) a = List.last (y :: l) x). by rewrite !IH.
Qed.

Lemma path_cut s a l1 l2 b :
  path s a (l1 ++ l2) b <-> front s a l1 /\ link s (List.last l1 a) (List.hd b l2) /\ back s l2 b.
Proof.
  revert a. induction l1 as [|y l1 IH]; intros a; simpl app; cbn [front path].
  - destruct l2; simpl; tauto.
  - rewrite IH, last_cons_d. tauto.
Qed.

Lemma last_in (a : Z) l : List.last l a ∈ a :: l.
Proof.
  revert a. induction l as [|x l IH]; intros a; [apply elem_of_cons; by left|].
  rewrite last_cons_d. apply elem_of_cons. right. apply IH.
Qed.

Lemma front_frame s s' a l :
  NoDup (a :: l) -> (forall x, x ∈ a :: l -> x <> List.last l a -> nxt s' x = nxt s x) ->
  (forall x, x ∈ l -> prv s' x = prv s x) -> front s a l -> front s' a l.
Proof.
  revert a. induction l as [|y l IH]; intros a Hd Hn Hp; cbn [front]; [done|].
  rewrite last_cons_d in Hn. apply NoDup_cons in Hd as [Ha Hd]. intros [[H1 H2] H]. split.
  - split; [rewrite Hn|rewrite Hp]; try done; try (apply elem_of_cons; by left).
    intros E. apply Ha. rewrite E. apply last_in.
  - apply IH; [done| |intros x Hx; apply Hp, elem_of_cons; by right|done].
    intros x Hx. apply Hn, elem_of_cons. by right.
Qed.

Lemma back_frame s s' l b :
  NoDup (b :: l) -> (forall x, x ∈ l -> nxt s' x = nxt s x) ->
  (forall x, x ∈ b :: l -> x <> List.hd b l -> prv s' x = prv s x) -> back s l b -> back s' l b.
Proof.
  destruct l as [|y l]; [done|]. intros Hd Hn Hp. simpl. apply path_frame; [exact Hn|].
  apply NoDup_cons in Hd as [Hb Hd]. apply NoDup_cons in Hd as [Hy Hd].
  intros x Hx. apply elem_of_app in Hx as [Hx| ->%list_elem_of_singleton]; apply Hp.
  - apply elem_of_cons. right. apply elem_of_cons. by right.
  - simpl. by intros ->.
  - apply elem_of_cons. by left.
  - simpl. intros ->. apply Hb, elem_of_cons. by left.
Qed.

Lemma path_some s a l b x : path s a l b -> x ∈ a :: l -> is_Some (s !! x).
Proof.
  revert a. induction l as [|y l IH]; intros a; simpl.
  - intros [H _] ->%list_elem_of_singleton. by eapply nxt_is_Some.
  - intros [[H _] Hl] [->|Hx]%elem_of_cons; [by eapply nxt_is_Some|by eapply IH].
Qed.

Lemma hd_in (b : Z) l : List.hd b l ∈ b :: l.
Proof. destruct l; simpl; apply elem_of_cons; [by left|right; apply elem_of_cons; by left]. Qed.

(** A change at the joint of [l1] and [l2] keeps the rest of the ring. *)
Lemma ring_frame s s' h l1 l2 :
  NoDup (h :: l1 ++ l2) ->
  (forall x, x ∈ h :: l1 ++ l2 -> x <> List.last l1 h -> nxt s' x = nxt s x) ->
  (forall x, x ∈ h :: l1 ++ l2 -> x <> List.hd h l2 -> prv s' x = prv s x) ->
  front s h l1 -> back s l2 h -> front s' h l1 /\ back s' l2 h.
Proof.
  intros Hd Hn Hp Hf Hb. pose proof Hd as [Hh (Hd1 & H12 & Hd2)%NoDup_app]%NoDup_cons.
  assert (h ∉ l1 /\ h ∉ l2) as [Hh1 Hh2] by (rewrite elem_of_app in Hh; tauto). split.
  - eapply front_frame, Hf; [by constructor| |].
    + intros x Hx. apply Hn. apply elem_of_cons in Hx as [->|Hx]; apply elem_of_cons; [by left|right; apply elem_of_app; by left].
    + intros x Hx. apply Hp; [apply elem_of_cons; right; apply elem_of_app; by left|].
      intros ->. destruct (proj1 (elem_of_cons _ _ _) (hd_in h l2)) as [E|Hin]; [by rewrite E in Hx|by apply (H12 _ Hx)].
  - eapply back_frame, Hb; [by constructor| |].
    + intros x Hx. apply Hn; [apply elem_of_cons; right; apply elem_of_app; by right|].
      intros ->. destruct (proj1 (elem_of_cons _ _ _) (last_in h l1)) as [E|Hin]; [by rewrite E in Hx|by apply (H12 _ Hin)].
    + intros x Hx. apply Hp. apply elem_of_cons in Hx as [->|Hx]; apply elem_of_cons; [by left|right; apply elem_of_app; by right].
Qed.

(** ** The operations on the sequence *)

(** An insertion between two neighbours. *)
Lemma insert_ok s h l1 l2 n :
  dl s h (l1 ++ l2) -> is_Some (s !! n) -> n ∉ h :: l1 ++ l2 ->
  exists s', __list_add s n (List.last l1 h) (List.hd h l2) = Some s' /\ dl s' h (l1 ++ n :: l2) /\
    dom s' = dom s /\ (forall b, b ∉ h :: n :: l1 ++ l2 -> nxt s' b = nxt s b /\ prv s' b = prv s b).
Proof.
  intros [Hp Hd] Hn Hni. pose proof Hp as (Hf & Hl & Hb)%path_cut.
  assert (List.last l1 h ∈ h :: l1 ++ l2) as Hlin.
  { destruct (proj1 (elem_of_cons _ _ _) (last_in h l1)) as [->|?]; apply elem_of_cons; [by left|right; apply elem_of_app; by left]. }
  assert (List.hd h l2 ∈ h :: l1 ++ l2) as Hhin.
  { destruct (proj1 (elem_of_cons _ _ _) (hd_in h l2)) as [->|?]; apply elem_of_cons; [by left|right; apply elem_of_app; by right]. }
  destruct (list_add_fields s n (List.last l1 h) (List.hd h l2)) as (s' & E & L1 & L2 & Hdom & Hnx & Hpr); try done.
  - by eapply path_some.
  - by eapply path_some.
  - by intros ->.
  - by intros ->.
  - exists s'. split; [done|].
    destruct (ring_frame s s' h l1 l2 Hd) as [Hf' Hb']; [|by intros x Hx ?; apply Hpr; [intros ->|]| | |]; try done.
    { intros x Hx ?. apply Hnx; [by intros ->|done]. }
    split; [|split; [done|]].
    + split.
      * apply path_cut. split; [done|]. split; [done|]. simpl. apply (path_cut s' n [] l2 h). simpl. tauto.
      * change (h :: l1 ++ n :: l2) with ((h :: l1) ++ n :: l2). rewrite <- Permutation_middle. by constructor.
    + intros b Hbn. split; [apply Hnx|apply Hpr]; intros ->; apply Hbn; clear -Hlin Hhin;
        rewrite !elem_of_cons in *; tauto.
Qed.

Lemma add_ok s h l n : dl s h l -> is_Some (s !! n) -> n ∉ h :: l ->
  exists s', tuya_list_add s n h = Some s' /\ dl s' h (n :: l) /\ dom s' = dom s /\
    (forall b, b ∉ h :: n :: l -> nxt s' b = nxt s b /\ prv s' b = prv s b).
Proof.
  intros D Hn Hni. destruct (insert_ok s h [] l n D Hn Hni) as (s' & E & H). exists s'. split; [|done].
  unfold tuya_list_add. destruct D as [Hp _]. apply (path_cut s h [] l h) in Hp as (_ & [Hx _] & _).
  simpl in Hx, E. by rewrite Hx.
Qed.

Lemma add_tail_ok s h l n : dl s h l -> is_Some (s !! n) -> n ∉ h :: l ->
  exists s', tuya_list_add_tail s n h = Some s' /\ dl s' h (l ++ [n]) /\ dom s' = dom s /\
    (forall b, b ∉ h :: n :: l -> nxt s' b = nxt s b /\ prv s' b = prv s b).
Proof.
  intros D Hn Hni. rewrite <- (app_nil_r l) in D, Hni.
  destruct (insert_ok s h l [] n D Hn Hni) as (s' & E & H). exists s'. rewrite (app_nil_r l) in H. split; [|done].
  unfold tuya_list_add_tail. destruct D as [Hp _]. apply path_cut in Hp as (_ & [_ Hx] & _).
  simpl in Hx, E. by rewrite Hx.
Qed.

Lemma dl_del_ok s h l1 e l2 : dl s h (l1 ++ e :: l2) ->
  exists s', tuya_list_del s e = Some s' /\ dl s' h (l1 ++ l2) /\ dom s' = dom s /\
    (forall b, b ∉ h :: l1 ++ l2 -> nxt s' b = nxt s b /\ prv s' b = prv s b).
Proof.
  intros [Hp Hd]. pose proof Hp as (Hf & L1 & Hb)%path_cut. simpl in L1, Hb.
  pose proof Hb as Hb0. apply (path_cut s e [] l2 h) in Hb0 as (_ & L2 & Hb2). simpl in L2.
  change (h :: l1 ++ e :: l2) with ((h :: l1) ++ e :: l2) in Hd. rewrite <- Permutation_middle in Hd.
  apply NoDup_cons in Hd as [He Hd]. simpl in He, Hd.
  assert (List.last l1 h ∈ h :: l1 ++ l2) as Hlin.
  { destruct (proj1 (elem_of_cons _ _ _) (last_in h l1)) as [->|?]; apply elem_of_cons; [by left|right; apply elem_of_app; by left]. }
  assert (List.hd h l2 ∈ h :: l1 ++ l2) as Hhin.
  { destruct (proj1 (elem_of_cons _ _ _) (hd_in h l2)) as [->|?]; apply elem_of_cons; [by left|right; apply elem_of_app; by right]. }
  unfold tuya_list_del. destruct L1 as [L1n L1p], L2 as [L2n L2p]. rewrite L1p, L2n. cbn [mbind option_bind].
  unfold __list_del. set (p := List.last l1 h) in *. set (q := List.hd h l2) in *.
  destruct (set_prev_ok s q p (prv_is_Some _ _ _ L2p)) as (s1 & -> & A1 & A2 & A3 & A4). cbn [mbind option_bind].
  destruct (dl_set_next_ok s1 p q (is_Some_dom _ _ _ A4 (nxt_is_Some _ _ _ L1n))) as (s2 & -> & B1 & B2 & B3 & B4).
  exists s2. split; [done|].
  assert (forall x, x <> p -> nxt s2 x = nxt s x) as Hnx by (intros x Hx; by rewrite B2, A3).
  assert (forall x, x <> q -> prv s2 x = prv s x) as Hpr by (intros x Hx; by rewrite B3, A2).
  destruct (ring_frame s s2 h l1 l2 Hd) as [Hf' Hb']; [by auto|by auto|done|done|].
  split; [|split; [by rewrite B4, A4|]].
  - split; [|done]. apply path_cut. split; [done|]. split; [|done]. fold p q. split; [done|by rewrite B3].
  - intros b Hbn. split; [apply Hnx|apply Hpr]; intros ->; by apply Hbn.
Qed.

Lemma empty_ok s h l : dl s h l -> tuya_list_empty s h = Some (bool_decide (l = [])).
Proof.
  intros [Hp Hd]. unfold tuya_list_empty. apply (path_cut s h [] l h) in Hp as (_ & [Hx _] & _). simpl in Hx. rewrite Hx.
  cbn [mbind option_bind]. f_equal. destruct l as [|x l]; simpl; [by rewrite Z.eqb_refl|].
  apply NoDup_cons in Hd as [Hh _]. apply Z.eqb_neq. intros ->. apply Hh, elem_of_cons. by left.
Qed.

Lemma init_ok s h : is_Some (s !! h) ->
  exists s', INIT_LIST_HEAD s h = Some s' /\ dl s' h [] /\ dom s' = dom s /\
    (forall b, b <> h -> nxt s' b = nxt s b /\ prv s' b = prv s b).
Proof.
  intros Hh. unfold INIT_LIST_HEAD. destruct (dl_set_next_ok s h h Hh) as (s1 & -> & A1 & A2 & A3 & A4).
  cbn [mbind option_bind]. destruct (set_prev_ok s1 h h (is_Some_dom _ _ _ A4 Hh)) as (s2 & -> & B1 & B2 & B3 & B4).
  exists s2. split; [done|]. split; [|split; [by rewrite B4|]].
  - split; [|repeat constructor; by intros ?%elem_of_nil]. split; [by rewrite B3|done].
  - intros b Hb. split; [by rewrite B3, A2|by rewrite B2, A3].
Qed.

(** A list depends only on the fields of its head and nodes. *)
Lemma dl_frame s s' h l :
  (forall x, x ∈ h :: l -> nxt s' x = nxt s x /\ prv s' x = prv s x) -> dl s h l -> dl s' h l.
Proof.
  intros Hf [Hp Hd]. split; [|done]. eapply path_frame, Hp.
  - intros x Hx. by apply Hf.
  - intros x Hx. apply Hf. apply elem_of_app in Hx as [?| ->%list_elem_of_singleton]; apply elem_of_cons; auto.
Qed.

(** What a walk finds at the head and at each node. *)
Lemma back_cons s x ads h : back s (x :: ads) h <-> link s x (List.hd h ads) /\ back s ads h.
Proof. simpl. rewrite (path_cut s x [] ads h). simpl. tauto. Qed.

Lemma dl_back s h ads : dl s h ads -> nxt s h = Some (List.hd h ads) /\ back s ads h.
Proof. intros [Hp _]. apply (path_cut s h [] ads h) in Hp as (_ & [? _] & ?). done. Qed.

(** ** The twin *)

(** The operations of [dlist.c] are those of [tuya_list.c]. *)
Lemma dlist_same s a b :
  list_add s a b = tuya_list_add s a b /\ list_add_tail s a b = tuya_list_add_tail s a b /\
  list_del s a = tuya_list_del s a /\ list_del_init s a = tuya_list_del_init s a /\
  list_splice s a b = tuya_list_splice s a b /\
  list_empty s a = (e ← tuya_list_empty s a; Some (if e : bool then 1 else 0)).
Proof.
  split_and!; try done. unfold list_empty, tuya_list_empty. by destruct (nxt s a).
Qed.

End DList.
