(* ===== verification/Queue.v ===== *)
(** * The item queue

    Model of [src/tuyaos/tuyaos_adapter/include/utilities/src/tuya_queue.c] over the
    circular lists of [DList]: items of one size, copied into blocks of their own, in a
    list behind the queue's head. Refinement of a bounded double-ended queue. *)
From S2P Require Import Prelude Client DList.
Open Scope Z_scope.

Module Queue.
Import DList.

(** ** Data

    The result codes are symbols: their numbers are defined outside the sources. The
    queue's mutex makes each operation one step; locking itself is not modelled. [None]
    is an access outside a block or to a freed item. *)
Inductive OPERATE_RET := OPRT_OK | OPRT_COM_ERROR | OPRT_INVALID_PARM | OPRT_MALLOC_FAILED | OPRT_NOT_FOUND | OPRT_EXCEED_UPPER_LIMIT.

Inductive ENQUEUE_POLICY_E := POLICY_SEND_TO_BACK | POLICY_SEND_TO_FRONT.

Record TUYA_QUEUE_T := mk_queue { item_size : Z; queue_len : Z; queue_free : Z; head : Z }.

(** The queue, the list nodes and the data of the items, by the address of their node. *)
Record st := mk_st { queue : TUYA_QUEUE_T; nodes : store; items : gmap Z (list Z) }.

Definition set_free (n : Z) (s : st) : st :=
  mk_st (mk_queue (item_size (queue s)) (queue_len (queue s)) n (head (queue s))) (nodes s) (items s).
Definition set_nodes (n : store) (s : st) : st := mk_st (queue s) n (items s).
Definition set_items (i : gmap Z (list Z)) (s : st) : st := mk_st (queue s) (nodes s) i.

(** [sizeof(QUEUE_ITEM_T)]: two pointers. *)
Definition ITEM_HEAD : Z := 8.

(** [tkl_system_free] of an item. *)
Definition free_item (a : Z) (s : st) : st := set_items (delete a (items s)) (set_nodes (delete a (nodes s)) s).

(** ** Operations

    [addr] is what the allocation returns, [item] the caller's buffer, [None] for [NULL];
    [handle] tells whether the handle is not [NULL]. *)

Definition __enqueue (addr : Z) (handle : bool) (item : option (list Z)) (policy : ENQUEUE_POLICY_E) (s : st)
  : option (OPERATE_RET * st) :=
  match handle, item with
  | true, Some item =>
      let q := queue s in
      if addr =? 0 then Some (OPRT_MALLOC_FAILED, s)
      else if (u32 (ITEM_HEAD + item_size q) <? ITEM_HEAD + item_size q) || (zlen item <? item_size q) then None
      else
        n ← INIT_LIST_HEAD (<[addr := mk_node 0 0]> (nodes s)) addr;
        let s := set_items (<[addr := slice 0 (item_size q) item]> (items s)) (set_nodes n s) in
        if 0 <? queue_free q then
          n ← (match policy with
               | POLICY_SEND_TO_BACK => tuya_list_add_tail (nodes s) addr (head q)
               | POLICY_SEND_TO_FRONT => tuya_list_add (nodes s) addr (head q)
               end);
          Some (OPRT_OK, set_free (u32 (queue_free q - 1)) (set_nodes n s))
        else Some (OPRT_EXCEED_UPPER_LIMIT, free_item addr s)
  | _, _ => Some (OPRT_INVALID_PARM, s)
  end.

(** [addr] is what the allocation returns, [lock] what creating the mutex returns; the
    list head lies [off] bytes into the block. *)
Definition tuya_queue_create (addr off : Z) (lock : bool) (len isize : Z) (handle : bool) : option (OPERATE_RET * option st) :=
  if negb handle || (len =? 0) || (isize =? 0) then Some (OPRT_INVALID_PARM, None)
  else if addr =? 0 then Some (OPRT_MALLOC_FAILED, None)
  else if negb lock then Some (OPRT_COM_ERROR, None)
  else
    n ← INIT_LIST_HEAD {[addr + off := mk_node 0 0]} (addr + off);
    Some (OPRT_OK, Some (mk_st (mk_queue isize len len (addr + off)) n ∅)).

Definition tuya_queue_input addr handle item s := __enqueue addr handle item POLICY_SEND_TO_BACK s.
Definition tuya_queue_input_instant addr handle item s := __enqueue addr handle item POLICY_SEND_TO_FRONT s.

(** The result, what is stored through [item], and the state. *)
Definition tuya_queue_output (handle : bool) (s : st) : option (OPERATE_RET * list Z * st) :=
  if negb handle then Some (OPRT_INVALID_PARM, [], s)
  else
    let q := queue s in
    if queue_free q <? queue_len q then
      item ← nxt (nodes s) (head q);
      d ← items s !! item;
      n ← tuya_list_del (nodes s) item;
      let s := free_item item (set_nodes n s) in
      Some (OPRT_OK, d, set_free (u32 (queue_free q + 1)) s)
    else Some (OPRT_NOT_FOUND, [], s).

Definition tuya_queue_peek (handle item : bool) (s : st) : option (OPERATE_RET * list Z) :=
  if negb handle || negb item then Some (OPRT_INVALID_PARM, [])
  else
    let q := queue s in
    if queue_free q <? queue_len q then
      item ← nxt (nodes s) (head q);
      d ← items s !! item;
      Some (OPRT_OK, d)
    else Some (OPRT_NOT_FOUND, []).

(** A callback and its context: from the items it was given before and the one it is given, whether
    to go on, and what it leaves in the item. *)
Definition TRAVERSE_CB : Type := list (list Z) -> list Z -> bool * list Z.

(** The items that were given to the callback. *)
Fixpoint traverse_loop (n : nat) (s : st) (cb : TRAVERSE_CB) (given : list (list Z)) (p : Z) : option (st * list (list Z)) :=
  match n with
  | O => None
  | S n =>
      if negb (p =? 0) && negb (p =? head (queue s)) then
        d ← items s !! p;
        let '(go, d') := cb given d in
        let s := set_items (<[p := d']> (items s)) s in
        if (go : bool) then p ← nxt (nodes s) p; traverse_loop n s cb (given ++ [d]) p else Some (s, given ++ [d])
      else Some (s, given)
  end.

Definition tuya_queue_traverse (handle : bool) (cb : option TRAVERSE_CB) (s : st)
  : option (OPERATE_RET * list (list Z) * st) :=
  match handle, cb with
  | true, Some cb =>
      p ← nxt (nodes s) (head (queue s));
      '(s, l) ← traverse_loop (fuel (nodes s)) s cb [] p;
      Some (OPRT_OK, l, s)
  | _, _ => Some (OPRT_INVALID_PARM, [], s)
  end.

Fixpoint clear_loop (n : nat) (s : st) (p : Z) : option st :=
  match n with
  | O => None
  | S n =>
      next ← nxt (nodes s) p;
      if negb (p =? head (queue s)) then
        nd ← tuya_list_del (nodes s) p;
        clear_loop n (free_item p (set_nodes nd s)) next
      else Some s
  end.

Definition tuya_queue_clear (handle : bool) (s : st) : option (OPERATE_RET * st) :=
  if negb handle then Some (OPRT_INVALID_PARM, s)
  else
    p ← nxt (nodes s) (head (queue s));
    s ← clear_loop (fuel (nodes s)) s p;
    Some (OPRT_OK, set_free (queue_len (queue s)) s).

(** The walk of [tuya_queue_get_batch]: the index and count reached and the items copied. *)
Fixpoint batch_loop (n : nat) (s : st) (start num p index count : Z) : option (Z * Z * list (list Z)) :=
  match n with
  | O => None
  | S n =>
      if negb (p =? 0) && negb (p =? head (queue s)) then
        if index <? start then
          p ← nxt (nodes s) p; batch_loop n s start num p (u32 (index + 1)) count
        else if num <=? count then Some (index, count, [])
        else
          d ← items s !! p;
          p ← nxt (nodes s) p;
          '(i, c, l) ← batch_loop n s start num p index (u32 (count + 1));
          Some (i, c, d :: l)
      else Some (index, count, [])
  end.

Definition tuya_queue_get_batch (handle : bool) (start : Z) (buf : bool) (num : Z) (s : st)
  : option (OPERATE_RET * list (list Z)) :=
  if negb handle || negb buf || (num =? 0) then Some (OPRT_INVALID_PARM, [])
  else
    p ← nxt (nodes s) (head (queue s));
    '(index, count, l) ← batch_loop (fuel (nodes s)) s start num p 0 0;
    Some (if negb (index =? start) || negb (count =? num) then OPRT_NOT_FOUND else OPRT_OK, l).

(** [num] turns at most: the loop counts down. *)
Fixpoint delete_loop (n : nat) (ret : OPERATE_RET) (s : st) : option (OPERATE_RET * st) :=
  match n, ret with
  | S n, OPRT_OK => '(ret, _, s) ← tuya_queue_output true s; delete_loop n ret s
  | _, _ => Some (ret, s)
  end.

Definition tuya_queue_delete_batch (handle : bool) (num : Z) (s : st) : option (OPERATE_RET * st) :=
  if negb handle || (num =? 0) then Some (OPRT_INVALID_PARM, s)
  else delete_loop (Z.to_nat num) OPRT_OK s.

Definition tuya_queue_get_free_num (handle : bool) (s : st) : Z := if negb handle then 0 else queue_free (queue s).
Definition tuya_queue_get_used_num (handle : bool) (s : st) : Z :=
  if negb handle then 0 else u32 (queue_len (queue s) - queue_free (queue s)).
Definition tuya_queue_get_max_num (handle : bool) (s : st) : Z := if negb handle then 0 else queue_len (queue s).

(** [lock] is what releasing the mutex returns; the queue itself is freed. *)
Definition tuya_queue_release (lock : OPERATE_RET) (handle : bool) (s : st) : option (OPERATE_RET * option st) :=
  if negb handle then Some (OPRT_INVALID_PARM, Some s)
  else _ ← tuya_queue_clear handle s; Some (lock, None).

End Queue.
