(* ===== verification/QueueSpec.v ===== *)
(** * The item queue is a bounded deque

    The list behind the head holds the items in order, each in a block of its own, and
    nothing else is allocated; the operations are those of a bounded deque of byte strings. *)
From S2P Require Import Prelude Client DList Queue.
Open Scope Z_scope.

Module QueueSpec.
Import DList Queue.

(** ** The items in order *)

(** The blocks [ads] hold the data [l]. *)
Definition holds (it : gmap Z (list Z)) (ads : list Z) (l : list (list Z)) : Prop :=
  Forall2 (fun a d => it !! a = Some d) ads l.

Record rep_at (s : st) (ads : list Z) (l : list (list Z)) : Prop := {
  rp_list : dl (nodes s) (head (queue s)) ads;
  rp_items : holds (items s) ads l;
  rp_nodes : forall a, is_Some (nodes s !! a) <-> a ∈ head (queue s) :: ads;
  rp_blocks : forall a, is_Some (items s !! a) <-> a ∈ ads;
  rp_zero : 0 ∉ head (queue s) :: ads;
  rp_free : queue_free (queue s) = queue_len (queue s) - zlen l;
  rp_len : zlen l <= queue_len (queue s) < 2 ^ 32;
  rp_size : 0 < item_size (queue s) < 2 ^ 32 - ITEM_HEAD
}.

Lemma holds_length it ads l : holds it ads l -> length ads = length l.
Proof. apply Forall2_length. Qed.

Lemma rep_fuel s ads l : rep_at s ads l -> (length ads < fuel (nodes s))%nat.
Proof.
  intros R. unfold fuel. rewrite <- size_dom.
  assert (list_to_set (C := gset Z) ads ⊆ dom (nodes s)) as Hsub.
  { intros a Ha. apply elem_of_list_to_set in Ha. apply elem_of_dom, (rp_nodes _ _ _ R), elem_of_cons. by right. }
  apply subseteq_size in Hsub. rewrite size_list_to_set in Hsub; [lia|].
  destruct (rp_list _ _ _ R) as [_ Hd]. by apply NoDup_cons in Hd as [_ ?].
Qed.

(** ** Loops over the items *)

Section Loops.
Context (s : st).
Let h := head (queue s).

Lemma loop_test ads : 0 ∉ ads -> h ∉ ads ->
  negb (List.hd h ads =? 0) && negb (List.hd h ads =? h) = match ads with [] => false | _ => true end.
Proof.
  intros H0 Hh. destruct ads as [|x ads]; simpl.
  - rewrite Z.eqb_refl. by rewrite andb_false_r.
  - apply not_elem_of_cons in H0 as [? _], Hh as [? _]. rewrite !(proj2 (Z.eqb_neq _ _)) by congruence. done.
Qed.

(** The items from position [start] on, at most [num]. *)
Definition batch (start num : Z) (l : list (list Z)) : list (list Z) :=
  take (Z.to_nat num) (drop (Z.to_nat start) l).

Lemma batch_loop_ok start num n ads l index count :
  back (nodes s) ads h -> holds (items s) ads l -> 0 ∉ ads -> h ∉ ads -> (length ads < n)%nat ->
  0 <= index <= start -> 0 <= count <= num -> (index < start -> count = 0) ->
  index + zlen l < 2 ^ 32 -> count + zlen l < 2 ^ 32 ->
  batch_loop n s start num (List.hd h ads) index count =
    Some (Z.min start (index + zlen l), Z.min num (count + Z.max 0 (zlen l - (start - index))),
          batch (start - index) (num - count) l).
Proof.
  intros Hb Hi. revert n index count Hb. induction Hi as [|x d ads l Hx Hi IH];
    intros n index count Hb H0 Hh Hn Hix Hct Hz Hiw Hcw;
    (destruct n as [|n]; [simpl in Hn; lia|]); cbn [batch_loop]; fold h; rewrite loop_test by done.
  - rewrite zlen_nil in *. unfold batch. rewrite drop_nil, take_nil. do 2 f_equal. f_equal; lia.
  - cbn [List.hd]. rewrite zlen_cons in *. pose proof (zlen_nonneg l).
    apply back_cons in Hb as [[Hnx _] Hb]. rewrite Hnx.
    apply not_elem_of_cons in H0 as [_ H0], Hh as [_ Hh]. simpl in Hn. unfold batch.
    destruct (Z.ltb_spec index start).
    + cbn [mbind option_bind]. rewrite wrap_small by lia. rewrite IH by (try done; lia).
      replace (Z.to_nat (start - index)) with (S (Z.to_nat (start - (index + 1)))) by lia. cbn [drop].
      unfold batch. do 2 f_equal. f_equal; lia.
    + assert (index = start) as -> by lia. rewrite Z.sub_diag. cbn [drop Z.to_nat].
      destruct (Z.leb_spec num count).
      * assert (count = num) as -> by lia. rewrite Z.sub_diag. cbn [take Z.to_nat]. do 2 f_equal. f_equal; lia.
      * rewrite Hx. cbn [mbind option_bind]. rewrite wrap_small by lia. rewrite IH by (try done; lia).
        cbn [mbind option_bind]. unfold batch. rewrite Z.sub_diag. cbn [drop Z.to_nat].
        replace (Z.to_nat (num - count)) with (S (Z.to_nat (num - (count + 1)))) by lia. cbn [take].
        do 2 f_equal. f_equal; lia.
Qed.

End Loops.

(** What the callback is given, and the items as it leaves them. *)
Fixpoint walk (cb : TRAVERSE_CB) (given l : list (list Z)) : list (list Z) * list (list Z) :=
  match l with
  | [] => (given, [])
  | d :: l =>
      let '(go, d') := cb given d in
      if (go : bool) then let '(v, l) := walk cb (given ++ [d]) l in (v, d' :: l) else (given ++ [d], d' :: l)
  end.

Lemma holds_insert it ads l a d : a ∉ ads -> holds it ads l -> holds (<[a := d]> it) ads l.
Proof.
  intros Ha Hi. induction Hi as [|y e ads l Hy Hi IH]; [constructor|].
  apply not_elem_of_cons in Ha as [Hya Ha]. constructor; [by rewrite lookup_insert_ne|by apply IH].
Qed.

Lemma length_walk cb l : forall given, length (snd (walk cb given l)) = length l.
Proof.
  induction l as [|d l IH]; intros given; [done|]. cbn [walk]. destruct (cb given d) as [[] d']; [|done].
  specialize (IH (given ++ [d])). destruct (walk cb (given ++ [d]) l). cbn in *. by rewrite IH.
Qed.

Lemma traverse_loop_ok cb h ads : forall n s l given, head (queue s) = h -> back (nodes s) ads h -> holds (items s) ads l ->
  NoDup ads -> 0 ∉ ads -> h ∉ ads -> (length ads < n)%nat ->
  exists s', traverse_loop n s cb given (List.hd h ads) = Some (s', fst (walk cb given l)) /\ nodes s' = nodes s /\ queue s' = queue s /\
    holds (items s') ads (snd (walk cb given l)) /\ forall a, a ∉ ads -> items s' !! a = items s !! a.
Proof.
  induction ads as [|x ads IH]; intros n s l given Eh Hb Hi Hnd H0 Hh Hn; (destruct n as [|n]; [simpl in Hn; lia|]); cbn [traverse_loop];
    rewrite Eh; pose proof (loop_test s) as Ht; cbv zeta in Ht; rewrite Eh in Ht; rewrite Ht by done.
  { inversion Hi; subst. exists s. done. }
  inversion Hi as [|x' d ads' l' Hx Hi' E1 E2]; subst x' ads' l. cbn [List.hd]. rewrite Hx. cbn [mbind option_bind walk].
  destruct (cb given d) as [go d']. apply NoDup_cons in Hnd as [Hxn Hnd]. set (s1 := set_items (<[x := d']> (items s)) s).
  assert (holds (items s1) ads l') as Hi1 by by apply holds_insert. destruct go.
  - apply back_cons in Hb as [[Hnx _] Hb]. rewrite (Hnx : nxt (nodes s1) x = _). cbn [mbind option_bind].
    apply not_elem_of_cons in H0 as [_ H0], Hh as [_ Hh].
    destruct (IH n s1 l' (given ++ [d]) Eh Hb Hi1 Hnd H0 Hh ltac:(simpl in Hn; lia)) as (s2 & E & F1 & F2 & F3 & F4).
    exists s2. destruct (walk cb (given ++ [d]) l') as [v k]. cbn [fst snd] in *. split; [done|]. split; [done|]. split; [done|]. split.
    + constructor; [|done]. rewrite F4 by done. apply lookup_insert_eq.
    + intros a [Hax Ha]%not_elem_of_cons. rewrite F4 by done. by apply lookup_insert_ne.
  - exists s1. split; [done|]. split; [done|]. split; [done|]. split.
    + constructor; [apply lookup_insert_eq|done].
    + intros a [Hax Ha]%not_elem_of_cons. by apply lookup_insert_ne.
Qed.

(** ** Items come and go *)

Lemma queue_rep_intro s s' ads ads' l l' :
  rep_at s ads l -> queue_len (queue s') = queue_len (queue s) -> item_size (queue s') = item_size (queue s) ->
  head (queue s') = head (queue s) -> dl (nodes s') (head (queue s)) ads' -> holds (items s') ads' l' ->
  (forall a, is_Some (nodes s' !! a) <-> a ∈ head (queue s) :: ads') ->
  (forall a, is_Some (items s' !! a) <-> a ∈ ads') -> 0 ∉ ads' ->
  queue_free (queue s') = queue_len (queue s) - zlen l' -> zlen l' <= queue_len (queue s) -> rep_at s' ads' l'.
Proof.
  intros R E1 E2 E3 Hd Hh Hn Hi H0 Hf Hl. destruct R.
  split; rewrite ?E1, ?E2, ?E3; try done; [|lia].
  apply not_elem_of_cons. apply not_elem_of_cons in rp_zero0 as [? _]. done.
Qed.

(** The first item taken out and freed. *)
Lemma take_first s x ads d l : rep_at s (x :: ads) (d :: l) ->
  exists n, tuya_list_del (nodes s) x = Some n /\
    rep_at (set_free (u32 (queue_free (queue s) + 1)) (free_item x (set_nodes n s))) ads l.
Proof.
  intros R. destruct (dl_del_ok (nodes s) (head (queue s)) [] x ads (rp_list _ _ _ R)) as (n & E & D & Hdom & Hfr).
  exists n. split; [done|]. pose proof (rp_list _ _ _ R) as [_ Hnd].
  apply NoDup_cons in Hnd as [Hh Hnd]. apply not_elem_of_cons in Hh as [Hhx Hh]. apply NoDup_cons in Hnd as [Hx Hnd].
  pose proof (rp_items _ _ _ R) as Hi. inversion Hi as [|? ? ? ? Hxd Hi']; subst.
  pose proof (rp_len _ _ _ R) as Hlen. rewrite zlen_cons in Hlen. pose proof (zlen_nonneg l).
  apply (queue_rep_intro s _ (x :: ads) _ (d :: l) _ R); cbn [set_free free_item set_items set_nodes queue queue_len item_size head queue_free nodes items]; try done.
  - eapply dl_frame, D. intros y Hy. assert (y <> x) by (intros ->; apply elem_of_cons in Hy as [?|?]; [congruence|done]).
    unfold nxt, prv. by rewrite lookup_delete_ne.
  - eapply Forall2_impl; [|]. 2:{ intros a b Hab. exact Hab. }
    clear -Hi' Hx. induction Hi' as [|y e ads l Hy Hi IH]; [constructor|].
    apply not_elem_of_cons in Hx as [Hxy Hx]. constructor; [by rewrite lookup_delete_ne|by apply IH].
  - intros a. destruct (decide (a = x)) as [->|Hne].
    + rewrite lookup_delete_eq. split; [by intros [? ?]|]. intros [?|?]%elem_of_cons; [congruence|done].
    + rewrite lookup_delete_ne by done. rewrite <- elem_of_dom, Hdom, elem_of_dom, (rp_nodes _ _ _ R), !elem_of_cons. tauto.
  - intros a. destruct (decide (a = x)) as [->|Hne].
    + rewrite lookup_delete_eq. split; [by intros [? ?]|done].
    + rewrite lookup_delete_ne by done. rewrite (rp_blocks _ _ _ R), elem_of_cons. tauto.
  - pose proof (rp_zero _ _ _ R) as H0. rewrite !not_elem_of_cons in H0. tauto.
  - rewrite (rp_free _ _ _ R), zlen_cons. rewrite wrap_small by lia. lia.
  - lia.
Qed.

Lemma output_ok s ads l : rep_at s ads l ->
  match l with
  | [] => tuya_queue_output true s = Some (OPRT_NOT_FOUND, [], s)
  | d :: l => exists s' ads', tuya_queue_output true s = Some (OPRT_OK, d, s') /\ rep_at s' ads' l /\ queue_len (queue s') = queue_len (queue s) /\ item_size (queue s') = item_size (queue s)
  end.
Proof.
  intros R. unfold tuya_queue_output. cbn [negb]. cbv zeta. rewrite (rp_free _ _ _ R).
  pose proof (rp_items _ _ _ R) as Hi. pose proof (rp_len _ _ _ R) as Hlen.
  destruct l as [|d l].
  - rewrite zlen_nil. by rewrite (proj2 (Z.ltb_ge _ _)) by lia.
  - rewrite zlen_cons in *. pose proof (zlen_nonneg l). rewrite (proj2 (Z.ltb_lt _ _)) by lia.
    inversion Hi as [|x ? ads' ? Hx Hi' E1]; subst.
    destruct (dl_back _ _ _ (rp_list _ _ _ R)) as [Hn _]. rewrite Hn. cbn [List.hd mbind option_bind]. rewrite Hx.
    destruct (take_first s x ads' d l R) as (n & E & R'). cbn [mbind option_bind]. rewrite E. cbn [mbind option_bind].
    rewrite (rp_free _ _ _ R) in R'. rewrite zlen_cons in R'.
    eexists _, ads'. split; [reflexivity|]. by split_and!.
Qed.

(** An allocated node beside the list, before it is linked. *)
Lemma fresh_node s ads l a : rep_at s ads l -> a <> 0 -> a ∉ head (queue s) :: ads ->
  exists n, INIT_LIST_HEAD (<[a := mk_node 0 0]> (nodes s)) a = Some n /\
    dl n (head (queue s)) ads /\ dom n = {[a]} ∪ dom (nodes s) /\
    (forall b, b <> a -> n !! b = nodes s !! b).
Proof.
  intros R Ha Hna. destruct (init_ok (<[a := mk_node 0 0]> (nodes s)) a) as (n & E & _ & Hd & Hf).
  { rewrite lookup_insert_eq. by eexists. }
  assert (forall b, b <> a -> n !! b = nodes s !! b) as Hs.
  { intros b Hb. destruct (Hf b Hb) as [H1 H2]. unfold nxt, prv in H1, H2. rewrite lookup_insert_ne in H1, H2 by done.
    destruct (n !! b) as [[x y]|], (nodes s !! b) as [[u v]|]; simpl in *; congruence. }
  exists n. split; [done|]. split; [|split; [by rewrite Hd, dom_insert_L|done]].
  eapply dl_frame, (rp_list _ _ _ R). intros b Hb. unfold nxt, prv. rewrite Hs; [done|]. by intros ->.
Qed.

Definition placed (policy : ENQUEUE_POLICY_E) {A} (x : A) (l : list A) : list A :=
  match policy with POLICY_SEND_TO_BACK => l ++ [x] | POLICY_SEND_TO_FRONT => x :: l end.

Lemma placed_in {A} policy (x y : A) l : y ∈ placed policy x l <-> y = x \/ y ∈ l.
Proof. destruct policy; simpl; [rewrite elem_of_app, list_elem_of_singleton|rewrite elem_of_cons]; tauto. Qed.

Lemma zlen_placed {A} policy (x : A) l : zlen (placed policy x l) = zlen l + 1.
Proof. destruct policy; simpl; [rewrite zlen_app, zlen_singleton|rewrite zlen_cons]; lia. Qed.

Lemma enqueue_ok s ads l a d policy :
  rep_at s ads l -> a <> 0 -> a ∉ head (queue s) :: ads -> item_size (queue s) <= zlen d ->
  if zlen l <? queue_len (queue s) then
    exists s' ads', __enqueue a true (Some d) policy s = Some (OPRT_OK, s') /\
      rep_at s' ads' (placed policy (slice 0 (item_size (queue s)) d) l) /\
      queue_len (queue s') = queue_len (queue s) /\ item_size (queue s') = item_size (queue s)
  else exists s', __enqueue a true (Some d) policy s = Some (OPRT_EXCEED_UPPER_LIMIT, s') /\ rep_at s' ads l /\
      queue_len (queue s') = queue_len (queue s) /\ item_size (queue s') = item_size (queue s).
Proof.
  intros R Ha Hna Hd. destruct (fresh_node s ads l a R Ha Hna) as (n & En & Dn & Hdom & Hsame).
  unfold __enqueue. cbv zeta. rewrite (proj2 (Z.eqb_neq a 0)) by done.
  pose proof (rp_size _ _ _ R) as Hsz. rewrite wrap_small by (unfold ITEM_HEAD in *; lia).
  rewrite (proj2 (Z.ltb_ge _ (ITEM_HEAD + _))) by lia. rewrite (proj2 (Z.ltb_ge (zlen d) _)) by lia. cbn [orb].
  rewrite En. cbn [mbind option_bind]. set (x := slice 0 _ d). set (h := head (queue s)) in *.
  pose proof (rp_len _ _ _ R) as Hlen. pose proof (rp_free _ _ _ R) as Hfr. pose proof (zlen_nonneg l).
  assert (a ∉ ads /\ a <> h) as [Haa Hah] by (rewrite not_elem_of_cons in Hna; tauto).
  assert (0 ∉ ads) as H0 by (pose proof (rp_zero _ _ _ R) as Hz; rewrite not_elem_of_cons in Hz; tauto).
  assert (forall b, is_Some (n !! b) <-> b = a \/ b ∈ h :: ads) as Hnn.
  { intros b. rewrite <- elem_of_dom, Hdom, elem_of_union, elem_of_singleton, elem_of_dom. by rewrite (rp_nodes _ _ _ R). }
  destruct (Z.ltb_spec (zlen l) (queue_len (queue s))).
  - rewrite (proj2 (Z.ltb_lt 0 _)) by lia.
    assert (exists n', (match policy with
      | POLICY_SEND_TO_BACK => tuya_list_add_tail n a h
      | POLICY_SEND_TO_FRONT => tuya_list_add n a h end) = Some n' /\ dl n' h (placed policy a ads) /\ dom n' = dom n)
      as (n' & E' & D' & Hd').
    { assert (is_Some (n !! a)) as Hsa by (apply Hnn; by left).
      destruct policy.
      - destruct (add_tail_ok n h ads a Dn Hsa Hna) as (n' & ? & ? & ? & _). by exists n'.
      - destruct (add_ok n h ads a Dn Hsa Hna) as (n' & ? & ? & ? & _). by exists n'. }
    cbn [nodes set_items set_nodes]. rewrite E'. cbn [mbind option_bind].
    eexists _, (placed policy a ads). split; [reflexivity|]. split; [|done].
    apply (queue_rep_intro s _ ads _ l _ R); cbn [set_free set_items set_nodes queue queue_len item_size head queue_free nodes items]; try done.
    + assert (holds (<[a := x]> (items s)) ads l) as Hh by (apply holds_insert; [done|apply R]).
      destruct policy; simpl.
      * apply Forall2_app; [done|]. constructor; [by rewrite lookup_insert_eq|constructor].
      * constructor; [by rewrite lookup_insert_eq|done].
    + intros b. rewrite <- elem_of_dom, Hd', elem_of_dom, Hnn, !elem_of_cons, placed_in. tauto.
    + intros b. rewrite placed_in, <- (rp_blocks _ _ _ R b). destruct (decide (b = a)) as [->|Hne].
      * rewrite lookup_insert_eq. split; [by left|by eexists].
      * rewrite lookup_insert_ne by done. split; [by right|by intros [|?]].
    + rewrite placed_in. intros [?|?]; congruence.
    + rewrite zlen_placed, wrap_small by lia. lia.
    + rewrite zlen_placed. lia.
  - rewrite (proj2 (Z.ltb_ge 0 _)) by lia. eexists. split; [reflexivity|]. split; [|done].
    assert (delete a n = nodes s) as En'.
    { apply map_eq. intros b. destruct (decide (b = a)) as [->|Hne].
      - rewrite lookup_delete_eq. symmetry. apply eq_None_not_Some. by rewrite (rp_nodes _ _ _ R).
      - by rewrite lookup_delete_ne, Hsame. }
    assert (delete a (<[a := x]> (items s)) = items s) as Ei'.
    { apply delete_insert_id. apply eq_None_not_Some. by rewrite (rp_blocks _ _ _ R). }
    unfold free_item, set_items, set_nodes. cbn [queue nodes items]. rewrite En', Ei'. by destruct s.
Qed.

(** ** Emptying *)

Lemma clear_loop_ok n s ads l :
  rep_at s ads l -> (length ads < n)%nat ->
  exists s', clear_loop n s (List.hd (head (queue s)) ads) = Some s' /\
    rep_at (set_free (queue_len (queue s)) s') [] [] /\ queue_len (queue s') = queue_len (queue s) /\
    item_size (queue s') = item_size (queue s).
Proof.
  revert n ads l. enough (forall n ads l s0, rep_at s0 ads l -> head (queue s0) = head (queue s) ->
    queue_len (queue s0) = queue_len (queue s) -> item_size (queue s0) = item_size (queue s) -> (length ads < n)%nat ->
    forall fr, exists s', clear_loop n (set_free fr s0) (List.hd (head (queue s)) ads) = Some s' /\
      rep_at (set_free (queue_len (queue s)) s') [] [] /\ queue_len (queue s') = queue_len (queue s) /\
      item_size (queue s') = item_size (queue s)) as H.
  { intros n ads l R Hn. destruct (H n ads l s R eq_refl eq_refl eq_refl Hn (queue_free (queue s))) as (s' & E & ?).
    exists s'. split; [|done]. rewrite <- E. f_equal. by destruct s as [[]]. }
  induction n as [|n IH]; intros ads l s0 R Eh El Ei Hn fr; [lia|]. cbn [clear_loop].
  cbn [set_free nodes queue head]. rewrite Eh.
  destruct (dl_back _ _ _ (rp_list _ _ _ R)) as [Hnx Hb]. rewrite Eh in *.
  destruct ads as [|x ads].
  - cbn [List.hd] in *. rewrite Hnx. cbn [mbind option_bind]. rewrite Z.eqb_refl. cbn [negb].
    eexists. split; [reflexivity|]. split; [|done].
    assert (l = []) as -> by (pose proof (holds_length _ _ _ (rp_items _ _ _ R)); by destruct l).
    cbn [set_free queue queue_len item_size head nodes items].
    apply (queue_rep_intro s0 _ [] _ [] _ R); cbn [set_free queue queue_len item_size head queue_free nodes items];
      first [done|exact (rp_list _ _ _ R)|exact (rp_nodes _ _ _ R)|exact (rp_blocks _ _ _ R)|exact (rp_items _ _ _ R)|idtac].
    + by intros ?%elem_of_nil.
    + rewrite zlen_nil. lia.
    + pose proof (rp_len _ _ _ R). lia.
  - apply back_cons in Hb as [[Hxn _] Hb]. cbn [List.hd]. rewrite Hxn. cbn [mbind option_bind].
    assert (x <> head (queue s)) as Hxh.
    { destruct (rp_list _ _ _ R) as [_ Hnd]. rewrite Eh in Hnd. apply NoDup_cons in Hnd as [Hni _].
      intros ->. apply Hni, elem_of_cons. by left. }
    rewrite (proj2 (Z.eqb_neq _ _)) by done. cbn [negb].
    destruct l as [|d l]; [pose proof (holds_length _ _ _ (rp_items _ _ _ R)); done|].
    destruct (take_first s0 x ads d l R) as (nd & E & R'). rewrite E. cbn [mbind option_bind].
    destruct (IH ads l _ R' Eh El Ei ltac:(simpl in Hn; lia) fr) as (s' & E' & H').
    exists s'. split; [exact E'|done].
Qed.

Lemma clear_ok s ads l : rep_at s ads l ->
  exists s', tuya_queue_clear true s = Some (OPRT_OK, s') /\ rep_at s' [] [] /\
    queue_len (queue s') = queue_len (queue s) /\ item_size (queue s') = item_size (queue s).
Proof.
  intros R. unfold tuya_queue_clear. cbn [negb].
  destruct (dl_back _ _ _ (rp_list _ _ _ R)) as [Hnx _]. rewrite Hnx. cbn [mbind option_bind].
  destruct (clear_loop_ok (fuel (nodes s)) s ads l R (rep_fuel _ _ _ R)) as (s' & -> & R' & E1 & E2).
  cbn [mbind option_bind]. rewrite E1. eexists. split; [reflexivity|]. by split_and!.
Qed.

Lemma delete_loop_ok n s ads l : rep_at s ads l ->
  exists s' ads', delete_loop n OPRT_OK s =
      Some (if Z.of_nat n <=? zlen l then OPRT_OK else OPRT_NOT_FOUND, s') /\
    rep_at s' ads' (drop n l) /\ queue_len (queue s') = queue_len (queue s) /\ item_size (queue s') = item_size (queue s).
Proof.
  revert s ads l. induction n as [|n IH]; intros s ads l R; cbn [delete_loop].
  - pose proof (zlen_nonneg l). rewrite (proj2 (Z.leb_le _ _)) by lia. exists s, ads. by split_and!.
  - pose proof (output_ok s ads l R) as Ho. destruct l as [|d l].
    + rewrite Ho. cbn [mbind option_bind]. rewrite zlen_nil, (proj2 (Z.leb_gt _ _)) by lia.
      exists s, ads. split; [by destruct n|]. by rewrite drop_nil.
    + destruct Ho as (s1 & ads1 & -> & R1 & E1 & E2). cbn [mbind option_bind].
      destruct (IH s1 ads1 l R1) as (s2 & ads2 & E & R2 & E3 & E4). exists s2, ads2. rewrite E, zlen_cons.
      split; [|cbn [drop]; by rewrite E3, E4, E1, E2].
      do 2 f_equal. destruct (Z.leb_spec (Z.of_nat n) (zlen l)), (Z.leb_spec (Z.of_nat (S n)) (1 + zlen l)); lia || done.
Qed.

End QueueSpec.
