(* ===== verification/QueueProps.v ===== *)
(** * Properties of the item queue

    The queue serves every client as a bounded deque, and gives back all its memory. *)
From S2P Require Import Prelude Client DList Queue QueueSpec.
Open Scope Z_scope.

Module QueueProps.
Import DList Queue QueueSpec.

Inductive op :=
| Input (d : list Z) | InputInstant (d : list Z) | Output | Peek | Traverse (cb : TRAVERSE_CB) | Clear
| GetBatch (start num : Z) | DeleteBatch (num : Z) | FreeNum | UsedNum | MaxNum.

(** A result code with the items handed over, or a number. *)
Inductive obs := Ret (r : OPERATE_RET) (l : list (list Z)) | Num (n : Z).

Section Run.
(** The allocator: a new address each time, or [NULL]. *)
Context (alloc : gset Z -> Z).
Hypothesis alloc_fresh : forall X, alloc X = 0 \/ alloc X ∉ X.
(** The capacity and the size of the items. *)
Context (len isize : Z).

Definition step (o : op) (s : st) : option (obs * st) :=
  match o with
  | Input d => '(r, s) ← tuya_queue_input (alloc (dom (nodes s))) true (Some d) s; Some (Ret r [], s)
  | InputInstant d => '(r, s) ← tuya_queue_input_instant (alloc (dom (nodes s))) true (Some d) s; Some (Ret r [], s)
  | Output => '(r, d, s) ← tuya_queue_output true s;
      Some (Ret r (match r with OPRT_OK => [d] | _ => [] end), s)
  | Peek => '(r, d) ← tuya_queue_peek true true s; Some (Ret r (match r with OPRT_OK => [d] | _ => [] end), s)
  | Traverse cb => '(r, l, s) ← tuya_queue_traverse true (Some cb) s; Some (Ret r l, s)
  | Clear => '(r, s) ← tuya_queue_clear true s; Some (Ret r [], s)
  | GetBatch start num => '(r, l) ← tuya_queue_get_batch true start true num s; Some (Ret r l, s)
  | DeleteBatch num => '(r, s) ← tuya_queue_delete_batch true num s; Some (Ret r [], s)
  | FreeNum => Some (Num (tuya_queue_get_free_num true s), s)
  | UsedNum => Some (Num (tuya_queue_get_used_num true s), s)
  | MaxNum => Some (Num (tuya_queue_get_max_num true s), s)
  end.

(** ** The deque *)

Abbreviation deque := (list (list Z)).

Definition op_ok (l : deque) (o : op) : Prop :=
  match o with
  | Input d | InputInstant d => isize <= zlen d
  | GetBatch start num => 0 <= start < 2 ^ 32 /\ 0 < num < 2 ^ 32
  | DeleteBatch num => 0 < num < 2 ^ 32
  | _ => True
  end.

(** An item enters at one end, unless the queue is full or there is no memory. *)
Definition enters (policy : ENQUEUE_POLICY_E) (d : list Z) (l : deque) (b : obs) (l' : deque) : Prop :=
  (if zlen l <? len then b = Ret OPRT_OK [] /\ l' = placed policy (slice 0 isize d) l
   else b = Ret OPRT_EXCEED_UPPER_LIMIT [] /\ l' = l) \/
  b = Ret OPRT_MALLOC_FAILED [] /\ l' = l.

Definition spec_step (l : deque) (o : op) (b : obs) (l' : deque) : Prop :=
  match o with
  | Input d => enters POLICY_SEND_TO_BACK d l b l'
  | InputInstant d => enters POLICY_SEND_TO_FRONT d l b l'
  | Output => match l with [] => b = Ret OPRT_NOT_FOUND [] /\ l' = [] | d :: k => b = Ret OPRT_OK [d] /\ l' = k end
  | Peek => l' = l /\ b = match l with [] => Ret OPRT_NOT_FOUND [] | d :: _ => Ret OPRT_OK [d] end
  | Traverse cb => l' = snd (walk cb [] l) /\ b = Ret OPRT_OK (fst (walk cb [] l))
  | Clear => l' = [] /\ b = Ret OPRT_OK []
  | GetBatch start num =>
      l' = l /\ b = Ret (if start + num <=? zlen l then OPRT_OK else OPRT_NOT_FOUND) (batch start num l)
  | DeleteBatch num =>
      l' = drop (Z.to_nat num) l /\ b = Ret (if num <=? zlen l then OPRT_OK else OPRT_NOT_FOUND) []
  | FreeNum => l' = l /\ b = Num (len - zlen l)
  | UsedNum => l' = l /\ b = Num (zlen l)
  | MaxNum => l' = l /\ b = Num len
  end.

Definition rep (s : st) (l : deque) : Prop :=
  (exists ads, rep_at s ads l) /\ queue_len (queue s) = len /\ item_size (queue s) = isize.

Lemma enters_ok policy d s l : rep s l -> isize <= zlen d ->
  exists b s' l', ('(r, s) ← __enqueue (alloc (dom (nodes s))) true (Some d) policy s; Some (Ret r [], s)) = Some (b, s') /\
    enters policy d l b l' /\ rep s' l'.
Proof.
  intros ((ads & R) & El & Ei) Hd. set (a := alloc (dom (nodes s))). unfold enters.
  destruct (decide (a = 0)) as [E0|Ha].
  - exists (Ret OPRT_MALLOC_FAILED []), s, l. unfold __enqueue. rewrite E0. split; [done|]. split; [by right|].
    split; [by exists ads|done].
  - assert (a ∉ head (queue s) :: ads) as Hna.
    { rewrite <- (rp_nodes _ _ _ R), <- elem_of_dom. unfold a in *. by destruct (alloc_fresh (dom (nodes s))). }
    rewrite <- Ei in Hd |- *. pose proof (enqueue_ok s ads l a d policy R Ha Hna Hd) as He. rewrite El in He.
    destruct (zlen l <? len).
    + destruct He as (s' & ads' & -> & R' & E1 & E2). eexists _, s', _. split; [reflexivity|].
      split; [by left|]. split; [by exists ads'|]. by rewrite E1, E2.
    + destruct He as (s' & -> & R' & E1 & E2). eexists _, s', _. split; [reflexivity|].
      split; [by left|]. split; [by exists ads|]. by rewrite E1, E2.
Qed.

Lemma traverse_ok s ads l cb : rep_at s ads l ->
  exists s', tuya_queue_traverse true (Some cb) s = Some (OPRT_OK, fst (walk cb [] l), s') /\ rep_at s' ads (snd (walk cb [] l)) /\ queue s' = queue s.
Proof.
  intros R. pose proof R as [H1 H2 H3 H4 H5 H6 H7 H8]. destruct (dl_back _ _ _ H1) as [Hnx Hb]. destruct H1 as [H1 Hnd]. pose proof Hnd as [Hh Hn]%NoDup_cons.
  pose proof H5 as [_ H0]%not_elem_of_cons.
  destruct (traverse_loop_ok cb _ ads _ s l [] eq_refl Hb H2 Hn H0 Hh (rep_fuel s ads l R)) as (s' & E & F1 & F2 & F3 & F4).
  exists s'. unfold tuya_queue_traverse. rewrite Hnx. cbn [mbind option_bind]. rewrite E. cbn [mbind option_bind]. split; [done|]. split; [|done].
  assert (zlen (snd (walk cb [] l)) = zlen l) as Hl by (unfold zlen; by rewrite length_walk). split; rewrite ?F1, ?F2, ?Hl; try done.
  intros a. destruct (decide (a ∈ ads)) as [Ha|Ha]; [|by rewrite F4].
  split; [done|]. intros _. apply list_elem_of_lookup in Ha as [i Hi]. destruct (Forall2_lookup_l _ _ _ _ _ F3 Hi) as (d & _ & Hd). by exists d.
Qed.

Lemma queue_step_sim s l o : rep s l -> op_ok l o ->
  exists b s' l', step o s = Some (b, s') /\ spec_step l o b l' /\ rep s' l'.
Proof.
  intros Rp Ho. pose proof Rp as ((ads & R) & El & Ei).
  destruct (dl_back _ _ _ (rp_list _ _ _ R)) as [Hnx Hb]. pose proof (rep_fuel s ads l R) as Hfuel.
  pose proof (rp_len _ _ _ R) as Hlen. pose proof (rp_free _ _ _ R) as Hfree. pose proof (zlen_nonneg l).
  assert (0 ∉ ads /\ head (queue s) ∉ ads) as [H0 Hh].
  { pose proof (rp_zero _ _ _ R) as Hz. destruct (rp_list _ _ _ R) as [_ [Hn _]%NoDup_cons].
    rewrite not_elem_of_cons in Hz. tauto. }
  destruct o as [d|d| | |cb| |start num|num| | |]; cbn [step spec_step op_ok] in *.
  - by apply enters_ok.
  - by apply enters_ok.
  - pose proof (output_ok s ads l R) as Hout. destruct l as [|d l].
    + rewrite Hout. by eexists _, s, [].
    + destruct Hout as (s' & ads' & -> & R' & E1 & E2). eexists _, s', l. split; [reflexivity|]. split; [done|].
      split; [by exists ads'|]. by rewrite E1, E2.
  - unfold tuya_queue_peek. cbn [negb orb]. cbv zeta. pose proof (rp_items _ _ _ R) as Hi.
    eexists _, s, l. split; [|split; [split; [done|reflexivity]|done]]. rewrite Hfree. inversion Hi as [|x d ads' l' Hx Hi' E1]; subst.
    + by rewrite (proj2 (Z.ltb_ge _ _)) by (rewrite zlen_nil; lia).
    + rewrite zlen_cons in *. pose proof (zlen_nonneg l'). rewrite (proj2 (Z.ltb_lt _ _)) by lia.
      rewrite Hnx. cbn [List.hd mbind option_bind]. by rewrite Hx.
  - destruct (traverse_ok s ads l cb R) as (s' & -> & R' & E). eexists _, s', _. split; [reflexivity|]. split; [done|]. split; [by exists ads|by rewrite E].
  - destruct (clear_ok s ads l R) as (s' & -> & R' & E1 & E2). eexists _, s', []. split; [reflexivity|]. split; [done|].
    split; [by exists []|]. by rewrite E1, E2.
  - eexists _, s, l. split; [|split; [split; [done|reflexivity]|done]].
    unfold tuya_queue_get_batch. cbn [negb orb]. rewrite (proj2 (Z.eqb_neq num 0)) by lia. rewrite Hnx. cbn [mbind option_bind].
    rewrite (batch_loop_ok s start num _ ads l 0 0 Hb (rp_items _ _ _ R) H0 Hh Hfuel) by lia.
    cbn [mbind option_bind]. rewrite !Z.sub_0_r, !Z.add_0_l. do 3 f_equal.
    destruct (Z.leb_spec (start + num) (zlen l)).
    + rewrite (proj2 (Z.eqb_eq (Z.min start _) _)), (proj2 (Z.eqb_eq (Z.min num _) _)) by lia. done.
    + destruct (Z.eqb_spec (Z.min start (zlen l)) start); [|done].
      rewrite (proj2 (Z.eqb_neq (Z.min num _) _)) by lia. done.
  - unfold tuya_queue_delete_batch. cbn [negb orb]. rewrite (proj2 (Z.eqb_neq num 0)) by lia.
    destruct (delete_loop_ok (Z.to_nat num) s ads l R) as (s' & ads' & -> & R' & E1 & E2).
    rewrite Z2Nat.id by lia. eexists _, s', _. split; [reflexivity|]. split; [done|].
    split; [by exists ads'|]. by rewrite E1, E2.
  - eexists _, s, l. split; [reflexivity|]. split; [|done]. split; [done|]. unfold tuya_queue_get_free_num. cbn [negb].
    by rewrite Hfree, El.
  - eexists _, s, l. split; [reflexivity|]. split; [|done]. split; [done|]. unfold tuya_queue_get_used_num. cbn [negb].
    rewrite Hfree. rewrite wrap_small by lia. f_equal. lia.
  - eexists _, s, l. split; [reflexivity|]. split; [|done]. split; [done|]. unfold tuya_queue_get_max_num. cbn [negb].
    by rewrite El.
Qed.

Lemma queue_create_ok addr off : addr + off <> 0 -> addr <> 0 -> 0 < len < 2 ^ 32 -> 0 < isize < 2 ^ 32 - ITEM_HEAD ->
  exists s, tuya_queue_create addr off true len isize true = Some (OPRT_OK, Some s) /\ rep s [].
Proof.
  intros Hao Ha Hl Hi. unfold tuya_queue_create. cbn [negb orb].
  rewrite (proj2 (Z.eqb_neq len 0)), (proj2 (Z.eqb_neq isize 0)), (proj2 (Z.eqb_neq addr 0)) by lia. cbn [orb].
  destruct (DList.init_ok {[addr + off := DList.mk_node 0 0]} (addr + off)) as (n & -> & D & Hdom & _).
  { rewrite lookup_singleton_eq. by eexists. }
  eexists. split; [reflexivity|]. split; [|done]. exists [].
  split; cbn [queue nodes items head queue_len queue_free item_size]; try done.
  - constructor.
  - intros a. rewrite <- elem_of_dom, Hdom, dom_singleton_L, elem_of_singleton, list_elem_of_singleton. done.
  - intros a. split; [by intros [? ?]|by intros ?%elem_of_nil].
  - intros E%list_elem_of_singleton. by apply Hao.
  - rewrite zlen_nil. lia.
  - rewrite zlen_nil. lia.
Qed.

(** C40: a created queue serves every client as a deque of at most [len] items of [isize]
    bytes: items enter at the chosen end unless it is full, leave at the front in order,
    and are looked at, walked over and dropped in batches as a list is; a batch that is
    not there is reported, and what is there of it handed out or dropped all the same. *)
Theorem queue_serves_deque (c : Client.client) addr off k :
  addr + off <> 0 -> addr <> 0 -> 0 < len < 2 ^ 32 -> 0 < isize < 2 ^ 32 - ITEM_HEAD ->
  Client.obeys op_ok spec_step [] c ->
  exists s seen s' l, tuya_queue_create addr off true len isize true = Some (OPRT_OK, Some s) /\
    Client.run step c k [] s = Some (seen, s') /\ Client.after op_ok spec_step [] c seen l /\ rep s' l.
Proof.
  intros Hao Ha Hl Hi Hc. destruct (queue_create_ok addr off Hao Ha Hl Hi) as (s & E & R). exists s.
  destruct (Client.run_serves step op_ok spec_step rep [] c k s) as (seen & s' & l & H); [|done|done|].
  - intros t l o. apply queue_step_sim.
  - by exists seen, s', l.
Qed.

End Run.

(** After [tuya_queue_clear] nothing of the items is left allocated, whatever was queued. *)
Theorem clear_frees_all s ads l :
  rep_at s ads l ->
  exists s', tuya_queue_clear true s = Some (OPRT_OK, s') /\
    items s' = ∅ /\ dom (nodes s') = {[head (queue s')]} /\ queue_free (queue s') = queue_len (queue s').
Proof.
  intros R. destruct (clear_ok s ads l R) as (s' & E & R' & _ & _). exists s'. split; [done|].
  split; [|split].
  - apply map_empty. intros a. apply eq_None_not_Some. rewrite (rp_blocks _ _ _ R'). apply not_elem_of_nil.
  - apply set_eq. intros a. by rewrite elem_of_dom, (rp_nodes _ _ _ R'), list_elem_of_singleton, elem_of_singleton.
  - rewrite (rp_free _ _ _ R'), zlen_nil. lia.
Qed.

(** ** A queue of two items *)

Definition demo_ops : list op :=
  [Input [1; 1]; Input [2; 2]; Input [3; 3]; Output; InputInstant [4; 4]; GetBatch 1 2; Traverse (fun _ d => (true, rev d)); UsedNum; DeleteBatch 3; FreeNum].

Definition demo_client : Client.client (Op := op) (Obs := obs) := fun seen => demo_ops !! length seen.

Lemma queue_client_obeys : Client.obeys (op_ok 2) (spec_step 2 2) [] demo_client.
Proof.
  assert (Forall (fun o => forall l, op_ok 2 l o) demo_ops) as H.
  { repeat (apply Forall_cons; split); try apply Forall_nil_2; intros l; cbn [op_ok]; unfold zlen; simpl; lia || done. }
  intros seen l o _ E. rewrite Forall_forall in H. apply H. by eapply list_elem_of_lookup_2.
Qed.

Lemma queue_serves_deque_witness :
  exists s seen s' l, tuya_queue_create 100 12 true 2 2 true = Some (OPRT_OK, Some s) /\
    Client.run (step Client.some_fresh) demo_client 10 [] s = Some (seen, s') /\
    Client.after (op_ok 2) (spec_step 2 2) [] demo_client seen l /\ rep 2 2 s' l.
Proof.
  apply (queue_serves_deque Client.some_fresh Client.some_fresh_fresh 2 2 demo_client 100 12 10); [lia|lia|lia|unfold ITEM_HEAD; lia|].
  exact queue_client_obeys.
Defined.

Example queue_client_sees :
  (r ← tuya_queue_create 100 12 true 2 2 true; s ← snd r; fst <$> Client.run (step Client.some_fresh) demo_client 10 [] s)
    = Some [Ret OPRT_OK []; Ret OPRT_OK []; Ret OPRT_EXCEED_UPPER_LIMIT []; Ret OPRT_OK [[1; 1]]; Ret OPRT_OK [];
            Ret OPRT_NOT_FOUND [[2; 2]]; Ret OPRT_OK [[4; 4]; [2; 2]]; Num 2; Ret OPRT_NOT_FOUND []; Num 2].
Proof. by vm_compute. Qed.

Lemma clear_frees_all_witness :
  exists s ads l, rep_at s ads l /\ l = [[1; 1]] /\
  exists s', tuya_queue_clear true s = Some (OPRT_OK, s') /\
    items s' = ∅ /\ dom (nodes s') = {[head (queue s')]} /\ queue_free (queue s') = queue_len (queue s').
Proof.
  destruct (queue_create_ok 2 2 100 12) as (s0 & E0 & (ads0 & R0) & El & Ei); [lia|lia|lia|unfold ITEM_HEAD; lia|].
  assert (head (queue s0) = 112) as Eh by (by vm_compute in E0; simplify_eq).
  assert (ads0 = []) as -> by (pose proof (holds_length _ _ _ (rp_items _ _ _ R0)); by destruct ads0).
  pose proof (enqueue_ok s0 [] [] 500 [1; 1] POLICY_SEND_TO_BACK R0) as He. rewrite El, Ei, Eh in He.
  destruct He as (s & ads & _ & R & _); [lia|by rewrite list_elem_of_singleton|by vm_compute|].
  exists s, ads, [[1; 1]]. split; [exact R|]. split; [reflexivity|]. exact (clear_frees_all s ads [[1; 1]] R).
Defined.

End QueueProps.
