(* ===== verification/Eloop.v ===== *)
(** * The event loop of the Wi-Fi manager

    Model of [src/gd32_os/MSDK/wifi_manager/wifi_eloop.c]: timers in a circular list of
    [DList] ordered by their time, handlers of events in an array, and the loop that waits
    for messages and for the first timer. The clock, the task's message queue, the
    allocator and the handlers are an interface. *)
From S2P Require Import Prelude DList.
Open Scope Z_scope.

Module Eloop.
Import DList.

(** ** Data

    The list node is the first member of a timer, so that both have one address. *)
Record eloop_event := mk_event { ev_data : Z; ev_user : Z; ev_handler : Z; ev_id : Z }.
Record eloop_timeout := mk_timeout { time : Z; eloop_data : Z; user_data : Z; handler : Z }.
Record eloop_message := mk_message { event_id : Z; reason : Z; param : Z; param_len : Z }.

(** The array of events: none yet, a block with its elements, a block that was freed. *)
Inductive event_array := Null | Block (l : list eloop_event) | Freed.

Record st := mk_st {
  nodes : store; timers : gmap Z eloop_timeout;
  event_count : Z; events : event_array; terminate : bool
}.

Definition set_nodes (n : store) (s : st) : st := mk_st n (timers s) (event_count s) (events s) (terminate s).
Definition set_timers (t : gmap Z eloop_timeout) (s : st) : st := mk_st (nodes s) t (event_count s) (events s) (terminate s).
Definition set_events (c : Z) (e : event_array) (s : st) : st := mk_st (nodes s) (timers s) c e (terminate s).
Definition set_terminate (s : st) : st := mk_st (nodes s) (timers s) (event_count s) (events s) true.

Definition ELOOP_EVENT_WAKEUP : Z := 1.
Definition ELOOP_EVENT_TERMINATE : Z := 2.
Definition ELOOP_EVENT_ALL : Z := 3.
Definition ELOOP_ALL_CTX : Z := 2 ^ 32 - 1.
Definition OS_OK : Z := 0.

Definition ELOOP_EVENT_ID (vif_idx event : Z) : Z := Z.shiftl vif_idx 12 + event.
Definition ELOOP_EVENT_GET_EV (id : Z) : Z := Z.land id 0xFFF.

(** A signed difference that does not fit has no value. *)
Definition sub_int (a b : Z) : option Z :=
  let d := signed 32 a - signed 32 b in if (- 2 ^ 31 <=? d) && (d <? 2 ^ 31) then Some d else None.
Definition SYS_TIME_AFTER (a b : Z) : option bool := d ← sub_int b a; Some (d <? 0).
Definition SYS_TIME_BEFORE (a b : Z) : option bool := SYS_TIME_AFTER b a.
Definition SYS_TIME_AFTER_EQ (a b : Z) : option bool := d ← sub_int a b; Some (0 <=? d).

Section Eloop.
(** The address of [eloop.timeout]. *)
Context (head : Z).

(** ** Events *)

Definition wifi_eloop_init (s : st) : option (Z * st) :=
  n ← INIT_LIST_HEAD (<[head := mk_node 0 0]> (nodes s)) head;
  Some (0, mk_st n (timers s) 0 Null false).

(** [mem]: whether the allocation succeeds; growing a block keeps its elements. *)
Definition eloop_event_register (mem : bool) (id h data user : Z) (s : st) : option (Z * st) :=
  if terminate s then Some (-1, s)
  else
    match events s with
    | Freed => None
    | _ =>
        if negb mem then Some (-1, s)
        else
          let old := match events s with Block l => l | _ => [] end in
          let tmp := take (Z.to_nat (event_count s)) old ++ [mk_event data user h id] in
          Some (0, set_events (u32 (event_count s + 1)) (Block tmp) s)
    end.

(** The index of the first entry for the event and the handler, the count if there is none. *)
Fixpoint find_event (n : nat) (l : list eloop_event) (count i id h : Z) : option Z :=
  match n with
  | O => None
  | S n =>
      if i <? count then
        e ← l !! Z.to_nat i;
        if (ev_id e =? id) && (ev_handler e =? h) then Some i else find_event n l count (i + 1) id h
      else Some i
  end.

Definition eloop_event_unregister (id h : Z) (s : st) : option st :=
  if terminate s then Some s
  else
    match events s with
    | Null => Some s
    | Freed => if event_count s =? 0 then Some s else None
    | Block l =>
        let count := event_count s in
        if count =? 0 then Some s
        else
          i ← find_event (S (Z.to_nat count)) l count 0 id h;
          if i =? count then Some s
          else
            let l := if negb (i =? count - 1) then splice i (slice (i + 1) (count - i - 1) l) l else l in
            Some (set_events (u32 (count - 1)) (Block l) s)
    end.

(** ** Timers *)

(** The walk to the first timer that is later than the new one, which goes before it. *)
Fixpoint register_loop (n : nat) (s : st) (timeout : Z) (t : eloop_timeout) (tmp : Z) : option store :=
  match n with
  | O => None
  | S n =>
      if negb (tmp =? head) then
        x ← timers s !! tmp;
        if time t <? time x then p ← prv (nodes s) tmp; list_add (nodes s) timeout p
        else tmp ← nxt (nodes s) tmp; register_loop n s timeout t tmp
      else list_add_tail (nodes s) timeout head
  end.

(** [timeout] is what the allocation returns, [now] what the clock reads. *)
Definition eloop_timeout_register (timeout now msecs h data user : Z) (s : st) : option (Z * st) :=
  if terminate s then Some (-1, s)
  else if timeout =? 0 then Some (-1, s)
  else
    let t := mk_timeout (u32 (now + msecs)) data user h in
    let s := set_timers (<[timeout := t]> (timers s)) (set_nodes (<[timeout := mk_node 0 0]> (nodes s)) s) in
    first ← nxt (nodes s) head;
    n ← register_loop (fuel (nodes s)) s timeout t first;
    Some (0, set_nodes n s).

Definition eloop_timeout_remove (timeout : Z) (s : st) : option st :=
  n ← list_del (nodes s) timeout;
  Some (set_timers (delete timeout (timers s)) (set_nodes (delete timeout n) s)).

Definition cancels (h data user : Z) (t : eloop_timeout) : bool :=
  (handler t =? h) && ((eloop_data t =? data) || (data =? ELOOP_ALL_CTX)) &&
  ((user_data t =? user) || (user =? ELOOP_ALL_CTX)).

(** [list_for_each_entry_safe]: the successor is read before the timer is removed. *)
Fixpoint remove_loop (n : nat) (sel : eloop_timeout -> bool) (s : st) (timeout prev removed : Z) : option (Z * st) :=
  match n with
  | O => None
  | S n =>
      if negb (timeout =? head) then
        t ← timers s !! timeout;
        '(removed, s) ← (if sel t then s ← eloop_timeout_remove timeout s; Some (removed + 1, s)
                         else Some (removed, s));
        next ← nxt (nodes s) prev;
        remove_loop n sel s prev next removed
      else Some (removed, s)
  end.

Definition remove_all (sel : eloop_timeout -> bool) (s : st) : option (Z * st) :=
  first ← nxt (nodes s) head;
  next ← nxt (nodes s) first;
  remove_loop (fuel (nodes s)) sel s first next 0.

Definition eloop_timeout_cancel (h data user : Z) (s : st) : option (Z * st) :=
  if terminate s then Some (-1, s) else remove_all (cancels h data user) s.

Definition eloop_timeout_all_cancel (s : st) : option (Z * st) :=
  '(_, s) ← remove_all (fun _ => true) s; Some (0, s).

Fixpoint registered_loop (n : nat) (h data user : Z) (s : st) (tmp : Z) : option Z :=
  match n with
  | O => None
  | S n =>
      if negb (tmp =? head) then
        x ← timers s !! tmp;
        if (handler x =? h) && (eloop_data x =? data) && (user_data x =? user) then Some 1
        else tmp ← nxt (nodes s) tmp; registered_loop n h data user s tmp
      else Some 0
  end.

Definition eloop_timeout_is_registered (h data user : Z) (s : st) : option Z :=
  first ← nxt (nodes s) head; registered_loop (fuel (nodes s)) h data user s first.

(** [list_first_entry]. *)
Definition first_entry (s : st) : option Z :=
  e ← list_empty (nodes s) head; if e =? 1 then Some 0 else nxt (nodes s) head.

(** ** The loop

    What surrounds the loop. The handlers get the whole state: they call the functions of
    this file; so do other tasks while this one waits or yields. *)
Class Env (E : Type) := {
  sys_current_time_get : E -> Z * E;
  sys_yield : st * E -> st * E;
  sys_task_wait : Z -> st * E -> Z * eloop_message * (st * E);
  sys_task_post : eloop_message -> E -> Z * E;
  sys_task_msg_num : E -> Z * E;
  sys_mfree : Z -> E -> E;
  call_timeout : Z -> Z -> Z -> st * E -> option (st * E);
  call_event : Z -> Z -> Z -> st * E -> option (st * E);
  wifi_mgmt_cb_run_state_machine : Z -> eloop_message -> st * E -> option (st * E)
}.

Context {E : Type} {env : Env E}.
Implicit Types (w : st * E).

Definition eloop_message_send (vif_idx event reason param len : Z) w : Z * (st * E) :=
  let '(s, e) := w in
  if terminate s then (-1, w)
  else
    let '(r, e) := sys_task_post (mk_message (u16 (ELOOP_EVENT_ID vif_idx event)) (u16 reason) param len) e in
    (r, (s, e)).

Definition eloop_event_send (vif_idx event : Z) w : Z * (st * E) :=
  let '(s, e) := w in
  if terminate s then (-1, w)
  else
    let '(r, e) := sys_task_post (mk_message (u16 (ELOOP_EVENT_ID vif_idx event)) 0 0 0) e in
    (r, (s, e)).

(** The handlers of an event, while they may change the array. *)
Fixpoint dispatch_loop (n : nat) (i id : Z) w : option (st * E) :=
  match n with
  | O => None
  | S n =>
      let '(s, e) := w in
      if i <? event_count s then
        match events s with
        | Block l =>
            x ← l !! Z.to_nat i;
            w ← (if ev_id x =? id then call_event (ev_handler x) (ev_data x) (ev_user x) w else Some w);
            dispatch_loop n (i + 1) id w
        | _ => None
        end
      else Some w
  end.

(** The one predefined handler takes every event. *)
Definition eloop_event_dispatch (n : nat) (message : eloop_message) w : option (st * E) :=
  let id := event_id message in
  let event := u16 (ELOOP_EVENT_GET_EV id) in
  if event =? ELOOP_EVENT_WAKEUP then Some w
  else if event =? ELOOP_EVENT_TERMINATE then let '(s, e) := w in Some (set_terminate s, e)
  else
    w ← wifi_mgmt_cb_run_state_machine 0 message w;
    dispatch_loop n 0 id w.

Definition eloop_timeout_handle w : option (st * E) :=
  let '(s, e) := w in
  timeout ← first_entry s;
  if timeout =? 0 then Some w
  else
    let '(now, e) := sys_current_time_get e in
    t ← timers s !! timeout;
    b ← SYS_TIME_AFTER_EQ now (time t);
    if b : bool then
      s ← eloop_timeout_remove timeout s;
      call_timeout (handler t) (eloop_data t) (user_data t) (s, e)
    else Some (s, e).

(** One turn of the loop. *)
Definition run_turn (n : nat) w : option (st * E) :=
  let '(s, e) := w in
  timeout ← first_entry s;
  '(remain, e) ← (if timeout =? 0 then Some (0, e)
                  else
                    let '(now, e) := sys_current_time_get e in
                    t ← timers s !! timeout;
                    b ← SYS_TIME_BEFORE now (time t);
                    Some (if b : bool then u32 (time t - now) else 0, e));
  let w := (s, e) in
  w ← (if negb (timeout =? 0) && (remain =? 0) then Some (sys_yield w)
       else
         let '(r, message, w) := sys_task_wait (if negb (timeout =? 0) then remain else 0) w in
         if r =? OS_OK then eloop_event_dispatch n message w else Some w);
  eloop_timeout_handle w.

(** [turns] of the loop, each with at most [n] handlers; whether it has ended, and where. *)
Fixpoint wifi_eloop_run (turns n : nat) w : option (bool * (st * E)) :=
  if terminate w.1 then Some (true, w)
  else match turns with
       | O => Some (false, w)
       | S turns => w ← run_turn n w; wifi_eloop_run turns n w
       end.

Definition wifi_eloop_terminate w : st * E := (eloop_event_send 0 ELOOP_EVENT_TERMINATE w).2.

(** The messages that are left, their parameters freed. *)
Fixpoint flush_loop (n : nat) w : option (st * E) :=
  match n with
  | O => None
  | S n =>
      let '(s, e) := w in
      let '(k, e) := sys_task_msg_num e in
      if negb (k =? 0) then
        let '(_, message, (s, e)) := sys_task_wait 1 (s, e) in
        flush_loop n (s, if negb (param message =? 0) then sys_mfree (param message) e else e)
      else Some (s, e)
  end.

(** The pointer to the array and the count stay as they are: once freed, the array is freed again
    by another call, which has no defined result. *)
Definition wifi_eloop_destroy (n : nat) w : option (st * E) :=
  '(s, e) ← flush_loop n w;
  let '(_, e) := sys_current_time_get e in
  '(_, s) ← remove_all (fun _ => true) s;
  match events s with
  | Null => Some (s, e)
  | Block _ => Some (set_events (event_count s) Freed s, e)
  | Freed => None
  end.

Definition wifi_eloop_terminated w : Z := if terminate w.1 then 1 else 0.

End Eloop.

End Eloop.
