(* ===== verification/EloopSpec.v ===== *)
(** * The timers of the event loop as a sequence

    The list behind [eloop.timeout] and the timers allocated are one sequence; what each
    function does to it. *)
From Stdlib Require Import Sorting.Sorted.
From S2P Require Import Prelude DList Eloop.
Open Scope Z_scope.

Module EloopSpec.
Import DList Eloop.

(** A timer with its address. *)
Abbreviation entry := (Z * eloop_timeout)%type.

Definition same_events (s s' : st) : Prop :=
  event_count s' = event_count s /\ events s' = events s /\ terminate s' = terminate s.

Lemma same_events_trans s1 s2 s3 : same_events s1 s2 -> same_events s2 s3 -> same_events s1 s3.
Proof. unfold same_events. intuition congruence. Qed.

(** ** Stable insertion by a key *)

Section Place.
Context {A : Type} (key : A -> Z).
Implicit Types (x y : A) (l : list A).

(** Before the first element that is later. *)
Fixpoint place x l : list A :=
  match l with
  | [] => [x]
  | y :: k => if key x <? key y then x :: y :: k else y :: place x k
  end.

(** One after the other: in the order of the keys, and of arrival where they are equal. *)
Definition arrange l : list A := foldl (fun acc x => place x acc) [] l.

Lemma place_split x l : exists l1 l2, l = l1 ++ l2 /\ place x l = l1 ++ x :: l2.
Proof.
  induction l as [|y l (l1 & l2 & -> & IH)]; [by exists [], []|]. cbn [place]. destruct (_ <? _).
  - by exists [], (y :: l1 ++ l2).
  - exists (y :: l1), l2. split; [done|]. by rewrite IH.
Qed.

Lemma place_perm x l : place x l ≡ₚ x :: l.
Proof. destruct (place_split x l) as (l1 & l2 & -> & ->). by rewrite <- Permutation_middle. Qed.

Lemma arrange_snoc l x : arrange (l ++ [x]) = place x (arrange l).
Proof. unfold arrange. by rewrite foldl_app. Qed.

Lemma arrange_perm l : arrange l ≡ₚ l.
Proof.
  induction l as [|x l IH] using rev_ind; [done|]. rewrite arrange_snoc, place_perm, IH. by rewrite Permutation_cons_append.
Qed.

Abbreviation ordered := (StronglySorted (fun a b => key a <= key b)).

Lemma place_ordered x l : ordered l -> ordered (place x l).
Proof.
  induction 1 as [|y l Hl IH Hy]; cbn [place]; [by repeat constructor|].
  destruct (Z.ltb_spec (key x) (key y)).
  - constructor; [by constructor|]. constructor; [lia|]. eapply Forall_impl; [exact Hy|]. cbn. lia.
  - constructor; [done|]. rewrite place_perm. constructor; [lia|done].
Qed.

Lemma arrange_ordered l : ordered (arrange l).
Proof. induction l as [|x l IH] using rev_ind; [constructor|]. rewrite arrange_snoc. by apply place_ordered. Qed.

Lemma place_first x l : Forall (fun y => key x < key y) l -> place x l = x :: l.
Proof. destruct 1 as [|y l H _]; [done|]. cbn [place]. by rewrite (proj2 (Z.ltb_lt _ _) H). Qed.

Lemma place_filter p x l : ordered l ->
  List.filter p (place x l) = if p x then place x (List.filter p l) else List.filter p l.
Proof.
  induction 1 as [|y l Hl IH Hy]; cbn [place List.filter]; [by destruct (p x)|].
  destruct (Z.ltb_spec (key x) (key y)) as [Hlt|Hge]; cbn [List.filter].
  - destruct (p x); [|done]. destruct (p y); cbn [place].
    + by rewrite (proj2 (Z.ltb_lt _ _) Hlt).
    + rewrite place_first; [done|]. apply Forall_forall. intros z [Hz _]%list_elem_of_In%filter_In.
      rewrite Forall_forall in Hy. apply list_elem_of_In, Hy in Hz. cbn in Hz. lia.
  - rewrite IH. destruct (p x), (p y); cbn [place]; [|done..]. by rewrite (proj2 (Z.ltb_ge _ _) Hge).
Qed.

Lemma arrange_filter p l : List.filter p (arrange l) = arrange (List.filter p l).
Proof.
  induction l as [|x l IH] using rev_ind; [done|].
  rewrite arrange_snoc, place_filter, IH by apply arrange_ordered. rewrite List.filter_app. cbn [List.filter].
  destruct (p x); [by rewrite arrange_snoc|by rewrite app_nil_r].
Qed.

(** [x] is the first of [l1 ++ x :: l2] to come: earlier than what arrived before it, and
    not later than what arrived after it. *)
Definition is_first l1 x l2 : Prop := Forall (fun y => key x < key y) l1 /\ Forall (fun y => key x <= key y) l2.

Lemma arrange_first l1 x l2 : is_first l1 x l2 -> arrange (l1 ++ x :: l2) = x :: arrange (l1 ++ l2).
Proof.
  intros [H1 H2]. induction l2 as [|y l2 IH] using rev_ind.
  - rewrite arrange_snoc, app_nil_r. apply place_first. by rewrite arrange_perm.
  - apply Forall_app in H2 as [H2 [Hy _]%Forall_cons].
    change (x :: l2 ++ [y]) with ((x :: l2) ++ [y]). rewrite !app_assoc, !arrange_snoc, IH by done.
    cbn [place]. by rewrite (proj2 (Z.ltb_ge _ _) Hy).
Qed.

Lemma first_exists l : l <> [] -> exists l1 x l2, l = l1 ++ x :: l2 /\ is_first l1 x l2.
Proof.
  induction l as [|y l IH] using rev_ind; [done|]. intros _. destruct (decide (l = [])) as [->|Hl].
  - by exists [], y, [].
  - destruct (IH Hl) as (l1 & x & l2 & -> & H1 & H2). destruct (Z.ltb_spec (key y) (key x)).
    + exists (l1 ++ x :: l2), y, []. split; [done|]. split; [|done]. apply Forall_app.
      split; [|constructor; [done|]]; (eapply Forall_impl; [eassumption|]); cbn; lia.
    + exists l1, x, (l2 ++ [y]). split; [by rewrite <- app_assoc|]. split; [done|]. apply Forall_app. by repeat constructor.
Qed.

End Place.

Lemma place_map {A B} (key : B -> Z) (f : A -> B) x l : map f (place (fun a => key (f a)) x l) = place key (f x) (map f l).
Proof. induction l as [|y l IH]; [done|]. cbn [place map]. destruct (_ <? _); cbn [map]; by rewrite ?IH. Qed.

Abbreviation due := (fun x : entry => time x.2).

Definition kept (sel : eloop_timeout -> bool) (l : list entry) : list entry := List.filter (fun x => negb (sel x.2)) l.
Definition chosen (sel : eloop_timeout -> bool) (l : list entry) : list entry := List.filter (fun x => sel x.2) l.

Section Spec.
Context (head : Z).

(** The loop's memory: the head and the nodes of the sequence, and nothing else. *)
Record rep (s : st) (l : list entry) : Prop := {
  rp_list : dl (nodes s) head l.*1;
  rp_timers : timers s = list_to_map l;
  rp_nodes : dom (nodes s) = {[head]} ∪ list_to_set l.*1;
  rp_zero : 0 ∉ head :: l.*1
}.

Lemma rep_NoDup s l : rep s l -> NoDup l.*1.
Proof. intros R. destruct (rp_list _ _ R) as [_ H]. by apply NoDup_cons in H as [_ ?]. Qed.

Lemma rep_lookup s l x : rep s l -> x ∈ l -> timers s !! x.1 = Some x.2.
Proof.
  intros R Hx. rewrite (rp_timers _ _ R). apply elem_of_list_to_map; [by eapply rep_NoDup|]. by destruct x.
Qed.

Lemma timer_fuel s l : rep s l -> (length l < fuel (nodes s))%nat.
Proof.
  intros R. unfold fuel. rewrite <- size_dom, (rp_nodes _ _ R).
  pose proof (rep_NoDup _ _ R) as Hd. destruct (rp_list _ _ R) as [_ H]. apply NoDup_cons in H as [Hh _].
  rewrite size_union by set_solver. rewrite size_singleton, size_list_to_set by done. rewrite length_fmap. lia.
Qed.

Lemma rep_fresh s l a : rep s l -> a ∉ dom (nodes s) -> a ∉ head :: l.*1.
Proof. intros R. rewrite (rp_nodes _ _ R). set_solver. Qed.

Lemma first_entry_ok s l : rep s l -> first_entry head s = Some (match l with [] => 0 | x :: _ => x.1 end).
Proof.
  intros R. unfold first_entry. destruct (dlist_same (nodes s) head head) as (_ & _ & _ & _ & _ & ->).
  rewrite (empty_ok _ _ _ (rp_list _ _ R)). cbn [mbind option_bind].
  destruct l as [|x l]; [done|]. rewrite bool_decide_eq_false_2 by done. cbn [mbind option_bind Z.eqb].
  by destruct (dl_back _ _ _ (rp_list _ _ R)) as [-> _].
Qed.

(** ** Registering *)

Lemma list_to_map_perm (l k : list entry) : NoDup l.*1 -> l ≡ₚ k -> (list_to_map l : gmap Z eloop_timeout) = list_to_map k.
Proof. intros. by apply list_to_map_proper. Qed.

Lemma register_loop_ok n s a t l1 l2 :
  dl (nodes s) head (l1 ++ l2).*1 -> (forall x, x ∈ l2 -> timers s !! x.1 = Some x.2) ->
  is_Some (nodes s !! a) -> a ∉ head :: (l1 ++ l2).*1 -> (length l2 < n)%nat ->
  exists n', register_loop head n s a t (List.hd head l2.*1) = Some n' /\
    dl n' head (l1 ++ place due (a, t) l2).*1 /\ dom n' = dom (nodes s).
Proof.
  revert n l1. induction l2 as [|x l2 IH]; intros n l1 D Ht Ha Hn Hf;
    (destruct n as [|n]; [simpl in Hf; lia|]); cbn [register_loop List.hd fmap list_fmap].
  - rewrite Z.eqb_refl. cbn [negb]. rewrite app_nil_r in D, Hn.
    destruct (dlist_same (nodes s) a head) as (_ & -> & _).
    destruct (add_tail_ok _ _ _ _ D Ha Hn) as (n' & E & D' & Hd & _). exists n'.
    split; [done|]. split; [|done]. cbn [place]. by rewrite fmap_app.
  - rewrite fmap_app in D, Hn. cbn [fmap list_fmap] in D, Hn.
    assert (x.1 <> head) as Hx.
    { destruct D as [_ H]. apply NoDup_cons in H as [H _]. intros E. apply H. rewrite E. apply elem_of_app. right. by left. }
    rewrite (proj2 (Z.eqb_neq _ _) Hx). cbn [negb]. rewrite (Ht x) by by left. cbn [mbind option_bind place snd].
    destruct (time t <? time x.2).
    + pose proof D as [Hp _]. apply path_cut in Hp as (_ & [Hnx Hpr] & _). cbn [List.hd] in Hnx, Hpr. rewrite Hpr. cbn [mbind option_bind].
      destruct (dlist_same (nodes s) a (List.last l1.*1 head)) as (-> & _).
      destruct (insert_ok _ _ l1.*1 (x.1 :: l2.*1) a D Ha Hn) as (n' & E & D' & Hd & _). exists n'.
      cbn [List.hd] in E. unfold tuya_list_add. rewrite Hnx. cbn [mbind option_bind]. split; [done|].
      split; [|done]. by rewrite fmap_app.
    + pose proof D as [Hp _]. apply path_cut in Hp as (_ & _ & Hb).
      change (back (nodes s) (x.1 :: l2.*1) head) in Hb. apply back_cons in Hb as [[Hnx _] _].
      rewrite Hnx. cbn [mbind option_bind].
      destruct (IH n (l1 ++ [x])) as (n' & E & D' & Hd); rewrite <- ?app_assoc; cbn [app].
      * by rewrite fmap_app.
      * intros y Hy. apply Ht. by right.
      * done.
      * by rewrite fmap_app.
      * simpl in Hf. lia.
      * exists n'. rewrite <- app_assoc in D'. done.
Qed.

Lemma register_ok s l a now msecs h d u :
  rep s l -> a ∉ dom (nodes s) -> a <> 0 -> terminate s = false ->
  exists s', eloop_timeout_register head a now msecs h d u s = Some (0, s') /\
    rep s' (place due (a, mk_timeout (u32 (now + msecs)) d u h) l) /\ same_events s s'.
Proof.
  intros R Ha H0 Hs. pose proof (rep_fresh _ _ _ R Ha) as Hf. unfold eloop_timeout_register.
  rewrite Hs, (proj2 (Z.eqb_neq _ _) H0). set (t := mk_timeout _ _ _ _).
  set (s1 := set_timers _ _). assert (forall x, x ∈ head :: l.*1 -> nodes s1 !! x = nodes s !! x) as Hsame.
  { intros x Hx. unfold s1. cbn. rewrite lookup_insert_ne; [done|]. by intros ->. }
  assert (dl (nodes s1) head l.*1) as D.
  { eapply dl_frame, (rp_list _ _ R). intros x Hx. unfold nxt, prv. by rewrite Hsame. }
  destruct (dl_back _ _ _ D) as [-> _]. cbn [mbind option_bind].
  destruct (register_loop_ok (fuel (nodes s1)) s1 a t [] l) as (n' & -> & D' & Hd).
  - done.
  - intros x Hx. unfold s1. cbn. rewrite lookup_insert_ne; [by eapply rep_lookup|].
    intros E. apply Hf. rewrite E. right. by apply list_elem_of_fmap_2.
  - unfold s1. cbn. rewrite lookup_insert_eq. eauto.
  - done.
  - pose proof (timer_fuel _ _ R). unfold fuel in *. unfold s1. cbn [nodes set_timers set_nodes].
    rewrite map_size_insert_None; [lia|]. by apply not_elem_of_dom.
  - cbn [mbind option_bind]. eexists. split; [reflexivity|]. split; [|done].
    assert ((place due (a, t) l).*1 ≡ₚ a :: l.*1) as Hperm by (by rewrite place_perm).
    assert (NoDup (a :: l.*1)) as Hnd by (constructor; [set_solver|by eapply rep_NoDup]).
    split; cbn [nodes timers set_nodes set_timers].
    + done.
    + unfold s1. cbn. rewrite (rp_timers _ _ R), <- (list_to_map_perm ((a, t) :: l) (place due (a, t) l)); [done|done|by rewrite place_perm].
    + rewrite Hd. unfold s1. cbn. rewrite dom_insert_L, (rp_nodes _ _ R), (list_to_set_perm_L _ _ Hperm). cbn. set_solver.
    + rewrite Hperm. pose proof (rp_zero _ _ R). set_solver.
Qed.

(** ** Removing *)

Lemma timer_remove_ok s l1 x l2 : rep s (l1 ++ x :: l2) ->
  exists s', eloop_timeout_remove x.1 s = Some s' /\ rep s' (l1 ++ l2) /\ same_events s s' /\
    (forall b, b ∉ head :: (l1 ++ x :: l2).*1 -> nxt (nodes s') b = nxt (nodes s) b).
Proof.
  intros R. unfold eloop_timeout_remove. destruct (dlist_same (nodes s) x.1 0) as (_ & _ & -> & _).
  pose proof (rp_list _ _ R) as D. rewrite fmap_app in D. cbn [fmap list_fmap] in D.
  pose proof (rep_NoDup _ _ R) as Hnd. rewrite fmap_app in Hnd. cbn [fmap list_fmap] in Hnd.
  rewrite <- Permutation_middle in Hnd. apply NoDup_cons in Hnd as [Hx Hnd].
  assert (x.1 <> head) as Hxh.
  { destruct D as [_ H]. apply NoDup_cons in H as [H _]. intros E. apply H. rewrite <- E. apply elem_of_app. right. by left. }
  destruct (dl_del_ok _ _ _ _ _ D) as (n & -> & D' & Hd & Hf). cbn [mbind option_bind].
  eexists. split; [reflexivity|].
  assert (forall b, b <> x.1 -> (delete x.1 n) !! b = n !! b) as Hdel by (intros b Hb; by rewrite lookup_delete_ne).
  split; [|split; [done|]].
  - split; cbn [nodes timers set_nodes set_timers]; rewrite ?fmap_app.
    + eapply dl_frame, D'. intros b Hb. unfold nxt, prv. rewrite Hdel; [done|]. intros ->. set_solver.
    + rewrite (rp_timers _ _ R), (list_to_map_perm (l1 ++ x :: l2) (x :: l1 ++ l2)).
      * destruct x as [a t]. cbn [list_to_map foldr fst]. apply delete_insert_id.
        apply not_elem_of_list_to_map_1. by rewrite fmap_app.
      * apply (rep_NoDup _ _ R).
      * by rewrite Permutation_middle.
    + rewrite dom_delete_L, Hd, (rp_nodes _ _ R), fmap_app. cbn [fmap list_fmap]. set_solver.
    + pose proof (rp_zero _ _ R) as Hz. rewrite fmap_app in Hz. set_solver.
  - cbn [nodes set_nodes set_timers]. rewrite fmap_app. cbn [fmap list_fmap]. intros b Hb.
    unfold nxt at 1. rewrite Hdel by set_solver. apply Hf. set_solver.
Qed.

(** What a walk over the sequence [l1 ++ l2] finds at the start of [l2]. *)
Lemma rep_walk s l1 l2 : rep s (l1 ++ l2) -> back (nodes s) l2.*1 head.
Proof.
  intros R. destruct (rp_list _ _ R) as [Hp _]. rewrite fmap_app in Hp. by apply path_cut in Hp as (_ & _ & ?).
Qed.

Lemma rep_not_head s l x : rep s l -> x ∈ l -> (x.1 =? head) = false.
Proof.
  intros R Hx. apply Z.eqb_neq. destruct (rp_list _ _ R) as [_ H]. apply NoDup_cons in H as [H _].
  intros <-. by apply H, list_elem_of_fmap_2.
Qed.

Lemma nxt_some s l b : rep s l -> b ∈ head :: l.*1 -> exists p, nxt (nodes s) b = Some p.
Proof.
  intros R Hb. assert (b ∈ dom (nodes s)) as H by (rewrite (rp_nodes _ _ R); set_solver).
  apply elem_of_dom in H as [nd H]. unfold nxt. rewrite H. eauto.
Qed.

Lemma hd_mem (l : list entry) : List.hd head l.*1 ∈ head :: l.*1.
Proof. destruct l; [by left|]. right. by left. Qed.

Lemma timer_remove_loop_ok sel n s l1 l2 prev removed :
  rep s (l1 ++ l2) -> nxt (nodes s) (List.hd head l2.*1) = Some prev -> (length l2 < n)%nat ->
  exists s', remove_loop head n sel s (List.hd head l2.*1) prev removed = Some (removed + zlen (chosen sel l2), s') /\
    rep s' (l1 ++ kept sel l2) /\ same_events s s'.
Proof.
  revert n s l1 prev removed. induction l2 as [|x l2 IH]; intros n s l1 prev removed R Hp Hf;
    (destruct n as [|n]; [simpl in Hf; lia|]); cbn [remove_loop List.hd fmap list_fmap].
  - rewrite Z.eqb_refl. cbn. rewrite Z.add_0_r. by exists s.
  - assert (x ∈ l1 ++ x :: l2) as Hx by set_solver.
    rewrite (rep_not_head _ _ _ R Hx), (rep_lookup _ _ _ R Hx). cbn [negb mbind option_bind].
    pose proof (rep_walk _ _ _ R) as Hb. cbn [fmap list_fmap] in Hb. apply back_cons in Hb as [[Hn _] _].
    cbn [List.hd fmap list_fmap] in Hp. rewrite Hn in Hp. injection Hp as <-.
    change (kept sel (x :: l2)) with (if negb (sel x.2) then x :: kept sel l2 else kept sel l2).
    change (chosen sel (x :: l2)) with (if sel x.2 then x :: chosen sel l2 else chosen sel l2).
    assert (length l2 < n)%nat as Hf' by (simpl in Hf; lia).
    destruct (sel x.2); cbn [negb mbind option_bind].
    + destruct (timer_remove_ok _ _ _ _ R) as (s1 & -> & R1 & F1 & _). cbn [mbind option_bind].
      destruct (nxt_some s1 (l1 ++ l2) (List.hd head l2.*1) R1) as [p Hp].
      { pose proof (hd_mem l2). rewrite fmap_app. set_solver. }
      rewrite Hp. cbn [mbind option_bind].
      destruct (IH n s1 l1 p (removed + 1) R1 Hp Hf') as (s' & -> & R' & F').
      exists s'. split; [do 2 f_equal; rewrite zlen_cons; lia|]. split; [done|by eapply same_events_trans].
    + destruct (nxt_some s (l1 ++ x :: l2) (List.hd head l2.*1) R) as [p Hp].
      { pose proof (hd_mem l2). rewrite fmap_app. cbn. set_solver. }
      rewrite Hp. cbn [mbind option_bind].
      destruct (IH n s (l1 ++ [x]) p removed) as (s' & -> & R' & F'); rewrite <- ?app_assoc; try done.
      exists s'. rewrite <- app_assoc in R'. done.
Qed.

Lemma remove_all_ok sel s l : rep s l ->
  exists s', remove_all head sel s = Some (zlen (chosen sel l), s') /\ rep s' (kept sel l) /\ same_events s s'.
Proof.
  intros R. unfold remove_all. destruct (dl_back _ _ _ (rp_list _ _ R)) as [-> _]. cbn [mbind option_bind].
  destruct (nxt_some s l _ R (hd_mem l)) as [p Hp]. rewrite Hp. cbn [mbind option_bind].
  pose proof (timer_fuel _ _ R). by apply (timer_remove_loop_ok sel _ s [] l p 0).
Qed.

(** ** Looking *)

Definition is_timer (h d u : Z) (t : eloop_timeout) : bool :=
  (handler t =? h) && (eloop_data t =? d) && (user_data t =? u).

Lemma registered_loop_ok n s h d u l1 l2 :
  rep s (l1 ++ l2) -> (length l2 < n)%nat ->
  registered_loop head n h d u s (List.hd head l2.*1) = Some (if existsb (fun x => is_timer h d u x.2) l2 then 1 else 0).
Proof.
  revert n l1. induction l2 as [|x l2 IH]; intros n l1 R Hf;
    (destruct n as [|n]; [simpl in Hf; lia|]); cbn [registered_loop List.hd fmap list_fmap existsb].
  - by rewrite Z.eqb_refl.
  - assert (x ∈ l1 ++ x :: l2) as Hx by set_solver.
    rewrite (rep_not_head _ _ _ R Hx), (rep_lookup _ _ _ R Hx). cbn [negb mbind option_bind].
    fold (is_timer h d u x.2). destruct (is_timer h d u x.2); [done|]. cbn [orb].
    pose proof (rep_walk _ _ _ R) as Hb. cbn [fmap list_fmap] in Hb. apply back_cons in Hb as [[Hn _] _].
    rewrite Hn. cbn [mbind option_bind]. apply (IH n (l1 ++ [x])); [by rewrite <- app_assoc|simpl in Hf; lia].
Qed.

Lemma is_registered_ok s l h d u : rep s l ->
  eloop_timeout_is_registered head h d u s = Some (if existsb (fun x => is_timer h d u x.2) l then 1 else 0).
Proof.
  intros R. unfold eloop_timeout_is_registered. destruct (dl_back _ _ _ (rp_list _ _ R)) as [-> _]. cbn [mbind option_bind].
  pose proof (timer_fuel _ _ R). by apply (registered_loop_ok _ s h d u [] l).
Qed.

(** ** Starting *)

Lemma init_rep s : nodes s = ∅ -> timers s = ∅ -> head <> 0 ->
  exists s', wifi_eloop_init head s = Some (0, s') /\ rep s' [] /\
    event_count s' = 0 /\ events s' = Null /\ terminate s' = false.
Proof.
  intros Hn Ht Hh. unfold wifi_eloop_init. rewrite Hn, Ht.
  destruct (init_ok (<[head := mk_node 0 0]> ∅) head) as (n & -> & D & Hd & _); [rewrite lookup_insert_eq; eauto|].
  cbn [mbind option_bind]. eexists. split; [reflexivity|]. split; [|done].
  split; cbn [nodes timers]; [done|done| |set_solver]. rewrite Hd, dom_insert_L, dom_empty_L. cbn. set_solver.
Qed.

End Spec.
(** ** The handlers of events

    The array's first [event_count] elements are the handlers in the order of registration;
    the rest of its block is left over. *)
Definition handlers (s : st) (hs : list eloop_event) : Prop :=
  0 <= event_count s < 2 ^ 28 /\ zlen hs = event_count s /\
  match events s with
  | Null => hs = []
  | Block l => exists rest, l = hs ++ rest
  | Freed => False
  end.

Definition is_handler (id h : Z) (e : eloop_event) : bool := (ev_id e =? id) && (ev_handler e =? h).

Fixpoint without (id h : Z) (l : list eloop_event) : list eloop_event :=
  match l with [] => [] | e :: l => if is_handler id h e then l else e :: without id h l end.

(** The first handler that matches splits the list. *)
Lemma handler_split id h l :
  (exists a e b, l = a ++ e :: b /\ without id h l = a ++ b /\ Forall (fun x => is_handler id h x = false) a /\ is_handler id h e = true) \/
  without id h l = l /\ Forall (fun x => is_handler id h x = false) l.
Proof.
  induction l as [|e l IH]; [by right|]. cbn [without]. destruct (is_handler id h e) eqn:E.
  - left. exists [], e, l. by repeat constructor.
  - destruct IH as [(a & x & b & -> & -> & Ha & Hx)|[-> Hl]]; [left|right; by repeat constructor].
    exists (e :: a), x, b. by repeat constructor.
Qed.

Lemma find_event_skip n a l2 done count id h :
  Forall (fun x => is_handler id h x = false) a -> zlen done + zlen a <= count ->
  find_event (length a + n) (done ++ a ++ l2) count (zlen done) id h =
    find_event n (done ++ a ++ l2) count (zlen done + zlen a) id h.
Proof.
  intros Ha. revert done. induction Ha as [|e a He Ha IH]; intros done Hc; cbn [length Nat.add app].
  - by rewrite zlen_nil, Z.add_0_r.
  - rewrite zlen_cons in *. pose proof (zlen_nonneg a). cbn [find_event].
    rewrite (proj2 (Z.ltb_lt _ _)) by lia.
    assert ((done ++ e :: a ++ l2) !! Z.to_nat (zlen done) = Some e) as ->.
    { unfold zlen. rewrite Nat2Z.id. by apply list_lookup_middle. }
    cbn [mbind option_bind]. fold (is_handler id h e). rewrite He.
    specialize (IH (done ++ [e])). rewrite <- app_assoc, zlen_app, zlen_singleton in IH. cbn [app] in IH.
    rewrite IH by lia. f_equal. lia.
Qed.

Lemma register_event_ok s hs id h d u : handlers s hs -> terminate s = false -> event_count s + 1 < 2 ^ 28 ->
  exists s', eloop_event_register true id h d u s = Some (0, s') /\ handlers s' (hs ++ [mk_event d u h id]) /\
    nodes s' = nodes s /\ timers s' = timers s /\ terminate s' = false.
Proof.
  intros (Hc & Hz & He) Ht Hlt. unfold eloop_event_register. rewrite Ht. cbn [negb].
  assert (take (Z.to_nat (event_count s)) (match events s with Block l => l | _ => [] end) = hs) as Etake.
  { destruct (events s) as [|l|]; [by rewrite He, take_nil| |done]. destruct He as [rest ->].
    rewrite <- Hz. unfold zlen. by rewrite Nat2Z.id, take_app_length. }
  exists (set_events (event_count s + 1) (Block (hs ++ [mk_event d u h id])) s).
  split; [|split; [|done]].
  - rewrite wrap32_small by lia. by destruct (events s) as [|l|]; rewrite ?Etake.
  - split; cbn; [lia|]. rewrite zlen_app, zlen_singleton. split; [lia|]. exists []. by rewrite app_nil_r.
Qed.

Lemma unregister_event_ok s hs id h : handlers s hs -> terminate s = false ->
  exists s', eloop_event_unregister id h s = Some s' /\ handlers s' (without id h hs) /\
    nodes s' = nodes s /\ timers s' = timers s /\ terminate s' = false.
Proof.
  intros (Hc & Hz & He) Ht. unfold eloop_event_unregister. rewrite Ht.
  assert (hs = [] -> handlers s (without id h hs)) as Hnil by (by intros ->).
  destruct (events s) as [|l|] eqn:Ev; [exists s; by auto| |done]. destruct He as [rest ->].
  destruct (Z.eqb_spec (event_count s) 0) as [E0|E0].
  { exists s. split; [done|]. split; [|done]. apply Hnil. destruct hs; [done|]. rewrite zlen_cons in Hz. pose proof (zlen_nonneg hs). lia. }
  destruct (handler_split id h hs) as [(a & e & b & -> & -> & Ha & Hx)|[-> Hl]].
  - rewrite zlen_app, zlen_cons in Hz. pose proof (zlen_nonneg a). pose proof (zlen_nonneg b). rewrite <- app_assoc. cbn [app].
    pose proof (find_event_skip (S (Z.to_nat (event_count s) - length a)) a (e :: b ++ rest) [] (event_count s) id h Ha) as F.
    cbn [app] in F. rewrite zlen_nil, Z.add_0_l in F.
    replace (length a + _)%nat with (S (Z.to_nat (event_count s))) in F by (unfold zlen in *; lia).
    rewrite F by lia. cbn [find_event]. rewrite (proj2 (Z.ltb_lt _ _)) by lia.
    assert ((a ++ e :: b ++ rest) !! Z.to_nat (zlen a) = Some e) as ->.
    { unfold zlen. rewrite Nat2Z.id. by apply list_lookup_middle. }
    cbn [mbind option_bind]. fold (is_handler id h e). rewrite Hx. cbn [mbind option_bind].
    rewrite (proj2 (Z.eqb_neq _ _)) by lia. rewrite wrap32_small by lia.
    eexists. split; [reflexivity|]. split; [|done]. split; cbn; [lia|]. rewrite zlen_app. split; [lia|].
    destruct (Z.eqb_spec (zlen a) (event_count s - 1)) as [Eb|Eb]; cbn [negb].
    + assert (b = []) as -> by (destruct b; [done|]; rewrite zlen_cons in Hz; pose proof (zlen_nonneg b); lia).
      rewrite app_nil_r. by eexists.
    + unfold splice, slice.
      replace (Z.to_nat (zlen a)) with (length a) by (unfold zlen; lia). rewrite take_app_length.
      replace (Z.to_nat (zlen a + 1)) with (length (a ++ [e])) by (rewrite length_app; unfold zlen; simpl; lia).
      replace (a ++ e :: b ++ rest) with ((a ++ [e]) ++ b ++ rest) by (by rewrite <- app_assoc).
      rewrite drop_app_length. replace (Z.to_nat (event_count s - zlen a - 1)) with (length b) by (unfold zlen in *; lia).
      rewrite take_app_length. rewrite app_assoc. by eexists.
  - pose proof (find_event_skip (S (Z.to_nat (event_count s) - length hs)) hs rest [] (event_count s) id h Hl) as F.
    cbn [app] in F. rewrite zlen_nil, Z.add_0_l in F.
    replace (length hs + _)%nat with (S (Z.to_nat (event_count s))) in F by (unfold zlen in *; lia).
    rewrite F by lia. cbn [find_event]. rewrite Hz, Z.ltb_irrefl. cbn [mbind option_bind]. rewrite Z.eqb_refl.
    exists s. split; [done|]. split; [|done]. split; [done|]. split; [done|]. rewrite Ev. by eexists.
Qed.

End EloopSpec.
