(* ===== verification/EloopProps.v ===== *)
(** * Properties of the event loop

    The timers serve every client as a calendar; what crossing the middle and the end of the
    32-bit clock does; events reach their handlers; the loop runs every timer. *)
From Stdlib Require Import Sorting.Sorted.
From S2P Require Import Prelude Client DList Eloop EloopSpec.
Open Scope Z_scope.

Module EloopProps.
Import Client Eloop EloopSpec.

(** ** Surroundings that keep a record of the handlers called *)

Record rec := mk_rec { clock : Z; called : list (Z * (Z * Z * Z)) }.

(** A timer's handler, at the time it was called. *)
Definition args (t : eloop_timeout) : Z * Z * Z := (handler t, eloop_data t, user_data t).

(** The handlers called only leave a record; a wait ends without a message, and the clock
    has gone on by what was waited for. *)
#[export] Instance recording : Env rec := {|
  sys_current_time_get e := (u32 (clock e), e);
  sys_yield w := w;
  sys_task_wait r w := (-2, mk_message 0 0 0 0, (w.1, mk_rec (clock w.2 + r) (called w.2)));
  sys_task_post _ e := (0, e);
  sys_task_msg_num e := (0, e);
  sys_mfree _ e := e;
  call_timeout h d u w := Some (w.1, mk_rec (clock w.2) (called w.2 ++ [(clock w.2, (h, d, u))]));
  call_event h d u w := Some (w.1, mk_rec (clock w.2) (called w.2 ++ [(clock w.2, (h, d, u))]));
  wifi_mgmt_cb_run_state_machine d m w := Some (w.1, mk_rec (clock w.2) (called w.2 ++ [(clock w.2, (0, d, event_id m))]))
|}.

(** ** The calendar *)

Inductive op :=
| Register (now msecs h data user : Z) | Cancel (h data user : Z) | CancelAll
| IsRegistered (h data user : Z) | Handle (now : Z).

(** A number, or the handlers that were called. *)
Inductive obs := Num (n : Z) | Called (l : list (Z * Z * Z)).

(** The timers that wait, in the order of their registration; [time] is when each is due. *)
Abbreviation calendar := (list eloop_timeout).

Definition horizon : Z := 2 ^ 31.

Definition op_ok (l : calendar) (o : op) : Prop :=
  match o with
  | Register now msecs _ _ _ => 0 <= now /\ 0 <= msecs /\ now + msecs < horizon
  | Handle now => 0 <= now < horizon
  | _ => True
  end.

Definition count (p : eloop_timeout -> bool) (l : calendar) : Z := zlen (List.filter p l).

Definition spec_step (l : calendar) (o : op) (b : obs) (l' : calendar) : Prop :=
  match o with
  | Register now msecs h d u =>
      b = Num 0 /\ l' = l ++ [mk_timeout (now + msecs) d u h] \/ b = Num (-1) /\ l' = l
  | Cancel h d u => b = Num (count (cancels h d u) l) /\ l' = List.filter (fun t => negb (cancels h d u t)) l
  | CancelAll => b = Num 0 /\ l' = []
  | IsRegistered h d u => b = Num (if existsb (is_timer h d u) l then 1 else 0) /\ l' = l
  | Handle now =>
      (exists l1 t l2, l = l1 ++ t :: l2 /\ is_first time l1 t l2 /\ time t <= now /\
         b = Called [args t] /\ l' = l1 ++ l2) \/
      Forall (fun t => now < time t) l /\ b = Called [] /\ l' = l
  end.

Section Run.
Context (head : Z).
(** The allocator: a new address each time, or [NULL]. *)
Context (alloc : gset Z -> Z).
Hypothesis alloc_fresh : forall X, alloc X = 0 \/ alloc X ∉ X.

(** A handler is the last thing that handling a timer calls: what it calls comes next. *)
Definition step (o : op) (s : st) : option (obs * st) :=
  match o with
  | Register now msecs h d u =>
      '(r, s) ← eloop_timeout_register head (alloc (dom (nodes s))) now msecs h d u s; Some (Num r, s)
  | Cancel h d u => '(r, s) ← eloop_timeout_cancel head h d u s; Some (Num r, s)
  | CancelAll => '(r, s) ← eloop_timeout_all_cancel head s; Some (Num r, s)
  | IsRegistered h d u => r ← eloop_timeout_is_registered head h d u s; Some (Num r, s)
  | Handle now => '(s, e) ← eloop_timeout_handle head (s, mk_rec now []); Some (Called (map snd (called e)), s)
  end.

Definition rep_calendar (s : st) (l : calendar) : Prop :=
  terminate s = false /\ Forall (fun t => 0 <= time t < horizon) l /\
  exists le, rep head s le /\ map snd le = arrange time l.

(** ** One step *)

Lemma signed_low z : 0 <= z < horizon -> signed 32 z = z.
Proof.
  unfold horizon, signed. intros H. change (2 ^ (32 - 1)) with (2 ^ 31). rewrite wrap_small by lia.
  by rewrite (proj2 (Z.ltb_lt _ _)) by lia.
Qed.

Lemma after_eq_low a b : 0 <= a < horizon -> 0 <= b < horizon -> SYS_TIME_AFTER_EQ a b = Some (b <=? a).
Proof.
  intros Ha Hb. unfold SYS_TIME_AFTER_EQ, sub_int. rewrite !signed_low by done. unfold horizon in *.
  rewrite (proj2 (Z.leb_le _ _)), (proj2 (Z.ltb_lt _ _)) by lia. cbn [andb mbind option_bind]. f_equal.
  destruct (Z.leb_spec b a); [apply Z.leb_le|apply Z.leb_gt]; lia.
Qed.

Lemma filter_map p (le : list entry) : map snd (List.filter (fun x => p x.2) le) = List.filter p (map snd le).
Proof. induction le as [|x le IH]; [done|]. cbn. destruct (p x.2); cbn; by rewrite IH. Qed.

Lemma existsb_map p (le : list entry) : existsb (fun x => p x.2) le = existsb p (map snd le).
Proof. induction le as [|x le IH]; [done|]. cbn. by rewrite IH. Qed.

Lemma existsb_perm {A} (p : A -> bool) l k : l ≡ₚ k -> existsb p l = existsb p k.
Proof. induction 1; cbn; [done|congruence|by rewrite !orb_assoc, (orb_comm (p y))|congruence]. Qed.

Lemma removing_ok sel s l : rep_calendar s l ->
  exists s', remove_all head sel s = Some (count sel l, s') /\ rep_calendar s' (List.filter (fun t => negb (sel t)) l).
Proof.
  intros (Hs & Hl & le & R & Hle). destruct (remove_all_ok head sel s le R) as (s' & -> & R' & _ & _ & Ht).
  exists s'. split; [|split; [congruence|]].
  - do 2 f_equal. unfold chosen. rewrite <- (zlen_map snd), filter_map, Hle, arrange_filter.
    unfold count, zlen. by rewrite arrange_perm.
  - split; [|exists (kept sel le); split; [done|]].
    + apply Forall_forall. intros t [Ht' _]%list_elem_of_In%filter_In.
      by apply (proj1 (Forall_forall _ _) Hl), list_elem_of_In.
    + unfold kept. by rewrite (filter_map (fun t => negb (sel t))), Hle, arrange_filter.
Qed.

Lemma register_step now msecs h d u s l : rep_calendar s l -> op_ok l (Register now msecs h d u) ->
  exists b s' l', step (Register now msecs h d u) s = Some (b, s') /\
    spec_step l (Register now msecs h d u) b l' /\ rep_calendar s' l'.
Proof.
  intros (Hs & Hl & le & R & Hle) (H1 & H2 & H3). unfold horizon in *. cbn [step].
  destruct (Z.eq_dec (alloc (dom (nodes s))) 0) as [->|H0].
  - unfold eloop_timeout_register. rewrite Hs. exists (Num (-1)), s, l. split; [done|]. split; [by right|].
    split; [done|]. split; [done|]. by exists le.
  - destruct (alloc_fresh (dom (nodes s))) as [|Ha]; [done|].
    destruct (register_ok head s le _ now msecs h d u R Ha H0 Hs) as (s' & -> & R' & _ & _ & Ht).
    rewrite (wrap_small 32 (now + msecs)) in R' by lia.
    exists (Num 0), s', (l ++ [mk_timeout (now + msecs) d u h]). split; [done|]. split; [by left|].
    split; [congruence|]. split.
    + apply Forall_app. split; [done|]. repeat constructor; cbn; unfold horizon; lia.
    + eexists. split; [exact R'|]. rewrite (place_map time snd), Hle. by rewrite arrange_snoc.
Qed.

Lemma handle_step now s l : rep_calendar s l -> 0 <= now < horizon ->
  exists b s' l', step (Handle now) s = Some (b, s') /\ spec_step l (Handle now) b l' /\ rep_calendar s' l'.
Proof.
  intros (Hs & Hl & le & R & Hle) Hn. cbn [step]. unfold eloop_timeout_handle. cbn [sys_current_time_get recording clock].
  rewrite (first_entry_ok _ _ _ R). cbn [mbind option_bind].
  destruct (decide (l = [])) as [->|Hne].
  - apply map_eq_nil in Hle as ->. exists (Called []), s, []. split; [done|]. split; [by right|].
    split; [done|]. split; [done|]. by exists [].
  - destruct (first_exists time l Hne) as (l1 & t & l2 & -> & Hf). rewrite arrange_first in Hle by done.
    destruct le as [|[a t'] le]; [done|]. cbn [map snd fst] in Hle |- *. injection Hle as -> Hle.
    rewrite (proj2 (Z.eqb_neq a 0)) by (intros ->; apply (rp_zero _ _ _ R); cbn; set_solver).
    assert (timers s !! a = Some t) as -> by (apply (rep_lookup _ _ _ (a, t) R); by left). cbn [mbind option_bind].
    pose proof Hl as [Hl1 [Ht Hl2]%Forall_cons]%Forall_app.
    rewrite wrap_small by (unfold horizon in *; lia). rewrite after_eq_low by done. cbn [mbind option_bind].
    destruct (Z.leb_spec (time t) now).
    + destruct (timer_remove_ok head s [] (a, t) le R) as (s' & E & R' & (_ & _ & Ht') & _). cbn [fst] in E. rewrite E.
      cbn. exists (Called [args t]), s', (l1 ++ l2). split; [done|]. split; [left; by exists l1, t, l2|].
      split; [congruence|]. split; [by apply Forall_app|]. by exists le.
    + exists (Called []), s, (l1 ++ t :: l2). split; [done|]. split.
      * right. split; [|done]. destruct Hf as [F1 F2]. apply Forall_app.
        split; [|constructor; [done|]]; [apply (Forall_impl _ _ _ F1)|apply (Forall_impl _ _ _ F2)]; cbn; lia.
      * split; [done|]. split; [done|]. exists ((a, t) :: le). split; [done|]. cbn. by rewrite Hle, arrange_first.
Qed.

Lemma step_serves : serves_ops step op_ok spec_step rep_calendar.
Proof.
  intros s l o Hrep Hok. destruct o as [now msecs h d u|h d u| |h d u|now].
  - by apply register_step.
  - destruct (removing_ok (cancels h d u) s l Hrep) as (s' & E & R').
    destruct Hrep as (Hs & _). cbn [step]. unfold eloop_timeout_cancel. rewrite Hs, E. by eexists _, _, _.
  - destruct (removing_ok (fun _ => true) s l Hrep) as (s' & E & R').
    cbn [step]. unfold eloop_timeout_all_cancel. rewrite E. cbn [mbind option_bind negb] in *.
    eexists _, _, _. split; [reflexivity|]. split; [done|]. replace (@nil eloop_timeout) with (List.filter (fun _ : eloop_timeout => false) l); [done|].
    clear. by induction l.
  - pose proof Hrep as (_ & _ & le & R & Hle). cbn [step]. rewrite (is_registered_ok _ _ _ _ _ _ R).
    eexists _, _, _. split; [reflexivity|]. split; [|exact Hrep]. split; [|done].
    by rewrite existsb_map, Hle, (existsb_perm _ _ _ (arrange_perm time l)).
  - by apply handle_step.
Qed.

(** C30: from start-up, while the clock is below 2^31 milliseconds, the timers serve every client
    as a calendar: a registered timer waits until it is handled or cancelled; handling runs the
    earliest timer that is due, the one registered first among equals, and no other; and the
    loop holds exactly the timers that wait. *)
Theorem eloop_serves_calendar (c : client) k s :
  nodes s = ∅ -> timers s = ∅ -> head <> 0 -> obeys op_ok spec_step [] c ->
  exists s0 seen s' l, wifi_eloop_init head s = Some (0, s0) /\ run step c k [] s0 = Some (seen, s') /\
    after op_ok spec_step [] c seen l /\ size (timers s') = length l.
Proof.
  intros Hn Ht Hh Hc. destruct (init_rep head s Hn Ht Hh) as (s0 & E & R & _ & _ & Hs). exists s0.
  destruct (run_serves step op_ok spec_step rep_calendar [] c k s0) as (seen & s' & l & Hr & Ha & _ & _ & le & R' & Hle).
  - apply step_serves.
  - done.
  - split; [done|]. split; [constructor|]. by exists [].
  - exists seen, s', l. split; [done|]. split; [done|]. split; [done|].
    rewrite <- (Permutation_length (arrange_perm time l)), <- Hle, length_map, (rp_timers _ _ _ R').
    pose proof (rep_NoDup _ _ _ R') as Hd. clear -Hd. induction le as [|[a t] le IH]; [done|].
    cbn [list_to_map foldr fst snd fmap list_fmap] in Hd |- *. apply NoDup_cons in Hd as [Ha Hd].
    rewrite map_size_insert_None by (by apply not_elem_of_list_to_map_1). cbn. by rewrite IH.
Qed.

End Run.

Section Loop.
Context (head : Z).

(** ** The middle and the end of the clock *)

(** While a timer that is due after the clock reaches 2^31 is the first, handling timers before
    that has no defined result: the difference of the times does not fit the signed type. *)
Theorem clock_middle_undefined s l x e :
  rep head s (x :: l) -> 2 ^ 31 <= time x.2 < 2 ^ 32 -> 0 <= clock e < 2 ^ 31 -> time x.2 <= clock e + 2 ^ 31 ->
  eloop_timeout_handle head (s, e) = None.
Proof.
  intros R Hx He Hd. unfold eloop_timeout_handle. rewrite (first_entry_ok _ _ _ R). cbn [mbind option_bind].
  rewrite (proj2 (Z.eqb_neq x.1 0)) by (intros E; apply (rp_zero _ _ _ R); cbn; rewrite E; set_solver).
  cbn [sys_current_time_get recording]. rewrite (rep_lookup _ _ _ x R) by by left. cbn [mbind option_bind].
  unfold SYS_TIME_AFTER_EQ, sub_int. rewrite (wrap_small 32 (clock e)), (signed_low (clock e)) by (unfold horizon; lia).
  unfold signed. change (2 ^ (32 - 1)) with (2 ^ 31). rewrite wrap_small by lia. rewrite (proj2 (Z.ltb_ge _ _)) by lia.
  by rewrite (proj2 (Z.ltb_ge (clock e - _) _)), andb_false_r by lia.
Qed.

(** A timer whose time wraps past the end of the clock is put before all the others, and no
    timer is run until the clock has wrapped, whatever is due before. *)
Theorem clock_end_starves s l a now msecs h d u :
  rep head s l -> a ∉ dom (nodes s) -> a <> 0 -> terminate s = false ->
  0 <= now < 2 ^ 32 -> 2 ^ 32 <= now + msecs -> msecs < 2 ^ 31 -> Forall (fun x => now + msecs - 2 ^ 32 < time x.2) l ->
  exists s', eloop_timeout_register head a now msecs h d u s = Some (0, s') /\
    forall e, now <= clock e < 2 ^ 32 -> eloop_timeout_handle head (s', e) = Some (s', e).
Proof.
  intros R Ha H0 Hs Hn Hw Hm Hl. destruct (register_ok head s l a now msecs h d u R Ha H0 Hs) as (s' & E & R' & _).
  exists s'. split; [done|]. intros e He. set (t := mk_timeout _ _ _ _) in R'.
  assert (time t = now + msecs - 2 ^ 32) as Ht.
  { cbn. unfold wrap. rewrite <- (Z_mod_plus_full _ (-1)). rewrite Z.mod_small; lia. }
  rewrite place_first in R'.
  2:{ eapply Forall_impl; [exact Hl|]. intros x Hx. cbv beta in *. change (time t < time x.2). lia. }
  unfold eloop_timeout_handle. rewrite (first_entry_ok _ _ _ R'). cbn [mbind option_bind fst].
  rewrite (proj2 (Z.eqb_neq _ _) H0). cbn [sys_current_time_get recording].
  assert (timers s' !! a = Some t) as -> by (apply (rep_lookup _ _ _ (a, t) R'); by left). cbn [mbind option_bind].
  unfold SYS_TIME_AFTER_EQ, sub_int. rewrite (wrap_small 32 (clock e)), (signed_low (time t)) by (unfold horizon; lia).
  unfold signed. change (2 ^ (32 - 1)) with (2 ^ 31). rewrite wrap_small by lia. rewrite (proj2 (Z.ltb_ge _ _)) by lia.
  rewrite (proj2 (Z.leb_le _ _)), (proj2 (Z.ltb_lt _ _)) by lia. cbn [andb mbind option_bind].
  by rewrite (proj2 (Z.leb_gt _ _)) by lia.
Qed.

(** ** The loop *)

(** The handlers of timers run one after the other from the time [c]: each when it is due, or
    at once if that has passed. *)
Fixpoint calls (c : Z) (l : calendar) : list (Z * (Z * Z * Z)) :=
  match l with [] => [] | t :: l => (Z.max c (time t), args t) :: calls (Z.max c (time t)) l end.

Lemma time_before_low a b : 0 <= a < horizon -> 0 <= b < horizon -> SYS_TIME_BEFORE a b = Some (a <? b).
Proof.
  intros Ha Hb. unfold SYS_TIME_BEFORE, SYS_TIME_AFTER, sub_int. rewrite !signed_low by done. unfold horizon in *.
  rewrite (proj2 (Z.leb_le _ _)), (proj2 (Z.ltb_lt _ _)) by lia. cbn [andb mbind option_bind]. f_equal.
  destruct (Z.ltb_spec a b); [apply Z.ltb_lt|apply Z.ltb_ge]; lia.
Qed.

Lemma run_turn_ok n s l a t e :
  rep head s ((a, t) :: l) -> terminate s = false -> 0 <= time t < horizon -> 0 <= clock e < horizon ->
  exists s', run_turn head n (s, e) =
    Some (s', mk_rec (Z.max (clock e) (time t)) (called e ++ [(Z.max (clock e) (time t), args t)])) /\
    rep head s' l /\ terminate s' = false.
Proof.
  intros R Hs Ht He. unfold run_turn. rewrite (first_entry_ok _ _ _ R). cbn [mbind option_bind fst].
  assert (timers s !! a = Some t) as Hl by (apply (rep_lookup _ _ _ (a, t) R); by left).
  assert (a =? 0 = false) as Ha.
  { apply Z.eqb_neq. intros ->. apply (rp_zero _ _ _ R). cbn. set_solver. }
  rewrite Ha. cbn [sys_current_time_get recording negb andb]. rewrite Hl. cbn [mbind option_bind].
  rewrite (wrap_small 32 (clock e)) by (unfold horizon in *; lia). rewrite time_before_low by done. cbn [mbind option_bind].
  destruct (timer_remove_ok head s [] (a, t) l R) as (s' & E & R' & (_ & _ & Ht') & _). cbn [fst app] in E.
  assert (forall c, 0 <= c < horizon -> time t <= c -> eloop_timeout_handle head (s, mk_rec c (called e)) =
    Some (s', mk_rec c (called e ++ [(c, args t)]))) as Hh.
  { intros c Hc Hle. unfold eloop_timeout_handle. rewrite (first_entry_ok _ _ _ R). cbn [mbind option_bind fst].
    rewrite Ha. cbn [sys_current_time_get recording clock]. rewrite Hl. cbn [mbind option_bind].
    rewrite (wrap_small 32 c) by (unfold horizon in *; lia). rewrite after_eq_low by done. cbn [mbind option_bind].
    rewrite (proj2 (Z.leb_le _ _) Hle), E. done. }
  exists s'. split; [|split; [done|congruence]]. destruct (Z.ltb_spec (clock e) (time t)).
  - unfold horizon in *. rewrite wrap_small by lia. rewrite (proj2 (Z.eqb_neq (time t - clock e) 0)) by lia. cbn [sys_task_wait recording fst snd].
    change (-2 =? OS_OK) with false. cbn [mbind option_bind].
    replace (clock e + (time t - clock e)) with (time t) by lia. rewrite Hh by lia. by rewrite Z.max_r by lia.
  - cbn [Z.eqb sys_yield recording mbind option_bind]. destruct e as [c l']. cbn [clock called] in *. rewrite Hh by lia.
    by rewrite Z.max_l by lia.
Qed.

Lemma loop_calls n le : forall s e, rep head s le -> terminate s = false ->
  Forall (fun x => 0 <= time x.2 < horizon) le -> 0 <= clock e < horizon ->
  exists s' c, wifi_eloop_run head (length le) n (s, e) =
    Some (false, (s', mk_rec c (called e ++ calls (clock e) (map snd le)))) /\ rep head s' [] /\ terminate s' = false.
Proof.
  induction le as [|[a t] le IH]; intros s e R Hs Hl He; cbn [length wifi_eloop_run map calls fst snd]; rewrite Hs.
  - exists s, (clock e). rewrite app_nil_r. by destruct e.
  - apply Forall_cons in Hl as [Ht Hl]. destruct (run_turn_ok n s le a t e R Hs Ht He) as (s1 & -> & R1 & Hs1).
    cbn [mbind option_bind snd] in *.
    destruct (IH s1 (mk_rec (Z.max (clock e) (time t)) (called e ++ [(Z.max (clock e) (time t), args t)])) R1 Hs1 Hl)
      as (s' & c & -> & H); [cbn; lia|].
    exists s', c. split; [|done]. cbn [called clock]. by rewrite <- app_assoc.
Qed.

(** C32: while the clock and all times are below 2^31 milliseconds, and as long as no message
    comes, a wait takes exactly its time and a handler takes none and touches no timer: with as
    many turns as timers the loop runs the handler of every timer, in the order of their times
    and of registration among equals, none before it is due, each at the time it is due or, if that had passed at the start, at the start; it never
    waits past a timer. *)
Theorem loop_runs_all n s l e : rep_calendar head s l -> 0 <= clock e < horizon ->
  exists s' c, wifi_eloop_run head (length l) n (s, e) =
    Some (false, (s', mk_rec c (called e ++ calls (clock e) (arrange time l)))) /\ rep_calendar head s' [].
Proof.
  intros (Hs & Hl & le & R & Hle) He.
  assert (length l = length le) as -> by (by rewrite <- (Permutation_length (arrange_perm time l)), <- Hle, length_map).
  destruct (loop_calls n le s e R Hs) as (s' & c & -> & R' & Hs'); [|done|].
  - apply Forall_forall. intros x Hx. rewrite <- (arrange_perm time l), <- Hle in Hl.
    by apply (proj1 (Forall_forall _ _) Hl), list_elem_of_fmap_2.
  - rewrite Hle. exists s', c. split; [done|]. split; [done|]. split; [constructor|]. by exists [].
Qed.

(** ** Events *)

(** Registering and unregistering handlers. *)
Inductive ev_op := On (id h data user : Z) | Off (id h : Z).

Definition ev_step (o : ev_op) (s : st) : option st :=
  match o with
  | On id h d u => snd <$> eloop_event_register true id h d u s
  | Off id h => eloop_event_unregister id h s
  end.

Definition ev_run (ops : list ev_op) (s : st) : option st := foldl (fun r o => s ← r; ev_step o s) (Some s) ops.

(** The handlers that are left, in the order of registration. *)
Definition ev_left (ops : list ev_op) : list eloop_event :=
  foldl (fun hs o => match o with On id h d u => hs ++ [mk_event d u h id] | Off id h => without id h hs end) [] ops.

Lemma ev_run_ok ops s hs : handlers s hs -> terminate s = false -> event_count s + zlen ops < 2 ^ 28 ->
  exists s', ev_run ops s = Some s' /\ terminate s' = false /\
    handlers s' (foldl (fun hs o => match o with On id h d u => hs ++ [mk_event d u h id] | Off id h => without id h hs end) hs ops).
Proof.
  revert s hs. induction ops as [|o ops IH]; intros s hs H Ht Hc; [by exists s|]. cbn [foldl].
  rewrite zlen_cons in Hc. pose proof (zlen_nonneg ops).
  assert (forall s1, Some s1 = ev_step o s -> ev_run (o :: ops) s = ev_run ops s1) as Hrun.
  { intros s1 E. unfold ev_run. cbn [foldl mbind option_bind]. by rewrite E. }
  destruct o as [id h d u|id h].
  - destruct (register_event_ok s hs id h d u H Ht) as (s1 & E & H1 & _ & _ & Ht1); [lia|].
    rewrite (Hrun s1) by (unfold ev_step; by rewrite E). apply IH; [done|done|].
    destruct H as (_ & Hz & _), H1 as (_ & Hz1 & _). rewrite zlen_app, zlen_singleton in Hz1. lia.
  - destruct (unregister_event_ok s hs id h H Ht) as (s1 & E & H1 & _ & _ & Ht1).
    rewrite (Hrun s1) by (unfold ev_step; by rewrite E). apply IH; [done|done|].
    destruct H as (_ & Hz & _), H1 as (_ & Hz1 & _).
    destruct (handler_split id h hs) as [(a & e & b & -> & Ew & _)|[Ew _]]; rewrite Ew in *; [|lia].
    rewrite !zlen_app, zlen_cons in *. lia.
Qed.

(** The record of the handlers called for an event. *)
Definition ev_call (c id : Z) (hs : list eloop_event) : list (Z * (Z * Z * Z)) :=
  map (fun x => (c, (ev_handler x, ev_data x, ev_user x))) (List.filter (fun x => ev_id x =? id) hs).

Lemma dispatch_loop_ok n s done hs id e : handlers s (done ++ hs) -> (length hs < n)%nat ->
  dispatch_loop n (zlen done) id (s, e) = Some (s, mk_rec (clock e) (called e ++ ev_call (clock e) id hs)).
Proof.
  intros (Hc & Hz & He). revert n done e Hz He. induction hs as [|x hs IH]; intros n done e Hz He Hn;
    (destruct n as [|n]; [simpl in Hn; lia|]); cbn [dispatch_loop].
  - rewrite app_nil_r in Hz. rewrite Hz, Z.ltb_irrefl. unfold ev_call. cbn. rewrite app_nil_r. by destruct e.
  - rewrite zlen_app, zlen_cons in Hz. pose proof (zlen_nonneg hs). rewrite (proj2 (Z.ltb_lt _ _)) by lia.
    destruct (events s) as [|l|] eqn:Ev; [by destruct done| |done]. destruct He as [rest ->].
    assert (((done ++ x :: hs) ++ rest) !! Z.to_nat (zlen done) = Some x) as ->.
    { unfold zlen. rewrite Nat2Z.id, <- app_assoc. by apply list_lookup_middle. }
    cbn [mbind option_bind]. specialize (IH n (done ++ [x])). assert (zlen (done ++ [x]) = zlen done + 1) as Ed by (by rewrite zlen_app).
    rewrite Ed, <- app_assoc in IH. cbn [app] in IH.
    unfold ev_call. cbn [List.filter]. simpl in Hn.
    destruct (ev_id x =? id); cbn [call_event recording mbind option_bind map fst snd];
      rewrite IH by (rewrite ?zlen_app, ?zlen_cons; eauto; lia); cbn [clock called]; by rewrite <- ?app_assoc.
Qed.

(** After any registrations and removals of handlers from start-up, an event is given to the
    state machine with its message, then to exactly the handlers registered for it and not
    removed, in the order of their registration; the timers and handlers stay as they are. *)
Theorem event_reaches_handlers ops s s0 m e n :
  handlers s [] -> terminate s = false -> zlen ops < 2 ^ 28 -> ev_run ops s = Some s0 ->
  ELOOP_EVENT_GET_EV (event_id m) <> ELOOP_EVENT_WAKEUP -> ELOOP_EVENT_GET_EV (event_id m) <> ELOOP_EVENT_TERMINATE ->
  (length (ev_left ops) < n)%nat ->
  eloop_event_dispatch n m (s0, e) =
    Some (s0, mk_rec (clock e) (called e ++ (clock e, (0, 0, event_id m)) :: ev_call (clock e) (event_id m) (ev_left ops))).
Proof.
  intros H Ht Hz Hr H1 H2 Hn. destruct (ev_run_ok ops s [] H Ht) as (s' & E & Ht' & H').
  { destruct H as (_ & Hz0 & _). rewrite zlen_nil in Hz0. lia. }
  rewrite Hr in E. injection E as <-. unfold eloop_event_dispatch.
  assert (u16 (ELOOP_EVENT_GET_EV (event_id m)) = ELOOP_EVENT_GET_EV (event_id m)) as ->.
  { apply wrap16_small. unfold ELOOP_EVENT_GET_EV. change 0xFFF with (Z.ones 12). rewrite Z.land_ones by lia.
    pose proof (Z.mod_pos_bound (event_id m) (2 ^ 12)). lia. }
  rewrite (proj2 (Z.eqb_neq _ _) H1), (proj2 (Z.eqb_neq _ _) H2).
  cbn [wifi_mgmt_cb_run_state_machine recording mbind option_bind fst snd].
  pose proof (dispatch_loop_ok n s0 [] (ev_left ops) (event_id m)) as Hd. rewrite zlen_nil in Hd.
  rewrite Hd by done. cbn [clock called]. by rewrite <- app_assoc.
Qed.

(** ** Any requests, at any times *)

Inductive request :=
| RqEvent (mem : bool) (id h data user : Z) | RqNoEvent (id h : Z)
| RqTimeout (timeout now msecs h data user : Z) | RqCancel (h data user : Z) | RqCancelAll
| RqIsRegistered (h data user : Z) | RqHandle (now : Z) | RqTerminate | RqDestroy.

Definition serve (r : request) (s : st) : option st :=
  match r with
  | RqEvent mem id h d u => snd <$> eloop_event_register mem id h d u s
  | RqNoEvent id h => eloop_event_unregister id h s
  | RqTimeout a now msecs h d u => snd <$> eloop_timeout_register head a now msecs h d u s
  | RqCancel h d u => snd <$> eloop_timeout_cancel head h d u s
  | RqCancelAll => snd <$> eloop_timeout_all_cancel head s
  | RqIsRegistered h d u => _ ← eloop_timeout_is_registered head h d u s; Some s
  | RqHandle now => fst <$> eloop_timeout_handle head (s, mk_rec now [])
  | RqTerminate => fst <$> eloop_event_dispatch 1 (mk_message ELOOP_EVENT_TERMINATE 0 0 0) (s, mk_rec 0 [])
  | RqDestroy => fst <$> wifi_eloop_destroy head 1 (s, mk_rec 0 [])
  end.

(** What the allocator gives is new, an array of 2^32 bytes is refused, and the loop is
    destroyed after it has ended. *)
Definition request_ok (s : st) (r : request) : Prop :=
  match r with
  | RqEvent mem _ _ _ _ => mem = true -> event_count s + 1 < 2 ^ 28
  | RqTimeout a _ _ _ _ _ => a = 0 \/ a ∉ dom (nodes s)
  | RqDestroy => terminate s = true
  | _ => True
  end.

(** The list and its timers are well formed, the times are 32-bit numbers, the count is in the array. *)
Definition typed (s : st) : Prop :=
  (exists le, rep head s le /\ Forall (fun x => in_w 32 (time x.2)) le) /\
  match events s with Freed => terminate s = true | _ => exists hs, handlers s hs end.

(** Handling compares times whose difference is not defined. *)
Definition overflows (r : request) (s : st) : Prop :=
  exists now x le, r = RqHandle now /\ rep head s (x :: le) /\ sub_int (u32 now) (time x.2) = None.

Lemma typed_timers s s' le : typed s -> same_events s s' -> rep head s' le -> Forall (fun x => in_w 32 (time x.2)) le -> typed s'.
Proof.
  intros [_ He] (Ec & Ee & Et) R Hl. split; [by exists le|]. unfold handlers in *. by rewrite Ee, Ec, Et.
Qed.

Lemma typed_removed sel s : typed s ->
  exists n s', remove_all head sel s = Some (n, s') /\ typed s' /\ same_events s s'.
Proof.
  intros T. pose proof T as [(le & R & Hl) _]. destruct (remove_all_ok head sel s le R) as (s' & E & R' & F).
  exists (zlen (chosen sel le)), s'. split; [done|]. split; [|done]. eapply typed_timers; [done|done|done|].
  apply Forall_forall. intros x [Hx _]%list_elem_of_In%filter_In. by apply (proj1 (Forall_forall _ _) Hl), list_elem_of_In.
Qed.

Lemma typed_events s s' hs : typed s -> handlers s' hs -> nodes s' = nodes s -> timers s' = timers s -> typed s'.
Proof.
  intros [(le & R & Hl) _] H En Et. split.
  - exists le. split; [|done]. destruct R. by split; rewrite ?En, ?Et.
  - destruct (events s') eqn:E; [by exists hs|by exists hs|]. destruct H as (_ & _ & H). by rewrite E in H.
Qed.

Lemma typed_handlers s : typed s -> terminate s = false -> exists hs, handlers s hs.
Proof. intros [_ H] Ht. destruct (events s); [done|done|]. congruence. Qed.

Lemma typed_handle now s : typed s -> (exists s', serve (RqHandle now) s = Some s' /\ typed s') \/
  serve (RqHandle now) s = None /\ overflows (RqHandle now) s.
Proof.
  intros T. pose proof T as [(le & R & Hl) _]. unfold serve, eloop_timeout_handle.
  rewrite (first_entry_ok _ _ _ R). cbn [mbind option_bind sys_current_time_get recording clock]. destruct le as [|x le].
  - left. by exists s.
  - rewrite (proj2 (Z.eqb_neq x.1 0)) by (intros E; apply (rp_zero _ _ _ R); cbn; rewrite E; set_solver).
    rewrite (rep_lookup _ _ _ x R) by by left. cbn [mbind option_bind]. unfold SYS_TIME_AFTER_EQ.
    destruct (sub_int (u32 now) (time x.2)) as [d|] eqn:Ed; [left|by right; split; [|exists now, x, le]].
    cbn [mbind option_bind]. destruct (0 <=? d); [|by exists s].
    destruct (timer_remove_ok head s [] x le R) as (s' & E & R' & F & _). rewrite E. exists s'. split; [done|].
    apply Forall_cons in Hl as [_ Hl]. by eapply typed_timers.
Qed.

(** The array of the handlers is freed a second time. *)
Definition frees_twice (r : request) (s : st) : Prop := r = RqDestroy /\ events s = Freed.

(** C31: whatever is requested of the loop, in any order and at any times, up to its end and after
    it: no call reads or writes outside its memory, follows a dangling node or loops for ever,
    and the data stay well formed. Two requests have no defined result, and no other: handling
    timers when the signed difference of the first one's time and the clock is out of range, and destroying the loop when
    it has been destroyed and had handlers, which frees their array twice. *)
Theorem eloop_type_safe s r : typed s -> request_ok s r ->
  (exists s', serve r s = Some s' /\ typed s') \/ serve r s = None /\ (overflows r s \/ frees_twice r s).
Proof.
  intros T Hok. destruct r as [mem id h d u|id h|a now msecs h d u|h d u| |h d u|now| |];
    [left..|destruct (typed_handle now s T) as [|[? ?]]; [by left|by right; auto]|left|];
    cbn [serve request_ok] in *.
  - destruct (terminate s) eqn:Ht; [unfold eloop_event_register; rewrite Ht; by exists s|].
    destruct (typed_handlers s T Ht) as [hs H]. destruct mem.
    + destruct (register_event_ok s hs id h d u H Ht (Hok eq_refl)) as (s' & -> & H' & En & Et & _). exists s'.
      split; [done|by eapply typed_events].
    + exists s. split; [|done]. unfold eloop_event_register. rewrite Ht. destruct (events s) eqn:E; [done|done|].
      destruct H as (_ & _ & H). by rewrite E in H.
  - destruct (terminate s) eqn:Ht; [unfold eloop_event_unregister; rewrite Ht; by exists s|].
    destruct (typed_handlers s T Ht) as [hs H].
    destruct (unregister_event_ok s hs id h H Ht) as (s' & -> & H' & En & Et & _). exists s'. split; [done|by eapply typed_events].
  - destruct (terminate s) eqn:Ht; [unfold eloop_timeout_register; rewrite Ht; by exists s|].
    destruct (Z.eq_dec a 0) as [->|H0]; [unfold eloop_timeout_register; rewrite Ht; by exists s|].
    destruct Hok as [|Ha]; [done|]. pose proof T as [(le & R & Hl) _].
    destruct (register_ok head s le a now msecs h d u R Ha H0 Ht) as (s' & -> & R' & F). exists s'. split; [done|].
    eapply typed_timers; [done|done|exact R'|]. rewrite place_perm. constructor; [apply wrap_range; lia|done].
  - destruct (typed_removed (cancels h d u) s T) as (n & s' & E & T' & _). unfold eloop_timeout_cancel.
    destruct (terminate s); [by exists s|]. rewrite E. by exists s'.
  - destruct (typed_removed (fun _ => true) s T) as (n & s' & E & T' & _). unfold eloop_timeout_all_cancel.
    rewrite E. by exists s'.
  - pose proof T as [(le & R & _) _]. rewrite (is_registered_ok _ _ _ _ _ _ R). by exists s.
  - exists (set_terminate s). split; [done|]. destruct T as [(le & R & Hl) He]. split.
    + exists le. split; [|done]. by destruct R.
    + cbn. by destruct (events s).
  - unfold wifi_eloop_destroy. cbn [flush_loop sys_task_msg_num sys_current_time_get recording Z.eqb negb mbind option_bind].
    destruct (typed_removed (fun _ => true) s T) as (n & s' & E & T' & (_ & Ee & Et)). rewrite E. cbn [mbind option_bind].
    pose proof T' as [(le & R & Hl) _].
    destruct (events s') eqn:Ev; [left; by eexists|left; eexists|right; split; [done|right; split; [done|congruence]]].
    split; [reflexivity|]. cbn [fst]. split; [exists le; split; [by destruct R|done]|cbn; congruence].
Qed.

(** Nothing is left after the end. *)
Lemma destroy_frees_all s le : rep head s le -> events s <> Freed ->
  exists s' e, wifi_eloop_destroy head 1 (s, mk_rec 0 []) = Some (s', e) /\
    timers s' = ∅ /\ dom (nodes s') = {[head]} /\ (events s' = Null \/ events s' = Freed).
Proof.
  intros R Hf. destruct (remove_all_ok head (fun _ => true) s le R) as (s' & E & R' & (_ & Ee' & _)).
  unfold wifi_eloop_destroy. cbn [flush_loop sys_task_msg_num sys_current_time_get recording Z.eqb negb mbind option_bind].
  rewrite E. cbn [mbind option_bind].
  assert (kept (fun _ => true) le = []) as Ek by (clear; by induction le).
  rewrite Ek in R'. pose proof (rp_nodes _ _ _ R') as Hn. pose proof (rp_timers _ _ _ R') as Ht. cbn in Hn, Ht.
  destruct (events s') eqn:Ee; [..|congruence]; eexists _, _; (split; [reflexivity|]); cbn; rewrite ?Hn, ?Ht, ?Ee;
    (split; [done|]; split; [set_solver|auto]).
Qed.

End Loop.
(** ** Closed examples *)

Definition st0 : st := mk_st ∅ ∅ 0 Null false.
Definition start : st := match wifi_eloop_init 16 st0 with Some (_, s) => s | None => st0 end.

(** A run of the timers of two handlers, one of them registered twice for the same time. *)
Definition demo_ops : list op :=
  [Register 100 50 7 1 0; Register 110 40 7 2 0; Register 120 5 8 3 0; IsRegistered 7 2 0; Handle 124; Handle 125;
   Register 130 500 8 9 0; Handle 150; Cancel 8 ELOOP_ALL_CTX ELOOP_ALL_CTX; Handle 151; Handle 900; CancelAll].

Definition demo_client : client (Op := op) (Obs := obs) := fun seen => demo_ops !! length seen.

Lemma timer_client_obeys : obeys op_ok spec_step [] demo_client.
Proof.
  assert (Forall (fun o => forall l, op_ok l o) demo_ops) as H.
  { repeat (apply Forall_cons; split); try apply Forall_nil_2; intros l; cbn [op_ok]; unfold horizon; lia || done. }
  intros seen l o _ Ho. by apply (Forall_lookup_1 _ _ _ _ H Ho).
Qed.

Lemma eloop_serves_calendar_witness :
  exists s0 seen s' l, wifi_eloop_init 16 st0 = Some (0, s0) /\ run (step 16 some_fresh) demo_client 12 [] s0 = Some (seen, s') /\
    after op_ok spec_step [] demo_client seen l /\ size (timers s') = length l.
Proof.
  apply (eloop_serves_calendar 16 some_fresh some_fresh_fresh demo_client 12 st0); [done|done|done|]. exact timer_client_obeys.
Defined.

Example timer_client_sees : fst <$> run (step 16 some_fresh) demo_client 12 [] start =
  Some [Num 0; Num 0; Num 0; Num 1; Called []; Called [(8, 3, 0)]; Num 0; Called [(7, 1, 0)]; Num 1; Called [(7, 2, 0)]; Called []; Num 0].
Proof. by vm_compute. Qed.

(** A state with the timers [l]. *)
Lemma timer_state : forall a now msecs, a ∉ dom (nodes start) -> a <> 0 ->
  exists s, rep 16 s [(a, mk_timeout (u32 (now + msecs)) 1 2 7)] /\ terminate s = false /\ dom (nodes s) = {[16; a]}.
Proof.
  intros a now msecs Ha H0. destruct (init_rep 16 st0) as (s0 & E & R & _ & _ & Hs); [done|done|done|].
  assert (s0 = start) as -> by (unfold start; by rewrite E).
  destruct (register_ok 16 start [] a now msecs 7 1 2 R Ha H0 Hs) as (s & _ & R' & _ & _ & Ht).
  exists s. split; [exact R'|]. split; [congruence|]. rewrite (rp_nodes _ _ _ R'). cbn. set_solver.
Qed.

Lemma clock_middle_undefined_witness : exists s,
  terminate s = false /\ eloop_timeout_handle 16 (s, mk_rec (2 ^ 31 - 10) []) = None.
Proof.
  destruct (timer_state 32 (2 ^ 31 - 1000) 2000) as (s & R & Ht & _); [by vm_compute|done|]. exists s. split; [done|].
  eapply (clock_middle_undefined 16 s [] _ (mk_rec (2 ^ 31 - 10) []) R); cbn; unfold wrap; rewrite ?Z.mod_small; lia.
Defined.

(** A timer due at 2^32 - 50, and one of a second registered at 2^32 - 100. *)
Lemma clock_end_starves_witness : exists s s',
  timers s !! 32 = Some (mk_timeout (2 ^ 32 - 50) 1 2 7) /\
  eloop_timeout_register 16 48 (2 ^ 32 - 100) 1000 8 0 0 s = Some (0, s') /\
  eloop_timeout_handle 16 (s', mk_rec (2 ^ 32 - 1) []) = Some (s', mk_rec (2 ^ 32 - 1) []).
Proof.
  destruct (timer_state 32 (2 ^ 32 - 60) 10) as (s & R & Ht & Hd); [by vm_compute|done|]. exists s.
  destruct (clock_end_starves 16 s _ 48 (2 ^ 32 - 100) 1000 8 0 0 R) as (s' & E & H); [..|exists s'].
  - rewrite Hd. set_solver.
  - done.
  - done.
  - lia.
  - lia.
  - lia.
  - by repeat constructor.
  - split; [|split; [done|apply H; cbn; lia]]. rewrite (rp_timers _ _ _ R). cbn. by rewrite lookup_insert_eq.
Defined.

Lemma loop_runs_all_witness : exists s s' c, rep_calendar 16 s [mk_timeout 150 1 2 7] /\
  wifi_eloop_run 16 1 1 (s, mk_rec 120 []) = Some (false, (s', mk_rec c [(150, (7, 1, 2))])) /\ rep_calendar 16 s' [].
Proof.
  destruct (timer_state 32 100 50) as (s & R & Ht & _); [by vm_compute|done|]. exists s.
  assert (rep_calendar 16 s [mk_timeout 150 1 2 7]) as Hrep.
  { split; [done|]. split; [by repeat constructor|]. by exists [(32, mk_timeout 150 1 2 7)]. }
  destruct (loop_runs_all 16 1 s [mk_timeout 150 1 2 7] (mk_rec 120 []) Hrep) as (s' & c & H); [by unfold horizon|].
  exists s', c. split; [exact Hrep|exact H].
Defined.

Definition demo_events : list ev_op := [On 0x1005 7 1 2; On 0x2005 8 0 0; On 0x1005 9 3 4; On 0x1005 7 5 6; Off 0x1005 7].

Lemma event_reaches_handlers_witness : exists s,
  ev_run demo_events start = Some s /\
  eloop_event_dispatch 4 (mk_message 0x1005 0 0 0) (s, mk_rec 5 []) =
    Some (s, mk_rec 5 [(5, (0, 0, 0x1005)); (5, (9, 3, 4)); (5, (7, 5, 6))]).
Proof.
  destruct (ev_run demo_events start) as [s|] eqn:E; [exists s|by vm_compute in E]. split; [done|].
  assert (handlers start []) as H by (by vm_compute).
  exact (event_reaches_handlers demo_events start s (mk_message 0x1005 0 0 0) (mk_rec 5 []) 4 H eq_refl ltac:(by vm_compute) E
    ltac:(by vm_compute) ltac:(by vm_compute) ltac:(cbn; lia)).
Defined.

Lemma eloop_type_safe_witness : typed 16 start /\
  exists s', serve 16 (RqTimeout 32 (2 ^ 32 - 1) 500 7 0 0) start = Some s' /\ typed 16 s'.
Proof.
  assert (typed 16 start) as T.
  { destruct (init_rep 16 st0) as (s0 & E & R & Ec & Ee & _); [done|done|done|].
    assert (s0 = start) as -> by (unfold start; by rewrite E). split; [by exists []|]. by exists []. }
  split; [exact T|].
  destruct (eloop_type_safe 16 start (RqTimeout 32 (2 ^ 32 - 1) 500 7 0 0) T) as [H|[_ [(now & x & le & E & _)|[E _]]]];
    [|exact H|discriminate E|discriminate E].
  right. by vm_compute.
Defined.

End EloopProps.
