(* ===== verification/EloopTimers.v ===== *)
(** * The event loop keeps the interface of its clients

    [Eloop], with a clock and an allocator, is an instance of [Timers]. *)
From S2P Require Import Prelude DList Timers Eloop EloopSpec EloopProps.
Open Scope Z_scope.

Module EloopTimers.
Import DList Eloop EloopSpec EloopProps.

Section Instance.
Context (head : Z).
(** The loop has not ended and its list is well formed. *)
Definition running (s : st) : Prop := terminate s = false /\ exists le, rep head s le.

(** The timers in the order of the list. *)
Fixpoint entries (n : nat) (s : st) (a : Z) : list timer :=
  match n with
  | O => []
  | S n =>
      match timers s !! a, nxt (nodes s) a with
      | Some t, Some b => args t :: entries n s b
      | _, _ => []
      end
  end.
Definition waiting (s : st) : list timer :=
  match nxt (nodes s) head with Some a => entries (DList.fuel (nodes s)) s a | None => [] end.

Lemma entries_ok n s l1 l2 : rep head s (l1 ++ l2) -> timers s !! head = None -> (length l2 < n)%nat ->
  entries n s (List.hd head l2.*1) = map (fun x => args x.2) l2.
Proof.
  revert n l1. induction l2 as [|x l2 IH]; intros n l1 R Hh Hf; (destruct n as [|n]; [simpl in Hf; lia|]);
    cbn [entries List.hd fmap list_fmap map].
  - by rewrite Hh.
  - rewrite (rep_lookup head s (l1 ++ x :: l2) x R) by set_solver.
    pose proof (rep_walk head _ _ _ R) as Hb. cbn [fmap list_fmap] in Hb. apply back_cons in Hb as [[Hn _] _].
    rewrite Hn. f_equal. apply (IH n (l1 ++ [x])); [by rewrite <- app_assoc|done|simpl in Hf; lia].
Qed.

Lemma waiting_ok s le : rep head s le -> waiting s = map (fun x => args x.2) le.
Proof.
  intros R. unfold waiting. destruct (dl_back _ _ _ (rp_list _ _ _ R)) as [-> _].
  pose proof (timer_fuel head s le R). apply (entries_ok _ s [] le R); [|done].
  rewrite (rp_timers _ _ _ R). apply not_elem_of_list_to_map_1.
  destruct (rp_list _ _ _ R) as [_ H0]. by apply NoDup_cons in H0 as [? _].
Qed.

Lemma kept_args h d u le :
  map (fun x => args x.2) (kept (cancels h d u) le) =
    List.filter (fun x => negb (timer_matches h d u x)) (map (fun x : entry => args x.2) le).
Proof.
  induction le as [|x le IH]; [done|]. unfold kept in *. cbn [List.filter map].
  change (timer_matches h d u (args x.2)) with (cancels h d u x.2).
  destruct (cancels h d u x.2); cbn [negb map]; by rewrite IH.
Qed.

Lemma registered_args h d u le :
  existsb (fun x : entry => is_timer h d u x.2) le = bool_decide ((h, d, u) ∈ map (fun x : entry => args x.2) le).
Proof.
  induction le as [|x le IH]; [done|]. cbn [existsb map]. rewrite IH.
  assert (is_timer h d u x.2 = bool_decide ((h, d, u) = args x.2)) as ->.
  { unfold is_timer, args. apply eq_true_iff_eq. rewrite !andb_true_iff, !Z.eqb_eq, bool_decide_eq_true.
    split; [intros [[-> ->] ->]; done|by intros [= -> -> ->]]. }
  apply eq_true_iff_eq. rewrite orb_true_iff, !bool_decide_eq_true, elem_of_cons. done.
Qed.

(** The allocator, and what the clock reads. *)
Context (alloc : gset Z -> Z).
Hypothesis alloc_fresh : forall X, alloc X = 0 \/ alloc X ∉ X.
Context (now : st -> Z).

#[export] Instance eloop_timers : Timers st := {|
  timeout_register msecs h d u s := eloop_timeout_register head (alloc (dom (nodes s))) (now s) msecs h d u s;
  timeout_cancel h d u s := eloop_timeout_cancel head h d u s;
  timeout_is_registered h d u s := eloop_timeout_is_registered head h d u s
|}.

#[export] Program Instance eloop_timers_laws : TimersLaws st (timers := eloop_timers) :=
  {| timers_ok := running; pending := waiting |}.
Next Obligation.
  intros msecs h d u s [Hs [le R]]. cbn [timeout_register eloop_timers].
  destruct (Z.eq_dec (alloc (dom (nodes s))) 0) as [->|H0].
  - unfold eloop_timeout_register. rewrite Hs. exists (-1), s. split; [done|]. split; [split; [done|by exists le]|by right].
  - destruct (alloc_fresh (dom (nodes s))) as [|Ha]; [done|].
    destruct (register_ok head s le _ (now s) msecs h d u R Ha H0 Hs) as (s' & -> & R' & _ & _ & Ht).
    exists 0, s'. split; [done|]. split; [split; [congruence|by eexists]|]. left. split; [done|].
    rewrite (waiting_ok s' _ R'), (waiting_ok s le R), place_perm. done.
Qed.
Next Obligation.
  intros h d u s [Hs [le R]]. cbn [timeout_cancel eloop_timers]. unfold eloop_timeout_cancel. rewrite Hs.
  destruct (remove_all_ok head (cancels h d u) s le R) as (s' & -> & R' & _ & _ & Ht). eexists _, s'. split; [done|].
  split; [split; [congruence|by eexists]|]. by rewrite (waiting_ok s' _ R'), (waiting_ok s le R), kept_args.
Qed.
Next Obligation.
  intros h d u s [Hs [le R]]. cbn [timeout_is_registered eloop_timers].
  by rewrite (is_registered_ok head s le h d u R), (waiting_ok s le R), registered_args.
Qed.

End Instance.
End EloopTimers.
