(* ===== verification/WifiMgmt.v ===== *)
(** * The Wi-Fi manager's state machines

    Model of [src/gd32_os/MSDK/wifi_manager/wifi_management.c] as it is configured by
    [wlan_config.h] and [app_cfg.h]: two interfaces, soft access point, concurrent mode and
    fast transition; no WPS, no IPv6, the SDK's own supplicant. What the driver, the
    supplicant and the network stack do is an interface that answers calls. *)
From S2P Require Import Prelude Timers.
Open Scope Z_scope.
Open Scope fw_scope.

Module WifiMgmt.

(** ** Events and reasons *)

(** Of the events of the manager; [EVENT_OTHER] stands for the numbers that are none. *)
Inductive wifi_management_event_t :=
| EVENT_INIT | EVENT_SWITCH_MODE_CMD | EVENT_RX_MGMT | EVENT_RX_EAPOL
| EVENT_SCAN_CMD | EVENT_CONNECT_CMD | EVENT_DISCONNECT_CMD | EVENT_AUTO_CONNECT_CMD | EVENT_WPS_CMD
| EVENT_SCAN_DONE | EVENT_SCAN_FAIL | EVENT_SCAN_RESULT | EVENT_EXTERNAL_AUTH_REQUIRED | EVENT_ASSOC_SUCCESS
| EVENT_DHCP_START | EVENT_DHCP_SUCCESS | EVENT_DHCP_FAIL | EVENT_CONNECT_SUCCESS | EVENT_CONNECT_FAIL
| EVENT_DISCONNECT | EVENT_ROAMING_START | EVENT_RX_UNPROT_DEAUTH | EVENT_RX_ACTION
| EVENT_WPS_SUCCESS | EVENT_WPS_FAIL | EVENT_WPS_CRED
| EVENT_START_AP_CMD | EVENT_STOP_AP_CMD | EVENT_AP_SWITCH_CHNL_CMD
| EVENT_TX_MGMT_DONE | EVENT_CLIENT_ADDED | EVENT_CLIENT_REMOVED
| EVENT_MONITOR_START_CMD | EVENT_EAP_SUCCESS | EVENT_FT_AUTH | EVENT_FT_ROAMING_CMD
| EVENT_OTHER (n : Z).

(** [WIFI_MGMT_EVENT_INIT] is 5, the others follow. *)
Definition event_list : list wifi_management_event_t :=
  [EVENT_INIT; EVENT_SWITCH_MODE_CMD; EVENT_RX_MGMT; EVENT_RX_EAPOL;
   EVENT_SCAN_CMD; EVENT_CONNECT_CMD; EVENT_DISCONNECT_CMD; EVENT_AUTO_CONNECT_CMD; EVENT_WPS_CMD;
   EVENT_SCAN_DONE; EVENT_SCAN_FAIL; EVENT_SCAN_RESULT; EVENT_EXTERNAL_AUTH_REQUIRED; EVENT_ASSOC_SUCCESS;
   EVENT_DHCP_START; EVENT_DHCP_SUCCESS; EVENT_DHCP_FAIL; EVENT_CONNECT_SUCCESS; EVENT_CONNECT_FAIL;
   EVENT_DISCONNECT; EVENT_ROAMING_START; EVENT_RX_UNPROT_DEAUTH; EVENT_RX_ACTION;
   EVENT_WPS_SUCCESS; EVENT_WPS_FAIL; EVENT_WPS_CRED;
   EVENT_START_AP_CMD; EVENT_STOP_AP_CMD; EVENT_AP_SWITCH_CHNL_CMD;
   EVENT_TX_MGMT_DONE; EVENT_CLIENT_ADDED; EVENT_CLIENT_REMOVED;
   EVENT_MONITOR_START_CMD; EVENT_EAP_SUCCESS; EVENT_FT_AUTH; EVENT_FT_ROAMING_CMD].
Definition WIFI_MGMT_EVENT_INIT : Z := 5.
Definition event_of (n : Z) : wifi_management_event_t :=
  default (EVENT_OTHER n) (event_list !! Z.to_nat (n - WIFI_MGMT_EVENT_INIT)).

Definition WIFI_MGMT_CONN_NO_AP : Z := 2.
Definition WIFI_MGMT_CONN_DHCP_FAIL : Z := 6.
Definition WIFI_MGMT_DISCON_RECV_DEAUTH : Z := 11.
Definition WIFI_MGMT_DISCON_NO_BEACON : Z := 12.
Definition WIFI_MGMT_DISCON_UNSPECIFIED : Z := 15.
Definition WIFI_MGMT_DISCON_SA_QUERY_FAIL : Z := 16.
Definition WIFI_MGMT_SCAN_SUCCESS : Z := 0.
Definition WIFI_MGMT_SCAN_START_FAIL : Z := 1.
Definition WIFI_MGMT_SCAN_FAIL : Z := 2.
Definition MAC_ST_SUCCESSFUL : Z := 0.
Definition MAC_ST_FAILURE : Z := 1.

Definition WIFI_MGMT_ROAMING_RETRY_LIMIT : Z := 100.
Definition WIFI_MGMT_ROAMING_RETRY_INTERVAL : Z := 2500.
Definition WIFI_MGMT_CONNECT_RETRY_LIMIT : Z := 3.
Definition WIFI_MGMT_CONNECT_RETRY_INTERVAL : Z := 2000.
Definition WIFI_MGMT_MAX_RETRY_INTERVAL : Z := 7200000.
Definition WIFI_MGMT_ROAMING_RETRY_UNLIMITED : Z := 0xFFFFFFFF.
Definition WIFI_MGMT_DHCP_POLLING_LIMIT : Z := 200.
Definition WIFI_MGMT_DHCP_POLLING_INTERVAL : Z := 100.
Definition WIFI_MGMT_LINK_POLLING_INTERVAL : Z := 3000.
Definition WIFI_MGMT_POLLING_SCAN_TRIGGER_POINT : Z := 10.
Definition WIFI_MGMT_ROAMING_RSSI_RELATIVE_GAIN : Z := 10.
Definition VIF_RSSI_HYSTERESIS : Z := 5.
Definition MAC_AKM_FT_PSK : Z := 5.

(** The states: one variable for the three machines of an interface. *)
Definition MAINTAIN_CONNECTION_IDLE : Z := 0.
Definition MAINTAIN_CONNECTION_WPS : Z := 1.
Definition MAINTAIN_CONNECTION_SCAN : Z := 2.
Definition MAINTAIN_CONNECTION_CONNECT : Z := 3.
Definition MAINTAIN_CONNECTION_HANDSHAKE : Z := 4.
Definition MAINTAIN_CONNECTION_DHCP : Z := 5.
Definition MAINTAIN_CONNECTION_CONNECTED : Z := 6.
Definition MAINTAIN_SOFTAP_INIT : Z := 0.
Definition MAINTAIN_SOFTAP_STARTED : Z := 1.
Definition MAINTAIN_MONITOR_INIT : Z := 0.
Definition MAINTAIN_MONITOR_STARTED : Z := 1.

Definition WVIF_UNKNOWN : Z := 0.
Definition WVIF_STA : Z := 1.
Definition WVIF_AP : Z := 2.
Definition WVIF_MONITOR : Z := 3.
Definition CFG_VIF_NUM : Z := 2.
Definition WIFI_VIF_INDEX_DEFAULT : Z := 0.
Definition WIFI_VIF_INDEX_SOFTAP_MODE : Z := 1.
Definition WIFI_AP_STATE_INIT : Z := 0.
Definition WIFI_AP_STATE_STARTED : Z := 1.
Definition WIFI_STA_STATE_IDLE : Z := 0.
Definition WIFI_STA_STATE_SCAN : Z := 2.
Definition WIFI_STA_STATE_CONNECT : Z := 3.
Definition WIFI_STA_STATE_HANDSHAKE : Z := 4.
Definition WIFI_STA_STATE_IP_GETTING : Z := 5.
Definition WIFI_STA_STATE_CONNECTED : Z := 6.

(** The events of the queue a blocked caller waits on. *)
Definition MGMT_WAIT_EVT_SCAN_DONE : Z := 0.
Definition MGMT_WAIT_EVT_CONN_DONE : Z := 1.
Definition MGMT_WAIT_EVT_DISCONN_DONE : Z := 2.
Definition MGMT_WAIT_EVT_AP_START_DONE : Z := 3.
Definition MGMT_WAIT_EVT_MONITOR_START_DONE : Z := 4.

(** The two supplicant machines. *)
Definition WIFI_STA_SM_EAPOL : Z := 2.
Definition WIFI_STA_SM_SAE : Z := 1.

(** The callbacks of timers, as the numbers the event loop compares. *)
Definition mgmt_dhcp_polling_cb : Z := 1.
Definition mgmt_link_status_polling_cb : Z := 2.
Definition mgmt_connect_retry_cb : Z := 3.

(** ** Data

    The lengths of names and passwords are those of their lists; [prefs] are [scan_mode],
    [scan_mode_user_setted], [mfpr], [mfpr_user_setted] and [pci_en], in this order. *)
Record sta_cfg := mk_cfg {
  ssid : list Z;
  channel : Z;
  bssid : list Z;
  conn_with_bssid : bool;
  passphrase : list Z;
  conn_blocked : bool;
  flush_cache_req : bool;
  prefs : list Z
}.
Definition set_channel (v : Z) (r : sta_cfg) : sta_cfg := mk_cfg (ssid r) v (bssid r) (conn_with_bssid r) (passphrase r) (conn_blocked r) (flush_cache_req r) (prefs r).
Definition set_bssid (v : list Z) (r : sta_cfg) : sta_cfg := mk_cfg (ssid r) (channel r) v (conn_with_bssid r) (passphrase r) (conn_blocked r) (flush_cache_req r) (prefs r).
Definition set_conn_with_bssid (v : bool) (r : sta_cfg) : sta_cfg := mk_cfg (ssid r) (channel r) (bssid r) v (passphrase r) (conn_blocked r) (flush_cache_req r) (prefs r).
Definition set_conn_blocked (v : bool) (r : sta_cfg) : sta_cfg := mk_cfg (ssid r) (channel r) (bssid r) (conn_with_bssid r) (passphrase r) v (flush_cache_req r) (prefs r).

Definition zero_cfg : sta_cfg := mk_cfg [] 0 (replicate 6 0) false [] false false (replicate 5 0).
Record ap_cfg := mk_ap {
  ap_ssid : list Z;
  a_channel : Z;
  hidden : Z;
  ap_passphrase : list Z;
  ap_bssid : list Z;
  akm : Z;
  max_conn : Z
}.

(** What a message's parameter points to. *)
Inductive pdata := Cfg (c : sta_cfg) | Ap (a : ap_cfg) | Mon (channel : Z) | Buf (b : list Z).

(** [ft_domain]: the mobility domain of the fast transition data, if there is any. *)
Record wifi_sta := mk_sta {
  cfg : sta_cfg;
  sta_state : Z;
  ap_id : Z;
  last_reason : Z;
  history_ip : Z;
  ft_domain : option (list Z)
}.
Definition set_cfg (v : sta_cfg) (r : wifi_sta) : wifi_sta := mk_sta v (sta_state r) (ap_id r) (last_reason r) (history_ip r) (ft_domain r).
Definition set_sta_state (v : Z) (r : wifi_sta) : wifi_sta := mk_sta (cfg r) v (ap_id r) (last_reason r) (history_ip r) (ft_domain r).
Definition set_ap_id (v : Z) (r : wifi_sta) : wifi_sta := mk_sta (cfg r) (sta_state r) v (last_reason r) (history_ip r) (ft_domain r).
Definition set_last_reason (v : Z) (r : wifi_sta) : wifi_sta := mk_sta (cfg r) (sta_state r) (ap_id r) v (history_ip r) (ft_domain r).
Definition set_history_ip (v : Z) (r : wifi_sta) : wifi_sta := mk_sta (cfg r) (sta_state r) (ap_id r) (last_reason r) v (ft_domain r).

(** The members of the union of an interface are fields of their own; [reread] says what
    one reads as after another has been in use. *)
Record wifi_vif_tag := mk_vif {
  wvif_type : Z;
  sta : wifi_sta;
  ap_state : Z;
  ap_channel : Z;
  ap_max_conn : Z
}.
Definition set_wvif_type (v : Z) (r : wifi_vif_tag) : wifi_vif_tag := mk_vif v (sta r) (ap_state r) (ap_channel r) (ap_max_conn r).
Definition set_sta (v : wifi_sta) (r : wifi_vif_tag) : wifi_vif_tag := mk_vif (wvif_type r) v (ap_state r) (ap_channel r) (ap_max_conn r).
Definition set_ap_state (v : Z) (r : wifi_vif_tag) : wifi_vif_tag := mk_vif (wvif_type r) (sta r) v (ap_channel r) (ap_max_conn r).
Definition set_ap_channel (v : Z) (r : wifi_vif_tag) : wifi_vif_tag := mk_vif (wvif_type r) (sta r) (ap_state r) v (ap_max_conn r).
Definition set_ap_max_conn (v : Z) (r : wifi_vif_tag) : wifi_vif_tag := mk_vif (wvif_type r) (sta r) (ap_state r) (ap_channel r) v.

Record wifi_management_sm_data := mk_sm {
  vif_idx : Z;
  init : bool;
  sm_state : Z;
  event : wifi_management_event_t;
  reason : Z;
  param : option pdata;
  param_len : Z;
  dhcp_polling_count : Z;
  delayed_connect_retry : bool;
  retry_count : Z;
  retry_limit : Z;
  retry_interval : Z;
  preroam_enable : bool;
  preroam_start : bool;
  polling_scan : bool;
  polling_scan_count : Z;
  preroam_bssid_bk : list Z;
  scan_blocked : bool
}.
Definition set_vif_idx (v : Z) (r : wifi_management_sm_data) : wifi_management_sm_data := mk_sm v (init r) (sm_state r) (event r) (reason r) (param r) (param_len r) (dhcp_polling_count r) (delayed_connect_retry r) (retry_count r) (retry_limit r) (retry_interval r) (preroam_enable r) (preroam_start r) (polling_scan r) (polling_scan_count r) (preroam_bssid_bk r) (scan_blocked r).
Definition set_init (v : bool) (r : wifi_management_sm_data) : wifi_management_sm_data := mk_sm (vif_idx r) v (sm_state r) (event r) (reason r) (param r) (param_len r) (dhcp_polling_count r) (delayed_connect_retry r) (retry_count r) (retry_limit r) (retry_interval r) (preroam_enable r) (preroam_start r) (polling_scan r) (polling_scan_count r) (preroam_bssid_bk r) (scan_blocked r).
Definition set_sm_state (v : Z) (r : wifi_management_sm_data) : wifi_management_sm_data := mk_sm (vif_idx r) (init r) v (event r) (reason r) (param r) (param_len r) (dhcp_polling_count r) (delayed_connect_retry r) (retry_count r) (retry_limit r) (retry_interval r) (preroam_enable r) (preroam_start r) (polling_scan r) (polling_scan_count r) (preroam_bssid_bk r) (scan_blocked r).
Definition set_event (v : wifi_management_event_t) (r : wifi_management_sm_data) : wifi_management_sm_data := mk_sm (vif_idx r) (init r) (sm_state r) v (reason r) (param r) (param_len r) (dhcp_polling_count r) (delayed_connect_retry r) (retry_count r) (retry_limit r) (retry_interval r) (preroam_enable r) (preroam_start r) (polling_scan r) (polling_scan_count r) (preroam_bssid_bk r) (scan_blocked r).
Definition set_reason (v : Z) (r : wifi_management_sm_data) : wifi_management_sm_data := mk_sm (vif_idx r) (init r) (sm_state r) (event r) v (param r) (param_len r) (dhcp_polling_count r) (delayed_connect_retry r) (retry_count r) (retry_limit r) (retry_interval r) (preroam_enable r) (preroam_start r) (polling_scan r) (polling_scan_count r) (preroam_bssid_bk r) (scan_blocked r).
Definition set_param (v : option pdata) (r : wifi_management_sm_data) : wifi_management_sm_data := mk_sm (vif_idx r) (init r) (sm_state r) (event r) (reason r) v (param_len r) (dhcp_polling_count r) (delayed_connect_retry r) (retry_count r) (retry_limit r) (retry_interval r) (preroam_enable r) (preroam_start r) (polling_scan r) (polling_scan_count r) (preroam_bssid_bk r) (scan_blocked r).
Definition set_param_len (v : Z) (r : wifi_management_sm_data) : wifi_management_sm_data := mk_sm (vif_idx r) (init r) (sm_state r) (event r) (reason r) (param r) v (dhcp_polling_count r) (delayed_connect_retry r) (retry_count r) (retry_limit r) (retry_interval r) (preroam_enable r) (preroam_start r) (polling_scan r) (polling_scan_count r) (preroam_bssid_bk r) (scan_blocked r).
Definition set_dhcp_polling_count (v : Z) (r : wifi_management_sm_data) : wifi_management_sm_data := mk_sm (vif_idx r) (init r) (sm_state r) (event r) (reason r) (param r) (param_len r) v (delayed_connect_retry r) (retry_count r) (retry_limit r) (retry_interval r) (preroam_enable r) (preroam_start r) (polling_scan r) (polling_scan_count r) (preroam_bssid_bk r) (scan_blocked r).
Definition set_delayed_connect_retry (v : bool) (r : wifi_management_sm_data) : wifi_management_sm_data := mk_sm (vif_idx r) (init r) (sm_state r) (event r) (reason r) (param r) (param_len r) (dhcp_polling_count r) v (retry_count r) (retry_limit r) (retry_interval r) (preroam_enable r) (preroam_start r) (polling_scan r) (polling_scan_count r) (preroam_bssid_bk r) (scan_blocked r).
Definition set_retry_count (v : Z) (r : wifi_management_sm_data) : wifi_management_sm_data := mk_sm (vif_idx r) (init r) (sm_state r) (event r) (reason r) (param r) (param_len r) (dhcp_polling_count r) (delayed_connect_retry r) v (retry_limit r) (retry_interval r) (preroam_enable r) (preroam_start r) (polling_scan r) (polling_scan_count r) (preroam_bssid_bk r) (scan_blocked r).
Definition set_retry_limit (v : Z) (r : wifi_management_sm_data) : wifi_management_sm_data := mk_sm (vif_idx r) (init r) (sm_state r) (event r) (reason r) (param r) (param_len r) (dhcp_polling_count r) (delayed_connect_retry r) (retry_count r) v (retry_interval r) (preroam_enable r) (preroam_start r) (polling_scan r) (polling_scan_count r) (preroam_bssid_bk r) (scan_blocked r).
Definition set_retry_interval (v : Z) (r : wifi_management_sm_data) : wifi_management_sm_data := mk_sm (vif_idx r) (init r) (sm_state r) (event r) (reason r) (param r) (param_len r) (dhcp_polling_count r) (delayed_connect_retry r) (retry_count r) (retry_limit r) v (preroam_enable r) (preroam_start r) (polling_scan r) (polling_scan_count r) (preroam_bssid_bk r) (scan_blocked r).
Definition set_preroam_enable (v : bool) (r : wifi_management_sm_data) : wifi_management_sm_data := mk_sm (vif_idx r) (init r) (sm_state r) (event r) (reason r) (param r) (param_len r) (dhcp_polling_count r) (delayed_connect_retry r) (retry_count r) (retry_limit r) (retry_interval r) v (preroam_start r) (polling_scan r) (polling_scan_count r) (preroam_bssid_bk r) (scan_blocked r).
Definition set_preroam_start (v : bool) (r : wifi_management_sm_data) : wifi_management_sm_data := mk_sm (vif_idx r) (init r) (sm_state r) (event r) (reason r) (param r) (param_len r) (dhcp_polling_count r) (delayed_connect_retry r) (retry_count r) (retry_limit r) (retry_interval r) (preroam_enable r) v (polling_scan r) (polling_scan_count r) (preroam_bssid_bk r) (scan_blocked r).
Definition set_polling_scan (v : bool) (r : wifi_management_sm_data) : wifi_management_sm_data := mk_sm (vif_idx r) (init r) (sm_state r) (event r) (reason r) (param r) (param_len r) (dhcp_polling_count r) (delayed_connect_retry r) (retry_count r) (retry_limit r) (retry_interval r) (preroam_enable r) (preroam_start r) v (polling_scan_count r) (preroam_bssid_bk r) (scan_blocked r).
Definition set_polling_scan_count (v : Z) (r : wifi_management_sm_data) : wifi_management_sm_data := mk_sm (vif_idx r) (init r) (sm_state r) (event r) (reason r) (param r) (param_len r) (dhcp_polling_count r) (delayed_connect_retry r) (retry_count r) (retry_limit r) (retry_interval r) (preroam_enable r) (preroam_start r) (polling_scan r) v (preroam_bssid_bk r) (scan_blocked r).
Definition set_preroam_bssid_bk (v : list Z) (r : wifi_management_sm_data) : wifi_management_sm_data := mk_sm (vif_idx r) (init r) (sm_state r) (event r) (reason r) (param r) (param_len r) (dhcp_polling_count r) (delayed_connect_retry r) (retry_count r) (retry_limit r) (retry_interval r) (preroam_enable r) (preroam_start r) (polling_scan r) (polling_scan_count r) v (scan_blocked r).
Definition set_scan_blocked (v : bool) (r : wifi_management_sm_data) : wifi_management_sm_data := mk_sm (vif_idx r) (init r) (sm_state r) (event r) (reason r) (param r) (param_len r) (dhcp_polling_count r) (delayed_connect_retry r) (retry_count r) (retry_limit r) (retry_interval r) (preroam_enable r) (preroam_start r) (polling_scan r) (polling_scan_count r) (preroam_bssid_bk r) v.

Definition zero_sm : wifi_management_sm_data :=
  mk_sm 0 false 0 (EVENT_OTHER 0) 0 None 0 0 false 0 0 0 false false false 0 (replicate 6 0) false.

Record mac_scan_result := mk_scan_result { r_bssid : list Z; r_rssi : Z; r_channel : Z; r_akm : Z; r_md : list Z }.

(** ** What surrounds the state machines *)

Inductive call :=
| wifi_netlink_disconnect_req (v : Z) | wifi_netlink_scan_set (v ch : Z)
| wifi_netlink_scan_set_with_ssid (v : Z) (s : list Z) (ch : Z)
| wifi_netlink_connect_req (v : Z) (c : sta_cfg) | wifi_netlink_associate_done (v : Z) (p : option pdata)
| wifi_netlink_dhcp_done (v : Z) | wifi_netlink_joined_ap_load (v : Z)
| wifi_netlink_joined_ap_store (v : Z) (c : sta_cfg) | wifi_netlink_auto_conn_get
| wifi_netlink_candidate_ap_find (v : Z) (s : list Z)
| wifi_netlink_ap_start (v : Z) (p : option pdata) | wifi_netlink_ap_stop (v r : Z)
| wifi_netlink_monitor_start (v : Z) (p : option pdata) | wifi_netlink_ps_mode_set (v : Z)
| wifi_netlink_enable_vif_ps (v : Z)
| macif_vif_sta_rssi_get (v : Z) | macif_vif_roaming_rssi_get (v : Z) | macif_vif_current_chan_get (v : Z)
| wifi_wpa_sta_sm_step (v : Z) (ev : wifi_management_event_t) (p : option pdata) (machine : Z)
| wifi_wpa_ap_sm_step (v : Z) (ev : wifi_management_event_t) (p : option pdata)
| wifi_wpa_sta_pmksa_cache_flush (v : Z) | wpas_unprot_disconnect (v : Z) (p : option pdata)
| wpas_action_receive (v : Z) (p : option pdata) | wifi_wpa_ft_auth_rsp (v : Z) (p : option pdata)
| wifi_wpa_ft_reassociate_done (v : Z) (p : option pdata)
| net_if_is_static_ip | net_dhcp_address_obtained (v : Z) | wifi_set_vif_ip_none (v : Z) | wifi_set_vif_ip_dhcp (v : Z)
| net_if_get_ip (v : Z) | net_get_dns | net_if_set_default (v : Z) | net_if_send_gratuitous_arp (v : Z) | net_if_down (v : Z)
| wifi_vif_type_set (v t : Z) | macif_rx_set_monitor_cb
| eloop_event_send (v : Z) (ev : wifi_management_event_t)
| eloop_message_send (v : Z) (ev : wifi_management_event_t) (r : Z) (p : option pdata)
| sys_queue_post (v evt r : Z) | sys_malloc | sys_mfree (p : pdata)
| wifi_netlink_roaming_rssi_set (v th : Z) | wifi_wpa_w_ap_get (v : Z) | ap_send_deauth (addr : list Z) (r : Z).

(** Each call is answered by a number and may change what the interfaces hold, as the
    calls before it have made it; an interface is known by its index. *)
Class Driver := {
  answer : list call -> call -> Z;
  leaves : list call -> call -> Z -> wifi_vif_tag -> wifi_vif_tag;
  wifi_vif_mac_addr_get : Z -> list Z;
  candidate : list call -> mac_scan_result;
  reread : list call -> wifi_vif_tag -> wifi_vif_tag
}.

(** The driver and the supplicant leave alone what only the manager writes. *)
Class DriverLaws {driver : Driver} := {
  leaves_type h c v x : wvif_type (leaves h c v x) = wvif_type x;
  leaves_state h c v x : sta_state (sta (leaves h c v x)) = sta_state (sta x);
  leaves_blocked h c v x : conn_blocked (cfg (sta (leaves h c v x))) = conn_blocked (cfg (sta x))
}.

Section Mgmt.
Context {T : Type} {timers : Timers T} {driver : Driver}.

Record world := mk_world {
  wifi_sm_data : list wifi_management_sm_data; wifi_vif_tab : list wifi_vif_tag; tm : T; hist : list call;
  wifi_concurrent_mode : bool; repeat_cnt : Z; interval_sec_ms : Z
}.

Definition set_sms (l : list wifi_management_sm_data) (w : world) : world :=
  mk_world l (wifi_vif_tab w) (tm w) (hist w) (wifi_concurrent_mode w) (repeat_cnt w) (interval_sec_ms w).
Definition set_vifs (l : list wifi_vif_tag) (w : world) : world :=
  mk_world (wifi_sm_data w) l (tm w) (hist w) (wifi_concurrent_mode w) (repeat_cnt w) (interval_sec_ms w).
Definition set_tm (t : T) (w : world) : world :=
  mk_world (wifi_sm_data w) (wifi_vif_tab w) t (hist w) (wifi_concurrent_mode w) (repeat_cnt w) (interval_sec_ms w).
Definition set_hist (h : list call) (w : world) : world :=
  mk_world (wifi_sm_data w) (wifi_vif_tab w) (tm w) h (wifi_concurrent_mode w) (repeat_cnt w) (interval_sec_ms w).

(** The error is an access outside the tables, or a parameter read as what it is not. *)
Abbreviation K := (M world unit).

Definition sm_get (i : Z) : K wifi_management_sm_data :=
  let! w := get in match wifi_sm_data w !! Z.to_nat i with Some s => ret s | None => err tt end.
Definition sm_mod (i : Z) (f : wifi_management_sm_data -> wifi_management_sm_data) : K unit :=
  let! s := sm_get i in modify (fun w => set_sms (<[Z.to_nat i := f s]> (wifi_sm_data w)) w).
Definition vif_get (v : Z) : K wifi_vif_tag :=
  let! w := get in match wifi_vif_tab w !! Z.to_nat v with Some x => ret x | None => err tt end.
Definition vif_mod (v : Z) (f : wifi_vif_tag -> wifi_vif_tag) : K unit :=
  let! x := vif_get v in modify (fun w => set_vifs (<[Z.to_nat v := f x]> (wifi_vif_tab w)) w).
Definition sta_mod (v : Z) (f : wifi_sta -> wifi_sta) : K unit := vif_mod v (fun x => set_sta (f (sta x)) x).
Definition cfg_mod (v : Z) (f : sta_cfg -> sta_cfg) : K unit := sta_mod v (fun s => set_cfg (f (cfg s)) s).

Definition ask (c : call) : K Z :=
  let! w := get in
  modify (fun w => set_hist (hist w ++ [c])
    (set_vifs (imap (fun v x => leaves (hist w) c (Z.of_nat v) x) (wifi_vif_tab w)) w)) ;;;
  ret (answer (hist w) c).
Definition tell (c : call) : K unit := ask c ;;; ret tt.

Definition of_timers {A} (f : T -> option (A * T)) : K A :=
  let! w := get in
  match f (tm w) with Some (a, t) => modify (set_tm t) ;;; ret a | None => err tt end.
Definition eloop_timeout_register (msecs h data : Z) : K unit := of_timers (timeout_register msecs h data 0) ;;; ret tt.
(** Cancelled whatever their contexts. *)
Definition eloop_timeout_cancel (h : Z) : K unit := of_timers (timeout_cancel h ANY_CONTEXT ANY_CONTEXT) ;;; ret tt.
Definition eloop_timeout_is_registered (h data : Z) : K bool :=
  let! w := get in
  match timeout_is_registered h data 0 (tm w) with Some r => ret (negb (r =? 0)) | None => err tt end.

(** ** Answers to blocked callers *)

Definition mgmt_post_conn_done (v r : Z) : K unit :=
  let! x := vif_get v in
  if negb (conn_blocked (cfg (sta x))) then ret tt
  else cfg_mod v (set_conn_blocked false) ;;; tell (sys_queue_post v MGMT_WAIT_EVT_CONN_DONE r).
Definition mgmt_post_disconn_done (v : Z) : K unit := tell (sys_queue_post v MGMT_WAIT_EVT_DISCONN_DONE 0).
Definition mgmt_post_scan_done (v r : Z) : K unit :=
  let! s := sm_get v in
  if negb (scan_blocked s) then ret tt
  else sm_mod v (set_scan_blocked false) ;;; tell (sys_queue_post v MGMT_WAIT_EVT_SCAN_DONE r).
Definition mgmt_post_ap_start_done (v r : Z) : K unit := tell (sys_queue_post v MGMT_WAIT_EVT_AP_START_DONE r).
Definition mgmt_post_monitor_start_done (v r : Z) : K unit := tell (sys_queue_post v MGMT_WAIT_EVT_MONITOR_START_DONE r).

(** ** Helpers *)

Definition mgmt_connect_retry_param_set (i : Z) (roaming_required : bool) : K unit :=
  let! w := get in
  if roaming_required then
    if interval_sec_ms w =? 0 then
      sm_mod i (fun s => set_retry_interval 0 (set_retry_limit (repeat_cnt w) (set_retry_count 0 s)))
    else
      (if repeat_cnt w =? 0
       then sm_mod i (fun s => set_retry_limit WIFI_MGMT_ROAMING_RETRY_UNLIMITED
                       (set_retry_count (WIFI_MGMT_ROAMING_RETRY_UNLIMITED - 1) s))
       else sm_mod i (fun s => set_retry_limit (repeat_cnt w) (set_retry_count (u32 (repeat_cnt w - 1)) s))) ;;;
      sm_mod i (set_retry_interval (interval_sec_ms w))
  else
    sm_mod i (fun s => set_retry_interval WIFI_MGMT_CONNECT_RETRY_INTERVAL
      (set_retry_limit WIFI_MGMT_CONNECT_RETRY_LIMIT (set_retry_count (WIFI_MGMT_CONNECT_RETRY_LIMIT - 1) s))).

Definition mgmt_register_delayed_connect_retry (i : Z) : K unit :=
  let! s := sm_get i in
  let t := if WIFI_MGMT_MAX_RETRY_INTERVAL <? retry_interval s then WIFI_MGMT_MAX_RETRY_INTERVAL else retry_interval s in
  let! b := eloop_timeout_is_registered mgmt_connect_retry_cb i in
  if b then ret tt else eloop_timeout_register t mgmt_connect_retry_cb i.

Definition mgmt_link_is_ongoing (i : Z) : K unit :=
  let! s := sm_get i in
  cfg_mod (vif_idx s) (set_conn_blocked true) ;;;
  mgmt_post_conn_done (vif_idx s) MAC_ST_FAILURE.

Definition mgmt_preroam_rollback (i : Z) : K unit :=
  let! s := sm_get i in
  if preroam_start s && negb (bool_decide (preroam_bssid_bk s = replicate 6 0)) then
    sm_mod i (fun s => set_polling_scan_count 0 (set_preroam_start false s)) ;;;
    cfg_mod (vif_idx s) (fun c => set_bssid (preroam_bssid_bk s) (set_channel 0xFF c)) ;;;
    sm_mod i (set_preroam_bssid_bk (replicate 6 0)) ;;;
    cfg_mod (vif_idx s) (set_conn_with_bssid true) ;;;
    tell (eloop_event_send (vif_idx s) EVENT_CONNECT_CMD)
  else ret tt.

Definition mgmt_is_ft_roaming (c : mac_scan_result) (s : wifi_sta) : bool :=
  match ft_domain s with
  | None => false
  | Some md => negb (Z.land (r_akm c) (Z.shiftl 1 MAC_AKM_FT_PSK) =? 0) && bool_decide (r_md c = md)
  end.

Definition mgmt_connected_scan_done (i : Z) : K unit :=
  let! s := sm_get i in
  let v := vif_idx s in
  sm_mod i (set_polling_scan false) ;;;
  let! x := vif_get v in
  let! r := ask (wifi_netlink_candidate_ap_find v (ssid (cfg (sta x)))) in
  if negb (r =? 0) then ret tt
  else
    let! w := get in
    let c := candidate (hist w) in
    let! x := vif_get v in
    let ft_roaming := mgmt_is_ft_roaming c (sta x) in
    if bool_decide (r_bssid c = bssid (cfg (sta x))) then ret tt
    else if ft_roaming then
      sm_mod i (set_polling_scan_count 0) ;;;
      eloop_timeout_cancel mgmt_link_status_polling_cb ;;;
      let! rssi := ask (macif_vif_sta_rssi_get v) in
      if rssi + WIFI_MGMT_ROAMING_RSSI_RELATIVE_GAIN <=? r_rssi c then
        cfg_mod v (set_channel (r_channel c)) ;;;
        let! p := ask sys_malloc in
        if p =? 0 then ret tt
        else
          let target := Buf (r_bssid c) in
          let! r := ask (eloop_message_send v EVENT_FT_ROAMING_CMD 0 (Some target)) in
          if negb (r =? 0) then tell (sys_mfree target) else ret tt
      else ret tt
    else
      let! rssi := ask (macif_vif_sta_rssi_get v) in
      if rssi + WIFI_MGMT_ROAMING_RSSI_RELATIVE_GAIN <=? r_rssi c then
        cfg_mod v (set_channel (r_channel c)) ;;;
        tell (eloop_event_send v EVENT_CONNECT_CMD)
      else ret tt.

(** ** Entering the states of a station *)

Definition enter_IDLE (i : Z) : K unit :=
  sm_mod i (set_sm_state MAINTAIN_CONNECTION_IDLE) ;;;
  sm_mod i (set_delayed_connect_retry false) ;;;
  eloop_timeout_cancel mgmt_dhcp_polling_cb ;;;
  eloop_timeout_cancel mgmt_link_status_polling_cb ;;;
  eloop_timeout_cancel mgmt_connect_retry_cb ;;;
  let! s := sm_get i in
  tell (wifi_netlink_disconnect_req (vif_idx s)) ;;;
  mgmt_post_disconn_done (vif_idx s) ;;;
  sta_mod (vif_idx s) (set_sta_state WIFI_STA_STATE_IDLE).

(** The reasons after which every channel is scanned. *)
Definition scan_all (r : Z) : bool :=
  (r =? WIFI_MGMT_CONN_NO_AP) || (r =? WIFI_MGMT_DISCON_NO_BEACON) ||
  (r =? WIFI_MGMT_DISCON_RECV_DEAUTH) || (r =? WIFI_MGMT_DISCON_UNSPECIFIED).

Definition enter_SCAN (i : Z) : K unit :=
  sm_mod i (set_sm_state MAINTAIN_CONNECTION_SCAN) ;;;
  let! s := sm_get i in
  let v := vif_idx s in
  sta_mod v (set_sta_state WIFI_STA_STATE_SCAN) ;;;
  eloop_timeout_cancel mgmt_dhcp_polling_cb ;;;
  eloop_timeout_cancel mgmt_link_status_polling_cb ;;;
  if delayed_connect_retry s then ret tt
  else
    let! x := vif_get v in
    let target_channel := if scan_all (last_reason (sta x)) then 0xFF else channel (cfg (sta x)) in
    let! r := (if conn_with_bssid (cfg (sta x)) then ask (wifi_netlink_scan_set v target_channel)
               else ask (wifi_netlink_scan_set_with_ssid v (ssid (cfg (sta x))) target_channel)) in
    if negb (r =? 0) then tell (eloop_event_send v EVENT_SCAN_FAIL) else ret tt.

Definition enter_CONNECT (i : Z) : K unit :=
  sm_mod i (set_sm_state MAINTAIN_CONNECTION_CONNECT) ;;;
  let! s := sm_get i in
  let v := vif_idx s in
  sta_mod v (set_sta_state WIFI_STA_STATE_CONNECT) ;;;
  let! x := vif_get v in
  let! r := ask (wifi_netlink_connect_req v (cfg (sta x))) in
  if negb (r =? 0) then tell (eloop_message_send v EVENT_CONNECT_FAIL r None)
  else
    let! w := get in
    if wifi_concurrent_mode w then
      let! ap := vif_get WIFI_VIF_INDEX_SOFTAP_MODE in
      if (wvif_type ap =? WVIF_AP) && (ap_state ap =? WIFI_AP_STATE_STARTED) then
        let! ch := ask (macif_vif_current_chan_get WIFI_VIF_INDEX_SOFTAP_MODE) in
        let! x := vif_get v in
        if (0 <? u8 ch) && negb (u8 ch =? channel (cfg (sta x))) then
          tell (eloop_message_send WIFI_VIF_INDEX_SOFTAP_MODE EVENT_AP_SWITCH_CHNL_CMD (channel (cfg (sta x))) None)
        else ret tt
      else ret tt
    else ret tt.

Definition enter_HANDSHAKE (i : Z) : K unit :=
  sm_mod i (set_sm_state MAINTAIN_CONNECTION_HANDSHAKE) ;;;
  let! s := sm_get i in
  sta_mod (vif_idx s) (set_sta_state WIFI_STA_STATE_HANDSHAKE) ;;;
  tell (wifi_netlink_associate_done (vif_idx s) (param s)).

Definition enter_DHCP (i : Z) : K unit :=
  sm_mod i (set_sm_state MAINTAIN_CONNECTION_DHCP) ;;;
  let! s := sm_get i in
  let v := vif_idx s in
  sta_mod v (set_sta_state WIFI_STA_STATE_IP_GETTING) ;;;
  let! static := ask net_if_is_static_ip in
  (if static =? 0 then
     tell (net_dhcp_address_obtained v) ;;;
     sm_mod i (set_dhcp_polling_count WIFI_MGMT_DHCP_POLLING_LIMIT) ;;;
     tell (wifi_set_vif_ip_dhcp v)
   else ret tt) ;;;
  eloop_timeout_register WIFI_MGMT_DHCP_POLLING_INTERVAL mgmt_dhcp_polling_cb i.

Definition enter_CONNECTED (i : Z) : K unit :=
  sm_mod i (set_sm_state MAINTAIN_CONNECTION_CONNECTED) ;;;
  let! s := sm_get i in
  let v := vif_idx s in
  sta_mod v (fun x => set_last_reason 0 (set_sta_state WIFI_STA_STATE_CONNECTED x)) ;;;
  let! x := vif_get v in
  (if negb (conn_blocked (cfg (sta x))) then tell (eloop_event_send v EVENT_CONNECT_SUCCESS)
   else mgmt_post_conn_done v MAC_ST_SUCCESSFUL) ;;;
  sm_mod i (fun s => set_preroam_bssid_bk (replicate 6 0) (set_polling_scan_count 0 (set_preroam_start false s))) ;;;
  cfg_mod v (set_conn_with_bssid false) ;;;
  tell (net_if_get_ip v) ;;;
  let! auto := ask wifi_netlink_auto_conn_get in
  if negb (auto =? 0) then
    let! x := vif_get v in tell (wifi_netlink_joined_ap_store v (cfg (sta x)))
  else ret tt.

(** ** The callbacks of timers *)

Definition mgmt_dhcp_polling (i : Z) : K unit :=
  let! s := sm_get i in
  let v := vif_idx s in
  let! a := ask (net_dhcp_address_obtained v) in
  let! got := (if negb (a =? 0) then ret true else let! b := ask net_if_is_static_ip in ret (negb (b =? 0))) in
  if got : bool then
    tell (net_if_get_ip v) ;;; tell net_get_dns ;;;
    tell (net_if_set_default v) ;;; tell (net_if_send_gratuitous_arp v) ;;;
    tell (eloop_event_send v EVENT_DHCP_SUCCESS)
  else
    sm_mod i (fun s => set_dhcp_polling_count (u8 (dhcp_polling_count s - 1)) s) ;;;
    let! s := sm_get i in
    if negb (dhcp_polling_count s =? 0) then
      eloop_timeout_register WIFI_MGMT_DHCP_POLLING_INTERVAL mgmt_dhcp_polling_cb i
    else
      sm_mod i (set_reason WIFI_MGMT_CONN_DHCP_FAIL) ;;;
      tell (eloop_event_send v EVENT_DHCP_FAIL).

Definition mgmt_link_status_polling (i : Z) : K unit :=
  let! s := sm_get i in
  let v := vif_idx s in
  if CFG_VIF_NUM <=? v then ret tt
  else if preroam_enable s && preroam_start s then
    let! rssi := ask (macif_vif_sta_rssi_get v) in
    let! thresh := ask (macif_vif_roaming_rssi_get v) in
    if signed 8 thresh + VIF_RSSI_HYSTERESIS <? signed 8 rssi then
      sm_mod i (fun s => set_preroam_bssid_bk (replicate 6 0) (set_polling_scan_count 0 (set_preroam_start false s)))
    else
      (if (polling_scan_count s <? 10) || (polling_scan_count s mod WIFI_MGMT_POLLING_SCAN_TRIGGER_POINT =? 0) then
         let! x := vif_get v in
         (match param s with
          | Some _ => tell (wifi_netlink_scan_set_with_ssid v (ssid (cfg (sta x))) 0xFF)
          | None => tell (wifi_netlink_scan_set v 0xFF)
          end) ;;;
         sm_mod i (set_polling_scan true)
       else ret tt) ;;;
      sm_mod i (fun s => set_polling_scan_count (u16 (polling_scan_count s + 1)) s) ;;;
      eloop_timeout_register WIFI_MGMT_LINK_POLLING_INTERVAL mgmt_link_status_polling_cb i
  else ret tt.

Definition mgmt_connect_retry (i : Z) : K unit :=
  sm_mod i (fun s => set_delayed_connect_retry false (set_retry_count (u32 (retry_count s - 1)) s)) ;;;
  enter_SCAN i.

(** ** The machine of a station *)

(** A scan that was asked for; if it cannot start, the caller is told. *)
Definition user_scan (i : Z) : K unit :=
  let! s := sm_get i in
  let v := vif_idx s in
  let! r := (match param s with
             | Some (Buf b) => ask (wifi_netlink_scan_set_with_ssid v b 0xFF)
             | Some (Cfg c) => ask (wifi_netlink_scan_set_with_ssid v (ssid c) 0xFF)
             | Some (Ap a) => ask (wifi_netlink_scan_set_with_ssid v (ap_ssid a) 0xFF)
             | Some (Mon _) => err tt
             | None => ask (wifi_netlink_scan_set v 0xFF)
             end) in
  if negb (r =? 0) then mgmt_post_scan_done v WIFI_MGMT_SCAN_START_FAIL else ret tt.

(** [sys_memcpy] of the parameter to the station's configuration; of no bytes without one. *)
Definition copy_cfg (v : Z) (p : option pdata) : K unit :=
  match p with Some (Cfg c) => cfg_mod v (fun _ => c) | Some _ => err tt | None => ret tt end.

(** No retry is left: back to the access point before roaming, or to the idle state. *)
Definition abandon (i : Z) : K unit :=
  let! s := sm_get i in
  mgmt_preroam_rollback i ;;;
  mgmt_post_conn_done (vif_idx s) (reason s) ;;;
  enter_IDLE i.

(** An attempt has failed: the next one after a while, if there is one left. *)
Definition try_again (i : Z) : K unit :=
  let! s := sm_get i in
  if 0 <? retry_count s then
    sm_mod i (set_delayed_connect_retry true) ;;;
    enter_SCAN i ;;;
    mgmt_register_delayed_connect_retry i
  else abandon i.

Definition wpa_disconnected (v : Z) : K unit :=
  tell (wifi_wpa_sta_sm_step v EVENT_DISCONNECT None WIFI_STA_SM_SAE) ;;;
  tell (wifi_wpa_sta_sm_step v EVENT_DISCONNECT None WIFI_STA_SM_EAPOL).

Definition step_IDLE (i : Z) (s : wifi_management_sm_data) : K unit :=
  let v := vif_idx s in
  match event s with
  | EVENT_SCAN_CMD => user_scan i
  | EVENT_CONNECT_CMD =>
      copy_cfg v (param s) ;;;
      mgmt_connect_retry_param_set i false ;;;
      enter_SCAN i
  | EVENT_AUTO_CONNECT_CMD =>
      let! r := ask (wifi_netlink_joined_ap_load v) in
      if negb (r =? 0) then enter_IDLE i
      else mgmt_connect_retry_param_set i true ;;; enter_SCAN i
  | EVENT_SCAN_DONE => mgmt_post_scan_done v WIFI_MGMT_SCAN_SUCCESS
  | EVENT_DISCONNECT_CMD => mgmt_post_disconn_done v
  | _ => ret tt
  end.

Definition step_SCAN (i : Z) (s : wifi_management_sm_data) : K unit :=
  match event s with
  | EVENT_SCAN_CMD | EVENT_CONNECT_CMD => mgmt_link_is_ongoing i
  | EVENT_DISCONNECT_CMD | EVENT_CONNECT_FAIL => enter_IDLE i
  | EVENT_SCAN_DONE => enter_CONNECT i
  | EVENT_SCAN_FAIL => if 0 <? retry_count s then mgmt_register_delayed_connect_retry i else abandon i
  | _ => ret tt
  end.

Definition step_CONNECT (i : Z) (s : wifi_management_sm_data) : K unit :=
  let v := vif_idx s in
  match event s with
  | EVENT_SCAN_CMD | EVENT_CONNECT_CMD => mgmt_link_is_ongoing i
  | EVENT_SCAN_RESULT => tell (wifi_wpa_sta_sm_step v (event s) (param s) WIFI_STA_SM_EAPOL)
  | EVENT_DISCONNECT_CMD => enter_IDLE i
  | EVENT_EXTERNAL_AUTH_REQUIRED => tell (wifi_wpa_sta_sm_step v EVENT_EXTERNAL_AUTH_REQUIRED None WIFI_STA_SM_SAE)
  | EVENT_RX_MGMT => tell (wifi_wpa_sta_sm_step v EVENT_RX_MGMT (param s) WIFI_STA_SM_SAE)
  | EVENT_ASSOC_SUCCESS => enter_HANDSHAKE i
  | EVENT_CONNECT_FAIL | EVENT_DISCONNECT =>
      sta_mod v (set_last_reason (reason s)) ;;;
      tell (wifi_wpa_sta_sm_step v EVENT_DISCONNECT None WIFI_STA_SM_SAE) ;;;
      try_again i
  | _ => ret tt
  end.

(** What a disconnection does during the handshake and while an address is awaited. *)
Definition link_lost (i : Z) (s : wifi_management_sm_data) : K unit :=
  sta_mod (vif_idx s) (set_last_reason (reason s)) ;;;
  wpa_disconnected (vif_idx s) ;;;
  try_again i.

Definition step_HANDSHAKE (i : Z) (s : wifi_management_sm_data) : K unit :=
  let v := vif_idx s in
  match event s with
  | EVENT_SCAN_CMD | EVENT_CONNECT_CMD => mgmt_link_is_ongoing i
  | EVENT_RX_EAPOL => tell (wifi_wpa_sta_sm_step v EVENT_RX_EAPOL (param s) WIFI_STA_SM_EAPOL)
  | EVENT_EAP_SUCCESS => tell (wifi_wpa_sta_sm_step v EVENT_EAP_SUCCESS None WIFI_STA_SM_EAPOL)
  | EVENT_DISCONNECT_CMD => enter_IDLE i
  | EVENT_CONNECT_FAIL => tell (wifi_netlink_disconnect_req v) ;;; link_lost i s
  | EVENT_DISCONNECT => link_lost i s
  | EVENT_DHCP_START => enter_DHCP i
  | _ => ret tt
  end.

Definition step_DHCP (i : Z) (s : wifi_management_sm_data) : K unit :=
  let v := vif_idx s in
  match event s with
  | EVENT_SCAN_CMD | EVENT_CONNECT_CMD => mgmt_link_is_ongoing i
  | EVENT_DISCONNECT_CMD => enter_IDLE i
  | EVENT_RX_EAPOL => tell (wifi_wpa_sta_sm_step v EVENT_RX_EAPOL (param s) WIFI_STA_SM_EAPOL)
  | EVENT_DHCP_SUCCESS =>
      tell (wifi_netlink_dhcp_done v) ;;;
      enter_CONNECTED i ;;;
      eloop_timeout_cancel mgmt_connect_retry_cb
  | EVENT_DHCP_FAIL | EVENT_CONNECT_FAIL => tell (wifi_netlink_disconnect_req v) ;;; link_lost i s
  | EVENT_DISCONNECT => link_lost i s
  | _ => ret tt
  end.

(** The reasons after which the station looks for its network again. *)
Definition reconnects (r : Z) : bool :=
  (r =? WIFI_MGMT_DISCON_NO_BEACON) || (r =? WIFI_MGMT_DISCON_UNSPECIFIED) ||
  (r =? WIFI_MGMT_DISCON_RECV_DEAUTH) || (r =? WIFI_MGMT_DISCON_SA_QUERY_FAIL).

Definition step_CONNECTED (i : Z) (s : wifi_management_sm_data) : K unit :=
  let v := vif_idx s in
  match event s with
  | EVENT_SCAN_CMD => user_scan i
  | EVENT_CONNECT_CMD =>
      copy_cfg v (param s) ;;;
      enter_IDLE i ;;;
      mgmt_connect_retry_param_set i false ;;;
      enter_SCAN i
  | EVENT_DISCONNECT_CMD => enter_IDLE i
  | EVENT_SCAN_DONE =>
      (if polling_scan s then mgmt_connected_scan_done i else ret tt) ;;;
      mgmt_post_scan_done v WIFI_MGMT_SCAN_SUCCESS
  | EVENT_SCAN_FAIL => mgmt_post_scan_done v WIFI_MGMT_SCAN_FAIL
  | EVENT_RX_EAPOL => tell (wifi_wpa_sta_sm_step v EVENT_RX_EAPOL (param s) WIFI_STA_SM_EAPOL)
  | EVENT_DISCONNECT =>
      wpa_disconnected v ;;;
      sta_mod v (set_last_reason (reason s)) ;;;
      (if reason s =? WIFI_MGMT_DISCON_SA_QUERY_FAIL then tell (wifi_netlink_disconnect_req v) else ret tt) ;;;
      if reconnects (reason s) then
        mgmt_connect_retry_param_set i true ;;;
        let! s := sm_get i in
        if 0 <? retry_count s then enter_SCAN i else abandon i
      else enter_IDLE i
  | EVENT_ROAMING_START =>
      if preroam_enable s then
        let! x := vif_get v in
        sm_mod i (fun s => set_preroam_bssid_bk (bssid (cfg (sta x))) (set_preroam_start true s)) ;;;
        eloop_timeout_register 1 mgmt_link_status_polling_cb i
      else ret tt
  | EVENT_RX_UNPROT_DEAUTH => tell (wpas_unprot_disconnect v (param s))
  | EVENT_RX_ACTION => tell (wpas_action_receive v (param s))
  | EVENT_FT_AUTH => tell (wifi_wpa_ft_auth_rsp v (param s))
  | EVENT_FT_ROAMING_CMD => tell (wifi_wpa_sta_sm_step v EVENT_FT_ROAMING_CMD (param s) WIFI_STA_SM_EAPOL)
  | EVENT_ASSOC_SUCCESS => tell (wifi_wpa_ft_reassociate_done v (param s))
  | EVENT_DHCP_START =>
      tell (net_if_get_ip v) ;;; tell net_get_dns ;;;
      tell (net_if_set_default v) ;;; tell (net_if_send_gratuitous_arp v) ;;;
      tell (wifi_netlink_dhcp_done v)
  | _ => ret tt
  end.

(** [sys_memset(sm, 0, sizeof( *sm))] clears the index of the interface too. *)
Definition step_MAINTAIN_CONNECTION (i : Z) : K unit :=
  let! s := sm_get i in
  if negb (init s) || (match event s with EVENT_INIT => true | _ => false end) then
    sm_mod i (fun _ => set_preroam_enable true (set_init true zero_sm)) ;;;
    mgmt_connect_retry_param_set i false ;;;
    enter_IDLE i
  else if sm_state s =? MAINTAIN_CONNECTION_IDLE then step_IDLE i s
  else if sm_state s =? MAINTAIN_CONNECTION_SCAN then step_SCAN i s
  else if sm_state s =? MAINTAIN_CONNECTION_CONNECT then step_CONNECT i s
  else if sm_state s =? MAINTAIN_CONNECTION_HANDSHAKE then step_HANDSHAKE i s
  else if sm_state s =? MAINTAIN_CONNECTION_DHCP then step_DHCP i s
  else if sm_state s =? MAINTAIN_CONNECTION_CONNECTED then step_CONNECTED i s
  else ret tt.

(** ** The machines of an access point and of a monitor *)

Definition enter_SOFTAP_INIT (i : Z) : K unit :=
  sm_mod i (set_sm_state MAINTAIN_SOFTAP_INIT) ;;;
  let! s := sm_get i in
  tell (wifi_netlink_ap_stop (vif_idx s) (reason s)) ;;;
  vif_mod (vif_idx s) (set_ap_state WIFI_AP_STATE_INIT).

Definition enter_SOFTAP_STARTED (i : Z) : K unit :=
  sm_mod i (set_sm_state MAINTAIN_SOFTAP_STARTED) ;;;
  let! s := sm_get i in
  vif_mod (vif_idx s) (set_ap_state WIFI_AP_STATE_STARTED).

Definition step_MAINTAIN_SOFTAP (i : Z) : K unit :=
  let! s := sm_get i in
  let v := vif_idx s in
  if negb (init s) || (match event s with EVENT_INIT => true | _ => false end) then
    sm_mod i (fun _ => set_init true zero_sm) ;;;
    enter_SOFTAP_INIT i
  else if sm_state s =? MAINTAIN_SOFTAP_INIT then
    match event s with
    | EVENT_START_AP_CMD =>
        let! r := ask (wifi_netlink_ap_start v (param s)) in
        if r =? 0 then enter_SOFTAP_STARTED i ;;; mgmt_post_ap_start_done v 0
        else enter_SOFTAP_INIT i ;;; mgmt_post_ap_start_done v 1
    | _ => ret tt
    end
  else if sm_state s =? MAINTAIN_SOFTAP_STARTED then
    match event s with
    | EVENT_STOP_AP_CMD => enter_SOFTAP_INIT i
    | EVENT_RX_MGMT | EVENT_TX_MGMT_DONE | EVENT_RX_EAPOL => tell (wifi_wpa_ap_sm_step v (event s) (param s))
    | EVENT_AP_SWITCH_CHNL_CMD =>
        tell (wifi_netlink_ap_stop v 3) ;;;
        vif_mod v (set_ap_state WIFI_AP_STATE_INIT) ;;;
        vif_mod v (set_ap_channel (u8 (reason s))) ;;;
        tell (wifi_netlink_ap_start v None) ;;;
        vif_mod v (set_ap_state WIFI_AP_STATE_STARTED)
    | EVENT_SCAN_CMD => user_scan i
    | EVENT_SCAN_DONE => mgmt_post_scan_done v WIFI_MGMT_SCAN_SUCCESS
    | EVENT_SCAN_FAIL => mgmt_post_scan_done v WIFI_MGMT_SCAN_FAIL
    | _ => ret tt
    end
  else ret tt.

Definition enter_MONITOR_INIT (i : Z) : K unit := sm_mod i (set_sm_state MAINTAIN_MONITOR_INIT).
Definition enter_MONITOR_STARTED (i : Z) : K unit := sm_mod i (set_sm_state MAINTAIN_MONITOR_STARTED).

Definition step_MAINTAIN_MONITOR (i : Z) : K unit :=
  let! s := sm_get i in
  let v := vif_idx s in
  if negb (init s) || (match event s with EVENT_INIT => true | _ => false end) then
    sm_mod i (fun _ => set_init true zero_sm) ;;;
    enter_MONITOR_INIT i
  else if sm_state s =? MAINTAIN_MONITOR_INIT then
    match event s with
    | EVENT_MONITOR_START_CMD =>
        let! r := ask (wifi_netlink_monitor_start v (param s)) in
        if r =? 0 then enter_MONITOR_STARTED i ;;; mgmt_post_monitor_start_done v 0
        else enter_MONITOR_INIT i ;;; mgmt_post_monitor_start_done v 1
    | _ => ret tt
    end
  else if sm_state s =? MAINTAIN_MONITOR_STARTED then
    match event s with
    | EVENT_SCAN_CMD => user_scan i
    | EVENT_SCAN_DONE => mgmt_post_scan_done v WIFI_MGMT_SCAN_SUCCESS
    | EVENT_SCAN_FAIL => mgmt_post_scan_done v WIFI_MGMT_SCAN_FAIL
    | _ => ret tt
    end
  else ret tt.

(** ** Changing the mode of an interface *)

Definition wifi_vif_reset (v type : Z) : K unit :=
  vif_mod v (set_wvif_type type) ;;;
  if type =? WVIF_STA then sta_mod v (fun s => set_ap_id 0xFF (set_cfg zero_cfg (set_sta_state WIFI_STA_STATE_IDLE s)))
  else if type =? WVIF_AP then vif_mod v (fun x => set_ap_max_conn 0 (set_ap_channel 0 (set_ap_state WIFI_AP_STATE_INIT x)))
  else if type =? WVIF_MONITOR then tell macif_rx_set_monitor_cb
  else ret tt.

Definition mgmt_switch_mode (i : Z) : K Z :=
  let! s := sm_get i in
  let v := vif_idx s in
  let type := reason s in
  let! x := vif_get v in
  let prev_type := wvif_type x in
  if prev_type =? type then ret 0
  else
    tell (wifi_set_vif_ip_none v) ;;;
    tell (net_if_down v) ;;;
    (if prev_type =? WVIF_STA then enter_IDLE i ;;; tell (wifi_wpa_sta_pmksa_cache_flush v)
     else if prev_type =? WVIF_AP then enter_SOFTAP_INIT i
     else if prev_type =? WVIF_MONITOR then enter_MONITOR_INIT i
     else ret tt) ;;;
    wifi_vif_reset v prev_type ;;;
    let! w := get in
    vif_mod v (fun x => set_wvif_type type (reread (hist w) x)) ;;;
    let! r1 := ask (wifi_vif_type_set v WVIF_UNKNOWN) in
    let! failed := (if negb (r1 =? 0) then ret true else let! r2 := ask (wifi_vif_type_set v type) in ret (negb (r2 =? 0))) in
    if failed : bool then ret (-2)
    else
      sm_mod i (fun s => set_init true (set_reason 0 (set_event (EVENT_OTHER 0) s))) ;;;
      (if type =? WVIF_STA then
         sm_mod i (set_polling_scan false) ;;;
         mgmt_connect_retry_param_set i false ;;;
         sm_mod i (set_sm_state MAINTAIN_CONNECTION_IDLE) ;;;
         tell (wifi_netlink_ps_mode_set WIFI_VIF_INDEX_DEFAULT)
       else if type =? WVIF_AP then sm_mod i (set_sm_state MAINTAIN_SOFTAP_INIT)
       else if type =? WVIF_MONITOR then sm_mod i (set_sm_state MAINTAIN_MONITOR_INIT)
       else if type =? WVIF_UNKNOWN then
         let! w := get in
         if wifi_concurrent_mode w && (prev_type =? WVIF_AP) then tell (wifi_netlink_enable_vif_ps WIFI_VIF_INDEX_DEFAULT)
         else ret tt
       else ret tt) ;;;
      ret 0.

(** ** Messages *)

Record eloop_message := mk_message { event_id : Z; m_reason : Z; m_param : option pdata; m_param_len : Z }.

(** The index of the interface is in the upper bits of the number of the event. *)
Definition wifi_mgmt_cb_run_state_machine (m : eloop_message) : K unit :=
  let event := Z.land (event_id m) 0xFFF in
  let i := Z.land (Z.shiftr (event_id m) 12) 0xF in
  if CFG_VIF_NUM <=? i then ret tt
  else if event <? WIFI_MGMT_EVENT_INIT then ret tt
  else
    sm_mod i (fun s => set_param_len (m_param_len m) (set_param (m_param m) (set_reason (m_reason m)
      (set_event (event_of event) (set_vif_idx i s))))) ;;;
    let! x := vif_get i in
    (match event_of event with
     | EVENT_SWITCH_MODE_CMD => mgmt_switch_mode i ;;; ret tt
     | _ =>
         if wvif_type x =? WVIF_STA then step_MAINTAIN_CONNECTION i
         else if wvif_type x =? WVIF_AP then step_MAINTAIN_SOFTAP i
         else if wvif_type x =? WVIF_MONITOR then step_MAINTAIN_MONITOR i
         else ret tt
     end) ;;;
    let! s := sm_get i in
    match param s with
    | Some p => tell (sys_mfree p) ;;; sm_mod i (fun s => set_param_len 0 (set_param None s))
    | None => ret tt
    end.

(** A timer of the manager runs: it is no longer pending when its callback is called. *)
Definition run_timer (h i : Z) : K unit :=
  if h =? mgmt_dhcp_polling_cb then mgmt_dhcp_polling i
  else if h =? mgmt_link_status_polling_cb then mgmt_link_status_polling i
  else if h =? mgmt_connect_retry_cb then mgmt_connect_retry i
  else ret tt.

End Mgmt.

End WifiMgmt.
