(* ===== verification/WifiMgmtSpec.v ===== *)
(** * The Wi-Fi manager's functions, one by one

    What each function does to one interface as its machine sees it: the machine's data,
    whether a caller is blocked, the state of the station, the pending timers, the calls made. *)
From S2P Require Import Prelude Timers WifiMgmt.
Open Scope Z_scope.
Open Scope fw_scope.

Module WifiMgmtSpec.
Import WifiMgmt.

(** ** Timers, counted *)

Definition occ (t : timer) (p : list timer) : nat := length (filter (t =.) p).

Lemma occ_cons t x p : occ t (x :: p) = ((if decide (t = x) then 1 else 0) + occ t p)%nat.
Proof. unfold occ. rewrite filter_cons. by destruct (decide (t = x)). Qed.

Lemma occ_perm t p q : p ≡ₚ q -> occ t p = occ t q.
Proof. unfold occ. by intros ->. Qed.

Lemma elem_of_occ t p : t ∈ p <-> (0 < occ t p)%nat.
Proof.
  induction p as [|x p IH]; [split; [by intros ?%elem_of_nil|cbn; lia]|]. rewrite occ_cons, elem_of_cons, IH.
  destruct (decide (t = x)); [subst; split; [lia|by left]|]. split; [intros [->|?]; [done|lia]|right; lia].
Qed.

Lemma occ_cancelled h d u t p : t = (d, u, 0%Z) ->
  occ t (List.filter (fun t => negb (timer_matches h ANY_CONTEXT ANY_CONTEXT t)) p) = if d =? h then 0%nat else occ t p.
Proof.
  intros ->. induction p as [|x p IH]; [by destruct (_ =? _)|]. cbn [List.filter].
  assert (timer_matches h ANY_CONTEXT ANY_CONTEXT x = (x.1.1 =? h)) as ->.
  { destruct x as [[a b] c]. cbn [timer_matches fst]. by rewrite !Z.eqb_refl, !orb_true_r, !andb_true_r. }
  destruct (Z.eqb_spec (x.1.1) h); cbn [negb]; rewrite ?occ_cons, IH; destruct (Z.eqb_spec d h); try done;
    case_decide; subst; done.
Qed.

(** How many timers of each handler are pending, of one interface: none of a handler any
    more, or some more of it. *)
Definition dropped (h : Z) (p : Z -> nat) (x : Z) : nat := if x =? h then 0 else p x.
Definition more (h : Z) (n : nat) (p : Z -> nat) (x : Z) : nat := if x =? h then n + p x else p x.

(** ** What a blocked caller is told *)

Definition reply_of (i : Z) (c : call) : list Z :=
  match c with
  | sys_queue_post v e r => if (v =? i) && (e =? MGMT_WAIT_EVT_CONN_DONE) then [r] else []
  | _ => []
  end.
Definition replies (i : Z) (h : list call) : list Z := concat (map (reply_of i) h).

Lemma replies_snoc i h c : replies i (h ++ [c]) = replies i h ++ reply_of i c.
Proof. unfold replies. rewrite map_app, concat_app. cbn. by rewrite app_nil_r. Qed.

Section Spec.
Context {T : Type} {timers : Timers T} {laws : TimersLaws T} {driver : Driver} {driver_laws : DriverLaws}.
Abbreviation W := (world (T := T)).

Definition wp {A} (m : M W unit A) (Q : A -> W -> Prop) (w : W) : Prop :=
  match m w with (w', inr a) => Q a w' | (_, inl _) => False end.

Lemma wp_bnd {A B} (m : M W unit A) (k : A -> M W unit B) Q w : wp m (fun a => wp (k a) Q) w -> wp (let! a := m in k a) Q w.
Proof. unfold wp, bnd. by destruct (m w) as [w' [e|a]]. Qed.

Lemma wp_ret {A} (a : A) (Q : A -> W -> Prop) w : Q a w -> wp (ret a) Q w.
Proof. done. Qed.

Lemma wp_conseq {A} (m : M W unit A) (Q R : A -> W -> Prop) w : wp m Q w -> (forall a w', Q a w' -> R a w') -> wp m R w.
Proof. unfold wp. destruct (m w) as [w' [e|a]]; auto. Qed.

Lemma wp_get (Q : W -> W -> Prop) w : Q w w -> wp get Q w.
Proof. done. Qed.

(** The interface [i] in the world [w]. *)
Record sees (w : W) (i : Z) (s : wifi_management_sm_data) (ty : Z) (b : bool) (st : Z) (p : Z -> nat) (h : list Z) : Prop := {
  se_sm : wifi_sm_data w !! Z.to_nat i = Some s;
  se_idx : vif_idx s = i;
  se_vif : exists x, wifi_vif_tab w !! Z.to_nat i = Some x /\ wvif_type x = ty /\
             conn_blocked (cfg (sta x)) = b /\ sta_state (sta x) = st;
  se_tabs : length (wifi_vif_tab w) = 2%nat;
  se_timers : timers_ok (tm w);
  se_pending cb : occ (cb, i, 0%Z) (pending (tm w)) = p cb;
  se_hist : replies i (hist w) = h
}.

Context (i : Z).

Lemma sees_more_0 cb w s ty b st p h : sees w i s ty b st p h -> sees w i s ty b st (more cb 0 p) h.
Proof. intros [G1 G2 G3 G4 G5 G6 G7]. split; try done. intros x. rewrite G6. unfold more. by destruct (_ =? _). Qed.

(** ** The primitives *)

Lemma wp_sm_get s ty b st p h Q w : sees w i s ty b st p h -> Q s w -> wp (sm_get i) Q w.
Proof. intros H HQ. unfold wp, sm_get, bnd, get. by rewrite (se_sm _ _ _ _ _ _ _ _ H). Qed.

Lemma wp_sm_mod f s ty b st p h Q w : sees w i s ty b st p h -> vif_idx (f s) = i ->
  (forall w', sees w' i (f s) ty b st p h -> Q tt w') -> wp (sm_mod i f) Q w.
Proof.
  intros H Hi HQ. unfold wp, sm_mod, sm_get, bnd, get, modify. rewrite (se_sm _ _ _ _ _ _ _ _ H). cbn [ret].
  apply HQ. destruct H as [H1 H2 H3 H4 H5 H6 H7]. split; try done. cbn.
  rewrite list_lookup_insert_eq; [done|]. by eapply lookup_lt_Some.
Qed.

Lemma wp_vif_get s ty b st p h Q w : sees w i s ty b st p h ->
  (forall x, wvif_type x = ty -> conn_blocked (cfg (sta x)) = b -> sta_state (sta x) = st -> Q x w) -> wp (vif_get i) Q w.
Proof.
  intros H HQ. destruct (se_vif _ _ _ _ _ _ _ _ H) as (x & Hx & H1 & H2 & H3).
  unfold wp, vif_get, bnd, get. rewrite Hx. by apply HQ.
Qed.

Lemma wp_vif_other v s ty b st p h Q w : sees w i s ty b st p h -> 0 <= v < CFG_VIF_NUM ->
  (forall x, Q x w) -> wp (vif_get v) Q w.
Proof.
  intros H Hv HQ. unfold wp, vif_get, bnd, get.
  destruct (lookup_lt_is_Some_2 (wifi_vif_tab w) (Z.to_nat v)) as [x ->]; [|apply HQ].
  rewrite (se_tabs _ _ _ _ _ _ _ _ H). unfold CFG_VIF_NUM in Hv. lia.
Qed.

Lemma wp_vif_mod f ty' b' st' s ty b st p h Q w : sees w i s ty b st p h ->
  (forall x, wvif_type x = ty -> conn_blocked (cfg (sta x)) = b -> sta_state (sta x) = st ->
     wvif_type (f x) = ty' /\ conn_blocked (cfg (sta (f x))) = b' /\ sta_state (sta (f x)) = st') ->
  (forall w', sees w' i s ty' b' st' p h -> Q tt w') -> wp (vif_mod i f) Q w.
Proof.
  intros H Hf HQ. destruct (se_vif _ _ _ _ _ _ _ _ H) as (x & Hx & H1 & H2 & H3).
  unfold wp, vif_mod, vif_get, bnd, get, modify. rewrite Hx. cbn [ret]. apply HQ.
  destruct H as [G1 G2 G3 G4 G5 G6 G7]. split; try done; cbn.
  - exists (f x). rewrite list_lookup_insert_eq by (by eapply lookup_lt_Some). split; [done|]. by apply Hf.
  - by rewrite length_insert.
Qed.

Lemma wp_sta_mod f b' st' s ty b st p h Q w : sees w i s ty b st p h ->
  (forall x, conn_blocked (cfg x) = b -> sta_state x = st -> conn_blocked (cfg (f x)) = b' /\ sta_state (f x) = st') ->
  (forall w', sees w' i s ty b' st' p h -> Q tt w') -> wp (sta_mod i f) Q w.
Proof.
  intros H Hf HQ. unfold sta_mod. eapply wp_vif_mod; [exact H| |exact HQ].
  intros x H1 H2 H3. cbn. split; [done|]. by apply Hf.
Qed.

Lemma wp_cfg_mod f b' s ty b st p h Q w : sees w i s ty b st p h ->
  (forall c, conn_blocked c = b -> conn_blocked (f c) = b') ->
  (forall w', sees w' i s ty b' st p h -> Q tt w') -> wp (cfg_mod i f) Q w.
Proof.
  intros H Hf HQ. unfold cfg_mod. eapply wp_sta_mod; [exact H| |exact HQ].
  intros x H1 H2. cbn. split; [by apply Hf|done].
Qed.

Lemma wp_ask c s ty b st p h Q w : sees w i s ty b st p h ->
  (forall w', sees w' i s ty b st p (h ++ reply_of i c) -> Q (answer (hist w) c) w') -> wp (ask c) Q w.
Proof.
  intros H HQ. unfold wp, ask, bnd, get, modify, ret. apply HQ.
  destruct H as [G1 G2 (x & Hx & H1 & H2 & H3) G4 G5 G6 G7]. split; try done; cbn.
  - exists (leaves (hist w) c (Z.of_nat (Z.to_nat i)) x). rewrite list_lookup_imap, Hx. cbn.
    by rewrite leaves_type, leaves_state, leaves_blocked.
  - by rewrite length_imap.
  - change (replies i (hist w ++ [c]) = h ++ reply_of i c). by rewrite replies_snoc, G7.
Qed.

(** A call that tells a caller nothing. *)
Lemma wp_asks c s ty b st p h Q w : sees w i s ty b st p h -> reply_of i c = [] ->
  (forall w' a, sees w' i s ty b st p h -> Q a w') -> wp (ask c) Q w.
Proof. intros H Hc HQ. eapply wp_ask; [exact H|]. rewrite Hc, app_nil_r. intros w' H'. by apply HQ. Qed.

(** A call that is always answered the same way. *)
Lemma wp_ask_known c a s ty b st p h Q w : sees w i s ty b st p h -> reply_of i c = [] -> (forall h, answer h c = a) ->
  (forall w', sees w' i s ty b st p h -> Q a w') -> wp (ask c) Q w.
Proof. intros H Hc Ha HQ. eapply wp_ask; [exact H|]. rewrite Hc, app_nil_r, Ha. exact HQ. Qed.

(** Whatever an interface becomes. *)
Lemma wp_vif_mod_any f ty' s ty b st p h Q w : sees w i s ty b st p h -> (forall x, wvif_type x = ty -> wvif_type (f x) = ty') ->
  (forall w' b' st', sees w' i s ty' b' st' p h -> Q tt w') -> wp (vif_mod i f) Q w.
Proof.
  intros H Hf HQ. destruct (se_vif _ _ _ _ _ _ _ _ H) as (x & Hx & H1 & _).
  unfold wp, vif_mod, vif_get, bnd, get, modify. rewrite Hx. cbn [ret].
  apply (HQ _ (conn_blocked (cfg (sta (f x)))) (sta_state (sta (f x)))).
  destruct H as [G1 G2 G3 G4 G5 G6 G7]. split; try done; cbn.
  - exists (f x). rewrite list_lookup_insert_eq by (by eapply lookup_lt_Some). split; [done|]. by split; [apply Hf|].
  - by rewrite length_insert.
Qed.

Lemma wp_tell c s ty b st p h Q w : sees w i s ty b st p h -> reply_of i c = [] ->
  (forall w', sees w' i s ty b st p h -> Q tt w') -> wp (tell c) Q w.
Proof. intros H Hc HQ. apply wp_bnd. eapply wp_asks; [exact H|done|]. intros w' a H'. by apply HQ. Qed.

Lemma wp_answer r s ty b st p h Q w : sees w i s ty b st p h ->
  (forall w', sees w' i s ty b st p (h ++ [r]) -> Q tt w') -> wp (tell (sys_queue_post i MGMT_WAIT_EVT_CONN_DONE r)) Q w.
Proof.
  intros H HQ. apply wp_bnd. eapply wp_ask; [exact H|]. cbn [reply_of]. rewrite Z.eqb_refl. intros w' H'. by apply HQ.
Qed.

Lemma wp_register ms cb s ty b st p h Q w : sees w i s ty b st p h ->
  (forall w' n, sees w' i s ty b st (more cb n p) h -> (n <= 1)%nat -> Q tt w') ->
  wp (eloop_timeout_register ms cb i) Q w.
Proof.
  intros H HQ. unfold wp, eloop_timeout_register, of_timers, bnd, get, modify, ret.
  destruct (timeout_register_law ms cb i 0 _ (se_timers _ _ _ _ _ _ _ _ H)) as (r & t & -> & Ht & Hp).
  destruct H as [G1 G2 G3 G4 G5 G6 G7].
  destruct Hp as [[_ Hp]|[_ Hp]]; [apply (HQ _ 1%nat)|apply (HQ _ 0%nat)]; try lia; split; try done; cbn [tm set_tm].
  - intros cb'. rewrite (occ_perm _ _ _ Hp), occ_cons, G6. unfold more.
    destruct (Z.eqb_spec cb' cb); case_decide; congruence || lia.
  - intros cb'. rewrite Hp, G6. unfold more. by destruct (_ =? _).
Qed.

Lemma wp_cancel cb s ty b st p h Q w : sees w i s ty b st p h ->
  (forall w', sees w' i s ty b st (dropped cb p) h -> Q tt w') -> wp (eloop_timeout_cancel cb) Q w.
Proof.
  intros H HQ. unfold wp, eloop_timeout_cancel, of_timers, bnd, get, modify, ret.
  destruct (timeout_cancel_law cb ANY_CONTEXT ANY_CONTEXT _ (se_timers _ _ _ _ _ _ _ _ H)) as (r & t & -> & Ht & Hp).
  apply HQ. destruct H as [G1 G2 G3 G4 G5 G6 G7]. split; try done. cbn [tm set_tm].
  intros cb'. rewrite Hp. by erewrite occ_cancelled, G6.
Qed.

Lemma wp_is_registered cb s ty b st p h Q w : sees w i s ty b st p h ->
  Q (bool_decide (0 < p cb)%nat) w -> wp (eloop_timeout_is_registered cb i) Q w.
Proof.
  intros H HQ. unfold wp, eloop_timeout_is_registered, bnd, get, ret.
  rewrite (timeout_is_registered_law cb i 0 _ (se_timers _ _ _ _ _ _ _ _ H)).
  rewrite (bool_decide_ext _ _ (elem_of_occ _ _)), (se_pending _ _ _ _ _ _ _ _ H). by destruct (bool_decide _).
Qed.

End Spec.

(** ** Symbolic execution

    One primitive at a time; the index of the machine's data is that of the interface. *)
Ltac fields := cbn [vif_idx init sm_state event reason param param_len dhcp_polling_count delayed_connect_retry
  retry_count retry_limit retry_interval preroam_enable preroam_start polling_scan polling_scan_count
  preroam_bssid_bk scan_blocked set_vif_idx set_init set_sm_state set_event set_reason set_param set_param_len
  set_dhcp_polling_count set_delayed_connect_retry set_retry_count set_retry_limit set_retry_interval
  set_preroam_enable set_preroam_start set_polling_scan set_polling_scan_count set_preroam_bssid_bk
  set_scan_blocked conn_blocked cfg sta_state sta set_sta_state set_last_reason set_cfg set_conn_blocked
  set_channel set_bssid set_conn_with_bssid set_ap_id] in *.

(** The index of the interface as the code reads it. *)
Ltac index := match goal with H : sees _ ?i _ _ _ _ _ _ |- _ => let E := fresh in
  pose proof (se_idx _ _ _ _ _ _ _ _ H) as E; fields; rewrite ?E; clear E end.

Ltac next := let w' := fresh "w" in let H' := fresh "H" in
  intros w'; lazymatch goal with |- sees _ _ _ _ _ _ _ _ -> _ => idtac | _ => intros ? end; intros H'.
(** The world reached is one the continuation accepts. *)
Ltac arrive HQ := match goal with H : sees ?w ?i _ _ _ _ _ _ |- _ _ ?w => eapply (HQ _ _ H) || eapply (HQ _ _ _ H) end.
Ltac quiet := cbn [reply_of];
  change (MGMT_WAIT_EVT_SCAN_DONE =? MGMT_WAIT_EVT_CONN_DONE) with false;
  change (MGMT_WAIT_EVT_DISCONN_DONE =? MGMT_WAIT_EVT_CONN_DONE) with false;
  rewrite ?andb_false_r; reflexivity.

Ltac wstep :=
  lazymatch goal with
  | |- wp (bnd _ _) _ _ => apply wp_bnd
  | |- wp (ret _) _ _ => apply wp_ret
  | |- wp (if ?b then _ else _) _ _ => destruct b eqn:?; bool_to_prop
  | H : sees ?w ?i _ _ _ _ _ _ |- wp (sm_get _) _ ?w => eapply wp_sm_get; [exact H|]; index
  | H : sees ?w ?i _ _ _ _ _ _ |- wp (sm_mod _ _) _ ?w => eapply wp_sm_mod; [exact H|by index|]; clear H; next
  | H : sees ?w ?i _ _ _ _ _ _ |- wp (vif_get ?i) _ ?w => eapply wp_vif_get; [exact H|]; intros ? ? ? ?
  | H : sees ?w ?i _ _ _ _ _ _ |- wp (vif_get _) _ ?w => eapply wp_vif_other; [exact H|done|]; intros ?
  | H : sees ?w ?i _ _ _ _ _ _ |- wp (tell (sys_queue_post ?i MGMT_WAIT_EVT_CONN_DONE _)) _ ?w => eapply wp_answer; [exact H|]; clear H; next
  | H : sees ?w ?i _ _ _ _ _ _ |- wp (tell _) _ ?w => eapply wp_tell; [exact H|quiet|]; clear H; next
  | H : sees ?w ?i _ _ _ _ _ _ |- wp (ask _) _ ?w => eapply wp_asks; [exact H|quiet|]; clear H; next
  | H : sees ?w ?i _ _ _ _ _ _ |- wp (eloop_timeout_cancel _) _ ?w => eapply wp_cancel; [exact H|]; clear H; next
  | H : sees ?w ?i _ _ _ _ _ _ |- wp (sta_mod _ _) _ ?w => eapply wp_sta_mod; [exact H|by intros; fields|]; clear H; next
  | H : sees ?w ?i _ _ _ _ _ _ |- wp (cfg_mod _ _) _ ?w => eapply wp_cfg_mod; [exact H|by intros; fields|]; clear H; next
  | H : sees ?w ?i _ _ _ _ _ _ |- wp (eloop_timeout_register _ _ _) _ ?w => eapply wp_register; [exact H|]; clear H; intros w' n H Hn
  | |- wp get _ _ => apply wp_get
  end.
Ltac wsteps := repeat wstep.


Section Functions.
Context {T : Type} {timers : Timers T} {laws : TimersLaws T} {driver : Driver} {driver_laws : DriverLaws}.
Abbreviation W := (world (T := T)).
Context (i : Z).

(** ** The helpers *)

Lemma post_conn_done_ok r s ty b st p h Q w : sees w i s ty b st p h ->
  (forall w', sees w' i s ty false st p (h ++ if b then [r] else []) -> Q tt w') -> wp (mgmt_post_conn_done i r) Q w.
Proof.
  intros H HQ. unfold mgmt_post_conn_done. wsteps.
  - apply HQ. destruct b; [congruence|]. by rewrite app_nil_r.
  - apply HQ. destruct b; [done|congruence].
Qed.

Lemma post_scan_done_ok r s ty b st p h Q w : sees w i s ty b st p h ->
  (forall w', sees w' i (set_scan_blocked false s) ty b st p h -> Q tt w') -> wp (mgmt_post_scan_done i r) Q w.
Proof.
  intros H HQ. unfold mgmt_post_scan_done. wsteps; apply HQ; [|done]. destruct s. cbn in *. by subst.
Qed.

(** [s'] is [s] but for the count of retries, their limit and their interval. *)
Definition retries_set (s s' : wifi_management_sm_data) : Prop :=
  exists c l t, 0 <= c < 2 ^ 32 /\ s' = set_retry_interval t (set_retry_limit l (set_retry_count c s)).

Lemma retry_param_set_ok r s ty b st p h Q w : sees w i s ty b st p h ->
  (forall w' s', sees w' i s' ty b st p h -> retries_set s s' -> (r = false -> retry_count s' = WIFI_MGMT_CONNECT_RETRY_LIMIT - 1) -> Q tt w') ->
  wp (mgmt_connect_retry_param_set i r) Q w.
Proof.
  intros H HQ. unfold mgmt_connect_retry_param_set. wsteps;
    (eapply HQ; [eassumption| |by intros]; eexists _, _, _; split; [|reflexivity]).
  - lia.
  - unfold WIFI_MGMT_ROAMING_RETRY_UNLIMITED. lia.
  - apply wrap_range. lia.
  - unfold WIFI_MGMT_CONNECT_RETRY_LIMIT. lia.
Qed.

(** The retry is pending once at most. *)
Lemma register_retry_ok s ty b st p h Q w : sees w i s ty b st p h ->
  (forall w' n, sees w' i s ty b st (more mgmt_connect_retry_cb n p) h ->
     (n + p mgmt_connect_retry_cb <= Nat.max 1 (p mgmt_connect_retry_cb))%nat -> Q tt w') ->
  wp (mgmt_register_delayed_connect_retry i) Q w.
Proof.
  intros H HQ. unfold mgmt_register_delayed_connect_retry. wsteps. eapply wp_is_registered; [exact H|].
  destruct (bool_decide _) eqn:E; wsteps; [|apply bool_decide_eq_false in E; eapply HQ; [eassumption|lia]].
  eapply (HQ _ 0%nat); [by apply sees_more_0|lia].
Qed.

Lemma link_is_ongoing_ok s ty b st p h Q w : sees w i s ty b st p h ->
  (forall w', sees w' i s ty false st p (h ++ [MAC_ST_FAILURE]) -> Q tt w') -> wp (mgmt_link_is_ongoing i) Q w.
Proof. intros H HQ. unfold mgmt_link_is_ongoing. wsteps. by eapply post_conn_done_ok. Qed.

(** What roaming and scanning change of the machine's data. *)
Definition alike (s s' : wifi_management_sm_data) : Prop :=
  retry_count s' = retry_count s /\ sm_state s' = sm_state s /\ init s' = init s.

(** Going back to the old access point asks for a connection. *)
Lemma preroam_rollback_ok s ty b st p h Q w : sees w i s ty b st p h ->
  (forall w' s', sees w' i s' ty b st p h -> alike s s' -> Q tt w') -> wp (mgmt_preroam_rollback i) Q w.
Proof. intros H HQ. unfold mgmt_preroam_rollback. wsteps; (eapply HQ; [eassumption|]; by repeat split). Qed.

(** ** Entering a state *)

Lemma enter_IDLE_ok s ty b st p h Q w : sees w i s ty b st p h ->
  (forall w', sees w' i (set_delayed_connect_retry false (set_sm_state MAINTAIN_CONNECTION_IDLE s)) ty b WIFI_STA_STATE_IDLE
     (dropped mgmt_connect_retry_cb (dropped mgmt_link_status_polling_cb (dropped mgmt_dhcp_polling_cb p))) h -> Q tt w') ->
  wp (enter_IDLE i) Q w.
Proof. intros H HQ. unfold enter_IDLE, mgmt_post_disconn_done. wsteps. by apply HQ. Qed.

Lemma enter_SCAN_ok s ty b st p h Q w : sees w i s ty b st p h ->
  (forall w', sees w' i (set_sm_state MAINTAIN_CONNECTION_SCAN s) ty b WIFI_STA_STATE_SCAN
     (dropped mgmt_link_status_polling_cb (dropped mgmt_dhcp_polling_cb p)) h -> Q tt w') ->
  wp (enter_SCAN i) Q w.
Proof. intros H HQ. unfold enter_SCAN. wsteps; by apply HQ. Qed.

Lemma enter_CONNECT_ok s ty b st p h Q w : sees w i s ty b st p h ->
  (forall w', sees w' i (set_sm_state MAINTAIN_CONNECTION_CONNECT s) ty b WIFI_STA_STATE_CONNECT p h -> Q tt w') ->
  wp (enter_CONNECT i) Q w.
Proof. intros H HQ. unfold enter_CONNECT. wsteps; by apply HQ. Qed.

Lemma enter_HANDSHAKE_ok s ty b st p h Q w : sees w i s ty b st p h ->
  (forall w', sees w' i (set_sm_state MAINTAIN_CONNECTION_HANDSHAKE s) ty b WIFI_STA_STATE_HANDSHAKE p h -> Q tt w') ->
  wp (enter_HANDSHAKE i) Q w.
Proof. intros H HQ. unfold enter_HANDSHAKE. wsteps; by apply HQ. Qed.

Lemma enter_DHCP_ok s ty b st p h Q w : sees w i s ty b st p h ->
  (forall w' s' n, sees w' i s' ty b WIFI_STA_STATE_IP_GETTING (more mgmt_dhcp_polling_cb n p) h -> (n <= 1)%nat ->
     alike (set_sm_state MAINTAIN_CONNECTION_DHCP s) s' -> Q tt w') -> wp (enter_DHCP i) Q w.
Proof. intros H HQ. unfold enter_DHCP. wsteps; (eapply HQ; [eassumption|done|by repeat split]). Qed.

Lemma enter_CONNECTED_ok s ty b st p h Q w : sees w i s ty b st p h ->
  (forall w' s', sees w' i s' ty false WIFI_STA_STATE_CONNECTED p (h ++ if b then [MAC_ST_SUCCESSFUL] else []) ->
     alike (set_sm_state MAINTAIN_CONNECTION_CONNECTED s) s' -> Q tt w') -> wp (enter_CONNECTED i) Q w.
Proof.
  intros H HQ. unfold enter_CONNECTED. wsteps.
  all: try (eapply post_conn_done_ok; [eassumption|]; clear H1; next; wsteps).
  all: destruct b; try congruence; rewrite ?app_nil_r in *; arrive HQ; by repeat split.
Qed.

(** ** The callbacks *)

Lemma dhcp_polling_ok s ty b st p h Q w : sees w i s ty b st p h ->
  (forall w' s' n, sees w' i s' ty b st (more mgmt_dhcp_polling_cb n p) h -> (n <= 1)%nat -> alike s s' -> Q tt w') ->
  wp (mgmt_dhcp_polling i) Q w.
Proof.
  intros H HQ. unfold mgmt_dhcp_polling. wsteps.
  all: first [arrive HQ; done|apply (sees_more_0 i mgmt_dhcp_polling_cb) in H; arrive HQ; (lia || done)].
Qed.

Lemma link_polling_ok s ty b st p h Q w : sees w i s ty b st p h ->
  (forall w' s' n, sees w' i s' ty b st (more mgmt_link_status_polling_cb n p) h -> (n <= 1)%nat -> alike s s' -> Q tt w') ->
  wp (mgmt_link_status_polling i) Q w.
Proof.
  intros H HQ. unfold mgmt_link_status_polling. wsteps.
  all: try (destruct (param s)); wsteps.
  all: first [arrive HQ; done|apply (sees_more_0 i mgmt_link_status_polling_cb) in H; arrive HQ; (lia || done)].
Qed.

Lemma connect_retry_ok s ty b st p h Q w : sees w i s ty b st p h ->
  (forall w' s', sees w' i s' ty b WIFI_STA_STATE_SCAN (dropped mgmt_link_status_polling_cb (dropped mgmt_dhcp_polling_cb p)) h ->
     retry_count s' = u32 (retry_count s - 1) -> sm_state s' = MAINTAIN_CONNECTION_SCAN -> init s' = init s -> Q tt w') ->
  wp (mgmt_connect_retry i) Q w.
Proof. intros H HQ. unfold mgmt_connect_retry. wsteps. eapply enter_SCAN_ok; [eassumption|]. next. by arrive HQ. Qed.

(** ** What the machine of a station does besides entering states *)

(** What a request can be given. *)
Definition suits (e : wifi_management_event_t) (q : option pdata) : bool :=
  match e, q with
  | EVENT_CONNECT_CMD, Some (Ap _ | Mon _ | Buf _) => false
  | EVENT_SCAN_CMD, Some (Mon _) => false
  | _, _ => true
  end.

Lemma user_scan_ok s ty b st p h Q w : sees w i s ty b st p h -> suits EVENT_SCAN_CMD (param s) = true ->
  (forall w' s', sees w' i s' ty b st p h -> alike s s' -> Q tt w') -> wp (user_scan i) Q w.
Proof.
  intros H Hq HQ. unfold user_scan. wsteps. destruct (param s) as [[c|a|ch|l]|]; try done; wsteps; try (by arrive HQ).
  all: eapply post_scan_done_ok; [eassumption|]; next; by arrive HQ.
Qed.

Lemma connected_scan_done_ok s ty b st p h Q w : sees w i s ty b st p h ->
  (forall w' s' p', sees w' i s' ty b st p' h -> (forall x, p' x <= p x)%nat -> alike s s' -> Q tt w') ->
  wp (mgmt_connected_scan_done i) Q w.
Proof.
  intros H HQ. unfold mgmt_connected_scan_done. wsteps. all: arrive HQ; try done.
  all: intros cb; unfold dropped; destruct (_ =? _); lia.
Qed.

(** Whether a caller is blocked once the parameter has been copied. *)
Definition blocked_by (p : option pdata) (b : bool) : bool := match p with Some (Cfg c) => conn_blocked c | _ => b end.

Lemma copy_cfg_ok q s ty b st p h Q w : sees w i s ty b st p h -> suits EVENT_CONNECT_CMD q = true ->
  (forall w', sees w' i s ty (blocked_by q b) st p h -> Q tt w') -> wp (copy_cfg i q) Q w.
Proof. intros H Hq HQ. unfold copy_cfg. destruct q as [[c|a|ch|l]|]; try done; wsteps; by apply HQ. Qed.

Lemma abandon_ok s ty b st p h Q w : sees w i s ty b st p h ->
  (forall w' s', sees w' i s' ty false WIFI_STA_STATE_IDLE
     (dropped mgmt_connect_retry_cb (dropped mgmt_link_status_polling_cb (dropped mgmt_dhcp_polling_cb p)))
     (h ++ if b then [reason s] else []) -> alike (set_sm_state MAINTAIN_CONNECTION_IDLE s) s' -> Q tt w') ->
  wp (abandon i) Q w.
Proof.
  intros H HQ. unfold abandon. wsteps. eapply preroam_rollback_ok; [exact H|]. intros w1 s1 H1 (A1 & A2 & A3). wsteps.
  eapply post_conn_done_ok; [exact H1|]. clear H1. next. eapply enter_IDLE_ok; [eassumption|]. next. arrive HQ. by repeat split.
Qed.

Lemma try_again_ok s ty b st p h Q w : sees w i s ty b st p h ->
  (0 < retry_count s -> forall w' s' n, sees w' i s' ty b WIFI_STA_STATE_SCAN
     (more mgmt_connect_retry_cb n (dropped mgmt_link_status_polling_cb (dropped mgmt_dhcp_polling_cb p))) h ->
     (n + p mgmt_connect_retry_cb <= Nat.max 1 (p mgmt_connect_retry_cb))%nat ->
     alike (set_sm_state MAINTAIN_CONNECTION_SCAN s) s' -> Q tt w') ->
  (retry_count s <= 0 -> forall w' s', sees w' i s' ty false WIFI_STA_STATE_IDLE
     (dropped mgmt_connect_retry_cb (dropped mgmt_link_status_polling_cb (dropped mgmt_dhcp_polling_cb p)))
     (h ++ if b then [reason s] else []) -> alike (set_sm_state MAINTAIN_CONNECTION_IDLE s) s' -> Q tt w') ->
  wp (try_again i) Q w.
Proof.
  intros H H1 H2. unfold try_again. wsteps; [|by eapply abandon_ok; [exact H|apply H2]].
  eapply enter_SCAN_ok; [eassumption|]. next. eapply register_retry_ok; [eassumption|]. intros w' n Hs Hn.
  eapply H1; [done|exact Hs|exact Hn|by repeat split].
Qed.

End Functions.
End WifiMgmtSpec.
