(* ===== verification/WifiLink.v ===== *)
(** * The link of a station

    What the machine of a station promises its callers, as a transition system on its
    phase, the retries left and whether a caller is blocked; and the proof that every
    message and every timer of [WifiMgmt] is a step of it. *)
From S2P Require Import Prelude Timers WifiMgmt WifiMgmtSpec.
Open Scope Z_scope.
Open Scope fw_scope.

Module WifiLink.
Import WifiMgmt WifiMgmtSpec.

(** ** The transition system *)

Record link := mk_link { phase : Z; retries : Z; blocked : bool }.

(** A message, with its reason and its parameter, or a timer. *)
Inductive stimulus := Got (e : wifi_management_event_t) (r : Z) (q : option pdata) | Timed (cb : Z).

Definition connecting (ph : Z) : bool := (MAINTAIN_CONNECTION_SCAN <=? ph) && (ph <=? MAINTAIN_CONNECTION_DHCP).

(** The next phase, if all goes well. *)
Definition advances (ph : Z) (e : wifi_management_event_t) : option Z :=
  match e with
  | EVENT_SCAN_DONE => if ph =? MAINTAIN_CONNECTION_SCAN then Some MAINTAIN_CONNECTION_CONNECT else None
  | EVENT_ASSOC_SUCCESS => if ph =? MAINTAIN_CONNECTION_CONNECT then Some MAINTAIN_CONNECTION_HANDSHAKE else None
  | EVENT_DHCP_START => if ph =? MAINTAIN_CONNECTION_HANDSHAKE then Some MAINTAIN_CONNECTION_DHCP else None
  | _ => None
  end.

(** The attempt has failed. *)
Definition fails (ph : Z) (e : wifi_management_event_t) : bool :=
  match e with
  | EVENT_SCAN_FAIL => ph =? MAINTAIN_CONNECTION_SCAN
  | EVENT_CONNECT_FAIL | EVENT_DISCONNECT => (MAINTAIN_CONNECTION_CONNECT <=? ph) && (ph <=? MAINTAIN_CONNECTION_DHCP)
  | EVENT_DHCP_FAIL => ph =? MAINTAIN_CONNECTION_DHCP
  | _ => false
  end.

(** The attempt is over, and its caller is not told. *)
Definition drops (ph : Z) (e : wifi_management_event_t) : bool :=
  match e with
  | EVENT_DISCONNECT_CMD => negb (ph =? MAINTAIN_CONNECTION_IDLE)
  | EVENT_CONNECT_FAIL => ph =? MAINTAIN_CONNECTION_SCAN
  | _ => false
  end.

Definition ignores (ph : Z) (e : wifi_management_event_t) : bool :=
  match e with
  | EVENT_SCAN_CMD => negb (connecting ph)
  | EVENT_CONNECT_CMD => false
  | EVENT_AUTO_CONNECT_CMD => true
  | EVENT_DHCP_SUCCESS => negb (ph =? MAINTAIN_CONNECTION_DHCP)
  | EVENT_DISCONNECT => (ph =? MAINTAIN_CONNECTION_IDLE) || (ph =? MAINTAIN_CONNECTION_SCAN)
  | _ => negb (fails ph e) && negb (drops ph e) && bool_decide (advances ph e = None)
  end.

(** [moves l x o l']: the stimulus [x] takes [l] to [l'], and [o] is what a blocked caller is told. *)
Inductive moves : link -> stimulus -> list Z -> link -> Prop :=
| moves_refuse ph c b e r q : connecting ph = true -> e = EVENT_SCAN_CMD \/ e = EVENT_CONNECT_CMD ->
    moves (mk_link ph c b) (Got e r q) [MAC_ST_FAILURE] (mk_link ph c false)
| moves_start ph c b r q : ph = MAINTAIN_CONNECTION_IDLE \/ ph = MAINTAIN_CONNECTION_CONNECTED ->
    moves (mk_link ph c b) (Got EVENT_CONNECT_CMD r q) []
      (mk_link MAINTAIN_CONNECTION_SCAN (WIFI_MGMT_CONNECT_RETRY_LIMIT - 1) (blocked_by q b))
| moves_auto c c' b r q :
    moves (mk_link MAINTAIN_CONNECTION_IDLE c b) (Got EVENT_AUTO_CONNECT_CMD r q) [] (mk_link MAINTAIN_CONNECTION_SCAN c' b)
| moves_advance ph ph' c b e r q : advances ph e = Some ph' ->
    moves (mk_link ph c b) (Got e r q) [] (mk_link ph' c b)
| moves_succeed c b r q :
    moves (mk_link MAINTAIN_CONNECTION_DHCP c b) (Got EVENT_DHCP_SUCCESS r q)
      (if b then [MAC_ST_SUCCESSFUL] else []) (mk_link MAINTAIN_CONNECTION_CONNECTED c false)
| moves_again ph c b e r q : fails ph e = true -> 0 < c ->
    moves (mk_link ph c b) (Got e r q) [] (mk_link MAINTAIN_CONNECTION_SCAN c b)
| moves_abandon ph b e r q : fails ph e = true ->
    moves (mk_link ph 0 b) (Got e r q) (if b then [r] else []) (mk_link MAINTAIN_CONNECTION_IDLE 0 false)
| moves_drop ph c b e r q : drops ph e = true ->
    moves (mk_link ph c b) (Got e r q) [] (mk_link MAINTAIN_CONNECTION_IDLE c b)
| moves_lost c c' b r q : reconnects r = true -> 0 < c' ->
    moves (mk_link MAINTAIN_CONNECTION_CONNECTED c b) (Got EVENT_DISCONNECT r q) [] (mk_link MAINTAIN_CONNECTION_SCAN c' b)
| moves_lost_alone c b r q : reconnects r = true ->
    moves (mk_link MAINTAIN_CONNECTION_CONNECTED c b) (Got EVENT_DISCONNECT r q)
      (if b then [r] else []) (mk_link MAINTAIN_CONNECTION_IDLE 0 false)
| moves_left c b r q : reconnects r = false ->
    moves (mk_link MAINTAIN_CONNECTION_CONNECTED c b) (Got EVENT_DISCONNECT r q) [] (mk_link MAINTAIN_CONNECTION_IDLE c b)
| moves_ignore ph c b e r q : ignores ph e = true ->
    moves (mk_link ph c b) (Got e r q) [] (mk_link ph c b)
| moves_retry ph c b : connecting ph = true -> 0 < c ->
    moves (mk_link ph c b) (Timed mgmt_connect_retry_cb) [] (mk_link MAINTAIN_CONNECTION_SCAN (c - 1) b)
| moves_poll l cb : cb = mgmt_dhcp_polling_cb \/ cb = mgmt_link_status_polling_cb -> moves l (Timed cb) [] l.

(** ** The machine stands where the link says *)

Definition phases : list Z :=
  [MAINTAIN_CONNECTION_IDLE; MAINTAIN_CONNECTION_SCAN; MAINTAIN_CONNECTION_CONNECT; MAINTAIN_CONNECTION_HANDSHAKE;
   MAINTAIN_CONNECTION_DHCP; MAINTAIN_CONNECTION_CONNECTED].

(** The state of the station follows the machine; each timer is pending only where its
    callback has something to do, the retry once, and only if there is a retry left. *)
Record kept (s : wifi_management_sm_data) (l : link) (st : Z) (p : Z -> nat) : Prop := {
  ke_init : init s = true;
  ke_phase : sm_state s = phase l;
  ke_phases : phase l ∈ phases;
  ke_retries : retry_count s = retries l;
  ke_range : 0 <= retries l < 2 ^ 32;
  ke_station : phase l <> MAINTAIN_CONNECTION_IDLE -> st = phase l;
  ke_once : (p mgmt_connect_retry_cb <= 1)%nat;
  ke_retry : (0 < p mgmt_connect_retry_cb)%nat -> connecting (phase l) = true /\ 0 < retries l;
  ke_dhcp : (0 < p mgmt_dhcp_polling_cb)%nat -> phase l = MAINTAIN_CONNECTION_DHCP \/ phase l = MAINTAIN_CONNECTION_CONNECTED;
  ke_link : (0 < p mgmt_link_status_polling_cb)%nat -> phase l = MAINTAIN_CONNECTION_CONNECTED
}.

Lemma advances_connecting ph e ph' : advances ph e = Some ph' ->
  connecting ph = true /\ connecting ph' = true /\ ph <> MAINTAIN_CONNECTION_DHCP /\ ph' ∈ phases.
Proof.
  destruct e; try done; cbn [advances]; intros Ha; (case_match eqn:Eq; [|done]); apply Z.eqb_eq in Eq; injection Ha as <-; subst; by repeat split; set_solver.
Qed.

Section Link.
Context {T : Type} {timers : Timers T} {laws : TimersLaws T} {driver : Driver} {driver_laws : DriverLaws}.
Abbreviation W := (world (T := T)).
Context (i : Z).

Definition stands (w : W) (l : link) (h : list Z) : Prop :=
  exists s st p, sees w i s WVIF_STA (blocked l) st p h /\ kept s l st p.

(** A step of the machine is one of the link. *)
Definition steps (l : link) (x : stimulus) (h : list Z) (m : M W unit unit) : W -> Prop :=
  wp m (fun _ w => exists o l', moves l x o l' /\ stands w l' (h ++ o)).

Lemma steps_arrive l x h o l' s st p w : sees w i s WVIF_STA (blocked l') st p (h ++ o) -> moves l x o l' -> kept s l' st p ->
  exists o l', moves l x o l' /\ stands w l' (h ++ o).
Proof. intros H1 H2 H3. exists o, l'. split; [done|]. by exists s, st, p. Qed.

Ltac arithmetic := unfold connecting, phases, dropped, more in *; cbn [phase retries blocked] in *;
  unfold MAINTAIN_CONNECTION_IDLE, MAINTAIN_CONNECTION_SCAN, MAINTAIN_CONNECTION_CONNECT, MAINTAIN_CONNECTION_HANDSHAKE,
  MAINTAIN_CONNECTION_DHCP, MAINTAIN_CONNECTION_CONNECTED, mgmt_dhcp_polling_cb, mgmt_link_status_polling_cb,
  mgmt_connect_retry_cb in *; cbn [Z.eqb Pos.eqb Z.leb Z.compare Pos.compare Pos.compare_cont andb] in *.

Lemma kept_same s s' l st p p' : kept s l st p -> alike s s' -> (forall x, p' x <= p x)%nat -> kept s' l st p'.
Proof.
  intros [] (A1 & A2 & A3) Hp. pose proof (Hp mgmt_connect_retry_cb). pose proof (Hp mgmt_dhcp_polling_cb).
  pose proof (Hp mgmt_link_status_polling_cb).
  split; first [congruence|assumption|lia|intros; first [apply ke_retry0|apply ke_dhcp0|apply ke_link0]; lia].
Qed.

Lemma kept_idle s c b p : init s = true -> sm_state s = MAINTAIN_CONNECTION_IDLE -> retry_count s = c -> 0 <= c < 2 ^ 32 ->
  kept s (mk_link MAINTAIN_CONNECTION_IDLE c b) WIFI_STA_STATE_IDLE
    (dropped mgmt_connect_retry_cb (dropped mgmt_link_status_polling_cb (dropped mgmt_dhcp_polling_cb p))).
Proof. intros H1 H2 H3 H4. split; arithmetic; try done; try lia. set_solver. Qed.

Lemma kept_scan s c b p n : init s = true -> sm_state s = MAINTAIN_CONNECTION_SCAN -> retry_count s = c -> 0 <= c < 2 ^ 32 ->
  (n + p mgmt_connect_retry_cb <= 1)%nat -> ((0 < n + p mgmt_connect_retry_cb)%nat -> 0 < c) ->
  kept s (mk_link MAINTAIN_CONNECTION_SCAN c b) WIFI_STA_STATE_SCAN
    (more mgmt_connect_retry_cb n (dropped mgmt_link_status_polling_cb (dropped mgmt_dhcp_polling_cb p))).
Proof. intros H1 H2 H3 H4 H5 H6. split; arithmetic; try done; try lia. set_solver. Qed.

(** ** Every message is a step of the link *)

Lemma steps_stay l e r q h w s st p : sees w i s WVIF_STA (blocked l) st p h -> kept s l st p -> ignores (phase l) e = true ->
  exists o l', moves l (Got e r q) o l' /\ stands w l' (h ++ o).
Proof.
  intros H K E. destruct l as [ph c b]. eapply (steps_arrive _ _ h []); [by rewrite app_nil_r|by apply moves_ignore|exact K].
Qed.

(** Where a step ends, for what the functions of the machine do last. *)
Lemma steps_SCAN l x o s b st p h w : sees w i s WVIF_STA b st p (h ++ o) -> init s = true -> 0 <= retry_count s < 2 ^ 32 ->
  (p mgmt_connect_retry_cb <= 1)%nat -> ((0 < p mgmt_connect_retry_cb)%nat -> 0 < retry_count s) ->
  moves l x o (mk_link MAINTAIN_CONNECTION_SCAN (retry_count s) b) -> steps l x h (enter_SCAN i) w.
Proof.
  intros H H1 H2 H3 H4 Hm. eapply enter_SCAN_ok; [exact H|]. intros w' H'. apply (sees_more_0 i mgmt_connect_retry_cb) in H'.
  eapply steps_arrive; [|exact Hm|]; [exact H'|]. by apply kept_scan.
Qed.

Lemma steps_IDLE l x o s b st p h w : sees w i s WVIF_STA b st p (h ++ o) -> init s = true -> 0 <= retry_count s < 2 ^ 32 ->
  moves l x o (mk_link MAINTAIN_CONNECTION_IDLE (retry_count s) b) -> steps l x h (enter_IDLE i) w.
Proof.
  intros H H1 H2 Hm. eapply enter_IDLE_ok; [exact H|]. intros w' H'.
  eapply steps_arrive; [|exact Hm|]; [exact H'|]. by apply kept_idle.
Qed.

Lemma steps_alike l x s st p h (m : M W unit unit) w : sees w i s WVIF_STA (blocked l) st p h -> kept s l st p -> moves l x [] l ->
  (forall (Q : unit -> W -> Prop), (forall w' s' p', sees w' i s' WVIF_STA (blocked l) st p' h -> (forall y, p' y <= p y)%nat ->
     alike s s' -> Q tt w') -> wp m Q w) -> steps l x h m w.
Proof.
  intros H K Hm Hw. apply Hw. intros w' s' p' H' Hp A.
  eapply (steps_arrive _ _ h []); [rewrite app_nil_r; exact H'|exact Hm|by eapply kept_same].
Qed.

(** The retry timer is not pending outside the phases of connecting. *)
Lemma kept_no_retry s l st p : kept s l st p -> connecting (phase l) = false -> p mgmt_connect_retry_cb = 0%nat.
Proof. intros [] H. destruct (p mgmt_connect_retry_cb) as [|n]; [done|]. destruct ke_retry0; [lia|congruence]. Qed.

(** A connection is looked for anew. *)
Lemma steps_start l x r s b st p h w : sees w i s WVIF_STA b st p h -> init s = true -> p mgmt_connect_retry_cb = 0%nat ->
  (forall c, (r = false -> c = WIFI_MGMT_CONNECT_RETRY_LIMIT - 1) -> moves l x [] (mk_link MAINTAIN_CONNECTION_SCAN c b)) ->
  wp (mgmt_connect_retry_param_set i r) (fun _ => steps l x h (enter_SCAN i)) w.
Proof.
  intros H H1 Hp Hm. eapply retry_param_set_ok; [exact H|].
  intros w' s' H' (c & m & t & Hc & ->) Hr. eapply (steps_SCAN _ _ []); [rewrite app_nil_r; exact H'|done|done|lia|lia|]. by apply Hm.
Qed.

Lemma step_IDLE_ok s l st p h w : sees w i s WVIF_STA (blocked l) st p h -> kept s l st p ->
  phase l = MAINTAIN_CONNECTION_IDLE -> suits (event s) (param s) = true ->
  steps l (Got (event s) (reason s) (param s)) h (step_IDLE i s) w.
Proof.
  intros H K Hph Hq. pose proof (kept_no_retry _ _ _ _ K ltac:(by rewrite Hph)) as Hr.
  destruct l as [ph c b]. cbn [phase blocked] in *. subst ph. pose proof K as [Ki _ _ Kr Kc _ _ _ _ _]. cbn [retries] in *.
  unfold step_IDLE. rewrite (se_idx _ _ _ _ _ _ _ _ H).
  destruct (event s) eqn:E; try (apply wp_ret; by eapply steps_stay).
  - eapply steps_alike; [exact H|exact K|by apply moves_ignore|]. intros Q HQ. eapply user_scan_ok; [exact H|exact Hq|]. intros w' s' H' A. by eapply HQ.
  - apply wp_bnd. eapply copy_cfg_ok; [exact H|exact Hq|]. intros w' H'. apply wp_bnd. eapply steps_start; [exact H'|done|done|].
    intros n ->; [|done]. apply moves_start. by left.
  - unfold mgmt_post_disconn_done, steps. wsteps. by eapply steps_stay.
  - apply wp_bnd. wsteps.
    + eapply (steps_IDLE _ _ []); [rewrite app_nil_r; eassumption|done|lia|]. rewrite Kr. by apply moves_ignore.
    + eapply steps_start; [eassumption|done|done|]. intros n _. apply moves_auto.
  - eapply steps_alike; [exact H|exact K|by apply moves_ignore|]. intros Q HQ. eapply post_scan_done_ok; [exact H|].
    intros w' H'. by eapply HQ.
Qed.

(** ** The phases of connecting *)

Lemma steps_refuse s l st p h w e r q : sees w i s WVIF_STA (blocked l) st p h -> kept s l st p -> connecting (phase l) = true ->
  e = EVENT_SCAN_CMD \/ e = EVENT_CONNECT_CMD -> steps l (Got e r q) h (mgmt_link_is_ongoing i) w.
Proof.
  intros H K Hc He. destruct l as [ph c b]. eapply link_is_ongoing_ok; [exact H|]. intros w' H'.
  eapply (steps_arrive _ _ _ _ (mk_link ph c false)); [exact H'|by apply moves_refuse|by destruct K].
Qed.

Lemma steps_abandon s l st p h w e q : sees w i s WVIF_STA (blocked l) st p h -> init s = true -> retry_count s = 0 ->
  moves l (Got e (reason s) q) (if blocked l then [reason s] else []) (mk_link MAINTAIN_CONNECTION_IDLE 0 false) ->
  steps l (Got e (reason s) q) h (abandon i) w.
Proof.
  intros H Hi Hc Hm. eapply abandon_ok; [exact H|]. intros w' s' H' (A1 & A2 & A3).
  eapply steps_arrive; [|exact Hm|]; [exact H'|]. apply kept_idle; cbn in *; congruence || done.
Qed.

Lemma steps_try_again s l st p h w e q : sees w i s WVIF_STA (blocked l) st p h -> kept s l st p -> fails (phase l) e = true ->
  steps l (Got e (reason s) q) h (try_again i) w.
Proof.
  intros H K Hf. destruct l as [ph c b]. pose proof K as [Ki _ _ Kr Kc _ K1 _ _ _]. cbn [phase retries blocked] in *.
  eapply try_again_ok; [exact H| |].
  - intros Hc w' s' n H' Hn (A1 & A2 & A3). eapply (steps_arrive _ _ _ [] (mk_link _ c b)); [rewrite app_nil_r; exact H'|apply moves_again; [done|lia]|].
    apply kept_scan; cbn in *; congruence || lia.
  - intros Hc w' s' H' (A1 & A2 & A3). assert (c = 0) as -> by lia.
    eapply (steps_arrive _ _ _ _ (mk_link _ 0 false)); [exact H'|by apply moves_abandon|]. apply kept_idle; cbn in *; congruence || done.
Qed.

(** Losing the connection: the supplicant's machines are told first. *)
Lemma steps_link_lost s s0 l st p h w e q : sees w i s WVIF_STA (blocked l) st p h -> kept s l st p -> fails (phase l) e = true ->
  vif_idx s0 = i -> steps l (Got e (reason s) q) h (link_lost i s0) w.
Proof.
  intros H K Hf Hi. unfold link_lost, wpa_disconnected, steps. rewrite Hi. wsteps. by eapply steps_try_again.
Qed.

Lemma steps_drop s l st p h w e r q : sees w i s WVIF_STA (blocked l) st p h -> kept s l st p -> drops (phase l) e = true ->
  steps l (Got e r q) h (enter_IDLE i) w.
Proof.
  intros H K Hd. destruct l as [ph c b], K. cbn [phase retries blocked] in *.
  eapply (steps_IDLE _ _ []); [rewrite app_nil_r; exact H|done|lia|]. rewrite ke_retries0. by apply moves_drop.
Qed.

Lemma steps_advance s s' l st p ph n h w e r q : sees w i s' WVIF_STA (blocked l) ph (more mgmt_dhcp_polling_cb n p) h -> kept s l st p ->
  alike (set_sm_state ph s) s' -> advances (phase l) e = Some ph -> ((0 < n)%nat -> ph = MAINTAIN_CONNECTION_DHCP) ->
  exists o l', moves l (Got e r q) o l' /\ stands w l' (h ++ o).
Proof.
  intros H K (A1 & A2 & A3) Ha Hn. destruct (advances_connecting _ _ _ Ha) as (C1 & C2 & Hd & Hp). destruct l as [ph0 c b].
  eapply (steps_arrive _ _ _ [] (mk_link ph c b)); [rewrite app_nil_r; exact H|by apply moves_advance|].
  destruct K. cbn in A1, A2, A3. arithmetic. split; arithmetic; try done; try congruence; intros.
  - split; [done|by apply ke_retry0].
  - destruct n; [|left; apply Hn; lia]. destruct ke_dhcp0; [lia|congruence|lia].
  - by rewrite ke_link0 in C1.
Qed.

Lemma kept_more_retry s l st p n : kept s l st p -> connecting (phase l) = true -> 0 < retries l ->
  (n + p mgmt_connect_retry_cb <= Nat.max 1 (p mgmt_connect_retry_cb))%nat -> kept s l st (more mgmt_connect_retry_cb n p).
Proof. intros [] H1 H2 H3. split; try done; arithmetic; try done; lia. Qed.

(** What is left are messages the supplicant is told of. *)
Ltac tell_step Hph := unfold steps; wsteps; eapply steps_stay; [eassumption|eassumption|by rewrite Hph].
Ltac connecting_step H K Hph := first
  [ apply wp_ret; eapply steps_stay; [exact H|exact K|by rewrite Hph]
  | eapply steps_refuse; [exact H|exact K|by rewrite Hph|by auto]
  | eapply steps_drop; [exact H|exact K|by rewrite Hph]
  | eapply steps_link_lost; [exact H|exact K|by rewrite Hph|by eapply se_idx] ].

Lemma step_SCAN_ok s l st p h w : sees w i s WVIF_STA (blocked l) st p h -> kept s l st p ->
  phase l = MAINTAIN_CONNECTION_SCAN -> steps l (Got (event s) (reason s) (param s)) h (step_SCAN i s) w.
Proof.
  intros H K Hph. unfold step_SCAN. destruct (event s) eqn:E; try (connecting_step H K Hph).
  - eapply enter_CONNECT_ok; [exact H|]. intros w' H'. apply (sees_more_0 i mgmt_dhcp_polling_cb) in H'.
    eapply steps_advance; [exact H'|exact K|done|by rewrite Hph|lia].
  - destruct l as [ph c b]. pose proof K as [Ki _ _ Kr Kc _ _ _ _ _]. cbn in *. subst ph. case_bool (0 <? retry_count s).
    + eapply register_retry_ok; [exact H|]. intros w' n H' Hn.
      eapply (steps_arrive _ _ _ [] (mk_link _ c b)); [rewrite app_nil_r; exact H'|apply moves_again; [done|lia]|].
      apply kept_more_retry; [done|done|cbn; lia|exact Hn].
    + eapply steps_abandon; [exact H|done|lia|]. assert (c = 0) as -> by lia. by apply moves_abandon.
Qed.

Lemma step_CONNECT_ok s l st p h w : sees w i s WVIF_STA (blocked l) st p h -> kept s l st p ->
  phase l = MAINTAIN_CONNECTION_CONNECT -> steps l (Got (event s) (reason s) (param s)) h (step_CONNECT i s) w.
Proof.
  intros H K Hph. unfold step_CONNECT. rewrite (se_idx _ _ _ _ _ _ _ _ H).
  destruct (event s) eqn:E; try (connecting_step H K Hph); try (by tell_step Hph).
  - eapply enter_HANDSHAKE_ok; [exact H|]. intros w' H'. apply (sees_more_0 i mgmt_dhcp_polling_cb) in H'.
    eapply steps_advance; [exact H'|exact K|done|by rewrite Hph|lia].
  - unfold steps. wsteps. eapply steps_try_again; [eassumption|exact K|by rewrite Hph].
  - unfold steps. wsteps. eapply steps_try_again; [eassumption|exact K|by rewrite Hph].
Qed.

Lemma step_HANDSHAKE_ok s l st p h w : sees w i s WVIF_STA (blocked l) st p h -> kept s l st p ->
  phase l = MAINTAIN_CONNECTION_HANDSHAKE -> steps l (Got (event s) (reason s) (param s)) h (step_HANDSHAKE i s) w.
Proof.
  intros H K Hph. unfold step_HANDSHAKE. pose proof (se_idx _ _ _ _ _ _ _ _ H) as Hi. rewrite Hi.
  destruct (event s) eqn:E; try (connecting_step H K Hph); try (by tell_step Hph).
  - eapply enter_DHCP_ok; [exact H|]. intros w' s' n H' Hn A.
    eapply steps_advance; [exact H'|exact K|done|by rewrite Hph|done].
  - unfold steps. wstep. wstep. eapply steps_link_lost; [eassumption|exact K|by rewrite Hph|done].
Qed.

Lemma step_DHCP_ok s l st p h w : sees w i s WVIF_STA (blocked l) st p h -> kept s l st p ->
  phase l = MAINTAIN_CONNECTION_DHCP -> steps l (Got (event s) (reason s) (param s)) h (step_DHCP i s) w.
Proof.
  intros H K Hph. unfold step_DHCP. pose proof (se_idx _ _ _ _ _ _ _ _ H) as Hi. rewrite Hi.
  destruct (event s) eqn:E; try (connecting_step H K Hph); try (by tell_step Hph).
  - unfold steps. wsteps. eapply enter_CONNECTED_ok; [eassumption|]. intros w' s' H' (A1 & A2 & A3). wsteps.
    destruct l as [ph c b]. cbn in *. subst ph.
    eapply (steps_arrive _ _ _ _ (mk_link _ c false)); [eassumption|apply moves_succeed|].
    destruct K. split; arithmetic; try done; try congruence; try lia. set_solver.
  - unfold steps. wstep. wstep. eapply steps_link_lost; [eassumption|exact K|by rewrite Hph|done].
  - unfold steps. wstep. wstep. eapply steps_link_lost; [eassumption|exact K|by rewrite Hph|done].
Qed.

(** ** The connected phase *)

(** The network is looked for again, or its loss is told. *)
Lemma steps_lost s l st p h w q : sees w i s WVIF_STA (blocked l) st p h -> kept s l st p ->
  phase l = MAINTAIN_CONNECTION_CONNECTED -> reconnects (reason s) = true ->
  wp (mgmt_connect_retry_param_set i true) (fun _ => steps l (Got EVENT_DISCONNECT (reason s) q) h
    (let! s := sm_get i in if 0 <? retry_count s then enter_SCAN i else abandon i)) w.
Proof.
  intros H K Hph Hr. pose proof (kept_no_retry _ _ _ _ K ltac:(by rewrite Hph)) as H0.
  eapply retry_param_set_ok; [exact H|]. intros w' s' H' (c & m & t & Hc & ->) _. unfold steps. wstep. wstep.
  apply ke_init in K. destruct l as [ph c0 b]. cbn in *. subst ph. destruct (0 <? c) eqn:Hlt; bool_to_prop.
  - eapply (steps_SCAN _ _ []); [rewrite app_nil_r; exact H'|done|done|lia|lia|by apply moves_lost].
  - eapply (steps_abandon (set_retry_interval t (set_retry_limit m (set_retry_count c s))) (mk_link _ c0 b));
      [exact H'|done|cbn; lia|by apply moves_lost_alone].
Qed.

Lemma step_CONNECTED_ok s l st p h w : sees w i s WVIF_STA (blocked l) st p h -> kept s l st p ->
  phase l = MAINTAIN_CONNECTION_CONNECTED -> suits (event s) (param s) = true ->
  steps l (Got (event s) (reason s) (param s)) h (step_CONNECTED i s) w.
Proof.
  intros H K Hph Hq. pose proof (kept_no_retry _ _ _ _ K ltac:(by rewrite Hph)) as Hr.
  destruct l as [ph c b]. cbn [phase blocked] in *. subst ph. pose proof K as [Ki _ _ Kr Kc _ _ _ _ _]. cbn [retries] in *.
  unfold step_CONNECTED. rewrite (se_idx _ _ _ _ _ _ _ _ H).
  destruct (event s) eqn:E; try (apply wp_ret; by eapply steps_stay); try (by eapply steps_drop);
    try (unfold steps; wsteps; by eapply steps_stay).
  - eapply steps_alike; [exact H|exact K|by apply moves_ignore|]. intros Q HQ. eapply user_scan_ok; [exact H|exact Hq|].
    intros w' s' H' A. by eapply HQ.
  - apply wp_bnd. eapply copy_cfg_ok; [exact H|exact Hq|]. intros w1 H1. apply wp_bnd.
    eapply enter_IDLE_ok; [exact H1|]. intros w2 H2. apply wp_bnd. eapply steps_start; [exact H2|done|done|].
    intros n Hn. rewrite Hn by done. apply moves_start. by right.
  - eapply steps_alike; [exact H|exact K|by apply moves_ignore|]. intros Q HQ. apply wp_bnd.
    destruct (polling_scan s).
    + eapply connected_scan_done_ok; [exact H|]. intros w1 s1 p1 H1 Hp A. eapply post_scan_done_ok; [exact H1|].
      intros w2 H2. by eapply HQ.
    + apply wp_ret. eapply post_scan_done_ok; [exact H|]. intros w' H'. by eapply HQ.
  - eapply steps_alike; [exact H|exact K|by apply moves_ignore|]. intros Q HQ. eapply post_scan_done_ok; [exact H|].
    intros w' H'. by eapply HQ.
  - unfold wpa_disconnected, steps. wsteps; try (by eapply (steps_lost s (mk_link MAINTAIN_CONNECTION_CONNECTED c b))).
    all: eapply (steps_IDLE _ _ []); [rewrite app_nil_r; eassumption|done|lia|]; rewrite Kr; by apply moves_left.
  - unfold steps. wsteps; [|by eapply steps_stay].
    eapply (steps_arrive _ _ _ [] (mk_link _ c b)); [rewrite app_nil_r; eassumption|by apply moves_ignore|].
    destruct K. split; arithmetic; try done; lia.
Qed.

(** ** Messages and timers *)

(** The messages that leave an interface a station. *)
Record for_station (m : eloop_message) (e : wifi_management_event_t) : Prop := {
  fs_idx : Z.land (Z.shiftr (event_id m) 12) 0xF = i;
  fs_event : WIFI_MGMT_EVENT_INIT <= Z.land (event_id m) 0xFFF;
  fs_is : event_of (Z.land (event_id m) 0xFFF) = e;
  fs_init : e <> EVENT_INIT;
  fs_mode : e <> EVENT_SWITCH_MODE_CMD;
  fs_param : suits e (m_param m) = true
}.

Lemma step_ok s l st p h w : sees w i s WVIF_STA (blocked l) st p h -> kept s l st p -> event s <> EVENT_INIT ->
  suits (event s) (param s) = true ->
  steps l (Got (event s) (reason s) (param s)) h (step_MAINTAIN_CONNECTION i) w.
Proof.
  intros H K He Hq. unfold step_MAINTAIN_CONNECTION, steps. wstep. wstep.
  rewrite (ke_init _ _ _ _ K), (ke_phase _ _ _ _ K). cbn [negb orb].
  assert ((match event s with EVENT_INIT => true | _ => false end) = false) as -> by (by destruct (event s)).
  assert (phase l ∈ phases) as Hp by apply K. unfold phases in Hp. rewrite !elem_of_cons, elem_of_nil in Hp.
  destruct Hp as [Hp|[Hp|[Hp|[Hp|[Hp|[Hp|[]]]]]]]; rewrite Hp; cbn.
  - by eapply step_IDLE_ok.
  - by eapply step_SCAN_ok.
  - by eapply step_CONNECT_ok.
  - by eapply step_HANDSHAKE_ok.
  - by eapply step_DHCP_ok.
  - by eapply step_CONNECTED_ok.
Qed.

Lemma stands_alike w s s' l st p h : sees w i s' WVIF_STA (blocked l) st p h -> kept s l st p -> alike s s' -> stands w l h.
Proof. intros H K A. exists s', st, p. split; [exact H|by eapply kept_same]. Qed.

Lemma message_ok m e l w h : for_station m e -> stands w l h ->
  steps l (Got e (m_reason m) (m_param m)) h (wifi_mgmt_cb_run_state_machine m) w.
Proof.
  intros [M1 M2 M3 M4 M5 M6] (s & st & p & H & K). unfold wifi_mgmt_cb_run_state_machine, steps. rewrite M1, M3.
  case_bool (CFG_VIF_NUM <=? i).
  { pose proof (se_tabs _ _ _ _ _ _ _ _ H). destruct (se_vif _ _ _ _ _ _ _ _ H) as (x & Hx & _).
    apply lookup_lt_Some in Hx. unfold CFG_VIF_NUM in *. lia. }
  case_bool (Z.land (event_id m) 4095 <? WIFI_MGMT_EVENT_INIT); [lia|].
  wstep. eapply wp_sm_mod; [exact H|done|]. intros w0 H0. wstep. wstep. wstep.
  assert (forall A B : M W unit unit, (match e with EVENT_SWITCH_MODE_CMD => A | _ => B end) = B) as -> by (by destruct e).
  rewrite H1. cbn [Z.eqb WVIF_STA Pos.eqb]. eapply wp_conseq; [eapply (step_ok _ l)|]; [exact H0| |done|done|].
  { by eapply kept_same. }
  cbn [event reason param set_vif_idx set_event set_reason set_param set_param_len].
  intros _ w1 (o & l' & Hm & s1 & st1 & p1 & G1 & G2). wsteps. destruct (param s1); wsteps;
    exists o, l'; (split; [exact Hm|]); by eapply stands_alike.
Qed.

(** A timer that runs is pending no longer. *)
Lemma timer_runs cb t s l st p h w : sees w i s WVIF_STA (blocked l) st p h -> timers_ok t -> pending (tm w) ≡ₚ (cb, i, 0) :: pending t ->
  exists p', sees (set_tm t w) i s WVIF_STA (blocked l) st p' h /\ forall x, p x = more cb 1 p' x.
Proof.
  intros [G1 G2 G3 G4 G5 G6 G7] Ht Hp. exists (fun x => occ (x, i, 0) (pending t)). split; [by split|].
  intros x. rewrite <- G6, (occ_perm _ _ _ Hp), occ_cons. unfold more. destruct (Z.eqb_spec x cb); case_decide; congruence || lia.
Qed.

Lemma timer_ok cb t l h w : stands w l h -> timers_ok t -> pending (tm w) ≡ₚ (cb, i, 0) :: pending t ->
  cb ∈ [mgmt_dhcp_polling_cb; mgmt_link_status_polling_cb; mgmt_connect_retry_cb] ->
  steps l (Timed cb) h (run_timer cb i) (set_tm t w).
Proof.
  intros (s & st & p & H & K) Ht Hp Hcb. destruct (timer_runs _ _ _ _ _ _ _ _ H Ht Hp) as (p' & H' & Hm).
  rewrite !elem_of_cons, elem_of_nil in Hcb. unfold steps.
  assert (forall m : M W unit unit, moves l (Timed cb) [] l ->
    (forall (Q : unit -> W -> Prop), (forall w1 s1 n, sees w1 i s1 WVIF_STA (blocked l) st (more cb n p') h -> (n <= 1)%nat ->
       alike s s1 -> Q tt w1) -> wp m Q (set_tm t w)) -> steps l (Timed cb) h m (set_tm t w)) as Hpoll.
  { intros m Hl Hq. apply Hq. intros w1 s1 n H1 Hn A. eapply (steps_arrive _ _ _ []); [rewrite app_nil_r; exact H1|exact Hl|].
    eapply kept_same; [exact K|exact A|]. intros x. rewrite Hm. unfold more. destruct (x =? cb); lia. }
  destruct Hcb as [->|[->|[->|[]]]]; cbn.
  - apply Hpoll; [apply moves_poll; by left|]. intros Q HQ. by eapply dhcp_polling_ok.
  - apply Hpoll; [apply moves_poll; by right|]. intros Q HQ. by eapply link_polling_ok.
  - destruct l as [ph c b]. pose proof K as [Ki _ _ Kr Kc _ K1 K2 _ _]. cbn [phase retries blocked] in *.
    pose proof (Hm mgmt_connect_retry_cb) as Hr. cbn in Hr.
    destruct K2 as [Hc Hpos]; [lia|]. eapply connect_retry_ok; [exact H'|]. intros w1 s1 H1 A1 A2 A3.
    apply (sees_more_0 i mgmt_connect_retry_cb) in H1.
    eapply (steps_arrive _ _ _ [] (mk_link MAINTAIN_CONNECTION_SCAN (c - 1) b)); [rewrite app_nil_r; exact H1|by apply moves_retry|].
    apply kept_scan; try congruence; try lia. rewrite A1, Kr. apply wrap_small. lia.
Qed.

(** ** An interface becomes a station *)

Lemma vif_reset_ok s ty b st p h Q w : sees w i s ty b st p h ->
  (forall w' b' st', sees w' i s ty b' st' p h -> Q tt w') -> wp (wifi_vif_reset i ty) Q w.
Proof.
  intros H HQ. unfold wifi_vif_reset, sta_mod. wstep. eapply (wp_vif_mod_any _ _ ty); [exact H|done|]. intros w1 b1 st1 H1.
  destruct (ty =? WVIF_STA); [eapply wp_vif_mod_any; [exact H1|by intros x E; exact E|exact HQ]|].
  destruct (ty =? WVIF_AP); [eapply wp_vif_mod_any; [exact H1|by intros x E; exact E|exact HQ]|].
  destruct (ty =? WVIF_MONITOR); wsteps; by eapply HQ.
Qed.

Lemma leave_mode_ok s ty b st p h Q w : sees w i s ty b st p h ->
  (forall w' s' b' st', sees w' i s' ty b' st' p h -> Q tt w') ->
  wp (if ty =? WVIF_AP then enter_SOFTAP_INIT i
      else if ty =? WVIF_MONITOR then enter_MONITOR_INIT i else ret tt) Q w.
Proof.
  intros H HQ. destruct (ty =? WVIF_AP); [|destruct (ty =? WVIF_MONITOR); [unfold enter_MONITOR_INIT|]; wsteps; by eapply HQ].
  unfold enter_SOFTAP_INIT. wsteps. eapply wp_vif_mod_any; [eassumption|by intros ? E; exact E|]. intros. by eapply HQ.
Qed.

Lemma switch_mode_ok s ty b st p h w : sees w i s ty b st p h -> reason s = WVIF_STA -> ty <> WVIF_STA ->
  (forall h v t, answer h (wifi_vif_type_set v t) = 0) ->
  wp (mgmt_switch_mode i) (fun _ w' => exists s' b' st', sees w' i s' WVIF_STA b' st' p h /\
    init s' = true /\ sm_state s' = MAINTAIN_CONNECTION_IDLE /\ retry_count s' = WIFI_MGMT_CONNECT_RETRY_LIMIT - 1) w.
Proof.
  intros H Hr Ht Ha. unfold mgmt_switch_mode. wstep. wstep. wstep. wstep. rewrite H0, Hr.
  destruct (Z.eqb_spec ty WVIF_STA); [done|]. wstep. wstep. wstep. wstep. apply wp_bnd.
  eapply leave_mode_ok; [eassumption|]. clear - Ha laws driver_laws. intros w s b st H.
  wstep. eapply vif_reset_ok; [exact H|]. intros w1 b1 st1 H1.
  wstep. wstep. wstep. eapply (wp_vif_mod_any _ _ WVIF_STA); [exact H1|done|]. intros w2 b2 st2 H2.
  wstep. eapply wp_ask_known; [exact H2|done|by intros|]. intros w3 H3. cbn [negb Z.eqb]. wstep. wstep.
  eapply wp_ask_known; [exact H3|done|by intros|]. intros w4 H4. wsteps; try done. eapply retry_param_set_ok; [eassumption|]. intros w6 s6 H6 (c & m & t & Hc & ->) Hr2. wsteps.
  eexists _, _, _. split; [eassumption|]. split; [done|]. split; [done|by apply Hr2].
Qed.

(** ** Runs *)

(** What the event loop does next: [m] runs in the world [w']. *)
Inductive stimulated (w : W) : stimulus -> M W unit unit -> W -> Prop :=
| by_message m e : for_station m e -> stimulated w (Got e (m_reason m) (m_param m)) (wifi_mgmt_cb_run_state_machine m) w
| by_timer cb t : timers_ok t -> pending (tm w) ≡ₚ (cb, i, 0) :: pending t ->
    cb ∈ [mgmt_dhcp_polling_cb; mgmt_link_status_polling_cb; mgmt_connect_retry_cb] ->
    stimulated w (Timed cb) (run_timer cb i) (set_tm t w).

(** A run all of whose worlds but the last are in [P]. *)
Inductive run (P : W -> Prop) : W -> list stimulus -> W -> Prop :=
| run_nil w : run P w [] w
| run_cons w x m w1 w2 xs w3 : P w -> stimulated w x m w1 -> m w1 = (w2, inr tt) -> run P w2 xs w3 -> run P w (x :: xs) w3.

Lemma stimulated_ok w x m w1 l h : stands w l h -> stimulated w x m w1 -> steps l x h m w1.
Proof. intros H [m' e Hm|cb t H1 H2 H3]; [by apply message_ok|by apply timer_ok]. Qed.

Lemma stimulated_next w x m w1 l h : stands w l h -> stimulated w x m w1 ->
  exists o l' w2, m w1 = (w2, inr tt) /\ moves l x o l' /\ stands w2 l' (h ++ o).
Proof.
  intros H Hs. pose proof (stimulated_ok _ _ _ _ _ _ H Hs) as Hw. unfold steps, wp in Hw.
  destruct (m w1) as [w2 [e|[]]]; [done|]. destruct Hw as (o & l' & ? & ?). by exists o, l', w2.
Qed.

(** The runs of the link. *)
Inductive path : link -> list stimulus -> list Z -> link -> Prop :=
| path_nil l : path l [] [] l
| path_cons l x o l1 xs o' l2 : moves l x o l1 -> path l1 xs o' l2 -> path l (x :: xs) (o ++ o') l2.

Lemma run_path P w xs w' l h : stands w l h -> run P w xs w' -> exists o l', path l xs o l' /\ stands w' l' (h ++ o).
Proof.
  intros H R. revert l h H. induction R as [w|w x m w1 w2 xs w3 HP Hs Hm R IH]; intros l h H.
  - exists [], l. split; [constructor|by rewrite app_nil_r].
  - destruct (stimulated_next _ _ _ _ _ _ H Hs) as (o & l1 & w2' & Hm' & Hl & H1).
    assert (w2' = w2) as -> by congruence. destruct (IH _ _ H1) as (o' & l2 & Hp & H2). exists (o ++ o'), l2.
    split; [by econstructor|by rewrite app_assoc].
Qed.

End Link.
End WifiLink.
