(* ===== verification/WifiMgmtProps.v ===== *)
(** * The Wi-Fi manager's promises

    Every message and timer of a station is a step of its link; callers that wait for a
    connection are answered, retries are bounded, and a connection that the driver and the
    network go along with is made. *)
From S2P Require Import Prelude DList Timers Eloop EloopSpec EloopTimers WifiMgmt WifiMgmtSpec WifiLink.
Open Scope Z_scope.
Open Scope fw_scope.

Module WifiMgmtProps.
Import WifiMgmt WifiMgmtSpec WifiLink.

(** ** Paths of the link *)

(** A caller that is blocked while connecting stays blocked there until it is answered. *)
Lemma moves_answers l x o l' : moves l x o l' -> connecting (phase l) = true -> blocked l = true ->
  o <> [] \/ (connecting (phase l') = true /\ blocked l' = true) \/ (exists e r q, x = Got e r q /\ drops (phase l) e = true).
Proof.
  intros Hm Hc Hb. destruct Hm; cbn [phase blocked] in *; subst; try (by left); try done; right.
  - by destruct H as [-> | ->].
  - left. by destruct (advances_connecting _ _ _ H) as (_ & ? & _).
  - by left.
  - right. by eexists _, _, _.
  - by left.
  - by left.
  - by left.
Qed.

(** The messages that ask for something. *)
Definition commands (x : stimulus) : bool :=
  match x with Got EVENT_SCAN_CMD _ _ | Got EVENT_CONNECT_CMD _ _ => true | _ => false end.

Lemma moves_unblocked l x o l' : moves l x o l' -> blocked l = false -> commands x = false -> o = [] /\ blocked l' = false.
Proof.
  intros Hm Hb Hc. destruct Hm; cbn [phase blocked] in *; subst; try done.
  by destruct H0 as [-> | ->].
Qed.

Lemma path_unblocked l xs o l' : path l xs o l' -> blocked l = false -> Forall (fun x => commands x = false) xs ->
  o = [] /\ blocked l' = false.
Proof.
  induction 1 as [|l x o l1 xs o' l2 Hm Hp IH]; intros Hb Hx; [done|]. apply Forall_cons in Hx as [Hx Hxs].
  destruct (moves_unblocked _ _ _ _ Hm Hb Hx) as [-> Hb1]. by destruct (IH Hb1 Hxs) as [-> ?].
Qed.

(** How often the retry timer runs. *)
Definition firings (xs : list stimulus) : Z :=
  Z.of_nat (length (List.filter (fun x => match x with Timed cb => cb =? mgmt_connect_retry_cb | _ => false end) xs)).

Lemma moves_retries l x o l' : moves l x o l' -> connecting (phase l) = true -> connecting (phase l') = true ->
  retries l = retries l' + firings [x].
Proof.
  intros Hm Hc Hc'. destruct Hm; unfold firings; cbn in *; try lia; try done.
  - by destruct H as [-> | ->].
  - destruct H as [-> | ->]; cbn; lia.
Qed.

Section Promises.
Context {T : Type} {timers : Timers T} {laws : TimersLaws T} {driver : Driver} {driver_laws : DriverLaws}.
Abbreviation W := (world (T := T)).
Context (i : Z).

(** C22: wherever the machine of a station stands, every message for it, but the two that set it up
    anew, [EVENT_INIT] and the one that changes the mode of the interface, and every pending timer make it do
    what one step of the link says: the calls
    return, no access leaves the tables, the phase, the retries left and the blocked caller
    are the link's, what the caller is told is what the link says, and the machine stands
    again where each timer is pending only in the phases its callback is for. A message comes with the
    parameter that its event has. *)
Theorem station_refines w l h x m w1 : stands i w l h -> stimulated i w x m w1 ->
  exists o l' w2, m w1 = (w2, inr tt) /\ moves l x o l' /\ stands i w2 l' (h ++ o).
Proof. by apply stimulated_next. Qed.

Lemma stands_phase w l h : stands i w l h -> exists s, wifi_sm_data w !! Z.to_nat i = Some s /\ sm_state s = phase l.
Proof. intros (s & st & p & H & K). exists s. split; [by eapply se_sm|by destruct K]. Qed.

(** The machine is looking for a connection. *)
Definition busy (w : W) : Prop :=
  exists s, wifi_sm_data w !! Z.to_nat i = Some s /\ connecting (sm_state s) = true.

Lemma stands_busy w l h : stands i w l h -> busy w <-> connecting (phase l) = true.
Proof.
  intros H. destruct (stands_phase _ _ _ H) as (s & Hs & <-). split; [|by exists s].
  intros (s' & Hs' & Hc). congruence.
Qed.

(** C23: a caller that waits for a connection is answered before the machine stops looking
    for one, whatever messages come and timers run; unless a message drops the attempt,
    which a request to disconnect does, and a failure to connect that comes during the scan. *)
Theorem blocked_caller_answered w l h xs w' l' h' : stands i w l h -> run i (fun _ => True) w xs w' -> stands i w' l' h' ->
  connecting (phase l) = true -> blocked l = true -> connecting (phase l') = false ->
  (exists r h1, h' = h ++ r :: h1) \/
  exists xs1 e r q xs2 w1 l1 h1, xs = xs1 ++ Got e r q :: xs2 /\ run i (fun _ => True) w xs1 w1 /\
    stands i w1 l1 h1 /\ drops (phase l1) e = true.
Proof.
  intros H R H' Hc Hb Hc'. revert l h H Hc Hb. induction R as [w|w x m w1 w2 xs w3 _ Hs Hm R IH]; intros l h H Hc Hb.
  - apply (stands_busy _ _ _ H) in Hc. apply (stands_busy _ _ _ H') in Hc. congruence.
  - destruct (stimulated_next i _ _ _ _ _ _ H Hs) as (o & l1 & w2' & Hm' & Hl & H1).
    assert (w2' = w2) as -> by congruence.
    destruct (moves_answers _ _ _ _ Hl Hc Hb) as [Ho|[[Hc1 Hb1]|(e & r & q & -> & Hd)]].
    + left. destruct (run_path i _ _ _ _ _ _ H1 R) as (o' & l2 & _ & H2).
      assert (h' = (h ++ o) ++ o') as ->.
      { destruct H' as (? & ? & ? & A & _), H2 as (? & ? & ? & B & _). destruct A, B. congruence. }
      destruct o as [|r o]; [done|]. exists r, (o ++ o'). by rewrite <- app_assoc.
    + destruct (IH H' _ _ H1 Hc1 Hb1) as [(r & h1 & ->)|(xs1 & e & r & q & xs2 & w4 & l4 & h4 & -> & R1 & G1 & G2)].
      * left. rewrite <- app_assoc. destruct o as [|r' o]; [by exists r, h1|by exists r', (o ++ r :: h1)].
      * right. exists (x :: xs1), e, r, q, xs2, w4, l4, h4. split; [done|]. split; [by econstructor|done].
    + right. exists [], e, r, q, xs, w, l, h. split; [done|]. split; [constructor|done].
Qed.

(** While the machine looks for a connection its retries only get fewer: as many have
    been made as are left less, so no more are made than there were at the start, which are
    two after a request to connect. *)
Theorem retries_bounded w l h xs w' : stands i w l h -> run i busy w xs w' -> busy w' ->
  exists l' o, stands i w' l' (h ++ o) /\ retries l = retries l' + firings xs /\ 0 <= firings xs <= retries l.
Proof.
  intros H R. revert l h H. induction R as [w|w x m w1 w2 xs w3 HP Hs Hm R IH]; intros l h H HB.
  - exists l, []. rewrite app_nil_r. destruct H as (s & st & p & H & K). pose proof (ke_range _ _ _ _ K).
    unfold firings. cbn. split; [by exists s, st, p|lia].
  - destruct (stimulated_next i _ _ _ _ _ _ H Hs) as (o & l1 & w2' & Hm' & Hl & H1).
    assert (w2' = w2) as -> by congruence. destruct (IH _ _ H1 HB) as (l2 & o2 & H2 & Hr & Hf).
    assert (busy w2) as HB2 by (by destruct R).
    apply (stands_busy _ _ _ H) in HP. apply (stands_busy _ _ _ H1) in HB2.
    pose proof (moves_retries _ _ _ _ Hl HP HB2) as Hr1.
    assert (firings (x :: xs) = firings [x] + firings xs) as Hx.
    { unfold firings. cbn [List.filter]. destruct x as [|cb]; [cbn; lia|]. destruct (cb =? _); cbn [length]; lia. }
    exists l2, (o ++ o2). rewrite app_assoc. split; [exact H2|].
    assert (0 <= firings [x]) by (unfold firings; lia). lia.
Qed.

(** A request to scan that comes while a caller waits for a connection tells that
    caller that connecting has failed, although the machine goes on; what it is told is the
    last it hears, also when the connection is made. *)
Theorem scan_answers_connect w l h m w1 xs w2 l2 h2 : stands i w l h -> connecting (phase l) = true -> blocked l = true ->
  for_station i m EVENT_SCAN_CMD -> wifi_mgmt_cb_run_state_machine m w = (w1, inr tt) ->
  run i (fun _ => True) w1 xs w2 -> Forall (fun x => commands x = false) xs -> stands i w2 l2 h2 ->
  busy w1 /\ h2 = h ++ [MAC_ST_FAILURE].
Proof.
  intros H Hc Hb Hm Hr R Hx H2. pose proof (message_ok i m _ l w h Hm H) as Hw. unfold steps, wp in Hw. rewrite Hr in Hw.
  destruct Hw as (o & l1 & Hl & H1).
  assert (o = [MAC_ST_FAILURE] /\ connecting (phase l1) = true /\ blocked l1 = false) as (-> & Hc1 & Hb1).
  { destruct l as [ph c b]. cbn [phase blocked] in *. inversion Hl; subst; try done.
    by match goal with E : ignores _ _ = true |- _ => cbn in E; rewrite Hc in E end. }
  split; [by apply (stands_busy _ _ _ H1)|].
  destruct (run_path i _ _ _ _ _ _ H1 R) as (o & l3 & Hp & H3). destruct (path_unblocked _ _ _ _ Hp Hb1 Hx) as [-> _].
  destruct H3 as (? & ? & ? & A & _), H2 as (? & ? & ? & B & _). destruct A, B. rewrite app_nil_r in *. congruence.
Qed.

(** ** A connection that nothing stands in the way of *)

(** Messages one after the other. *)
Fixpoint deliver (ms : list eloop_message) : M W unit unit :=
  match ms with [] => ret tt | m :: ms => wifi_mgmt_cb_run_state_machine m ;;; deliver ms end.

Definition got (m : eloop_message) : stimulus := Got (event_of (Z.land (event_id m) 0xFFF)) (m_reason m) (m_param m).

Lemma deliver_messages ms es w l h : stands i w l h -> Forall2 (for_station i) ms es ->
  wp (deliver ms) (fun _ w' => exists o l', path l (map got ms) o l' /\ stands i w' l' (h ++ o)) w.
Proof.
  intros H F. revert w l h H. induction F as [|m e ms es Hm F IH]; intros w l h H; cbn [deliver map].
  - apply wp_ret. exists [], l. split; [constructor|by rewrite app_nil_r].
  - apply wp_bnd. eapply wp_conseq; [by eapply message_ok|]. intros [] w1 (o & l1 & Hl & H1).
    eapply wp_conseq; [by apply IH|]. intros [] w2 (o' & l2 & Hp & H2). exists (o ++ o'), l2.
    split; [|by rewrite app_assoc]. econstructor; [|exact Hp]. unfold got. by rewrite (fs_is _ _ _ Hm).
Qed.

(** The messages of a connection, and what they make of the link. *)
Definition connection : list wifi_management_event_t :=
  [EVENT_CONNECT_CMD; EVENT_SCAN_DONE; EVENT_ASSOC_SUCCESS; EVENT_DHCP_START; EVENT_DHCP_SUCCESS].

Lemma path_inv l x xs o l2 : path l (x :: xs) o l2 -> exists o1 l1 o2, moves l x o1 l1 /\ path l1 xs o2 l2 /\ o = o1 ++ o2.
Proof. inversion 1; subst. by eexists _, _, _. Qed.

(** The only move of a message that is neither ignored nor a failure. *)
Lemma moves_start_inv c b r q o l' : moves (mk_link MAINTAIN_CONNECTION_IDLE c b) (Got EVENT_CONNECT_CMD r q) o l' ->
  o = [] /\ l' = mk_link MAINTAIN_CONNECTION_SCAN (WIFI_MGMT_CONNECT_RETRY_LIMIT - 1) (blocked_by q b).
Proof. by inversion 1. Qed.

Lemma moves_advance_inv ph ph' c b e r q o l' : advances ph e = Some ph' -> moves (mk_link ph c b) (Got e r q) o l' ->
  o = [] /\ l' = mk_link ph' c b.
Proof.
  intros Ha Hm. destruct (advances_connecting _ _ _ Ha) as (Hc & _).
  destruct e; try done; cbn [advances] in Ha; (case_match eqn:Eq; [|done]); injection Ha as <-; apply Z.eqb_eq in Eq; subst;
    inversion Hm; subst; try done; match goal with E : _ = Some _ |- _ => by injection E as <- | E : _ \/ _ |- _ => by destruct E end.
Qed.

Lemma moves_succeed_inv c b r q o l' : moves (mk_link MAINTAIN_CONNECTION_DHCP c b) (Got EVENT_DHCP_SUCCESS r q) o l' ->
  o = (if b then [MAC_ST_SUCCESSFUL] else []) /\ l' = mk_link MAINTAIN_CONNECTION_CONNECTED c false.
Proof. inversion 1; subst; try done. by match goal with E : _ \/ _ |- _ => destruct E end. Qed.

Lemma path_connection c b rs q xs o l' :
  Forall2 (fun x e => exists r q', x = Got e r q') xs (tail connection) ->
  path (mk_link MAINTAIN_CONNECTION_IDLE c b) (Got EVENT_CONNECT_CMD rs q :: xs) o l' ->
  o = (if blocked_by q b then [MAC_ST_SUCCESSFUL] else []) /\
  l' = mk_link MAINTAIN_CONNECTION_CONNECTED (WIFI_MGMT_CONNECT_RETRY_LIMIT - 1) false.
Proof.
  intros F (o1 & l1 & o2 & M1 & P1 & ->)%path_inv. apply moves_start_inv in M1 as [-> ->].
  cbn [connection tail] in F. repeat (apply Forall2_cons_inv_r in F as (? & ? & (? & ? & ->) & F & ->)).
  apply Forall2_nil_inv_r in F as ->.
  apply path_inv in P1 as (o3 & l3 & o4 & M3 & P3 & ->). apply (moves_advance_inv _ MAINTAIN_CONNECTION_CONNECT) in M3 as [-> ->]; [|done].
  apply path_inv in P3 as (o5 & l5 & o6 & M5 & P5 & ->). apply (moves_advance_inv _ MAINTAIN_CONNECTION_HANDSHAKE) in M5 as [-> ->]; [|done].
  apply path_inv in P5 as (o7 & l7 & o8 & M7 & P7 & ->). apply (moves_advance_inv _ MAINTAIN_CONNECTION_DHCP) in M7 as [-> ->]; [|done].
  apply path_inv in P7 as (o9 & l9 & oa & M9 & P9 & ->). apply moves_succeed_inv in M9 as [-> ->].
  inversion P9; subst. by rewrite !app_nil_r.
Qed.

(** The request that makes an interface a station. *)
Definition to_station (q : option pdata) (n : Z) : eloop_message :=
  mk_message (Eloop.ELOOP_EVENT_ID i 6) WVIF_STA q n.

Lemma to_station_ok q n s ty b st p h w : sees w i s ty b st p h -> ty <> WVIF_STA -> 0 <= i < CFG_VIF_NUM ->
  (forall h v t, answer h (wifi_vif_type_set v t) = 0) ->
  p mgmt_dhcp_polling_cb = 0%nat -> p mgmt_link_status_polling_cb = 0%nat -> p mgmt_connect_retry_cb = 0%nat ->
  wp (wifi_mgmt_cb_run_state_machine (to_station q n)) (fun _ w' => exists b',
    stands i w' (mk_link MAINTAIN_CONNECTION_IDLE (WIFI_MGMT_CONNECT_RETRY_LIMIT - 1) b') h) w.
Proof.
  intros H Ht Hi Ha P1 P2 P3. unfold wifi_mgmt_cb_run_state_machine. cbn [event_id to_station m_reason m_param m_param_len].
  assert (Z.land (Eloop.ELOOP_EVENT_ID i 6) 4095 = 6 /\ Z.land (Z.shiftr (Eloop.ELOOP_EVENT_ID i 6) 12) 15 = i) as [-> ->].
  { unfold CFG_VIF_NUM in Hi. assert (i = 0 \/ i = 1) as [-> | ->] by lia; done. }
  case_bool (CFG_VIF_NUM <=? i); [lia|]. change (6 <? WIFI_MGMT_EVENT_INIT) with false. cbn [negb].
  change (event_of 6) with EVENT_SWITCH_MODE_CMD. wstep. eapply wp_sm_mod; [exact H|done|]. intros w0 H0.
  wstep. wstep. wstep. wstep. eapply wp_conseq; [by eapply switch_mode_ok|]. cbn beta.
  intros _ w1 (s1 & b1 & st1 & H1' & G1 & G2 & G3). wsteps. destruct (param s1); wsteps; exists b1; eexists _, st1, p;
    (split; [eassumption|]); split; fields; try done; rewrite ?P1, ?P2, ?P3; try lia; cbn; set_solver.
Qed.

(** C24: from any mode but that of a station, and whatever the driver and the supplicant do
    besides accepting the mode, the request for the mode of a station and the messages of a
    connection (the request to connect, the scan done, the association, the address asked
    for and obtained) are all handled; the machine ends connected, with its two retries
    left, and the caller, if it waits, has been told of the success and nothing else. *)
Theorem connection_made q n s ty b st p h w m c ms : sees w i s ty b st p h -> ty <> WVIF_STA -> 0 <= i < CFG_VIF_NUM ->
  (forall h v t, answer h (wifi_vif_type_set v t) = 0) ->
  p mgmt_dhcp_polling_cb = 0%nat -> p mgmt_link_status_polling_cb = 0%nat -> p mgmt_connect_retry_cb = 0%nat ->
  Forall2 (for_station i) (m :: ms) connection -> m_param m = Some (Cfg c) ->
  exists w', deliver (to_station q n :: m :: ms) w = (w', inr tt) /\
    stands i w' (mk_link MAINTAIN_CONNECTION_CONNECTED 2 false) (h ++ if conn_blocked c then [MAC_ST_SUCCESSFUL] else []).
Proof.
  intros H Ht Hi Ha P1 P2 P3 F Hq.
  assert (wp (deliver (to_station q n :: m :: ms)) (fun _ w' => stands i w' (mk_link MAINTAIN_CONNECTION_CONNECTED 2 false)
    (h ++ if conn_blocked c then [MAC_ST_SUCCESSFUL] else [])) w) as Hw.
  { cbn [deliver]. apply wp_bnd. eapply wp_conseq; [by eapply to_station_ok|]. cbn beta. intros [] w1 [b1 H1].
    eapply wp_conseq; [by eapply (deliver_messages (m :: ms))|]. cbn beta. intros [] w2 (o & l & Hp & H2).
    inversion F as [|? ? ? ? Hm F']; subst. cbn [map] in Hp. unfold got at 1 in Hp. rewrite (fs_is _ _ _ Hm), Hq in Hp.
    apply path_connection in Hp as [-> ->]; [exact H2|]. apply Forall2_fmap_l. eapply Forall2_impl; [exact F'|].
    intros x e Hx. exists (m_reason x), (m_param x). unfold got. destruct Hx as [_ _ <- _ _ _]. done. }
  unfold wp in Hw. destruct (deliver _ w) as [w' [e|[]]]; [done|]. by exists w'.
Qed.

End Promises.
(** ** Samples

    A driver that goes along with everything, over timers kept in a list and over the event loop. *)

#[local] Instance sample_driver : Driver := {|
  answer _ _ := 0; leaves _ _ _ x := x; wifi_vif_mac_addr_get _ := replicate 6 0; candidate _ := mk_scan_result [] 0 0 0 []; reread _ x := x
|}.
#[local] Instance sample_driver_laws : DriverLaws.
Proof. done. Qed.

#[local] Instance list_timers : Timers (list timer) := {|
  timeout_register _ h d u p := Some (0, (h, d, u) :: p);
  timeout_cancel h d u p := Some (0, List.filter (fun x => negb (timer_matches h d u x)) p);
  timeout_is_registered h d u p := Some (if bool_decide ((h, d, u) ∈ p) then 1 else 0)
|}.
#[local] Program Instance list_timers_laws : TimersLaws (list timer) := {| timers_ok _ := True; pending p := p |}.
Next Obligation. intros ms h d u p _. eexists _, _. split; [done|]. split; [done|]. by left. Qed.
Next Obligation. intros h d u p _. eexists _, _. by split. Qed.
Next Obligation. done. Qed.

Definition sample_sta (b : bool) (st : Z) : wifi_sta := mk_sta (set_conn_blocked b zero_cfg) st 0 0 0 None.
Definition sample_vif (ty : Z) (b : bool) (st : Z) : wifi_vif_tag := mk_vif ty (sample_sta b st) 0 0 0.
Definition sample_sm (ph c : Z) : wifi_management_sm_data := set_retry_count c (set_sm_state ph (set_init true zero_sm)).

(** The first interface is a station in a phase, the second is not used. *)
Definition sample (ph c : Z) (b : bool) (p : list timer) : world (T := list timer) :=
  mk_world [sample_sm ph c; zero_sm] [sample_vif WVIF_STA b ph; sample_vif WVIF_UNKNOWN false 0] p [] false 0 0.

(** Without a timer, or with the retry pending. *)
Lemma sample_stands ph c b (r : bool) : ph = MAINTAIN_CONNECTION_SCAN \/ ph = MAINTAIN_CONNECTION_DHCP -> 0 < c < 2 ^ 32 \/ c = 0 /\ r = false ->
  stands 0 (sample ph c b (if r then [(mgmt_connect_retry_cb, 0, 0)] else [])) (mk_link ph c b) [].
Proof.
  intros Hp Hc. exists (sample_sm ph c), ph, (fun x => occ (x, 0, 0) (if r then [(mgmt_connect_retry_cb, 0, 0)] else [])). split.
  - split; try done. by exists (sample_vif WVIF_STA b ph).
  - destruct r; split; cbn [phase retries]; try done; try lia; try (destruct Hp as [-> | ->]; set_solver);
      try (vm_compute; lia).
Qed.

Definition sample_message (e r : Z) (q : option pdata) : eloop_message := mk_message (Eloop.ELOOP_EVENT_ID 0 e) r q 0.
Ltac sample_event := split; cbn; try done.

Lemma sample_scan_done r : for_station 0 (sample_message 14 r None) EVENT_SCAN_DONE. Proof. sample_event. Qed.
Lemma sample_scan_fail r : for_station 0 (sample_message 15 r None) EVENT_SCAN_FAIL. Proof. sample_event. Qed.
Lemma sample_scan_cmd r : for_station 0 (sample_message 9 r None) EVENT_SCAN_CMD. Proof. sample_event. Qed.

Lemma station_refines_witness : exists o l' w2,
  wifi_mgmt_cb_run_state_machine (sample_message 14 0 None) (sample 2 2 true []) = (w2, inr tt) /\
  moves (mk_link 2 2 true) (Got EVENT_SCAN_DONE 0 None) o l' /\ stands 0 w2 l' ([] ++ o).
Proof.
  apply (station_refines 0 (sample 2 2 true [])).
  - apply (sample_stands 2 2 true false); [by left|left; lia].
  - apply (by_message 0 _ (sample_message 14 0 None)), sample_scan_done.
Defined.

Lemma blocked_caller_answered_witness : exists w' l' h',
  run 0 (fun _ => True) (sample 2 0 true []) [Got EVENT_SCAN_FAIL 7 None] w' /\ stands 0 w' l' h' /\
  ((exists r h1, h' = [] ++ r :: h1) \/
   exists xs1 e r q xs2 w1 l1 h1, [Got EVENT_SCAN_FAIL 7 None] = xs1 ++ Got e r q :: xs2 /\
     run 0 (fun _ => True) (sample 2 0 true []) xs1 w1 /\ stands 0 w1 l1 h1 /\ drops (phase l1) e = true).
Proof.
  assert (stands 0 (sample 2 0 true []) (mk_link 2 0 true) []) as H by (apply (sample_stands 2 0 true false); [by left|by right]).
  pose proof (by_message 0 (sample 2 0 true []) _ _ (sample_scan_fail 7)) as Hs.
  destruct (stimulated_next 0 _ _ _ _ _ _ H Hs) as (o & l' & w2 & Hm & Hl & H2).
  assert (run 0 (fun _ => True) (sample 2 0 true []) [Got EVENT_SCAN_FAIL 7 None] w2) as R by (econstructor; [done|exact Hs|exact Hm|constructor]).
  exists w2, l', ([] ++ o). split; [exact R|]. split; [exact H2|].
  apply (blocked_caller_answered 0 _ (mk_link 2 0 true) [] _ w2 l' _ H R H2); [done|done|]. inversion Hl; subst; first [done|intuition congruence|lia].
Defined.

Lemma retries_bounded_witness : exists w' l' o,
  run 0 (busy 0) (sample 2 2 true [(mgmt_connect_retry_cb, 0, 0)]) [Timed mgmt_connect_retry_cb] w' /\
  stands 0 w' l' ([] ++ o) /\ 2 = retries l' + firings [Timed mgmt_connect_retry_cb] /\ 0 <= firings [Timed mgmt_connect_retry_cb] <= 2.
Proof.
  set (w := sample 2 2 true [(mgmt_connect_retry_cb, 0, 0)]).
  assert (stands 0 w (mk_link 2 2 true) []) as H by (apply (sample_stands 2 2 true true); [by left|left; lia]).
  assert (stimulated 0 w (Timed mgmt_connect_retry_cb) (run_timer mgmt_connect_retry_cb 0) (set_tm [] w)) as Hs
    by (apply by_timer; [done|done|set_solver]).
  destruct (stimulated_next 0 _ _ _ _ _ _ H Hs) as (o & l' & w2 & Hm & Hl & H2).
  assert (busy 0 w2) as HB by (apply (stands_busy 0 _ _ _ H2); by inversion Hl; subst).
  assert (run 0 (busy 0) w [Timed mgmt_connect_retry_cb] w2) as R
    by (econstructor; [by apply (stands_busy 0 _ _ _ H)|exact Hs|exact Hm|constructor]).
  exists w2. destruct (retries_bounded 0 w (mk_link 2 2 true) [] _ w2 H R HB) as (l2 & o2 & G). by exists l2, o2.
Defined.

Lemma scan_answers_connect_witness : exists w1 w2,
  wifi_mgmt_cb_run_state_machine (sample_message 9 0 None) (sample 2 2 true []) = (w1, inr tt) /\
  run 0 (fun _ => True) w1 [Got EVENT_SCAN_DONE 0 None] w2 /\
  busy 0 w1 /\ replies 0 (hist w2) = [] ++ [MAC_ST_FAILURE].
Proof.
  set (w := sample 2 2 true []).
  assert (stands 0 w (mk_link 2 2 true) []) as H by (apply (sample_stands 2 2 true false); [by left|left; lia]).
  destruct (stimulated_next 0 _ _ _ _ _ _ H (by_message 0 w _ _ (sample_scan_cmd 0))) as (o & l1 & w1 & Hm & Hl & H1).
  pose proof (by_message 0 w1 _ _ (sample_scan_done 0)) as Hs.
  destruct (stimulated_next 0 _ _ _ _ _ _ H1 Hs) as (o2 & l2 & w2 & Hm2 & Hl2 & H2).
  assert (run 0 (fun _ => True) w1 [Got EVENT_SCAN_DONE 0 None] w2) as R by (econstructor; [done|exact Hs|exact Hm2|constructor]).
  destruct (scan_answers_connect 0 w (mk_link 2 2 true) [] _ w1 _ w2 l2 _ H ltac:(done) ltac:(done) (sample_scan_cmd 0) Hm R
    ltac:(by repeat constructor) H2) as [HB Hh].
  exists w1, w2. rewrite <- Hh. destruct H2 as (? & ? & ? & A & _). destruct A. done.
Defined.

(** An interface that is not used, over the event loop as it starts. *)
Definition eloop0 : Eloop.st := Eloop.mk_st ∅ ∅ 0 Eloop.Null false.
Definition eloop1 : Eloop.st := match Eloop.wifi_eloop_init 16 eloop0 with Some (_, s) => s | None => eloop0 end.
#[local] Instance sample_eloop : Timers Eloop.st := EloopTimers.eloop_timers 16 fresh (fun _ => 0).
#[local] Instance sample_eloop_laws : TimersLaws Eloop.st :=
  EloopTimers.eloop_timers_laws 16 fresh (fun X => or_intror (is_fresh X)) (fun _ => 0).
Definition unused : world (T := Eloop.st) :=
  mk_world [zero_sm; zero_sm] [sample_vif WVIF_UNKNOWN false 0; sample_vif WVIF_UNKNOWN false 0] eloop1 [] false 0 0.

Lemma eloop1_running : EloopTimers.running 16 eloop1.
Proof.
  destruct (EloopSpec.init_rep 16 eloop0) as (s & Hs & R & _ & _ & Ht); [done|done|done|].
  assert (eloop1 = s) as -> by (unfold eloop1; by rewrite Hs). split; [done|by exists []].
Qed.

Lemma unused_sees : sees unused 0 zero_sm WVIF_UNKNOWN false 0 (fun _ => 0%nat) [].
Proof.
  split; try done; [by exists (sample_vif WVIF_UNKNOWN false 0)|apply eloop1_running].
Qed.

Lemma connection_made_witness : exists w',
  deliver (to_station 0 None 0 :: sample_message 10 0 (Some (Cfg (set_conn_blocked true zero_cfg))) ::
    [sample_message 14 0 None; sample_message 18 0 None; sample_message 19 0 None; sample_message 20 0 None]) unused = (w', inr tt) /\
  stands 0 w' (mk_link MAINTAIN_CONNECTION_CONNECTED 2 false) ([] ++ [MAC_ST_SUCCESSFUL]).
Proof.
  apply (connection_made 0 None 0 zero_sm WVIF_UNKNOWN false 0 (fun _ => 0%nat) [] unused
    (sample_message 10 0 (Some (Cfg (set_conn_blocked true zero_cfg)))) (set_conn_blocked true zero_cfg)); try done.
  - apply unused_sees.
  - repeat constructor; cbn; done.
Defined.

End WifiMgmtProps.
