(* ===== verification/WifiApi.v ===== *)
(** * The functions that other tasks call

    The rest of [src/gd32_os/MSDK/wifi_manager/wifi_management.c]: requests to the Wi-Fi
    manager's task and the waiting for its answers. Between any two accesses of a caller to
    what it shares with the manager, the manager's task and the driver may do anything that
    a schedule says. *)
From S2P Require Import Prelude Timers Eloop WifiMgmt.
Open Scope Z_scope.
Open Scope fw_scope.

Module WifiApi.
Import WifiMgmt.

Definition WIFI_SSID_MAX_LEN : Z := 32.
Definition WPAS_MIN_PASSPHRASE_LEN : Z := 8.
Definition WPAS_MAX_PASSPHRASE_LEN : Z := 63.
Definition WPAS_WEP40_ASCII_LEN : Z := 5.
Definition CFG_STA_NUM : Z := 3.
Definition WIFI_VIF_INDEX_STA_MODE : Z := 0.
Definition WIFI_CLOSED : Z := 0.
Definition WIFI_CLOSING : Z := 1.
Definition WIFI_RUNNING : Z := 2.
Definition MGMT_TASK_QUEUE_SIZE : Z := 24.
Definition MGMT_WAIT_QUEUE_MSG_SIZE : Z := 5.
Definition WLAN_REASON_UNSPECIFIED : Z := 1.
Definition OS_OK : Z := 0.
Definition OS_ERROR : Z := -1.

(** The mode of authentication of an access point. *)
Definition AUTH_MODE_OPEN : Z := 0.
Definition AUTH_MODE_WEP : Z := 1.
Definition AUTH_MODE_WPA : Z := 2.
Definition AUTH_MODE_WPA2 : Z := 3.
Definition AUTH_MODE_WPA_WPA2 : Z := 4.
Definition AUTH_MODE_WPA2_WPA3 : Z := 5.
Definition AUTH_MODE_WPA3 : Z := 6.
Definition MAC_AKM_NONE : Z := 0.
Definition MAC_AKM_PRE_RSN : Z := 1.
Definition MAC_AKM_PSK : Z := 3.
Definition MAC_AKM_SAE : Z := 9.
Definition wifi_wpa_auth_mode_2_akm (m : Z) : Z :=
  if m =? AUTH_MODE_OPEN then Z.shiftl 1 MAC_AKM_NONE
  else if m =? AUTH_MODE_WEP then Z.shiftl 1 MAC_AKM_PRE_RSN
  else if m =? AUTH_MODE_WPA then Z.lor (Z.shiftl 1 MAC_AKM_PSK) (Z.shiftl 1 MAC_AKM_PRE_RSN)
  else if (m =? AUTH_MODE_WPA2) || (m =? AUTH_MODE_WPA_WPA2) then Z.shiftl 1 MAC_AKM_PSK
  else if m =? AUTH_MODE_WPA2_WPA3 then Z.lor (Z.shiftl 1 MAC_AKM_PSK) (Z.shiftl 1 MAC_AKM_SAE)
  else if m =? AUTH_MODE_WPA3 then Z.shiftl 1 MAC_AKM_SAE
  else Z.shiftl 1 MAC_AKM_NONE.

#[export] Instance event_eq_dec : EqDecision wifi_management_event_t.
Proof. solve_decision. Defined.

(** The number of an event. *)
Definition number (e : wifi_management_event_t) : Z :=
  match e with
  | EVENT_OTHER n => n
  | _ => WIFI_MGMT_EVENT_INIT + Z.of_nat (match list_find (e =.) event_list with Some (k, _) => k | None => 0%nat end)
  end.
Definition message (v : Z) (e : wifi_management_event_t) (r : Z) (q : option pdata) : eloop_message :=
  mk_message (u16 (Eloop.ELOOP_EVENT_ID v (number e))) (u16 r) q 0.

(** An answer: the interface, the event that is waited for, the reason. *)
Record mgmt_wait_evt := mk_wait { vif : Z; evt : Z; w_reason : Z }.

Section Api.
Context {T : Type} {timers : Timers T} {driver : Driver}.
Abbreviation W := (world (T := T)).

(** The manager's world, the messages its task has not handled yet, the answers. *)
Record system := mk_system {
  man : W; inbox : list eloop_message; mgmt_wait_queue : list mgmt_wait_evt;
  wifi_work_status : Z; terminate : bool
}.
Definition set_man (w : W) (s : system) : system := mk_system w (inbox s) (mgmt_wait_queue s) (wifi_work_status s) (terminate s).
Definition set_inbox (l : list eloop_message) (s : system) : system := mk_system (man s) l (mgmt_wait_queue s) (wifi_work_status s) (terminate s).
Definition set_answers (l : list mgmt_wait_evt) (s : system) : system := mk_system (man s) (inbox s) l (wifi_work_status s) (terminate s).

Definition set_terminate (s : system) : system := mk_system (man s) (inbox s) (mgmt_wait_queue s) (wifi_work_status s) true.

(** Neither queue takes more than it has room for. *)
Definition sys_task_post (m : eloop_message) (s : system) : Z * system :=
  if zlen (inbox s) <? MGMT_TASK_QUEUE_SIZE then (OS_OK, set_inbox (inbox s ++ [m]) s) else (OS_ERROR, s).
(** [eloop_message_send], once its message is made: the event loop takes none when it has been stopped. *)
Definition post_message (m : eloop_message) (s : system) : Z * system :=
  if terminate s then (OS_ERROR, s) else sys_task_post m s.
Definition post_answer (a : mgmt_wait_evt) (s : system) : system :=
  if zlen (mgmt_wait_queue s) <? MGMT_WAIT_QUEUE_MSG_SIZE then set_answers (mgmt_wait_queue s ++ [a]) s else s.

(** ** What the manager's task and the driver do *)

(** The calls of the manager that reach a queue. *)
Definition settle (s : system) (c : call) : system :=
  match c with
  | WifiMgmt.sys_queue_post v e r => post_answer (mk_wait v e r) s
  | WifiMgmt.eloop_event_send v e => (post_message (message v e 0 None) s).2
  | WifiMgmt.eloop_message_send v e r q => (post_message (message v e r q) s).2
  | _ => s
  end.

(** A piece of the manager's work, and what it has called. *)
Definition works (m : M W unit unit) (s : system) : option system :=
  match m (man s) with
  | (w, inr _) => Some (fold_left settle (drop (length (hist (man s))) (hist w)) (set_man w s))
  | (_, inl _) => None
  end.

(** What the event loop does with a message. One that has been stopped frees what is left. *)
Definition eloop_dispatch (m : eloop_message) (s : system) : option system :=
  if terminate s then works (match m_param m with Some q => tell (sys_mfree q) | None => ret tt end) s
  else
    let event := Z.land (event_id m) 0xFFF in
    if event =? Eloop.ELOOP_EVENT_WAKEUP then Some s
    else if event =? Eloop.ELOOP_EVENT_TERMINATE then Some (set_terminate s)
    else works (wifi_mgmt_cb_run_state_machine m) s.

(** A message is handled, one comes from the driver, or a timer runs that leaves [t] of the timers. *)
Inductive happening := Handles | Arrives (m : eloop_message) | Fires (h i : Z) (t : T).

Definition happens (x : happening) (s : system) : option system :=
  match x with
  | Handles =>
      match inbox s with
      | [] => Some s
      | m :: l => eloop_dispatch m (set_inbox l s)
      end
  | Arrives m => Some (post_message m s).2
  | Fires h i t => if terminate s then Some s else works (run_timer h i) (set_man (set_tm t (man s)) s)
  end.

Fixpoint happen (l : list happening) (s : system) : option system :=
  match l with [] => Some s | x :: l => s ← happens x s; happen l s end.

(** ** The caller

    A schedule has what happens before each of the caller's accesses. *)
Abbreviation C := (M (system * list (list happening)) unit).

Definition others : C unit := fun '(s, sc) =>
  match sc with
  | [] => ((s, []), inr tt)
  | l :: sc => match happen l s with Some s => ((s, sc), inr tt) | None => ((s, sc), inl tt) end
  end.

(** An access to the system, after what the others do. *)
Definition access {A} (f : system -> A * system) : C A :=
  others ;;; fun '(s, sc) => let '(a, s) := f s in ((s, sc), inr a).
(** The caller's own use of the manager's functions and tables. *)
Definition own {A} (m : M W unit A) : C A := fun '(s, sc) =>
  let '(w, r) := m (man s) in ((set_man w s, sc), r).

Definition eloop_message_send (v : Z) (e : wifi_management_event_t) (r : Z) (q : option pdata) : C Z :=
  access (post_message (message v e r q)).
Definition eloop_event_send (v : Z) (e : wifi_management_event_t) : C Z := eloop_message_send v e 0 None.

Definition closed : C bool := access (fun s => ((wifi_work_status s =? WIFI_CLOSED) || (wifi_work_status s =? WIFI_CLOSING), s)).

Definition mgmt_wait_queue_flush : C unit := access (fun s => (tt, set_answers [] s)).

(** The first answer, or none if none comes in time. *)
Definition sys_queue_fetch : C (option mgmt_wait_evt) :=
  access (fun s => match mgmt_wait_queue s with [] => (None, s) | a :: l => (Some a, set_answers l s) end).

(** Answers to others are taken out on the way. *)
Fixpoint fetch_loop (n : nat) (v e : Z) : C Z :=
  match n with
  | O => err tt
  | S n =>
      let! a := sys_queue_fetch in
      match a with
      | None => ret 0xFFFF
      | Some a => if (v =? vif a) && (e =? evt a) then ret (u16 (w_reason a)) else fetch_loop n v e
      end
  end.
(** One turn for each part of the schedule, and one for each answer that is left then. *)
Definition mgmt_wait_queue_fetch (v e : Z) : C Z :=
  let! st := get in
  fetch_loop (length st.2 + Z.to_nat MGMT_WAIT_QUEUE_MSG_SIZE + 1) v e.

(** The member of the union a caller reads, whatever the mode of the interface is. *)
Definition seen (type : Z) (w : W) (x : wifi_vif_tag) : wifi_vif_tag := if wvif_type x =? type then x else reread (hist w) x.
Definition vif_seen (v type : Z) : C wifi_vif_tag := own (let! w := get in let! x := vif_get v in ret (seen type w x)).

(** ** Station *)

Definition wifi_management_disconnect : C Z :=
  let! off := closed in
  if off : bool then ret (-1)
  else
    let v := WIFI_VIF_INDEX_DEFAULT in
    others ;;;
    let! x := own (vif_get v) in
    if wvif_type x =? WVIF_STA then
      mgmt_wait_queue_flush ;;;
      let! r := eloop_event_send v EVENT_DISCONNECT_CMD in
      if negb (r =? 0) then ret (-1)
      else
        let! r := mgmt_wait_queue_fetch v MGMT_WAIT_EVT_DISCONN_DONE in
        own (sta_mod v (set_last_reason 0)) ;;;
        ret r
    else ret 0.

(** The length of the name is an [uint8_t]. *)
Definition wifi_management_scan (blocked : bool) (name : option (list Z)) : C Z :=
  let v := WIFI_VIF_INDEX_DEFAULT in
  let ssid_len := match name with Some l => u8 (zlen l) | None => 0 end in
  let! off := closed in
  if off : bool then ret (-1)
  else
    let! p := (if negb (ssid_len =? 0) then own (ask sys_malloc) else ret 1) in
    if p =? 0 then ret (-1)
    else
      let scan_ssid := if negb (ssid_len =? 0) then Some (Buf (take (Z.to_nat ssid_len) (default [] name))) else None in
      mgmt_wait_queue_flush ;;;
      others ;;;
      own (sm_mod v (set_scan_blocked blocked)) ;;;
      let! r := eloop_message_send v EVENT_SCAN_CMD 0 scan_ssid in
      if negb (r =? 0) then
        own (sm_mod v (set_scan_blocked false)) ;;;
        (match scan_ssid with Some q => own (tell (sys_mfree q)) | None => ret tt end) ;;;
        ret (-2)
      else if blocked then mgmt_wait_queue_fetch v MGMT_WAIT_EVT_SCAN_DONE
      else ret 0.

(** What the three ways to connect share: the request is sent, the answer awaited. *)
Definition connect_send (c : sta_cfg) : C Z :=
  mgmt_wait_queue_flush ;;;
  let! r := eloop_message_send WIFI_VIF_INDEX_DEFAULT EVENT_CONNECT_CMD 0 (Some (Cfg c)) in
  if r <? 0 then own (tell (sys_mfree (Cfg c))) ;;; ret (-5) else ret 0.

Definition bad_password (wep : bool) (password : option (list Z)) : bool :=
  match password with
  | None => false
  | Some l => (WPAS_MAX_PASSPHRASE_LEN <? zlen l) ||
      ((zlen l <? WPAS_MIN_PASSPHRASE_LEN) && negb (wep && (zlen l =? WPAS_WEP40_ASCII_LEN)))
  end.
Definition no_empty (password : option (list Z)) : option (list Z) := match password with Some [] => None | p => p end.

Definition wifi_management_connect (name password : option (list Z)) (blocked : bool) : C Z :=
  let v := WIFI_VIF_INDEX_DEFAULT in
  let! off := closed in
  if off : bool then ret (-1)
  else
    match name with
    | None => ret (-1)
    | Some name =>
        if WIFI_SSID_MAX_LEN <? zlen name then ret (-1)
        else
          let password := no_empty password in
          if bad_password true password then ret (-2)
          else
            let! r := eloop_message_send v EVENT_SWITCH_MODE_CMD WVIF_STA None in
            if r <? 0 then ret (-3)
            else
              others ;;;
              let! p := own (ask sys_malloc) in
              if p =? 0 then ret (-4)
              else
                let! x := vif_seen v WVIF_STA in
                let prev := cfg (sta x) in
                let pass := default [] password in
                let flush := negb (bool_decide (name = ssid prev)) || negb (bool_decide (pass = passphrase prev)) in
                let c := mk_cfg name 0xFF (replicate 6 0) false pass blocked flush (prefs prev) in
                (if negb (bool_decide (name = ssid prev)) then own (sta_mod v (set_history_ip 0)) else ret tt) ;;;
                let! r := connect_send c in
                if negb (r =? 0) then ret r
                else if blocked then
                  let! reason := mgmt_wait_queue_fetch v MGMT_WAIT_EVT_CONN_DONE in
                  own (sta_mod v (set_last_reason reason)) ;;;
                  (if reason =? 0xFFFF then wifi_management_disconnect ;;; ret tt else ret tt) ;;;
                  ret reason
                else ret 0
    end.

Definition wifi_management_connect_with_bssid (addr : option (list Z)) (password : option (list Z)) (blocked : bool) : C Z :=
  let v := WIFI_VIF_INDEX_DEFAULT in
  let! off := closed in
  if off : bool then ret (-1)
  else
    match addr with
    | None => ret (-1)
    | Some addr =>
        let password := no_empty password in
        if bad_password false password then ret (-2)
        else
          let! r := eloop_message_send v EVENT_SWITCH_MODE_CMD WVIF_STA None in
          if r <? 0 then ret (-3)
          else
            others ;;;
            let! p := own (ask sys_malloc) in
            if p =? 0 then ret (-4)
            else
              let! x := vif_seen v WVIF_STA in
              let prev := cfg (sta x) in
              let pass := default [] password in
              let flush := negb (bool_decide (pass = passphrase prev)) in
              let c := mk_cfg [] 0xFF addr true pass blocked flush (prefs prev) in
              (if negb (bool_decide (addr = bssid prev)) then own (sta_mod v (set_history_ip 0)) else ret tt) ;;;
              let! r := connect_send c in
              if negb (r =? 0) then ret r
              else if blocked then mgmt_wait_queue_fetch v MGMT_WAIT_EVT_CONN_DONE
              else ret 0
    end.

Definition wifi_management_sta_start : C Z :=
  let! off := closed in
  if off : bool then ret (-1)
  else
    let! r := eloop_message_send WIFI_VIF_INDEX_DEFAULT EVENT_SWITCH_MODE_CMD WVIF_STA None in
    if negb (r =? 0) then ret (-1) else ret 0.

Definition wifi_management_sta_auto_connect : C Z :=
  let! off := closed in
  if off : bool then ret (-1)
  else
    let! r := eloop_message_send WIFI_VIF_INDEX_DEFAULT EVENT_SWITCH_MODE_CMD WVIF_STA None in
    if negb (r =? 0) then ret (-1)
    else
      let! r := eloop_event_send WIFI_VIF_INDEX_DEFAULT EVENT_AUTO_CONNECT_CMD in
      if negb (r =? 0) then ret (-1) else ret 0.

(** ** Access point *)

Definition concurrent : C bool := access (fun s => (wifi_concurrent_mode (man s), s)).

Definition wifi_management_ap_stop : C Z :=
  let! off := closed in
  if off : bool then ret (-1)
  else
    let! both := concurrent in
    if both : bool then
      let! r := eloop_message_send WIFI_VIF_INDEX_SOFTAP_MODE EVENT_SWITCH_MODE_CMD WVIF_UNKNOWN None in
      if negb (r =? 0) then ret (-2) else ret 0
    else
      let! r := eloop_message_send WIFI_VIF_INDEX_DEFAULT EVENT_SWITCH_MODE_CMD WVIF_STA None in
      if negb (r =? 0) then ret (-1) else ret 0.

(** With a station beside it the access point uses the channel of the station's link. *)
Definition ap_channel_of (channel : Z) : C (Z + Z) :=
  let v := WIFI_VIF_INDEX_STA_MODE in
  let! x := own (vif_get v) in
  if (wvif_type x =? WVIF_STA) && (WIFI_STA_STATE_SCAN <? sta_state (sta x)) then
    let! ch := own (ask (macif_vif_current_chan_get v)) in
    if u8 ch =? 0 then ret (inl (-4)) else ret (inr (if channel =? u8 ch then channel else u8 ch))
  else
    let! r := eloop_message_send v EVENT_SWITCH_MODE_CMD WVIF_STA None in
    if negb (r =? 0) then ret (inl (-5)) else ret (inr channel).

Definition wifi_management_ap_start (name password : option (list Z)) (channel auth_mode hidden : Z) : C Z :=
  let! off := closed in
  if off : bool then ret (-1)
  else
    match name with
    | None => ret (-1)
    | Some name =>
        if WIFI_SSID_MAX_LEN <? zlen name then ret (-1)
        else
          let password := no_empty password in
          let auth_mode := match password with None => AUTH_MODE_OPEN | Some _ => auth_mode end in
          if bad_password false password then ret (-2)
          else if (14 <? channel) || (channel <? 1) then ret (-3)
          else
            wifi_management_ap_stop ;;;
            let! both := concurrent in
            let v := if both : bool then WIFI_VIF_INDEX_SOFTAP_MODE else WIFI_VIF_INDEX_DEFAULT in
            let! ch := (if both : bool then ap_channel_of channel else ret (inr channel)) in
            match ch with
            | inl r => ret r
            | inr channel =>
                let! r := eloop_message_send v EVENT_SWITCH_MODE_CMD WVIF_AP None in
                if negb (r =? 0) then ret (-6)
                else
                  others ;;;
                  let! p := own (ask sys_malloc) in
                  if p =? 0 then ret (-7)
                  else
                    let! x := vif_seen v WVIF_AP in
                    let most := if v =? WIFI_VIF_INDEX_DEFAULT then CFG_STA_NUM else CFG_STA_NUM - 1 in
                    let pass := if auth_mode =? AUTH_MODE_OPEN then [] else default [] password in
                    let a := mk_ap name (u8 channel) (u8 hidden) pass (wifi_vif_mac_addr_get v)
                      (wifi_wpa_auth_mode_2_akm auth_mode) (if 0 <? ap_max_conn x then ap_max_conn x else most) in
                    mgmt_wait_queue_flush ;;;
                    let! r := eloop_message_send v EVENT_START_AP_CMD 0 (Some (Ap a)) in
                    if negb (r =? 0) then own (tell (sys_mfree (Ap a))) ;;; ret (-8)
                    else
                      let! reason := mgmt_wait_queue_fetch v MGMT_WAIT_EVT_AP_START_DONE in
                      if negb (reason =? 0) then ret (-9) else ret 0
            end
    end.

Definition wifi_management_ap_delete_client (addr : list Z) : C Z :=
  let! both := concurrent in
  let v := if both : bool then WIFI_VIF_INDEX_SOFTAP_MODE else WIFI_VIF_INDEX_DEFAULT in
  let! ap := own (ask (wifi_wpa_w_ap_get v)) in
  if ap =? 0 then ret (-1) else own (ask (ap_send_deauth addr WLAN_REASON_UNSPECIFIED)).

Definition set_concurrent (b : bool) (w : W) : W :=
  mk_world (wifi_sm_data w) (wifi_vif_tab w) (tm w) (hist w) b (repeat_cnt w) (interval_sec_ms w).

Definition wifi_management_concurrent_set (enable : bool) : C Z :=
  let! off := closed in
  if off : bool then ret (-1)
  else
    (if enable then ret tt else wifi_management_ap_stop ;;; ret tt) ;;;
    access (fun s => (0, set_man (set_concurrent enable (man s)) s)).
Definition wifi_management_concurrent_get : C Z :=
  let! both := concurrent in ret (if both : bool then 1 else 0).

(** ** Monitor

    The answers are thrown away after the request has been sent. *)
Definition wifi_management_monitor_start (channel : Z) : C Z :=
  let v := WIFI_VIF_INDEX_DEFAULT in
  let! off := closed in
  if off : bool then ret (-1)
  else
    others ;;;
    let! x := own (vif_get v) in
    let! r := (if wvif_type x =? WVIF_MONITOR then eloop_message_send v EVENT_SWITCH_MODE_CMD WVIF_STA None else ret 0) in
    if negb (r =? 0) then ret (-1)
    else
      let! both := concurrent in
      let! r := (if both : bool then eloop_message_send WIFI_VIF_INDEX_SOFTAP_MODE EVENT_SWITCH_MODE_CMD WVIF_UNKNOWN None else ret 0) in
      if negb (r =? 0) then ret (-2)
      else
        let! r := eloop_message_send v EVENT_SWITCH_MODE_CMD WVIF_MONITOR None in
        if negb (r =? 0) then ret (-3)
        else
          let! p := own (ask sys_malloc) in
          if p =? 0 then ret (-4)
          else
            let! r := eloop_message_send v EVENT_MONITOR_START_CMD WVIF_MONITOR (Some (Mon channel)) in
            if negb (r =? 0) then own (tell (sys_mfree (Mon channel))) ;;; ret (-5)
            else
              mgmt_wait_queue_flush ;;;
              let! reason := mgmt_wait_queue_fetch v MGMT_WAIT_EVT_MONITOR_START_DONE in
              if negb (reason =? 0) then ret (-6) else ret 0.

(** ** Roaming, WPS, starting *)

Definition wifi_management_roaming_set (enable : bool) (rssi_th : Z) : C Z :=
  others ;;;
  own (sm_mod WIFI_VIF_INDEX_DEFAULT (set_preroam_enable enable)) ;;;
  (if enable && negb (rssi_th =? 0) then own (tell (wifi_netlink_roaming_rssi_set WIFI_VIF_INDEX_DEFAULT rssi_th)) else ret tt) ;;;
  ret 0.
Definition wifi_management_roaming_get : C (Z * Z) :=
  others ;;;
  let! th := own (ask (macif_vif_roaming_rssi_get WIFI_VIF_INDEX_DEFAULT)) in
  let! s := own (sm_get WIFI_VIF_INDEX_DEFAULT) in
  ret (signed 8 th, if preroam_enable s then 1 else 0).

(** Without [CFG_WPS] there is nothing to do. *)
Definition wifi_management_wps_start : C Z := ret 0.

(** The event loop as [wifi_eloop_init] leaves it, and whether the queue and the task can be created. *)
Definition wifi_management_init (loop : T) (queue_fails task_fails : bool) : C Z :=
  access (fun s => (tt, set_man (set_sms [zero_sm; zero_sm] (man s)) s)) ;;;
  if queue_fails then ret (-1)
  else
    access (fun s => (tt, mk_system (set_tm loop (man s)) (inbox s) [] (wifi_work_status s) false)) ;;;
    if task_fails then ret (-2)
    else
      access (fun s => (tt, set_inbox [] s)) ;;;
      eloop_event_send WIFI_VIF_INDEX_DEFAULT EVENT_INIT ;;;
      let! auto := own (ask wifi_netlink_auto_conn_get) in
      (if negb (auto =? 0) then
         eloop_message_send WIFI_VIF_INDEX_DEFAULT EVENT_SWITCH_MODE_CMD WVIF_STA None ;;;
         eloop_event_send WIFI_VIF_INDEX_DEFAULT EVENT_AUTO_CONNECT_CMD ;;; ret tt
       else ret tt) ;;;
      ret 0.

(** The event loop is told to stop; then the end of its task is waited for. *)
Definition wifi_management_deinit : C unit :=
  eloop_event_send 0 (EVENT_OTHER Eloop.ELOOP_EVENT_TERMINATE) ;;; others.

End Api.
End WifiApi.
