(* ===== verification/WifiApiSpec.v ===== *)
(** * The log only grows

    Whatever the manager does, the calls it has made stay made. This is what ties an answer
    that a caller takes from the queue to the call that put it there. *)
From S2P Require Import Prelude Timers WifiMgmt WifiMgmtSpec WifiApi.
Open Scope Z_scope.
Open Scope fw_scope.

Module WifiApiSpec.
Import WifiMgmt WifiMgmtSpec WifiApi.

Create HintDb grow.

Section Grow.
Context {T : Type} {timers : Timers T} {driver : Driver}.
Abbreviation W := (world (T := T)).

(** The new calls are all in [P]. *)
Definition grows_by (P : call -> Prop) {A} (m : M W unit A) : Prop :=
  forall w, exists k, hist (m w).1 = hist w ++ k /\ Forall P k.

Context (P : call -> Prop).
Abbreviation grows m := (grows_by P m).

Lemma grows_id {A} (m : M W unit A) : (forall w, hist (m w).1 = hist w) -> grows m.
Proof. intros H w. exists []. split; [by rewrite app_nil_r|constructor]. Qed.

Lemma grows_ret {A} (a : A) : grows (ret a).
Proof. by apply grows_id. Qed.
Lemma grows_err {A} : grows (err tt : M W unit A).
Proof. by apply grows_id. Qed.
Lemma grows_get : grows get.
Proof. by apply grows_id. Qed.
Lemma grows_bnd {A B} (m : M W unit A) (f : A -> M W unit B) : grows m -> (forall a, grows (f a)) -> grows (bnd m f).
Proof.
  intros Hm Hf w. destruct (Hm w) as (k & Hk & Fk). unfold bnd. destruct (m w) as [w1 [e|a]]; cbn in *; [by exists k|].
  destruct (Hf a w1) as (k' & Hk' & Fk'). exists (k ++ k'). split; [by rewrite Hk', Hk, app_assoc|by apply Forall_app].
Qed.

Lemma grows_sm_get i : grows (sm_get i).
Proof. apply grows_id. intros w. unfold sm_get, bnd, get. by destruct (wifi_sm_data w !! _). Qed.
Lemma grows_sm_mod i f : grows (sm_mod i f).
Proof. apply grows_bnd; [apply grows_sm_get|]. intros s. by apply grows_id. Qed.
Lemma grows_vif_get v : grows (vif_get v).
Proof. apply grows_id. intros w. unfold vif_get, bnd, get. by destruct (wifi_vif_tab w !! _). Qed.
Lemma grows_vif_mod v f : grows (vif_mod v f).
Proof. apply grows_bnd; [apply grows_vif_get|]. intros x. by apply grows_id. Qed.
Lemma grows_sta_mod v f : grows (sta_mod v f).
Proof. apply grows_vif_mod. Qed.
Lemma grows_cfg_mod v f : grows (cfg_mod v f).
Proof. apply grows_vif_mod. Qed.
Lemma grows_ask c : P c -> grows (ask c).
Proof. intros H w. exists [c]. split; [done|by constructor]. Qed.
Lemma grows_tell c : P c -> grows (tell c).
Proof. intros H. apply grows_bnd; [by apply grows_ask|]. intros _. apply grows_ret. Qed.
Lemma grows_of_timers {A} (f : T -> option (A * T)) : grows (of_timers f).
Proof. apply grows_id. intros w. unfold of_timers, bnd, get. by destruct (f (tm w)) as [[a t]|]. Qed.
Lemma grows_register ms h i : grows (WifiMgmt.eloop_timeout_register ms h i).
Proof. apply grows_bnd; [apply grows_of_timers|]. intros _. apply grows_ret. Qed.
Lemma grows_cancel h : grows (WifiMgmt.eloop_timeout_cancel h).
Proof. apply grows_bnd; [apply grows_of_timers|]. intros _. apply grows_ret. Qed.
Lemma grows_is_registered h i : grows (WifiMgmt.eloop_timeout_is_registered h i).
Proof.
  apply grows_bnd; [apply grows_get|]. intros w. destruct (timeout_is_registered _ _ _ _); [apply grows_ret|apply grows_err].
Qed.

End Grow.

#[export] Hint Resolve grows_ret grows_err grows_get grows_sm_get grows_sm_mod grows_vif_get grows_vif_mod
  grows_sta_mod grows_cfg_mod grows_ask grows_tell grows_register grows_cancel grows_is_registered : grow.

(** A function grows if each of its steps does. *)
Ltac grow := repeat first
  [ solve [auto with grow nocore]
  | apply grows_bnd; [|intros]
  | match goal with
    | |- grows_by _ (if ?b then _ else _) => destruct b
    | |- grows_by _ (match ?x with _ => _ end) => destruct x
    | |- grows_by _ (let x := ?e in _) => cbv zeta
    end ].

(** Every call, and those that send nothing to the manager itself. *)
Definition every : call -> Prop := fun _ => True.
Definition calm (c : call) : Prop :=
  match c with WifiMgmt.eloop_event_send _ _ | WifiMgmt.eloop_message_send _ _ _ _ => False | _ => True end.
#[export] Hint Extern 1 (every _) => exact I : grow.
#[export] Hint Extern 1 (calm _) => exact I : grow.

Section Functions.
Context {T : Type} {timers : Timers T} {driver : Driver}.

Lemma grows_post_conn v r : grows_by (T:=T) every (mgmt_post_conn_done v r). Proof. unfold mgmt_post_conn_done. grow. Qed.
Lemma grows_post_disconn v : grows_by (T:=T) every (mgmt_post_disconn_done v). Proof. unfold mgmt_post_disconn_done. grow. Qed.
Lemma grows_post_scan v r : grows_by (T:=T) every (mgmt_post_scan_done v r). Proof. unfold mgmt_post_scan_done. grow. Qed.
#[local] Hint Resolve grows_post_conn grows_post_disconn grows_post_scan : grow.

Lemma grows_param_set i b : grows_by (T:=T) every (mgmt_connect_retry_param_set i b). Proof. unfold mgmt_connect_retry_param_set. grow. Qed.
Lemma grows_register_retry i : grows_by (T:=T) every (mgmt_register_delayed_connect_retry i). Proof. unfold mgmt_register_delayed_connect_retry. grow. Qed.
Lemma grows_ongoing i : grows_by (T:=T) every (mgmt_link_is_ongoing i). Proof. unfold mgmt_link_is_ongoing. grow. Qed.
Lemma grows_rollback i : grows_by (T:=T) every (mgmt_preroam_rollback i). Proof. unfold mgmt_preroam_rollback. grow. Qed.
Lemma grows_scan_done i : grows_by (T:=T) every (mgmt_connected_scan_done i). Proof. unfold mgmt_connected_scan_done. grow. Qed.
Lemma grows_enter_IDLE i : grows_by (T:=T) every (enter_IDLE i). Proof. unfold enter_IDLE. grow. Qed.
Lemma grows_enter_SCAN i : grows_by (T:=T) every (enter_SCAN i). Proof. unfold enter_SCAN. grow. Qed.
Lemma grows_enter_CONNECT i : grows_by (T:=T) every (enter_CONNECT i). Proof. unfold enter_CONNECT. grow. Qed.
Lemma grows_enter_HANDSHAKE i : grows_by (T:=T) every (enter_HANDSHAKE i). Proof. unfold enter_HANDSHAKE. grow. Qed.
Lemma grows_enter_DHCP i : grows_by (T:=T) every (enter_DHCP i). Proof. unfold enter_DHCP. grow. Qed.
Lemma grows_enter_CONNECTED i : grows_by (T:=T) every (enter_CONNECTED i). Proof. unfold enter_CONNECTED. grow. Qed.
#[local] Hint Resolve grows_param_set grows_register_retry grows_ongoing grows_rollback grows_scan_done grows_enter_IDLE
  grows_enter_SCAN grows_enter_CONNECT grows_enter_HANDSHAKE grows_enter_DHCP grows_enter_CONNECTED : grow.

Lemma grows_user_scan i : grows_by (T:=T) every (user_scan i). Proof. unfold user_scan. grow. Qed.
Lemma grows_copy_cfg v p : grows_by (T:=T) every (copy_cfg v p). Proof. unfold copy_cfg. grow. Qed.
Lemma grows_abandon i : grows_by (T:=T) every (abandon i). Proof. unfold abandon. grow. Qed.
#[local] Hint Resolve grows_user_scan grows_copy_cfg grows_abandon : grow.
Lemma grows_try_again i : grows_by (T:=T) every (try_again i). Proof. unfold try_again. grow. Qed.
#[local] Hint Resolve grows_try_again : grow.
Lemma grows_link_lost i s : grows_by (T:=T) every (link_lost i s). Proof. unfold link_lost, wpa_disconnected. grow. Qed.
#[local] Hint Resolve grows_link_lost : grow.

Lemma grows_IDLE i s : grows_by (T:=T) every (step_IDLE i s). Proof. unfold step_IDLE. grow. Qed.
Lemma grows_SCAN i s : grows_by (T:=T) every (step_SCAN i s). Proof. unfold step_SCAN. grow. Qed.
Lemma grows_CONNECT i s : grows_by (T:=T) every (step_CONNECT i s). Proof. unfold step_CONNECT. grow. Qed.
Lemma grows_HANDSHAKE i s : grows_by (T:=T) every (step_HANDSHAKE i s). Proof. unfold step_HANDSHAKE. grow. Qed.
Lemma grows_DHCP i s : grows_by (T:=T) every (step_DHCP i s). Proof. unfold step_DHCP. grow. Qed.
Lemma grows_CONNECTED i s : grows_by (T:=T) every (step_CONNECTED i s). Proof. unfold step_CONNECTED, wpa_disconnected. grow. Qed.
#[local] Hint Resolve grows_IDLE grows_SCAN grows_CONNECT grows_HANDSHAKE grows_DHCP grows_CONNECTED : grow.

Lemma grows_station i : grows_by (T:=T) every (step_MAINTAIN_CONNECTION i). Proof. unfold step_MAINTAIN_CONNECTION. grow. Qed.
Lemma grows_softap i : grows_by (T:=T) every (step_MAINTAIN_SOFTAP i).
Proof. unfold step_MAINTAIN_SOFTAP, enter_SOFTAP_INIT, enter_SOFTAP_STARTED, mgmt_post_ap_start_done. grow. Qed.
Lemma grows_monitor i : grows_by (T:=T) every (step_MAINTAIN_MONITOR i).
Proof. unfold step_MAINTAIN_MONITOR, enter_MONITOR_INIT, enter_MONITOR_STARTED, mgmt_post_monitor_start_done. grow. Qed.
Lemma grows_reset v t : grows_by (T:=T) every (wifi_vif_reset v t). Proof. unfold wifi_vif_reset. grow. Qed.
#[local] Hint Resolve grows_station grows_softap grows_monitor grows_reset : grow.
Lemma grows_switch i : grows_by (T:=T) every (mgmt_switch_mode i).
Proof. unfold mgmt_switch_mode, enter_SOFTAP_INIT, enter_MONITOR_INIT. grow. Qed.
#[local] Hint Resolve grows_switch : grow.

Lemma grows_message m : grows_by (T:=T) every (wifi_mgmt_cb_run_state_machine m).
Proof. unfold wifi_mgmt_cb_run_state_machine. grow. Qed.
Lemma grows_timer h i : grows_by (T:=T) every (run_timer h i).
Proof. unfold run_timer, mgmt_dhcp_polling, mgmt_link_status_polling, mgmt_connect_retry. grow. Qed.

(** The change of mode and the start of the monitor send the manager nothing. *)
Lemma calm_post_disconn v : grows_by (T:=T) calm (mgmt_post_disconn_done v). Proof. unfold mgmt_post_disconn_done. grow. Qed.
#[local] Hint Resolve calm_post_disconn : grow.
Lemma calm_param_set i b : grows_by (T:=T) calm (mgmt_connect_retry_param_set i b). Proof. unfold mgmt_connect_retry_param_set. grow. Qed.
Lemma calm_enter_IDLE i : grows_by (T:=T) calm (enter_IDLE i). Proof. unfold enter_IDLE. grow. Qed.
Lemma calm_reset v t : grows_by (T:=T) calm (wifi_vif_reset v t). Proof. unfold wifi_vif_reset. grow. Qed.
#[local] Hint Resolve calm_param_set calm_enter_IDLE calm_reset : grow.
Lemma calm_switch i : grows_by (T:=T) calm (mgmt_switch_mode i).
Proof. unfold mgmt_switch_mode, enter_SOFTAP_INIT, enter_MONITOR_INIT. grow. Qed.

End Functions.
#[export] Hint Resolve grows_message grows_timer : grow.
(** ** Callers *)

Section Callers.
Context {T : Type} {timers : Timers T} {driver : Driver}.
Abbreviation S' := (system (T := T) * list (list (happening (T := T))))%type.

(** What holds of a caller's call if it returns. *)
Definition cwp {A} (m : M S' unit A) (Q : A -> S' -> Prop) (st : S') : Prop :=
  match m st with (st', inr a) => Q a st' | (_, inl _) => True end.

Lemma cwp_bnd {A B} (m : M S' unit A) (k : A -> M S' unit B) Q st : cwp m (fun a => cwp (k a) Q) st -> cwp (bnd m k) Q st.
Proof. unfold cwp, bnd. by destruct (m st) as [st' [e|a]]. Qed.
Lemma cwp_ret {A} (a : A) (Q : A -> S' -> Prop) st : Q a st -> cwp (ret a) Q st.
Proof. done. Qed.
Lemma cwp_conseq {A} (m : M S' unit A) (Q R : A -> S' -> Prop) st : cwp m Q st -> (forall a st', Q a st' -> R a st') -> cwp m R st.
Proof. unfold cwp. destruct (m st) as [st' [e|a]]; auto. Qed.

Lemma cwp_any {A} (m : M S' unit A) (Q : A -> S' -> Prop) st : (forall a st', Q a st') -> cwp m Q st.
Proof. intros HQ. unfold cwp. destruct (m st) as [st' [e|a]]; auto. Qed.

(** The manager's calls so far are [B] and [k], and the answers of interest that are in the
    queue have been given in [k]. *)
Definition given (P : mgmt_wait_evt -> Prop) (k : list call) (q : list mgmt_wait_evt) : Prop :=
  forall a, a ∈ q -> P a -> WifiMgmt.sys_queue_post (vif a) (evt a) (w_reason a) ∈ k.

Lemma given_app P k k' q : given P k q -> given P (k ++ k') q.
Proof. intros H a Ha Hp. apply elem_of_app. left. by apply H. Qed.

Lemma settle_given P cs : forall k (s : system (T := T)), given P k (mgmt_wait_queue s) ->
  given P (k ++ cs) (mgmt_wait_queue (fold_left settle cs s)).
Proof.
  induction cs as [|c cs IH]; intros k s H; [by rewrite app_nil_r|]. cbn [fold_left].
  replace (k ++ c :: cs) with ((k ++ [c]) ++ cs) by (by rewrite <- app_assoc). apply IH.
  destruct c; try (by apply given_app); cbn [settle]; unfold post_message, sys_task_post, post_answer; repeat (case_match; try by apply given_app); cbn;
    try (by apply given_app). intros a [Ha|Ha%list_elem_of_singleton]%elem_of_app Hp; apply elem_of_app; [left; by apply H|right].
  subst a. cbn. by apply list_elem_of_singleton.
Qed.

Lemma settle_man cs : forall s : system (T := T), man (fold_left settle cs s) = man s.
Proof.
  induction cs as [|c cs IH]; intros s; [done|]. cbn [fold_left]. rewrite IH.
  destruct c; try done; cbn [settle]; unfold post_message, sys_task_post, post_answer; by repeat case_match.
Qed.

Record since (B : list call) (P : mgmt_wait_evt -> Prop) (k : list call) (s : system (T := T)) : Prop := {
  si_hist : hist (man s) = B ++ k;
  si_given : given P k (mgmt_wait_queue s)
}.
Definition after (B : list call) (P : mgmt_wait_evt -> Prop) (s : system (T := T)) : Prop := exists k, since B P k s.

Lemma works_after B P m s s' : grows_by every m -> after B P s -> works m s = Some s' -> after B P s'.
Proof.
  intros Hm [k [H1 H2]] Hw. destruct (Hm (man s)) as (k' & Hk' & _). unfold works in Hw.
  destruct (m (man s)) as [w [r|r]]; [done|]. injection Hw as <-. cbn [fst] in Hk'. rewrite Hk', drop_app_length.
  exists (k ++ k'). split; [rewrite settle_man; cbn; by rewrite Hk', H1, app_assoc|by apply settle_given].
Qed.

Lemma grows_dispatch m s : exists f, grows_by (T := T) every f /\
  (eloop_dispatch m s = works f s \/ eloop_dispatch m s = Some s \/ eloop_dispatch m s = Some (set_terminate s)).
Proof.
  unfold eloop_dispatch. destruct (terminate s); [eexists; split; [|by left]; grow|].
  exists (wifi_mgmt_cb_run_state_machine m). split; [auto with grow|]. destruct (_ =? _); [by right; left|].
  destruct (_ =? _); [by right; right|by left].
Qed.

Lemma happens_after B P x s s' : after B P s -> happens x s = Some s' -> after B P s'.
Proof.
  intros [k [H1 H2]] Hx. assert (forall s1, hist (man s1) = hist (man s) -> mgmt_wait_queue s1 = mgmt_wait_queue s -> after B P s1) as Hs
    by (intros s1 E1 E2; exists k; by split; rewrite ?E1, ?E2).
  destruct x as [|m|h i t]; cbn [happens] in Hx.
  - destruct (inbox s) as [|m l]; [injection Hx as <-; by apply Hs|].
    destruct (grows_dispatch m (set_inbox l s)) as (f & Hf & [E|[E|E]]); rewrite E in Hx; [|injection Hx as <-; by apply Hs..].
    eapply works_after; [exact Hf| |exact Hx]. by apply Hs.
  - injection Hx as <-. unfold post_message, sys_task_post. destruct (terminate s); [by apply Hs|]. destruct (_ <? _); by apply Hs.
  - destruct (terminate s); [injection Hx as <-; by apply Hs|]. eapply works_after; [apply grows_timer| |exact Hx]. by apply Hs.
Qed.

Lemma happen_after B P l : forall s s', after B P s -> happen l s = Some s' -> after B P s'.
Proof.
  induction l as [|x l IH]; intros s s' H Hl; cbn [happen] in Hl; [by injection Hl as <-|].
  destruct (happens x s) as [s1|] eqn:E; [|done]. eapply IH; [by eapply happens_after|exact Hl].
Qed.

Lemma others_after B P (Q : unit -> S' -> Prop) st : after B P st.1 -> (forall st', after B P st'.1 -> Q tt st') -> cwp others Q st.
Proof.
  intros H HQ. destruct st as [s [|l sc]]; unfold cwp, others; [by apply HQ|].
  destruct (happen l s) as [s'|] eqn:E; [|done]. apply HQ. by eapply happen_after.
Qed.

(** An access that leaves the manager's world alone and takes answers only away. *)
Lemma access_after {A} B P (f : system -> A * system) (Q : A -> S' -> Prop) st : after B P st.1 ->
  (forall s, man (f s).2 = man s /\ mgmt_wait_queue (f s).2 ⊆ mgmt_wait_queue s) ->
  (forall s sc a, after B P s -> a = (f s).1 -> after B P (f s).2 -> Q a ((f s).2, sc)) -> cwp (access f) Q st.
Proof.
  intros H Hf HQ. apply cwp_bnd. eapply others_after; [exact H|]. intros [s sc] Hs. unfold cwp.
  pose proof (Hf s) as [F1 F2]. specialize (HQ s sc (f s).1 Hs eq_refl). destruct (f s) as [a s']. cbn in *.
  apply HQ. destruct Hs as [k [H1 H2]]. exists k. split; [congruence|]. intros x Hx. apply H2. by apply F2.
Qed.

Lemma own_after {A} B P (m : M (world (T := T)) unit A) (Q : A -> S' -> Prop) st : after B P st.1 -> grows_by every m ->
  (forall a st', after B P st'.1 -> Q a st') -> cwp (own m) Q st.
Proof.
  intros [k [H1 H2]] Hm HQ. destruct st as [s sc]. unfold cwp, own. destruct (Hm (man s)) as (k' & Hk' & _).
  destruct (m (man s)) as [w [r|a]]; [done|]. apply HQ. exists (k ++ k'). cbn in *.
  split; [cbn; by rewrite Hk', H1, app_assoc|by apply given_app].
Qed.

(** Nothing is asked of the answers. *)
Definition any : mgmt_wait_evt -> Prop := fun _ => False.

Lemma after_hist B P s : after B P s -> exists k, hist (man s) = B ++ k.
Proof. intros [k [H _]]. by exists k. Qed.

Lemma after_start s : after (hist (man s)) any s.
Proof. exists []. split; [by rewrite app_nil_r|]. by intros a _ []. Qed.

(** Once the queue is empty, all answers are new. *)
Lemma flush_after P (Q : unit -> S' -> Prop) st B : after B any st.1 ->
  (forall B' k st', B' = B ++ k -> after B' P st'.1 -> Q tt st') -> cwp mgmt_wait_queue_flush Q st.
Proof.
  intros H HQ. eapply (access_after B any); [exact H|intros s; split; [done|]; apply list_subseteq_nil|].
  intros s sc a [k [H1 _]] _ _. destruct a. apply (HQ (hist (man s)) k); [done|]. exists []. split; [by rewrite app_nil_r|].
  by intros a Ha%elem_of_nil.
Qed.

(** An answer taken from the queue. *)
Definition answered (B : list call) (v e r : Z) (s : system (T := T)) : Prop :=
  exists k r0, hist (man s) = B ++ k /\ WifiMgmt.sys_queue_post v e r0 ∈ k /\ r = u16 r0.

Lemma answered_later B B' P v e r s s' : answered (B ++ B') v e r s -> after (hist (man s)) P s' -> answered B v e r s'.
Proof.
  intros (k & r0 & H1 & H2 & ->) [k' [H3 _]]. exists (B' ++ k ++ k'), r0.
  rewrite H3, H1, <- !app_assoc. split; [done|]. split; [|done]. rewrite !elem_of_app. by right; left.
Qed.

Definition for_caller (v e : Z) (a : mgmt_wait_evt) : Prop := vif a = v /\ evt a = e.

Lemma fetch_loop_after B v e n : forall (Q : Z -> S' -> Prop) st, after B (for_caller v e) st.1 ->
  (forall r st', after B (for_caller v e) st'.1 -> r = 0xFFFF \/ answered B v e r st'.1 -> Q r st') -> cwp (fetch_loop n v e) Q st.
Proof.
  induction n as [|n IH]; intros Q st H HQ; [done|]. cbn [fetch_loop]. apply cwp_bnd.
  eapply (access_after B (for_caller v e)); [exact H| |].
  { intros s. destruct (mgmt_wait_queue s) as [|a l] eqn:E; cbn; [by rewrite E|]. split; [done|]. set_solver. }
  intros s sc x Hs Hx Hs'. destruct (mgmt_wait_queue s) as [|a l] eqn:E; cbn in Hx, Hs'; subst x.
  - apply cwp_ret. apply HQ; [done|by left].
  - destruct ((v =? vif a) && (e =? evt a)) eqn:Em; [|by apply IH]. bool_to_prop. apply cwp_ret. apply HQ; [done|right].
    destruct Hs as [k [G1 G2]]. exists k, (w_reason a). split; [done|]. split; [|done]. subst v e. apply G2; [|done].
    rewrite E. by left.
Qed.

Lemma fetch_after B v e (Q : Z -> S' -> Prop) st : after B (for_caller v e) st.1 ->
  (forall r st', after B (for_caller v e) st'.1 -> r = 0xFFFF \/ answered B v e r st'.1 -> Q r st') ->
  cwp (mgmt_wait_queue_fetch v e) Q st.
Proof. intros H HQ. apply cwp_bnd. by eapply fetch_loop_after. Qed.

(** What a caller's call does, and that it returns. *)
Definition does {A} (m : M S' unit A) (Q : A -> S' -> Prop) (st : S') : Prop :=
  match m st with (st', inr a) => Q a st' | (_, inl _) => False end.

Lemma does_bnd {A B} (m : M S' unit A) (k : A -> M S' unit B) Q st : does m (fun a => does (k a) Q) st -> does (bnd m k) Q st.
Proof. unfold does, bnd. by destruct (m st) as [st' [e|a]]. Qed.
Lemma does_ret {A} (a : A) (Q : A -> S' -> Prop) st : Q a st -> does (ret a) Q st.
Proof. done. Qed.
Lemma does_access {A} (f : system -> A * system) (Q : A -> S' -> Prop) s s' l sc : happen l s = Some s' ->
  Q (f s').1 ((f s').2, sc) -> does (access f) Q (s, l :: sc).
Proof. intros Hs HQ. unfold does, access, bnd, others. rewrite Hs. by destruct (f s') as [a s'']. Qed.
Lemma does_access_last {A} (f : system -> A * system) (Q : A -> S' -> Prop) s :
  Q (f s).1 ((f s).2, []) -> does (access f) Q (s, []).
Proof. intros HQ. unfold does, access, bnd, others. by destruct (f s) as [a s'']. Qed.
Lemma does_others (Q : unit -> S' -> Prop) s s' l sc : happen l s = Some s' -> Q tt (s', sc) -> does others Q (s, l :: sc).
Proof. intros Hs HQ. unfold does, others. by rewrite Hs. Qed.
Lemma does_others_last (Q : unit -> S' -> Prop) s : Q tt (s, []) -> does others Q (s, []).
Proof. done. Qed.

End Callers.
End WifiApiSpec.
