(* ===== verification/WifiApiProps.v ===== *)
(** * What callers of the Wi-Fi manager are told

    An answer is the manager's, given after the request; what a request to connect does on
    every branch; and the request whose answer is thrown away. *)
From S2P Require Import Prelude Timers Eloop WifiMgmt WifiMgmtSpec WifiLink WifiMgmtProps WifiApi WifiApiSpec.
Open Scope Z_scope.
Open Scope fw_scope.

Module WifiApiProps.
Import WifiMgmt WifiMgmtSpec WifiLink WifiApi WifiApiSpec.

Section Answers.
Context {T : Type} {timers : Timers T} {driver : Driver}.
Abbreviation St := (system (T := T) * list (list (happening (T := T))))%type.

Lemma send_after B P v e r q (Q : Z -> St -> Prop) st : after B P st.1 ->
  (forall x st', after B P st'.1 -> Q x st') -> cwp (eloop_message_send v e r q) Q st.
Proof.
  intros H HQ. eapply (access_after B P); [exact H| |].
  - intros s. unfold post_message, sys_task_post. destruct (terminate s); [done|]. by destruct (_ <? _).
  - intros s sc a _ _ Hs. by apply HQ.
Qed.

Lemma closed_after B (Q : bool -> St -> Prop) st : after B any st.1 -> (forall b st', after B any st'.1 -> Q b st') -> cwp closed Q st.
Proof. intros H HQ. eapply (access_after B any); [exact H|by intros|]. intros s sc a _ _ Hs. by apply HQ. Qed.

(** What the caller knows when it returns. *)
Definition told (B : list call) (r : Z) (st : St) : Prop :=
  0 <= r -> r <> 0xFFFF -> answered B WIFI_VIF_INDEX_DEFAULT MGMT_WAIT_EVT_CONN_DONE r st.1.

Lemma told_error B r st : r < 0 -> told B r st.
Proof. intros H. unfold told. lia. Qed.

Lemma connect_send_after c B (k : Z -> M St unit Z) Q st : after B any st.1 -> (forall st', cwp (k (-5)) Q st') ->
  (forall B' st', after (B ++ B') (for_caller WIFI_VIF_INDEX_DEFAULT MGMT_WAIT_EVT_CONN_DONE) st'.1 -> cwp (k 0) Q st') ->
  cwp (bnd (connect_send c) k) Q st.
Proof.
  intros H H1 H2. apply cwp_bnd. unfold connect_send. apply cwp_bnd.
  eapply (flush_after (for_caller WIFI_VIF_INDEX_DEFAULT MGMT_WAIT_EVT_CONN_DONE)); [exact H|].
  intros B' b st1 -> G1. apply cwp_bnd. eapply send_after; [exact G1|]. intros y st2 G2. destruct (y <? 0).
  - apply cwp_bnd, cwp_any. intros [] st3. apply cwp_ret, H1.
  - apply cwp_ret. by eapply H2.
Qed.

(** The mode is asked for, memory got and the old configuration read. *)
Lemma prepare_after B (Q : Z -> St -> Prop) st (k : wifi_vif_tag -> M St unit Z) : after B any st.1 ->
  (forall r st', r < 0 -> Q r st') -> (forall x st', after B any st'.1 -> cwp (k x) Q st') ->
  cwp (let! r := eloop_message_send WIFI_VIF_INDEX_DEFAULT EVENT_SWITCH_MODE_CMD WVIF_STA None in
       if r <? 0 then ret (-3)
       else others ;;; let! p := own (ask sys_malloc) in
         if p =? 0 then ret (-4) else let! x := vif_seen WIFI_VIF_INDEX_DEFAULT WVIF_STA in k x) Q st.
Proof.
  intros H HQ Hk. apply cwp_bnd. eapply send_after; [exact H|]. intros r st1 H1. destruct (r <? 0); [by apply cwp_ret, HQ|].
  apply cwp_bnd. eapply others_after; [exact H1|]. intros st2 H2. apply cwp_bnd.
  eapply own_after; [exact H2|auto with grow|]. intros p st3 H3. destruct (p =? 0); [by apply cwp_ret, HQ|].
  apply cwp_bnd. eapply own_after; [exact H3|unfold seen; grow|]. intros x st4 H4. by apply Hk.
Qed.

Lemma touch_after B (b : bool) f (Q : unit -> St -> Prop) st : after B any st.1 -> (forall st', after B any st'.1 -> Q tt st') ->
  cwp (if b then own (sta_mod WIFI_VIF_INDEX_DEFAULT f) else ret tt) Q st.
Proof.
  intros H HQ. destruct b; [|by apply cwp_ret, HQ]. eapply own_after; [exact H|auto with grow|]. intros [] st' H'. by apply HQ.
Qed.

Lemma connect_told name password B st : after B any st.1 -> cwp (wifi_management_connect name password true) (told B) st.
Proof.
  intros H. unfold wifi_management_connect. apply cwp_bnd. eapply closed_after; [exact H|]. intros off st1 H1.
  destruct off; [by apply cwp_ret, told_error|]. destruct name as [name|]; [|by apply cwp_ret, told_error].
  destruct (_ <? _); [by apply cwp_ret, told_error|]. cbv zeta. destruct (bad_password _ _); [by apply cwp_ret, told_error|].
  eapply prepare_after; [exact H1|intros; by apply told_error|]. intros x st2 H2. apply cwp_bnd.
  eapply touch_after; [exact H2|]. intros st3 H3. eapply connect_send_after; [exact H3|intros; by apply cwp_ret, told_error|].
  intros B' st4 H4. cbn [negb Z.eqb]. apply cwp_bnd. eapply fetch_after; [exact H4|]. intros reason st5 H5 Ha.
  apply cwp_bnd. eapply (own_after _ any); [apply after_start|auto with grow|]. intros [] st6 H6. apply cwp_bnd.
  destruct (Z.eqb_spec reason 0xFFFF) as [->|Hr]; [apply cwp_any; intros; apply cwp_ret; by intros _ ?|].
  destruct Ha as [|Ha]; [done|]. do 2 apply cwp_ret. intros _ _. by eapply answered_later.
Qed.

Lemma connect_with_bssid_told addr password B st : after B any st.1 ->
  cwp (wifi_management_connect_with_bssid addr password true) (told B) st.
Proof.
  intros H. unfold wifi_management_connect_with_bssid. apply cwp_bnd. eapply closed_after; [exact H|]. intros off st1 H1.
  destruct off; [by apply cwp_ret, told_error|]. destruct addr as [addr|]; [|by apply cwp_ret, told_error].
  cbv zeta. destruct (bad_password _ _); [by apply cwp_ret, told_error|].
  eapply prepare_after; [exact H1|intros; by apply told_error|]. intros x st2 H2. apply cwp_bnd.
  eapply touch_after; [exact H2|]. intros st3 H3. eapply connect_send_after; [exact H3|intros; by apply cwp_ret, told_error|].
  intros B' st4 H4. cbn [negb Z.eqb]. eapply fetch_after; [exact H4|]. intros reason st5 H5 Ha _ Hr.
  destruct Ha as [|Ha]; [done|]. eapply answered_later; [exact Ha|apply after_start].
Qed.

(** C25: whatever the manager and the driver do in the meantime, and whatever was in the
    queues before, a blocked caller that connects, by name or by address, and is neither
    refused nor timed out, returns a reason that the manager has given for that interface
    since the call began. *)
Theorem connect_answer_given call name addr password s sc s' sc' r :
  call = wifi_management_connect name password true \/ call = wifi_management_connect_with_bssid addr password true ->
  call (s, sc) = ((s', sc'), inr r) -> 0 <= r -> r <> 0xFFFF ->
  exists k r0, hist (man s') = hist (man s) ++ k /\
    sys_queue_post WIFI_VIF_INDEX_DEFAULT MGMT_WAIT_EVT_CONN_DONE r0 ∈ k /\ r = u16 r0.
Proof.
  intros Hc Hm Hr0 Hr. assert (cwp call (told (hist (man s))) (s, sc)) as Hw.
  { destruct Hc as [-> | ->]; [apply connect_told|apply connect_with_bssid_told]; apply after_start. }
  unfold cwp in Hw. rewrite Hm in Hw. by apply Hw.
Qed.

End Answers.

(** ** The manager at work *)

Section Manager.
Context {T : Type} {timers : Timers T} {laws : TimersLaws T} {driver : Driver} {driver_laws : DriverLaws}.
Abbreviation W := (world (T := T)).

Lemma wp_grows {A} P (m : M W unit A) Q w : wp m Q w -> grows_by P m ->
  wp m (fun a w' => Q a w' /\ exists k, hist w' = hist w ++ k /\ Forall P k) w.
Proof. intros H Hm. specialize (Hm w). unfold wp in *. by destruct (m w) as [w' [e|a]]. Qed.

Lemma settle_calm cs : forall s : system (T := T), Forall calm cs ->
  inbox (fold_left settle cs s) = inbox s /\ terminate (fold_left settle cs s) = terminate s.
Proof.
  induction cs as [|c cs IH]; intros s H; [done|]. apply Forall_cons in H as [Hc H]. cbn [fold_left].
  destruct (IH (settle s c) H) as [-> ->]. destruct c; try done. cbn. unfold post_answer. by destruct (_ <? _).
Qed.

(** The manager does what is known of the message at the head of its inbox. *)
Lemma handles_ok P m l Q (s : system (T := T)) : inbox s = m :: l -> terminate s = false ->
  Eloop.ELOOP_EVENT_TERMINATE < Z.land (event_id m) 0xFFF -> wp (wifi_mgmt_cb_run_state_machine m) Q (man s) ->
  grows_by P (wifi_mgmt_cb_run_state_machine m) ->
  exists s', happens Handles s = Some s' /\ Q tt (man s') /\ ((forall c, P c -> calm c) -> inbox s' = l /\ terminate s' = false).
Proof.
  intros Hi Ht He Hw Hm. apply (wp_grows P) in Hw; [|done]. unfold happens. rewrite Hi. unfold eloop_dispatch. cbn [terminate set_inbox].
  unfold Eloop.ELOOP_EVENT_TERMINATE, Eloop.ELOOP_EVENT_WAKEUP in *. rewrite Ht. case_bool (Z.land (event_id m) 0xFFF =? 1); [lia|].
  case_bool (Z.land (event_id m) 0xFFF =? 2); [lia|]. unfold works. cbn [man set_inbox]. unfold wp in Hw.
  destruct (wifi_mgmt_cb_run_state_machine m (man s)) as [w [e|[]]]; [done|]. destruct Hw as (HQ & k & -> & Fk).
  rewrite drop_app_length. eexists. split; [done|]. rewrite settle_man. split; [done|]. intros HP.
  assert (Forall calm k) as Fc by (eapply Forall_impl; [exact Fk|done]). destruct (settle_calm k (set_man w (set_inbox l s)) Fc) as [-> ->]. done.
Qed.

(** ** An interface becomes a monitor *)

Context (i : Z).

Lemma leave_ok s ty b st p h Q w : sees w i s ty b st p h ->
  (forall w' s' b' st' p', sees w' i s' ty b' st' p' h -> Q tt w') ->
  wp (if ty =? WVIF_STA then enter_IDLE i ;;; tell (wifi_wpa_sta_pmksa_cache_flush i)
      else if ty =? WVIF_AP then enter_SOFTAP_INIT i else ret tt) Q w.
Proof.
  intros H HQ. destruct (ty =? WVIF_STA); [wstep; eapply enter_IDLE_ok; [exact H|]; intros w1 H1; wsteps; by eapply HQ|].
  destruct (ty =? WVIF_AP); [|wsteps; by eapply HQ]. unfold enter_SOFTAP_INIT. wsteps.
  eapply wp_vif_mod_any; [eassumption|by intros ? E; exact E|]. intros. by eapply HQ.
Qed.

Lemma monitor_mode_ok s ty b st p h w : sees w i s ty b st p h -> reason s = WVIF_MONITOR -> ty <> WVIF_MONITOR ->
  (forall h v t, answer h (wifi_vif_type_set v t) = 0) ->
  wp (mgmt_switch_mode i) (fun _ w' => exists s' b' st' p', sees w' i s' WVIF_MONITOR b' st' p' h /\
    init s' = true /\ sm_state s' = MAINTAIN_MONITOR_INIT) w.
Proof.
  intros H Hr Ht Ha. unfold mgmt_switch_mode. wstep. wstep. wstep. wstep. rewrite H0, Hr.
  destruct (Z.eqb_spec ty WVIF_MONITOR); [done|]. wstep. wstep. wstep. wstep. apply wp_bnd.
  eapply leave_ok; [eassumption|]. clear - Ha laws driver_laws. intros w s b st p H.
  wstep. eapply vif_reset_ok; [exact H|]. intros w1 b1 st1 H1.
  wstep. wstep. wstep. eapply (wp_vif_mod_any _ _ WVIF_MONITOR); [exact H1|done|]. intros w2 b2 st2 H2.
  wstep. eapply wp_ask_known; [exact H2|done|by intros|]. intros w3 H3. cbn [negb Z.eqb]. wstep. wstep.
  eapply wp_ask_known; [exact H3|done|by intros|]. intros w4 H4. wsteps; try done.
  eexists _, _, _, _. split; [eassumption|done].
Qed.

End Manager.

(** The two requests of [wifi_management_monitor_start], as the manager gets them. *)
Definition to_monitor : eloop_message := message WIFI_VIF_INDEX_DEFAULT EVENT_SWITCH_MODE_CMD WVIF_MONITOR None.
Definition start_monitor (channel : Z) : eloop_message :=
  message WIFI_VIF_INDEX_DEFAULT EVENT_MONITOR_START_CMD WVIF_MONITOR (Some (Mon channel)).

Section Monitor.
Context {T : Type} {timers : Timers T} {laws : TimersLaws T} {driver : Driver} {driver_laws : DriverLaws}.
Abbreviation W := (world (T := T)).

Lemma told_ok i c s ty b st p h Q (w : W) : sees w i s ty b st p h -> reply_of i c = [] ->
  (forall w', sees w' i s ty b st p h -> c ∈ hist w' -> Q tt w') -> wp (tell c) Q w.
Proof.
  intros H Hc HQ. apply wp_bnd. pose proof (wp_asks i c _ _ _ _ _ _ (fun _ w' => sees w' i s ty b st p h) w H Hc) as Ha.
  unfold wp in *. cbn in *. apply HQ; [by apply Ha|]. cbn. rewrite elem_of_app. by right; left.
Qed.

Lemma calm_to_monitor : grows_by (T := T) calm (wifi_mgmt_cb_run_state_machine to_monitor).
Proof.
  unfold wifi_mgmt_cb_run_state_machine. change (event_of _) with EVENT_SWITCH_MODE_CMD. cbv iota.
  pose proof (calm_switch (T := T)). grow.
Qed.

Lemma to_monitor_ok s ty b st p h w : sees w 0 s ty b st p h -> ty <> WVIF_MONITOR ->
  (forall h v t, answer h (wifi_vif_type_set v t) = 0) ->
  wp (wifi_mgmt_cb_run_state_machine to_monitor) (fun _ w' => exists s' b' st' p', sees w' 0 s' WVIF_MONITOR b' st' p' h /\
    init s' = true /\ sm_state s' = MAINTAIN_MONITOR_INIT) w.
Proof.
  intros H Ht Ha. unfold wifi_mgmt_cb_run_state_machine. change (event_of _) with EVENT_SWITCH_MODE_CMD.
  change (Z.land (Z.shiftr (event_id to_monitor) 12) 0xF) with 0. cbn [CFG_VIF_NUM Z.leb Z.compare].
  change (Z.land (event_id to_monitor) 0xFFF <? WIFI_MGMT_EVENT_INIT) with false. cbv iota.
  wstep. eapply wp_sm_mod; [exact H|done|]. intros w0 H0.
  wstep. wstep. wstep. wstep. eapply wp_conseq; [by eapply (monitor_mode_ok 0)|]. cbn beta.
  intros _ w1 (s1 & b1 & st1 & p1 & H1' & G1 & G2). wsteps. destruct (param s1); wsteps; eexists _, b1, st1, p1;
    (split; [eassumption|done]).
Qed.

Lemma start_monitor_ok ch s b st p h w : sees w 0 s WVIF_MONITOR b st p h -> init s = true -> sm_state s = MAINTAIN_MONITOR_INIT ->
  (forall h v q, answer h (wifi_netlink_monitor_start v q) = 0) ->
  wp (wifi_mgmt_cb_run_state_machine (start_monitor ch)) (fun _ w' => (exists s', sees w' 0 s' WVIF_MONITOR b st p h /\
    sm_state s' = MAINTAIN_MONITOR_STARTED) /\ sys_queue_post 0 MGMT_WAIT_EVT_MONITOR_START_DONE 0 ∈ hist w') w.
Proof.
  intros H Hi Hs Ha. unfold wifi_mgmt_cb_run_state_machine. change (event_of _) with EVENT_MONITOR_START_CMD.
  change (Z.land (Z.shiftr (event_id (start_monitor ch)) 12) 0xF) with 0. cbn [CFG_VIF_NUM Z.leb Z.compare].
  change (Z.land (event_id (start_monitor ch)) 0xFFF <? WIFI_MGMT_EVENT_INIT) with false. cbv iota.
  wstep. eapply wp_sm_mod; [exact H|done|]. intros w0 H0. wstep. wstep. rewrite H1. cbn [Z.eqb WVIF_MONITOR WVIF_STA WVIF_AP Pos.eqb].
  wstep. unfold step_MAINTAIN_MONITOR. wstep. wstep. fields. rewrite Hi, Hs. cbn [negb orb Z.eqb MAINTAIN_MONITOR_INIT].
  wstep. eapply wp_ask_known; [exact H0|done|by intros|]. intros w1 H4. cbn [Z.eqb]. wstep. unfold enter_MONITOR_STARTED. wstep.
  unfold mgmt_post_monitor_start_done. eapply told_ok; [exact H4|done|]. intros w3 H5 Hc.
  match goal with |- wp ?m _ _ => pose proof (wp_grows every m (fun _ w' => exists s', sees w' 0 s' WVIF_MONITOR b st p h /\
    sm_state s' = MAINTAIN_MONITOR_STARTED) w3) as Hg end.
  eapply wp_conseq; [apply Hg|].
  - wsteps. cbn [param start_monitor message m_param set_param set_param_len set_sm_state]. wsteps. by eexists.
  - grow.
  - cbn beta. intros _ w4 (G & k & -> & _). split; [exact G|]. rewrite elem_of_app. by left.
Qed.

Lemma does_own {A} (m : M W unit A) (Q : A -> _ -> Prop) (s : system (T := T)) sc :
  wp m (fun a w => Q a (set_man w s, sc)) (man s) -> does (own m) Q (s, sc).
Proof. unfold wp, does, own. by destruct (m (man s)) as [w [e|a]]. Qed.

(** The request to start a monitor, served at once. *)
Definition served_at_once : list (list (happening (T := T))) := [[]; []; []; []; [Handles]; [Handles]].

(** If the manager serves the requests at once (its task is the more urgent one), the
    interface becomes a monitor and the manager says so, but the caller is told that it has
    failed: it throws the answer away after its request, and waits for another. *)
Theorem monitor_start_loses_answer channel s ty b st p h (sys : system (T := T)) :
  sees (man sys) 0 s ty b st p h -> ty <> WVIF_MONITOR -> inbox sys = [] -> terminate sys = false ->
  wifi_work_status sys = WIFI_RUNNING -> wifi_concurrent_mode (man sys) = false ->
  (forall h v t, answer h (wifi_vif_type_set v t) = 0) -> (forall h v q, answer h (wifi_netlink_monitor_start v q) = 0) ->
  (forall h, answer h sys_malloc <> 0) ->
  exists sys' s' b' st' p', wifi_management_monitor_start channel (sys, served_at_once) = ((sys', []), inr (-6)) /\
    sees (man sys') 0 s' WVIF_MONITOR b' st' p' h /\ sm_state s' = MAINTAIN_MONITOR_STARTED /\
    sys_queue_post WIFI_VIF_INDEX_DEFAULT MGMT_WAIT_EVT_MONITOR_START_DONE 0 ∈ hist (man sys').
Proof.
  intros H Ht Hi He Hr Hc A1 A2 A3.
  assert (does (wifi_management_monitor_start channel) (fun r st => r = -6 /\ st.2 = [] /\ exists s' b' st' p',
    sees (man st.1) 0 s' WVIF_MONITOR b' st' p' h /\ sm_state s' = MAINTAIN_MONITOR_STARTED /\
    sys_queue_post WIFI_VIF_INDEX_DEFAULT MGMT_WAIT_EVT_MONITOR_START_DONE 0 ∈ hist (man st.1)) (sys, served_at_once)) as Hd.
  { unfold wifi_management_monitor_start, served_at_once. apply does_bnd. eapply does_access; [done|]. cbn [fst snd]. rewrite Hr.
    cbn [Z.eqb orb WIFI_RUNNING WIFI_CLOSED WIFI_CLOSING Pos.eqb].
    apply does_bnd. eapply does_others; [done|]. apply does_bnd, does_own. eapply wp_vif_get; [exact H|]. intros x X1 _ _.
    rewrite X1. destruct (Z.eqb_spec ty WVIF_MONITOR); [done|]. apply does_bnd, does_ret. cbn [negb Z.eqb].
    apply does_bnd. eapply does_access; [done|]. cbn [fst snd set_man man]. rewrite Hc. apply does_bnd, does_ret. cbn [negb Z.eqb].
    apply does_bnd. eapply does_access; [done|]. unfold post_message, sys_task_post. cbn [inbox terminate set_man]. rewrite Hi, He.
    change (zlen [] <? MGMT_TASK_QUEUE_SIZE) with true. cbv iota. cbn [fst snd negb Z.eqb OS_OK app].
    apply does_bnd, does_own. eapply (wp_ask 0); [exact H|]. intros w1 H1. cbn [reply_of] in H1. rewrite app_nil_r in H1. pose proof (A3 (hist (man sys))) as A4.
    apply Z.eqb_neq in A4. cbn [man set_inbox set_man]. rewrite A4.
    match goal with |- does _ _ (?s0, _) => destruct (handles_ok calm to_monitor [] _ s0 eq_refl He eq_refl
      (to_monitor_ok _ _ _ _ _ _ _ H1 Ht A1) calm_to_monitor) as (s1 & E1 & (m1 & b1 & st1 & p1 & H2 & I2 & M2) & G1) end.
    destruct (G1 ltac:(done)) as [J1 J2].
    apply does_bnd. eapply does_access; [cbn [happen]; by rewrite E1|]. unfold post_message, sys_task_post. rewrite J1, J2.
    change (zlen [] <? MGMT_TASK_QUEUE_SIZE) with true. cbv iota. cbn [fst snd negb Z.eqb OS_OK app].
    match goal with |- does _ _ (?s0, _) => destruct (handles_ok every (start_monitor channel) [] _ s0 eq_refl J2 eq_refl
      (start_monitor_ok _ _ _ _ _ _ _ H2 I2 M2 A2) ltac:(auto with grow)) as (s2 & E2 & ((m2 & H3 & M3) & G3) & _) end.
    apply does_bnd. eapply does_access; [cbn [happen]; by rewrite E2|]. cbn [snd].
    apply does_bnd, does_bnd. cbn [length]. apply does_bnd, does_access_last. cbn. split; [done|]. split; [done|].
    by eexists _, _, _, _. }
  unfold does in Hd. destruct (wifi_management_monitor_start channel _) as [[sys' sc] [e|r]]; [done|].
  destruct Hd as (-> & G & s' & b' & st' & p' & G1 & G2 & G3). cbn in *. subst sc. by exists sys', s', b', st', p'.
Qed.

End Monitor.

(** ** What a request to connect does *)

Section Connect.
Context {T : Type} {timers : Timers T} {driver : Driver}.
Abbreviation Sys := (system (T := T)).

(** The passwords that are taken: none, or one of five or of eight to sixty-three bytes. *)
Definition acceptable (password : option (list Z)) : bool :=
  match password with
  | None => true
  | Some l => (zlen l =? 0) || (zlen l =? 5) || ((8 <=? zlen l) && (zlen l <=? 63))
  end.

Lemma acceptable_bad password : bad_password true (no_empty password) = negb (acceptable password).
Proof.
  destruct password as [[|z l]|]; try done. unfold bad_password, no_empty, acceptable, WPAS_MAX_PASSPHRASE_LEN,
    WPAS_MIN_PASSPHRASE_LEN, WPAS_WEP40_ASCII_LEN. assert (0 < zlen (z :: l)) by (rewrite zlen_cons; pose proof (zlen_nonneg l); lia).
  cbn [andb]. apply eq_true_iff_eq. rewrite orb_true_iff, andb_true_iff, !negb_true_iff, !orb_false_iff, andb_false_iff,
    Z.ltb_lt, Z.ltb_lt, !Z.eqb_neq, !Z.leb_gt. lia.
Qed.

Lemma no_empty_bytes password : default [] (no_empty password) = default [] password.
Proof. by destruct password as [[|z l]|]. Qed.

(** How a request to connect that nobody interferes with, and that does not wait, ends. *)
Definition verdict (name password : option (list Z)) (s : Sys) : Z :=
  if (wifi_work_status s =? WIFI_CLOSED) || (wifi_work_status s =? WIFI_CLOSING) then -1
  else match name with
  | None => -1
  | Some l =>
      if WIFI_SSID_MAX_LEN <? zlen l then -1
      else if negb (acceptable password) then -2
      else if terminate s || (MGMT_TASK_QUEUE_SIZE <=? zlen (inbox s)) then -3
      else if answer (hist (man s)) sys_malloc =? 0 then -4
      else if MGMT_TASK_QUEUE_SIZE <=? zlen (inbox s) + 1 then -5
      else 0
  end.

(** The requests it consists of, and how many have been sent by then. *)
Definition requests (name password : option (list Z)) (prev : sta_cfg) : list eloop_message :=
  let pass := default [] password in
  let c := mk_cfg (default [] name) 0xFF (replicate 6 0) false pass false
    (negb (bool_decide (default [] name = ssid prev)) || negb (bool_decide (pass = passphrase prev))) (prefs prev) in
  [message WIFI_VIF_INDEX_DEFAULT EVENT_SWITCH_MODE_CMD WVIF_STA None;
   message WIFI_VIF_INDEX_DEFAULT EVENT_CONNECT_CMD 0 (Some (Cfg c))].
Definition sent (r : Z) : nat := if r =? 0 then 2 else if r <=? -4 then 1 else 0.

Lemma own_vif v type x (Q : wifi_vif_tag -> _ -> Prop) (s : Sys) w sc : wifi_vif_tab w !! Z.to_nat v = Some x ->
  Q (seen type w x) (set_man w s, sc) -> does (vif_seen v type) Q (set_man w s, sc).
Proof. intros Hx HQ. unfold does, vif_seen, own, vif_get, bnd, get. cbn [man set_man]. by rewrite Hx. Qed.

Lemma own_touch (b : bool) v f x (Q : unit -> _ -> Prop) (s : Sys) w sc : wifi_vif_tab w !! Z.to_nat v = Some x ->
  (forall w', Q tt (set_man w' s, sc)) -> does (if b then own (sta_mod v f) else ret tt) Q (set_man w s, sc).
Proof.
  intros Hx HQ. destruct b; [|apply does_ret, HQ]. unfold does, own, sta_mod, vif_mod, vif_get, bnd, get, modify. cbn [man set_man].
  rewrite Hx. apply HQ.
Qed.

(** The call is refused with nothing sent. *)
Ltac refused := apply does_ret; cbn [fst snd]; split; [done|split; [done|split; [cbn; by rewrite app_nil_r|done]]].

(** A request to connect, on every way through it: whether it is refused, at which point
    and with which number, what it has sent by then (a request for the mode of a station
    stays behind if memory or room is lacking), and the configuration that is asked for. *)
Theorem connect_requests name password (s : Sys) x : wifi_vif_tab (man s) !! 0%nat = Some x -> wvif_type x = WVIF_STA ->
  (forall h v y, leaves h sys_malloc v y = y) ->
  exists s', wifi_management_connect name password false (s, []) = ((s', []), inr (verdict name password s)) /\
    inbox s' = inbox s ++ take (sent (verdict name password s)) (requests name password (cfg (sta x))) /\
    (verdict name password s = 0 -> mgmt_wait_queue s' = []).
Proof.
  intros Hx Ht Hl.
  assert (does (wifi_management_connect name password false) (fun r st => st.2 = [] /\ r = verdict name password s /\
    inbox st.1 = inbox s ++ take (sent r) (requests name password (cfg (sta x))) /\ (r = 0 -> mgmt_wait_queue st.1 = [])) (s, [])) as Hd.
  { unfold wifi_management_connect, verdict. apply does_bnd, does_access_last. cbn [fst snd].
    destruct (_ || _); [refused|]. destruct name as [l|]; [|refused]. destruct (WIFI_SSID_MAX_LEN <? zlen l); [refused|].
    rewrite acceptable_bad, no_empty_bytes. destruct (acceptable password); [|refused]. cbn [negb]. apply does_bnd, does_access_last. unfold post_message, sys_task_post.
    destruct (terminate s) eqn:He; cbn [orb]; [refused|]. rewrite Z.leb_antisym. destruct (zlen (inbox s) <? MGMT_TASK_QUEUE_SIZE) eqn:Hq; cbn [negb fst snd OS_OK OS_ERROR Z.ltb Z.compare]; [|refused].
    apply does_bnd, does_others_last, does_bnd. unfold does at 1. cbn [own ask bnd get modify ret man set_inbox].
    destruct (answer (hist (man s)) sys_malloc =? 0); [done|]. apply does_bnd.
    match goal with |- does _ _ (set_man ?w0 ?s0, _) => set (w := w0); set (s1 := s0) end.
    assert (wifi_vif_tab w !! 0%nat = Some x) as Hw by (cbn; by rewrite list_lookup_imap, Hx; cbn; rewrite Hl).
    eapply (own_vif WIFI_VIF_INDEX_DEFAULT); [exact Hw|]. unfold seen. rewrite Ht. cbn [Z.eqb WVIF_STA Pos.eqb].
    apply does_bnd. eapply own_touch; [exact Hw|]. intros w1. apply does_bnd. unfold connect_send.
    apply does_bnd, does_access_last. cbn [fst snd]. apply does_bnd, does_access_last. unfold post_message, sys_task_post.
    assert (terminate (set_answers [] (set_man w1 s1)) = false) as -> by exact He.
    assert (zlen (inbox (set_answers [] (set_man w1 s1))) = zlen (inbox s) + 1) as ->
      by (unfold zlen; cbn [inbox set_answers set_man set_inbox s1]; rewrite length_app, Nat2Z.inj_add; reflexivity).
    rewrite Z.leb_antisym. destruct (zlen (inbox s) + 1 <? MGMT_TASK_QUEUE_SIZE); cbn [negb fst snd OS_OK OS_ERROR Z.ltb Z.compare].
    - do 2 apply does_ret. cbn. split; [done|]. split; [done|]. by rewrite <- app_assoc.
    - by apply does_bnd. }
  unfold does in Hd. destruct (wifi_management_connect name password false (s, [])) as [[s' sc] [e|r]]; [done|].
  destruct Hd as (H1 & -> & H2). cbn in H1. subst sc. by exists s'.
Qed.

End Connect.

(** ** Samples

    Timers in a list, and a driver that goes along with everything and has memory. *)

#[local] Existing Instance WifiMgmtProps.list_timers.
#[local] Existing Instance WifiMgmtProps.list_timers_laws.
#[local] Instance willing_driver : Driver := {|
  answer _ c := match c with sys_malloc => 1 | _ => 0 end; leaves _ _ _ x := x; wifi_vif_mac_addr_get _ := replicate 6 0;
  candidate _ := mk_scan_result [] 0 0 0 []; reread _ x := x
|}.
#[local] Instance willing_driver_laws : DriverLaws.
Proof. done. Qed.

Definition idle_station : system (T := list timer) :=
  mk_system (WifiMgmtProps.sample MAINTAIN_CONNECTION_IDLE 2 false []) [] [] WIFI_RUNNING false.
Definition from_driver (e : wifi_management_event_t) : happening (T := list timer) := Arrives (message 0 e 0 None).
Definition served : list (list (happening (T := list timer))) :=
  [[]; []; []; []; []; [Handles; Handles; from_driver EVENT_SCAN_DONE; from_driver EVENT_ASSOC_SUCCESS; Handles; Handles;
     from_driver EVENT_DHCP_START; Handles; from_driver EVENT_DHCP_SUCCESS; Handles]].
Definition network : option (list Z) := Some [104; 111; 109; 101].

Lemma connect_answer_given_witness : exists s' sc',
  wifi_management_connect network None true (idle_station, served) = ((s', sc'), inr 0) /\
  exists k r0, hist (man s') = [] ++ k /\ sys_queue_post WIFI_VIF_INDEX_DEFAULT MGMT_WAIT_EVT_CONN_DONE r0 ∈ k /\ 0 = u16 r0.
Proof.
  destruct (wifi_management_connect network None true (idle_station, served)) as [[s' sc'] r] eqn:E.
  assert (r = inr 0) as -> by (change r with ((s', sc', r).2); rewrite <- E; vm_compute; reflexivity).
  exists s', sc'. split; [done|].
  apply (connect_answer_given _ network None None idle_station served s' sc' 0 (or_introl eq_refl) E); done.
Defined.

Lemma monitor_start_loses_answer_witness : exists sys' s' b' st' p',
  wifi_management_monitor_start 6 (idle_station, served_at_once) = ((sys', []), inr (-6)) /\
  sees (man sys') 0 s' WVIF_MONITOR b' st' p' [] /\ sm_state s' = MAINTAIN_MONITOR_STARTED /\
  sys_queue_post WIFI_VIF_INDEX_DEFAULT MGMT_WAIT_EVT_MONITOR_START_DONE 0 ∈ hist (man sys').
Proof.
  apply (monitor_start_loses_answer 6 (WifiMgmtProps.sample_sm MAINTAIN_CONNECTION_IDLE 2) WVIF_STA false 0 (fun _ => 0%nat) []); try done.
  split; try done. by exists (WifiMgmtProps.sample_vif WVIF_STA false 0).
Defined.

Lemma connect_requests_witness : exists s',
  wifi_management_connect network None false (idle_station, []) = ((s', []), inr 0) /\
  inbox s' = [] ++ take 2 (requests network None zero_cfg) /\ (0 = 0 -> mgmt_wait_queue s' = []).
Proof.
  destruct (connect_requests network None idle_station (WifiMgmtProps.sample_vif WVIF_STA false 0)) as [s' H]; [done..|].
  exists s'. exact H.
Defined.

End WifiApiProps.
