(* ===== verification/Courier.v ===== *)
(** * The blue courier

    [src/gd32_os/MSDK/ble/app/app_blue_courier_link.c] and [app_blue_courier_prot.c]: a
    phone sets up the Wi-Fi of the module over a Bluetooth connection. The link cuts
    messages into numbered packets with a checksum and puts received ones together; the
    protocol reads the commands and calls the Wi-Fi manager. *)
From S2P Require Import Prelude.
Open Scope Z_scope.
Open Scope fw_scope.

Module Courier.

Definition BCW_VALUE_LEN : Z := 512.
Definition BCW_FRAG_MAX_LEN : Z := 256.
Definition BCWL_FLAG_BEGIN_MASK : Z := 0x01.
Definition BCWL_FLAG_END_MASK : Z := 0x02.
Definition BCWL_FLAG_REQ_ACK_MASK : Z := 0x04.
Definition BCWL_FLAG_IS_BEGIN (flag : Z) : bool := negb (Z.land flag BCWL_FLAG_BEGIN_MASK =? 0).
Definition BCWL_FLAG_IS_END (flag : Z) : bool := negb (Z.land flag BCWL_FLAG_END_MASK =? 0).
Definition BCWL_FLAG_IS_REQ_ACK (flag : Z) : bool := negb (Z.land flag BCWL_FLAG_REQ_ACK_MASK =? 0).
Definition BCWL_OPCODE_GET_TYPE (opcode : Z) : Z := Z.shiftr (Z.land opcode 0xC0) 6.
Definition BCWL_OPCODE_GET_SUBTYPE (opcode : Z) : Z := Z.land opcode 0x3F.
Definition BCWL_OPCODE_BUILD (type subtype : Z) : Z := Z.lor (Z.land (Z.shiftl type 6) 0xC0) (Z.land subtype 0x3F).

Definition BCWL_OPCODE_TYPE_MGMT : Z := 0.
Definition BCWL_OPCODE_TYPE_DATA : Z := 1.
Definition BCWL_OPCODE_MGMT_SUBTYPE_HANDSHAKE : Z := 0.
Definition BCWL_OPCODE_MGMT_SUBTYPE_ACK : Z := 1.
Definition BCWL_OPCODE_MGMT_SUBTYPE_ERROR_REPORT : Z := 2.
Definition BCWL_OPCODE_DATA_SUBTYPE_CUSTOM_DATA : Z := 0.
Definition BCWL_OPCODE_DATA_SUBTYPE_GET_SCAN_LIST : Z := 1.
Definition BCWL_OPCODE_DATA_SUBTYPE_STAMODE_CONNECT : Z := 2.
Definition BCWL_OPCODE_DATA_SUBTYPE_STAMODE_DISCONNECT : Z := 3.
Definition BCWL_OPCODE_DATA_SUBTYPE_SOFTAPMODE_START : Z := 4.
Definition BCWL_OPCODE_DATA_SUBTYPE_SOFTAPMODE_STOP : Z := 5.
Definition BCWL_OPCODE_DATA_SUBTYPE_STATUS_GET : Z := 6.

Definition BCWL_ERR_PACKET_LEN_ERROR : Z := 1.
Definition BCWL_ERR_UNKNOWN_OPCODE : Z := 2.
Definition BCWL_ERR_SEND_NO_MEM : Z := 3.
Definition BCWL_ERR_RECV_NO_MEM : Z := 4.
Definition BCWL_ERR_NO_HANDSHAKE : Z := 7.
Definition BCWL_ERR_SEQUENCE_ERROR : Z := 8.
Definition BCWL_ERR_CRC_CHECK : Z := 9.
Definition BCWL_ERR_RECV_ERROR : Z := 11.

Definition BCW_IDX_WRITE : Z := 2.
Definition BCW_IDX_NTF : Z := 4.
Definition BCW_IDX_NTF_CFG : Z := 5.

Definition BLE_GATT_MTU_MIN : Z := 23.
Definition BLE_GATT_HEADER_LEN : Z := 3.
Definition SIZEOF_HEADER : Z := 4.
Definition SIZEOF_HANDSHAKE : Z := 4.
Definition MAC_SSID_LEN : Z := 32.
Definition WPA_MAX_PSK_LEN : Z := 63.
Definition MAC_ADDR_LEN : Z := 6.
Definition CFG_STA_NUM : Z := 3.

Inductive ble_adv_state_t :=
| BLE_ADV_STATE_IDLE | BLE_ADV_STATE_CREATING | BLE_ADV_STATE_CREATE | BLE_ADV_STATE_ADV_DATA_SET
| BLE_ADV_STATE_SCAN_RSP_DATA_SET | BLE_ADV_STATE_PER_ADV_DATA_SET | BLE_ADV_STATE_START.
#[export] Instance ble_adv_state_eq : EqDecision ble_adv_state_t.
Proof. solve_decision. Defined.

Record bcwl_env_t := mk_env {
  mode : Z; conn_id : Z; adv_idx : Z; remove_after_stop : bool; ntf_cfg : Z; adv_state : ble_adv_state_t;
  recv_seq : Z; send_seq : Z; recv_buf : option (list Z); total_len : Z; offset : Z; frag_size : Z;
  peer_recv_size : Z; handshake_success : bool
}.

Definition set_adv (r : bool) (a : ble_adv_state_t) (i : Z) (e : bcwl_env_t) : bcwl_env_t :=
  mk_env (mode e) (conn_id e) i r (ntf_cfg e) a (recv_seq e) (send_seq e) (recv_buf e) (total_len e) (offset e)
    (frag_size e) (peer_recv_size e) (handshake_success e).
Definition set_mode (m : Z) (e : bcwl_env_t) : bcwl_env_t :=
  mk_env m (conn_id e) (adv_idx e) (remove_after_stop e) (ntf_cfg e) (adv_state e) (recv_seq e) (send_seq e) (recv_buf e) (total_len e)
    (offset e) (frag_size e) (peer_recv_size e) (handshake_success e).
Definition set_conn (c n : Z) (e : bcwl_env_t) : bcwl_env_t :=
  mk_env (mode e) c (adv_idx e) (remove_after_stop e) n (adv_state e) (recv_seq e) (send_seq e) (recv_buf e) (total_len e)
    (offset e) (frag_size e) (peer_recv_size e) (handshake_success e).
Definition set_recv_seq (n : Z) (e : bcwl_env_t) : bcwl_env_t :=
  mk_env (mode e) (conn_id e) (adv_idx e) (remove_after_stop e) (ntf_cfg e) (adv_state e) n (send_seq e) (recv_buf e) (total_len e)
    (offset e) (frag_size e) (peer_recv_size e) (handshake_success e).
Definition set_send_seq (n : Z) (e : bcwl_env_t) : bcwl_env_t :=
  mk_env (mode e) (conn_id e) (adv_idx e) (remove_after_stop e) (ntf_cfg e) (adv_state e) (recv_seq e) n (recv_buf e) (total_len e)
    (offset e) (frag_size e) (peer_recv_size e) (handshake_success e).
Definition set_recv (b : option (list Z)) (t o : Z) (e : bcwl_env_t) : bcwl_env_t :=
  mk_env (mode e) (conn_id e) (adv_idx e) (remove_after_stop e) (ntf_cfg e) (adv_state e) (recv_seq e) (send_seq e) b t o
    (frag_size e) (peer_recv_size e) (handshake_success e).
Definition set_peer (f p : Z) (h : bool) (e : bcwl_env_t) : bcwl_env_t :=
  mk_env (mode e) (conn_id e) (adv_idx e) (remove_after_stop e) (ntf_cfg e) (adv_state e) (recv_seq e) (send_seq e) (recv_buf e) (total_len e)
    (offset e) f p h.
Definition zero_env : bcwl_env_t := mk_env 0 0 0 false 0 BLE_ADV_STATE_IDLE 0 0 None 0 0 0 0 false.

(** ** What surrounds the courier *)

(** The events of the Wi-Fi manager a handler is registered for. *)
Inductive wifi_event := WIFI_MGMT_EVENT_SCAN_DONE | WIFI_MGMT_EVENT_SCAN_FAIL | WIFI_MGMT_EVENT_DHCP_SUCCESS.

(** The functions of the Wi-Fi manager and of the event loop, the Bluetooth host and the
    allocator, as they are called. *)
Inductive call :=
| sys_malloc (n : Z) | ble_gatts_mtu_get (conn : Z) | ble_gatts_ntf_ind_send (conn att : Z) (value : list Z)
| ble_adv_create | ble_adv_start (idx : Z) (data scan_data : list Z) | ble_adv_stop (idx : Z) | ble_adv_remove (idx : Z)
| ble_conn_callback (register : bool) | ble_adp_callback (register : bool) | ble_gatts_svc (add : bool)
| eloop_event_register (e : wifi_event) | eloop_event_unregister (e : wifi_event)
| wifi_management_scan | wifi_management_connect (ssid : list Z) (password : option (list Z)) | wifi_management_disconnect
| wifi_management_ap_start (ssid : list Z) (password : option (list Z)) (channel auth_mode hidden : Z) | wifi_management_ap_stop.

Record scan_result := mk_result { ssid_length : Z; ssid_array : list Z; rssi : Z; akm : Z }.

(** What the interface of the module is at a moment. *)
Record vif_view := mk_view {
  vif_name : list Z; vif_mac : list Z; wvif_type : Z; ip : option (list Z * list Z);
  sta_state : Z; sta_rssi : Z; sta_ssid : list Z; sta_bssid : list Z; sta_channel : Z; sta_akm : Z;
  ap_state : Z; ap_ssid : list Z; ap_channel : Z; ap_akm : Z; clients : list (list Z * list Z)
}.

(** The result of a call is a function of all calls so far, itself the last. [fill]: what
    fresh memory holds. [depth]: how many nested calls the stack has room for. *)
Class Env := {
  answer : list call -> Z;
  wifi_netlink_scan_results_get : list call -> option (list scan_result);
  vif_idx_to_wvif : list call -> vif_view;
  co_crc16 : list Z -> Z -> Z;
  ble_internal_decode : list Z -> Z -> list Z;
  fill : Z -> Z;
  sizeof_scan_results : Z;
  depth : nat
}.

(** An access outside an object, a loop that does not end, no room on the stack. *)
Inductive fault := Bounds | Hang | Stack.

Record world := mk_world { bcwl_env : bcwl_env_t; calls : list call; ble_enabled : bool; bcwl_enable_pending : bool }.
Abbreviation C := (M world fault).

Section Courier.
Context {E : Env}.

Definition env : C bcwl_env_t := let! w := get in ret (bcwl_env w).
Definition env_mod (f : bcwl_env_t -> bcwl_env_t) : C unit :=
  modify (fun w => mk_world (f (bcwl_env w)) (calls w) (ble_enabled w) (bcwl_enable_pending w)).
Definition do (k : call) : C Z := fun w =>
  let l := calls w ++ [k] in (mk_world (bcwl_env w) l (ble_enabled w) (bcwl_enable_pending w), inr (answer l)).

Definition malloc (n : Z) : C bool := let! r := do (sys_malloc n) in ret (negb (r =? 0)).
Definition fresh (n : Z) : list Z := map fill (seqZ 0 n).

(** [n] bytes at [off] of an object. *)
Definition read (l : list Z) (off n : Z) : C (list Z) :=
  if (0 <=? off) && (0 <=? n) && (off + n <=? zlen l) then ret (slice off n l) else err Bounds.
Definition byte (l : list Z) (off : Z) : C Z := let! d := read l off 1 in ret (nthb d 0).
(** [d] written to an object at [off]. *)
Definition write (l : list Z) (off : Z) (d : list Z) : C (list Z) :=
  if (0 <=? off) && (off + zlen d <=? zlen l) then ret (splice off d l) else err Bounds.

(** ** Sending *)

Definition header (flag seq opcode data_len : Z) : list Z := [flag; seq; opcode; data_len].
Definition crc_bytes (crc : Z) : list Z := [Z.land crc 0xff; Z.land (Z.shiftr crc 8) 0xff].

Definition bcwl_ntf_event_send (val : list Z) : C unit :=
  let! e := env in
  if ntf_cfg e =? 0 then ret tt else do (ble_gatts_ntf_ind_send (conn_id e) BCW_IDX_NTF val) ;;; ret tt.

(** The packet is numbered, sealed and sent. *)
Definition send_packet (flag opcode data_len : Z) (body : list Z) : C unit :=
  let! e := env in
  let seq := send_seq e in
  env_mod (set_send_seq (u8 (seq + 1))) ;;;
  let crc := co_crc16 (seq :: opcode :: data_len :: body) 0 in
  bcwl_ntf_event_send (header flag seq opcode data_len ++ body ++ crc_bytes crc).

Section Send.
(** What is done about a lack of memory. *)
Variable no_mem : C unit.

(** One turn of the loop: what remains to be sent, or nothing when it was given up. *)
Definition send_turn (opcode : Z) (data : list Z) (len remain_len : Z) : C (option Z) :=
  let! e := env in
  if frag_size e <? remain_len then
    let! ok := malloc (SIZEOF_HEADER + frag_size e + 2) in
    if negb ok then no_mem ;;; ret None
    else
      let data_len := u8 (frag_size e) in
      if remain_len =? len then
        let! d := read data (len - remain_len) (data_len - 2) in
        let body := [Z.land remain_len 0xff; Z.land (Z.shiftr remain_len 8) 0xff] ++ d in
        send_packet BCWL_FLAG_BEGIN_MASK opcode data_len body ;;;
        ret (Some (u16 (remain_len - (data_len - 2))))
      else
        let! d := read data (len - remain_len) data_len in
        send_packet 0 opcode data_len d ;;;
        ret (Some (u16 (remain_len - data_len)))
  else
    let! ok := malloc (SIZEOF_HEADER + remain_len + 2) in
    if negb ok then no_mem ;;; ret None
    else
      let flag := Z.lor (if len <=? frag_size e then BCWL_FLAG_BEGIN_MASK else 0) BCWL_FLAG_END_MASK in
      let data_len := u8 remain_len in
      let! d := read data (len - remain_len) data_len in
      send_packet flag opcode data_len d ;;;
      ret (Some (u16 (remain_len - data_len))).

Fixpoint send_loop (fuel : nat) (opcode : Z) (data : list Z) (len remain_len : Z) : C unit :=
  if 0 <? remain_len then
    match fuel with
    | O => err Hang
    | S fuel =>
        let! r := send_turn opcode data len remain_len in
        match r with Some remain_len => send_loop fuel opcode data len remain_len | None => ret tt end
    end
  else ret tt.
End Send.

(** [stack]: how many further calls may be nested. Each turn sends at least one byte, where it ends. *)
Fixpoint bcwl_send_at (stack : nat) (opcode : Z) (data : list Z) (len : Z) : C unit :=
  match stack with
  | O => err Stack
  | S stack =>
      let no_mem := bcwl_send_at stack (BCWL_OPCODE_BUILD BCWL_OPCODE_TYPE_MGMT BCWL_OPCODE_MGMT_SUBTYPE_ERROR_REPORT) [BCWL_ERR_SEND_NO_MEM] 1 in
      let! e := env in
      if peer_recv_size e <? len then ret tt
      else send_loop no_mem (Z.to_nat len) opcode data len len
  end.

Definition bcwl_send (opcode : Z) (data : list Z) (len : Z) : C unit := bcwl_send_at depth opcode data len.
Definition bcwl_error_report (reason : Z) : C unit :=
  bcwl_send (BCWL_OPCODE_BUILD BCWL_OPCODE_TYPE_MGMT BCWL_OPCODE_MGMT_SUBTYPE_ERROR_REPORT) [reason] 1.
Definition bcwl_send_ack (seq : Z) : C unit :=
  bcwl_send (BCWL_OPCODE_BUILD BCWL_OPCODE_TYPE_MGMT BCWL_OPCODE_MGMT_SUBTYPE_ACK) [seq] 1.
Definition send_data (subtype : Z) (data : list Z) : C unit :=
  bcwl_send (BCWL_OPCODE_BUILD BCWL_OPCODE_TYPE_DATA subtype) data (zlen data).

(** ** The commands. [data]: the bytes up to the end of the object, [len] of them the message. *)

(** The entry of one network, and how many bytes the list has then. *)
Definition scan_mode (akm : Z) : Z :=
  let bit n := negb (Z.land akm (Z.shiftl 1 n) =? 0) in
  if bit 0 then 0 else if akm =? Z.shiftl 1 1 then 1 else if bit 18 || bit 19 then 2 else if bit 1 then 3 else 4.

Fixpoint scan_list (l : list scan_result) (acc : list Z) : C (list Z) :=
  match l with
  | [] => ret acc
  | r :: l =>
      let at_nul := if ssid_length r <? MAC_SSID_LEN + 1 then ssid_length r else ssid_length r - 1 in
      let! a := write (ssid_array r) at_nul [0] in
      if ssid_length r =? 0 then scan_list l acc
      else if BCW_VALUE_LEN <? zlen acc + ssid_length r + 3 then ret acc
      else
        let! s := read a 0 (ssid_length r) in
        scan_list l (acc ++ [u8 (ssid_length r + 2); u8 (rssi r); scan_mode (akm r)] ++ s)
  end.

Definition bcwp_wifi_scan_list_get : C unit :=
  let! ok := malloc sizeof_scan_results in
  if negb ok then ret tt
  else
    let! w := get in
    match wifi_netlink_scan_results_get (calls w) with
    | None => ret tt
    | Some l => let! d := scan_list l [] in send_data BCWL_OPCODE_DATA_SUBTYPE_GET_SCAN_LIST d
    end.

Definition bcwp_cb_scan_done : C unit :=
  bcwp_wifi_scan_list_get ;;;
  do (eloop_event_unregister WIFI_MGMT_EVENT_SCAN_DONE) ;;; do (eloop_event_unregister WIFI_MGMT_EVENT_SCAN_FAIL) ;;; ret tt.
Definition bcwp_cb_scan_fail : C unit :=
  do (eloop_event_unregister WIFI_MGMT_EVENT_SCAN_DONE) ;;; do (eloop_event_unregister WIFI_MGMT_EVENT_SCAN_FAIL) ;;; ret tt.

Definition bcwp_wifi_scan : C unit :=
  do (eloop_event_register WIFI_MGMT_EVENT_SCAN_DONE) ;;; do (eloop_event_register WIFI_MGMT_EVENT_SCAN_FAIL) ;;;
  let! r := do wifi_management_scan in
  if r =? -1 then do (eloop_event_unregister WIFI_MGMT_EVENT_SCAN_DONE) ;;; do (eloop_event_unregister WIFI_MGMT_EVENT_SCAN_FAIL) ;;; ret tt
  else ret tt.

Definition bcwp_wifi_connect_success : C unit :=
  do (eloop_event_unregister WIFI_MGMT_EVENT_DHCP_SUCCESS) ;;; send_data BCWL_OPCODE_DATA_SUBTYPE_STAMODE_CONNECT [0].

(** The message is decoded in place with its last byte. *)
Definition decode (data : list Z) (len : Z) : C (list Z) :=
  let! rand := byte data (len - 1) in
  let! d := read data 0 (len - 1) in
  ret (ble_internal_decode d rand ++ slice (len - 1) (zlen data - (len - 1)) data).

(** Name and password of a command with [extra] bytes besides them, each copied to an array
    and ended by a zero. *)
Definition credentials (data : list Z) (len extra : Z) : C (option (Z * Z * list Z * option (list Z))) :=
  let! ssid_len := byte data 0 in
  if (len <? ssid_len) || (WPA_MAX_PSK_LEN <? ssid_len) then ret None
  else
    let! password_len := byte data (ssid_len + 1) in
    if negb (ssid_len + password_len + extra =? len) || (WPA_MAX_PSK_LEN <? password_len) then ret None
    else
      let! s := read data 1 ssid_len in
      let! wifi_ssid := write (fresh (MAC_SSID_LEN + 1)) 0 s in
      let! wifi_ssid := write wifi_ssid ssid_len [0] in
      if password_len =? 0 then ret (Some (ssid_len, password_len, cstr wifi_ssid, None))
      else
        let! p := read data (ssid_len + 2) password_len in
        let! wifi_password := write (fresh (WPA_MAX_PSK_LEN + 1)) 0 p in
        let! wifi_password := write wifi_password password_len [0] in
        ret (Some (ssid_len, password_len, cstr wifi_ssid, Some (cstr wifi_password))).

Definition bcwp_wifi_connect (data : list Z) (len : Z) : C unit :=
  let exit := send_data BCWL_OPCODE_DATA_SUBTYPE_STAMODE_CONNECT [1] in
  if len <=? 0 then exit
  else
    let! data := decode data len in
    let! c := credentials data len 3 in
    match c with
    | None => exit
    | Some (_, _, ssid, password) =>
        do (eloop_event_register WIFI_MGMT_EVENT_DHCP_SUCCESS) ;;;
        let! r := do (wifi_management_connect ssid password) in
        if negb (r =? 0) then exit else ret tt
    end.

Definition bcwp_wifi_disconnect : C unit :=
  do wifi_management_disconnect ;;; send_data BCWL_OPCODE_DATA_SUBTYPE_STAMODE_DISCONNECT [0].

Definition auth_mode_of (akm : Z) : Z := if akm =? 0 then 0 else if akm =? 1 then 3 else if akm =? 2 then 6 else 5.

Definition bcwp_wifi_ap_start (data : list Z) (len : Z) : C unit :=
  let exit state := send_data BCWL_OPCODE_DATA_SUBTYPE_SOFTAPMODE_START [state] in
  if len <=? 0 then exit 1
  else
    let! data := decode data len in
    let! c := credentials data len 6 in
    match c with
    | None => exit 1
    | Some (ssid_len, password_len, ssid, password) =>
        let! channel := byte data (ssid_len + password_len + 2) in
        let! akm := byte data (ssid_len + password_len + 3) in
        let! hide := byte data (ssid_len + password_len + 4) in
        let! r := do (wifi_management_ap_start ssid password channel (auth_mode_of akm) hide) in
        exit (if negb (r =? 0) then 1 else 0)
    end.

Definition bcwp_wifi_ap_stop : C unit :=
  let! r := do wifi_management_ap_stop in
  send_data BCWL_OPCODE_DATA_SUBTYPE_SOFTAPMODE_STOP [if r =? 0 then 0 else 1].

Definition akm_is (akm : Z) (l : list Z) : bool := akm =? fold_right (fun n => Z.lor (Z.shiftl 1 n)) 0 l.
Definition sta_akm_code (akm : Z) : Z :=
  if negb (Z.land akm (Z.shiftl 1 9) =? 0) then 3 else if akm_is akm [3; 1] then 1 else if akm_is akm [3] then 2
  else if akm_is akm [0] then 0 else 5.
Definition ap_akm_code (akm : Z) : Z :=
  if akm_is akm [0] then 0 else if akm_is akm [3; 1] then 1 else if akm_is akm [3] then 2
  else if akm_is akm [9] then 3 else if akm_is akm [3; 9] then 4 else 5.

Definition zeros (n : Z) : list Z := replicate (Z.to_nat n) 0.
(** A name in a [struct mac_ssid] of the answer. *)
Definition ssid_field (ssid : list Z) : C (list Z) :=
  let! a := write (zeros (MAC_SSID_LEN + 1)) 0 ssid in ret (zlen ssid :: a).
(** The clients; the address of each is looked up with the hardware address of the first. *)
Definition client_fields (l : list (list Z * list Z)) : C (list Z) :=
  if CFG_STA_NUM <? zlen l then err Bounds
  else
    let ip := match l with [] => [] | c :: _ => snd c end in
    ret (concat (map (fun c => fst c ++ ip) l) ++ zeros ((CFG_STA_NUM - zlen l) * (MAC_ADDR_LEN + 4))).

Definition status_bytes (v : vif_view) : C (list Z) :=
  let '(ip, gw) := match ip v with Some a => a | None => (zeros 4, zeros 4) end in
  let common m channel bw akm := [0] ++ vif_name v ++ vif_mac v ++ [m; channel; bw; akm] ++ ip ++ gw in
  if wvif_type v =? 1 then
    let! s := ssid_field (sta_ssid v) in
    ret (common 1 (sta_channel v) 20 (sta_akm_code (sta_akm v)) ++ [sta_state v; u8 (sta_rssi v)] ++ sta_bssid v ++ s ++
      [0] ++ zeros (MAC_SSID_LEN + 2) ++ [0] ++ zeros (CFG_STA_NUM * (MAC_ADDR_LEN + 4)))
  else if wvif_type v =? 2 then
    let! s := ssid_field (ap_ssid v) in
    let! c := client_fields (clients v) in
    ret (common 2 (ap_channel v) 0 (ap_akm_code (ap_akm v)) ++ [0; 0] ++ zeros MAC_ADDR_LEN ++ zeros (MAC_SSID_LEN + 2) ++
      [ap_state v] ++ s ++ [zlen (clients v)] ++ c)
  else
    ret (common (wvif_type v) 0 0 0 ++ [0; 0] ++ zeros MAC_ADDR_LEN ++ zeros (MAC_SSID_LEN + 2) ++
      [0] ++ zeros (MAC_SSID_LEN + 2) ++ [0] ++ zeros (CFG_STA_NUM * (MAC_ADDR_LEN + 4))).

Definition bcwp_wifi_status_get : C unit :=
  let! w := get in
  let! d := status_bytes (vif_idx_to_wvif (calls w)) in
  send_data BCWL_OPCODE_DATA_SUBTYPE_STATUS_GET d.

Definition bcwp_send_custom_data (data : list Z) (len : Z) : C unit :=
  bcwl_send (BCWL_OPCODE_BUILD BCWL_OPCODE_TYPE_DATA BCWL_OPCODE_DATA_SUBTYPE_CUSTOM_DATA) data len.

(** The bytes are printed, counted in eight bits. *)
Fixpoint print_loop (fuel : nat) (data : list Z) (len i : Z) : C unit :=
  if i <? len then
    match fuel with
    | O => err Hang
    | S fuel => byte data i ;;; print_loop fuel data len (u8 (i + 1))
    end
  else ret tt.

Definition bcwp_msg_handler (subtype : Z) (data : list Z) (len : Z) : C unit :=
  if subtype =? BCWL_OPCODE_DATA_SUBTYPE_GET_SCAN_LIST then bcwp_wifi_scan
  else if subtype =? BCWL_OPCODE_DATA_SUBTYPE_STAMODE_CONNECT then bcwp_wifi_connect data len
  else if subtype =? BCWL_OPCODE_DATA_SUBTYPE_STAMODE_DISCONNECT then bcwp_wifi_disconnect
  else if subtype =? BCWL_OPCODE_DATA_SUBTYPE_SOFTAPMODE_START then bcwp_wifi_ap_start data len
  else if subtype =? BCWL_OPCODE_DATA_SUBTYPE_SOFTAPMODE_STOP then bcwp_wifi_ap_stop
  else if subtype =? BCWL_OPCODE_DATA_SUBTYPE_STATUS_GET then bcwp_wifi_status_get
  else if subtype =? BCWL_OPCODE_DATA_SUBTYPE_CUSTOM_DATA then print_loop (Z.to_nat len) data len 0
  else ret tt.

(** ** Receiving *)

Definition bcwl_handle_mgmt_handshake (data : list Z) (len : Z) : C unit :=
  if negb (len =? SIZEOF_HANDSHAKE) then bcwl_error_report BCWL_ERR_PACKET_LEN_ERROR
  else
    let! e := env in
    let! mtu := do (ble_gatts_mtu_get (conn_id e)) in
    let! m := read data 0 2 in
    let! r := read data 2 2 in
    let rsp_mtu := Z.min (Z.min (le_dec m) (u16 mtu)) BCW_FRAG_MAX_LEN in
    env_mod (set_peer (u8 (rsp_mtu - SIZEOF_HEADER - BLE_GATT_HEADER_LEN - 2)) (Z.min (le_dec r) BCW_VALUE_LEN) true) ;;;
    bcwl_send (BCWL_OPCODE_BUILD BCWL_OPCODE_TYPE_MGMT BCWL_OPCODE_MGMT_SUBTYPE_HANDSHAKE)
      (le_enc 2 rsp_mtu ++ le_enc 2 BCW_VALUE_LEN) SIZEOF_HANDSHAKE.

Definition bcwl_msg_handler (opcode : Z) (data : list Z) (len : Z) : C unit :=
  if BCWL_OPCODE_GET_TYPE opcode =? BCWL_OPCODE_TYPE_MGMT then
    if BCWL_OPCODE_GET_SUBTYPE opcode =? BCWL_OPCODE_MGMT_SUBTYPE_HANDSHAKE then bcwl_handle_mgmt_handshake data len
    else if (BCWL_OPCODE_GET_SUBTYPE opcode =? BCWL_OPCODE_MGMT_SUBTYPE_ACK) ||
      (BCWL_OPCODE_GET_SUBTYPE opcode =? BCWL_OPCODE_MGMT_SUBTYPE_ERROR_REPORT) then ret tt
    else bcwl_error_report BCWL_ERR_UNKNOWN_OPCODE
  else if BCWL_OPCODE_GET_TYPE opcode =? BCWL_OPCODE_TYPE_DATA then bcwp_msg_handler (BCWL_OPCODE_GET_SUBTYPE opcode) data len
  else bcwl_error_report BCWL_ERR_UNKNOWN_OPCODE.

(** Whatever was put together is dropped, and the peer told. *)
Definition err_recv (status : Z) : C unit :=
  env_mod (fun e => set_recv None (total_len e) 0 e) ;;; bcwl_error_report status.

(** A buffer to write to or read from: there is none at [NULL]. *)
Definition buffer (e : bcwl_env_t) : C (list Z) := match recv_buf e with Some b => ret b | None => err Bounds end.

Definition recv_start (pkt : list Z) (data_len : Z) : C unit :=
  let! e := env in
  if negb (offset e =? 0) then err_recv BCWL_ERR_RECV_ERROR
  else
    let! t := read pkt SIZEOF_HEADER 2 in
    let total := le_dec t in
    env_mod (set_recv (recv_buf e) total 0) ;;;
    if BCW_VALUE_LEN <? total then err_recv BCWL_ERR_RECV_ERROR
    else
      let! ok := malloc total in
      if negb ok then env_mod (set_recv None total 0) ;;; err_recv BCWL_ERR_RECV_NO_MEM
      else
        let! d := read pkt (SIZEOF_HEADER + 2) (data_len - 2) in
        let! b := write (fresh total) 0 d in
        env_mod (set_recv (Some b) total (u16 (data_len - 2))).

Definition recv_end (pkt : list Z) (opcode data_len : Z) : C unit :=
  let! e := env in
  if (offset e =? 0) || negb (offset e + data_len =? total_len e) then err_recv BCWL_ERR_RECV_ERROR
  else
    let! d := read pkt SIZEOF_HEADER data_len in
    let! b := buffer e in
    let! b := write b (offset e) d in
    env_mod (set_recv (Some b) (total_len e) (offset e)) ;;;
    bcwl_msg_handler opcode b (total_len e) ;;;
    env_mod (fun e => set_recv None (total_len e) 0 e).

Definition recv_continue (pkt : list Z) (data_len : Z) : C unit :=
  let! e := env in
  if (offset e =? 0) || (total_len e <=? offset e + data_len) then err_recv BCWL_ERR_RECV_ERROR
  else
    let! d := read pkt SIZEOF_HEADER data_len in
    let! b := buffer e in
    let! b := write b (offset e) d in
    env_mod (set_recv (Some b) (total_len e) (u16 (offset e + data_len))).

Definition bcwl_receive (pkt : list Z) (len : Z) : C unit :=
  if len <? SIZEOF_HEADER then bcwl_error_report BCWL_ERR_PACKET_LEN_ERROR
  else
    let! flag := byte pkt 0 in let! seq := byte pkt 1 in let! opcode := byte pkt 2 in let! data_len := byte pkt 3 in
    let! e := env in
    if negb (handshake_success e) && negb (opcode =? BCWL_OPCODE_BUILD BCWL_OPCODE_TYPE_MGMT BCWL_OPCODE_MGMT_SUBTYPE_HANDSHAKE)
    then bcwl_error_report BCWL_ERR_NO_HANDSHAKE
    else
      (if BCWL_FLAG_IS_REQ_ACK flag then bcwl_send_ack seq else ret tt) ;;;
      let! e := env in
      if negb (seq =? recv_seq e) then bcwl_error_report BCWL_ERR_SEQUENCE_ERROR
      else
        env_mod (set_recv_seq (u8 (recv_seq e + 1))) ;;;
        let! d := read pkt 1 (data_len + SIZEOF_HEADER - 1) in
        let! crc_pkt := read pkt (SIZEOF_HEADER + data_len) 2 in
        if negb (co_crc16 d 0 =? le_dec crc_pkt) then err_recv BCWL_ERR_CRC_CHECK
        else if BCWL_FLAG_IS_BEGIN flag then
          if BCWL_FLAG_IS_END flag then bcwl_msg_handler opcode (slice SIZEOF_HEADER (zlen pkt - SIZEOF_HEADER) pkt) data_len
          else recv_start pkt data_len
        else if BCWL_FLAG_IS_END flag then recv_end pkt opcode data_len
        else recv_continue pkt data_len.

(** ** Events of the Bluetooth host *)

Definition bcwl_gatts_msg_cb (conn att_idx : Z) (data : list Z) : C unit :=
  let! e := env in
  if negb (conn =? conn_id e) then ret tt
  else if att_idx =? BCW_IDX_WRITE then bcwl_receive data (zlen data)
  else if att_idx =? BCW_IDX_NTF_CFG then
    if zlen data =? 2 then env_mod (set_conn (conn_id e) (le_dec data)) else ret tt
  else ret tt.

Definition bcwl_conn_evt_handler (connected : bool) (actv_idx conn : Z) : C unit :=
  let! e := env in
  if connected && (actv_idx =? adv_idx e) then
    env_mod (fun e => mk_env (mode e) conn (adv_idx e) (remove_after_stop e) 0 (adv_state e) 0 0 None 0 0
      (u8 (BLE_GATT_MTU_MIN - SIZEOF_HEADER - BLE_GATT_HEADER_LEN - 2)) BLE_GATT_MTU_MIN false)
  else ret tt.

Definition bcwl_adv_start : C Z :=
  let! e := env in
  let data := [2; 1; 6; 3; 3; 0xF0; 0xFF] in
  do (ble_adv_start (adv_idx e) data (slice 3 4 data)).

(** [reason]: whether the change of state is a failure. *)
Definition bcwl_adv_mgr_evt_hdlr (state : ble_adv_state_t) (failed : bool) (idx : Z) : C unit :=
  let! e := env in
  let old_state := adv_state e in
  env_mod (set_adv (remove_after_stop e) state (adv_idx e)) ;;;
  if bool_decide (state = BLE_ADV_STATE_CREATE) && bool_decide (old_state = BLE_ADV_STATE_CREATING) then
    env_mod (set_adv (remove_after_stop e) state idx) ;;; bcwl_adv_start ;;; ret tt
  else if bool_decide (state = BLE_ADV_STATE_CREATE) && bool_decide (old_state = BLE_ADV_STATE_START) then
    if remove_after_stop e then
      do (ble_adv_remove (adv_idx e)) ;;; env_mod (set_adv false state (adv_idx e))
    else ret tt
  else if failed && bool_decide (state = BLE_ADV_STATE_IDLE) && bool_decide (old_state = BLE_ADV_STATE_CREATING) then
    do (ble_conn_callback false) ;;; env_mod (set_mode 0)
  else ret tt.

Definition bcwl_adv_stop : C Z :=
  let! e := env in
  if bool_decide (adv_state e = BLE_ADV_STATE_START) then
    env_mod (set_adv true (adv_state e) (adv_idx e)) ;;; do (ble_adv_stop (adv_idx e))
  else if bool_decide (adv_state e <> BLE_ADV_STATE_IDLE) then do (ble_adv_remove (adv_idx e))
  else ret 0.

Definition bcwl_adv_create : C Z := do ble_adv_create.

Definition set_pending (b : bool) : C unit := modify (fun w => mk_world (bcwl_env w) (calls w) (ble_enabled w) b).
Definition set_enabled (b : bool) : C unit := modify (fun w => mk_world (bcwl_env w) (calls w) b (bcwl_enable_pending w)).

Definition bcw_prf_enable (enable : Z) : C Z :=
  let! w := get in
  if mode (bcwl_env w) =? enable then ret 0
  else if negb (enable =? 0) then
    if negb (ble_enabled w) then set_pending true ;;; ret 0
    else
      env_mod (fun _ => zero_env) ;;;
      do (ble_conn_callback true) ;;;
      let! r := bcwl_adv_create in
      if negb (r =? 0) then do (ble_conn_callback false) ;;; ret r
      else env_mod (set_mode enable) ;;; ret r
  else
    let! r := bcwl_adv_stop in
    if negb (r =? 0) then ret r
    else do (ble_conn_callback false) ;;; env_mod (set_mode enable) ;;; ret r.

(** [ok]: whether enabling or disabling the adapter succeeded. *)
Definition bcwl_adp_evt_handler (enabled ok : bool) : C unit :=
  if enabled then
    if ok then
      set_enabled true ;;;
      let! w := get in
      if bcwl_enable_pending w then set_pending false ;;; bcw_prf_enable 1 ;;; ret tt else ret tt
    else ret tt
  else if ok then set_enabled false else ret tt.

Definition app_blue_courier_init : C unit := do (ble_gatts_svc true) ;;; do (ble_adp_callback true) ;;; ret tt.
Definition app_blue_courier_deinit : C unit := do (ble_gatts_svc false) ;;; do (ble_adp_callback false) ;;; ret tt.

End Courier.
End Courier.
