(* ===== verification/CourierSpec.v ===== *)
(** * The blue courier: the packets of a message

    What sending a message puts on the air, and what receiving such packets makes of them. *)
From S2P Require Import Prelude Courier.
Open Scope Z_scope.
Open Scope fw_scope.

Module CourierSpec.
Import Courier.

Definition with_env (f : bcwl_env_t -> bcwl_env_t) (w : world) : world :=
  mk_world (f (bcwl_env w)) (calls w) (ble_enabled w) (bcwl_enable_pending w).
Definition with_calls (l : list call) (w : world) : world := mk_world (bcwl_env w) (calls w ++ l) (ble_enabled w) (bcwl_enable_pending w).

Lemma with_calls_app k l w : with_calls l (with_calls k w) = with_calls (k ++ l) w.
Proof. unfold with_calls. cbn. by rewrite app_assoc. Qed.

(** The packets among the calls. *)
Definition packets (l : list call) : list (list Z) :=
  omap (fun k => match k with ble_gatts_ntf_ind_send _ _ v => Some v | _ => None end) l.

Lemma packets_app k l : packets (k ++ l) = packets k ++ packets l.
Proof. apply omap_app. Qed.

(** ** The packets of a message, by the function of the checksum *)

Section Packets.
Context (crc : list Z -> Z).

Definition packet (flag seq opcode : Z) (body : list Z) : list Z :=
  header flag seq opcode (zlen body) ++ body ++ crc_bytes (crc (seq :: opcode :: zlen body :: body)).

(** The packets after the first, in pieces of [frag] bytes. *)
Fixpoint rest_packets (fuel : nat) (frag seq opcode : Z) (d : list Z) : list (list Z) :=
  match fuel with
  | O => []
  | S fuel =>
      if frag <? zlen d then packet 0 seq opcode (slice 0 frag d) :: rest_packets fuel frag (u8 (seq + 1)) opcode (slice frag (zlen d - frag) d)
      else [packet BCWL_FLAG_END_MASK seq opcode d]
  end.

Definition len_bytes (n : Z) : list Z := [Z.land n 0xff; Z.land (Z.shiftr n 8) 0xff].
Definition message_packets (frag seq opcode : Z) (data : list Z) : list (list Z) :=
  if zlen data <=? frag then [packet 3 seq opcode data]
  else packet BCWL_FLAG_BEGIN_MASK seq opcode (len_bytes (zlen data) ++ slice 0 (frag - 2) data) ::
    rest_packets (length data) frag (u8 (seq + 1)) opcode (slice (frag - 2) (zlen data - (frag - 2)) data).

End Packets.

(** ** Sending *)

Section Send.
Context {E : Env} (mem_ok : forall l n, answer (l ++ [sys_malloc n]) <> 0).

Lemma do_is k w : do k w = (with_calls [k] w, inr (answer (calls w ++ [k]))).
Proof. done. Qed.

Lemma malloc_ok n w : malloc n w = (with_calls [sys_malloc n] w, inr true).
Proof. unfold malloc, bnd, do, ret. cbn. by rewrite (proj2 (Z.eqb_neq _ _) (mem_ok (calls w) n)). Qed.

Lemma read_ok l off n w : 0 <= off -> 0 <= n -> off + n <= zlen l -> read l off n w = (w, inr (slice off n l)).
Proof. intros. unfold read. case_bool (0 <=? off); [|lia]. case_bool (0 <=? n); [|lia]. case_bool (off + n <=? zlen l); [done|lia]. Qed.

Lemma byte_ok l off w : 0 <= off < zlen l -> byte l off w = (w, inr (nthb l off)).
Proof. intros. unfold byte, bnd. rewrite read_ok by lia. unfold ret. do 2 f_equal. rewrite nthb_slice by lia. f_equal. lia. Qed.

Lemma write_ok l off d w : 0 <= off -> off + zlen d <= zlen l -> write l off d w = (w, inr (splice off d l)).
Proof. intros. unfold write. case_bool (0 <=? off); [|lia]. case_bool (off + zlen d <=? zlen l); [done|lia]. Qed.

Lemma send_packet_ok flag opcode data_len body w : ntf_cfg (bcwl_env w) <> 0 -> data_len = zlen body ->
  send_packet flag opcode data_len body w =
    (with_calls [ble_gatts_ntf_ind_send (conn_id (bcwl_env w)) BCW_IDX_NTF (packet (fun l => co_crc16 l 0) flag (send_seq (bcwl_env w)) opcode body)]
       (with_env (set_send_seq (u8 (send_seq (bcwl_env w) + 1))) w), inr tt).
Proof.
  intros Hn ->. unfold send_packet, bcwl_ntf_event_send, env, env_mod, do, bnd, get, modify, ret. cbn. case_bool (ntf_cfg (bcwl_env w) =? 0); [lia|]. done.
Qed.

(** [w'] is [w] after these packets. *)
Definition sends (w w' : world) (ps : list (list Z)) : Prop :=
  exists k, w' = with_calls k (with_env (set_send_seq (u8 (send_seq (bcwl_env w) + zlen ps))) w) /\ packets k = ps.

Lemma sends_trans w1 w2 w3 p q : sends w1 w2 p -> sends w2 w3 q -> sends w1 w3 (p ++ q).
Proof.
  intros (k & -> & <-) (l & -> & <-). exists (k ++ l). rewrite packets_app. split; [|done].
  unfold with_calls, with_env, set_send_seq. cbn. rewrite app_assoc. f_equal. f_equal. rewrite zlen_app. unfold wrap. rewrite Zplus_mod_idemp_l. f_equal. lia.
Qed.

Lemma sends_facts w w' ps : sends w w' ps -> ntf_cfg (bcwl_env w') = ntf_cfg (bcwl_env w) /\ frag_size (bcwl_env w') = frag_size (bcwl_env w) /\
  send_seq (bcwl_env w') = u8 (send_seq (bcwl_env w) + zlen ps).
Proof. by intros (k & -> & _). Qed.

Lemma send_one w k flag opcode body : ntf_cfg (bcwl_env w) <> 0 ->
  exists w', send_packet flag opcode (zlen body) body (with_calls [sys_malloc k] w) = (w', inr tt) /\
    sends w w' [packet (fun l => co_crc16 l 0) flag (send_seq (bcwl_env w)) opcode body].
Proof.
  intros Hn. rewrite send_packet_ok by done. eexists. split; [reflexivity|].
  eexists (sys_malloc k :: [ble_gatts_ntf_ind_send _ _ _]). split; [|reflexivity]. unfold with_calls, with_env. cbn. by rewrite <- app_assoc.
Qed.

Lemma send_rest nm n opcode data : forall m rem w, ntf_cfg (bcwl_env w) <> 0 -> 0 < frag_size (bcwl_env w) < 256 ->
  0 < rem < zlen data -> frag_size (bcwl_env w) < zlen data < 2 ^ 16 -> (Z.to_nat rem <= n)%nat -> (Z.to_nat rem <= m)%nat ->
  exists w', send_loop nm n opcode data (zlen data) rem w = (w', inr tt) /\
    sends w w' (rest_packets (fun l => co_crc16 l 0) m (frag_size (bcwl_env w)) (send_seq (bcwl_env w)) opcode (slice (zlen data - rem) rem data)).
Proof.
  induction n as [|n IH]; intros m rem w Hn Hf Hr Hl Hfn Hm; [lia|]. destruct m as [|m]; [lia|].
  cbn [send_loop rest_packets]. assert ((0 <? rem) = true) as -> by (apply Z.ltb_lt; lia).
  rewrite zlen_slice by lia. unfold send_turn, env. rewrite !bnd_assoc, bnd_get, bnd_ret.
  set (f := frag_size (bcwl_env w)) in *. case_bool (f <? rem).
  - apply Z.ltb_lt in E0. rewrite !bnd_assoc. erewrite bnd_ok by apply malloc_ok. cbn [negb].
    assert ((rem =? zlen data) = false) as -> by (apply Z.eqb_neq; lia). rewrite (wrap_small 8 f) by lia. rewrite !bnd_assoc. erewrite bnd_ok by (apply read_ok; lia).
    destruct (send_one w (SIZEOF_HEADER + f + 2) 0 opcode (slice (zlen data - rem) f data) Hn) as (w1 & E1 & S1). rewrite zlen_slice in E1 by lia.
    rewrite bnd_assoc. erewrite bnd_ok by exact E1. rewrite bnd_ret. rewrite wrap_small by lia.
    destruct (sends_facts _ _ _ S1) as (F1 & F2 & F3). destruct (IH m (rem - f) w1) as (w2 & E2 & S2); rewrite ?F1, ?F2; try done; try lia.
    rewrite E2. exists w2. split; [done|]. rewrite F2, F3, zlen_singleton in S2. eapply (sends_trans _ _ _ [_]) in S2; [|exact S1].
    cbn [app] in S2. fold f in S2. rewrite !slice_slice by lia.
    replace (zlen data - rem + f) with (zlen data - (rem - f)) by lia. rewrite Z.add_0_r. exact S2.
  - apply Z.ltb_ge in E0. rewrite !bnd_assoc. erewrite bnd_ok by apply malloc_ok. cbn [negb].
    assert ((zlen data <=? f) = false) as -> by (apply Z.leb_gt; lia). change (Z.lor 0 BCWL_FLAG_END_MASK) with BCWL_FLAG_END_MASK.
    rewrite (wrap_small 8 rem) by lia. rewrite !bnd_assoc. erewrite bnd_ok by (apply read_ok; lia).
    destruct (send_one w (SIZEOF_HEADER + rem + 2) BCWL_FLAG_END_MASK opcode (slice (zlen data - rem) rem data) Hn) as (w1 & E1 & S1). rewrite zlen_slice in E1 by lia.
    rewrite bnd_assoc. erewrite bnd_ok by exact E1. rewrite bnd_ret, Z.sub_diag. exists w1. split; [|exact S1]. by destruct n.
Qed.

(** The connection allows sending. *)
Record can_send (w : world) : Prop := {
  cs_ntf : ntf_cfg (bcwl_env w) <> 0;
  cs_frag : 3 <= frag_size (bcwl_env w) < 256
}.

Lemma sends_can_send w w' ps : sends w w' ps -> can_send w -> can_send w'.
Proof. intros H [H1 H2]. destruct (sends_facts _ _ _ H) as (F1 & F2 & _). by split; rewrite ?F1, ?F2. Qed.

Lemma send_message opcode data w : depth <> 0%nat -> can_send w -> 0 < zlen data <= peer_recv_size (bcwl_env w) -> zlen data < 2 ^ 16 ->
  exists w', bcwl_send opcode data (zlen data) w = (w', inr tt) /\
    sends w w' (message_packets (fun l => co_crc16 l 0) (frag_size (bcwl_env w)) (send_seq (bcwl_env w)) opcode data).
Proof.
  intros Hd [Hn Hf] Hl Hl2. unfold bcwl_send. destruct depth as [|n]; [done|]. cbn [bcwl_send_at]. generalize (bcwl_send_at n
    (BCWL_OPCODE_BUILD BCWL_OPCODE_TYPE_MGMT BCWL_OPCODE_MGMT_SUBTYPE_ERROR_REPORT) [BCWL_ERR_SEND_NO_MEM] 1). intros nm. unfold env. rewrite bnd_assoc, bnd_get, bnd_ret. case_bool (peer_recv_size (bcwl_env w) <? zlen data); [lia|].
  destruct (Z.to_nat (zlen data)) as [|k] eqn:Ek; [lia|]. cbn [send_loop]. assert ((0 <? zlen data) = true) as -> by (apply Z.ltb_lt; lia).
  unfold send_turn, env. rewrite !bnd_assoc, bnd_get, bnd_ret. unfold message_packets. set (f := frag_size (bcwl_env w)) in *.
  rewrite Z.sub_diag. case_bool (f <? zlen data); case_bool (zlen data <=? f); try lia; rewrite !bnd_assoc; erewrite bnd_ok by apply malloc_ok; cbn [negb].
  - apply Z.ltb_lt in E1. rewrite Z.eqb_refl, (wrap_small 8 f) by lia. rewrite !bnd_assoc. erewrite bnd_ok by (apply read_ok; lia).
    fold (len_bytes (zlen data)). set (body := len_bytes (zlen data) ++ slice 0 (f - 2) data).
    assert (zlen body = f) as Hb by (unfold body; rewrite zlen_app, zlen_slice by lia; unfold len_bytes; rewrite !zlen_cons, zlen_nil; lia).
    destruct (send_one w (SIZEOF_HEADER + f + 2) BCWL_FLAG_BEGIN_MASK opcode body Hn) as (w1 & G1 & S1). rewrite Hb in G1.
    rewrite bnd_assoc. erewrite bnd_ok by exact G1. rewrite bnd_ret, wrap_small by lia.
    destruct (sends_facts _ _ _ S1) as (F1 & F2 & F3).
    destruct (send_rest nm k opcode data (length data) (zlen data - (f - 2)) w1) as (w2 & G2 & S2); rewrite ?F1, ?F2; try done; try lia.
    { unfold zlen in *. lia. }
    rewrite G2. exists w2. split; [done|]. rewrite F2, F3, zlen_singleton in S2. eapply (sends_trans _ _ _ [_]) in S2; [|exact S1].
    cbn [app] in S2. fold f in S2. by replace (zlen data - (zlen data - (f - 2))) with (f - 2) in S2 by lia.
  - rewrite (wrap_small 8 (zlen data)) by lia. rewrite !bnd_assoc. erewrite bnd_ok by (apply read_ok; lia). rewrite slice_all.
    destruct (send_one w (SIZEOF_HEADER + zlen data + 2) 3 opcode data Hn) as (w1 & G1 & S1). change (Z.lor BCWL_FLAG_BEGIN_MASK BCWL_FLAG_END_MASK) with 3.
    rewrite bnd_assoc. erewrite bnd_ok by exact G1. rewrite bnd_ret, Z.sub_diag. exists w1. split; [|exact S1]. by destruct k.
Qed.

End Send.

(** ** Receiving *)

Section Receive.
Context {E : Env} (mem_ok : forall l n, answer (l ++ [sys_malloc n]) <> 0).
(** The checksum has sixteen bits. *)
Context (crc_word : forall l, 0 <= co_crc16 l 0 < 2 ^ 16).
#[local] Abbreviation crc := (fun l => co_crc16 l 0).

Lemma zlen_packet flag seq opcode body : zlen (packet crc flag seq opcode body) = zlen body + 6.
Proof. unfold packet, header, crc_bytes. rewrite !zlen_app, !zlen_cons, !zlen_nil. lia. Qed.

Lemma le_dec_two n : 0 <= n < 2 ^ 16 -> le_dec [Z.land n 0xff; Z.land (Z.shiftr n 8) 0xff] = n.
Proof.
  intros Hn. cbn [le_dec]. change 0xff with (Z.ones 8). rewrite !Z.land_ones, Z.shiftr_div_pow2 by lia.
  pose proof (Z.div_mod n (2 ^ 8) ltac:(lia)). assert (0 <= n / 2 ^ 8 < 2 ^ 8) by (split; [apply Z.div_pos|apply Z.div_lt_upper_bound]; lia).
  rewrite (Z.mod_small (n / 2 ^ 8)) by lia. lia.
Qed.

Lemma slice_packet_body flag seq opcode body : slice 4 (zlen body) (packet crc flag seq opcode body) = body.
Proof. unfold packet, header, slice, zlen. cbn [app]. change (Z.to_nat 4) with 4%nat. cbn [skipn]. rewrite ?drop_0.
  rewrite Nat2Z.id. by rewrite take_app_length. Qed.

Lemma slice_packet_sealed flag seq opcode body :
  slice 1 (zlen body + SIZEOF_HEADER - 1) (packet crc flag seq opcode body) = seq :: opcode :: zlen body :: body.
Proof.
  unfold packet, header, slice. cbn [app]. change (Z.to_nat 1) with 1%nat. cbn [skipn]. rewrite ?drop_0.
  replace (Z.to_nat (zlen body + SIZEOF_HEADER - 1)) with (S (S (S (length body)))) by (unfold zlen, SIZEOF_HEADER; lia). cbn [firstn]. by rewrite take_app_length.
Qed.

Lemma slice_packet_crc flag seq opcode body :
  slice (SIZEOF_HEADER + zlen body) 2 (packet crc flag seq opcode body) = crc_bytes (co_crc16 (seq :: opcode :: zlen body :: body) 0).
Proof.
  unfold packet, slice. change (Z.to_nat 2) with 2%nat. replace (Z.to_nat (SIZEOF_HEADER + zlen body)) with (length (header flag seq opcode (zlen body) ++ body)).
  - rewrite app_assoc, drop_app_length. done.
  - rewrite length_app. unfold zlen, header, SIZEOF_HEADER. cbn [length]. lia.
Qed.

Lemma slice_packet_tail flag seq opcode body : let pkt := packet crc flag seq opcode body in
  slice SIZEOF_HEADER (zlen pkt - SIZEOF_HEADER) pkt = body ++ crc_bytes (co_crc16 (seq :: opcode :: zlen body :: body) 0).
Proof.
  intros pkt. rewrite (zlen_packet _ _ _ _ : zlen pkt = _). unfold pkt, packet, header, SIZEOF_HEADER. rewrite app_assoc. unfold slice. cbn [app].
  change (Z.to_nat 4) with 4%nat. cbn [skipn]. rewrite drop_0. apply take_ge. rewrite length_app. unfold zlen, crc_bytes. cbn [length]. lia.
Qed.

(** A packet that is expected is numbered, and taken apart by its flags. *)
Definition take_apart (flag opcode : Z) (pkt : list Z) (data_len : Z) : C unit :=
  if BCWL_FLAG_IS_BEGIN flag then
    if BCWL_FLAG_IS_END flag then bcwl_msg_handler opcode (slice SIZEOF_HEADER (zlen pkt - SIZEOF_HEADER) pkt) data_len
    else recv_start pkt data_len
  else if BCWL_FLAG_IS_END flag then recv_end pkt opcode data_len
  else recv_continue pkt data_len.

Lemma receive_packet flag seq opcode body w :
  handshake_success (bcwl_env w) = true \/ opcode = BCWL_OPCODE_BUILD BCWL_OPCODE_TYPE_MGMT BCWL_OPCODE_MGMT_SUBTYPE_HANDSHAKE -> seq = recv_seq (bcwl_env w) ->
  BCWL_FLAG_IS_REQ_ACK flag = false ->
  let pkt := packet crc flag seq opcode body in
  bcwl_receive pkt (zlen pkt) w = take_apart flag opcode pkt (zlen body) (with_env (set_recv_seq (u8 (seq + 1))) w).
Proof.
  intros Hh -> Ha pkt. pose proof (zlen_nonneg body). pose proof (zlen_packet flag (recv_seq (bcwl_env w)) opcode body) as Hz. fold pkt in Hz.
  unfold bcwl_receive. case_bool (zlen pkt <? SIZEOF_HEADER); [unfold SIZEOF_HEADER in *; lia|].
  do 4 (erewrite bnd_ok by (apply byte_ok; lia)). change (nthb pkt 0) with flag. change (nthb pkt 1) with (recv_seq (bcwl_env w)). change (nthb pkt 2) with opcode.
  change (nthb pkt 3) with (zlen body). unfold env. rewrite bnd_assoc, bnd_get, bnd_ret.
  assert (negb (handshake_success (bcwl_env w)) && negb (opcode =? BCWL_OPCODE_BUILD BCWL_OPCODE_TYPE_MGMT BCWL_OPCODE_MGMT_SUBTYPE_HANDSHAKE) = false) as ->
    by (destruct Hh as [-> | ->]; [done|apply andb_false_r]). rewrite Ha, bnd_ret.
  rewrite bnd_assoc, bnd_get, bnd_ret, Z.eqb_refl. cbn [negb]. unfold env_mod. rewrite bnd_modify.
  fold (with_env (set_recv_seq (u8 (recv_seq (bcwl_env w) + 1))) w). unfold SIZEOF_HEADER in *.
  erewrite bnd_ok by (apply read_ok; lia). erewrite bnd_ok by (apply read_ok; lia).
  rewrite (slice_packet_crc _ _ _ _ : slice (4 + zlen body) 2 pkt = _), (slice_packet_sealed _ _ _ _ : slice 1 (zlen body + 4 - 1) pkt = _).
  unfold crc_bytes. rewrite le_dec_two by apply crc_word. rewrite Z.eqb_refl. done.
Qed.

Lemma bnd_ret_r (m : C unit) w : bnd m (fun _ => ret tt) w = m w.
Proof. unfold bnd, ret. by destruct (m w) as [w' [e|[]]]. Qed.

Lemma zlen_fresh_mem n : 0 <= n -> zlen (fresh n) = n.
Proof. intros. unfold fresh. rewrite zlen_map. unfold zlen. rewrite length_seqZ. lia. Qed.

Lemma read_tail t d flag seq opcode w : let pkt := packet crc flag seq opcode (len_bytes t ++ d) in
  read pkt (SIZEOF_HEADER + 2) (zlen d + 2 - 2) w = (w, inr d).
Proof.
  intros pkt. pose proof (zlen_packet flag seq opcode (len_bytes t ++ d)) as Hz. fold pkt in Hz. rewrite zlen_app in Hz. pose proof (zlen_nonneg d).
  change (zlen (len_bytes t)) with 2 in Hz. rewrite read_ok by (unfold SIZEOF_HEADER; lia). do 2 f_equal. unfold SIZEOF_HEADER.
  replace (zlen d + 2 - 2) with (zlen d) by lia. change (4 + 2) with 6.
  transitivity (slice 2 (zlen d) (slice 4 (zlen (len_bytes t ++ d)) pkt)).
  - rewrite slice_slice; [done|lia|lia|lia|rewrite zlen_app; change (zlen (len_bytes t)) with 2; lia].
  - unfold pkt. rewrite slice_packet_body. unfold slice, zlen, len_bytes. rewrite Nat2Z.id. apply firstn_all.
Qed.

Lemma slice_cut n (l : list Z) : 0 <= n <= zlen l -> slice 0 n l ++ slice n (zlen l - n) l = l.
Proof.
  intros Hn. rewrite <- (slice_all l) at 4. replace (zlen l) with (n + (zlen l - n)) at 2 by lia. rewrite slice_app_split, Z.add_0_l by lia. done.
Qed.

(** A prefix of the buffer grows. *)
Lemma splice_grows o (d b pre : list Z) : slice 0 o b = pre -> 0 <= o -> o + zlen d <= zlen b -> slice 0 (o + zlen d) (splice o d b) = pre ++ d.
Proof.
  intros Hp Ho Hd. pose proof (zlen_nonneg d). rewrite slice_app_split, Z.add_0_l by lia. f_equal.
  - rewrite <- Hp. rewrite !slice_splice_other by lia. done.
  - by apply slice_splice_same.
Qed.

(** Nothing was called but the allocator. *)
Definition allocations (k : list call) : Prop := Forall (fun c => exists n, c = sys_malloc n) k.

Lemma allocations_silent k : allocations k -> packets k = [].
Proof. induction 1 as [|c k [n ->] _ IH]; [done|exact IH]. Qed.

(** The numbers, the buffer and the allocations may have changed, and nothing else was done. *)
Definition took (w w' : world) (n : Z) (b : option (list Z)) (t o : Z) : Prop :=
  exists k, allocations k /\ w' = with_calls k (with_env (fun e => set_recv b t o (set_recv_seq (u8 (recv_seq e + n)) e)) w).

Lemma took_trans w1 w2 w3 n m b t o b' t' o' : took w1 w2 n b t o -> took w2 w3 m b' t' o' -> took w1 w3 (n + m) b' t' o'.
Proof.
  intros (k & Hk & ->) (l & Hl & ->). exists (k ++ l). split; [by apply Forall_app|].
  unfold with_calls, with_env, set_recv, set_recv_seq. cbn. rewrite app_assoc. do 2 f_equal. unfold wrap. rewrite Zplus_mod_idemp_l. f_equal. lia.
Qed.

Lemma took_one w k b t o : allocations k -> took w (with_calls k (with_env (fun e => set_recv b t o (set_recv_seq (u8 (recv_seq e + 1)) e)) w)) 1 b t o.
Proof. intros Hk. by exists k. Qed.

(** The state in which a message is being put together. *)
Record receiving (w : world) (seq : Z) (b : option (list Z)) (t o : Z) : Prop := {
  rv_handshake : handshake_success (bcwl_env w) = true;
  rv_seq : recv_seq (bcwl_env w) = seq;
  rv_buf : recv_buf (bcwl_env w) = b; rv_total : total_len (bcwl_env w) = t; rv_offset : offset (bcwl_env w) = o
}.

Lemma took_receiving w w' n seq b t o b' t' o' : receiving w seq b t o -> took w w' n b' t' o' -> receiving w' (u8 (seq + n)) b' t' o'.
Proof. intros [H1 H2 _ _ _] (k & _ & ->). split; cbn; try done. by rewrite H2. Qed.

Lemma start_received w seq opcode b0 t0 t d : receiving w seq b0 t0 0 -> 0 <= t <= BCW_VALUE_LEN -> zlen d <= t ->
  let pkt := packet crc BCWL_FLAG_BEGIN_MASK seq opcode (len_bytes t ++ d) in
  exists w' b, bcwl_receive pkt (zlen pkt) w = (w', inr tt) /\ took w w' 1 (Some b) t (zlen d) /\ zlen b = t /\ slice 0 (zlen d) b = d.
Proof.
  intros [H1 H2 H3 H4 H5] Ht Hd pkt. unfold BCW_VALUE_LEN in *. pose proof (zlen_nonneg d).
  assert (zlen (len_bytes t ++ d) = zlen d + 2) as Hz by (rewrite zlen_app; change (zlen (len_bytes t)) with 2; lia).
  unfold pkt. rewrite receive_packet by auto. fold pkt. rewrite Hz. change (take_apart BCWL_FLAG_BEGIN_MASK opcode pkt (zlen d + 2)) with (recv_start pkt (zlen d + 2)).
  set (w1 := with_env _ w). unfold recv_start, env. rewrite bnd_assoc, bnd_get, bnd_ret. change (offset (bcwl_env w1)) with (offset (bcwl_env w)).
  rewrite H5. cbn [Z.eqb negb]. erewrite bnd_ok by (apply read_ok; pose proof (zlen_packet BCWL_FLAG_BEGIN_MASK seq opcode (len_bytes t ++ d)); unfold pkt, SIZEOF_HEADER; lia).
  change (slice SIZEOF_HEADER 2 pkt) with (len_bytes t). rewrite (le_dec_two t ltac:(lia) : le_dec (len_bytes t) = t).
  unfold env_mod at 1. rewrite bnd_modify. case_bool (BCW_VALUE_LEN <? t); [unfold BCW_VALUE_LEN in *; lia|]. erewrite bnd_ok by (by apply malloc_ok). cbn [negb].
  erewrite bnd_ok by apply read_tail. erewrite bnd_ok by (apply write_ok; [lia|rewrite zlen_fresh_mem; lia]).
  rewrite (wrap_small 16 (zlen d + 2 - 2)) by lia. eexists _, (splice 0 d (fresh t)). split; [reflexivity|].
  split; [|split; [rewrite zlen_splice; rewrite ?zlen_fresh_mem; lia|]].
  - exists [sys_malloc t]. split; [by repeat econstructor|]. unfold w1, with_env, with_calls. cbn. rewrite H2. by replace (zlen d + 2 - 2) with (zlen d) by lia.
  - apply slice_splice_same; [lia|]. rewrite zlen_fresh_mem; lia.
Qed.

Lemma continue_ok w seq opcode b t o d : receiving w seq (Some b) t o -> 0 < o -> o + zlen d < t -> t <= BCW_VALUE_LEN -> zlen b = t ->
  let pkt := packet crc 0 seq opcode d in
  exists w', bcwl_receive pkt (zlen pkt) w = (w', inr tt) /\ took w w' 1 (Some (splice o d b)) t (o + zlen d).
Proof.
  intros [H1 H2 H3 H4 H5] Ho Hd Ht Hb pkt. unfold BCW_VALUE_LEN in *. pose proof (zlen_nonneg d). pose proof (zlen_packet 0 seq opcode d) as Hz. fold pkt in Hz.
  unfold pkt. rewrite receive_packet by auto. fold pkt. change (take_apart 0 opcode pkt (zlen d)) with (recv_continue pkt (zlen d)).
  set (w1 := with_env _ w). unfold recv_continue, env. rewrite bnd_assoc, bnd_get, bnd_ret. change (offset (bcwl_env w1)) with (offset (bcwl_env w)).
  change (total_len (bcwl_env w1)) with (total_len (bcwl_env w)). rewrite H4, H5. case_bool (o =? 0); [lia|]. case_bool (t <=? o + zlen d); [lia|]. cbn [orb].
  unfold SIZEOF_HEADER. erewrite bnd_ok by (apply read_ok; lia). rewrite (slice_packet_body _ _ _ _ : slice 4 (zlen d) pkt = d). unfold buffer.
  change (recv_buf (bcwl_env w1)) with (recv_buf (bcwl_env w)). rewrite H3, bnd_ret.
  erewrite bnd_ok by (apply write_ok; lia). rewrite (wrap_small 16 (o + zlen d)) by lia. eexists. split; [reflexivity|].
  exists []. split; [by constructor|]. unfold w1, with_env, with_calls. cbn. by rewrite H2, app_nil_r.
Qed.

(** What is left of a message when it was handled. *)
Definition finish : C unit := env_mod (fun e => set_recv None (total_len e) 0 e).

Lemma end_ok w seq opcode b t o d : receiving w seq (Some b) t o -> 0 < o -> o + zlen d = t -> zlen b = t ->
  let pkt := packet crc BCWL_FLAG_END_MASK seq opcode d in
  exists w', bcwl_receive pkt (zlen pkt) w = (bcwl_msg_handler opcode (splice o d b) t ;;; finish) w' /\ took w w' 1 (Some (splice o d b)) t o.
Proof.
  intros [H1 H2 H3 H4 H5] Ho Hd Hb pkt. pose proof (zlen_nonneg d). pose proof (zlen_packet BCWL_FLAG_END_MASK seq opcode d) as Hz. fold pkt in Hz.
  unfold pkt. rewrite receive_packet by auto. fold pkt. change (take_apart BCWL_FLAG_END_MASK opcode pkt (zlen d)) with (recv_end pkt opcode (zlen d)).
  set (w1 := with_env _ w). unfold recv_end, env. rewrite bnd_assoc, bnd_get, bnd_ret. change (offset (bcwl_env w1)) with (offset (bcwl_env w)).
  change (total_len (bcwl_env w1)) with (total_len (bcwl_env w)). rewrite H4, H5. case_bool (o =? 0); [lia|]. rewrite Hd, Z.eqb_refl. cbn [orb negb].
  unfold SIZEOF_HEADER. erewrite bnd_ok by (apply read_ok; lia). rewrite (slice_packet_body _ _ _ _ : slice 4 (zlen d) pkt = d). unfold buffer.
  change (recv_buf (bcwl_env w1)) with (recv_buf (bcwl_env w)). rewrite H3, bnd_ret.
  erewrite bnd_ok by (apply write_ok; lia). unfold env_mod at 1. rewrite bnd_modify. eexists. split; [reflexivity|].
  exists []. split; [by constructor|]. unfold w1, with_env, with_calls. cbn. by rewrite H2, app_nil_r.
Qed.

(** The peer writes the packets one after the other. *)
Fixpoint deliver (conn : Z) (ps : list (list Z)) : C unit :=
  match ps with [] => ret tt | p :: ps => bcwl_gatts_msg_cb conn BCW_IDX_WRITE p ;;; deliver conn ps end.

Lemma msg_cb_is p w : bcwl_gatts_msg_cb (conn_id (bcwl_env w)) BCW_IDX_WRITE p w = bcwl_receive p (zlen p) w.
Proof. unfold bcwl_gatts_msg_cb, env. by rewrite bnd_assoc, bnd_get, bnd_ret, Z.eqb_refl. Qed.

Lemma rest_ok m frag opcode d : forall seq w b t o pre, receiving w seq (Some b) t o -> 0 < frag -> 0 < o -> 0 < zlen d ->
  o + zlen d = t -> t <= BCW_VALUE_LEN -> zlen b = t -> slice 0 o b = pre -> (length d <= m)%nat ->
  exists w' o', deliver (conn_id (bcwl_env w)) (rest_packets crc m frag seq opcode d) w = (bcwl_msg_handler opcode (pre ++ d) t ;;; finish) w' /\
    took w w' (zlen (rest_packets crc m frag seq opcode d)) (Some (pre ++ d)) t o'.
Proof.
  revert d. induction m as [|m IH]; intros d seq w b t o pre H Hf Ho Hd Ht Ht2 Hb Hp Hm; [unfold zlen in Hd; lia|].
  cbn [rest_packets]. destruct (Z.ltb_spec frag (zlen d)) as [Hlt|Hge]; cbn [deliver].
  - set (d1 := slice 0 frag d). assert (zlen d1 = frag) as Hd1 by (apply zlen_slice; lia).
    destruct (continue_ok w seq opcode b t o d1 H) as (w1 & E1 & T1); try lia. erewrite bnd_ok by (rewrite msg_cb_is; exact E1).
    pose proof (took_receiving _ _ _ _ _ _ _ _ _ _ H T1) as R1.
    set (d2 := slice frag (zlen d - frag) d). assert (zlen d2 = zlen d - frag) as Hd2 by (apply zlen_slice; lia).
    assert (conn_id (bcwl_env w) = conn_id (bcwl_env w1)) as -> by (destruct T1 as (? & _ & ->); done).
    destruct (IH d2 (u8 (seq + 1)) w1 (splice o d1 b) t (o + zlen d1) (pre ++ d1)) as (w2 & o2 & E2 & T2); try done; try lia.
    { rewrite zlen_splice; lia. } { apply splice_grows; [done|lia|lia]. } { unfold zlen in *. lia. }
    assert ((pre ++ d1) ++ d2 = pre ++ d) as Ed.
    { rewrite <- app_assoc. f_equal. apply slice_cut. lia. }
    rewrite Ed in *. exists w2, o2. split; [exact E2|]. rewrite zlen_cons. eapply took_trans; [exact T1|exact T2].
  - destruct (end_ok w seq opcode b t o d H Ho Ht Hb) as (w1 & E1 & T1).
    assert (splice o d b = pre ++ d) as Ed.
    { rewrite <- (slice_all (splice o d b)), zlen_splice, Hb, <- Ht by lia. apply splice_grows; [done|lia|lia]. }
    rewrite Ed in *. exists w1, o. split; [|rewrite zlen_singleton; exact T1]. rewrite bnd_ret_r. rewrite msg_cb_is. exact E1.
Qed.

(** All packets of a message: it is handed over once, as it was sent. What is behind it in
    memory are the two bytes of the checksum, if it came in one packet. *)
Lemma message_received frag seq opcode data w b0 t0 : receiving w seq b0 t0 0 -> 3 <= frag < 256 -> 0 < zlen data <= BCW_VALUE_LEN ->
  exists w' rest fin b t o, deliver (conn_id (bcwl_env w)) (message_packets crc frag seq opcode data) w =
      (bcwl_msg_handler opcode (data ++ rest) (zlen data) ;;; fin) w' /\
    took w w' (zlen (message_packets crc frag seq opcode data)) b t o /\ (fin = finish \/ fin = ret tt /\ o = 0).
Proof.
  intros H Hf Hd. unfold message_packets. destruct (Z.leb_spec (zlen data) frag) as [Hle|Hgt]; cbn [deliver].
  - pose proof H as [H1 H2 H3 H4 H5]. pose proof (zlen_packet 3 seq opcode data) as Hz.
    exists (with_env (set_recv_seq (u8 (seq + 1))) w), (crc_bytes (crc (seq :: opcode :: zlen data :: data))), (ret tt), (recv_buf (bcwl_env w)), (total_len (bcwl_env w)), (offset (bcwl_env w)).
    rewrite bnd_ret_r, msg_cb_is. rewrite receive_packet by auto. split; [|split; [|by right; rewrite H5]].
    + rewrite bnd_ret_r. unfold take_apart. change (BCWL_FLAG_IS_BEGIN 3) with true. change (BCWL_FLAG_IS_END 3) with true. cbv iota.
      by rewrite slice_packet_tail.
    + rewrite zlen_singleton. exists []. split; [by constructor|]. unfold with_calls, with_env, set_recv, set_recv_seq. cbn. by rewrite app_nil_r, H2.
  - set (d1 := slice 0 (frag - 2) data). assert (zlen d1 = frag - 2) as Hd1 by (apply zlen_slice; lia).
    destruct (start_received w seq opcode b0 t0 (zlen data) d1 H) as (w1 & b & E1 & T1 & Hb & Hp); [lia|lia|].
    erewrite bnd_ok by (rewrite msg_cb_is; exact E1). pose proof (took_receiving _ _ _ _ _ _ _ _ _ _ H T1) as R1.
    set (d2 := slice (frag - 2) (zlen data - (frag - 2)) data). assert (zlen d2 = zlen data - (frag - 2)) as Hd2 by (apply zlen_slice; lia).
    assert (conn_id (bcwl_env w) = conn_id (bcwl_env w1)) as -> by (destruct T1 as (? & _ & ->); done).
    destruct (rest_ok (length data) frag opcode d2 (u8 (seq + 1)) w1 b (zlen data) (zlen d1) d1 R1) as (w2 & o2 & E2 & T2); try done; try lia.
    { unfold zlen in *. lia. }
    assert (d1 ++ d2 = data) as Ed by (apply slice_cut; lia).
    rewrite Ed in *. exists w2, [], finish, (Some data), (zlen data), o2. rewrite app_nil_r. split; [exact E2|]. split; [|by left].
    rewrite zlen_cons. eapply took_trans; [exact T1|exact T2].
Qed.

(** ** Reports *)

Lemma write_out l off d w : zlen l < off + zlen d -> write l off d w = (w, inl Bounds).
Proof. intros H. unfold write. case_bool (0 <=? off); [|done]. case_bool (off + zlen d <=? zlen l); [lia|done]. Qed.

Lemma send_byte opcode x w : depth <> 0%nat -> can_send w -> 1 <= peer_recv_size (bcwl_env w) ->
  exists w', bcwl_send opcode [x] 1 w = (w', inr tt) /\ sends w w' [packet crc 3 (send_seq (bcwl_env w)) opcode [x]].
Proof.
  intros Hd Hs Hp. destruct (send_message mem_ok opcode [x] w Hd Hs) as (w' & E1 & S1); [rewrite zlen_singleton; lia|rewrite zlen_singleton; lia|].
  change (zlen [x]) with 1 in E1. unfold message_packets in S1. change (zlen [x]) with 1 in S1. destruct Hs as [_ Hf].
  case_bool (1 <=? frag_size (bcwl_env w)); [|lia]. by eexists w'.
Qed.

Definition ERROR_REPORT : Z := BCWL_OPCODE_BUILD BCWL_OPCODE_TYPE_MGMT BCWL_OPCODE_MGMT_SUBTYPE_ERROR_REPORT.

Lemma report_ok x w : depth <> 0%nat -> can_send w -> 1 <= peer_recv_size (bcwl_env w) ->
  exists w', bcwl_error_report x w = (w', inr tt) /\ sends w w' [packet crc 3 (send_seq (bcwl_env w)) ERROR_REPORT [x]].
Proof. apply send_byte. Qed.

End Receive.
End CourierSpec.
