(* ===== verification/CourierProps.v ===== *)
(** * The blue courier: properties *)
From S2P Require Import Prelude Crc Courier CourierSpec.
Open Scope Z_scope.
Open Scope fw_scope.

Module CourierProps.
Import Courier CourierSpec.

(** ** From one end to the other *)

Section Ends.
(** The two ends: the phone's is taken to send as the module does. *)
Context (Ep Em : Env) (mem_p : forall l n, @answer Ep (l ++ [sys_malloc n]) <> 0) (mem_m : forall l n, @answer Em (l ++ [sys_malloc n]) <> 0).
Context (same_crc : forall l, @co_crc16 Ep l 0 = @co_crc16 Em l 0) (crc_word : forall l, 0 <= @co_crc16 Em l 0 < 2 ^ 16).

Lemma packet_same flag seq opcode body : packet (fun l => @co_crc16 Ep l 0) flag seq opcode body = packet (fun l => @co_crc16 Em l 0) flag seq opcode body.
Proof. unfold packet. by rewrite same_crc. Qed.

Lemma message_same frag seq opcode data :
  message_packets (fun l => @co_crc16 Ep l 0) frag seq opcode data = message_packets (fun l => @co_crc16 Em l 0) frag seq opcode data.
Proof.
  unfold message_packets. rewrite !packet_same. destruct (zlen data <=? frag); [done|]. f_equal. generalize (slice (frag - 2) (zlen data - (frag - 2)) data).
  generalize (u8 (seq + 1)). induction (length data) as [|n IH]; intros s l; [done|]. cbn [rest_packets]. rewrite !packet_same. by rewrite IH.
Qed.

(** Two ends in the middle of a connection, with no message half received. *)
Record connected (wp wm : world) : Prop := {
  cn_depth : @depth Ep <> 0%nat;
  cn_sends : can_send wp;
  cn_room : peer_recv_size (bcwl_env wp) <= BCW_VALUE_LEN;
  cn_handshake : handshake_success (bcwl_env wm) = true;
  cn_seq : recv_seq (bcwl_env wm) = send_seq (bcwl_env wp);
  cn_idle : offset (bcwl_env wm) = 0
}.

Lemma cross opcode data wp wm : connected wp wm -> 0 < zlen data <= peer_recv_size (bcwl_env wp) ->
  exists wp' ps wm' rest fin b t o, @bcwl_send Ep opcode data (zlen data) wp = (wp', inr tt) /\ sends wp wp' ps /\
    @deliver Em (conn_id (bcwl_env wm)) ps wm = (@bcwl_msg_handler Em opcode (data ++ rest) (zlen data) ;;; fin) wm' /\
    took wm wm' (zlen ps) b t o /\ (fin = finish \/ fin = ret tt /\ o = 0).
Proof.
  intros [Hd Hs Hr Hh Hq Hi] Hl. unfold BCW_VALUE_LEN in *. destruct (@send_message Ep mem_p opcode data wp Hd Hs Hl) as (wp' & E1 & S1); [lia|].
  rewrite message_same in S1. set (ps := message_packets _ _ _ _ _) in *.
  destruct (@message_received Em mem_m crc_word (frag_size (bcwl_env wp)) (send_seq (bcwl_env wp)) opcode data wm (recv_buf (bcwl_env wm)) (total_len (bcwl_env wm)))
    as (wm' & rest & fin & b & t & o & E2 & T2 & Hf); [by split|apply Hs|unfold BCW_VALUE_LEN; lia|].
  exists wp', ps, wm', rest, fin, b, t, o. done.
Qed.

(** C26: a message of at most the size the peer takes is cut into packets, and the packets,
    written one after the other, make the receiver handle this message, once, with its
    operation code and all its bytes; both ends then expect the same number, and the
    receiver has nothing half received. *)
Theorem courier_round_trip opcode data wp wm : connected wp wm -> 0 < zlen data <= peer_recv_size (bcwl_env wp) ->
  exists wp' ps wm' rest fin, @bcwl_send Ep opcode data (zlen data) wp = (wp', inr tt) /\ sends wp wp' ps /\
    @deliver Em (conn_id (bcwl_env wm)) ps wm = (@bcwl_msg_handler Em opcode (data ++ rest) (zlen data) ;;; fin) wm' /\
    recv_seq (bcwl_env wm') = send_seq (bcwl_env wp') /\ send_seq (bcwl_env wm') = send_seq (bcwl_env wm) /\
    packets (calls wm') = packets (calls wm) /\ (fin = finish \/ fin = ret tt /\ offset (bcwl_env wm') = 0).
Proof.
  intros Hc Hl. destruct (cross opcode data wp wm Hc Hl) as (wp' & ps & wm' & rest & fin & b & t & o & E1 & S1 & E2 & T2 & Hf).
  exists wp', ps, wm', rest, fin. destruct S1 as (k & -> & Hk). destruct T2 as (l & Hp%allocations_silent & ->). split; [done|]. split; [by exists k|]. split; [done|].
  cbn. split; [by rewrite (cn_seq _ _ Hc)|]. split; [done|]. split; [by rewrite packets_app, Hp, app_nil_r|]. destruct Hf as [->|[-> ->]]; auto.
Qed.

(** ** Commands *)

(** The command as the phone makes it: lengths and strings, encoded with a random byte. *)
Context (encode : list Z -> Z -> list Z).
Definition encoding : Prop := forall l r, zlen (encode l r) = zlen l /\ @ble_internal_decode Em (encode l r) r = l.
Definition connect_message (s p : list Z) (r : Z) : list Z := encode ([zlen s] ++ s ++ [zlen p] ++ p) r ++ [r].
Definition password_of (p : list Z) : option (list Z) := if zlen p =? 0 then None else Some p.

Lemma zlen_connect_message s p r : encoding -> zlen (connect_message s p r) = zlen s + zlen p + 3.
Proof. intros He. unfold connect_message. rewrite zlen_app, (proj1 (He _ _)), !zlen_app, !zlen_singleton. lia. Qed.

Lemma decode_ok l r rest w : encoding -> @decode Em (encode l r ++ [r] ++ rest) (zlen l + 1) w = (w, inr (l ++ [r] ++ rest)).
Proof.
  intros He. destruct (He l r) as [Hz Hd]. pose proof (zlen_nonneg l). pose proof (zlen_nonneg rest).
  assert (zlen (encode l r ++ [r] ++ rest) = zlen l + 1 + zlen rest) as Hl by (rewrite !zlen_app, zlen_singleton; lia).
  unfold decode. erewrite bnd_ok by (apply byte_ok; lia). erewrite bnd_ok by (apply read_ok; lia). unfold ret. do 2 f_equal.
  replace (zlen l + 1 - 1) with (zlen l) by lia. rewrite nthb_app_r, Hz, Z.sub_diag by lia. change (nthb ([r] ++ rest) 0) with r.
  assert (slice 0 (zlen l) (encode l r ++ [r] ++ rest) = encode l r) as ->.
  { rewrite <- Hz. unfold slice, zlen. cbn [Z.to_nat skipn]. rewrite Nat2Z.id. by rewrite drop_0, take_app_length. }
  rewrite Hd. f_equal. rewrite Hl. rewrite <- Hz. unfold slice, zlen. rewrite Nat2Z.id, drop_app_length. apply take_ge. cbn. unfold zlen in *. lia.
Qed.

Lemma copied_name s n : is_str s -> zlen s < n -> cstr (splice (zlen s) [0] (splice 0 s (@fresh Em n))) = s.
Proof.
  intros Hs Hn. pose proof (zlen_nonneg s). rewrite <- (Z.add_0_l (zlen s)), splice_splice_app by (rewrite ?zlen_fresh_mem, ?zlen_singleton; lia).
  unfold splice. cbn [Z.to_nat firstn]. rewrite take_0. cbn [app]. rewrite <- app_assoc. by apply cstr_app_nul.
Qed.

Lemma slice_at (a b c : list Z) : slice (zlen a) (zlen b) (a ++ b ++ c) = b.
Proof. unfold slice, zlen. rewrite !Nat2Z.id, drop_app_length. by rewrite take_app_length. Qed.

Lemma password_at s p tail : nthb (([zlen s] ++ s ++ [zlen p] ++ p) ++ tail) (zlen s + 1) = zlen p.
Proof.
  pose proof (zlen_nonneg s). replace (([zlen s] ++ s ++ [zlen p] ++ p) ++ tail) with (([zlen s] ++ s) ++ ([zlen p] ++ p ++ tail)) by (by rewrite <- !app_assoc).
  rewrite nthb_app_r by (rewrite zlen_app, zlen_singleton; lia). rewrite zlen_app, zlen_singleton. by replace (zlen s + 1 - (1 + zlen s)) with 0 by lia.
Qed.

(** A name and a password that fit are read as they were put in. *)
Lemma credentials_ok s p extra tail w : is_str s -> zlen s <= MAC_SSID_LEN -> is_str p -> zlen p <= WPA_MAX_PSK_LEN -> 3 <= extra -> extra - 2 <= zlen tail ->
  @credentials Em (([zlen s] ++ s ++ [zlen p] ++ p) ++ tail) (zlen s + zlen p + extra) extra w = (w, inr (Some (zlen s, zlen p, s, password_of p))).
Proof.
  intros Hs Hls Hp Hlp He Ht. unfold MAC_SSID_LEN, WPA_MAX_PSK_LEN in *. pose proof (zlen_nonneg s). pose proof (zlen_nonneg p).
  set (data := ([zlen s] ++ s ++ [zlen p] ++ p) ++ tail).
  assert (zlen data = zlen s + zlen p + 2 + zlen tail) as Hd by (unfold data; rewrite !zlen_app, !zlen_singleton; lia).
  unfold credentials. erewrite bnd_ok by (apply byte_ok; lia). change (nthb data 0) with (zlen s).
  case_bool (zlen s + zlen p + extra <? zlen s); [lia|]. case_bool (WPA_MAX_PSK_LEN <? zlen s); [unfold WPA_MAX_PSK_LEN in *; lia|]. cbn [orb].
  erewrite bnd_ok by (apply byte_ok; lia).
  rewrite (password_at s p tail : nthb data (zlen s + 1) = zlen p).
  rewrite Z.eqb_refl. cbn [negb orb]. case_bool (WPA_MAX_PSK_LEN <? zlen p); [unfold WPA_MAX_PSK_LEN in *; lia|].
  erewrite bnd_ok by (apply read_ok; lia).
  assert (slice 1 (zlen s) data = s) as -> by (unfold data; rewrite <- !app_assoc; apply (slice_at [zlen s])).
  unfold MAC_SSID_LEN. change (32 + 1) with 33. change (63 + 1) with 64. erewrite bnd_ok by (apply write_ok; [lia|rewrite zlen_fresh_mem; lia]).
  erewrite bnd_ok by (apply write_ok; [lia|rewrite zlen_splice; rewrite ?zlen_fresh_mem, ?zlen_singleton; lia]).
  rewrite copied_name by (done || lia). unfold password_of. case_bool (zlen p =? 0); [done|].
  erewrite bnd_ok by (apply read_ok; lia).
  assert (slice (zlen s + 2) (zlen p) data = p) as ->.
  { unfold data. replace (([zlen s] ++ s ++ [zlen p] ++ p) ++ tail) with (([zlen s] ++ s ++ [zlen p]) ++ p ++ tail) by (by rewrite <- !app_assoc).
    replace (zlen s + 2) with (zlen ([zlen s] ++ s ++ [zlen p])) by (rewrite !zlen_app, !zlen_singleton; lia). apply slice_at. }
  unfold WPA_MAX_PSK_LEN. change (63 + 1) with 64. erewrite bnd_ok by (apply write_ok; [lia|rewrite zlen_fresh_mem; lia]).
  erewrite bnd_ok by (apply write_ok; [lia|rewrite zlen_splice; rewrite ?zlen_fresh_mem, ?zlen_singleton; lia]). by rewrite copied_name by (done || lia).
Qed.

Definition refused : C unit := @send_data Em BCWL_OPCODE_DATA_SUBTYPE_STAMODE_CONNECT [1].

Lemma connect_ok s p r rest w : encoding -> is_str s -> zlen s <= MAC_SSID_LEN -> is_str p -> zlen p <= WPA_MAX_PSK_LEN ->
  @bcwp_wifi_connect Em (connect_message s p r ++ rest) (zlen (connect_message s p r)) w =
    (@do Em (eloop_event_register WIFI_MGMT_EVENT_DHCP_SUCCESS) ;;; let! x := @do Em (wifi_management_connect s (password_of p)) in if negb (x =? 0) then refused else ret tt) w.
Proof.
  intros He Hs Hls Hp Hlp. unfold bcwp_wifi_connect. rewrite zlen_connect_message by done. pose proof (zlen_nonneg s). pose proof (zlen_nonneg p).
  case_bool (zlen s + zlen p + 3 <=? 0); [lia|]. unfold connect_message. rewrite <- app_assoc.
  replace (zlen s + zlen p + 3) with (zlen ([zlen s] ++ s ++ [zlen p] ++ p) + 1) at 1 by (rewrite !zlen_app, !zlen_singleton; lia).
  erewrite bnd_ok by (by apply decode_ok). pose proof (zlen_nonneg rest).
  erewrite bnd_ok by (apply credentials_ok; try done; rewrite zlen_app, zlen_singleton; lia). done.
Qed.

Definition CONNECT : Z := BCWL_OPCODE_BUILD BCWL_OPCODE_TYPE_DATA BCWL_OPCODE_DATA_SUBTYPE_STAMODE_CONNECT.


End Ends.

(** ** What a phone can do to the module *)

Section Faults.
Context {E : Env} (mem_ok : forall l n, answer (l ++ [sys_malloc n]) <> 0) (crc_word : forall l, 0 <= co_crc16 l 0 < 2 ^ 16).
#[local] Abbreviation crc := (fun l => co_crc16 l 0).

(** C29: a first packet that carries more bytes than it announces for the whole message makes the
    module write them behind the memory it has just been given: only the other packets are checked
    against the announced length. *)
Theorem long_start_overflows seq opcode t d w : handshake_success (bcwl_env w) = true -> recv_seq (bcwl_env w) = seq -> offset (bcwl_env w) = 0 ->
  0 <= t <= BCW_VALUE_LEN -> t < zlen d <= 253 ->
  snd (bcwl_gatts_msg_cb (conn_id (bcwl_env w)) BCW_IDX_WRITE (packet crc BCWL_FLAG_BEGIN_MASK seq opcode (len_bytes t ++ d)) w) = inl Bounds.
Proof.
  intros H1 H2 H5 Ht Hd. unfold BCW_VALUE_LEN in *. pose proof (zlen_nonneg d). set (pkt := packet _ _ _ _ _).
  assert (zlen (len_bytes t ++ d) = zlen d + 2) as Hz by (rewrite zlen_app; change (zlen (len_bytes t)) with 2; lia).
  rewrite msg_cb_is. unfold pkt. rewrite receive_packet by auto. fold pkt. rewrite Hz.
  change (take_apart BCWL_FLAG_BEGIN_MASK opcode pkt (zlen d + 2)) with (recv_start pkt (zlen d + 2)).
  set (w1 := with_env _ w). unfold recv_start, env. rewrite bnd_assoc, bnd_get, bnd_ret. change (offset (bcwl_env w1)) with (offset (bcwl_env w)).
  rewrite H5. cbn [Z.eqb negb]. erewrite bnd_ok by (apply read_ok; pose proof (zlen_packet BCWL_FLAG_BEGIN_MASK seq opcode (len_bytes t ++ d)); unfold pkt, SIZEOF_HEADER; lia).
  change (slice SIZEOF_HEADER 2 pkt) with (len_bytes t). rewrite (le_dec_two t ltac:(lia) : le_dec (len_bytes t) = t).
  unfold env_mod at 1. rewrite bnd_modify. case_bool (BCW_VALUE_LEN <? t); [unfold BCW_VALUE_LEN in *; lia|]. erewrite bnd_ok by (by apply malloc_ok). cbn [negb].
  erewrite bnd_ok by apply read_tail. erewrite bnd_err by (apply write_out; rewrite zlen_fresh_mem; lia). done.
Qed.

(** A connect command with a name of 33 to 63 bytes makes the module write behind the
    array for the name on its stack: the name is compared with the length of a password. *)
Theorem long_name_overflows encode s p r w : encoding E encode -> 33 <= zlen s <= 63 -> zlen p <= 63 ->
  snd (bcwp_wifi_connect (connect_message encode s p r) (zlen (connect_message encode s p r)) w) = inl Bounds.
Proof.
  intros He Hs Hp. pose proof (zlen_nonneg p). set (l := [zlen s] ++ s ++ [zlen p] ++ p). assert (zlen l = zlen s + zlen p + 2) as Hl by (unfold l; rewrite !zlen_app, !zlen_singleton; lia).
  unfold bcwp_wifi_connect. rewrite (zlen_connect_message E encode) by done. case_bool (zlen s + zlen p + 3 <=? 0); [lia|].
  unfold connect_message. fold l. replace (zlen s + zlen p + 3) with (zlen l + 1) by lia.
  erewrite bnd_ok by (by apply (decode_ok E encode l r [])). set (data := l ++ [r] ++ []). assert (zlen data = zlen l + 1) as Hd by (unfold data; rewrite zlen_app; change (zlen ([r] ++ [])) with 1; lia).
  erewrite bnd_err; [done|]. unfold credentials. erewrite bnd_ok by (apply byte_ok; lia). change (nthb data 0) with (zlen s).
  case_bool (zlen l + 1 <? zlen s); [lia|]. case_bool (WPA_MAX_PSK_LEN <? zlen s); [unfold WPA_MAX_PSK_LEN in *; lia|]. cbn [orb].
  erewrite bnd_ok by (apply byte_ok; lia). rewrite (password_at s p ([r] ++ []) : nthb data (zlen s + 1) = zlen p).
  case_bool (zlen s + zlen p + 3 =? zlen l + 1); [|lia]. case_bool (WPA_MAX_PSK_LEN <? zlen p); [unfold WPA_MAX_PSK_LEN in *; lia|]. cbn [orb negb].
  erewrite bnd_ok by (apply read_ok; lia). assert (slice 1 (zlen s) data = s) as -> by (unfold data, l; rewrite <- !app_assoc; apply (slice_at [zlen s])).
  unfold MAC_SSID_LEN. change (32 + 1) with 33. destruct (decide (zlen s = 33)) as [Es|Es].
  - erewrite bnd_ok by (apply write_ok; [lia|rewrite zlen_fresh_mem; lia]).
    apply bnd_err, write_out. rewrite zlen_splice; rewrite ?zlen_fresh_mem, ?zlen_singleton; lia.
  - apply bnd_err, write_out. rewrite zlen_fresh_mem; lia.
Qed.

(** With two bytes to a packet the first one takes none of the message. *)
Lemma two_bytes_hang nm fuel opcode data : forall w, 2 < zlen data < 2 ^ 16 -> frag_size (bcwl_env w) = 2 -> ntf_cfg (bcwl_env w) <> 0 ->
  snd (send_loop nm fuel opcode data (zlen data) (zlen data) w) = inl Hang.
Proof.
  induction fuel as [|fuel IH]; intros w Hl Hf Hn; cbn [send_loop]; case_bool (0 <? zlen data); try lia; [done|].
  unfold send_turn, env. rewrite !bnd_assoc, bnd_get, bnd_ret. rewrite Hf. case_bool (2 <? zlen data); [|lia].
  rewrite !bnd_assoc. erewrite bnd_ok by (by apply malloc_ok). cbn [negb]. rewrite Z.eqb_refl. change (u8 2) with 2.
  rewrite !bnd_assoc. erewrite bnd_ok by (apply read_ok; lia). cbn [Z.sub]. rewrite Z.sub_diag, slice_nil, app_nil_r. fold (len_bytes (zlen data)).
  destruct (send_one w (SIZEOF_HEADER + 2 + 2) BCWL_FLAG_BEGIN_MASK opcode (len_bytes (zlen data)) Hn) as (w1 & G1 & S1). change (zlen (len_bytes (zlen data))) with 2 in G1.
  rewrite bnd_assoc. erewrite bnd_ok by exact G1. rewrite bnd_ret. replace (zlen data - (2 - 2)) with (zlen data) by lia. rewrite wrap_small by lia.
  destruct (sends_facts _ _ _ S1) as (F1 & F2 & _). apply IH; [done|by rewrite F2|by rewrite F1].
Qed.

Definition HANDSHAKE : Z := BCWL_OPCODE_BUILD BCWL_OPCODE_TYPE_MGMT BCWL_OPCODE_MGMT_SUBTYPE_HANDSHAKE.

(** A handshake that asks for packets of 11 bytes is accepted, which leaves two for the
    contents; the first packet of a message spends both on the length of the message, so
    the answer is sent without end: no number of turns finishes it. *)
Theorem small_mtu_hangs seq r w : depth <> 0%nat -> recv_seq (bcwl_env w) = seq -> ntf_cfg (bcwl_env w) <> 0 -> 4 <= r < 2 ^ 16 ->
  (forall l, 11 <= u16 (answer (l ++ [ble_gatts_mtu_get (conn_id (bcwl_env w))]))) ->
  exists w1 nm rsp, zlen rsp = 4 /\
    bcwl_gatts_msg_cb (conn_id (bcwl_env w)) BCW_IDX_WRITE (packet crc 3 seq HANDSHAKE (le_enc 2 11 ++ le_enc 2 r)) w = send_loop nm 4 HANDSHAKE rsp 4 4 w1 /\
    forall turns, snd (send_loop nm turns HANDSHAKE rsp 4 4 w1) = inl Hang.
Proof.
  intros Hd Hq Hn Hr Hm. rewrite msg_cb_is, receive_packet by auto. unfold take_apart. change (BCWL_FLAG_IS_BEGIN 3 && BCWL_FLAG_IS_END 3) with true.
  change (BCWL_FLAG_IS_BEGIN 3) with true. change (BCWL_FLAG_IS_END 3) with true. cbv iota. rewrite slice_packet_tail.
  set (w0 := with_env _ w). change (zlen (le_enc 2 11 ++ le_enc 2 r)) with 4.
  match goal with |- context [bcwl_msg_handler HANDSHAKE ?d 4 w0] => set (data := d); assert (zlen data = 6) as Hz by reflexivity end.
  change (bcwl_msg_handler HANDSHAKE data 4) with (bcwl_handle_mgmt_handshake data 4). unfold bcwl_handle_mgmt_handshake. cbn [Z.eqb SIZEOF_HANDSHAKE Pos.eqb negb].
  unfold env. rewrite bnd_assoc, bnd_get, bnd_ret. erewrite bnd_ok by apply do_is. erewrite bnd_ok by (apply read_ok; lia). erewrite bnd_ok by (apply read_ok; lia).
  change (le_dec (slice 0 2 data)) with 11. change (slice 2 2 data) with (le_enc 2 r). rewrite le_dec_enc, Z.mod_small by lia.
  specialize (Hm (calls w)). change (calls w0) with (calls w). set (mtu := u16 _) in *. rewrite (Z.min_l 11 mtu) by lia. change (Z.min 11 BCW_FRAG_MAX_LEN) with 11.
  unfold env_mod. rewrite bnd_modify. change (u8 (11 - SIZEOF_HEADER - BLE_GATT_HEADER_LEN - 2)) with 2.
  match goal with |- context [bcwl_send _ ?l _ ?x] => set (rsp := l); set (w1 := x) end.
  unfold bcwl_send. destruct depth as [|k]; [done|]. cbn [bcwl_send_at]. unfold env. rewrite bnd_assoc, bnd_get, bnd_ret.
  change (peer_recv_size (bcwl_env w1)) with (Z.min r BCW_VALUE_LEN). unfold SIZEOF_HANDSHAKE, BCW_VALUE_LEN. case_bool (Z.min r 512 <? 4); [lia|].
  eexists w1, _, rsp. split; [done|]. split; [reflexivity|]. intros turns. apply (two_bytes_hang _ turns HANDSHAKE rsp); [change (zlen rsp) with 4; lia|done|done].
Qed.

(** Answers with one error each. *)
Fixpoint reports (n : nat) (seq : Z) : list (list Z) :=
  match n with O => [] | S n => packet crc 3 seq ERROR_REPORT [BCWL_ERR_SEQUENCE_ERROR] :: reports n (u8 (seq + 1)) end.

(** When a packet was lost the connection is stuck: every packet with another number than
    the expected one is answered with an error and nothing else happens, so the expected number
    never changes. *)
Theorem lost_packet_blocks ps : forall w, depth <> 0%nat -> can_send w -> 1 <= peer_recv_size (bcwl_env w) -> handshake_success (bcwl_env w) = true ->
  0 <= send_seq (bcwl_env w) < 2 ^ 8 -> (forall p, p ∈ ps -> 4 <= zlen p /\ nthb p 1 <> recv_seq (bcwl_env w) /\ BCWL_FLAG_IS_REQ_ACK (nthb p 0) = false) ->
  exists w', deliver (conn_id (bcwl_env w)) ps w = (w', inr tt) /\ sends w w' (reports (length ps) (send_seq (bcwl_env w))).
Proof.
  induction ps as [|p ps IH]; intros w Hd Hs Hr Hh Hb Hp; cbn [deliver length reports].
  { exists w. split; [done|]. exists []. split; [|done]. destruct w as [[]]. unfold with_calls, with_env, set_send_seq. cbn in *.
    by rewrite app_nil_r, zlen_nil, Z.add_0_r, wrap_small. }
  destruct (Hp p) as (Hz & Hq & Ha); [by left|]. destruct (report_ok mem_ok BCWL_ERR_SEQUENCE_ERROR w Hd Hs Hr) as (w1 & E1 & S1).
  assert (bcwl_receive p (zlen p) w = (w1, inr tt)) as E2.
  { unfold bcwl_receive. case_bool (zlen p <? SIZEOF_HEADER); [unfold SIZEOF_HEADER in *; lia|]. do 4 (erewrite bnd_ok by (apply byte_ok; lia)).
    unfold env. rewrite bnd_assoc, bnd_get, bnd_ret, Hh. cbn [negb andb]. rewrite Ha, bnd_ret, bnd_assoc, bnd_get, bnd_ret.
    rewrite (proj2 (Z.eqb_neq _ _) Hq). exact E1. }
  erewrite bnd_ok by (rewrite msg_cb_is; exact E2). destruct (sends_facts _ _ _ S1) as (_ & _ & F3). pose proof (sends_can_send _ _ _ S1 Hs) as Hs1.
  destruct (IH w1) as (w2 & E3 & S2); try done; try (by destruct S1 as (? & -> & _)).
  { rewrite F3. apply (u8_range). } { intros q Hq'. destruct S1 as (? & -> & _). apply Hp. by right. }
  exists w2. split; [by destruct S1 as (? & -> & _)|]. rewrite F3, zlen_singleton in S2. by eapply (sends_trans _ _ _ [_]).
Qed.

End Faults.
(** ** Closed examples *)

#[export] Instance example : Env := {|
  answer l := match last l with Some (sys_malloc _) => 1 | Some (ble_gatts_mtu_get _) => 247 | _ => 0 end;
  wifi_netlink_scan_results_get _ := None;
  vif_idx_to_wvif _ := mk_view [] [] 0 None 0 0 [] [] 0 0 0 [] 0 0 [];
  co_crc16 l init := fold_left (fun a b => u16 (31 * a + b)) l (u16 init);
  ble_internal_decode l r := map (fun b => Z.lxor b r) l;
  fill _ := 0; sizeof_scan_results := 0; depth := 8
|}.

Lemma example_mem l n : answer (l ++ [sys_malloc n]) <> 0.
Proof. unfold answer. cbn. by rewrite last_snoc. Qed.
Lemma example_mtu l c : 11 <= u16 (answer (l ++ [ble_gatts_mtu_get c])).
Proof. unfold answer. cbn. by rewrite last_snoc. Qed.

Lemma example_crc l : 0 <= co_crc16 l 0 < 2 ^ 16.
Proof.
  unfold co_crc16. cbn. assert (forall a, 0 <= a < 2 ^ 16 -> 0 <= fold_left (fun a b => u16 (31 * a + b)) l a < 2 ^ 16) as H; [|by apply H].
  induction l as [|b l IH]; intros a Ha; [done|]. apply IH, (wrap_range 16). lia.
Qed.

(** A byte is hidden by exclusive or. *)
Definition xor_with (l : list Z) (r : Z) : list Z := map (fun b => Z.lxor b r) l.
Lemma example_encoding : encoding example xor_with.
Proof.
  intros l r. split; [apply zlen_map|]. cbn. unfold xor_with. rewrite map_map. transitivity (map id l); [|apply map_id]. apply map_ext.
  intros b. by rewrite Z.lxor_assoc, Z.lxor_nilpotent, Z.lxor_0_r.
Qed.

(** A connection after the handshake, with packets of 14 bytes. *)
Definition idle_env (recv send : Z) : bcwl_env_t := mk_env 1 0 0 false 1 BLE_ADV_STATE_START recv send None 0 0 14 512 true.
Definition idle (recv send : Z) : world := mk_world (idle_env recv send) [] true false.
Definition long_message : list Z := seqZ 1 100.

Lemma courier_round_trip_witness : connected example (idle 3 7) (idle 7 3) /\ zlen long_message = 100 /\
  exists wp' ps wm' rest fin, bcwl_send 64 long_message (zlen long_message) (idle 3 7) = (wp', inr tt) /\ sends (idle 3 7) wp' ps /\
    deliver 0 ps (idle 7 3) = (bcwl_msg_handler 64 (long_message ++ rest) (zlen long_message) ;;; fin) wm' /\
    recv_seq (bcwl_env wm') = send_seq (bcwl_env wp') /\ send_seq (bcwl_env wm') = 3 /\
    packets (calls wm') = [] /\ (fin = finish \/ fin = ret tt /\ offset (bcwl_env wm') = 0).
Proof.
  assert (connected example (idle 3 7) (idle 7 3)) as H by (split; try done; split; done). split; [exact H|]. split; [reflexivity|].
  apply (courier_round_trip example example example_mem example_mem ltac:(reflexivity) example_crc 64 long_message (idle 3 7) (idle 7 3) H). split; reflexivity || (intros X; discriminate X).
Defined.

Definition my_name : list Z := [104; 111; 109; 101].
Definition my_password : list Z := seqZ 97 20.


Lemma long_start_overflows_witness : zlen (seqZ 0 100) = 100 /\
  snd (bcwl_gatts_msg_cb 0 BCW_IDX_WRITE (packet (fun l => co_crc16 l 0) BCWL_FLAG_BEGIN_MASK 7 66 (len_bytes 4 ++ seqZ 0 100)) (idle 7 3)) = inl Bounds.
Proof.
  split; [reflexivity|]. apply (long_start_overflows example_mem example_crc 7 66 4 (seqZ 0 100) (idle 7 3)); try reflexivity; split; reflexivity || (intros X; discriminate X).
Defined.

Lemma long_name_overflows_witness : zlen (seqZ 65 40) = 40 /\
  let m := connect_message xor_with (seqZ 65 40) my_password 90 in snd (bcwp_wifi_connect m (zlen m) (idle 7 3)) = inl Bounds.
Proof.
  split; [reflexivity|]. apply (long_name_overflows xor_with (seqZ 65 40) my_password 90 (idle 7 3) example_encoding); [split|]; intros X; discriminate X.
Defined.

Lemma small_mtu_hangs_witness :
  exists w1 nm rsp, zlen rsp = 4 /\
    bcwl_gatts_msg_cb 0 BCW_IDX_WRITE (packet (fun l => co_crc16 l 0) 3 7 HANDSHAKE (le_enc 2 11 ++ le_enc 2 512)) (idle 7 3) = send_loop nm 4 HANDSHAKE rsp 4 4 w1 /\
    forall turns, snd (send_loop nm turns HANDSHAKE rsp 4 4 w1) = inl Hang.
Proof.
  apply (small_mtu_hangs example_mem example_crc 7 512 (idle 7 3)).
  - intros X; discriminate X.
  - reflexivity.
  - intros X; discriminate X.
  - split; [intros X; discriminate X|reflexivity].
  - intros l. apply example_mtu.
Defined.

(** The first packet of the message was lost. *)
Lemma lost_packet_blocks_witness :
  let ps := tail (message_packets (fun l => co_crc16 l 0) 14 7 64 long_message) in length ps = 7%nat /\
  exists w', deliver 0 ps (idle 7 3) = (w', inr tt) /\ sends (idle 7 3) w' (reports 7 3).
Proof.
  split; [reflexivity|]. refine (lost_packet_blocks example_mem _ (idle 7 3) _ _ _ _ _ _).
  - intros X; discriminate X.
  - split; [intros X; discriminate X|split; [intros X; discriminate X|reflexivity]].
  - intros X; discriminate X.
  - reflexivity.
  - split; [intros X; discriminate X|reflexivity].
  - intros p Hp. match type of Hp with _ ∈ ?l => let l' := eval vm_compute in l in change (p ∈ l') in Hp end.
    repeat (apply elem_of_cons in Hp as [->|Hp]; [split; [intros X; discriminate X|split; [intros X; discriminate X|reflexivity]]|]). by apply elem_of_nil in Hp.
Defined.

End CourierProps.
