(* ===== verification/CourierAny.v ===== *)
(** * The blue courier: any packets

    Whatever a phone sends that tells the truth about the lengths in its packets: the module
    returns, has stayed within its memory and can receive again, but for three kinds of
    messages it handles badly. *)
From S2P Require Import Prelude Crc Courier CourierSpec CourierProps.
Open Scope Z_scope.
Open Scope fw_scope.

Module CourierAny.
Import Courier CourierSpec CourierProps.

Section Module.
Context {E : Env} (mem_ok : forall l n, answer (l ++ [sys_malloc n]) <> 0) (stack : depth <> 0%nat).
(** Memory holds bytes, and decoding is done in place. *)
Context (fill_byte : forall i, 0 <= fill i < 256).
Context (decode_len : forall l r, zlen (ble_internal_decode l r) = zlen l).
Context (decode_bytes : forall l r, bytes l -> 0 <= r < 256 -> bytes (ble_internal_decode l r)).

Lemma bytes_fresh n : bytes (fresh n).
Proof. unfold fresh. apply Forall_map, Forall_forall. intros i _. apply fill_byte. Qed.
#[local] Hint Resolve bytes_fresh bytes_slice bytes_splice : core.

(** ** What keeps the module safe *)

(** A buffer that is being filled holds bytes and has the announced length. *)
Definition link_ok (e : bcwl_env_t) : Prop :=
  0 <= offset e /\ (offset e = 0 \/ exists b, recv_buf e = Some b /\ bytes b /\ zlen b = total_len e /\ offset e <= total_len e <= BCW_VALUE_LEN).

(** A packet with all the bytes it says it has, the first of a message with no more than it announces. *)
Definition honest (pkt : list Z) : Prop :=
  bytes pkt /\ SIZEOF_HEADER + nthb pkt 3 + 2 <= zlen pkt /\
  (BCWL_FLAG_IS_BEGIN (nthb pkt 0) = true -> BCWL_FLAG_IS_END (nthb pkt 0) = false -> 2 <= nthb pkt 3 <= le_dec (slice SIZEOF_HEADER 2 pkt) + 2).

Record link_inv (w : world) : Prop := { li_link : link_ok (bcwl_env w); li_sends : can_send w; li_room : peer_recv_size (bcwl_env w) <= BCW_VALUE_LEN }.

(** The module has returned, or handles a message that lies within the memory it came in. *)
Definition stays (r : world * (fault + unit)) : Prop :=
  exists w1, link_inv w1 /\ (r = (w1, inr tt) \/
    exists op d n fin, bytes d /\ 0 <= n <= zlen d /\ n <= BCW_VALUE_LEN /\ (fin = ret tt \/ fin = finish) /\ r = (bcwl_msg_handler op d n ;;; fin) w1).
Definition in_bounds (m : C unit) (w : world) : Prop := stays (m w).

(** A connection begins so, once the phone has asked for notifications. *)
Lemma new_connection_inv conn cfg w w1 w2 : le_dec cfg <> 0 -> zlen cfg = 2 ->
  bcwl_conn_evt_handler true (adv_idx (bcwl_env w)) conn w = (w1, inr tt) -> bcwl_gatts_msg_cb conn BCW_IDX_NTF_CFG cfg w1 = (w2, inr tt) -> link_inv w2.
Proof.
  intros Hc Hz E1 E2. unfold bcwl_conn_evt_handler, env, env_mod in E1. rewrite bnd_assoc, bnd_get, bnd_ret, Z.eqb_refl in E1. injection E1 as <-.
  unfold bcwl_gatts_msg_cb, env, env_mod in E2. rewrite bnd_assoc, bnd_get, bnd_ret in E2. cbn [bcwl_env conn_id] in E2. rewrite Z.eqb_refl, Hz in E2. injection E2 as <-.
  split; [split; [done|by left]|by split|done].
Qed.

Lemma sends_inv w w' ps : sends w w' ps -> link_inv w -> link_inv w'.
Proof. intros S [H1 H2 H3]. pose proof (sends_can_send _ _ _ S H2). by destruct S as (k & -> & _). Qed.

(** [m] returns and the module can receive again. *)
Definition keeps (m : C unit) : Prop := forall w, link_inv w -> exists w', m w = (w', inr tt) /\ link_inv w'.

Lemma keeps_send op data : 0 < zlen data -> keeps (bcwl_send op data (zlen data)).
Proof.
  intros Hl w H. destruct (Z.le_gt_cases (zlen data) (peer_recv_size (bcwl_env w))) as [Hle|Hgt].
  - pose proof (li_room _ H) as Hr. unfold BCW_VALUE_LEN in Hr. destruct (send_message mem_ok op data w stack (li_sends _ H)) as (w' & E1 & S1); [lia|lia|].
    exists w'. split; [exact E1|by eapply sends_inv].
  - exists w. split; [|done]. unfold bcwl_send. destruct depth; [done|]. cbn [bcwl_send_at]. unfold env. rewrite bnd_assoc, bnd_get, bnd_ret.
    by case_bool (peer_recv_size (bcwl_env w) <? zlen data); [|lia].
Qed.

Lemma report_in_bounds x w : link_inv w -> in_bounds (bcwl_error_report x) w.
Proof. intros H. destruct (keeps_send ERROR_REPORT [x] ltac:(done) w H) as (w1 & E1 & H1). exists w1. by split; [|left]. Qed.

Lemma err_recv_in_bounds x w : can_send w -> peer_recv_size (bcwl_env w) <= BCW_VALUE_LEN -> in_bounds (err_recv x) w.
Proof.
  intros Hs Hr. unfold in_bounds, err_recv, env_mod. rewrite bnd_modify. apply report_in_bounds.
  split; [split; [done|by left]|by destruct Hs; split|done].
Qed.

Lemma start_in_bounds pkt w : link_inv w -> honest pkt -> BCWL_FLAG_IS_BEGIN (nthb pkt 0) = true -> BCWL_FLAG_IS_END (nthb pkt 0) = false ->
  in_bounds (recv_start pkt (nthb pkt 3)) w.
Proof.
  intros [H1 H2 H3] (Hb & Hz & Hh) F1 F2. specialize (Hh F1 F2). pose proof (bytes_nthb pkt 3 Hb). unfold SIZEOF_HEADER in *. set (n := nthb pkt 3) in *. set (t := le_dec (slice 4 2 pkt)) in *.
  unfold in_bounds, recv_start, env. rewrite bnd_assoc, bnd_get, bnd_ret. case_bool (offset (bcwl_env w) =? 0); [|by apply err_recv_in_bounds]. cbn [negb].
  unfold SIZEOF_HEADER. erewrite bnd_ok by (apply read_ok; lia). fold t. unfold env_mod at 1. rewrite bnd_modify. case_bool (BCW_VALUE_LEN <? t); [apply err_recv_in_bounds; [by destruct H2; split|done]|].
  erewrite bnd_ok by (by apply malloc_ok). cbn [negb]. erewrite bnd_ok by (apply read_ok; lia).
  assert (zlen (slice (4 + 2) (n - 2) pkt) = n - 2) as Hn by (apply zlen_slice; lia). erewrite bnd_ok by (apply write_ok; rewrite ?zlen_fresh_mem; lia).
  eexists. split; [|by left]. bool_to_prop. rewrite wrap_small by lia. split; [|by destruct H2; split|done]. unfold link_ok. cbn [bcwl_env offset set_recv recv_buf total_len]. split; [lia|]. right. eexists. split; [reflexivity|]. split; [auto|].
  rewrite zlen_splice; rewrite ?zlen_fresh_mem; lia.
Qed.

Lemma continue_in_bounds pkt w : link_inv w -> honest pkt -> in_bounds (recv_continue pkt (nthb pkt 3)) w.
Proof.
  intros [(Ho & H1) H2 H3] (Hb & Hz & _). pose proof (bytes_nthb pkt 3 Hb). unfold SIZEOF_HEADER in *. set (n := nthb pkt 3) in *.
  unfold in_bounds, recv_continue, env. rewrite bnd_assoc, bnd_get, bnd_ret. case_bool (offset (bcwl_env w) =? 0); [by apply err_recv_in_bounds|]. cbn [orb].
  case_bool (total_len (bcwl_env w) <=? offset (bcwl_env w) + n); [by apply err_recv_in_bounds|]. bool_to_prop. destruct H1 as [?|(b & Eb & Hbb & Hl & Ht)]; [lia|].
  unfold SIZEOF_HEADER. erewrite bnd_ok by (apply read_ok; lia). unfold buffer. rewrite Eb, bnd_ret.
  assert (zlen (slice 4 n pkt) = n) as Hn by (apply zlen_slice; lia). erewrite bnd_ok by (apply write_ok; lia).
  unfold BCW_VALUE_LEN in *. eexists. split; [|by left]. rewrite wrap_small by lia. split; [|by destruct H2; split|done]. unfold link_ok. cbn [bcwl_env offset set_recv recv_buf total_len]. split; [lia|]. right. eexists. split; [reflexivity|]. split; [auto|].
  rewrite zlen_splice; unfold BCW_VALUE_LEN; lia.
Qed.

Lemma end_in_bounds pkt op w : link_inv w -> honest pkt -> in_bounds (recv_end pkt op (nthb pkt 3)) w.
Proof.
  intros [(Ho & H1) H2 H3] (Hb & Hz & _). pose proof (bytes_nthb pkt 3 Hb). unfold SIZEOF_HEADER in *. set (n := nthb pkt 3) in *.
  unfold in_bounds, recv_end, env. rewrite bnd_assoc, bnd_get, bnd_ret. case_bool (offset (bcwl_env w) =? 0); [by apply err_recv_in_bounds|]. cbn [orb].
  case_bool (offset (bcwl_env w) + n =? total_len (bcwl_env w)); [|by apply err_recv_in_bounds]. bool_to_prop. cbn [negb]. destruct H1 as [?|(b & Eb & Hbb & Hl & Ht)]; [lia|].
  unfold SIZEOF_HEADER. erewrite bnd_ok by (apply read_ok; lia). unfold buffer. rewrite Eb, bnd_ret.
  assert (zlen (slice 4 n pkt) = n) as Hn by (apply zlen_slice; lia). erewrite bnd_ok by (apply write_ok; lia). unfold env_mod at 1. rewrite bnd_modify.
  assert (zlen (splice (offset (bcwl_env w)) (slice 4 n pkt) b) = zlen b) as Hs by (apply zlen_splice; lia).
  eexists. split; [|right; eexists op, (splice (offset (bcwl_env w)) (slice 4 n pkt) b), (total_len (bcwl_env w)), finish; split; [auto|]; split; [|split; [|split; [by right|reflexivity]]]; lia].
  split; [|by destruct H2; split|done]. unfold link_ok. cbn [bcwl_env offset set_recv recv_buf total_len]. split; [lia|]. right. eexists. split; [reflexivity|]. split; [auto|]. lia.
Qed.

(** A packet is taken in. *)
Lemma receive_stays pkt w : link_inv w -> zlen pkt < SIZEOF_HEADER \/ honest pkt -> in_bounds (bcwl_receive pkt (zlen pkt)) w.
Proof.
  intros Hw Hp. unfold in_bounds, bcwl_receive. case_bool (zlen pkt <? SIZEOF_HEADER); [by apply report_in_bounds|].
  destruct Hp as [?|Hp]; [bool_to_prop; lia|]. pose proof Hp as (Hb & Hz & _). pose proof (bytes_nthb pkt 3 Hb). bool_to_prop. unfold SIZEOF_HEADER in *.
  do 4 (erewrite bnd_ok by (apply byte_ok; lia)). unfold env. rewrite bnd_assoc, bnd_get, bnd_ret.
  match goal with |- context [if ?b then bcwl_error_report BCWL_ERR_NO_HANDSHAKE else _] => destruct b end; [by apply report_in_bounds|].
  assert (exists w2, (if BCWL_FLAG_IS_REQ_ACK (nthb pkt 0) then bcwl_send_ack (nthb pkt 1) else ret tt) w = (w2, inr tt) /\ link_inv w2) as (w2 & E2 & H2).
  { destruct (BCWL_FLAG_IS_REQ_ACK (nthb pkt 0)); [|by exists w]. by apply (keeps_send _ [nthb pkt 1]). }
  erewrite bnd_ok by exact E2. rewrite bnd_assoc, bnd_get, bnd_ret. destruct (nthb pkt 1 =? recv_seq (bcwl_env w2)); cbn [negb]; [|by apply report_in_bounds].
  unfold env_mod at 1. rewrite bnd_modify. set (w3 := mk_world _ _ _ _). unfold SIZEOF_HEADER. erewrite bnd_ok by (apply read_ok; lia). erewrite bnd_ok by (apply read_ok; lia).
  assert (link_inv w3) as H3 by (destruct H2 as [? [] ?]; by split).
  match goal with |- context [if ?b then err_recv _ else _] => destruct b end; [destruct H3; by apply err_recv_in_bounds|].
  destruct (BCWL_FLAG_IS_BEGIN (nthb pkt 0)) eqn:F1; destruct (BCWL_FLAG_IS_END (nthb pkt 0)) eqn:F2; [| by apply start_in_bounds|by apply end_in_bounds|by apply continue_in_bounds].
  exists w3. split; [done|]. right. eexists _, _, _, (ret tt). split; [|split; [|split; [|split; [by left|by rewrite bnd_ret_r]]]].
  - by apply bytes_slice.
  - rewrite zlen_slice; lia.
  - unfold BCW_VALUE_LEN. lia.
Qed.

(** ** The handlers *)

Lemma keeps_nothing_done : keeps (ret tt).
Proof. intros w H. by exists w. Qed.

Lemma keeps_do k (f : Z -> C unit) : (forall a, keeps (f a)) -> keeps (bnd (do k) f).
Proof. intros Hf w [H1 [] H3]. erewrite bnd_ok by apply do_is. apply Hf. by split. Qed.

Lemma keeps_seq m1 m2 : keeps m1 -> keeps m2 -> keeps (m1 ;;; m2).
Proof. intros H1 H2 w H. destruct (H1 w H) as (w1 & E1 & I1). erewrite bnd_ok by exact E1. by apply H2. Qed.

Lemma keeps_finish : keeps finish.
Proof. intros w [H1 [] H3]. eexists. split; [reflexivity|]. split; [split; [done|by left]|by split|done]. Qed.

Lemma keeps_report x : keeps (bcwl_error_report x).
Proof. by apply (keeps_send _ [x]). Qed.

Lemma keeps_data subtype data : 0 < zlen data -> keeps (send_data subtype data).
Proof. apply keeps_send. Qed.

#[local] Hint Resolve keeps_nothing_done keeps_do keeps_seq keeps_finish keeps_report : core.
#[local] Hint Extern 2 (keeps (send_data _ _)) => by apply keeps_data : core.

(** The message with its contents decoded. *)
Definition decoded (n : Z) (d : list Z) : list Z :=
  ble_internal_decode (slice 0 (n - 1) d) (nthb d (n - 1)) ++ slice (n - 1) (zlen d - (n - 1)) d.

Lemma decode_is n d w : 0 < n <= zlen d -> decode d n w = (w, inr (decoded n d)).
Proof. intros Hn. unfold decode. erewrite bnd_ok by (apply byte_ok; lia). by erewrite bnd_ok by (apply read_ok; lia). Qed.

Lemma decoded_facts n d : 0 < n <= zlen d -> bytes d -> zlen (decoded n d) = zlen d /\ bytes (decoded n d).
Proof.
  intros Hn Hb. unfold decoded. rewrite zlen_app, decode_len, !zlen_slice by lia. split; [lia|].
  apply bytes_app. split; [|by apply bytes_slice]. apply decode_bytes; [by apply bytes_slice|by apply bytes_nthb].
Qed.

(** A name that is longer than its array, or that says it ends behind the message, is not refused. *)
Definition bad_name (n : Z) (d : list Z) : bool :=
  let l := nthb (decoded n d) 0 in
  (0 <? n) && (l <=? n) && (l <=? WPA_MAX_PSK_LEN) && ((MAC_SSID_LEN <? l) || (zlen d <=? l + 1)).

Lemma credentials_stay d n extra w : 0 < n <= zlen d -> bytes d -> 3 <= extra -> bad_name n d = false ->
  exists r, credentials (decoded n d) n extra w = (w, inr r) /\
    match r with Some (a, b, _, _) => 0 <= a /\ 0 <= b /\ a + b + extra = n | None => True end.
Proof.
  intros Hn Hb He. unfold bad_name, MAC_SSID_LEN, WPA_MAX_PSK_LEN. destruct (decoded_facts n d Hn Hb) as [Hz Hd]. set (l := decoded n d) in *.
  pose proof (bytes_nthb l 0 Hd) as H0. set (a := nthb l 0) in *. intros Hbad. unfold credentials. erewrite bnd_ok by (apply byte_ok; lia). fold a.
  unfold WPA_MAX_PSK_LEN. destruct ((n <? a) || (63 <? a)) eqn:Ea; [by exists None|]. apply orb_false_iff in Ea as [A1 A2]. apply Z.ltb_ge in A1, A2.
  rewrite (proj2 (Z.ltb_lt 0 n)), (proj2 (Z.leb_le a n)), (proj2 (Z.leb_le a 63)) in Hbad by lia. cbn [andb] in Hbad.
  apply orb_false_iff in Hbad as [B1 B2]. apply Z.ltb_ge in B1. apply Z.leb_gt in B2. rewrite <- Hz in B2.
  erewrite bnd_ok by (apply byte_ok; lia). pose proof (bytes_nthb l (a + 1) Hd) as Hb1. set (b := nthb l (a + 1)) in *.
  destruct (negb (a + b + extra =? n) || (63 <? b)) eqn:Eb; [by exists None|]. apply orb_false_iff in Eb as [C1 C2].
  apply negb_false_iff, Z.eqb_eq in C1. apply Z.ltb_ge in C2. unfold MAC_SSID_LEN.
  assert (zlen (slice 1 a l) = a) as Z1 by (apply zlen_slice; lia). assert (zlen (slice (a + 2) b l) = b) as Z2 by (apply zlen_slice; lia).
  erewrite bnd_ok by (apply read_ok; lia). erewrite bnd_ok by (apply write_ok; rewrite ?zlen_fresh_mem; lia).
  erewrite bnd_ok by (apply write_ok; [lia|rewrite zlen_splice; rewrite ?zlen_fresh_mem, ?zlen_singleton; lia]).
  destruct (b =? 0); [eexists; split; [reflexivity|cbn; lia]|].
  erewrite bnd_ok by (apply read_ok; lia). erewrite bnd_ok by (apply write_ok; rewrite ?zlen_fresh_mem; lia).
  erewrite bnd_ok by (apply write_ok; [lia|rewrite zlen_splice; rewrite ?zlen_fresh_mem, ?zlen_singleton; lia]).
  eexists. split; [reflexivity|cbn; lia].
Qed.

Lemma keeps_connect d n : 0 <= n <= zlen d -> bytes d -> bad_name n d = false -> keeps (bcwp_wifi_connect d n).
Proof.
  intros Hn Hb Hg w H. unfold bcwp_wifi_connect. destruct (Z.leb_spec n 0); [by apply keeps_data|].
  erewrite bnd_ok by (apply decode_is; lia). destruct (credentials_stay d n 3 w) as (r & Er & _); [lia|done|lia|done|].
  erewrite bnd_ok by exact Er. destruct r as [[[[? ?] s] p]|]; [|by apply keeps_data].
  revert w H Er. assert (keeps (do (eloop_event_register WIFI_MGMT_EVENT_DHCP_SUCCESS) ;;; let! r := do (wifi_management_connect s p) in
    if negb (r =? 0) then send_data BCWL_OPCODE_DATA_SUBTYPE_STAMODE_CONNECT [1] else ret tt)) as K; [|intros w H _; by apply K].
  apply keeps_do. intros _. apply keeps_do. intros a. destruct (negb (a =? 0)); auto.
Qed.

Lemma keeps_ap_start d n : 0 <= n <= zlen d -> bytes d -> bad_name n d = false -> keeps (bcwp_wifi_ap_start d n).
Proof.
  intros Hn Hb Hg w H. unfold bcwp_wifi_ap_start. destruct (Z.leb_spec n 0); [by apply keeps_data|].
  erewrite bnd_ok by (apply decode_is; lia). destruct (credentials_stay d n 6 w) as (r & Er & Hr); [lia|done|lia|done|].
  erewrite bnd_ok by exact Er. destruct r as [[[[a b] s] p]|]; [|by apply keeps_data]. destruct (decoded_facts n d ltac:(lia) Hb) as [Hz _].
  do 3 (erewrite bnd_ok by (apply byte_ok; lia)).
  match goal with |- exists _, ?m w = _ /\ _ => assert (keeps m) as K; [|by apply K] end. apply keeps_do. intros x. by apply keeps_data.
Qed.

(** What the interface shows fits the answer. *)
Definition sane_view (v : vif_view) : Prop :=
  zlen (sta_ssid v) <= MAC_SSID_LEN + 1 /\ zlen (ap_ssid v) <= MAC_SSID_LEN + 1 /\ zlen (clients v) <= CFG_STA_NUM.
Context (views : forall l, sane_view (vif_idx_to_wvif l)).

Lemma keeps_status : keeps bcwp_wifi_status_get.
Proof.
  intros w H. unfold bcwp_wifi_status_get. rewrite bnd_get. destruct (views (calls w)) as (V1 & V2 & V3). set (v := vif_idx_to_wvif (calls w)) in *.
  assert (exists d, status_bytes v w = (w, inr d) /\ 0 < zlen d) as (d & Ed & Hd); [|erewrite bnd_ok by exact Ed; by apply keeps_data].
  unfold status_bytes, ssid_field, client_fields, CFG_STA_NUM, MAC_SSID_LEN in *. destruct (match ip v with Some a => a | None => (zeros 4, zeros 4) end) as [i g].
  assert (zlen (zeros (32 + 1)) = 33) as Hz by done.
  destruct (wvif_type v =? 1); [|destruct (wvif_type v =? 2)].
  - rewrite bnd_assoc. erewrite bnd_ok by (apply write_ok; lia). rewrite bnd_ret. eexists. split; [reflexivity|].
    rewrite <- !app_assoc, zlen_app. match goal with |- 0 < _ + zlen ?l => pose proof (zlen_nonneg l) end. change (zlen [0]) with 1. lia.
  - rewrite bnd_assoc. erewrite bnd_ok by (apply write_ok; lia). rewrite bnd_ret. case_bool (3 <? zlen (clients v)); [lia|]. rewrite bnd_ret. eexists. split; [reflexivity|].
    rewrite <- !app_assoc, zlen_app. match goal with |- 0 < _ + zlen ?l => pose proof (zlen_nonneg l) end. change (zlen [0]) with 1. lia.
  - eexists. split; [reflexivity|].
    rewrite <- !app_assoc, zlen_app. match goal with |- 0 < _ + zlen ?l => pose proof (zlen_nonneg l) end. change (zlen [0]) with 1. lia.
Qed.

Lemma print_returns d n : n < 256 -> n <= zlen d -> forall fuel i w, 0 <= i -> (n - i <= Z.of_nat fuel) -> print_loop fuel d n i w = (w, inr tt).
Proof.
  intros Hn Hd. induction fuel as [|fuel IH]; intros i w Hi Hf; cbn [print_loop]; case_bool (i <? n); try done; [lia|].
  erewrite bnd_ok by (apply byte_ok; lia). rewrite wrap_small by lia. apply IH; lia.
Qed.

Lemma keeps_scan : keeps bcwp_wifi_scan.
Proof. unfold bcwp_wifi_scan. apply keeps_do. intros _. apply keeps_do. intros _. apply keeps_do. intros r. destruct (r =? -1); auto. Qed.

Lemma keeps_disconnect : keeps bcwp_wifi_disconnect.
Proof. apply keeps_do. auto. Qed.

Lemma keeps_ap_stop : keeps bcwp_wifi_ap_stop.
Proof. apply keeps_do. auto. Qed.

(** How many bytes of contents a packet has after this handshake. *)
Definition agreed_frag (w : world) (d : list Z) : Z :=
  let mtu := answer (calls w ++ [ble_gatts_mtu_get (conn_id (bcwl_env w))]) in
  u8 (Z.min (Z.min (le_dec (slice 0 2 d)) (u16 mtu)) BCW_FRAG_MAX_LEN - 9).

Lemma handshake_stays d n w : link_inv w -> 0 <= n <= zlen d -> bytes d -> n <> 4 \/ 3 <= agreed_frag w d ->
  exists w', bcwl_handle_mgmt_handshake d n w = (w', inr tt) /\ link_inv w'.
Proof.
  intros H Hn Hb Hf. unfold bcwl_handle_mgmt_handshake, SIZEOF_HANDSHAKE. case_bool (n =? 4); cbn [negb]; [|by apply keeps_report]. destruct Hf as [?|Hf]; [lia|]. bool_to_prop.
  unfold env. rewrite bnd_assoc, bnd_get, bnd_ret. erewrite bnd_ok by apply do_is. do 2 (erewrite bnd_ok by (apply read_ok; lia)). unfold env_mod. rewrite bnd_modify.
  unfold agreed_frag in Hf. set (m := Z.min _ BCW_FRAG_MAX_LEN) in *. replace (m - SIZEOF_HEADER - BLE_GATT_HEADER_LEN - 2) with (m - 9) by (unfold SIZEOF_HEADER, BLE_GATT_HEADER_LEN; lia).
  apply (keeps_send _ (le_enc 2 m ++ le_enc 2 BCW_VALUE_LEN) ltac:(done)). destruct H as [H1 [H2 H3] H4].
  split; [exact H1|split; [exact H2|]|apply Z.le_min_r]. split; [exact Hf|apply (wrap_range 8); lia].
Qed.

(** ** The messages the module handles badly *)

(** A handshake that leaves less than three bytes to a packet, after which answers are not sent
    or never end; a name that is too long; data for the application whose bytes are
    counted in a counter that is too small. *)
Definition rough (w : world) (op : Z) (d : list Z) (n : Z) : bool :=
  let sub := BCWL_OPCODE_GET_SUBTYPE op in
  if BCWL_OPCODE_GET_TYPE op =? BCWL_OPCODE_TYPE_MGMT then (sub =? BCWL_OPCODE_MGMT_SUBTYPE_HANDSHAKE) && (n =? 4) && (agreed_frag w d <? 3)
  else if BCWL_OPCODE_GET_TYPE op =? BCWL_OPCODE_TYPE_DATA then
    ((sub =? BCWL_OPCODE_DATA_SUBTYPE_STAMODE_CONNECT) || (sub =? BCWL_OPCODE_DATA_SUBTYPE_SOFTAPMODE_START)) && bad_name n d ||
    (sub =? BCWL_OPCODE_DATA_SUBTYPE_CUSTOM_DATA) && (256 <=? n)
  else false.

Lemma handler_stays op d n w : link_inv w -> 0 <= n <= zlen d -> bytes d -> rough w op d n = false ->
  exists w', bcwl_msg_handler op d n w = (w', inr tt) /\ link_inv w'.
Proof.
  intros H Hn Hb. unfold rough, bcwl_msg_handler. destruct (BCWL_OPCODE_GET_TYPE op =? BCWL_OPCODE_TYPE_MGMT).
  { destruct (BCWL_OPCODE_GET_SUBTYPE op =? BCWL_OPCODE_MGMT_SUBTYPE_HANDSHAKE); cbn [andb].
    - intros Hr. apply handshake_stays; try done. destruct (Z.eqb_spec n 4); [|by left]. right. by apply Z.ltb_ge.
    - intros _. destruct (_ || _); [by apply keeps_nothing_done|by apply keeps_report]. }
  destruct (BCWL_OPCODE_GET_TYPE op =? BCWL_OPCODE_TYPE_DATA); [|intros _; by apply keeps_report]. unfold bcwp_msg_handler. generalize (BCWL_OPCODE_GET_SUBTYPE op). intros s.
  intros [Hg Hc]%orb_false_iff. destruct (s =? BCWL_OPCODE_DATA_SUBTYPE_GET_SCAN_LIST); [by apply keeps_scan|].
  destruct (s =? BCWL_OPCODE_DATA_SUBTYPE_STAMODE_CONNECT); [by apply keeps_connect|]. destruct (s =? BCWL_OPCODE_DATA_SUBTYPE_STAMODE_DISCONNECT); [by apply keeps_disconnect|].
  destruct (s =? BCWL_OPCODE_DATA_SUBTYPE_SOFTAPMODE_START); [by apply keeps_ap_start|]. destruct (s =? BCWL_OPCODE_DATA_SUBTYPE_SOFTAPMODE_STOP); [by apply keeps_ap_stop|].
  destruct (s =? BCWL_OPCODE_DATA_SUBTYPE_STATUS_GET); [by apply keeps_status|]. destruct (s =? BCWL_OPCODE_DATA_SUBTYPE_CUSTOM_DATA); [|by apply keeps_nothing_done].
  cbn [andb] in Hc. apply Z.leb_gt in Hc. exists w. split; [|done]. apply print_returns; lia.
Qed.


End Module.
(** ** A closed example *)

#[local] Existing Instance example.

Lemma example_fill i : 0 <= fill i < 256.
Proof. split; [intros X; discriminate X|reflexivity]. Qed.
Lemma example_decode_len l r : zlen (ble_internal_decode l r) = zlen l.
Proof. apply zlen_map. Qed.
Lemma example_decode_bytes l r : bytes l -> 0 <= r < 256 -> bytes (ble_internal_decode l r).
Proof. intros Hl Hr. apply Forall_map. eapply Forall_impl; [exact Hl|]. intros b Hb. by apply (lxor_range 8). Qed.
Lemma example_views l : sane_view (vif_idx_to_wvif l).
Proof. split; [|split]; intros X; discriminate X. Qed.

(** The first packet of a message of 100 bytes. *)
Definition honest_packet : list Z := packet (fun l => co_crc16 l 0) 1 7 66 (len_bytes 100 ++ seqZ 1 12).


End CourierAny.
