(* ===== verification/Tools.v ===== *)
(** * The small tools

    Model of [src/tuyaos/tuyaos_adapter/include/utilities/src/tuya_tools.c]: strings,
    number and hexadecimal conversions, sorting, bit counts and sums, on buffers with
    bounds; and what they compute. *)
From S2P Require Import Prelude.
Open Scope Z_scope.

Module Tools.

(** ** Buffers

    A buffer is the bytes from the pointer to the end of its object; an access outside,
    or a loop that does not end, is [None]. *)
Definition rd (l : list Z) (i : Z) : option Z := if i <? 0 then None else l !! Z.to_nat i.
Definition wr (l : list Z) (i v : Z) : option (list Z) :=
  _ ← rd l i; Some (<[Z.to_nat i := v]> l).

(** [for (i = lo; i < lo + n; i++)]. *)
Fixpoint for_up {A} (n : nat) (i : Z) (f : Z -> A -> option A) (a : A) : option A :=
  match n with O => Some a | S n => a ← f i a; for_up n (i + 1) f a end.

(** ** Strings *)

Definition terminated (l : list Z) : bool := existsb (Z.eqb 0) l.

Definition tuya_strlen (str : list Z) : option Z := if terminated str then Some (strlen str) else None.

(** The bytes of [s] stored from [i] on. *)
Definition blit (dst : list Z) (i : Z) (s : list Z) : option (list Z) :=
  if i + zlen s <=? zlen dst then Some (splice i s dst) else None.

Definition tuya_strcpy (dst src : list Z) : option (list Z) :=
  if terminated src then blit dst 0 (cstr src ++ [0]) else None.
Definition tuya_strcat (dst src : list Z) : option (list Z) :=
  if terminated src && terminated dst then blit dst (strlen dst) (cstr src ++ [0]) else None.

Definition __TOLOWER (c : Z) : Z := if (65 <=? c) && (c <=? 90) then c - 65 + 97 else c.

Fixpoint ncase_loop (p1 p2 : list Z) (n cnt : Z) : option Z :=
  match p1, p2 with
  | c1 :: p1, c2 :: p2 =>
      let result := __TOLOWER c1 - __TOLOWER c2 in
      if result =? 0 then
        let cnt := cnt + 1 in
        if n <=? cnt then Some result
        else if c1 =? 0 then Some (-1)
        else if c2 =? 0 then Some 1
        else ncase_loop p1 p2 n cnt
      else Some result
  | _, _ => None
  end.

(** [same] tells whether the two pointers are equal. *)
Definition tuya_strncasecmp (same : bool) (s1 s2 : list Z) (n : Z) : option Z :=
  if same then Some 0 else ncase_loop s1 s2 n 0.

Fixpoint strcmp_loop (src dst : list Z) : option Z :=
  match src, dst with
  | a :: src, b :: dst =>
      let ret := a - b in
      if (ret =? 0) && negb (b =? 0) then strcmp_loop src dst else Some ret
  | _, _ => None
  end.

Definition tuya_strcmp (src dst : list Z) : option Z :=
  ret ← strcmp_loop src dst; Some (if ret <? 0 then -1 else if 0 <? ret then 1 else ret).

Fixpoint find_back (n : nat) (str : list Z) (ch i : Z) : option Z :=
  match n with
  | O => Some (-2)
  | S n =>
      if 0 <=? i then
        c ← rd str i; if c =? ch then Some i else find_back n str ch (i - 1)
      else Some (-2)
  end.

(** [None] for [str] is [NULL]. *)
Definition tuya_find_char_with_reverse_idx (str : option (list Z)) (index ch : Z) : option Z :=
  match str with
  | None => Some (-1)
  | Some str =>
      len ← tuya_strlen str;
      if len <=? index then Some (-1)
      else find_back (Z.to_nat (len - index)) str ch (len - 1 - index)
  end.

(** ** Hexadecimal *)

Definition tuya_asc2hex (asccode : Z) : Z :=
  if (48 <=? asccode) && (asccode <=? 57) then u8 (asccode - 48)
  else if (97 <=? asccode) && (asccode <=? 102) then u8 (asccode - 97 + 10)
  else if (65 <=? asccode) && (asccode <=? 70) then u8 (asccode - 65 + 10)
  else 0.

Definition tuya_ascs2hex (hex ascs : list Z) (srclen : Z) : option (list Z) :=
  let lenstr := if negb (Z.rem srclen 2 =? 0) then srclen - Z.rem srclen 2 else srclen in
  if lenstr =? 0 then Some hex
  else
    for_up (Z.to_nat (lenstr / 2)) 0 (fun k hex =>
      let i := 2 * k in
      a ← rd ascs i; let h4 := tuya_asc2hex a in
      b ← rd ascs (i + 1); let l4 := tuya_asc2hex b in
      wr hex (i / 2) (u8 (Z.shiftl h4 4 + l4))) hex.

Definition hex_char (d : Z) : Z := let c := u8 (48 + d) in if 57 <? c then u8 (c + 7) else c.

Definition tuya_hex2str (str hex : list Z) (hexlen : Z) : option (list Z) :=
  str ← for_up (Z.to_nat hexlen) 0 (fun i str =>
    h ← rd hex i;
    let ddh := hex_char (h / 16) in
    let ddl := hex_char (h mod 16) in
    str ← wr str (i * 2) ddh;
    wr str (i * 2 + 1) ddl) str;
  wr str (hexlen * 2) 0.

(** ** Decimal *)

(** [None]: out of bounds; [Some None]: [FALSE]. *)
Fixpoint str2num_loop (n : nat) (str : list Z) (i value : Z) : option (option Z) :=
  match n with
  | O => Some (Some value)
  | S n =>
      c ← rd str i;
      if (48 <=? c) && (c <=? 57) then str2num_loop n str (i + 1) (u32 (value * 10 + (c - 48))) else Some None
  end.
Definition tuya_str2num (str : list Z) (len : Z) : option (option Z) := str2num_loop (Z.to_nat len) str 0 0.

(** The loop with its 8-bit counter. *)
Fixpoint array2int_loop (n : nat) (arr : list Z) (i top num : Z) : option Z :=
  match n with
  | O => None
  | S n =>
      if i <? top then d ← rd arr i; array2int_loop n arr (u8 (i + 1)) top (u32 (u32 (num * 10) + d)) else Some num
  end.

(** 256 turns of the counter without an end are an endless loop. *)
Definition tuya_intArray2int (arr : list Z) (index len : Z) : option Z :=
  if len <=? index then Some (2 ^ 32 - 1)
  else array2int_loop 257 arr (u8 index) (u32 (index + len)) 0.

Definition tuya_buff_reverse (buf : list Z) (len : Z) : option (list Z) :=
  for_up (Z.to_nat (len / 2)) 0 (fun i buf =>
    tmp ← rd buf i;
    x ← rd buf (len - 1 - i);
    buf ← wr buf i x;
    wr buf (len - 1 - i) tmp) buf.

(** The number of decimal digits: 32 bits have at most 10. *)
Fixpoint digits_loop (n : nat) (tmp i : Z) : option Z :=
  match n with
  | O => None
  | S n => let tmp := tmp / 10 in let i := u8 (i + 1) in if negb (tmp =? 0) then digits_loop n tmp i else Some i
  end.

Fixpoint int2array_loop (n : nat) (tmp : Z) (arr : list Z) (i : Z) : option (list Z * Z) :=
  match n with
  | O => None
  | S n =>
      if negb (tmp =? 0) then
        arr ← wr arr i (tmp mod 10); int2array_loop n (tmp / 10) arr (u8 (i + 1))
      else Some (arr, i)
  end.

(** The digits stored and their number. *)
Definition tuya_int2intArray (num : Z) (arr : list Z) (len : Z) : option (list Z * Z) :=
  i ← digits_loop 33 num 0;
  if len <? i then Some (arr, 0)
  else
    '(arr, i) ← int2array_loop 33 num arr 0;
    arr ← tuya_buff_reverse arr i;
    Some (arr, i).

Definition tuya_data_reverse (dst src : list Z) (srclen : Z) : option (list Z) :=
  for_up (Z.to_nat srclen) 0 (fun i dst => x ← rd src (srclen - 1 - i); wr dst i x) dst.

(** ** Sorting *)

(** [buf[i]] and [buf[i + 1]] exchanged if they are out of order. *)
Definition order_at (is_ascend : bool) (i : Z) (buf : list Z) : option (list Z) :=
  a ← rd buf i;
  b ← rd buf (i + 1);
  if (if is_ascend then b <? a else a <? b) then
    buf ← wr buf i b; wr buf (i + 1) a
  else Some buf.

Definition tuya_byte_sort (is_ascend : bool) (buf : list Z) (len : Z) : option (list Z) :=
  for_up (Z.to_nat (len - 1)) 1 (fun j buf =>
    for_up (Z.to_nat (len - j)) 0 (order_at is_ascend) buf) buf.

(** ** Bits and sums *)

(** Each turn clears a bit: 32 turns are enough. *)
Fixpoint bit1_loop (n : nat) (num count : Z) : option Z :=
  match n with
  | O => None
  | S n => if negb (num =? 0) then bit1_loop n (Z.land num (u32 (num - 1))) (u32 (count + 1)) else Some count
  end.
Definition tuya_bit1_count (num : Z) : option Z := bit1_loop 33 num 0.

Fixpoint zeros_loop (n : nat) (temp count : Z) : option Z :=
  match n with
  | O => None
  | S n => if negb (Z.land temp 0x80000000 =? 0) then zeros_loop n (u32 (Z.shiftl temp 1)) (u32 (count + 1)) else Some count
  end.
Definition tuya_leading_zeros_count (num : Z) : option Z := zeros_loop 33 (u32 (Z.lnot num)) 0.

Definition sum_loop (w : Z) (buf : list Z) (len : Z) : option Z :=
  for_up (Z.to_nat len) 0 (fun idx sum => b ← rd buf idx; Some (wrap w (sum + b))) 0.
Definition tuya_check_sum8 (buf : list Z) (len : Z) : option Z := sum_loop 8 buf len.
Definition tuya_check_sum16 (buf : list Z) (len : Z) : option Z := sum_loop 16 buf len.

End Tools.
