(* ===== verification/ToolsProps.v ===== *)
(** * Properties of the small tools

    Round trips of the hexadecimal and decimal conversions, sorting, and the comparison
    that does not recognise equal strings. *)
From S2P Require Import Prelude Tools.
From Stdlib Require Import Sorted.
Open Scope Z_scope.

Module ToolsProps.
Import Tools.

(** ** Access in the middle of a buffer *)

Lemma rd_mid pre x post : rd (pre ++ x :: post) (zlen pre) = Some x.
Proof.
  unfold rd. pose proof (zlen_nonneg pre). rewrite (proj2 (Z.ltb_ge _ _)) by lia.
  unfold zlen. rewrite Nat2Z.id. by rewrite lookup_app_r, Nat.sub_diag by lia.
Qed.

Lemma wr_mid pre x post v : wr (pre ++ x :: post) (zlen pre) v = Some (pre ++ v :: post).
Proof.
  unfold wr. rewrite rd_mid. cbn [mbind option_bind]. unfold zlen. rewrite Nat2Z.id.
  by rewrite insert_app_r_alt, Nat.sub_diag by lia.
Qed.

Lemma rd_at pre x post i : i = zlen pre -> rd (pre ++ x :: post) i = Some x.
Proof. intros ->. apply rd_mid. Qed.

Lemma wr_at pre x post i v : i = zlen pre -> wr (pre ++ x :: post) i v = Some (pre ++ v :: post).
Proof. intros ->. apply wr_mid. Qed.

Lemma wr_outside l i v : zlen l <= i -> wr l i v = None.
Proof.
  intros H. unfold wr, rd. destruct (Z.ltb_spec i 0); [done|].
  rewrite lookup_ge_None_2; [done|]. unfold zlen in H. lia.
Qed.

Lemma zlen_0_nil {A} (l : list A) : zlen l = 0 -> l = [].
Proof. by destruct l. Qed.

Lemma zlen_split {A} (l : list A) n : 0 <= n <= zlen l -> exists a b, l = a ++ b /\ zlen a = n.
Proof.
  intros H. exists (take (Z.to_nat n) l), (drop (Z.to_nat n) l). rewrite take_drop. split; [done|].
  by apply zlen_take.
Qed.

(** ** Hexadecimal *)

Definition hex_text (hex : list Z) : list Z := flat_map (fun b => [hex_char (b / 16); hex_char (b mod 16)]) hex.

Lemma zlen_hex_text hex : zlen (hex_text hex) = 2 * zlen hex.
Proof.
  induction hex as [|b hex IH]; [done|]. cbn [hex_text flat_map]. fold (hex_text hex).
  rewrite zlen_app, IH, !zlen_cons, zlen_nil. lia.
Qed.

Lemma asc2hex_char d : 0 <= d < 16 -> tuya_asc2hex (hex_char d) = d.
Proof.
  intros H. assert (forallb (fun d => tuya_asc2hex (hex_char d) =? d) (seqZ 0 16) = true) as E by (by vm_compute).
  rewrite forallb_forall in E. apply Z.eqb_eq, E, list_elem_of_In, elem_of_seqZ. lia.
Qed.

Lemma hex_byte b : 0 <= b < 256 ->
  u8 (Z.shiftl (tuya_asc2hex (hex_char (b / 16))) 4 + tuya_asc2hex (hex_char (b mod 16))) = b.
Proof.
  intros H. pose proof (Z.div_mod b 16). pose proof (Z.mod_pos_bound b 16).
  assert (0 <= b / 16 < 16) by (split; [apply Z.div_pos|apply Z.div_lt_upper_bound]; lia).
  rewrite !asc2hex_char, Z.shiftl_mul_pow2 by lia. rewrite wrap8_small; lia.
Qed.

Abbreviation hex2str_step hex := (fun i str =>
  h ← rd hex i;
  let ddh := hex_char (h / 16) in
  let ddl := hex_char (h mod 16) in
  str ← wr str (i * 2) ddh;
  wr str (i * 2 + 1) ddl).

Lemma hex2str_loop (todo done0 pre mid post : list Z) :
  zlen pre = 2 * zlen done0 -> zlen mid = 2 * zlen todo ->
  for_up (length todo) (zlen done0) (hex2str_step (done0 ++ todo)) (pre ++ mid ++ post)
    = Some (pre ++ hex_text todo ++ post).
Proof.
  revert done0 pre mid. induction todo as [|h todo IH]; intros done0 pre mid Hp Hm.
  { by rewrite (zlen_0_nil mid Hm). }
  rewrite zlen_cons in Hm. pose proof (zlen_nonneg todo).
  destruct mid as [|x [|y mid]]; rewrite ?zlen_cons, ?zlen_nil in Hm; try lia.
  cbn [length for_up]. rewrite rd_at by done. cbn [mbind option_bind app].
  rewrite wr_at by lia. cbn [mbind option_bind].
  change (pre ++ hex_char (h / 16) :: y :: mid ++ post) with (pre ++ [hex_char (h / 16)] ++ y :: mid ++ post).
  rewrite app_assoc, wr_at by (rewrite zlen_app, zlen_singleton; lia). cbn [mbind option_bind].
  replace (zlen done0 + 1) with (zlen (done0 ++ [h])) by (rewrite zlen_app, zlen_singleton; lia).
  replace (done0 ++ h :: todo) with ((done0 ++ [h]) ++ todo) by (by rewrite <- app_assoc).
  replace ((pre ++ [hex_char (h / 16)]) ++ hex_char (h mod 16) :: mid ++ post)
    with ((pre ++ [hex_char (h / 16); hex_char (h mod 16)]) ++ mid ++ post) by (by rewrite <- !app_assoc).
  rewrite IH by (rewrite ?zlen_app, ?zlen_cons, ?zlen_nil; lia). by rewrite <- app_assoc.
Qed.

Lemma hex2str_ok hex str :
  2 * zlen hex < zlen str ->
  tuya_hex2str str hex (zlen hex) = Some (hex_text hex ++ 0 :: drop (Z.to_nat (2 * zlen hex + 1)) str).
Proof.
  intros H. pose proof (zlen_nonneg hex). destruct (zlen_split str (2 * zlen hex)) as (mid & post & -> & Hm); [lia|].
  rewrite zlen_app in H. destruct post as [|x post]; [rewrite zlen_nil in H; lia|].
  unfold tuya_hex2str. replace (Z.to_nat (zlen hex)) with (length hex) by (unfold zlen; lia).
  pose proof (hex2str_loop hex [] [] mid (x :: post)) as E. rewrite zlen_nil in E.
  cbn [app] in E. rewrite E by lia. cbn [mbind option_bind].
  rewrite wr_at by (rewrite zlen_hex_text; lia). do 2 f_equal.
  replace (Z.to_nat (2 * zlen hex + 1)) with (length mid + 1)%nat by (unfold zlen in *; lia).
  by rewrite drop_app_add.
Qed.

Abbreviation ascs2hex_step ascs := (fun k hex =>
  let i := 2 * k in
  a ← rd ascs i; let h4 := tuya_asc2hex a in
  b ← rd ascs (i + 1); let l4 := tuya_asc2hex b in
  wr hex (i / 2) (u8 (Z.shiftl h4 4 + l4))).

Lemma ascs2hex_loop (todo done0 pre mid post txt0 rest : list Z) :
  bytes todo -> zlen pre = zlen done0 -> zlen mid = zlen todo -> zlen txt0 = 2 * zlen done0 ->
  for_up (length todo) (zlen done0) (ascs2hex_step (txt0 ++ hex_text todo ++ rest)) (pre ++ mid ++ post)
    = Some (pre ++ todo ++ post).
Proof.
  revert done0 pre mid txt0. induction todo as [|h todo IH]; intros done0 pre mid txt0 Hb Hp Hm Ht.
  { by rewrite (zlen_0_nil mid Hm). }
  apply Forall_cons in Hb as [Hh Hb]. rewrite zlen_cons in Hm. pose proof (zlen_nonneg todo).
  destruct mid as [|x mid]; rewrite ?zlen_cons, ?zlen_nil in Hm; [lia|].
  cbn [length for_up hex_text flat_map app]. fold (hex_text todo). rewrite (rd_at txt0 _ _ (2 * zlen done0)) by lia. cbn [mbind option_bind].
  change (txt0 ++ hex_char (h / 16) :: hex_char (h mod 16) :: hex_text todo ++ rest)
    with (txt0 ++ [hex_char (h / 16)] ++ hex_char (h mod 16) :: hex_text todo ++ rest).
  rewrite app_assoc, rd_at by (rewrite zlen_app, zlen_singleton; lia). cbn [mbind option_bind].
  rewrite hex_byte by done. rewrite wr_at by (rewrite (Z.mul_comm 2), Z.div_mul; lia). cbn [mbind option_bind].
  replace (zlen done0 + 1) with (zlen (done0 ++ [h])) by (rewrite zlen_app, zlen_singleton; lia).
  replace ((txt0 ++ [hex_char (h / 16)]) ++ hex_char (h mod 16) :: hex_text todo ++ rest)
    with ((txt0 ++ [hex_char (h / 16); hex_char (h mod 16)]) ++ hex_text todo ++ rest) by (by rewrite <- !app_assoc).
  replace (pre ++ h :: mid ++ post) with ((pre ++ [h]) ++ mid ++ post) by (by rewrite <- !app_assoc).
  rewrite IH; try done; try (rewrite ?zlen_app, ?zlen_cons, ?zlen_nil; lia). by rewrite <- app_assoc.
Qed.

Lemma ascs2hex_ok hex rest out :
  bytes hex -> zlen hex <= zlen out ->
  tuya_ascs2hex out (hex_text hex ++ rest) (2 * zlen hex) = Some (hex ++ drop (length hex) out).
Proof.
  intros Hb H. pose proof (zlen_nonneg hex). destruct (zlen_split out (zlen hex)) as (mid & post & -> & Hm); [lia|].
  rewrite drop_app_length' by (unfold zlen in *; lia).
  unfold tuya_ascs2hex. rewrite (Z.mul_comm 2), Z.rem_mul by lia. cbn [Z.eqb negb]. rewrite Z.div_mul by lia.
  case_match; bool_to_prop.
  - by rewrite (zlen_0_nil mid), (zlen_0_nil hex) by lia.
  - replace (Z.to_nat (zlen hex)) with (length hex) by (unfold zlen; lia).
    pose proof (ascs2hex_loop hex [] [] mid post [] rest) as E. rewrite zlen_nil in E. apply E; try done; lia.
Qed.

(** Writing [n] bytes in hexadecimal needs a buffer of [2 * n + 1] bytes, one more
    than the header asks for: a smaller one is overrun, and from a large enough one
    [tuya_ascs2hex] reads back the bytes, whatever either buffer held before. *)
Theorem hex_round_trip hex str out :
  bytes hex -> zlen hex <= zlen out ->
  (2 * zlen hex < zlen str ->
   exists str', tuya_hex2str str hex (zlen hex) = Some str' /\ zlen str' = zlen str /\
     tuya_ascs2hex out str' (2 * zlen hex) = Some (hex ++ drop (length hex) out)) /\
  (zlen str = 2 * zlen hex -> tuya_hex2str str hex (zlen hex) = None).
Proof.
  intros Hb Ho. pose proof (zlen_nonneg hex). split.
  - intros Hs. eexists. split; [by apply hex2str_ok|]. split; [|by apply ascs2hex_ok].
    rewrite zlen_app, zlen_cons, zlen_drop, zlen_hex_text by lia. lia.
  - intros Hs. unfold tuya_hex2str. replace (Z.to_nat (zlen hex)) with (length hex) by (unfold zlen; lia).
    pose proof (hex2str_loop hex [] [] str []) as E. rewrite !app_nil_r, zlen_nil in E. cbn [app] in E.
    rewrite E by lia. cbn [mbind option_bind]. apply wr_outside. rewrite zlen_hex_text. lia.
Qed.

Lemma hex_round_trip_witness :
  (exists str', tuya_hex2str [1; 1; 1; 1; 1; 1] [0xa7; 0x0f] 2 = Some str' /\ zlen str' = 6 /\
     tuya_ascs2hex [9; 9; 9] str' 4 = Some [0xa7; 0x0f; 9]) /\
  tuya_hex2str [1; 1; 1; 1] [0xa7; 0x0f] 2 = None.
Proof.
  assert (bytes [0xa7; 0x0f]) as Hb by (repeat constructor; lia). split.
  - apply (proj1 (hex_round_trip [0xa7; 0x0f] [1; 1; 1; 1; 1; 1] [9; 9; 9] Hb ltac:(by vm_compute)) ltac:(by vm_compute)).
  - apply (proj2 (hex_round_trip [0xa7; 0x0f] [1; 1; 1; 1] [9; 9; 9] Hb ltac:(by vm_compute)) ltac:(by vm_compute)).
Defined.

Example hex_text_upper : tuya_hex2str [0; 0; 0; 0; 0] [0xa7; 0x0f] 2 = Some [65; 55; 48; 70; 0].
Proof. by vm_compute. Qed.

(** ** Sorting *)

Section Sort.
Context (is_ascend : bool).

Definition before (a b : Z) : Prop := if is_ascend then a <= b else b <= a.
Definition swapped (a b : Z) : bool := if is_ascend then b <? a else a <? b.

Lemma before_trans : Transitive before.
Proof. intros a b c. unfold before. destruct is_ascend; lia. Qed.

Lemma swapped_before a b : if swapped a b then before b a else before a b.
Proof. unfold swapped, before. destruct is_ascend; case_match; bool_to_prop; lia. Qed.

(** What one turn of the outer loop makes of [a :: l]. *)
Fixpoint bubble (a : Z) (l : list Z) : list Z :=
  match l with
  | [] => [a]
  | b :: l => if swapped a b then b :: bubble a l else a :: bubble b l
  end.

Lemma bubble_perm a l : bubble a l ≡ₚ a :: l.
Proof.
  revert a. induction l as [|b l IH]; intros a; [done|]. cbn [bubble]. case_match; rewrite IH; [apply perm_swap|done].
Qed.

Lemma bubble_last a l : exists l' m, bubble a l = l' ++ [m] /\ Forall (fun x => before x m) l'.
Proof.
  revert a. induction l as [|b l IH]; intros a; [by exists [], a|]. cbn [bubble].
  pose proof (swapped_before a b) as Hs. case_match.
  - destruct (IH a) as (l' & m & E & Hm). exists (b :: l'), m. rewrite E. split; [done|]. apply Forall_cons. split; [|done].
    apply (before_trans b a m); [done|].
    assert (a ∈ l' ++ [m]) as [Ha|Ha%list_elem_of_singleton]%elem_of_app by (rewrite <- E, bubble_perm; left);
      [by rewrite Forall_forall in Hm; apply Hm|subst; unfold before; destruct is_ascend; lia].
  - destruct (IH b) as (l' & m & E & Hm). exists (a :: l'), m. rewrite E. split; [done|]. apply Forall_cons. split; [|done].
    apply (before_trans a b m); [done|].
    assert (b ∈ l' ++ [m]) as [Ha|Ha%list_elem_of_singleton]%elem_of_app by (rewrite <- E, bubble_perm; left);
      [by rewrite Forall_forall in Hm; apply Hm|subst; unfold before; destruct is_ascend; lia].
Qed.

Lemma order_at_mid pre a b post i : i = zlen pre ->
  order_at is_ascend i (pre ++ a :: b :: post) = Some (pre ++ (if swapped a b then b :: a :: post else a :: b :: post)).
Proof.
  intros ->. unfold order_at, swapped. rewrite rd_mid. cbn [mbind option_bind].
  change (pre ++ a :: b :: post) with (pre ++ [a] ++ b :: post). rewrite app_assoc.
  rewrite rd_at by (rewrite zlen_app, zlen_singleton; lia). cbn [mbind option_bind]. case_match.
  - rewrite <- app_assoc. cbn [app]. rewrite wr_mid. cbn [mbind option_bind].
    change (pre ++ b :: b :: post) with (pre ++ [b] ++ b :: post). rewrite app_assoc.
    rewrite wr_at by (rewrite zlen_app, zlen_singleton; lia). by rewrite <- app_assoc.
  - by rewrite <- app_assoc.
Qed.

Lemma inner_loop pre a l post :
  for_up (length l) (zlen pre) (order_at is_ascend) (pre ++ a :: l ++ post) = Some (pre ++ bubble a l ++ post).
Proof.
  revert pre a. induction l as [|b l IH]; intros pre a; [done|]. cbn [length for_up app bubble].
  rewrite order_at_mid by done. cbn [mbind option_bind].
  assert (forall x y, for_up (length l) (zlen pre + 1) (order_at is_ascend) (pre ++ x :: y :: l ++ post)
            = Some (pre ++ x :: bubble y l ++ post)) as IH'.
  { intros x y. replace (zlen pre + 1) with (zlen (pre ++ [x])) by (rewrite zlen_app, zlen_singleton; lia).
    change (pre ++ x :: y :: l ++ post) with (pre ++ [x] ++ y :: l ++ post). rewrite app_assoc, IH.
    by rewrite <- app_assoc. }
  case_match; by rewrite IH'.
Qed.

Lemma outer_loop len n l sorted post :
  length l = S n -> len = zlen l + zlen sorted ->
  StronglySorted before sorted -> Forall (fun x => Forall (before x) sorted) l ->
  exists r, for_up n (zlen sorted + 1)
      (fun j buf => for_up (Z.to_nat (len - j)) 0 (order_at is_ascend) buf) (l ++ sorted ++ post) = Some (r ++ post) /\
    r ≡ₚ l ++ sorted /\ StronglySorted before r.
Proof.
  revert l sorted. induction n as [|n IH]; intros l sorted Hl Hlen Hs Hb.
  - destruct l as [|x [|]]; simplify_eq. exists (x :: sorted). cbn [for_up app]. split; [done|]. split; [done|].
    apply Forall_cons in Hb as [Hx _]. by constructor.
  - destruct l as [|a l]; simplify_eq. cbn [for_up].
    replace (Z.to_nat (zlen (a :: l) + zlen sorted - (zlen sorted + 1))) with (length l) by (rewrite zlen_cons; unfold zlen; lia).
    pose proof (inner_loop [] a l (sorted ++ post)) as E. rewrite zlen_nil in E. cbn [app] in E. cbn [app]. rewrite E.
    cbn [mbind option_bind]. pose proof (bubble_perm a l) as Hp.
    destruct (bubble_last a l) as (l' & m & Eb & Hm). rewrite Eb in *.
    assert (Forall (fun x => Forall (before x) sorted) (l' ++ [m])) as [Hl' [Hm' _]%Forall_cons]%Forall_app by (by rewrite Hp).
    replace (zlen sorted + 1) with (zlen (m :: sorted)) by (rewrite zlen_cons; lia).
    assert (length l' = S n) as Hl1 by (apply Permutation_length in Hp; rewrite length_app in Hp; simpl in Hp, Hl; lia).
    destruct (IH l' (m :: sorted)) as (r & Er & Hr & Hsr).
    + done.
    + rewrite !zlen_cons. unfold zlen. simpl in Hl. lia.
    + by constructor.
    + rewrite Forall_forall in *. intros x Hx. apply Forall_cons. auto.
    + exists r. rewrite <- app_assoc. cbn [app] in Er |- *. rewrite Er. split; [done|]. split; [|done].
      rewrite Hr, app_comm_cons, <- Hp, <- app_assoc. done.
Qed.

End Sort.

(** Sorting the first [len] bytes of a buffer ends without an access outside it, leaves
    the bytes behind them, and puts the same bytes in order, ascending or descending. *)
Theorem byte_sort_sorts is_ascend buf len :
  0 <= len <= zlen buf ->
  exists r, tuya_byte_sort is_ascend buf len = Some (r ++ drop (Z.to_nat len) buf) /\
    r ≡ₚ take (Z.to_nat len) buf /\ StronglySorted (before is_ascend) r.
Proof.
  intros H. destruct (zlen_split buf len H) as (l & post & -> & <-).
  replace (Z.to_nat (zlen l)) with (length l) by (unfold zlen; lia). rewrite take_app_length, drop_app_length.
  unfold tuya_byte_sort. destruct (length l) as [|n] eqn:El.
  - exists []. apply nil_length_inv in El as ->. split; [done|]. split; [done|constructor].
  - replace (Z.to_nat (zlen l - 1)) with n by (unfold zlen; lia).
    destruct (outer_loop is_ascend (zlen l) n l [] post) as (r & E & Hp & Hs); [done|unfold zlen; simpl; lia|constructor| |].
    + by apply Forall_true.
    + exists r. rewrite app_nil_r in Hp. done.
Qed.

Lemma byte_sort_sorts_witness :
  exists r, tuya_byte_sort false [3; 9; 3; 5; 1] 4 = Some (r ++ [1]) /\
    r ≡ₚ [3; 9; 3; 5] /\ StronglySorted (before false) r.
Proof. apply (byte_sort_sorts false [3; 9; 3; 5; 1] 4). by vm_compute. Defined.

(** ** Comparing strings *)

(** Two equal strings at different addresses compare as different, [-1], for every [n]
    past their terminators: the header says 0 on equal. *)
Theorem strncasecmp_equal_differs s n :
  is_str s -> zlen s + 1 < n -> tuya_strncasecmp false (s ++ [0]) (s ++ [0]) n = Some (-1).
Proof.
  intros Hs Hn. unfold tuya_strncasecmp.
  assert (forall cnt, 0 <= cnt -> zlen s + 1 + cnt < n -> ncase_loop (s ++ [0]) (s ++ [0]) n cnt = Some (-1)) as E;
    [|apply E; lia].
  clear Hn. induction Hs as [|c s Hc _ IH]; intros cnt H0 Hn.
  - cbn [app ncase_loop]. rewrite zlen_nil in Hn. by rewrite (proj2 (Z.leb_gt _ _)) by lia.
  - rewrite zlen_cons in Hn. pose proof (zlen_nonneg s). cbn [app ncase_loop]. rewrite Z.sub_diag.
    rewrite (proj2 (Z.leb_gt _ _)), (proj2 (Z.eqb_neq c 0)) by lia. cbn [Z.eqb]. apply IH; lia.
Qed.

Lemma strncasecmp_equal_differs_witness : tuya_strncasecmp false [97; 98; 0] [97; 98; 0] 10 = Some (-1).
Proof. apply (strncasecmp_equal_differs [97; 98] 10); [repeat constructor; lia|by vm_compute]. Defined.

(** ** Decimal *)

(** A number from its decimal digits, the least significant first. *)
Definition val_le (ds : list Z) : Z := foldr (fun d v => d + 10 * v) 0 ds.

Definition digit (d : Z) : Prop := 0 <= d < 10.

(** [ds] are the digits of a number, without leading zeros. *)
Definition digits_of (ds : list Z) (num : Z) : Prop :=
  Forall digit ds /\ val_le ds = num /\ (forall d, last ds = Some d -> d <> 0).

Lemma val_le_nonneg ds : Forall digit ds -> 0 <= val_le ds.
Proof. induction 1 as [|d ds Hd _ IH]; [done|]. cbn [val_le foldr]. fold (val_le ds). unfold digit in Hd. lia. Qed.

Lemma digits_of_cons d ds num : digits_of (d :: ds) num ->
  num mod 10 = d /\ digits_of ds (num / 10) /\ 0 < num.
Proof.
  intros (Hf & Hv & Hl). apply Forall_cons in Hf as [Hd Hf]. cbn [val_le foldr] in Hv. fold (val_le ds) in Hv.
  pose proof (val_le_nonneg ds Hf). unfold digit in Hd.
  assert (num / 10 = val_le ds) as E by (subst num; rewrite (Z.mul_comm 10), Z.div_add by lia; rewrite Z.div_small; lia).
  split; [subst num; rewrite (Z.mul_comm 10), Z.mod_add, Z.mod_small by lia; done|].
  assert (digits_of ds (num / 10)) as Hds.
  { split; [done|]. split; [done|]. intros d' Hd'. apply Hl. rewrite last_cons, Hd'. done. }
  split; [done|]. subst num. destruct ds as [|d1 ds]; [specialize (Hl d eq_refl); simpl; lia|].
  enough (0 < val_le (d1 :: ds)) by lia. clear E Hl Hd.
  destruct Hds as (_ & _ & Hl). revert d1 Hf Hl H. induction ds as [|d2 ds IH]; intros d1 Hf Hl H.
  - specialize (Hl d1 eq_refl). apply Forall_cons in Hf as [Hd _]. unfold digit in Hd. simpl. lia.
  - apply Forall_cons in Hf as [Hd Hf]. unfold digit in Hd. pose proof (val_le_nonneg _ Hf).
    assert (0 < val_le (d2 :: ds)) by (apply IH; try done). cbn [val_le foldr] in *. lia.
Qed.

Lemma digits_of_nil num : digits_of [] num -> num = 0.
Proof. by intros (_ & <- & _). Qed.

(** Every number below [10 ^ k] has at most [k] digits. *)
Lemma digits_exist (k : nat) num : 0 <= num < 10 ^ Z.of_nat k -> exists ds, digits_of ds num /\ (length ds <= k)%nat.
Proof.
  revert num. induction k as [|k IH]; intros num H.
  - exists []. simpl in H. repeat split; [constructor|simpl; lia|done|done].
  - destruct (decide (num = 0)) as [->|Hne]; [exists []; repeat split; [constructor|done|simpl; lia]|].
    rewrite Nat2Z.inj_succ, Z.pow_succ_r in H by lia.
    destruct (IH (num / 10)) as (ds & (Hf & Hv & Hl) & Hlen); [split; [apply Z.div_pos|apply Z.div_lt_upper_bound]; lia|].
    pose proof (Z.div_mod num 10). pose proof (Z.mod_pos_bound num 10).
    exists (num mod 10 :: ds). split; [|simpl; lia]. split; [|split].
    + constructor; [unfold digit; lia|done].
    + cbn [val_le foldr]. fold (val_le ds). lia.
    + intros d Hd. destruct ds as [|d1 ds]; [|by apply Hl].
      injection Hd as <-. simpl in Hv. lia.
Qed.

Lemma digits_loop_ok n ds num i : digits_of ds num -> ds <> [] -> (length ds <= n)%nat ->
  0 <= i -> i + zlen ds < 256 -> digits_loop n num i = Some (i + zlen ds).
Proof.
  revert n num i. induction ds as [|d ds IH]; intros n num i Hd Hne Hn Hi Hz; [done|].
  destruct n as [|n]; [simpl in Hn; lia|]. destruct (digits_of_cons _ _ _ Hd) as (_ & Hds & _).
  rewrite zlen_cons in *. pose proof (zlen_nonneg ds). cbn [digits_loop]. cbv zeta. rewrite (wrap8_small (i + 1)) by lia.
  destruct ds as [|d1 ds].
  - apply digits_of_nil in Hds. rewrite Hds. cbn [Z.eqb negb]. done.
  - destruct (digits_of_cons _ _ _ Hds) as (_ & _ & Hp). rewrite (proj2 (Z.eqb_neq _ _)) by lia. cbn [negb].
    rewrite IH; [f_equal; lia|done|done|simpl in Hn |- *; lia|lia|lia].
Qed.

Lemma int2array_loop_ok n ds num pre mid post : digits_of ds num -> (length ds < n)%nat ->
  zlen mid = zlen ds -> zlen pre + zlen ds < 256 ->
  int2array_loop n num (pre ++ mid ++ post) (zlen pre) = Some (pre ++ ds ++ post, zlen pre + zlen ds).
Proof.
  revert n num pre mid. induction ds as [|d ds IH]; intros n num pre mid Hd Hn Hm Hz; (destruct n as [|n]; [simpl in Hn; lia|]).
  - apply digits_of_nil in Hd as ->. rewrite (zlen_0_nil mid Hm). cbn [int2array_loop Z.eqb negb].
    rewrite zlen_nil. do 2 f_equal. lia.
  - destruct (digits_of_cons _ _ _ Hd) as (Ed & Hds & Hp). rewrite zlen_cons in *. pose proof (zlen_nonneg ds).
    pose proof (zlen_nonneg pre). destruct mid as [|x mid]; rewrite ?zlen_cons, ?zlen_nil in Hm; [lia|].
    cbn [int2array_loop]. rewrite (proj2 (Z.eqb_neq _ _)) by lia. cbn [negb app]. rewrite wr_mid, Ed. cbn [mbind option_bind].
    rewrite wrap8_small by lia. replace (zlen pre + 1) with (zlen (pre ++ [d])) by (rewrite zlen_app, zlen_singleton; lia).
    replace (pre ++ d :: mid ++ post) with ((pre ++ [d]) ++ mid ++ post) by (by rewrite <- !app_assoc).
    rewrite IH; [|done|simpl in Hn; lia|lia|rewrite zlen_app, zlen_singleton; lia].
    rewrite zlen_app, zlen_singleton, <- app_assoc. cbn [app]. do 2 f_equal. lia.
Qed.

Abbreviation swap_ends len := (fun i buf =>
  tmp ← rd buf i;
  x ← rd buf (len - 1 - i);
  buf ← wr buf i x;
  wr buf (len - 1 - i) tmp).

Lemma reverse_loop n pre mid suf post len : length mid = (2 * n)%nat \/ length mid = S (2 * n) ->
  zlen pre = zlen suf -> len = zlen pre + zlen mid + zlen suf ->
  for_up n (zlen pre) (swap_ends len) (pre ++ mid ++ suf ++ post) = Some (pre ++ rev mid ++ suf ++ post).
Proof.
  intros Hm Hp ->. revert pre mid suf Hm Hp. induction n as [|n IH]; intros pre mid suf Hm Hp.
  { assert (rev mid = mid) as -> by (destruct mid as [|x [|]]; simpl in Hm; try done; lia). done. }
  destruct mid as [|x mid]; [simpl in Hm; lia|]. destruct (exists_last (l := mid)) as (mid' & y & ->); [intros ->; simpl in Hm; lia|].
  rewrite zlen_cons, zlen_app, zlen_singleton. cbn [for_up].
  replace (pre ++ (x :: mid' ++ [y]) ++ suf ++ post) with ((pre ++ x :: mid') ++ y :: suf ++ post)
    by (rewrite <- app_assoc; cbn [app]; by rewrite <- app_assoc).
  set (j := zlen pre + (1 + (zlen mid' + 1)) + zlen suf - 1 - zlen pre).
  assert (j = zlen (pre ++ x :: mid')) as Ej by (unfold j; rewrite zlen_app, zlen_cons; lia).
  rewrite (rd_at (pre ++ x :: mid') y (suf ++ post) j Ej).
  rewrite <- app_assoc. cbn [app]. rewrite (rd_at pre x _ (zlen pre)) by done. cbn [mbind option_bind].
  rewrite wr_mid. cbn [mbind option_bind]. rewrite app_comm_cons, app_assoc.
  rewrite wr_at by (rewrite Ej, !zlen_app, !zlen_cons; lia). cbn [mbind option_bind].
  specialize (IH (pre ++ [y]) mid' (x :: suf)). rewrite !zlen_app, zlen_singleton, zlen_cons in IH.
  replace (zlen pre + 1 + zlen mid' + (1 + zlen suf)) with (zlen pre + (1 + (zlen mid' + 1)) + zlen suf) in IH by lia.
  rewrite <- !app_assoc in IH |- *. cbn [app] in IH |- *. rewrite IH.
  - cbn [rev]. rewrite rev_app_distr. cbn [rev app]. by rewrite <- !app_assoc.
  - simpl in Hm. rewrite length_app in Hm. simpl in Hm. lia.
  - lia.
Qed.

Lemma buff_reverse_ok l post : tuya_buff_reverse (l ++ post) (zlen l) = Some (rev l ++ post).
Proof.
  unfold tuya_buff_reverse. apply (reverse_loop _ [] l [] post (zlen l)); [|done|unfold zlen; simpl; lia].
  unfold zlen. change 2 with (Z.of_nat 2). rewrite <- Nat2Z.inj_div, Nat2Z.id.
  pose proof (Nat.div_mod_eq (length l) 2). pose proof (Nat.mod_upper_bound (length l) 2). lia.
Qed.

(** A number from its digits, the most significant first. *)
Definition val_be (ds : list Z) (v : Z) : Z := fold_left (fun v d => v * 10 + d) ds v.

Lemma val_be_rev ds : val_be (rev ds) 0 = val_le ds.
Proof.
  unfold val_be, val_le. rewrite <- (fold_left_rev_right (fun d v => v * 10 + d)), rev_involutive.
  induction ds as [|d ds IH]; [done|]. cbn [foldr fold_right]. rewrite IH. lia.
Qed.

Lemma val_be_mono ds v : Forall digit ds -> 0 <= v -> v <= val_be ds v.
Proof.
  intros H. revert v. induction H as [|d ds Hd _ IH]; intros v Hv; cbn [val_be fold_left]; [lia|].
  unfold digit in Hd. etrans; [|apply IH]; lia.
Qed.

Lemma array2int_loop_ok n pre todo post num top : Forall digit todo -> (length todo < n)%nat ->
  top = zlen pre + zlen todo -> top < 256 -> 0 <= num -> val_be todo num < 2 ^ 32 ->
  array2int_loop n (pre ++ todo ++ post) (zlen pre) top num = Some (val_be todo num).
Proof.
  intros Hd. revert n pre num. induction Hd as [|d todo Hd Hds IH]; intros n pre num Hn -> Ht H0 Hv;
    (destruct n as [|n]; [simpl in Hn; lia|]); cbn [array2int_loop].
  - rewrite zlen_nil. by rewrite (proj2 (Z.ltb_ge _ _)) by lia.
  - rewrite zlen_cons in *. pose proof (zlen_nonneg todo). pose proof (zlen_nonneg pre).
    rewrite (proj2 (Z.ltb_lt _ _)) by lia. cbn [app]. rewrite rd_mid. cbn [mbind option_bind].
    cbn [val_be fold_left] in Hv |- *. fold (val_be todo (num * 10 + d)) in Hv |- *. unfold digit in Hd.
    pose proof (val_be_mono todo (num * 10 + d) Hds ltac:(lia)).
    rewrite (wrap_small 32 (num * 10)), (wrap_small 32 (num * 10 + d)), wrap8_small by lia.
    replace (zlen pre + 1) with (zlen (pre ++ [d])) by (rewrite zlen_app, zlen_singleton; lia).
    replace (pre ++ d :: todo ++ post) with ((pre ++ [d]) ++ todo ++ post) by (by rewrite <- app_assoc).
    apply IH; try done; try (rewrite ?zlen_app, ?zlen_singleton; lia). simpl in Hn. lia.
Qed.

(** A positive number is stored as its decimal digits, the most significant first and
    without leading zeros, if they fit the given length, and reading them back gives the
    number; otherwise nothing is stored. *)
Theorem int_array_round_trip num arr len :
  0 < num < 2 ^ 32 -> len < 256 -> zlen arr = len ->
  exists ds, digits_of ds num /\ zlen ds <= 10 /\
    (zlen ds <= len ->
     tuya_int2intArray num arr len = Some (rev ds ++ drop (length ds) arr, zlen ds) /\
     tuya_intArray2int (rev ds ++ drop (length ds) arr) 0 (zlen ds) = Some num) /\
    (len < zlen ds -> tuya_int2intArray num arr len = Some (arr, 0)).
Proof.
  intros Hn Hl Ha. destruct (digits_exist 10 num) as (ds & Hds & Hlen); [simpl Z.of_nat; lia|].
  assert (ds <> []) as Hne by (intros ->; apply digits_of_nil in Hds; lia).
  assert (0 < zlen ds <= 10) as Hz by (destruct ds; [done|unfold zlen; simpl in *; lia]).
  exists ds. split; [done|]. split; [lia|].
  unfold tuya_int2intArray. rewrite (digits_loop_ok 33 ds num 0 Hds Hne) by lia. cbn [mbind option_bind].
  rewrite Z.add_0_l. split.
  - intros Hle. rewrite (proj2 (Z.ltb_ge _ _)) by lia. destruct (zlen_split arr (zlen ds)) as (mid & post & -> & Hm); [lia|].
    pose proof (int2array_loop_ok 33 ds num [] mid post Hds) as E. cbn [app] in E. rewrite zlen_nil, Z.add_0_l in E.
    rewrite E by lia. cbn [mbind option_bind]. rewrite buff_reverse_ok. cbn [mbind option_bind].
    rewrite drop_app_length' by (unfold zlen in Hm; lia). split; [done|].
    unfold tuya_intArray2int. rewrite (proj2 (Z.leb_gt _ _)), Z.add_0_l by lia. rewrite (wrap_small 32) by lia.
    destruct Hds as (Hf & Hv & _). rewrite <- Hv, <- val_be_rev.
    apply (array2int_loop_ok 257 [] (rev ds) post 0); try lia.
    + by apply Forall_rev.
    + rewrite length_rev. lia.
    + unfold zlen. by rewrite length_rev.
    + rewrite val_be_rev. lia.
  - intros Hgt. by rewrite (proj2 (Z.ltb_lt _ _)) by lia.
Qed.

Lemma int_array_round_trip_witness :
  exists ds, digits_of ds 1024 /\ zlen ds <= 10 /\
    (zlen ds <= 6 ->
     tuya_int2intArray 1024 [9; 9; 9; 9; 9; 9] 6 = Some (rev ds ++ drop (length ds) [9; 9; 9; 9; 9; 9], zlen ds) /\
     tuya_intArray2int (rev ds ++ drop (length ds) [9; 9; 9; 9; 9; 9]) 0 (zlen ds) = Some 1024) /\
    (6 < zlen ds -> tuya_int2intArray 1024 [9; 9; 9; 9; 9; 9] 6 = Some ([9; 9; 9; 9; 9; 9], 0)).
Proof. apply (int_array_round_trip 1024 [9; 9; 9; 9; 9; 9] 6); [lia|lia|by vm_compute]. Defined.

(** 0 counts as one digit but none is stored, and an empty array does not read as 0. *)
Example int_array_zero :
  tuya_int2intArray 0 [9; 9] 2 = Some ([9; 9], 0) /\ tuya_intArray2int [9; 9] 0 0 = Some (2 ^ 32 - 1).
Proof. by vm_compute. Qed.

End ToolsProps.
