(* ===== verification/NvdsTypes.v ===== *)
(** * NVDS: the on-flash format

    Model of [src/gd32_os/MSDK/plf/src/nvds/nvds_type.h] and of the pure helpers of
    [nvds_flash.c]: tags, entries, page headers, the table of entry states and the
    table of namespace indexes. Entries and page headers are their 32 bytes, as the
    code casts them; the fields are little-endian. *)
From S2P Require Import Prelude Crc.
Open Scope Z_scope.

Module NvdsTypes.

(** ** Constants *)

Definition NVDS_FLASH_MAGIC : Z := 0x4E564453.
Definition NVDS_FLASH_VERSION : Z := 0xFFFF.
Definition SPI_FLASH_SEC_SIZE : Z := 4096.
Definition ENTRY_SIZE : Z := 32.
Definition ENTRY_COUNT_PER_PAGE : Z := 126.
Definition ENTRY_STATES_TABLE_SIZE : Z := 8.
Definition PAGE_HEADER_OFFSET : Z := 0.
Definition PAGE_ENTRY_STATES_OFFSET : Z := 32.
Definition PAGE_ENTRY_OFFSET : Z := 64.
Definition KEY_NAME_MAX_SIZE : Z := 16.
Definition ELEMENT_SMALL_MAX_SIZE : Z := 8.
Definition ELEMENT_MIDDLE_MAX_SIZE : Z := 256.
Definition ELEMENT_BULK_MAX_SIZE : Z := 12800.
Definition TAG_FRAG_NO_DEFAULT : Z := 0x1F.
Definition NAMESPACE_NULL_IDX : Z := 0xFE.
Definition NAMESPACE_MAX_CNT : Z := 253.
Definition AES_BLOCK_SZ : Z := 16.

(** [enum element_type], [enum entry_state] and [enum page_state]. *)
Definition ELEMENT_SMALL : Z := 0.
Definition ELEMENT_MIDDLE : Z := 1.
Definition ELEMENT_BULK : Z := 2.
Definition ELEMENT_BULKINFO : Z := 3.
Definition ELEMENT_ANY : Z := 7.

Definition ENTRY_FREE : Z := 3.
Definition ENTRY_USED : Z := 2.
Definition ENTRY_UPDATED : Z := 0.
Definition ENTRY_ILLEGAL : Z := 1.
Definition ENTRY_ERROR : Z := 4.

Definition PAGE_UNINITIALIZED : Z := 0xffff.
Definition PAGE_ACTIVE : Z := 0xfffe.
Definition PAGE_FULL : Z := 0xfffc.
Definition PAGE_CANDIDATE : Z := 0xfff8.
Definition PAGE_ERROR : Z := 0xfff0.
Definition PAGE_INVALID : Z := 0.

(** ** Tags *)

Definition tag_namespace_get (tag : Z) : Z := u8 (Z.shiftr (Z.land tag 0xFF) 0).
Definition tag_element_type_get (tag : Z) : Z := Z.shiftr (Z.land tag (Z.shiftl 0x7 13)) 13.
Definition tag_fragno_get (tag : Z) : Z := u8 (Z.shiftr (Z.land tag (Z.shiftl 0x1F 8)) 8).
Definition tag_set (ns type fragno : Z) : Z :=
  u16 (Z.lor (Z.lor (Z.shiftl ns 0) (Z.shiftl type 13)) (Z.shiftl fragno 8)).

(** ** Entries: [union entry_info] *)

Abbreviation entry := (list Z).

Definition e_tag (e : entry) : Z := le_dec (slice 0 2 e).
Definition e_length (e : entry) : Z := le_dec (slice 2 2 e).
Definition e_crc32 (e : entry) : Z := le_dec (slice 4 4 e).
Definition e_key (e : entry) : list Z := slice 8 16 e.
Definition e_value (e : entry) : list Z := slice 24 8 e.
(** [varlen_info_t.datacrc32] and [bulk_info_t.bulksize] share the last word. *)
Definition e_datacrc32 (e : entry) : Z := le_dec (slice 28 4 e).
Definition e_bulksize (e : entry) : Z := le_dec (slice 28 4 e).

Definition set_tag (v : Z) (e : entry) : entry := splice 0 (le_enc 2 v) e.
Definition set_length (v : Z) (e : entry) : entry := splice 2 (le_enc 2 v) e.
Definition set_crc32 (v : Z) (e : entry) : entry := splice 4 (le_enc 4 v) e.
(** [sys_memcpy(entry.key, key, strlen(key)); entry.key[strlen(key)] = 0]. *)
Definition set_key (key : list Z) (e : entry) : entry := splice 8 (key ++ [0]) e.
Definition set_value (v : list Z) (e : entry) : entry := splice 24 v e.
Definition set_word28 (v : Z) (e : entry) : entry := splice 28 (le_enc 4 v) e.

Definition blank : list Z := replicate 32 0xFF.

(** The key as a C string; [None] when it has no terminator, where [strlen] runs on. *)
Definition key_str (e : entry) : option (list Z) :=
  if bool_decide (0 ∈ e_key e) then Some (cstr (e_key e)) else None.

(** How many entries the data of a variable-length element takes. *)
Definition data_entries (len : Z) : Z := (len + ENTRY_SIZE - 1) / ENTRY_SIZE.

Definition element_header_crc32_calc (e : entry) : Z :=
  let crc := Crc.crc32 (slice 0 4 e) 0 in
  let crc := Crc.crc32 (slice 8 16 e) crc in
  Crc.crc32 (slice 24 8 e) crc.

Definition element_data_crc32_calc (data : list Z) (size : Z) : Z :=
  Crc.crc32 (slice 0 size data) 0.

(** ** Page headers: [struct page_header] *)

Definition h_magic (h : list Z) : Z := le_dec (slice 0 4 h).
Definition h_state (h : list Z) : Z := le_dec (slice 6 2 h).
Definition h_seqno (h : list Z) : Z := le_dec (slice 8 4 h).
Definition h_crc32 (h : list Z) : Z := le_dec (slice 28 4 h).

Definition set_magic (v : Z) (h : list Z) : list Z := splice 0 (le_enc 4 v) h.
Definition set_version (v : Z) (h : list Z) : list Z := splice 4 (le_enc 2 v) h.
Definition set_state (v : Z) (h : list Z) : list Z := splice 6 (le_enc 2 v) h.
Definition set_seqno (v : Z) (h : list Z) : list Z := splice 8 (le_enc 4 v) h.
Definition set_hcrc32 (v : Z) (h : list Z) : list Z := splice 28 (le_enc 4 v) h.

Definition page_header_crc32_calc (h : list Z) : Z :=
  let crc := Crc.crc32 (slice 0 6 h) 0 in
  Crc.crc32 (slice 8 20 h) crc.

(** ** Tables of packed states

    [uint32_t states[8]] as its eight words. *)

Definition word (states : list Z) (i : Z) : Z := nthb states i.

Definition entry_state_get (states : list Z) (idx : Z) : option Z :=
  let table_idx := idx / 16 in
  let bit_offset := (idx mod 16) * 2 in
  if ENTRY_COUNT_PER_PAGE <=? idx then None
  else Some (Z.land (Z.shiftr (word states table_idx) bit_offset) 0x03).

Definition entry_state_set (states : list Z) (idx state : Z) : option (list Z) :=
  let table_idx := idx / 16 in
  let bit_offset := (idx mod 16) * 2 in
  if ENTRY_COUNT_PER_PAGE <=? idx then None
  else if (state =? ENTRY_ILLEGAL) || (ENTRY_ERROR <=? state) then None
  else if ENTRY_STATES_TABLE_SIZE <=? table_idx then None
  else Some (setb table_idx
         (Z.lor (Z.land (word states table_idx) (u32 (Z.lnot (Z.shiftl 0x03 bit_offset))))
                (u32 (Z.shiftl state bit_offset))) states).

Definition ns_state_get (states : list Z) (idx : Z) : bool :=
  let table_idx := idx / 32 in
  let bit_offset := idx mod 32 in
  negb (Z.land (Z.shiftr (word states table_idx) bit_offset) 0x01 =? 0).

Definition ns_state_set (states : list Z) (idx : Z) (ns_state : bool) : list Z :=
  let table_idx := idx / 32 in
  let bit_offset := idx mod 32 in
  setb table_idx
    (Z.lor (Z.land (word states table_idx) (u32 (Z.lnot (Z.shiftl 0x01 bit_offset))))
           (u32 (Z.shiftl (Z.b2z ns_state) bit_offset))) states.

(** The table in memory and on flash. *)
Fixpoint words_enc (ws : list Z) : list Z :=
  match ws with
  | [] => []
  | w :: ws => le_enc 4 w ++ words_enc ws
  end.

Fixpoint words_dec (n : nat) (l : list Z) : list Z :=
  match n with
  | O => []
  | S n => le_dec (take 4 l) :: words_dec n (drop 4 l)
  end.

(** ** Tags hold their three fields *)

(** A tag gives back the namespace, the element type and the fragment number it was built from. *)
Lemma tag_fields ns type frag :
  0 <= ns < 256 -> 0 <= type < 8 -> 0 <= frag < 32 ->
  tag_namespace_get (tag_set ns type frag) = ns /\
  tag_element_type_get (tag_set ns type frag) = type /\
  tag_fragno_get (tag_set ns type frag) = frag.
Proof.
  intros Hn Ht Hf.
  assert (tag_set ns type frag = type * 2 ^ 13 + (frag * 2 ^ 8 + ns)) as ->.
  { unfold tag_set. rewrite Z.shiftl_0_r, (Z.lor_comm ns), <- Z.lor_assoc, (Z.lor_comm ns).
    rewrite (lor_shift_add frag ns 8) by lia.
    rewrite lor_shift_add by lia. apply wrap16_small. lia. }
  unfold tag_namespace_get, tag_element_type_get, tag_fragno_get.
  change 0xFF with (Z.ones 8). change (Z.shiftl 7 13) with (0xE000). change (Z.shiftl 0x1F 8) with 0x1F00.
  rewrite Z.shiftr_0_r.
  repeat split.
  - rewrite Z.land_ones by lia. rewrite wrap8_small by (apply Z.mod_pos_bound; lia).
    replace (type * 2 ^ 13 + (frag * 2 ^ 8 + ns)) with (ns + (type * 32 + frag) * 2 ^ 8) by lia.
    rewrite Z.mod_add by lia. by apply Z.mod_small.
  - rewrite Z.shiftr_land. change (Z.shiftr 57344 13) with (Z.ones 3). rewrite Z.land_ones by lia.
    rewrite Z.shiftr_div_pow2, Z.add_comm, Z.div_add by lia. rewrite Z.div_small by lia.
    by apply Z.mod_small.
  - rewrite Z.shiftr_land. change (Z.shiftr 0x1F00 8) with (Z.ones 5). rewrite Z.land_ones by lia.
    replace (type * 2 ^ 13 + (frag * 2 ^ 8 + ns)) with (ns + (type * 32 + frag) * 2 ^ 8) by lia.
    rewrite Z.shiftr_div_pow2, Z.div_add by lia. rewrite (Z.div_small ns) by lia.
    rewrite Z.add_0_l, (Z.add_comm (type * 32)). change (2 ^ 5) with 32.
    rewrite Z.mod_add, Z.mod_small by lia. apply wrap8_small. lia.
Qed.

Lemma tag_set_range ns type frag : 0 <= tag_set ns type frag < 2 ^ 16.
Proof. apply u16_range. Qed.

(** ** The table of entry states *)

(** Eight 32-bit words. *)
Definition table (states : list Z) : Prop :=
  zlen states = 8 /\ Forall (fun w => 0 <= w < 2 ^ 32) states.

Lemma table_word states i : table states -> 0 <= word states i < 2 ^ 32.
Proof.
  intros [_ H]. unfold word, nthb. rewrite nth_lookup_0.
  destruct (states !! Z.to_nat i) eqn:E; simpl; [|lia]. by eapply Forall_lookup_1 in H.
Qed.

(** A field of [n] bits at [k] replaced by [v]. *)
Definition field_set (w k n v : Z) : Z :=
  Z.lor (Z.land w (u32 (Z.lnot (Z.shiftl (Z.ones n) k)))) (u32 (Z.shiftl v k)).

Lemma field_set_testbit w k n v i :
  0 <= k -> 0 <= n -> k + n <= 32 -> 0 <= w < 2 ^ 32 -> 0 <= v < 2 ^ n -> 0 <= i ->
  Z.testbit (field_set w k n v) i =
    if (k <=? i) && (i <? k + n) then Z.testbit v (i - k) else Z.testbit w i.
Proof.
  intros Hk Hn Hkn Hw Hv Hi. unfold field_set.
  rewrite Z.lor_spec, Z.land_spec, !wrap_testbit, Z.lnot_spec, !Z.shiftl_spec by lia.
  destruct (Z.leb_spec k i); [destruct (Z.ltb_spec i (k + n))|]; cbn [andb].
  - rewrite Z.ones_spec_low by lia. cbn [negb].
    destruct (Z.ltb_spec i 32); [|lia]. by rewrite andb_false_r.
  - rewrite (testbit_above n v) by lia. rewrite Z.ones_spec_high by lia.
    rewrite andb_false_r, orb_false_r. cbn [negb]. rewrite andb_true_r.
    destruct (Z.ltb_spec i 32); [by rewrite andb_true_r|].
    by rewrite (testbit_above 32 w), andb_false_r by lia.
  - rewrite (Z.testbit_neg_r (Z.ones n)), (Z.testbit_neg_r v) by lia. cbn [negb].
    rewrite andb_false_r, orb_false_r, andb_true_r.
    destruct (Z.ltb_spec i 32); [by rewrite andb_true_r|].
    by rewrite (testbit_above 32 w), andb_false_r by lia.
Qed.

Lemma field_set_range w k n v : 0 <= w < 2 ^ 32 -> 0 <= field_set w k n v < 2 ^ 32.
Proof.
  intros Hw. apply lor_range; [lia| |apply u32_range]. by apply land_range.
Qed.

Definition field_get (w k n : Z) : Z := Z.land (Z.shiftr w k) (Z.ones n).

Lemma field_get_testbit w k n i :
  0 <= k -> 0 <= n -> 0 <= i ->
  Z.testbit (field_get w k n) i = (i <? n) && Z.testbit w (i + k).
Proof.
  intros. unfold field_get. rewrite Z.land_spec, Z.shiftr_spec by lia.
  destruct (Z.ltb_spec i n).
  - by rewrite Z.ones_spec_low, andb_true_r by lia.
  - by rewrite Z.ones_spec_high, andb_false_r by lia.
Qed.

Lemma field_get_set w k k' n v :
  0 <= k -> 0 <= k' -> 0 < n -> k + n <= 32 -> k' + n <= 32 -> 0 <= w < 2 ^ 32 -> 0 <= v < 2 ^ n ->
  (k = k' \/ k + n <= k' \/ k' + n <= k) ->
  field_get (field_set w k n v) k' n = if k =? k' then v else field_get w k' n.
Proof.
  intros Hk Hk' Hn Hkn Hkn' Hw Hv Hd. apply Z.bits_inj'. intros i Hi.
  rewrite field_get_testbit, field_set_testbit by lia.
  destruct (Z.eqb_spec k k') as [->|Hne].
  - destruct (Z.ltb_spec i n).
    + repeat if_split; try lia. cbn [andb]. f_equal. lia.
    + cbn [andb]. by rewrite (testbit_above n v) by lia.
  - rewrite field_get_testbit by lia. destruct (Z.ltb_spec i n); [|done]. cbn [andb].
    repeat if_split; lia || done.
Qed.

(** Setting a field to a subset of its bits only clears bits of the word. *)
Lemma field_set_cleared w k n v :
  0 <= k -> 0 <= n -> k + n <= 32 -> 0 <= w < 2 ^ 32 -> 0 <= v < 2 ^ n ->
  Z.land (field_get w k n) v = v -> Z.land w (field_set w k n v) = field_set w k n v.
Proof.
  intros Hk Hn Hkn Hw Hv Hs. apply Z.bits_inj'. intros i Hi.
  rewrite Z.land_spec, field_set_testbit by lia.
  destruct (Z.leb_spec k i); [destruct (Z.ltb_spec i (k + n))|]; cbn [andb];
    try by rewrite andb_diag.
  rewrite <- Hs, Z.land_spec, field_get_testbit by lia.
  destruct (Z.ltb_spec (i - k) n); [|lia]. replace (i - k + k) with i by lia.
  by destruct (Z.testbit w i), (Z.testbit v (i - k)).
Qed.

(** The state of an entry as the low two bits of its place in the table. *)
Definition state_at (states : list Z) (idx : Z) : Z :=
  field_get (word states (idx / 16)) (idx mod 16 * 2) 2.

Lemma entry_state_get_eq states idx :
  0 <= idx < 126 -> entry_state_get states idx = Some (state_at states idx).
Proof.
  intros. unfold entry_state_get, ENTRY_COUNT_PER_PAGE. destruct (Z.leb_spec 126 idx); [lia|done].
Qed.

Lemma div_mod_16 idx : 0 <= idx < 126 -> 0 <= idx / 16 < 8 /\ 0 <= idx mod 16 < 16.
Proof.
  intros. pose proof (Z.mod_pos_bound idx 16 ltac:(lia)). pose proof (Z.div_mod idx 16 ltac:(lia)). lia.
Qed.

Definition state_set (states : list Z) (idx v : Z) : list Z :=
  setb (idx / 16) (field_set (word states (idx / 16)) (idx mod 16 * 2) 2 v) states.

Definition state_ok (v : Z) : Prop := v = ENTRY_FREE \/ v = ENTRY_USED \/ v = ENTRY_UPDATED.

Lemma entry_state_set_eq states idx v :
  0 <= idx < 126 -> state_ok v -> entry_state_set states idx v = Some (state_set states idx v).
Proof.
  intros Hi Hv. destruct (div_mod_16 idx Hi). unfold entry_state_set, ENTRY_COUNT_PER_PAGE, ENTRY_STATES_TABLE_SIZE.
  destruct (Z.leb_spec 126 idx); [lia|].
  assert ((v =? ENTRY_ILLEGAL) || (ENTRY_ERROR <=? v) = false) as ->.
  { destruct Hv as [->|[->| ->]]; done. }
  destruct (Z.leb_spec 8 (idx / 16)); [lia|]. done.
Qed.

Lemma setb_table states i w :
  table states -> 0 <= w < 2 ^ 32 -> table (setb i w states).
Proof.
  intros [Hl Hf] Hw. split; [by rewrite zlen_setb|]. unfold setb. by apply Forall_insert.
Qed.

Lemma state_set_table states idx v : table states -> table (state_set states idx v).
Proof. intros H. apply setb_table; [done|]. by apply field_set_range, table_word. Qed.

Lemma state_at_set states idx v j :
  table states -> 0 <= idx < 126 -> 0 <= v < 4 -> 0 <= j < 126 ->
  state_at (state_set states idx v) j = if idx =? j then v else state_at states j.
Proof.
  intros Ht Hi Hv Hj. destruct (div_mod_16 idx Hi), (div_mod_16 j Hj). unfold state_at, state_set.
  unfold word at 1. rewrite nthb_setb by (destruct Ht; lia).
  pose proof (Z.div_mod idx 16 ltac:(lia)). pose proof (Z.div_mod j 16 ltac:(lia)).
  destruct (Z.eqb_spec (idx / 16) (j / 16)) as [E|E].
  - pose proof (table_word states (idx / 16) Ht).
    assert (forall w k, field_get (field_set w k 2 v) k 2 = field_get (field_set w k 2 v) k 2) by done.
    change (Z.shiftl 1 2) with 4. rewrite field_get_set by (lia || (change (2 ^ 2) with 4; lia)).
    rewrite E. destruct (Z.eqb_spec idx j), (Z.eqb_spec (idx mod 16 * 2) (j mod 16 * 2)); lia || done.
  - destruct (Z.eqb_spec idx j); [congruence|done].
Qed.

(** ** The table of namespace indexes *)

Lemma div_mod_32 idx : 0 <= idx < 256 -> 0 <= idx / 32 < 8 /\ 0 <= idx mod 32 < 32.
Proof.
  intros. pose proof (Z.mod_pos_bound idx 32 ltac:(lia)). pose proof (Z.div_mod idx 32 ltac:(lia)). lia.
Qed.

Lemma ns_state_set_table states idx b : table states -> table (ns_state_set states idx b).
Proof.
  intros Ht. apply setb_table; [done|]. apply (field_set_range _ _ 1), table_word; done.
Qed.

Lemma ns_state_get_set states idx b j :
  table states -> 0 <= idx < 256 -> 0 <= j < 256 ->
  ns_state_get (ns_state_set states idx b) j = if idx =? j then b else ns_state_get states j.
Proof.
  intros Ht Hi Hj. destruct (div_mod_32 idx Hi), (div_mod_32 j Hj). unfold ns_state_get, ns_state_set.
  unfold word at 1. rewrite nthb_setb by (destruct Ht; lia).
  pose proof (Z.div_mod idx 32 ltac:(lia)). pose proof (Z.div_mod j 32 ltac:(lia)).
  pose proof (table_word states (idx / 32) Ht).
  destruct (Z.eqb_spec (idx / 32) (j / 32)) as [E|E].
  - set (w := word states (idx / 32)) in *.
    change (Z.lor _ _) with (field_set w (idx mod 32) 1 (Z.b2z b)).
    change (Z.land (Z.shiftr (field_set w (idx mod 32) 1 (Z.b2z b)) (j mod 32)) 1)
      with (field_get (field_set w (idx mod 32) 1 (Z.b2z b)) (j mod 32) 1).
    rewrite field_get_set by (try lia; destruct b; cbn; lia).
    destruct (Z.eqb_spec idx j) as [->|Hne].
    + rewrite Z.eqb_refl. by destruct b.
    + destruct (Z.eqb_spec (idx mod 32) (j mod 32)); [lia|]. unfold w. by rewrite E.
  - destruct (Z.eqb_spec idx j); [congruence|done].
Qed.

(** ** The tables on flash *)

Lemma zlen_words_enc ws : zlen (words_enc ws) = 4 * zlen ws.
Proof.
  induction ws as [|w ws IH]; cbn [words_enc]; [done|].
  rewrite zlen_app, zlen_le_enc, IH, zlen_cons. lia.
Qed.

Lemma bytes_words_enc ws : bytes (words_enc ws).
Proof.
  induction ws as [|w ws IH]; cbn [words_enc]; [constructor|]. apply bytes_app. split; [|done].
  apply bytes_le_enc.
Qed.

Lemma words_dec_enc ws :
  Forall (fun w => 0 <= w < 2 ^ 32) ws -> words_dec (length ws) (words_enc ws) = ws.
Proof.
  induction 1 as [|w ws Hw _ IH]; cbn [words_enc words_dec length]; [done|].
  rewrite take_app_length', drop_app_length', IH by done.
  f_equal. rewrite le_dec_enc. by apply Z.mod_small.
Qed.

End NvdsTypes.
