(* ===== verification/Nvds.v ===== *)
(** * NVDS: the store's operations

    Model of [src/gd32_os/MSDK/plf/src/nvds/nvds_flash.c]: every operation that reads
    or changes the store, on an explicit state (the flash, the page and namespace
    objects, the lists of their addresses), with every guard, early return and
    fixed-width counter of the code. The printing functions are left out. *)
From S2P Require Import Prelude Flash NvdsTypes.
Open Scope Z_scope.

Module Nvds.
Import NvdsTypes.
Open Scope fw_scope.

(** ** State *)

(** [nvds_err]: the codes the operations return. *)
Inductive nvds_ret :=
  | NVDS_OK | NVDS_E_NOT_USE_FLASH | NVDS_E_FAIL | NVDS_E_INVAL_PARAM | NVDS_E_FLASH_IO_FAIL
  | NVDS_E_NOT_FOUND | NVDS_E_INVALID_LENGTH | NVDS_E_NO_SPACE | NVDS_E_SECUR_CFG_FAIL
  | NVDS_E_DECR_FAIL | NVDS_E_ENCR_FAIL.

#[export] Instance nvds_ret_eq_dec : EqDecision nvds_ret.
Proof. solve_decision. Defined.

(** How an operation can end without a value: an error code, undefined behaviour (a bad
    dereference or an access outside a buffer), or a loop that does not end. *)
Inductive stop := RET (r : nvds_ret) | UB | DIVERGES.

(** [struct page_env_tag], less the fields that are never read. *)
Record page := mk_page {
  header : list Z;
  entry_states : list Z;
  page_addr : Z;
  entry_cnt_used : Z;
  next_free_idx : Z
}.

(** [struct namespace_info]; the name is its C string. *)
Record namespace_info := mk_ns { ns_name : list Z; ns_index : Z; ns_used_cnt : Z }.

(** [mbedtls_aes_crypt_ecb] on one block, under the key of the store: [None] when it fails. *)
Class Cipher := {
  aes_encrypt : list Z -> option (list Z);
  aes_decrypt : list Z -> option (list Z)
}.

Section Store.
Context {F : Type} `{Flash F} `{Cipher}.

(** [struct nvds_flash_env_tag] and the memory it points to. Pages and namespaces are
    objects named by their addresses; a freed object is no longer in its map. [mallocs]
    are the outcomes of the next allocations, successes once the list is used up. *)
Record env := mk_env {
  flash : F;
  base_addr : Z;
  length_ : Z;
  encrypted : bool;
  pages : gmap Z page;
  nss : gmap Z namespace_info;
  ns_list : list Z;
  ns_states : list Z;
  nvds_page_free : list Z;
  nvds_page_used : list Z;
  mallocs : list bool;
  next_addr : Z
}.

Definition set_flash (f : F) (s : env) : env :=
  mk_env f (base_addr s) (length_ s) (encrypted s) (pages s) (nss s) (ns_list s) (ns_states s)
    (nvds_page_free s) (nvds_page_used s) (mallocs s) (next_addr s).
Definition set_pages (m : gmap Z page) (s : env) : env :=
  mk_env (flash s) (base_addr s) (length_ s) (encrypted s) m (nss s) (ns_list s) (ns_states s)
    (nvds_page_free s) (nvds_page_used s) (mallocs s) (next_addr s).
Definition set_nss (m : gmap Z namespace_info) (s : env) : env :=
  mk_env (flash s) (base_addr s) (length_ s) (encrypted s) (pages s) m (ns_list s) (ns_states s)
    (nvds_page_free s) (nvds_page_used s) (mallocs s) (next_addr s).
Definition set_ns_list (l : list Z) (s : env) : env :=
  mk_env (flash s) (base_addr s) (length_ s) (encrypted s) (pages s) (nss s) l (ns_states s)
    (nvds_page_free s) (nvds_page_used s) (mallocs s) (next_addr s).
Definition set_ns_states (l : list Z) (s : env) : env :=
  mk_env (flash s) (base_addr s) (length_ s) (encrypted s) (pages s) (nss s) (ns_list s) l
    (nvds_page_free s) (nvds_page_used s) (mallocs s) (next_addr s).
Definition set_lists (fr us : list Z) (s : env) : env :=
  mk_env (flash s) (base_addr s) (length_ s) (encrypted s) (pages s) (nss s) (ns_list s)
    (ns_states s) fr us (mallocs s) (next_addr s).
Definition set_alloc (l : list bool) (n : Z) (s : env) : env :=
  mk_env (flash s) (base_addr s) (length_ s) (encrypted s) (pages s) (nss s) (ns_list s)
    (ns_states s) (nvds_page_free s) (nvds_page_used s) l n.

Definition K (A : Type) : Type := M env stop A.

Definition ub {A} : K A := err UB.
Definition fail {A} (r : nvds_ret) : K A := err (RET r).

(** Run [m] and test the code it returned. *)
Definition code {A} (m : K A) : K (nvds_ret + A) :=
  fun s => match m s with
           | (s', inl (RET r)) => (s', inr (inl r))
           | (s', inl e) => (s', inl e)
           | (s', inr a) => (s', inr (inr a))
           end.

(** Run [m] for its effect; the code it returned is not looked at. *)
Definition ignore {A} (m : K A) : K unit := let! _ := code m in ret tt.

(** Run [m], [None] standing for whatever code it failed with. *)
Definition attempt {A} (m : K A) : K (option A) :=
  let! r := code m in ret (match r with inl _ => None | inr a => Some a end).

Definition page_get (p : Z) : K page :=
  let! s := get in match pages s !! p with Some pg => ret pg | None => ub end.
Definition page_put (p : Z) (pg : page) : K unit := modify (fun s => set_pages (<[p := pg]> (pages s)) s).
Definition ns_get (n : Z) : K namespace_info :=
  let! s := get in match nss s !! n with Some ns => ret ns | None => ub end.
Definition ns_put (n : Z) (ns : namespace_info) : K unit :=
  modify (fun s => set_nss (<[n := ns]> (nss s)) s).

(** [sys_malloc]: a fresh address, or [None]. *)
Definition sys_malloc : K (option Z) :=
  let! s := get in
  let '(ok, l) := match mallocs s with [] => (true, []) | b :: l => (b, l) end in
  if ok then put (set_alloc l (next_addr s + 1) s) ;;; ret (Some (next_addr s))
  else put (set_alloc l (next_addr s) s) ;;; ret None.

Definition set_header (h : list Z) (pg : page) : page :=
  mk_page h (entry_states pg) (page_addr pg) (entry_cnt_used pg) (next_free_idx pg).
Definition set_states (st : list Z) (pg : page) : page :=
  mk_page (header pg) st (page_addr pg) (entry_cnt_used pg) (next_free_idx pg).
Definition set_counts (used nfree : Z) (pg : page) : page :=
  mk_page (header pg) (entry_states pg) (page_addr pg) used nfree.

(** ** Flash access *)

Definition nvds_flash_read (offset length : Z) : K (list Z) :=
  let! s := get in
  if length_ s <? u32 (offset + length) then fail NVDS_E_INVAL_PARAM
  else
    let '(r, buffer, f) := flash_read (flash s) (u32 (base_addr s + offset)) length in
    put (set_flash f s) ;;;
    if negb (r =? 0) then fail NVDS_E_FLASH_IO_FAIL else ret buffer.

Definition nvds_flash_write (offset : Z) (buffer : list Z) : K unit :=
  let! s := get in
  if length_ s <? u32 (offset + zlen buffer) then fail NVDS_E_INVAL_PARAM
  else
    let '(r, f) := flash_write (flash s) (u32 (base_addr s + offset)) buffer in
    put (set_flash f s) ;;;
    if negb (r =? 0) then fail NVDS_E_FLASH_IO_FAIL else ret tt.

Definition nvds_flash_erase (offset size : Z) : K unit :=
  let! s := get in
  if length_ s <? u32 (offset + size) then fail NVDS_E_INVAL_PARAM
  else
    let '(r, f) := flash_erase (flash s) (u32 (base_addr s + offset)) size in
    put (set_flash f s) ;;;
    if negb (r =? 0) then fail NVDS_E_FLASH_IO_FAIL else ret tt.

(** ** Entry and page states *)

Definition entry_states_table_read (page_addr : Z) : K (list Z) :=
  let! l := nvds_flash_read (u32 (page_addr + PAGE_ENTRY_STATES_OFFSET)) ENTRY_SIZE in
  ret (words_dec 8 l).

Definition entry_states_table_write (page_addr : Z) (states : list Z) : K unit :=
  nvds_flash_write (u32 (page_addr + PAGE_ENTRY_STATES_OFFSET)) (words_enc states).

Definition entry_state_alter (p entry_idx state : Z) : K unit :=
  if ENTRY_COUNT_PER_PAGE <=? entry_idx then fail NVDS_E_FAIL
  else if (state =? ENTRY_ILLEGAL) || (ENTRY_ERROR <=? state) then fail NVDS_E_FAIL
  else
    let! pg := page_get p in
    match entry_state_set (entry_states pg) entry_idx state with
    | None => fail NVDS_E_FAIL
    | Some st =>
        page_put p (set_states st pg) ;;;
        entry_states_table_write (page_addr pg) st
    end.

(** [for (idx = begin; idx <= end; ++idx)]: [n] turns from [idx]. *)
Fixpoint range_alter_loop (n : nat) (p idx state : Z) : K unit :=
  match n with
  | O => ret tt
  | S n => entry_state_alter p idx state ;;; range_alter_loop n p (idx + 1) state
  end.

Definition entry_state_range_alter (p begin end_ state : Z) : K unit :=
  let begin := u8 begin in
  let end_ := u8 end_ in
  if (end_ <? begin) || (ENTRY_COUNT_PER_PAGE <=? end_) then fail NVDS_E_FAIL
  else range_alter_loop (Z.to_nat (end_ - begin + 1)) p begin state.

Definition page_state_alter (p c_state : Z) : K unit :=
  let! pg := page_get p in
  nvds_flash_write (u32 (page_addr pg + PAGE_HEADER_OFFSET + 6)) (le_enc 2 c_state) ;;;
  page_put p (set_header (set_state c_state (header pg)) pg).

(** ** Entries *)

(** The blocks of [buf] through the cipher; [e] is the code of its failure. *)
Fixpoint aes_loop (aes : list Z -> option (list Z)) (e : nvds_ret) (n : nat) (buf : list Z) : K (list Z) :=
  match n with
  | O => ret buf
  | S n =>
      match aes (take 16 buf) with
      | None => fail e
      | Some b => let! rest := aes_loop aes e n (drop 16 buf) in ret (b ++ rest)
      end
  end.

Definition aes_blocks (len : Z) : nat := Z.to_nat ((len + AES_BLOCK_SZ - 1) / AES_BLOCK_SZ).

Definition entry_addr (pg : page) (entry_idx : Z) : Z :=
  u32 (page_addr pg + PAGE_ENTRY_OFFSET + entry_idx * ENTRY_SIZE).

Definition entry_read (p entry_idx : Z) : K entry :=
  let! pg := page_get p in
  let! e := nvds_flash_read (entry_addr pg entry_idx) ENTRY_SIZE in
  let! s := get in
  if encrypted s then aes_loop aes_decrypt NVDS_E_DECR_FAIL (aes_blocks ENTRY_SIZE) e
  else ret e.

Definition entry_write (p : Z) (e : entry) : K unit :=
  let! pg := page_get p in
  if ENTRY_COUNT_PER_PAGE <=? next_free_idx pg then fail NVDS_E_FAIL
  else
    let! s := get in
    let! e := (if encrypted s then aes_loop aes_encrypt NVDS_E_ENCR_FAIL (aes_blocks ENTRY_SIZE) e
               else ret e) in
    nvds_flash_write (entry_addr pg (next_free_idx pg)) e ;;;
    page_put p (set_counts (u16 (entry_cnt_used pg + 1)) (u32 (next_free_idx pg + 1)) pg).

(** The caller's buffer after the call: its whole blocks are encrypted in place. *)
Definition entry_data_write (address bufsize : Z) (buf : list Z) : K (list Z) :=
  let! s := get in
  if encrypted s then
    let '(round_len, remain_len) :=
      if negb (bufsize mod ENTRY_SIZE =? 0) then (Z.shiftl (Z.shiftr bufsize 5) 5, ENTRY_SIZE)
      else (bufsize, 0) in
    let! enc := aes_loop aes_encrypt NVDS_E_ENCR_FAIL (aes_blocks round_len) (slice 0 round_len buf) in
    let buf := splice 0 enc buf in
    (if negb (round_len =? 0) then nvds_flash_write address enc else ret tt) ;;;
    if negb (remain_len =? 0) then
      let remain_buf := splice 0 (slice round_len (bufsize - round_len) buf) blank in
      let! remain_buf := aes_loop aes_encrypt NVDS_E_ENCR_FAIL (aes_blocks remain_len) remain_buf in
      nvds_flash_write (u32 (address + round_len)) remain_buf ;;;
      ret buf
    else ret buf
  else
    nvds_flash_write address (slice 0 bufsize buf) ;;;
    ret buf.

(** ** Finding an element *)

(** [ns_idx == ns && strlen(key) == strlen(entry.key) && !memcmp(...)] of a used entry. *)
Definition key_match (ns_idx : Z) (key : list Z) (e : entry) : K bool :=
  if ns_idx =? tag_namespace_get (e_tag e) then
    match key_str e with
    | None => ub
    | Some k => ret (bool_decide (k = key))
    end
  else ret false.

Definition var_type (type : Z) : bool := (type =? ELEMENT_MIDDLE) || (type =? ELEMENT_BULK).

(** The index after an entry and its data, in a [uint8_t]. *)
Definition next_entry (entry_idx type len : Z) : Z :=
  let entry_idx := u8 (entry_idx + 1) in
  if var_type type then u8 (entry_idx + data_entries len) else entry_idx.

(** The walk over one page. It visits at most 126 indexes, or one of them twice: a walk
    that outlives its fuel does not end. *)
Fixpoint find_in_page (fuel : nat) (ns_idx : Z) (key : list Z) (p entry_idx entry_type : Z)
  : K (option Z) :=
  match fuel with
  | O => err DIVERGES
  | S fuel =>
      if ENTRY_COUNT_PER_PAGE <=? entry_idx then ret None
      else
        let! pg := page_get p in
        match entry_state_get (entry_states pg) entry_idx with
        | None => fail NVDS_E_FAIL
        | Some state =>
            if state =? ENTRY_FREE then ret None
            else
              let! e := entry_read p entry_idx in
              let type := tag_element_type_get (e_tag e) in
              let! m := (if state =? ENTRY_USED then key_match ns_idx key e else ret false) in
              if m && ((entry_type =? ELEMENT_ANY) || (type =? entry_type))
                   && (e_crc32 e =? element_header_crc32_calc e)
              then ret (Some entry_idx)
              else find_in_page fuel ns_idx key p (next_entry entry_idx type (e_length e)) entry_type
        end
  end.

Definition walk_fuel : nat := 128.

Definition live_page (pg : page) : bool :=
  (h_state (header pg) =? PAGE_ACTIVE) || (h_state (header pg) =? PAGE_FULL).

Fixpoint find_in_pages (l : list Z) (ns_idx : Z) (key : list Z) (entry_start entry_type : Z)
  : K (Z * Z) :=
  match l with
  | [] => fail NVDS_E_NOT_FOUND
  | p :: l =>
      let! pg := page_get p in
      if negb (live_page pg) then find_in_pages l ns_idx key entry_start entry_type
      else
        let! r := find_in_page walk_fuel ns_idx key p entry_start entry_type in
        match r with
        | Some entry_idx => ret (p, entry_idx)
        | None => find_in_pages l ns_idx key 0 entry_type
        end
  end.

(** The used pages from [page_start] on, all of them when it is not one of them. *)
Fixpoint pages_from (l : list Z) (page_start : Z) : option (list Z) :=
  match l with
  | [] => None
  | p :: l' => if p =? page_start then Some l else pages_from l' page_start
  end.

(** The page and the index found; [entry_start] is the value of [*entry_find] at the call. *)
Definition element_find (ns_idx : Z) (key : list Z) (entry_start : Z) (page_start : option Z)
  (entry_type : Z) : K (Z * Z) :=
  let! s := get in
  let l := match page_start with
           | Some p => default (nvds_page_used s) (pages_from (nvds_page_used s) p)
           | None => nvds_page_used s
           end in
  find_in_pages l ns_idx key (u8 entry_start) entry_type.

Definition data_element_find (ns_idx : Z) (key : list Z) : K (Z * Z) :=
  element_find ns_idx key 0 None ELEMENT_ANY.

Definition page_room_get (pg : page) : Z :=
  signed 32 ((ENTRY_COUNT_PER_PAGE - next_free_idx pg) * ENTRY_SIZE).

(** ** Deleting *)

Definition sub_used (p n : Z) : K unit :=
  let! pg := page_get p in
  page_put p (set_counts (u16 (entry_cnt_used pg - n)) (next_free_idx pg) pg).

(** Mark the fragments of a bulk element updated, from [entry_idx] of [page_start] on.
    Every turn takes an entry out of the used state. *)
Fixpoint bulk_frags_del (fuel : nat) (ns_idx : Z) (key : list Z) (entry_idx : Z)
  (page_start : option Z) : K unit :=
  match fuel with
  | O => err DIVERGES
  | S fuel =>
      let! r := code (element_find ns_idx key entry_idx page_start ELEMENT_BULK) in
      match r with
      | inl r => if bool_decide (r = NVDS_E_NOT_FOUND) then ret tt else fail r
      | inr (p, entry_idx) =>
          let! e := entry_read p entry_idx in
          let entry_cnt := data_entries (e_length e) in
          entry_state_range_alter p entry_idx (entry_idx + entry_cnt) ENTRY_UPDATED ;;;
          sub_used p (entry_cnt + 1) ;;;
          bulk_frags_del fuel ns_idx key (u8 (entry_idx + entry_cnt + 1)) (Some p)
      end
  end.

Definition frags_fuel (s : env) : nat := S (128 * List.length (nvds_page_used s)).

Definition bulk_element_del (ns_idx : Z) (key : list Z) : K unit :=
  let! r := code (element_find ns_idx key 0 None ELEMENT_BULKINFO) in
  match r with
  | inl r => if bool_decide (r = NVDS_E_NOT_FOUND) then ret tt else fail r
  | inr (p, entry_idx) =>
      entry_state_range_alter p entry_idx entry_idx ENTRY_UPDATED ;;;
      sub_used p 1 ;;;
      let! s := get in
      bulk_frags_del (frags_fuel s) ns_idx key 0 None
  end.

Definition data_element_del (ns_idx : Z) (key : list Z) : K unit :=
  let! (p, entry_idx) := element_find ns_idx key 0 None ELEMENT_ANY in
  let! e := entry_read p entry_idx in
  let type := tag_element_type_get (e_tag e) in
  if (type =? ELEMENT_BULKINFO) || (type =? ELEMENT_BULK) then bulk_element_del ns_idx key
  else if type =? ELEMENT_SMALL then
    entry_state_range_alter p entry_idx entry_idx ENTRY_UPDATED ;;;
    sub_used p 1
  else if type =? ELEMENT_MIDDLE then
    let entry_cnt := data_entries (e_length e) in
    entry_state_range_alter p entry_idx (entry_idx + entry_cnt) ENTRY_UPDATED ;;;
    sub_used p (entry_cnt + 1)
  else fail NVDS_E_FAIL.

(** ** Reading *)

(** The out-parameters of a get: the code, [*bufsize], and the caller's buffer. *)
Definition get_result : Type := nvds_ret * Z * option (list Z).

(** [for (entry_idx = start; entry_idx <= end; ++entry_idx)] on a [uint8_t]: copy the data
    entries to [dst]. A code stops the copy with what was copied so far. *)
Fixpoint read_data (fuel : nat) (p entry_idx entry_end remain dst : Z) (buf : list Z)
  : K (nvds_ret * list Z) :=
  match fuel with
  | O => err DIVERGES
  | S fuel =>
      if entry_end <? entry_idx then ret (NVDS_OK, buf)
      else
        let! r := code (entry_read p entry_idx) in
        match r with
        | inl c => ret (c, buf)
        | inr e =>
            let copy := if remain <? ENTRY_SIZE then remain else ENTRY_SIZE in
            if zlen buf <? dst + copy then ub
            else read_data fuel p (u8 (entry_idx + 1)) entry_end (remain - copy) (dst + copy)
                   (splice dst (slice 0 copy e) buf)
        end
  end.

Definition data_fuel : nat := 257.

(** The fragment [frag_idx]: where the search stands, and what its data reader returns.
    [None] when there is no such fragment, which the code skips silently. *)
Fixpoint find_frag (fuel : nat) (ns_idx : Z) (key : list Z) (frag_idx entry_idx : Z)
  (page_start : option Z) : K (option (Z * Z * entry)) :=
  match fuel with
  | O => err DIVERGES
  | S fuel =>
      let! r := code (element_find ns_idx key entry_idx page_start ELEMENT_BULK) in
      match r with
      | inl r => if bool_decide (r = NVDS_E_NOT_FOUND) then ret None else fail r
      | inr (p, entry_idx) =>
          let! e := entry_read p entry_idx in
          if tag_fragno_get (e_tag e) =? frag_idx then ret (Some (p, entry_idx, e))
          else find_frag fuel ns_idx key frag_idx
                 (u8 (u8 (entry_idx + 1) + data_entries (e_length e))) (Some p)
      end
  end.

Definition frag_fuel (s : env) : nat := S (256 * List.length (nvds_page_used s)).

Fixpoint bulk_get_loop (n : nat) (ns_idx : Z) (key : list Z) (frag_idx dst_offset : Z)
  (buf : list Z) : K (nvds_ret * list Z) :=
  match n with
  | O => ret (NVDS_OK, buf)
  | S n =>
      let! s := get in
      let! r := code (find_frag (frag_fuel s) ns_idx key frag_idx 0 None) in
      match r with
      | inl c => ret (c, buf)
      | inr None => bulk_get_loop n ns_idx key (frag_idx + 1) dst_offset buf
      | inr (Some (p, entry_idx, e)) =>
          let! (c, buf) := read_data data_fuel p (u8 (entry_idx + 1))
                              (u8 (entry_idx + data_entries (e_length e))) (e_length e) dst_offset buf in
          if bool_decide (c = NVDS_OK)
          then bulk_get_loop n ns_idx key (frag_idx + 1) (dst_offset + e_length e) buf
          else ret (c, buf)
      end
  end.

Definition bulk_element_get (ns_idx : Z) (key : list Z) (buf : option (list Z)) (bufsize : Z)
  : K get_result :=
  let! (p, entry_idx) := element_find ns_idx key 0 None ELEMENT_BULKINFO in
  let! e := entry_read p entry_idx in
  let bulk_size := e_bulksize e in
  match buf with
  | None => ret (NVDS_OK, bulk_size, None)
  | Some b =>
      if bufsize <? bulk_size then ret (NVDS_E_INVALID_LENGTH, bulk_size, buf)
      else
        let! (c, b) := bulk_get_loop (Z.to_nat (e_length e)) ns_idx key 0 0 b in
        ret (c, bulk_size, Some b)
  end.

Definition data_element_get (ns_idx : Z) (key : list Z) (buf : option (list Z)) (bufsize : Z)
  : K get_result :=
  let! (p, entry_idx) := element_find ns_idx key 0 None ELEMENT_ANY in
  let! e := entry_read p entry_idx in
  let type := tag_element_type_get (e_tag e) in
  if (type =? ELEMENT_BULK) || (type =? ELEMENT_BULKINFO)
  then bulk_element_get ns_idx key buf bufsize
  else
    let entry_len := e_length e in
    match buf with
    | None => ret (NVDS_OK, entry_len, None)
    | Some b =>
        if bufsize <? entry_len then ret (NVDS_E_INVALID_LENGTH, entry_len, buf)
        else if type =? ELEMENT_SMALL then
          if (8 <? entry_len) || (zlen b <? entry_len) then ub
          else ret (NVDS_OK, entry_len, Some (splice 0 (slice 0 entry_len (e_value e)) b))
        else if type =? ELEMENT_MIDDLE then
          let crc32 := e_datacrc32 e in
          let! (c, b) := read_data data_fuel p (u8 (entry_idx + 1))
                            (u8 (entry_idx + data_entries entry_len)) entry_len 0 b in
          if negb (bool_decide (c = NVDS_OK)) then ret (c, entry_len, Some b)
          else if negb (crc32 =? element_data_crc32_calc b entry_len)
          then ret (NVDS_E_NOT_FOUND, entry_len, Some b)
          else ret (NVDS_OK, entry_len, Some b)
        else ret (NVDS_OK, entry_len, Some b)
    end.

(** ** Comparing with the stored value *)

Fixpoint compare_data (fuel : nat) (p entry_idx entry_end remain dst : Z) (buf : list Z) : K bool :=
  match fuel with
  | O => err DIVERGES
  | S fuel =>
      if entry_end <? entry_idx then ret true
      else
        let! r := code (entry_read p entry_idx) in
        match r with
        | inl _ => ret false
        | inr e =>
            let copy := if remain <? ENTRY_SIZE then remain else ENTRY_SIZE in
            if zlen buf <? dst + copy then ub
            else if negb (bool_decide (slice dst copy buf = slice 0 copy e)) then ret false
            else compare_data fuel p (u8 (entry_idx + 1)) entry_end (remain - copy) (dst + copy) buf
        end
  end.

Fixpoint bulk_compare_loop (n : nat) (ns_idx : Z) (key : list Z) (frag_idx dst_offset : Z)
  (buf : list Z) : K bool :=
  match n with
  | O => ret true
  | S n =>
      let! s := get in
      let! r := code (find_frag (frag_fuel s) ns_idx key frag_idx 0 None) in
      match r with
      | inl _ => ret false
      | inr None => bulk_compare_loop n ns_idx key (frag_idx + 1) dst_offset buf
      | inr (Some (p, entry_idx, e)) =>
          let! same := compare_data data_fuel p (u8 (entry_idx + 1))
                         (u8 (entry_idx + data_entries (e_length e))) (e_length e) dst_offset buf in
          if same then bulk_compare_loop n ns_idx key (frag_idx + 1) (dst_offset + e_length e) buf
          else ret false
      end
  end.

Definition bulk_element_compare (ns_idx : Z) (key : list Z) (buf : list Z) (bufsize : Z) : K bool :=
  let! r := code (element_find ns_idx key 0 None ELEMENT_BULKINFO) in
  match r with
  | inl r => ret (bool_decide (r = NVDS_E_NOT_FOUND))
  | inr (p, entry_idx) =>
      let! e := attempt (entry_read p entry_idx) in
      match e with
      | None => ret false
      | Some e =>
          if negb (e_bulksize e =? bufsize) then ret false
          else bulk_compare_loop (Z.to_nat (e_length e)) ns_idx key 0 0 buf
      end
  end.

Definition element_compare (ns_idx : Z) (key : list Z) (buf : list Z) (bufsize : Z) : K bool :=
  let! r := attempt (data_element_get ns_idx key None 0) in
  match r with
  | Some (NVDS_OK, data_size, _) =>
      if negb (data_size =? bufsize) then ret false
      else
        let! r := attempt (element_find ns_idx key 0 None ELEMENT_ANY) in
        match r with
        | None => ret false
        | Some (p, entry_idx) =>
            let! e := attempt (entry_read p entry_idx) in
            match e with
            | None => ret false
            | Some e =>
                let type := tag_element_type_get (e_tag e) in
                if type =? ELEMENT_SMALL then
                  if negb (e_length e =? bufsize) then ret false
                  else if (8 <? e_length e) || (zlen buf <? e_length e) then ub
                  else ret (bool_decide (slice 0 (e_length e) buf = slice 0 (e_length e) (e_value e)))
                else if type =? ELEMENT_MIDDLE then
                  if negb (e_length e =? bufsize) then ret false
                  else compare_data data_fuel p (u8 (entry_idx + 1))
                         (u8 (entry_idx + data_entries (e_length e))) (e_length e) 0 buf
                else if (type =? ELEMENT_BULK) || (type =? ELEMENT_BULKINFO)
                then bulk_element_compare ns_idx key buf bufsize
                else ret false
            end
        end
  | _ => ret false
  end.

(** ** Pages: a new page, and the collection of the one with the fewest used entries *)

Definition page_clear (p : Z) : K unit :=
  let! pg := page_get p in
  page_put p (mk_page blank (replicate 8 0xFFFFFFFF) (page_addr pg) 0 0).

(** The used page with the fewest used entries, the first of them; none below [min]. *)
Fixpoint select_erase_page (l : list Z) (min : Z) (erase_page : option Z) : K (option Z) :=
  match l with
  | [] => ret erase_page
  | p :: l =>
      let! pg := page_get p in
      if entry_cnt_used pg <? min then select_erase_page l (entry_cnt_used pg) (Some p)
      else select_erase_page l min erase_page
  end.

(** Copy the used entries of [from], from [entry_idx] on, to the end of [to]. *)
Fixpoint copy_entries (n : nat) (from to entry_idx : Z) : K unit :=
  match n with
  | O => ret tt
  | S n =>
      let! pg := page_get from in
      match entry_state_get (entry_states pg) entry_idx with
      | None => ub
      | Some state =>
          (if negb (state =? ENTRY_USED) then ret tt
           else
             let! e := entry_read from entry_idx in
             entry_write to e ;;;
             let! pg := page_get to in
             entry_state_alter to (u8 (next_free_idx pg - 1)) ENTRY_USED) ;;;
          copy_entries n from to (entry_idx + 1)
      end
  end.

Definition extract (p : Z) (l : list Z) : list Z := filter (fun q => q <> p) l.

Definition fresh_header (seq : Z) : list Z :=
  let h := set_seqno seq (set_state PAGE_ACTIVE (set_version NVDS_FLASH_VERSION
             (set_magic NVDS_FLASH_MAGIC blank))) in
  set_hcrc32 (page_header_crc32_calc h) h.

Definition new_page (seq : Z) : K Z :=
  let! s := get in
  match nvds_page_free s with
  | [] => fail NVDS_E_FAIL
  | page :: free =>
      let! erase_page := (match free with
                          | [] =>
                              let! e := select_erase_page (nvds_page_used s) ENTRY_COUNT_PER_PAGE None in
                              (match e with None => fail NVDS_E_FAIL | Some _ => ret e end)
                          | _ => ret None
                          end) in
      let! pg := page_get page in
      (if negb (h_state (header pg) =? PAGE_UNINITIALIZED)
       then nvds_flash_erase (page_addr pg) SPI_FLASH_SEC_SIZE else ret tt) ;;;
      page_clear page ;;;
      let! pg := page_get page in
      page_put page (set_header (fresh_header seq) pg) ;;;
      nvds_flash_write (u32 (page_addr pg + PAGE_HEADER_OFFSET)) (fresh_header seq) ;;;
      page_state_alter page PAGE_ACTIVE ;;;
      let! s := get in
      let free := extract page (nvds_page_free s) in
      put (set_lists free (nvds_page_used s ++ [page]) s) ;;;
      if negb (bool_decide (free = [])) then ret page
      else
        match erase_page with
        | None => ub
        | Some ep =>
            let! s := get in
            put (set_lists (nvds_page_free s ++ [ep]) (extract ep (nvds_page_used s)) s) ;;;
            page_state_alter ep PAGE_CANDIDATE ;;;
            copy_entries 126 ep page 0 ;;;
            let! epg := page_get ep in
            nvds_flash_erase (page_addr epg) SPI_FLASH_SEC_SIZE ;;;
            page_clear ep ;;;
            ret page
        end
  end.

(** [NULL] stands for every failure. *)
Definition new_page_request (seq : Z) : K (option Z) := attempt (new_page seq).

(** ** Writing *)

(** The namespace object whose index is [ns_idx], the first in the list. *)
Fixpoint ns_find (l : list Z) (ns_idx : Z) : K (option Z) :=
  match l with
  | [] => ret None
  | n :: l => let! ns := ns_get n in if ns_index ns =? ns_idx then ret (Some n) else ns_find l ns_idx
  end.

Definition ns_add_used_cnt (ns_idx : Z) : K unit :=
  if NAMESPACE_MAX_CNT <? ns_idx then fail NVDS_E_INVAL_PARAM
  else
    let! s := get in
    let! r := ns_find (ns_list s) ns_idx in
    match r with
    | None => ret tt
    | Some n =>
        let! ns := ns_get n in
        ns_put n (mk_ns (ns_name ns) (ns_index ns) (u32 (ns_used_cnt ns + 1)))
    end.

Definition ns_del_used_cnt (ns_idx : Z) (del_flag : bool) : K unit :=
  if NAMESPACE_MAX_CNT <? ns_idx then fail NVDS_E_INVAL_PARAM
  else
    let! s := get in
    let! r := ns_find (ns_list s) ns_idx in
    match r with
    | None => ret tt
    | Some n =>
        let! ns := ns_get n in
        let cnt := u32 (ns_used_cnt ns - 1) in
        ns_put n (mk_ns (ns_name ns) (ns_index ns) cnt) ;;;
        if (cnt =? 0) && del_flag then
          modify (fun s => set_ns_list (extract n (ns_list s)) s) ;;;
          modify (fun s => set_ns_states (ns_state_set (ns_states s) ns_idx false) s) ;;;
          data_element_del 0 (ns_name ns) ;;;
          modify (fun s => set_nss (delete n (nss s)) s)
        else ret tt
    end.

(** [list_pick_last(&nvds_page_used)] and the sanity check on its state. *)
Definition write_page : K Z :=
  let! s := get in
  match last (nvds_page_used s) with
  | None => ub
  | Some p =>
      let! pg := page_get p in
      let st := h_state (header pg) in
      if (st =? PAGE_INVALID) || (st =? PAGE_ERROR) || (st =? PAGE_CANDIDATE)
      then fail NVDS_E_FAIL else ret p
  end.

(** Close the current page and ask for the next one. *)
Definition turn_page (p : Z) : K (option Z) :=
  page_state_alter p PAGE_FULL ;;;
  let! pg := page_get p in
  new_page_request (u32 (h_seqno (header pg) + 1)).

Definition mk_header_entry (ns_idx type frag len : Z) (key : list Z) (fill : entry -> entry) : entry :=
  let e := fill (set_key key (set_length (u16 len) (set_tag (tag_set ns_idx type frag) blank))) in
  set_crc32 (element_header_crc32_calc e) e.

(** One fragment: its header entry, its data, then their states. *)
Definition put_frag (ns_idx : Z) (key : list Z) (cur_page frag_cnt length buf_offset : Z)
  (buf : list Z) : K (list Z) :=
  let! pg := page_get cur_page in
  let entry_start := u8 (next_free_idx pg) in
  let entry_cnt := data_entries length in
  let e := mk_header_entry ns_idx ELEMENT_BULK frag_cnt length key
             (set_word28 (element_data_crc32_calc buf length)) in
  entry_write cur_page e ;;;
  let! pg := page_get cur_page in
  let! buf' := entry_data_write (entry_addr pg (next_free_idx pg)) length (drop (Z.to_nat buf_offset) buf) in
  let! pg := page_get cur_page in
  page_put cur_page (set_counts (u16 (entry_cnt_used pg + entry_cnt)) (u32 (next_free_idx pg + entry_cnt)) pg) ;;;
  entry_state_range_alter cur_page entry_start (entry_start + entry_cnt) ENTRY_USED ;;;
  ret (take (Z.to_nat buf_offset) buf ++ buf').

(** The fragments of the data from [buf_offset] on; [None] when there is no space left.
    Each turn writes at least one byte. *)
Fixpoint put_frags (fuel : nat) (ns_idx : Z) (key : list Z) (cur_page frag_cnt buf_offset remain : Z)
  (buf : list Z) : K (option Z) :=
  match fuel with
  | O => err DIVERGES
  | S fuel =>
      let! pg := page_get cur_page in
      let! next := (if page_room_get pg <? 2 * ENTRY_SIZE then
                      let! r := turn_page cur_page in
                      (match r with
                       | None => ret None
                       | Some p =>
                           let! pg := page_get p in
                           if page_room_get pg <? 2 * ENTRY_SIZE then ret None else ret (Some p)
                       end)
                    else ret (Some cur_page)) in
      match next with
      | None => ret None
      | Some cur_page =>
          let! pg := page_get cur_page in
          let room := u32 (page_room_get pg - ENTRY_SIZE) in
          let length := if room <? remain then room else remain in
          let! buf := put_frag ns_idx key cur_page frag_cnt length buf_offset buf in
          let remain := u32 (remain - length) in
          let frag_cnt := u16 (frag_cnt + 1) in
          if 0 <? remain
          then put_frags fuel ns_idx key cur_page frag_cnt (u16 (buf_offset + length)) remain buf
          else ret (Some frag_cnt)
      end
  end.

Definition put_bulkinfo (ns_idx : Z) (key : list Z) (cur_page frag_cnt bufsize : Z) : K unit :=
  let! pg := page_get cur_page in
  let entry_start := u8 (next_free_idx pg) in
  let e := mk_header_entry ns_idx ELEMENT_BULKINFO TAG_FRAG_NO_DEFAULT frag_cnt key (set_word28 bufsize) in
  entry_write cur_page e ;;;
  entry_state_range_alter cur_page entry_start entry_start ENTRY_USED.

Definition no_space_out (ns_idx : Z) (key : list Z) : K unit :=
  let! s := get in
  bulk_frags_del (frags_fuel s) ns_idx key 0 None ;;;
  fail NVDS_E_NO_SPACE.

Definition bulk_element_put (ns_idx : Z) (key buf : list Z) (bufsize : Z) : K unit :=
  let! cur_page := write_page in
  let! r := put_frags (S (Z.to_nat bufsize)) ns_idx key cur_page 0 0 bufsize buf in
  match r with
  | None => no_space_out ns_idx key
  | Some frag_cnt =>
      let! cur_page := write_page in
      let! pg := page_get cur_page in
      let! next := (if page_room_get pg <? ENTRY_SIZE then
                      let! r := turn_page cur_page in
                      (match r with
                       | None => ret None
                       | Some p =>
                           let! pg := page_get p in
                           if page_room_get pg <? ENTRY_SIZE then ret None else ret (Some p)
                       end)
                    else ret (Some cur_page)) in
      match next with
      | None => no_space_out ns_idx key
      | Some cur_page => put_bulkinfo ns_idx key cur_page frag_cnt bufsize
      end
  end.

(** Whether the page has no room for the element. *)
Definition no_room (pg : page) (bufsize : Z) : bool :=
  ((bufsize <=? ELEMENT_SMALL_MAX_SIZE) && (page_room_get pg <? ENTRY_SIZE)) ||
  ((ELEMENT_SMALL_MAX_SIZE <? bufsize) && (u32 (page_room_get pg) <? u32 (ENTRY_SIZE + bufsize))).

Definition element_entry (ns_idx : Z) (key buf : list Z) (bufsize : Z) : entry :=
  let type := if ELEMENT_SMALL_MAX_SIZE <? bufsize then ELEMENT_MIDDLE else ELEMENT_SMALL in
  mk_header_entry ns_idx type TAG_FRAG_NO_DEFAULT bufsize key
    (if type =? ELEMENT_SMALL then set_value (slice 0 bufsize buf)
     else set_word28 (element_data_crc32_calc buf bufsize)).

(** Write a small or middle element to [cur_page]. *)
Definition put_element (ns_idx : Z) (key buf : list Z) (bufsize cur_page : Z) : K unit :=
  let! pg := page_get cur_page in
  let entry_start := next_free_idx pg in
  let entry_cnt := data_entries bufsize in
  entry_write cur_page (element_entry ns_idx key buf bufsize) ;;;
  if ELEMENT_SMALL_MAX_SIZE <? bufsize then
    let! pg := page_get cur_page in
    let! _ := entry_data_write (entry_addr pg (next_free_idx pg)) bufsize buf in
    let! pg := page_get cur_page in
    page_put cur_page (set_counts (u16 (entry_cnt_used pg + entry_cnt)) (u32 (next_free_idx pg + entry_cnt)) pg) ;;;
    entry_state_range_alter cur_page entry_start (entry_start + entry_cnt) ENTRY_USED
  else entry_state_range_alter cur_page entry_start entry_start ENTRY_USED.

Definition data_element_put (ns_idx : Z) (key buf : list Z) (bufsize : Z) : K unit :=
  let! same := element_compare ns_idx key buf bufsize in
  if same then ignore (ns_del_used_cnt ns_idx false)
  else
    let! d := code (data_element_del ns_idx key) in
    (match d with
     | inr _ => ignore (ns_del_used_cnt ns_idx false)
     | inl r => if bool_decide (r = NVDS_E_NOT_FOUND) then ret tt else fail r
     end) ;;;
    if ELEMENT_MIDDLE_MAX_SIZE <? bufsize then bulk_element_put ns_idx key buf bufsize
    else
      let! cur_page := write_page in
      let! pg := page_get cur_page in
      if no_room pg bufsize then
        let! r := turn_page cur_page in
        match r with
        | None => fail NVDS_E_NO_SPACE
        | Some p =>
            let! pg := page_get p in
            if no_room pg bufsize then fail NVDS_E_NO_SPACE
            else put_element ns_idx key buf bufsize p
        end
      else put_element ns_idx key buf bufsize cur_page.

(** ** Namespaces *)

(** The first index from [ns_idx] on whose bit is clear, [NAMESPACE_NULL_IDX] if none. *)
Fixpoint free_ns_idx (n : nat) (states : list Z) (ns_idx : Z) : Z :=
  match n with
  | O => ns_idx
  | S n => if ns_state_get states ns_idx then free_ns_idx n states (ns_idx + 1) else ns_idx
  end.

Definition namespace_create (namespace : list Z) : K Z :=
  let! s := get in
  let ns_idx := free_ns_idx (Z.to_nat (NAMESPACE_NULL_IDX - 1)) (ns_states s) 1 in
  if ns_idx =? NAMESPACE_NULL_IDX then fail NVDS_E_NO_SPACE
  else
    let! m := sys_malloc in
    match m with
    | None => fail NVDS_E_NO_SPACE
    | Some new_ns =>
        data_element_put 0 namespace [ns_idx] 1 ;;;
        modify (fun s => set_ns_states (ns_state_set (ns_states s) ns_idx true) s) ;;;
        ns_put new_ns (mk_ns namespace ns_idx 0) ;;;
        modify (fun s => set_ns_list (ns_list s ++ [new_ns]) s) ;;;
        ret ns_idx
    end.

Fixpoint ns_by_name (l : list Z) (namespace : list Z) : K (option Z) :=
  match l with
  | [] => ret None
  | n :: l =>
      let! ns := ns_get n in
      if bool_decide (ns_name ns = namespace) then ret (Some n) else ns_by_name l namespace
  end.

Definition ns_index_by_namespace (namespace : option (list Z)) (create : bool) : K Z :=
  match namespace with
  | None => ret NAMESPACE_NULL_IDX
  | Some name =>
      if KEY_NAME_MAX_SIZE - 1 <? zlen name then fail NVDS_E_INVAL_PARAM
      else
        let! s := get in
        let! r := ns_by_name (ns_list s) name in
        match r with
        | Some n => let! ns := ns_get n in ret (ns_index ns)
        | None => if create then namespace_create name else fail NVDS_E_NOT_FOUND
        end
  end.

(** ** Mounting *)

(** The eight blocks of a page: whether all their words are erased. *)
Fixpoint blocks_erased (n : nat) (addr : Z) : K bool :=
  match n with
  | O => ret true
  | S n =>
      let! l := nvds_flash_read (u32 addr) 512 in
      if forallb (fun b => b =? 0xFF) l then blocks_erased n (addr + 512) else ret false
  end.

Definition set_page_state (p st : Z) : K unit :=
  let! pg := page_get p in page_put p (set_header (set_state st (header pg)) pg).

Definition page_header_read (p : Z) : K unit :=
  let! pg := page_get p in
  let! r := attempt (nvds_flash_read (u32 (page_addr pg + PAGE_HEADER_OFFSET)) 32) in
  match r with
  | None => set_page_state p PAGE_INVALID
  | Some h =>
      page_put p (set_header h pg) ;;;
      if h_state h =? PAGE_UNINITIALIZED then
        let! r := attempt (blocks_erased 8 (page_addr pg + PAGE_HEADER_OFFSET)) in
        match r with
        | None => set_page_state p PAGE_INVALID
        | Some false => set_page_state p PAGE_ERROR
        | Some true => set_page_state p PAGE_UNINITIALIZED
        end
      else if negb (h_crc32 h =? page_header_crc32_calc h) then set_page_state p PAGE_ERROR
      else if negb (h_magic h =? NVDS_FLASH_MAGIC) then set_page_state p PAGE_ERROR
      else ret tt
  end.

Definition cmp_sequence_no (seqA seqB : Z) : bool :=
  Z.land seqA (u32 (Z.lnot (Z.shiftl 1 31))) <? Z.land seqB (u32 (Z.lnot (Z.shiftl 1 31))).

(** [list_insert(&nvds_page_used, page, cmp_sequence_no)]. *)
Fixpoint insert_page (l : list Z) (p seq : Z) : K (list Z) :=
  match l with
  | [] => ret [p]
  | q :: l' =>
      let! pg := page_get q in
      if cmp_sequence_no seq (h_seqno (header pg)) then ret (p :: l)
      else let! l' := insert_page l' p seq in ret (q :: l')
  end.

(** The entries of a page at mount. [false] when an entry cannot be read. *)
Fixpoint load_entries (fuel : nat) (p entry_idx : Z) : K bool :=
  match fuel with
  | O => err DIVERGES
  | S fuel =>
      if ENTRY_COUNT_PER_PAGE <=? entry_idx then ret true
      else
        let! pg := page_get p in
        match entry_state_get (entry_states pg) entry_idx with
        | None => ub
        | Some state =>
            if state =? ENTRY_FREE then
              page_put p (set_counts (entry_cnt_used pg) entry_idx pg) ;;; ret true
            else if state =? ENTRY_ILLEGAL then
              ignore (entry_state_alter p entry_idx ENTRY_UPDATED) ;;;
              load_entries fuel p (entry_idx + 1)
            else if state =? ENTRY_UPDATED then load_entries fuel p (entry_idx + 1)
            else
              let! r := attempt (entry_read p entry_idx) in
              match r with
              | None => ret false
              | Some e =>
                  (if negb (e_crc32 e =? element_header_crc32_calc e)
                   then ignore (entry_state_alter p entry_idx ENTRY_UPDATED) else ret tt) ;;;
                  (if tag_namespace_get (e_tag e) =? 0 then
                     let! m := sys_malloc in
                     (match m with
                      | None => fail NVDS_E_NO_SPACE
                      | Some n =>
                          match key_str e with
                          | None => ub
                          | Some name =>
                              let index := nthb (e_value e) 0 in
                              ns_put n (mk_ns name index 0) ;;;
                              modify (fun s => set_ns_list (ns_list s ++ [n]) s) ;;;
                              modify (fun s => set_ns_states (ns_state_set (ns_states s) index true) s)
                          end
                      end)
                   else ret tt) ;;;
                  let cnt := if var_type (tag_element_type_get (e_tag e))
                             then data_entries (e_length e) else 0 in
                  let! pg := page_get p in
                  page_put p (set_counts (u16 (u16 (entry_cnt_used pg + 1) + cnt)) (next_free_idx pg) pg) ;;;
                  load_entries fuel p (entry_idx + 1 + cnt)
              end
        end
  end.

Definition push_free (p : Z) : K unit :=
  modify (fun s => set_lists (nvds_page_free s ++ [p]) (nvds_page_used s) s).

(** One sector; [is_err] is the flag of the code, which a page sets and none clears. *)
Definition load_sector (sector_idx : Z) (is_err : bool) : K bool :=
  let! m := sys_malloc in
  match m with
  | None => fail NVDS_E_NO_SPACE
  | Some p =>
      page_put p (mk_page (replicate 32 0) (replicate 8 0) (u32 (sector_idx * SPI_FLASH_SEC_SIZE)) 0 0) ;;;
      page_header_read p ;;;
      let! pg := page_get p in
      let st := h_state (header pg) in
      if (st =? PAGE_UNINITIALIZED) || (st =? PAGE_ERROR) || (st =? PAGE_INVALID)
      then push_free p ;;; ret is_err
      else
        let! r := attempt (entry_states_table_read (page_addr pg)) in
        match r with
        | None => push_free p ;;; ret is_err
        | Some states =>
            page_put p (set_counts 0 ENTRY_COUNT_PER_PAGE (set_states states pg)) ;;;
            let! ok := load_entries walk_fuel p 0 in
            let is_err := is_err || negb ok in
            if is_err then push_free p ;;; ret is_err
            else
              let! s := get in
              let! used := insert_page (nvds_page_used s) p (h_seqno (header pg)) in
              modify (fun s => set_lists (nvds_page_free s) used s) ;;;
              ret is_err
        end
  end.

Fixpoint load_sectors (n : nat) (sector_idx : Z) (is_err : bool) : K unit :=
  match n with
  | O => ret tt
  | S n => let! is_err := load_sector sector_idx is_err in load_sectors n (sector_idx + 1) is_err
  end.

(** Count the used entries of each namespace, page by page. *)
Fixpoint count_page (fuel : nat) (p entry_idx : Z) : K unit :=
  match fuel with
  | O => err DIVERGES
  | S fuel =>
      if ENTRY_COUNT_PER_PAGE <=? entry_idx then ret tt
      else
        let! r := attempt (entry_read p entry_idx) in
        match r with
        | None => ret tt
        | Some e =>
            let! pg := page_get p in
            (if bool_decide (entry_state_get (entry_states pg) entry_idx = Some ENTRY_USED) then
               let! s := get in
               let! r := ns_find (ns_list s) (tag_namespace_get (e_tag e)) in
               (match r with
                | None => ret tt
                | Some n =>
                    let! ns := ns_get n in
                    ns_put n (mk_ns (ns_name ns) (ns_index ns) (u32 (ns_used_cnt ns + 1)))
                end)
             else ret tt) ;;;
            count_page fuel p
              (entry_idx + 1 + if var_type (tag_element_type_get (e_tag e)) then data_entries (e_length e) else 0)
        end
  end.

Fixpoint count_pages (l : list Z) : K unit :=
  match l with
  | [] => ret tt
  | p :: l => count_page walk_fuel p 0 ;;; count_pages l
  end.

Definition pages_load : K unit :=
  let! s := get in
  if negb (length_ s mod SPI_FLASH_SEC_SIZE =? 0) then fail NVDS_E_INVAL_PARAM
  else
    load_sectors (Z.to_nat (length_ s / SPI_FLASH_SEC_SIZE)) 0 false ;;;
    let! s := get in
    count_pages (nvds_page_used s) ;;;
    let! s := get in
    if bool_decide (nvds_page_used s = []) then let! _ := new_page_request 0 in ret tt
    else ret tt.

(** The store on a flash, before [pages_load]: the zeroed structure. *)
Definition env_init (f : F) (start_addr size : Z) (l : list bool) : env :=
  mk_env f start_addr size false ∅ ∅ [] (replicate 8 0) [] [] l 1.

Definition nvds_flash_env_init (f : F) (start_addr size : Z) (l : list bool) : env * (stop + unit) :=
  pages_load (env_init f start_addr size l).

(** ** The exported operations

    [mutex_ok] is the outcome of [sys_mutex_get]; strings come without their NUL;
    [None] is a [NULL] argument. *)

Definition key_bad (key : list Z) : bool := KEY_NAME_MAX_SIZE - 1 <? zlen key.

Definition nvds_data_put (mutex_ok : bool) (namespace : option (list Z)) (key data : option (list Z))
  (length : Z) : K unit :=
  match key, data with
  | Some key, Some data =>
      if (length =? 0) || (ELEMENT_BULK_MAX_SIZE <? length) || key_bad key then fail NVDS_E_INVAL_PARAM
      else if negb mutex_ok then fail NVDS_E_FAIL
      else
        let! ns_idx := ns_index_by_namespace namespace true in
        data_element_put ns_idx key data length ;;;
        ignore (ns_add_used_cnt ns_idx)
  | _, _ => fail NVDS_E_INVAL_PARAM
  end.

Definition nvds_data_get (mutex_ok : bool) (namespace : option (list Z)) (key : option (list Z))
  (data : option (list Z)) (length : option Z) : K get_result :=
  match key, length with
  | Some key, Some length =>
      if key_bad key then fail NVDS_E_INVAL_PARAM
      else if negb mutex_ok then fail NVDS_E_FAIL
      else
        let! ns_idx := ns_index_by_namespace namespace false in
        data_element_get ns_idx key data length
  | _, _ => fail NVDS_E_INVAL_PARAM
  end.

Definition nvds_data_del (mutex_ok : bool) (namespace : option (list Z)) (key : option (list Z)) : K unit :=
  match key with
  | Some key =>
      if key_bad key then fail NVDS_E_INVAL_PARAM
      else if negb mutex_ok then fail NVDS_E_FAIL
      else
        let! ns_idx := ns_index_by_namespace namespace false in
        data_element_del ns_idx key ;;;
        ignore (ns_del_used_cnt ns_idx true)
  | None => fail NVDS_E_INVAL_PARAM
  end.

Definition nvds_data_find (mutex_ok : bool) (namespace : option (list Z)) (key : option (list Z)) : K unit :=
  match key with
  | Some key =>
      if key_bad key then fail NVDS_E_INVAL_PARAM
      else if negb mutex_ok then fail NVDS_E_FAIL
      else
        let! ns_idx := ns_index_by_namespace namespace false in
        let! _ := data_element_find ns_idx key in ret tt
  | None => fail NVDS_E_INVAL_PARAM
  end.

(** One entry of the walk of [nvds_del_keys_by_namespace]: [n] is the namespace object, which
    the code goes on using after it has freed it. *)
Definition del_ns_entry (n ns_idx p entry_idx : Z) (e : entry) : K unit :=
  let type := tag_element_type_get (e_tag e) in
  (if (type =? ELEMENT_SMALL) || (type =? ELEMENT_BULKINFO) then
     entry_state_range_alter p entry_idx entry_idx ENTRY_UPDATED ;;; sub_used p 1
   else if var_type type then
     let entry_cnt := data_entries (e_length e) in
     entry_state_range_alter p entry_idx (entry_idx + entry_cnt) ENTRY_UPDATED ;;;
     sub_used p (entry_cnt + 1)
   else ret tt) ;;;
  let! ns := ns_get n in
  let cnt := u32 (ns_used_cnt ns - 1) in
  ns_put n (mk_ns (ns_name ns) (ns_index ns) cnt) ;;;
  if cnt =? 0 then
    modify (fun s => set_ns_list (extract n (ns_list s)) s) ;;;
    modify (fun s => set_ns_states (ns_state_set (ns_states s) ns_idx false) s) ;;;
    data_element_del 0 (ns_name ns) ;;;
    modify (fun s => set_nss (delete n (nss s)) s)
  else ret tt.

Fixpoint del_ns_page (fuel : nat) (n ns_idx p entry_idx : Z) : K unit :=
  match fuel with
  | O => err DIVERGES
  | S fuel =>
      if ENTRY_COUNT_PER_PAGE <=? entry_idx then ret tt
      else
        let! pg := page_get p in
        match entry_state_get (entry_states pg) entry_idx with
        | None => fail NVDS_E_FAIL
        | Some state =>
            if state =? ENTRY_FREE then ret tt
            else
              let! e := entry_read p entry_idx in
              (if (state =? ENTRY_USED) && (ns_idx =? tag_namespace_get (e_tag e))
               then del_ns_entry n ns_idx p entry_idx e else ret tt) ;;;
              del_ns_page fuel n ns_idx p (next_entry entry_idx (tag_element_type_get (e_tag e)) (e_length e))
        end
  end.

Fixpoint del_ns_pages (l : list Z) (n ns_idx : Z) : K unit :=
  match l with
  | [] => ret tt
  | p :: l =>
      let! pg := page_get p in
      (if negb (live_page pg) then ret tt else del_ns_page walk_fuel n ns_idx p 0) ;;;
      del_ns_pages l n ns_idx
  end.

Definition nvds_del_keys_by_namespace (namespace : list Z) : K unit :=
  if key_bad namespace then fail NVDS_E_INVAL_PARAM
  else
    let! s := get in
    let! r := ns_by_name (ns_list s) namespace in
    match r with
    | None => fail NVDS_E_NOT_FOUND
    | Some n =>
        let! ns := ns_get n in
        let! s := get in
        del_ns_pages (nvds_page_used s) n (ns_index ns)
    end.

(** The calls [cb(namespace, entry.key, entry.length)], in order, over one page. *)
Fixpoint find_keys_page (fuel : nat) (ns_idx p entry_idx : Z) (calls : list (list Z * Z))
  : K (list (list Z * Z)) :=
  match fuel with
  | O => err DIVERGES
  | S fuel =>
      if ENTRY_COUNT_PER_PAGE <=? entry_idx then ret calls
      else
        let! pg := page_get p in
        match entry_state_get (entry_states pg) entry_idx with
        | None => fail NVDS_E_FAIL
        | Some state =>
            if state =? ENTRY_FREE then ret calls
            else
              let! e := entry_read p entry_idx in
              let type := tag_element_type_get (e_tag e) in
              let calls := if (state =? ENTRY_USED) && (tag_namespace_get (e_tag e) =? ns_idx)
                              && negb (type =? ELEMENT_BULK)
                           then calls ++ [(e_key e, e_length e)] else calls in
              find_keys_page fuel ns_idx p (next_entry entry_idx type (e_length e)) calls
        end
  end.

Fixpoint find_keys_pages (l : list Z) (ns_idx : Z) (calls : list (list Z * Z))
  : K (list (list Z * Z)) :=
  match l with
  | [] => ret calls
  | p :: l =>
      let! pg := page_get p in
      let! calls := (if negb (live_page pg) then ret calls
                     else find_keys_page walk_fuel ns_idx p 0 calls) in
      find_keys_pages l ns_idx calls
  end.

Definition nvds_find_keys_by_namespace (namespace : option (list Z)) : K (list (list Z * Z)) :=
  let! ns_idx := ns_index_by_namespace namespace false in
  let! s := get in
  find_keys_pages (nvds_page_used s) ns_idx [].

(** The calls [cb(ns->name)], in order. *)
Fixpoint ns_names (l : list Z) : K (list (list Z)) :=
  match l with
  | [] => ret []
  | n :: l => let! ns := ns_get n in let! r := ns_names l in ret (ns_name ns :: r)
  end.

Definition nvds_find_all_namespace : K (list (list Z)) :=
  let! s := get in ns_names (ns_list s).

End Store.
Arguments env : clear implicits.
Arguments K : clear implicits.

End Nvds.
