(* ===== verification/NvdsPage.v ===== *)
(** * NVDS: one page

    What the operations of [Nvds] on one page do to its 4096 bytes of flash and to its
    object in memory: reads, state changes and writes, on a flash that does not fail.
    [img_rep] relates the bytes of a page to the sequence of its slots, each a state
    and the 32 bytes of an entry. *)
From S2P Require Import Prelude Flash NvdsTypes Nvds.
Open Scope Z_scope.

Module NvdsPage.
Import NvdsTypes Nvds.

Section Page.
Context {F : Type} {Fl : Flash F} {FL : FlashLaws F} {Ci : Cipher}.
Variable good : F -> Prop.
Hypothesis Hgood : reliable good.
Implicit Types (s : env F) (f : F) (pg : page).

(** ** The environment of the operations *)

(** The store fills the client's window of the flash and is not encrypted. *)
Record env_ok s : Prop := {
  eo_base : base_addr s = fl_lo;
  eo_len : length_ s = fl_hi - fl_lo;
  eo_sector : (SECTOR | fl_lo);
  eo_plain : encrypted s = false;
  eo_good : good (flash s)
}.

Definition mem s : list Z := fl_mem (flash s).
Definition img (f : F) (a : Z) : list Z := slice a SPI_FLASH_SEC_SIZE (fl_mem f).

(** A page address: a sector of the store. *)
Definition sector s (a : Z) : Prop :=
  (SPI_FLASH_SEC_SIZE | a) /\ 0 <= a /\ a + SPI_FLASH_SEC_SIZE <= length_ s.

Definition page_at s (p : Z) pg : Prop := pages s !! p = Some pg /\ sector s (page_addr pg).

(** The state with another flash and another object for the page [p]. *)
Definition upd s f p pg : env F := set_pages (<[p := pg]> (pages s)) (set_flash f s).

(** From [f] to [f'], only the sector at [a] has changed, to [i]. *)
Definition touch (n a : Z) (f f' : F) (i : list Z) : Prop :=
  good f' /\ img f' a = i /\
  forall a', (SPI_FLASH_SEC_SIZE | a') -> 0 <= a' -> a' + SPI_FLASH_SEC_SIZE <= n -> a' <> a ->
    img f' a' = img f a'.

Lemma touch_trans n a f1 f2 f3 i j : touch n a f1 f2 i -> touch n a f2 f3 j -> touch n a f1 f3 j.
Proof.
  intros (_ & _ & H1) (G & I & H2). split; [done|]. split; [done|].
  intros a' D L U N. by rewrite H2, H1.
Qed.

Lemma touch_refl n a f : good f -> touch n a f f (img f a).
Proof. done. Qed.

Lemma set_flash_id s : set_flash (flash s) s = s.
Proof. by destruct s. Qed.

Lemma upd_upd s f f' p pg pg' : upd (upd s f p pg) f' p pg' = upd s f' p pg'.
Proof. unfold upd, set_pages, set_flash. cbn. by rewrite insert_insert_eq. Qed.

Lemma upd_self s p pg : pages s !! p = Some pg -> upd s (flash s) p pg = s.
Proof. intros E. unfold upd. rewrite set_flash_id, insert_id by done. by destruct s. Qed.

Lemma upd_flash s p pg f : pages s !! p = Some pg -> set_flash f s = upd s f p pg.
Proof. intros E. unfold upd. rewrite insert_id by done. by destruct s. Qed.

Lemma upd_env_ok s f p pg : env_ok s -> good f -> env_ok (upd s f p pg).
Proof. intros [] G. by constructor. Qed.

Lemma upd_page_at s f p pg pg' :
  page_at s p pg -> page_addr pg' = page_addr pg -> page_at (upd s f p pg') p pg'.
Proof. intros [_ Hs] E. split; [apply lookup_insert_eq|]. unfold sector in *. cbn. by rewrite E. Qed.

Lemma good_mem f : good f -> zlen (fl_mem f) = fl_hi - fl_lo.
Proof. intros G. by apply fl_mem_len, Hgood. Qed.

Lemma zlen_img s a : env_ok s -> sector s a -> zlen (img (flash s) a) = 4096.
Proof.
  intros E (_ & ? & Hu). rewrite (eo_len _ E) in Hu. apply zlen_slice; [done|done|].
  by rewrite (good_mem _ (eo_good _ E)).
Qed.

Lemma bytes_img f a : good f -> bytes (img f a).
Proof. intros G. apply bytes_slice, fl_mem_bytes. by apply Hgood. Qed.

(** ** Access to the flash inside a sector *)

Lemma window_u32 s a o n :
  env_ok s -> sector s a -> 0 <= o -> 0 <= n -> o + n <= 4096 ->
  u32 (a + o) = a + o /\ u32 (a + o + n) = a + o + n /\ length_ s <? a + o + n = false /\
  u32 (base_addr s + (a + o)) = fl_lo + (a + o) /\ fl_lo <= fl_lo + (a + o) /\
  fl_lo + (a + o) + n <= fl_hi /\ fl_lo + (a + o) - fl_lo = a + o.
Proof.
  intros E (_ & Ha & Hu) Ho Hn Hon. unfold SPI_FLASH_SEC_SIZE in Hu.
  pose proof fl_window as Hw. rewrite (eo_base _ E). rewrite (eo_len _ E) in *.
  assert (a + o + n <= fl_hi - fl_lo) by lia.
  rewrite !wrap32_small by lia. repeat split; try lia.
Qed.

Lemma flash_read_ok s a o n :
  env_ok s -> sector s a -> 0 <= o -> 0 < n -> o + n <= 4096 ->
  nvds_flash_read (u32 (a + o)) n s = (s, inr (slice o n (img (flash s) a))).
Proof.
  intros E S Ho Hn Hon. destruct (window_u32 s a o n E S Ho ltac:(lia) Hon) as (E1 & E2 & E3 & E4 & H1 & H2 & E5).
  unfold nvds_flash_read, bnd, get, put, fail, err, ret. rewrite E1, E2, E3, E4.
  rewrite (fl_read_ok (flash s) _ n (rel_inv _ Hgood _ (eo_good _ E)) H1 Hn H2), set_flash_id, E5.
  unfold img. rewrite slice_slice by (destruct S; unfold SPI_FLASH_SEC_SIZE; lia). done.
Qed.

Lemma slice_sector_splice (m d : list Z) a a' o :
  (SPI_FLASH_SEC_SIZE | a) -> (SPI_FLASH_SEC_SIZE | a') -> 0 <= a -> 0 <= a' ->
  0 <= o -> o + zlen d <= 4096 -> a + 4096 <= zlen m -> a' + 4096 <= zlen m ->
  slice a' SPI_FLASH_SEC_SIZE (splice (a + o) d m) =
    if a' =? a then splice o d (slice a SPI_FLASH_SEC_SIZE m) else slice a' SPI_FLASH_SEC_SIZE m.
Proof.
  unfold SPI_FLASH_SEC_SIZE. intros [x ->] [y ->] Ha Ha' Ho Hd Hm Hm'. pose proof (zlen_nonneg d).
  destruct (Z.eqb_spec (y * 4096) (x * 4096)) as [->|Hne].
  - apply list_eq_nthb.
    { rewrite zlen_splice by (rewrite ?zlen_slice; lia). rewrite !zlen_slice; rewrite ?zlen_splice; lia. }
    intros i Hi. rewrite zlen_slice in Hi by (rewrite ?zlen_splice; lia).
    rewrite nthb_slice, !nthb_splice by (rewrite ?zlen_slice; lia).
    rewrite nthb_slice by lia. repeat if_split; try lia; f_equal; lia.
  - apply slice_splice_other; try lia.
Qed.

Lemma flash_write_ok s a o d :
  env_ok s -> sector s a -> 0 <= o -> 0 < zlen d -> o + zlen d <= 4096 -> bytes d ->
  exists f', nvds_flash_write (u32 (a + o)) d s = (set_flash f' s, inr tt) /\
    touch (length_ s) a (flash s) f'
      (splice o (nor (slice o (zlen d) (img (flash s) a)) d) (img (flash s) a)).
Proof.
  intros E S Ho Hn Hon Hd. pose proof (eo_good _ E) as G.
  destruct (window_u32 s a o (zlen d) E S Ho ltac:(lia) Hon) as (E1 & E2 & E3 & E4 & H1 & H2 & E5).
  destruct (rel_write _ Hgood (flash s) _ d G H1 Hn H2 Hd) as (f' & Ew & G'). exists f'.
  unfold nvds_flash_write, bnd, get, put, fail, err, ret. rewrite E1, E2, E3, E4, Ew.
  split; [done|]. split; [done|].
  destruct (fl_write_ok _ _ _ _ _ (rel_inv _ Hgood _ G) H1 Hn H2 Hd Ew) as (_ & Em & _).
  specialize (Em eq_refl). rewrite E5 in Em.
  destruct S as (Da & Ha & Hu). unfold SPI_FLASH_SEC_SIZE in Hu.
  pose proof (good_mem _ G) as Hm. rewrite <- (eo_len _ E) in Hm.
  assert (zlen (nor (slice (a + o) (zlen d) (fl_mem (flash s))) d) = zlen d) as Hl.
  { apply zlen_nor, zlen_slice; lia. }
  unfold img. rewrite Em. split.
  - rewrite slice_sector_splice by (rewrite ?Hl; done || lia).
    rewrite Z.eqb_refl, slice_slice by (unfold SPI_FLASH_SEC_SIZE; lia). done.
  - intros a' Da' La' Ua' Na. unfold SPI_FLASH_SEC_SIZE in Ua'.
    rewrite slice_sector_splice by (rewrite ?Hl; done || lia).
    destruct (Z.eqb_spec a' a); done.
Qed.

(** ** The slots of a page *)

Abbreviation slot := (Z * list Z)%type.

Definition slot_bytes (sl : list slot) (k : Z) : list Z :=
  match sl !! Z.to_nat k with Some x => x.2 | None => blank end.
Definition slot_state (sl : list slot) (k : Z) : Z :=
  match sl !! Z.to_nat k with Some x => x.1 | None => ENTRY_FREE end.

(** The 4096 bytes [i] hold the header [hd], the table [st] and the slots [sl]; the rest of
    the page is erased. *)
Record img_rep (st hd : list Z) (sl : list slot) (i : list Z) : Prop := {
  ir_len : zlen i = 4096;
  ir_table : table st;
  ir_hd : slice 0 32 i = hd;
  ir_st : slice 32 32 i = words_enc st;
  ir_slots k : 0 <= k < 126 -> slice (64 + 32 * k) 32 i = slot_bytes sl k;
  ir_states k : 0 <= k < 126 -> state_at st k = slot_state sl k;
  ir_cap : zlen sl <= 126
}.

Definition page_rep s (p : Z) pg (sl : list slot) : Prop :=
  page_at s p pg /\ img_rep (entry_states pg) (header pg) sl (img (flash s) (page_addr pg)).

(** [s'] is [s] with the sector and the object of the page [p] changed, and nothing else. *)
Definition evolves s s' (p : Z) pg : Prop :=
  s' = upd s (flash s') p pg /\ good (flash s') /\
  forall a', (SPI_FLASH_SEC_SIZE | a') -> 0 <= a' -> a' + SPI_FLASH_SEC_SIZE <= length_ s ->
    a' <> page_addr pg -> img (flash s') a' = img (flash s) a'.

Lemma evolves_refl s p pg : env_ok s -> pages s !! p = Some pg -> evolves s s p pg.
Proof. intros E L. split; [by rewrite upd_self|]. split; [apply E|done]. Qed.

Lemma evolves_trans s1 s2 s3 p pg pg' :
  page_addr pg' = page_addr pg -> evolves s1 s2 p pg -> evolves s2 s3 p pg' -> evolves s1 s3 p pg'.
Proof.
  intros Ea (E1 & G1 & O1) (E2 & G2 & O2). split; [|split; [done|]].
  - rewrite E2, E1 at 1. by rewrite upd_upd.
  - intros a' D L U N. transitivity (img (flash s2) a').
    + apply O2; try done. by rewrite E1.
    + apply O1; try done. by rewrite <- Ea.
Qed.

Lemma evolves_touch s f' p pg i :
  touch (length_ s) (page_addr pg) (flash s) f' i -> evolves s (upd s f' p pg) p pg.
Proof. intros (G & _ & O). split; [done|]. split; [done|]. done. Qed.

Lemma evolves_env s s' p pg : env_ok s -> evolves s s' p pg -> env_ok s'.
Proof. intros E (Es & G & _). rewrite Es. by apply upd_env_ok. Qed.

Lemma evolves_at s s' p pg pg' :
  evolves s s' p pg' -> page_at s p pg -> page_addr pg' = page_addr pg -> page_at s' p pg'.
Proof. intros (Es & _) P E. rewrite Es. by eapply upd_page_at. Qed.

(** Changing only the counters of the object. *)
Lemma evolves_counts s p pg pg' :
  env_ok s -> page_at s p pg -> page_addr pg' = page_addr pg ->
  evolves s (upd s (flash s) p pg') p pg'.
Proof. intros E [L S] Ea. split; [done|]. split; [apply E|done]. Qed.

Lemma entry_read_ok s p pg k :
  env_ok s -> page_at s p pg -> 0 <= k < 126 ->
  entry_read p k s = (s, inr (slice (64 + 32 * k) 32 (img (flash s) (page_addr pg)))).
Proof.
  intros E [L S] Hk. unfold entry_read, page_get, bnd, get, ret. rewrite L.
  unfold entry_addr, PAGE_ENTRY_OFFSET, ENTRY_SIZE. rewrite <- Z.add_assoc.
  rewrite (flash_read_ok s (page_addr pg)) by (done || lia).
  rewrite (eo_plain _ E). do 3 f_equal. lia.
Qed.

Lemma page_get_ok s p pg : pages s !! p = Some pg -> page_get p s = (s, inr pg).
Proof. intros L. unfold page_get, bnd, get, ret. by rewrite L. Qed.

Lemma slot_state_alter (sl : list slot) k v j :
  0 <= k < zlen sl -> 0 <= j ->
  slot_state (alter (fun x => (v, x.2)) (Z.to_nat k) sl) j = if k =? j then v else slot_state sl j.
Proof.
  intros Hk Hj. unfold slot_state. destruct (Z.eqb_spec k j) as [->|Hne].
  - rewrite list_lookup_alter_eq. destruct (sl !! Z.to_nat j) eqn:E; [done|].
    apply lookup_ge_None in E. unfold zlen in Hk. lia.
  - by rewrite list_lookup_alter_ne by lia.
Qed.

Lemma slot_bytes_alter (sl : list slot) k v j :
  slot_bytes (alter (fun x => (v, x.2)) k sl) j = slot_bytes sl j.
Proof.
  unfold slot_bytes. destruct (decide (k = Z.to_nat j)) as [->|Hne].
  - rewrite list_lookup_alter_eq. by destruct (sl !! Z.to_nat j).
  - by rewrite list_lookup_alter_ne.
Qed.

Lemma zlen_alter {A} (f : A -> A) k (l : list A) : zlen (alter f k l) = zlen l.
Proof. unfold zlen. by rewrite length_alter. Qed.

Lemma nor_words st st' :
  Forall2 (fun a b => Z.land a b = b) st st' -> nor (words_enc st) (words_enc st') = words_enc st'.
Proof.
  unfold nor. induction 1 as [|a b st st' Hab _ IH]; [done|]. cbn [words_enc].
  rewrite zip_with_app by (cbn; done). rewrite IH. f_equal.
  rewrite <- Hab. cbn [le_enc zip_with]. unfold wrap. change (2 ^ 8) with 256.
  assert (forall x y, Z.land (x mod 256) (Z.land x y mod 256) = Z.land x y mod 256) as L.
  { intros x y. change 256 with (2 ^ 8). rewrite <- !Z.land_ones by lia.
    apply Z.bits_inj'. intros i Hi. rewrite !Z.land_spec. 
    by destruct (Z.testbit x i), (Z.testbit y i), (Z.testbit (Z.ones 8) i). }
  repeat rewrite Z.shiftr_land. by rewrite !L.
Qed.

Lemma state_set_cleared st k v :
  table st -> 0 <= k < 126 -> 0 <= v < 4 -> Z.land (state_at st k) v = v ->
  Forall2 (fun a b => Z.land a b = b) st (state_set st k v).
Proof.
  intros [Hl Ht] Hk Hv Hs. destruct (div_mod_16 k Hk). unfold state_set, setb.
  apply Forall2_lookup. intros j. destruct (decide (Z.to_nat (k / 16) = j)) as [<-|Hne].
  - rewrite list_lookup_insert_eq by (unfold zlen in Hl; lia).
    rewrite nthb_lookup by lia. constructor.
    apply field_set_cleared; try lia. apply table_word. by split. done.
  - rewrite list_lookup_insert_ne by done. destruct (st !! j); constructor. apply Z.land_diag.
Qed.

Lemma entry_state_alter_ok s p pg sl k v :
  env_ok s -> page_rep s p pg sl -> 0 <= k < zlen sl -> state_ok v ->
  Z.land (slot_state sl k) v = v ->
  exists s', entry_state_alter p k v s = (s', inr tt) /\
    evolves s s' p (set_states (state_set (entry_states pg) k v) pg) /\
    page_rep s' p (set_states (state_set (entry_states pg) k v) pg)
      (alter (fun x => (v, x.2)) (Z.to_nat k) sl).
Proof.
  intros E [P R] Hk Hv Hs. pose proof (ir_cap _ _ _ _ R) as Hc.
  assert (0 <= v < 4) as Hv4 by (destruct Hv as [->|[->| ->]]; done).
  unfold entry_state_alter, ENTRY_COUNT_PER_PAGE. destruct (Z.leb_spec 126 k); [lia|].
  assert ((v =? ENTRY_ILLEGAL) || (ENTRY_ERROR <=? v) = false) as ->.
  { destruct Hv as [->|[->| ->]]; done. }
  pose proof P as [L S]. unfold bnd. rewrite (page_get_ok _ _ _ L).
  rewrite entry_state_set_eq by (done || lia).
  set (st' := state_set (entry_states pg) k v). set (pg' := set_states st' pg).
  unfold page_put, modify, entry_states_table_write, PAGE_ENTRY_STATES_OFFSET.
  change (page_addr pg) with (page_addr pg').
  set (s1 := set_pages _ s).
  assert (s1 = upd s (flash s) p pg') as Es1 by by rewrite <- (set_flash_id s) at 1.
  pose proof (state_set_table (entry_states pg) k v (ir_table _ _ _ _ R)) as Ht'. fold st' in Ht'.
  assert (env_ok s1) as E1 by (rewrite Es1; by apply upd_env_ok, E).
  assert (page_at s1 p pg') as P1 by (rewrite Es1; by eapply upd_page_at).
  assert (zlen (words_enc st') = 32) as Hw by (rewrite zlen_words_enc; destruct Ht' as [-> _]; done).
  destruct (flash_write_ok s1 (page_addr pg') 32 (words_enc st')) as (f' & Ew & T);
    [done|apply P1|lia|lia|lia|apply bytes_words_enc|]. rewrite Ew.
  assert (img (flash s1) (page_addr pg') = img (flash s) (page_addr pg)) as Ei by by rewrite Es1.
  rewrite Ei, Hw, (ir_st _ _ _ _ R), nor_words in T.
  2:{ apply state_set_cleared; [apply R|lia|done|]. by rewrite (ir_states _ _ _ _ R) by lia. }
  eexists. split; [done|]. rewrite (upd_flash s1 p pg') by apply P1. rewrite Es1, upd_upd in *.
  split; [by eapply evolves_touch|]. split; [by eapply upd_page_at|].
  cbn [page_addr set_states pg' header entry_states] in *. change (flash (upd s f' p pg')) with f'.
  destruct T as (_ & -> & _). pose proof (ir_len _ _ _ _ R) as Hl.
  constructor; cbn [set_states entry_states].
  - rewrite zlen_splice; lia.
  - done.
  - rewrite slice_splice_other by lia. apply R.
  - by apply slice_splice_eq; lia.
  - intros j Hj. rewrite slot_bytes_alter, slice_splice_other by lia. by apply R.
  - intros j Hj. rewrite slot_state_alter by lia. unfold st'.
    rewrite state_at_set by (lia || apply R). if_split; [done|]. by apply R.
  - by rewrite zlen_alter.
Qed.

(** The states of [n] slots from [b] on set to [v]. *)
Fixpoint alter_range (n : nat) (b v : Z) (sl : list slot) : list slot :=
  match n with
  | O => sl
  | S n => alter_range n (b + 1) v (alter (fun x => (v, x.2)) (Z.to_nat b) sl)
  end.

Lemma zlen_alter_range n b v sl : zlen (alter_range n b v sl) = zlen sl.
Proof. revert b sl. induction n as [|n IH]; intros; simpl; [done|]. by rewrite IH, zlen_alter. Qed.

Lemma range_alter_loop_ok n p v : forall s pg sl b,
  env_ok s -> page_rep s p pg sl -> 0 <= b -> b + Z.of_nat n <= zlen sl -> state_ok v ->
  (forall k, b <= k < b + Z.of_nat n -> Z.land (slot_state sl k) v = v) ->
  exists s' st', range_alter_loop n p b v s = (s', inr tt) /\
    evolves s s' p (set_states st' pg) /\
    page_rep s' p (set_states st' pg) (alter_range n b v sl).
Proof.
  induction n as [|n IH]; intros s pg sl b E P Hb Hn Hv Hs; cbn [range_alter_loop alter_range].
  - exists s, (entry_states pg). assert (set_states (entry_states pg) pg = pg) as -> by by destruct pg.
    split; [done|]. split; [|done]. apply evolves_refl; [done|apply P].
  - destruct (entry_state_alter_ok s p pg sl b v E P) as (s1 & E1 & V1 & P1);
      [lia|done|apply Hs; lia|].
    unfold bnd at 1. rewrite E1.
    destruct (IH s1 _ _ (b + 1) (evolves_env _ _ _ _ E V1) P1) as (s2 & st2 & E2 & V2 & P2);
      [lia|rewrite zlen_alter; lia|done| |].
    { intros k Hk. rewrite slot_state_alter by lia. if_split; [lia|]. apply Hs. lia. }
    exists s2, st2. split; [done|]. split; [|done]. eapply evolves_trans; [|exact V1|exact V2]. done.
Qed.

Lemma entry_state_range_alter_ok s p pg sl b e v :
  env_ok s -> page_rep s p pg sl -> 0 <= b <= e -> e < zlen sl -> state_ok v ->
  (forall k, b <= k <= e -> Z.land (slot_state sl k) v = v) ->
  exists s' st', entry_state_range_alter p b e v s = (s', inr tt) /\
    evolves s s' p (set_states st' pg) /\
    page_rep s' p (set_states st' pg) (alter_range (Z.to_nat (e - b + 1)) b v sl).
Proof.
  intros E P Hb He Hv Hs. pose proof (ir_cap _ _ _ _ (proj2 P)) as Hc.
  unfold entry_state_range_alter, ENTRY_COUNT_PER_PAGE. rewrite !wrap8_small by lia.
  destruct (Z.ltb_spec e b); [lia|]. destruct (Z.leb_spec 126 e); [lia|]. cbn [orb].
  apply range_alter_loop_ok; try done; try lia. intros k Hk. apply Hs. lia.
Qed.

(** ** Writing at the end of a page *)

Lemma slot_bytes_app (sl sl' : list slot) k :
  0 <= k -> slot_bytes (sl ++ sl') k =
    if k <? zlen sl then slot_bytes sl k else slot_bytes sl' (k - zlen sl).
Proof.
  intros Hk. unfold slot_bytes, zlen. destruct (Z.ltb_spec k (Z.of_nat (length sl))).
  - by rewrite lookup_app_l by lia.
  - rewrite lookup_app_r by lia.
    by replace (Z.to_nat k - length sl)%nat with (Z.to_nat (k - Z.of_nat (length sl))) by lia.
Qed.

Lemma slot_state_app (sl sl' : list slot) k :
  0 <= k -> slot_state (sl ++ sl') k =
    if k <? zlen sl then slot_state sl k else slot_state sl' (k - zlen sl).
Proof.
  intros Hk. unfold slot_state, zlen. destruct (Z.ltb_spec k (Z.of_nat (length sl))).
  - by rewrite lookup_app_l by lia.
  - rewrite lookup_app_r by lia.
    by replace (Z.to_nat k - length sl)%nat with (Z.to_nat (k - Z.of_nat (length sl))) by lia.
Qed.

Lemma slot_end (sl : list slot) k :
  zlen sl <= k -> slot_bytes sl k = blank /\ slot_state sl k = ENTRY_FREE.
Proof.
  intros Hk. unfold slot_bytes, slot_state. rewrite lookup_ge_None_2; [done|]. unfold zlen in Hk. lia.
Qed.

(** The data of an element, cut into slots; the last one keeps its erased tail. *)
Definition chunk (d : list Z) (k : Z) : list Z := take 32 (drop (Z.to_nat (32 * k)) d ++ blank).
Definition chunks (d : list Z) : list slot :=
  (fun k => (ENTRY_FREE, chunk d k)) <$> seqZ 0 (data_entries (zlen d)).

Lemma data_entries_bounds n : 0 <= n -> 0 <= data_entries n /\ n <= 32 * data_entries n < n + 32.
Proof.
  intros Hn. unfold data_entries, ENTRY_SIZE.
  pose proof (Z.div_mod (n + 32 - 1) 32 ltac:(lia)). pose proof (Z.mod_pos_bound (n + 32 - 1) 32 ltac:(lia)).
  lia.
Qed.

Lemma zlen_chunks d : zlen (chunks d) = data_entries (zlen d).
Proof.
  pose proof (data_entries_bounds (zlen d) (zlen_nonneg d)). unfold zlen at 1, chunks.
  rewrite length_fmap, length_seqZ. lia.
Qed.

Lemma slot_chunks d k :
  0 <= k < data_entries (zlen d) ->
  slot_bytes (chunks d) k = chunk d k /\ slot_state (chunks d) k = ENTRY_FREE.
Proof.
  intros Hk. unfold slot_bytes, slot_state, chunks. rewrite list_lookup_fmap, lookup_seqZ_lt by lia.
  cbn. split; [|done]. f_equal. lia.
Qed.

Lemma zlen_chunk d k : zlen (chunk d k) = 32.
Proof. unfold zlen, chunk, blank. rewrite length_take, length_app, length_replicate. lia. Qed.

Lemma nthb_chunk d k j :
  0 <= k -> 0 <= j < 32 ->
  nthb (chunk d k) j = if 32 * k + j <? zlen d then nthb d (32 * k + j) else 0xFF.
Proof.
  intros Hk Hj. unfold chunk, nthb. rewrite !nth_lookup_0, lookup_take_lt by lia.
  unfold zlen. destruct (Z.ltb_spec (32 * k + j) (Z.of_nat (length d))).
  - rewrite lookup_app_l by (rewrite length_drop; lia). rewrite lookup_drop. do 2 f_equal. lia.
  - rewrite lookup_app_r by (rewrite length_drop; lia). unfold blank.
    by rewrite lookup_replicate_2 by (rewrite length_drop; lia).
Qed.

Lemma nthb_blank j : 0 <= j < 32 -> nthb blank j = 0xFF.
Proof. intros. unfold nthb, blank. by rewrite nth_lookup_0, lookup_replicate_2 by lia. Qed.

Lemma img_erased st hd sl i j :
  img_rep st hd sl i -> 64 + 32 * zlen sl <= j < 4096 -> nthb i j = 0xFF.
Proof.
  intros R Hj. pose proof (zlen_nonneg sl).
  set (k := (j - 64) / 32). pose proof (Z.div_mod (j - 64) 32 ltac:(lia)) as Hd.
  pose proof (Z.mod_pos_bound (j - 64) 32 ltac:(lia)) as Hm. fold k in Hd.
  pose proof (ir_slots _ _ _ _ R k ltac:(lia)) as Hs.
  rewrite (proj1 (slot_end sl k ltac:(lia))) in Hs.
  assert (nthb (slice (64 + 32 * k) 32 i) (j - (64 + 32 * k)) = nthb blank (j - (64 + 32 * k))) as E by by rewrite Hs.
  rewrite nthb_slice, nthb_blank in E by lia. rewrite <- E. f_equal. lia.
Qed.

(** [d] programmed where the page is erased. *)
Lemma img_append st hd sl i d :
  img_rep st hd sl i -> bytes d -> zlen sl + data_entries (zlen d) <= 126 ->
  let i' := splice (64 + 32 * zlen sl) (nor (slice (64 + 32 * zlen sl) (zlen d) i) d) i in
  img_rep st hd (sl ++ chunks d) i'.
Proof.
  intros R Hb Hc. pose proof (ir_len _ _ _ _ R) as Hl. pose proof (zlen_nonneg sl). pose proof (zlen_nonneg d).
  destruct (data_entries_bounds (zlen d)) as [Hd0 Hd]; [done|].
  assert (nor (slice (64 + 32 * zlen sl) (zlen d) i) d = d) as ->.
  { assert (slice (64 + 32 * zlen sl) (zlen d) i = replicate (Z.to_nat (zlen d)) 0xFF) as ->;
      [|by apply nor_erased].
    apply list_eq_nthb; rewrite zlen_slice by lia; [by rewrite zlen_replicate|].
    intros j Hj. rewrite nthb_slice by lia. rewrite (img_erased _ _ _ _ _ R) by lia.
    unfold nthb. by rewrite nth_lookup_0, lookup_replicate_2 by lia. }
  constructor.
  - rewrite zlen_splice; lia.
  - apply R.
  - rewrite slice_splice_other by lia. apply R.
  - rewrite slice_splice_other by lia. apply R.
  - intros k Hk. rewrite slot_bytes_app by lia. destruct (Z.ltb_spec k (zlen sl)).
    + rewrite slice_splice_other by lia. by apply R.
    + apply list_eq_nthb.
      * rewrite zlen_slice by (rewrite ?zlen_splice; lia).
        destruct (decide (k - zlen sl < data_entries (zlen d))).
        { by rewrite (proj1 (slot_chunks d (k - zlen sl) ltac:(lia))), zlen_chunk. }
        { by rewrite (proj1 (slot_end (chunks d) (k - zlen sl) ltac:(rewrite zlen_chunks; lia))). }
      * intros j Hj. rewrite zlen_slice in Hj by (rewrite ?zlen_splice; lia).
        rewrite nthb_slice, nthb_splice by lia.
        destruct (decide (k - zlen sl < data_entries (zlen d))).
        -- rewrite (proj1 (slot_chunks d (k - zlen sl) ltac:(lia))), nthb_chunk by lia.
           repeat if_split; try lia; try (f_equal; lia).
           all: rewrite (img_erased _ _ _ _ _ R) by lia; done.
        -- rewrite (proj1 (slot_end (chunks d) (k - zlen sl) ltac:(rewrite zlen_chunks; lia))), nthb_blank by lia.
           repeat if_split; try lia. all: rewrite (img_erased _ _ _ _ _ R) by lia; done.
  - intros k Hk. rewrite slot_state_app by lia. rewrite (ir_states _ _ _ _ R) by lia.
    destruct (Z.ltb_spec k (zlen sl)); [done|]. rewrite (proj2 (slot_end sl k ltac:(lia))).
    destruct (decide (k - zlen sl < data_entries (zlen d))).
    + by rewrite (proj2 (slot_chunks d (k - zlen sl) ltac:(lia))).
    + by rewrite (proj2 (slot_end (chunks d) (k - zlen sl) ltac:(rewrite zlen_chunks; lia))).
  - rewrite zlen_app, zlen_chunks. lia.
Qed.

Lemma chunks_entry e : zlen e = 32 -> chunks e = [(ENTRY_FREE, e)].
Proof.
  intros Hl. unfold chunks. rewrite Hl. change (seqZ 0 (data_entries 32)) with [0].
  cbn [fmap list_fmap]. do 2 f_equal. unfold chunk. change (Z.to_nat (32 * 0)) with 0%nat.
  rewrite drop_0, take_app_length'; [done|]. unfold zlen in Hl. lia.
Qed.

(** Programming [d] after the last slot of [p]. *)
Lemma append_ok s p pg sl d :
  env_ok s -> page_rep s p pg sl -> bytes d -> 0 < zlen d ->
  zlen sl + data_entries (zlen d) <= 126 ->
  exists s', nvds_flash_write (entry_addr pg (zlen sl)) d s = (s', inr tt) /\
    evolves s s' p pg /\ page_rep s' p pg (sl ++ chunks d).
Proof.
  intros E [P R] Hb Hd Hc. pose proof (zlen_nonneg sl).
  destruct (data_entries_bounds (zlen d) ltac:(lia)) as [_ Hbd].
  unfold entry_addr, PAGE_ENTRY_OFFSET, ENTRY_SIZE. rewrite <- Z.add_assoc, (Z.mul_comm (zlen sl)).
  destruct (flash_write_ok s (page_addr pg) (64 + 32 * zlen sl) d E (proj2 P)) as (f' & Ew & T);
    [lia|done|lia|done|].
  rewrite Ew, (upd_flash s p pg) by apply P. eexists. split; [done|].
  split; [by eapply evolves_touch|]. split; [by apply (upd_page_at s f' p pg)|].
  change (flash (upd s f' p pg)) with f'. destruct T as (_ & -> & _). by apply img_append.
Qed.

Lemma page_rep_counts s p pg sl a b :
  env_ok s -> page_rep s p pg sl ->
  let s' := upd s (flash s) p (set_counts a b pg) in
  page_put p (set_counts a b pg) s = (s', inr tt) /\
  evolves s s' p (set_counts a b pg) /\ page_rep s' p (set_counts a b pg) sl.
Proof.
  intros E [P R]. split; [|split].
  - unfold page_put, modify, upd. by rewrite set_flash_id.
  - by apply (evolves_counts s p pg).
  - split; [by eapply upd_page_at|]. exact R.
Qed.

Lemma entry_write_ok s p pg sl e :
  env_ok s -> page_rep s p pg sl -> next_free_idx pg = zlen sl -> zlen sl < 126 ->
  zlen e = 32 -> bytes e ->
  let pg' := set_counts (u16 (entry_cnt_used pg + 1)) (zlen sl + 1) pg in
  exists s', entry_write p e s = (s', inr tt) /\
    evolves s s' p pg' /\ page_rep s' p pg' (sl ++ [(ENTRY_FREE, e)]).
Proof.
  intros E P Hn Hc Hl Hb pg'. pose proof (zlen_nonneg sl). pose proof P as [[L S] R].
  unfold entry_write. mstep_with (page_get_ok _ _ _ L). rewrite Hn.
  unfold ENTRY_COUNT_PER_PAGE. destruct (Z.leb_spec 126 (zlen sl)); [lia|].
  mpure. rewrite (eo_plain _ E). mpure.
  destruct (append_ok s p pg sl e E P Hb) as (s1 & E1 & V1 & P1); rewrite ?Hl; [lia|change (data_entries 32) with 1; lia|].
  mstep_with E1. rewrite wrap32_small by lia. rewrite (chunks_entry e Hl) in P1.
  destruct (page_rep_counts s1 p pg _ (u16 (entry_cnt_used pg + 1)) (zlen sl + 1)
              (evolves_env _ _ _ _ E V1) P1) as (-> & V2 & P2).
  eexists. split; [done|]. split; [|done]. by apply (evolves_trans _ s1 _ _ pg).
Qed.

Lemma entry_data_write_ok s p pg sl size buf :
  env_ok s -> page_rep s p pg sl -> bytes buf -> 0 < size <= zlen buf ->
  zlen sl + data_entries size <= 126 ->
  exists s', entry_data_write (entry_addr pg (zlen sl)) size buf s = (s', inr buf) /\
    evolves s s' p pg /\ page_rep s' p pg (sl ++ chunks (slice 0 size buf)).
Proof.
  intros E P Hb Hs Hc. unfold entry_data_write. mpure. rewrite (eo_plain _ E).
  destruct (append_ok s p pg sl (slice 0 size buf) E P) as (s1 & E1 & V1 & P1);
    rewrite ?zlen_slice by lia; try lia; [by apply bytes_slice|].
  mstep_with E1. eauto.
Qed.

Lemma nor_le_enc n a b : nor (le_enc n a) (le_enc n b) = le_enc n (Z.land a b).
Proof.
  unfold nor. revert a b. induction n as [|n IH]; intros a b; [done|]. cbn [le_enc zip_with].
  rewrite IH, Z.shiftr_land. f_equal. apply Z.bits_inj'. intros i Hi.
  rewrite Z.land_spec, !wrap_testbit, Z.land_spec by lia.
  by destruct (i <? 8), (Z.testbit a i), (Z.testbit b i).
Qed.

Lemma zlen_header st hd sl i : img_rep st hd sl i -> zlen hd = 32.
Proof. intros R. rewrite <- (ir_hd _ _ _ _ R), zlen_slice; rewrite ?(ir_len _ _ _ _ R); lia. Qed.

Lemma page_state_alter_ok s p pg sl c :
  env_ok s -> page_rep s p pg sl -> 0 <= c < 2 ^ 16 -> Z.land (h_state (header pg)) c = c ->
  let pg' := set_header (set_state c (header pg)) pg in
  exists s', page_state_alter p c s = (s', inr tt) /\ evolves s s' p pg' /\ page_rep s' p pg' sl.
Proof.
  intros E [P R] Hc Hs pg'. pose proof P as [L S]. pose proof (ir_len _ _ _ _ R) as Hl.
  pose proof (zlen_header _ _ _ _ R) as Hh.
  unfold page_state_alter. mstep_with (page_get_ok _ _ _ L). unfold PAGE_HEADER_OFFSET.
  rewrite Z.add_0_r.
  destruct (flash_write_ok s (page_addr pg) 6 (le_enc 2 c) E S) as (f' & Ew & T);
    rewrite ?zlen_le_enc; auto with fw; try lia.
  mstep_with Ew. rewrite (upd_flash s p pg) by done. unfold page_put, modify.
  assert (nor (slice 6 (zlen (le_enc 2 c)) (img (flash s) (page_addr pg))) (le_enc 2 c) = le_enc 2 c) as En.
  { rewrite zlen_le_enc. change (Z.of_nat 2) with 2.
    assert (slice 6 2 (img (flash s) (page_addr pg)) = le_enc 2 (h_state (header pg))) as ->.
    { rewrite <- (ir_hd _ _ _ _ R). unfold h_state. rewrite slice_slice by lia.
      pose proof (le_enc_dec (slice 6 2 (img (flash s) (page_addr pg)))
                    (bytes_slice _ _ _ (bytes_img _ _ (eo_good _ E)))) as D.
      replace (length (slice 6 2 (img (flash s) (page_addr pg)))) with 2%nat in D; [done|].
      pose proof (zlen_slice 6 2 (img (flash s) (page_addr pg)) ltac:(lia) ltac:(lia) ltac:(lia)) as Z.
      unfold zlen in Z. lia. }
    by rewrite nor_le_enc, Hs. }
  rewrite En in T. assert (zlen (le_enc 2 c) = 2) as Hz by apply zlen_le_enc.
  exists (upd s f' p pg'). split.
  { unfold upd, set_pages, set_flash. cbn. by rewrite insert_insert_eq. }
  split; [by eapply evolves_touch|]. split; [by eapply upd_page_at|].
  change (flash (upd s f' p pg')) with f'. cbn [pg' page_addr set_header header entry_states].
  destruct T as (_ & -> & _). constructor.
  - rewrite zlen_splice; lia.
  - apply R.
  - unfold set_state. rewrite <- (ir_hd _ _ _ _ R). apply list_eq_nthb.
    { rewrite zlen_slice, zlen_splice by (rewrite ?zlen_splice, ?zlen_slice; lia).
      rewrite zlen_slice; lia. }
    intros j Hj. rewrite zlen_slice in Hj by (rewrite ?zlen_splice; lia).
    rewrite nthb_slice, !nthb_splice by (rewrite ?zlen_slice; lia).
    rewrite nthb_slice by lia. done.
  - rewrite slice_splice_other by (lia). apply R.
  - intros k Hk. rewrite slice_splice_other by (lia). by apply R.
  - apply R.
  - apply R.
Qed.

End Page.
End NvdsPage.
