(* ===== verification/NvdsEntry.v ===== *)
(** * NVDS: the header entry of an element

    The fields that [Nvds.mk_header_entry] writes are the ones its readers get back. *)
From S2P Require Import Prelude Crc NvdsTypes Nvds.
Open Scope Z_scope.

Module NvdsEntry.
Import NvdsTypes Nvds.

(** The two uses of the last word of a header: a value, or a number at offset 28. *)
Definition fill_ok (fill : entry -> entry) : Prop :=
  exists off d, (forall e, fill e = splice off d e) /\ 24 <= off /\ off + zlen d <= 32 /\ bytes d.

Lemma fill_value v : zlen v <= 8 -> bytes v -> fill_ok (set_value v).
Proof. intros Hl Hb. exists 24, v. repeat split; done || lia. Qed.

Lemma fill_word28 n : fill_ok (set_word28 n).
Proof.
  exists 28, (le_enc 4 n). rewrite zlen_le_enc. repeat split; try lia; try done. apply bytes_le_enc.
Qed.

Section Header.
Variables (ns type frag len : Z) (key : list Z) (fill : entry -> entry).
Hypotheses (Hns : 0 <= ns < 256) (Htype : 0 <= type < 8) (Hfrag : 0 <= frag < 32)
  (Hlen : 0 <= len < 2 ^ 16) (Hkey : is_str key) (Hkl : zlen key <= 15) (Hfill : fill_ok fill).

Let e0 := set_tag (tag_set ns type frag) blank.
Let e1 := set_length (u16 len) e0.
Let e2 := set_key key e1.
Let e3 := fill e2.
Let e := mk_header_entry ns type frag len key fill.

Lemma header_lens : zlen e0 = 32 /\ zlen e1 = 32 /\ zlen e2 = 32 /\ zlen e3 = 32 /\ zlen e = 32.
Proof.
  assert (zlen blank = 32) as H by done.
  assert (zlen e0 = 32) as H0 by (unfold e0, set_tag; rewrite zlen_splice; rewrite ?zlen_le_enc; lia).
  assert (zlen e1 = 32) as H1 by (unfold e1, set_length; rewrite zlen_splice; rewrite ?zlen_le_enc; lia).
  assert (zlen e2 = 32) as H2.
  { unfold e2, set_key. rewrite zlen_splice; rewrite ?zlen_app, ?zlen_singleton; lia. }
  assert (zlen e3 = 32) as H3.
  { unfold e3. destruct Hfill as (off & d & -> & ? & ? & ?). rewrite zlen_splice; lia. }
  repeat (split; [done|]). unfold e, mk_header_entry, set_crc32. fold e0 e1 e2 e3.
  rewrite zlen_splice; rewrite ?zlen_le_enc; lia.
Qed.

Lemma header_eq : e = splice 4 (le_enc 4 (element_header_crc32_calc e3)) e3.
Proof. done. Qed.

Lemma bytes_header : bytes e.
Proof.
  assert (bytes blank) as H by (apply Forall_replicate; lia).
  assert (bytes (key ++ [0])) as Hk.
  { apply bytes_app. split; [by apply is_str_bytes|]. constructor; [lia|constructor]. }
  rewrite header_eq. apply bytes_splice; [|apply bytes_le_enc]. unfold e3.
  destruct Hfill as (off & d & -> & ? & ? & Hd). apply bytes_splice; [|done].
  unfold e2, set_key, e1, set_length, e0, set_tag. auto using bytes_splice, bytes_le_enc.
Qed.

(** A field outside the checksum is the field before the checksum was set. *)
Lemma header_slice off n :
  0 <= off -> 0 <= n -> off + n <= 4 \/ 8 <= off -> off + n <= 32 -> slice off n e = slice off n e3.
Proof.
  intros. destruct header_lens as (_ & _ & _ & ? & _). rewrite header_eq.
  apply slice_splice_other; rewrite ?zlen_le_enc; lia.
Qed.

(** A field below the filled one. *)
Lemma fill_slice off n :
  0 <= off -> 0 <= n -> off + n <= 24 -> slice off n e3 = slice off n e2.
Proof.
  intros. destruct header_lens as (_ & _ & ? & _ & _). unfold e3.
  destruct Hfill as (o & d & -> & ? & ? & _). apply slice_splice_other; lia.
Qed.

Lemma header_tag : e_tag e = tag_set ns type frag.
Proof.
  destruct header_lens as (H0 & H1 & H2 & H3 & _). unfold e_tag. rewrite header_slice, fill_slice by lia.
  unfold e2, set_key. rewrite slice_splice_other by (rewrite ?zlen_app, ?zlen_singleton; pose proof (zlen_nonneg key); lia).
  unfold e1, set_length. rewrite slice_splice_other by (rewrite ?zlen_le_enc; lia).
  unfold e0, set_tag. rewrite slice_splice_eq; [|lia|by rewrite zlen_le_enc|change (zlen blank) with 32; lia].
  rewrite le_dec_enc. apply Z.mod_small. apply tag_set_range.
Qed.

Lemma header_length : e_length e = len.
Proof.
  destruct header_lens as (H0 & H1 & H2 & H3 & _). unfold e_length. rewrite header_slice, fill_slice by lia.
  unfold e2, set_key. rewrite slice_splice_other by (rewrite ?zlen_app, ?zlen_singleton; pose proof (zlen_nonneg key); lia).
  unfold e1, set_length. rewrite slice_splice_eq; [|lia|by rewrite zlen_le_enc|lia].
  rewrite le_dec_enc. rewrite (wrap_small 16) by lia. apply Z.mod_small. exact Hlen.
Qed.

Lemma header_key : key_str e = Some key.
Proof.
  destruct header_lens as (H0 & H1 & H2 & H3 & _). unfold key_str, e_key. pose proof (zlen_nonneg key).
  rewrite header_slice, fill_slice by lia.
  assert (slice 8 16 e2 = (key ++ [0]) ++ slice (8 + (zlen key + 1)) (16 - (zlen key + 1)) e2) as ->.
  { replace 16 with ((zlen key + 1) + (16 - (zlen key + 1))) at 1 by lia.
    rewrite slice_app_split by lia. f_equal. unfold e2, set_key.
    apply slice_splice_eq; [lia|by rewrite zlen_app|lia]. }
  rewrite bool_decide_eq_true_2 by (rewrite !elem_of_app; left; right; by left).
  f_equal. rewrite <- app_assoc. by apply cstr_app_nul.
Qed.

Lemma header_crc : e_crc32 e = element_header_crc32_calc e.
Proof.
  destruct header_lens as (H0 & H1 & H2 & H3 & H4).
  assert (element_header_crc32_calc e = element_header_crc32_calc e3) as ->.
  { unfold element_header_crc32_calc. by rewrite !header_slice by lia. }
  unfold e_crc32. rewrite header_eq, slice_splice_eq; [|lia|by rewrite zlen_le_enc|lia].
  rewrite le_dec_enc. apply Z.mod_small. unfold element_header_crc32_calc.
  assert (bytes e3) as Hb.
  { unfold e3. destruct Hfill as (off & d & -> & ? & ? & Hd). apply bytes_splice; [|done].
    assert (bytes blank) by (apply Forall_replicate; lia).
    assert (bytes (key ++ [0])) as Hk.
    { apply bytes_app. split; [by apply is_str_bytes|]. constructor; [lia|constructor]. }
    unfold e2, set_key, e1, set_length, e0, set_tag. auto using bytes_splice, bytes_le_enc. }
  apply Crc.crc32_range; [by apply bytes_slice|].
  apply Crc.crc32_range; [by apply bytes_slice|].
  apply Crc.crc32_range; [by apply bytes_slice|lia].
Qed.

Lemma header_fill_value v : fill = set_value v -> zlen v <= 8 -> slice 0 (zlen v) (e_value e) = v.
Proof.
  intros Hf Hv. destruct header_lens as (H0 & H1 & H2 & H3 & H4). unfold e_value.
  pose proof (zlen_nonneg v).
  rewrite slice_slice, header_slice by lia. unfold e3. rewrite Hf. unfold set_value.
  apply slice_splice_eq; lia.
Qed.

Lemma header_fill_word28 n : fill = set_word28 n -> 0 <= n < 2 ^ 32 -> e_datacrc32 e = n.
Proof.
  intros Hf Hn. destruct header_lens as (H0 & H1 & H2 & H3 & H4). unfold e_datacrc32.
  rewrite header_slice by lia. unfold e3. rewrite Hf. unfold set_word28.
  rewrite slice_splice_eq; [|lia|by rewrite zlen_le_enc|lia]. rewrite le_dec_enc. by apply Z.mod_small.
Qed.

End Header.
End NvdsEntry.
