(* ===== verification/NvdsStore.v ===== *)
(** * NVDS: the store as a map

    The refinement of the operations of [Nvds] by a map from (namespace, key) to values:
    [store_rep] relates a state of the store to its log, the records of the used pages in
    order. Stated for a flash that does not fail and elements of at most 256 bytes. *)
From S2P Require Import Prelude Flash NvdsTypes Nvds NvdsPage.
Open Scope Z_scope.

Module NvdsStore.
Import NvdsTypes Nvds NvdsPage.

(** ** Records *)

(** An element in a page: its header entry, and the entries of its data. *)
Record rec := mk_rec { r_live : bool; r_head : list Z; r_tail : list (list Z) }.

Definition e_type (e : entry) : Z := tag_element_type_get (e_tag e).
Definition e_ns (e : entry) : Z := tag_namespace_get (e_tag e).

Definition r_state (r : rec) : Z := if r_live r then ENTRY_USED else ENTRY_UPDATED.
Definition rec_slots (r : rec) : list (Z * list Z) :=
  (r_state r, r_head r) :: ((fun b => (r_state r, b)) <$> r_tail r).
Definition slots (recs : list rec) : list (Z * list Z) := concat (rec_slots <$> recs).
Definition rec_len (r : rec) : Z := 1 + zlen (r_tail r).
Definition kill (r : rec) : rec := mk_rec false (r_head r) (r_tail r).

(** The value of a small or of a middle element. *)
Definition r_value (r : rec) : list Z :=
  if e_type (r_head r) =? ELEMENT_SMALL then slice 0 (e_length (r_head r)) (e_value (r_head r))
  else take (Z.to_nat (e_length (r_head r))) (concat (r_tail r)).

Record rec_ok (r : rec) : Prop := {
  ro_tail : zlen (r_tail r) =
    if var_type (e_type (r_head r)) then data_entries (e_length (r_head r)) else 0;
  ro_width : Forall (fun b => zlen b = 32) (r_tail r);
  ro_len : 0 <= e_length (r_head r) < 2 ^ 16;
  ro_key : r_live r = true -> key_str (r_head r) <> None;
  ro_crc : r_live r = true -> e_crc32 (r_head r) = element_header_crc32_calc (r_head r);
  ro_small : r_live r = true -> e_type (r_head r) = ELEMENT_SMALL -> e_length (r_head r) <= 8;
  ro_data : r_live r = true -> e_type (r_head r) = ELEMENT_MIDDLE ->
    e_datacrc32 (r_head r) = element_data_crc32_calc (r_value r) (e_length (r_head r));
  ro_middle : r_live r = true -> e_type (r_head r) = ELEMENT_MIDDLE -> 8 < e_length (r_head r)
}.

(** The key of a record, its namespace included. *)
Definition key_of (r : rec) : Z * list Z := (e_ns (r_head r), default [] (key_str (r_head r))).

Definition type_match (entry_type : Z) (r : rec) : bool :=
  (entry_type =? ELEMENT_ANY) || (e_type (r_head r) =? entry_type).

Definition matches (k : Z * list Z) (entry_type : Z) (r : rec) : bool :=
  r_live r && bool_decide (key_of r = k) && type_match entry_type r.

Lemma rec_len_pos r : 1 <= rec_len r.
Proof. unfold rec_len. pose proof (zlen_nonneg (r_tail r)). lia. Qed.

Lemma zlen_fmap {A B} (f : A -> B) l : zlen (f <$> l) = zlen l.
Proof. unfold zlen. by rewrite length_fmap. Qed.

Lemma zlen_rec_slots r : zlen (rec_slots r) = rec_len r.
Proof. unfold rec_slots, rec_len. by rewrite zlen_cons, zlen_fmap. Qed.

Lemma slots_app a b : slots (a ++ b) = slots a ++ slots b.
Proof. unfold slots. by rewrite fmap_app, concat_app. Qed.

Lemma slots_cons r b : slots (r :: b) = rec_slots r ++ slots b.
Proof. done. Qed.

Lemma slots_length recs : zlen recs <= zlen (slots recs).
Proof.
  induction recs as [|r recs IH]; [done|]. rewrite slots_cons, zlen_app, zlen_rec_slots, zlen_cons.
  pose proof (rec_len_pos r). lia.
Qed.

(** ** Finding *)

(** The slot of the first record that matches; the first slot of [recs] is [idx]. *)
Fixpoint find_idx (k : Z * list Z) (entry_type : Z) (recs : list rec) (idx : Z) : option Z :=
  match recs with
  | [] => None
  | r :: recs => if matches k entry_type r then Some idx else find_idx k entry_type recs (idx + rec_len r)
  end.

Fixpoint find_log (k : Z * list Z) (entry_type : Z) (log : list (Z * list rec)) : option (Z * Z) :=
  match log with
  | [] => None
  | (p, recs) :: log =>
      match find_idx k entry_type recs 0 with
      | Some idx => Some (p, idx)
      | None => find_log k entry_type log
      end
  end.

Lemma find_idx_some k t recs idx i :
  find_idx k t recs idx = Some i ->
  exists r1 r r2, recs = r1 ++ r :: r2 /\ i = idx + zlen (slots r1) /\ matches k t r = true /\
    Forall (fun x => matches k t x = false) r1.
Proof.
  revert idx. induction recs as [|r recs IH]; intros idx; cbn [find_idx]; [done|].
  destruct (matches k t r) eqn:E.
  - intros [= <-]. exists [], r, recs. cbn. rewrite Z.add_0_r. auto.
  - intros Hf. destruct (IH _ Hf) as (r1 & x & r2 & -> & -> & ? & ?).
    exists (r :: r1), x, r2. rewrite slots_cons, zlen_app, zlen_rec_slots. split; [done|].
    split; [lia|]. auto.
Qed.

Lemma find_idx_none k t recs idx :
  find_idx k t recs idx = None <-> Forall (fun x => matches k t x = false) recs.
Proof.
  revert idx. induction recs as [|r recs IH]; intros idx; cbn [find_idx]; [split; auto|].
  destruct (matches k t r) eqn:E.
  - split; [done|]. intros Hf. inv Hf. congruence.
  - rewrite IH. split; [auto|]. intros Hf. by inv Hf.
Qed.

Section Store.
Context {F : Type} {Fl : Flash F} {FL : FlashLaws F} {Ci : Cipher}.
Variable good : F -> Prop.
Hypothesis Hgood : reliable good.
Implicit Types (s : env F) (pg : page).

Lemma slot_head (pre suf : list (Z * list Z)) x :
  slot_bytes (pre ++ x :: suf) (zlen pre) = x.2 /\ slot_state (pre ++ x :: suf) (zlen pre) = x.1.
Proof.
  unfold slot_bytes, slot_state, zlen. rewrite Nat2Z.id, list_lookup_middle by done. done.
Qed.

Lemma slot_rec pre r suf :
  slot_bytes (pre ++ rec_slots r ++ suf) (zlen pre) = r_head r /\
  slot_state (pre ++ rec_slots r ++ suf) (zlen pre) = r_state r.
Proof. unfold rec_slots. cbn [app]. by rewrite (proj1 (slot_head _ _ _)), (proj2 (slot_head _ _ _)). Qed.

Lemma next_entry_rec r idx :
  rec_ok r -> 0 <= idx -> idx + rec_len r <= 126 ->
  next_entry idx (e_type (r_head r)) (e_length (r_head r)) = idx + rec_len r.
Proof.
  intros [Ht] Hi Hl. unfold next_entry, rec_len in *. pose proof (zlen_nonneg (r_tail r)).
  rewrite !(wrap8_small (idx + 1)) by lia.
  destruct (var_type (e_type (r_head r))); rewrite <- ?Ht; [|lia]. rewrite wrap8_small; lia.
Qed.

Lemma rec_match r k s :
  rec_ok r ->
  (if r_state r =? ENTRY_USED then key_match k.1 k.2 (r_head r) else ret false) s = (s, inr (r_live r && bool_decide (key_of r = k))).
Proof.
  intros R. unfold r_state. destruct (r_live r) eqn:L; [|done]. cbn [Z.eqb ENTRY_USED Pos.eqb andb].
  unfold key_match, key_of, e_ns, e_tag in *. pose proof (ro_key _ R L) as Hk. destruct k as [ns key]. cbn [fst snd].
  destruct (Z.eqb_spec ns (tag_namespace_get (le_dec (slice 0 2 (r_head r))))) as [->|Hne].
  - destruct (key_str (r_head r)) as [k'|]; [|done]. cbn [default from_option]. unfold ret.
    do 2 f_equal. apply bool_decide_ext. naive_solver.
  - unfold ret. rewrite bool_decide_eq_false_2; [done|]. congruence.
Qed.

Lemma find_in_page_ok s p pg k t recs : forall fuel pre,
  env_ok good s -> page_rep s p pg (pre ++ slots recs) -> Forall rec_ok recs ->
  (length recs < fuel)%nat ->
  find_in_page fuel k.1 k.2 p (zlen pre) t s = (s, inr (find_idx k t recs (zlen pre))).
Proof.
  induction recs as [|r recs IH]; intros fuel pre E P Hok Hf; destruct fuel as [|fuel]; try (cbn in Hf; lia);
    cbn [find_in_page find_idx]; pose proof (ir_cap _ _ _ _ (proj2 P)) as Hc; pose proof (zlen_nonneg pre);
    rewrite zlen_app in Hc; unfold ENTRY_COUNT_PER_PAGE.
  - destruct (Z.leb_spec 126 (zlen pre)); [done|].
    mstep_with (page_get_ok _ _ _ (proj1 (proj1 P))).
    rewrite entry_state_get_eq, (ir_states _ _ _ _ (proj2 P)) by lia.
    rewrite app_nil_r in *. by rewrite (proj2 (slot_end pre (zlen pre) ltac:(lia))).
  - rewrite slots_cons in *. inversion Hok as [|? ? Hr Hok']; subst.
    rewrite zlen_app, zlen_rec_slots in Hc. pose proof (rec_len_pos r). pose proof (zlen_nonneg (slots recs)).
    destruct (Z.leb_spec 126 (zlen pre)); [lia|].
    mstep_with (page_get_ok _ _ _ (proj1 (proj1 P))).
    rewrite entry_state_get_eq, (ir_states _ _ _ _ (proj2 P)) by lia.
    destruct (slot_rec pre r (slots recs)) as [Eb Es]. rewrite Es.
    assert (r_state r =? ENTRY_FREE = false) as -> by (unfold r_state; by destruct (r_live r)).
    mstep_with (entry_read_ok good Hgood s p pg (zlen pre) E (proj1 P) ltac:(lia)).
    rewrite (ir_slots _ _ _ _ (proj2 P)), Eb by lia.
    mstep_with (rec_match r k s Hr). fold (e_type (r_head r)).
    unfold matches, type_match.
    destruct (r_live r && bool_decide (key_of r = k)) eqn:Em; cbn [andb].
    + apply andb_true_iff in Em as [El _]. rewrite (ro_crc _ Hr El), Z.eqb_refl, andb_true_r.
      destruct ((t =? ELEMENT_ANY) || (e_type (r_head r) =? t)); [done|].
      rewrite next_entry_rec by (done || lia). rewrite <- zlen_rec_slots, <- zlen_app.
      apply IH; [done| |done|cbn in Hf; lia]. by rewrite <- app_assoc.
    + rewrite next_entry_rec by (done || lia). rewrite <- zlen_rec_slots, <- zlen_app.
      apply IH; [done| |done|cbn in Hf; lia]. by rewrite <- app_assoc.
Qed.

(** ** The store and its log *)

Definition live_cnt (sl : list (Z * list Z)) : Z := zlen (filter (fun x => x.1 = ENTRY_USED) sl).

(** A header the mount accepts. *)
Definition header_ok (h : list Z) : Prop := h_magic h = NVDS_FLASH_MAGIC /\ h_crc32 h = page_header_crc32_calc h.

(** The bytes of a page without such a header: the mount takes it for a free one. *)
Definition scrap (i : list Z) : Prop := h_state (slice 0 32 i) = PAGE_UNINITIALIZED \/ ~ header_ok (slice 0 32 i).

Record used_page s (p : Z) pg (recs : list rec) : Prop := {
  up_rep : page_rep s p pg (slots recs);
  up_ok : Forall rec_ok recs;
  up_header : header_ok (header pg);
  up_live : live_page pg = true;
  up_free : next_free_idx pg = zlen (slots recs);
  up_cnt : entry_cnt_used pg = live_cnt (slots recs)
}.

Definition free_page s (p : Z) pg : Prop :=
  page_at s p pg /\ scrap (img (flash s) (page_addr pg)) /\
  (h_state (header pg) = PAGE_UNINITIALIZED -> img (flash s) (page_addr pg) = replicate 4096 0xFF).

Definition all_pages s : list Z := nvds_page_free s ++ nvds_page_used s.

(** The pages of [log] are the used ones, in order; [log] gives the records of each. *)
Record store_rep s (log : list (Z * list rec)) : Prop := {
  sr_env : env_ok good s;
  sr_used : nvds_page_used s = log.*1;
  sr_nodup : NoDup (all_pages s);
  sr_pages p recs : (p, recs) ∈ log -> exists pg, used_page s p pg recs;
  sr_free p : p ∈ nvds_page_free s -> exists pg, free_page s p pg;
  sr_addr p q pg pg' : p ∈ all_pages s -> q ∈ all_pages s ->
    pages s !! p = Some pg -> pages s !! q = Some pg' -> page_addr pg = page_addr pg' -> p = q;
  sr_cover a : sector s a -> exists p pg, p ∈ all_pages s /\ pages s !! p = Some pg /\ page_addr pg = a;
  sr_ns n : n ∈ ns_list s -> is_Some (nss s !! n)
}.

Lemma find_in_pages_ok s k t log0 : forall log,
  store_rep s log0 -> (forall x, x ∈ log -> x ∈ log0) ->
  find_in_pages log.*1 k.1 k.2 0 t s =
    (s, match find_log k t log with Some x => inr x | None => inl (RET NVDS_E_NOT_FOUND) end).
Proof.
  induction log as [|[p recs] log IH]; intros R Hsub; cbn [find_in_pages find_log fmap list_fmap fst]; [done|].
  destruct (sr_pages _ _ R p recs) as [pg U]; [apply Hsub; by left|].
  mstep_with (page_get_ok _ _ _ (proj1 (proj1 (up_rep _ _ _ _ U)))). rewrite (up_live _ _ _ _ U). cbn [negb].
  pose proof (slots_length recs) as Hl. pose proof (ir_cap _ _ _ _ (proj2 (up_rep _ _ _ _ U))) as Hc.
  assert (length recs < walk_fuel)%nat as Hf by (unfold walk_fuel, zlen in *; lia).
  mstep_with (find_in_page_ok s p pg k t recs walk_fuel [] (sr_env _ _ R) (up_rep _ _ _ _ U) (up_ok _ _ _ _ U) Hf).
  change (zlen []) with 0. destruct (find_idx k t recs 0); [done|].
  apply IH; [done|]. intros x Hx. apply Hsub. by right.
Qed.

Lemma element_find_ok s k t log :
  store_rep s log ->
  element_find k.1 k.2 0 None t s =
    (s, match find_log k t log with Some x => inr x | None => inl (RET NVDS_E_NOT_FOUND) end).
Proof.
  intros R. unfold element_find. mpure. rewrite (sr_used _ _ R).
  by apply (find_in_pages_ok s k t log).
Qed.

(** The records of a log, and those of a key. *)
Definition recs_of (log : list (Z * list rec)) : list rec := concat log.*2.
Definition lookup_key (k : Z * list Z) (log : list (Z * list rec)) : list rec :=
  filter (fun r => r_live r = true /\ key_of r = k) (recs_of log).

Lemma recs_of_app a b : recs_of (a ++ b) = recs_of a ++ recs_of b.
Proof. unfold recs_of. by rewrite fmap_app, concat_app. Qed.

Lemma recs_of_cons p recs b : recs_of ((p, recs) :: b) = recs ++ recs_of b.
Proof. done. Qed.

Lemma lookup_key_nil k recs :
  Forall (fun r => matches k ELEMENT_ANY r = false) recs ->
  filter (fun r => r_live r = true /\ key_of r = k) recs = [].
Proof.
  induction 1 as [|r recs Hr _ IH]; [done|]. rewrite filter_cons_False; [done|].
  intros [Hl Hk]. unfold matches, type_match in Hr. rewrite Hl, bool_decide_eq_true_2 in Hr by done. done.
Qed.

Lemma find_log_some k log p i :
  find_log k ELEMENT_ANY log = Some (p, i) ->
  exists l1 r1 r r2 l2, log = l1 ++ (p, r1 ++ r :: r2) :: l2 /\ i = zlen (slots r1) /\
    r_live r = true /\ key_of r = k /\
    filter (fun r => r_live r = true /\ key_of r = k) (recs_of l1 ++ r1) = [].
Proof.
  induction log as [|[q recs] log IH]; cbn [find_log]; [done|].
  destruct (find_idx k ELEMENT_ANY recs 0) as [j|] eqn:E.
  - intros [= -> ->]. apply find_idx_some in E as (r1 & r & r2 & -> & -> & Hm & Hr1).
    unfold matches in Hm. rewrite !andb_true_iff, bool_decide_eq_true in Hm. destruct Hm as [[Hm1 Hm2] _].
    exists [], r1, r, r2, log. repeat split; try done. cbn. by apply lookup_key_nil.
  - intros Hf. apply find_idx_none in E. apply lookup_key_nil in E.
    destruct (IH Hf) as (l1 & r1 & r & r2 & l2 & -> & ? & ? & ? & Hn).
    exists ((q, recs) :: l1), r1, r, r2, l2. repeat split; try done.
    by rewrite recs_of_cons, <- app_assoc, filter_app, E, Hn.
Qed.

Lemma find_log_none k log : find_log k ELEMENT_ANY log = None -> lookup_key k log = [].
Proof.
  unfold lookup_key. induction log as [|[q recs] log IH]; cbn [find_log]; [done|].
  destruct (find_idx k ELEMENT_ANY recs 0) as [j|] eqn:E; [done|].
  intros Hf. apply find_idx_none in E. apply lookup_key_nil in E.
  by rewrite recs_of_cons, filter_app, E, IH.
Qed.

(** The search finds an element exactly when the log has a live record with its key. *)
Lemma data_element_find_spec s log k :
  store_rep s log ->
  (lookup_key k log = [] /\
   data_element_find k.1 k.2 s = (s, inl (RET NVDS_E_NOT_FOUND))) \/
  (exists p l1 r1 r r2 l2, log = l1 ++ (p, r1 ++ r :: r2) :: l2 /\
    data_element_find k.1 k.2 s = (s, inr (p, zlen (slots r1))) /\
    r_live r = true /\ key_of r = k /\
    filter (fun r => r_live r = true /\ key_of r = k) (recs_of l1 ++ r1) = []).
Proof.
  intros R. unfold data_element_find. rewrite (element_find_ok s k _ log R).
  destruct (find_log k ELEMENT_ANY log) as [[p i]|] eqn:E.
  - right. apply find_log_some in E as (l1 & r1 & r & r2 & l2 & -> & -> & ? & ? & ?).
    exists p, l1, r1, r, r2, l2. auto.
  - left. split; [by apply find_log_none|done].
Qed.

(** ** Changing one page of the store *)

Lemma used_page_other s s' p pg q pgq recs :
  evolves good s s' p pg -> p <> q -> page_addr pgq <> page_addr pg ->
  used_page s q pgq recs -> used_page s' q pgq recs.
Proof.
  intros (Es & G & O) Hpq Ha [[[L S] R] ? ? ? ? ?]. constructor; try done. split; [split|].
  - rewrite Es. cbn. by rewrite lookup_insert_ne.
  - rewrite Es. done.
  - rewrite O; [done|apply S..|done].
Qed.

Lemma free_page_other s s' p pg q pgq :
  evolves good s s' p pg -> p <> q -> page_addr pgq <> page_addr pg ->
  free_page s q pgq -> free_page s' q pgq.
Proof.
  intros (Es & G & O) Hpq Ha [[L S] R]. split; [split|].
  - rewrite Es. cbn. by rewrite lookup_insert_ne.
  - rewrite Es. done.
  - rewrite O; [done|apply S..|done].
Qed.

Lemma evolves_lists s s' p pg :
  evolves good s s' p pg ->
  nvds_page_free s' = nvds_page_free s /\ nvds_page_used s' = nvds_page_used s.
Proof. intros (Es & _). by rewrite Es. Qed.

Lemma evolves_pages s s' p pg : evolves good s s' p pg -> pages s' = <[p := pg]> (pages s).
Proof. intros (Es & _). by rewrite Es. Qed.

(** The log with the records of one page replaced. *)
Lemma store_update s s' l1 p recs l2 pg pg' recs' :
  store_rep s (l1 ++ (p, recs) :: l2) ->
  pages s !! p = Some pg -> page_addr pg' = page_addr pg ->
  evolves good s s' p pg' -> used_page s' p pg' recs' ->
  store_rep s' (l1 ++ (p, recs') :: l2).
Proof.
  intros R Lp Ea V U. destruct (evolves_lists _ _ _ _ V) as [Ef Eu].
  assert (all_pages s' = all_pages s) as Ea' by (unfold all_pages; by rewrite Ef, Eu).
  assert (p ∈ all_pages s) as Hp.
  { unfold all_pages. rewrite (sr_used _ _ R), fmap_app. cbn. set_solver. }
  assert (NoDup (l1 ++ (p, recs) :: l2).*1) as Hnd.
  { rewrite <- (sr_used _ _ R). pose proof (sr_nodup _ _ R) as N. by apply NoDup_app in N as (_ & _ & ?). }
  assert (forall q recsq, (q, recsq) ∈ l1 ++ l2 -> q <> p) as Hne.
  { intros q recsq Hq ->. rewrite fmap_app in Hnd. cbn in Hnd.
    apply NoDup_app in Hnd as (_ & H1 & H2). apply NoDup_cons in H2 as [H2 _].
    apply elem_of_app in Hq as [Hq|Hq]; apply (list_elem_of_fmap_2 fst) in Hq; cbn in Hq;
      [apply (H1 p Hq); by left|done]. }
  assert (forall q pgq, q ∈ all_pages s -> q <> p -> pages s !! q = Some pgq -> page_addr pgq <> page_addr pg') as Hadr.
  { intros q pgq Hq Hqp Lq E. apply Hqp. eapply (sr_addr _ _ R); [done|done|done|done|congruence]. }
  constructor.
  - by eapply evolves_env, V; apply R.
  - rewrite Eu, (sr_used _ _ R), !fmap_app. done.
  - rewrite Ea'. apply R.
  - intros q recsq Hq. apply elem_of_app in Hq as [Hq|Hq]; [|apply elem_of_cons in Hq as [[= -> ->]|Hq]].
    2: by exists pg'.
    all: destruct (sr_pages _ _ R q recsq) as [pgq Uq]; [rewrite elem_of_app, elem_of_cons; auto|].
    all: assert (q <> p) as Hqp by (eapply Hne; rewrite elem_of_app; eauto).
    all: exists pgq; eapply used_page_other; try done.
    all: eapply Hadr; [|done|apply Uq]; unfold all_pages; rewrite (sr_used _ _ R), fmap_app, !elem_of_app; right.
    + left. by apply (list_elem_of_fmap_2 fst) in Hq.
    + right. right. by apply (list_elem_of_fmap_2 fst) in Hq.
  - intros q Hq. rewrite Ef in Hq. destruct (sr_free _ _ R q Hq) as [pgq Uq]. exists pgq.
    assert (q <> p) as Hqp.
    { intros ->. pose proof (sr_nodup _ _ R) as N. apply NoDup_app in N as (_ & N & _). apply (N p Hq).
      rewrite (sr_used _ _ R), fmap_app. cbn. set_solver. }
    eapply free_page_other; try done. eapply Hadr; [|done|apply Uq]. unfold all_pages. set_solver.
  - rewrite Ea', (evolves_pages _ _ _ _ V). intros q q' pgq pgq' Hq Hq' Lq Lq' E.
    apply (sr_addr _ _ R q q') with (pg := if decide (q = p) then pg else pgq)
      (pg' := if decide (q' = p) then pg else pgq'); try done; repeat case_decide; subst;
      rewrite ?lookup_insert_eq, ?lookup_insert_ne in * by done; try done; congruence.
  - intros a Sa. destruct (sr_cover _ _ R a) as (q & pgq & Hq & Lq & Eq).
    { unfold sector in *. destruct V as (Es & _). rewrite Es in Sa. exact Sa. }
    exists q. rewrite Ea', (evolves_pages _ _ _ _ V). destruct (decide (p = q)) as [<-|Hqp].
    + exists pg'. rewrite lookup_insert_eq. split; [done|]. split; [done|]. congruence.
    + exists pgq. by rewrite lookup_insert_ne.
  - destruct V as (-> & _). apply R.
Qed.

(** ** Deleting *)

Lemma alter_range_mid mid : forall pre suf v,
  alter_range (length mid) (zlen pre) v (pre ++ mid ++ suf) =
    pre ++ ((fun x => (v, x.2)) <$> mid) ++ suf.
Proof.
  induction mid as [|x mid IH]; intros pre suf v; [done|]. cbn [alter_range length fmap list_fmap app].
  assert (alter (fun y : Z * list Z => (v, y.2)) (Z.to_nat (zlen pre)) (pre ++ x :: mid ++ suf) =
          (pre ++ [(v, x.2)]) ++ mid ++ suf) as ->.
  { unfold zlen. rewrite Nat2Z.id, alter_app_r_alt, Nat.sub_diag by done. cbn. by rewrite <- app_assoc. }
  replace (zlen pre + 1) with (zlen (pre ++ [(v, x.2)])) by (rewrite zlen_app; done).
  rewrite IH. by rewrite <- app_assoc.
Qed.

Lemma rec_slots_kill r : (fun x => (ENTRY_UPDATED, x.2)) <$> rec_slots r = rec_slots (kill r).
Proof.
  unfold rec_slots, kill. cbn. f_equal. by rewrite <- list_fmap_compose.
Qed.

Lemma live_cnt_app a b : live_cnt (a ++ b) = live_cnt a + live_cnt b.
Proof. unfold live_cnt. by rewrite filter_app, zlen_app. Qed.

Lemma live_cnt_const st l :
  live_cnt ((fun b : list Z => (st, b)) <$> l) = if st =? ENTRY_USED then zlen l else 0.
Proof.
  unfold live_cnt. induction l as [|b l IH]; [by destruct (st =? ENTRY_USED)|].
  cbn [fmap list_fmap]. destruct (Z.eqb_spec st ENTRY_USED) as [->|Hne].
  - rewrite filter_cons_True, !zlen_cons, IH by done. done.
  - by rewrite filter_cons_False.
Qed.

Lemma live_cnt_rec r : live_cnt (rec_slots r) = if r_live r then rec_len r else 0.
Proof.
  change (rec_slots r) with ([(r_state r, r_head r)] ++ ((fun b => (r_state r, b)) <$> r_tail r)).
  rewrite live_cnt_app, live_cnt_const. unfold live_cnt, r_state, rec_len. by destruct (r_live r).
Qed.

Lemma live_cnt_bounds sl : 0 <= live_cnt sl <= zlen sl.
Proof.
  unfold live_cnt, zlen. pose proof (length_filter (fun x : Z * list Z => x.1 = ENTRY_USED) sl). lia.
Qed.

Lemma slot_state_mid pre r suf k :
  zlen pre <= k < zlen pre + rec_len r -> slot_state (pre ++ rec_slots r ++ suf) k = r_state r.
Proof.
  intros Hk. pose proof (zlen_nonneg pre). rewrite slot_state_app by lia.
  destruct (Z.ltb_spec k (zlen pre)); [lia|]. rewrite slot_state_app by lia. rewrite zlen_rec_slots.
  destruct (Z.ltb_spec (k - zlen pre) (rec_len r)); [|lia].
  unfold slot_state, rec_slots. destruct (Z.to_nat (k - zlen pre)) as [|m] eqn:E; [done|].
  simpl. rewrite list_lookup_fmap.
  destruct (lookup_lt_is_Some_2 (r_tail r) m) as [b Hb]; [unfold rec_len, zlen in *; lia|].
  by rewrite Hb.
Qed.

Lemma rec_ok_kill r : rec_ok r -> rec_ok (kill r).
Proof. intros []. by constructor. Qed.

Lemma sub_used_ok s p pg n :
  pages s !! p = Some pg ->
  sub_used p n s = page_put p (set_counts (u16 (entry_cnt_used pg - n)) (next_free_idx pg) pg) s.
Proof. intros L. unfold sub_used. by mstep_with (page_get_ok _ _ _ L). Qed.

Lemma page_rep_set_counts s p pg sl a b :
  env_ok good s -> page_rep s p pg sl ->
  exists s', page_put p (set_counts a b pg) s = (s', inr tt) /\
    evolves good s s' p (set_counts a b pg) /\ page_rep s' p (set_counts a b pg) sl.
Proof. intros E P. destruct (page_rep_counts good s p pg sl a b E P) as (H1 & H2 & H3). eauto. Qed.

(** Taking a live record out: its states, then the counter of its page. *)
Lemma kill_ok s p pg r1 r r2 :
  env_ok good s -> used_page s p pg (r1 ++ r :: r2) -> r_live r = true ->
  exists s' pg', (entry_state_range_alter p (zlen (slots r1)) (zlen (slots r1) + zlen (r_tail r)) ENTRY_UPDATED ;;;
                  sub_used p (zlen (r_tail r) + 1))%fw s = (s', inr tt) /\
    evolves good s s' p pg' /\ page_addr pg' = page_addr pg /\
    used_page s' p pg' (r1 ++ kill r :: r2).
Proof.
  intros E [P Ok Hd Lv Fr Ct] Hl. rewrite slots_app, slots_cons in *.
  set (pre := slots r1) in *. set (suf := slots r2) in *. pose proof (ir_cap _ _ _ _ (proj2 P)) as Hc.
  rewrite !zlen_app, zlen_rec_slots in Hc. pose proof (zlen_nonneg pre). pose proof (zlen_nonneg suf).
  pose proof (zlen_nonneg (r_tail r)). unfold rec_len in Hc.
  assert (r_state r = ENTRY_USED) as Hst by (unfold r_state; by rewrite Hl).
  destruct (entry_state_range_alter_ok good Hgood s p pg _ (zlen pre) (zlen pre + zlen (r_tail r)) ENTRY_UPDATED E P)
    as (s1 & st & E1 & V1 & P1); [lia|rewrite !zlen_app, zlen_rec_slots; unfold rec_len; lia|by right; right| |].
  { intros k Hk. rewrite slot_state_mid, Hst by (unfold rec_len; lia). done. }
  mstep_with E1. rewrite (sub_used_ok s1 p _ _ (proj1 (proj1 P1))).
  replace (Z.to_nat (zlen pre + zlen (r_tail r) - zlen pre + 1)) with (length (rec_slots r)) in P1.
  2:{ apply Nat2Z.inj. change (Z.of_nat (length (rec_slots r))) with (zlen (rec_slots r)).
      rewrite zlen_rec_slots, Z2Nat.id; unfold rec_len; lia. }
  rewrite alter_range_mid, rec_slots_kill in P1.
  destruct (page_rep_set_counts s1 p _ _
              (u16 (entry_cnt_used (set_states st pg) - (zlen (r_tail r) + 1))) (next_free_idx (set_states st pg))
              (evolves_env _ _ _ _ _ E V1) P1) as (s2 & E2 & V2 & P2).
  eexists s2, (set_counts _ _ (set_states st pg)). split; [exact E2|].
  split; [by refine (evolves_trans _ _ _ _ _ _ _ _ V1 V2)|split; [done|]].
  constructor; cbn [next_free_idx entry_cnt_used set_counts set_states].
    + by rewrite slots_app, slots_cons.
    + apply Forall_app in Ok as [Ok1 Ok2]. apply Forall_cons in Ok2 as [Okr Ok2].
      apply Forall_app. split; [done|]. apply Forall_cons. split; [by apply rec_ok_kill|done].
    + done.
    + done.
    + rewrite Fr, !slots_app, !slots_cons, !zlen_app, !zlen_rec_slots. done.
    + rewrite !live_cnt_app, live_cnt_rec, Hl in Ct. unfold rec_len in Ct.
      rewrite slots_app, slots_cons, !live_cnt_app, live_cnt_rec. cbn [kill r_live].
      pose proof (live_cnt_bounds pre). pose proof (live_cnt_bounds suf). rewrite Ct.
      fold pre suf. rewrite wrap16_small; lia.
Qed.

(** The record an operation found: the page of its header, and the header read back. *)
Lemma found_read s log p l1 r1 r r2 l2 :
  store_rep s log -> log = l1 ++ (p, r1 ++ r :: r2) :: l2 ->
  exists pg, used_page s p pg (r1 ++ r :: r2) /\ rec_ok r /\
    entry_read p (zlen (slots r1)) s = (s, inr (r_head r)).
Proof.
  intros R ->. destruct (sr_pages _ _ R p (r1 ++ r :: r2)) as [pg U]; [set_solver|].
  exists pg. split; [done|]. pose proof (up_rep _ _ _ _ U) as P. pose proof (up_ok _ _ _ _ U) as Ok.
  apply Forall_app in Ok as [_ Ok]. apply Forall_cons in Ok as [Ok _]. split; [done|].
  rewrite slots_app, slots_cons in P. pose proof (ir_cap _ _ _ _ (proj2 P)) as Hc.
  rewrite !zlen_app, zlen_rec_slots in Hc. pose proof (rec_len_pos r).
  pose proof (zlen_nonneg (slots r1)). pose proof (zlen_nonneg (slots r2)).
  rewrite (entry_read_ok good Hgood s p pg _ (sr_env _ _ R) (proj1 P)) by lia.
  rewrite (ir_slots _ _ _ _ (proj2 P)) by lia. by rewrite (proj1 (slot_rec _ _ _)).
Qed.

(** Small and middle elements. *)
Definition plain (r : rec) : Prop := e_type (r_head r) = ELEMENT_SMALL \/ e_type (r_head r) = ELEMENT_MIDDLE.

Lemma data_element_del_ok s log k :
  store_rep s log -> Forall plain (lookup_key k log) ->
  (lookup_key k log = [] /\ data_element_del k.1 k.2 s = (s, inl (RET NVDS_E_NOT_FOUND))) \/
  (exists s' p l1 r1 r r2 l2, log = l1 ++ (p, r1 ++ r :: r2) :: l2 /\
    data_element_del k.1 k.2 s = (s', inr tt) /\
    r_live r = true /\ key_of r = k /\
    filter (fun r => r_live r = true /\ key_of r = k) (recs_of l1 ++ r1) = [] /\
    store_rep s' (l1 ++ (p, r1 ++ kill r :: r2) :: l2) /\
    nvds_page_free s' = nvds_page_free s).
Proof.
  intros R Hp. destruct (data_element_find_spec s log k R) as
    [[Hn E]|(p & l1 & r1 & r & r2 & l2 & El & E & Hl & Hk & Hf)]; unfold data_element_find in E.
  { left. split; [done|]. unfold data_element_del. by rewrite (bnd_err _ _ _ _ _ E). }
  right. destruct (found_read _ _ _ _ _ _ _ _ R El) as (pg & U & Ok & Er).
  assert (plain r) as Hpl.
  { rewrite El in Hp. unfold lookup_key in Hp. rewrite recs_of_app, recs_of_cons, !filter_app in Hp.
    rewrite filter_app in Hf. apply app_eq_nil in Hf as [Hf1 Hf2]. rewrite filter_cons_True in Hp by done.
    apply Forall_app in Hp as [_ Hp]. apply Forall_app in Hp as [Hp _].
    apply Forall_app in Hp as [_ Hp]. by apply Forall_cons in Hp as [Hp _]. }
  destruct (kill_ok s p pg r1 r r2 (sr_env _ _ R) U Hl) as (s' & pg' & Ekill & V & Ea & U').
  exists s', p, l1, r1, r, r2, l2. split; [done|]. split.
  - unfold data_element_del. mstep_with E. mstep_with Er. fold (e_type (r_head r)).
    pose proof (ro_tail _ Ok) as Ht. destruct Hpl as [Hty|Hty]; rewrite Hty in *; cbn [var_type Z.eqb orb] in *.
    + change ((ELEMENT_SMALL =? ELEMENT_BULKINFO) || (ELEMENT_SMALL =? ELEMENT_BULK)) with false.
      change (ELEMENT_SMALL =? ELEMENT_SMALL) with true. cbn match.
      change (var_type ELEMENT_SMALL) with false in Ht. rewrite Ht, Z.add_0_r, Z.add_0_l in Ekill. exact Ekill.
    + change ((ELEMENT_MIDDLE =? ELEMENT_BULKINFO) || (ELEMENT_MIDDLE =? ELEMENT_BULK)) with false.
      change (ELEMENT_MIDDLE =? ELEMENT_SMALL) with false. change (ELEMENT_MIDDLE =? ELEMENT_MIDDLE) with true.
      cbn match. change (var_type ELEMENT_MIDDLE) with true in Ht. rewrite <- Ht. exact Ekill.
  - destruct (evolves_lists _ _ _ _ V) as [Ef _].
    repeat (split; [done|]). split; [|done]. rewrite El in R.
    by apply (store_update s s' l1 p _ l2 pg pg' _ R (proj1 (proj1 (up_rep _ _ _ _ U))) Ea V).
Qed.

(** ** Reading *)

Lemma read_data_ok mid : forall s p pg pre suf fuel remain dst buf,
  env_ok good s -> page_rep s p pg (pre ++ mid ++ suf) ->
  Forall (fun x => zlen x.2 = 32) mid -> 0 <= remain <= 32 * zlen mid ->
  0 <= dst -> dst + remain <= zlen buf -> (length mid < fuel)%nat ->
  read_data fuel p (zlen pre) (zlen pre + zlen mid - 1) remain dst buf s =
    (s, inr (NVDS_OK, splice dst (take (Z.to_nat remain) (concat mid.*2)) buf)).
Proof.
  induction mid as [|x mid IH]; intros s p pg pre suf fuel remain dst buf E P Hx Hr Hd Hb Hf;
    destruct fuel as [|fuel]; try (cbn in Hf; lia); cbn [read_data].
  - rewrite zlen_nil. destruct (Z.ltb_spec (zlen pre + 0 - 1) (zlen pre)); [|lia].
    cbn [fmap list_fmap concat]. by rewrite take_nil, splice_nil.
  - rewrite zlen_cons in *. pose proof (zlen_nonneg mid). pose proof (zlen_nonneg pre).
    inversion Hx as [|? ? Hx1 Hx2]; subst. pose proof (ir_cap _ _ _ _ (proj2 P)) as Hc.
    rewrite !zlen_app, zlen_cons in Hc. pose proof (zlen_nonneg suf).
    destruct (Z.ltb_spec (zlen pre + (1 + zlen mid) - 1) (zlen pre)); [lia|].
    unfold code. unfold bnd at 1.
    rewrite (entry_read_ok good Hgood s p pg _ E (proj1 P)), (ir_slots _ _ _ _ (proj2 P)) by lia.
    cbn [app]. rewrite (proj1 (slot_head pre _ x)). unfold ENTRY_SIZE.
    set (copy := if remain <? 32 then remain else 32).
    assert (0 <= copy <= 32 /\ copy <= remain /\ remain - copy <= 32 * zlen mid) as (Hc1 & Hc2 & Hc3)
      by (unfold copy; if_split; lia).
    destruct (Z.ltb_spec (zlen buf) (dst + copy)); [lia|].
    assert (zlen (slice 0 copy x.2) = copy) as Hs by (apply zlen_slice; lia).
    replace (u8 (zlen pre + 1)) with (zlen (pre ++ [x])) by (rewrite zlen_app, zlen_singleton, wrap8_small; lia).
    replace (zlen pre + (1 + zlen mid) - 1) with (zlen (pre ++ [x]) + zlen mid - 1) by
      (rewrite zlen_app, zlen_singleton; lia).
    rewrite (IH s p pg (pre ++ [x]) suf);
      [|done|by rewrite <- app_assoc|done|lia|lia|rewrite zlen_splice; lia|cbn in Hf; lia].
    cbn [fmap list_fmap concat]. do 3 f_equal.
    replace (dst + copy) with (dst + zlen (slice 0 copy x.2)) by lia. rewrite splice_splice_app.
    + f_equal. clear Hs. unfold copy in *. unfold zlen in Hx1. destruct (Z.ltb_spec remain 32).
      * rewrite take_app_le by lia. rewrite Z.sub_diag. cbn [Z.to_nat take]. by rewrite app_nil_r.
      * rewrite take_app_ge by lia. change (slice 0 32 x.2) with (take 32 x.2).
        rewrite (take_ge x.2) by lia. do 2 f_equal. lia.
    + done.
    + rewrite Hs. pose proof (zlen_take_le (remain - copy) (concat mid.*2)). lia.
Qed.

Lemma compare_data_ok mid : forall s p pg pre suf fuel remain dst buf,
  env_ok good s -> page_rep s p pg (pre ++ mid ++ suf) ->
  Forall (fun x => zlen x.2 = 32) mid -> 0 <= remain <= 32 * zlen mid ->
  0 <= dst -> dst + remain <= zlen buf -> (length mid < fuel)%nat ->
  compare_data fuel p (zlen pre) (zlen pre + zlen mid - 1) remain dst buf s =
    (s, inr (bool_decide (slice dst remain buf = take (Z.to_nat remain) (concat mid.*2)))).
Proof.
  induction mid as [|x mid IH]; intros s p pg pre suf fuel remain dst buf E P Hx Hr Hd Hb Hf;
    destruct fuel as [|fuel]; try (cbn in Hf; lia); cbn [compare_data].
  - rewrite zlen_nil in *. destruct (Z.ltb_spec (zlen pre + 0 - 1) (zlen pre)); [|lia].
    assert (remain = 0) as -> by lia. rewrite slice_nil. by rewrite bool_decide_eq_true_2.
  - rewrite zlen_cons in *. pose proof (zlen_nonneg mid). pose proof (zlen_nonneg pre).
    inversion Hx as [|? ? Hx1 Hx2]; subst. pose proof (ir_cap _ _ _ _ (proj2 P)) as Hc.
    rewrite !zlen_app, zlen_cons in Hc. pose proof (zlen_nonneg suf).
    destruct (Z.ltb_spec (zlen pre + (1 + zlen mid) - 1) (zlen pre)); [lia|].
    unfold code. unfold bnd at 1.
    rewrite (entry_read_ok good Hgood s p pg _ E (proj1 P)), (ir_slots _ _ _ _ (proj2 P)) by lia.
    cbn [app]. rewrite (proj1 (slot_head pre _ x)). unfold ENTRY_SIZE.
    set (copy := if remain <? 32 then remain else 32).
    assert (0 <= copy <= 32 /\ copy <= remain /\ remain - copy <= 32 * zlen mid) as (Hc1 & Hc2 & Hc3)
      by (unfold copy; if_split; lia).
    destruct (Z.ltb_spec (zlen buf) (dst + copy)); [lia|].
    assert (slice dst remain buf = slice dst copy buf ++ slice (dst + copy) (remain - copy) buf) as ->.
    { rewrite <- slice_app_split by lia. f_equal. lia. }
    assert (take (Z.to_nat remain) (concat (x :: mid).*2) =
            slice 0 copy x.2 ++ take (Z.to_nat (remain - copy)) (concat mid.*2)) as ->.
    { cbn [fmap list_fmap concat]. unfold copy in *. unfold zlen in Hx1. destruct (Z.ltb_spec remain 32).
      * rewrite take_app_le by lia. rewrite Z.sub_diag. cbn [Z.to_nat take]. by rewrite app_nil_r.
      * rewrite take_app_ge by lia. change (slice 0 32 x.2) with (take 32 x.2).
        rewrite (take_ge x.2) by lia. do 2 f_equal. lia. }
    assert (zlen (slice 0 copy x.2) = copy) as Hs by (apply zlen_slice; lia).
    assert (zlen (slice dst copy buf) = copy) as Hs2 by (apply zlen_slice; lia).
    destruct (bool_decide (slice dst copy buf = slice 0 copy x.2)) eqn:Eb; cbn [negb].
    + apply bool_decide_eq_true in Eb.
      replace (u8 (zlen pre + 1)) with (zlen (pre ++ [x])) by (rewrite zlen_app, zlen_singleton, wrap8_small; lia).
      replace (zlen pre + (1 + zlen mid) - 1) with (zlen (pre ++ [x]) + zlen mid - 1) by
        (rewrite zlen_app, zlen_singleton; lia).
      rewrite (IH s p pg (pre ++ [x]) suf);
        [|done|by rewrite <- app_assoc|done|lia|lia|lia|cbn in Hf; lia].
      do 2 f_equal. apply bool_decide_ext. rewrite Eb. split; [by intros ->|]. apply app_inv_head.
    + unfold ret. do 2 f_equal. symmetry. apply bool_decide_eq_false_2. apply bool_decide_eq_false in Eb.
      intros Ea. apply Eb. apply app_inj_1 in Ea as [? _]; [done|]. unfold zlen in Hs, Hs2. lia.
Qed.

Lemma zlen_concat (l : list (list Z)) : Forall (fun b => zlen b = 32) l -> zlen (concat l) = 32 * zlen l.
Proof.
  induction 1 as [|b l Hb _ IH]; [done|]. cbn [concat]. rewrite zlen_app, zlen_cons, IH, Hb. lia.
Qed.

(** What the record of an element tells its reader. *)
Lemma plain_value r :
  rec_ok r -> r_live r = true -> plain r -> zlen (r_head r) = 32 -> zlen (r_value r) = e_length (r_head r).
Proof.
  intros Ok Hl Hp Hh. pose proof (ro_len _ Ok). unfold r_value. destruct Hp as [E|E]; rewrite E.
  - cbn [Z.eqb ELEMENT_SMALL]. pose proof (ro_small _ Ok Hl E). apply zlen_slice; [lia|lia|].
    unfold e_value. rewrite zlen_slice; lia.
  - cbn [Z.eqb ELEMENT_SMALL ELEMENT_MIDDLE]. apply zlen_take. split; [lia|].
    rewrite (zlen_concat _ (ro_width _ Ok)), (ro_tail _ Ok), E. change (var_type ELEMENT_MIDDLE) with true.
    cbn match. pose proof (data_entries_bounds (e_length (r_head r))). lia.
Qed.

Lemma found_head_len s p pg r1 r r2 : used_page s p pg (r1 ++ r :: r2) -> zlen (r_head r) = 32.
Proof.
  intros U. pose proof (up_rep _ _ _ _ U) as P. rewrite slots_app, slots_cons in P.
  pose proof (ir_cap _ _ _ _ (proj2 P)) as Hc. rewrite !zlen_app, zlen_rec_slots in Hc.
  pose proof (rec_len_pos r). pose proof (zlen_nonneg (slots r1)). pose proof (zlen_nonneg (slots r2)).
  rewrite <- (proj1 (slot_rec (slots r1) r (slots r2))), <- (ir_slots _ _ _ _ (proj2 P)) by lia.
  pose proof (ir_len _ _ _ _ (proj2 P)). apply zlen_slice; lia.
Qed.

(** The data entries of a middle element, as the loops over them see them. *)
Lemma middle_slots s p pg r1 r r2 :
  used_page s p pg (r1 ++ r :: r2) -> rec_ok r -> e_type (r_head r) = ELEMENT_MIDDLE ->
  exists pre mid suf, page_rep s p pg (pre ++ mid ++ suf) /\ zlen pre = zlen (slots r1) + 1 /\
    mid.*2 = r_tail r /\ Forall (fun x => zlen x.2 = 32) mid /\
    zlen mid = data_entries (e_length (r_head r)) /\ zlen pre + zlen mid <= 126.
Proof.
  intros U Ok Et. pose proof (up_rep _ _ _ _ U) as P. rewrite slots_app, slots_cons in P.
  exists (slots r1 ++ [(r_state r, r_head r)]), ((fun b => (r_state r, b)) <$> r_tail r), (slots r2).
  assert ((slots r1 ++ [(r_state r, r_head r)]) ++ ((fun b => (r_state r, b)) <$> r_tail r) ++ slots r2 =
          slots r1 ++ rec_slots r ++ slots r2) as Ea by (unfold rec_slots; by rewrite <- app_assoc).
  pose proof (ir_cap _ _ _ _ (proj2 P)) as Hc. rewrite !zlen_app, zlen_rec_slots in Hc.
  pose proof (zlen_nonneg (slots r2)). unfold rec_len in Hc.
  split; [by rewrite Ea|]. rewrite zlen_app, zlen_singleton, zlen_fmap.
  split; [done|]. split; [|split; [|split]].
  - rewrite <- list_fmap_compose. cbn. by rewrite list_fmap_id.
  - apply Forall_fmap. eapply Forall_impl; [apply Ok|done].
  - rewrite (ro_tail _ Ok), Et. done.
  - lia.
Qed.

Lemma lookup_found k l1 p r1 r r2 l2 :
  r_live r = true -> key_of r = k ->
  filter (fun r => r_live r = true /\ key_of r = k) (recs_of l1 ++ r1) = [] ->
  lookup_key k (l1 ++ (p, r1 ++ r :: r2) :: l2) =
    r :: filter (fun r => r_live r = true /\ key_of r = k) (r2 ++ recs_of l2).
Proof.
  intros Hl Hk Hf. unfold lookup_key. rewrite recs_of_app, recs_of_cons, <- !app_assoc.
  rewrite app_assoc, filter_app, Hf. cbn [app]. by rewrite filter_cons_True.
Qed.

(** What a get of a small or middle element returns. *)
Definition get_spec (found : option rec) (buf : option (list Z)) (bufsize : Z) : stop + get_result :=
  match found with
  | None => inl (RET NVDS_E_NOT_FOUND)
  | Some r =>
      let n := zlen (r_value r) in
      match buf with
      | None => inr (NVDS_OK, n, None)
      | Some b =>
          if bufsize <? n then inr (NVDS_E_INVALID_LENGTH, n, buf)
          else inr (NVDS_OK, n, Some (splice 0 (r_value r) b))
      end
  end.

Definition buf_ok (buf : option (list Z)) (bufsize : Z) : Prop :=
  match buf with None => True | Some b => bufsize <= zlen b end.

Lemma slice_splice_value (v b : list Z) n : zlen v = n -> n <= zlen b -> slice 0 n (splice 0 v b) = v.
Proof. intros Hv Hb. apply slice_splice_eq; lia. Qed.

Lemma type_small : (ELEMENT_SMALL =? ELEMENT_BULK) || (ELEMENT_SMALL =? ELEMENT_BULKINFO) = false.
Proof. done. Qed.
Lemma type_middle : (ELEMENT_MIDDLE =? ELEMENT_BULK) || (ELEMENT_MIDDLE =? ELEMENT_BULKINFO) = false.
Proof. done. Qed.

Lemma data_element_get_ok s log k buf bufsize :
  store_rep s log -> Forall plain (lookup_key k log) -> buf_ok buf bufsize ->
  data_element_get k.1 k.2 buf bufsize s = (s, get_spec (head (lookup_key k log)) buf bufsize).
Proof.
  intros R Hp Hb. unfold data_element_get.
  destruct (data_element_find_spec s log k R) as
    [[Hn E]|(p & l1 & r1 & r & r2 & l2 & El & E & Hl & Hk & Hf)]; unfold data_element_find in E.
  { rewrite (bnd_err _ _ _ _ _ E), Hn. done. }
  destruct (found_read _ _ _ _ _ _ _ _ R El) as (pg & U & Ok & Er).
  rewrite El, (lookup_found k l1 p r1 r r2 l2 Hl Hk Hf) in *. apply Forall_cons in Hp as [Hp _].
  cbn [head]. mstep_with E. mstep_with Er. fold (e_type (r_head r)).
  pose proof (plain_value r Ok Hl Hp (found_head_len _ _ _ _ _ _ U)) as Hv. pose proof (ro_len _ Ok) as Hn.
  unfold get_spec. rewrite Hv. destruct buf as [b|].
  2:{ destruct Hp as [Et|Et]; rewrite Et, ?type_small, ?type_middle; done. }
  cbn [buf_ok] in Hb. destruct Hp as [Et|Et].
  - rewrite Et, type_small. destruct (Z.ltb_spec bufsize (e_length (r_head r))); [done|].
    change (ELEMENT_SMALL =? ELEMENT_SMALL) with true. cbn match.
    pose proof (ro_small _ Ok Hl Et). destruct (Z.ltb_spec 8 (e_length (r_head r))); [lia|].
    destruct (Z.ltb_spec (zlen b) (e_length (r_head r))); [lia|]. cbn [orb].
    unfold r_value. by rewrite Et.
  - rewrite Et, type_middle. destruct (Z.ltb_spec bufsize (e_length (r_head r))); [done|].
    change (ELEMENT_MIDDLE =? ELEMENT_SMALL) with false. change (ELEMENT_MIDDLE =? ELEMENT_MIDDLE) with true.
    cbn match. destruct (middle_slots s p pg r1 r r2 U Ok Et) as (pre & mid & suf & P & Hpre & Hmid & Hw & Hml & Hc).
    pose proof (zlen_nonneg (slots r1)). pose proof (zlen_nonneg mid).
    pose proof (data_entries_bounds (e_length (r_head r)) ltac:(lia)) as Hde.
    assert (r_value r = take (Z.to_nat (e_length (r_head r))) (concat mid.*2)) as Ev.
    { unfold r_value. by rewrite Et, Hmid. }
    assert (read_data data_fuel p (u8 (zlen (slots r1) + 1))
              (u8 (zlen (slots r1) + data_entries (e_length (r_head r)))) (e_length (r_head r)) 0 b s =
            (s, inr (NVDS_OK, splice 0 (r_value r) b))) as Erd.
    { rewrite !wrap8_small by lia. rewrite <- Hpre.
      replace (zlen (slots r1) + data_entries (e_length (r_head r))) with (zlen pre + zlen mid - 1) by lia.
      rewrite (read_data_ok mid s p pg pre suf) by (try done; try apply R; unfold data_fuel, zlen in *; lia).
      by rewrite Ev. }
    mstep_with Erd. cbn [negb bool_decide decide]. rewrite bool_decide_eq_true_2 by done. cbn [negb].
    unfold element_data_crc32_calc at 1. rewrite slice_splice_value by lia.
    rewrite (ro_data _ Ok Hl Et). unfold element_data_crc32_calc.
    assert (slice 0 (e_length (r_head r)) (r_value r) = r_value r) as -> by (rewrite <- Hv; apply slice_all).
    by rewrite Z.eqb_refl.
Qed.

(** Whether the stored value is the new one. *)
Lemma element_compare_ok s log k buf bufsize :
  store_rep s log -> Forall plain (lookup_key k log) -> 0 <= bufsize <= zlen buf ->
  element_compare k.1 k.2 buf bufsize s =
    (s, inr (match head (lookup_key k log) with
             | None => false
             | Some r => bool_decide (r_value r = slice 0 bufsize buf)
             end)).
Proof.
  intros R Hp Hb. unfold element_compare, attempt, code. unfold bnd at 1 2.
  rewrite (data_element_get_ok s log k None 0 R Hp I).
  destruct (data_element_find_spec s log k R) as
    [[Hn E]|(p & l1 & r1 & r & r2 & l2 & El & E & Hl & Hk & Hf)]; unfold data_element_find in E.
  { by rewrite Hn. }
  destruct (found_read _ _ _ _ _ _ _ _ R El) as (pg & U & Ok & Er).
  rewrite El, (lookup_found k l1 p r1 r r2 l2 Hl Hk Hf) in *. apply Forall_cons in Hp as [Hp _].
  cbn [head get_spec]. unfold ret at 1.
  pose proof (plain_value r Ok Hl Hp (found_head_len _ _ _ _ _ _ U)) as Hv. rewrite Hv.
  destruct (Z.eqb_spec (e_length (r_head r)) bufsize) as [Eb|Hne]; cbn [negb].
  2:{ unfold ret. do 2 f_equal. symmetry. apply bool_decide_eq_false_2. intros Ea. apply Hne.
      rewrite <- Hv, Ea. apply zlen_slice; lia. }
  unfold bnd at 1 2. rewrite E. unfold ret at 1. unfold bnd at 1 2. rewrite Er. unfold ret at 1.
  fold (e_type (r_head r)). destruct Hp as [Et|Et]; rewrite Et.
  - change (ELEMENT_SMALL =? ELEMENT_SMALL) with true. cbn match. rewrite Eb, Z.eqb_refl. cbn [negb].
    pose proof (ro_small _ Ok Hl Et). destruct (Z.ltb_spec 8 bufsize); [lia|].
    destruct (Z.ltb_spec (zlen buf) bufsize); [lia|]. cbn [orb]. unfold ret. do 2 f_equal.
    apply bool_decide_ext. unfold r_value. rewrite Et, Eb. by split.
  - change (ELEMENT_MIDDLE =? ELEMENT_SMALL) with false. change (ELEMENT_MIDDLE =? ELEMENT_MIDDLE) with true.
    cbn match. rewrite Eb, Z.eqb_refl. cbn [negb].
    destruct (middle_slots s p pg r1 r r2 U Ok Et) as (pre & mid & suf & P & Hpre & Hmid & Hw & Hml & Hc).
    rewrite Eb in Hml.
    pose proof (zlen_nonneg (slots r1)). pose proof (zlen_nonneg mid).
    pose proof (data_entries_bounds bufsize ltac:(lia)) as Hde.
    rewrite !wrap8_small by lia. rewrite <- Hpre.
    replace (zlen (slots r1) + data_entries bufsize) with (zlen pre + zlen mid - 1) by lia.
    rewrite (compare_data_ok mid s p pg pre suf) by (try done; try apply R; unfold data_fuel, zlen in *; lia).
    do 2 f_equal. apply bool_decide_ext. unfold r_value. rewrite Et, Eb, Hmid. by split.
Qed.

End Store.
End NvdsStore.
