(* ===== verification/NvdsPut.v ===== *)
(** * NVDS: writing an element

    A page with room takes a new element as one more live record, whose key and value
    are those of the call. *)
From S2P Require Import Prelude Crc Flash NvdsTypes Nvds NvdsPage NvdsEntry NvdsStore.
Open Scope Z_scope.

Module NvdsPut.
Import NvdsTypes Nvds NvdsPage NvdsEntry NvdsStore.

(** ** The record of a new element *)

Definition new_tail (d : list Z) : list (list Z) :=
  if ELEMENT_SMALL_MAX_SIZE <? zlen d then chunk d <$> seqZ 0 (data_entries (zlen d)) else [].

Definition new_rec (ns : Z) (key buf : list Z) (bufsize : Z) : rec :=
  mk_rec true (element_entry ns key buf bufsize) (new_tail (slice 0 bufsize buf)).

Lemma chunk_slice d k :
  0 <= k -> 32 * k <= zlen d -> chunk d k = slice (32 * k) 32 (d ++ blank).
Proof.
  intros Hk Hd. unfold chunk, slice. change (Z.to_nat 32) with 32%nat. f_equal.
  rewrite drop_app_le; [done|]. unfold zlen in Hd. lia.
Qed.

Lemma concat_chunks_from d n : forall a,
  0 <= a -> 32 * (a + Z.of_nat n) <= zlen d + 32 ->
  concat (chunk d <$> seqZ a (Z.of_nat n)) = slice (32 * a) (32 * Z.of_nat n) (d ++ blank).
Proof.
  induction n as [|n IH]; intros a Ha Hn; [done|].
  rewrite seqZ_cons by lia. cbn [fmap list_fmap concat].
  replace (Z.pred (Z.of_nat (S n))) with (Z.of_nat n) by lia.
  rewrite IH, chunk_slice by lia. replace (32 * Z.succ a) with (32 * a + 32) by lia.
  rewrite <- slice_app_split by lia. f_equal. lia.
Qed.

(** The data entries hold the data. *)
Lemma concat_chunks d :
  take (Z.to_nat (zlen d)) (concat (chunk d <$> seqZ 0 (data_entries (zlen d)))) = d.
Proof.
  pose proof (data_entries_bounds (zlen d) (zlen_nonneg d)) as [H1 H2].
  rewrite <- (Z2Nat.id (data_entries (zlen d))) by lia. rewrite concat_chunks_from by lia.
  rewrite Z2Nat.id by lia. change (32 * 0) with 0. pose proof (zlen_nonneg d).
  rewrite take_slice, slice_slice by lia. unfold slice. cbn [Z.to_nat drop Z.add].
  apply take_app_length'. unfold zlen. lia.
Qed.

Lemma chunks_snd d : (chunks d).*2 = chunk d <$> seqZ 0 (data_entries (zlen d)).
Proof. unfold chunks. by rewrite <- list_fmap_compose. Qed.

(** The arguments [nvds_data_put] passes for a small or middle element. *)
Record elem_ok (ns : Z) (key buf : list Z) (bufsize : Z) : Prop := {
  el_ns : 0 <= ns < 256;
  el_key : is_str key;
  el_klen : zlen key <= 15;
  el_buf : bytes buf;
  el_size : 0 < bufsize <= zlen buf;
  el_max : bufsize <= ELEMENT_MIDDLE_MAX_SIZE
}.

Section Record_.
Variables (ns : Z) (key buf : list Z) (bufsize : Z).
Hypothesis El : elem_ok ns key buf bufsize.

Let Hns := el_ns _ _ _ _ El.
Let Hkey := el_key _ _ _ _ El.
Let Hkl := el_klen _ _ _ _ El.
Let Hbuf := el_buf _ _ _ _ El.
Let Hsz := el_size _ _ _ _ El.
Let Hmax := el_max _ _ _ _ El.

Let r := new_rec ns key buf bufsize.
Let d := slice 0 bufsize buf.
Let type := if ELEMENT_SMALL_MAX_SIZE <? bufsize then ELEMENT_MIDDLE else ELEMENT_SMALL.
Let fill := if type =? ELEMENT_SMALL then set_value (slice 0 bufsize buf)
            else set_word28 (element_data_crc32_calc buf bufsize).

Lemma new_data_len : zlen d = bufsize.
Proof. apply zlen_slice; lia. Qed.

Lemma new_type_range : 0 <= type < 8.
Proof. unfold type. destruct (_ <? _); done. Qed.

Lemma new_fill_ok : fill_ok fill.
Proof.
  unfold fill, type, ELEMENT_SMALL_MAX_SIZE. destruct (Z.ltb_spec 8 bufsize); cbn match.
  - apply fill_word28.
  - apply fill_value; [fold d; rewrite new_data_len; lia|by apply bytes_slice].
Qed.

Lemma new_head : r_head r = mk_header_entry ns type TAG_FRAG_NO_DEFAULT bufsize key fill.
Proof. done. Qed.

Lemma new_len_range : 0 <= bufsize < 2 ^ 16.
Proof. unfold ELEMENT_MIDDLE_MAX_SIZE in Hmax. lia. Qed.

Lemma new_head_ok : zlen (r_head r) = 32 /\ bytes (r_head r).
Proof.
  pose proof new_fill_ok. rewrite new_head. split; [by apply header_lens|by apply bytes_header].
Qed.

Lemma new_type_eq : e_type (r_head r) = type /\ e_ns (r_head r) = ns.
Proof.
  unfold e_type, e_ns. rewrite new_head, header_tag by (try apply new_fill_ok; done).
  pose proof new_type_range. destruct (tag_fields ns type TAG_FRAG_NO_DEFAULT) as (? & ? & _); done || auto.
Qed.

Lemma new_length : e_length (r_head r) = bufsize.
Proof. rewrite new_head. apply header_length; try done; try apply new_fill_ok. apply new_len_range. Qed.

Lemma new_key : key_str (r_head r) = Some key.
Proof. rewrite new_head. apply header_key; try done; apply new_fill_ok. Qed.

Lemma new_key_of : key_of r = (ns, key).
Proof. unfold key_of. by rewrite (proj2 new_type_eq), new_key. Qed.

Lemma new_value : r_value r = d.
Proof.
  unfold r_value. rewrite new_length, (proj1 new_type_eq). unfold type.
  unfold ELEMENT_SMALL_MAX_SIZE. destruct (Z.ltb_spec 8 bufsize).
  - change (ELEMENT_MIDDLE =? ELEMENT_SMALL) with false. cbn match.
    cbn [r new_rec r_tail]. unfold new_tail. fold d. rewrite new_data_len. unfold ELEMENT_SMALL_MAX_SIZE.
    destruct (Z.ltb_spec 8 bufsize); [|lia]. pose proof (concat_chunks d) as Hc.
    by rewrite new_data_len in Hc.
  - change (ELEMENT_SMALL =? ELEMENT_SMALL) with true. cbn match. rewrite new_head.
    pose proof new_data_len as Hd. rewrite <- Hd at 1. fold d.
    apply header_fill_value; try done; try apply new_fill_ok; [|lia].
    unfold fill, type, ELEMENT_SMALL_MAX_SIZE. destruct (Z.ltb_spec 8 bufsize); [lia|done].
Qed.

Lemma new_plain : plain r.
Proof.
  unfold plain. rewrite (proj1 new_type_eq). unfold type. destruct (_ <? _); auto.
Qed.

Lemma new_tail_len : zlen (r_tail r) = if ELEMENT_SMALL_MAX_SIZE <? bufsize then data_entries bufsize else 0.
Proof.
  cbn [r new_rec r_tail]. unfold new_tail. fold d. rewrite new_data_len.
  destruct (_ <? _); [|done]. rewrite zlen_fmap. unfold zlen. rewrite length_seqZ.
  pose proof (data_entries_bounds bufsize). lia.
Qed.

Lemma new_rec_ok : rec_ok r.
Proof.
  constructor.
  - rewrite new_tail_len, (proj1 new_type_eq), new_length. unfold type. by destruct (_ <? _).
  - cbn [r new_rec r_tail]. unfold new_tail. destruct (ELEMENT_SMALL_MAX_SIZE <? zlen _); [|constructor].
    apply Forall_fmap, Forall_forall. intros k _. apply zlen_chunk.
  - rewrite new_length. apply new_len_range.
  - intros _. by rewrite new_key.
  - intros _. rewrite new_head. apply header_crc; try done; apply new_fill_ok.
  - intros _. rewrite (proj1 new_type_eq), new_length. unfold type, ELEMENT_SMALL_MAX_SIZE.
    destruct (Z.ltb_spec 8 bufsize); [done|lia].
  - intros _. rewrite (proj1 new_type_eq), new_value, new_length. unfold type. intros Ht.
    rewrite new_head, (header_fill_word28 ns type TAG_FRAG_NO_DEFAULT bufsize key fill)
      with (n := element_data_crc32_calc buf bufsize); try done; try apply new_fill_ok.
    + unfold element_data_crc32_calc, d. f_equal. rewrite slice_slice by lia. f_equal. 
    + unfold fill, type. destruct (_ <? _); done.
    + apply Crc.crc32_range; [by apply bytes_slice|lia].
  - intros _. rewrite (proj1 new_type_eq), new_length. unfold type, ELEMENT_SMALL_MAX_SIZE.
    destruct (Z.ltb_spec 8 bufsize); done.
Qed.

End Record_.

Definition rec_room (bufsize : Z) : Z :=
  1 + if ELEMENT_SMALL_MAX_SIZE <? bufsize then data_entries bufsize else 0.

Lemma new_rec_len ns key buf bufsize :
  elem_ok ns key buf bufsize -> rec_len (new_rec ns key buf bufsize) = rec_room bufsize.
Proof. intros El. unfold rec_len, rec_room. by rewrite (new_tail_len _ _ _ _ El). Qed.

Lemma rec_room_bounds bufsize : 0 < bufsize <= ELEMENT_MIDDLE_MAX_SIZE -> 1 <= rec_room bufsize <= 9.
Proof.
  unfold rec_room, ELEMENT_MIDDLE_MAX_SIZE. intros. pose proof (data_entries_bounds bufsize).
  destruct (_ <? _); lia.
Qed.

(** The test of the code, on a page whose next free index is [n]. *)
Lemma no_room_eq pg bufsize :
  0 <= next_free_idx pg <= 126 -> 0 < bufsize <= ELEMENT_MIDDLE_MAX_SIZE ->
  no_room pg bufsize = (126 <? next_free_idx pg + rec_room bufsize).
Proof.
  intros Hn Hb. unfold no_room, rec_room, page_room_get, ENTRY_COUNT_PER_PAGE, ENTRY_SIZE, ELEMENT_SMALL_MAX_SIZE, ELEMENT_MIDDLE_MAX_SIZE in *.
  pose proof (data_entries_bounds bufsize ltac:(lia)).
  assert (signed 32 ((126 - next_free_idx pg) * 32) = (126 - next_free_idx pg) * 32) as ->.
  { unfold signed. rewrite wrap32_small by lia. destruct (Z.ltb_spec ((126 - next_free_idx pg) * 32) (2 ^ (32 - 1))); lia. }
  rewrite !wrap32_small by lia.
  destruct (Z.leb_spec bufsize 8), (Z.ltb_spec 8 bufsize); try lia; cbn [andb orb]; rewrite ?orb_false_r.
  all: apply eq_true_iff_eq; rewrite !Z.ltb_lt; lia.
Qed.

Section Put.
Context {F : Type} {Fl : Flash F} {FL : FlashLaws F} {Ci : Cipher}.
Variable good : F -> Prop.
Hypothesis Hgood : reliable good.
Implicit Types (s : env F) (pg : page).

Lemma ev_trans {s1 s2 s3 p pg pg'} :
  evolves good s1 s2 p pg -> evolves good s2 s3 p pg' -> page_addr pg' = page_addr pg ->
  evolves good s1 s3 p pg'.
Proof. intros. by eapply evolves_trans. Qed.

(** A live record added at the end of a page. *)
Lemma used_page_snoc s s' p pg pg' recs r :
  used_page s p pg recs -> page_rep s' p pg' (slots recs ++ rec_slots r) -> rec_ok r -> r_live r = true ->
  header pg' = header pg -> next_free_idx pg' = next_free_idx pg + rec_len r ->
  entry_cnt_used pg' = u16 (entry_cnt_used pg + rec_len r) ->
  used_page s' p pg' (recs ++ [r]).
Proof.
  intros [P Ok Hd Lv Fr Ct] P' Hr Hl Eh En Ec.
  assert (slots (recs ++ [r]) = slots recs ++ rec_slots r) as Es.
  { rewrite slots_app, slots_cons. by rewrite app_nil_r. }
  pose proof (ir_cap _ _ _ _ (proj2 P')) as Hc. rewrite zlen_app, zlen_rec_slots in Hc.
  pose proof (live_cnt_bounds (slots recs)). pose proof (rec_len_pos r).
  constructor.
  - by rewrite Es.
  - apply Forall_app. auto.
  - by rewrite Eh.
  - unfold live_page in *. by rewrite Eh.
  - rewrite Es, zlen_app, zlen_rec_slots, En, Fr. done.
  - rewrite Es, live_cnt_app, live_cnt_rec, Hl, Ec, Ct. apply wrap16_small. lia.
Qed.

(** The slots of a record just written, before its states are set. *)
Definition free_slots (r : rec) : list (Z * list Z) :=
  (ENTRY_FREE, r_head r) :: ((fun b => (ENTRY_FREE, b)) <$> r_tail r).

Lemma commit_ok s p pg sl r :
  env_ok good s -> page_rep s p pg (sl ++ free_slots r) -> r_live r = true ->
  exists s' st', entry_state_range_alter p (zlen sl) (zlen sl + zlen (r_tail r)) ENTRY_USED s = (s', inr tt) /\
    evolves good s s' p (set_states st' pg) /\ page_rep s' p (set_states st' pg) (sl ++ rec_slots r).
Proof.
  intros E P Hl. pose proof (zlen_nonneg sl). pose proof (zlen_nonneg (r_tail r)).
  assert (zlen (free_slots r) = zlen (r_tail r) + 1) as Hz.
  { unfold free_slots. rewrite zlen_cons, zlen_fmap. lia. }
  destruct (entry_state_range_alter_ok good Hgood s p pg _ (zlen sl) (zlen sl + zlen (r_tail r)) ENTRY_USED E P)
    as (s1 & st & E1 & V1 & P1); [lia|rewrite zlen_app; lia|by right; left| |].
  { intros k Hk. rewrite slot_state_app by lia. destruct (Z.ltb_spec k (zlen sl)); [lia|].
    assert (slot_state (free_slots r) (k - zlen sl) = ENTRY_FREE) as ->; [|done].
    unfold slot_state, free_slots. destruct (Z.to_nat (k - zlen sl)) as [|m]; [done|]. simpl.
    rewrite list_lookup_fmap. by destruct (r_tail r !! m). }
  exists s1, st. split; [done|]. split; [done|].
  replace (Z.to_nat (zlen sl + zlen (r_tail r) - zlen sl + 1)) with (length (free_slots r)) in P1
    by (unfold zlen in *; lia).
  pose proof (alter_range_mid (free_slots r) sl [] ENTRY_USED) as A. rewrite !app_nil_r in A.
  rewrite A in P1. replace (rec_slots r) with ((fun x : Z * list Z => (ENTRY_USED, x.2)) <$> free_slots r); [done|].
  unfold free_slots, rec_slots, r_state. rewrite Hl. cbn. f_equal. by rewrite <- list_fmap_compose.
Qed.

Lemma put_element_ok s p pg recs ns key buf bufsize :
  env_ok good s -> used_page s p pg recs -> elem_ok ns key buf bufsize ->
  zlen (slots recs) + rec_room bufsize <= 126 ->
  exists s' pg', put_element ns key buf bufsize p s = (s', inr tt) /\
    evolves good s s' p pg' /\ page_addr pg' = page_addr pg /\
    used_page s' p pg' (recs ++ [new_rec ns key buf bufsize]).
Proof.
  intros E U El Hroom. set (r := new_rec ns key buf bufsize).
  destruct U as [P Ok Hd Lv Fr Ct] eqn:EU. clear EU. pose proof P as [[L S] R].
  pose proof (new_rec_len _ _ _ _ El) as Hlen. fold r in Hlen. pose proof (rec_len_pos r).
  pose proof El as [H1 H2 H3 H4 H5 H6]. pose proof (rec_room_bounds bufsize ltac:(lia)).
  pose proof (zlen_nonneg (slots recs)). pose proof (live_cnt_bounds (slots recs)).
  destruct (new_head_ok _ _ _ _ El) as [Hw Hb]. fold r in Hw, Hb.
  pose proof (new_rec_ok _ _ _ _ El) as Hr. fold r in Hr.
  unfold put_element. mstep_with (page_get_ok _ _ _ L). rewrite Fr.
  destruct (entry_write_ok good Hgood s p pg _ (r_head r) E P Fr) as (s1 & E1 & V1 & P1); [lia|done|done|].
  mstep_with E1. pose proof (evolves_env _ _ _ _ _ E V1) as Ev1.
  unfold ELEMENT_SMALL_MAX_SIZE. destruct (Z.ltb_spec 8 bufsize) as [Hm|Hm].
  - mstep_with (page_get_ok _ _ _ (proj1 (proj1 P1))).
    set (pg1 := set_counts _ _ pg) in *.
    destruct (entry_data_write_ok good Hgood s1 p pg1 _ bufsize buf Ev1 P1 H4 H5) as (s2 & E2 & V2 & P2).
    { rewrite zlen_app, zlen_singleton. unfold rec_room, ELEMENT_SMALL_MAX_SIZE in *.
      destruct (Z.ltb_spec 8 bufsize); lia. }
    replace (next_free_idx pg1) with (zlen (slots recs ++ [(ENTRY_FREE, r_head r)])) by (by rewrite zlen_app).
    mstep_with E2. mstep_with (page_get_ok _ _ _ (proj1 (proj1 P2))).
    pose proof (evolves_env _ _ _ _ _ Ev1 V2) as Ev2.
    destruct (page_rep_set_counts good s2 p pg1 _ (u16 (entry_cnt_used pg1 + data_entries bufsize))
                (u32 (zlen (slots recs) + 1 + data_entries bufsize)) Ev2 P2) as (s3 & E3 & V3 & P3).
    change (next_free_idx pg1) with (zlen (slots recs) + 1). mstep_with E3.
    pose proof (evolves_env _ _ _ _ _ Ev2 V3) as Ev3.
    assert ((slots recs ++ [(ENTRY_FREE, r_head r)]) ++ chunks (slice 0 bufsize buf) =
            slots recs ++ free_slots r) as Es.
    { rewrite <- app_assoc. f_equal. unfold free_slots. cbn [app]. f_equal. cbn [r new_rec r_tail]. unfold new_tail.
      rewrite (new_data_len _ _ _ _ El). unfold ELEMENT_SMALL_MAX_SIZE. destruct (Z.ltb_spec 8 bufsize); [|lia].
      unfold chunks. rewrite (new_data_len _ _ _ _ El), <- list_fmap_compose. done. }
    rewrite Es in P3. destruct (commit_ok s3 p _ (slots recs) r Ev3 P3 eq_refl) as (s4 & st & E4 & V4 & P4).
    pose proof (new_tail_len _ _ _ _ El) as Ht. fold r in Ht. unfold ELEMENT_SMALL_MAX_SIZE in Ht.
    destruct (Z.ltb_spec 8 bufsize); [|lia]. rewrite Ht in E4. rewrite E4.
    eexists s4, _. split; [done|]. split; [refine (ev_trans V1 (ev_trans V2 (ev_trans V3 V4 _) _) _); done|]. split; [done|].
    unfold rec_len in Hlen.
    apply (used_page_snoc s s4 p pg _ recs r); try done; cbn; rewrite ?Fr.
    + rewrite wrap32_small by lia. unfold rec_len. lia.
    + rewrite Ct, wrap_add_idemp_l by lia. unfold rec_len. f_equal. lia.
  - assert (r_tail r = []) as Et.
    { cbn [r new_rec r_tail]. unfold new_tail, ELEMENT_SMALL_MAX_SIZE. rewrite (new_data_len _ _ _ _ El).
      destruct (Z.ltb_spec 8 bufsize); [lia|done]. }
    assert ([(ENTRY_FREE, r_head r)] = free_slots r) as Es by (unfold free_slots; by rewrite Et).
    rewrite Es in P1. destruct (commit_ok s1 p _ (slots recs) r Ev1 P1 eq_refl) as (s2 & st & E2 & V2 & P2).
    rewrite Et, zlen_nil, Z.add_0_r in E2. rewrite E2.
    eexists s2, _. split; [done|]. split; [refine (ev_trans V1 V2 _); done|]. split; [done|].
    assert (rec_len r = 1) as Hr1 by (unfold rec_len; by rewrite Et).
    apply (used_page_snoc s s2 p pg _ recs r); try done; cbn; rewrite ?Hr1, ?Fr, ?Ct; done.
Qed.

End Put.
End NvdsPut.
