(* ===== verification/NvdsGc.v ===== *)
(** * NVDS: new pages

    [new_page] opens an erased page at the end of the used ones; when that takes the last
    free page, it also collects the used page with the fewest live entries, whose live
    records it copies to the new one. The live records of the store are kept. *)
From S2P Require Import Prelude Crc Flash NvdsTypes Nvds NvdsPage NvdsStore NvdsPut.
Open Scope Z_scope.

Module NvdsGc.
Import NvdsTypes Nvds NvdsPage NvdsStore NvdsPut.

Abbreviation erased := (replicate 4096 0xFF).
Abbreviation full_table := (replicate 8 0xFFFFFFFF).

Lemma zlen_fresh seq : zlen (fresh_header seq) = 32 /\ bytes (fresh_header seq).
Proof.
  unfold fresh_header, set_hcrc32, set_seqno, set_state, set_version, set_magic.
  split.
  - repeat (rewrite zlen_splice; rewrite ?zlen_le_enc; try lia); try done.
    all: repeat (rewrite zlen_splice; rewrite ?zlen_le_enc; try lia); done.
  - assert (bytes blank) by (apply Forall_replicate; lia). auto 10 using bytes_splice, bytes_le_enc.
Qed.

Lemma h_state_set_state c h : zlen h = 32 -> 0 <= c < 2 ^ 16 -> h_state (set_state c h) = c.
Proof.
  intros Hl Hc. unfold h_state, set_state. rewrite slice_splice_eq; [|lia|by rewrite zlen_le_enc|lia].
  rewrite le_dec_enc. by apply Z.mod_small.
Qed.

Lemma h_state_fresh seq : h_state (fresh_header seq) = PAGE_ACTIVE.
Proof.
  unfold h_state, fresh_header. set (h := set_seqno _ _).
  assert (zlen (set_state PAGE_ACTIVE (set_version NVDS_FLASH_VERSION (set_magic NVDS_FLASH_MAGIC blank))) = 32) as Hl by done.
  assert (zlen h = 32) as Hh by (unfold h, set_seqno; rewrite zlen_splice; rewrite ?zlen_le_enc; lia).
  unfold set_hcrc32. rewrite slice_splice_other by (rewrite ?zlen_le_enc; lia).
  unfold h, set_seqno. rewrite slice_splice_other by (rewrite ?zlen_le_enc; lia). done.
Qed.

(** The mount accepts a fresh header, and looks at nothing that a change of state moves. *)
Lemma header_ok_state c h : zlen h = 32 -> header_ok h -> header_ok (set_state c h).
Proof.
  intros Hl. unfold header_ok, h_magic, h_crc32, page_header_crc32_calc, set_state.
  rewrite !slice_splice_other by (rewrite ?zlen_le_enc; lia). done.
Qed.

Lemma fresh_header_ok seq : zlen (fresh_header seq) = 32 /\ header_ok (fresh_header seq).
Proof.
  split; [apply zlen_fresh|]. unfold fresh_header. set (h0 := set_state _ _). set (h := set_seqno seq h0).
  assert (zlen h0 = 32) as Hl0 by done.
  assert (zlen h = 32) as Hl by (unfold h, set_seqno; rewrite zlen_splice; rewrite ?zlen_le_enc; lia).
  assert (bytes h) as Hb.
  { assert (bytes blank) by (apply Forall_replicate; lia).
    unfold h, h0, set_seqno, set_state, set_version, set_magic. auto 10 using bytes_splice, bytes_le_enc. }
  unfold header_ok, h_magic, h_crc32, page_header_crc32_calc, set_hcrc32.
  set (c := Crc.crc32 (slice 8 20 h) _).
  rewrite (slice_splice_other 28 _ 0 4), (slice_splice_other 28 _ 0 6), (slice_splice_other 28 _ 8 20)
    by (rewrite ?zlen_le_enc; lia). split.
  - unfold h, set_seqno. rewrite slice_splice_other by (rewrite ?zlen_le_enc; lia). done.
  - rewrite slice_splice_eq; [|lia|by rewrite zlen_le_enc|lia]. rewrite le_dec_enc. apply Z.mod_small.
    apply Crc.crc32_range; [by apply bytes_slice|]. apply Crc.crc32_range; [by apply bytes_slice|lia].
Qed.

(** A page erased but for its header. *)
Lemma img_fresh hd :
  zlen hd = 32 -> img_rep full_table hd [] (splice 0 hd erased).
Proof.
  intros Hl. assert (zlen erased = 4096) as He by done.
  assert (forall o n, 32 <= o -> 0 <= n -> o + n <= 4096 ->
            slice o n (splice 0 hd erased) = replicate (Z.to_nat n) 0xFF) as Hs.
  { intros o n Ho Hn Hon. rewrite slice_splice_other by lia. unfold slice.
    rewrite drop_replicate, take_replicate. f_equal. lia. }
  constructor.
  - rewrite zlen_splice; lia.
  - split; [done|]. apply Forall_replicate. lia.
  - apply slice_splice_eq; lia.
  - rewrite Hs by lia. done.
  - intros k Hk. rewrite Hs by lia. unfold slot_bytes. by rewrite lookup_nil.
  - intros k Hk. unfold slot_state. rewrite lookup_nil.
    pose proof (seqZ_check (fun k => state_at full_table k =? ENTRY_FREE) 126 k) as C.
    apply Z.eqb_eq, C; [by vm_compute|done].
  - done.
Qed.

Lemma nor_erased_sector d :
  zlen d <= 4096 -> bytes d -> nor (slice 0 (zlen d) erased) d = d.
Proof.
  intros Hl Hd. unfold slice. change (Z.to_nat 0) with 0%nat. rewrite drop_0.
  rewrite take_replicate. replace (Z.to_nat (zlen d) `min` 4096)%nat with (Z.to_nat (zlen d)) by lia.
  by apply nor_erased.
Qed.

Lemma page_addr_set_header h pg : page_addr (set_header h pg) = page_addr pg.
Proof. done. Qed.

Section Gc.
Context {F : Type} {Fl : Flash F} {FL : FlashLaws F} {Ci : Cipher}.
Variable good : F -> Prop.
Hypothesis Hgood : reliable good.
Implicit Types (s : env F) (pg : page).

Lemma flash_erase_ok s a :
  env_ok good s -> sector s a ->
  exists f', nvds_flash_erase a SPI_FLASH_SEC_SIZE s = (set_flash f' s, inr tt) /\
    touch good (length_ s) a (flash s) f' erased.
Proof.
  intros E S. pose proof (eo_good _ _ E) as G.
  destruct (window_u32 good s a 0 4096 E S) as (E1 & E2 & E3 & E4 & H1 & H2 & E5); [lia..|].
  rewrite Z.add_0_r in *. unfold SPI_FLASH_SEC_SIZE.
  assert ((SECTOR | fl_lo + a)) as D by (apply Z.divide_add_r; [apply (eo_sector _ _ E)|apply S]).
  assert ((SECTOR | 4096)) as D4 by (exists 1; done).
  destruct (rel_erase _ Hgood (flash s) _ 4096 G H1 ltac:(lia) H2 D D4) as (f' & Ew & G'). exists f'.
  unfold nvds_flash_erase, bnd, get, put, fail, err, ret. rewrite E2, E3, E4, Ew.
  split; [done|]. split; [done|].
  assert (0 < 4096) as H4096 by lia.
  destruct (fl_erase_ok _ _ _ _ _ (rel_inv _ Hgood _ G) H1 H4096 H2 D D4 Ew) as (_ & Em & _).
  specialize (Em eq_refl). rewrite E5 in Em.
  destruct S as (Da & Ha & Hu). unfold SPI_FLASH_SEC_SIZE in Hu.
  pose proof (good_mem good Hgood _ G) as Hm. rewrite <- (eo_len _ _ E) in Hm.
  change (Z.to_nat 4096) with 4096%nat in Em. assert (zlen erased = 4096) as He by done.
  replace (splice a erased) with (@splice Z (a + 0) erased) in Em by (by rewrite Z.add_0_r).
  unfold img. rewrite Em. split.
  - rewrite slice_sector_splice by (rewrite ?He; done || lia). rewrite Z.eqb_refl.
    unfold splice. cbn [Z.to_nat take app]. rewrite drop_ge; [by rewrite app_nil_r|].
    pose proof (zlen_slice a SPI_FLASH_SEC_SIZE (fl_mem (flash s))) as Hz.
    unfold zlen, SPI_FLASH_SEC_SIZE in *. rewrite length_replicate. lia.
  - intros a' Da' La' Ua' Na. unfold SPI_FLASH_SEC_SIZE in Ua'.
    rewrite slice_sector_splice by (rewrite ?He; done || lia). destruct (Z.eqb_spec a' a); done.
Qed.

Lemma erase_if_ok s p pg :
  env_ok good s -> free_page s p pg ->
  exists s', (if negb (h_state (header pg) =? PAGE_UNINITIALIZED)
              then nvds_flash_erase (page_addr pg) SPI_FLASH_SEC_SIZE else ret tt) s = (s', inr tt) /\
    evolves good s s' p pg /\ img (flash s') (page_addr pg) = erased.
Proof.
  intros E [[L S] [_ Hi]]. destruct (Z.eqb_spec (h_state (header pg)) PAGE_UNINITIALIZED) as [Hu|_]; cbn [negb].
  - exists s. split; [done|]. split; [by apply evolves_refl|auto].
  - destruct (flash_erase_ok s (page_addr pg) E S) as (f' & Ee & T). rewrite Ee, (upd_flash s p pg) by done.
    eexists. split; [done|]. split; [by eapply evolves_touch|]. apply T.
Qed.

Lemma page_put_upd s p pg : page_put p pg s = (upd s (flash s) p pg, inr tt).
Proof. unfold page_put, modify, upd. by rewrite set_flash_id. Qed.

(** The page [p], erased, made the active one. *)
Lemma fresh_ok s p pg seq :
  env_ok good s -> page_at s p pg -> img (flash s) (page_addr pg) = erased ->
  exists s' pg',
    (forall B (k : K F B), (page_clear p ;;;
     let! pg := page_get p in
     page_put p (set_header (fresh_header seq) pg) ;;;
     nvds_flash_write (u32 (page_addr pg + PAGE_HEADER_OFFSET)) (fresh_header seq) ;;;
     page_state_alter p PAGE_ACTIVE ;;; k)%fw s = k s') /\
    evolves good s s' p pg' /\ page_addr pg' = page_addr pg /\ used_page s' p pg' [].
Proof.
  intros E [L S] Hi. set (pg0 := mk_page blank full_table (page_addr pg) 0 0).
  set (pg1 := set_header (fresh_header seq) pg0). set (s2 := upd s (flash s) p pg1).
  assert (env_ok good s2) as E2 by (apply upd_env_ok; [done|apply E]).
  destruct (zlen_fresh seq) as [Hl Hb].
  destruct (flash_write_ok good Hgood s2 (page_addr pg) 0 (fresh_header seq) E2 S) as (f3 & E3 & T3);
    [lia|lia|lia|done|].
  rewrite (upd_flash s2 p pg1) in E3 by apply lookup_insert_eq. unfold s2 in E3 at 2. rewrite upd_upd in E3.
  set (s3 := upd s f3 p pg1) in *. change (length_ s2) with (length_ s) in T3. change (flash s2) with (flash s) in T3.
  assert (evolves good s s3 p pg1) as V3 by by eapply (evolves_touch _ s f3 p pg1).
  assert (page_rep s3 p pg1 []) as P3.
  { split; [by eapply (upd_page_at s f3 p pg)|]. destruct T3 as (_ & T3 & _).
    change (flash s3) with f3. cbn [pg1 pg0 set_header page_addr header entry_states]. rewrite T3, Hi.
    rewrite nor_erased_sector by done. by apply img_fresh. }
  destruct (page_state_alter_ok good Hgood s3 p pg1 [] PAGE_ACTIVE (evolves_env _ _ _ _ _ E V3) P3)
    as (s4 & E4 & V4 & P4); [done| |].
  { cbn [pg1 pg0 set_header header]. by rewrite h_state_fresh. }
  exists s4, (set_header (set_state PAGE_ACTIVE (header pg1)) pg1). split; [|split; [|split]].
  - intros B k. unfold page_clear at 1. rewrite bnd_assoc. mstep_with (page_get_ok _ _ _ L). fold pg0.
    mstep_with (page_put_upd s p pg0). set (s1 := upd s (flash s) p pg0).
    assert (pages s1 !! p = Some pg0) as L1 by apply lookup_insert_eq. mstep_with (page_get_ok _ _ _ L1).
    fold pg1. mstep_with (page_put_upd s1 p pg1). unfold s1. rewrite upd_upd. cbn [flash upd set_pages set_flash].
    fold s2. change (page_addr pg0) with (page_addr pg). change PAGE_HEADER_OFFSET with 0.
    mstep_with E3. by mstep_with E4.
  - clearbody s3. exact (ev_trans good V3 V4 (page_addr_set_header _ _)).
  - exact (page_addr_set_header _ _).
  - constructor; [exact P4|constructor|by apply header_ok_state, fresh_header_ok| |reflexivity|reflexivity]. unfold live_page. cbn [set_header header pg1 pg0].
    by rewrite h_state_set_state.
Qed.

(** ** Copying the live entries of a page *)

Lemma page_rep_other s s' p pg q pgq sl :
  evolves good s s' p pg -> p <> q -> page_addr pgq <> page_addr pg ->
  page_rep s q pgq sl -> page_rep s' q pgq sl.
Proof.
  intros (Es & G & O) Hpq Ha [[L S] R]. split; [split|].
  - rewrite Es. cbn. by rewrite lookup_insert_ne.
  - rewrite Es. done.
  - rewrite O; [done|apply S..|done].
Qed.

Definition used_slots (sl : list (Z * list Z)) : list (Z * list Z) := filter (fun x => x.1 = ENTRY_USED) sl.

(** One used entry appended to a page. *)
Lemma copy_entry_ok s p pg sl e :
  env_ok good s -> page_rep s p pg sl -> next_free_idx pg = zlen sl -> zlen sl < 126 ->
  zlen e = 32 -> bytes e ->
  exists s' pg', (entry_write p e ;;; let! pg := page_get p in
                  entry_state_alter p (u8 (next_free_idx pg - 1)) ENTRY_USED)%fw s = (s', inr tt) /\
    evolves good s s' p pg' /\ page_addr pg' = page_addr pg /\ header pg' = header pg /\
    next_free_idx pg' = zlen sl + 1 /\ entry_cnt_used pg' = u16 (entry_cnt_used pg + 1) /\
    page_rep s' p pg' (sl ++ [(ENTRY_USED, e)]).
Proof.
  intros E P Hn Hc Hl Hb. pose proof (zlen_nonneg sl).
  destruct (entry_write_ok good Hgood s p pg sl e E P Hn Hc Hl Hb) as (s1 & E1 & V1 & P1).
  mstep_with E1. mstep_with (page_get_ok _ _ _ (proj1 (proj1 P1))).
  cbn [set_counts next_free_idx]. replace (u8 (zlen sl + 1 - 1)) with (zlen sl) by (rewrite wrap8_small; lia).
  destruct (entry_state_alter_ok good Hgood s1 p _ _ (zlen sl) ENTRY_USED (evolves_env _ _ _ _ _ E V1) P1)
    as (s2 & E2 & V2 & P2); [rewrite zlen_app, zlen_singleton; lia|by right; left| |].
  { by rewrite (proj2 (slot_head sl [] _)). }
  rewrite E2. eexists s2, _. split; [done|]. split; [by refine (ev_trans good V1 V2 _)|].
  do 4 (split; [done|]).
  pose proof (alter_range_mid [(ENTRY_FREE, e)] sl [] ENTRY_USED) as A. rewrite !app_nil_r in A.
  cbn [alter_range length] in A. by rewrite A in P2.
Qed.

Lemma used_slots_drop sl k x :
  sl !! k = Some x ->
  used_slots (drop k sl) = (if x.1 =? ENTRY_USED then [x] else []) ++ used_slots (drop (S k) sl).
Proof.
  intros Hx. rewrite (drop_S sl x k Hx). unfold used_slots. destruct (Z.eqb_spec (x.1) ENTRY_USED).
  - by rewrite filter_cons_True.
  - by rewrite filter_cons_False.
Qed.

Lemma copy_entries_ok n from to fpg sl : forall s k tpg tsl,
  env_ok good s -> page_rep s from fpg sl -> page_rep s to tpg tsl -> from <> to ->
  page_addr fpg <> page_addr tpg -> next_free_idx tpg = zlen tsl -> 0 <= entry_cnt_used tpg <= 126 ->
  0 <= k -> k + Z.of_nat n = 126 -> zlen tsl + zlen (used_slots (drop (Z.to_nat k) sl)) <= 126 ->
  entry_cnt_used tpg + zlen (used_slots (drop (Z.to_nat k) sl)) <= 126 ->
  exists s' tpg', copy_entries n from to k s = (s', inr tt) /\
    evolves good s s' to tpg' /\ page_addr tpg' = page_addr tpg /\ header tpg' = header tpg /\
    next_free_idx tpg' = zlen tsl + zlen (used_slots (drop (Z.to_nat k) sl)) /\
    entry_cnt_used tpg' = entry_cnt_used tpg + zlen (used_slots (drop (Z.to_nat k) sl)) /\
    page_rep s' to tpg' (tsl ++ used_slots (drop (Z.to_nat k) sl)).
Proof.
  induction n as [|n IH]; intros s k tpg tsl E Pf Pt Hne Ha Hn Hu Hk Hkn Hc Hcu; cbn [copy_entries].
  - pose proof (ir_cap _ _ _ _ (proj2 Pf)) as Hcap. unfold zlen in Hcap.
    rewrite drop_ge in * by lia. exists s, tpg. change (used_slots []) with (@nil (Z * list Z)).
    rewrite zlen_nil, !Z.add_0_r, app_nil_r. split; [done|]. split; [apply evolves_refl; [done|apply Pt]|]. done.
  - mstep_with (page_get_ok _ _ _ (proj1 (proj1 Pf))).
    rewrite entry_state_get_eq, (ir_states _ _ _ _ (proj2 Pf)) by lia.
    replace (Z.to_nat (k + 1)) with (S (Z.to_nat k)) in * by lia.
    destruct (sl !! Z.to_nat k) as [x|] eqn:Hx.
    2:{ apply lookup_ge_None in Hx. rewrite (proj2 (slot_end sl k ltac:(unfold zlen; lia))).
        change (negb (ENTRY_FREE =? ENTRY_USED)) with true. cbn match. rewrite bnd_ret.
        rewrite drop_ge in * by lia.
        destruct (IH s (k + 1) tpg tsl E Pf Pt Hne Ha Hn Hu) as (s' & tpg' & H); try lia.
        1,2: rewrite drop_ge by lia; done.
        rewrite drop_ge in H by lia. eauto. }
    rewrite (used_slots_drop sl _ x Hx) in *.
    assert (slot_state sl k = x.1) as -> by (unfold slot_state; by rewrite Hx).
    destruct (Z.eqb_spec (x.1) ENTRY_USED) as [Hst|Hst]; cbn [negb].
    2:{ rewrite bnd_ret. cbn [app] in *. replace (S (Z.to_nat k)) with (Z.to_nat (k + 1)) in * by lia.
        apply (IH s (k + 1)); try done; lia. }
    rewrite zlen_app, zlen_singleton in *. pose proof (zlen_nonneg (used_slots (drop (S (Z.to_nat k)) sl))).
    pose proof (zlen_nonneg tsl).
    rewrite bnd_assoc. mstep_with (entry_read_ok good Hgood s from fpg k E (proj1 Pf) ltac:(lia)).
    assert (slot_bytes sl k = x.2) as Eb by (unfold slot_bytes; by rewrite Hx).
    assert (zlen (slice (64 + 32 * k) 32 (img (flash s) (page_addr fpg))) = 32) as Hz.
    { apply zlen_slice; rewrite ?(ir_len _ _ _ _ (proj2 Pf)); lia. }
    pose proof (bytes_slice (64 + 32 * k) 32 _ (bytes_img good Hgood _ (page_addr fpg) (eo_good _ _ E))) as Hb.
    rewrite (ir_slots _ _ _ _ (proj2 Pf)), Eb in * by lia.
    destruct (copy_entry_ok s to tpg tsl x.2 E Pt Hn) as (s1 & tpg1 & E1 & V1 & Ea1 & Eh1 & Ef1 & Ec1 & P1);
      [lia|done|done|].
    mstep_with E1. rewrite wrap16_small in Ec1 by lia.
    destruct (IH s1 (k + 1) tpg1 (tsl ++ [(ENTRY_USED, x.2)])) as (s2 & tpg2 & E2 & V2 & Ea2 & Eh2 & Ef2 & Ec2 & P2);
      try done; replace (Z.to_nat (k + 1)) with (S (Z.to_nat k)) in * by lia;
      rewrite ?zlen_app, ?zlen_singleton, ?Ec1, ?Ea1, ?Ef1; try lia.
    { by eapply evolves_env. }
    { eapply page_rep_other; [exact V1|done|by rewrite Ea1|done]. }
    exists s2, tpg2. split; [done|]. split; [refine (ev_trans good V1 V2 _); congruence|].
    rewrite zlen_app, zlen_singleton in *. rewrite Ea2, Eh2, Ef2, Ec2.
    repeat (split; [done || lia|]).
    rewrite app_assoc. destruct x as [st b]. cbn in Hst. subst st. done.
Qed.

(** ** Steps that change some pages *)

(** From [s] to [s'] only the pages [ps] and the lists of pages have changed. *)
Record frame s s' (ps : list Z) : Prop := {
  fr_len : length_ s' = length_ s;
  fr_ns : ns_list s' = ns_list s /\ nss s' = nss s;
  fr_addr p : page_addr <$> pages s' !! p = page_addr <$> pages s !! p;
  fr_same q pg : q ∉ ps -> pages s !! q = Some pg -> sector s (page_addr pg) ->
    (forall p, p ∈ ps -> page_addr <$> pages s !! p <> Some (page_addr pg)) ->
    pages s' !! q = Some pg /\ img (flash s') (page_addr pg) = img (flash s) (page_addr pg)
}.

Lemma frame_evolves s s' p pg pg' :
  evolves good s s' p pg' -> pages s !! p = Some pg -> page_addr pg' = page_addr pg -> frame s s' [p].
Proof.
  intros (Es & G & O) L Ea. constructor; try (rewrite Es; done).
  - intros q. rewrite Es. cbn. destruct (decide (p = q)) as [<-|Hne].
    + rewrite lookup_insert_eq, L. cbn. congruence.
    + by rewrite lookup_insert_ne.
  - intros q pgq Hq Lq S Ha. specialize (Ha p ltac:(by left)). rewrite L in Ha.
    split; [rewrite Es; cbn; rewrite lookup_insert_ne; [done|]|].
    { intros ->. apply Hq. by left. }
    apply O; try apply S. intros E. apply Ha. cbn. congruence.
Qed.

Lemma frame_lists s fr us : frame s (set_lists fr us s) [].
Proof. by constructor. Qed.

Lemma frame_trans s1 s2 s3 ps qs : frame s1 s2 ps -> frame s2 s3 qs -> frame s1 s3 (ps ++ qs).
Proof.
  intros [L1 [N1 N1'] A1 S1] [L2 [N2 N2'] A2 S2]. constructor.
  - congruence.
  - split; congruence.
  - intros p. by rewrite A2, A1.
  - intros q pg Hq Lq Sq Ha. apply not_elem_of_app in Hq as [Hq1 Hq2].
    destruct (S1 q pg Hq1 Lq Sq) as [Lq2 I1]; [intros p Hp; apply Ha, elem_of_app; auto|].
    destruct (S2 q pg Hq2 Lq2) as [Lq3 I2]; [unfold sector in *; by rewrite L1| |].
    + intros p Hp. rewrite A1. apply Ha, elem_of_app. auto.
    + split; [done|congruence].
Qed.

Lemma other_addr s log (ps : list Z) q pg :
  store_rep good s log -> (forall p, p ∈ ps -> p ∈ all_pages s) -> q ∈ all_pages s -> q ∉ ps ->
  pages s !! q = Some pg -> forall p, p ∈ ps -> page_addr <$> pages s !! p <> Some (page_addr pg).
Proof.
  intros R Hps Hq Hn L p Hp E. apply fmap_Some in E as (pgp & Lp & Ea).
  assert (q = p) as -> by by eapply (sr_addr _ _ _ R); eauto. done.
Qed.

Lemma used_page_frame s s' log ps q pg recs :
  store_rep good s log -> frame s s' ps -> (forall p, p ∈ ps -> p ∈ all_pages s) ->
  q ∈ all_pages s -> q ∉ ps -> used_page s q pg recs -> used_page s' q pg recs.
Proof.
  intros R Fr Hps Hq Hn [[[L S] I] ? ? ? ? ?].
  destruct (fr_same _ _ _ Fr q pg Hn L S (other_addr _ _ _ _ _ R Hps Hq Hn L)) as [L' I'].
  constructor; try done. split; [split; [done|unfold sector in *; by rewrite (fr_len _ _ _ Fr)]|by rewrite I'].
Qed.

Lemma free_page_frame s s' log ps q pg :
  store_rep good s log -> frame s s' ps -> (forall p, p ∈ ps -> p ∈ all_pages s) ->
  q ∈ all_pages s -> q ∉ ps -> free_page s q pg -> free_page s' q pg.
Proof.
  intros R Fr Hps Hq Hn [[L S] I].
  destruct (fr_same _ _ _ Fr q pg Hn L S (other_addr _ _ _ _ _ R Hps Hq Hn L)) as [L' I'].
  split; [split; [done|unfold sector in *; by rewrite (fr_len _ _ _ Fr)]|by rewrite I'].
Qed.

(** A store is rebuilt from the pages that changed; the others are as they were. *)
Lemma store_frame s s' log log' ps :
  store_rep good s log -> frame s s' ps -> env_ok good s' ->
  all_pages s' ≡ₚ all_pages s -> (forall p, p ∈ ps -> p ∈ all_pages s) ->
  nvds_page_used s' = log'.*1 ->
  (forall p recs, (p, recs) ∈ log' -> p ∈ ps -> exists pg, used_page s' p pg recs) ->
  (forall p recs, (p, recs) ∈ log' -> p ∉ ps -> (p, recs) ∈ log) ->
  (forall p, p ∈ nvds_page_free s' -> p ∈ ps -> exists pg, free_page s' p pg) ->
  (forall p, p ∈ nvds_page_free s' -> p ∉ ps -> p ∈ nvds_page_free s) ->
  store_rep good s' log'.
Proof.
  intros R Fr E Hall Hps Hus Hu1 Hu2 Hf1 Hf2. constructor; try done.
  - rewrite Hall. apply R.
  - intros p recs Hp. destruct (decide (p ∈ ps)) as [Hin|Hout]; [by apply Hu1|].
    destruct (sr_pages _ _ _ R p recs (Hu2 _ _ Hp Hout)) as [pg U]. exists pg.
    eapply used_page_frame; try done. rewrite <- Hall. unfold all_pages. rewrite Hus, elem_of_app.
    right. by apply (list_elem_of_fmap_2 fst) in Hp.
  - intros p Hp. destruct (decide (p ∈ ps)) as [Hin|Hout]; [by apply Hf1|].
    destruct (sr_free _ _ _ R p (Hf2 _ Hp Hout)) as [pg U]. exists pg.
    eapply free_page_frame; try done. rewrite <- Hall. unfold all_pages. rewrite elem_of_app. by left.
  - intros p q pg pg' Hp Hq Lp Lq Ea. rewrite Hall in Hp, Hq.
    pose proof (fr_addr _ _ _ Fr p) as Ap. pose proof (fr_addr _ _ _ Fr q) as Aq. rewrite Lp in Ap. rewrite Lq in Aq.
    symmetry in Ap, Aq. apply fmap_Some in Ap as (pg1 & Lp1 & Ap), Aq as (pg2 & Lq1 & Aq).
    eapply (sr_addr _ _ _ R p q pg1 pg2); try done. congruence.
  - intros a Sa. unfold sector in Sa. rewrite (fr_len _ _ _ Fr) in Sa.
    destruct (sr_cover _ _ _ R a Sa) as (p & pg & Hp & Lp & <-).
    pose proof (fr_addr _ _ _ Fr p) as Ap. rewrite Lp in Ap. apply fmap_Some in Ap as (pg' & Lp' & Ap).
    exists p, pg'. by rewrite Hall.
  - destruct (fr_ns _ _ _ Fr) as [-> ->]. apply R.
Qed.

(** ** The page to collect *)

Definition count s p : Z := match pages s !! p with Some pg => entry_cnt_used pg | None => 0 end.

Lemma select_ok s : forall l min er,
  (forall p, p ∈ l -> is_Some (pages s !! p)) ->
  exists r, select_erase_page l min er s = (s, inr r) /\
    ((r = er /\ forall p, p ∈ l -> min <= count s p) \/
     (exists p, r = Some p /\ p ∈ l /\ count s p < min /\ forall q, q ∈ l -> count s p <= count s q)).
Proof.
  induction l as [|p l IH]; intros min er Hl; cbn [select_erase_page].
  { exists er. split; [done|]. left. split; [done|]. intros p Hp. by apply not_elem_of_nil in Hp. }
  destruct (Hl p) as [pg L]; [by left|]. mstep_with (page_get_ok _ _ _ L).
  assert (count s p = entry_cnt_used pg) as Ec by (unfold count; by rewrite L).
  assert (forall q, q ∈ l -> is_Some (pages s !! q)) as Hl' by (intros; apply Hl; by right).
  destruct (Z.ltb_spec (entry_cnt_used pg) min).
  - destruct (IH (entry_cnt_used pg) (Some p) Hl') as (r & E & [[-> Hr]|(q & -> & Hq & Hlt & Hr)]);
      eexists; (split; [exact E|]); right.
    + exists p. split; [done|]. split; [by left|]. rewrite Ec. split; [done|].
      intros q Hq. apply elem_of_cons in Hq as [->|Hq]; [lia|auto].
    + exists q. split; [done|]. split; [by right|]. split; [lia|].
      intros q' Hq'. apply elem_of_cons in Hq' as [->|Hq']; [lia|auto].
  - destruct (IH min er Hl') as (r & E & [[-> Hr]|(q & -> & Hq & Hlt & Hr)]);
      eexists; (split; [exact E|]); [left|right].
    + split; [done|]. intros q Hq. apply elem_of_cons in Hq as [->|Hq]; [lia|auto].
    + exists q. split; [done|]. split; [by right|]. split; [lia|].
      intros q' Hq'. apply elem_of_cons in Hq' as [->|Hq']; [lia|auto].
Qed.

(** ** Opening a page *)

Lemma open_ok s log p pg seq :
  store_rep good s log -> p ∈ nvds_page_free s -> pages s !! p = Some pg ->
  exists s' pg',
    (forall B (k : K F B), ((if negb (h_state (header pg) =? PAGE_UNINITIALIZED)
      then nvds_flash_erase (page_addr pg) SPI_FLASH_SEC_SIZE else ret tt) ;;;
     page_clear p ;;;
     let! pg := page_get p in
     page_put p (set_header (fresh_header seq) pg) ;;;
     nvds_flash_write (u32 (page_addr pg + PAGE_HEADER_OFFSET)) (fresh_header seq) ;;;
     page_state_alter p PAGE_ACTIVE ;;; k)%fw s = k s') /\
    evolves good s s' p pg' /\ page_addr pg' = page_addr pg /\ used_page s' p pg' [].
Proof.
  intros R Hp L. destruct (sr_free _ _ _ R p Hp) as (pg0 & Fp).
  assert (pg0 = pg) as -> by (destruct Fp as [[L' _] _]; congruence).
  destruct (erase_if_ok s p pg (sr_env _ _ _ R) Fp) as (s1 & E1 & V1 & I1). 
  pose proof (evolves_env _ _ _ _ _ (sr_env _ _ _ R) V1) as Ev1.
  destruct (fresh_ok s1 p pg seq Ev1 (evolves_at _ _ _ _ _ _ V1 (proj1 Fp) eq_refl) I1)
    as (s2 & pg2 & E2 & V2 & Ea & U). exists s2, pg2. split; [intros B k; mstep_with E1; apply E2|].
  split; [by refine (ev_trans good V1 V2 _)|done].
Qed.

Lemma extract_notin p l : p ∉ l -> extract p l = l.
Proof.
  unfold extract. induction l as [|q l IH]; intros Hn; [done|]. apply not_elem_of_cons in Hn as [Hq Hn].
  rewrite filter_cons_True by congruence. by rewrite IH.
Qed.

Lemma extract_mid p l1 l2 : p ∉ l1 -> p ∉ l2 -> extract p (l1 ++ p :: l2) = l1 ++ l2.
Proof.
  intros H1 H2. pose proof (extract_notin p l1 H1) as E1. pose proof (extract_notin p l2 H2) as E2.
  unfold extract in *. rewrite filter_app, filter_cons_False, E1, E2 by (intros H; by apply H). done.
Qed.

Lemma extract_head p l : p ∉ l -> extract p (p :: l) = l.
Proof. intros H. apply (extract_mid p [] l); [apply not_elem_of_nil|done]. Qed.

Lemma used_page_lists s fr us p pg recs : used_page s p pg recs -> used_page (set_lists fr us s) p pg recs.
Proof. by intros []. Qed.

(** With another free page left, the store gains an empty page. *)
Lemma new_page_plain s log seq p free' :
  store_rep good s log -> nvds_page_free s = p :: free' -> free' <> [] ->
  exists s', new_page seq s = (s', inr p) /\ store_rep good s' (log ++ [(p, [])]) /\
    nvds_page_free s' = free'.
Proof.
  intros R Ef Hne. pose proof (sr_nodup _ _ _ R) as Nd. unfold all_pages in Nd. rewrite Ef in Nd.
  assert (p ∈ nvds_page_free s) as Hp by (rewrite Ef; by left).
  destruct (sr_free _ _ _ R p Hp) as (pg & Fp). pose proof (proj1 (proj1 Fp)) as L.
  unfold new_page. rewrite bnd_get, Ef. destruct free' as [|f2 free']; [done|]. rewrite bnd_ret.
  mstep_with (page_get_ok _ _ _ L).
  destruct (open_ok s log p pg seq R Hp L) as (s1 & pg1 & E1 & V1 & Ea & U1). rewrite E1. clear E1.
  pose proof (frame_evolves s s1 p pg pg1 V1 L Ea) as F1.
  destruct (evolves_lists _ _ _ _ _ V1) as [Ef1 Eu1]. mpure. cbn [nvds_page_free set_lists].
  apply NoDup_app in Nd as (Nd1 & Nd2 & Nd3). apply NoDup_cons in Nd1 as [Nd1 _].
  rewrite Ef1, Ef, extract_head by done. rewrite bool_decide_eq_false_2 by done. cbn [negb].
  eexists. split; [done|]. split; [|done].
  pose proof (frame_trans _ _ _ _ _ F1 (frame_lists s1 (f2 :: free') (nvds_page_used s1 ++ [p]))) as F2.
  eapply (store_frame s _ log _ [p] R F2).
  - pose proof (evolves_env _ _ _ _ _ (sr_env _ _ _ R) V1) as []. by constructor.
  - unfold all_pages. cbn [nvds_page_free nvds_page_used set_lists]. rewrite Ef, Eu1, app_assoc. symmetry. apply Permutation_cons_append.
  - intros q Hq. apply list_elem_of_singleton in Hq as ->. unfold all_pages. rewrite Ef. by left.
  - cbn [nvds_page_used set_lists]. by rewrite Eu1, (sr_used _ _ _ R), fmap_app.
  - intros q recs Hq Hqp. apply list_elem_of_singleton in Hqp as ->.
    apply elem_of_app in Hq as [Hq|Hq].
    + exfalso. apply (Nd2 p); [by left|]. rewrite (sr_used _ _ _ R). by apply (list_elem_of_fmap_2 fst) in Hq.
    + apply list_elem_of_singleton in Hq. simplify_eq. exists pg1. by apply used_page_lists.
  - intros q recs Hq Hqp. apply elem_of_app in Hq as [Hq|Hq]; [done|].
    apply list_elem_of_singleton in Hq. simplify_eq. exfalso. apply Hqp. by left.
  - intros q Hq Hqp. apply list_elem_of_singleton in Hqp as ->. done.
  - intros q Hq _. rewrite Ef. by right.
Qed.

(** ** Collecting a page *)

Definition live_recs (recs : list rec) : list rec := filter (fun r => r_live r = true) recs.

Lemma used_slots_rec r : used_slots (rec_slots r) = if r_live r then rec_slots r else [].
Proof.
  assert (forall (st : Z) (l : list (list Z)), used_slots ((fun b => (st, b)) <$> l) =
            if st =? ENTRY_USED then (fun b => (st, b)) <$> l else []) as A.
  { intros st l. unfold used_slots. induction l as [|b l IH]; [by destruct (st =? ENTRY_USED)|].
    cbn [fmap list_fmap]. destruct (Z.eqb_spec st ENTRY_USED) as [->|Hne].
    - rewrite filter_cons_True by done. f_equal. exact IH.
    - by rewrite filter_cons_False. }
  change (rec_slots r) with ((fun b => (r_state r, b)) <$> (r_head r :: r_tail r)).
  rewrite A. unfold r_state. by destruct (r_live r).
Qed.

Lemma used_slots_live recs : used_slots (slots recs) = slots (live_recs recs).
Proof.
  induction recs as [|r recs IH]; [done|]. rewrite slots_cons. unfold used_slots in *.
  rewrite filter_app, IH. pose proof (used_slots_rec r) as Hr. unfold used_slots in Hr. rewrite Hr.
  unfold live_recs. destruct (r_live r) eqn:E.
  - by rewrite filter_cons_True, slots_cons.
  - rewrite filter_cons_False by congruence. done.
Qed.

Lemma live_cnt_live recs : live_cnt (slots (live_recs recs)) = zlen (slots (live_recs recs)).
Proof.
  unfold live_cnt. rewrite <- used_slots_live. unfold used_slots. by rewrite list_filter_filter_l.
Qed.

Lemma clear_erased_ok s p pg :
  env_ok good s -> page_at s p pg ->
  exists s' pg', (let! pg := page_get p in nvds_flash_erase (page_addr pg) SPI_FLASH_SEC_SIZE ;;; page_clear p)%fw s
      = (s', inr tt) /\
    evolves good s s' p pg' /\ page_addr pg' = page_addr pg /\ free_page s' p pg'.
Proof.
  intros E [L S]. mstep_with (page_get_ok _ _ _ L).
  destruct (flash_erase_ok s (page_addr pg) E S) as (f' & Ee & T). mstep_with Ee.
  rewrite (upd_flash s p pg) by done. unfold page_clear.
  assert (pages (upd s f' p pg) !! p = Some pg) as L' by apply lookup_insert_eq.
  mstep_with (page_get_ok _ _ _ L'). rewrite page_put_upd, upd_upd. cbn [flash upd set_pages set_flash].
  set (pg' := mk_page _ _ _ _ _). exists (upd s f' p pg'), pg'. split; [done|].
  split; [by eapply (evolves_touch _ s f' p pg')|]. split; [done|]. split; [by eapply (upd_page_at s f' p pg)|].
  change (flash (upd s f' p pg')) with f'. cbn [pg' page_addr]. rewrite (proj1 (proj2 T)).
  split; [by left|done].
Qed.

Lemma candidate_cleared pg : live_page pg = true -> Z.land (h_state (header pg)) PAGE_CANDIDATE = PAGE_CANDIDATE.
Proof. unfold live_page. rewrite orb_true_iff, !Z.eqb_eq. intros [-> | ->]; done. Qed.

Lemma collect_ok s p pg ep epg recs :
  env_ok good s -> used_page s p pg [] -> used_page s ep epg recs -> ep <> p -> page_addr epg <> page_addr pg ->
  exists s' pg' epg',
    (page_state_alter ep PAGE_CANDIDATE ;;; copy_entries 126 ep p 0 ;;;
     let! epg := page_get ep in nvds_flash_erase (page_addr epg) SPI_FLASH_SEC_SIZE ;;;
     page_clear ep ;;; ret p)%fw s = (s', inr p) /\
    frame s s' [ep; p; ep] /\ env_ok good s' /\ used_page s' p pg' (live_recs recs) /\ free_page s' ep epg' /\
    nvds_page_free s' = nvds_page_free s /\ nvds_page_used s' = nvds_page_used s.
Proof.
  intros E Up Ue Hne Ha. pose proof (up_rep _ _ _ _ Ue) as Pe. pose proof (up_rep _ _ _ _ Up) as Pp.
  destruct (page_state_alter_ok good Hgood s ep epg _ PAGE_CANDIDATE E Pe) as (s1 & E1 & V1 & P1);
    [done|by apply candidate_cleared, Ue|]. set (epg1 := set_header _ epg) in *.
  pose proof (evolves_env _ _ _ _ _ E V1) as Ev1.
  assert (page_rep s1 p pg []) as Pp1 by by eapply page_rep_other; [exact V1|done|done|].
  pose proof (live_cnt_bounds (slots recs)) as Hlc. pose proof (ir_cap _ _ _ _ (proj2 Pe)) as Hcap.
  assert (zlen (used_slots (slots recs)) = live_cnt (slots recs)) as Hus by done.
  destruct (copy_entries_ok 126 ep p epg1 (slots recs) s1 0 pg [] Ev1 P1 Pp1 Hne Ha) as
    (s2 & pg2 & E2 & V2 & Ea2 & Eh2 & Ef2 & Ec2 & P2);
    rewrite ?drop_0, ?(up_cnt _ _ _ _ Up), ?(up_free _ _ _ _ Up), ?Hus; change (zlen (slots [])) with 0;
    change (live_cnt (slots [])) with 0; rewrite ?zlen_nil; try lia; try done.
  pose proof (evolves_env _ _ _ _ _ Ev1 V2) as Ev2.
  assert (page_rep s2 ep epg1 (slots recs)) as Pe2.
  { eapply page_rep_other; [exact V2|done|rewrite Ea2; done|done]. }
  destruct (clear_erased_ok s2 ep epg1 Ev2 (proj1 Pe2)) as (s3 & epg3 & E3 & V3 & Ea3 & F3).
  exists s3, pg2, epg3. split.
  { mstep_with E1. mstep_with E2. unfold bnd in E3 |- *. destruct (page_get ep s2) as [s2' [|epg2]]; [done|].
    destruct (nvds_flash_erase (page_addr epg2) SPI_FLASH_SEC_SIZE s2') as [s2'' [|]]; [done|]. rewrite E3. done. }
  split; [|split; [|split; [|split; [done|]]]].
  - change [ep; p; ep] with ([ep] ++ [p] ++ [ep]).
    apply (frame_trans _ s1); [apply (frame_evolves s s1 ep epg epg1 V1); [apply Pe|done]|].
    apply (frame_trans _ s2); [apply (frame_evolves s1 s2 p pg pg2 V2); [apply Pp1|done]|].
    apply (frame_evolves s2 s3 ep epg1 epg3 V3); [apply Pe2|done].
  - by eapply evolves_env.
  - rewrite drop_0 in P2, Ef2, Ec2. cbn [app] in P2. rewrite used_slots_live in P2, Ef2, Ec2.
    constructor.
    + eapply page_rep_other; [exact V3|done|rewrite Ea3, Ea2; by apply not_eq_sym|done].
    + apply Forall_forall. intros r Hr. apply list_elem_of_filter in Hr as [_ Hr].
      pose proof (up_ok _ _ _ _ Ue) as Ok. rewrite Forall_forall in Ok. by apply Ok.
    + rewrite Eh2. apply Up.
    + unfold live_page. rewrite Eh2. apply Up.
    + by rewrite Ef2, zlen_nil.
    + rewrite Ec2, (up_cnt _ _ _ _ Up), live_cnt_live. done.
  - destruct (evolves_lists _ _ _ _ _ V1), (evolves_lists _ _ _ _ _ V2), (evolves_lists _ _ _ _ _ V3).
    split; congruence.
Qed.

Lemma used_in s log p : store_rep good s log -> p ∈ nvds_page_used s -> exists l1 recs l2, log = l1 ++ (p, recs) :: l2.
Proof.
  intros R Hp. rewrite (sr_used _ _ _ R) in Hp. apply list_elem_of_fmap in Hp as ([q recs] & -> & Hp).
  apply list_elem_of_split in Hp as (l1 & l2 & ->). eauto.
Qed.

Lemma count_used s log p recs :
  store_rep good s log -> (p, recs) ∈ log -> count s p = live_cnt (slots recs).
Proof.
  intros R Hp. destruct (sr_pages _ _ _ R p recs Hp) as (pg & U). unfold count.
  rewrite (proj1 (proj1 (up_rep _ _ _ _ U))). apply U.
Qed.

(** The other pages of the log. *)
Lemma split_other s log l1 ep recs l2 p q recs' :
  store_rep good s log -> log = l1 ++ (ep, recs) :: l2 -> p ∉ nvds_page_used s -> (q, recs') ∈ l1 ++ l2 ->
  (q, recs') ∈ log /\ q <> ep /\ q <> p.
Proof.
  intros R El Hp Hq.
  assert ((q, recs') ∈ log) as Hl.
  { rewrite El. rewrite !elem_of_app, elem_of_cons in *. tauto. }
  split; [done|]. split.
  - intros ->. pose proof (sr_nodup _ _ _ R) as Nd. unfold all_pages in Nd.
    apply NoDup_app in Nd as (_ & _ & Nd). rewrite (sr_used _ _ _ R), El, fmap_app in Nd. cbn [fmap list_fmap fst] in Nd.
    apply NoDup_app in Nd as (_ & N1 & N2). apply NoDup_cons in N2 as [N2 _].
    apply elem_of_app in Hq as [Hq|Hq]; apply (list_elem_of_fmap_2 fst) in Hq; cbn in Hq; [|done].
    by apply (N1 ep Hq); left.
  - intros ->. apply Hp. rewrite (sr_used _ _ _ R). by apply (list_elem_of_fmap_2 fst) in Hl.
Qed.

(** Taking the last free page collects the page with the fewest live entries, unless every
    entry of every page is live. *)
Lemma new_page_collect s log seq p :
  store_rep good s log -> nvds_page_free s = [p] ->
  ((forall q recs, (q, recs) ∈ log -> 126 <= live_cnt (slots recs)) /\
   new_page seq s = (s, inl (RET NVDS_E_FAIL))) \/
  (exists s' l1 ep recs l2, log = l1 ++ (ep, recs) :: l2 /\ live_cnt (slots recs) < 126 /\
    (forall q recs', (q, recs') ∈ log -> live_cnt (slots recs) <= live_cnt (slots recs')) /\
    new_page seq s = (s', inr p) /\ store_rep good s' (l1 ++ l2 ++ [(p, live_recs recs)]) /\
    nvds_page_free s' = [ep]).
Proof.
  intros R Ef. pose proof (sr_nodup _ _ _ R) as Nd. unfold all_pages in Nd. rewrite Ef in Nd.
  assert (p ∈ nvds_page_free s) as Hp by (rewrite Ef; by left).
  destruct (sr_free _ _ _ R p Hp) as (pg & Fp). pose proof (proj1 (proj1 Fp)) as L.
  assert (p ∉ nvds_page_used s) as Hpu by (apply NoDup_cons in Nd; tauto).
  destruct (select_ok s (nvds_page_used s) ENTRY_COUNT_PER_PAGE None) as (r & Es & Hr).
  { intros q Hq. destruct (used_in _ _ _ R Hq) as (l1 & recs & l2 & El).
    destruct (sr_pages _ _ _ R q recs) as (pgq & U); [rewrite El, elem_of_app, elem_of_cons; auto|].
    rewrite (proj1 (proj1 (up_rep _ _ _ _ U))). eauto. }
  unfold new_page. rewrite bnd_get, Ef, !bnd_assoc. mstep_with Es.
  destruct Hr as [[-> Hr]|(ep & -> & Hep & Hlt & Hmin)].
  { left. split; [|done]. intros q recs Hq. rewrite <- (count_used _ _ _ _ R Hq). apply Hr.
    rewrite (sr_used _ _ _ R). by apply (list_elem_of_fmap_2 fst) in Hq. }
  right. rewrite bnd_ret. destruct (used_in _ _ _ R Hep) as (l1 & recs & l2 & El).
  assert ((ep, recs) ∈ log) as Hel by (rewrite El, elem_of_app, elem_of_cons; auto).
  destruct (sr_pages _ _ _ R ep recs Hel) as (epg & Ue).
  assert (ep <> p) as Hne by (intros ->; done).
  assert (p ∈ all_pages s) as Hpa by (unfold all_pages; rewrite elem_of_app; auto).
  assert (ep ∈ all_pages s) as Hea by (unfold all_pages; rewrite elem_of_app; auto).
  rewrite (count_used _ _ _ _ R Hel) in Hlt, Hmin.
  mstep_with (page_get_ok _ _ _ L). destruct (open_ok s log p pg seq R Hp L) as (s1 & pg1 & E1 & V1 & Ea & U1).
  rewrite E1. clear E1. pose proof (frame_evolves s s1 p pg pg1 V1 L Ea) as F1.
  destruct (evolves_lists _ _ _ _ _ V1) as [Ef1 Eu1]. mpure. cbn [nvds_page_free nvds_page_used set_lists].
  rewrite Ef1, Ef, extract_head by apply not_elem_of_nil. cbn [app]. rewrite bool_decide_eq_true_2 by done. cbn [negb]. mpure.
  cbn [nvds_page_free nvds_page_used set_lists app].
  set (s2 := set_lists [ep] (extract ep (nvds_page_used s1 ++ [p])) (set_lists [] (nvds_page_used s1 ++ [p]) s1)).
  assert (env_ok good s1) as Ev1 by (eapply evolves_env; [apply R|exact V1]).
  assert (env_ok good s2) as Ev2 by (destruct Ev1; by constructor).
  assert (used_page s2 p pg1 []) as U2 by by apply used_page_lists, used_page_lists.
  assert (used_page s2 ep epg recs) as Ue2.
  { do 2 apply used_page_lists. eapply used_page_frame; [exact R|exact F1| |done| |done].
    - intros q Hq. by apply list_elem_of_singleton in Hq as ->.
    - intros Hq. by apply list_elem_of_singleton in Hq. }
  assert (page_addr epg <> page_addr pg1) as Hadr.
  { rewrite Ea. intros Ead. apply Hne. eapply (sr_addr _ _ _ R); try done. apply Ue. }
  destruct (collect_ok s2 p pg1 ep epg recs Ev2 U2 Ue2 Hne Hadr)
    as (s3 & pg3 & epg3 & E3 & F3 & Ev3 & U3 & Fe & Efl & Eul).
  rewrite E3. exists s3, l1, ep, recs, l2. split; [done|]. split; [done|]. split.
  { intros q recs' Hq. rewrite <- (count_used _ _ _ _ R Hq). apply Hmin.
    rewrite (sr_used _ _ _ R). by apply (list_elem_of_fmap_2 fst) in Hq. }
  split; [done|]. split; [|by rewrite Efl].
  assert (forall q recs', (q, recs') ∈ l1 ++ l2 -> (q, recs') ∈ log /\ q <> ep /\ q <> p) as Hsub.
  { intros q recs' Hq. by apply (split_other s log l1 ep recs l2 p q recs' R El). }
  assert (nvds_page_used s3 = (l1 ++ l2 ++ [(p, live_recs recs)]).*1) as Hus.
  { rewrite Eul. cbn [s2 nvds_page_used set_lists].
    rewrite Eu1, (sr_used _ _ _ R), El, app_assoc, !fmap_app, <- app_assoc. cbn [fmap list_fmap fst].
    rewrite <- app_assoc. apply extract_mid; intros Hin.
    - apply list_elem_of_fmap in Hin as ([q recs'] & Hq & Hin).
      destruct (Hsub q recs') as (_ & Hq' & _); [rewrite elem_of_app; eauto|]. by apply Hq'.
    - apply elem_of_app in Hin as [Hin|Hin]; [|by apply list_elem_of_singleton in Hin].
      apply list_elem_of_fmap in Hin as ([q recs'] & Hq & Hin).
      destruct (Hsub q recs') as (_ & Hq' & _); [rewrite elem_of_app; eauto|]. by apply Hq'. }
  assert (frame s s3 [p; ep; p; ep]) as F4.
  { change [p; ep; p; ep] with ([p] ++ [] ++ [] ++ [ep; p; ep]).
    do 3 (eapply frame_trans; [try apply frame_lists; done|]). exact F3. }
  assert (forall q, q ∈ [p; ep; p; ep] <-> q = p \/ q = ep) as Hps.
  { intros q. rewrite !elem_of_cons, elem_of_nil. tauto. }
  eapply (store_frame s s3 log _ _ R F4); try done.
  - unfold all_pages. rewrite Hus, Efl, Ef, (sr_used _ _ _ R), El, !fmap_app.
    cbn [s2 nvds_page_free set_lists fmap list_fmap fst app].
    rewrite (Permutation_app_comm (l2.*1)). cbn [app]. rewrite <- !Permutation_middle. apply perm_swap.
  - intros q Hq. apply Hps in Hq as [->| ->]; done.
  - intros q recs' Hq Hqp. rewrite app_assoc, elem_of_app in Hq. apply Hps in Hqp. destruct Hq as [Hq|Hq].
    + apply Hsub in Hq as (_ & ? & ?). tauto.
    + apply list_elem_of_singleton in Hq. simplify_eq. by exists pg3.
  - intros q recs' Hq Hqp. rewrite app_assoc, elem_of_app in Hq. destruct Hq as [Hq|Hq]; [by apply Hsub|].
    apply list_elem_of_singleton in Hq. simplify_eq. exfalso. apply Hqp, Hps. auto.
  - intros q Hq _. rewrite Efl in Hq. apply list_elem_of_singleton in Hq as ->. by exists epg3.
  - intros q Hq Hqp. rewrite Efl in Hq. apply list_elem_of_singleton in Hq as ->. exfalso. apply Hqp, Hps. auto.
Qed.

Lemma new_page_none s seq : nvds_page_free s = [] -> new_page seq s = (s, inl (RET NVDS_E_FAIL)).
Proof. intros Ef. unfold new_page. by rewrite bnd_get, Ef. Qed.

(** ** The live records are kept *)

Lemma lookup_live k recs :
  filter (fun r => r_live r = true /\ key_of r = k) (live_recs recs) =
  filter (fun r => r_live r = true /\ key_of r = k) recs.
Proof. unfold live_recs. rewrite list_filter_filter. apply list_filter_iff. naive_solver. Qed.

Lemma lookup_collect k l1 ep recs l2 p :
  lookup_key k (l1 ++ l2 ++ [(p, live_recs recs)]) ≡ₚ lookup_key k (l1 ++ (ep, recs) :: l2).
Proof.
  unfold lookup_key. rewrite !recs_of_app, !recs_of_cons, !filter_app, lookup_live. cbn [recs_of fmap list_fmap concat].
  rewrite app_nil_r. apply Permutation_app_head, Permutation_app_comm.
Qed.

(** Closing the current page: the store opens another one, or has no space left. *)
Lemma turn_page_ok s l0 cur recs :
  store_rep good s (l0 ++ [(cur, recs)]) ->
  exists s' log' r, turn_page cur s = (s', inr r) /\ store_rep good s' log' /\
    (forall k, lookup_key k log' ≡ₚ lookup_key k (l0 ++ [(cur, recs)])) /\ log' <> [] /\
    match r with
    | Some p => exists l0' recs', log' = l0' ++ [(p, recs')] /\ (2 <= zlen (nvds_page_free s) -> recs' = [])
    | None => zlen (nvds_page_free s) < 2
    end.
Proof.
  intros R. destruct (sr_pages _ _ _ R cur recs) as (pg & U); [rewrite elem_of_app; right; by left|].
  destruct (page_state_alter_ok good Hgood s cur pg _ PAGE_FULL (sr_env _ _ _ R) (up_rep _ _ _ _ U))
    as (s1 & E1 & V1 & P1); [done| |].
  { pose proof (up_live _ _ _ _ U) as Hl. unfold live_page in Hl. rewrite orb_true_iff, !Z.eqb_eq in Hl.
    by destruct Hl as [-> | ->]. }
  set (pg1 := set_header _ pg) in *.
  assert (used_page s1 cur pg1 recs) as U1.
  { destruct U as [P ? ? ? ? ?]. pose proof (zlen_header _ _ _ _ (proj2 P)) as Hz. constructor; try done.
    - by apply header_ok_state.
    - unfold live_page. cbn [pg1 header set_header]. by rewrite h_state_set_state. }
  assert (store_rep good s1 (l0 ++ [(cur, recs)])) as R1.
  { eapply (store_update good Hgood s s1 l0 cur recs [] pg pg1); try done. apply U. }
  destruct (evolves_lists _ _ _ _ _ V1) as [Ef Eu].
  unfold turn_page. mstep_with E1. mstep_with (page_get_ok _ _ _ (proj1 (proj1 P1))).
  set (seq := u32 _). unfold new_page_request, attempt, code. unfold bnd at 1.
  destruct (nvds_page_free s1) as [|p [|f2 free']] eqn:Ef1.
  - rewrite (new_page_none s1 seq Ef1). eexists s1, _, None. rewrite <- Ef. repeat (split; [done|]).
    split; [by destruct l0|done].
  - destruct (new_page_collect s1 _ seq p R1 Ef1) as [[_ ->]|(s2 & l1 & ep & recs' & l2 & El & _ & _ & -> & R2 & _)].
    + eexists s1, _, None. rewrite <- Ef. repeat (split; [done|]). split; [by destruct l0|done].
    + eexists s2, _, (Some p). split; [done|]. split; [exact R2|]. split; [|split].
      * intros k. rewrite El. apply lookup_collect.
      * by destruct l1, l2.
      * exists (l1 ++ l2), (live_recs recs'). rewrite <- app_assoc. split; [done|]. rewrite <- Ef. done.
  - destruct (new_page_plain s1 _ seq p (f2 :: free') R1 Ef1) as (s2 & -> & R2 & _); [done|].
    eexists s2, _, (Some p). split; [done|]. split; [exact R2|]. split; [|split].
    + intros k. unfold lookup_key. rewrite (recs_of_app _ [(p, [])]). cbn [recs_of fmap list_fmap concat].
      by rewrite app_nil_r.
    + by destruct l0.
    + eexists _, []. done.
Qed.

End Gc.
End NvdsGc.
