(* ===== verification/NvdsFrame.v ===== *)
(** * NVDS: what the element operations leave alone

    The operations on elements and pages do not touch the table of namespaces: the list of
    namespace objects, their names and indexes, and the allocation table of indexes. *)
From S2P Require Import Prelude Crc Flash NvdsTypes Nvds.
Open Scope Z_scope.

Module NvdsFrame.
Import NvdsTypes Nvds.

Section Frame.
Context {F : Type} {Fl : Flash F} {Ci : Cipher}.
Implicit Types (s : env F).

(** [s'] has the namespaces of [s]. *)
Record same_ns s s' : Prop := {
  sn_list : ns_list s' = ns_list s;
  sn_nss : nss s' = nss s;
  sn_states : ns_states s' = ns_states s;
  sn_mallocs : mallocs s' = mallocs s;
  sn_next : next_addr s' = next_addr s
}.

#[global] Instance same_ns_refl : Reflexive same_ns.
Proof. intros s. by constructor. Qed.
#[global] Instance same_ns_trans : Transitive same_ns.
Proof. intros s1 s2 s3 [] []. constructor; intros; etransitivity; eauto. Qed.

Definition keeps_at {A} s (m : K F A) : Prop := same_ns s (m s).1.
Definition keeps {A} (m : K F A) : Prop := forall s, keeps_at s m.

Lemma keeps_ret {A} (a : A) s : keeps_at s (ret a).
Proof. unfold keeps_at. done. Qed.
Lemma keeps_err {A} e s : keeps_at (A:=A) s (err e).
Proof. unfold keeps_at. done. Qed.
Lemma keeps_put s s' : same_ns s s' -> keeps_at s (put s').
Proof. done. Qed.
Lemma keeps_modify f s : same_ns s (f s) -> keeps_at s (modify f).
Proof. done. Qed.
Lemma keeps_get {B} (f : env F -> K F B) s : keeps_at s (f s) -> keeps_at s (bnd get f).
Proof. done. Qed.
Lemma keeps_bnd {A B} (m : K F A) (f : A -> K F B) s :
  keeps_at s m -> (forall s' a, keeps_at s' (f a)) -> keeps_at s (bnd m f).
Proof.
  unfold keeps_at, bnd. intros H1 H2. destruct (m s) as [s' [e|a]]; [done|].
  etransitivity; [exact H1|apply H2].
Qed.
Lemma keeps_code {A} (m : K F A) s : keeps_at s m -> keeps_at s (code m).
Proof. unfold keeps_at, code. by destruct (m s) as [s' [[]|]]. Qed.

Lemma same_set_flash f s : same_ns s (set_flash f s).
Proof. by constructor. Qed.
Lemma same_set_pages f s : same_ns s (set_pages f s).
Proof. by constructor. Qed.
Lemma same_set_lists a b s : same_ns s (set_lists a b s).
Proof. by constructor. Qed.

Create HintDb keeps.
#[local] Hint Resolve keeps_ret keeps_err keeps_code same_set_flash same_set_pages same_set_lists : keeps.

(** Follow the code of an operation; the operations it calls are in the hints. *)
Ltac keep_step :=
  match goal with
  | |- forall _, _ => intros
  | |- _ => solve [auto with keeps]
  | |- keeps_at _ ?m =>
      lazymatch m with
      | bnd get _ => apply keeps_get
      | bnd _ _ => apply keeps_bnd
      | code _ => apply keeps_code
      | put _ => apply keeps_put
      | modify _ => apply keeps_modify
      | context [match ?x with _ => _ end] => destruct x
      end
  end; cbv beta zeta.
Ltac keep := repeat keep_step.

Lemma keeps_fail {A} r s : keeps_at (A:=A) s (fail r).
Proof. apply keeps_err. Qed.
Lemma keeps_ub {A} s : keeps_at (A:=A) s ub.
Proof. apply keeps_err. Qed.
#[local] Hint Resolve keeps_fail keeps_ub : keeps.
Lemma keeps_attempt {A} (m : K F A) s : keeps_at s m -> keeps_at s (attempt m).
Proof. unfold attempt. keep. Qed.
Lemma keeps_ignore {A} (m : K F A) s : keeps_at s m -> keeps_at s (ignore m).
Proof. unfold ignore. keep. Qed.
Lemma keeps_page_get p s : keeps_at s (page_get p).
Proof. unfold page_get. keep. Qed.
Lemma keeps_page_put p pg s : keeps_at s (page_put p pg).
Proof. unfold page_put. keep. Qed.
#[local] Hint Resolve keeps_attempt keeps_ignore keeps_page_get keeps_page_put : keeps.
Lemma keeps_flash_read o n s : keeps_at s (nvds_flash_read o n).
Proof. unfold nvds_flash_read. keep. Qed.
Lemma keeps_flash_write o d s : keeps_at s (nvds_flash_write o d).
Proof. unfold nvds_flash_write. keep. Qed.
Lemma keeps_flash_erase o n s : keeps_at s (nvds_flash_erase o n).
Proof. unfold nvds_flash_erase. keep. Qed.
#[local] Hint Resolve keeps_flash_read keeps_flash_write keeps_flash_erase : keeps.

Lemma keeps_aes aes e : forall n buf s, keeps_at s (aes_loop aes e n buf).
Proof. induction n; intros; cbn [aes_loop]; keep. Qed.
#[local] Hint Resolve keeps_aes : keeps.

Lemma keeps_entry_read p i s : keeps_at s (entry_read p i).
Proof. unfold entry_read. keep. Qed.
Lemma keeps_entry_write p e s : keeps_at s (entry_write p e).
Proof. unfold entry_write. keep. Qed.
Lemma keeps_entry_data_write a n b s : keeps_at s (entry_data_write a n b).
Proof. unfold entry_data_write. keep. Qed.
Lemma keeps_state_alter p i st s : keeps_at s (entry_state_alter p i st).
Proof. unfold entry_state_alter, entry_states_table_write. keep. Qed.
#[local] Hint Resolve keeps_entry_read keeps_entry_write keeps_entry_data_write keeps_state_alter : keeps.
Lemma keeps_range_loop p st : forall n i s, keeps_at s (range_alter_loop n p i st).
Proof. induction n; intros; cbn [range_alter_loop]; keep. Qed.
#[local] Hint Resolve keeps_range_loop : keeps.
Lemma keeps_range_alter p a b st s : keeps_at s (entry_state_range_alter p a b st).
Proof. unfold entry_state_range_alter. keep. Qed.
Lemma keeps_page_state p st s : keeps_at s (page_state_alter p st).
Proof. unfold page_state_alter. keep. Qed.
Lemma keeps_sub_used p n s : keeps_at s (sub_used p n).
Proof. unfold sub_used. keep. Qed.
Lemma keeps_key_match ns key e s : keeps_at s (key_match ns key e).
Proof. unfold key_match. keep. Qed.
#[local] Hint Resolve keeps_range_alter keeps_page_state keeps_sub_used keeps_key_match : keeps.

Lemma keeps_find_in_page ns key p t : forall fuel i s, keeps_at s (find_in_page fuel ns key p i t).
Proof. induction fuel; intros; cbn [find_in_page]; keep. Qed.
#[local] Hint Resolve keeps_find_in_page : keeps.
Lemma keeps_find_in_pages ns key t : forall l i s, keeps_at s (find_in_pages l ns key i t).
Proof. induction l; intros; cbn [find_in_pages]; keep. Qed.
#[local] Hint Resolve keeps_find_in_pages : keeps.
Lemma keeps_element_find ns key i p t s : keeps_at s (element_find ns key i p t).
Proof. unfold element_find. keep. Qed.
#[local] Hint Resolve keeps_element_find : keeps.

Lemma keeps_frags_del ns key : forall fuel i p s, keeps_at s (bulk_frags_del fuel ns key i p).
Proof. induction fuel; intros; cbn [bulk_frags_del]; keep. Qed.
#[local] Hint Resolve keeps_frags_del : keeps.
Lemma keeps_bulk_del ns key s : keeps_at s (bulk_element_del ns key).
Proof. unfold bulk_element_del. keep. Qed.
#[local] Hint Resolve keeps_bulk_del : keeps.
Lemma keeps_del ns key s : keeps_at s (data_element_del ns key).
Proof. unfold data_element_del. keep. Qed.
#[local] Hint Resolve keeps_del : keeps.

Lemma keeps_read_data p b : forall fuel i r d buf s, keeps_at s (read_data fuel p i b r d buf).
Proof. induction fuel; intros; cbn [read_data]; keep. Qed.
Lemma keeps_compare_data p b : forall fuel i r d buf s, keeps_at s (compare_data fuel p i b r d buf).
Proof. induction fuel; intros; cbn [compare_data]; keep. Qed.
Lemma keeps_find_frag ns key f : forall fuel i p s, keeps_at s (find_frag fuel ns key f i p).
Proof. induction fuel; intros; cbn [find_frag]; keep. Qed.
#[local] Hint Resolve keeps_read_data keeps_compare_data keeps_find_frag : keeps.
Lemma keeps_bulk_get_loop ns key : forall n f d buf s, keeps_at s (bulk_get_loop n ns key f d buf).
Proof. induction n; intros; cbn [bulk_get_loop]; keep. Qed.
Lemma keeps_bulk_compare_loop ns key : forall n f d buf s, keeps_at s (bulk_compare_loop n ns key f d buf).
Proof. induction n; intros; cbn [bulk_compare_loop]; keep. Qed.
#[local] Hint Resolve keeps_bulk_get_loop keeps_bulk_compare_loop : keeps.
Lemma keeps_bulk_get ns key buf n s : keeps_at s (bulk_element_get ns key buf n).
Proof. unfold bulk_element_get. keep. Qed.
Lemma keeps_bulk_compare ns key buf n s : keeps_at s (bulk_element_compare ns key buf n).
Proof. unfold bulk_element_compare. keep. Qed.
#[local] Hint Resolve keeps_bulk_get keeps_bulk_compare : keeps.
Lemma keeps_element_get ns key buf n s : keeps_at s (data_element_get ns key buf n).
Proof. unfold data_element_get. keep. Qed.
#[local] Hint Resolve keeps_element_get : keeps.
Lemma keeps_compare ns key buf n s : keeps_at s (element_compare ns key buf n).
Proof. unfold element_compare. keep. Qed.
#[local] Hint Resolve keeps_compare : keeps.

Lemma keeps_page_clear p s : keeps_at s (page_clear p).
Proof. unfold page_clear. keep. Qed.
Lemma keeps_select : forall l min e s, keeps_at s (select_erase_page l min e).
Proof. induction l; intros; cbn [select_erase_page]; keep. Qed.
Lemma keeps_copy p q : forall n i s, keeps_at s (copy_entries n p q i).
Proof. induction n; intros; cbn [copy_entries]; keep. Qed.
#[local] Hint Resolve keeps_page_clear keeps_select keeps_copy : keeps.
Lemma keeps_new_page seq s : keeps_at s (new_page seq).
Proof. unfold new_page. keep. Qed.
#[local] Hint Resolve keeps_new_page : keeps.
Lemma keeps_turn_page p s : keeps_at s (turn_page p).
Proof. unfold turn_page, new_page_request. keep. Qed.
Lemma keeps_write_page s : keeps_at s write_page.
Proof. unfold write_page. keep. Qed.
Lemma keeps_put_element ns key buf n p s : keeps_at s (put_element ns key buf n p).
Proof. unfold put_element. keep. Qed.
#[local] Hint Resolve keeps_turn_page keeps_write_page keeps_put_element : keeps.
Lemma keeps_put_frag ns key p f n o buf s : keeps_at s (put_frag ns key p f n o buf).
Proof. unfold put_frag. keep. Qed.
#[local] Hint Resolve keeps_put_frag : keeps.
Lemma keeps_put_frags ns key : forall fuel p f o r buf s, keeps_at s (put_frags fuel ns key p f o r buf).
Proof. induction fuel; intros; cbn [put_frags]; keep. Qed.
Lemma keeps_put_bulkinfo ns key p f n s : keeps_at s (put_bulkinfo ns key p f n).
Proof. unfold put_bulkinfo. keep. Qed.
Lemma keeps_no_space ns key s : keeps_at s (no_space_out ns key).
Proof. unfold no_space_out. keep. Qed.
#[local] Hint Resolve keeps_put_frags keeps_put_bulkinfo keeps_no_space : keeps.
Lemma keeps_bulk_put ns key buf n s : keeps_at s (bulk_element_put ns key buf n).
Proof. unfold bulk_element_put. keep. Qed.
#[local] Hint Resolve keeps_bulk_put : keeps.

(** The part of [data_element_put] after the old value is gone. *)
Definition place (ns : Z) (key buf : list Z) (bufsize : Z) : K F unit :=
  (let! cur_page := write_page in
   let! pg := page_get cur_page in
   if no_room pg bufsize then
     let! r := turn_page cur_page in
     match r with
     | None => fail NVDS_E_NO_SPACE
     | Some p =>
         let! pg := page_get p in
         if no_room pg bufsize then fail NVDS_E_NO_SPACE else put_element ns key buf bufsize p
     end
   else put_element ns key buf bufsize cur_page)%fw.

Lemma keeps_place ns key buf n s : keeps_at s (place ns key buf n).
Proof. unfold place. keep. Qed.

End Frame.
End NvdsFrame.
