(* ===== verification/NvdsMap.v ===== *)
(** * NVDS: the refinement by a map

    [stores s m]: the store [s] holds the elements of [m], a map from (namespace index, key)
    to values, each of at most 256 bytes. Reading, deleting and writing an element are
    lookup, deletion and insertion in [m], whatever pages they open and collect. *)
From S2P Require Import Prelude Crc Flash NvdsTypes Nvds NvdsPage NvdsStore NvdsPut NvdsGc NvdsFrame.
Open Scope Z_scope.

Module NvdsMap.
Import NvdsTypes Nvds NvdsPage NvdsStore NvdsPut NvdsGc NvdsFrame.

Abbreviation kmap := (gmap (Z * list Z) (list Z)).

(** ** What a log holds *)

Definition content (log : list (Z * list rec)) (m : kmap) : Prop :=
  forall k, Forall plain (lookup_key k log) /\ r_value <$> lookup_key k log = option_list (m !! k).

Lemma content_perm log log' m :
  (forall k, lookup_key k log' ≡ₚ lookup_key k log) -> content log m -> content log' m.
Proof.
  intros Hp C k. destruct (C k) as [Hpl Hv]. split; [by rewrite Hp|].
  specialize (Hp k). apply (fmap_Permutation r_value) in Hp. rewrite Hv in Hp.
  destruct (m !! k); cbn in *; [by apply Permutation_singleton_r in Hp|by apply Permutation_nil_r in Hp].
Qed.

Lemma content_head log m k : content log m -> r_value <$> head (lookup_key k log) = m !! k.
Proof.
  intros C. destruct (C k) as [_ Hv]. destruct (lookup_key k log), (m !! k); cbn in *; congruence.
Qed.

Lemma content_none log m k : content log m -> lookup_key k log = [] <-> m !! k = None.
Proof.
  intros C. destruct (C k) as [_ Hv]. destruct (lookup_key k log), (m !! k); cbn in *; split; congruence.
Qed.

Lemma lookup_key_split k l1 p r1 r r2 l2 :
  lookup_key k (l1 ++ (p, r1 ++ r :: r2) :: l2) =
    filter (fun r => r_live r = true /\ key_of r = k) (recs_of l1 ++ r1) ++
    (if r_live r && bool_decide (key_of r = k) then [r] else []) ++
    filter (fun r => r_live r = true /\ key_of r = k) (r2 ++ recs_of l2).
Proof.
  unfold lookup_key. rewrite recs_of_app, recs_of_cons, !filter_app, <- !app_assoc. do 2 f_equal.
  rewrite filter_cons. case_decide as D.
  - destruct D as [-> D]. by rewrite bool_decide_eq_true_2.
  - destruct (r_live r); [|done]. rewrite bool_decide_eq_false_2 by tauto. done.
Qed.

Lemma content_kill l1 p r1 r r2 l2 m :
  r_live r = true -> content (l1 ++ (p, r1 ++ r :: r2) :: l2) m ->
  content (l1 ++ (p, r1 ++ kill r :: r2) :: l2) (delete (key_of r) m).
Proof.
  intros Hl C k. destruct (C k) as [Hp Hv]. rewrite lookup_key_split in *. cbn [kill r_live andb app].
  rewrite Hl in *. cbn [andb] in *. destruct (decide (key_of r = k)) as [<-|Hne].
  - rewrite bool_decide_eq_true_2 in * by done. rewrite lookup_delete_eq.
    set (a := filter _ (recs_of l1 ++ r1)) in *. set (b := filter _ (r2 ++ recs_of l2)) in *.
    rewrite fmap_app in Hv. cbn [fmap list_fmap app] in Hv.
    assert (a = [] /\ b = []) as [-> ->]; [|by split].
    pose proof (f_equal length Hv) as Hlen. rewrite length_app, length_fmap in Hlen. cbn in Hlen.
    rewrite length_fmap in Hlen. destruct (m !! key_of r); cbn in Hlen; [|lia].
    destruct a, b; cbn in Hlen; try lia. done.
  - rewrite bool_decide_eq_false_2 in * by done. rewrite lookup_delete_ne by congruence. done.
Qed.

Lemma content_snoc l0 p recs r m :
  r_live r = true -> plain r -> m !! key_of r = None -> content (l0 ++ [(p, recs)]) m ->
  content (l0 ++ [(p, recs ++ [r])]) (<[key_of r := r_value r]> m).
Proof.
  intros Hl Hp Hm C k.
  assert (lookup_key k (l0 ++ [(p, recs ++ [r])]) =
          lookup_key k (l0 ++ [(p, recs)]) ++ if bool_decide (key_of r = k) then [r] else []) as ->.
  { rewrite lookup_key_split. cbn [recs_of fmap list_fmap concat app]. rewrite Hl. cbn [andb].
    change (filter (fun r0 => r_live r0 = true /\ key_of r0 = k) []) with (@nil rec). rewrite app_nil_r.
    f_equal. unfold lookup_key. rewrite recs_of_app, recs_of_cons. cbn [recs_of fmap list_fmap concat].
    by rewrite app_nil_r. }
  destruct (C k) as [Hpk Hv]. destruct (decide (key_of r = k)) as [<-|Hne].
  - rewrite bool_decide_eq_true_2, lookup_insert_eq by done.
    assert (lookup_key (key_of r) (l0 ++ [(p, recs)]) = []) as -> by by apply (content_none _ m).
    split; [by constructor|done].
  - rewrite bool_decide_eq_false_2, lookup_insert_ne, app_nil_r by congruence. done.
Qed.

Section Map.
Context {F : Type} {Fl : Flash F} {FL : FlashLaws F} {Ci : Cipher}.
Variable good : F -> Prop.
Hypothesis Hgood : reliable good.
Implicit Types (s : env F) (pg : page) (m : kmap).

(** The store holds the elements of [m], in at least one used page. *)
Definition stores s m : Prop := exists log, store_rep good s log /\ content log m /\ log <> [].

(** ** How much a store can hold *)

Lemma nodup_length {A} (l k : list A) : NoDup l -> (forall x, x ∈ l -> x ∈ k) -> zlen l <= zlen k.
Proof.
  intros Nd Hs. unfold zlen. apply inj_le. apply submseteq_length, NoDup_submseteq; [done|]. exact Hs.
Qed.

Lemma log_length s log : store_rep good s log -> zlen log <= 2 ^ 19.
Proof.
  intros R. pose proof (sr_env _ _ _ R) as E. pose proof fl_window as Hw.
  set (num := fun p => match pages s !! p with Some pg => page_addr pg / 4096 | None => 0 end).
  assert (forall p, p ∈ log.*1 -> exists pg, pages s !! p = Some pg /\ sector s (page_addr pg)) as Hp.
  { intros p Hp. apply list_elem_of_fmap in Hp as ([q recs] & -> & Hp).
    destruct (sr_pages _ _ _ R q recs Hp) as (pg & U). exists pg. apply U. }
  assert (zlen log = zlen (num <$> log.*1)) as -> by by rewrite !zlen_fmap.
  replace (2 ^ 19) with (zlen (seqZ 0 (2 ^ 19))) by (unfold zlen; rewrite length_seqZ; lia).
  apply nodup_length.
  - apply NoDup_fmap_2_strong.
    + intros p q Hp1 Hq1 Eq. destruct (Hp p Hp1) as (pg & Lp & Dp & _ & _), (Hp q Hq1) as (pg' & Lq & Dq & _ & _).
      apply (sr_addr _ _ _ R p q pg pg'); try done.
      1,2: unfold all_pages; rewrite (sr_used _ _ _ R), elem_of_app; by right.
      unfold num in Eq. rewrite Lp, Lq in Eq. destruct Dp as [a Ea], Dq as [b Eb].
      unfold SPI_FLASH_SEC_SIZE in *. rewrite Ea, Eb, !Z.div_mul in Eq by lia. congruence.
    + rewrite <- (sr_used _ _ _ R). pose proof (sr_nodup _ _ _ R) as N. by apply NoDup_app in N as (_ & _ & N).
  - intros a Ha. apply list_elem_of_fmap in Ha as (p & -> & Hp1). destruct (Hp p Hp1) as (pg & Lp & [a Ea] & H1 & H2).
    unfold num. rewrite Lp. apply elem_of_seqZ. unfold SPI_FLASH_SEC_SIZE in *. rewrite Ea, Z.div_mul by lia.
    rewrite (eo_len _ _ E) in H2. lia.
Qed.

Lemma recs_length s log : store_rep good s log -> zlen (recs_of log) <= 126 * zlen log.
Proof.
  intros R. assert (forall l, (forall x, x ∈ l -> x ∈ log) -> zlen (recs_of l) <= 126 * zlen l) as H; [|by apply H].
  induction l as [|[p recs] l IH]; intros Hl; [done|]. rewrite recs_of_cons, zlen_app, zlen_cons.
  destruct (sr_pages _ _ _ R p recs) as (pg & U); [apply Hl; by left|].
  pose proof (ir_cap _ _ _ _ (proj2 (up_rep _ _ _ _ U))). pose proof (slots_length recs).
  specialize (IH (fun x Hx => Hl x (list_elem_of_further _ _ _ Hx))). lia.
Qed.

Lemma stores_size s m : stores s m -> Z.of_nat (size m) < 2 ^ 32.
Proof.
  intros (log & R & C & _). pose proof (log_length s log R). pose proof (recs_length s log R).
  assert (Z.of_nat (size m) <= zlen (recs_of log)); [|lia].
  rewrite <- length_map_to_list. rewrite <- (length_fmap fst (map_to_list m)), <- (zlen_fmap key_of (recs_of log)).
  apply nodup_length; [apply NoDup_fst_map_to_list|].
  intros k Hk. apply list_elem_of_fmap in Hk as ([k' v] & -> & Hk). apply elem_of_map_to_list in Hk. cbn.
  pose proof (content_head _ _ k' C) as Hh. rewrite Hk in Hh.
  destruct (lookup_key k' log) as [|r l] eqn:E; [done|].
  assert (r ∈ lookup_key k' log) as Hr by (rewrite E; by left).
  apply list_elem_of_filter in Hr as [[_ <-] Hr]. by apply list_elem_of_fmap_2.
Qed.

(** ** Counters of the namespaces *)

(** The first object of the list with an index, and the counter of that object moved by [d]. *)
Fixpoint find_ns (nm : gmap Z namespace_info) (l : list Z) (idx : Z) : option Z :=
  match l with
  | [] => None
  | n :: l => if bool_decide (ns_index <$> nm !! n = Some idx) then Some n else find_ns nm l idx
  end.

Definition bump (d : Z) (ns : namespace_info) : namespace_info :=
  mk_ns (ns_name ns) (ns_index ns) (u32 (ns_used_cnt ns + d)).

Definition count_ns (d : Z) s (idx : Z) : gmap Z namespace_info :=
  if NAMESPACE_MAX_CNT <? idx then nss s
  else match find_ns (nss s) (ns_list s) idx with
       | Some n => alter (bump d) n (nss s)
       | None => nss s
       end.

Lemma ns_get_ok s n ns : nss s !! n = Some ns -> ns_get n s = (s, inr ns).
Proof. intros Hn. unfold ns_get. by rewrite bnd_get, Hn. Qed.

Lemma ns_find_ok s idx : forall l,
  (forall n, n ∈ l -> is_Some (nss s !! n)) -> ns_find l idx s = (s, inr (find_ns (nss s) l idx)).
Proof.
  induction l as [|n l IH]; intros Hl; cbn [ns_find find_ns]; [done|].
  destruct (Hl n) as [ns Hn]; [by left|]. mstep_with (ns_get_ok _ _ _ Hn). rewrite Hn. cbn [fmap option_fmap option_map].
  destruct (Z.eqb_spec (ns_index ns) idx) as [E|E].
  - by rewrite bool_decide_eq_true_2 by congruence.
  - rewrite bool_decide_eq_false_2 by congruence. apply IH. intros. apply Hl. by right.
Qed.

Lemma find_ns_some nm l idx n : find_ns nm l idx = Some n -> n ∈ l /\ ns_index <$> nm !! n = Some idx.
Proof.
  induction l as [|x l IH]; cbn [find_ns]; [done|]. case_bool_decide as D.
  - intros [= ->]. split; [by left|done].
  - intros Hf. destruct (IH Hf). split; [by right|done].
Qed.

Lemma alter_as_insert (nm : gmap Z namespace_info) n ns f :
  nm !! n = Some ns -> <[n := f ns]> nm = alter f n nm.
Proof.
  intros Hn. apply map_eq. intros k. destruct (decide (n = k)) as [<-|Hne].
  - by rewrite lookup_insert_eq, lookup_alter_eq, Hn.
  - by rewrite lookup_insert_ne, lookup_alter_ne.
Qed.

(** Only the flash, the pages and their lists matter to what is stored. *)
Lemma store_rep_same s s' log :
  store_rep good s log ->
  flash s' = flash s -> base_addr s' = base_addr s -> length_ s' = length_ s -> encrypted s' = encrypted s ->
  pages s' = pages s -> nvds_page_free s' = nvds_page_free s -> nvds_page_used s' = nvds_page_used s ->
  (forall n, n ∈ ns_list s' -> is_Some (nss s' !! n)) -> store_rep good s' log.
Proof.
  destruct s, s'. cbn. intros [E U N P Fr Ad Cov Ns] -> -> -> -> -> -> -> Hn. cbn in *.
  constructor; try done.
  - destruct E. by constructor.
  - intros p recs Hp. destruct (P p recs Hp) as (pg & []). exists pg. by constructor.
Qed.

Lemma stores_same s s' m :
  stores s m ->
  flash s' = flash s -> base_addr s' = base_addr s -> length_ s' = length_ s -> encrypted s' = encrypted s ->
  pages s' = pages s -> nvds_page_free s' = nvds_page_free s -> nvds_page_used s' = nvds_page_used s ->
  (forall n, n ∈ ns_list s' -> is_Some (nss s' !! n)) -> stores s' m.
Proof. intros (log & R & C) ? ? ? ? ? ? ? ?. exists log. split; [|done]. by apply (store_rep_same s). Qed.

Lemma store_rep_nss s log nm :
  store_rep good s log -> (forall n, is_Some (nss s !! n) -> is_Some (nm !! n)) ->
  store_rep good (set_nss nm s) log.
Proof. intros R Hn. apply (store_rep_same s); try done. intros n Hin. by apply Hn, R. Qed.

Lemma count_ns_dom d s idx n : is_Some (nss s !! n) -> is_Some (count_ns d s idx !! n).
Proof.
  unfold count_ns. destruct (_ <? _); [done|]. destruct (find_ns _ _ _) as [n'|]; [|done].
  intros H. by rewrite lookup_alter_is_Some.
Qed.

Lemma set_nss_id s : set_nss (nss s) s = s.
Proof. by destruct s. Qed.

(** Counting a key out of its namespace, or in. *)
Lemma ns_del_count_ok s log idx :
  store_rep good s log ->
  ignore (ns_del_used_cnt idx false) s = (set_nss (count_ns (-1) s idx) s, inr tt) /\
  store_rep good (set_nss (count_ns (-1) s idx) s) log.
Proof.
  intros R. split; [|apply store_rep_nss; [done|by apply count_ns_dom]].
  unfold ignore, code, ns_del_used_cnt, count_ns. destruct (NAMESPACE_MAX_CNT <? idx).
  { by rewrite set_nss_id. }
  unfold bnd at 1. rewrite bnd_get.
  rewrite (bnd_ok _ _ _ _ _ (ns_find_ok s idx (ns_list s) (fun n Hn => sr_ns _ _ _ R n Hn))).
  destruct (find_ns (nss s) (ns_list s) idx) as [n|] eqn:Ef; [|by rewrite set_nss_id].
  apply find_ns_some in Ef as [Hin _]. destruct (sr_ns _ _ _ R n Hin) as [ns Hn].
  rewrite (bnd_ok _ _ _ _ _ (ns_get_ok _ _ _ Hn)). unfold ns_put. rewrite bnd_modify, andb_false_r.
  exact (f_equal (fun nm => (set_nss nm s, inr tt)) (alter_as_insert (nss s) n ns (bump (-1)) Hn)).
Qed.

Lemma ns_add_count_ok s log idx :
  store_rep good s log ->
  ignore (ns_add_used_cnt idx) s = (set_nss (count_ns 1 s idx) s, inr tt) /\
  store_rep good (set_nss (count_ns 1 s idx) s) log.
Proof.
  intros R. split; [|apply store_rep_nss; [done|by apply count_ns_dom]].
  unfold ignore, code, ns_add_used_cnt, count_ns. destruct (NAMESPACE_MAX_CNT <? idx).
  { by rewrite set_nss_id. }
  unfold bnd at 1. rewrite bnd_get.
  rewrite (bnd_ok _ _ _ _ _ (ns_find_ok s idx (ns_list s) (fun n Hn => sr_ns _ _ _ R n Hn))).
  destruct (find_ns (nss s) (ns_list s) idx) as [n|] eqn:Ef; [|by rewrite set_nss_id].
  apply find_ns_some in Ef as [Hin _]. destruct (sr_ns _ _ _ R n Hin) as [ns Hn].
  rewrite (bnd_ok _ _ _ _ _ (ns_get_ok _ _ _ Hn)). unfold ns_put, modify.
  exact (f_equal (fun nm => (set_nss nm s, inr tt)) (alter_as_insert (nss s) n ns (bump 1) Hn)).
Qed.

(** ** The three operations *)

(** Reading an element is looking its key up. *)
Lemma get_ok s m k buf bufsize :
  stores s m -> match buf with None => True | Some b => bufsize <= zlen b end ->
  data_element_get k.1 k.2 buf bufsize s =
    (s, match m !! k with
        | None => inl (RET NVDS_E_NOT_FOUND)
        | Some v =>
            match buf with
            | None => inr (NVDS_OK, zlen v, None)
            | Some b =>
                if bufsize <? zlen v then inr (NVDS_E_INVALID_LENGTH, zlen v, buf)
                else inr (NVDS_OK, zlen v, Some (splice 0 v b))
            end
        end).
Proof.
  intros (log & R & C & _) Hb.
  rewrite (data_element_get_ok good Hgood s log k buf bufsize R (proj1 (C k)) Hb).
  rewrite <- (content_head _ _ k C). by destruct (lookup_key k log).
Qed.

Lemma del_ok s log m k :
  store_rep good s log -> content log m -> log <> [] ->
  (m !! k = None /\ data_element_del k.1 k.2 s = (s, inl (RET NVDS_E_NOT_FOUND))) \/
  (is_Some (m !! k) /\ exists s' log', data_element_del k.1 k.2 s = (s', inr tt) /\
     store_rep good s' log' /\ content log' (delete k m) /\ log' <> [] /\
     nvds_page_free s' = nvds_page_free s).
Proof.
  intros R C Hne.
  destruct (data_element_del_ok good Hgood s log k R (proj1 (C k)))
    as [[Hn E]|(s' & p & l1 & r1 & r & r2 & l2 & El & E & Hl & Hk & Hf & R' & Hfree)].
  - left. split; [by apply (content_none log)|done].
  - right. subst log. split.
    { rewrite <- (content_head _ _ k C). rewrite (lookup_found k l1 p r1 r r2 l2 Hl Hk Hf). eauto. }
    exists s', (l1 ++ (p, r1 ++ kill r :: r2) :: l2). rewrite <- Hk.
    repeat (split; [first [done|by rewrite Hk|by apply content_kill]|]). split; [by destruct l1|done].
Qed.

(** Deleting an element deletes its key. *)
Lemma del_stores s m k :
  stores s m ->
  match m !! k with
  | None => data_element_del k.1 k.2 s = (s, inl (RET NVDS_E_NOT_FOUND))
  | Some _ => exists s', data_element_del k.1 k.2 s = (s', inr tt) /\ stores s' (delete k m)
  end.
Proof.
  intros (log & R & C & Hne).
  destruct (del_ok s log m k R C Hne) as [[-> E]|([v ->] & s' & log' & E & R' & C' & Hne' & _)]; [done|].
  exists s'. split; [done|]. by exists log'.
Qed.

(** ** Writing *)

Lemma write_page_ok s l0 p recs :
  store_rep good s (l0 ++ [(p, recs)]) -> write_page s = (s, inr p).
Proof.
  intros R. unfold write_page. rewrite bnd_get, (sr_used _ _ _ R), fmap_app. cbn [fmap list_fmap fst]. rewrite last_snoc.
  destruct (sr_pages _ _ _ R p recs) as (pg & U); [rewrite elem_of_app; right; by left|].
  mstep_with (page_get_ok _ _ _ (proj1 (proj1 (up_rep _ _ _ _ U)))).
  pose proof (up_live _ _ _ _ U) as Hl. unfold live_page in Hl. rewrite orb_true_iff, !Z.eqb_eq in Hl.
  by destruct Hl as [-> | ->].
Qed.

(** A page with room takes the element. *)
Lemma put_in_page_ok s l0 p recs m ns key buf bufsize :
  store_rep good s (l0 ++ [(p, recs)]) -> content (l0 ++ [(p, recs)]) m -> m !! (ns, key) = None ->
  elem_ok ns key buf bufsize -> zlen (slots recs) + rec_room bufsize <= 126 ->
  exists s', put_element ns key buf bufsize p s = (s', inr tt) /\
    stores s' (<[(ns, key) := slice 0 bufsize buf]> m).
Proof.
  intros R C Hm El Hroom.
  destruct (sr_pages _ _ _ R p recs) as (pg & U); [rewrite elem_of_app; right; by left|].
  destruct (put_element_ok good Hgood s p pg recs ns key buf bufsize (sr_env _ _ _ R) U El Hroom)
    as (s' & pg' & E & V & Ea & U').
  exists s'. split; [done|]. eexists. split; [|split].
  - eapply (store_update good Hgood s s' l0 p recs [] pg pg'); try done. apply U.
  - rewrite <- (new_key_of _ _ _ _ El), <- (new_value _ _ _ _ El). rewrite <- (new_key_of _ _ _ _ El) in Hm.
    apply content_snoc; try done. by apply new_plain.
  - by destruct l0.
Qed.

Lemma no_room_ok s p pg recs ns key buf bufsize :
  used_page s p pg recs -> elem_ok ns key buf bufsize ->
  no_room pg bufsize = (126 <? zlen (slots recs) + rec_room bufsize).
Proof.
  intros U El. rewrite <- (up_free _ _ _ _ U). apply no_room_eq.
  - rewrite (up_free _ _ _ _ U). pose proof (zlen_nonneg (slots recs)).
    pose proof (ir_cap _ _ _ _ (proj2 (up_rep _ _ _ _ U))). lia.
  - split; apply El.
Qed.

Lemma place_ok s log m ns key buf bufsize :
  store_rep good s log -> content log m -> log <> [] -> m !! (ns, key) = None -> elem_ok ns key buf bufsize ->
  exists s',
    (place ns key buf bufsize s = (s', inr tt) /\ stores s' (<[(ns, key) := slice 0 bufsize buf]> m)) \/
    (place ns key buf bufsize s = (s', inl (RET NVDS_E_NO_SPACE)) /\ stores s' m /\
     zlen (nvds_page_free s) < 2).
Proof.
  intros R C Hne Hm El. destruct (exists_last Hne) as (l0 & (cur & recs) & ->).
  destruct (sr_pages _ _ _ R cur recs) as (pg & U); [rewrite elem_of_app; right; by left|].
  unfold place. mstep_with (write_page_ok s l0 cur recs R).
  mstep_with (page_get_ok _ _ _ (proj1 (proj1 (up_rep _ _ _ _ U)))).
  rewrite (no_room_ok _ _ _ _ _ _ _ _ U El). destruct (Z.ltb_spec 126 (zlen (slots recs) + rec_room bufsize)).
  2:{ destruct (put_in_page_ok s l0 cur recs m ns key buf bufsize R C Hm El) as (s' & E & S); [lia|]. eauto. }
  destruct (turn_page_ok good Hgood s l0 cur recs R) as (s1 & log1 & r & E1 & R1 & Hp1 & Hne1 & Hr).
  pose proof (content_perm _ log1 m Hp1 C) as C1. mstep_with E1.
  destruct r as [p|].
  2:{ exists s1. right. split; [done|]. split; [by exists log1|done]. }
  destruct Hr as (l1 & recs1 & -> & Hemp).
  destruct (sr_pages _ _ _ R1 p recs1) as (pg1 & U1); [rewrite elem_of_app; right; by left|].
  mstep_with (page_get_ok _ _ _ (proj1 (proj1 (up_rep _ _ _ _ U1)))).
  rewrite (no_room_ok _ _ _ _ _ _ _ _ U1 El). destruct (Z.ltb_spec 126 (zlen (slots recs1) + rec_room bufsize)).
  - exists s1. right. split; [done|]. split; [by eexists|].
    destruct (Z.lt_ge_cases (zlen (nvds_page_free s)) 2) as [?|Hge]; [done|]. rewrite (Hemp Hge) in *.
    pose proof (rec_room_bounds bufsize) as Hb. change (zlen (slots [])) with 0 in *.
    pose proof (el_size _ _ _ _ El). pose proof (el_max _ _ _ _ El). lia.
  - destruct (put_in_page_ok s1 l1 p recs1 m ns key buf bufsize R1 C1 Hm El) as (s' & E & S); [lia|]. eauto.
Qed.

(** The namespaces after the old value of [k] is counted out, if there is one. *)
Definition counted s m (k : Z * list Z) : gmap Z namespace_info :=
  match m !! k with Some _ => count_ns (-1) s k.1 | None => nss s end.

(** What precedes the placing: nothing more to do when the value is there already, else the old
    one is deleted. *)
Lemma put_head_ok s log m ns key buf bufsize :
  store_rep good s log -> content log m -> log <> [] -> elem_ok ns key buf bufsize ->
  (exists s', data_element_put ns key buf bufsize s = (s', inr tt) /\ store_rep good s' log /\
     m !! (ns, key) = Some (slice 0 bufsize buf) /\ same_ns (set_nss (counted s m (ns, key)) s) s') \/
  (exists s' log', data_element_put ns key buf bufsize s = place ns key buf bufsize s' /\
     store_rep good s' log' /\ content log' (delete (ns, key) m) /\ log' <> [] /\
     nvds_page_free s' = nvds_page_free s /\ same_ns (set_nss (counted s m (ns, key)) s) s').
Proof.
  intros R C Hne El. pose proof (C (ns, key)) as [Hpl _]. unfold data_element_put.
  rewrite (bnd_ok _ _ _ _ _ (element_compare_ok good Hgood s log (ns, key) buf bufsize R Hpl
             ltac:(pose proof (el_size _ _ _ _ El); lia))).
  pose proof (content_head _ _ (ns, key) C) as Hh.
  destruct (match head (lookup_key (ns, key) log) with Some r => _ | None => false end) eqn:Es.
  { left. destruct (ns_del_count_ok s log ns R) as (-> & R'). eexists. do 2 (split; [done|]).
    destruct (head (lookup_key (ns, key) log)) as [r|]; [|done]. cbn [fmap option_fmap option_map] in Hh.
    apply bool_decide_eq_true in Es. rewrite <- Es. split; [done|]. unfold counted. by rewrite <- Hh. }
  right. fold (place ns key buf bufsize). unfold bnd at 1. unfold code.
  assert (ELEMENT_MIDDLE_MAX_SIZE <? bufsize = false) as Hmax by (apply Z.ltb_ge, El).
  pose proof (keeps_del ns key s) as Hk. unfold keeps_at in Hk. unfold counted.
  destruct (del_ok s log m (ns, key) R C Hne) as [[Hm E]|([v Hv] & s1 & log1 & E & R1 & C1 & Hne1 & Ef1)];
    cbn [fst snd] in E; rewrite E in *.
  - rewrite bool_decide_eq_true_2 by done. rewrite bnd_ret, Hmax, Hm. exists s, log.
    rewrite (delete_id m (ns, key)), set_nss_id by done. done.
  - destruct (ns_del_count_ok s1 log1 ns R1) as (E2 & R2). rewrite (bnd_ok _ _ _ _ _ E2), Hmax, Hv.
    eexists _, log1. repeat (split; [done|]). cbn [fst] in *.
    destruct Hk as [H1 H2 H3 H4 H5]. constructor; try done. cbn. unfold count_ns. by rewrite H1, H2.
Qed.

(** Writing an element of at most 256 bytes binds its key, whether the current page has room,
    another one is opened, or a page has to be collected; the one other outcome is that there is no
    space, where the key is left without a value. *)
Lemma put_ok s m ns key buf bufsize :
  stores s m -> elem_ok ns key buf bufsize ->
  exists s' r, data_element_put ns key buf bufsize s = (s', r) /\
    same_ns (set_nss (counted s m (ns, key)) s) s' /\
    ((r = inr tt /\ stores s' (<[(ns, key) := slice 0 bufsize buf]> m)) \/
     (r = inl (RET NVDS_E_NO_SPACE) /\ stores s' (delete (ns, key) m) /\ zlen (nvds_page_free s) < 2)).
Proof.
  intros (log & R & C & Hne) El.
  destruct (put_head_ok s log m ns key buf bufsize R C Hne El)
    as [(s1 & E & R1 & Hm & Hs)|(s1 & log1 & E & R1 & C1 & Hne1 & Ef & Hs)]; rewrite E.
  { exists s1, (inr tt). do 2 (split; [done|]). left. split; [done|]. rewrite insert_id by done. by exists log. }
  destruct (place_ok s1 log1 (delete (ns, key) m) ns key buf bufsize R1 C1 Hne1) as (s' & H); [|done|].
  { by rewrite lookup_delete_eq. }
  pose proof (keeps_place ns key buf bufsize s1) as Hk. unfold keeps_at in Hk.
  rewrite insert_delete_eq, Ef in H. destruct H as [(Ep & S)|(Ep & S & Hf)]; rewrite Ep in *; cbn [fst] in Hk.
  - exists s', (inr tt). split; [done|]. split; [by etransitivity|]. by left.
  - eexists s', _. split; [done|]. split; [by etransitivity|]. by right.
Qed.

End Map.
End NvdsMap.
