(* ===== verification/NvdsApi.v ===== *)
(** * NVDS: the exported operations

    What [nvds_data_put], [nvds_data_get] and [nvds_data_del] do to the map from
    (namespace name, key) to values that their callers see. A namespace gets an index the
    first time it is written to; its name is an element of namespace 0; its object counts
    its keys, and goes with the last of them. *)
From S2P Require Import Prelude Crc Flash NvdsTypes Nvds NvdsPage NvdsStore NvdsPut NvdsGc NvdsFrame NvdsMap.
Open Scope Z_scope.

Module NvdsApi.
Import NvdsTypes Nvds NvdsPage NvdsStore NvdsPut NvdsGc NvdsFrame NvdsMap.

(** ** The view of the callers *)

Abbreviation table_t := (list (list Z * Z)).

Fixpoint assoc (names : table_t) (name : list Z) : option Z :=
  match names with
  | [] => None
  | (n, i) :: names => if bool_decide (n = name) then Some i else assoc names name
  end.

(** [None] is the [NULL] namespace. *)
Definition idx_of (names : table_t) (ns : option (list Z)) : option Z :=
  match ns with None => Some NAMESPACE_NULL_IDX | Some name => assoc names name end.

Definition view_t : Type := option (list Z) -> list Z -> option (list Z).

Definition view (names : table_t) (m : kmap) : view_t :=
  fun ns key => match idx_of names ns with Some i => m !! (i, key) | None => None end.

Definition bind (v : view_t) (ns : option (list Z)) (key : list Z) (o : option (list Z)) : view_t :=
  fun ns' key' => if decide ((ns', key') = (ns, key)) then o else v ns' key'.

Lemma assoc_in names name i : NoDup names.*1 -> assoc names name = Some i <-> (name, i) ∈ names.
Proof.
  induction names as [|[n j] names IH]; cbn [assoc fmap list_fmap fst]; intros Nd.
  { split; [done|]. by intros H%not_elem_of_nil. }
  apply NoDup_cons in Nd as [Hn Nd]. specialize (IH Nd). rewrite elem_of_cons. case_bool_decide as D.
  - subst n. split; [intros [= ->]; by left|]. intros [[= ->]|Hin]; [done|].
    exfalso. apply Hn. by apply (list_elem_of_fmap_2 fst) in Hin.
  - rewrite IH. split; [by right|]. intros [[= -> ->]|?]; done.
Qed.

Lemma assoc_none names name : assoc names name = None <-> name ∉ names.*1.
Proof.
  induction names as [|[n j] names IH]; cbn [assoc fmap list_fmap fst].
  { split; [|done]. intros _. apply not_elem_of_nil. }
  rewrite not_elem_of_cons. case_bool_decide as D; [naive_solver|]. rewrite IH. naive_solver.
Qed.

Lemma assoc_app names names' name :
  assoc (names ++ names') name = match assoc names name with Some i => Some i | None => assoc names' name end.
Proof. induction names as [|[n j] names IH]; cbn [assoc app]; [done|]. by case_bool_decide. Qed.

(** Two namespaces have different indexes. *)
Lemma idx_of_inj names ns ns' i :
  NoDup names.*2 -> (forall j, j ∈ names.*2 -> 1 <= j <= 253) ->
  idx_of names ns = Some i -> idx_of names ns' = Some i -> ns = ns'.
Proof.
  intros Nd V. assert (forall name, assoc names name = Some i -> (name, i) ∈ names) as Hin.
  { clear. intros name. induction names as [|[n j] names IH]; cbn [assoc]; [done|].
    rewrite elem_of_cons. case_bool_decide; [intros [= ->]; subst; by left|]. intros. right. auto. }
  assert (forall name, (name, i) ∈ names -> i ∈ names.*2) as Hsnd by (intros name ?; apply list_elem_of_fmap; by exists (name, i)).
  destruct ns as [name|], ns' as [name'|]; cbn [idx_of]; try done.
  - intros H1%Hin H2%Hin. apply list_elem_of_lookup in H1 as [k H1], H2 as [k' H2].
    assert (k = k') as ->; [|congruence].
    eapply (NoDup_lookup _ _ _ i Nd); rewrite list_lookup_fmap; [by rewrite H1|by rewrite H2].
  - intros H1%Hin [= <-]. apply Hsnd, V in H1. unfold NAMESPACE_NULL_IDX in H1. lia.
  - intros [= <-] H1%Hin. apply Hsnd, V in H1. unfold NAMESPACE_NULL_IDX in H1. lia.
Qed.

(** The keys of a namespace. *)
Definition keys_in (m : kmap) (i : Z) : Z := Z.of_nat (size (filter (fun kv => kv.1.1 = i) m)).

Lemma keys_in_insert_new m k v i :
  m !! k = None -> keys_in (<[k := v]> m) i = keys_in m i + if decide (k.1 = i) then 1 else 0.
Proof.
  intros Hk. unfold keys_in. rewrite map_filter_insert. case_decide as D; cbn [fst] in D.
  - destruct (decide _); [|done]. rewrite map_size_insert_None; [lia|]. by apply map_lookup_filter_None; left.
  - destruct (decide _); [done|]. rewrite delete_id by done. lia.
Qed.

Lemma keys_in_delete m k i v :
  m !! k = Some v -> keys_in (delete k m) i = keys_in m i - if decide (k.1 = i) then 1 else 0.
Proof.
  intros Hk. rewrite <- (insert_delete_id m k v Hk) at 2.
  rewrite keys_in_insert_new by apply lookup_delete_eq. lia.
Qed.

Lemma keys_in_insert m k v i :
  keys_in (<[k := v]> m) i = keys_in m i + if decide (k.1 = i) then (if m !! k then 0 else 1) else 0.
Proof.
  destruct (m !! k) as [v'|] eqn:E.
  - rewrite <- insert_delete_eq, keys_in_insert_new by apply lookup_delete_eq.
    rewrite (keys_in_delete _ _ _ _ E). destruct (decide _); lia.
  - by rewrite keys_in_insert_new.
Qed.

Lemma keys_in_pos m k v : m !! k = Some v -> 1 <= keys_in m k.1.
Proof.
  intros Hk. pose proof (keys_in_delete m k k.1 v Hk) as E. rewrite decide_True in E by done.
  unfold keys_in in *. lia.
Qed.

Lemma keys_in_le m i : keys_in m i <= Z.of_nat (size m).
Proof.
  unfold keys_in. apply inj_le, map_size_filter.
Qed.

Lemma keys_in_zero m i k : keys_in m i = 0 -> k.1 = i -> m !! k = None.
Proof.
  intros Hz <-. destruct (m !! k) eqn:E; [|done]. apply keys_in_pos in E. lia.
Qed.

Section Api.
Context {F : Type} {Fl : Flash F} {FL : FlashLaws F} {Ci : Cipher}.
Variable good : F -> Prop.
Hypothesis Hgood : reliable good.
Implicit Types (s : env F) (pg : page) (m : kmap) (names : table_t).

(** The object [n] of a namespace: its name, its index, and how many keys it has. *)
Definition obj_cnt (nm : gmap Z namespace_info) (c : Z -> Z) (n : Z) (x : list Z * Z) : Prop :=
  nm !! n = Some (mk_ns x.1 x.2 (u32 (c x.2))).
Abbreviation obj_ok nm m := (obj_cnt nm (keys_in m)).

Definition name_ok (x : list Z * Z) : Prop := is_str x.1 /\ zlen x.1 <= 15 /\ 1 <= x.2 <= 253.

(** The elements of the store and its namespaces. *)
Record api_rep s names m : Prop := {
  ap_stores : stores good s m;
  ap_table : Forall2 (obj_ok (nss s) m) (ns_list s) names;
  ap_objs : NoDup (ns_list s);
  ap_names : NoDup names.*1;
  ap_idx : NoDup names.*2;
  ap_valid : Forall name_ok names;
  ap_saved name v : m !! (0, name) = Some v <-> exists i, v = [i] /\ (name, i) ∈ names;
  ap_dom i key : is_Some (m !! (i, key)) -> i = 0 \/ i = NAMESPACE_NULL_IDX \/ i ∈ names.*2;
  ap_states : table (ns_states s);
  ap_used i : 1 <= i <= 253 -> ns_state_get (ns_states s) i = bool_decide (i ∈ names.*2);
  ap_mallocs : mallocs s = [];
  ap_next n : n ∈ ns_list s -> n < next_addr s
}.

(** What the callers of the store see. *)
Definition api s (v : view_t) : Prop :=
  exists names m, api_rep s names m /\ forall ns key, v ns key = view names m ns key.

(** ** Finding a namespace *)

Lemma ns_by_name_ok s m name : forall l names,
  Forall2 (obj_ok (nss s) m) l names ->
  exists r, ns_by_name l name s = (s, inr r) /\
    match r with
    | Some n => exists i, nss s !! n = Some (mk_ns name i (u32 (keys_in m i))) /\ assoc names name = Some i
    | None => assoc names name = None
    end.
Proof.
  intros l names T. induction T as [|n [nm i] l names Hn T IH]; cbn [ns_by_name assoc]; [by exists None|].
  mstep_with (ns_get_ok _ _ _ Hn). cbn [ns_name fst snd]. case_bool_decide as D.
  - subst. exists (Some n). split; [done|]. by exists i.
  - exact IH.
Qed.

Lemma ns_index_ok s names m name create :
  api_rep s names m -> zlen name <= 15 ->
  ns_index_by_namespace (Some name) create s =
    match assoc names name with
    | Some i => (s, inr i)
    | None => if create then namespace_create name s else (s, inl (RET NVDS_E_NOT_FOUND))
    end.
Proof.
  intros A Hl. unfold ns_index_by_namespace, KEY_NAME_MAX_SIZE. destruct (Z.ltb_spec (16 - 1) (zlen name)); [lia|].
  rewrite bnd_get. destruct (ns_by_name_ok s m name _ _ (ap_table _ _ _ A)) as (r & E & Hr). mstep_with E.
  destruct r as [n|].
  - destruct Hr as (i & Hn & ->). by mstep_with (ns_get_ok _ _ _ Hn).
  - rewrite Hr. by destruct create.
Qed.

Lemma find_ns_ok c nm i l names :
  Forall2 (obj_cnt nm c) l names ->
  match find_ns nm l i with
  | Some n => exists name, (name, i) ∈ names /\ n ∈ l /\ nm !! n = Some (mk_ns name i (u32 (c i)))
  | None => i ∉ names.*2
  end.
Proof.
  induction 1 as [|n [nm' j] l names Hn T IH]; cbn [find_ns fmap list_fmap snd]; [apply not_elem_of_nil|].
  rewrite Hn. cbn [fmap option_fmap option_map ns_index snd]. case_bool_decide as D.
  - injection D as ->. exists nm'. split; [by left|]. split; [by left|done].
  - destruct (find_ns nm l i) as [n'|].
    + destruct IH as (name & ? & ? & ?). exists name. split; [by right|]. split; [by right|done].
    + apply not_elem_of_cons. split; [congruence|done].
Qed.

(** The table after the counter of one namespace has moved. *)
Lemma count_table nm (c c' : Z -> Z) l names i d :
  Forall2 (obj_cnt nm c) l names -> NoDup l -> NoDup names.*2 ->
  (forall j, j ∈ names.*2 -> c' j = c j + if decide (i = j) then d else 0) ->
  Forall2 (obj_cnt (match find_ns nm l i with Some n => alter (bump d) n nm | None => nm end) c') l names.
Proof.
  intros T Nl Nn Hk. pose proof (find_ns_ok c nm i l names T) as Hf.
  apply Forall2_same_length_lookup. split; [by eapply Forall2_length|].
  intros k n [name j] Hl Hn. pose proof (Forall2_lookup_lr _ _ _ _ _ _ T Hl Hn) as Hobj.
  assert (j ∈ names.*2) as Hj.
  { apply list_elem_of_fmap. exists (name, j). split; [done|]. by eapply list_elem_of_lookup_2. }
  specialize (Hk j Hj). unfold obj_cnt in *. cbn [fst snd] in *. rewrite Hk.
  destruct (find_ns nm l i) as [n'|].
  - destruct Hf as (name' & Hin & Hin' & Hn'). destruct (decide (n' = n)) as [->|Hne].
    + rewrite lookup_alter_eq, Hobj. rewrite Hobj in Hn'. injection Hn' as -> -> _. rewrite decide_True by done.
      cbn. unfold bump. cbn. by rewrite wrap_add_idemp_l.
    + rewrite lookup_alter_ne by done. rewrite Hobj. destruct (decide (i = j)) as [->|]; [|by rewrite Z.add_0_r].
      exfalso. apply Hne. apply list_elem_of_lookup in Hin' as [k' Hl'].
      destruct (Forall2_lookup_l _ _ _ _ _ T Hl') as ([name2 j2] & Hx2 & Ho2). unfold obj_cnt in Ho2.
      rewrite Hn' in Ho2. injection Ho2 as _ <- _.
      assert (k' = k) as ->; [|congruence].
      eapply (NoDup_lookup _ _ _ j Nn); rewrite list_lookup_fmap; [by rewrite Hx2|by rewrite Hn].
  - rewrite decide_False; [by rewrite Z.add_0_r|]. by intros ->.
Qed.

(** ** Moving one element of a namespace *)

(** An index a caller can write under: the [NULL] namespace's, or one of the table. *)
Definition user_idx names (i : Z) : Prop := i = NAMESPACE_NULL_IDX \/ i ∈ names.*2.

Lemma idx_range names i : Forall name_ok names -> i ∈ names.*2 -> 1 <= i <= 253.
Proof.
  intros V Hi. apply list_elem_of_fmap in Hi as ([n j] & -> & Hin). rewrite Forall_forall in V.
  by apply (V _ Hin).
Qed.

Lemma user_idx_range names i : Forall name_ok names -> user_idx names i -> 1 <= i < 256.
Proof. intros V [->|Hi]; [done|]. pose proof (idx_range names i V Hi). lia. Qed.

Lemma count_table' s m m' names i d :
  Forall2 (obj_ok (nss s) m) (ns_list s) names -> NoDup (ns_list s) -> NoDup names.*2 -> Forall name_ok names ->
  (forall j, keys_in m' j = keys_in m j + if decide (i = j) then d else 0) ->
  Forall2 (obj_ok (count_ns d s i) m') (ns_list s) names.
Proof.
  intros T Nl Nn V Hk. pose proof (count_table (nss s) (keys_in m) (keys_in m') (ns_list s) names i d T Nl Nn (fun j _ => Hk j)) as H.
  unfold count_ns, NAMESPACE_MAX_CNT. destruct (Z.ltb_spec 253 i); [|done].
  pose proof (find_ns_ok (keys_in m) (nss s) i _ _ T) as Hf. destruct (find_ns _ _ _) as [n|]; [|done].
  destruct Hf as (name & Hin & _). exfalso.
  assert (i ∈ names.*2) as Hi by (apply list_elem_of_fmap; by exists (name, i)).
  pose proof (idx_range _ _ V Hi). lia.
Qed.

(** The objects after the old value of a key is counted out. *)
Lemma counted_table s names m k :
  api_rep s names m -> Forall2 (obj_ok (counted s m k) (delete k m)) (ns_list s) names.
Proof.
  intros A. unfold counted. destruct (m !! k) as [v|] eqn:E.
  - apply (count_table' s m); try apply A. intros j. rewrite (keys_in_delete _ _ _ _ E).
    destruct (decide (k.1 = j)); lia.
  - rewrite delete_id by done. apply A.
Qed.

(** The same namespaces over other elements. *)
Lemma api_move s s' names m m' i :
  api_rep s names m -> stores good s' m' ->
  ns_list s' = ns_list s -> ns_states s' = ns_states s -> mallocs s' = mallocs s -> next_addr s' = next_addr s ->
  Forall2 (obj_ok (nss s') m') (ns_list s) names -> user_idx names i ->
  (forall k, k.1 <> i -> m' !! k = m !! k) -> api_rep s' names m'.
Proof.
  intros A S El Es Em En T U Hm. pose proof (user_idx_range _ _ (ap_valid _ _ _ A) U).
  constructor; rewrite ?El, ?Es, ?Em, ?En; try apply A; try done.
  - intros name v. rewrite Hm by (cbn; lia). apply A.
  - intros j key. destruct (decide (j = i)) as [->|Hne]; [intros _; right; exact U|].
    rewrite Hm by done. apply A.
Qed.

Lemma names_range names : Forall name_ok names -> forall j, j ∈ names.*2 -> 1 <= j <= 253.
Proof. intros V j. by apply idx_range. Qed.

Lemma view_insert names m ns key i v :
  NoDup names.*2 -> Forall name_ok names -> idx_of names ns = Some i ->
  forall ns' key', view names (<[(i, key) := v]> m) ns' key' = bind (view names m) ns key (Some v) ns' key'.
Proof.
  intros Nd V Hi ns' key'. unfold bind, view. case_decide as D.
  - injection D as -> ->. by rewrite Hi, lookup_insert_eq.
  - destruct (idx_of names ns') as [i'|] eqn:Hi'; [|done]. rewrite lookup_insert_ne; [done|].
    intros [= -> ->]. apply D. f_equal. symmetry.
    by apply (idx_of_inj names ns ns' i' Nd (names_range _ V)).
Qed.

Lemma view_delete names m ns key i :
  NoDup names.*2 -> Forall name_ok names -> idx_of names ns = Some i ->
  forall ns' key', view names (delete (i, key) m) ns' key' = bind (view names m) ns key None ns' key'.
Proof.
  intros Nd V Hi ns' key'. unfold bind, view. case_decide as D.
  - injection D as -> ->. by rewrite Hi, lookup_delete_eq.
  - destruct (idx_of names ns') as [i'|] eqn:Hi'; [|done]. rewrite lookup_delete_ne; [done|].
    intros [= -> ->]. apply D. f_equal. symmetry.
    by apply (idx_of_inj names ns ns' i' Nd (names_range _ V)).
Qed.

(** ** Reading *)

Definition name_arg (ns : option (list Z)) : Prop :=
  match ns with Some name => is_str name /\ zlen name <= 15 | None => True end.

Lemma ns_index_arg s names m ns create :
  api_rep s names m -> name_arg ns ->
  ns_index_by_namespace ns create s =
    match idx_of names ns with
    | Some i => (s, inr i)
    | None => match ns with
              | Some name => if create then namespace_create name s else (s, inl (RET NVDS_E_NOT_FOUND))
              | None => (s, inl (RET NVDS_E_NOT_FOUND))
              end
    end.
Proof.
  intros A Hn. destruct ns as [name|]; [|done]. by apply (ns_index_ok s names m name create A), Hn.
Qed.

(** [nvds_data_get] returns the value the callers' view has for the key, if it fits. *)
Lemma data_get_ok s v ns key buf length :
  api s v -> name_arg ns -> zlen key <= 15 ->
  match buf with None => True | Some b => length <= zlen b end ->
  nvds_data_get true ns (Some key) buf (Some length) s =
    (s, match v ns key with
        | None => inl (RET NVDS_E_NOT_FOUND)
        | Some d =>
            match buf with
            | None => inr (NVDS_OK, zlen d, None)
            | Some b =>
                if length <? zlen d then inr (NVDS_E_INVALID_LENGTH, zlen d, buf)
                else inr (NVDS_OK, zlen d, Some (splice 0 d b))
            end
        end).
Proof.
  intros (names & m & A & Hv) Hn Hk Hb. rewrite Hv. unfold nvds_data_get, key_bad, KEY_NAME_MAX_SIZE.
  destruct (Z.ltb_spec (16 - 1) (zlen key)); [lia|]. cbn [negb]. unfold bnd at 1.
  rewrite (ns_index_arg s names m ns false A Hn). unfold view.
  destruct (idx_of names ns) as [i|]; [|by destruct ns].
  apply (get_ok good Hgood s m (i, key) buf length (ap_stores _ _ _ A) Hb).
Qed.

(** ** A new namespace *)

Lemma free_idx_ok st : forall n i, 1 <= i -> i + Z.of_nat n = 254 ->
  i <= free_ns_idx n st i <= 254 /\ (free_ns_idx n st i < 254 -> ns_state_get st (free_ns_idx n st i) = false).
Proof.
  induction n as [|n IH]; intros i Hi Hn; cbn [free_ns_idx]; [lia|].
  destruct (ns_state_get st i) eqn:E; [|lia || (split; [lia|done])].
  destruct (IH (i + 1)) as [H1 H2]; [lia|lia|]. split; [lia|done].
Qed.

Lemma keys_in_none m i : (forall key, m !! (i, key) = None) -> keys_in m i = 0.
Proof.
  intros H. unfold keys_in. rewrite map_empty_filter_2; [by rewrite map_size_empty|].
  intros [j key] v Hl. cbn. intros ->. by rewrite H in Hl.
Qed.

Lemma stores_ns s m n : stores good s m -> n ∈ ns_list s -> is_Some (nss s !! n).
Proof. intros (log & R & _). apply R. Qed.

Lemma unused_keys s names m i :
  api_rep s names m -> 1 <= i <= 253 -> i ∉ names.*2 -> forall key, m !! (i, key) = None.
Proof.
  intros A Hi Hn key. destruct (m !! (i, key)) as [v|] eqn:E; [|done].
  destruct (ap_dom _ _ _ A i key) as [->|[->|?]]; [eauto|lia|unfold NAMESPACE_NULL_IDX in *; lia|done].
Qed.

(** The state [namespace_create] leaves once the name is stored. *)
Lemma api_create s s2 names m name i :
  api_rep s names m -> is_str name -> zlen name <= 15 -> name ∉ names.*1 -> 1 <= i <= 253 -> i ∉ names.*2 ->
  same_ns (set_alloc [] (next_addr s + 1) s) s2 -> stores good s2 (<[(0, name) := [i]]> m) ->
  api_rep (set_ns_list (ns_list s2 ++ [next_addr s])
            (set_nss (<[next_addr s := mk_ns name i 0]> (nss s2)) (set_ns_states (ns_state_set (ns_states s2) i true) s2)))
    (names ++ [(name, i)]) (<[(0, name) := [i]]> m).
Proof.
  intros A Hs Hl Hn Hi Hni [E1 E2 E3 E4 E5] S. cbn in E1, E2, E3, E4, E5. set (a := next_addr s) in *.
  pose proof (unused_keys _ _ _ _ A Hi Hni) as Hun.
  assert (forall j, 1 <= j -> keys_in (<[(0, name) := [i]]> m) j = keys_in m j) as Hk.
  { intros j Hj. rewrite keys_in_insert. cbn [fst]. rewrite decide_False by lia. lia. }
  assert (Forall2 (obj_ok (<[a := mk_ns name i 0]> (nss s2)) (<[(0, name) := [i]]> m))
            (ns_list s2 ++ [a]) (names ++ [(name, i)])) as T.
  { rewrite E1, E2. apply Forall2_app.
    - pose proof (ap_table _ _ _ A) as T. pose proof (ap_valid _ _ _ A) as V. pose proof (ap_next _ _ _ A) as N.
      apply Forall2_same_length_lookup. split; [by eapply Forall2_length|]. intros k n x Hl' Hx.
      pose proof (Forall2_lookup_lr _ _ _ _ _ _ T Hl' Hx) as Ho. unfold obj_cnt in *.
      apply list_elem_of_lookup_2 in Hl'. apply N in Hl'. rewrite lookup_insert_ne by (unfold a; lia).
      rewrite Hk; [done|]. rewrite Forall_forall in V. apply list_elem_of_lookup_2 in Hx. apply V in Hx. by apply Hx.
    - constructor; [|constructor]. unfold obj_cnt. cbn [fst snd]. rewrite lookup_insert_eq, Hk by lia.
      by rewrite (keys_in_none m i). }
  constructor; cbn [ns_list nss ns_states mallocs next_addr set_ns_list set_nss set_ns_states].
  - apply (stores_same good s2); try done. cbn. intros n Hin. apply elem_of_app in Hin as [Hin|Hin].
    + destruct (decide (a = n)) as [->|Hne]; [rewrite lookup_insert_eq; eauto|].
      rewrite lookup_insert_ne by done. by eapply stores_ns.
    + apply list_elem_of_singleton in Hin as ->. rewrite lookup_insert_eq. eauto.
  - exact T.
  - rewrite E1. apply NoDup_app. split; [apply A|]. split; [|apply NoDup_singleton].
    intros n Hin Hin'. apply list_elem_of_singleton in Hin' as ->. apply (ap_next _ _ _ A) in Hin. unfold a in Hin. lia.
  - rewrite fmap_app. cbn [fmap list_fmap fst]. apply NoDup_app. split; [apply A|]. split; [|apply NoDup_singleton].
    intros x Hin Hin'. by apply list_elem_of_singleton in Hin' as ->.
  - rewrite fmap_app. cbn [fmap list_fmap snd]. apply NoDup_app. split; [apply A|]. split; [|apply NoDup_singleton].
    intros x Hin Hin'. by apply list_elem_of_singleton in Hin' as ->.
  - apply Forall_app. split; [apply A|]. constructor; [by split|constructor].
  - intros nm v. setoid_rewrite elem_of_app. setoid_rewrite list_elem_of_singleton.
    destruct (decide (nm = name)) as [->|Hne].
    + rewrite lookup_insert_eq. split.
      * intros [= <-]. exists i. auto.
      * intros (j & -> & [Hin|[= ->]]); [|done]. apply (list_elem_of_fmap_2 fst) in Hin. done.
    + rewrite lookup_insert_ne by congruence. rewrite (ap_saved _ _ _ A). naive_solver.
  - intros j key. rewrite fmap_app, elem_of_app. destruct (decide ((0, name) = (j, key))) as [[= <- <-]|Hne]; [by left|].
    rewrite lookup_insert_ne by done. intros Hd. destruct (ap_dom _ _ _ A j key Hd) as [|[|]]; auto.
  - rewrite E3. apply ns_state_set_table, A.
  - intros j Hj. rewrite E3, ns_state_get_set by (apply A || lia). rewrite (ap_used _ _ _ A j Hj).
    rewrite fmap_app. cbn [fmap list_fmap snd]. destruct (Z.eqb_spec i j) as [->|Hne].
    + symmetry. apply bool_decide_eq_true_2. rewrite elem_of_app, list_elem_of_singleton. by right.
    + apply bool_decide_ext. rewrite elem_of_app, list_elem_of_singleton. naive_solver.
  - done.
  - intros n Hin. rewrite E1 in Hin. rewrite E5. apply elem_of_app in Hin as [Hin|Hin].
    + apply (ap_next _ _ _ A) in Hin. unfold a. lia.
    + apply list_elem_of_singleton in Hin as ->. lia.
Qed.

Lemma saved_none s names m name : api_rep s names m -> name ∉ names.*1 -> m !! (0, name) = None.
Proof.
  intros A Hn. destruct (m !! (0, name)) as [v|] eqn:E; [|done].
  apply (ap_saved _ _ _ A) in E as (i & _ & Hin). exfalso. apply Hn. by apply (list_elem_of_fmap_2 fst) in Hin.
Qed.

Lemma create_ok s names m name :
  api_rep s names m -> is_str name -> zlen name <= 15 -> name ∉ names.*1 ->
  exists s' r, namespace_create name s = (s', r) /\
    ((exists i, r = inr i /\ 1 <= i <= 253 /\ i ∉ names.*2 /\
        api_rep s' (names ++ [(name, i)]) (<[(0, name) := [i]]> m)) \/
     (r = inl (RET NVDS_E_NO_SPACE) /\ exists names', api_rep s' names' m /\ names' = names)).
Proof.
  intros A Hs Hl Hn. unfold namespace_create. rewrite bnd_get. cbv zeta.
  change (Z.to_nat (NAMESPACE_NULL_IDX - 1)) with 253%nat.
  destruct (free_idx_ok (ns_states s) 253 1) as [Hr Hf]; [lia|lia|].
  set (i := free_ns_idx 253 (ns_states s) 1) in *. unfold NAMESPACE_NULL_IDX.
  destruct (Z.eqb_spec i 254) as [_|Hne].
  { eexists s, _. split; [done|]. right. split; [done|]. by exists names. }
  specialize (Hf ltac:(lia)). rewrite (ap_used _ _ _ A i) in Hf by lia. apply bool_decide_eq_false in Hf.
  unfold sys_malloc. rewrite bnd_assoc, bnd_get, (ap_mallocs _ _ _ A), bnd_assoc, bnd_put, bnd_ret.
  set (s1 := set_alloc [] (next_addr s + 1) s).
  assert (stores good s1 m) as S1.
  { apply (stores_same good s); try done; [apply A|]. intros n. apply (stores_ns s m n), A. }
  assert (elem_ok 0 name [i] 1) as El.
  { constructor; try done; try lia. constructor; [lia|constructor]. }
  pose proof (saved_none _ _ _ _ A Hn) as Hm.
  destruct (put_ok good Hgood s1 m 0 name [i] 1 S1 El) as (s2 & r & E & Sm & H).
  unfold counted in Sm. rewrite Hm in Sm. change (set_nss (nss s1) s1) with s1 in Sm. unfold bnd at 1. rewrite E.
  destruct H as [(-> & S2)|(-> & S2 & _)].
  - eexists _, _. split; [done|]. left. exists i. split; [done|]. split; [lia|]. split; [done|].
    apply (api_create s s2); try done; lia.
  - exists s2, (inl (RET NVDS_E_NO_SPACE)). split; [done|]. right. split; [done|]. exists names. split; [|done].
    rewrite delete_id in S2 by done. destruct Sm as [E1 E2 E3 E4 E5]. cbn in E1, E2, E3, E4, E5.
    destruct A. constructor; rewrite ?E1, ?E2, ?E3, ?E4, ?E5; try done.
    intros n Hin. apply ap_next0 in Hin. lia.
Qed.

(** The view is the same with a new, empty namespace. *)
Lemma view_create s names m name i ns key :
  api_rep s names m -> name ∉ names.*1 -> 1 <= i <= 253 -> i ∉ names.*2 ->
  view (names ++ [(name, i)]) (<[(0, name) := [i]]> m) ns key = view names m ns key.
Proof.
  intros A Hn Hi Hni. unfold view.
  assert (forall j, 1 <= j -> <[(0, name) := [i]]> m !! (j, key) = m !! (j, key)) as Hj.
  { intros j ?. rewrite lookup_insert_ne; [done|]. intros [=]. lia. }
  destruct ns as [nm|]; cbn [idx_of]; [|by apply Hj]. rewrite assoc_app. cbn [assoc].
  destruct (assoc names nm) as [j|] eqn:E.
  - apply Hj. apply (assoc_in _ _ _ (ap_names _ _ _ A)) in E.
    apply (list_elem_of_fmap_2 snd) in E. cbn in E. pose proof (idx_range _ _ (ap_valid _ _ _ A) E). lia.
  - case_bool_decide; [|done]. rewrite Hj by lia. apply (unused_keys s names m i A Hi Hni).
Qed.

(** ** Writing *)

Record put_args (ns : option (list Z)) (key data : list Z) (length : Z) : Prop := {
  pa_ns : name_arg ns;
  pa_key : is_str key;
  pa_klen : zlen key <= 15;
  pa_data : bytes data;
  pa_len : 0 < length <= zlen data;
  pa_max : length <= ELEMENT_MIDDLE_MAX_SIZE
}.

(** Writing once the index is known. *)
Lemma put_idx_ok s names m i key data length :
  api_rep s names m -> user_idx names i -> is_str key -> zlen key <= 15 -> bytes data ->
  0 < length <= zlen data -> length <= ELEMENT_MIDDLE_MAX_SIZE ->
  exists s' r, (data_element_put i key data length ;;; ignore (ns_add_used_cnt i))%fw s = (s', r) /\
    ((r = inr tt /\ api_rep s' names (<[(i, key) := slice 0 length data]> m)) \/
     (r = inl (RET NVDS_E_NO_SPACE) /\ api_rep s' names (delete (i, key) m) /\
      zlen (nvds_page_free s) < 2)).
Proof.
  intros A U Hk Hkl Hd Hl Hmax. pose proof (user_idx_range _ _ (ap_valid _ _ _ A) U) as Hi.
  assert (elem_ok i key data length) as El by (constructor; done || lia).
  destruct (put_ok good Hgood s m i key data length (ap_stores _ _ _ A) El) as (s1 & r & E & [E1 E2 E3 E4 E5] & H).
  cbn in E1, E2, E3, E4, E5. pose proof (counted_table s names m (i, key) A) as T.
  unfold bnd at 1. rewrite E. destruct H as [(-> & S)|(-> & S & Hfree)].
  - destruct S as (log & R & C). destruct (ns_add_count_ok good s1 log i R) as (E6 & R6). rewrite E6.
    eexists _, _. split; [done|]. left. split; [done|].
    apply (api_move s _ names m _ i); try done.
    + by exists log.
    + cbn. rewrite <- E1. apply (count_table' s1 (delete (i, key) m)); rewrite ?E1, ?E2; try done; try apply A.
      intros j. rewrite <- (insert_delete_eq m). rewrite keys_in_insert_new by apply lookup_delete_eq. done.
    + intros k Hne. apply lookup_insert_ne. intros <-. done.
  - exists s1, (inl (RET NVDS_E_NO_SPACE)). split; [done|]. right. split; [done|]. split; [|done].
    apply (api_move s _ names m _ i); try done.
    + by rewrite E2.
    + intros k Hne. apply lookup_delete_ne. intros <-. done.
Qed.

Lemma api_bind s names m ns key i (v : view_t) o s' :
  api_rep s names m -> (forall ns key, v ns key = view names m ns key) -> idx_of names ns = Some i ->
  api_rep s' names (match o with Some d => <[(i, key) := d]> m | None => delete (i, key) m end) ->
  api s' (bind v ns key o).
Proof.
  intros A Hv Hi A'. exists names, (match o with Some d => <[(i, key) := d]> m | None => delete (i, key) m end).
  split; [done|]. intros ns' key'. destruct o as [d|].
  - rewrite (view_insert names m ns key i d (ap_idx _ _ _ A) (ap_valid _ _ _ A) Hi). unfold bind.
    case_decide; [done|apply Hv].
  - rewrite (view_delete names m ns key i (ap_idx _ _ _ A) (ap_valid _ _ _ A) Hi). unfold bind.
    case_decide; [done|apply Hv].
Qed.

Lemma idx_user names m s ns i :
  api_rep s names m -> idx_of names ns = Some i -> user_idx names i.
Proof.
  intros A. destruct ns as [name|]; cbn [idx_of]; [|intros [= <-]; by left].
  intros Hin%(assoc_in _ _ _ (ap_names _ _ _ A)). right. by apply (list_elem_of_fmap_2 snd) in Hin.
Qed.

(** The same, told on the callers' view, for a namespace that has an index. *)
Lemma data_put_known_ok s v ns key data length names m i :
  api_rep s names m -> (forall ns key, v ns key = view names m ns key) -> idx_of names ns = Some i ->
  put_args ns key data length ->
  exists s' r, (data_element_put i key data length ;;; ignore (ns_add_used_cnt i))%fw s = (s', r) /\
    ((r = inr tt /\ api s' (bind v ns key (Some (slice 0 length data)))) \/
     (r = inl (RET NVDS_E_NO_SPACE) /\ api s' (bind v ns key None) /\ zlen (nvds_page_free s) < 2)).
Proof.
  intros A Hv Hi [Hn Hk Hkl Hd Hl Hmax].
  destruct (put_idx_ok s names m i key data length A (idx_user _ _ _ _ _ A Hi) Hk Hkl Hd Hl Hmax)
    as (s' & r & E & Hr). exists s', r. split; [done|].
  destruct Hr as [(-> & A')|(-> & A' & Hf)]; [left|right]; (split; [done|]).
  - exact (api_bind s names m ns key i v (Some _) s' A Hv Hi A').
  - split; [|done]. exact (api_bind s names m ns key i v None s' A Hv Hi A').
Qed.

Lemma data_put_enter ns key data length s :
  put_args ns key data length ->
  nvds_data_put true ns (Some key) (Some data) length s =
    (let! i := ns_index_by_namespace ns true in
     data_element_put i key data length ;;; ignore (ns_add_used_cnt i))%fw s.
Proof.
  intros [Hn Hk Hkl Hd Hl Hmax].
  unfold nvds_data_put, key_bad, KEY_NAME_MAX_SIZE, ELEMENT_BULK_MAX_SIZE, ELEMENT_MIDDLE_MAX_SIZE in *.
  destruct (Z.eqb_spec length 0); [lia|]. destruct (Z.ltb_spec 12800 length); [lia|].
  destruct (Z.ltb_spec (16 - 1) (zlen key)); [lia|]. done.
Qed.

(** With two free pages, a key of a known namespace can always be written. *)
Lemma data_put_room_ok s v ns key data length :
  api s v -> put_args ns key data length -> 2 <= zlen (nvds_page_free s) ->
  (ns = None \/ exists key0 d, v ns key0 = Some d) ->
  exists s', nvds_data_put true ns (Some key) (Some data) length s = (s', inr tt) /\
    api s' (bind v ns key (Some (slice 0 length data))).
Proof.
  intros (names & m & A & Hv) P Hf Hns. rewrite data_put_enter by done.
  assert (exists i, idx_of names ns = Some i) as [i Hi].
  { destruct Hns as [->|(k0 & d & Hd)]; [by eexists|]. rewrite Hv in Hd. unfold view in Hd.
    destruct (idx_of names ns); [eauto|done]. }
  unfold bnd at 1. rewrite (ns_index_arg s names m ns true A (pa_ns _ _ _ _ P)), Hi.
  destruct (data_put_known_ok s v ns key data length names m i A Hv Hi P) as (s' & r & E & Hr). rewrite E.
  destruct Hr as [(-> & A')|(_ & _ & Hlt)]; [eauto|lia].
Qed.

(** [nvds_data_put] binds the key to the data in the callers' view, creating the namespace if
    it is new, and changes no other key of any namespace; the one other outcome is
    [NVDS_E_NO_SPACE], which leaves the key without a value. *)
Lemma data_put_ok s v ns key data length :
  api s v -> put_args ns key data length ->
  exists s' r, nvds_data_put true ns (Some key) (Some data) length s = (s', r) /\
    ((r = inr tt /\ api s' (bind v ns key (Some (slice 0 length data)))) \/
     (r = inl (RET NVDS_E_NO_SPACE) /\ api s' (bind v ns key None))).
Proof.
  intros (names & m & A & Hv) P. rewrite data_put_enter by done. unfold bnd at 1.
  rewrite (ns_index_arg s names m ns true A (pa_ns _ _ _ _ P)). destruct (idx_of names ns) as [i|] eqn:Hi.
  - destruct (data_put_known_ok s v ns key data length names m i A Hv Hi P) as (s' & r & E & Hr). rewrite E.
    exists s', r. split; [done|]. tauto.
  - destruct ns as [name|]; [|done]. cbn [idx_of] in Hi. destruct (pa_ns _ _ _ _ P) as [Hs Hnl].
    apply assoc_none in Hi as Hnot.
    destruct (create_ok s names m name A Hs Hnl Hnot) as (s1 & r & E & [(i & -> & Hir & Hni & A1)|(-> & names2 & A1 & ->)]);
      rewrite E.
    + assert (idx_of (names ++ [(name, i)]) (Some name) = Some i) as Hi1.
      { cbn [idx_of]. rewrite assoc_app, Hi. cbn [assoc]. by rewrite bool_decide_eq_true_2. }
      assert (forall ns key, v ns key = view (names ++ [(name, i)]) (<[(0, name) := [i]]> m) ns key) as Hv1.
      { intros ns' key'. by rewrite (view_create s). }
      destruct (data_put_known_ok s1 v (Some name) key data length _ _ i A1 Hv1 Hi1 P) as (s' & r & E' & Hr).
      rewrite E'. exists s', r. split; [done|]. tauto.
    + exists s1, (inl (RET NVDS_E_NO_SPACE)). split; [done|]. right. split; [done|]. exists names, m.
      split; [done|]. intros ns' key'. unfold bind.
      case_decide as D; [|done]. injection D as -> ->. unfold view. cbn [idx_of]. by rewrite Hi.
Qed.

(** ** Deleting *)

Lemma assoc_remove x1 x2 name i nm :
  nm <> name -> assoc (x1 ++ x2) nm = assoc (x1 ++ (name, i) :: x2) nm.
Proof. intros Hne. rewrite !assoc_app. cbn [assoc]. by rewrite bool_decide_eq_false_2. Qed.

(** A namespace without keys is taken out: its object, its index and its name. *)
Lemma api_remove s s' l1 n l2 x1 name i x2 m :
  api_rep s (x1 ++ (name, i) :: x2) m -> ns_list s = l1 ++ n :: l2 -> length l1 = length x1 ->
  (forall key, m !! (i, key) = None) -> stores good s' (delete (0, name) m) ->
  ns_list s' = l1 ++ l2 -> nss s' = delete n (nss s) -> ns_states s' = ns_state_set (ns_states s) i false ->
  mallocs s' = mallocs s -> next_addr s' = next_addr s ->
  api_rep s' (x1 ++ x2) (delete (0, name) m).
Proof.
  intros A El Hlen Hun S E1 E2 E3 E4 E5.
  pose proof (ap_objs _ _ _ A) as No. rewrite El in No. pose proof (ap_names _ _ _ A) as Nn.
  pose proof (ap_idx _ _ _ A) as Ni. pose proof (ap_valid _ _ _ A) as V. pose proof (ap_table _ _ _ A) as T.
  rewrite El in T. rewrite fmap_app, fmap_cons in Nn. rewrite fmap_app, fmap_cons in Ni. cbn [fst snd] in Nn, Ni.
  apply NoDup_app in No as (No1 & No2 & No3). apply NoDup_cons in No3 as [No3 No4].
  apply NoDup_app in Nn as (Nn1 & Nn2 & Nn3). apply NoDup_cons in Nn3 as [Nn3 Nn4].
  apply NoDup_app in Ni as (Ni1 & Ni2 & Ni3). apply NoDup_cons in Ni3 as [Ni3 Ni4].
  apply Forall_app in V as [V1 V2]. apply Forall_cons in V2 as [Vn V2].
  assert (forall x, x ∈ l1 ++ l2 -> x ∈ ns_list s /\ x <> n) as Hl.
  { intros x. rewrite El, !elem_of_app, elem_of_cons. intros Hx. split; [tauto|]. intros ->.
    destruct Hx as [Hx|Hx]; [by apply (No2 n Hx); left|done]. }
  assert (forall nm j, (nm, j) ∈ x1 ++ x2 <-> (nm, j) ∈ x1 ++ (name, i) :: x2 /\ nm <> name) as Hx.
  { intros nm j. rewrite !elem_of_app, elem_of_cons. split.
    - intros Hx. split; [tauto|]. intros ->.
      destruct Hx as [Hx|Hx]; apply (list_elem_of_fmap_2 fst) in Hx; [by apply (Nn2 name Hx); left|done].
    - intros [[?|[[=]|?]] ?]; tauto. }
  constructor; rewrite ?E1, ?E2, ?E3, ?E4, ?E5; try done; try apply A.
  - apply Forall2_app_inv in T as [T1 T2]; [|done]. inversion T2 as [|? ? ? ? _ T3]; subst.
    assert (forall l x, Forall2 (obj_ok (nss s) m) l x -> n ∉ l -> Forall name_ok x ->
              Forall2 (obj_ok (delete n (nss s)) (delete (0, name) m)) l x) as Hf.
    { clear. intros l x T. induction T as [|k y l x Hk T IH]; intros Hn V; [constructor|].
      apply not_elem_of_cons in Hn as [Hn1 Hn2]. apply Forall_cons in V as [Vy V].
      constructor; [|by apply IH]. unfold obj_cnt in *. rewrite lookup_delete_ne by done. rewrite Hk.
      do 3 f_equal. destruct (m !! (0, name)) as [v|] eqn:E.
      - rewrite (keys_in_delete _ _ _ _ E). cbn [fst]. destruct Vy as (_ & _ & ?). rewrite decide_False by lia. lia.
      - by rewrite delete_id. }
    apply Forall2_app; apply Hf; try done. intros Hn. by apply (No2 n Hn); left.
  - apply NoDup_app. split; [done|]. split; [|done]. intros x Hx1 Hx2. by apply (No2 x Hx1); right.
  - rewrite fmap_app. apply NoDup_app. split; [done|]. split; [|done]. intros x Hx1 Hx2. by apply (Nn2 x Hx1); right.
  - rewrite fmap_app. apply NoDup_app. split; [done|]. split; [|done]. intros x Hx1 Hx2. by apply (Ni2 x Hx1); right.
  - by apply Forall_app.
  - intros nm v. destruct (decide (nm = name)) as [->|Hne].
    + rewrite lookup_delete_eq. split; [done|]. intros (j & _ & Hin). by apply Hx in Hin as [_ ?].
    + rewrite lookup_delete_ne by congruence. rewrite (ap_saved _ _ _ A). setoid_rewrite Hx. naive_solver.
  - intros j key [v Hv]. apply lookup_delete_Some in Hv as [_ Hv].
    destruct (ap_dom _ _ _ A j key) as [|[|Hj]]; [eauto|tauto|tauto|]. right. right.
    rewrite fmap_app, fmap_cons, elem_of_app, elem_of_cons in Hj. rewrite fmap_app, elem_of_app.
    destruct Hj as [|[->|]]; [tauto| |tauto]. cbn [snd] in Hv. by rewrite Hun in Hv.
  - apply ns_state_set_table, A.
  - destruct Vn as (_ & _ & Hi). cbn [snd] in Hi. intros j Hj. rewrite ns_state_get_set by (apply A || lia).
    rewrite fmap_app. destruct (Z.eqb_spec i j) as [<-|Hne].
    + symmetry. apply bool_decide_eq_false_2. rewrite elem_of_app. intros [Hin|Hin]; [by apply (Ni2 i Hin); left|done].
    + rewrite (ap_used _ _ _ A j Hj). apply bool_decide_ext. rewrite fmap_app, fmap_cons, !elem_of_app, elem_of_cons.
      cbn [snd]. naive_solver.
  - intros k Hk. apply Hl in Hk as [Hk _]. by apply A.
Qed.

Lemma view_remove s x1 name i x2 m ns key :
  api_rep s (x1 ++ (name, i) :: x2) m -> (forall key, m !! (i, key) = None) ->
  view (x1 ++ x2) (delete (0, name) m) ns key = view (x1 ++ (name, i) :: x2) m ns key.
Proof.
  intros A Hun. unfold view. pose proof (ap_valid _ _ _ A) as V. pose proof (ap_names _ _ _ A) as Nn.
  rewrite fmap_app, fmap_cons in Nn. cbn [fst] in Nn.
  apply NoDup_app in Nn as (_ & Nn2 & Nn3). apply NoDup_cons in Nn3 as [Nn3 _].
  assert (forall j, 1 <= j -> delete (0, name) m !! (j, key) = m !! (j, key)) as Hj.
  { intros j ?. rewrite lookup_delete_ne; [done|]. intros [=]. lia. }
  destruct ns as [nm|]; cbn [idx_of]; [|by apply Hj]. destruct (decide (nm = name)) as [->|Hne].
  - assert (assoc (x1 ++ x2) name = None) as ->.
    { apply assoc_none. rewrite fmap_app, elem_of_app. intros [Hin|Hin]; [by apply (Nn2 name Hin); left|done]. }
    rewrite (proj2 (assoc_in _ name i (ap_names _ _ _ A))); [by rewrite Hun|]. rewrite elem_of_app, elem_of_cons. auto.
  - rewrite (assoc_remove x1 x2 name i nm Hne). destruct (assoc (x1 ++ (name, i) :: x2) nm) as [j|] eqn:E; [|done].
    apply Hj. apply (assoc_in _ _ _ (ap_names _ _ _ A)) in E.
    apply (list_elem_of_fmap_2 snd) in E. cbn in E. pose proof (idx_range _ _ V E). lia.
Qed.

(** Where the object of an index stands in the table. *)
Lemma table_split s names m n name i :
  api_rep s names m -> n ∈ ns_list s -> nss s !! n = Some (mk_ns name i (u32 (keys_in m i))) ->
  exists l1 l2 x1 x2, ns_list s = l1 ++ n :: l2 /\ names = x1 ++ (name, i) :: x2 /\ length l1 = length x1 /\
    n ∉ l1 /\ n ∉ l2.
Proof.
  intros A Hin Hn. apply list_elem_of_split in Hin as (l1 & l2 & El). pose proof (ap_table _ _ _ A) as T.
  pose proof (ap_objs _ _ _ A) as No. rewrite El in T, No.
  apply NoDup_app in No as (_ & No2 & No3). apply NoDup_cons in No3 as [No3 _].
  apply Forall2_app_inv_l in T as (x1 & y & T1 & T2 & ->). apply Forall2_cons_inv_l in T2 as ([nm j] & x2 & Ho & T2 & ->).
  unfold obj_cnt in Ho. rewrite Hn in Ho. injection Ho as -> -> _.
  exists l1, l2, x1, x2. repeat (split; [done|]). split; [by eapply Forall2_length|].
  split; [|done]. intros Hn1. by apply (No2 n Hn1); left.
Qed.

(** The last key of a namespace is gone: its object and its name are too. *)
Lemma drop_ns_ok s names m n name i :
  api_rep s names m -> n ∈ ns_list s -> nss s !! n = Some (mk_ns name i (u32 (keys_in m i))) -> keys_in m i = 0 ->
  exists s' names' m',
    (modify (fun s => set_ns_list (extract n (ns_list s)) s) ;;;
     modify (fun s => set_ns_states (ns_state_set (ns_states s) i false) s) ;;;
     data_element_del 0 name ;;;
     modify (fun s => set_nss (delete n (nss s)) s))%fw s = (s', inr tt) /\ api_rep s' names' m' /\
    forall ns key, view names' m' ns key = view names m ns key.
Proof.
  intros A Hin Hn Hz. destruct (table_split s names m n name i A Hin Hn) as (l1 & l2 & x1 & x2 & El & -> & Hlen & Hn1 & Hn2).
  assert (forall key, m !! (i, key) = None) as Hun by (intros key; by apply (keys_in_zero m i)).
  rewrite bnd_modify, bnd_modify. cbn [ns_list ns_states set_ns_list set_ns_states].
  rewrite El, extract_mid by done. set (s3 := set_ns_states _ _).
  assert (forall k, k ∈ l1 ++ l2 -> is_Some (nss s !! k) /\ k <> n) as Hl.
  { intros k Hk. rewrite elem_of_app in Hk. split.
    - apply (stores_ns s m); [apply A|]. rewrite El, elem_of_app, elem_of_cons. tauto.
    - intros ->. tauto. }
  assert (stores good s3 m) as S3 by (apply (stores_same good s); try done; [apply A|intros k Hk; by apply Hl]).
  pose proof (del_stores good Hgood s3 m (0, name) S3) as D.
  assert (m !! (0, name) = Some [i]) as Hs.
  { apply (ap_saved _ _ _ A). exists i. split; [done|]. rewrite elem_of_app, elem_of_cons. auto. }
  rewrite Hs in D. destruct D as (s4 & E4 & S4). cbn [fst snd] in E4. rewrite (bnd_ok _ _ _ _ _ E4).
  pose proof (keeps_del 0 name s3) as Hk. unfold keeps_at in Hk. rewrite E4 in Hk. destruct Hk as [K1 K2 K3 K4 K5].
  cbn in K1, K2, K3, K4, K5. eexists _, (x1 ++ x2), (delete (0, name) m). split; [done|]. split.
  - apply (api_remove s _ l1 n l2 x1 name i x2); try done; cbn; rewrite ?K2; try done.
    apply (stores_same good s4); try done. cbn. rewrite K1, ?K2. intros k Hk. destruct (Hl k Hk) as [? ?].
    by rewrite lookup_delete_ne.
  - intros ns key. by apply (view_remove s).
Qed.

(** The namespaces after a key of index [i] is gone: the namespace goes with its last key. *)
Lemma del_count_ok s0 s names m m' i :
  api_rep s0 names m -> same_ns s0 s -> user_idx names i -> stores good s m' ->
  (forall k, k.1 <> i -> m' !! k = m !! k) ->
  (forall j, keys_in m' j = keys_in m j + if decide (i = j) then -1 else 0) -> keys_in m i < 2 ^ 32 ->
  exists s' names' m2, ignore (ns_del_used_cnt i true) s = (s', inr tt) /\ api_rep s' names' m2 /\
    forall ns key, view names' m2 ns key = view names m' ns key.
Proof.
  intros A [E1 E2 E3 E4 E5] U S Hm Hk Hmax.
  pose proof (count_table' s0 m m' names i (-1) (ap_table _ _ _ A) (ap_objs _ _ _ A) (ap_idx _ _ _ A) (ap_valid _ _ _ A) Hk) as T.
  unfold ignore, code, ns_del_used_cnt. unfold count_ns in T. destruct (NAMESPACE_MAX_CNT <? i).
  { exists s, names, m'. split; [done|]. split; [|done]. apply (api_move s0 s names m m' i); try done. by rewrite E2. }
  unfold bnd at 1. rewrite bnd_get.
  rewrite (bnd_ok _ _ _ _ _ (ns_find_ok s i (ns_list s) (fun n Hn => stores_ns s m' n S Hn))).
  rewrite E1, E2. pose proof (find_ns_ok (keys_in m) (nss s0) i _ _ (ap_table _ _ _ A)) as Hf.
  destruct (find_ns (nss s0) (ns_list s0) i) as [n|].
  2:{ exists s, names, m'. split; [done|]. split; [|done]. apply (api_move s0 s names m m' i); try done. by rewrite E2. }
  destruct Hf as (name & Hin & Hin' & Hn).
  assert (nss s !! n = Some (mk_ns name i (u32 (keys_in m i)))) as Hn' by by rewrite E2.
  rewrite (bnd_ok _ _ _ _ _ (ns_get_ok _ _ _ Hn')). cbn [ns_name ns_index ns_used_cnt].
  unfold ns_put. rewrite bnd_modify.
  assert (u32 (u32 (keys_in m i) - 1) = keys_in m' i) as Ec.
  { rewrite Hk, decide_True by done. unfold keys_in in *. pose proof (Hk i) as Hki. rewrite decide_True in Hki by done.
    unfold keys_in in Hki. rewrite (wrap32_small (Z.of_nat _)) by lia. rewrite wrap32_small; lia. }
  rewrite Ec.
  assert (<[n := mk_ns name i (keys_in m' i)]> (nss s0) = alter (bump (-1)) n (nss s0)) as Ea.
  { rewrite <- (alter_as_insert (nss s0) n _ (bump (-1)) Hn). unfold bump. cbn [ns_name ns_index ns_used_cnt].
    do 2 f_equal. symmetry. exact Ec. }
  rewrite E2, Ea. set (s2 := set_nss _ s).
  assert (api_rep s2 names m') as A2.
  { apply (api_move s0 s2 names m m' i); try done. apply (stores_same good s); try done. intros k Hk'. cbn.
    rewrite lookup_alter_is_Some. apply (stores_ns s0 m); [apply A|]. cbn in Hk'. by rewrite E1 in Hk'. }
  assert (nss s2 !! n = Some (mk_ns name i (u32 (keys_in m' i)))) as Hn2.
  { cbn. rewrite <- Ea, lookup_insert_eq, <- Ec. by rewrite wrap_wrap. }
  assert (n ∈ ns_list s2) as Hin2 by (cbn; by rewrite E1).
  destruct (Z.eqb_spec (keys_in m' i) 0) as [Hz|Hz]; cbn [andb].
  - destruct (drop_ns_ok s2 names m' n name i A2 Hin2 Hn2 Hz) as (s' & names' & m2 & E & A' & Hv).
    rewrite E. exists s', names', m2. done.
  - exists s2, names, m'. done.
Qed.

(** [nvds_data_del] removes the key from the callers' view and changes no other key, or reports
    that there is none; the namespace that loses its last key is removed with it. *)
Lemma data_del_ok s v ns key :
  api s v -> name_arg ns -> is_str key -> zlen key <= 15 ->
  match v ns key with
  | None => nvds_data_del true ns (Some key) s = (s, inl (RET NVDS_E_NOT_FOUND))
  | Some _ => exists s', nvds_data_del true ns (Some key) s = (s', inr tt) /\ api s' (bind v ns key None)
  end.
Proof.
  intros (names & m & A & Hv) Hn Hk Hkl. rewrite Hv.
  unfold nvds_data_del, key_bad, KEY_NAME_MAX_SIZE. destruct (Z.ltb_spec (16 - 1) (zlen key)); [lia|]. cbn [negb].
  unfold bnd at 1 3. rewrite (ns_index_arg s names m ns false A Hn). unfold view at 1.
  destruct (idx_of names ns) as [i|] eqn:Hi; [|by destruct ns].
  pose proof (del_stores good Hgood s m (i, key) (ap_stores _ _ _ A)) as D. cbn [fst snd] in D.
  pose proof (keeps_del i key s) as K. unfold keeps_at in K.
  destruct (m !! (i, key)) as [d|] eqn:Em.
  2:{ unfold bnd. by rewrite D. }
  destruct D as (s1 & E1 & S1). rewrite E1 in K. cbn [fst] in K. rewrite (bnd_ok _ _ _ _ _ E1).
  assert (keys_in m i < 2 ^ 32) as Hmax.
  { pose proof (stores_size good s m (ap_stores _ _ _ A)). pose proof (keys_in_le m i). lia. }
  destruct (del_count_ok s s1 names m (delete (i, key) m) i A K (idx_user _ _ _ _ _ A Hi) S1)
    as (s' & names' & m2 & E2 & A2 & Hv2); [| |done|].
  - intros k Hne. apply lookup_delete_ne. intros <-. done.
  - intros j. rewrite (keys_in_delete _ _ _ _ Em). cbn [fst]. destruct (decide (i = j)); lia.
  - exists s'. split; [exact E2|]. exists names', m2. split; [done|]. intros ns' key'. rewrite Hv2.
    rewrite (view_delete names m ns key i (ap_idx _ _ _ A) (ap_valid _ _ _ A) Hi). unfold bind.
    case_decide; [done|]. by rewrite <- Hv.
Qed.

End Api.
End NvdsApi.
