(* ===== verification/NvdsLoad.v ===== *)
(** * NVDS: loading the pages of a flash

    What [pages_load] does with sectors that hold the pages of a store: the page objects,
    the list of used pages and the table of namespaces are rebuilt from the bytes. *)
From S2P Require Import Prelude Crc Flash NvdsTypes Nvds NvdsPage NvdsStore NvdsPut NvdsGc NvdsFrame NvdsMap NvdsApi.
Open Scope Z_scope.

Module NvdsLoad.
Import NvdsTypes Nvds NvdsPage NvdsStore NvdsPut NvdsGc NvdsFrame NvdsMap NvdsApi.

(** ** What the sectors hold *)

(** The bytes of a used page. *)
Definition page_img (i : list Z) (recs : list rec) : Prop :=
  (exists st, img_rep st (slice 0 32 i) (slots recs) i) /\ Forall rec_ok recs /\
  header_ok (slice 0 32 i) /\ (h_state (slice 0 32 i) = PAGE_ACTIVE \/ h_state (slice 0 32 i) = PAGE_FULL).

(** The sectors of a flash: the records of the used pages; [None] for the others. *)
Abbreviation layout := (list (option (list rec))).
Definition sector_img (i : list Z) (x : option (list rec)) : Prop :=
  match x with None => scrap i | Some recs => page_img i recs end.
Definition recs_in (lay : layout) : list rec := concat (omap id lay).

(** The namespaces that the live elements of namespace 0 name. *)
Definition name_of (r : rec) : option (list Z * Z) :=
  if r_live r && (e_ns (r_head r) =? 0)
  then Some (default [] (key_str (r_head r)), nthb (e_value (r_head r)) 0) else None.
Definition names_in (recs : list rec) : table_t := omap name_of recs.

Lemma recs_in_snoc lay x : recs_in (lay ++ [x]) = recs_in lay ++ default [] x.
Proof.
  unfold recs_in. rewrite omap_app, concat_app. f_equal. destruct x; cbn; by rewrite ?app_nil_r.
Qed.

Lemma names_in_app a b : names_in (a ++ b) = names_in a ++ names_in b.
Proof. apply omap_app. Qed.

Section Load.
Context {F : Type} {Fl : Flash F} {FL : FlashLaws F} {Ci : Cipher}.
Variable good : F -> Prop.
Hypothesis Hgood : reliable good.
Implicit Types (s : env F) (pg : page).

(** ** The header of a page *)

Lemma blocks_erased_ok s a : forall n o,
  env_ok good s -> sector s a -> 0 <= o -> o + 512 * Z.of_nat n <= 4096 ->
  blocks_erased n (a + o) s =
    (s, inr (forallb (fun b => b =? 0xFF) (slice o (512 * Z.of_nat n) (img (flash s) a)))).
Proof.
  induction n as [|n IH]; intros o E S Ho Hn; cbn [blocks_erased]; [done|].
  mstep_with (flash_read_ok good Hgood s a o 512 E S Ho ltac:(lia) ltac:(lia)).
  replace (512 * Z.of_nat (Datatypes.S n)) with (512 + 512 * Z.of_nat n) by lia.
  rewrite slice_app_split, forallb_app by lia.
  destruct (forallb _ (slice o 512 _)); cbn [andb]; [|done].
  rewrite <- Z.add_assoc. apply IH; done || lia.
Qed.

Lemma all_ff i : zlen i = 4096 -> forallb (fun b => b =? 0xFF) i = true -> i = erased.
Proof.
  intros Hl Hf. apply list_eq_nthb; [done|]. intros j Hj.
  rewrite forallb_forall in Hf. unfold nthb. rewrite !nth_lookup_0.
  rewrite lookup_replicate_2 by lia. destruct (i !! Z.to_nat j) as [b|] eqn:E; cbn.
  - apply Z.eqb_eq, Hf, list_elem_of_In. by eapply list_elem_of_lookup_2.
  - apply lookup_ge_None in E. unfold zlen in Hj. lia.
Qed.

Lemma header_read_ok s p pg :
  env_ok good s -> page_at s p pg ->
  exists h, page_header_read p s = (upd s (flash s) p (set_header h pg), inr tt) /\
    let i := img (flash s) (page_addr pg) in
    (scrap i -> (h_state h = PAGE_UNINITIALIZED \/ h_state h = PAGE_ERROR) /\
                (h_state h = PAGE_UNINITIALIZED -> i = erased)) /\
    (~ scrap i -> h = slice 0 32 i).
Proof.
  intros E [L S]. unfold page_header_read. mstep_with (page_get_ok _ _ _ L).
  unfold attempt, code, PAGE_HEADER_OFFSET. unfold bnd at 1 2.
  rewrite (flash_read_ok good Hgood s (page_addr pg) 0 32 E S) by lia.
  set (i := img (flash s) (page_addr pg)). set (h := slice 0 32 i). unfold ret at 1.
  assert (zlen i = 4096) as Hi by by apply (zlen_img good Hgood).
  assert (zlen h = 32) as Hl by (apply zlen_slice; lia).
  mstep_with (page_put_upd s p (set_header h pg)). set (s1 := upd s (flash s) p (set_header h pg)).
  assert (env_ok good s1) as E1 by (apply upd_env_ok; [done|apply E]).
  assert (pages s1 !! p = Some (set_header h pg)) as L1 by apply lookup_insert_eq.
  assert (forall st, set_page_state p st s1 = (upd s (flash s) p (set_header (set_state st h) pg), inr tt)) as Hset.
  { intros st. unfold set_page_state. mstep_with (page_get_ok _ _ _ L1). rewrite page_put_upd. unfold s1.
    by rewrite upd_upd. }
  unfold scrap. fold h. destruct (Z.eqb_spec (h_state h) PAGE_UNINITIALIZED) as [Hu|Hu].
  - unfold bnd at 1 2. rewrite (blocks_erased_ok s1 (page_addr pg) 8 0 E1 S) by lia. unfold ret at 1.
    change (img (flash s1) (page_addr pg)) with i. change (512 * Z.of_nat 8) with 4096.
    assert (slice 0 4096 i = i) as -> by (rewrite <- Hi; apply slice_all).
    destruct (forallb _ i) eqn:Ef; rewrite Hset.
    + exists (set_state PAGE_UNINITIALIZED h). split; [done|]. rewrite h_state_set_state by done.
      split; [|tauto]. split; [by left|]. intros _. by apply all_ff.
    + exists (set_state PAGE_ERROR h). split; [done|]. rewrite h_state_set_state by done.
      split; [|tauto]. split; [by right|done].
  - unfold header_ok. destruct (Z.eqb_spec (h_crc32 h) (page_header_crc32_calc h)) as [Hc|Hc]; cbn [negb].
    2:{ rewrite Hset. exists (set_state PAGE_ERROR h). split; [done|]. rewrite h_state_set_state by done.
        split; [|tauto]. split; [by right|done]. }
    destruct (Z.eqb_spec (h_magic h) NVDS_FLASH_MAGIC) as [Hm|Hm]; cbn [negb].
    2:{ rewrite Hset. exists (set_state PAGE_ERROR h). split; [done|]. rewrite h_state_set_state by done.
        split; [|tauto]. split; [by right|done]. }
    exists h. split; [done|]. split; [tauto|done].
Qed.

(** ** The entries of a page *)

(** The state with one more namespace object, as the mount makes them. *)
Definition add_ns s (x : list Z * Z) : env F :=
  set_ns_states (ns_state_set (ns_states s) x.2 true)
    (set_ns_list (ns_list s ++ [next_addr s])
      (set_nss (<[next_addr s := mk_ns x.1 x.2 0]> (nss s)) (set_alloc [] (next_addr s + 1) s))).

Definition put_page s p pg : env F := set_pages (<[p := pg]> (pages s)) s.

Lemma add_ns_page s x p pg : put_page (add_ns s x) p pg = add_ns (put_page s p pg) x.
Proof. done. Qed.

Lemma put_put s p pg pg' : put_page (put_page s p pg) p pg' = put_page s p pg'.
Proof. unfold put_page, set_pages. cbn. by rewrite insert_insert_eq. Qed.

Lemma put_page_self s p pg : pages s !! p = Some pg -> put_page s p pg = s.
Proof. intros L. unfold put_page. rewrite insert_id by done. by destruct s. Qed.

Lemma env_put s p pg : env_ok good s -> env_ok good (put_page s p pg).
Proof. intros []. by constructor. Qed.

Lemma env_add s x : env_ok good s -> env_ok good (add_ns s x).
Proof. intros []. by constructor. Qed.

(** A page of a state that the load goes through: its bytes do not change. *)
Record loading s p pg (sl : list (Z * list Z)) : Prop := {
  lg_env : env_ok good s;
  lg_rep : page_rep s p pg sl;
  lg_mallocs : mallocs s = [];
  lg_free : next_free_idx pg = 126
}.

Lemma loading_counts s p pg sl n : loading s p pg sl -> loading (put_page s p (set_counts n 126 pg)) p (set_counts n 126 pg) sl.
Proof.
  intros [E [[L S] R] M N]. constructor; [by apply env_put| |done|done].
  split; [|exact R]. split; [apply lookup_insert_eq|exact S].
Qed.

Lemma loading_add s p pg sl x : loading s p pg sl -> loading (add_ns s x) p pg sl.
Proof. intros [E [[L S] R] M N]. constructor; [by apply env_add| |done|done]. by split. Qed.

Lemma load_state s p pg pre x suf :
  loading s p pg (pre ++ x :: suf) ->
  zlen pre < 126 /\ pages s !! p = Some pg /\ entry_state_get (entry_states pg) (zlen pre) = Some (x.1) /\
  entry_read p (zlen pre) s = (s, inr (x.2)).
Proof.
  intros [E [P R] M N]. pose proof (ir_cap _ _ _ _ R) as Hc. rewrite zlen_app, zlen_cons in Hc.
  pose proof (zlen_nonneg pre). pose proof (zlen_nonneg suf). destruct (slot_head pre suf x) as [Hb Hs].
  split; [lia|]. split; [apply P|]. split.
  - rewrite entry_state_get_eq, (ir_states _ _ _ _ R), Hs by lia. done.
  - rewrite (entry_read_ok good Hgood s p pg _ E P), (ir_slots _ _ _ _ R), Hb by lia. done.
Qed.

(** The entries of a dead record are passed one by one. *)
Lemma load_updated s p pg suf : forall mid pre fuel,
  loading s p pg (pre ++ mid ++ suf) -> Forall (fun x => x.1 = ENTRY_UPDATED) mid ->
  load_entries (length mid + fuel) p (zlen pre) s = load_entries fuel p (zlen pre + zlen mid) s.
Proof.
  induction mid as [|x mid IH]; intros pre fuel Lg Hm; [by rewrite Z.add_0_r|].
  apply Forall_cons in Hm as [Hx Hm]. cbn [length Nat.add load_entries app] in *.
  destruct (load_state _ _ _ _ _ _ Lg) as (Hlt & L & Hs & _).
  unfold ENTRY_COUNT_PER_PAGE. destruct (Z.leb_spec 126 (zlen pre)); [lia|].
  mstep_with (page_get_ok _ _ _ L). rewrite Hs, Hx. cbn [Z.eqb ENTRY_UPDATED ENTRY_FREE ENTRY_ILLEGAL].
  replace (zlen pre + 1) with (zlen (pre ++ [x])) by (by rewrite zlen_app).
  rewrite IH; [|by rewrite <- app_assoc|done]. f_equal. rewrite zlen_app, zlen_singleton, zlen_cons. lia.
Qed.

Lemma live_cnt_cons r recs : live_cnt (slots (r :: recs)) = (if r_live r then rec_len r else 0) + live_cnt (slots recs).
Proof. by rewrite slots_cons, live_cnt_app, live_cnt_rec. Qed.

Lemma zlen_slots_cons r recs : zlen (slots (r :: recs)) = rec_len r + zlen (slots recs).
Proof. by rewrite slots_cons, zlen_app, zlen_rec_slots. Qed.

Definition add_name s r : env F := match name_of r with Some x => add_ns s x | None => s end.

Lemma add_name_page s r p pg : put_page (add_name s r) p pg = add_name (put_page s p pg) r.
Proof. unfold add_name. by destruct (name_of r). Qed.

Lemma add_names_cons s r recs :
  foldl add_ns s (names_in (r :: recs)) = foldl add_ns (add_name s r) (names_in recs).
Proof. unfold add_name. cbn [names_in omap list_omap]. by destruct (name_of r). Qed.

Lemma loading_name s p pg sl r : loading s p pg sl -> loading (add_name s r) p pg sl.
Proof. unfold add_name. destruct (name_of r); [apply loading_add|done]. Qed.

(** A dead record, and a live one. *)
Lemma load_dead s p pg pre r recs fuel :
  loading s p pg (pre ++ rec_slots r ++ slots recs) -> r_live r = false ->
  (length (rec_slots r) <= fuel)%nat ->
  load_entries fuel p (zlen pre) s = load_entries (fuel - length (rec_slots r)) p (zlen pre + rec_len r) s.
Proof.
  intros Lg Hl Hf. replace fuel with (length (rec_slots r) + (fuel - length (rec_slots r)))%nat at 1 by lia.
  rewrite (load_updated s p pg (slots recs) (rec_slots r) pre _ Lg), zlen_rec_slots; [done|].
  unfold rec_slots, r_state. rewrite Hl. apply Forall_cons. split; [done|]. by apply Forall_fmap, Forall_true.
Qed.

Lemma load_live s p pg pre r recs fuel :
  loading s p pg (pre ++ rec_slots r ++ slots recs) -> r_live r = true -> rec_ok r ->
  0 <= entry_cnt_used pg <= zlen pre ->
  load_entries (Datatypes.S fuel) p (zlen pre) s =
    load_entries fuel p (zlen pre + rec_len r)
      (put_page (add_name s r) p (set_counts (entry_cnt_used pg + rec_len r) 126 pg)).
Proof.
  intros Lg Hl Ok Hu. pose proof (ir_cap _ _ _ _ (proj2 (lg_rep _ _ _ _ Lg))) as Hc.
  rewrite !zlen_app, zlen_rec_slots in Hc. pose proof (zlen_nonneg (slots recs)). pose proof (rec_len_pos r).
  change (pre ++ rec_slots r ++ slots recs) with (pre ++ (r_state r, r_head r) ::
            (((fun b => (r_state r, b)) <$> r_tail r) ++ slots recs)) in Lg.
  destruct (load_state _ _ _ _ _ _ Lg) as (Hlt & L & Hs & Er). cbn [fst snd] in Hs, Er.
  cbn [load_entries]. unfold ENTRY_COUNT_PER_PAGE.
  destruct (Z.leb_spec 126 (zlen pre)); [lia|]. mstep_with (page_get_ok _ _ _ L). rewrite Hs.
  unfold r_state. rewrite Hl. cbn [Z.eqb ENTRY_USED ENTRY_FREE ENTRY_ILLEGAL ENTRY_UPDATED Pos.eqb].
  unfold attempt, code. unfold bnd at 1 2. rewrite Er. unfold ret at 1.
  rewrite (ro_crc _ Ok Hl), Z.eqb_refl. cbn [negb]. rewrite bnd_ret.
  set (k := if var_type _ then data_entries _ else 0).
  assert (k = zlen (r_tail r)) as Hk by by rewrite (ro_tail _ Ok).
  match goal with |- bnd ?m ?g s = _ => assert (m s = (add_name s r, inr tt)) as En end.
  { unfold add_name, name_of, e_ns. rewrite Hl. cbn [andb]. destruct (_ =? 0); [|done].
    unfold sys_malloc. rewrite !bnd_assoc, bnd_get, (lg_mallocs _ _ _ _ Lg), bnd_assoc, bnd_put, bnd_ret.
    pose proof (ro_key _ Ok Hl). by destruct (key_str (r_head r)). }
  mstep_with En.
  assert (pages (add_name s r) !! p = Some pg) as L' by (unfold add_name; by destruct (name_of r)).
  mstep_with (page_get_ok _ _ _ L'). mstep_with (page_put_upd (add_name s r) p
    (set_counts (u16 (u16 (entry_cnt_used pg + 1) + k)) (next_free_idx pg) pg)).
  unfold upd. rewrite set_flash_id, (lg_free _ _ _ _ Lg), Hk. unfold rec_len in *.
  pose proof (zlen_nonneg (r_tail r)).
  rewrite (wrap16_small (entry_cnt_used pg + 1)), wrap16_small by lia. unfold put_page. f_equal; [lia|].
  do 3 f_equal. lia.
Qed.

(** The load of the entries counts the live ones, finds the first free one, and makes an object
    for each namespace. *)
Lemma load_entries_ok p recs : forall fuel s pg pre,
  loading s p pg (pre ++ slots recs) -> Forall rec_ok recs -> (length (slots recs) < fuel)%nat ->
  0 <= entry_cnt_used pg <= zlen pre ->
  load_entries fuel p (zlen pre) s =
    (foldl add_ns (put_page s p (set_counts (entry_cnt_used pg + live_cnt (slots recs))
                                   (zlen pre + zlen (slots recs)) pg)) (names_in recs), inr true).
Proof.
  induction recs as [|r recs IH]; intros fuel s pg pre Lg Ok Hf Hu.
  - pose proof Lg as [E [[L S] R] M N]. pose proof (ir_cap _ _ _ _ R) as Hc. pose proof (zlen_nonneg pre).
    rewrite zlen_app in Hc. change (slots []) with (@nil (Z * list Z)) in *. rewrite app_nil_r, zlen_nil in *.
    change (live_cnt []) with 0. rewrite !Z.add_0_r. cbn [names_in omap list_omap foldl].
    destruct fuel as [|fuel]; [cbn in Hf; lia|]. cbn [load_entries]. unfold ENTRY_COUNT_PER_PAGE.
    destruct (Z.leb_spec 126 (zlen pre)).
    + unfold ret. rewrite put_page_self; [done|]. rewrite L. f_equal.
      replace (zlen pre) with (next_free_idx pg) by lia. by destruct pg.
    + mstep_with (page_get_ok _ _ _ L). rewrite entry_state_get_eq, (ir_states _ _ _ _ R) by lia.
      rewrite (proj2 (slot_end pre (zlen pre) ltac:(lia))). cbn [Z.eqb ENTRY_FREE Pos.eqb].
      mstep_with (page_put_upd s p (set_counts (entry_cnt_used pg) (zlen pre) pg)).
      unfold upd. by rewrite set_flash_id.
  - apply Forall_cons in Ok as [Okr Ok]. pose proof (rec_len_pos r) as Hr.
    rewrite slots_cons in Lg, Hf. rewrite length_app in Hf. pose proof (zlen_rec_slots r) as Hz.
    rewrite live_cnt_cons, zlen_slots_cons, add_names_cons. destruct (r_live r) eqn:Hl.
    + destruct fuel as [|fuel]; [lia|]. rewrite (load_live s p pg pre r recs fuel Lg Hl Okr Hu).
      rewrite <- Hz, <- zlen_app. rewrite (IH _ _ (set_counts (entry_cnt_used pg + zlen (rec_slots r)) 126 pg)).
      * rewrite put_put, add_name_page, zlen_app. do 4 f_equal. unfold set_counts. cbn. f_equal; lia.
      * rewrite <- app_assoc, Hz. by apply loading_counts, loading_name.
      * done.
      * unfold zlen in Hz. lia.
      * cbn [entry_cnt_used set_counts]. rewrite zlen_app. lia.
    + rewrite (load_dead s p pg pre r recs fuel Lg Hl) by lia.
      rewrite <- Hz, <- zlen_app. rewrite (IH _ s pg); [|by rewrite <- app_assoc|done|lia|rewrite zlen_app; lia].
      unfold add_name, name_of. rewrite Hl, zlen_app. cbn [andb]. do 2 f_equal. f_equal. unfold set_counts. f_equal; lia.
Qed.

Lemma attempt_ok {A} (m : K F A) s s' a : m s = (s', inr a) -> attempt m s = (s', inr (Some a)).
Proof. intros E. unfold attempt, code, bnd. by rewrite E. Qed.

Lemma states_read_ok s a st hd sl :
  env_ok good s -> sector s a -> img_rep st hd sl (img (flash s) a) ->
  entry_states_table_read a s = (s, inr st).
Proof.
  intros E S R. unfold entry_states_table_read, PAGE_ENTRY_STATES_OFFSET.
  mstep_with (flash_read_ok good Hgood s a 32 32 E S ltac:(lia) ltac:(lia) ltac:(lia)).
  rewrite (ir_st _ _ _ _ R). destruct (ir_table _ _ _ _ R) as [Hl Hw].
  pose proof (words_dec_enc st Hw) as Hd. replace (length st) with 8%nat in Hd by (unfold zlen in Hl; lia). by rewrite Hd.
Qed.

(** ** The list of used pages *)

Lemma insert_page_ok s p seq : forall l,
  (forall q, q ∈ l -> is_Some (pages s !! q)) ->
  exists l1 l2, l = l1 ++ l2 /\ insert_page l p seq s = (s, inr (l1 ++ p :: l2)).
Proof.
  induction l as [|q l IH]; intros Hl; cbn [insert_page]; [by exists [], []|].
  destruct (Hl q) as [pg L]; [by left|]. mstep_with (page_get_ok _ _ _ L).
  destruct (cmp_sequence_no _ _); [by exists [], (q :: l)|].
  destruct IH as (l1 & l2 & -> & E); [intros; apply Hl; by right|]. mstep_with E.
  by exists (q :: l1), l2.
Qed.

(** ** The namespaces *)

(** The objects of the namespaces [names], their keys not counted yet. *)
Record named s names : Prop := {
  nd_table : Forall2 (obj_cnt (nss s) (fun _ => 0)) (ns_list s) names;
  nd_nodup : NoDup (ns_list s);
  nd_next n : n ∈ ns_list s -> n < next_addr s;
  nd_states : table (ns_states s);
  nd_used i : 1 <= i <= 253 -> ns_state_get (ns_states s) i = bool_decide (i ∈ names.*2)
}.

Lemma named_start f a n l : named (env_init f a n l) [].
Proof.
  constructor.
  - constructor.
  - constructor.
  - intros x Hx. by apply not_elem_of_nil in Hx.
  - split; [done|]. by repeat constructor.
  - intros i Hi. cbn [fmap list_fmap]. rewrite bool_decide_eq_false_2 by apply not_elem_of_nil.
    pose proof (seqZ_check (fun i => negb (ns_state_get (replicate 8 0) i)) 254 i) as C.
    apply negb_true_iff, C; [by vm_compute|lia].
Qed.

Lemma named_add s names x : named s names -> 0 <= x.2 < 256 -> named (add_ns s x) (names ++ [x]).
Proof.
  intros [T N L St Us] Hx. constructor; cbn [nss ns_list ns_states next_addr add_ns set_nss set_ns_list set_ns_states set_alloc].
  - apply Forall2_app.
    + apply Forall2_same_length_lookup. split; [by eapply Forall2_length|]. intros k n y Hl Hy.
      pose proof (Forall2_lookup_lr _ _ _ _ _ _ T Hl Hy) as Ho. unfold obj_cnt in *.
      apply list_elem_of_lookup_2, L in Hl. by rewrite lookup_insert_ne by lia.
    + constructor; [|constructor]. unfold obj_cnt. by rewrite lookup_insert_eq.
  - apply NoDup_app. split; [done|]. split; [|apply NoDup_singleton].
    intros n Hn Hn'. apply list_elem_of_singleton in Hn' as ->. apply L in Hn. lia.
  - intros n Hn. apply elem_of_app in Hn as [Hn|Hn]; [apply L in Hn; lia|]. apply list_elem_of_singleton in Hn as ->. lia.
  - by apply ns_state_set_table.
  - intros i Hi. rewrite ns_state_get_set, fmap_app by (done || lia). cbn [fmap list_fmap].
    destruct (Z.eqb_spec (x.2) i) as [<-|Hne].
    + symmetry. apply bool_decide_eq_true_2. rewrite elem_of_app, list_elem_of_singleton. by right.
    + rewrite Us by done. apply bool_decide_ext. rewrite elem_of_app, list_elem_of_singleton. naive_solver.
Qed.

Lemma named_adds s xs : forall names,
  named s names -> Forall (fun x => 0 <= x.2 < 256) xs -> named (foldl add_ns s xs) (names ++ xs).
Proof.
  revert s. induction xs as [|x xs IH]; intros s names N Hx; cbn [foldl]; [by rewrite app_nil_r|].
  apply Forall_cons in Hx as [Hx Hxs]. replace (names ++ x :: xs) with ((names ++ [x]) ++ xs) by by rewrite <- app_assoc.
  apply IH; [|done]. by apply named_add.
Qed.

(** Adding namespaces leaves the pages alone. *)
Record same_pages s s' : Prop := {
  sp_flash : flash s' = flash s;
  sp_env : env_ok good s -> env_ok good s';
  sp_pages : pages s' = pages s;
  sp_free : nvds_page_free s' = nvds_page_free s;
  sp_used : nvds_page_used s' = nvds_page_used s;
  sp_length : length_ s' = length_ s;
  sp_mallocs : mallocs s = [] -> mallocs s' = [];
  sp_next : next_addr s <= next_addr s'
}.

Lemma same_pages_adds xs : forall s, same_pages s (foldl add_ns s xs).
Proof.
  induction xs as [|x xs IH]; intros s; cbn [foldl]; [constructor; done || lia|].
  destruct (IH (add_ns s x)) as [? He ? ? ? ? Hm Hn]. cbn in Hn.
  constructor; try done; [|by intros _; apply Hm|lia]. intros E. by apply He, env_add.
Qed.

(** ** The sectors, one by one *)

Section Sectors.
Variables (f : F) (lay : layout).
Hypothesis Hlay : forall k x, lay !! k = Some x -> sector_img (img f (Z.of_nat k * 4096)) x.
Hypothesis Hnames : Forall (fun x => 0 <= x.2 < 256) (names_in (recs_in lay)).

(** The first [k] sectors are loaded; [log] gives the records of the used pages. *)
Record loaded s (k : nat) (log : list (Z * list rec)) : Prop := {
  ld_env : env_ok good s;
  ld_flash : flash s = f;
  ld_length : length_ s = zlen lay * 4096;
  ld_mallocs : mallocs s = [];
  ld_fresh p : p ∈ all_pages s -> p < next_addr s;
  ld_used : nvds_page_used s = log.*1;
  ld_nodup : NoDup (all_pages s);
  ld_pages p recs : (p, recs) ∈ log -> exists pg, used_page s p pg recs;
  ld_free p : p ∈ nvds_page_free s -> exists pg, free_page s p pg;
  ld_at p : p ∈ all_pages s -> exists pg j, pages s !! p = Some pg /\ page_addr pg = Z.of_nat j * 4096 /\ (j < k)%nat;
  ld_addr p q pg pg' : p ∈ all_pages s -> q ∈ all_pages s ->
    pages s !! p = Some pg -> pages s !! q = Some pg' -> page_addr pg = page_addr pg' -> p = q;
  ld_cover j : (j < k)%nat -> exists p pg, p ∈ all_pages s /\ pages s !! p = Some pg /\ page_addr pg = Z.of_nat j * 4096;
  ld_recs : recs_of log ≡ₚ recs_in (take k lay);
  ld_names : named s (names_in (recs_in (take k lay)));
  ld_count : zlen (nvds_page_free s) + zlen log = Z.of_nat k;
  ld_pages_count : zlen log = zlen (omap id (take k lay))
}.

(** One more page, of an address of its own, for the next sector. *)
Lemma loaded_page s k log s' p pg log' x :
  loaded s k log -> lay !! k = Some x ->
  env_ok good s' -> flash s' = f -> length_ s' = length_ s -> mallocs s' = [] ->
  pages s' = <[p := pg]> (pages s) -> page_addr pg = Z.of_nat k * 4096 ->
  next_addr s <= p < next_addr s' -> all_pages s' ≡ₚ p :: all_pages s ->
  nvds_page_used s' = log'.*1 ->
  (forall q recs, (q, recs) ∈ log' -> (q, recs) ∈ log \/ (q = p /\ used_page s' p pg recs)) ->
  (forall q, q ∈ nvds_page_free s' -> q ∈ nvds_page_free s \/ (q = p /\ free_page s' p pg)) ->
  recs_of log' ≡ₚ recs_of log ++ default [] x ->
  named s' (names_in (recs_in (take k lay)) ++ names_in (default [] x)) ->
  zlen (nvds_page_free s') + zlen log' = zlen (nvds_page_free s) + zlen log + 1 ->
  zlen log' = zlen log + zlen (option_list x) ->
  loaded s' (Datatypes.S k) log'.
Proof.
  intros Ld Hx E Hf Hl Hm Hp Ha Hn Hall Hus Hlog Hfr Hr Hnm Hc Hpc.
  assert (p ∉ all_pages s) as Hpn by (intros Hin; apply (ld_fresh _ _ _ Ld) in Hin; lia).
  assert (forall q, q ∈ all_pages s -> pages s' !! q = pages s !! q) as Hq.
  { intros q Hin. rewrite Hp, lookup_insert_ne; [done|]. by intros ->. }
  assert (forall q, q ∈ all_pages s' <-> q = p \/ q ∈ all_pages s) as Hin by (intros q; by rewrite Hall, elem_of_cons).
  assert (pages s' !! p = Some pg) as Hpp by by rewrite Hp, lookup_insert_eq.
  assert (forall q pgq, q ∈ all_pages s -> pages s !! q = Some pgq -> page_addr pgq <> page_addr pg) as Hne.
  { intros q pgq Hqa Lq. destruct (ld_at _ _ _ Ld q Hqa) as (pg1 & j & L1 & E1 & Hj). rewrite Ha. simplify_eq. lia. }
  assert (take (Datatypes.S k) lay = take k lay ++ [x]) as Ht by by apply take_S_r.
  constructor; try done.
  - by rewrite Hl, (ld_length _ _ _ Ld).
  - intros q [->|Hqa]%Hin; [lia|]. apply (ld_fresh _ _ _ Ld) in Hqa. lia.
  - rewrite Hall. constructor; [done|apply Ld].
  - intros q recs Hql. destruct (Hlog q recs Hql) as [Hold|[-> U]]; [|by exists pg].
    destruct (ld_pages _ _ _ Ld q recs Hold) as (pgq & [[[L S] R] ? ? ? ? ?]). exists pgq.
    assert (q ∈ all_pages s) as Hqa.
    { unfold all_pages. rewrite (ld_used _ _ _ Ld), elem_of_app. right. by apply (list_elem_of_fmap_2 fst) in Hold. }
    constructor; try done. split; [split|].
    + by rewrite Hq.
    + unfold sector in *. by rewrite Hl.
    + by rewrite Hf, <- (ld_flash _ _ _ Ld).
  - intros q Hqf. destruct (Hfr q Hqf) as [Hold|[-> U]]; [|by exists pg].
    destruct (ld_free _ _ _ Ld q Hold) as (pgq & [[L S] R]). exists pgq.
    assert (q ∈ all_pages s) as Hqa by (unfold all_pages; rewrite elem_of_app; by left).
    split; [split|].
    + by rewrite Hq.
    + unfold sector in *. by rewrite Hl.
    + by rewrite Hf, <- (ld_flash _ _ _ Ld).
  - intros q [->|Hqa]%Hin; [exists pg, k; repeat split; done || lia|].
    destruct (ld_at _ _ _ Ld q Hqa) as (pg1 & j & L1 & E1 & Hj). exists pg1, j. rewrite Hq by done. repeat split; done || lia.
  - intros q q' pgq pgq' [->|Hqa]%Hin [->|Hqa']%Hin Lq Lq' Ead; try done.
    + rewrite Hq in Lq' by done. simplify_eq. exfalso. by eapply (Hne q').
    + rewrite Hq in Lq by done. simplify_eq. exfalso. by eapply (Hne q).
    + rewrite Hq in Lq, Lq' by done. by eapply (ld_addr _ _ _ Ld).
  - intros j Hj. destruct (decide (j = k)) as [->|Hjk].
    + exists p, pg. rewrite Hin. auto.
    + destruct (ld_cover _ _ _ Ld j) as (q & pgq & Hqa & Lq & Eq); [lia|]. exists q, pgq. rewrite Hin, Hq by done. auto.
  - by rewrite Ht, recs_in_snoc, Hr, (ld_recs _ _ _ Ld).
  - by rewrite Ht, recs_in_snoc, names_in_app.
  - rewrite Hc, (ld_count _ _ _ Ld). lia.
  - rewrite Ht, omap_app, zlen_app, Hpc, (ld_pages_count _ _ _ Ld). by destruct x.
Qed.

Lemma page_not_scrap i recs : page_img i recs -> ~ scrap i.
Proof. intros (_ & _ & Hh & Hst) [Hu|Hn]; [|done]. rewrite Hu in Hst. by destruct Hst. Qed.

Lemma loaded_sector s k log x :
  loaded s k log -> lay !! k = Some x -> sector s (Z.of_nat k * 4096).
Proof.
  intros Ld Hx. apply lookup_lt_Some in Hx. split; [by exists (Z.of_nat k)|].
  rewrite (ld_length _ _ _ Ld). unfold SPI_FLASH_SEC_SIZE, zlen. lia.
Qed.

(** A sector without a page: its object goes to the free ones. *)
Lemma loaded_free s k log p h :
  loaded s k log -> lay !! k = Some None -> p = next_addr s ->
  (h_state h = PAGE_UNINITIALIZED -> img f (Z.of_nat k * 4096) = erased) ->
  let pg := set_header h (mk_page (replicate 32 0) (replicate 8 0) (Z.of_nat k * 4096) 0 0) in
  let s1 := upd (set_alloc [] (p + 1) s) f p pg in
  loaded (set_lists (nvds_page_free s1 ++ [p]) (nvds_page_used s1) s1) (Datatypes.S k) log.
Proof.
  intros Ld Hx -> Hu pg s1. pose proof (loaded_sector _ _ _ _ Ld Hx) as S.
  pose proof (Hlay k None Hx) as Hs. cbn [sector_img] in Hs.
  apply (loaded_page s k log _ (next_addr s) pg log None); try done.
  - destruct (ld_env _ _ _ Ld). constructor; try done. cbn. by rewrite <- (ld_flash _ _ _ Ld).
  - cbn. lia.
  - unfold all_pages. cbn [nvds_page_free nvds_page_used set_lists s1 upd set_pages set_flash set_alloc].
    rewrite <- app_assoc. symmetry. apply Permutation_middle.
  - apply Ld.
  - by left.
  - intros q Hq. cbn in Hq. apply elem_of_app in Hq as [Hq|Hq]; [by left|]. right.
    apply list_elem_of_singleton in Hq as ->. split; [done|]. split; [split; [apply lookup_insert_eq|exact S]|].
    by split.
  - by rewrite app_nil_r.
  - rewrite app_nil_r. destruct (ld_names _ _ _ Ld) as [T N L St Us]. constructor; try done.
    intros n Hn. cbn in *. apply L in Hn. lia.
  - cbn. rewrite zlen_app, zlen_singleton. lia.
  - change (zlen (option_list None)) with 0. lia.
Qed.

(** The object of a page of a store, after its entries are loaded. *)
Definition loaded_obj (k : nat) (recs : list rec) (st : list Z) : page :=
  mk_page (slice 0 32 (img f (Z.of_nat k * 4096))) st (Z.of_nat k * 4096) (live_cnt (slots recs)) (zlen (slots recs)).

Lemma loaded_used s k log p recs st s1 l1 l2 :
  loaded s k log -> lay !! k = Some (Some recs) -> p = next_addr s ->
  (let i := img f (Z.of_nat k * 4096) in img_rep st (slice 0 32 i) (slots recs) i) ->
  s1 = foldl add_ns (upd (set_alloc [] (p + 1) s) f p (loaded_obj k recs st)) (names_in recs) ->
  nvds_page_used s = l1 ++ l2 ->
  exists log', loaded (set_lists (nvds_page_free s1) (l1 ++ p :: l2) s1) (Datatypes.S k) log'.
Proof.
  intros Ld Hx -> Hst -> Hus. pose proof (loaded_sector _ _ _ _ Ld Hx) as S. set (p := next_addr s) in *.
  set (s0 := upd _ _ _ _). pose proof (Hlay k (Some recs) Hx) as (_ & Ok & Hh & Hlv).
  destruct (same_pages_adds (names_in recs) s0) as [E1 E2 E3 E4 E5 E6 E7 E8].
  pose proof (ld_used _ _ _ Ld) as Hlog. rewrite Hus in Hlog. symmetry in Hlog.
  apply fmap_app_inv in Hlog as (g1 & g2 & -> & -> & ->).
  exists (g1 ++ (p, recs) :: g2).
  apply (loaded_page s k _ _ p (loaded_obj k recs st) _ (Some recs) Ld Hx); try done; cbn [set_lists flash length_ mallocs pages nvds_page_free nvds_page_used next_addr].
  - assert (env_ok good s0) as E0.
    { destruct (ld_env _ _ _ Ld). constructor; try done. cbn. by rewrite <- (ld_flash _ _ _ Ld). }
    destruct (E2 E0). by constructor.
  - by apply E7.
  - cbn in E8. unfold p. lia.
  - unfold all_pages. cbn [set_lists nvds_page_free nvds_page_used]. rewrite E4, Hus. cbn. by rewrite <- !Permutation_middle.
  - by rewrite fmap_app.
  - intros q recsq Hq. rewrite elem_of_app, elem_of_cons in *. destruct Hq as [Hq|[[= -> ->]|Hq]]; [tauto| |tauto].
    right. split; [done|]. constructor; try done.
    + split; [split; [cbn; rewrite E3; apply lookup_insert_eq|]|].
      * unfold sector in *. cbn. rewrite E6. exact S.
      * cbn. rewrite E1. exact Hst.
    + unfold live_page. cbn [loaded_obj header]. rewrite orb_true_iff, !Z.eqb_eq. done.
  - intros q Hq. rewrite E4 in Hq. by left.
  - rewrite !recs_of_app, recs_of_cons. cbn [default from_option id]. rewrite <- app_assoc. f_equiv. apply Permutation_app_comm.
  - pose proof (ld_names _ _ _ Ld) as N. assert (named s0 (names_in (recs_in (take k lay)))) as N0.
    { destruct N as [T N L St Us]. constructor; try done. intros n Hn. cbn in *. apply L in Hn. unfold p. lia. }
    assert (Forall (fun x => 0 <= x.2 < 256) (names_in recs)) as Hr.
    { rewrite Forall_forall in Hnames |- *. intros y Hy. apply Hnames.
      rewrite <- (take_drop_middle lay k _ Hx). unfold recs_in, names_in. rewrite omap_app, concat_app, omap_app, elem_of_app.
      right. cbn [omap list_omap id concat]. rewrite omap_app, elem_of_app. by left. }
    pose proof (named_adds s0 (names_in recs) _ N0 Hr) as [T' N' L' St' Us']. by constructor.
  - rewrite E4, !zlen_app, zlen_cons. cbn. lia.
  - change (zlen (option_list (Some recs))) with 1. rewrite !zlen_app, zlen_cons. lia.
Qed.

Lemma load_sector_ok s k log x :
  loaded s k log -> lay !! k = Some x ->
  exists s' log', load_sector (Z.of_nat k) false s = (s', inr false) /\ loaded s' (Datatypes.S k) log'.
Proof.
  intros Ld Hx. pose proof (loaded_sector _ _ _ _ Ld Hx) as S. pose proof (ld_env _ _ _ Ld) as E.
  pose proof fl_window as Hw. unfold load_sector, sys_malloc.
  rewrite bnd_assoc, bnd_get, (ld_mallocs _ _ _ Ld), bnd_assoc, bnd_put, bnd_ret.
  set (p := next_addr s). set (s1 := set_alloc [] (p + 1) s).
  assert (u32 (Z.of_nat k * SPI_FLASH_SEC_SIZE) = Z.of_nat k * 4096) as ->.
  { apply wrap32_small. destruct S as (_ & _ & Hu). rewrite (eo_len _ _ E) in Hu. unfold SPI_FLASH_SEC_SIZE in *. lia. }
  set (pg0 := mk_page _ _ _ _ _). mstep_with (page_put_upd s1 p pg0). set (s2 := upd s1 (flash s1) p pg0).
  assert (env_ok good s2) as E2 by (destruct E; by constructor).
  assert (page_at s2 p pg0) as P2 by (split; [apply lookup_insert_eq|exact S]).
  destruct (header_read_ok s2 p pg0 E2 P2) as (h & Eh & Hscrap & Hpage). mstep_with Eh.
  change (flash s2) with (flash s) in *. rewrite (ld_flash _ _ _ Ld) in *. change (page_addr pg0) with (Z.of_nat k * 4096) in *.
  unfold s2. rewrite upd_upd. set (pg1 := set_header h pg0). set (s3 := upd s1 f p pg1).
  assert (pages s3 !! p = Some pg1) as L3 by apply lookup_insert_eq. mstep_with (page_get_ok _ _ _ L3).
  change (header pg1) with h. pose proof (Hlay k x Hx) as Hi. destruct x as [recs|]; cbn [sector_img] in Hi.
  - specialize (Hpage (page_not_scrap _ _ Hi)). subst h. destruct Hi as ((st & Hst) & Ok & Hh & Hlv).
    set (i := img f (Z.of_nat k * 4096)) in *.
    assert ((h_state (slice 0 32 i) =? PAGE_UNINITIALIZED) || (h_state (slice 0 32 i) =? PAGE_ERROR)
            || (h_state (slice 0 32 i) =? PAGE_INVALID) = false) as -> by (destruct Hlv as [-> | ->]; done).
    assert (env_ok good s3) as E3 by (apply upd_env_ok; [by destruct E|rewrite <- (ld_flash _ _ _ Ld); apply E]).
    rewrite (bnd_ok _ _ _ _ _ (attempt_ok _ _ _ _ (states_read_ok s3 (Z.of_nat k * 4096) st _ _ E3 S Hst))).
    set (pg2 := set_counts 0 ENTRY_COUNT_PER_PAGE (set_states st pg1)).
    mstep_with (page_put_upd s3 p pg2). unfold s3. rewrite upd_upd. change (flash (upd s1 f p pg1)) with f.
    set (s4 := upd s1 f p pg2).
    assert (loading s4 p pg2 (slots recs)) as Lg.
    { constructor; [by destruct E3; constructor| |done|done]. split; [split; [apply lookup_insert_eq|exact S]|exact Hst]. }
    pose proof (ir_cap _ _ _ _ Hst) as Hc. pose proof (slots_length recs) as Hsl.
    assert (length (slots recs) < walk_fuel)%nat as Hfu by (unfold walk_fuel, zlen in *; lia).
    pose proof (load_entries_ok p recs walk_fuel s4 pg2 [] Lg Ok Hfu (conj (Z.le_refl 0) (Z.le_refl 0))) as El.
    change (zlen []) with 0 in El.
    mstep_with El. cbn [orb negb]. rewrite !Z.add_0_l. set (s5 := foldl _ _ _).
    assert (s5 = foldl add_ns (upd s1 f p (loaded_obj k recs st)) (names_in recs)) as Es5.
    { unfold s5, put_page, s4. cbn [pages upd set_pages set_flash]. by rewrite insert_insert_eq. }
    mpure. destruct (same_pages_adds (names_in recs) (upd s1 f p (loaded_obj k recs st))) as [_ _ Ep _ Eu _ _ _].
    rewrite <- Es5 in Ep, Eu. cbn in Ep, Eu.
    destruct (insert_page_ok s5 p (h_seqno (slice 0 32 i)) (nvds_page_used s5)) as (l1 & l2 & Eus & Ei).
    { intros q Hq. rewrite Eu in Hq. rewrite Ep, lookup_insert_is_Some'. right.
      destruct (ld_at _ _ _ Ld q) as (pg & _ & -> & _); [|done]. unfold all_pages. rewrite elem_of_app. by right. }
    mstep_with Ei. rewrite bnd_modify.
    destruct (loaded_used s k log p recs st s5 l1 l2 Ld Hx eq_refl Hst Es5) as (log' & Ld').
    { by rewrite <- Eus, Eu. }
    by eexists _, log'.
  - destruct (Hscrap Hi) as [Hst Hu].
    assert ((h_state h =? PAGE_UNINITIALIZED) || (h_state h =? PAGE_ERROR) || (h_state h =? PAGE_INVALID) = true) as ->
      by (destruct Hst as [-> | ->]; done).
    unfold push_free. rewrite bnd_modify. eexists _, log. split; [done|]. by apply loaded_free.
Qed.

Lemma load_sectors_ok : forall n s k log,
  loaded s k log -> (k + n = length lay)%nat ->
  exists s' log', load_sectors n (Z.of_nat k) false s = (s', inr tt) /\ loaded s' (k + n) log'.
Proof.
  induction n as [|n IH]; intros s k log Ld Hn; cbn [load_sectors].
  { exists s, log. by rewrite Nat.add_0_r. }
  destruct (lookup_lt_is_Some_2 lay k) as [x Hx]; [lia|].
  destruct (load_sector_ok s k log x Ld Hx) as (s1 & log1 & E1 & L1). mstep_with E1.
  destruct (IH s1 (Datatypes.S k) log1 L1) as (s2 & log2 & E2 & L2); [lia|].
  exists s2, log2. rewrite Nat2Z.inj_succ in E2. rewrite <- Nat.add_succ_comm. done.
Qed.

End Sectors.

(** ** Counting the keys of the namespaces *)

(** The live records of the namespace [i]. *)
Definition cnt_in (recs : list rec) (i : Z) : Z :=
  zlen (filter (fun r => r_live r = true /\ e_ns (r_head r) = i) recs).

Lemma cnt_in_app a b i : cnt_in (a ++ b) i = cnt_in a i + cnt_in b i.
Proof. unfold cnt_in. by rewrite filter_app, zlen_app. Qed.

#[global] Instance cnt_in_Permutation : Proper ((≡ₚ) ==> (=) ==> (=)) cnt_in.
Proof. intros a b Hp i ? <-. unfold cnt_in, zlen. by rewrite Hp. Qed.

Lemma cnt_in_one r i : cnt_in [r] i = if decide (r_live r = true /\ e_ns (r_head r) = i) then 1 else 0.
Proof. unfold cnt_in. rewrite filter_cons. by case_decide. Qed.

(** The objects after the record [r] is counted. *)
Definition count_rec s r : env F :=
  if r_live r then
    match find_ns (nss s) (ns_list s) (e_ns (r_head r)) with
    | Some n => set_nss (alter (bump 1) n (nss s)) s
    | None => s
    end
  else s.

(** What the count reads: the pages, the flash and the list of namespaces. *)
Record counting s s' : Prop := {
  ct_nss : s' = set_nss (nss s') s;
  ct_dom n : is_Some (nss s !! n) -> is_Some (nss s' !! n)
}.

Lemma counting_refl s : counting s s.
Proof. constructor; [by destruct s|done]. Qed.

Lemma counting_trans s1 s2 s3 : counting s1 s2 -> counting s2 s3 -> counting s1 s3.
Proof. intros [E1 D1] [E2 D2]. constructor; [by rewrite E2, E1|auto]. Qed.

Lemma counting_rec s r : counting s (count_rec s r).
Proof.
  unfold count_rec. destruct (r_live r); [|apply counting_refl]. destruct (find_ns _ _ _) as [n|]; [|apply counting_refl].
  constructor; [done|]. intros n' Hn. cbn. by rewrite lookup_alter_is_Some.
Qed.

Lemma used_page_counting s s' p pg recs : counting s s' -> used_page s p pg recs -> used_page s' p pg recs.
Proof. intros [-> _] []. by constructor. Qed.

(** One turn of the count. *)
Lemma count_step s p pg recs0 fuel k e :
  env_ok good s -> used_page s p pg recs0 -> 0 <= k < 126 -> slot_bytes (slots recs0) k = e ->
  count_page (Datatypes.S fuel) p k s =
    ((if bool_decide (slot_state (slots recs0) k = ENTRY_USED) then
        let! s := get in
        let! r := ns_find (ns_list s) (e_ns e) in
        match r with
        | None => ret tt
        | Some n => let! ns := ns_get n in ns_put n (mk_ns (ns_name ns) (ns_index ns) (u32 (ns_used_cnt ns + 1)))
        end
      else ret tt) ;;;
     count_page fuel p (k + 1 + if var_type (e_type e) then data_entries (e_length e) else 0))%fw s.
Proof.
  intros E U Hk <-. pose proof (up_rep _ _ _ _ U) as [P R]. cbn [count_page]. unfold ENTRY_COUNT_PER_PAGE.
  destruct (Z.leb_spec 126 k); [lia|].
  rewrite (bnd_ok _ _ _ _ _ (attempt_ok _ _ _ _ (entry_read_ok good Hgood s p pg k E P Hk))).
  mstep_with (page_get_ok _ _ _ (proj1 P)). rewrite (ir_slots _ _ _ _ R) by done.
  rewrite entry_state_get_eq, (ir_states _ _ _ _ R) by done. unfold e_ns, e_type.
  assert (forall a b : Z, bool_decide (Some a = Some b) = bool_decide (a = b)) as -> ; [|done].
  intros a b. apply bool_decide_ext. naive_solver.
Qed.

(** The walk goes from record to record, then over the free entries. *)
Lemma count_free s p pg recs0 : forall n k fuel,
  env_ok good s -> used_page s p pg recs0 -> zlen (slots recs0) <= k -> k + Z.of_nat n = 126 -> (n < fuel)%nat ->
  count_page fuel p k s = (s, inr tt).
Proof.
  induction n as [|n IH]; intros k fuel E U Hk Hn Hf; pose proof (zlen_nonneg (slots recs0));
    (destruct fuel as [|fuel]; [lia|]).
  - cbn [count_page]. unfold ENTRY_COUNT_PER_PAGE. destruct (Z.leb_spec 126 k); [done|lia].
  - destruct (slot_end (slots recs0) k Hk) as [Hb Hs].
    rewrite (count_step s p pg recs0 fuel k _ E U ltac:(lia) Hb), Hs. cbn [bool_decide decide].
    rewrite bool_decide_eq_false_2 by done. rewrite bnd_ret. change (var_type (e_type blank)) with false.
    rewrite Z.add_0_r. apply IH; done || lia.
Qed.

Lemma count_turn s s1 r :
  counting s s1 -> (forall n, n ∈ ns_list s -> is_Some (nss s !! n)) ->
  (if bool_decide (r_state r = ENTRY_USED) then
     let! s := get in
     let! r := ns_find (ns_list s) (e_ns (r_head r)) in
     match r with
     | None => ret tt
     | Some n => let! ns := ns_get n in ns_put n (mk_ns (ns_name ns) (ns_index ns) (u32 (ns_used_cnt ns + 1)))
     end
   else ret tt)%fw s1 = (count_rec s1 r, inr tt).
Proof.
  intros Ct Hns. unfold count_rec, r_state. destruct (r_live r); [|done].
  rewrite bool_decide_eq_true_2, bnd_get by done.
  assert (forall n, n ∈ ns_list s1 -> is_Some (nss s1 !! n)) as Hns1.
  { intros n Hn. rewrite (ct_nss _ _ Ct) in Hn. by apply (ct_dom _ _ Ct), Hns. }
  mstep_with (ns_find_ok s1 (e_ns (r_head r)) (ns_list s1) Hns1).
  destruct (find_ns _ _ _) as [n|] eqn:Ef; [|done]. apply find_ns_some in Ef as [Hin _].
  destruct (Hns1 n Hin) as [ns Hn]. mstep_with (ns_get_ok _ _ _ Hn). unfold ns_put, modify.
  exact (f_equal (fun nm => (set_nss nm s1, inr tt)) (alter_as_insert (nss s1) n ns (bump 1) Hn)).
Qed.

Lemma count_recs s p pg recs0 : forall recs r1 s1 fuel,
  env_ok good s -> used_page s p pg recs0 -> recs0 = r1 ++ recs -> counting s s1 ->
  (forall n, n ∈ ns_list s -> is_Some (nss s !! n)) -> (126 < fuel + length (slots r1))%nat ->
  count_page fuel p (zlen (slots r1)) s1 = (foldl count_rec s1 recs, inr tt).
Proof.
  induction recs as [|r recs IH]; intros r1 s1 fuel E U Er Ct Hns Hf.
  - rewrite app_nil_r in Er. subst r1. pose proof (used_page_counting _ _ _ _ _ Ct U) as U1.
    pose proof (ir_cap _ _ _ _ (proj2 (up_rep _ _ _ _ U))) as Hc. cbn [foldl].
    apply (count_free s1 p pg recs0 (126 - length (slots recs0))); try done; unfold zlen in *; try lia.
    rewrite (ct_nss _ _ Ct). by destruct E.
  - pose proof (used_page_counting _ _ _ _ _ Ct U) as U1.
    assert (env_ok good s1) as E1 by (rewrite (ct_nss _ _ Ct); by destruct E).
    pose proof (ir_cap _ _ _ _ (proj2 (up_rep _ _ _ _ U))) as Hc. pose proof (up_ok _ _ _ _ U) as Ok.
    rewrite Er in Hc, Ok. apply Forall_app in Ok as [_ Ok]. apply Forall_cons in Ok as [Ok _].
    rewrite slots_app, slots_cons, !zlen_app, zlen_rec_slots in Hc.
    pose proof (zlen_nonneg (slots r1)). pose proof (zlen_nonneg (slots recs)). pose proof (rec_len_pos r).
    destruct (slot_rec (slots r1) r (slots recs)) as [Hb Hs]. rewrite <- slots_cons, <- slots_app, <- Er in Hb, Hs.
    destruct fuel as [|fuel]; [unfold zlen in *; lia|].
    rewrite (count_step s1 p pg recs0 fuel (zlen (slots r1)) (r_head r) E1 U1 ltac:(lia) Hb), Hs. cbn [foldl].
    mstep_with (count_turn s s1 r Ct Hns).
    assert (zlen (slots r1) + 1 + (if var_type (e_type (r_head r)) then data_entries (e_length (r_head r)) else 0)
            = zlen (slots (r1 ++ [r]))) as ->.
    { rewrite slots_app, slots_cons, app_nil_r, zlen_app, zlen_rec_slots. unfold rec_len. rewrite (ro_tail _ Ok). lia. }
    apply (IH (r1 ++ [r])); try done.
    + by rewrite <- app_assoc.
    + eapply counting_trans; [exact Ct|apply counting_rec].
    + rewrite slots_app, slots_cons, app_nil_r, length_app. pose proof (zlen_rec_slots r). unfold zlen in *. lia.
Qed.

Lemma counting_recs recs : forall s, counting s (foldl count_rec s recs).
Proof.
  induction recs as [|r recs IH]; intros s; cbn [foldl]; [apply counting_refl|].
  eapply counting_trans; [apply counting_rec|apply IH].
Qed.

Lemma count_pages_ok s : forall log s1,
  env_ok good s -> (forall p recs, (p, recs) ∈ log -> exists pg, used_page s p pg recs) -> counting s s1 ->
  (forall n, n ∈ ns_list s -> is_Some (nss s !! n)) ->
  count_pages log.*1 s1 = (foldl count_rec s1 (recs_of log), inr tt).
Proof.
  induction log as [|[p recs] log IH]; intros s1 E Hp Ct Hns; cbn [count_pages fmap list_fmap fst]; [done|].
  destruct (Hp p recs) as [pg U]; [by left|].
  mstep_with (count_recs s p pg recs recs [] s1 walk_fuel E U eq_refl Ct Hns ltac:(unfold walk_fuel; cbn; lia)).
  rewrite recs_of_cons, foldl_app. apply IH; try done.
  - intros q recsq Hq. apply Hp. by right.
  - eapply counting_trans; [exact Ct|apply counting_recs].
Qed.

(** Every object has its count in the end. *)
Lemma count_table_ok names : forall recs s c,
  Forall2 (obj_cnt (nss s) c) (ns_list s) names -> NoDup (ns_list s) -> NoDup names.*2 ->
  Forall2 (obj_cnt (nss (foldl count_rec s recs)) (fun i => c i + cnt_in recs i)) (ns_list s) names.
Proof.
  induction recs as [|r recs IH]; intros s c T Nl Nn; cbn [foldl].
  { eapply Forall2_impl; [exact T|]. intros n x. unfold obj_cnt. by rewrite Z.add_0_r. }
  pose proof (counting_rec s r) as Ct. set (c' := fun i => c i + cnt_in [r] i).
  assert (Forall2 (obj_cnt (nss (count_rec s r)) c') (ns_list (count_rec s r)) names) as T'.
  { rewrite (ct_nss _ _ Ct) at 2. cbn. unfold count_rec, c'. destruct (r_live r) eqn:Hl.
    - pose proof (count_table (nss s) c c' (ns_list s) names (e_ns (r_head r)) 1 T Nl Nn) as H.
      destruct (find_ns _ _ _); (eapply Forall2_impl; [apply H|done]); intros j _; unfold c';
        rewrite cnt_in_one, Hl; repeat case_decide; naive_solver lia.
    - eapply Forall2_impl; [exact T|]. intros n x. unfold obj_cnt. rewrite cnt_in_one, Hl, decide_False by naive_solver.
      by rewrite Z.add_0_r. }
  rewrite (ct_nss _ _ Ct) in T' at 2. cbn in T'.
  assert (ns_list (count_rec s r) = ns_list s) as El by (rewrite (ct_nss _ _ Ct); done).
  specialize (IH (count_rec s r) c'). rewrite El in IH. eapply Forall2_impl; [by apply IH|].
  intros n x. unfold obj_cnt, c'. rewrite <- Z.add_assoc, <- cnt_in_app. done.
Qed.

End Load.
End NvdsLoad.
