(* ===== verification/NvdsMount.v ===== *)
(** * NVDS: mounting

    [nvds_flash_env_init] on a flash that holds the pages of a store gives a store of the
    same elements and namespaces; so does a restart of a running store. A flash without
    pages gives an empty store. *)
From S2P Require Import Prelude Crc Flash NvdsTypes Nvds NvdsPage NvdsStore NvdsPut NvdsGc NvdsFrame NvdsMap NvdsApi NvdsLoad.
Open Scope Z_scope.

Module NvdsMount.
Import NvdsTypes Nvds NvdsPage NvdsStore NvdsPut NvdsGc NvdsFrame NvdsMap NvdsApi NvdsLoad.

(** ** Records and elements *)

Lemma content_recs log log' m : recs_of log' ≡ₚ recs_of log -> content log m -> content log' m.
Proof. intros Hp. apply content_perm. intros k. unfold lookup_key. by rewrite Hp. Qed.

(** The records [recs] are those of the elements of [m]. *)
Definition hold_map (recs : list rec) (m : kmap) : Prop := content [(0, recs)] m.

Lemma hold_content log recs m : recs_of log ≡ₚ recs -> hold_map recs m <-> content log m.
Proof.
  intros Hp. assert (recs_of log ≡ₚ recs_of [(0, recs)]) as Hr by by rewrite recs_of_cons, app_nil_r.
  split; apply content_recs; [exact Hr|by symmetry].
Qed.

Lemma hold_live recs m r :
  hold_map recs m -> r ∈ recs -> r_live r = true -> plain r /\ m !! key_of r = Some (r_value r).
Proof.
  intros C Hr Hl. destruct (C (key_of r)) as [Hp Hv].
  assert (r ∈ lookup_key (key_of r) [(0, recs)]) as Hin.
  { apply list_elem_of_filter. split; [done|]. by rewrite recs_of_cons, app_nil_r. }
  rewrite Forall_forall in Hp. split; [by apply Hp|].
  assert (r_value r ∈ option_list (m !! key_of r)) as Hm by (rewrite <- Hv; by apply list_elem_of_fmap_2).
  destruct (m !! key_of r) as [v|]; cbn in Hm; [by apply list_elem_of_singleton in Hm as ->|by apply not_elem_of_nil in Hm].
Qed.

Lemma hold_found recs m k v :
  hold_map recs m -> m !! k = Some v -> exists r, r ∈ recs /\ r_live r = true /\ key_of r = k /\ r_value r = v.
Proof.
  intros C Hk. destruct (C k) as [_ Hv]. rewrite Hk in Hv.
  destruct (lookup_key k [(0, recs)]) as [|r l] eqn:E; [done|]. cbn [fmap list_fmap option_list] in Hv. injection Hv as Hv _. exists r.
  assert (r ∈ lookup_key k [(0, recs)]) as Hin by (rewrite E; by left).
  apply list_elem_of_filter in Hin as [[? ?] Hin]. by rewrite recs_of_cons, app_nil_r in Hin.
Qed.

(** No key is in two live records. *)
Lemma hold_nodup recs m : hold_map recs m -> NoDup (key_of <$> filter (fun r => r_live r = true) recs).
Proof.
  intros C. assert (forall k, length (filter (fun r => r_live r = true /\ key_of r = k) recs) <= 1)%nat as H.
  { intros k. destruct (C k) as [_ Hv]. unfold lookup_key in Hv. rewrite recs_of_cons, app_nil_r in Hv.
    apply (f_equal length) in Hv. rewrite length_fmap in Hv. rewrite Hv. destruct (m !! k); cbn; lia. }
  clear C. induction recs as [|r recs IH]; [constructor|]. rewrite filter_cons. case_decide as D.
  - constructor.
    + intros Hin. apply list_elem_of_fmap in Hin as (r' & E & Hr'). specialize (H (key_of r)).
      rewrite filter_cons_True in H by done. cbn in H.
      assert (r' ∈ filter (fun r0 => r_live r0 = true /\ key_of r0 = key_of r) recs) as Hf.
      { apply list_elem_of_filter in Hr' as [? ?]. by apply list_elem_of_filter. }
      destruct (filter _ recs); [by apply not_elem_of_nil in Hf|cbn in H; lia].
    + apply IH. intros k. specialize (H k). rewrite filter_cons in H. case_decide; cbn in H; lia.
  - apply IH. intros k. specialize (H k). rewrite filter_cons_False in H; [done|]. tauto.
Qed.

Lemma filter_live_ns (recs : list rec) i :
  filter (fun r => r_live r = true /\ e_ns (r_head r) = i) recs =
  filter (fun r => e_ns (r_head r) = i) (filter (fun r => r_live r = true) recs).
Proof. rewrite list_filter_filter. apply list_filter_iff. naive_solver. Qed.

(** A namespace has as many keys as live records. *)
Lemma hold_count recs m i : hold_map recs m -> keys_in m i = cnt_in recs i.
Proof.
  intros C. unfold cnt_in. rewrite filter_live_ns. set (l := filter _ (filter _ recs)).
  assert (NoDup (key_of <$> l)) as Nd.
  { eapply sublist_NoDup; [apply (hold_nodup _ _ C)|]. apply fmap_sublist, sublist_filter. }
  assert (dom (filter (fun kv : Z * list Z * list Z => kv.1.1 = i) m) =@{gset (Z * list Z)} list_to_set (key_of <$> l)) as Ed.
  { apply dom_filter_L. intros k. rewrite elem_of_list_to_set. split.
    - intros Hk. apply list_elem_of_fmap in Hk as (r & -> & Hr).
      apply list_elem_of_filter in Hr as [Hn Hr]. apply list_elem_of_filter in Hr as [Hl Hr].
      exists (r_value r). split; [by apply (hold_live recs)|done].
    - intros (v & Hk & Hi). destruct (hold_found _ _ _ _ C Hk) as (r & Hr & Hl & <- & _).
      apply list_elem_of_fmap_2, list_elem_of_filter. split; [exact Hi|]. by apply list_elem_of_filter. }
  unfold keys_in. rewrite <- size_dom, Ed, size_list_to_set, length_fmap by done. done.
Qed.

(** ** Records and namespaces *)

(** The namespaces of the elements [m]. *)
Record naming (names : table_t) (m : kmap) : Prop := {
  nm_names : NoDup names.*1;
  nm_idx : NoDup names.*2;
  nm_valid : Forall name_ok names;
  nm_saved name v : m !! (0, name) = Some v <-> exists i, v = [i] /\ (name, i) ∈ names;
  nm_dom i key : is_Some (m !! (i, key)) -> i = 0 \/ i = NAMESPACE_NULL_IDX \/ i ∈ names.*2
}.

Lemma naming_perm names names' m : names' ≡ₚ names -> naming names m -> naming names' m.
Proof.
  intros Hp [N1 N2 V S D]. constructor; try by rewrite Hp.
  - intros name v. rewrite S. by setoid_rewrite Hp.
  - intros i key Hk. rewrite Hp. by eapply D.
Qed.

(** The name of a namespace is a small element: its index is its value. *)
Lemma saved_index r i :
  rec_ok r -> r_live r = true -> plain r -> r_value r = [i] -> nthb (e_value (r_head r)) 0 = i.
Proof.
  intros Ok Hl Hp Hv. unfold r_value in Hv. destruct Hp as [E|E]; rewrite E in Hv; cbn [Z.eqb ELEMENT_SMALL ELEMENT_MIDDLE] in Hv.
  - unfold slice in Hv. change (Z.to_nat 0) with 0%nat in Hv. rewrite drop_0 in Hv. unfold nthb. rewrite nth_lookup_0.
    destruct (e_value (r_head r)) as [|b l]; [by rewrite take_nil in Hv|].
    destruct (Z.to_nat (e_length (r_head r))); cbn in Hv; [done|]. by injection Hv as -> _.
  - exfalso. pose proof (ro_middle _ Ok Hl E) as Hlen. apply (f_equal zlen) in Hv.
    rewrite zlen_take, zlen_singleton in Hv; [lia|]. split; [lia|].
    rewrite (zlen_concat _ (ro_width _ Ok)), (ro_tail _ Ok), E. change (var_type ELEMENT_MIDDLE) with true. cbn match.
    pose proof (data_entries_bounds (e_length (r_head r))). lia.
Qed.

Lemma name_of_some r name i :
  name_of r = Some (name, i) <->
  r_live r = true /\ key_of r = (0, name) /\ nthb (e_value (r_head r)) 0 = i.
Proof.
  unfold name_of, key_of. destruct (r_live r); cbn [andb]; [|naive_solver].
  destruct (Z.eqb_spec (e_ns (r_head r)) 0) as [->|Hne]; naive_solver.
Qed.

Lemma hold_names recs m names :
  hold_map recs m -> Forall rec_ok recs -> naming names m -> names_in recs ≡ₚ names.
Proof.
  intros C Ok Nm. apply NoDup_Permutation.
  - apply (NoDup_fmap_1 fst). pose proof (hold_nodup _ _ C) as Nd.
    assert (forall l, NoDup (key_of <$> filter (fun r => r_live r = true) l) -> NoDup (names_in l).*1) as H; [|by apply H].
    clear. induction l as [|r l IH]; [constructor|]. rewrite filter_cons. cbn [names_in omap list_omap].
    case_decide as D.
    + cbn [fmap list_fmap]. intros [Hn Nd]%NoDup_cons. destruct (name_of r) as [[name i]|] eqn:E; [|by apply IH].
      cbn [fmap list_fmap fst]. constructor; [|by apply IH]. intros Hin. apply Hn.
      apply name_of_some in E as (_ & -> & _). apply list_elem_of_fmap in Hin as ([nm j] & -> & Hin).
      apply list_elem_of_omap in Hin as (r' & Hr' & E). apply name_of_some in E as (Hl & Hk & _). cbn [fst].
      rewrite <- Hk. apply list_elem_of_fmap_2, list_elem_of_filter. done.
    + unfold name_of. destruct (r_live r); [done|]. apply IH.
  - eapply NoDup_fmap_1, Nm.
  - intros [name i]. unfold names_in. rewrite list_elem_of_omap. rewrite Forall_forall in Ok. split.
    + intros (r & Hr & E). apply name_of_some in E as (Hl & Hk & Hi).
      destruct (hold_live _ _ _ C Hr Hl) as [Hp Hm]. rewrite Hk in Hm. apply (nm_saved _ _ Nm) in Hm as (j & Hv & Hin).
      rewrite (saved_index r j (Ok r Hr) Hl Hp Hv) in Hi. by subst.
    + intros Hin. assert (m !! (0, name) = Some [i]) as Hm by (apply (nm_saved _ _ Nm); eauto).
      destruct (hold_found _ _ _ _ C Hm) as (r & Hr & Hl & Hk & Hv). exists r. split; [done|]. apply name_of_some.
      destruct (hold_live _ _ _ C Hr Hl) as [Hp _]. by rewrite (saved_index r i (Ok r Hr) Hl Hp Hv).
Qed.

(** ** The pages of a log *)

Fixpoint page_recs (log : list (Z * list rec)) (p : Z) : option (list rec) :=
  match log with
  | [] => None
  | (q, recs) :: log => if decide (q = p) then Some recs else page_recs log p
  end.

Lemma page_recs_some log p recs : NoDup log.*1 -> (p, recs) ∈ log -> page_recs log p = Some recs.
Proof.
  induction log as [|[q recs'] log IH]; intros Nd Hin; [by apply not_elem_of_nil in Hin|].
  cbn [fmap list_fmap fst] in Nd. apply NoDup_cons in Nd as [Hn Nd]. cbn [page_recs].
  apply elem_of_cons in Hin as [[= -> ->]|Hin]; [by rewrite decide_True|].
  rewrite decide_False; [by apply IH|]. intros ->. apply Hn. by apply (list_elem_of_fmap_2 fst) in Hin.
Qed.

Lemma page_recs_none log p : p ∉ log.*1 -> page_recs log p = None.
Proof.
  induction log as [|[q recs] log IH]; cbn [page_recs fmap list_fmap fst]; [done|].
  intros [Hp Hn]%not_elem_of_cons. rewrite decide_False by congruence. by apply IH.
Qed.

Lemma omap_page_recs log l : (forall p recs, (p, recs) ∈ l -> page_recs log p = Some recs) ->
  omap (page_recs log) l.*1 = l.*2.
Proof.
  induction l as [|[p recs] l IH]; intros H; [done|]. cbn [fmap list_fmap omap list_omap fst snd].
  rewrite (H p recs) by by left. f_equal. apply IH. intros q recsq Hq. apply H. by right.
Qed.

Lemma omap_none {A B} (g : A -> option B) l : (forall x, x ∈ l -> g x = None) -> omap g l = [].
Proof.
  induction l as [|x l IH]; intros H; [done|]. cbn [omap list_omap]. rewrite (H x) by by left.
  apply IH. intros y Hy. apply H. by right.
Qed.

Section Mount.
Context {F : Type} {Fl : Flash F} {FL : FlashLaws F} {Ci : Cipher}.
Variable good : F -> Prop.
Hypothesis Hgood : reliable good.
Implicit Types (s : env F) (pg : page).

(** The flash holds the elements [m] and the namespaces [names] in the pages of [lay]. *)
Record on_flash (f : F) (lay : layout) names m : Prop := {
  of_size : zlen lay * 4096 = fl_hi - fl_lo;
  of_sectors k x : lay !! k = Some x -> sector_img (img f (Z.of_nat k * 4096)) x;
  of_hold : hold_map (recs_in lay) m;
  of_naming : naming names m
}.

Lemma of_recs f lay names m : on_flash f lay names m -> Forall rec_ok (recs_in lay).
Proof.
  intros [_ Hs _ _]. apply Forall_forall. intros r Hr. unfold recs_in in Hr.
  apply list_elem_of_In, in_concat in Hr as (recs & Hin & Hr). apply list_elem_of_In in Hin, Hr.
  apply list_elem_of_omap in Hin as (x & Hx & E). cbn in E. subst x. apply list_elem_of_lookup in Hx as [k Hk].
  destruct (Hs k _ Hk) as (_ & Ok & _). rewrite Forall_forall in Ok. by apply Ok.
Qed.

Lemma of_names f lay names m :
  on_flash f lay names m -> names_in (recs_in lay) ≡ₚ names /\
  Forall (fun x => 0 <= x.2 < 256) (names_in (recs_in lay)).
Proof.
  intros O. pose proof (hold_names _ _ _ (of_hold _ _ _ _ O) (of_recs _ _ _ _ O) (of_naming _ _ _ _ O)) as Hp.
  split; [done|]. rewrite Hp. eapply Forall_impl; [apply (of_naming _ _ _ _ O)|]. intros x (_ & _ & Hx). lia.
Qed.

(** The zeroed structure, before the first sector. *)
Lemma loaded_start f lay :
  good f -> (SECTOR | fl_lo) -> zlen lay * 4096 = fl_hi - fl_lo ->
  loaded good f lay (env_init f fl_lo (fl_hi - fl_lo) []) 0 [].
Proof.
  intros G Hlo Hsz. constructor; try done; try apply NoDup_nil; try (intros * Hp; by apply not_elem_of_nil in Hp).
  - done.
  - intros j Hj. lia.
  - apply named_start.
Qed.

Lemma loaded_store f lay s log :
  loaded good f lay s (length lay) log -> store_rep good s log.
Proof.
  intros Ld. constructor; try apply Ld.
  - intros a (D & H0 & H1). destruct D as [j ->]. unfold SPI_FLASH_SEC_SIZE in *.
    rewrite (ld_length _ _ _ _ _ _ Ld) in H1. destruct (ld_cover _ _ _ _ _ _ Ld (Z.to_nat j)) as (p & pg & Hp & L & E).
    { unfold zlen in H1. lia. }
    exists p, pg. rewrite E. repeat split; try done. lia.
  - intros n Hn. pose proof (nd_table _ _ (ld_names _ _ _ _ _ _ Ld)) as T.
    apply list_elem_of_lookup in Hn as [k Hk]. destruct (Forall2_lookup_l _ _ _ _ _ T Hk) as (x & _ & Ho).
    unfold obj_cnt in Ho. rewrite Ho. eauto.
Qed.

(** All pages are loaded and the keys counted: the store is that of the flash. *)
Lemma loaded_api f lay names m s log s2 s3 log3 :
  on_flash f lay names m -> loaded good f lay s (length lay) log ->
  s2 = foldl count_rec s (recs_of log) -> same_ns s2 s3 -> store_rep good s3 log3 -> log3 <> [] ->
  recs_of log3 = recs_of log -> api_rep good s3 (names_in (recs_in lay)) m.
Proof.
  intros O Ld Es2 [N1 N2 N3 N4 N5] R Hne Hr. pose proof (counting_recs (recs_of log) s) as Ct. rewrite <- Es2 in Ct.
  pose proof (ld_recs _ _ _ _ _ _ Ld) as Hp. pose proof (ld_names _ _ _ _ _ _ Ld) as Nd. rewrite firstn_all in Hp, Nd.
  destruct (of_names _ _ _ _ O) as [Hn _].
  pose proof (naming_perm _ _ _ Hn (of_naming _ _ _ _ O)) as [M1 M2 M3 M4 M5].
  assert (ns_list s2 = ns_list s /\ ns_states s2 = ns_states s /\ mallocs s2 = mallocs s /\ next_addr s2 = next_addr s)
    as (Q1 & Q2 & Q3 & Q4) by (rewrite (ct_nss _ _ Ct); done).
  constructor; try done; rewrite ?N1, ?N2, ?N3, ?N4, ?N5, ?Q1, ?Q2, ?Q3, ?Q4; try apply Nd; try apply Ld.
  - exists log3. split; [done|]. split; [|done]. apply (hold_content _ (recs_in lay)); [by rewrite Hr|apply O].
  - pose proof (count_table_ok _ (recs_of log) s _ (nd_table _ _ Nd) (nd_nodup _ _ Nd) M2) as T. rewrite <- Es2 in T.
    eapply Forall2_impl; [exact T|]. intros n x. unfold obj_cnt. intros ->. do 3 f_equal.
    rewrite (hold_count (recs_in lay) m x.2 (of_hold _ _ _ _ O)), Z.add_0_l. by rewrite Hp.
Qed.

(** Mounting a flash that holds the pages of a store, or a flash of two sectors or more without
    pages, gives a store of its elements; all sectors but the used pages' are free. *)
Lemma mount_image f lay names m :
  good f -> (SECTOR | fl_lo) -> on_flash f lay names m -> omap id lay <> [] \/ 2 <= zlen lay ->
  exists s, nvds_flash_env_init f fl_lo (fl_hi - fl_lo) [] = (s, inr tt) /\
    api_rep good s (names_in (recs_in lay)) m /\
    zlen (nvds_page_free s) = zlen lay - Z.max 1 (zlen (omap id lay)).
Proof.
  intros G Hlo O Htwo. pose proof (of_size _ _ _ _ O) as Hsz. destruct (of_names _ _ _ _ O) as [_ Hnm].
  unfold nvds_flash_env_init, pages_load. rewrite bnd_get. set (s0 := env_init f fl_lo (fl_hi - fl_lo) []).
  change (length_ s0) with (fl_hi - fl_lo). unfold SPI_FLASH_SEC_SIZE. rewrite <- Hsz, Z.mod_mul, Z.div_mul by lia.
  cbn [Z.eqb negb]. unfold zlen. rewrite Nat2Z.id.
  destruct (load_sectors_ok good Hgood f lay (of_sectors _ _ _ _ O) Hnm (length lay) s0 0 [] (loaded_start f lay G Hlo Hsz))
    as (s1 & log & E1 & Ld); [done|]. change (Z.of_nat 0) with 0 in E1.
  change (0 + length lay)%nat with (length lay) in Ld. mstep_with E1. rewrite bnd_get.
  pose proof (loaded_store f lay s1 log Ld) as R. rewrite (sr_used _ _ _ R).
  mstep_with (count_pages_ok good Hgood s1 log s1 (sr_env _ _ _ R) (sr_pages _ _ _ R) (counting_refl s1) (sr_ns _ _ _ R)).
  set (s2 := foldl count_rec s1 (recs_of log)). pose proof (counting_recs (recs_of log) s1) as Ct. fold s2 in Ct.
  rewrite bnd_get. assert (nvds_page_used s2 = log.*1) as Hu by (rewrite (ct_nss _ _ Ct); apply R). rewrite Hu.
  assert (store_rep good s2 log) as R2.
  { rewrite (ct_nss _ _ Ct). apply store_rep_nss; [done|apply Ct]. }
  pose proof (ld_count _ _ _ _ _ _ Ld) as Hc. pose proof (ld_recs _ _ _ _ _ _ Ld) as Hp. rewrite firstn_all in Hp.
  assert (nvds_page_free s2 = nvds_page_free s1) as Hf by (rewrite (ct_nss _ _ Ct); done).
  pose proof (ld_pages_count _ _ _ _ _ _ Ld) as Hpc. rewrite firstn_all in Hpc.
  destruct log as [|x log'] eqn:El.
  - cbn [fmap list_fmap]. rewrite bool_decide_eq_true_2 by done.
    assert (omap id lay = []) as Hr by (unfold zlen in Hpc; destruct (omap id lay); [done|cbn in Hpc; lia]).
    destruct Htwo as [?|Htwo]; [done|]. rewrite Hr. unfold zlen in Hc, Htwo. cbn [length] in Hc.
    destruct (nvds_page_free s2) as [|p free'] eqn:Ef; [rewrite <- Hf in Hc; cbn in Hc; lia|].
    assert (free' <> []) as Hne by (intros ->; rewrite <- Hf in Hc; cbn in Hc; lia).
    destruct (new_page_plain good Hgood s2 [] 0 p free' R2 Ef Hne) as (s3 & E3 & R3 & Ef3).
    unfold new_page_request. rewrite (bnd_ok _ _ _ _ _ (attempt_ok _ _ _ _ E3)).
    pose proof (keeps_new_page 0 s2) as Hk. unfold keeps_at in Hk. rewrite E3 in Hk.
    exists s3. split; [done|]. split.
    + by apply (loaded_api f lay names m s1 [] s2 s3 [(p, [])]).
    + rewrite Ef3. rewrite <- Hf in Hc. unfold zlen. cbn in Hc |- *. lia.
  - rewrite bool_decide_eq_false_2 by done. exists s2. split; [done|].
    split; [by apply (loaded_api f lay names m s1 (x :: log') s2 s2 (x :: log'))|].
    rewrite Hf. unfold zlen in Hc, Hpc. cbn [length] in Hc, Hpc. lia.
Qed.

(** ** What a store leaves on its flash *)

Lemma used_page_img s p pg recs :
  used_page s p pg recs -> page_img (img (flash s) (page_addr pg)) recs.
Proof.
  intros [[P R] Ok Hd Lv _ _]. pose proof (ir_hd _ _ _ _ R) as E. unfold page_img. rewrite E.
  split; [by exists (entry_states pg)|]. unfold live_page in Lv. by rewrite orb_true_iff, !Z.eqb_eq in Lv.
Qed.

(** The pages in the order of their sectors. *)
Lemma sector_pages s log : forall n,
  store_rep good s log -> Z.of_nat n * 4096 <= length_ s ->
  exists l, length l = n /\ forall k p, l !! k = Some p ->
    p ∈ all_pages s /\ exists pg, pages s !! p = Some pg /\ page_addr pg = Z.of_nat k * 4096.
Proof.
  induction n as [|n IH]; intros R Hn; [by exists []|]. destruct IH as (l & Hl & H); [done|lia|].
  destruct (sr_cover _ _ _ R (Z.of_nat n * 4096)) as (p & pg & Hp & L & E).
  { split; [by exists (Z.of_nat n)|]. unfold SPI_FLASH_SEC_SIZE. lia. }
  exists (l ++ [p]). rewrite length_app, Hl. split; [cbn; lia|]. intros k q Hk.
  apply lookup_app_Some in Hk as [Hk|[Hk1 Hk2]]; [by apply H|]. apply list_lookup_singleton_Some in Hk2 as [Hk2 <-].
  assert (k = n) as -> by lia. eauto.
Qed.

Lemma sector_pages_all s log l :
  store_rep good s log -> zlen l * 4096 = length_ s ->
  (forall k p, l !! k = Some p ->
    p ∈ all_pages s /\ exists pg, pages s !! p = Some pg /\ page_addr pg = Z.of_nat k * 4096) ->
  l ≡ₚ all_pages s.
Proof.
  intros R Hl H. apply NoDup_Permutation.
  - apply NoDup_alt. intros i j p Hi Hj. destruct (H i p Hi) as (_ & pg & L & E), (H j p Hj) as (_ & pg' & L' & E').
    simplify_eq. lia.
  - apply R.
  - intros p. split.
    + intros Hp. apply list_elem_of_lookup in Hp as [k Hk]. by apply (H k).
    + intros Hp. assert (exists pg, page_at s p pg) as (pg & L & S).
      { unfold all_pages in Hp. apply elem_of_app in Hp as [Hp|Hp].
        - destruct (sr_free _ _ _ R p Hp) as (pg & Fp). exists pg. apply Fp.
        - rewrite (sr_used _ _ _ R) in Hp. apply list_elem_of_fmap in Hp as ([q recs] & -> & Hp).
          destruct (sr_pages _ _ _ R q recs Hp) as (pg & U). exists pg. apply U. }
      destruct S as ([j Ej] & H0 & H1). unfold SPI_FLASH_SEC_SIZE in *.
      destruct (lookup_lt_is_Some_2 l (Z.to_nat j)) as [q Hq]; [unfold zlen in Hl; lia|].
      destruct (H _ q Hq) as (Hqa & pgq & Lq & Eq). assert (p = q) as ->; [|by eapply list_elem_of_lookup_2].
      eapply (sr_addr _ _ _ R); try done. rewrite Eq, Ej. lia.
Qed.

Lemma store_layout s log :
  store_rep good s log -> (SECTOR | length_ s) ->
  exists lay, zlen lay * 4096 = length_ s /\ zlen lay = zlen (all_pages s) /\ omap id lay ≡ₚ log.*2 /\
    forall k x, lay !! k = Some x -> sector_img (img (flash s) (Z.of_nat k * 4096)) x.
Proof.
  intros R [n Hn]. unfold SECTOR in Hn. pose proof fl_window as Hw.
  assert (0 <= n) as Hn0. { pose proof (eo_len _ _ (sr_env _ _ _ R)). lia. }
  destruct (sector_pages s log (Z.to_nat n) R) as (l & Hl & H); [lia|].
  assert (zlen l * 4096 = length_ s) as Hz by (unfold zlen; lia).
  pose proof (sector_pages_all s log l R Hz H) as Hp.
  assert (NoDup log.*1) as Nd.
  { rewrite <- (sr_used _ _ _ R). pose proof (sr_nodup _ _ _ R) as N. by apply NoDup_app in N as (_ & _ & ?). }
  exists (page_recs log <$> l). split; [by rewrite zlen_fmap|].
  split; [rewrite zlen_fmap; unfold zlen; by rewrite Hp|]. split.
  - assert (omap id (page_recs log <$> l) = omap (page_recs log) l) as ->.
    { clear. induction l as [|p l IH]; [done|]. cbn [fmap list_fmap omap list_omap id]. by rewrite IH. }
    rewrite Hp. unfold all_pages. rewrite omap_app, (sr_used _ _ _ R), omap_page_recs by (intros; by apply page_recs_some).
    rewrite omap_none; [done|]. intros p Hpf. apply page_recs_none. rewrite <- (sr_used _ _ _ R).
    pose proof (sr_nodup _ _ _ R) as N. apply NoDup_app in N as (_ & N & _). by apply N.
  - intros k x Hk. rewrite list_lookup_fmap in Hk. destruct (l !! k) as [p|] eqn:Lk; [|done]. injection Hk as <-.
    destruct (H k p Lk) as (Ha & pg & L & <-). unfold all_pages in Ha. apply elem_of_app in Ha as [Ha|Ha].
    + destruct (sr_free _ _ _ R p Ha) as (pg' & [[L' _] [Hs _]]). simplify_eq.
      rewrite page_recs_none; [done|]. rewrite <- (sr_used _ _ _ R). 
      pose proof (sr_nodup _ _ _ R) as N. apply NoDup_app in N as (_ & N & _). by apply N.
    + rewrite (sr_used _ _ _ R) in Ha. apply list_elem_of_fmap in Ha as ([q recs] & -> & Ha). cbn [fst] in *.
      destruct (sr_pages _ _ _ R q recs Ha) as (pg' & U). rewrite (page_recs_some log q recs Nd Ha).
      assert (pg' = pg) as -> by (destruct U as [[[L' _] _] _ _ _ _ _]; congruence). by apply (used_page_img s q).
Qed.

(** Restarting a store: the mount of its flash gives a store with the same view, and as many free pages. *)
Lemma restart_ok s v :
  api good s v -> (SECTOR | fl_hi - fl_lo) ->
  exists s', nvds_flash_env_init (flash s) (base_addr s) (length_ s) [] = (s', inr tt) /\ api good s' v /\
    zlen (nvds_page_free s') = zlen (nvds_page_free s).
Proof.
  intros (names & m & A & Hv) Hd. destruct (ap_stores _ _ _ _ A) as (log & R & C & Hne).
  pose proof (sr_env _ _ _ R) as E. rewrite <- (eo_len _ _ E) in Hd.
  destruct (store_layout s log R Hd) as (lay & Hsz & Hall & Hp & Hs). rewrite (eo_base _ _ E), (eo_len _ _ E) in *.
  assert (naming names m) as Nm by (constructor; apply A).
  assert (recs_of log ≡ₚ recs_in lay) as Hr by (unfold recs_of, recs_in; by rewrite Hp).
  assert (on_flash (flash s) lay names m) as O by (constructor; try done; by apply (hold_content log)).
  destruct (mount_image (flash s) lay names m (eo_good _ _ E) (eo_sector _ _ E) O) as (s' & Em & A' & Hf).
  { left. intros E0. rewrite E0 in Hp. apply Permutation_nil_l in Hp. by destruct log. }
  exists s'. split; [done|]. split.
  2:{ rewrite Hf, Hall. unfold all_pages, zlen. rewrite Hp, length_app, (sr_used _ _ _ R), !length_fmap.
      destruct log; [done|]. cbn [length]. lia. }
  exists (names_in (recs_in lay)), m. split; [done|]. intros ns key. rewrite Hv. unfold view. destruct ns as [name|]; [|done]. cbn [idx_of].
  assert (assoc names name = assoc (names_in (recs_in lay)) name) as ->; [|done].
  destruct (of_names _ _ _ _ O) as [Hn _]. apply option_eq. intros i.
  rewrite !assoc_in; [by rewrite Hn|apply A'|apply A].
Qed.

(** A flash without pages: erased, or of other contents. *)
Lemma mount_blank_ok f n :
  good f -> (SECTOR | fl_lo) -> Z.of_nat n * 4096 = fl_hi - fl_lo -> (2 <= n)%nat ->
  (forall k, (k < n)%nat -> scrap (img f (Z.of_nat k * 4096))) ->
  exists s, nvds_flash_env_init f fl_lo (fl_hi - fl_lo) [] = (s, inr tt) /\ api good s (fun _ _ => None) /\
    zlen (nvds_page_free s) = Z.of_nat n - 1.
Proof.
  intros G Hlo Hsz Hn Hs. set (lay := replicate n (@None (list rec))).
  assert (omap id lay = []) as Hl.
  { apply omap_none. intros x Hx. by apply elem_of_replicate in Hx as [-> _]. }
  assert (zlen lay = Z.of_nat n) as Hz by (unfold zlen, lay; by rewrite length_replicate).
  assert (on_flash f lay [] ∅) as O.
  { constructor.
    - by rewrite Hz.
    - intros k x Hk. apply lookup_replicate in Hk as [-> Hk]. by apply Hs.
    - intros k. unfold recs_in. rewrite Hl. rewrite lookup_empty. done.
    - constructor; [constructor|constructor|constructor| |].
      + intros name v. rewrite lookup_empty. split; [done|]. intros (i & _ & Hin). by apply not_elem_of_nil in Hin.
      + intros i key [x Hx]. by rewrite lookup_empty in Hx. }
  destruct (mount_image f lay [] ∅ G Hlo O) as (s & E & A & Hf); [right; lia|].
  exists s. split; [done|]. split; [|rewrite Hf, Hl, zlen_nil, Hz; lia].
  exists (names_in (recs_in lay)), ∅. split; [done|]. intros ns key. unfold view.
  destruct (idx_of _ ns); [by rewrite lookup_empty|done].
Qed.

End Mount.
End NvdsMount.
