(* ===== verification/NvdsSpec.v ===== *)
(** * NVDS: the store and its specification

    The specification is a map from (namespace, key) to values, [view_t], on which
    [nvds_data_put], [nvds_data_get] and [nvds_data_del] act by [spec_step]; a restart, which
    mounts the flash anew, leaves it as it is. The theorems say that the code implements it,
    on a flash that does not fail and for values of at most 256 bytes; their witnesses run on
    a device of four sectors. *)
From S2P Require Import Prelude Crc Flash NvdsTypes Nvds NvdsPage NvdsStore NvdsPut NvdsGc NvdsFrame NvdsMap NvdsApi NvdsLoad NvdsMount.
Open Scope Z_scope.

Module NvdsSpec.
Import NvdsTypes Nvds NvdsPage NvdsStore NvdsPut NvdsApi NvdsMount.

(** ** The specification *)

(** What [nvds_data_get] returns for the value [o]. *)
Definition get_out (o : option (list Z)) (buf : option (list Z)) (length : Z) : stop + get_result :=
  match o with
  | None => inl (RET NVDS_E_NOT_FOUND)
  | Some d =>
      match buf with
      | None => inr (NVDS_OK, zlen d, None)
      | Some b =>
          if length <? zlen d then inr (NVDS_E_INVALID_LENGTH, zlen d, buf)
          else inr (NVDS_OK, zlen d, Some (splice 0 d b))
      end
  end.

Inductive call :=
  | Put (ns : option (list Z)) (key data : list Z) (length : Z)
  | Get (ns : option (list Z)) (key : list Z) (buf : option (list Z)) (length : Z)
  | Del (ns : option (list Z)) (key : list Z)
  | Restart.

Inductive outcome := ODone (r : stop + unit) | OGet (r : stop + get_result).

Definition spec_step (v : view_t) (c : call) (o : outcome) (v' : view_t) : Prop :=
  match c with
  | Put ns key data length =>
      (o = ODone (inr tt) /\ v' = bind v ns key (Some (slice 0 length data))) \/
      (o = ODone (inl (RET NVDS_E_NO_SPACE)) /\ v' = bind v ns key None)
  | Get ns key buf length => o = OGet (get_out (v ns key) buf length) /\ v' = v
  | Del ns key =>
      match v ns key with
      | None => o = ODone (inl (RET NVDS_E_NOT_FOUND)) /\ v' = v
      | Some _ => o = ODone (inr tt) /\ v' = bind v ns key None
      end
  | Restart => o = ODone (inr tt) /\ v' = v
  end.

Inductive spec_run : view_t -> list call -> list outcome -> view_t -> Prop :=
  | spec_nil v : spec_run v [] [] v
  | spec_cons v c o v1 cs os v2 :
      spec_step v c o v1 -> spec_run v1 cs os v2 -> spec_run v (c :: cs) (o :: os) v2.

(** The arguments a caller may pass. *)
Definition call_ok (c : call) : Prop :=
  match c with
  | Put ns key data length => put_args ns key data length
  | Get ns key buf length =>
      name_arg ns /\ zlen key <= 15 /\ match buf with None => True | Some b => length <= zlen b end
  | Del ns key => name_arg ns /\ is_str key /\ zlen key <= 15
  | Restart => True
  end.

Section Spec.
Context {F : Type} {Fl : Flash F} {FL : FlashLaws F} {Ci : Cipher}.
Variable good : F -> Prop.
Hypothesis Hgood : reliable good.
Implicit Types (s : env F).

(** The code: one call, and a sequence of calls. *)
Definition run_call (c : call) s : env F * outcome :=
  match c with
  | Put ns key data length =>
      let '(s', r) := nvds_data_put true ns (Some key) (Some data) length s in (s', ODone r)
  | Get ns key buf length => let '(s', r) := nvds_data_get true ns (Some key) buf (Some length) s in (s', OGet r)
  | Del ns key => let '(s', r) := nvds_data_del true ns (Some key) s in (s', ODone r)
  | Restart => let '(s', r) := nvds_flash_env_init (flash s) (base_addr s) (length_ s) [] in (s', ODone r)
  end.

Fixpoint run_calls (cs : list call) s : env F * list outcome :=
  match cs with
  | [] => (s, [])
  | c :: cs => let '(s1, o) := run_call c s in let '(s2, os) := run_calls cs s1 in (s2, o :: os)
  end.

Lemma run_call_ok s v c :
  api good s v -> (SECTOR | fl_hi - fl_lo) -> call_ok c ->
  exists s' o v', run_call c s = (s', o) /\ spec_step v c o v' /\ api good s' v'.
Proof.
  intros A Hd Hc. destruct c as [ns key data length|ns key buf length|ns key|]; cbn [run_call spec_step call_ok] in *.
  - destruct (data_put_ok good Hgood s v ns key data length A Hc) as (s' & r & E & H). rewrite E.
    exists s', (ODone r). destruct H as [(-> & A')|(-> & A')]; eexists; (split; [done|]); split; eauto.
  - destruct Hc as (Hn & Hk & Hb). rewrite (data_get_ok good Hgood s v ns key buf length A Hn Hk Hb).
    exists s, (OGet (get_out (v ns key) buf length)), v. done.
  - destruct Hc as (Hn & Hk & Hkl). pose proof (data_del_ok good Hgood s v ns key A Hn Hk Hkl) as H.
    destruct (v ns key); [destruct H as (s' & E & A')|]; rewrite ?E, ?H; eexists _, _, _; (split; [done|]); eauto.
  - destruct (restart_ok good Hgood s v A Hd) as (s' & E & A' & _). rewrite E. by exists s', (ODone (inr tt)), v.
Qed.

Lemma run_calls_ok : forall cs s v,
  api good s v -> (SECTOR | fl_hi - fl_lo) -> Forall call_ok cs ->
  exists s' os v', run_calls cs s = (s', os) /\ spec_run v cs os v' /\ api good s' v'.
Proof.
  induction cs as [|c cs IH]; intros s v A Hd Hc; cbn [run_calls].
  { exists s, [], v. split; [done|]. split; [constructor|done]. }
  apply Forall_cons in Hc as [Hc Hcs]. destruct (run_call_ok s v c A Hd Hc) as (s1 & o & v1 & E & Hs & A1).
  destruct (IH s1 v1 A1 Hd Hcs) as (s2 & os & v2 & E2 & Hr & A2). rewrite E, E2.
  exists s2, (o :: os), v2. split; [done|]. split; [by econstructor|done].
Qed.

(** C1: from a flash without pages, any sequence of puts, gets, deletes and restarts runs to its end,
    with neither undefined behaviour nor an endless loop, and every call returns what the
    specification allows: the store implements the map, through all openings and collections of
    pages, and keeps it over restarts. *)
Theorem nvds_refines_map f n cs :
  good f -> (SECTOR | fl_lo) -> Z.of_nat n * SECTOR = fl_hi - fl_lo -> (2 <= n)%nat ->
  (forall k, (k < n)%nat -> scrap (img f (Z.of_nat k * SECTOR))) -> Forall call_ok cs ->
  exists s0 s' os v', nvds_flash_env_init f fl_lo (fl_hi - fl_lo) [] = (s0, inr tt) /\
    run_calls cs s0 = (s', os) /\ spec_run (fun _ _ => None) cs os v' /\ api good s' v'.
Proof.
  intros G Hlo Hsz Hn Hs Hcs. destruct (mount_blank_ok good Hgood f n G Hlo Hsz Hn Hs) as (s0 & E0 & A0 & _).
  destruct (run_calls_ok cs s0 _ A0) as (s' & os & v' & E & Hr & A'); [by exists (Z.of_nat n)|done|].
  exists s0, s', os, v'. done.
Qed.

(** C2: [nvds_data_put] binds the key to the data in the callers' view, creating the namespace if
    it is new, and changes no other key of any namespace; the one other outcome is
    [NVDS_E_NO_SPACE], which leaves the key without a value. *)
Theorem nvds_data_put_spec s v ns key data length :
  api good s v -> put_args ns key data length ->
  exists s' r, nvds_data_put true ns (Some key) (Some data) length s = (s', r) /\
    ((r = inr tt /\ api good s' (bind v ns key (Some (slice 0 length data)))) \/
     (r = inl (RET NVDS_E_NO_SPACE) /\ api good s' (bind v ns key None))).
Proof. by apply data_put_ok. Qed.

(** With two free pages, a key of the [NULL] namespace, or of a namespace that has a key, can
    always be written. *)
Theorem nvds_data_put_room s v ns key data length :
  api good s v -> put_args ns key data length -> 2 <= zlen (nvds_page_free s) ->
  (ns = None \/ exists key0 d, v ns key0 = Some d) ->
  exists s', nvds_data_put true ns (Some key) (Some data) length s = (s', inr tt) /\
    api good s' (bind v ns key (Some (slice 0 length data))).
Proof. by apply data_put_room_ok. Qed.

(** C3: [nvds_data_get] returns the value the callers' view has for the key, if it fits the buffer,
    and its size in any case; it does not change the store. *)
Theorem nvds_data_get_spec s v ns key buf length :
  api good s v -> name_arg ns -> zlen key <= 15 ->
  match buf with None => True | Some b => length <= zlen b end ->
  nvds_data_get true ns (Some key) buf (Some length) s = (s, get_out (v ns key) buf length).
Proof. by apply data_get_ok. Qed.

(** C4: [nvds_data_del] removes the key from the callers' view and changes no other key, or reports
    that there is none; the namespace that loses its last key is removed with it. *)
Theorem nvds_data_del_spec s v ns key :
  api good s v -> name_arg ns -> is_str key -> zlen key <= 15 ->
  match v ns key with
  | None => nvds_data_del true ns (Some key) s = (s, inl (RET NVDS_E_NOT_FOUND))
  | Some _ => exists s', nvds_data_del true ns (Some key) s = (s', inr tt) /\ api good s' (bind v ns key None)
  end.
Proof. by apply data_del_ok. Qed.

(** What was put is what a get returns, whatever was stored before. *)
Theorem nvds_put_get s s' v ns key data length b :
  api good s v -> put_args ns key data length ->
  nvds_data_put true ns (Some key) (Some data) length s = (s', inr tt) -> length <= zlen b ->
  nvds_data_get true ns (Some key) (Some b) (Some (zlen b)) s' =
    (s', inr (NVDS_OK, length, Some (splice 0 (slice 0 length data) b))).
Proof.
  intros A P E Hb. destruct (data_put_ok good Hgood s v ns key data length A P) as (s1 & r & E1 & H).
  rewrite E in E1. injection E1 as <- <-. destruct H as [(_ & A')|([=] & _)].
  assert (zlen (slice 0 length data) = length) as Hl by (apply zlen_slice; pose proof (pa_len _ _ _ _ P); lia).
  rewrite (data_get_ok good Hgood s' _ ns key (Some b) (zlen b) A' (pa_ns _ _ _ _ P) (pa_klen _ _ _ _ P) (Z.le_refl _)).
  unfold bind. rewrite decide_True by done. rewrite Hl. destruct (Z.ltb_spec (zlen b) length); [lia|done].
Qed.

(** Mounting a flash of two sectors or more that holds no page, erased or not, gives an empty
    store: no key of any namespace has a value; one page is in use and the others are free. *)
Theorem mount_blank f n :
  good f -> (SECTOR | fl_lo) -> Z.of_nat n * SECTOR = fl_hi - fl_lo -> (2 <= n)%nat ->
  (forall k, (k < n)%nat -> scrap (img f (Z.of_nat k * SECTOR))) ->
  exists s, nvds_flash_env_init f fl_lo (fl_hi - fl_lo) [] = (s, inr tt) /\ api good s (fun _ _ => None) /\
    zlen (nvds_page_free s) = Z.of_nat n - 1.
Proof. by apply mount_blank_ok. Qed.

(** C5: nothing is lost at a restart: mounting the flash of a store, with all its pages, records and
    namespaces, gives a store with the same view of every namespace and as many free pages. *)
Theorem nvds_restart s v :
  api good s v -> (SECTOR | fl_hi - fl_lo) ->
  exists s', nvds_flash_env_init (flash s) (base_addr s) (length_ s) [] = (s', inr tt) /\ api good s' v /\
    zlen (nvds_page_free s') = zlen (nvds_page_free s).
Proof. by apply restart_ok. Qed.

End Spec.

(** ** Runs on a device of four sectors *)

Definition base : Z := 0x3FB000.
Definition size : Z := 0x4000.

Section Runs.
#[local] Instance dev : Flash Sim.sim := Sim.sim_flash base (base + size).

Lemma dev_window : 0 <= base <= base + size /\ base + size <= 2 ^ 31.
Proof. unfold base, size. lia. Qed.

#[local] Instance dev_laws : FlashLaws Sim.sim := Sim.sim_laws base (base + size) dev_window.
#[local] Instance no_cipher : Cipher := {| aes_encrypt _ := None; aes_decrypt _ := None |}.

Definition dev_good : Sim.sim -> Prop := Sim.sim_good base (base + size).
Definition dev_reliable : reliable dev_good := Sim.sim_reliable base (base + size) dev_window.

(** The first sector holds a page header with a wrong checksum; the others are erased. *)
Definition f1 : Sim.sim := Sim.mk_sim ([0x53; 0x44; 0x56; 0x4E] ++ replicate (Z.to_nat size - 4) 0xFF) [].

Lemma f1_ok :
  dev_good f1 /\ (SECTOR | fl_lo) /\ Z.of_nat 4 * SECTOR = fl_hi - fl_lo /\ (2 <= 4)%nat /\
  (forall k, (k < 4)%nat -> scrap (img f1 (Z.of_nat k * SECTOR))).
Proof.
  split; [|split; [|split; [|split; [lia|]]]].
  - split; [done|]. split; [done|]. apply Forall_app. split; [repeat constructor; lia|]. apply Forall_replicate. lia.
  - by exists 0x3FB.
  - done.
  - intros k Hk. left. destruct k as [|[|[|[|k]]]]; [by vm_compute..|lia].
Qed.

Definition wifi : list Z := [119; 105; 102; 105].
Definition ssid : list Z := [115; 115; 105; 100].
Definition v1 : view_t := fun _ _ => None.
Definition some_calls : list call :=
  [Put (Some wifi) ssid [104; 111; 109; 101] 4; Restart; Get (Some wifi) ssid (Some (replicate 8 0)) 8; Del (Some wifi) ssid].

Lemma args_ok ns : name_arg ns -> put_args ns ssid [104; 111; 109; 101] 4.
Proof.
  intros Hn. constructor; try done; try (unfold zlen, ssid; cbn; lia).
  - unfold is_str, ssid. repeat constructor; lia.
  - unfold bytes. repeat constructor; lia.
Qed.

Lemma wifi_ok : name_arg (Some wifi).
Proof. split; [|done]. unfold is_str, wifi. repeat constructor; lia. Qed.

Lemma ssid_ok : is_str ssid /\ zlen ssid <= 15.
Proof. split; [|done]. unfold is_str, ssid. repeat constructor; lia. Qed.

Lemma some_calls_ok : Forall call_ok some_calls.
Proof.
  pose proof wifi_ok. pose proof ssid_ok as []. repeat constructor; try apply args_ok; done.
Qed.

(** A mounted store, and one with a value in it. *)
Lemma mounted : exists s : env Sim.sim, nvds_flash_env_init f1 fl_lo (fl_hi - fl_lo) [] = (s, inr tt) /\
  api dev_good s v1 /\ zlen (nvds_page_free s) = 3.
Proof. destruct f1_ok as (H1 & H2 & H3 & H4 & H5). exact (mount_blank_ok dev_good dev_reliable f1 4 H1 H2 H3 H4 H5). Qed.

Definition v2 : view_t := bind v1 None ssid (Some [104; 111; 109; 101]).

Lemma filled : exists s : env Sim.sim, api dev_good s v2.
Proof.
  destruct mounted as (s & _ & A & Hf).
  destruct (data_put_room_ok dev_good dev_reliable s v1 None ssid [104; 111; 109; 101] 4 A (args_ok None I))
    as (s' & _ & A'); [lia|by left|]. by exists s'.
Qed.

Lemma nvds_refines_map_witness : exists s0 s' os v',
  nvds_flash_env_init f1 fl_lo (fl_hi - fl_lo) [] = (s0, inr tt) /\
  run_calls some_calls s0 = (s', os) /\ spec_run (fun _ _ => None) some_calls os v' /\ api dev_good s' v'.
Proof.
  destruct f1_ok as (H1 & H2 & H3 & H4 & H5).
  exact (nvds_refines_map dev_good dev_reliable f1 4 some_calls H1 H2 H3 H4 H5 some_calls_ok).
Defined.

Lemma nvds_data_put_spec_witness : exists s : env Sim.sim, api dev_good s v1 /\
  exists s' r, nvds_data_put true (Some wifi) (Some ssid) (Some [104; 111; 109; 101]) 4 s = (s', r) /\
    ((r = inr tt /\ api dev_good s' (bind v1 (Some wifi) ssid (Some [104; 111; 109; 101]))) \/
     (r = inl (RET NVDS_E_NO_SPACE) /\ api dev_good s' (bind v1 (Some wifi) ssid None))).
Proof.
  destruct mounted as (s & _ & A & _). exists s. split; [exact A|].
  exact (nvds_data_put_spec dev_good dev_reliable s v1 (Some wifi) ssid [104; 111; 109; 101] 4 A (args_ok _ wifi_ok)).
Defined.

Lemma nvds_data_put_room_witness : exists s : env Sim.sim, api dev_good s v1 /\
  exists s', nvds_data_put true None (Some ssid) (Some [104; 111; 109; 101]) 4 s = (s', inr tt) /\
    api dev_good s' (bind v1 None ssid (Some [104; 111; 109; 101])).
Proof.
  destruct mounted as (s & _ & A & Hf). exists s. split; [exact A|].
  assert (2 <= zlen (nvds_page_free s)) as H2 by (rewrite Hf; lia).
  exact (nvds_data_put_room dev_good dev_reliable s v1 None ssid [104; 111; 109; 101] 4 A (args_ok None I) H2
           (or_introl eq_refl)).
Defined.

Lemma nvds_data_get_spec_witness : exists s : env Sim.sim, api dev_good s v2 /\
  nvds_data_get true None (Some ssid) (Some (replicate 6 0)) (Some 6) s =
    (s, inr (NVDS_OK, 4, Some [104; 111; 109; 101; 0; 0])).
Proof.
  destruct filled as (s & A). exists s. split; [exact A|]. destruct ssid_ok as [_ Hk].
  exact (nvds_data_get_spec dev_good dev_reliable s v2 None ssid (Some (replicate 6 0)) 6 A I Hk ltac:(done)).
Defined.

Lemma nvds_data_del_spec_witness : exists s : env Sim.sim, api dev_good s v2 /\
  exists s', nvds_data_del true None (Some ssid) s = (s', inr tt) /\ api dev_good s' (bind v2 None ssid None).
Proof.
  destruct filled as (s & A). exists s. split; [exact A|]. destruct ssid_ok as [Hs Hk].
  exact (nvds_data_del_spec dev_good dev_reliable s v2 None ssid A I Hs Hk).
Defined.

Lemma nvds_put_get_witness : exists s s' : env Sim.sim, api dev_good s v1 /\
  nvds_data_put true None (Some ssid) (Some [104; 111; 109; 101]) 4 s = (s', inr tt) /\
  nvds_data_get true None (Some ssid) (Some (replicate 6 0)) (Some 6) s' =
    (s', inr (NVDS_OK, 4, Some [104; 111; 109; 101; 0; 0])).
Proof.
  destruct mounted as (s & _ & A & Hf). exists s.
  destruct (data_put_room_ok dev_good dev_reliable s v1 None ssid [104; 111; 109; 101] 4 A (args_ok None I))
    as (s' & E & _); [lia|by left|]. exists s'. split; [exact A|]. split; [exact E|].
  exact (nvds_put_get dev_good dev_reliable s s' v1 None ssid [104; 111; 109; 101] 4 (replicate 6 0) A
           (args_ok None I) E ltac:(done)).
Defined.

Lemma mount_blank_witness : exists s : env Sim.sim, nvds_flash_env_init f1 fl_lo (fl_hi - fl_lo) [] = (s, inr tt) /\
  api dev_good s (fun _ _ => None) /\ zlen (nvds_page_free s) = 3.
Proof.
  destruct f1_ok as (H1 & H2 & H3 & H4 & H5). exact (mount_blank dev_good dev_reliable f1 4 H1 H2 H3 H4 H5).
Defined.

Lemma nvds_restart_witness : exists s s' : env Sim.sim, api dev_good s v2 /\
  nvds_flash_env_init (flash s) (base_addr s) (length_ s) [] = (s', inr tt) /\ api dev_good s' v2.
Proof.
  destruct filled as (s & A). exists s.
  destruct (nvds_restart dev_good dev_reliable s v2 A ltac:(by exists 4)) as (s' & E & A' & _). by exists s'.
Defined.

End Runs.
End NvdsSpec.
