(* ===== verification/NvdsStores.v ===== *)
(** * NVDS: several stores

    The functions of [src/gd32_os/MSDK/plf/src/nvds/nvds_flash.c] that open, close and clean
    stores, and the data functions with their handles: every store has a part of one flash,
    the open ones are in a list, and one mutex guards them all. *)
From S2P Require Import Prelude Flash SList NvdsTypes Nvds.
Open Scope Z_scope.

Module NvdsStores.
Import NvdsTypes Nvds.

Abbreviation NULL := 0.
Definition LABEL_NAME_MAX_SIZE : Z := 32.
(** "inner_nvds" *)
Definition LABEL_INNER_NVDS_FLASH : list Z := [105; 110; 110; 101; 114; 95; 110; 118; 100; 115].
Definition NVDS_FLASH_INTERNAL_ADDR : Z := 0x3FB000.
Definition NVDS_FLASH_INTERNAL_SIZE : Z := 0x4000.

Section Stores.
Context {F : Type} {Fl : Flash F} {Ci : Cipher}.

(** The flash as the store that starts at [start] and has [size] bytes sees it: the same calls,
    and its own window to reason about. *)
Definition part (start size : Z) : Flash F := {|
  flash_read := flash_read;
  flash_write := flash_write;
  flash_erase := flash_erase;
  fl_lo := start;
  fl_hi := start + size;
  fl_mem f := slice (start - fl_lo) size (fl_mem f);
  fl_inv := fl_inv
|}.

(** [struct nvds_flash_env_tag] with its label. The flash of a store is the one of the device. *)
Record nvds_flash_env_tag := mk_tag { label : list Z; store : env F }.

(** [hdrs]: the [next] fields of the headers of the stores; [tags]: the stores that are
    allocated, by their addresses. *)
Record world := mk_world {
  dev : F; hdrs : gmap Z Z; nvds_flash_list : SList.list_t; nvds_mutex : bool; tags : gmap Z nvds_flash_env_tag; next_tag : Z
}.
Abbreviation C := (M world stop).

(** The static store, whose address is passed on for a [NULL] handle. *)
Definition nvds_flash_env : Z := 1.
Definition zero_tag (f : F) : nvds_flash_env_tag := mk_tag [] (env_init f 0 0 []).

(** The memory when the device starts. *)
Definition started (f : F) : world := mk_world f {[nvds_flash_env := 0]} SList.list_init false {[nvds_flash_env := zero_tag f]} 2.

Definition set_list (h : gmap Z Z) (l : SList.list_t) : C unit := modify (fun w => mk_world (dev w) h l (nvds_mutex w) (tags w) (next_tag w)).
Definition set_mutex (b : bool) : C unit := modify (fun w => mk_world (dev w) (hdrs w) (nvds_flash_list w) b (tags w) (next_tag w)).
Definition set_hdrs (h : gmap Z Z) : C unit := modify (fun w => mk_world (dev w) h (nvds_flash_list w) (nvds_mutex w) (tags w) (next_tag w)).
Definition set_tag (h : Z) (t : nvds_flash_env_tag) : C unit :=
  modify (fun w => mk_world (dev w) (hdrs w) (nvds_flash_list w) (nvds_mutex w) (<[h := t]> (tags w)) (next_tag w)).
(** A block of memory for a store, zeroed; and giving it back. *)
Definition new_tag : C Z := fun w =>
  let h := next_tag w in
  (mk_world (dev w) (<[h := 0]> (hdrs w)) (nvds_flash_list w) (nvds_mutex w) (<[h := zero_tag (dev w)]> (tags w)) (h + 1), inr h).
Definition free_tag (h : Z) : C unit :=
  modify (fun w => mk_world (dev w) (delete h (hdrs w)) (nvds_flash_list w) (nvds_mutex w) (delete h (tags w)) (next_tag w)).

Definition opt {A} (o : option A) : C A := match o with Some a => ret a | None => err UB end.
Definition tag (h : Z) : C nvds_flash_env_tag := let! w := get in opt (tags w !! h).
Definition fail {A} (r : nvds_ret) : C A := err (RET r).
Definition try {A} (m : C A) : C (nvds_ret + A) :=
  fun w => match m w with
           | (w', inl (RET r)) => (w', inr (inl r))
           | (w', inl e) => (w', inl e)
           | (w', inr a) => (w', inr (inr a))
           end.

(** A function of one store, on the flash of the device. *)
Definition on {A} (h : Z) (m : Flash F -> K F A) : C A :=
  let! t := tag h in
  fun w =>
    let s := set_flash (dev w) (store t) in
    let '(s', r) := m (part (base_addr s) (length_ s)) s in
    (mk_world (flash s') (hdrs w) (nvds_flash_list w) (nvds_mutex w) (<[h := mk_tag (label t) s']> (tags w)) (next_tag w), r).

(** ** Opening and closing *)

(** Whether the area is apart from those of all stores of the list. *)
Fixpoint check_loop (n : nat) (flash_env start_addr size : Z) : C bool :=
  match n with
  | O => err DIVERGES
  | S n =>
      if flash_env =? NULL then ret true
      else
        let! t := tag flash_env in
        let s := store t in
        if (u32 (start_addr + size) <? base_addr s) || (u32 (base_addr s + length_ s) <? start_addr) then
          let! w := get in
          let! next := opt (SList.list_next (hdrs w) flash_env) in
          check_loop n next start_addr size
        else ret false
  end.
Definition flash_env_check (start_addr size : Z) : C bool :=
  let! w := get in check_loop (SList.fuel (hdrs w)) (SList.list_pick (nvds_flash_list w)) start_addr size.

Definition push_back (h : Z) : C unit :=
  let! w := get in
  let! p := opt (SList.list_push_back (hdrs w) (nvds_flash_list w) h) in
  set_list p.1 p.2.

(** [mallocs]: the outcomes of the allocations of pages and namespaces. *)
Definition nvds_flash_env_init (h start_addr size : Z) (name : list Z) (mallocs : list bool) : C unit :=
  let! t := tag h in
  let s := store t in
  set_tag h (mk_tag (take (Z.to_nat LABEL_NAME_MAX_SIZE) name)
    (mk_env (flash s) start_addr size false (pages s) (nss s) (ns_list s) (ns_states s) (nvds_page_free s) (nvds_page_used s) mallocs (next_addr s))) ;;;
  on h (fun fl => pages_load (H := fl)) ;;;
  push_back h.

(** [mutex_made], [env_made]: whether there is memory for the mutex, and for the store. *)
Definition nvds_flash_init (mutex_made env_made : bool) (mallocs : list bool) (start_addr size : Z) (name : list Z) : C Z :=
  let! free := flash_env_check start_addr size in
  if negb free then ret NULL
  else
    let! w := get in
    (if nvds_mutex w then ret tt else set_mutex mutex_made) ;;;
    let! w := get in
    if negb (nvds_mutex w) then ret NULL
    else if negb env_made then set_mutex false ;;; ret NULL
    else
      let! h := new_tag in
      let! r := try (nvds_flash_env_init h start_addr size name mallocs) in
      match r with
      | inr _ => ret h
      | inl _ => set_mutex false ;;; free_tag h ;;; ret NULL
      end.

(** The static store is not a block that can be freed. *)
Definition nvds_flash_deinit (h : Z) : C unit :=
  let! w := get in
  let! p := opt (SList.list_extract (hdrs w) (nvds_flash_list w) h) in
  set_list p.1 p.2 ;;;
  if h =? NULL then ret tt
  else if h =? nvds_flash_env then err UB
  else let! _ := tag h in free_tag h.

(** Less the registers that exclude the area from decryption ([raw_flash_nodec_config]). *)
Definition nvds_flash_internal_init (mutex_made : bool) (mallocs : list bool) : C unit :=
  let! w := get in
  (if nvds_mutex w then ret tt else set_mutex mutex_made) ;;;
  let! w := get in
  if negb (nvds_mutex w) then fail NVDS_E_FAIL
  else
    set_list (hdrs w) SList.list_init ;;;
    let! free := flash_env_check NVDS_FLASH_INTERNAL_ADDR NVDS_FLASH_INTERNAL_SIZE in
    let! r := if (free : bool) then try (nvds_flash_env_init nvds_flash_env NVDS_FLASH_INTERNAL_ADDR NVDS_FLASH_INTERNAL_SIZE LABEL_INNER_NVDS_FLASH mallocs)
              else ret (inl NVDS_E_INVAL_PARAM) in
    match r with inr _ => ret tt | inl e => set_mutex false ;;; fail e end.

(** ** The data of a store

    A mutex that does not exist is not got: so answers the [sys_mutex_get] of RT-Thread's wrapper; that of
    FreeRTOS hands [NULL] to the kernel. *)

Definition handle_env (handle : Z) : Z := if handle =? NULL then nvds_flash_env else handle.

Definition nvds_data_put (handle : Z) (namespace key data : option (list Z)) (length : Z) : C unit :=
  let! w := get in on (handle_env handle) (fun fl => Nvds.nvds_data_put (H := fl) (nvds_mutex w) namespace key data length).
Definition nvds_data_get (handle : Z) (namespace key data : option (list Z)) (length : option Z) : C get_result :=
  let! w := get in on (handle_env handle) (fun fl => Nvds.nvds_data_get (H := fl) (nvds_mutex w) namespace key data length).
Definition nvds_data_del (handle : Z) (namespace key : option (list Z)) : C unit :=
  let! w := get in on (handle_env handle) (fun fl => Nvds.nvds_data_del (H := fl) (nvds_mutex w) namespace key).
Definition nvds_data_find (handle : Z) (namespace key : option (list Z)) : C unit :=
  let! w := get in on (handle_env handle) (fun fl => Nvds.nvds_data_find (H := fl) (nvds_mutex w) namespace key).

(** ** Cleaning *)

Fixpoint find_label (n : nat) (flash_env : Z) (name : list Z) : C Z :=
  match n with
  | O => err DIVERGES
  | S n =>
      if flash_env =? NULL then ret NULL
      else
        let! t := tag flash_env in
        if bool_decide (label t = name) then ret flash_env
        else
          let! w := get in
          let! next := opt (SList.list_next (hdrs w) flash_env) in
          find_label n next name
  end.

(** [memset] on the static store: its header is cleared while it is in the list. *)
Definition clear_static : C unit :=
  let! w := get in set_tag nvds_flash_env (zero_tag (dev w)) ;;; set_hdrs (<[nvds_flash_env := 0]> (hdrs w)).

Definition nvds_clean (mallocs : list bool) (nvds_label : option (list Z)) : C unit :=
  let! w := get in
  if negb (nvds_mutex w) then fail NVDS_E_FAIL
  else
    let name := default LABEL_INNER_NVDS_FLASH nvds_label in
    let! h := find_label (SList.fuel (hdrs w)) (SList.list_pick (nvds_flash_list w)) name in
    if h =? NULL then fail NVDS_E_NOT_FOUND
    else
      let! t := tag h in
      on h (fun fl => nvds_flash_erase (H := fl) 0 (length_ (store t))) ;;;
      match nvds_label with
      | None =>
          clear_static ;;;
          try (nvds_flash_env_init nvds_flash_env NVDS_FLASH_INTERNAL_ADDR NVDS_FLASH_INTERNAL_SIZE LABEL_INNER_NVDS_FLASH mallocs) ;;;
          ret tt
      | Some _ => nvds_flash_deinit h
      end.

End Stores.
Arguments world : clear implicits.
Arguments nvds_flash_env_tag : clear implicits.
End NvdsStores.
