(* ===== verification/NvdsStoresSpec.v ===== *)
(** * NVDS: several stores, one flash

    The window of a store is a flash of its own; what a store does to its window leaves the
    windows of the others alone; and the store is the same on any flash with the same window. *)
From S2P Require Import Prelude Crc Flash SList NvdsTypes Nvds NvdsPage NvdsStore NvdsMap NvdsApi NvdsMount NvdsSpec NvdsStores.
Open Scope Z_scope.

Module NvdsStoresSpec.
Import NvdsTypes Nvds NvdsPage NvdsStore NvdsMap NvdsApi NvdsMount NvdsSpec NvdsStores.

(** ** A store on another flash with the same bytes *)

Section Same.
Context {F : Type} {Fl : Flash F} {Ci : Cipher}.
Implicit Types (s : env F).

Lemma api_same (g1 g2 : F -> Prop) s v f : api g1 s v -> g2 f -> fl_mem f = fl_mem (flash s) -> api g2 (set_flash f s) v.
Proof.
  intros (names & m & [[log [[R1 R2 R3 R4 R5 R6 R7 R8] [C N]]] A2 A3 A4 A5 A6 A7 A8 A9 A10 A11 A12] & Hv) Hg Hm.
  exists names, m. split; [|done]. constructor; try done. exists log. split; [|done].
  assert (forall a, img f a = img (flash s) a) as Hi by (intros a; unfold img; by rewrite Hm).
  constructor; try done.
  - destruct R1 as [E1 E2 E3 E4 _]. by constructor.
  - intros p recs Hp. destruct (R4 p recs Hp) as [pg [U1 U2 U3 U4 U5 U6]]. exists pg. constructor; try done.
    destruct U1 as [Hat Hrep]. split; [exact Hat|]. cbn [flash set_flash]. by rewrite Hi.
  - intros p Hp. destruct (R5 p Hp) as (pg & Hat & Hs & Hu). exists pg. split; [exact Hat|]. cbn [flash set_flash]. by rewrite Hi.
Qed.

End Same.

(** ** Windows *)

Lemma slice_splice_in a n o d (l : list Z) : 0 <= a -> 0 <= n -> a + n <= zlen l -> a <= o -> o + zlen d <= a + n ->
  slice a n (splice o d l) = splice (o - a) d (slice a n l).
Proof.
  intros H1 H2 H3 H4 H5. pose proof (zlen_nonneg d). assert (zlen (splice o d l) = zlen l) as Hl by (apply zlen_splice; lia). assert (zlen (slice a n l) = n) as Hs by (apply zlen_slice; lia).
  apply list_eq_nthb; rewrite zlen_slice by lia; [by rewrite zlen_splice by lia|].
  intros i Hi. rewrite nthb_slice, !nthb_splice, nthb_slice by lia. repeat if_split; try lia; try done; f_equal; lia.
Qed.

Section Windows.
Context {F : Type} {Fl : Flash F} {FL : FlashLaws F}.
Variable good : F -> Prop.
Hypothesis Hgood : reliable good.

(** A window inside the flash. *)
Definition inside (b n : Z) : Prop := fl_lo <= b /\ 0 <= n /\ b + n <= fl_hi.

Lemma part_laws b n : inside b n -> FlashLaws F (H := part b n).
Proof.
  intros (H1 & H2 & H3). pose proof (fl_window (F := F)) as [W1 W2].
  constructor; cbn [flash_read flash_write flash_erase fl_lo fl_hi fl_mem fl_inv part].
  - lia.
  - intros f Hf. rewrite zlen_slice; [lia|lia|lia|]. rewrite (fl_mem_len f Hf). lia.
  - intros f Hf. by apply bytes_slice, fl_mem_bytes.
  - intros f off k Hf Ho Hk Hr. rewrite (fl_read_ok f off k Hf) by lia. rewrite slice_slice by lia. do 2 f_equal. f_equal; lia.
  - intros f off d r f' Hf Ho Hd Hr Hb E. destruct (fl_write_ok f off d r f' Hf) as (I & Hz & Hc); try done; try lia.
    pose proof (fl_mem_len f Hf) as Ln. pose proof (fl_mem_len f' I) as Ln'. split; [done|]. split.
    + intros E0. rewrite (Hz E0), slice_slice by lia. replace (b - fl_lo + (off - b)) with (off - fl_lo) by lia.
      assert (zlen (nor (slice (off - fl_lo) (zlen d) (fl_mem f)) d) = zlen d) as Hl by (apply zlen_nor, zlen_slice; lia).
      rewrite slice_splice_in by lia. f_equal. lia.
    + intros i Hi. assert (0 <= b - fl_lo + i < fl_hi - fl_lo) as Hx by lia. specialize (Hc _ Hx). rewrite !nthb_slice by lia. repeat if_split_in Hc; repeat if_split; try lia; done.
  - intros f off k r f' Hf Ho Hk Hr D1 D2 E. destruct (fl_erase_ok f off k r f' Hf) as (I & Hz & Hc); try done; try lia.
    pose proof (fl_mem_len f Hf) as Ln. split; [done|]. split.
    + intros E0. rewrite (Hz E0). assert (zlen (replicate (Z.to_nat k) 0xFF) = k) as Hl by (apply zlen_replicate; lia).
      rewrite slice_splice_in by lia. f_equal. lia.
    + intros i Hi Hn. rewrite !nthb_slice by lia. apply Hc; lia.
Qed.

(** Flashes that differ in the window only. *)
Definition beside (b n : Z) (f0 f : F) : Prop :=
  good f /\ forall i, 0 <= i < fl_hi - fl_lo -> ~ b - fl_lo <= i < b - fl_lo + n -> nthb (fl_mem f) i = nthb (fl_mem f0) i.

Lemma part_reliable b n f0 : inside b n -> reliable (H := part b n) (beside b n f0).
Proof.
  intros (H1 & H2 & H3). constructor; cbn [flash_read flash_write flash_erase fl_lo fl_hi fl_mem fl_inv part].
  - intros f [G _]. by apply (rel_inv good Hgood).
  - intros f off d [G O] Ho Hd Hr Hb. destruct (rel_write good Hgood f off d G) as (f' & E & G'); try done; try lia.
    exists f'. split; [done|]. split; [done|]. intros i Hi Hn. rewrite <- O by done.
    destruct (fl_write_ok f off d 0 f' (rel_inv good Hgood f G)) as (_ & _ & Hc); try done; try lia. specialize (Hc i Hi). repeat if_split_in Hc; try lia; done.
  - intros f off k [G O] Ho Hk Hr D1 D2. destruct (rel_erase good Hgood f off k G) as (f' & E & G'); try done; try lia.
    exists f'. split; [done|]. split; [done|]. intros i Hi Hn. rewrite <- O by done.
    destruct (fl_erase_ok f off k 0 f' (rel_inv good Hgood f G)) as (_ & _ & Hc); try done; try lia. apply Hc; lia.
Qed.

Lemma beside_refl b n f : good f -> beside b n f f.
Proof. done. Qed.

(** Two windows without a byte in common. *)
Definition apart (r1 r2 : Z * Z) : Prop := r1.1 + r1.2 <= r2.1 \/ r2.1 + r2.2 <= r1.1.

Lemma beside_other b n b' n' f0 f : inside b n -> inside b' n' -> apart (b, n) (b', n') -> good f0 -> beside b n f0 f ->
  fl_mem (Flash := part b' n') f = fl_mem (Flash := part b' n') f0.
Proof.
  intros (H1 & H2 & H3) (H1' & H2' & H3') Ha G0 [G O]. cbn [fl_mem part]. unfold apart in Ha. cbn in Ha.
  pose proof (fl_mem_len f (rel_inv good Hgood f G)). pose proof (fl_mem_len f0 (rel_inv good Hgood f0 G0)).
  apply list_eq_nthb; rewrite !zlen_slice by lia; [done|]. intros i Hi. rewrite !nthb_slice by lia. apply O; lia.
Qed.

End Windows.

(** ** One store in its window *)

(** What a caller sees of the store in a window. *)
Abbreviation api_in b n := (api (Fl := part b n)).

Section OneStore.
Context {F : Type} {Fl : Flash F} {FL : FlashLaws F} {Ci : Cipher}.
Variable good : F -> Prop.
Hypothesis Hgood : reliable good.
Context (b n : Z) (Hin : inside b n) (Hb : (SECTOR | b)) (Hn : (SECTOR | n)).
Implicit Types (s : env F) (f : F).

#[local] Existing Instance part_laws.
Abbreviation api_w := (api_in b n).

Lemma api_good g s v : api_w g s v -> g (flash s) /\ base_addr s = b /\ length_ s = n.
Proof. intros (names & m & A & _). destruct (ap_stores _ _ _ _ A) as (log & R & _). destruct (sr_env _ _ _ R) as [E1 E2 _ _ E5]. cbn in E1, E2. split; [done|]. split; [done|lia]. Qed.

Lemma api_weaken g1 g2 s v : api_w g1 s v -> g2 (flash s) -> api_w g2 s v.
Proof. intros A Hg. rewrite <- (set_flash_id s). by apply (api_same g1). Qed.

Lemma api_ext g s v1 v2 : (forall ns key, v1 ns key = v2 ns key) -> api_w g s v1 -> api_w g s v2.
Proof. intros Hv (names & m & A & H). exists names, m. split; [done|]. intros ns key. by rewrite <- Hv. Qed.

Definition is_data (c : call) : Prop := match c with Restart => False | _ => True end.

(** A call changes the window only. *)
Lemma call_in s v c : api_w good s v -> call_ok c ->
  exists s' o v', run_call (Fl := part b n) c s = (s', o) /\ spec_step v c o v' /\ api_w good s' v' /\ beside good b n (flash s) (flash s').
Proof.
  intros A Hc. destruct (api_good _ _ _ A) as [G _]. pose proof (part_laws b n Hin) as FLp.
  destruct (run_call_ok (FL := FLp) (beside good b n (flash s)) (part_reliable good Hgood b n (flash s) Hin) s v c) as (s' & o & v' & E & Hs & A').
  - by apply (api_weaken good).
  - cbn [fl_lo fl_hi part]. by replace (b + n - b) with n by lia.
  - done.
  - destruct (api_good _ _ _ A') as [G' _]. exists s', o, v'. split; [done|]. split; [done|]. split; [|done]. eapply api_weaken; [exact A'|apply G'].
Qed.

(** A window that a store can be opened on: it holds one, or nothing. *)
Definition holds f (v : view_t) : Prop :=
  (exists s, api_w good (set_flash f s) v) \/
  ((forall ns key, v ns key = None) /\ forall k, 0 <= k -> (k + 1) * 4096 <= n -> scrap (img (Fl := part b n) f (k * 4096))).

Lemma holds_same f f' v : holds f v -> good f' -> fl_mem (Flash := part b n) f' = fl_mem (Flash := part b n) f -> holds f' v.
Proof.
  intros [(s & A)|[Hv Hs]] G Hm; [left|right].
  - exists s. change (set_flash f' s) with (set_flash f' (set_flash f s)). by apply (api_same good).
  - split; [done|]. intros k H1 H2. unfold img. rewrite Hm. by apply Hs.
Qed.

Lemma mount_in f v : good f -> 2 * SECTOR <= n -> holds f v ->
  exists s, Nvds.nvds_flash_env_init (H := part b n) f b n [] = (s, inr tt) /\ api_w good s v /\ beside good b n f (flash s).
Proof.
  intros G H2 Hh. pose proof (part_laws b n Hin) as FLp. pose proof (part_reliable good Hgood b n f Hin) as Rel.
  assert (exists s, Nvds.nvds_flash_env_init (H := part b n) f b n [] = (s, inr tt) /\ api_w (beside good b n f) s v) as (s & E & A).
  { destruct Hh as [(s & A)|[Hv Hs]].
    - destruct (api_good _ _ _ A) as (_ & Eb & El).
      destruct (restart_ok (FL := FLp) (beside good b n f) Rel (set_flash f s) v) as (s' & E & A' & _); [by apply (api_weaken good)|cbn; by replace (b + n - b) with n by lia|].
      rewrite Eb, El in E. by exists s'.
    - destruct Hn as [k Hk]. unfold SECTOR in *.
      destruct (mount_blank_ok (FL := FLp) (beside good b n f) Rel f (Z.to_nat k)) as (s' & E & A' & _); [done|exact Hb|cbn; lia|lia| |].
      + intros j Hj. apply Hs; lia.
      + cbn [fl_lo fl_hi part] in E. replace (b + n - b) with n in E by lia. exists s'. split; [done|]. by apply (api_ext _ _ (fun _ _ => None)). }
  exists s. destruct (api_good _ _ _ A) as [Gs _]. split; [done|]. split; [|done]. eapply api_weaken; [exact A|apply Gs].
Qed.

Lemma erased_holds f : fl_mem (Flash := part b n) f = replicate (Z.to_nat n) 0xFF -> holds f (fun _ _ => None).
Proof.
  intros Hm. right. split; [done|]. intros k Hk Hk2. left. unfold img. rewrite Hm.
  assert (slice (k * 4096) SPI_FLASH_SEC_SIZE (replicate (Z.to_nat n) 255) = replicate (Z.to_nat 4096) 255) as ->; [|by vm_compute].
  unfold SPI_FLASH_SEC_SIZE, slice. rewrite drop_replicate, take_replicate. f_equal. lia.
Qed.

(** Erasing the window leaves nothing. *)
Lemma erase_in s v : api_w good s v -> 0 < n ->
  exists f, nvds_flash_erase (H := part b n) 0 (length_ s) s = (set_flash f s, inr tt) /\ holds f (fun _ _ => None) /\ beside good b n (flash s) f.
Proof.
  intros A H0. destruct (api_good _ _ _ A) as (G & Eb & El). destruct Hin as (I1 & I2 & I3). pose proof (fl_window (F := F)) as [W1 W2].
  destruct (rel_erase _ Hgood (flash s) b n G) as (f & E & G'); [lia|lia|lia|done|done|].
  destruct (fl_erase_ok (flash s) b n 0 f (rel_inv _ Hgood _ G)) as (I & Hm & Hc); [lia|lia|lia|done|done|done|]. pose proof (fl_mem_len _ (rel_inv _ Hgood _ G)) as Hlen.
  exists f. split; [|split].
  - unfold nvds_flash_erase. rewrite bnd_get, El, Eb, Z.add_0_l, Z.add_0_r, !wrap32_small by lia. rewrite Z.ltb_irrefl. cbn [flash_erase part]. by rewrite E.
  - apply erased_holds. cbn [fl_mem part]. rewrite (Hm eq_refl). apply slice_splice_eq; rewrite ?zlen_replicate; lia.
  - split; [done|]. intros i Hi Hni. by apply Hc.
Qed.

End OneStore.

End NvdsStoresSpec.
