(* ===== verification/NvdsStoresProps.v ===== *)
(** * NVDS: the stores together

    Stores in areas that are apart serve every client as independent maps, whatever is opened,
    closed, cleaned and restarted in between. And where the code goes wrong: cleaning the
    internal store drops the others from the list, and a store that cannot be opened stops all. *)
From S2P Require Import Prelude Client Flash SList NvdsTypes Nvds NvdsPage NvdsApi NvdsSpec NvdsStores NvdsStoresSpec.
Open Scope Z_scope.

Module NvdsStoresProps.
Import NvdsTypes Nvds NvdsPage NvdsApi NvdsSpec NvdsStores NvdsStoresSpec.

(** ** The specification *)

Abbreviation region := (Z * Z)%type.
Definition internal : region := (NVDS_FLASH_INTERNAL_ADDR, NVDS_FLASH_INTERNAL_SIZE).

(** An open store. *)
Record opened := mk_opened { o_handle : Z; o_region : region; o_label : list Z }.
#[export] Instance opened_eq : EqDecision opened.
Proof. solve_decision. Defined.

(** What each region holds, open or not, and the open stores in order. *)
Record state := mk_state { views : region -> view_t; open_stores : list opened }.

Definition nothing : view_t := fun _ _ => None.
Definition upd (V : region -> view_t) (r : region) (v : view_t) : region -> view_t := fun r' => if decide (r' = r) then v else V r'.

Inductive request :=
| Data (handle : Z) (c : call) | Open (r : region) (name : list Z) | Close (handle : Z) | Clean (name : list Z) | Reboot.
Inductive answer := AData (o : outcome) | AHandle (h : Z) | ADone (r : stop + unit).

Definition handles (os : list opened) : list Z := map o_handle os.
Definition regions (os : list opened) : list region := map o_region os.
Definition closed (h : Z) (os : list opened) : list opened := filter (fun o => o_handle o <> h) os.
Definition named (name : list Z) (os : list opened) : option opened := snd <$> list_find (fun o => o_label o = name) os.
Definition short (name : list Z) : list Z := take (Z.to_nat LABEL_NAME_MAX_SIZE) name.

Definition spec_step (a : state) (q : request) (b : answer) (a' : state) : Prop :=
  let V := views a in let os := open_stores a in
  match q with
  | Data h c => exists o out v', o ∈ os /\ o_handle o = handle_env h /\ b = AData out /\ NvdsSpec.spec_step (V (o_region o)) c out v' /\
      a' = mk_state (upd V (o_region o) v') os
  | Open r name =>
      if decide (r ∈ regions os) then b = AHandle NULL /\ a' = a
      else exists h, h <> NULL /\ h ∉ handles os /\ b = AHandle h /\ a' = mk_state V (os ++ [mk_opened h r (short name)])
  | Close h => b = ADone (inr tt) /\ a' = mk_state V (closed h os)
  | Clean name =>
      match named name os with
      | None => b = ADone (inl (RET NVDS_E_NOT_FOUND)) /\ a' = a
      | Some o => b = ADone (inr tt) /\ a' = mk_state (upd V (o_region o) nothing) (closed (o_handle o) os)
      end
  | Reboot => b = ADone (inr tt) /\ a' = mk_state V [mk_opened nvds_flash_env internal LABEL_INNER_NVDS_FLASH]
  end.

(** ** The code *)

Section Stores.
Context {F : Type} {Fl : Flash F} {FL : FlashLaws F} {Ci : Cipher}.
Variable good : F -> Prop.
Hypothesis Hgood : reliable good.
Implicit Types (w : world F) (os : list opened) (V : region -> view_t).

Definition step (q : request) w : option (answer * world F) :=
  match q with
  | Data h c =>
      match c with
      | Put ns key data length => let '(w', r) := nvds_data_put h ns (Some key) (Some data) length w in Some (AData (ODone r), w')
      | Get ns key buf length => let '(w', r) := nvds_data_get h ns (Some key) buf (Some length) w in Some (AData (OGet r), w')
      | Del ns key => let '(w', r) := nvds_data_del h ns (Some key) w in Some (AData (ODone r), w')
      | Restart => None
      end
  | Open r name =>
      let '(w', h) := nvds_flash_init true true [] r.1 r.2 name w in
      match h with inr h => Some (AHandle h, w') | inl _ => None end
  | Close h => let '(w', r) := nvds_flash_deinit h w in Some (ADone r, w')
  | Clean name => let '(w', r) := nvds_clean [] (Some name) w in Some (ADone r, w')
  | Reboot => let '(w', r) := nvds_flash_internal_init true [] (started (dev w)) in Some (ADone r, w')
  end.

(** The areas that stores are opened on; not even their ends meet. *)
Record areas (rs : list region) : Prop := {
  ar_ok r : r ∈ rs -> inside r.1 r.2 /\ (SECTOR | r.1) /\ (SECTOR | r.2) /\ 2 * SECTOR <= r.2;
  ar_apart r1 r2 : r1 ∈ rs -> r2 ∈ rs -> r1 <> r2 -> r1.1 + r1.2 < r2.1 \/ r2.1 + r2.2 < r1.1;
  ar_internal : internal ∈ rs
}.

Context (rs : list region) (Hrs : areas rs).

(** A handle is used while it is open; the internal store is not closed, nor cleaned by name. *)
Definition op_ok (a : state) (q : request) : Prop :=
  match q with
  | Data h c => handle_env h ∈ handles (open_stores a) /\ is_data c /\ call_ok c
  | Open r name => r ∈ rs
  | Close h => h ∈ handles (open_stores a) /\ h <> nvds_flash_env
  | Clean name => name <> LABEL_INNER_NVDS_FLASH
  | Reboot => True
  end.

Record serves w (a : state) : Prop := {
  sv_mutex : nvds_mutex w = true;
  sv_good : good (dev w);
  sv_list : SList.slist (hdrs w) (nvds_flash_list w) (handles (open_stores a));
  sv_stores o : o ∈ open_stores a -> o_region o ∈ rs /\ exists s, tags w !! o_handle o = Some (mk_tag (o_label o) s) /\
    api_in (o_region o).1 (o_region o).2 good (set_flash (dev w) s) (views a (o_region o));
  sv_regions : NoDup (regions (open_stores a));
  sv_rest r : r ∈ rs -> r ∉ regions (open_stores a) -> holds good r.1 r.2 (dev w) (views a r);
  sv_next h : is_Some (tags w !! h) \/ is_Some (hdrs w !! h) -> h < next_tag w;
  sv_static : 1 < next_tag w;
  sv_inner o : o ∈ open_stores a -> o_handle o = nvds_flash_env -> o_label o = LABEL_INNER_NVDS_FLASH /\ o_region o = internal
}.

(** ** One store of the world *)

Definition with_store w h name (s : env F) : world F :=
  mk_world (flash s) (hdrs w) (nvds_flash_list w) (nvds_mutex w) (<[h := mk_tag name s]> (tags w)) (next_tag w).

Lemma on_eq {A} h (m : Flash F -> K F A) w t s' r : tags w !! h = Some t ->
  m (part (base_addr (store t)) (length_ (store t))) (set_flash (dev w) (store t)) = (s', r) -> on h m w = (with_store w h (label t) s', r).
Proof. intros Ht E. unfold on, tag, opt. rewrite bnd_assoc, bnd_get, Ht. cbn. by rewrite E. Qed.

Lemma region_in r : r ∈ rs -> inside r.1 r.2.
Proof. intros Hr. by apply (ar_ok rs Hrs r Hr). Qed.

Lemma other_same r r' f0 f : r ∈ rs -> r' ∈ rs -> r <> r' -> good f0 -> beside good r.1 r.2 f0 f ->
  fl_mem (Flash := part r'.1 r'.2) f = fl_mem (Flash := part r'.1 r'.2) f0.
Proof.
  intros Hr Hr' Hne G Hb. apply (beside_other good Hgood r.1 r.2); [by apply region_in|by apply region_in| |done|done].
  destruct (ar_apart rs Hrs r r' Hr Hr' Hne); [left|right]; cbn; lia.
Qed.

(** What a store does to its own area leaves the others as they are. *)
Lemma others_same w a r f : serves w a -> r ∈ rs -> good f -> beside good r.1 r.2 (dev w) f ->
  (forall o, o ∈ open_stores a -> o_region o <> r -> exists s, tags w !! o_handle o = Some (mk_tag (o_label o) s) /\
    api_in (o_region o).1 (o_region o).2 good (set_flash f s) (views a (o_region o))) /\
  (forall r', r' ∈ rs -> r' ∉ regions (open_stores a) -> r' <> r -> holds good r'.1 r'.2 f (views a r')).
Proof.
  intros Sv Hr G Hb. split.
  - intros o Ho Hne. destruct (sv_stores _ _ Sv o Ho) as (Hro & s & Ht & A). exists s. split; [done|].
    change (set_flash f s) with (set_flash f (set_flash (dev w) s)). apply (api_same good); [done|done|]. cbn [flash set_flash].
    apply (other_same r); try done; apply Sv.
  - intros r' Hr' Hn Hne. apply (holds_same good _ _ (dev w)); [by apply Sv|done|]. apply (other_same r); try done; apply Sv.
Qed.

Lemma handle_unique os h o1 o2 : NoDup (handles os) -> o1 ∈ os -> o2 ∈ os -> o_handle o1 = h -> o_handle o2 = h -> o1 = o2.
Proof.
  intros Nd [i Hi]%list_elem_of_lookup [j Hj]%list_elem_of_lookup E1 E2.
  assert (i = j) as ->; [|congruence]. apply (NoDup_lookup (handles os) i j h Nd); unfold handles; rewrite list_lookup_fmap, ?Hi, ?Hj; cbn; congruence.
Qed.

Lemma region_unique os r o1 o2 : NoDup (regions os) -> o1 ∈ os -> o2 ∈ os -> o_region o1 = r -> o_region o2 = r -> o1 = o2.
Proof.
  intros Nd [i Hi]%list_elem_of_lookup [j Hj]%list_elem_of_lookup E1 E2.
  assert (i = j) as ->; [|congruence]. apply (NoDup_lookup (regions os) i j r Nd); unfold regions; rewrite list_lookup_fmap, ?Hi, ?Hj; cbn; congruence.
Qed.

Lemma upd_same V r v : upd V r v r = v.
Proof. unfold upd. by rewrite decide_True. Qed.
Lemma upd_other V r v r' : r' <> r -> upd V r v r' = V r'.
Proof. intros. unfold upd. by rewrite decide_False. Qed.

(** An open store after a call. *)
Lemma serves_store w a o s v : serves w a -> o ∈ open_stores a -> api_in (o_region o).1 (o_region o).2 good s v ->
  beside good (o_region o).1 (o_region o).2 (dev w) (flash s) ->
  serves (with_store w (o_handle o) (o_label o) s) (mk_state (upd (views a) (o_region o) v) (open_stores a)).
Proof.
  intros Sv Ho A Hb. destruct (sv_stores _ _ Sv o Ho) as (Hr & s0 & Ht & _). destruct (api_good _ _ _ _ _ A) as [G _].
  destruct (others_same w a (o_region o) (flash s) Sv Hr G Hb) as [O1 O2]. pose proof (SList.sl_nodup _ _ _ (sv_list _ _ Sv)) as Nd.
  pose proof Sv as [V1 V2 V3 V4 V5 V6 V7 V8 V9].
  split; cbn [with_store dev hdrs nvds_flash_list nvds_mutex tags next_tag views open_stores]; [exact V1|exact G|exact V3| |exact V5| | |exact V8|exact V9].
  - intros o' Ho'. split; [by apply V4|]. destruct (decide (o' = o)) as [->|Hne].
    + exists s. rewrite lookup_insert_eq, upd_same. split; [done|]. by rewrite set_flash_id.
    + assert (o_region o' <> o_region o) as Hnr by (intros E; apply Hne; by apply (region_unique _ _ _ _ V5 Ho' Ho E)).
      assert (o_handle o <> o_handle o') as Hnh by (intros E; apply Hne; by apply (handle_unique _ _ _ _ Nd Ho' Ho eq_refl)).
      rewrite lookup_insert_ne, upd_other by done. by apply O1.
  - intros r' Hr' Hn. assert (r' <> o_region o) as Hnr by (intros ->; apply Hn; by apply list_elem_of_fmap; exists o).
    rewrite upd_other by done. by apply O2.
  - intros h [[t Hh]|Hh]; [|by apply V7; right]. destruct (decide (h = o_handle o)) as [->|Hne]; [apply V7; left; by exists (mk_tag (o_label o) s0)|].
    rewrite lookup_insert_ne in Hh by done. apply V7. left. by exists t.
Qed.

Lemma data_step w a h c : serves w a -> op_ok a (Data h c) -> exists b w' a', step (Data h c) w = Some (b, w') /\ spec_step a (Data h c) b a' /\ serves w' a'.
Proof.
  intros Sv (Hh & Hd & Hc). apply list_elem_of_fmap in Hh as (o & Eh & Ho). destruct (sv_stores _ _ Sv o Ho) as (Hr & s & Ht & A).
  destruct (ar_ok rs Hrs _ Hr) as (I1 & I2 & I3 & _).
  destruct (call_in good Hgood _ _ I1 I3 _ _ c A Hc) as (s' & out & v' & E & Hs & A' & Hb). cbn [flash set_flash] in Hb.
  pose proof (serves_store w a o s' v' Sv Ho A' Hb) as Sv'. destruct (api_good _ _ _ _ _ A) as (_ & Eb & El). cbn in Eb, El.
  exists (AData out), (with_store w (o_handle o) (o_label o) s'), (mk_state (upd (views a) (o_region o) v') (open_stores a)).
  split; [|split; [by exists o, out, v'|done]].
  destruct c as [ns key data length|ns key buf length|ns key|]; [..|done]; cbn [step run_call] in *;
    unfold nvds_data_put, nvds_data_get, nvds_data_del; rewrite bnd_get, (sv_mutex _ _ Sv), Eh;
    match type of E with context [let '(_, _) := ?x in _] => destruct x as [s1 r1] eqn:E1 end; injection E as -> <-;
    by rewrite (on_eq _ _ _ _ s' r1 Ht) by (cbn [store]; rewrite Eb, El; exact E1).
Qed.

(** ** Opening *)

Lemma handle_facts w a o : serves w a -> o ∈ open_stores a -> o_handle o <> NULL /\ is_Some (hdrs w !! o_handle o) /\ o_handle o < next_tag w.
Proof.
  intros Sv Ho. destruct (SList.chain_dom _ _ _ _ (o_handle o) (SList.sl_chain _ _ _ (sv_list _ _ Sv))) as [H1 H2]; [by apply list_elem_of_fmap; exists o|].
  split; [done|]. split; [done|]. apply Sv. by right.
Qed.

Lemma check_loop_ok w a r : serves w a -> r ∈ rs -> forall l p n, (forall o, o ∈ l -> o ∈ open_stores a) -> SList.chain (hdrs w) p (handles l) NULL -> (length l < n)%nat ->
  check_loop n p r.1 r.2 w = (w, inr (bool_decide (r ∉ regions l))).
Proof.
  intros Sv Hr. pose proof (fl_window (F := F)) as [W1 W2]. destruct (ar_ok rs Hrs r Hr) as ((I1 & I2 & I3) & _ & _ & I4). unfold SECTOR in I4.
  induction l as [|o l IH]; intros p n Hl Hc Hn; (destruct n as [|n]; [cbn in Hn; lia|]); cbn [check_loop].
  - cbn in Hc. rewrite Hc. cbn. by rewrite bool_decide_eq_true_2 by apply not_elem_of_nil.
  - destruct Hc as (-> & Hp & nx & Hnx & Hc). rewrite (proj2 (Z.eqb_neq _ _) Hp). destruct (sv_stores _ _ Sv o) as (Hro & s & Ht & A); [apply Hl; by left|].
    destruct (api_good _ _ _ _ _ A) as (_ & Eb & El). cbn in Eb, El. destruct (ar_ok rs Hrs _ Hro) as ((J1 & J2 & J3) & _ & _ & J4). unfold SECTOR in J4.
    unfold tag, opt at 1. rewrite bnd_assoc, bnd_get, Ht, bnd_ret. cbn [store]. rewrite Eb, El, !wrap32_small by lia.
    destruct (decide (r = o_region o)) as [->|Hne].
    + rewrite bool_decide_eq_false_2 by (intros H; apply H; by left). case_bool ((o_region o).1 + (o_region o).2 <? (o_region o).1); [lia|]. done.
    + assert (((r.1 + r.2 <? (o_region o).1) || ((o_region o).1 + (o_region o).2 <? r.1)) = true) as ->.
      { apply orb_true_iff. rewrite !Z.ltb_lt. by apply (ar_apart rs Hrs). }
      rewrite bnd_get. unfold opt, SList.list_next. rewrite (SList.load_some _ _ _ Hp Hnx), bnd_ret. rewrite (IH nx n); [|intros o' Ho'; apply Hl; by right|done|cbn in Hn; lia].
      do 2 f_equal. apply bool_decide_ext. unfold regions. cbn [map]. rewrite not_elem_of_cons. tauto.
Qed.

Lemma check_ok w a r : serves w a -> r ∈ rs -> flash_env_check r.1 r.2 w = (w, inr (bool_decide (r ∉ regions (open_stores a)))).
Proof.
  intros Sv Hr. unfold flash_env_check. rewrite bnd_get. apply (check_loop_ok w a r Sv Hr); [done|apply Sv|].
  pose proof (SList.chain_length _ _ _ _ (SList.sl_nodup _ _ _ (sv_list _ _ Sv)) (SList.sl_chain _ _ _ (sv_list _ _ Sv))) as H.
  unfold handles in H. rewrite length_map in H. unfold SList.fuel. lia.
Qed.

(** A new block is apart from the stores. *)
Lemma new_tag_ok w a : serves w a -> exists w', new_tag w = (w', inr (next_tag w)) /\ serves w' a /\ tags w' !! next_tag w = Some (zero_tag (dev w)) /\
  is_Some (hdrs w' !! next_tag w) /\ dev w' = dev w /\ next_tag w ∉ handles (open_stores a).
Proof.
  intros Sv. pose proof Sv as [V1 V2 V3 V4 V5 V6 V7 V8 V9]. assert (forall o, o ∈ open_stores a -> o_handle o <> next_tag w) as Hne by (intros o Ho; destruct (handle_facts w a o Sv Ho); lia).
  assert (next_tag w ∉ handles (open_stores a)) as Hni by (intros (o & E & Ho)%list_elem_of_fmap; by apply (Hne o)).
  eexists. split; [reflexivity|]. split; [|split; [apply lookup_insert_eq|split; [cbn [hdrs]; rewrite lookup_insert_eq; by eexists|done]]].
  split; cbn [dev hdrs nvds_flash_list nvds_mutex tags next_tag]; try assumption.
  - destruct V3 as [N1 N2 N3]. split; [done| |done]. by apply SList.chain_insert.
  - intros o Ho. rewrite lookup_insert_ne by (intros E; by apply (Hne o)). by apply V4.
  - intros h Hh. destruct (decide (h = next_tag w)) as [->|Hx]; [lia|]. rewrite !lookup_insert_ne in Hh by done. specialize (V7 h Hh). lia.
  - lia.
Qed.

(** A zeroed block becomes a store. *)
Lemma env_init_ok w a h f0 r name : serves w a -> tags w !! h = Some (zero_tag f0) -> is_Some (hdrs w !! h) -> h <> NULL -> h ∉ handles (open_stores a) ->
  r ∈ rs -> r ∉ regions (open_stores a) -> (h = nvds_flash_env -> short name = LABEL_INNER_NVDS_FLASH /\ r = internal) ->
  exists w', nvds_flash_env_init h r.1 r.2 name [] w = (w', inr tt) /\ serves w' (mk_state (views a) (open_stores a ++ [mk_opened h r (short name)])).
Proof.
  intros Sv Ht Hh H0 Hnh Hr Hnr Hin. destruct (ar_ok rs Hrs r Hr) as (I1 & I2 & I3 & I4). pose proof Sv as [V1 V2 V3 V4 V5 V6 V7 V8 V9].
  destruct (mount_in good Hgood r.1 r.2 I1 I2 I3 (dev w) (views a r) V2 I4 (V6 r Hr Hnr)) as (s & E & A & Hb). destruct (api_good _ _ _ _ _ A) as [G _].
  destruct (others_same w a r (flash s) Sv Hr G Hb) as [O1 O2].
  destruct (SList.push_back_spec (hdrs w) (nvds_flash_list w) (handles (open_stores a)) h V3) as (hs & l & Ep & Hl & Fr & _); [done|].
  unfold nvds_flash_env_init, tag, opt at 1. rewrite bnd_assoc, bnd_get, Ht, bnd_ret. unfold set_tag. rewrite bnd_modify. unfold bnd at 1.
  rewrite (on_eq _ _ _ (mk_tag (short name) (env_init f0 r.1 r.2 [])) s (inr tt)); [|apply lookup_insert_eq|exact E].
  unfold push_back. rewrite bnd_get. unfold opt. cbn [with_store hdrs nvds_flash_list]. rewrite Ep, bnd_ret. unfold set_list, modify.
  eexists. split; [reflexivity|]. split; cbn [with_store dev hdrs nvds_flash_list nvds_mutex tags next_tag views open_stores fst snd label store];
    rewrite ?insert_insert_eq; [exact V1|exact G| | | | | |exact V8|].
  - unfold handles. rewrite map_app. exact Hl.
  - intros o [Ho| ->%list_elem_of_singleton]%elem_of_app; cbn [o_handle o_region o_label].
    + split; [by apply V4|]. rewrite lookup_insert_ne by (intros ->; apply Hnh, list_elem_of_fmap; by exists o).
      apply O1; [done|]. intros E2. apply Hnr, list_elem_of_fmap. by exists o.
    + split; [done|]. exists s. rewrite lookup_insert_eq, set_flash_id. done.
  - unfold regions. rewrite map_app. apply NoDup_app. split; [done|]. split; [|apply NoDup_singleton]. intros x Hx ->%list_elem_of_singleton. done.
  - intros r' Hr' Hn. unfold regions in Hn. rewrite map_app, elem_of_app in Hn. cbn [map o_region] in Hn. rewrite list_elem_of_singleton in Hn. apply O2; [done|tauto|tauto].
  - intros x [Hx|Hx].
    + destruct (decide (x = h)) as [->|Hx2]; [apply V7; by right|]. rewrite lookup_insert_ne in Hx by done. apply V7. by left.
    + apply V7. right. destruct (decide (x ∈ h :: handles (open_stores a))) as [Hx2|Hx2]; [|by rewrite <- (Fr x Hx2)].
      apply elem_of_cons in Hx2 as [->|Hx2]; [done|]. apply list_elem_of_fmap in Hx2 as (o & -> & Ho). by destruct (handle_facts w a o Sv Ho) as (_ & ? & _).
  - intros o [Ho| ->%list_elem_of_singleton]%elem_of_app; [by apply V9|exact Hin].
Qed.

Lemma open_step w a r name : serves w a -> op_ok a (Open r name) ->
  exists b w' a', step (Open r name) w = Some (b, w') /\ spec_step a (Open r name) b a' /\ serves w' a'.
Proof.
  intros Sv Hr. cbn [op_ok] in Hr. cbn [step spec_step]. unfold nvds_flash_init. unfold bnd at 1. rewrite (check_ok w a r Sv Hr).
  destruct (decide (r ∈ regions (open_stores a))) as [Hin|Hin].
  - rewrite bool_decide_eq_false_2 by tauto. cbn [negb]. by exists (AHandle NULL), w, a.
  - rewrite bool_decide_eq_true_2 by done. cbn [negb]. rewrite bnd_get, (sv_mutex _ _ Sv), bnd_ret, bnd_get, (sv_mutex _ _ Sv). cbn [negb].
    destruct (new_tag_ok w a Sv) as (w1 & E1 & Sv1 & Ht1 & Hh1 & _ & Hn1). unfold bnd at 1. rewrite E1. assert (1 < next_tag w) as H1 by exact (sv_static _ _ Sv).
    destruct (env_init_ok w1 a (next_tag w) (dev w) r name Sv1 Ht1 Hh1) as (w2 & E2 & Sv2); [lia|done|done|done|unfold nvds_flash_env; lia|].
    unfold try. unfold bnd at 1. rewrite E2. cbn. eexists (AHandle (next_tag w)), w2, _. split; [done|]. split; [|exact Sv2].
    exists (next_tag w). split; [lia|]. split; [exact Hn1|]. split; reflexivity.
Qed.

(** ** Closing *)

Lemma closed_handles h os : handles (closed h os) = SList.without h (handles os).
Proof.
  unfold handles, closed, SList.without. induction os as [|o os IH]; [done|]. cbn [map]. rewrite !filter_cons.
  destruct (decide (o_handle o <> h)); cbn [map]; by rewrite IH.
Qed.

Lemma elem_closed o h os : o ∈ closed h os <-> o_handle o <> h /\ o ∈ os.
Proof. unfold closed. by rewrite list_elem_of_filter. Qed.

Lemma serves_ext w V1 V2 os : (forall r, V1 r = V2 r) -> serves w (mk_state V1 os) -> serves w (mk_state V2 os).
Proof.
  intros Hv [A1 A2 A3 A4 A5 A6 A7 A8 A9]. split; cbn [views open_stores] in *; [exact A1|exact A2|exact A3| |exact A5| |exact A7|exact A8|exact A9].
  - intros o Ho. rewrite <- Hv. by apply A4.
  - intros r. rewrite <- Hv. apply A6.
Qed.

(** A store is closed; its area has become [f], which holds [v]. *)
Lemma deinit_ok w a o t f v : serves w a -> o ∈ open_stores a -> o_handle o <> nvds_flash_env ->
  good f -> beside good (o_region o).1 (o_region o).2 (dev w) f -> holds good (o_region o).1 (o_region o).2 f v ->
  exists w', nvds_flash_deinit (o_handle o) (mk_world f (hdrs w) (nvds_flash_list w) (nvds_mutex w) (<[o_handle o := t]> (tags w)) (next_tag w)) = (w', inr tt) /\
    serves w' (mk_state (upd (views a) (o_region o) v) (closed (o_handle o) (open_stores a))).
Proof.
  intros Sv Ho Hne G Hb Hv. destruct (handle_facts w a o Sv Ho) as (H0 & _ & _). pose proof Sv as [V1 V2 V3 V4 V5 V6 V7 V8 V9].
  destruct (SList.extract_spec _ _ _ (o_handle o) V3) as (hs & l & Ee & Hl & Fr1 & Fr2). destruct (V4 o Ho) as (Hr & s & Ht & _).
  destruct (others_same w a (o_region o) f Sv Hr G Hb) as [O1 O2].
  unfold nvds_flash_deinit. rewrite bnd_get. cbn [hdrs nvds_flash_list]. unfold opt. rewrite Ee, bnd_ret. unfold set_list. rewrite bnd_modify.
  rewrite (proj2 (Z.eqb_neq _ _) H0), (proj2 (Z.eqb_neq _ _) Hne). unfold tag, opt. rewrite bnd_assoc, bnd_get. cbn [tags]. rewrite lookup_insert_eq, bnd_ret.
  unfold free_tag, modify. cbn [dev hdrs nvds_flash_list nvds_mutex tags next_tag fst snd].
  eexists. split; [reflexivity|]. split; cbn [dev hdrs nvds_flash_list nvds_mutex tags next_tag views open_stores]; [exact V1|exact G| | | | | |exact V8|].
  - rewrite closed_handles. destruct Hl as [L1 L2 L3]. split; [done| |done]. eapply SList.chain_ext; [|exact L2].
    intros x Hx. rewrite lookup_delete_ne; [done|]. intros <-. unfold SList.without in Hx. by apply list_elem_of_filter in Hx as [? _].
  - intros o' [Hn Ho']%elem_closed. split; [by apply V4|]. rewrite lookup_delete_ne, lookup_insert_ne by done.
    assert (o_region o' <> o_region o) as Hnr by (intros E; apply Hn; by rewrite (region_unique _ _ _ _ V5 Ho' Ho E eq_refl)).
    rewrite upd_other by done. by apply O1.
  - apply (sublist_NoDup _ (regions (open_stores a))); [done|]. apply (fmap_sublist o_region), sublist_filter.
  - intros r Hr' Hn. destruct (decide (r = o_region o)) as [->|Hnr]; [by rewrite upd_same|]. rewrite upd_other by done.
    apply O2; [done| |done]. intros (o' & -> & Ho')%list_elem_of_fmap. apply Hn, list_elem_of_fmap. exists o'. split; [done|]. apply elem_closed. split; [|done].
    intros E. apply Hnr. by rewrite (handle_unique _ _ _ _ (SList.sl_nodup _ _ _ V3) Ho' Ho E eq_refl).
  - intros x [[t' Hx]|[y Hx]]; apply lookup_delete_Some in Hx as [Hxo Hx]; apply V7; [left; rewrite lookup_insert_ne in Hx by done; by exists t'|right].
    destruct (decide (x ∈ handles (open_stores a))) as [Hi|Hi]; [|rewrite <- (Fr1 x Hi); by exists y].
    apply list_elem_of_fmap in Hi as (o' & -> & Ho'). by destruct (handle_facts w a o' Sv Ho') as (_ & ? & _).
  - intros o' [_ Ho']%elem_closed. by apply V9.
Qed.

Lemma close_step w a h : serves w a -> op_ok a (Close h) -> exists b w' a', step (Close h) w = Some (b, w') /\ spec_step a (Close h) b a' /\ serves w' a'.
Proof.
  intros Sv [(o & -> & Ho)%list_elem_of_fmap Hne]. destruct (sv_stores _ _ Sv o Ho) as (Hr & s & Ht & A). pose proof (sv_good _ _ Sv) as G.
  destruct (deinit_ok w a o (mk_tag (o_label o) s) (dev w) (views a (o_region o)) Sv Ho Hne G (beside_refl good _ _ _ G) ltac:(left; by exists s)) as (w' & E & Sv').
  rewrite (insert_id _ _ _ Ht) in E. cbn [step spec_step]. replace (mk_world _ _ _ _ _ _) with w in E by (by destruct w). rewrite E.
  eexists _, w', _. split; [done|]. split; [by split|]. eapply serves_ext; [|exact Sv']. intros r. unfold upd. case_decide; by subst.
Qed.

(** ** Cleaning *)

Lemma named_cons name o os : named name (o :: os) = if decide (o_label o = name) then Some o else named name os.
Proof. unfold named. cbn [list_find]. destruct (decide (o_label o = name)); [done|]. by destruct (list_find _ os) as [[i x]|]. Qed.

Lemma find_label_ok w a name : serves w a -> forall l p n, (forall o, o ∈ l -> o ∈ open_stores a) -> SList.chain (hdrs w) p (handles l) NULL -> (length l < n)%nat ->
  find_label n p name w = (w, inr (match named name l with Some o => o_handle o | None => NULL end)).
Proof.
  intros Sv. induction l as [|o l IH]; intros p n Hl Hc Hn; (destruct n as [|n]; [cbn in Hn; lia|]); cbn [find_label].
  - cbn in Hc. by rewrite Hc.
  - destruct Hc as (-> & Hp & nx & Hnx & Hc). rewrite (proj2 (Z.eqb_neq _ _) Hp). destruct (sv_stores _ _ Sv o) as (Hro & s & Ht & A); [apply Hl; by left|].
    unfold tag, opt at 1. rewrite bnd_assoc, bnd_get, Ht, bnd_ret. cbn [label]. rewrite named_cons.
    destruct (decide (o_label o = name)) as [E|E]; [by rewrite bool_decide_eq_true_2|]. rewrite bool_decide_eq_false_2 by done.
    rewrite bnd_get. unfold opt, SList.list_next. rewrite (SList.load_some _ _ _ Hp Hnx), bnd_ret. apply IH; [intros o' Ho'; apply Hl; by right|done|cbn in Hn; lia].
Qed.

Lemma find_ok w a name : serves w a ->
  find_label (SList.fuel (hdrs w)) (SList.list_pick (nvds_flash_list w)) name w = (w, inr (match named name (open_stores a) with Some o => o_handle o | None => NULL end)).
Proof.
  intros Sv. apply (find_label_ok w a name Sv); [done|apply Sv|].
  pose proof (SList.chain_length _ _ _ _ (SList.sl_nodup _ _ _ (sv_list _ _ Sv)) (SList.sl_chain _ _ _ (sv_list _ _ Sv))) as H.
  unfold handles in H. rewrite length_map in H. unfold SList.fuel. lia.
Qed.

Lemma named_some name os o : named name os = Some o -> o ∈ os /\ o_label o = name.
Proof.
  unfold named. intros H. destruct (list_find _ os) as [[i x]|] eqn:E; [|done]. apply list_find_Some in E as (Hi & Hx & _). injection H as <-.
  split; [by apply list_elem_of_lookup_2 in Hi|done].
Qed.

(** The area of an open store is erased; its memory is not what it was. *)
Lemma erase_ok w a o : serves w a -> o ∈ open_stores a ->
  exists f t, on (o_handle o) (fun fl => nvds_flash_erase (H := fl) 0 (o_region o).2) w =
      (mk_world f (hdrs w) (nvds_flash_list w) (nvds_mutex w) (<[o_handle o := t]> (tags w)) (next_tag w), inr tt) /\
    good f /\ beside good (o_region o).1 (o_region o).2 (dev w) f /\ holds good (o_region o).1 (o_region o).2 f nothing.
Proof.
  intros Sv Ho. destruct (sv_stores _ _ Sv o Ho) as (Hr & s & Ht & A). destruct (ar_ok rs Hrs _ Hr) as (I1 & I2 & I3 & I4). unfold SECTOR in I4.
  destruct (api_good _ _ _ _ _ A) as (_ & Eb & El). cbn in Eb, El.
  destruct (erase_in good Hgood _ _ I1 I2 I3 _ _ A ltac:(lia)) as (f & E & Hh & Hb). cbn [flash set_flash] in Hb.
  exists f, (mk_tag (o_label o) (set_flash f s)). split; [|split; [apply Hb|done]].
  rewrite (on_eq _ _ _ _ (set_flash f (set_flash (dev w) s)) (inr tt) Ht); [done|]. cbn [store]. rewrite Eb, El. cbn [length_ set_flash] in E. rewrite El in E. exact E.
Qed.

Lemma clean_step w a name : serves w a -> op_ok a (Clean name) ->
  exists b w' a', step (Clean name) w = Some (b, w') /\ spec_step a (Clean name) b a' /\ serves w' a'.
Proof.
  intros Sv Hne. cbn [op_ok] in Hne. cbn [step spec_step]. unfold nvds_clean. rewrite bnd_get, (sv_mutex _ _ Sv). cbn [negb default from_option]. unfold bnd at 1. cbn [id].
  rewrite (find_ok w a name Sv). destruct (named name (open_stores a)) as [o|] eqn:En.
  - destruct (named_some _ _ _ En) as [Ho El]. destruct (handle_facts w a o Sv Ho) as (H0 & _ & _). rewrite (proj2 (Z.eqb_neq _ _) H0).
    destruct (sv_stores _ _ Sv o Ho) as (Hr & s & Ht & A). destruct (api_good _ _ _ _ _ A) as (_ & _ & Es). cbn in Es.
    destruct (erase_ok w a o Sv Ho) as (f & t & E & G & Hb & Hh).
    assert (o_handle o <> nvds_flash_env) as Hs by (intros Hs; apply Hne; rewrite <- El; by apply (sv_inner _ _ Sv)).
    destruct (deinit_ok w a o t f nothing Sv Ho Hs G Hb Hh) as (w' & E2 & Sv').
    unfold tag, opt. rewrite bnd_assoc, bnd_get, Ht, bnd_ret. cbn [store]. rewrite Es. unfold bnd at 1. rewrite E, E2. eexists _, w', _. split; [done|]. by split.
  - eexists _, w, a. split; [done|]. by split.
Qed.

(** ** Starting *)

Lemma started_serves f V : good f -> (forall r, r ∈ rs -> holds good r.1 r.2 f (V r)) ->
  exists w, nvds_flash_internal_init true [] (started f) = (w, inr tt) /\ serves w (mk_state V [mk_opened nvds_flash_env internal LABEL_INNER_NVDS_FLASH]).
Proof.
  intros G Hh. set (w1 := mk_world f {[nvds_flash_env := 0]} SList.list_init true {[nvds_flash_env := zero_tag f]} 2).
  assert (serves w1 (mk_state V [])) as Sv.
  { split; cbn [w1 dev hdrs nvds_flash_list nvds_mutex tags next_tag views open_stores]; try done.
    - by apply SList.slist_empty_first.
    - intros o Ho. by apply not_elem_of_nil in Ho.
    - apply NoDup_nil_2.
    - intros r Hr _. by apply Hh.
    - intros h [Hx|Hx]; apply lookup_singleton_is_Some in Hx; subst; unfold nvds_flash_env; lia.
    - intros o Ho. by apply not_elem_of_nil in Ho. }
  destruct (env_init_ok w1 (mk_state V []) nvds_flash_env f internal LABEL_INNER_NVDS_FLASH Sv) as (w & E & Sv').
  1-2: cbn [w1 tags hdrs]; rewrite lookup_singleton_eq; by try eexists.
  1-5: try done; try apply not_elem_of_nil; apply Hrs.
  exists w. split; [|exact Sv']. unfold nvds_flash_internal_init. rewrite bnd_get. change (nvds_mutex (started f)) with false. cbv iota. unfold set_mutex. rewrite bnd_modify, bnd_get. cbn [nvds_mutex negb].
  unfold set_list. rewrite bnd_modify. cbn [dev hdrs nvds_flash_list nvds_mutex tags next_tag started]. fold w1.
  unfold bnd at 1. change (flash_env_check NVDS_FLASH_INTERNAL_ADDR NVDS_FLASH_INTERNAL_SIZE w1) with (w1, @inr stop bool true). cbv iota.
  cbn [internal fst snd] in E. unfold try, bnd at 1. by rewrite E.
Qed.

Lemma reboot_step w a : serves w a -> exists b w' a', step Reboot w = Some (b, w') /\ spec_step a Reboot b a' /\ serves w' a'.
Proof.
  intros Sv. destruct (started_serves (dev w) (views a) (sv_good _ _ Sv)) as (w' & E & Sv').
  - intros r Hr. destruct (decide (r ∈ regions (open_stores a))) as [(o & -> & Ho)%list_elem_of_fmap|Hn]; [|by apply Sv].
    destruct (sv_stores _ _ Sv o Ho) as (_ & s & _ & A). left. by exists s.
  - cbn [step spec_step]. rewrite E. eexists _, w', _. split; [done|]. by split.
Qed.

Lemma stores_serve_ops : Client.serves_ops step op_ok spec_step serves.
Proof.
  intros w a q Sv Hq. destruct q as [h c|r name|h|name|].
  - by apply data_step.
  - by apply open_step.
  - by apply close_step.
  - by apply clean_step.
  - by apply reboot_step.
Qed.

(** C6: stores in areas that are apart, on a flash that holds any stores or none, serve every
    client as independent maps: a store opened on an area has what was last left there, other
    stores never change it, an area that has an open store is refused, closing and restarting
    the device lose nothing, and cleaning a store empties its area alone. *)
Theorem stores_serve_maps f V c n : good f -> (forall r, r ∈ rs -> holds good r.1 r.2 f (V r)) ->
  let a0 := mk_state V [mk_opened nvds_flash_env internal LABEL_INNER_NVDS_FLASH] in
  Client.obeys op_ok spec_step a0 c ->
  exists w seen w' a, nvds_flash_internal_init true [] (started f) = (w, inr tt) /\
    Client.run step c n [] w = Some (seen, w') /\ Client.after op_ok spec_step a0 c seen a /\ serves w' a.
Proof.
  intros G Hh a0 Hc. destruct (started_serves f V G Hh) as (w & E & Sv). exists w.
  destruct (Client.run_serves step op_ok spec_step serves a0 c n w stores_serve_ops Hc Sv) as (seen & w' & a & H). by exists seen, w', a.
Qed.

(** ** Where it goes wrong *)

(** The list after the static header was cleared in it and pushed again. *)
Lemma push_cleared (h : gmap Z Z) l x ys y : SList.slist h l (x :: ys ++ [y]) ->
  exists h', SList.list_push_back (<[x := 0]> h) l x = Some (h', SList.mk_list x x) /\ h' !! x = Some 0.
Proof.
  intros [Nd Hc Hl]. pose proof Hc as (Ef & Hx & nx & Hnx & Hc'). destruct (SList.chain_dom _ _ _ _ y Hc') as [Hy Hys]; [apply elem_of_app; right; by left|].
  assert (x <> y) as Hxy by (intros ->; apply NoDup_cons in Nd as [Nd _]; apply Nd, elem_of_app; right; by left).
  unfold SList.list_push_back, SList.list_is_empty. rewrite Ef, (proj2 (Z.eqb_neq _ _) Hx), (Hl (x :: ys) y eq_refl).
  rewrite SList.store_some; [|done|by rewrite lookup_insert_ne]. cbn [mbind option_bind].
  rewrite SList.store_some; [|done|rewrite lookup_insert_ne, lookup_insert_eq by done; by eexists]. cbn [mbind option_bind].
  eexists. split; [done|]. apply lookup_insert_eq.
Qed.

(** C7: cleaning the internal store clears its header and pushes it again while it is in the
    list: the stores that were opened after it are no longer found, and their areas count as
    free. *)
Theorem clean_internal_forgets w V o0 os : serves w (mk_state V (o0 :: os)) -> o_handle o0 = nvds_flash_env -> os <> [] ->
  exists w', nvds_clean [] None w = (w', inr tt) /\
    (forall r, r ∈ regions os -> flash_env_check r.1 r.2 w' = (w', inr true)) /\
    (forall o, o ∈ os -> o_label o <> LABEL_INNER_NVDS_FLASH -> (nvds_clean [] (Some (o_label o)) w').2 = inl (RET NVDS_E_NOT_FOUND)).
Proof.
  intros Sv Eo Hne. assert (o0 ∈ o0 :: os) as Ho by by left. destruct (sv_inner _ _ Sv o0 Ho Eo) as [El Er]. destruct (sv_stores _ _ Sv o0 Ho) as (Hr & s & Ht & A).
  destruct (api_good _ _ _ _ _ A) as (_ & _ & Es). cbn in Es. rewrite Er in Hr. destruct (ar_ok rs Hrs _ Hr) as (I1 & I2 & I3 & I4).
  destruct (erase_ok w _ o0 Sv Ho) as (f & t & E & G & Hb & Hh). rewrite Er, Eo in *.
  destruct (mount_in good Hgood _ _ I1 I2 I3 f nothing G I4 Hh) as (s2 & E2 & A2 & _). destruct (api_good _ _ _ _ _ A2) as (_ & Eb2 & El2).
  destruct (exists_last Hne) as (os' & o & ->). pose proof (sv_list _ _ Sv) as L. cbn [open_stores handles map] in L. rewrite map_app, Eo in L.
  destruct (push_cleared _ _ _ _ _ L) as (hs & Ep & Hhs).
  exists (mk_world (flash s2) hs (SList.mk_list nvds_flash_env nvds_flash_env) (nvds_mutex w) (<[nvds_flash_env := mk_tag LABEL_INNER_NVDS_FLASH s2]> (tags w)) (next_tag w)).
  assert (exists k, SList.fuel hs = S (S k)) as [k Hk].
  { unfold SList.fuel. destruct (base.size hs) as [|k] eqn:Ez; [|by exists k]. apply map_size_empty_inv in Ez. by rewrite Ez, lookup_empty in Hhs. }
  split; [|split].
  - unfold nvds_clean. rewrite bnd_get, (sv_mutex _ _ Sv). cbn [negb default from_option]. unfold bnd at 1. rewrite (find_ok w _ _ Sv). cbn [open_stores]. rewrite named_cons, decide_True by done.
    rewrite Eo. change (nvds_flash_env =? NULL) with false. cbv iota. unfold tag, opt. rewrite bnd_assoc, bnd_get, Ht, bnd_ret. cbn [store]. rewrite Es.
    unfold bnd at 1. rewrite E. unfold clear_static. rewrite bnd_assoc, bnd_get. unfold set_tag, set_hdrs. rewrite bnd_assoc, !bnd_modify. cbn [dev hdrs nvds_flash_list nvds_mutex tags next_tag].
    unfold try, bnd at 1. unfold nvds_flash_env_init, tag, opt at 1. rewrite bnd_assoc, bnd_get. cbn [tags]. rewrite lookup_insert_eq, bnd_ret. unfold set_tag. rewrite bnd_modify. unfold bnd at 1.
    rewrite (on_eq _ _ _ (mk_tag LABEL_INNER_NVDS_FLASH (env_init f NVDS_FLASH_INTERNAL_ADDR NVDS_FLASH_INTERNAL_SIZE [])) s2 (inr tt)); [|apply lookup_insert_eq|exact E2].
    unfold push_back. rewrite bnd_get. unfold opt. cbn [with_store hdrs nvds_flash_list]. rewrite Ep, bnd_ret. unfold set_list, modify. cbn [with_store dev hdrs nvds_flash_list nvds_mutex tags next_tag fst snd label store].
    by rewrite !insert_insert_eq, (sv_mutex _ _ Sv).
  - intros r (o' & -> & Ho')%list_elem_of_fmap. destruct (sv_stores _ _ Sv o') as (Hr' & _); [by right|].
    assert (o_region o' <> internal) as Hn.
    { intros Hx. pose proof (sv_regions _ _ Sv) as Nd. cbn [open_stores regions map] in Nd. apply NoDup_cons in Nd as [Nd _]. apply Nd, list_elem_of_fmap. exists o'. by rewrite Er. }
    pose proof (fl_window (F := F)) as [W1 W2]. destruct (ar_ok rs Hrs _ Hr') as ((J1 & J2 & J3) & _ & _ & J4). destruct I1 as (K1 & K2 & K3).
    unfold flash_env_check. rewrite bnd_get. cbn [hdrs nvds_flash_list]. rewrite Hk. cbn [check_loop SList.list_pick SList.first]. change (nvds_flash_env =? NULL) with false. cbv iota.
    unfold tag, opt at 1. rewrite bnd_assoc, bnd_get. cbn [tags]. rewrite lookup_insert_eq, bnd_ret. cbn [store]. rewrite Eb2, El2, !wrap32_small by lia.
    assert ((((o_region o').1 + (o_region o').2 <? internal.1) || (internal.1 + internal.2 <? (o_region o').1)) = true) as ->.
    { apply orb_true_iff. rewrite !Z.ltb_lt. by apply (ar_apart rs Hrs). }
    rewrite bnd_get. cbn [hdrs]. unfold SList.list_next, opt. rewrite (SList.load_some hs nvds_flash_env 0 ltac:(done) Hhs), bnd_ret. reflexivity.
  - intros o' _ Hl. unfold nvds_clean. rewrite bnd_get. cbn [nvds_mutex]. rewrite (sv_mutex _ _ Sv). cbn [negb default from_option]. unfold bnd at 1. cbn [hdrs nvds_flash_list]. rewrite Hk.
    cbn [find_label SList.list_pick SList.first]. change (nvds_flash_env =? NULL) with false. cbv iota. unfold tag, opt at 1. rewrite bnd_assoc, bnd_get. cbn [tags]. rewrite lookup_insert_eq, bnd_ret. cbn [label].
    rewrite bool_decide_eq_false_2 by (intros Hx; by apply Hl). rewrite bnd_get. cbn [hdrs]. unfold SList.list_next, opt. rewrite (SList.load_some hs nvds_flash_env 0 ltac:(done) Hhs), bnd_ret. reflexivity.
Qed.

(** When there is no memory for one more store, the mutex of all stores is deleted with the
    attempt: every later call on every open store takes a mutex that does not exist, and fails (see
    [NvdsStores]). *)
Theorem failed_open_stops_all w a r name h ns key : serves w a -> r ∈ rs -> r ∉ regions (open_stores a) ->
  handle_env h ∈ handles (open_stores a) -> zlen key <= 15 ->
  exists w', nvds_flash_init true false [] r.1 r.2 name w = (w', inr NULL) /\
    (forall buf length, (nvds_data_get h ns (Some key) buf (Some length) w').2 = inl (RET NVDS_E_FAIL)) /\
    (nvds_data_del h ns (Some key) w').2 = inl (RET NVDS_E_FAIL) /\
    (forall data length, 0 < length <= ELEMENT_BULK_MAX_SIZE -> (nvds_data_put h ns (Some key) (Some data) length w').2 = inl (RET NVDS_E_FAIL)).
Proof.
  intros Sv Hr Hn (o & Eh & Ho)%list_elem_of_fmap Hk. destruct (sv_stores _ _ Sv o Ho) as (_ & s & Ht & _).
  unfold nvds_flash_init. unfold bnd at 1. rewrite (check_ok w a r Sv Hr). rewrite bool_decide_eq_true_2 by done. cbn [negb].
  rewrite bnd_get, (sv_mutex _ _ Sv), bnd_ret, bnd_get, (sv_mutex _ _ Sv). cbn [negb]. unfold set_mutex. rewrite bnd_modify. eexists. split; [reflexivity|].
  assert (key_bad key = false) as Hb by (unfold key_bad, KEY_NAME_MAX_SIZE; apply Z.ltb_ge; lia).
  set (w' := mk_world _ _ _ _ _ _).
  assert (forall {A} (m : Flash F -> K F A), (forall fl s', m fl s' = (s', inl (RET NVDS_E_FAIL))) -> (on (handle_env h) m w').2 = inl (RET NVDS_E_FAIL)) as Hon.
  { intros A m Hm. rewrite Eh. by erewrite (on_eq _ _ w') by (exact Ht || apply Hm). }
  split; [|split]; [intros buf length| |intros data length Hl]; unfold nvds_data_get, nvds_data_del, nvds_data_put; rewrite bnd_get; apply Hon; intros fl s';
    unfold Nvds.nvds_data_get, Nvds.nvds_data_del, Nvds.nvds_data_put; rewrite Hb; [done|done|].
  rewrite (proj2 (Z.eqb_neq _ _)), (proj2 (Z.ltb_ge _ _)) by lia. done.
Qed.

End Stores.

(** ** Two stores on a device *)

Section Runs.
Definition lo : Z := 0x3CA000.
Definition hi : Z := 0x3FF000.

Lemma device_window : 0 <= lo <= hi /\ hi <= 2 ^ 31.
Proof. unfold lo, hi. lia. Qed.

#[local] Instance device : Flash Sim.sim := Sim.sim_flash lo hi.
#[local] Instance device_laws : FlashLaws Sim.sim := Sim.sim_laws lo hi device_window.
#[local] Instance plain : Cipher := {| aes_encrypt _ := None; aes_decrypt _ := None |}.

Definition device_good : Sim.sim -> Prop := Sim.sim_good lo hi.
Definition device_reliable : reliable device_good := Sim.sim_reliable lo hi device_window.

(** The user data area has a store of two sectors. *)
Definition user : region := (lo, 0x2000).
Definition two : list region := [internal; user].

Lemma two_cases r : r ∈ two -> r = internal \/ r = user.
Proof. intros [->|[->|[]%not_elem_of_nil]%elem_of_cons]%elem_of_cons; auto. Qed.

Lemma two_areas : areas two.
Proof.
  split.
  - intros r [->| ->]%two_cases.
    + split; [by vm_compute|]. split; [by exists 0x3FB|]. split; [by exists 4|by vm_compute].
    + split; [by vm_compute|]. split; [by exists 0x3CA|]. split; [by exists 2|by vm_compute].
  - intros r1 r2 [->| ->]%two_cases [->| ->]%two_cases Hne; [done|by right|by left|done].
  - by left.
Qed.

Definition erased : Sim.sim := Sim.mk_sim (replicate (Z.to_nat (hi - lo)) 0xFF) [].

Lemma erased_good : device_good erased.
Proof. split; [done|]. split; [apply zlen_replicate; unfold lo, hi; lia|]. apply Forall_replicate. lia. Qed.

Lemma erased_areas r : r ∈ two -> holds device_good r.1 r.2 erased nothing.
Proof.
  intros Hr. apply erased_holds. destruct (ar_ok _ two_areas r Hr) as ((H1 & H2 & H3) & _). cbn [fl_mem part device Sim.sim_flash Sim.mem erased fl_lo fl_hi] in *.
  unfold slice. rewrite drop_replicate, take_replicate. f_equal. lia.
Qed.

Definition names : list Z := [117; 115; 101; 114].
Definition fresh_state : state := mk_state (fun _ => nothing) [mk_opened nvds_flash_env internal LABEL_INNER_NVDS_FLASH].

(** It opens the store, puts a value in it, closes it and restarts. *)
Definition demo : Client.client (Op := request) (Obs := answer) := fun seen =>
  match seen with
  | [] => Some (Open user names)
  | [AHandle h] => Some (Data h (Put None ssid [104; 111; 109; 101] 4))
  | [AHandle h; AData _] => Some (Close h)
  | [_; _; _] => Some Reboot
  | _ => None
  end.

Lemma demo_opened : ~ user ∈ regions (open_stores fresh_state).
Proof. intros [=]%list_elem_of_singleton. Qed.

Lemma demo_stores_obeys : Client.obeys (op_ok two) spec_step fresh_state demo.
Proof.
  intros seen a q Ha E. destruct seen as [|b1 [|b2 [|b3 [|b4 seen]]]]; try done.
  - injection E as <-. right. by left.
  - destruct b1; try done. injection E as <-. apply (Client.after_snoc _ _ _ _ [] _) in Ha as (a1 & q1 & H & [= <-] & Hs). apply Client.after_nil in H as ->.
    cbn [spec_step] in Hs. rewrite decide_False in Hs by apply demo_opened. destruct Hs as (h' & H0 & _ & [= ->] & ->). cbn [op_ok]. unfold handle_env. rewrite (proj2 (Z.eqb_neq _ _) H0).
    split; [right; by left|]. split; [done|]. by apply args_ok.
  - destruct b1; try done. destruct b2; try done. injection E as <-.
    apply (Client.after_snoc _ _ _ _ [_] _) in Ha as (a2 & q2 & H & [= <-] & Hs). apply (Client.after_snoc _ _ _ _ [] _) in H as (a1 & q1 & H & [= <-] & Hs1). apply Client.after_nil in H as ->.
    cbn [spec_step] in Hs1. rewrite decide_False in Hs1 by apply demo_opened. destruct Hs1 as (h' & H0 & Hn & [= ->] & ->).
    destruct Hs as (o' & out & v' & _ & _ & _ & _ & ->). split; [right; by left|]. intros ->. apply Hn. by left.
  - by destruct b1, b2; injection E as <-.
  - by destruct b1, b2.
Qed.

Lemma stores_serve_maps_witness : exists w seen w' a, nvds_flash_internal_init true [] (started erased) = (w, inr tt) /\
  Client.run step demo 4 [] w = Some (seen, w') /\ Client.after (op_ok two) spec_step fresh_state demo seen a /\ serves device_good two w' a.
Proof.
  exact (stores_serve_maps device_good device_reliable two two_areas erased (fun _ => nothing) demo 4 erased_good erased_areas demo_stores_obeys).
Defined.

(** Both stores are open. *)
Lemma both_open : exists w h, serves device_good two w (mk_state (fun _ => nothing) [mk_opened nvds_flash_env internal LABEL_INNER_NVDS_FLASH; mk_opened h user names]).
Proof.
  destruct (started_serves device_good device_reliable two two_areas erased (fun _ => nothing) erased_good erased_areas) as (w & _ & Sv).
  destruct (open_step device_good device_reliable two two_areas w _ user names Sv) as (b & w' & a' & _ & Hs & Sv'); [right; by left|].
  cbn [spec_step] in Hs. rewrite decide_False in Hs by apply demo_opened. destruct Hs as (h & _ & _ & _ & ->). by exists w', h.
Qed.

Lemma clean_internal_forgets_witness : exists w w', nvds_clean [] None w = (w', inr tt) /\ flash_env_check user.1 user.2 w' = (w', inr true).
Proof.
  destruct both_open as (w & h & Sv). exists w.
  destruct (clean_internal_forgets device_good device_reliable two two_areas w _ _ _ Sv eq_refl ltac:(done)) as (w' & E & H & _).
  exists w'. split; [exact E|]. apply H. by left.
Defined.

Lemma failed_open_stops_all_witness : exists w w', nvds_flash_init true false [] user.1 user.2 names w = (w', inr NULL) /\
  (nvds_data_del 0 None (Some ssid) w').2 = inl (RET NVDS_E_FAIL).
Proof.
  destruct (started_serves device_good device_reliable two two_areas erased (fun _ => nothing) erased_good erased_areas) as (w & _ & Sv). exists w.
  destruct (failed_open_stops_all device_good two two_areas w _ user names 0 None ssid Sv) as (w' & E & _ & H & _);
    [right; by left|apply demo_opened|by left|by vm_compute|]. exists w'. by split.
Defined.

End Runs.
End NvdsStoresProps.
