(* ===== verification/NvdsCrash.v ===== *)
(** * NVDS: power losses

    What a loss of power between two flash operations does to a store, on a device of two
    sectors: the store keeps the elements it is not working on, but for two windows. While a
    page is collected, its elements are in neither page for the mount; and an element whose
    entry is written but not marked used leaves a slot that the mount takes for free, so that
    the next element is programmed over it and cannot be read back. *)
From S2P Require Import Prelude Crc Flash NvdsTypes Nvds.
Open Scope Z_scope.

Module NvdsCrash.
Import NvdsTypes Nvds.

(** ** The device *)

Definition base : Z := 0x3FB000.
Definition size : Z := 0x2000.

#[local] Instance dev : Flash Sim.sim := Sim.sim_flash base (base + size).
#[local] Instance no_cipher : Cipher := {| aes_encrypt _ := None; aes_decrypt _ := None |}.

Definition mount (m : list Z) : env Sim.sim * (stop + unit) := nvds_flash_env_init (Sim.mk_sim m []) base size [].
Definition put (key data : list Z) (s : env Sim.sim) : env Sim.sim * (stop + unit) :=
  nvds_data_put true None (Some key) (Some data) (zlen data) s.
Definition read (key : list Z) (s : env Sim.sim) : stop + get_result :=
  (nvds_data_get true None (Some key) (Some (replicate 8 0)) (Some 8) s).2.

(** The power goes after [n] more writes and erases: no later one has an effect. *)
Definition cut (n : nat) (s : env Sim.sim) : env Sim.sim :=
  set_flash (Sim.mk_sim (Sim.mem (flash s)) (replicate n false ++ replicate 64 true)) s.

(** It comes back: the bytes of the flash are mounted. *)
Definition restart (s : env Sim.sim) : env Sim.sim := (mount (Sim.mem (flash s))).1.

Definition key_a : list Z := [97].
Definition key_b : list Z := [98].

(** A page with one small element, and one of 256 bytes written anew [n] times. *)
Definition with_a : env Sim.sim := (put key_a [1; 2; 3] (mount (replicate (Z.to_nat size) 0xFF)).1).1.
Fixpoint rewrite_b (n : nat) (s : env Sim.sim) : env Sim.sim :=
  match n with O => s | S n => rewrite_b n (put key_b (replicate 256 (Z.of_nat n)) s).1 end.

(** A full page: the next write of the large element collects it. *)
Definition full_page : env Sim.sim := rewrite_b 13 with_a.

(** The write of a large element, cut after [n] operations, and the small element after a restart. *)
Definition a_after_cut (n : nat) : stop + get_result :=
  read key_a (restart (put key_b (replicate 256 99) (cut n full_page)).1).

(** The write of a small element, cut after [n] operations; then, after a restart, another
    value for it: what the write returned, and what can be read. *)
Definition b_after_cut (n : nat) : (stop + unit) * (stop + get_result) :=
  let '(s, r) := put key_b [9; 9] (restart (put key_b [7] (cut n with_a)).1) in (r, read key_b s).

(** ** What is lost *)

Definition value_of (b : bool) (d : list Z) : stop + get_result :=
  if b then inr (NVDS_OK, zlen d, Some (d ++ replicate (8 - length d) 0)) else inl (RET NVDS_E_NOT_FOUND).

(** Two functions that agree on the first numbers. *)
Lemma below_30 {A} (f g : nat -> A) : map f (seq 0 30) = map g (seq 0 30) -> forall n, (n < 30)%nat -> f n = g n.
Proof. intros H n Hn. apply (proj1 map_ext_in_iff H), in_seq. lia. Qed.

(** On this device, a store that loses power while it collects a page can lose an element that was not being
    written: if the power goes after the page is marked and before the element's copy is, the mount
    finds the element in neither page. At every other point of the same write it is kept. *)
Theorem collect_power_loss n :
  (n < 30)%nat -> a_after_cut n = value_of (negb ((n =? 13)%nat || (n =? 14)%nat)) [1; 2; 3].
Proof. revert n. apply below_30. vm_compute. reflexivity. Qed.

Lemma collect_power_loss_witness : (13 < 30)%nat /\ a_after_cut 13 = inl (RET NVDS_E_NOT_FOUND).
Proof. split; [lia|]. exact (collect_power_loss 13 ltac:(lia)). Defined.

(** After a loss of power between the entry of a small element and its mark, the next write of
    the key reports success and its value cannot be read; with the cut before or after that, it can. *)
Theorem torn_put_hides_next n :
  (n < 30)%nat -> b_after_cut n = (inr tt, value_of (negb (n =? 1)%nat) [9; 9]).
Proof. revert n. apply below_30. vm_compute. reflexivity. Qed.

Lemma torn_put_hides_next_witness : (1 < 30)%nat /\ b_after_cut 1 = (inr tt, inl (RET NVDS_E_NOT_FOUND)).
Proof. split; [lia|]. exact (torn_put_hides_next 1 ltac:(lia)). Defined.

End NvdsCrash.
